(* ===== verification/_CoqProject ===== *)
-Q . S2P
Prelude.v
Bytes.v
Text.v
Errors.v
Sense.v
Fs.v
Layout.v
TapeState.v
Reservation.v
SpaceGuard.v
Identity.v
Wire.v
Compression.v
Records.v
World.v
Crc.v
Segment.v
Footprint.v
Streaming.v
StreamLaws.v
Checkpoint.v
Logs.v
BlkMap.v
MapLookup.v
Dedup.v
Reclaim.v
RuntimeState.v
SegmentIndex.v
Slots.v
IndexState.v
DataBlobs.v
BlobStore.v
DataPath.v
Store.v
Reset.v
BlockStore.v
Compaction.v
Recovery.v
ScanLaws.v
SideLaws.v
RebuildLaws.v
RecoveryLaws.v
System.v
Bootstrap.v
OfflineScan.v
OfflineReclaim.v
CopyLaws.v
PruneLaws.v
ReclaimLaws.v
ChoiceLaws.v
Maintenance.v
Prefetch.v
MountBridge.v
CommandChain.v
CommandsCore.v
CdbBase.v
DriveProfile.v
MediaState.v
CdbCommon.v
Changer.v
CdbDrive.v
CdbServer.v
Handler.v
Machine.v
OfflineLaws.v
MaintenanceLaws.v
ChangerLaws.v
PartitionLaws.v
MamLaws.v
ServerLaws.v
HandlerLaws.v
TapeLaws.v
AdmissionLaws.v
ReadyLaws.v
ProtectionLaws.v
