(* ===== verification/Prelude.v ===== *)
(** * The Holo data plane

    Holo is a virtual tape library.  Its data plane is a Rust process per
    device: it receives SCSI commands from the kernel over a socket, runs them
    on a tape drive or on a medium changer, and keeps the tapes as files.  This
    library models that process, from the bytes of a frame to the bytes of the
    files, and proves what makes it correct.

    ** The program and its model

    Everything below lives in src/data-plane/src.  A file of the library that
    models source files names them in its first line, keeps their names for
    types and functions, and translates statement by statement: a function on
    [&mut] state that returns a [Result] is a computation in [M S E], early
    returns are failures of that monad, and the state reached when an error is
    raised is kept.

    - Foundations.  [Prelude] (results, the monad, invariants of computations),
      [Bytes] (integers as [Z] with their width written out, little- and
      big-endian bytes), [Text] (the functions on [str] the source uses,
      UTF-8 validity included), [Errors], [Sense].
    - Files.  [Fs]: names, inodes, contents, modification times; every operation
      may fail with an error the host chooses.  [World]: the file system plus
      the process-wide caches of the storage layer, which in the source are
      global [Mutex]es; a restart is [fresh_process].
    - Storage.  [Layout] (segment headers, paths of a cartridge), [Segment]
      (segment files: two header copies, atomic replacement, in-place append),
      [Records] (fixed-size records), [Logs] (record logs), [BlkMap],
      [MapLookup], [Dedup], [Reclaim], [SegmentIndex], [RuntimeState],
      [Checkpoint], [Compression], [DataBlobs] (blobs in data segments),
      [DataPath] (writing, reading, unmapping and erasing logical blocks),
      [Recovery] (the repair of a cartridge that was not closed), [SpaceGuard]
      (free-space admission), [Bootstrap] (storage root, layout directory,
      lease).
    - The drive.  [TapeState] (one drive), [Reservation] (persistent
      reservations), [Identity] (profiles and inquiry data), [System] (the whole
      process: drive, world, space, read-ahead jobs), [Prefetch], [MountBridge],
      [CommandChain] (the tape commands), [CommandsCore].
    - The device server.  [CdbBase], [DriveProfile], [MediaState], [CdbCommon],
      [Changer], [CdbDrive], [CdbServer] (from a command descriptor block to a
      response), [Wire] (frames), [Handler] (the loop of a connection).

    They compose as in the source: [Handler.serve_frame] decodes a frame and
    calls [CdbServer.dispatch_raw_cdb_with_context]; that calls the operations
    of the changer, of the drive, or [CommandChain]; those call [DataPath],
    which calls the logs and segments, which call [Fs].

    ** What is proved

    - The block store is a tape ([Footprint], [Slots], [IndexState], [BlobStore],
      [Store], [Reset], [BlockStore]).  [files_ok] says what the files and caches
      of a cartridge hold; [shows] says which tape, a map from blocks to
      extents, that is.  Reading returns what the tape shows, writing adds
      exactly one extent, erasing gives the blank tape.  The layers below have
      their own refinements: the block map and its log, the lookup, the
      deduplication and reclaim indexes, the segment index, segment files under
      faults and crashes.
    - The drive is a tape with a head ([TapeLaws]): a block appended by the
      command is admitted, stored, located and read back.  [AdmissionLaws]:
      writes are admitted within the free space.  [ProtectionLaws]: reserved and
      locked cartridges are not written.  [Reservation]: the reservation
      commands implement an automaton, and one holder excludes the others.
    - The changer ([ChangerLaws]) neither loses nor duplicates media;
      FORMAT MEDIUM divides the medium ([PartitionLaws]); attributes survive
      ([MamLaws]).
    - The server ([ServerLaws]) answers every command with a well-formed
      response; a polled drive becomes ready ([ReadyLaws]); a connection is a
      sequence of commands ([HandlerLaws], [Wire]).
    - Encodings round-trip ([Compression], [SegmentIndex], [RuntimeState],
      [TapeState], [Wire]).
    - Where the code does not do what it means to, a theorem says what it does:
      limits checked when loading but not when writing, the appends that a crash
      leaves unreadable, the exchange that loses a medium, the reservation whose
      holder is refused.

    ** Parameters

    Code that is not part of the source is an argument, through a class: the
    errors of the file system ([Host]), the environment variables ([Environ]),
    CRC-32C ([Crc32c]; its one law, that it can be continued over a
    concatenation, is a class of its own, and [Crc] has an instance), BLAKE3,
    SHA-256, LZ4 and zlib ([BlockCodecs], with the documented round trip),
    the iteration order of a [HashMap] ([HashOrder]), free space, locks and
    process identity ([SpaceHost]), threads and clocks.  [no_faults] in a
    theorem means that the file system reports no errors.  [Machine] has
    concrete instances, on which the witnesses run.

    ** Fuel

    Loops that are not structural carry fuel computed from their input: the
    scan of a segment has one step per header that fits in its payload, the
    loop of a connection one per byte of input, the wait for a lock one per
    poll until the time-out.  The theorems about them show that it does not run
    out, or hold for every amount.

    ** Not modelled

    - Maintenance tools: storage/compaction.rs, storage/offline_reclaim.rs and
      bin/holo_storage_maintenance.rs, and the streaming segment writer only
      they use.
    - Sockets, signals and permissions in bin/tcmu_handler.rs, trace output,
      slow-command logs and telemetry/events.rs: input and output only.
    - Interleaving of the process with other processes on the same files, and
      of its threads, beyond what the lease, the lock files and the read-ahead
      parameter express.
    - The control plane (Go), the web console, deployment files and scripts. *)

From Stdlib Require Export ZArith Lia.
From stdpp Require Export base gmap list strings pretty sorting.

#[global] Open Scope Z_scope.

(** ** Results

    [Result<T, E>] of the source.  A computation that mutates state behind
    [&mut] references and returns a [Result] is a function in [M S E], which
    keeps the state reached when the error was raised: an early return does not
    undo the writes made before it. *)

Inductive Result (E A : Type) : Type :=
| Ok (a : A)
| Err (e : E).
Arguments Ok {E A} a.
Arguments Err {E A} e.

Definition is_ok {E A} (r : Result E A) : bool :=
  match r with Ok _ => true | Err _ => false end.

Definition rbind {E A B} (m : Result E A) (k : A -> Result E B) : Result E B :=
  match m with Ok a => k a | Err e => Err e end.

Definition map_err {E F A} (f : E -> F) (m : Result E A) : Result F A :=
  match m with Ok a => Ok a | Err e => Err (f e) end.

Definition ok_or {E A} (o : option A) (e : E) : Result E A :=
  match o with Some a => Ok a | None => Err e end.

Definition M (S E A : Type) : Type := S -> Result E A * S.

Definition retM {S E A} (a : A) : M S E A := fun s => (Ok a, s).
Definition failM {S E A} (e : E) : M S E A := fun s => (Err e, s).
Definition bindM {S E A B} (m : M S E A) (k : A -> M S E B) : M S E B :=
  fun s => match m s with
           | (Ok a, s') => k a s'
           | (Err e, s') => (Err e, s')
           end.
Definition getM {S E} : M S E S := fun s => (Ok s, s).
Definition putM {S E} (s : S) : M S E unit := fun _ => (Ok tt, s).
Definition modifyM {S E} (f : S -> S) : M S E unit := fun s => (Ok tt, f s).
Definition getsM {S E A} (f : S -> A) : M S E A := fun s => (Ok (f s), s).
Definition liftM {S E A} (r : Result E A) : M S E A := fun s => (r, s).
(** [match m { Ok(..) => .., Err(..) => .. }]: the error is inspected instead of
    propagated. *)
Definition tryM {S E F A} (m : M S E A) : M S F (Result E A) :=
  fun s => let (r, s') := m s in (Ok r, s').
Definition map_errM {S E F A} (f : E -> F) (m : M S E A) : M S F A :=
  fun s => let (r, s') := m s in (map_err f r, s').

(** A computation on a component of the state. *)
Definition zoomM {S T E A} (get : S -> T) (put : T -> S -> S) (m : M T E A) : M S E A :=
  fun s => let (r, t) := m (get s) in (r, put t s).

Declare Scope result_scope.
Delimit Scope result_scope with result.
Notation "'let?' x ':=' m 'in' k" := (rbind m (fun x => k))
  (at level 10, x pattern, m at level 100, k at level 200) : result_scope.
Notation "'let!' x ':=' m 'in' k" := (bindM m (fun x => k))
  (at level 10, x pattern, m at level 100, k at level 200) : result_scope.
Notation "m ';;!' k" := (bindM m (fun _ => k))
  (at level 199, right associativity) : result_scope.
#[global] Open Scope result_scope.

Fixpoint rmapM {E A B} (f : A -> Result E B) (l : list A) : Result E (list B) :=
  match l with
  | [] => Ok []
  | x :: xs => let? y := f x in let? ys := rmapM f xs in Ok (y :: ys)
  end.

Fixpoint forM {S E A} (l : list A) (body : A -> M S E unit) : M S E unit :=
  match l with
  | [] => retM tt
  | x :: xs => body x ;;! forM xs body
  end.

(** Inversion of binds: the equations a successful computation went through. *)
Lemma rbind_Ok {E A B} (m : Result E A) (k : A -> Result E B) b :
  rbind m k = Ok b -> exists a, m = Ok a /\ k a = Ok b.
Proof. destruct m; simpl; [eauto | discriminate]. Qed.

Lemma bindM_Ok {S E A B} (m : M S E A) (k : A -> M S E B) s b s' :
  bindM m k s = (Ok b, s') -> exists a s1, m s = (Ok a, s1) /\ k a s1 = (Ok b, s').
Proof. unfold bindM; destruct (m s) as [[a|e] s1]; [eauto | discriminate]. Qed.

Lemma bindM_run {S E A B} (m : M S E A) (k : A -> M S E B) s a s1 :
  m s = (Ok a, s1) -> bindM m k s = k a s1.
Proof. unfold bindM; intros ->; reflexivity. Qed.

Lemma bindM_run_err {S E A B} (m : M S E A) (k : A -> M S E B) s e s1 :
  m s = (Err e, s1) -> bindM m k s = (Err e, s1).
Proof. unfold bindM; intros ->; reflexivity. Qed.

Lemma rmapM_length {E A B} (f : A -> Result E B) l ys :
  rmapM f l = Ok ys -> length ys = length l.
Proof.
  revert ys; induction l as [|x l IH]; simpl; intros ys H; [by inversion H|].
  destruct (f x); simpl in H; [|done]. destruct (rmapM f l) eqn:E1; simpl in H; [|done].
  inversion H; subst; simpl; f_equal; eauto.
Qed.

(** ** Invariants of computations

    [preserves I m]: whatever [m] returns, an error included, the state it
    leaves satisfies [I] when the state it started from does. *)

Definition preserves {S E A} (I : S -> Prop) (m : M S E A) : Prop :=
  forall s, I s -> I (snd (m s)).

Lemma preserves_ret {S E A} (I : S -> Prop) (a : A) : preserves I (retM (E := E) a).
Proof. intros s H; exact H. Qed.
Lemma preserves_fail {S E A} (I : S -> Prop) (e : E) : preserves I (failM (A := A) e).
Proof. intros s H; exact H. Qed.
Lemma preserves_lift {S E A} (I : S -> Prop) (r : Result E A) : preserves I (liftM r).
Proof. intros s H; exact H. Qed.
Lemma preserves_gets {S E A} (I : S -> Prop) (f : S -> A) : preserves I (getsM (E := E) f).
Proof. intros s H; exact H. Qed.
Lemma preserves_get {S E} (I : S -> Prop) : preserves I (getM (E := E)).
Proof. intros s H; exact H. Qed.
Lemma preserves_modify {S E} (I : S -> Prop) (f : S -> S) :
  (forall s, I s -> I (f s)) -> preserves I (modifyM (E := E) f).
Proof. intros H s Hs; apply H, Hs. Qed.
Lemma preserves_bind {S E A B} (I : S -> Prop) (m : M S E A) (k : A -> M S E B) :
  preserves I m -> (forall a, preserves I (k a)) -> preserves I (bindM m k).
Proof.
  intros Hm Hk s Hs; unfold bindM. specialize (Hm s Hs).
  destruct (m s) as [[a|e] s1]; simpl in *; [apply Hk, Hm | exact Hm].
Qed.
Lemma preserves_try {S E F A} (I : S -> Prop) (m : M S E A) :
  preserves I m -> preserves I (tryM (F := F) m).
Proof. intros Hm s Hs; specialize (Hm s Hs); unfold tryM; by destruct (m s). Qed.
Lemma preserves_map_err {S E F A} (I : S -> Prop) (f : E -> F) (m : M S E A) :
  preserves I m -> preserves I (map_errM f m).
Proof. intros Hm s Hs; specialize (Hm s Hs); unfold map_errM; by destruct (m s). Qed.
Lemma preserves_for {S E A} (I : S -> Prop) (l : list A) (body : A -> M S E unit) :
  (forall a, preserves I (body a)) -> preserves I (forM l body).
Proof.
  intros H; induction l; simpl; [apply preserves_ret | apply preserves_bind; auto].
Qed.

Create HintDb pres.
#[export] Hint Resolve preserves_ret preserves_fail preserves_lift preserves_gets preserves_get
  preserves_bind preserves_try preserves_map_err preserves_for : pres.

(** Walk through a computation, splitting binds and case distinctions; the
    steps that are left are those the invariant must be checked for. *)
Ltac pres_step :=
  first
    [ solve [eauto with pres nocore]
    | apply preserves_bind; [|intros]
    | apply preserves_try
    | apply preserves_map_err
    | apply preserves_for; intros
    | case_decide
    | match goal with |- preserves _ (match ?x with _ => _ end) => destruct x end ].
Ltac pres := repeat pres_step.

(** ** Record update

    [r <| f := v |>] is the record [r] with field [f] set to [v].  A record type
    opts in with an [Eta] instance, its constructor applied to its projections. *)

Class Eta (R : Type) := eta_of : R -> R.
Class Field {R E : Type} (g : R -> E) := put_field : E -> R -> R.
Arguments put_field {R E} g {_} _ _.

Ltac derive_field g :=
  lazymatch type of g with
  | ?R -> ?E =>
      let v := fresh "v" in let r := fresh "r" in
      let inst := constr:(_ : Eta R) in
      let h := eval hnf in inst in
      exact (fun (v : E) (r : R) => ltac:(
        let t := eval cbv beta in (h r) in
        let t := eval pattern (g r) in t in
        lazymatch t with ?F _ => let u := eval cbv beta in (F v) in exact u end))
  end.
#[global] Hint Extern 1 (Field ?g) => derive_field g : typeclass_instances.

Notation "r <| g := v |>" := (put_field g v r)
  (at level 1, g at level 200, left associativity, format "r  <| g  :=  v |>").
