(* ===== verification/Bytes.v ===== *)
(** * Machine integers and byte strings

    Unsigned integers are [Z] with their width written out; a byte string is a
    [list Z] of values below 256.  The file gives Rust's fixed-width arithmetic,
    [to_le_bytes]/[from_le_bytes] and their big-endian variants, sub-slices,
    the string functions the source uses ([trim], [is_empty]) and the lemmas
    every codec of the development shares. *)

From S2P Require Import Prelude.

(** ** Widths *)

Abbreviation U8_MAX := 255.
Abbreviation U16_MAX := 65535.
Abbreviation U32_MAX := 4294967295.
Abbreviation U64_MAX := 18446744073709551615.
Abbreviation I64_MAX := 9223372036854775807.
Abbreviation I64_MIN := (-9223372036854775808).

Definition u8_ok (z : Z) : Prop := 0 <= z <= U8_MAX.
Definition u16_ok (z : Z) : Prop := 0 <= z <= U16_MAX.
Definition u32_ok (z : Z) : Prop := 0 <= z <= U32_MAX.
Definition u64_ok (z : Z) : Prop := 0 <= z <= U64_MAX.

Definition sat_add64 (a b : Z) : Z := Z.min (a + b) U64_MAX.
Definition sat_mul64 (a b : Z) : Z := Z.min (a * b) U64_MAX.
Definition sat_add32 (a b : Z) : Z := Z.min (a + b) U32_MAX.
Definition sat_sub (a b : Z) : Z := Z.max (a - b) 0.
Definition wrap_add32 (a b : Z) : Z := (a + b) mod 2 ^ 32.
Definition wrap_mul32 (a b : Z) : Z := (a * b) mod 2 ^ 32.
Definition wrap_mul64 (a b : Z) : Z := (a * b) mod 2 ^ 64.
Definition checked_add64 (a b : Z) : option Z :=
  if decide (a + b <= U64_MAX) then Some (a + b) else None.
Definition checked_sub64 (a b : Z) : option Z :=
  if decide (b <= a) then Some (a - b) else None.
Definition checked_mul64 (a b : Z) : option Z :=
  if decide (a * b <= U64_MAX) then Some (a * b) else None.
(** [x as u32], [x as u16] and [x as u8] on an unsigned integer. *)
Definition as_u32 (a : Z) : Z := a mod 2 ^ 32.
Definition as_u16 (a : Z) : Z := a mod 2 ^ 16.
Definition as_u8 (a : Z) : Z := a mod 2 ^ 8.
Definition u32_try_from (a : Z) : option Z := if decide (a <= U32_MAX) then Some a else None.
Definition u16_try_from (a : Z) : option Z := if decide (a <= U16_MAX) then Some a else None.
Definition b2z (b : bool) : Z := if b then 1 else 0.

(** ** Byte strings *)

Definition bytes_ok (l : list Z) : Prop := Forall u8_ok l.
Definition Zlen {A} (l : list A) : Z := Z.of_nat (length l).
Definition slice {A} (a b : nat) (l : list A) : list A := take (b - a) (drop a l).
(** [buf[i]]: the codecs index only after a length check. *)
Definition byte_at (l : list Z) (i : nat) : Z := default 0 (l !! i).

Fixpoint to_le (n : nat) (z : Z) : list Z :=
  match n with
  | O => []
  | S n' => z mod 256 :: to_le n' (z / 256)
  end.

Fixpoint from_le (l : list Z) : Z :=
  match l with
  | [] => 0
  | b :: l' => b + 256 * from_le l'
  end.

Definition to_be (n : nat) (z : Z) : list Z := reverse (to_le n z).
Definition from_be (l : list Z) : Z := from_le (reverse l).

Definition bytes_of_string (s : string) : list Z :=
  map (fun c => Z.of_nat (Ascii.nat_of_ascii c)) (String.list_ascii_of_string s).
Definition string_of_bytes (l : list Z) : string :=
  String.string_of_list_ascii (map (fun z => Ascii.ascii_of_nat (Z.to_nat z)) l).

Lemma bytes_of_string_app a b : bytes_of_string (a +:+ b) = bytes_of_string a ++ bytes_of_string b.
Proof.
  unfold bytes_of_string. induction a as [|c a IH]; [done|].
  change (String.String c a +:+ b) with (String.String c (a +:+ b)). cbn. by rewrite IH.
Qed.
Lemma bytes_of_string_of_bytes l : bytes_ok l -> bytes_of_string (string_of_bytes l) = l.
Proof.
  unfold bytes_of_string, string_of_bytes. rewrite String.list_ascii_of_string_of_list_ascii, map_map.
  induction 1 as [|b l Hb _ IH]; [done|]. cbn [map]. rewrite IH. f_equal.
  unfold u8_ok in Hb. rewrite Ascii.nat_ascii_embedding by lia. lia.
Qed.
Lemma bytes_of_string_inj a b : bytes_of_string a = bytes_of_string b -> a = b.
Proof.
  intros H. rewrite <- (String.string_of_list_ascii_of_string a), <- (String.string_of_list_ascii_of_string b).
  f_equal. unfold bytes_of_string in H.
  revert H. generalize (String.list_ascii_of_string a), (String.list_ascii_of_string b).
  induction l as [|x l IH]; intros [|y l'] H; try done. cbn in H. injection H as H1 H2.
  f_equal; [|by apply IH]. apply Nat2Z.inj in H1.
  by rewrite <- (Ascii.ascii_nat_embedding x), <- (Ascii.ascii_nat_embedding y), H1.
Qed.

Lemma string_of_bytes_of_string s : string_of_bytes (bytes_of_string s) = s.
Proof.
  unfold bytes_of_string, string_of_bytes. rewrite map_map.
  rewrite (map_ext _ (fun c => c)), map_id, String.string_of_list_ascii_of_string; [done|].
  intros c. rewrite Nat2Z.id. apply Ascii.ascii_nat_embedding.
Qed.

Lemma length_to_le n z : length (to_le n z) = n.
Proof. revert z; induction n; simpl; auto. Qed.
Lemma length_to_be n z : length (to_be n z) = n.
Proof. unfold to_be; by rewrite length_reverse, length_to_le. Qed.

Lemma to_le_ok n z : bytes_ok (to_le n z).
Proof.
  revert z; induction n as [|n IH]; simpl; intros; constructor; [|apply IH].
  unfold u8_ok; pose proof (Z.mod_pos_bound z 256); lia.
Qed.
Lemma to_be_ok n z : bytes_ok (to_be n z).
Proof. unfold to_be, bytes_ok; apply Forall_reverse, to_le_ok. Qed.

Lemma from_le_to_le n z : 0 <= z < 256 ^ Z.of_nat n -> from_le (to_le n z) = z.
Proof.
  revert z; induction n as [|n IH]; intros z Hz.
  - simpl in *. lia.
  - rewrite Nat2Z.inj_succ, Z.pow_succ_r in Hz by lia. simpl. rewrite IH.
    + pose proof (Z.div_mod z 256); lia.
    + split; [apply Z.div_pos; lia | apply Z.div_lt_upper_bound; lia].
Qed.
Lemma from_be_to_be n z : 0 <= z < 256 ^ Z.of_nat n -> from_be (to_be n z) = z.
Proof. unfold from_be, to_be; rewrite reverse_involutive; apply from_le_to_le. Qed.

Lemma from_le_bound l : bytes_ok l -> 0 <= from_le l < 256 ^ Zlen l.
Proof.
  induction 1 as [|b l Hb _ IH]; [vm_compute; split; congruence|].
  unfold Zlen in *; cbn [from_le length].
  rewrite Nat2Z.inj_succ, Z.pow_succ_r by lia. unfold u8_ok in Hb; nia.
Qed.
Lemma from_be_bound l : bytes_ok l -> 0 <= from_be l < 256 ^ Zlen l.
Proof.
  intros H; unfold from_be.
  replace (Zlen l) with (Zlen (reverse l)) by (unfold Zlen; by rewrite length_reverse).
  apply from_le_bound, Forall_reverse, H.
Qed.

Lemma to_le_from_le l : bytes_ok l -> to_le (length l) (from_le l) = l.
Proof.
  induction 1 as [|b l Hb _ IH]; [reflexivity|]. unfold u8_ok in Hb. cbn [from_le length to_le].
  rewrite (Z.mul_comm 256), Z_mod_plus_full, Z.mod_small by lia.
  rewrite Z.div_add, Z.div_small by lia. by rewrite Z.add_0_l, IH.
Qed.
Lemma to_be_from_be l : bytes_ok l -> to_be (length l) (from_be l) = l.
Proof.
  intros H; unfold to_be, from_be. rewrite <- (length_reverse l).
  rewrite to_le_from_le by (apply Forall_reverse, H). apply reverse_involutive.
Qed.

Lemma from_le_1 b : from_le [b] = b.
Proof. simpl; lia. Qed.

Lemma to_le_mod n z : to_le n (z mod 256 ^ Z.of_nat n) = to_le n z.
Proof.
  revert z; induction n as [|n IH]; intros z; [done|].
  rewrite Nat2Z.inj_succ, Z.pow_succ_r by lia. cbn [to_le].
  pose proof (Z.pow_pos_nonneg 256 (Z.of_nat n)).
  rewrite Z.rem_mul_r by lia. f_equal.
  - rewrite (Z.mul_comm 256), Z_mod_plus_full. apply Z.mod_mod; lia.
  - rewrite (Z.mul_comm 256), Z.div_add by lia.
    rewrite (Z.div_small (z mod 256)) by (apply Z.mod_pos_bound; lia). apply IH.
Qed.

(** ** Slices of concatenated fields *)

Lemma slice_here {A} (n : nat) (x r : list A) : length x = n -> slice 0 n (x ++ r) = x.
Proof. intros <-; unfold slice. by rewrite drop_0, Nat.sub_0_r, take_app_length. Qed.
Lemma slice_all {A} (n : nat) (x : list A) : length x = n -> slice 0 n x = x.
Proof. intros <-; unfold slice. by rewrite drop_0, Nat.sub_0_r, take_ge. Qed.
Lemma slice_skip {A} (a b : nat) (x r : list A) :
  (length x <= a)%nat -> slice a b (x ++ r) = slice (a - length x) (b - length x) r.
Proof. intros H; unfold slice. rewrite drop_app_ge by done. f_equal; lia. Qed.
Lemma slice_length {A} (a b : nat) (l : list A) :
  (a <= b)%nat -> (b <= length l)%nat -> length (slice a b l) = (b - a)%nat.
Proof. intros; unfold slice; rewrite length_take, length_drop; lia. Qed.
Lemma slice_ok a b l : bytes_ok l -> bytes_ok (slice a b l).
Proof. intros; unfold slice, bytes_ok; auto using Forall_take, Forall_drop. Qed.
Lemma slice_join {A} (a b c : nat) (l : list A) :
  (a <= b)%nat -> (b <= c)%nat -> slice a b l ++ slice b c l = slice a c l.
Proof.
  intros. unfold slice. replace (c - a)%nat with ((b - a) + (c - b))%nat by lia.
  rewrite <- take_take_drop. rewrite drop_drop. do 3 f_equal; lia.
Qed.
Lemma slice_full {A} (l : list A) : slice 0 (length l) l = l.
Proof. by apply slice_all. Qed.
Lemma byte_at_here b l : byte_at (b :: l) 0 = b.
Proof. reflexivity. Qed.
Lemma byte_at_app b l : byte_at ([b] ++ l) 0 = b.
Proof. reflexivity. Qed.
Lemma byte_at_skip (i : nat) x r :
  (length x <= i)%nat -> byte_at (x ++ r) i = byte_at r (i - length x).
Proof. intros; unfold byte_at; by rewrite lookup_app_r. Qed.
Lemma byte_at_slice (i : nat) (l : list Z) :
  (i < length l)%nat -> slice i (S i) l = [byte_at l i].
Proof.
  intros Hi. destruct (lookup_lt_is_Some_2 l i Hi) as [x Hx]. unfold byte_at, slice.
  rewrite Hx; simpl. replace (S i - i)%nat with 1%nat by lia.
  by rewrite (drop_S _ _ _ Hx).
Qed.
Lemma byte_at_ok (i : nat) l : bytes_ok l -> u8_ok (byte_at l i).
Proof.
  intros H; unfold byte_at. destruct (l !! i) eqn:E; simpl; [|unfold u8_ok; lia].
  by eapply Forall_lookup_1.
Qed.

#[global] Opaque to_le from_le to_be from_be.

Ltac len_solve :=
  rewrite ?length_app, ?length_to_le, ?length_to_be, ?length_replicate; cbn [length]; try lia.

(** [slices] computes the slices and single bytes of a right-nested
    concatenation of fields whose lengths are known. *)
Ltac slices :=
  repeat first
    [ rewrite byte_at_app | rewrite byte_at_here
    | rewrite slice_here by (len_solve; reflexivity)
    | rewrite slice_all by (len_solve; reflexivity)
    | rewrite slice_skip by len_solve
    | rewrite byte_at_skip by len_solve
    | rewrite length_to_le | rewrite length_to_be
    | progress cbn [length Nat.sub] ].
