(* ===== verification/Text.v ===== *)
(** * Text: the [str] functions the source uses

    Rust strings are UTF-8; here they are byte lists (file contents) or
    [string]s (identifiers), with [trim], [lines], [split_once], [parse] and the
    decimal formatting of integers. *)

From S2P Require Import Prelude Bytes.

(** ** White space and [trim]

    The UTF-8 encodings of the code points with the White_Space property. *)
Definition whitespace : list (list Z) :=
  [[9]; [10]; [11]; [12]; [13]; [32]; [194; 133]; [194; 160]; [225; 154; 128];
   [226; 128; 128]; [226; 128; 129]; [226; 128; 130]; [226; 128; 131]; [226; 128; 132];
   [226; 128; 133]; [226; 128; 134]; [226; 128; 135]; [226; 128; 136]; [226; 128; 137];
   [226; 128; 138]; [226; 128; 168]; [226; 128; 169]; [226; 128; 175]; [226; 129; 159];
   [227; 128; 128]].

Definition strip_one (ws : list (list Z)) (l : list Z) : option (list Z) :=
  match list_find (fun w => take (length w) l = w) ws with
  | Some (_, w) => Some (drop (length w) l)
  | None => None
  end.

Fixpoint strip_many (fuel : nat) (ws : list (list Z)) (l : list Z) : list Z :=
  match fuel with
  | O => l
  | S f => match strip_one ws l with Some l' => strip_many f ws l' | None => l end
  end.

Definition trim_start (l : list Z) : list Z := strip_many (length l) whitespace l.
Definition trim_end (l : list Z) : list Z :=
  reverse (strip_many (length l) (map reverse whitespace) (reverse l)).
Definition trim (l : list Z) : list Z := trim_end (trim_start l).
Definition trim_string (s : string) : string := string_of_bytes (trim (bytes_of_string s)).

(** ** Lines and key/value splitting *)
Fixpoint split_on (sep : Z) (l : list Z) : list (list Z) :=
  match l with
  | [] => [[]]
  | b :: l' =>
      match split_on sep l' with
      | cur :: rest => if decide (b = sep) then [] :: cur :: rest else (b :: cur) :: rest
      | [] => [[b]]
      end
  end.

(** [str::lines]: a final empty piece is dropped and a trailing carriage return
    is stripped from each line that ended in a line feed. *)
Definition strip_cr (l : list Z) : list Z :=
  match last l with Some 13 => take (length l - 1) l | _ => l end.
Definition lines (l : list Z) : list (list Z) :=
  let pieces := split_on 10 l in
  let ended := take (length pieces - 1) pieces in
  map strip_cr ended ++ match last pieces with Some [] | None => [] | Some p => [p] end.

Fixpoint split_once (sep : Z) (l : list Z) : option (list Z * list Z) :=
  match l with
  | [] => None
  | b :: l' =>
      if decide (b = sep) then Some ([], l')
      else match split_once sep l' with Some (k, v) => Some (b :: k, v) | None => None end
  end.

(** ** Decimal integers *)
Fixpoint parse_digits (max acc : Z) (l : list Z) : option Z :=
  match l with
  | [] => Some acc
  | b :: l' =>
      if decide (48 <= b <= 57) then
        let acc' := acc * 10 + (b - 48) in
        if decide (acc' <= max) then parse_digits max acc' l' else None
      else None
  end.

(** [str::parse] for an unsigned type of maximum [max]: an optional plus sign,
    then at least one digit. *)
Definition parse_uint (max : Z) (l : list Z) : option Z :=
  match l with
  | [] => None
  | [43] => None
  | 43 :: l' => parse_digits max 0 l'
  | _ => parse_digits max 0 l
  end.

Fixpoint dec_rev (fuel : nat) (z : Z) : list Z :=
  match fuel with
  | O => []
  | S f => if decide (z < 10) then [48 + z] else (48 + z mod 10) :: dec_rev f (z / 10)
  end.

(** [{}] on an unsigned integer of at most 20 digits. *)
Definition show_uint (z : Z) : list Z := reverse (dec_rev 20 z).
Definition show_string (z : Z) : string := string_of_bytes (show_uint z).

Definition is_digit (b : Z) : Prop := 48 <= b <= 57.

Lemma dec_rev_digits f z : 0 <= z -> Forall is_digit (dec_rev f z).
Proof.
  revert z; induction f as [|f IH]; simpl; intros z Hz; [constructor|].
  pose proof (Z.mod_pos_bound z 10).
  case_decide; apply Forall_cons; (split; [unfold is_digit; lia|]); [constructor|].
  apply IH, Z.div_pos; lia.
Qed.

Lemma parse_digits_app max acc l1 l2 :
  parse_digits max acc (l1 ++ l2) =
  match parse_digits max acc l1 with Some a => parse_digits max a l2 | None => None end.
Proof.
  revert acc; induction l1 as [|b l1 IH]; intros acc; simpl; [done|].
  repeat case_decide; auto.
Qed.

Lemma parse_digits_one max acc d :
  0 <= d < 10 -> acc * 10 + d <= max -> parse_digits max acc [48 + d] = Some (acc * 10 + d).
Proof.
  intros Hd Hm; unfold parse_digits. rewrite decide_True by lia.
  replace (acc * 10 + (48 + d - 48)) with (acc * 10 + d) by lia. by rewrite decide_True.
Qed.

Lemma parse_digits_dec max f z :
  0 <= z <= max -> z < 10 ^ Z.of_nat f -> parse_digits max 0 (reverse (dec_rev f z)) = Some z.
Proof.
  revert z; induction f as [|f IH]; intros z Hz Hf; [cbn in *; f_equal; lia|].
  rewrite Nat2Z.inj_succ, Z.pow_succ_r in Hf by lia. cbn [dec_rev]. case_decide.
  - change (reverse [48 + z]) with [48 + z]. rewrite parse_digits_one by lia. f_equal; lia.
  - pose proof (Z.div_mod z 10). pose proof (Z.mod_pos_bound z 10).
    assert (0 <= z / 10) by (apply Z.div_pos; lia).
    assert (z / 10 < 10 ^ Z.of_nat f) by (apply Z.div_lt_upper_bound; lia).
    rewrite reverse_cons, parse_digits_app, IH by lia.
    rewrite parse_digits_one by lia. f_equal; lia.
Qed.

Lemma show_uint_nonempty z : show_uint z <> [].
Proof.
  unfold show_uint; cbn [dec_rev]. intros H%(f_equal length).
  rewrite length_reverse in H; case_decide; simpl in H; lia.
Qed.

Lemma show_uint_digits z : 0 <= z -> Forall is_digit (show_uint z).
Proof. intros; unfold show_uint; by apply Forall_reverse, dec_rev_digits. Qed.

Lemma parse_show_uint max z : 0 <= z <= max -> z <= U64_MAX -> parse_uint max (show_uint z) = Some z.
Proof.
  intros Hz Hm. pose proof (show_uint_digits z ltac:(lia)) as Hd.
  pose proof (show_uint_nonempty z) as Hne.
  assert (parse_digits max 0 (show_uint z) = Some z) as Hp
    by (unfold show_uint; apply parse_digits_dec; lia).
  destruct (show_uint z) as [|b l]; [done|].
  apply Forall_cons in Hd as [Hb _]. unfold is_digit in Hb. unfold parse_uint.
  destruct b as [|p|p]; try lia. do 7 (destruct p as [p|p|]; try lia; try exact Hp).
Qed.

(** ** [String::from_utf8]: well-formed UTF-8 *)
Definition cont (b : Z) : bool := bool_decide (128 <= b <= 191).
Definition in_range (a b x : Z) : bool := bool_decide (a <= x <= b).
Fixpoint utf8_valid_fuel (fuel : nat) (l : list Z) : bool :=
  match fuel with
  | O => bool_decide (l = [])
  | S f =>
      match l with
      | [] => true
      | b0 :: r0 =>
          if in_range 0 127 b0 then utf8_valid_fuel f r0 else
          match r0 with
          | [] => false
          | b1 :: r1 =>
              if in_range 194 223 b0 then cont b1 && utf8_valid_fuel f r1 else
              match r1 with
              | [] => false
              | b2 :: r2 =>
                  if in_range 224 239 b0 then
                    in_range (if decide (b0 = 224) then 160 else 128)
                             (if decide (b0 = 237) then 159 else 191) b1
                    && cont b2 && utf8_valid_fuel f r2
                  else
                  match r2 with
                  | [] => false
                  | b3 :: r3 =>
                      in_range 240 244 b0
                      && in_range (if decide (b0 = 240) then 144 else 128)
                                  (if decide (b0 = 244) then 143 else 191) b1
                      && cont b2 && cont b3 && utf8_valid_fuel f r3
                  end
              end
          end
      end
  end.
Definition utf8_valid (l : list Z) : bool := utf8_valid_fuel (length l) l.
Arguments utf8_valid : simpl never.

Lemma utf8_valid_ascii_fuel f l :
  (length l <= f)%nat -> Forall (fun b => 0 <= b <= 127) l -> utf8_valid_fuel f l = true.
Proof.
  revert l; induction f as [|f IH]; intros [|b l] Hlen Hok; simpl in *; auto; try lia.
  apply Forall_cons in Hok as [Hb Hl]. unfold in_range.
  rewrite bool_decide_eq_true_2 by done. apply IH; auto; lia.
Qed.
Lemma utf8_valid_ascii l : Forall (fun b => 0 <= b <= 127) l -> utf8_valid l = true.
Proof. by apply utf8_valid_ascii_fuel. Qed.

(** ** Laws *)
Lemma split_on_nonempty sep l : split_on sep l <> [].
Proof. destruct l; simpl; [done|]. by destruct (split_on sep l); [|case_decide]. Qed.

Lemma split_on_app sep l r : sep ∉ l -> split_on sep (l ++ sep :: r) = l :: split_on sep r.
Proof.
  induction l as [|b l IH]; intros Hn; simpl.
  - pose proof (split_on_nonempty sep r). destruct (split_on sep r); [done|].
    by rewrite decide_True.
  - apply not_elem_of_cons in Hn as [Hb Hl]. rewrite IH by done. by rewrite decide_False.
Qed.

Lemma split_on_lines sep ls :
  Forall (fun l => sep ∉ l) ls ->
  split_on sep (concat (map (fun l => l ++ [sep]) ls)) = ls ++ [[]].
Proof.
  induction 1 as [|l ls Hl _ IH]; simpl; [done|].
  rewrite <- app_assoc; simpl. by rewrite split_on_app, IH.
Qed.

Lemma strip_cr_id l : last l <> Some 13 -> strip_cr l = l.
Proof. unfold strip_cr; intros; repeat case_match; by subst. Qed.

(** Lines without line feeds or a final carriage return survive being joined and
    split again. *)
Lemma lines_concat ls :
  Forall (fun l => (10 ∉ l) /\ last l <> Some 13) ls ->
  lines (concat (map (fun l => l ++ [10]) ls)) = ls.
Proof.
  intros Hl. unfold lines.
  rewrite split_on_lines by (eapply Forall_impl; [exact Hl|by intros ? []]).
  rewrite length_app, last_snoc; simpl. rewrite app_nil_r.
  replace (length ls + 1 - 1)%nat with (length ls) by lia. rewrite take_app_length.
  induction Hl as [|l ls [_ Hc] _ IH]; simpl; [done|]. by rewrite strip_cr_id, IH.
Qed.

Lemma split_once_app sep k v : sep ∉ k -> split_once sep (k ++ sep :: v) = Some (k, v).
Proof.
  induction k as [|b k IH]; simpl; intros Hk; [by rewrite decide_True|].
  apply not_elem_of_cons in Hk as [Hb Hk]. by rewrite decide_False, IH.
Qed.

(** No white space encoding starts or ends with a digit. *)
Definition starts_no_digit (w : list Z) : bool :=
  match w with b :: _ => negb (bool_decide (48 <= b <= 57)) | [] => false end.

Lemma strip_one_digit ws b l :
  forallb starts_no_digit ws = true -> is_digit b -> strip_one ws (b :: l) = None.
Proof.
  intros Hws Hb. unfold strip_one.
  assert (list_find (fun w => take (length w) (b :: l) = w) ws = None) as ->; [|done].
  apply list_find_None, Forall_forall. intros w Hw Heq.
  rewrite forallb_forall in Hws. specialize (Hws w ltac:(by apply list_elem_of_In)).
  destruct w as [|c w]; [done|]. simpl in *. injection Heq as -> _.
  rewrite bool_decide_eq_true_2 in Hws by exact Hb. done.
Qed.

Lemma trim_digits l : Forall is_digit l -> trim l = l.
Proof.
  assert (forall ws l0, forallb starts_no_digit ws = true -> Forall is_digit l0 ->
            strip_many (length l0) ws l0 = l0) as Hs.
  { intros ws l0 Hws [|b l1 Hb _]; [done|]. cbn [strip_many length]. by rewrite strip_one_digit. }
  intros Hl. unfold trim, trim_end, trim_start.
  rewrite (Hs whitespace l) by (done || by vm_compute).
  rewrite <- (length_reverse l), Hs; [apply reverse_involutive|by vm_compute|by apply Forall_reverse].
Qed.

(** A non-empty suffix makes a different string: a temporary file name is never
    the target's. *)
Lemma string_app_ne (s : string) c (t : string) : s +:+ String.String c t <> s.
Proof. induction s as [|a s IH]; simpl; [done|]. by intros [= E%IH]. Qed.
