(* ===== verification/Errors.v ===== *)
(** * Error types

    [io::Error], [SpaceGuardError] (storage/space_guard.rs), [StorageError]
    (storage/metadata.rs) and [TapeError] (scsi_tape/error.rs), with the
    conversions the [?] operator applies. *)

From S2P Require Import Prelude Bytes.

(** The part of [io::Error] the source looks at: its kind, the raw operating
    system code when there is one, and its message. *)
Inductive ErrorKind : Type :=
| KNotFound | KUnexpectedEof | KWriteZero | KAlreadyExists | KWouldBlock
| KInvalidInput | KInvalidData | KStorageFull | KOther.
#[export] Instance ErrorKind_eq_dec : EqDecision ErrorKind.
Proof. solve_decision. Defined.

Record IoError : Type := mkIoError {
  io_kind : ErrorKind;
  io_raw_os_error : option Z;
  io_message : string
}.
#[export] Instance IoError_eq_dec : EqDecision IoError.
Proof. solve_decision. Defined.

Definition io_error (k : ErrorKind) (msg : string) : IoError := mkIoError k None msg.

Inductive SpaceGuardError : Type :=
| SGBusy
| UnknownCapacity
| InsufficientSpace (available required : Z)
| ArithmeticOverflow
| InvalidAllocationUnit
| SGIo (message : string).
#[export] Instance SpaceGuardError_eq_dec : EqDecision SpaceGuardError.
Proof. solve_decision. Defined.

Inductive StorageError : Type :=
| SIo (e : IoError)
| SpaceExhausted (msg : string)
| SpaceAdmission (e : SpaceGuardError)
| Corrupt (msg : string)
| VersionMismatch (expected got : Z)
| SNotFound (msg : string)
| Conflict (msg : string)
| MetadataBudgetExceeded
| Cancelled
| Internal (msg : string).
#[export] Instance StorageError_eq_dec : EqDecision StorageError.
Proof. solve_decision. Defined.

(** ENOSPC and EDQUOT. *)
Definition ENOSPC : Z := 28.
Definition EDQUOT : Z := 122.

(** [impl From<io::Error> for StorageError]. *)
Definition storage_error_of_io (e : IoError) : StorageError :=
  if decide (io_kind e = KStorageFull \/ io_raw_os_error e = Some ENOSPC
             \/ io_raw_os_error e = Some EDQUOT)
  then SpaceExhausted (io_message e) else SIo e.

Inductive TapeError : Type :=
| InvalidTransition
| InvalidProfile (msg : string)
| UnsupportedVpdPage (page : Z)
| UnsupportedModePage (page : Z)
| UnsupportedLogPage (page : Z)
| NotReady (msg : string)
| RecoveryRequired
| AccessDenied (msg : string)
| Unsupported (msg : string)
| InvalidArgument (msg : string)
| FixedBlockSizeMismatch (expected actual : Z)
| FilemarkDetected (residue : Z) (partial_data : list Z)
| NotFound (msg : string)
| OutOfRange (msg : string)
| VolumeOverflow
| RetentionBlocked
| WormWriteProtected
| ReservationConflict (msg : string)
| InvalidReservationKey (msg : string)
| InvalidReservationRelease (msg : string)
| Unauthorized
| Storage (e : StorageError)
| PhysicalWriteAdmission (requested_units : Z) (source : StorageError)
| PhysicalFilemarkAdmission (source : StorageError).
#[export] Instance TapeError_eq_dec : EqDecision TapeError.
Proof. solve_decision. Defined.
