(* ===== verification/Sense.v ===== *)
(** * SCSI sense data (scsi_tape/sense.rs)

    The sense frame each error of a tape command is reported with. *)

From S2P Require Import Prelude Bytes Errors.

Inductive SenseContext : Type :=
| CxNotReady | CxRecoveryRequired | CxIllegalRequest | CxBlankCheckEod | CxVolumeOverflow
| CxAccessDenied | CxDataProtect | CxMediumError | CxReservationConflict
| CxInvalidPersistentRelease.

Record SenseFrame : Type := mkSense {
  status : Z;
  sense_key : Z;
  asc : Z;
  ascq : Z;
  end_of_medium : bool;
  information_valid : bool;
  information : Z
}.

Definition sense_for_context (context : SenseContext) : SenseFrame :=
  match context with
  | CxNotReady => mkSense 0x02 0x02 0x3A 0x00 false false 0
  | CxRecoveryRequired => mkSense 0x02 0x02 0x04 0x00 false false 0
  | CxIllegalRequest => mkSense 0x02 0x05 0x24 0x00 false false 0
  | CxBlankCheckEod => mkSense 0x02 0x08 0x00 0x05 false true 1
  | CxVolumeOverflow => mkSense 0x02 0x0D 0x00 0x00 true false 0
  | CxAccessDenied => mkSense 0x02 0x07 0x27 0x00 false false 0
  | CxDataProtect => mkSense 0x02 0x07 0x30 0x0C false false 0
  | CxMediumError => mkSense 0x02 0x03 0x11 0x00 false false 0
  | CxReservationConflict => mkSense 0x18 0x0B 0x18 0x02 false false 0
  | CxInvalidPersistentRelease => mkSense 0x02 0x05 0x26 0x04 false false 0
  end.

(** MEDIUM ERROR, WRITE ERROR: the frame of every space admission failure. *)
Definition write_error_frame (valid : bool) (info : Z) : SenseFrame :=
  mkSense 0x02 0x03 0x0C 0x00 false valid info.

Definition resolve_sense_for_error (error : TapeError) : SenseFrame :=
  match error with
  | Unauthorized | AccessDenied _ => sense_for_context CxAccessDenied
  | WormWriteProtected => sense_for_context CxDataProtect
  | ReservationConflict _ => sense_for_context CxReservationConflict
  | InvalidReservationRelease _ => sense_for_context CxInvalidPersistentRelease
  | InvalidReservationKey _ => sense_for_context CxIllegalRequest
  | NotReady _ => sense_for_context CxNotReady
  | RecoveryRequired => sense_for_context CxRecoveryRequired
  | VolumeOverflow => sense_for_context CxVolumeOverflow
  | PhysicalWriteAdmission requested_units _ => write_error_frame true requested_units
  | PhysicalFilemarkAdmission _ => write_error_frame false 0
  | UnsupportedVpdPage _ | UnsupportedModePage _ | UnsupportedLogPage _ | InvalidProfile _
  | InvalidArgument _ | FixedBlockSizeMismatch _ _ | OutOfRange _ | InvalidTransition
  | RetentionBlocked | Unsupported _ => sense_for_context CxIllegalRequest
  | Storage (SpaceExhausted _) | Storage (SpaceAdmission _) => write_error_frame false 0
  | Storage _ => sense_for_context CxMediumError
  | NotFound _ => sense_for_context CxBlankCheckEod
  | FilemarkDetected residue _ => mkSense 0x02 0x00 0x00 0x01 false true residue
  end.
