(* ===== verification/Fs.v ===== *)
(** * The file system

    A file system of inodes and names, as [std::fs] presents it to one process:
    a handle keeps its inode when the name is replaced by a rename, so a cached
    append handle and the path it was opened from can diverge.  Every operation
    that can fail in the source consults the host for a fault first; a faulty
    write may leave a prefix of its bytes behind.  The host also supplies the
    modification times. *)

From S2P Require Import Prelude Bytes Errors.

Record Fault : Type := mkFault { fault_error : IoError; fault_partial : nat }.

(** What the operating system decides: the fault (if any) and the clock reading
    at the [n]-th file system operation of the process. *)
Class Host : Type := {
  fault : nat -> option Fault;
  clock : nat -> Z
}.

Record Inode : Type := mkInode { i_data : list Z; i_mtime : Z }.

Record Fs : Type := mkFs {
  fs_names : gmap string nat;
  fs_inodes : gmap nat Inode;
  fs_next : nat;
  fs_tick : nat
}.
#[export] Instance eta_Fs : Eta Fs :=
  fun r => mkFs (fs_names r) (fs_inodes r) (fs_next r) (fs_tick r).

Definition empty_fs : Fs := mkFs ∅ ∅ 0 0.

(** Well-formedness: every name refers to an inode, no two names to the same
    one, and inode numbers from [fs_next] on are unused. *)
Definition wf_fs (fs : Fs) : Prop :=
  (forall p i, fs_names fs !! p = Some i -> is_Some (fs_inodes fs !! i)) /\
  (forall p q i, fs_names fs !! p = Some i -> fs_names fs !! q = Some i -> p = q) /\
  (forall i, is_Some (fs_inodes fs !! i) -> (i < fs_next fs)%nat).

(** The contents of the file a path names. *)
Definition file_at (fs : Fs) (p : string) : option Inode :=
  match fs_names fs !! p with Some i => fs_inodes fs !! i | None => None end.
Definition contents (fs : Fs) (p : string) : option (list Z) := i_data <$> file_at fs p.

(** Bytes written at an offset; a write past the end fills the gap with zeros. *)
Definition write_at (off : nat) (d old : list Z) : list Z :=
  take off old ++ replicate (off - length old) 0 ++ d ++ drop (off + length d) old.

Section Ops.
Context `{HOST : Host}.

(** Count the operation and ask whether it fails. *)
Definition io_step : M Fs IoError unit :=
  fun fs =>
    let fs' := fs <| fs_tick := S (fs_tick fs) |> in
    match fault (fs_tick fs) with
    | Some f => (Err (fault_error f), fs')
    | None => (Ok tt, fs')
    end.

Definition not_found : IoError := io_error KNotFound "No such file or directory".

(** [Path::exists]. *)
Definition fs_exists (p : string) : M Fs IoError bool := getsM (fun fs => bool_decide (is_Some (file_at fs p))).

(** [fs::create_dir_all], opening a directory and syncing it: no file changes. *)
Definition fs_create_dir_all (p : string) : M Fs IoError unit := io_step.
Definition fs_sync : M Fs IoError unit := io_step.

Definition lookup_inode (p : string) : M Fs IoError nat :=
  let! fs := getM in
  match fs_names fs !! p with Some i => retM i | None => failM not_found end.

(** Opening an existing file gives its inode. *)
Definition fs_open (p : string) : M Fs IoError nat := io_step ;;! lookup_inode p.

Definition inode_data (i : nat) : M Fs IoError (list Z) :=
  getsM (fun fs => match fs_inodes fs !! i with Some n => i_data n | None => [] end).

(** [read_to_end] through a handle positioned at 0. *)
Definition fs_read_all (i : nat) : M Fs IoError (list Z) := io_step ;;! inode_data i.

(** [fs::read] and [fs::read_to_string] up to decoding. *)
Definition fs_read (p : string) : M Fs IoError (list Z) :=
  let! i := fs_open p in fs_read_all i.

(** [read_exact] of [n] bytes at an offset. *)
Definition fs_read_exact_at (i off n : nat) : M Fs IoError (list Z) :=
  io_step ;;!
  let! d := inode_data i in
  if decide (off + n <= length d)%nat then retM (slice off (off + n) d)
  else failM (io_error KUnexpectedEof "failed to fill whole buffer").

(** A single [read] into a buffer of [n] bytes at an offset: on a regular file
    it returns what the file holds there. *)
Definition fs_read_some_at (i off n : nat) : M Fs IoError (list Z) :=
  io_step ;;! let! d := inode_data i in retM (slice off (off + n) d).

(** [fs::metadata]: length and modification time. *)
Definition fs_metadata (p : string) : M Fs IoError (Z * Z) :=
  io_step ;;!
  let! fs := getM in
  match file_at fs p with
  | Some n => retM (Zlen (i_data n), i_mtime n)
  | None => failM not_found
  end.

(** [OpenOptions::create(true).write(true).truncate(true)]: truncate the inode a
    name refers to, or create one. *)
Definition fs_open_trunc (p : string) : M Fs IoError nat :=
  io_step ;;!
  let! fs := getM in
  let now := clock (fs_tick fs) in
  match fs_names fs !! p with
  | Some i => putM (fs <| fs_inodes := <[i := mkInode [] now]> (fs_inodes fs) |>) ;;! retM i
  | None =>
      let i := fs_next fs in
      putM (fs <| fs_inodes := <[i := mkInode [] now]> (fs_inodes fs) |>
               <| fs_names := <[p := i]> (fs_names fs) |>
               <| fs_next := S i |>) ;;! retM i
  end.

(** Write through a handle at an offset ([write_all_at], or [write_all] after a
    seek).  A fault leaves a prefix of the bytes in the file. *)
Definition fs_write_at (i off : nat) (d : list Z) : M Fs IoError unit :=
  fun fs =>
    let now := clock (fs_tick fs) in
    let old := match fs_inodes fs !! i with Some n => i_data n | None => [] end in
    let store d' := fs <| fs_tick := S (fs_tick fs) |>
                       <| fs_inodes := <[i := mkInode (write_at off d' old) now]> (fs_inodes fs) |> in
    match fault (fs_tick fs) with
    | Some f => (Err (fault_error f), store (take (fault_partial f) d))
    | None => (Ok tt, store d)
    end.

(** [fs::rename] within a directory: atomic. *)
Definition fs_rename (a b : string) : M Fs IoError unit :=
  io_step ;;!
  let! fs := getM in
  match fs_names fs !! a with
  | Some i => putM (fs <| fs_names := <[b := i]> (delete a (fs_names fs)) |>)
  | None => failM not_found
  end.

(** [fs::remove_file]. *)
Definition fs_remove (p : string) : M Fs IoError unit :=
  io_step ;;!
  let! fs := getM in
  match fs_names fs !! p with
  | Some _ => putM (fs <| fs_names := delete p (fs_names fs) |>)
  | None => failM not_found
  end.

(** The pattern every whole-file write of the source follows: write a temporary
    file, sync it, rename it over the target, sync the directory. *)
Definition atomic_write (tmp path : string) (payload : list Z) : M Fs IoError unit :=
  fs_create_dir_all path ;;!
  let! i := fs_open_trunc tmp in
  fs_write_at i 0 payload ;;!
  fs_sync ;;!
  fs_rename tmp path ;;!
  fs_sync ;;! fs_sync.

End Ops.

(** ** Laws *)

Lemma wf_empty_fs : wf_fs empty_fs.
Proof.
  repeat split; simpl; intros *; rewrite ?lookup_empty; try discriminate.
  intros [? Hx]; discriminate Hx.
Qed.

Lemma write_at_0 d : write_at 0 d [] = d.
Proof. unfold write_at; simpl. by rewrite drop_nil, app_nil_r. Qed.

Lemma write_at_end old d : write_at (length old) d old = old ++ d.
Proof.
  unfold write_at. rewrite take_ge, Nat.sub_diag, drop_ge by lia. simpl. by rewrite app_nil_r.
Qed.

Lemma length_write_at off d old :
  (off <= length old)%nat -> length (write_at off d old) = Nat.max (length old) (off + length d).
Proof.
  intros. unfold write_at. rewrite !length_app, length_take, length_replicate, length_drop. lia.
Qed.

Lemma write_at_inside off d old :
  (off + length d <= length old)%nat ->
  write_at off d old = take off old ++ d ++ drop (off + length d) old.
Proof.
  intros. unfold write_at. replace (off - length old)%nat with O by lia. reflexivity.
Qed.

Section Laws.
Context `{HOST : Host}.

Definition no_faults : Prop := forall n, fault n = None.

(** The file system seen by paths, the clock aside. *)
Definition same_files (fs fs' : Fs) : Prop :=
  fs_names fs' = fs_names fs /\ fs_inodes fs' = fs_inodes fs /\ fs_next fs' = fs_next fs.

Lemma io_step_frame fs : same_files fs (snd (io_step fs)).
Proof. unfold io_step, same_files; destruct (fault (fs_tick fs)); done. Qed.

Lemma io_step_ok fs : no_faults -> io_step fs = (Ok tt, fs <| fs_tick := S (fs_tick fs) |>).
Proof. intros Hn; unfold io_step; by rewrite Hn. Qed.

Lemma file_at_same fs fs' p : same_files fs fs' -> file_at fs' p = file_at fs p.
Proof. intros (Hn & Hi & _); unfold file_at; by rewrite Hn, Hi. Qed.

Lemma wf_same fs fs' : same_files fs fs' -> wf_fs fs -> wf_fs fs'.
Proof. intros (Hn & Hi & Hx); unfold wf_fs; by rewrite Hn, Hi, Hx. Qed.

(** The file system after each primitive, on paths. *)
Lemma contents_insert fs i n p :
  contents (fs <| fs_inodes := <[i := n]> (fs_inodes fs) |>) p =
  if decide (fs_names fs !! p = Some i) then Some (i_data n) else contents fs p.
Proof.
  unfold contents, file_at; cbn. destruct (fs_names fs !! p) as [j|]; case_decide; simplify_eq.
  - by rewrite lookup_insert_eq.
  - by rewrite lookup_insert_ne by congruence.
  - done.
Qed.

Lemma wf_insert_inode fs i n p :
  wf_fs fs -> fs_names fs !! p = Some i ->
  wf_fs (fs <| fs_inodes := <[i := n]> (fs_inodes fs) |>).
Proof.
  intros (H1 & H2 & H3) Hp. repeat split; cbn.
  - intros q j Hq. destruct (decide (i = j)) as [->|]; [rewrite lookup_insert_eq; eauto|].
    rewrite lookup_insert_ne by done. eauto.
  - eauto.
  - intros j. destruct (decide (i = j)) as [->|]; [by eauto|].
    rewrite lookup_insert_ne by done. eauto.
Qed.

(** Opening for truncation gives the path an empty inode of its own; no other
    path changes. *)
Lemma fs_open_trunc_spec fs p :
  wf_fs fs ->
  let r := fs_open_trunc p fs in
  wf_fs (snd r) /\
  (forall q, q <> p -> contents (snd r) q = contents fs q) /\
  (forall i, fst r = Ok i -> fs_names (snd r) !! p = Some i /\ contents (snd r) p = Some []) /\
  (no_faults -> exists i, fst r = Ok i).
Proof.
  intros Hwf. unfold fs_open_trunc, bindM. pose proof (io_step_frame fs) as Hf.
  pose proof (io_step_ok fs) as Hok.
  destruct (io_step fs) as [[[]|e] fs1] eqn:E; cbn in Hf |- *; cycle 1.
  { split_and!; [by eapply wf_same| |done|].
    - intros; unfold contents; by rewrite (file_at_same fs).
    - intros Hn; specialize (Hok Hn); congruence. }
  assert (wf_fs fs1) as Hwf1 by (by eapply wf_same).
  assert (forall q, contents fs1 q = contents fs q) as Hc
    by (intros; unfold contents; by rewrite (file_at_same fs)).
  destruct (fs_names fs1 !! p) as [i|] eqn:Hp; cbn.
  - split_and!.
    + by eapply wf_insert_inode.
    + intros q Hq. rewrite contents_insert, decide_False, Hc; [done|].
      intros Hq'. destruct Hwf1 as (_ & Hinj & _). eauto.
    + intros j [= <-]. split; [done|]. rewrite contents_insert, decide_True by done. done.
    + eauto.
  - destruct Hwf1 as (H1 & H2 & H3).
    assert (forall q, fs_names fs1 !! q <> Some (fs_next fs1)) as Hfresh
      by (intros q Hq%H1%H3; lia).
    split_and!.
    + repeat split; cbn.
      * intros q j. destruct (decide (p = q)) as [->|].
        { rewrite lookup_insert_eq; intros [= <-]. rewrite lookup_insert_eq; eauto. }
        rewrite lookup_insert_ne by done. intros Hq.
        rewrite lookup_insert_ne; eauto. intros <-; by eapply Hfresh.
      * intros q q' j.
        rewrite !lookup_insert_Some.
        intros [[<- <-]|[? Ha]] [[<- Hb]|[? Hb]]; eauto; try done;
          [by destruct (Hfresh q') | subst j; by destruct (Hfresh q)].
      * intros j. destruct (decide (fs_next fs1 = j)) as [->|]; [lia|].
        rewrite lookup_insert_ne by done. intros ?%H3; lia.
    + intros q Hq. rewrite <- Hc. unfold contents, file_at; cbn.
      rewrite lookup_insert_ne by done. destruct (fs_names fs1 !! q) as [j|] eqn:Hj; [|done].
      rewrite lookup_insert_ne; [done|]. intros <-; by eapply Hfresh.
    + intros j [= <-]. unfold contents, file_at; cbn.
      rewrite lookup_insert_eq; cbn. by rewrite lookup_insert_eq.
    + eauto.
Qed.

Lemma fs_write_at_spec fs p i off d :
  wf_fs fs -> fs_names fs !! p = Some i ->
  let r := fs_write_at i off d fs in
  wf_fs (snd r) /\ fs_names (snd r) = fs_names fs /\
  (forall q, q <> p -> contents (snd r) q = contents fs q) /\
  (forall old, contents fs p = Some old -> fst r = Ok tt ->
               contents (snd r) p = Some (write_at off d old)) /\
  (no_faults -> fst r = Ok tt).
Proof.
  intros Hwf Hp. unfold fs_write_at; cbn zeta.
  set (d' := match fault (fs_tick fs) with Some f => take (fault_partial f) d | None => d end).
  set (old := match fs_inodes fs !! i with Some n => i_data n | None => [] end).
  set (fs1 := fs <| fs_tick := S (fs_tick fs) |>).
  assert (snd (match fault (fs_tick fs) with
    | Some f => (Err (fault_error f), fs1 <| fs_inodes := <[i:=mkInode (write_at off (take (fault_partial f) d) old) (clock (fs_tick fs))]> (fs_inodes fs) |>)
    | None => (Ok tt, fs1 <| fs_inodes := <[i:=mkInode (write_at off d old) (clock (fs_tick fs))]> (fs_inodes fs) |>)
    end : Result IoError unit * Fs) = fs1 <| fs_inodes := <[i:=mkInode (write_at off d' old) (clock (fs_tick fs))]> (fs_inodes fs1) |>) as Hsnd
    by (unfold d'; destruct (fault _); done).
  rewrite Hsnd. assert (wf_fs fs1) as Hwf1 by exact Hwf. split_and!.
  - by eapply wf_insert_inode.
  - done.
  - intros q Hq. rewrite contents_insert, decide_False; [done|].
    destruct Hwf as (_ & Hinj & _). intros ?; eauto.
  - intros o Ho Hr. rewrite contents_insert, decide_True by done. unfold d'.
    destruct (fault _); [done|]. cbn. do 2 f_equal. unfold old.
    unfold contents, file_at in Ho; rewrite Hp in Ho. destruct (fs_inodes fs !! i); by inversion Ho.
  - intros Hn; by rewrite Hn.
Qed.

Lemma fs_rename_spec fs a b :
  wf_fs fs -> a <> b ->
  let r := fs_rename a b fs in
  wf_fs (snd r) /\
  (forall q, q <> a -> q <> b -> contents (snd r) q = contents fs q) /\
  (fst r = Ok tt -> contents (snd r) b = contents fs a) /\
  (fst r <> Ok tt -> contents (snd r) b = contents fs b) /\
  (no_faults -> is_Some (fs_names fs !! a) -> fst r = Ok tt).
Proof.
  intros Hwf Hab. unfold fs_rename, bindM. pose proof (io_step_frame fs) as Hf.
  pose proof (io_step_ok fs) as Hok.
  destruct (io_step fs) as [[[]|e] fs1] eqn:E; cbn in Hf |- *; cycle 1.
  { split_and!; [by eapply wf_same| |done| |].
    - intros; unfold contents; by rewrite (file_at_same fs).
    - intros; unfold contents; by rewrite (file_at_same fs).
    - intros Hn; specialize (Hok Hn); congruence. }
  assert (wf_fs fs1) as Hwf1 by (by eapply wf_same).
  assert (forall q, contents fs1 q = contents fs q) as Hc
    by (intros; unfold contents; by rewrite (file_at_same fs)).
  destruct (fs_names fs1 !! a) as [i|] eqn:Ha; cbn.
  - destruct Hwf1 as (H1 & H2 & H3). split_and!; [|  | |done|done].
    + repeat split; cbn; [..|exact H3].
      * intros q j. rewrite lookup_insert_Some, lookup_delete_Some.
        intros [[_ <-]|[_ [_ Hq]]]; eauto.
      * intros q q' j. rewrite !lookup_insert_Some, !lookup_delete_Some.
        intros [[<- <-]|(? & Hna & Hq)] [[<- Hb]|(? & Hnb & Hb)]; eauto; exfalso;
          [apply Hnb; eauto | subst j; apply Hna; eauto].
    + intros q Hqa Hqb. rewrite <- Hc. unfold contents, file_at; cbn.
      by rewrite lookup_insert_ne, lookup_delete_ne by done.
    + intros _. rewrite <- Hc. unfold contents, file_at; cbn.
      by rewrite lookup_insert_eq, Ha.
  - split_and!; [done|auto|done|auto|]. destruct Hf as [<- _]. rewrite Ha. by intros _ [? ?].
Qed.

Lemma fs_sync_spec fs :
  wf_fs fs ->
  wf_fs (snd (fs_sync fs)) /\ (forall q, contents (snd (fs_sync fs)) q = contents fs q) /\
  fs_names (snd (fs_sync fs)) = fs_names fs /\ (no_faults -> fst (fs_sync fs) = Ok tt).
Proof.
  intros Hwf. unfold fs_sync. pose proof (io_step_frame fs) as Hf. split_and!.
  - by eapply wf_same.
  - intros q; unfold contents; by rewrite (file_at_same fs).
  - apply Hf.
  - intros Hn; by rewrite io_step_ok.
Qed.

(** Whatever fails on the way, the target of an atomic write holds its old
    contents or the new payload, never a mixture; files other than the target
    and the temporary file keep theirs.  Success means the payload is there. *)
Lemma atomic_write_spec fs tmp path payload :
  wf_fs fs -> tmp <> path ->
  let r := atomic_write tmp path payload fs in
  wf_fs (snd r) /\
  (contents (snd r) path = contents fs path \/ contents (snd r) path = Some payload) /\
  (forall q, q <> tmp -> q <> path -> contents (snd r) q = contents fs q) /\
  (fst r = Ok tt -> contents (snd r) path = Some payload) /\
  (no_faults -> fst r = Ok tt).
Proof.
  intros Hwf Hne. unfold atomic_write, fs_create_dir_all, bindM.
  destruct (fs_sync_spec fs Hwf) as (W0 & C0 & _ & K0). unfold fs_sync in W0, C0, K0.
  destruct (io_step fs) as [[[]|e] fs0]; cbn in W0, C0, K0 |- *;
    [|by split_and!; auto].
  destruct (fs_open_trunc_spec fs0 tmp W0) as (W1 & C1 & N1 & K1).
  destruct (fs_open_trunc tmp fs0) as [[i|e] fs1]; cbn in W1, C1, N1, K1 |- *; cycle 1.
  { split_and!; auto; [left; rewrite C1 by done; auto | intros; rewrite C1 by done; auto|done
      |intros Hn; destruct (K1 Hn); done]. }
  destruct (N1 i eq_refl) as [Ni Ci].
  destruct (fs_write_at_spec fs1 tmp i 0 payload W1 Ni) as (W2 & N2 & C2 & D2 & K2).
  destruct (fs_write_at i 0 payload fs1) as [[[]|e] fs2]; cbn in W2, N2, C2, D2, K2 |- *; cycle 1.
  { split_and!; auto; [left; by rewrite C2, C1, C0 | intros; by rewrite C2, C1, C0|done]. }
  specialize (D2 _ Ci eq_refl). rewrite write_at_0 in D2.
  destruct (fs_sync_spec fs2 W2) as (W3 & C3 & N3 & K3).
  destruct (fs_sync fs2) as [[[]|e] fs3]; cbn in W3, C3, N3, K3 |- *; cycle 1.
  { split_and!; auto; [left; by rewrite C3, C2, C1, C0 | intros; by rewrite C3, C2, C1, C0|done]. }
  destruct (fs_rename_spec fs3 tmp path W3 Hne) as (W4 & C4 & D4 & E4 & K4).
  destruct (fs_rename tmp path fs3) as [[[]|e] fs4]; cbn in W4, C4, D4, E4, K4 |- *; cycle 1.
  { split_and!; auto.
    - left. by rewrite E4, C3, C2, C1, C0.
    - intros. by rewrite C4, C3, C2, C1, C0.
    - done.
    - intros Hn. apply K4; [done|]. rewrite N3, N2, Ni; eauto. }
  specialize (D4 eq_refl). rewrite C3, D2 in D4.
  assert (forall q, q <> tmp -> q <> path -> contents fs4 q = contents fs q) as Fr
    by (intros; by rewrite C4, C3, C2, C1, C0).
  destruct (fs_sync_spec fs4 W4) as (W5 & C5 & _ & K5).
  destruct (fs_sync fs4) as [[[]|e] fs5]; cbn in W5, C5, K5 |- *.
  - destruct (fs_sync_spec fs5 W5) as (W6 & C6 & _ & K6). split_and!; auto;
      intros; rewrite ?C6, ?C5; auto.
  - split_and!; auto; [right; by rewrite C5|intros; rewrite C5; auto|done].
Qed.

(** Reading changes no file; without faults it returns the contents. *)
Lemma fs_read_same fs p : same_files fs (snd (fs_read p fs)).
Proof.
  unfold fs_read, fs_open, bindM. pose proof (io_step_frame fs) as Hf.
  destruct (io_step fs) as [[[]|e] fs1]; cbn in Hf |- *; [|done].
  unfold lookup_inode, bindM; cbn. destruct (fs_names fs1 !! p) as [i|]; cbn; [|done].
  unfold fs_read_all, bindM. pose proof (io_step_frame fs1) as Hf1.
  destruct (io_step fs1) as [[[]|e] fs2]; cbn in Hf1 |- *;
    unfold same_files in *; intuition congruence.
Qed.

Lemma fs_read_ok fs p d :
  no_faults -> contents fs p = Some d -> fst (fs_read p fs) = Ok d.
Proof.
  intros Hn Hc. unfold contents, file_at in Hc.
  destruct (fs_names fs !! p) as [i|] eqn:Hi; [|done].
  unfold fs_read, fs_open, fs_read_all, bindM. rewrite io_step_ok by done.
  unfold lookup_inode, bindM; cbn. rewrite Hi; cbn. rewrite io_step_ok by done. cbn.
  destruct (fs_inodes fs !! i); by inversion Hc.
Qed.

Lemma contents_same fs fs' q : same_files fs fs' -> contents fs' q = contents fs q.
Proof. intros; unfold contents; by rewrite (file_at_same fs). Qed.
Lemma contents_names fs p d :
  contents fs p = Some d ->
  exists i n, fs_names fs !! p = Some i /\ fs_inodes fs !! i = Some n /\ i_data n = d.
Proof.
  unfold contents, file_at. destruct (fs_names fs !! p) as [i|]; [|done].
  destruct (fs_inodes fs !! i) as [n|] eqn:E; [|done]. intros [= <-]. eauto.
Qed.

Lemma same_files_trans a b c : same_files a b -> same_files b c -> same_files a c.
Proof. unfold same_files. intuition congruence. Qed.

(** Without faults the reading primitives return what the file holds. *)
Lemma fs_open_ok fs p d :
  no_faults -> contents fs p = Some d ->
  exists i, fs_open p fs = (Ok i, fs <| fs_tick := S (fs_tick fs) |>) /\ fs_names fs !! p = Some i.
Proof.
  intros Hn (i & n & Hi & _)%contents_names. exists i. split; [|done].
  unfold fs_open, bindM. rewrite io_step_ok by done. unfold lookup_inode, bindM, getM. cbn.
  by rewrite Hi.
Qed.
Lemma fs_read_some_ok fs p i d off n :
  no_faults -> fs_names fs !! p = Some i -> contents fs p = Some d ->
  fs_read_some_at i off n fs = (Ok (slice off (off + n) d), fs <| fs_tick := S (fs_tick fs) |>).
Proof.
  intros Hn Hi (j & nd & Hj & Hd & <-)%contents_names. simplify_eq.
  unfold fs_read_some_at, bindM. rewrite io_step_ok by done. cbn. by rewrite Hd.
Qed.
Lemma fs_read_exact_ok fs p i d off n :
  no_faults -> fs_names fs !! p = Some i -> contents fs p = Some d -> (off + n <= length d)%nat ->
  fs_read_exact_at i off n fs = (Ok (slice off (off + n) d), fs <| fs_tick := S (fs_tick fs) |>).
Proof.
  intros Hn Hi (j & nd & Hj & Hd & <-)%contents_names Hl. simplify_eq.
  unfold fs_read_exact_at, bindM. rewrite io_step_ok by done. cbn. rewrite Hd.
  by rewrite decide_True.
Qed.
Lemma fs_metadata_ok fs p d :
  no_faults -> contents fs p = Some d ->
  exists t, fs_metadata p fs = (Ok (Zlen d, t), fs <| fs_tick := S (fs_tick fs) |>).
Proof.
  intros Hn Hc. unfold contents in Hc. unfold fs_metadata, bindM. rewrite io_step_ok by done.
  cbn. change (file_at _ p) with (file_at fs p). destruct (file_at fs p) as [nd|]; [|done].
  injection Hc as <-. by exists (i_mtime nd).
Qed.
End Laws.
