(* ===== verification/Layout.v ===== *)
(** * Segment headers and cartridge paths (storage/layout.rs)

    The 36-byte segment header and its validation, the two checksums, and the
    directory names a cartridge's files live under.  CRC-32C comes from the
    [crc32c] crate; [Crc32c] states what the storage engine relies on. *)

From S2P Require Import Prelude Bytes Text Errors.

(** ** CRC-32C

    [crc32c_append crc data] extends a checksum over more data; [crc32c data] is
    the extension of 0. *)
Class Crc32c : Type := crc32c_append : Z -> list Z -> Z.

Class Crc32cLaws `{C : Crc32c} : Prop := {
  crc32c_append_app a x y : crc32c_append (crc32c_append a x) y = crc32c_append a (x ++ y);
  crc32c_append_u32 a x : u32_ok a -> bytes_ok x -> u32_ok (crc32c_append a x)
}.

(** ** FNV-1a, the checksum of version 1 segments *)
Definition checksum32_continue (acc : Z) (data : list Z) : Z :=
  fold_left (fun a b => wrap_mul32 (Z.lxor a b) 16777619) data acc.
Definition checksum32 (data : list Z) : Z := checksum32_continue 0x811C9DC5 data.

Lemma checksum32_u32 data : u32_ok (checksum32 data).
Proof.
  unfold checksum32, checksum32_continue.
  assert (u32_ok 0x811C9DC5) as Hacc by (unfold u32_ok; lia).
  revert Hacc; generalize 0x811C9DC5 as acc; induction data as [|b data IH]; simpl; auto.
  intros acc _. apply IH. unfold u32_ok, wrap_mul32.
  pose proof (Z.mod_pos_bound (Z.lxor acc b * 16777619) (2 ^ 32)). lia.
Qed.

(** ** Segment kinds *)
Definition STORAGE_LAYOUT_MAGIC : Z := 0x56544C58.
Definition STORAGE_LAYOUT_VERSION_V1 : Z := 1.
Definition STORAGE_LAYOUT_VERSION : Z := 2.

Inductive SegmentKind : Type :=
| Data | Metadata | BlkMap | Lookup | Reclaim | Dedup | SegmentIndex.
#[export] Instance SegmentKind_eq_dec : EqDecision SegmentKind.
Proof. solve_decision. Defined.

Definition kind_as_u16 (k : SegmentKind) : Z :=
  match k with
  | Data => 1 | Metadata => 2 | BlkMap => 3 | Lookup => 4 | Reclaim => 5 | Dedup => 6
  | SegmentIndex => 7
  end.

Definition SegmentKind_from_u16 (v : Z) : option SegmentKind :=
  match v with
  | 1 => Some Data | 2 => Some Metadata | 3 => Some BlkMap | 4 => Some Lookup
  | 5 => Some Reclaim | 6 => Some Dedup | 7 => Some SegmentIndex
  | _ => None
  end.

Lemma SegmentKind_from_as k : SegmentKind_from_u16 (kind_as_u16 k) = Some k.
Proof. by destruct k. Qed.

Record SegmentHeader : Type := mkHeader {
  magic : Z;
  version : Z;
  kind : SegmentKind;
  segment_id : Z;
  sequence : Z;
  payload_len : Z;
  checksum : Z
}.
#[export] Instance eta_SegmentHeader : Eta SegmentHeader := fun h =>
  mkHeader (magic h) (version h) (kind h) (segment_id h) (sequence h) (payload_len h) (checksum h).
#[export] Instance SegmentHeader_eq_dec : EqDecision SegmentHeader.
Proof. solve_decision. Defined.

Definition wf_header (h : SegmentHeader) : Prop :=
  u32_ok (magic h) /\ u16_ok (version h) /\ u64_ok (segment_id h) /\ u64_ok (sequence h) /\
  u64_ok (payload_len h) /\ u32_ok (checksum h).

Section Header.
Context `{C : Crc32c}.

Definition integrity32 (data : list Z) : Z := crc32c_append 0 data.

Definition header_new (k : SegmentKind) (id seq : Z) (payload : list Z) : SegmentHeader :=
  mkHeader STORAGE_LAYOUT_MAGIC STORAGE_LAYOUT_VERSION k id seq (Zlen payload)
    (integrity32 payload).

Definition validate (h : SegmentHeader) (payload : list Z) : Result StorageError unit :=
  if negb (bool_decide (magic h = STORAGE_LAYOUT_MAGIC)) then Err (Corrupt "invalid magic")
  else if negb (bool_decide (version h = STORAGE_LAYOUT_VERSION))
          && negb (bool_decide (version h = STORAGE_LAYOUT_VERSION_V1))
  then Err (VersionMismatch STORAGE_LAYOUT_VERSION (version h))
  else if negb (bool_decide (payload_len h = Zlen payload))
  then Err (Corrupt "payload length mismatch")
  else
    let sum := if bool_decide (version h = STORAGE_LAYOUT_VERSION_V1)
               then checksum32 payload else integrity32 payload in
    if bool_decide (version h = STORAGE_LAYOUT_VERSION_V1) && bool_decide (checksum h = 0)
    then Ok tt
    else if negb (bool_decide (checksum h = sum)) then Err (Corrupt "payload checksum mismatch")
    else Ok tt.

Definition header_encode (h : SegmentHeader) : list Z :=
  to_le 4 (magic h) ++ to_le 2 (version h) ++ to_le 2 (kind_as_u16 (kind h)) ++
  to_le 8 (segment_id h) ++ to_le 8 (sequence h) ++ to_le 8 (payload_len h) ++
  to_le 4 (checksum h).

Definition header_decode (buf : list Z) : Result StorageError SegmentHeader :=
  if decide (length buf < 36)%nat then Err (Corrupt "segment header too short")
  else
    let? k := ok_or (SegmentKind_from_u16 (from_le (slice 6 8 buf)))
                    (Corrupt "unknown segment kind") in
    Ok (mkHeader (from_le (slice 0 4 buf)) (from_le (slice 4 6 buf)) k
          (from_le (slice 8 16 buf)) (from_le (slice 16 24 buf)) (from_le (slice 24 32 buf))
          (from_le (slice 32 36 buf))).

Lemma length_header_encode h : length (header_encode h) = 36%nat.
Proof. unfold header_encode; len_solve. Qed.
End Header.
Arguments integrity32 {C} data : simpl never.

(** Decoding an encoded header gives it back, whatever bytes follow. *)
Lemma header_decode_encode h rest :
  wf_header h -> header_decode (header_encode h ++ rest) = Ok h.
Proof.
  intros (Hm & Hv & Hi & Hs & Hp & Hc). unfold header_decode.
  rewrite decide_False by (rewrite length_app, length_header_encode; lia).
  unfold header_encode. rewrite <- !app_assoc. slices.
  assert (from_le (to_le 2 (kind_as_u16 (kind h))) = kind_as_u16 (kind h)) as ->
    by (apply from_le_to_le; destruct (kind h); simpl; lia).
  rewrite SegmentKind_from_as; simpl.
  unfold u16_ok, u32_ok, u64_ok in *.
  rewrite !from_le_to_le by (simpl; lia). by destruct h.
Qed.

(** ** Directory names *)
Definition path_join (a b : string) : string :=
  if decide (a = EmptyString) then b
  else match last (String.list_ascii_of_string a) with
       | Some c => if decide (c = Ascii.ascii_of_nat 47) then a +:+ b else a +:+ "/" +:+ b
       | None => b
       end.

Definition is_ascii_alphanumeric (b : Z) : bool :=
  bool_decide (48 <= b <= 57) || bool_decide (65 <= b <= 90) || bool_decide (97 <= b <= 122).
Definition to_ascii_lowercase (b : Z) : Z := if decide (65 <= b <= 90) then b + 32 else b.
(** The characters [sanitize_id] keeps: alphanumerics, [-] and [_]. *)
Definition sanitize_char (b : Z) : Z :=
  if is_ascii_alphanumeric b || bool_decide (b = 45) || bool_decide (b = 95)
  then to_ascii_lowercase b else 95.
(** A multi-byte character is replaced by one underscore: its continuation bytes
    are dropped. *)
Definition sanitize_bytes (raw : list Z) : list Z :=
  map sanitize_char (List.filter (fun b => negb (cont b)) raw).

Definition sanitize_id (raw : string) : string :=
  let out := string_of_bytes (sanitize_bytes (bytes_of_string raw)) in
  if decide (out = EmptyString) then "unknown" else out.

Definition layout_scope_key (library_id : string) : string :=
  let scope := sanitize_id library_id in
  if decide (scope = EmptyString) then "global" else scope.

Definition canonical_cartridge_dir (root library_id cartridge_id : string) : string :=
  path_join (path_join (path_join root "cartridges") (layout_scope_key library_id))
            (sanitize_id cartridge_id).
Definition legacy_cartridge_dir (root drive_id cartridge_id : string) : string :=
  path_join (path_join root (sanitize_id drive_id)) (sanitize_id cartridge_id).

Record LayoutPaths : Type := mkPaths {
  root : string;
  data_file : string;
  metadata_file : string;
  blk_map_file : string;
  lookup_file : string;
  reclaim_file : string;
  dedup_file : string;
  segment_index_file : string
}.
#[export] Instance LayoutPaths_eq_dec : EqDecision LayoutPaths.
Proof. solve_decision. Defined.

Definition paths_in (dir : string) : LayoutPaths :=
  mkPaths dir (path_join dir "data.segment") (path_join dir "metadata.segment")
    (path_join dir "blk_map.segment") (path_join dir "lookup.segment")
    (path_join dir "reclaim.segment") (path_join dir "dedup.segment")
    (path_join dir "segment_index.segment").

Definition for_cartridge (root library_id cartridge_id : string) : LayoutPaths :=
  paths_in (canonical_cartridge_dir root library_id cartridge_id).
Definition usage_counters_file (p : LayoutPaths) : string := path_join (root p) "usage.counters".

(** Two cartridges whose names differ only in case, or in a character that is
    replaced, have one directory. *)
Theorem cartridge_dirs_collide root library :
  canonical_cartridge_dir root library "TAPE.01" = canonical_cartridge_dir root library "tape_01".
Proof. reflexivity. Qed.
