(* ===== verification/TapeState.v ===== *)
(** * The state of one drive (scsi_tape/state.rs)

    [TapeState] and the operations on it: mounting and unmounting a cartridge,
    the usage counters kept in a file beside the cartridge's segments, the unit
    attention queues and the changer inventory. *)

From S2P Require Import Prelude Bytes Text Errors Fs Layout.

Inductive MountState : Type := Empty | Loaded | Busy | MError.
#[export] Instance MountState_eq_dec : EqDecision MountState.
Proof. solve_decision. Defined.

Inductive BlockMode : Type := Variable_ | Fixed_.
#[export] Instance BlockMode_eq_dec : EqDecision BlockMode.
Proof. solve_decision. Defined.

Record BlockModeProfile : Type := mkBlockMode { mode : BlockMode; fixed_block_size : Z }.
#[export] Instance BlockModeProfile_eq_dec : EqDecision BlockModeProfile.
Proof. solve_decision. Defined.
Definition default_block_mode : BlockModeProfile := mkBlockMode Fixed_ (256 * 1024).

Record CommandCounters : Type := mkCounters {
  write_ops : Z; read_ops : Z; filemark_ops : Z; space_ops : Z;
  mode_sense_ops : Z; log_sense_ops : Z;
  unsupported_mode_pages : Z; unsupported_log_pages : Z
}.
#[export] Instance eta_CommandCounters : Eta CommandCounters := fun r =>
  mkCounters (write_ops r) (read_ops r) (filemark_ops r) (space_ops r) (mode_sense_ops r)
    (log_sense_ops r) (unsupported_mode_pages r) (unsupported_log_pages r).
Definition default_counters : CommandCounters := mkCounters 0 0 0 0 0 0 0 0.

(** ** Usage counters *)
Record CartridgeUsageCounters : Type := mkUsage {
  load_count : Z; volume_change_reference : Z;
  lifetime_write_ops : Z; lifetime_read_ops : Z; lifetime_filemark_ops : Z;
  lifetime_bytes_written : Z; lifetime_bytes_read : Z;
  last_load_write_ops : Z; last_load_read_ops : Z; last_load_filemark_ops : Z;
  last_load_bytes_written : Z; last_load_bytes_read : Z
}.
#[export] Instance eta_Usage : Eta CartridgeUsageCounters := fun r =>
  mkUsage (load_count r) (volume_change_reference r) (lifetime_write_ops r)
    (lifetime_read_ops r) (lifetime_filemark_ops r) (lifetime_bytes_written r)
    (lifetime_bytes_read r) (last_load_write_ops r) (last_load_read_ops r)
    (last_load_filemark_ops r) (last_load_bytes_written r) (last_load_bytes_read r).
Definition default_usage : CartridgeUsageCounters := mkUsage 0 0 0 0 0 0 0 0 0 0 0 0.

Definition reset_last_load (u : CartridgeUsageCounters) : CartridgeUsageCounters :=
  u <| last_load_write_ops := 0 |> <| last_load_read_ops := 0 |>
    <| last_load_filemark_ops := 0 |> <| last_load_bytes_written := 0 |>
    <| last_load_bytes_read := 0 |>.

(** The counter a key names; the others are left alone. *)
Definition set_usage_key (key : list Z) (parsed : Z) (u : CartridgeUsageCounters)
  : CartridgeUsageCounters :=
  if decide (key = bytes_of_string "load_count") then u <| load_count := parsed |>
  else if decide (key = bytes_of_string "volume_change_reference")
  then u <| volume_change_reference := parsed |>
  else if decide (key = bytes_of_string "lifetime_write_ops")
  then u <| lifetime_write_ops := parsed |>
  else if decide (key = bytes_of_string "lifetime_read_ops")
  then u <| lifetime_read_ops := parsed |>
  else if decide (key = bytes_of_string "lifetime_filemark_ops")
  then u <| lifetime_filemark_ops := parsed |>
  else if decide (key = bytes_of_string "lifetime_bytes_written")
  then u <| lifetime_bytes_written := parsed |>
  else if decide (key = bytes_of_string "lifetime_bytes_read")
  then u <| lifetime_bytes_read := parsed |>
  else u.

(** One line of the counter file: an unknown key, a line without [=] and a value
    that is not a [u64] are skipped. *)
Definition load_usage_line (u : CartridgeUsageCounters) (line : list Z) : CartridgeUsageCounters :=
  match split_once 61 line with
  | None => u
  | Some (key, value) =>
      match parse_uint U64_MAX (trim value) with
      | None => u
      | Some parsed => set_usage_key (trim key) parsed u
      end
  end.
Definition decode_usage (raw : list Z) : CartridgeUsageCounters :=
  fold_left load_usage_line (lines raw) default_usage.

Definition usage_fields (u : CartridgeUsageCounters) : list (string * Z) :=
  [("load_count", load_count u);
   ("volume_change_reference", volume_change_reference u);
   ("lifetime_write_ops", lifetime_write_ops u);
   ("lifetime_read_ops", lifetime_read_ops u);
   ("lifetime_filemark_ops", lifetime_filemark_ops u);
   ("lifetime_bytes_written", lifetime_bytes_written u);
   ("lifetime_bytes_read", lifetime_bytes_read u)]%string.
Definition usage_line (f : string * Z) : list Z := bytes_of_string f.1 ++ [61] ++ show_uint f.2 ++ [10].
Definition encode_usage (u : CartridgeUsageCounters) : list Z :=
  concat (map usage_line (usage_fields u)).
Arguments decode_usage : simpl never.
Arguments encode_usage : simpl never.

Section UsageFile.
Context `{HOST : Host}.

(** [load_from_path]: an absent file gives zeroed counters; text that is not
    UTF-8 is an error. *)
Definition load_from_path (path : string) : M Fs IoError CartridgeUsageCounters :=
  let! r := tryM (fs_read path) in
  match r with
  | Ok raw =>
      if utf8_valid raw then retM (decode_usage raw)
      else failM (io_error KInvalidData "stream did not contain valid UTF-8")
  | Err e => if decide (io_kind e = KNotFound) then retM default_usage else failM e
  end.

Definition tmp_path_for (path : string) : string := path +:+ ".tmp".

Definition persist_to_path (u : CartridgeUsageCounters) (path : string) : M Fs IoError unit :=
  atomic_write (tmp_path_for path) path (encode_usage u).
End UsageFile.

(** ** The drive state *)
Record AllowOverwriteState : Type := mkAllowOverwrite {
  allow_type : Z; ao_partition : Z; block_address : Z
}.

Record PartitionRuntime : Type := mkPartition {
  partition_units : Z;
  addl_partitions_defined : Z;
  fdp : Z;
  medium_fmt_recognition : Z;
  partition_size_units : list Z;
  partition_sizes_bytes : list Z;
  active_partition : Z
}.
#[export] Instance eta_PartitionRuntime : Eta PartitionRuntime := fun r =>
  mkPartition (partition_units r) (addl_partitions_defined r) (fdp r) (medium_fmt_recognition r)
    (partition_size_units r) (partition_sizes_bytes r) (active_partition r).
Definition default_partition : PartitionRuntime :=
  mkPartition 9 0 0x9C 0x03 [0; 0; 0; 0] [0; 0; 0; 0] 0.

Record MamAttributeOverride : Type := mkMam { mam_format : Z; mam_value : list Z }.

Record RetentionPolicy : Type := mkRetention { is_worm_media : bool; retention_locked : bool }.
#[export] Instance RetentionPolicy_eq_dec : EqDecision RetentionPolicy.
Proof. solve_decision. Defined.
Definition default_retention : RetentionPolicy := mkRetention false false.

Record ReservationState : Type := mkReservation {
  generation : Z;
  registrations : gmap string Z;
  active_owner : option string;
  active_key : option Z
}.
#[export] Instance eta_ReservationState : Eta ReservationState := fun r =>
  mkReservation (generation r) (registrations r) (active_owner r) (active_key r).
Definition default_reservation : ReservationState := mkReservation 0 ∅ None None.

(** [layout_lease] stands for the lock the drive holds on the cartridge's
    directory; [Some] carries the pool root's device and inode. *)
Record TapeState : Type := mkTape {
  drive_id : string;
  cartridge_id : option string;
  mount_state : MountState;
  current_position : Z;
  eod_position : Z;
  filemarks : list Z;
  block_starts : list Z;
  block_lengths : gmap Z Z;
  active_layout : option LayoutPaths;
  layout_lease : option (Z * Z);
  requires_recovery : bool;
  early_warning_window : Z;
  block_mode : BlockModeProfile;
  buffered_mode : bool;
  data_compression_allowed : bool;
  data_compression_enabled : bool;
  select_data_compression_algorithm : bool;
  command_counters : CommandCounters;
  retention_policy : RetentionPolicy;
  reservation_state : ReservationState;
  changer_slots : gmap Z (option string);
  changer_drives : gmap Z (option string);
  changer_ie_ports : gmap Z (option string);
  changer_ie_impexp : gmap Z bool;
  changer_drive_sources : gmap Z (option Z);
  changer_slots_synced_from_shared : bool;
  partition_runtime : PartitionRuntime;
  cartridge_capacity_bytes : option Z;
  mam_overrides : gmap Z MamAttributeOverride;
  mam_loaded_for : option string;
  usage_counters : CartridgeUsageCounters;
  usage_counters_dirty_ops : Z;
  allow_overwrite : option AllowOverwriteState;
  pending_unit_attention : list (Z * Z);
  nexus_unit_attention : gmap string (list (Z * Z))
}.
#[export] Instance eta_TapeState : Eta TapeState := fun r =>
  mkTape (drive_id r) (cartridge_id r) (mount_state r) (current_position r) (eod_position r)
    (filemarks r) (block_starts r) (block_lengths r) (active_layout r) (layout_lease r)
    (requires_recovery r) (early_warning_window r) (block_mode r) (buffered_mode r)
    (data_compression_allowed r) (data_compression_enabled r)
    (select_data_compression_algorithm r) (command_counters r) (retention_policy r)
    (reservation_state r) (changer_slots r) (changer_drives r) (changer_ie_ports r)
    (changer_ie_impexp r) (changer_drive_sources r) (changer_slots_synced_from_shared r)
    (partition_runtime r) (cartridge_capacity_bytes r) (mam_overrides r) (mam_loaded_for r)
    (usage_counters r) (usage_counters_dirty_ops r) (allow_overwrite r)
    (pending_unit_attention r) (nexus_unit_attention r).

(** ** Process environment

    [getenv] is [std::env::var(..).ok()]. *)
Class Environ : Type := getenv : string -> option (list Z).

Definition USAGE_COUNTER_PERSIST_EVERY_OPS : Z := 1024.

Definition usage_counter_persist_every_ops `{Environ} : Z :=
  match getenv "HOLO_USAGE_COUNTER_PERSIST_EVERY_OPS" with
  | Some raw =>
      match parse_uint U32_MAX (trim raw) with
      | Some value => if decide (1 <= value <= 1000000) then value
                      else USAGE_COUNTER_PERSIST_EVERY_OPS
      | None => USAGE_COUNTER_PERSIST_EVERY_OPS
      end
  | None => USAGE_COUNTER_PERSIST_EVERY_OPS
  end.

Definition initial_data_compression_enabled `{Environ} : bool :=
  match getenv "HOLO_TAPE_COMPRESSION_ENABLED" with
  | Some raw =>
      bool_decide (map to_ascii_lowercase (trim raw) ∈
        [bytes_of_string "1"; bytes_of_string "true"; bytes_of_string "yes"; bytes_of_string "on"])
  | None => true
  end.

(** ** Initial values *)
Definition initial_unit_attention_queue : list (Z * Z) := [(0x29, 0x00)].

(** [format!("{:06}", n)]. *)
Definition pad6 (n : Z) : list Z :=
  let d := show_uint n in replicate (6 - length d) 48 ++ d.
Definition default_slot_label (idx : Z) : option string :=
  if decide (idx < 10) then Some ("VTL" +:+ string_of_bytes (pad6 (idx + 1))) else None.
Definition default_changer_slots : gmap Z (option string) :=
  list_to_map (map (fun idx => (0x0400 + idx, default_slot_label idx)) (seqZ 0 16)).
Definition default_changer_drives : gmap Z (option string) := {[ 0x0100 := None ]}.
Definition default_changer_ie_ports : gmap Z (option string) := {[ 0x0300 := None ]}.
Definition default_changer_ie_impexp : gmap Z bool := {[ 0x0300 := false ]}.
Definition default_changer_drive_sources : gmap Z (option Z) := {[ 0x0100 := None ]}.

Definition TapeState_new `{Environ} (id : string) : TapeState := {|
  drive_id := id;
  cartridge_id := None;
  mount_state := Empty;
  current_position := 0;
  eod_position := 0;
  filemarks := [];
  block_starts := [];
  block_lengths := ∅;
  active_layout := None;
  layout_lease := None;
  requires_recovery := false;
  early_warning_window := 8;
  block_mode := default_block_mode;
  buffered_mode := true;
  data_compression_allowed := true;
  data_compression_enabled := initial_data_compression_enabled;
  select_data_compression_algorithm := true;
  command_counters := default_counters;
  retention_policy := default_retention;
  reservation_state := default_reservation;
  changer_slots := default_changer_slots;
  changer_drives := default_changer_drives;
  changer_ie_ports := default_changer_ie_ports;
  changer_ie_impexp := default_changer_ie_impexp;
  changer_drive_sources := default_changer_drive_sources;
  changer_slots_synced_from_shared := false;
  partition_runtime := default_partition;
  cartridge_capacity_bytes := None;
  mam_overrides := ∅;
  mam_loaded_for := None;
  usage_counters := default_usage;
  usage_counters_dirty_ops := 0;
  allow_overwrite := None;
  pending_unit_attention := initial_unit_attention_queue;
  nexus_unit_attention := ∅
|}.

(** ** Unit attention *)
Definition push_unit_attention (a q : Z) (s : TapeState) : TapeState :=
  let queue := pending_unit_attention s in
  let queue := if decide (16 <= length queue)%nat then drop 1 queue else queue in
  s <| pending_unit_attention := queue ++ [(a, q)] |>.

Definition take_unit_attention (s : TapeState) : option (Z * Z) * TapeState :=
  match pending_unit_attention s with
  | [] => (None, s)
  | ua :: queue => (Some ua, s <| pending_unit_attention := queue |>)
  end.

Definition normalize_nexus_key (initiator : string) : string := trim_string initiator.

(** The queue of one I_T nexus replaces the default queue while a command of
    that nexus runs; the default queue is returned. *)
Definition take_nexus_unit_attention (initiator : string) (s : TapeState)
  : list (Z * Z) * TapeState :=
  let key := normalize_nexus_key initiator in
  (pending_unit_attention s,
   s <| pending_unit_attention :=
          default initial_unit_attention_queue (nexus_unit_attention s !! key) |>
     <| nexus_unit_attention := delete key (nexus_unit_attention s) |>).

Definition restore_nexus_unit_attention (initiator : string) (default_queue : list (Z * Z))
  (s : TapeState) : TapeState :=
  let key := normalize_nexus_key initiator in
  s <| nexus_unit_attention := <[key := pending_unit_attention s]> (nexus_unit_attention s) |>
    <| pending_unit_attention := default_queue |>.

(** ** Changer inventory *)
Definition reset_changer_inventory (s : TapeState) : TapeState :=
  s <| changer_slots := default_changer_slots |>
    <| changer_drives := default_changer_drives |>
    <| changer_ie_ports := default_changer_ie_ports |>
    <| changer_ie_impexp := default_changer_ie_impexp |>
    <| changer_drive_sources := default_changer_drive_sources |>
    <| changer_slots_synced_from_shared := false |>.

Definition count_u16 (n : nat) : Z :=
  if decide (n = O) then 1 else default U16_MAX (u16_try_from (Z.of_nat n)).
Definition changer_slot_count (s : TapeState) : Z := count_u16 (size (changer_slots s)).
Definition changer_ie_count (s : TapeState) : Z := count_u16 (size (changer_ie_ports s)).

(** ** Mounting and usage counters

    The operations that touch the counter file run on the drive and the file
    system together. *)
Definition usage_counter_path (s : TapeState) : option string :=
  usage_counters_file <$> active_layout s.

Section Usage.
Context `{HOST : Host} `{ENV : Environ}.

Definition on_tape {E} (f : TapeState -> TapeState) : M (TapeState * Fs) E unit :=
  modifyM (fun p => (f p.1, p.2)).
Definition on_fs {E A} (m : M Fs E A) : M (TapeState * Fs) E A :=
  zoomM snd (fun fs p => (p.1, fs)) m.

Definition persist_usage_counters : M (TapeState * Fs) IoError unit :=
  let! p := getM in
  match usage_counter_path p.1 with
  | None => retM tt
  | Some path =>
      on_fs (persist_to_path (usage_counters p.1) path) ;;!
      on_tape (fun s => s <| usage_counters_dirty_ops := 0 |>)
  end.

Definition mark_usage_counters_dirty : M (TapeState * Fs) IoError unit :=
  on_tape (fun s => s <| usage_counters_dirty_ops := sat_add32 (usage_counters_dirty_ops s) 1 |>) ;;!
  let! p := getM in
  if decide (usage_counter_persist_every_ops <= usage_counters_dirty_ops p.1)
  then persist_usage_counters else retM tt.

Definition add_write_usage (bytes : Z) (u : CartridgeUsageCounters) : CartridgeUsageCounters :=
  u <| lifetime_write_ops := sat_add64 (lifetime_write_ops u) 1 |>
    <| last_load_write_ops := sat_add64 (last_load_write_ops u) 1 |>
    <| lifetime_bytes_written := sat_add64 (lifetime_bytes_written u) bytes |>
    <| last_load_bytes_written := sat_add64 (last_load_bytes_written u) bytes |>.
Definition record_write_usage (bytes : Z) : M (TapeState * Fs) IoError unit :=
  on_tape (fun s => s <| usage_counters := add_write_usage bytes (usage_counters s) |>) ;;!
  mark_usage_counters_dirty.

Definition add_read_usage (bytes : Z) (u : CartridgeUsageCounters) : CartridgeUsageCounters :=
  u <| lifetime_read_ops := sat_add64 (lifetime_read_ops u) 1 |>
    <| last_load_read_ops := sat_add64 (last_load_read_ops u) 1 |>
    <| lifetime_bytes_read := sat_add64 (lifetime_bytes_read u) bytes |>
    <| last_load_bytes_read := sat_add64 (last_load_bytes_read u) bytes |>.
Definition record_read_usage (bytes : Z) : M (TapeState * Fs) IoError unit :=
  on_tape (fun s => s <| usage_counters := add_read_usage bytes (usage_counters s) |>) ;;!
  mark_usage_counters_dirty.

Definition add_filemark_usage (count : Z) (u : CartridgeUsageCounters) : CartridgeUsageCounters :=
  u <| lifetime_filemark_ops := sat_add64 (lifetime_filemark_ops u) count |>
    <| last_load_filemark_ops := sat_add64 (last_load_filemark_ops u) count |>.
Definition record_filemark_usage (count : Z) : M (TapeState * Fs) IoError unit :=
  on_tape (fun s => s <| usage_counters := add_filemark_usage count (usage_counters s) |>) ;;!
  mark_usage_counters_dirty.

(** The fields [mount] and [unmount] both reset. *)
Definition reset_media_state (s : TapeState) : TapeState :=
  s <| current_position := 0 |> <| eod_position := 0 |> <| filemarks := [] |>
    <| block_starts := [] |> <| block_lengths := ∅ |> <| requires_recovery := false |>
    <| early_warning_window := 8 |> <| block_mode := default_block_mode |>
    <| buffered_mode := true |> <| command_counters := default_counters |>
    <| retention_policy := default_retention |> <| reservation_state := default_reservation |>
    <| partition_runtime := default_partition |> <| cartridge_capacity_bytes := None |>
    <| mam_overrides := ∅ |> <| mam_loaded_for := None |> <| allow_overwrite := None |>.

Definition count_load (u : CartridgeUsageCounters) : CartridgeUsageCounters :=
  reset_last_load
    (u <| load_count := sat_add64 (load_count u) 1 |>
       <| volume_change_reference := sat_add64 (volume_change_reference u) 1 |>).

(** Failures to read or persist the counters are logged and ignored. *)
Definition mount {E} (id : string) (layout : LayoutPaths) : M (TapeState * Fs) E unit :=
  on_tape (fun s => reset_media_state (s <| cartridge_id := Some id |>
    <| mount_state := Loaded |> <| active_layout := Some layout |>)) ;;!
  let! loaded := tryM (on_fs (load_from_path (usage_counters_file layout))) in
  let usage := match loaded with Ok u => u | Err _ => default_usage end in
  on_tape (fun s => s <| usage_counters := count_load usage |>
                      <| usage_counters_dirty_ops := 0 |>) ;;!
  let! _ := tryM persist_usage_counters in
  on_tape (fun s => push_unit_attention 0x28 0x00
    (s <| pending_unit_attention := [] |> <| nexus_unit_attention := ∅ |>)).

Definition unmount {E} : M (TapeState * Fs) E unit :=
  let! _ := tryM persist_usage_counters in
  on_tape (fun s => reset_media_state (s <| cartridge_id := None |> <| mount_state := Empty |>
    <| active_layout := None |> <| layout_lease := None |>
    <| usage_counters := default_usage |> <| usage_counters_dirty_ops := 0 |>
    <| pending_unit_attention := [] |> <| nexus_unit_attention := ∅ |>)).
End Usage.

(** ** The counter file round trip *)
Definition wf_usage (u : CartridgeUsageCounters) : Prop :=
  Forall (fun f => u64_ok f.2) (usage_fields u).

Definition usage_body (f : string * Z) : list Z := bytes_of_string f.1 ++ [61] ++ show_uint f.2.

Lemma encode_usage_lines u :
  encode_usage u = concat (map (fun l => l ++ [10]) (map usage_body (usage_fields u))).
Proof.
  unfold encode_usage. rewrite map_map. by f_equal.
Qed.

(** A key is plain when it is ASCII without line feed, equals sign or carriage
    return. *)
Definition plain_key (k : string) : bool :=
  forallb (fun b => bool_decide (32 < b < 127) && negb (bool_decide (b = 61))) (bytes_of_string k).

Lemma usage_keys_plain u : Forall (fun f => plain_key f.1 = true) (usage_fields u).
Proof. repeat constructor. Qed.

Lemma plain_key_bytes k b :
  plain_key k = true -> b ∈ bytes_of_string k -> 32 < b < 127 /\ b <> 61.
Proof.
  unfold plain_key; rewrite forallb_forall. intros Hk Hb%list_elem_of_In.
  specialize (Hk b Hb). apply andb_prop in Hk as [H1%bool_decide_eq_true H2].
  split; [done|]. intros ->; done.
Qed.

Lemma usage_body_bytes f b :
  plain_key f.1 = true -> 0 <= f.2 -> b ∈ usage_body f -> 32 < b < 127.
Proof.
  intros Hk Hz. unfold usage_body. rewrite !elem_of_app, list_elem_of_singleton.
  intros [Hb| [->|Hb]]; [by eapply plain_key_bytes|lia|].
  pose proof (show_uint_digits f.2 Hz) as Hd. rewrite Forall_forall in Hd.
  specialize (Hd b Hb); unfold is_digit in Hd; lia.
Qed.

Lemma usage_body_line f :
  plain_key f.1 = true -> 0 <= f.2 -> (10 ∉ usage_body f) /\ last (usage_body f) <> Some 13.
Proof.
  intros Hk Hz. split.
  - intros Hin%usage_body_bytes; auto; lia.
  - intros Hl%last_Some_elem_of%usage_body_bytes; auto; lia.
Qed.

Lemma load_usage_line_body u f :
  plain_key f.1 = true -> trim (bytes_of_string f.1) = bytes_of_string f.1 -> u64_ok f.2 ->
  load_usage_line u (usage_body f) = set_usage_key (bytes_of_string f.1) f.2 u.
Proof.
  intros Hk Ht Hz. unfold u64_ok in Hz. unfold load_usage_line, usage_body.
  change ([61] ++ show_uint f.2) with (61 :: show_uint f.2).
  rewrite split_once_app by (intros Hin%plain_key_bytes; [lia|done]).
  rewrite trim_digits by (apply show_uint_digits; lia).
  by rewrite parse_show_uint, Ht by lia.
Qed.

Lemma decode_encode_usage u : wf_usage u -> decode_usage (encode_usage u) = reset_last_load u.
Proof.
  intros Hwf. unfold decode_usage. rewrite encode_usage_lines, lines_concat.
  - unfold wf_usage, usage_fields in Hwf. rewrite !Forall_cons in Hwf. cbn in Hwf.
    destruct Hwf as (? & ? & ? & ? & ? & ? & ? & _).
    cbn [map usage_fields fold_left].
    rewrite !load_usage_line_body by (done || by vm_compute).
    by destruct u.
  - pose proof (usage_keys_plain u) as Hk. rewrite Forall_map.
    apply Forall_forall. intros f Hf. unfold wf_usage in Hwf. rewrite Forall_forall in Hwf, Hk.
    apply usage_body_line; [by apply Hk|]. by apply Hwf.
Qed.

Lemma encode_usage_utf8 u : wf_usage u -> utf8_valid (encode_usage u) = true.
Proof.
  intros Hwf. apply utf8_valid_ascii. rewrite encode_usage_lines.
  apply Forall_concat, Forall_map, Forall_map, Forall_forall. intros f Hf.
  pose proof (usage_keys_plain u) as Hk. unfold wf_usage in Hwf. rewrite Forall_forall in Hwf, Hk.
  apply Forall_app; split; [|by repeat constructor].
  apply Forall_forall. intros b Hb%usage_body_bytes; [lia|by apply Hk|by apply Hwf].
Qed.


Definition demo_usage : CartridgeUsageCounters :=
  default_usage <| load_count := 3 |> <| lifetime_write_ops := 17 |> <| last_load_read_ops := 2 |>.
Definition demo_host : Host := {| fault := fun _ => None; clock := fun _ => 0 |}.


(** ** Unit attention conditions *)
Definition push_all (l : list (Z * Z)) (s : TapeState) : TapeState :=
  fold_left (fun s ua => push_unit_attention ua.1 ua.2 s) l s.

Lemma push_pending ua s :
  pending_unit_attention (push_unit_attention ua.1 ua.2 s) =
  (if decide (16 <= length (pending_unit_attention s))%nat then drop 1 (pending_unit_attention s)
   else pending_unit_attention s) ++ [ua].
Proof. unfold push_unit_attention. by destruct ua. Qed.

(** The unit attention queue is a bounded FIFO: after any number of pushes it
    holds the last sixteen conditions, in order, and never more. *)
Theorem unit_attention_bounded l s :
  (length (pending_unit_attention s) <= 16)%nat ->
  let q := pending_unit_attention s ++ l in
  pending_unit_attention (push_all l s) = drop (length q - 16) q /\
  (length (pending_unit_attention (push_all l s)) <= 16)%nat.
Proof.
  revert s. induction l as [|ua l IH]; intros s Hs q; unfold q; clear q.
  - rewrite app_nil_r. cbn [push_all fold_left]. replace (_ - 16)%nat with O by lia.
    by rewrite drop_0.
  - unfold push_all. cbn [fold_left]. fold (push_all l (push_unit_attention ua.1 ua.2 s)).
    set (p := pending_unit_attention s) in *.
    assert (pending_unit_attention (push_unit_attention ua.1 ua.2 s) =
            drop (length p - 15) p ++ [ua]) as Hp.
    { rewrite push_pending. fold p. case_decide.
      - by replace (length p - 15)%nat with 1%nat by lia.
      - by replace (length p - 15)%nat with O by lia. }
    destruct (IH (push_unit_attention ua.1 ua.2 s)) as [E L].
    { rewrite Hp, length_app, length_drop. cbn. lia. }
    split; [|done]. rewrite E, Hp, <- app_assoc, !length_app, length_drop. cbn [app length].
    replace (p ++ ua :: l) with (take (length p - 15) p ++ (drop (length p - 15) p ++ ua :: l))
      by (by rewrite app_assoc, take_drop).
    rewrite (drop_app_ge (take _ _)) by (rewrite length_take; lia).
    f_equal. rewrite length_take. lia.
Qed.

Lemma unit_attention_bounded_witness :
  pending_unit_attention (push_all (replicate 20 (0x2A, 0x01)) (TapeState_new (H := fun _ => None) "d"))
  = replicate 16 (0x2A, 0x01).
Proof.
  rewrite (proj1 (unit_attention_bounded (replicate 20 (0x2A, 0x01)) (TapeState_new (H := fun _ => None) "d")
    ltac:(vm_compute; lia))). by vm_compute.
Defined.
