(* ===== verification/Reservation.v ===== *)
(** * Persistent reservations (scsi_tape/reservation.rs)

    Key registration, reservation, preemption, transfer, release and clearing,
    and the access check data commands make.  An abstract reservation automaton
    without the redundant active key is the specification the operations refine. *)

From S2P Require Import Prelude Bytes Text Errors Fs Layout TapeState.

Record ReservationSnapshot : Type := mkSnapshot {
  snap_generation : Z;
  registration_count : Z;
  snap_registrations : list (string * Z);
  snap_active_owner : option string;
  snap_active_key : option Z
}.

Definition validate_initiator (initiator : string) : Result TapeError unit :=
  if decide (trim_string initiator = EmptyString)
  then Err (InvalidArgument "initiator id must not be empty") else Ok tt.

Definition validate_key (key : Z) (op : string) : Result TapeError unit :=
  if decide (key = 0) then Err (InvalidReservationKey (op +:+ " requires non-zero key")) else Ok tt.

Definition set_reservation (r : ReservationState) (s : TapeState) : TapeState :=
  s <| reservation_state := r |>.
Definition bump (r : ReservationState) : ReservationState :=
  r <| generation := wrap_add32 (generation r) 1 |>.

(** The key an initiator has registered, or the error every operation reports
    when it has none. *)
Definition registered_key (r : ReservationState) (initiator : string) : Result TapeError Z :=
  ok_or (registrations r !! initiator)
        (InvalidReservationKey ("initiator " +:+ initiator +:+ " has no registered key")).

Definition register_key (initiator : string) (key : Z) : M TapeState TapeError unit :=
  let! _ := liftM (validate_initiator initiator) in
  let! _ := liftM (validate_key key "register") in
  modifyM (fun s =>
    let r := reservation_state s in
    let r := r <| registrations := <[initiator := key]> (registrations r) |> in
    let r := if decide (active_owner r = Some initiator) then r <| active_key := Some key |> else r in
    set_reservation (bump r) s).

Definition register_ignore_existing (initiator : string) (service_key : Z)
  : M TapeState TapeError unit := register_key initiator service_key.

Definition reserve_key (initiator : string) (key : Z) : M TapeState TapeError unit :=
  let! _ := liftM (validate_initiator initiator) in
  let! _ := liftM (validate_key key "reserve") in
  let! r := getsM reservation_state in
  let! registered := liftM (registered_key r initiator) in
  if decide (registered <> key)
  then failM (InvalidReservationKey ("reserve key mismatch for initiator " +:+ initiator))
  else
    let grant := modifyM (set_reservation
      (bump (r <| active_owner := Some initiator |> <| active_key := Some key |>))) in
    match active_owner r with
    | None => grant
    | Some owner =>
        if decide (owner = initiator) then grant
        else failM (ReservationConflict ("reservation owner is " +:+ owner))
    end.

Definition preempt_key (initiator : string) (key service_key : Z) : M TapeState TapeError unit :=
  let! _ := liftM (validate_initiator initiator) in
  let! _ := liftM (validate_key key "preempt") in
  let! _ := liftM (validate_key service_key "preempt service") in
  let! r := getsM reservation_state in
  let! registered := liftM (registered_key r initiator) in
  if decide (registered <> key)
  then failM (InvalidReservationKey ("preempt key mismatch for initiator " +:+ initiator))
  else
    let kept := filter (fun e => e.1 = initiator \/ e.2 <> service_key) (registrations r) in
    modifyM (set_reservation
      (bump (r <| registrations := kept |> <| active_owner := Some initiator |>
               <| active_key := Some key |>))).

Definition register_and_move_key (initiator : string) (key service_key : Z)
  (target_initiator : string) (unregister_source : bool) : M TapeState TapeError unit :=
  let! _ := liftM (validate_initiator initiator) in
  let! _ := liftM (validate_initiator target_initiator) in
  let! _ := liftM (validate_key key "register and move") in
  let! _ := liftM (validate_key service_key "register and move service") in
  if decide (initiator = target_initiator)
  then failM (InvalidArgument "register and move target must differ from source")
  else
    let! r := getsM reservation_state in
    let! registered := liftM (registered_key r initiator) in
    if decide (registered <> key)
    then failM (InvalidReservationKey
                  ("register and move key mismatch for initiator " +:+ initiator))
    else if decide (active_owner r <> Some initiator)
    then failM (InvalidReservationKey "register and move requires source reservation owner")
    else
      let regs := <[target_initiator := service_key]> (registrations r) in
      let regs := if unregister_source then delete initiator regs else regs in
      modifyM (set_reservation
        (bump (r <| registrations := regs |> <| active_owner := Some target_initiator |>
                 <| active_key := Some service_key |>))).

Definition release_key (initiator : string) (key : Z) : M TapeState TapeError unit :=
  let! _ := liftM (validate_initiator initiator) in
  let! _ := liftM (validate_key key "release") in
  let! r := getsM reservation_state in
  match active_owner r with
  | None => failM (InvalidReservationRelease "no active reservation")
  | Some owner =>
      if decide (owner <> initiator)
      then failM (ReservationConflict ("reservation owner is " +:+ owner))
      else if decide (active_key r <> Some key)
      then failM (InvalidReservationKey "release key does not match owner key")
      else modifyM (set_reservation (bump (r <| active_owner := None |> <| active_key := None |>)))
  end.

Definition clear_keys (initiator : string) (key : Z) : M TapeState TapeError unit :=
  let! _ := liftM (validate_initiator initiator) in
  let! _ := liftM (validate_key key "clear") in
  let! r := getsM reservation_state in
  let! registered := liftM (registered_key r initiator) in
  if decide (registered <> key)
  then failM (InvalidReservationKey "clear key does not match registered key")
  else modifyM (set_reservation
         (bump (r <| registrations := ∅ |> <| active_owner := None |> <| active_key := None |>))).

Definition ensure_reservation_access (s : TapeState) (initiator : string) : Result TapeError unit :=
  let? _ := validate_initiator initiator in
  match active_owner (reservation_state s) with
  | Some owner =>
      if decide (owner <> initiator)
      then Err (ReservationConflict ("reservation owner is " +:+ owner)) else Ok tt
  | None => Ok tt
  end.

(** [BTreeMap::iter] yields the registrations in key order. *)
Definition string_le (p q : string * Z) : Prop := String.leb p.1 q.1 = true.
#[export] Instance string_le_dec p q : Decision (string_le p q).
Proof. unfold string_le; apply _. Defined.
Definition snapshot (s : TapeState) : ReservationSnapshot :=
  let r := reservation_state s in
  mkSnapshot (generation r) (Z.of_nat (size (registrations r)))
    (merge_sort string_le (map_to_list (registrations r))) (active_owner r) (active_key r).

(** ** The operations an initiator can ask for *)
Inductive ResOp : Type :=
| OpRegister (initiator : string) (key : Z)
| OpReserve (initiator : string) (key : Z)
| OpPreempt (initiator : string) (key service_key : Z)
| OpMove (initiator : string) (key service_key : Z) (target : string) (unregister : bool)
| OpRelease (initiator : string) (key : Z)
| OpClear (initiator : string) (key : Z).

Definition run_op (op : ResOp) : M TapeState TapeError unit :=
  match op with
  | OpRegister i k => register_key i k
  | OpReserve i k => reserve_key i k
  | OpPreempt i k sk => preempt_key i k sk
  | OpMove i k sk t u => register_and_move_key i k sk t u
  | OpRelease i k => release_key i k
  | OpClear i k => clear_keys i k
  end.

(** ** Specification: registrants and an optional holder *)
Record AbsReservation : Type := mkAbs { registrants : gmap string Z; holder : option string }.

Definition named (initiator : string) : Prop := trim_string initiator <> EmptyString.
#[export] Instance named_dec i : Decision (named i).
Proof. unfold named; apply _. Defined.

(** [allowed a op]: the caller proves it is entitled to [op] in state [a]. *)
Definition holds_key (a : AbsReservation) (i : string) (k : Z) : Prop :=
  named i /\ k <> 0 /\ registrants a !! i = Some k.
#[export] Instance holds_key_dec a i k : Decision (holds_key a i k).
Proof. unfold holds_key; apply _. Defined.

Definition allowed (a : AbsReservation) (op : ResOp) : bool :=
  match op with
  | OpRegister i k => bool_decide (named i /\ k <> 0)
  | OpReserve i k => bool_decide (holds_key a i k /\ (holder a = None \/ holder a = Some i))
  | OpPreempt i k sk => bool_decide (holds_key a i k /\ sk <> 0)
  | OpMove i k sk t u =>
      bool_decide (holds_key a i k /\ named t /\ sk <> 0 /\ i <> t /\ holder a = Some i)
  | OpRelease i k => bool_decide (holds_key a i k /\ holder a = Some i)
  | OpClear i k => bool_decide (holds_key a i k)
  end.

Definition effect (a : AbsReservation) (op : ResOp) : AbsReservation :=
  match op with
  | OpRegister i k => mkAbs (<[i := k]> (registrants a)) (holder a)
  | OpReserve i _ => mkAbs (registrants a) (Some i)
  | OpPreempt i _ sk =>
      mkAbs (filter (fun e => e.1 = i \/ e.2 <> sk) (registrants a)) (Some i)
  | OpMove i _ sk t u =>
      mkAbs (if u then delete i (<[t := sk]> (registrants a)) else <[t := sk]> (registrants a))
            (Some t)
  | OpRelease _ _ => mkAbs (registrants a) None
  | OpClear _ _ => mkAbs ∅ None
  end.

Definition spec_step (a : AbsReservation) (op : ResOp) : AbsReservation :=
  if allowed a op then effect a op else a.

Definition abs (s : TapeState) : AbsReservation :=
  mkAbs (registrations (reservation_state s)) (active_owner (reservation_state s)).

(** The type invariant: the holder is registered with the active key, no key is
    zero, and there is an active key exactly when there is a holder. *)
Definition wf_res (r : ReservationState) : Prop :=
  map_Forall (fun _ k => k <> 0) (registrations r) /\
  match active_owner r with
  | None => active_key r = None
  | Some o => exists k, active_key r = Some k /\ registrations r !! o = Some k
  end.
Definition wf_reservation (s : TapeState) : Prop := wf_res (reservation_state s).

(** ** Refinement *)

(** The state an operation returns [r] with is related to the specification. *)
Definition refines (op : ResOp) (s : TapeState) (out : Result TapeError unit * TapeState) : Prop :=
  is_ok (fst out) = allowed (abs s) op /\
  abs (snd out) = spec_step (abs s) op /\
  (is_ok (fst out) = false -> snd out = s) /\
  (is_ok (fst out) = true ->
     generation (reservation_state (snd out)) = wrap_add32 (generation (reservation_state s)) 1).

Lemma refines_ok op s s' :
  allowed (abs s) op = true -> abs s' = effect (abs s) op ->
  generation (reservation_state s') = wrap_add32 (generation (reservation_state s)) 1 ->
  refines op s (Ok tt, s').
Proof. intros Ha He Hg. unfold refines, spec_step. rewrite Ha; simpl. done. Qed.

Lemma refines_err op s e : allowed (abs s) op = false -> refines op s (Err e, s).
Proof. intros Ha. unfold refines, spec_step. rewrite Ha; simpl. done. Qed.

(** Run a guarded operation: split on every guard, then the specification's
    guard has the same value. *)
Ltac res_unfold :=
  cbn [run_op];
  unfold register_key, reserve_key, preempt_key, register_and_move_key, release_key, clear_keys,
    validate_initiator, validate_key, registered_key, bindM, getsM, liftM, ok_or, rbind.
Ltac res_err :=
  apply refines_err; cbn [allowed]; apply bool_decide_eq_false_2;
  unfold holds_key, named, abs in *; cbn in *; naive_solver.
Ltac res_ok :=
  apply refines_ok; [cbn [allowed]; apply bool_decide_eq_true_2;
    unfold holds_key, named, abs in *; cbn in *; naive_solver | | done].

Lemma run_op_refines op s : wf_reservation s -> refines op s (run_op op s).
Proof.
  intros [Hnz Hown]. destruct op; res_unfold;
    repeat first [case_decide | progress (case_match; simplify_eq)]; try res_err; try (res_ok; done);
    unfold modifyM; case_decide; res_ok; done.
Qed.

(** Every operation keeps the invariant. *)
Lemma run_op_wf op : preserves wf_reservation (run_op op).
Proof.
  intros s Hwf. destruct op; res_unfold; unfold modifyM;
    repeat first [case_decide | progress (case_match; simplify_eq)]; try exact Hwf;
    destruct Hwf as [Hnz Hown]; unfold wf_reservation, wf_res; cbn; (split;
    [ repeat first [apply map_Forall_insert_2 | apply map_Forall_delete]; try done;
      try (by apply map_Forall_filter) | ]).
  all: try (rewrite ?map_lookup_filter_Some, ?lookup_delete_ne, ?lookup_insert_eq by done; by eauto).
  - cbn in *. destruct (active_owner (reservation_state s)); simplify_eq.
    exists key. by rewrite lookup_insert_eq.
  - cbn in *. destruct (active_owner (reservation_state s)) as [o|]; [|done].
    destruct Hown as (k & ? & ?). exists k. by rewrite lookup_insert_ne by congruence.
  - intros i k [? _]%map_lookup_filter_Some. by eapply Hnz.
  - exists key. rewrite map_lookup_filter_Some. auto.
Qed.

Inductive reachable_res : TapeState -> Prop :=
| reach_start s : reservation_state s = default_reservation -> reachable_res s
| reach_op s op : reachable_res s -> reachable_res (snd (run_op op s)).

Lemma reachable_wf s : reachable_res s -> wf_reservation s.
Proof.
  induction 1 as [s Hs|s op _ IH]; [|by apply run_op_wf].
  unfold wf_reservation; rewrite Hs. split; [apply map_Forall_empty | done].
Qed.

(** A mutator that fails leaves the reservation state as it found it; one that
    succeeds was entitled to. *)
Lemma run_op_ok op s s' :
  wf_reservation s -> run_op op s = (Ok tt, s') ->
  allowed (abs s) op = true /\ abs s' = effect (abs s) op.
Proof.
  intros Hwf Hr. destruct (run_op_refines op s Hwf) as (Ha & He & _). rewrite Hr in Ha, He.
  cbn in Ha, He. split; [done|]. unfold spec_step in He. by rewrite <- Ha in He.
Qed.

(** The initiator an operation is issued by. *)
Definition issuer (op : ResOp) : string :=
  match op with
  | OpRegister i _ | OpReserve i _ | OpPreempt i _ _ | OpMove i _ _ _ _ | OpRelease i _
  | OpClear i _ => i
  end.
Definition issuer_key (op : ResOp) : Z :=
  match op with
  | OpRegister _ k | OpReserve _ k | OpPreempt _ k _ | OpMove _ k _ _ _ | OpRelease _ k
  | OpClear _ k => k
  end.

(** C13: refinement.  In every reachable reservation state each of the six
    mutators behaves as the abstract automaton: it succeeds exactly when the
    specification allows the request, a success performs the specified change of
    registrants and holder and advances the generation by one modulo 2^32, and
    a refusal leaves the whole drive state untouched. *)
Theorem reservation_refinement s op :
  reachable_res s ->
  let out := run_op op s in
  is_ok (fst out) = allowed (abs s) op /\
  abs (snd out) = spec_step (abs s) op /\
  (is_ok (fst out) = false -> snd out = s) /\
  (is_ok (fst out) = true ->
     generation (reservation_state (snd out)) = wrap_add32 (generation (reservation_state s)) 1).
Proof. intros Hr%reachable_wf. by apply run_op_refines. Qed.

(** C14: exclusive access.  While [o] holds the reservation, every other initiator
    is refused access with RESERVATION CONFLICT, and the holder can only change
    through an operation whose issuer presents the key it is registered with. *)
Theorem reservation_exclusive s op o i :
  reachable_res s -> active_owner (reservation_state s) = Some o -> named i -> i <> o ->
  (exists msg, ensure_reservation_access s i = Err (ReservationConflict msg)) /\
  (active_owner (reservation_state (snd (run_op op s))) <> Some o ->
   registrations (reservation_state s) !! issuer op = Some (issuer_key op) /\ issuer_key op <> 0).
Proof.
  intros Hr%reachable_wf Ho Hi Hne. split.
  - unfold ensure_reservation_access, validate_initiator. rewrite decide_False by exact Hi.
    cbn. rewrite Ho, decide_True by congruence. eauto.
  - destruct (run_op_refines op s Hr) as (_ & He & _). intros Hch.
    assert (holder (spec_step (abs s) op) <> Some o) as Hs by (rewrite <- He; exact Hch).
    unfold spec_step in Hs. destruct (allowed (abs s) op) eqn:Ha; [|done].
    destruct op; cbn in Ha, Hs |- *; apply bool_decide_eq_true in Ha;
      unfold holds_key, abs in *; cbn in *; naive_solver.
Qed.

(** A drive on which one initiator has registered a key. *)
Definition demo_env : Environ := fun _ => None.
Definition demo_registered : TapeState :=
  snd (run_op (OpRegister "iqn.host-a" 7) (TapeState_new (H := demo_env) "drive-1")).
Definition demo_reserved : TapeState := snd (run_op (OpReserve "iqn.host-a" 7) demo_registered).

Lemma demo_registered_reachable : reachable_res demo_registered.
Proof. apply reach_op, reach_start. reflexivity. Defined.
Lemma demo_reserved_reachable : reachable_res demo_reserved.
Proof. apply reach_op, demo_registered_reachable. Defined.

Lemma reservation_refinement_witness :
  is_ok (fst (run_op (OpReserve "iqn.host-a" 7) demo_registered)) = true /\
  is_ok (fst (run_op (OpReserve "iqn.host-a" 8) demo_registered)) = false.
Proof.
  destruct (reservation_refinement demo_registered (OpReserve "iqn.host-a" 7)
              demo_registered_reachable) as [H1 _].
  destruct (reservation_refinement demo_registered (OpReserve "iqn.host-a" 8)
              demo_registered_reachable) as [H2 _].
  split; [rewrite H1 | rewrite H2]; vm_compute; reflexivity.
Defined.

Lemma reservation_exclusive_witness :
  exists msg, ensure_reservation_access demo_reserved "iqn.host-b" = Err (ReservationConflict msg).
Proof.
  assert (named "iqn.host-b") as Hn by (vm_compute; congruence).
  assert ("iqn.host-b" <> "iqn.host-a")%string as Hne by congruence.
  destruct (reservation_exclusive demo_reserved (OpRelease "iqn.host-a" 7) "iqn.host-a"
              "iqn.host-b" demo_reserved_reachable eq_refl Hn Hne) as [H _].
  exact H.
Defined.
