(* ===== verification/SpaceGuard.v ===== *)
(** * Admission control on free space (storage/space_guard.rs)

    Before a command writes, it takes the lock of the file system the cartridge
    is on, reads how much space is left, adds the reservations other commands
    still hold, and reserves its own peak.  A reservation is a file of eight
    bytes in the lock directory, held under [flock] by its owner: one nobody
    holds is left over from a process that died and is removed.

    The lock directory's files are the state; what the operating system answers
    (identities, [statvfs], [flock], directory entries) is the [SpaceHost]
    parameter, asked with the number of the question. *)

From S2P Require Import Prelude Bytes Text Errors Fs Layout.

Definition SPACE_RESERVE_BYTES : Z := 64 * 1024 * 1024.
Definition BLOB_RECORD_OVERHEAD : Z := 24 + 59 + 40 + 52.
Definition SEGMENT_OVERHEAD : Z := 96 + 4.

Record FilesystemSnapshot : Type := mkSnapshotFs {
  filesystem_id : Z;
  allocation_unit : Z;
  available_bytes : Z
}.

Record FilesystemLock : Type := mkFsLock {
  fl_root_path : string;
  fl_root_inode : Z;
  fl_lock_dir_path : string;
  fl_filesystem_id : Z
}.

(** The path of the reservation file, removed when the value is dropped. *)
Definition FilesystemReservation : Type := string.

Inductive EntryKind : Type := EkDir | EkFile | EkSymlink | EkOther.
#[export] Instance EntryKind_eq_dec : EqDecision EntryKind.
Proof. solve_decision. Defined.

Inductive LockAnswer : Type := LkGranted | LkWouldBlock | LkFailed (message : string).

(** The operating system, as the guard asks it. *)
Class SpaceHost : Type := {
  sh_metadata : nat -> string -> Result IoError (EntryKind * Z * Z); (** kind, device, inode *)
  sh_entries : nat -> string -> Result IoError (list (string * EntryKind));
  sh_mkdir : nat -> string -> Result IoError unit;
  sh_statvfs : nat -> string -> Result IoError (Z * Z);              (** [f_frsize], [f_bavail] *)
  sh_flock : nat -> string -> LockAnswer;
  sh_write : nat -> string -> Result IoError unit;
  sh_elapsed : nat -> Z;                                             (** milliseconds *)
  sh_pid : Z
}.

(** A reservation file: its bytes and whether a living process holds its lock. *)
Record SpaceState : Type := mkSpace {
  sp_tick : nat;
  sp_handles : gset string;
  sp_reserves : gmap string (list Z * bool);
  sp_next_reservation_id : Z
}.
#[export] Instance eta_SpaceState : Eta SpaceState := fun r =>
  mkSpace (sp_tick r) (sp_handles r) (sp_reserves r) (sp_next_reservation_id r).
Definition no_reservations : SpaceState := mkSpace 0 ∅ ∅ 1.

(** ** Estimates *)
Definition round_up_to_allocation_unit (bytes unit_ : Z) : Result SpaceGuardError Z :=
  if decide (unit_ = 0) then Err InvalidAllocationUnit
  else if decide (bytes = 0) then Ok 0
  else let remainder := bytes mod unit_ in
       if decide (remainder = 0) then Ok bytes
       else ok_or (checked_add64 bytes (unit_ - remainder)) ArithmeticOverflow.

Definition ensure_capacity (available peak_extra reserve : Z) : Result SpaceGuardError unit :=
  let? required := ok_or (checked_add64 peak_extra reserve) ArithmeticOverflow in
  if decide (available < required) then Err (InsufficientSpace available required) else Ok tt.

Definition try_sum (l : list Z) : Result SpaceGuardError Z :=
  fold_left (fun acc v => let? sum := acc in ok_or (checked_add64 sum v) ArithmeticOverflow) l (Ok 0).

Definition estimate_write_peak_bytes (payload_bytes blob_count touched_segments metadata_temporary_bytes
  unit_ : Z) : Result SpaceGuardError Z :=
  let? payload := round_up_to_allocation_unit payload_bytes unit_ in
  let? records := ok_or (checked_mul64 blob_count BLOB_RECORD_OVERHEAD) ArithmeticOverflow in
  let? segments := ok_or (checked_mul64 touched_segments SEGMENT_OVERHEAD) ArithmeticOverflow in
  let? metadata := round_up_to_allocation_unit metadata_temporary_bytes unit_ in
  try_sum [payload; records; segments; metadata].

(** ** Names of reservation files *)
Definition reservation_prefix (fsid : Z) : list Z := bytes_of_string "fs-" ++ show_uint fsid ++ [45].
Definition reservation_suffix : list Z := bytes_of_string ".reserve".
Definition reservation_name (fsid pid seq : Z) : list Z :=
  reservation_prefix fsid ++ show_uint pid ++ [45] ++ show_uint seq ++ reservation_suffix.

Arguments reservation_name : simpl never.
#[local] Arguments string_of_bytes : simpl never.

Definition strip_prefix (p l : list Z) : option (list Z) :=
  if decide (take (length p) l = p) then Some (drop (length p) l) else None.
Definition strip_suffix (s l : list Z) : option (list Z) :=
  if decide (length s <= length l /\ drop (length l - length s) l = s)%nat
  then Some (take (length l - length s) l) else None.

Definition reservation_id_byte (b : Z) : bool := is_ascii_alphanumeric b || bool_decide (b = 45).
Definition is_reservation_name (fsid : Z) (name : list Z) : bool :=
  match strip_prefix (reservation_prefix fsid) name with
  | Some rest => match strip_suffix reservation_suffix rest with
                 | Some id => negb (bool_decide (id = [])) && forallb reservation_id_byte id
                 | None => false
                 end
  | None => false
  end.

Section Ops.
Context `{SH : SpaceHost}.

(** Ask the operating system one question. *)
Definition ask {E A} (q : nat -> Result E A) : M SpaceState E A :=
  fun s => (q (sp_tick s), s <| sp_tick := S (sp_tick s) |>).
(** [io_error]: only the message is kept. *)
Definition ask_io {A} (q : nat -> Result IoError A) : M SpaceState SpaceGuardError A :=
  map_errM (fun e => SGIo (io_message e)) (ask q).

Definition available_of (st : Z * Z) : Result SpaceGuardError (Z * Z) :=
  let (frsize, bavail) := st in
  if decide (frsize = 0) then Err InvalidAllocationUnit
  else let? avail := ok_or (checked_mul64 bavail frsize) ArithmeticOverflow in Ok (frsize, avail).

(** [FilesystemSnapshot::probe]. *)
Definition snapshot_probe (root : string) : M SpaceState SpaceGuardError FilesystemSnapshot :=
  let! (k, dev, _) := ask_io (fun t => sh_metadata t root) in
  if decide (k <> EkDir) then failM UnknownCapacity
  else
    let! st := ask_io (fun t => sh_statvfs t root) in
    let! (unit_, avail) := liftM (available_of st) in
    let! (_, dev, _) := ask_io (fun t => sh_metadata t root) in
    retM (mkSnapshotFs dev unit_ avail).

Definition require_real_dir (path : string) (msg : string) : M SpaceState SpaceGuardError unit :=
  let! (k, _, _) := ask_io (fun t => sh_metadata t path) in
  if decide (k = EkDir) then retM tt else failM (SGIo msg).

(** [ensure_lock_dir]: create the directory once and keep a handle on it. *)
Definition ensure_lock_dir (runtime_dir : string) : M SpaceState SpaceGuardError string :=
  let lock_dir := path_join runtime_dir "storage-locks" in
  let! s := getM in
  if decide (lock_dir ∈ sp_handles s) then retM lock_dir
  else
    ask_io (fun t => sh_mkdir t runtime_dir) ;;!
    require_real_dir runtime_dir "runtime directory is not a real directory" ;;!
    let! made := tryM (ask (fun t => sh_mkdir t lock_dir)) in
    match made with
    | Err e => if decide (io_kind e = KAlreadyExists) then retM tt else failM (SGIo (io_message e))
    | Ok _ => retM tt
    end ;;!
    require_real_dir lock_dir "storage lock directory is unsafe" ;;!
    let! (k, _, _) := ask_io (fun t => sh_metadata t lock_dir) in
    if decide (k <> EkDir) then failM (SGIo "storage lock path is not a directory")
    else
      modifyM (fun s => s <| sp_handles := {[lock_dir]} ∪ sp_handles s |>) ;;!
      retM lock_dir.

(** [FilesystemLock::acquire]. *)
Definition lock_acquire (root runtime_dir : string) : M SpaceState SpaceGuardError FilesystemLock :=
  let! (k, dev, ino) := ask_io (fun t => sh_metadata t root) in
  if decide (k <> EkDir) then failM UnknownCapacity
  else
    let! lock_dir := ensure_lock_dir runtime_dir in
    let lock_path := path_join lock_dir ("fs-" +:+ show_string dev +:+ ".lock") in
    let! answer := ask (fun t => Ok (sh_flock t lock_path)) in
    match answer with
    | LkGranted => retM (mkFsLock root ino lock_dir dev)
    | LkWouldBlock => failM SGBusy
    | LkFailed m => failM (SGIo m)
    end.

(** [FilesystemLock::probe]. *)
Definition lock_probe (l : FilesystemLock) : M SpaceState SpaceGuardError FilesystemSnapshot :=
  let! (k, dev, ino) := ask_io (fun t => sh_metadata t (fl_root_path l)) in
  if decide (k <> EkDir \/ dev <> fl_filesystem_id l \/ ino <> fl_root_inode l) then failM UnknownCapacity
  else
    let! st := ask_io (fun t => sh_statvfs t (fl_root_path l)) in
    let! (unit_, avail) := liftM (available_of st) in
    retM (mkSnapshotFs (fl_filesystem_id l) unit_ avail).

(** The loop of [active_reservation_bytes] over the entries of the lock
    directory: a file nobody holds is removed, a held one counts. *)
Fixpoint count_reservations (fsid : Z) (names : list string) (total : Z)
  : M SpaceState SpaceGuardError Z :=
  match names with
  | [] => retM total
  | name :: rest =>
      if is_reservation_name fsid (bytes_of_string name) then
        let! s := getM in
        match sp_reserves s !! name with
        | None => count_reservations fsid rest total
        | Some (_, false) =>
            modifyM (fun s => s <| sp_reserves := delete name (sp_reserves s) |>) ;;!
            count_reservations fsid rest total
        | Some (bytes, true) =>
            if decide (length bytes < 8)%nat then failM (SGIo "failed to fill whole buffer")
            else
              let! total := liftM (ok_or (checked_add64 total (from_le (slice 0 8 bytes))) ArithmeticOverflow) in
              count_reservations fsid rest total
        end
      else count_reservations fsid rest total
  end.
Definition active_reservation_bytes (l : FilesystemLock) : M SpaceState SpaceGuardError Z :=
  let! s := getM in
  count_reservations (fl_filesystem_id l) (fst <$> map_to_list (sp_reserves s)) 0.

(** The loop of [reserve]: the next sequence number whose name is free. *)
Fixpoint reserve_loop (fuel : nat) (l : FilesystemLock) (bytes : Z)
  : M SpaceState SpaceGuardError (option FilesystemReservation) :=
  match fuel with
  | O => retM None
  | S f =>
      let! s := getM in
      let seq := sp_next_reservation_id s in
      let name := string_of_bytes (reservation_name (fl_filesystem_id l) sh_pid seq) in
      putM (s <| sp_next_reservation_id := (seq + 1) mod 2 ^ 64 |>) ;;!
      match sp_reserves s !! name with
      | Some _ => reserve_loop f l bytes
      | None =>
          let leave content held :=
            modifyM (fun s => s <| sp_reserves := <[name := (content, held)]> (sp_reserves s) |>) in
          let! answer := ask (fun t => Ok (sh_flock t name)) in
          match answer with
          | LkGranted =>
              let! written := tryM (ask (fun t => sh_write t name)) in
              match written with
              | Ok _ => leave (to_le 8 bytes) true ;;! retM (Some name)
              | Err e => leave [] false ;;! failM (SGIo (io_message e))
              end
          | LkWouldBlock => leave [] false ;;! failM (SGIo "Resource temporarily unavailable")
          | LkFailed m => leave [] false ;;! failM (SGIo m)
          end
      end
  end.
Definition reserve (l : FilesystemLock) (bytes : Z) : M SpaceState SpaceGuardError (option FilesystemReservation) :=
  let! s := getM in reserve_loop (S (size (sp_reserves s))) l bytes.

(** Dropping a reservation removes its file. *)
Definition drop_reservation (r : FilesystemReservation) : M SpaceState SpaceGuardError unit :=
  modifyM (fun s => s <| sp_reserves := delete r (sp_reserves s) |>).

(** [acquire_wait]: retry while the lock is busy and the timeout has not passed;
    [None] when the fuel is used up first. *)
Fixpoint acquire_wait (fuel : nat) (root runtime_dir : string) (timeout : Z)
  : M SpaceState SpaceGuardError (option FilesystemLock) :=
  match fuel with
  | O => retM None
  | S f =>
      let! r := tryM (lock_acquire root runtime_dir) in
      match r with
      | Ok lock => retM (Some lock)
      | Err SGBusy =>
          let! elapsed := ask (fun t => Ok (sh_elapsed t)) in
          if decide (elapsed < timeout) then acquire_wait f root runtime_dir timeout else failM SGBusy
      | Err e => failM e
      end
  end.
End Ops.

(** ** What the reservations add up to *)
Definition weight (fsid : Z) (kv : string * (list Z * bool)) : Z :=
  if kv.2.2 && is_reservation_name fsid (bytes_of_string kv.1) then from_le (slice 0 8 kv.2.1) else 0.
Fixpoint total_weight (fsid : Z) (l : list (string * (list Z * bool))) : Z :=
  match l with [] => 0 | kv :: l' => weight fsid kv + total_weight fsid l' end.
(** The bytes living processes have reserved on a file system. *)
Definition held_total (fsid : Z) (s : SpaceState) : Z := total_weight fsid (map_to_list (sp_reserves s)).

Lemma total_weight_perm fsid l l' : l ≡ₚ l' -> total_weight fsid l = total_weight fsid l'.
Proof. induction 1; cbn; lia. Qed.

Lemma held_total_insert fsid s k v :
  sp_reserves s !! k = None ->
  held_total fsid (s <| sp_reserves := <[k := v]> (sp_reserves s) |>) = weight fsid (k, v) + held_total fsid s.
Proof.
  intros Hk. unfold held_total. cbn -[total_weight weight].
  by rewrite (total_weight_perm fsid _ _ (map_to_list_insert (sp_reserves s) k v Hk)).
Qed.

Lemma held_total_delete fsid s k v :
  sp_reserves s !! k = Some v ->
  held_total fsid s = weight fsid (k, v) + held_total fsid (s <| sp_reserves := delete k (sp_reserves s) |>).
Proof.
  intros Hk. unfold held_total. cbn -[total_weight weight].
  by rewrite <- (total_weight_perm fsid _ _ (map_to_list_delete (sp_reserves s) k v Hk)).
Qed.

(** [map_to_list] names every file once. *)
Lemma reserve_names_nodup (s : SpaceState) : NoDup (fst <$> map_to_list (sp_reserves s)).
Proof. apply NoDup_fst_map_to_list. Qed.

Section Laws.
Context `{SH : SpaceHost}.

(** The bytes of the listed files. *)
Fixpoint listed_weight (fsid : Z) (m : gmap string (list Z * bool)) (names : list string) : Z :=
  match names with
  | [] => 0
  | n :: names' => match m !! n with Some v => weight fsid (n, v) | None => 0 end + listed_weight fsid m names'
  end.

Lemma listed_weight_delete fsid m names k :
  k ∉ names -> listed_weight fsid (delete k m) names = listed_weight fsid m names.
Proof.
  induction names as [|n names IH]; cbn; [done|]. rewrite not_elem_of_cons. intros [Hn Hk].
  rewrite IH, lookup_delete_ne by done. done.
Qed.

Lemma listed_weight_all fsid s :
  listed_weight fsid (sp_reserves s) (fst <$> map_to_list (sp_reserves s)) = held_total fsid s.
Proof.
  unfold held_total. assert (forall kv, kv ∈ map_to_list (sp_reserves s) -> sp_reserves s !! kv.1 = Some kv.2) as H
    by (intros [k v]; apply elem_of_map_to_list).
  revert H. generalize (map_to_list (sp_reserves s)) as l. induction l as [|[k v] l IH]; cbn; intros H; [done|].
  assert (sp_reserves s !! k = Some v) as -> by (apply (H (k, v)); left).
  rewrite IH; [done|]. intros kv Hkv. apply H. by right.
Qed.

(** Counting reports exactly the bytes the listed living reservations hold; it
    removes only files nobody holds. *)
Lemma count_reservations_spec fsid names total s t s' :
  NoDup names -> count_reservations fsid names total s = (Ok t, s') ->
  t = total + listed_weight fsid (sp_reserves s) names /\ held_total fsid s' = held_total fsid s /\
  sp_next_reservation_id s' = sp_next_reservation_id s /\ sp_reserves s' ⊆ sp_reserves s.
Proof.
  revert total s. induction names as [|n names IH]; intros total s Hnd E; cbn in E |- *.
  { inversion E; subst. split_and!; [lia|done..]. }
  apply NoDup_cons in Hnd as [Hn Hnd]. unfold weight; cbn [fst snd].
  destruct (is_reservation_name fsid (bytes_of_string n)) eqn:Er; cycle 1.
  { destruct (IH _ _ Hnd E) as (-> & ? & ? & ?). split_and!; [|done..].
    destruct (sp_reserves s !! n) as [[? []]|]; cbn; lia. }
  cbn in E. destruct (sp_reserves s !! n) as [[bytes []]|] eqn:En; cbn.
  - case_decide; [done|]. apply bindM_Ok in E as (t1 & s1 & E1 & E).
    unfold liftM, checked_add64 in E1. case_decide; cbn in E1; [|done]. inversion E1; subst.
    destruct (IH _ _ Hnd E) as (-> & ? & ? & ?). split_and!; [lia|done..].
  - destruct (IH _ _ Hnd E) as (-> & Hh & ? & Hs). cbn in Hs.
    rewrite (held_total_delete fsid s n (bytes, false) En). cbn. split_and!; [|done..|].
    + cbn. rewrite listed_weight_delete by done. lia.
    + etrans; [exact Hs|apply delete_subseteq].
  - destruct (IH _ _ Hnd E) as (-> & ? & ? & ?). split_and!; [lia|done..].
Qed.

Lemma active_reservation_spec l s t s' :
  active_reservation_bytes l s = (Ok t, s') ->
  t = held_total (fl_filesystem_id l) s /\ held_total (fl_filesystem_id l) s' = t.
Proof.
  unfold active_reservation_bytes, bindM, getM. intros E.
  destruct (count_reservations_spec _ _ _ _ _ _ (reserve_names_nodup s) E) as (-> & Hh & _).
  rewrite Hh, listed_weight_all. lia.
Qed.
End Laws.

(** ** Names of reservation files are recognised and distinct *)
Lemma strip_prefix_app p l : strip_prefix p (p ++ l) = Some l.
Proof. unfold strip_prefix. by rewrite take_app_length, decide_True, drop_app_length. Qed.

Lemma strip_suffix_app l s : strip_suffix s (l ++ s) = Some l.
Proof.
  unfold strip_suffix. rewrite length_app.
  replace (length l + length s - length s)%nat with (length l) by lia.
  rewrite drop_app_length, take_app_length, decide_True; [done|]. split; [lia|done].
Qed.

Lemma digits_id_bytes l : Forall is_digit l -> forallb reservation_id_byte l = true.
Proof.
  intros H. apply forallb_forall. intros b Hb. rewrite Forall_forall in H.
  apply list_elem_of_In in Hb. specialize (H b Hb). unfold is_digit in H.
  unfold reservation_id_byte, is_ascii_alphanumeric. rewrite (bool_decide_eq_true_2 (48 <= b <= 57)) by lia. done.
Qed.

Lemma reservation_name_recognised fsid pid seq :
  0 <= pid -> 0 <= seq -> is_reservation_name fsid (reservation_name fsid pid seq) = true.
Proof.
  intros Hp Hs. unfold is_reservation_name, reservation_name. rewrite strip_prefix_app.
  replace (show_uint pid ++ [45] ++ show_uint seq ++ reservation_suffix)
    with ((show_uint pid ++ [45] ++ show_uint seq) ++ reservation_suffix) by (by rewrite <- !app_assoc).
  rewrite strip_suffix_app. apply andb_true_intro; split.
  - rewrite bool_decide_eq_false_2; [done|]. intros [H _]%app_eq_nil. by apply (show_uint_nonempty pid).
  - rewrite !forallb_app. rewrite (digits_id_bytes (show_uint pid)), (digits_id_bytes (show_uint seq)) by (by apply show_uint_digits). done.
Qed.

Lemma reservation_name_inj fsid pid a b :
  u64_ok a -> u64_ok b -> reservation_name fsid pid a = reservation_name fsid pid b -> a = b.
Proof.
  unfold u64_ok. intros Ha Hb H. unfold reservation_name in H. do 3 apply app_inv_head in H.
  apply app_inv_tail in H.
  assert (parse_uint U64_MAX (show_uint a) = parse_uint U64_MAX (show_uint b)) as E by (by rewrite H).
  rewrite !parse_show_uint in E by lia. by inversion E.
Qed.

(** ** Reserving *)
Definition attempt_name `{SH : SpaceHost} (l : FilesystemLock) (s : SpaceState) (i : nat) : string :=
  string_of_bytes (reservation_name (fl_filesystem_id l) sh_pid ((sp_next_reservation_id s + Z.of_nat i) mod 2 ^ 64)).

Lemma digits_bytes l : Forall is_digit l -> bytes_ok l.
Proof. intros H. eapply Forall_impl; [exact H|]. unfold is_digit, u8_ok. lia. Qed.

Lemma reservation_name_bytes fsid pid seq :
  0 <= fsid -> 0 <= pid -> 0 <= seq -> bytes_ok (reservation_name fsid pid seq).
Proof.
  intros. unfold reservation_name, reservation_prefix, bytes_ok.
  repeat (apply Forall_app; split); try (apply digits_bytes; by apply show_uint_digits);
    apply (bool_decide_unpack (Forall u8_ok _)); by vm_compute.
Qed.

Section Reserve.
Context `{SH : SpaceHost}.

(** A loop that gives up has met that many taken names. *)
Lemma reserve_loop_none f l bytes s s' :
  0 <= sp_next_reservation_id s < 2 ^ 64 -> reserve_loop f l bytes s = (Ok None, s') ->
  forall i, (i < f)%nat -> is_Some (sp_reserves s !! attempt_name l s i).
Proof.
  revert s. induction f as [|f IH]; intros s Hs E i Hi; [lia|].
  unfold bindM, getM, putM in E. cbn -[reservation_name Z.pow] in E.
  destruct (sp_reserves s !! _) eqn:En; cycle 1.
  { exfalso. cbn in E. destruct (sh_flock _ _); [|done..]. cbn in E. by destruct (sh_write _ _). }
  destruct i as [|i].
  - unfold attempt_name. rewrite Z.add_0_r, Z.mod_small by done. by rewrite En.
  - pose proof (Z.mod_pos_bound (sp_next_reservation_id s + 1) (2 ^ 64) ltac:(lia)) as Hm.
    specialize (IH (s <| sp_next_reservation_id := (sp_next_reservation_id s + 1) mod 2 ^ 64 |>) Hm E i ltac:(lia)).
    cbn -[reservation_name attempt_name Z.pow] in IH. unfold attempt_name in IH |- *.
    cbn -[reservation_name Z.pow] in IH. rewrite Zplus_mod_idemp_l in IH.
    by replace (sp_next_reservation_id s + Z.of_nat (S i)) with (sp_next_reservation_id s + 1 + Z.of_nat i) by lia.
Qed.

Lemma attempt_names_nodup l s n :
  0 <= fl_filesystem_id l -> 0 <= sh_pid -> 0 <= sp_next_reservation_id s -> Z.of_nat n <= 2 ^ 64 ->
  NoDup (attempt_name l s <$> seq 0 n).
Proof.
  intros Hf Hp Hs Hn. apply NoDup_fmap_2_strong; [|apply NoDup_seq].
  intros x y Hx%elem_of_seq Hy%elem_of_seq E. unfold attempt_name in E.
  pose proof (Z.mod_pos_bound (sp_next_reservation_id s + Z.of_nat x) (2 ^ 64) ltac:(lia)).
  pose proof (Z.mod_pos_bound (sp_next_reservation_id s + Z.of_nat y) (2 ^ 64) ltac:(lia)).
  apply (f_equal bytes_of_string) in E.
  rewrite !bytes_of_string_of_bytes in E by (apply reservation_name_bytes; lia).
  apply reservation_name_inj in E; [|unfold u64_ok; lia..].
  assert ((Z.of_nat x - Z.of_nat y) mod 2 ^ 64 = 0) as Hm.
  { replace (Z.of_nat x - Z.of_nat y)
      with ((sp_next_reservation_id s + Z.of_nat x) - (sp_next_reservation_id s + Z.of_nat y)) by lia.
    rewrite Zminus_mod, E, Z.sub_diag. done. }
  apply Z.mod_divide in Hm as [k Hk]; [|lia]. nia.
Qed.

(** There is always a free name: [reserve] never gives up. *)
Lemma reserve_total l bytes s :
  0 <= fl_filesystem_id l -> 0 <= sh_pid -> 0 <= sp_next_reservation_id s < 2 ^ 64 ->
  Z.of_nat (size (sp_reserves s)) < 2 ^ 64 -> forall s', reserve l bytes s <> (Ok None, s').
Proof.
  intros Hf Hp Hs Hn s' E. unfold reserve, bindM, getM in E.
  set (n := S (size (sp_reserves s))) in *.
  pose proof (reserve_loop_none n l bytes s s' Hs E) as Ht.
  assert (NoDup (attempt_name l s <$> seq 0 n)) as Hnd by (apply attempt_names_nodup; lia).
  assert (list_to_set (attempt_name l s <$> seq 0 n) ⊆@{gset string} dom (sp_reserves s)) as Hsub.
  { intros x Hx%elem_of_list_to_set. apply list_elem_of_fmap in Hx as (i & -> & Hi%elem_of_seq).
    apply elem_of_dom, Ht. lia. }
  apply subseteq_size in Hsub. rewrite size_list_to_set, length_fmap, length_seq, size_dom in Hsub by done. lia.
Qed.

(** A granted reservation is a new file that counts for its bytes. *)
Lemma reserve_loop_some f l bytes s (name : string) s' :
  0 <= fl_filesystem_id l -> 0 <= sh_pid -> 0 <= sp_next_reservation_id s < 2 ^ 64 -> u64_ok bytes ->
  reserve_loop f l bytes s = (Ok (Some name), s') ->
  sp_reserves s !! name = None /\ sp_reserves s' = <[name := (to_le 8 bytes, true)]> (sp_reserves s) /\
  is_reservation_name (fl_filesystem_id l) (bytes_of_string name) = true.
Proof.
  intros Hf Hp Hs Hb. revert s Hs. induction f as [|f IH]; intros s Hs E; [done|].
  unfold bindM, getM, putM in E. cbn -[reservation_name Z.pow to_le] in E.
  destruct (sp_reserves s !! _) eqn:En.
  - pose proof (Z.mod_pos_bound (sp_next_reservation_id s + 1) (2 ^ 64) ltac:(lia)) as Hm.
    by specialize (IH (s <| sp_next_reservation_id := (sp_next_reservation_id s + 1) mod 2 ^ 64 |>) Hm E).
  - unfold ask, bindM in E. cbn -[to_le reservation_name Z.pow] in E.
    destruct (sh_flock _ _); cbn -[to_le] in E; [|done..].
    destruct (sh_write _ _); cbn -[to_le] in E; [|done]. inversion E; subst. split_and!; [exact En|reflexivity|].
    rewrite bytes_of_string_of_bytes by (apply reservation_name_bytes; lia).
    apply reservation_name_recognised; lia.
Qed.

Lemma reserve_spec l bytes s (name : string) s' :
  0 <= fl_filesystem_id l -> 0 <= sh_pid -> 0 <= sp_next_reservation_id s < 2 ^ 64 -> u64_ok bytes ->
  reserve l bytes s = (Ok (Some name), s') ->
  held_total (fl_filesystem_id l) s' = bytes + held_total (fl_filesystem_id l) s /\
  held_total (fl_filesystem_id l) (snd (drop_reservation name s')) = held_total (fl_filesystem_id l) s.
Proof.
  intros Hf Hp Hs Hb E. unfold reserve, bindM, getM in E.
  destruct (reserve_loop_some _ _ _ _ _ _ Hf Hp Hs Hb E) as (Hn & Hr & Hname).
  assert (weight (fl_filesystem_id l) (name, (to_le 8 bytes, true)) = bytes) as Hw.
  { unfold weight. cbn [fst snd]. rewrite Hname. cbn [andb]. unfold u64_ok in Hb.
    assert (slice 0 8 (to_le 8 bytes) = to_le 8 bytes) as -> by (apply (slice_full (to_le 8 bytes))).
    rewrite from_le_to_le by (cbn; lia). done. }
  pose proof (held_total_insert (fl_filesystem_id l) s name (to_le 8 bytes, true) Hn) as Hi.
  rewrite Hw in Hi. unfold held_total in *. cbn -[to_le total_weight] in *. rewrite Hr. split; [done|].
  by rewrite delete_insert_id.
Qed.
End Reserve.

(** ** Waiting for the lock ends *)
Section Waiting.
Context `{SH : SpaceHost}.

Lemma preserves_ask {E A} n (q : nat -> Result E A) : preserves (fun s => (n <= sp_tick s)%nat) (ask q).
Proof. intros s Hs. cbn. lia. Qed.
Lemma preserves_ask_io {A} n (q : nat -> Result IoError A) : preserves (fun s => (n <= sp_tick s)%nat) (ask_io q).
Proof. apply preserves_map_err, preserves_ask. Qed.
#[local] Hint Resolve preserves_ask preserves_ask_io : pres.

Lemma lock_acquire_ticks n root dir : preserves (fun s => (n <= sp_tick s)%nat) (lock_acquire root dir).
Proof.
  unfold lock_acquire, ensure_lock_dir, require_real_dir. pres.
  apply preserves_modify. done.
Qed.

(** Once the clock passes the timeout, an attempt that finds the lock busy is
    the last one. *)
Lemma acquire_wait_returns root dir timeout n fuel s :
  (forall t, (n <= t)%nat -> timeout <= sh_elapsed t) -> (n - sp_tick s < fuel)%nat ->
  forall s', acquire_wait fuel root dir timeout s <> (Ok None, s').
Proof.
  intros Hel. revert s. induction fuel as [|f IH]; intros s Hf s' E; [lia|].
  cbn [acquire_wait] in E. apply bindM_Ok in E as (r & s1 & E1 & E). unfold tryM in E1.
  pose proof (lock_acquire_ticks (sp_tick s) root dir s (le_n _)) as Ht.
  destruct (lock_acquire root dir s) as [r0 s2]. inversion E1; subst. cbn in Ht.
  destruct r as [|[]]; try done. unfold bindM, ask in E.
  case_decide as Hlt; [|done]. destruct (decide (n <= sp_tick s1)%nat) as [Hn|Hn].
  - specialize (Hel _ Hn). lia.
  - eapply IH; [|exact E]. cbn. lia.
Qed.
End Waiting.
