(* ===== verification/Identity.v ===== *)
(** * Device identity (scsi_tape/identity.rs, scsi_tape/profiles.rs)

    The inquiry data of drives and changers: serial numbers, the standard
    inquiry, the vital product data pages, the element address ranges, and the
    table of device profiles.  Also the baseline of the medium auxiliary memory
    (scsi_tape/mam.rs). *)

From S2P Require Import Prelude Bytes Text Errors Fs Layout TapeState.

Inductive DeviceType : Type := DtChanger | DtDrive.
#[export] Instance DeviceType_eq_dec : EqDecision DeviceType.
Proof. solve_decision. Defined.
Definition peripheral_device_type (t : DeviceType) : Z := match t with DtChanger => 0x08 | DtDrive => 0x01 end.

Record DeviceIdentityProfile : Type := mkProfile {
  device_type : DeviceType;
  vendor : string;
  product : string;
  revision : string;
  inquiry_len : Z;
  ansi_version : Z;
  response_data_format : Z;
  protect_flags : Z;
  mchanger_flags : Z;
  linked_flags : Z;
  standard_vendor_prefix : string;
  standard_vendor_include_serial : bool;
  standard_vendor_suffix : string;
  barcode_scanner_vendor_specific_19 : bool;
  serial_prefix : string;
  serial_suffix : string;
  serial_vpd_suffix : string;
  serial_len : Z;
  supported_vpd_pages : list Z;
  custom_vpd_pages : gmap Z (list Z)
}.
#[export] Instance eta_Profile : Eta DeviceIdentityProfile := fun r =>
  mkProfile (device_type r) (vendor r) (product r) (revision r) (inquiry_len r) (ansi_version r)
    (response_data_format r) (protect_flags r) (mchanger_flags r) (linked_flags r) (standard_vendor_prefix r)
    (standard_vendor_include_serial r) (standard_vendor_suffix r) (barcode_scanner_vendor_specific_19 r)
    (serial_prefix r) (serial_suffix r) (serial_vpd_suffix r) (serial_len r) (supported_vpd_pages r)
    (custom_vpd_pages r).

(** ** Text helpers *)
Definition id_byte (b : Z) : bool := is_ascii_alphanumeric b || bool_decide (b = 95).
Definition graphic_or_space (b : Z) : bool := bool_decide (33 <= b <= 126) || bool_decide (b = 32).
Definition hex_digit (d : Z) : Z := if decide (d < 10) then 48 + d else 55 + d.
(** [{:04X}] of a [u16] and [{:02X}] of a [u8]. *)
Definition hex4 (n : Z) : list Z :=
  [hex_digit (n / 4096 mod 16); hex_digit (n / 256 mod 16); hex_digit (n / 16 mod 16); hex_digit (n mod 16)].
Definition hex2 (n : Z) : list Z := [hex_digit (n / 16 mod 16); hex_digit (n mod 16)].

(** FNV-1a folded to 16 bits. *)
Definition stable_seed_hash16 (input : list Z) : Z :=
  let acc := checksum32 input in Z.lxor (Z.shiftr acc 16) (acc mod 2 ^ 16).

Definition stable_identity_seed (t : DeviceType) (stable_id : string) (verified_legacy_seed : option string)
  : Result TapeError string :=
  let legacy := match verified_legacy_seed with
                | Some seed => if decide (trim_string seed = EmptyString) then None else Some (trim_string seed)
                | None => None
                end in
  match legacy with
  | Some seed => Ok seed
  | None =>
      let id := trim (bytes_of_string stable_id) in
      let normalized := List.filter id_byte id in
      if decide (normalized = [])
      then Err (InvalidProfile "stable device identity must contain an ASCII letter or digit")
      else
        let prefix := match t with DtChanger => "CHG_"%string | DtDrive => "DRV_"%string end in
        Ok (string_of_bytes (bytes_of_string prefix ++ normalized ++ [95] ++ hex4 (stable_seed_hash16 id)))
  end.

(** ** Profiles *)
Definition profile_validate (p : DeviceIdentityProfile) : Result TapeError unit :=
  if decide (inquiry_len p < 36) then Err (InvalidProfile "inquiry_len must be >= 36")
  else if decide (serial_len p = 0) then Err (InvalidProfile "serial_len must be > 0")
  else match List.find (fun page => bool_decide (0xC0 <= page) && negb (bool_decide (is_Some (custom_vpd_pages p !! page))))
               (supported_vpd_pages p) with
       | Some page => Err (InvalidProfile ("custom VPD page 0x" +:+ string_of_bytes (hex2 page) +:+ " missing payload"))
       | None => Ok tt
       end.

(** Cut to the serial length, keeping a hash of what was cut, and pad with [0]. *)
Definition fit_serial (target : nat) (raw : list Z) : list Z :=
  let raw :=
    if decide (target < length raw)%nat then
      if decide (target <= 4)%nat then take target raw
      else take (target - 4) raw ++ hex4 (stable_seed_hash16 raw)
    else raw in
  raw ++ replicate (target - length raw) 48.
Definition serial_for_seed (p : DeviceIdentityProfile) (seed : string) : Result TapeError (list Z) :=
  let? _ := profile_validate p in
  let raw := List.filter id_byte (bytes_of_string (serial_prefix p +:+ seed +:+ serial_suffix p)) in
  Ok (fit_serial (Z.to_nat (serial_len p)) raw).

Definition serial_for_vpd_seed (p : DeviceIdentityProfile) (seed : string) : Result TapeError (list Z) :=
  let? base := serial_for_seed p seed in
  Ok (base ++ List.filter id_byte (bytes_of_string (serial_vpd_suffix p))).

Definition standard_vendor_specific_bytes (p : DeviceIdentityProfile) (seed : string) : Result TapeError (list Z) :=
  let? serial := (if standard_vendor_include_serial p then serial_for_seed p seed else Ok []) in
  Ok (List.filter graphic_or_space
        (bytes_of_string (standard_vendor_prefix p) ++ serial ++ bytes_of_string (standard_vendor_suffix p))).

(** Ascending, without repetition, page 0 included. *)
Definition normalized_pages (p : DeviceIdentityProfile) : list Z :=
  let pages := supported_vpd_pages p in
  let pages := if decide (0x00 ∈ pages) then pages else pages ++ [0x00] in
  merge_sort Z.le (remove_dups pages).

(** ** Inquiry data *)
(** Replace the bytes of a buffer from an offset on; the buffer keeps its length. *)
Definition splice (off : nat) (bytes buf : list Z) : list Z :=
  take off buf ++ bytes ++ drop (off + length bytes) buf.
Definition padded_ascii (width : nat) (value : string) : list Z :=
  let l := take width (List.filter graphic_or_space (bytes_of_string value)) in
  l ++ replicate (width - length l) 32.
Definition write_padded_ascii (buf : list Z) (start width : nat) (value : string) : list Z :=
  if decide (length buf < start + width)%nat then buf else splice start (padded_ascii width value) buf.

(** The vendor specific bytes 36 to 55. *)
Definition vendor_area (p : DeviceIdentityProfile) (vendor_specific out : list Z) : list Z :=
  let vendor_end := Nat.min 56 (length out) in
  let out := splice 36 (replicate (vendor_end - 36) 32) out in
  let out := splice 36 (take (vendor_end - 36) vendor_specific) out in
  if barcode_scanner_vendor_specific_19 p && bool_decide (20 <= vendor_end - 36)%nat
  then splice 55 [0x01] out else out.

Definition standard_inquiry_bytes (p : DeviceIdentityProfile) (seed : string) : Result TapeError (list Z) :=
  let? _ := profile_validate p in
  let out := replicate (Z.to_nat (inquiry_len p)) 0 in
  let out := splice 0 [peripheral_device_type (device_type p); 0x80; ansi_version p; response_data_format p;
                       sat_sub (inquiry_len p) 5; protect_flags p; mchanger_flags p; linked_flags p] out in
  let out := write_padded_ascii out 8 8 (vendor p) in
  let out := write_padded_ascii out 16 16 (product p) in
  let out := write_padded_ascii out 32 4 (revision p) in
  if decide (36 < length out)%nat then
    let? vendor_specific := standard_vendor_specific_bytes p seed in
    Ok (vendor_area p vendor_specific out)
  else Ok out.

Definition vpd_payload (p : DeviceIdentityProfile) (page_code : Z) (seed : string) : Result TapeError (list Z) :=
  if decide (page_code = 0x00) then Ok (normalized_pages p)
  else if decide (page_code = 0x80) then serial_for_vpd_seed p seed
  else if decide (page_code = 0x83) then
    let? serial := serial_for_vpd_seed p seed in
    let identifier := padded_ascii 8 (vendor p) ++ padded_ascii 16 (product p) ++ serial in
    Ok ([0x02; 0x01; 0x00; as_u8 (Zlen identifier)] ++ identifier)
  else if decide (page_code = 0x03) then Ok (write_padded_ascii (replicate 0x21 0) 8 4 (revision p))
  else if decide (page_code = 0x86) then Ok (0x07 :: replicate 0x3B 0)
  else ok_or (custom_vpd_pages p !! page_code) (UnsupportedVpdPage page_code).
Definition vpd_page_bytes (p : DeviceIdentityProfile) (page_code : Z) (seed : string) : Result TapeError (list Z) :=
  let? _ := profile_validate p in
  let? payload := vpd_payload p page_code seed in
  Ok ([peripheral_device_type (device_type p); page_code] ++ to_be 2 (as_u16 (Zlen payload)) ++ payload).

(** ** Element addresses *)
Inductive ElementClass : Type := EcDrive | EcSlot | EcImportExport.
Record ElementAddressProfile : Type := mkElements {
  drive_start : Z; drive_count : Z;
  slot_start : Z; slot_count : Z;
  ie_start : Z; ie_count : Z;
  avoltag_enabled : bool
}.
Record ElementStatusEntry : Type := mkEntry {
  ee_class : ElementClass;
  ee_start_addr : Z;
  ee_count : Z;
  ee_serial_tags : list string
}.

Definition ensure_non_overlap (lhs rhs : Z * Z) (lhs_name rhs_name : string) : Result TapeError unit :=
  let (l_start, l_count) := lhs in
  let (r_start, r_count) := rhs in
  if decide (l_count = 0 \/ r_count = 0) then Ok tt
  else if decide (l_start <= r_start + r_count - 1 /\ r_start <= l_start + l_count - 1)
  then Err (InvalidProfile (lhs_name +:+ " and " +:+ rhs_name +:+ " element ranges overlap"))
  else Ok tt.

Definition elements_validate (p : ElementAddressProfile) : Result TapeError unit :=
  let? _ := ensure_non_overlap (drive_start p, drive_count p) (slot_start p, slot_count p) "drive" "slot" in
  let? _ := ensure_non_overlap (drive_start p, drive_count p) (ie_start p, ie_count p) "drive" "ie" in
  ensure_non_overlap (slot_start p, slot_count p) (ie_start p, ie_count p) "slot" "ie".

(** [format!("DRV{:04}", n)]. *)
Definition default_drive_tag (idx : Z) : string :=
  let d := show_uint (idx + 1) in "DRV" +:+ string_of_bytes (replicate (4 - length d) 48 ++ d).
Definition element_status_entries (p : ElementAddressProfile) (drive_serials : list string)
  : Result TapeError (list ElementStatusEntry) :=
  let? _ := elements_validate p in
  let tags :=
    if avoltag_enabled p then
      if decide (drive_serials = []) then map default_drive_tag (seqZ 0 (drive_count p))
      else take (Z.to_nat (drive_count p)) drive_serials
    else [] in
  Ok [mkEntry EcDrive (drive_start p) (drive_count p) tags; mkEntry EcSlot (slot_start p) (slot_count p) [];
      mkEntry EcImportExport (ie_start p) (ie_count p) []].

(** ** The table of profiles *)
Definition DEFAULT_DRIVE_PROFILE : string := "ibm-ult3580-td6".
Definition DEFAULT_CHANGER_PROFILE : string := "ibm-03584l32".
Definition PRODUCT_REVISION_FULL : string := "6.24.0002".

Inductive DeviceRole : Type := RoleDrive | RoleChanger.

Definition drive_profile (v p r s : string) : DeviceIdentityProfile :=
  mkProfile DtDrive v p r 36 0x05 0x02 0x00 0x80 0x00 "" false "" false s "" "" 12
    [0x00; 0x03; 0x80; 0x83; 0x86] ∅.
Definition changer_profile (v p r s : string) (len : Z) : DeviceIdentityProfile :=
  mkProfile DtChanger v p r 56 0x03 0x02 0x00 0x00 0x00 PRODUCT_REVISION_FULL false "" true s "" "" len
    [0x00; 0x80; 0x83] ∅.
Definition ibm_changer_profile (p r : string) (len ansi mchanger : Z) (vpd_suffix : string) (barcode : bool)
  : DeviceIdentityProfile :=
  (changer_profile "IBM" p r "IBM" len) <| ansi_version := ansi |> <| mchanger_flags := mchanger |>
    <| standard_vendor_prefix := "AB"%string |> <| standard_vendor_include_serial := true |>
    <| standard_vendor_suffix := ""%string |> <| barcode_scanner_vendor_specific_19 := barcode |>
    <| serial_vpd_suffix := vpd_suffix |>.

Definition drive_profiles : list (list string * DeviceIdentityProfile) :=
  [
   (["drive_type_vibm_3580ult1"; "drive-type-vibm-3580ult1"; "ibm-ult3580-td1"], drive_profile "IBM" "ULT3580-TD1" "D711" "IBM");
   (["drive_type_vibm_3580ult2"; "drive-type-vibm-3580ult2"; "ibm-ult3580-td2"], drive_profile "IBM" "ULT3580-TD2" "D711" "IBM");
   (["drive_type_vibm_3580ult3"; "drive-type-vibm-3580ult3"; "ibm-ult3580-td3"], drive_profile "IBM" "ULT3580-TD3" "D711" "IBM");
   (["drive_type_vibm_3580ult4"; "drive-type-vibm-3580ult4"; "ibm-ult3580-td4"], drive_profile "IBM" "ULT3580-TD4" "D711" "IBM");
   (["drive_type_vibm_3580ult5"; "drive-type-vibm-3580ult5"; "ibm-ult3580-td5"], drive_profile "IBM" "ULT3580-TD5" "D711" "IBM");
   (["drive_type_vibm_3580ult6"; "drive-type-vibm-3580ult6"; "ibm-ult3580-td6"], drive_profile "IBM" "ULT3580-TD6" "D711" "IBM");
   (["ibm-ult3580-td7"], drive_profile "IBM" "ULT3580-TD7" "D711" "IBM");
   (["ibm-ult3580-td8"], drive_profile "IBM" "ULT3580-TD8" "D711" "IBM");
   (["ibm-ult3580-td9"], drive_profile "IBM" "ULT3580-TD9" "D711" "IBM");
   (["ibm-ult3580-tda"], drive_profile "IBM" "ULT3580-TDA" "D711" "IBM");
   (["ibm-ultrium-td1"], drive_profile "IBM" "ULTRIUM-TD1" "D711" "IBM");
   (["ibm-ultrium-td2"], drive_profile "IBM" "ULTRIUM-TD2" "D711" "IBM");
   (["ibm-ultrium-td3"], drive_profile "IBM" "ULTRIUM-TD3" "D711" "IBM");
   (["ibm-ultrium-td4"], drive_profile "IBM" "ULTRIUM-TD4" "D711" "IBM");
   (["ibm-ultrium-td5"], drive_profile "IBM" "ULTRIUM-TD5" "D711" "IBM");
   (["ibm-ultrium-td6"], drive_profile "IBM" "ULTRIUM-TD6" "D711" "IBM");
   (["drive_type_vhp_ult232"; "drive-type-vhp-ult232"; "hp-ultrium-1-scsi"], drive_profile "HP" "Ultrium 1-SCSI" "6.24" "HP");
   (["drive_type_vhp_ult448"; "drive-type-vhp-ult448"; "hp-ultrium-2-scsi"], drive_profile "HP" "Ultrium 2-SCSI" "6.24" "HP");
   (["drive_type_vhp_ult460"; "drive-type-vhp-ult460"], drive_profile "HP" "Ultrium 2-SCSI" "6.24" "HP");
   (["drive_type_vhp_ult960"; "drive-type-vhp-ult960"; "hp-ultrium-3-scsi"], drive_profile "HP" "Ultrium 3-SCSI" "6.24" "HP");
   (["drive_type_vhp_ult1840"; "drive-type-vhp-ult1840"; "hp-ultrium-4-scsi"], drive_profile "HP" "Ultrium 4-SCSI" "6.24" "HP");
   (["drive_type_vhp_ult3280"; "drive-type-vhp-ult3280"; "hp-ultrium-5-scsi"], drive_profile "HP" "Ultrium 5-SCSI" "6.24" "HP");
   (["drive_type_vhp_ult6250"; "drive-type-vhp-ult6250"; "hp-ultrium-6-scsi"], drive_profile "HP" "Ultrium 6-SCSI" "6.24" "HP");
   (["hpe-ultrium-7-scsi"], drive_profile "HPE" "Ultrium 7-SCSI" "6.24" "HPE");
   (["hpe-ultrium-8-scsi"], drive_profile "HPE" "Ultrium 8-SCSI" "6.24" "HPE");
   (["hpe-ultrium-9-scsi"], drive_profile "HPE" "Ultrium 9-SCSI" "6.24" "HPE");
   (["quantum-ultrium-td3"], drive_profile "QUANTUM" "ULTRIUM-TD3" "6.24" "QTM");
   (["quantum-ultrium-td4"], drive_profile "QUANTUM" "ULTRIUM-TD4" "6.24" "QTM");
   (["quantum-ultrium-td5"], drive_profile "QUANTUM" "ULTRIUM-TD5" "6.24" "QTM");
   (["quantum-ultrium-td6"], drive_profile "QUANTUM" "ULTRIUM-TD6" "6.24" "QTM");
   (["quantum-ultrium-td7"], drive_profile "QUANTUM" "ULTRIUM-TD7" "6.24" "QTM");
   (["quantum-ultrium-td8"], drive_profile "QUANTUM" "ULTRIUM-TD8" "6.24" "QTM");
   (["quantum-ultrium-td9"], drive_profile "QUANTUM" "ULTRIUM-TD9" "6.24" "QTM");
   (["quantum-ultrium-tda"], drive_profile "QUANTUM" "ULTRIUM-TDA" "6.24" "QTM");
   (["stk-t9840a"], drive_profile "STK" "T9840A" "1.00" "STK");
   (["stk-t9840b"], drive_profile "STK" "T9840B" "1.00" "STK");
   (["stk-t9840c"], drive_profile "STK" "T9840C" "1.00" "STK");
   (["stk-t9840d"], drive_profile "STK" "T9840D" "1.00" "STK");
   (["stk-t9940a"], drive_profile "STK" "T9940A" "1.00" "STK");
   (["stk-t9940b"], drive_profile "STK" "T9940B" "1.00" "STK");
   (["stk-t10000a"], drive_profile "STK" "T10000A" "1.00" "STK");
   (["stk-t10000b"], drive_profile "STK" "T10000B" "1.00" "STK");
   (["stk-t10000c"], drive_profile "STK" "T10000C" "1.00" "STK");
   (["stk-t10000d"], drive_profile "STK" "T10000D" "1.00" "STK");
   (["ibm-03592j1a"], drive_profile "IBM" "03592J1A" "1.00" "IBM");
   (["ibm-03592e05"], drive_profile "IBM" "03592E05" "1.00" "IBM");
   (["ibm-03592e06"], drive_profile "IBM" "03592E06" "1.00" "IBM");
   (["drive_type_vhp_dltvs80"; "drive-type-vhp-dltvs80"; "hp-dlt-vs80"], drive_profile "HP" "DLT VS80" "6.24" "HP");
   (["drive_type_vhp_dltvs160"; "drive-type-vhp-dltvs160"; "hp-dlt-vs160"], drive_profile "HP" "DLT VS160" "6.24" "HP");
   (["drive_type_vhp_sdlt220"; "drive-type-vhp-sdlt220"; "hp-sdlt220"], drive_profile "COMPAQ" "SDLT1" "6.24" "CPQ");
   (["drive_type_vhp_sdlt320"; "drive-type-vhp-sdlt320"; "hp-sdlt320"], drive_profile "COMPAQ" "SDLT320" "6.24" "CPQ");
   (["drive_type_vhp_sdlt600"; "drive-type-vhp-sdlt600"; "hp-sdlt600"], drive_profile "HP" "SDLT600" "6.24" "HP");
   (["drive_type_vquantum_sdlt220"; "drive-type-vquantum-sdlt220"; "quantum-sdlt220"], drive_profile "QUANTUM" "SuperDLT1" "6.24" "QTM");
   (["drive_type_vquantum_sdlt320"; "drive-type-vquantum-sdlt320"; "quantum-sdlt320"], drive_profile "QUANTUM" "SDLT320" "6.24" "QTM");
   (["drive_type_vquantum_sdlt600"; "drive-type-vquantum-sdlt600"; "quantum-sdlt600"], drive_profile "QUANTUM" "SDLT600" "6.24" "QTM");
   (["holo-lto9"; "holo"], drive_profile "HOLO" "VIRTUAL TAPE" "0001" "VTX")
  ]%string.

Definition changer_profiles : list (list string * DeviceIdentityProfile) :=
  [
   (["library_type_vadic_scalar24"; "library-type-vadic-scalar24"; "adic-scalar-24"], changer_profile "ADIC" "Scalar 24" "6.24" "ADIC" 24);
   (["library_type_vadic_scalar100"; "library-type-vadic-scalar100"; "adic-scalar-100"], changer_profile "ADIC" "Scalar 100" "6.24" "ADIC" 24);
   (["library_type_vadic_scalari2000"; "library-type-vadic-scalari2000"; "adic-scalar-i2000"], changer_profile "ADIC" "Scalar i2000" "6.24" "ADIC" 24);
   (["library_type_vadic_scalari500"; "library-type-vadic-scalari500"; "adic-scalar-i500"], changer_profile "ADIC" "Scalar i500" "100A" "ADIC" 24);
   (["library_type_vhp_esl9000"; "library-type-vhp-esl9000"; "hp-esl9000-series"], changer_profile "HP" "ESL9000 Series" "6.24" "HP" 10);
   (["library_type_vhp_eslseries"; "library-type-vhp-eslseries"; "hp-esl-e-series"], changer_profile "HP" "ESL E-Series" "6.24" "HP" 10);
   (["library_type_vhp_emlseries"; "library-type-vhp-emlseries"; "hp-eml-e-series"], changer_profile "HP" "EML E-Series" "6.24" "HP" 10);
   (["library_type_vhp_mslseries"; "library-type-vhp-mslseries"; "hp-msl-g3-series"], changer_profile "HP" "MSL G3 Series" "6.24" "HP" 10);
   (["hp-msl2024"; "hp-hpe-msl2024"; "hphpe-msl2024"; "hphpe-hphpe-msl2024"], changer_profile "HP" "MSL2024" "6.24" "HP" 10);
   (["hp-msl4048"; "hp-hpe-msl4048"; "hphpe-msl4048"; "hphpe-hphpe-msl4048"], changer_profile "HP" "MSL4048" "6.24" "HP" 10);
   (["hp-msl8096"; "hp-hpe-msl8096"; "hphpe-msl8096"; "hphpe-hphpe-msl8096"], changer_profile "HP" "MSL8096" "6.24" "HP" 10);
   (["library_type_vhp_msl6000"; "library-type-vhp-msl6000"; "hp-msl6000-series"], changer_profile "HP" "MSL6000 Series" "6.24" "HP" 10);
   (["hpe-msl3040"], changer_profile "HPE" "MSL3040" "6.24" "HPE" 10);
   (["hpe-msl6480"], changer_profile "HPE" "MSL6480" "6.24" "HPE" 10);
   (["library_type_vovl_neoseries"; "library-type-vovl-neoseries"; "overland-neo-series"], changer_profile "OVERLAND" "NEO Series" "6.24" "OVL" 10);
   (["overland-flexstor-ii"], changer_profile "OVERLAND" "FlexStor II" "6.24" "OVL" 10);
   (["overland-neoxl-multistak"], changer_profile "OVERLAND" "MULTISTAK" "6.24" "OVL" 10);
   (["tandberg-neos-t24"], changer_profile "TANDBERG" "NEOs T24" "6.24" "TAN" 10);
   (["tandberg-neoxl-40"], changer_profile "TANDBERG" "NEOxl 40" "6.24" "TAN" 10);
   (["tandberg-neoxl-80"], changer_profile "TANDBERG" "NEOxl 80" "6.24" "TAN" 10);
   (["library_type_vibm_3583"; "library-type-vibm-3583"; "ibm-ult3583-tl"], ibm_changer_profile "ULT3583-TL" "6.24" 14 0x03 0x00 "" true);
   (["library_type_vibm_3584"; "library-type-vibm-3584"; "ibm-03584l32"; "ibm-03584l42"], ibm_changer_profile "03584L32" "6.24" 12 0x03 0x20 "0400" false);
   (["library_type_vibm_ts3100"; "library-type-vibm-ts3100"; "ibm-3573-tl"], ibm_changer_profile "3573-TL" "6.24" 12 0x05 0x00 "_LL3" true);
   (["ibm-ts3310"], ibm_changer_profile "TS3310" "6.24" 12 0x05 0x00 "_LL3" true);
   (["ibm-ts4300"], ibm_changer_profile "TS4300" "6.24" 12 0x05 0x00 "_LL3" true);
   (["ibm-ts4500"], ibm_changer_profile "TS4500" "6.24" 12 0x05 0x00 "_LL3" true);
   (["ibm-diamondback"], ibm_changer_profile "Diamondback" "6.24" 12 0x05 0x00 "_LL3" true);
   (["probe-ibm-03584l32-rev-0402"], ibm_changer_profile "03584L32" "0402" 12 0x03 0x20 "0402" false);
   (["probe-ibm-03584l32-ts3500-rev-0402"], ibm_changer_profile "03584L32 TS3500" "0402" 12 0x03 0x20 "0402" false);
   (["probe-ibm-03584l32-ts3500-rev-624"], ibm_changer_profile "03584L32 TS3500" "6.24" 12 0x03 0x20 "0400" false);
   (["probe-adic-scalar-i500-rev-200g"], changer_profile "ADIC" "Scalar i500" "200G" "ADIC" 24);
   (["probe-adic-scalar-i500-rev-624"], changer_profile "ADIC" "Scalar i500" "6.24" "ADIC" 24);
   (["library_type_vquantum_m2500"; "library-type-vquantum-m2500"; "quantum-2500"], changer_profile "ATL" "2500" "6.24" "QTM" 10);
   (["quantum-scalar-i40"], changer_profile "QUANTUM" "Scalar i40" "6.24" "QTM" 24);
   (["quantum-scalar-i80"], changer_profile "QUANTUM" "Scalar i80" "6.24" "QTM" 24);
   (["quantum-scalar-i6000"], changer_profile "QUANTUM" "Scalar i6000" "6.24" "QTM" 24);
   (["quantum-scalar-i3"], changer_profile "QUANTUM" "Scalar i3" "6.24" "QTM" 24);
   (["quantum-scalar-i6"], changer_profile "QUANTUM" "Scalar i6" "6.24" "QTM" 24);
   (["quantum-superloader-3"], changer_profile "QUANTUM" "SuperLoader 3" "6.24" "QTM" 10);
   (["dell-tl1000"], changer_profile "DELL" "TL1000" "6.24" "DELL" 10);
   (["dell-tl2000"], changer_profile "DELL" "TL2000" "6.24" "DELL" 10);
   (["dell-tl4000"], changer_profile "DELL" "TL4000" "6.24" "DELL" 10);
   (["dell-ml3"], changer_profile "DELL" "ML3" "6.24" "DELL" 10);
   (["dell-ml6000"], changer_profile "DELL" "ML6000" "6.24" "DELL" 10);
   (["stk-l20"], changer_profile "STK" "L20" "1.00" "STK" 10);
   (["stk-l80"], changer_profile "STK" "L80" "1.00" "STK" 10);
   (["stk-l700"], changer_profile "STK" "L700" "1.00" "STK" 10);
   (["stk-sl150"], changer_profile "STK" "SL150" "1.00" "STK" 10);
   (["stk-sl3000"], changer_profile "STK" "SL3000" "1.00" "STK" 10);
   (["stk-sl4000"], changer_profile "STK" "SL4000" "1.00" "STK" 10);
   (["stk-sl8500"], changer_profile "STK" "SL8500" "1.00" "STK" 10);
   (["spectra-t50e"], changer_profile "SPECTRA" "T50e" "1.00" "SPC" 10);
   (["spectra-t120"], changer_profile "SPECTRA" "T120" "1.00" "SPC" 10);
   (["spectra-t200"], changer_profile "SPECTRA" "T200" "1.00" "SPC" 10);
   (["spectra-t380"], changer_profile "SPECTRA" "T380" "1.00" "SPC" 10);
   (["spectra-t680"], changer_profile "SPECTRA" "T680" "1.00" "SPC" 10);
   (["spectra-t950"], changer_profile "SPECTRA" "T950" "1.00" "SPC" 10);
   (["spectra-t950v"], changer_profile "SPECTRA" "T950v" "1.00" "SPC" 10);
   (["spectra-tfinity"], changer_profile "SPECTRA" "TFinity" "1.00" "SPC" 10);
   (["spectra-tfinity-exascale"], changer_profile "SPECTRA" "TFinity ExaScale" "1.00" "SPC" 10);
   (["spectra-stack"], changer_profile "SPECTRA" "Stack" "1.00" "SPC" 10);
   (["spectra-python"], changer_profile "SPECTRA" "PYTHON" "1.00" "SPC" 10)
  ]%string.

Definition profile_key (name : string) : string :=
  string_of_bytes (map to_ascii_lowercase (trim (bytes_of_string name))).
Definition find_profile (key : string) (table : list (list string * DeviceIdentityProfile))
  : option DeviceIdentityProfile :=
  snd <$> List.find (fun e => bool_decide (key ∈ e.1)) table.

Definition resolve_drive_profile (name : string) : DeviceIdentityProfile :=
  default (drive_profile "IBM" "ULT3580-TD6" "D711" "IBM") (find_profile (profile_key name) drive_profiles).
Definition resolve_changer_profile (name : string) : DeviceIdentityProfile :=
  default (ibm_changer_profile "03584L32" "6.24" 12 0x03 0x20 "0400" false)
    (find_profile (profile_key name) changer_profiles).

Section Env.
Context `{ENV : Environ}.
Definition role_from_env : DeviceRole :=
  match getenv "HOLO_SCSI_DEVICE_ROLE" with
  | Some raw => if decide (map to_ascii_lowercase (trim raw) = bytes_of_string "changer") then RoleChanger else RoleDrive
  | None => RoleDrive
  end.
Definition resolve_drive_profile_from_env : DeviceIdentityProfile :=
  resolve_drive_profile (match getenv "HOLO_TAPE_DRIVE_PROFILE" with
                         | Some raw => string_of_bytes raw | None => DEFAULT_DRIVE_PROFILE end).
Definition resolve_changer_profile_from_env : DeviceIdentityProfile :=
  resolve_changer_profile (match getenv "HOLO_SCSI_CHANGER_PROFILE" with
                           | Some raw => string_of_bytes raw | None => DEFAULT_CHANGER_PROFILE end).
Definition resolve_active_profile_from_env : DeviceIdentityProfile :=
  match role_from_env with
  | RoleDrive => resolve_drive_profile_from_env
  | RoleChanger => resolve_changer_profile_from_env
  end.
End Env.

(** ** Medium auxiliary memory baseline *)
Record MamBaselineRecord : Type := mkMamBaseline {
  mb_cartridge_id : string;
  mb_barcode : string;
  mb_media_type : string;
  mb_capacity_bytes : Z;
  mb_remaining_bytes : Z
}.

Definition build_mam_baseline (s : TapeState) (barcode media_type : string) (capacity remaining : Z)
  : Result TapeError MamBaselineRecord :=
  if decide (mount_state s = Empty) then Err (NotReady "no media loaded")
  else if decide (capacity < remaining) then Err (InvalidProfile "remaining bytes cannot exceed capacity")
  else
    let? id := ok_or (cartridge_id s) (NotReady "missing cartridge id") in
    Ok (mkMamBaseline id barcode media_type capacity remaining).

Definition write_tlv (tag : Z) (value : list Z) : list Z := tag :: to_be 2 (as_u16 (Zlen value)) ++ value.
Definition encode_mam_baseline (r : MamBaselineRecord) : list Z :=
  write_tlv 0x01 (bytes_of_string (mb_cartridge_id r)) ++ write_tlv 0x02 (bytes_of_string (mb_barcode r)) ++
  write_tlv 0x03 (bytes_of_string (mb_media_type r)) ++ write_tlv 0x04 (to_be 8 (mb_capacity_bytes r)) ++
  write_tlv 0x05 (to_be 8 (mb_remaining_bytes r)).
