(* ===== verification/Wire.v ===== *)
(** * The CDB wire protocol (iscsi/cdb_wire.rs)

    Request and response frames between the TCMU handler and the data plane,
    their encoders and their decoders as readers of a byte stream. *)

From S2P Require Import Prelude Bytes Text Errors.

Definition SCSI_STATUS_GOOD : Z := 0x00.
Definition SCSI_STATUS_CHECK_CONDITION : Z := 0x02.
Definition SCSI_STATUS_BUSY : Z := 0x08.
Definition MAX_SENSE_LEN : Z := 252.
Definition MAX_DATA_LEN : Z := 16777216.
Definition EXTENDED_REQUEST_MARKER : Z := 0xFF.
Definition EXTENDED_REQUEST_VERSION : Z := 0x01.
Definition MAX_INITIATOR_LEN : Z := 255.

Record CdbPacketHeader : Type := mkPacketHeader {
  ph_cdb : list Z;
  ph_data_len : Z;
  ph_initiator : option string
}.
Record CdbPacket : Type := mkPacket {
  pk_cdb : list Z;
  pk_data : list Z;
  pk_initiator : option string
}.
Definition packet_new (cdb data : list Z) : CdbPacket := mkPacket cdb data None.
Definition packet_with_initiator (cdb data : list Z) (initiator : string) : CdbPacket :=
  mkPacket cdb data (Some initiator).

Definition cdb_len_ok (n : Z) : bool := bool_decide (n ∈ [6; 10; 12; 16]).

(** The initiator as it is sent: trimmed, and none when blank. *)
Definition sent_initiator (i : option string) : option (list Z) :=
  match i with
  | Some s => let t := trim (bytes_of_string s) in if decide (t = []) then None else Some t
  | None => None
  end.

(** The frame [encode] writes. *)
Definition packet_body (p : CdbPacket) : list Z :=
  [as_u8 (Zlen (pk_cdb p))] ++ pk_cdb p ++ to_be 4 (Zlen (pk_data p)) ++ pk_data p.
Definition packet_encode (p : CdbPacket) : Result IoError (list Z) :=
  if negb (cdb_len_ok (Zlen (pk_cdb p)))
  then Err (io_error KInvalidInput ("unsupported CDB length: " +:+ show_string (Zlen (pk_cdb p))))
  else if decide (MAX_DATA_LEN < Zlen (pk_data p)) then Err (io_error KInvalidInput "data too large")
  else match sent_initiator (pk_initiator p) with
       | Some i =>
           if decide (MAX_INITIATOR_LEN < Zlen i) then Err (io_error KInvalidInput "initiator too long")
           else Ok ([EXTENDED_REQUEST_MARKER; EXTENDED_REQUEST_VERSION; as_u8 (Zlen i)] ++ i ++ packet_body p)
       | None => Ok (packet_body p)
       end.

(** ** Reading *)
Definition read_exact (n : nat) : M (list Z) IoError (list Z) :=
  fun l => if decide (n <= length l)%nat then (Ok (take n l), drop n l)
           else (Err (io_error KUnexpectedEof "failed to fill whole buffer"), []).
Definition read_u8 : M (list Z) IoError Z := let! b := read_exact 1 in retM (byte_at b 0).

Definition read_initiator : M (list Z) IoError (option string) :=
  let! version := read_u8 in
  if decide (version <> EXTENDED_REQUEST_VERSION)
  then failM (io_error KInvalidData ("unsupported CDB frame version: " +:+ show_string version))
  else
    let! len := read_u8 in
    if decide (0 < len) then
      let! raw := read_exact (Z.to_nat len) in
      if negb (utf8_valid raw) then failM (io_error KInvalidData "initiator is not utf-8")
      else retM (if decide (trim raw = []) then None else Some (string_of_bytes (trim raw)))
    else retM None.

Definition decode_header : M (list Z) IoError CdbPacketHeader :=
  let! first := read_u8 in
  let! (initiator, len) :=
    (if decide (first = EXTENDED_REQUEST_MARKER) then
       let! i := read_initiator in let! len := read_u8 in retM (i, len)
     else retM (None, first)) in
  if negb (cdb_len_ok len)
  then failM (io_error KInvalidData ("unsupported CDB length: " +:+ show_string len))
  else
    let! cdb := read_exact (Z.to_nat len) in
    let! raw := read_exact 4 in
    let data_len := from_be raw in
    if decide (MAX_DATA_LEN < data_len)
    then failM (io_error KInvalidData ("data_len " +:+ show_string data_len +:+ " exceeds maximum 16777216"))
    else retM (mkPacketHeader cdb data_len initiator).

Definition packet_decode : M (list Z) IoError CdbPacket :=
  let! h := decode_header in
  let! data := read_exact (Z.to_nat (ph_data_len h)) in
  retM (mkPacket (ph_cdb h) data (ph_initiator h)).

(** ** Responses *)
Record CdbResponse : Type := mkResponse {
  rs_sense : list Z;
  rs_reply : list Z;
  rs_status : Z
}.
#[export] Instance eta_CdbResponse : Eta CdbResponse := fun r => mkResponse (rs_sense r) (rs_reply r) (rs_status r).
#[export] Instance CdbResponse_eq_dec : EqDecision CdbResponse.
Proof. solve_decision. Defined.
Definition good (reply : list Z) : CdbResponse := mkResponse [] reply SCSI_STATUS_GOOD.
Definition check_condition (sense : list Z) : CdbResponse := mkResponse sense [] SCSI_STATUS_CHECK_CONDITION.
Definition busy : CdbResponse := mkResponse [] [] SCSI_STATUS_BUSY.

Definition response_encode (r : CdbResponse) : Result IoError (list Z) :=
  if decide (MAX_SENSE_LEN < Zlen (rs_sense r)) then Err (io_error KInvalidInput "sense too long")
  else if decide (MAX_DATA_LEN < Zlen (rs_reply r)) then Err (io_error KInvalidInput "reply too large")
  else Ok ([as_u8 (Zlen (rs_sense r))] ++ rs_sense r ++ to_be 4 (Zlen (rs_reply r)) ++ rs_reply r ++ [rs_status r]).

Definition response_decode : M (list Z) IoError CdbResponse :=
  let! sense_len := read_u8 in
  let! sense := read_exact (Z.to_nat sense_len) in
  let! raw := read_exact 4 in
  let reply_len := from_be raw in
  if decide (MAX_DATA_LEN < reply_len)
  then failM (io_error KInvalidData ("reply_len " +:+ show_string reply_len +:+ " exceeds maximum 16777216"))
  else
    let! reply := read_exact (Z.to_nat reply_len) in
    let! status := read_u8 in
    retM (mkResponse sense reply status).

(** ** Round trips *)
Lemma read_exact_app l rest : read_exact (length l) (l ++ rest) = (Ok l, rest).
Proof.
  unfold read_exact. rewrite decide_True by (rewrite length_app; lia).
  by rewrite take_app_length, drop_app_length.
Qed.
Lemma read_exact_eq n l rest : n = length l -> read_exact n (l ++ rest) = (Ok l, rest).
Proof. intros ->. apply read_exact_app. Qed.
Lemma read_u8_cons b rest : read_u8 (b :: rest) = (Ok b, rest).
Proof. unfold read_u8, bindM. change (b :: rest) with ([b] ++ rest). by rewrite (read_exact_eq 1 [b] rest). Qed.

Lemma cdb_len_ok_inv n : cdb_len_ok n = true -> n = 6 \/ n = 10 \/ n = 12 \/ n = 16.
Proof. intros H%bool_decide_eq_true. set_solver. Qed.

(** An initiator that travels unchanged. *)
Definition wf_initiator (i : option string) : Prop :=
  match i with
  | Some s => let b := bytes_of_string s in trim b = b /\ b <> [] /\ utf8_valid b = true /\ Zlen b <= MAX_INITIATOR_LEN
  | None => True
  end.
Definition wf_packet (p : CdbPacket) : Prop :=
  cdb_len_ok (Zlen (pk_cdb p)) = true /\ Zlen (pk_data p) <= MAX_DATA_LEN /\ wf_initiator (pk_initiator p).

(** The part of a frame after the initiator. *)
Lemma decode_body p i rest :
  cdb_len_ok (Zlen (pk_cdb p)) = true -> Zlen (pk_data p) <= MAX_DATA_LEN ->
  (let! cdb := read_exact (length (pk_cdb p)) in
   let! raw := read_exact 4 in
   let data_len := from_be raw in
   if decide (MAX_DATA_LEN < data_len)
   then failM (io_error KInvalidData ("data_len " +:+ show_string data_len +:+ " exceeds maximum 16777216"))
   else retM (mkPacketHeader cdb data_len i))
    (pk_cdb p ++ to_be 4 (Zlen (pk_data p)) ++ pk_data p ++ rest) =
  (Ok (mkPacketHeader (pk_cdb p) (Zlen (pk_data p)) i), pk_data p ++ rest).
Proof.
  intros Hc Hd. rewrite (bindM_run _ _ _ _ _ (read_exact_app _ _)).
  rewrite (bindM_run _ _ _ _ _ (read_exact_eq 4 _ _ ltac:(by rewrite length_to_be))). cbn zeta.
  unfold MAX_DATA_LEN, Zlen in *. rewrite from_be_to_be by (cbn; lia). rewrite decide_False by lia. done.
Qed.

Lemma decode_header_encode p rest :
  wf_packet p ->
  exists frame, packet_encode p = Ok frame /\
    decode_header (frame ++ rest) =
      (Ok (mkPacketHeader (pk_cdb p) (Zlen (pk_data p)) (pk_initiator p)), pk_data p ++ rest).
Proof.
  intros (Hc & Hd & Hi). unfold packet_encode. rewrite Hc. cbn [negb]. rewrite decide_False by lia.
  assert (as_u8 (Zlen (pk_cdb p)) = Zlen (pk_cdb p)) as Hlen.
  { unfold as_u8. apply Z.mod_small. apply cdb_len_ok_inv in Hc. lia. }
  assert (Zlen (pk_cdb p) <> EXTENDED_REQUEST_MARKER) as Hm
    by (unfold EXTENDED_REQUEST_MARKER; apply cdb_len_ok_inv in Hc; lia).
  assert (Z.to_nat (Zlen (pk_cdb p)) = length (pk_cdb p)) as Hn by (unfold Zlen; lia).
  unfold packet_body. rewrite Hlen. unfold sent_initiator.
  destruct (pk_initiator p) as [i|] eqn:Ei; cbn [wf_initiator] in Hi.
  - destruct Hi as (Ht & Hne & Hu & Hl). cbn zeta. rewrite Ht, (decide_False (P := _ = [])), decide_False by (done || lia).
    eexists. split; [done|]. rewrite <- !app_assoc. cbn [app]. unfold decode_header.
    rewrite (bindM_run _ _ _ _ _ (read_u8_cons _ _)), decide_True by done.
    set (b := bytes_of_string i) in *.
    assert (as_u8 (Zlen b) = Zlen b) as Hb
      by (unfold as_u8, MAX_INITIATOR_LEN in *; apply Z.mod_small; unfold Zlen in *; lia).
    rewrite Hb. unfold bindM at 1. unfold bindM at 1. unfold read_initiator.
    rewrite (bindM_run _ _ _ _ _ (read_u8_cons _ _)), decide_False by (by intros H; apply H).
    rewrite (bindM_run _ _ _ _ _ (read_u8_cons _ _)).
    assert (0 < Zlen b) as Hpos by (unfold Zlen; destruct b; [done|cbn; lia]).
    rewrite decide_True by done.
    rewrite (bindM_run _ _ _ _ _ (read_exact_eq (Z.to_nat (Zlen b)) b _ ltac:(unfold Zlen; lia))).
    rewrite Hu. cbn [negb]. rewrite Ht, decide_False by done. cbn [retM].
    rewrite (bindM_run _ _ _ _ _ (read_u8_cons _ _)). cbn [retM]. rewrite Hc, Hn. cbn [negb].
    unfold b. rewrite string_of_bytes_of_string. by apply decode_body.
  - eexists. split; [done|]. rewrite <- !app_assoc. cbn [app]. unfold decode_header.
    rewrite (bindM_run _ _ _ _ _ (read_u8_cons _ _)), decide_False by done.
    unfold bindM at 1. cbn [retM]. rewrite Hc, Hn. cbn [negb]. by apply decode_body.
Qed.

Definition wf_response (r : CdbResponse) : Prop :=
  Zlen (rs_sense r) <= MAX_SENSE_LEN /\ Zlen (rs_reply r) <= MAX_DATA_LEN.

Lemma response_decode_encode r rest :
  wf_response r -> exists frame, response_encode r = Ok frame /\ response_decode (frame ++ rest) = (Ok r, rest).
Proof.
  unfold wf_response, MAX_SENSE_LEN, MAX_DATA_LEN. intros (Hs & Hr). unfold response_encode.
  unfold MAX_SENSE_LEN, MAX_DATA_LEN. rewrite !decide_False by lia. eexists. split; [done|].
  rewrite <- !app_assoc. cbn [app]. unfold response_decode.
  assert (as_u8 (Zlen (rs_sense r)) = Zlen (rs_sense r)) as -> by (unfold as_u8, Zlen in *; apply Z.mod_small; lia).
  rewrite (bindM_run _ _ _ _ _ (read_u8_cons _ _)).
  rewrite (bindM_run _ _ _ _ _ (read_exact_eq (Z.to_nat (Zlen (rs_sense r))) (rs_sense r) _ ltac:(unfold Zlen; lia))).
  rewrite (bindM_run _ _ _ _ _ (read_exact_eq 4 _ _ ltac:(by rewrite length_to_be))). cbn zeta.
  rewrite from_be_to_be by (unfold Zlen in *; cbn; lia). unfold MAX_DATA_LEN. rewrite decide_False by lia.
  rewrite (bindM_run _ _ _ _ _ (read_exact_eq (Z.to_nat (Zlen (rs_reply r))) (rs_reply r) _ ltac:(unfold Zlen; lia))).
  rewrite (bindM_run _ _ _ _ _ (read_u8_cons _ _)). by destruct r.
Qed.

(** C25: a request and a response travel unchanged: both encode, and decoding the
    frame at the head of a stream gives them back and leaves the rest of the
    stream. *)
Theorem frames_roundtrip p r rest :
  wf_packet p -> wf_response r ->
  exists request response,
    packet_encode p = Ok request /\ packet_decode (request ++ rest) = (Ok p, rest) /\
    response_encode r = Ok response /\ response_decode (response ++ rest) = (Ok r, rest).
Proof.
  intros Hp Hr. destruct (decode_header_encode p rest Hp) as (fp & Ep & Dp).
  destruct (response_decode_encode r rest Hr) as (fr & Er & Dr).
  exists fp, fr. split_and!; [done| |done..]. unfold packet_decode.
  rewrite (bindM_run _ _ _ _ _ Dp). cbn [ph_data_len ph_cdb ph_initiator].
  rewrite (bindM_run _ _ _ _ _ (read_exact_eq (Z.to_nat (Zlen (pk_data p))) (pk_data p) _ ltac:(unfold Zlen; lia))). by destruct p.
Qed.

Lemma frames_roundtrip_witness :
  exists request response,
    packet_encode (packet_with_initiator [0x0A; 0; 0; 0; 3; 0] [1; 2; 3] "iqn.host") = Ok request /\
    packet_decode (request ++ [7]) = (Ok (packet_with_initiator [0x0A; 0; 0; 0; 3; 0] [1; 2; 3] "iqn.host"), [7]) /\
    response_encode (good [9; 9]) = Ok response /\ response_decode (response ++ [7]) = (Ok (good [9; 9]), [7]).
Proof.
  apply (frames_roundtrip (packet_with_initiator [0x0A; 0; 0; 0; 3; 0] [1; 2; 3] "iqn.host") (good [9; 9]) [7]).
  - split; [by vm_compute|]. split; [by vm_compute|]. split; [by vm_compute|]. split; [done|].
    split; by vm_compute.
  - split; by vm_compute.
Defined.
