(* ===== verification/Compression.v ===== *)
(** * Payload compression (storage/compression.rs)

    The codec choice, the run-length codec of the repository itself, and the
    LZ4 and zlib codecs of [lz4_flex] and [flate2] through what the storage
    engine relies on. *)

From S2P Require Import Prelude Bytes Text Errors.

Definition MAX_DECOMPRESSED_PAYLOAD_LEN : Z := 16 * 2 ^ 20.

Inductive CompressionCodec : Type := CNone | Rle | Lz4 | Zlib.
#[export] Instance CompressionCodec_eq_dec : EqDecision CompressionCodec.
Proof. solve_decision. Defined.

Definition codec_as_u8 (c : CompressionCodec) : Z :=
  match c with CNone => 0 | Rle => 1 | Lz4 => 2 | Zlib => 3 end.
Definition CompressionCodec_from_u8 (v : Z) : Result StorageError CompressionCodec :=
  match v with
  | 0 => Ok CNone | 1 => Ok Rle | 2 => Ok Lz4 | 3 => Ok Zlib
  | _ => Err (Corrupt "invalid compression codec")
  end.

Lemma codec_from_as c : CompressionCodec_from_u8 (codec_as_u8 c) = Ok c.
Proof. by destruct c. Qed.

Record CompressionStats : Type := mkStats {
  input_bytes : Z; stored_bytes : Z; compressed_writes : Z; bypassed_writes : Z;
  rle_writes : Z; lz4_writes : Z; zlib_writes : Z; dedup_hits : Z; collision_events : Z
}.
#[export] Instance eta_CompressionStats : Eta CompressionStats := fun r =>
  mkStats (input_bytes r) (stored_bytes r) (compressed_writes r) (bypassed_writes r)
    (rle_writes r) (lz4_writes r) (zlib_writes r) (dedup_hits r) (collision_events r).
Definition default_stats : CompressionStats := mkStats 0 0 0 0 0 0 0 0 0.

Definition record_write (input_len stored_len : Z) (codec : CompressionCodec) (compressed : bool)
  (s : CompressionStats) : CompressionStats :=
  let s := s <| input_bytes := input_bytes s + input_len |>
             <| stored_bytes := stored_bytes s + stored_len |> in
  if compressed && negb (bool_decide (codec = CNone)) then
    let s := s <| compressed_writes := compressed_writes s + 1 |> in
    match codec with
    | Rle => s <| rle_writes := rle_writes s + 1 |>
    | Lz4 => s <| lz4_writes := lz4_writes s + 1 |>
    | Zlib => s <| zlib_writes := zlib_writes s + 1 |>
    | CNone => s
    end
  else s <| bypassed_writes := bypassed_writes s + 1 |>.
Definition record_dedup_hit (s : CompressionStats) : CompressionStats :=
  s <| dedup_hits := dedup_hits s + 1 |>.
Definition record_collision (s : CompressionStats) : CompressionStats :=
  s <| collision_events := collision_events s + 1 |>.

(** ** Run-length coding: pairs of a run length in 1..255 and a byte *)

(** The inner loop: how many more bytes equal to [b] follow, up to [room]. *)
Fixpoint extend_run (room : nat) (b : Z) (l : list Z) : nat :=
  match room, l with
  | S room', c :: l' => if decide (c = b) then S (extend_run room' b l') else O
  | _, _ => O
  end.

(** The outer loop; every round consumes at least one byte, so the payload's
    length is enough fuel. *)
Fixpoint rle_encode_loop (fuel : nat) (l : list Z) : list Z :=
  match fuel, l with
  | S f, b :: l' =>
      let more := extend_run 254 b l' in
      Z.of_nat (S more) :: b :: rle_encode_loop f (drop more l')
  | _, _ => []
  end.
Definition rle_encode (payload : list Z) : list Z := rle_encode_loop (length payload) payload.

Fixpoint rle_decode_loop (l : list Z) : Result StorageError (list Z) :=
  match l with
  | run :: value :: l' =>
      if decide (run = 0) then Err (Corrupt "rle run length cannot be zero")
      else let? out := rle_decode_loop l' in Ok (replicate (Z.to_nat run) value ++ out)
  | _ => Ok []
  end.
Definition rle_decode (payload : list Z) : Result StorageError (list Z) :=
  if decide (Zlen payload mod 2 <> 0) then Err (Corrupt "rle payload malformed")
  else rle_decode_loop payload.

(** ** Library codecs *)
Class BlockCodecs : Type := {
  lz4_compress_prepend_size : list Z -> list Z;
  lz4_decompress_size_prepended : list Z -> option (list Z);
  zlib_compress : list Z -> list Z;
  (** the bytes a decoder delivers when asked for at most [n] of them *)
  zlib_read : nat -> list Z -> Result IoError (list Z)
}.

(** Documented behaviour: the LZ4 block starts with the little-endian length of
    the input and decompresses to it; a zlib stream decodes to its input. *)
Class BlockCodecsLaws `{B : BlockCodecs} : Prop := {
  lz4_size_header p : Zlen p <= U32_MAX -> take 4 (lz4_compress_prepend_size p) = to_le 4 (Zlen p);
  lz4_roundtrip p : lz4_decompress_size_prepended (lz4_compress_prepend_size p) = Some p;
  zlib_roundtrip p n : zlib_read n (zlib_compress p) = Ok (take n p)
}.

Section Payload.
Context `{B : BlockCodecs}.

Definition keep_if_smaller (codec : CompressionCodec) (encoded payload : list Z)
  : CompressionCodec * list Z * bool :=
  if decide (length payload <= length encoded)%nat then (CNone, payload, false)
  else (codec, encoded, true).

Definition compress_payload (codec : CompressionCodec) (payload : list Z)
  : CompressionCodec * list Z * bool :=
  match codec with
  | CNone => (CNone, payload, false)
  | Rle => keep_if_smaller Rle (rle_encode payload) payload
  | Lz4 => keep_if_smaller Lz4 (lz4_compress_prepend_size payload) payload
  | Zlib => keep_if_smaller Zlib (zlib_compress payload) payload
  end.

Definition ensure_decompressed_len_within_limit (expected_len : Z) : Result StorageError unit :=
  if decide (MAX_DECOMPRESSED_PAYLOAD_LEN < expected_len)
  then Err (Corrupt ("decompressed payload length " +:+ show_string expected_len
                     +:+ " exceeds maximum " +:+ show_string MAX_DECOMPRESSED_PAYLOAD_LEN))
  else Ok tt.

Definition lz4_prepended_len (payload : list Z) : Result StorageError Z :=
  if decide (length payload < 4)%nat then Err (Corrupt "lz4 payload missing size header")
  else
    let declared := from_le (take 4 payload) in
    let? _ := ensure_decompressed_len_within_limit declared in
    Ok declared.

Definition check_len (msg : string) (out : list Z) (expected_len : Z) : Result StorageError (list Z) :=
  if decide (Zlen out <> expected_len) then Err (Corrupt msg) else Ok out.

Definition decompress_payload (codec : CompressionCodec) (payload : list Z) (expected_len : Z)
  : Result StorageError (list Z) :=
  let? _ := ensure_decompressed_len_within_limit expected_len in
  match codec with
  | CNone => check_len "raw payload length mismatch" payload expected_len
  | Rle =>
      let? decoded := rle_decode payload in
      check_len "decoded payload length mismatch" decoded expected_len
  | Lz4 =>
      let? declared := lz4_prepended_len payload in
      if decide (declared <> expected_len) then Err (Corrupt "decoded payload length mismatch")
      else
        let? decoded := ok_or (lz4_decompress_size_prepended payload) (Corrupt "lz4 decompress") in
        check_len "decoded payload length mismatch" decoded expected_len
  | Zlib =>
      let? decoded := map_err storage_error_of_io (zlib_read (S (Z.to_nat expected_len)) payload) in
      check_len "decoded payload length mismatch" decoded expected_len
  end.
End Payload.

(** ** Run-length coding is invertible *)
Lemma extend_run_le room b l : (extend_run room b l <= room)%nat.
Proof.
  revert l; induction room as [|room IH]; intros [|c l]; simpl; try lia.
  case_decide; [specialize (IH l)|]; lia.
Qed.

Lemma extend_run_split room b l :
  l = replicate (extend_run room b l) b ++ drop (extend_run room b l) l.
Proof.
  revert l; induction room as [|room IH]; intros [|c l]; simpl; try done.
  case_decide; simpl; [subst; by rewrite <- IH | done].
Qed.

Lemma rle_encode_loop_even f l : Zlen (rle_encode_loop f l) mod 2 = 0.
Proof.
  revert l; induction f as [|f IH]; intros [|b l]; try done. cbn [rle_encode_loop].
  set (rest := rle_encode_loop _ _).
  assert (Zlen (Z.of_nat (S (extend_run 254 b l)) :: b :: rest) = Zlen rest + 1 * 2) as ->
    by (unfold Zlen; simpl length; lia).
  rewrite Z_mod_plus_full. apply IH.
Qed.

Lemma rle_decode_encode_loop f l :
  (length l <= f)%nat -> rle_decode_loop (rle_encode_loop f l) = Ok l.
Proof.
  revert l; induction f as [|f IH]; intros [|b l] Hf; simpl in Hf; try done; [lia|].
  cbn [rle_encode_loop rle_decode_loop]. rewrite decide_False by lia.
  rewrite IH by (rewrite length_drop; lia). cbn [rbind].
  rewrite Nat2Z.id. cbn [replicate app]. by rewrite <- extend_run_split.
Qed.

Lemma rle_decode_encode l : rle_decode (rle_encode l) = Ok l.
Proof.
  unfold rle_decode, rle_encode. rewrite rle_encode_loop_even, decide_False by lia.
  by apply rle_decode_encode_loop.
Qed.

(** The run length is stored in one byte. *)
Lemma rle_encode_loop_ok f l : bytes_ok l -> bytes_ok (rle_encode_loop f l).
Proof.
  revert l; induction f as [|f IH]; intros [|b l] Hl; try by constructor.
  apply Forall_cons in Hl as [Hb Hl]. cbn [rle_encode_loop].
  pose proof (extend_run_le 254 b l).
  apply Forall_cons; split; [unfold u8_ok; lia|].
  apply Forall_cons; split; [done|]. apply IH, Forall_drop, Hl.
Qed.

Lemma keep_if_smaller_len c e p :
  (length (snd (fst (keep_if_smaller c e p))) <= length p)%nat.
Proof. unfold keep_if_smaller; case_decide; simpl; lia. Qed.

Lemma check_len_eq msg out n : Zlen out = n -> check_len msg out n = Ok out.
Proof. intros; unfold check_len; by rewrite decide_False by tauto. Qed.

Lemma within_limit_ok n :
  n <= MAX_DECOMPRESSED_PAYLOAD_LEN -> ensure_decompressed_len_within_limit n = Ok tt.
Proof. intros; unfold ensure_decompressed_len_within_limit; by rewrite decide_False by lia. Qed.

Section Roundtrip.
Context `{BL : BlockCodecsLaws}.

Lemma decompress_none p :
  Zlen p <= MAX_DECOMPRESSED_PAYLOAD_LEN -> decompress_payload CNone p (Zlen p) = Ok p.
Proof. intros; unfold decompress_payload. rewrite within_limit_ok by done. by apply check_len_eq. Qed.

Lemma decompress_encoded codec p :
  Zlen p <= MAX_DECOMPRESSED_PAYLOAD_LEN ->
  decompress_payload codec
    match codec with
    | CNone => p | Rle => rle_encode p | Lz4 => lz4_compress_prepend_size p | Zlib => zlib_compress p
    end (Zlen p) = Ok p.
Proof.
  intros Hp. assert (Zlen p <= U32_MAX) as Hp32 by (unfold MAX_DECOMPRESSED_PAYLOAD_LEN in Hp; lia).
  unfold decompress_payload. rewrite within_limit_ok by done. cbn [rbind].
  destruct codec.
  - by apply check_len_eq.
  - rewrite rle_decode_encode. by apply check_len_eq.
  - unfold lz4_prepended_len. pose proof (lz4_size_header p Hp32) as Hh.
    rewrite decide_False.
    2: { intros Hlt. apply (f_equal length) in Hh. rewrite length_take, length_to_le in Hh. lia. }
    rewrite Hh, from_le_to_le, within_limit_ok by (unfold Zlen in *; simpl; lia). cbn [rbind].
    rewrite decide_False by tauto. rewrite lz4_roundtrip. by apply check_len_eq.
  - rewrite zlib_roundtrip. cbn [map_err rbind]. rewrite take_ge by (unfold Zlen; lia).
    by apply check_len_eq.
Qed.

(** C24: round trip of stored payloads.  Whatever codec is configured, a payload
    of at most 16 MiB is stored in no more bytes than it has, and decompressing
    what was stored with the codec that was recorded gives it back; the
    compressed flag is set exactly when a codec was used. *)
Theorem compression_roundtrip codec payload :
  Zlen payload <= MAX_DECOMPRESSED_PAYLOAD_LEN ->
  let '(used, stored, compressed) := compress_payload codec payload in
  decompress_payload used stored (Zlen payload) = Ok payload /\
  Zlen stored <= Zlen payload /\
  (compressed = true <-> used <> CNone).
Proof.
  intros Hp. pose proof (decompress_encoded codec payload Hp) as Hd.
  pose proof (decompress_none payload Hp) as Hn.
  unfold compress_payload, keep_if_smaller, Zlen.
  destruct codec; repeat case_decide; (split; [done|]); (split; [lia|]); split; congruence.
Qed.
End Roundtrip.


(** Codecs with the documented behaviour: LZ4 that only prepends the length and
    zlib that stores its input. *)
Definition identity_codecs : BlockCodecs := {|
  lz4_compress_prepend_size p := to_le 4 (Zlen p) ++ p;
  lz4_decompress_size_prepended d := Some (drop 4 d);
  zlib_compress p := p;
  zlib_read n d := Ok (take n d)
|}.
Lemma identity_codecs_laws : @BlockCodecsLaws identity_codecs.
Proof.
  split; intros; simpl; [by rewrite take_app_length'| |done].
  by rewrite drop_app_length'.
Defined.

Lemma compression_roundtrip_witness :
  decompress_payload (B := identity_codecs) Rle [5; 7] 5 = Ok [7; 7; 7; 7; 7].
Proof.
  assert (Zlen [7; 7; 7; 7; 7] <= MAX_DECOMPRESSED_PAYLOAD_LEN) as Hp by (vm_compute; congruence).
  destruct (compression_roundtrip (BL := identity_codecs_laws) Rle [7; 7; 7; 7; 7] Hp) as [H _].
  exact H.
Defined.

