(* ===== verification/Records.v ===== *)
(** * On-disk records

    The fixed-size records of the metadata segments, with their encoders and
    decoders: block map (storage/blk_map.rs), lookup (storage/map_lookup.rs),
    dedup index (storage/dedup.rs), segment descriptors
    (storage/segment_index.rs), reclaim candidates (storage/reclaim.rs) and the
    metadata checkpoint (storage/metadata.rs).  [RecordCodec] is the interface
    the record logs are proved against. *)

From S2P Require Import Prelude Bytes Text Errors Layout Compression.

(** ** Records of a fixed size *)
Class RecordCodec (A : Type) : Type := {
  rec_size : nat;
  rec_encode : A -> list Z;
  rec_decode : list Z -> Result StorageError A;
  rec_wf : A -> Prop
}.
Class RecordCodecLaws (A : Type) `{RecordCodec A} : Prop := {
  rec_size_pos : (0 < rec_size)%nat;
  rec_encode_length a : length (rec_encode a) = rec_size;
  rec_decode_encode a : rec_wf a -> rec_decode (rec_encode a) = Ok a
}.

(** The loop every decoder of a record sequence runs: consecutive slices of
    [n] bytes.  A final partial slice is kept, as [payload[offset..]] is. *)
Fixpoint chunks (fuel n : nat) (l : list Z) : list (list Z) :=
  match fuel, l with
  | S f, _ :: _ => take n l :: chunks f n (drop n l)
  | _, _ => []
  end.
Definition chunks_of (n : nat) (l : list Z) : list (list Z) := chunks (length l) n l.

Lemma chunks_concat n ls :
  (0 < n)%nat -> Forall (fun l => length l = n) ls -> chunks_of n (concat ls) = ls.
Proof.
  intros Hn Hls. unfold chunks_of. generalize (le_n (length (concat ls))).
  generalize (length (concat ls)) at 2 3. intros f. revert f.
  induction Hls as [|l ls Hl _ IH]; intros f Hf; [by destruct f|].
  cbn [concat] in *. rewrite length_app in Hf. destruct f as [|f]; [lia|].
  destruct (l ++ concat ls) as [|b bs] eqn:E.
  { apply (f_equal length) in E. rewrite length_app in E. cbn in E. lia. }
  cbn [chunks]. rewrite <- E, take_app_length', drop_app_length' by done. f_equal. apply IH. lia.
Qed.

Section Sequences.
Context {A : Type} `{RecordCodecLaws A}.

Definition encode_all (rs : list A) : list Z := concat (map rec_encode rs).
Definition decode_all (body : list Z) : Result StorageError (list A) :=
  rmapM rec_decode (chunks_of rec_size body).

Lemma length_encode_all rs : length (encode_all rs) = (length rs * rec_size)%nat.
Proof.
  unfold encode_all; induction rs; simpl; [done|]. rewrite length_app, rec_encode_length. lia.
Qed.

Lemma encode_all_app rs1 rs2 : encode_all (rs1 ++ rs2) = encode_all rs1 ++ encode_all rs2.
Proof. unfold encode_all. by rewrite map_app, concat_app. Qed.

Lemma chunks_encode_all rs : chunks_of rec_size (encode_all rs) = map rec_encode rs.
Proof.
  apply chunks_concat; [apply rec_size_pos|]. apply Forall_map, Forall_true, rec_encode_length.
Qed.

(** Decoding an encoded sequence of well-formed records gives it back. *)
Lemma decode_all_encode rs : Forall rec_wf rs -> decode_all (encode_all rs) = Ok rs.
Proof.
  intros Hrs. unfold decode_all. rewrite chunks_encode_all.
  induction Hrs as [|r rs Hr _ IH]; simpl; [done|].
  rewrite rec_decode_encode by done. simpl. by rewrite IH.
Qed.
End Sequences.

(** Reading a field back: both sides of every codec's round trip. *)
Ltac fields_back :=
  unfold u8_ok, u16_ok, u32_ok, u64_ok in *;
  repeat rewrite from_le_to_le by (cbn; lia).

(** ** Block map records *)
Inductive BlkMapState : Type := BActive | BStale.
#[export] Instance BlkMapState_eq_dec : EqDecision BlkMapState.
Proof. solve_decision. Defined.
Definition BlkMapState_as_u8 (s : BlkMapState) : Z := match s with BActive => 1 | BStale => 2 end.
Definition BlkMapState_from_u8 (v : Z) : Result StorageError BlkMapState :=
  match v with 1 => Ok BActive | 2 => Ok BStale | _ => Err (Corrupt "invalid blk map state") end.

Inductive PayloadChecksumAlgorithm : Type := PcNone | Fnv1a32 | PcCrc32c.
#[export] Instance PayloadChecksumAlgorithm_eq_dec : EqDecision PayloadChecksumAlgorithm.
Proof. solve_decision. Defined.
Definition checksum_algorithm_as_u8 (a : PayloadChecksumAlgorithm) : Z :=
  match a with PcNone => 0 | Fnv1a32 => 1 | PcCrc32c => 2 end.
Definition PayloadChecksumAlgorithm_from_u8 (v : Z) : Result StorageError PayloadChecksumAlgorithm :=
  match v with
  | 0 => Ok PcNone | 1 => Ok Fnv1a32 | 2 => Ok PcCrc32c
  | _ => Err (Corrupt "unknown blk map checksum algorithm")
  end.

Record BlkMapRecord : Type := mkBlk {
  record_id : Z;
  logical_start : Z;
  logical_len : Z;
  physical_segment_id : Z;
  physical_offset : Z;
  filemark_count : Z;
  state : BlkMapState;
  dedup_entry_id : Z;
  compression : CompressionCodec;
  compressed_len : Z;
  payload_checksum : Z;
  payload_checksum_algorithm : PayloadChecksumAlgorithm
}.
#[export] Instance eta_BlkMapRecord : Eta BlkMapRecord := fun r =>
  mkBlk (record_id r) (logical_start r) (logical_len r) (physical_segment_id r)
    (physical_offset r) (filemark_count r) (state r) (dedup_entry_id r) (compression r)
    (compressed_len r) (payload_checksum r) (payload_checksum_algorithm r).
#[export] Instance BlkMapRecord_eq_dec : EqDecision BlkMapRecord.
Proof. solve_decision. Defined.

Definition logical_end (r : BlkMapRecord) : Z := sat_add64 (logical_start r) (logical_len r).

Definition LEGACY_RECORD_SIZE : nat := 41.
Definition EXTENDED_RECORD_V2_SIZE : nat := 58.
Definition EXTENDED_RECORD_V3_SIZE : nat := 59.

Definition blk_encode (r : BlkMapRecord) : list Z :=
  to_le 8 (record_id r) ++ to_le 8 (logical_start r) ++ to_le 4 (logical_len r) ++
  to_le 8 (physical_segment_id r) ++ to_le 8 (physical_offset r) ++ to_le 4 (filemark_count r) ++
  [BlkMapState_as_u8 (state r)] ++ to_le 8 (dedup_entry_id r) ++ [codec_as_u8 (compression r)] ++
  to_le 4 (compressed_len r) ++ to_le 4 (payload_checksum r) ++
  [checksum_algorithm_as_u8 (payload_checksum_algorithm r)].

Definition blk_decode_legacy (buf : list Z) : Result StorageError BlkMapRecord :=
  let? st := BlkMapState_from_u8 (byte_at buf 40) in
  Ok (mkBlk (from_le (slice 0 8 buf)) (from_le (slice 8 16 buf)) (from_le (slice 16 20 buf))
        (from_le (slice 20 28 buf)) (from_le (slice 28 36 buf)) (from_le (slice 36 40 buf))
        st 0 CNone (from_le (slice 16 20 buf)) 0 PcNone).

Definition blk_decode_extended_v2 (buf : list Z) : Result StorageError BlkMapRecord :=
  let sum := from_le (slice 54 58 buf) in
  let? st := BlkMapState_from_u8 (byte_at buf 40) in
  let? codec := CompressionCodec_from_u8 (byte_at buf 49) in
  Ok (mkBlk (from_le (slice 0 8 buf)) (from_le (slice 8 16 buf)) (from_le (slice 16 20 buf))
        (from_le (slice 20 28 buf)) (from_le (slice 28 36 buf)) (from_le (slice 36 40 buf))
        st (from_le (slice 41 49 buf)) codec (from_le (slice 50 54 buf)) sum
        (if decide (sum = 0) then PcNone else Fnv1a32)).

Definition blk_decode_extended_v3 (buf : list Z) : Result StorageError BlkMapRecord :=
  let? record := blk_decode_extended_v2 (take 58 buf) in
  let? alg := PayloadChecksumAlgorithm_from_u8 (byte_at buf 58) in
  let record := record <| payload_checksum_algorithm := alg |> in
  if decide (alg = PcNone /\ payload_checksum record <> 0)
  then Err (Corrupt "disabled blk map checksum has a nonzero value")
  else Ok record.

Definition blk_decode (buf : list Z) : Result StorageError BlkMapRecord :=
  if decide (length buf = LEGACY_RECORD_SIZE) then blk_decode_legacy buf
  else if decide (length buf = EXTENDED_RECORD_V2_SIZE) then blk_decode_extended_v2 buf
  else if decide (length buf = EXTENDED_RECORD_V3_SIZE) then blk_decode_extended_v3 buf
  else Err (Corrupt "unsupported blk map record size").

(** The fields' widths, and no checksum without an algorithm. *)
Definition wf_blk (r : BlkMapRecord) : Prop :=
  u64_ok (record_id r) /\ u64_ok (logical_start r) /\ u32_ok (logical_len r) /\
  u64_ok (physical_segment_id r) /\ u64_ok (physical_offset r) /\ u32_ok (filemark_count r) /\
  u64_ok (dedup_entry_id r) /\ u32_ok (compressed_len r) /\ u32_ok (payload_checksum r) /\
  (payload_checksum_algorithm r = PcNone -> payload_checksum r = 0).

Lemma length_blk_encode r : length (blk_encode r) = EXTENDED_RECORD_V3_SIZE.
Proof. unfold blk_encode, EXTENDED_RECORD_V3_SIZE; len_solve. Qed.

Lemma blk_decode_encode r : wf_blk r -> blk_decode (blk_encode r) = Ok r.
Proof.
  intros (? & ? & ? & ? & ? & ? & ? & ? & ? & Halg). unfold blk_decode.
  rewrite length_blk_encode, decide_False, decide_False, decide_True by done.
  unfold blk_decode_extended_v3.
  assert (take 58 (blk_encode r) ++ [checksum_algorithm_as_u8 (payload_checksum_algorithm r)]
          = blk_encode r) as Htake.
  { unfold blk_encode. rewrite !app_assoc. rewrite take_app_length' by len_solve. done. }
  assert (byte_at (blk_encode r) 58 = checksum_algorithm_as_u8 (payload_checksum_algorithm r)) as ->.
  { unfold blk_encode. slices. done. }
  assert (blk_decode_extended_v2 (take 58 (blk_encode r)) =
    Ok (r <| payload_checksum_algorithm := if decide (payload_checksum r = 0) then PcNone else Fnv1a32 |>))
    as ->.
  { assert (take 58 (blk_encode r) =
      to_le 8 (record_id r) ++ to_le 8 (logical_start r) ++ to_le 4 (logical_len r) ++
      to_le 8 (physical_segment_id r) ++ to_le 8 (physical_offset r) ++ to_le 4 (filemark_count r) ++
      [BlkMapState_as_u8 (state r)] ++ to_le 8 (dedup_entry_id r) ++ [codec_as_u8 (compression r)] ++
      to_le 4 (compressed_len r) ++ to_le 4 (payload_checksum r)) as ->.
    { eapply (inj (fun l => l ++ [checksum_algorithm_as_u8 (payload_checksum_algorithm r)])).
      cbn beta. rewrite Htake. unfold blk_encode. by rewrite <- !app_assoc. }
    unfold blk_decode_extended_v2. slices.
    assert (BlkMapState_from_u8 (BlkMapState_as_u8 (state r)) = Ok (state r)) as ->
      by (by destruct (state r)).
    rewrite codec_from_as. cbn [rbind]. fields_back. by destruct r. }
  cbn [rbind].
  assert (PayloadChecksumAlgorithm_from_u8 (checksum_algorithm_as_u8 (payload_checksum_algorithm r))
          = Ok (payload_checksum_algorithm r)) as -> by (by destruct (payload_checksum_algorithm r)).
  cbn [rbind]. rewrite decide_False; [by destruct r|]. cbn. tauto.
Qed.

#[export] Instance BlkMapRecord_codec : RecordCodec BlkMapRecord :=
  {| rec_size := EXTENDED_RECORD_V3_SIZE; rec_encode := blk_encode; rec_decode := blk_decode;
     rec_wf := wf_blk |}.
#[export] Instance BlkMapRecord_laws : RecordCodecLaws BlkMapRecord.
Proof.
  split; [cbn; unfold EXTENDED_RECORD_V3_SIZE; lia | apply length_blk_encode | apply blk_decode_encode].
Qed.

(** ** Lookup records *)
Record MapLookupRecord : Type := mkLookup {
  lookup_id : Z;
  logical_min : Z;
  logical_max : Z;
  blk_map_ref_start : Z;
  blk_map_ref_end : Z
}.
#[export] Instance eta_MapLookupRecord : Eta MapLookupRecord := fun r =>
  mkLookup (lookup_id r) (logical_min r) (logical_max r) (blk_map_ref_start r) (blk_map_ref_end r).
#[export] Instance MapLookupRecord_eq_dec : EqDecision MapLookupRecord.
Proof. solve_decision. Defined.

Definition LOOKUP_RECORD_SIZE : nat := 40.
Definition lookup_encode (r : MapLookupRecord) : list Z :=
  to_le 8 (lookup_id r) ++ to_le 8 (logical_min r) ++ to_le 8 (logical_max r) ++
  to_le 8 (blk_map_ref_start r) ++ to_le 8 (blk_map_ref_end r).
Definition lookup_decode (buf : list Z) : Result StorageError MapLookupRecord :=
  if decide (length buf < LOOKUP_RECORD_SIZE)%nat then Err (Corrupt "map lookup record too short")
  else Ok (mkLookup (from_le (slice 0 8 buf)) (from_le (slice 8 16 buf))
             (from_le (slice 16 24 buf)) (from_le (slice 24 32 buf)) (from_le (slice 32 40 buf))).

Definition wf_lookup (r : MapLookupRecord) : Prop :=
  u64_ok (lookup_id r) /\ u64_ok (logical_min r) /\ u64_ok (logical_max r) /\
  u64_ok (blk_map_ref_start r) /\ u64_ok (blk_map_ref_end r).

Lemma length_lookup_encode r : length (lookup_encode r) = LOOKUP_RECORD_SIZE.
Proof. unfold lookup_encode, LOOKUP_RECORD_SIZE; len_solve. Qed.
Lemma lookup_decode_encode r : wf_lookup r -> lookup_decode (lookup_encode r) = Ok r.
Proof.
  intros (? & ? & ? & ? & ?). unfold lookup_decode. rewrite length_lookup_encode.
  rewrite decide_False by lia. unfold lookup_encode. slices. fields_back. by destruct r.
Qed.
#[export] Instance MapLookupRecord_codec : RecordCodec MapLookupRecord :=
  {| rec_size := LOOKUP_RECORD_SIZE; rec_encode := lookup_encode; rec_decode := lookup_decode;
     rec_wf := wf_lookup |}.
#[export] Instance MapLookupRecord_laws : RecordCodecLaws MapLookupRecord.
Proof.
  split; [cbn; unfold LOOKUP_RECORD_SIZE; lia | apply length_lookup_encode | apply lookup_decode_encode].
Qed.

(** ** Dedup index entries *)
Record DedupIndexEntry : Type := mkDedup {
  entry_id : Z;
  fingerprint_hi : Z;
  fingerprint_lo : Z;
  d_payload_checksum : Z;
  d_logical_len : Z;
  stored_blob_id : Z;
  stored_len : Z;
  d_compression : CompressionCodec;
  identity_version : Z;
  ref_count : Z
}.
#[export] Instance eta_DedupIndexEntry : Eta DedupIndexEntry := fun r =>
  mkDedup (entry_id r) (fingerprint_hi r) (fingerprint_lo r) (d_payload_checksum r)
    (d_logical_len r) (stored_blob_id r) (stored_len r) (d_compression r) (identity_version r)
    (ref_count r).
#[export] Instance DedupIndexEntry_eq_dec : EqDecision DedupIndexEntry.
Proof. solve_decision. Defined.

Definition DEDUP_RECORD_SIZE : nat := 52.
Definition dedup_encode (r : DedupIndexEntry) : list Z :=
  to_le 8 (entry_id r) ++ to_le 8 (fingerprint_hi r) ++ to_le 8 (fingerprint_lo r) ++
  to_le 4 (d_payload_checksum r) ++ to_le 4 (d_logical_len r) ++ to_le 8 (stored_blob_id r) ++
  to_le 4 (stored_len r) ++ [codec_as_u8 (d_compression r)] ++ [identity_version r] ++
  [0; 0] ++ to_le 4 (ref_count r).
Definition dedup_decode (buf : list Z) : Result StorageError DedupIndexEntry :=
  if decide (length buf < DEDUP_RECORD_SIZE)%nat then Err (Corrupt "dedup record too short")
  else
    let? codec := CompressionCodec_from_u8 (byte_at buf 44) in
    Ok (mkDedup (from_le (slice 0 8 buf)) (from_le (slice 8 16 buf)) (from_le (slice 16 24 buf))
          (from_le (slice 24 28 buf)) (from_le (slice 28 32 buf)) (from_le (slice 32 40 buf))
          (from_le (slice 40 44 buf)) codec (byte_at buf 45) (from_le (slice 48 52 buf))).

Definition wf_dedup (r : DedupIndexEntry) : Prop :=
  u64_ok (entry_id r) /\ u64_ok (fingerprint_hi r) /\ u64_ok (fingerprint_lo r) /\
  u32_ok (d_payload_checksum r) /\ u32_ok (d_logical_len r) /\ u64_ok (stored_blob_id r) /\
  u32_ok (stored_len r) /\ u8_ok (identity_version r) /\ u32_ok (ref_count r).

Lemma length_dedup_encode r : length (dedup_encode r) = DEDUP_RECORD_SIZE.
Proof. unfold dedup_encode, DEDUP_RECORD_SIZE; len_solve. Qed.
Lemma dedup_decode_encode r : wf_dedup r -> dedup_decode (dedup_encode r) = Ok r.
Proof.
  intros (? & ? & ? & ? & ? & ? & ? & ? & ?). unfold dedup_decode. rewrite length_dedup_encode.
  rewrite decide_False by lia. unfold dedup_encode. slices. rewrite codec_from_as. cbn [rbind].
  fields_back. by destruct r.
Qed.
#[export] Instance DedupIndexEntry_codec : RecordCodec DedupIndexEntry :=
  {| rec_size := DEDUP_RECORD_SIZE; rec_encode := dedup_encode; rec_decode := dedup_decode;
     rec_wf := wf_dedup |}.
#[export] Instance DedupIndexEntry_laws : RecordCodecLaws DedupIndexEntry.
Proof.
  split; [cbn; unfold DEDUP_RECORD_SIZE; lia | apply length_dedup_encode | apply dedup_decode_encode].
Qed.

(** ** Segment descriptors *)
Inductive SegmentState : Type := SActive | Sealed | Compacting | Reclaimable.
#[export] Instance SegmentState_eq_dec : EqDecision SegmentState.
Proof. solve_decision. Defined.
Definition SegmentState_as_u8 (s : SegmentState) : Z :=
  match s with SActive => 1 | Sealed => 2 | Compacting => 3 | Reclaimable => 4 end.
Definition SegmentState_from_u8 (raw : Z) : Result StorageError SegmentState :=
  match raw with
  | 1 => Ok SActive | 2 => Ok Sealed | 3 => Ok Compacting | 4 => Ok Reclaimable
  | _ => Err (Corrupt "invalid segment state")
  end.

Record SegmentDescriptor : Type := mkDescriptor {
  segment_seq : Z;
  payload_bytes : Z;
  first_blob_id : Z;
  last_blob_id : Z;
  seg_state : SegmentState;
  seg_compression : CompressionCodec;
  live_bytes : Z
}.
#[export] Instance eta_SegmentDescriptor : Eta SegmentDescriptor := fun r =>
  mkDescriptor (segment_seq r) (payload_bytes r) (first_blob_id r) (last_blob_id r) (seg_state r)
    (seg_compression r) (live_bytes r).
#[export] Instance SegmentDescriptor_eq_dec : EqDecision SegmentDescriptor.
Proof. solve_decision. Defined.

Definition contains_blob (d : SegmentDescriptor) (blob_id : Z) : bool :=
  bool_decide (0 < first_blob_id d) && bool_decide (first_blob_id d <= blob_id)
  && bool_decide (blob_id <= last_blob_id d).

Definition SEGMENT_DESCRIPTOR_SIZE : nat := 40.
Definition descriptor_checksum (bytes : list Z) : Z := Z.land (checksum32 bytes) 0xFFFF.
Definition descriptor_body (d : SegmentDescriptor) : list Z :=
  to_le 4 (segment_seq d) ++ to_le 8 (payload_bytes d) ++ to_le 8 (first_blob_id d) ++
  to_le 8 (last_blob_id d) ++ [SegmentState_as_u8 (seg_state d)] ++
  [codec_as_u8 (seg_compression d)] ++ to_le 4 (live_bytes d).
Definition descriptor_encode (d : SegmentDescriptor) : list Z :=
  let out := descriptor_body d in
  out ++ to_le 2 (descriptor_checksum out) ++ [0; 0; 0; 0].
Definition descriptor_decode (raw : list Z) : Result StorageError SegmentDescriptor :=
  if decide (length raw <> SEGMENT_DESCRIPTOR_SIZE)
  then Err (Corrupt "segment descriptor size mismatch")
  else if decide (descriptor_checksum (take 34 raw) <> from_le (slice 34 36 raw))
  then Err (Corrupt "segment descriptor checksum mismatch")
  else
    let? st := SegmentState_from_u8 (byte_at raw 28) in
    let? codec := CompressionCodec_from_u8 (byte_at raw 29) in
    Ok (mkDescriptor (from_le (slice 0 4 raw)) (from_le (slice 4 12 raw))
          (from_le (slice 12 20 raw)) (from_le (slice 20 28 raw)) st codec
          (from_le (slice 30 34 raw))).

Definition wf_descriptor (d : SegmentDescriptor) : Prop :=
  u32_ok (segment_seq d) /\ u64_ok (payload_bytes d) /\ u64_ok (first_blob_id d) /\
  u64_ok (last_blob_id d) /\ u32_ok (live_bytes d).

Lemma descriptor_checksum_bound l : 0 <= descriptor_checksum l < 65536.
Proof.
  unfold descriptor_checksum. change 0xFFFF with (Z.ones 16).
  rewrite Z.land_ones by lia. apply Z.mod_pos_bound; lia.
Qed.
Lemma length_descriptor_body d : length (descriptor_body d) = 34%nat.
Proof. unfold descriptor_body; len_solve. Qed.
Lemma length_descriptor_encode d : length (descriptor_encode d) = SEGMENT_DESCRIPTOR_SIZE.
Proof.
  unfold descriptor_encode, SEGMENT_DESCRIPTOR_SIZE; cbn zeta.
  rewrite length_app, length_descriptor_body. len_solve.
Qed.
Lemma descriptor_decode_encode d :
  wf_descriptor d -> descriptor_decode (descriptor_encode d) = Ok d.
Proof.
  intros (? & ? & ? & ? & ?). unfold descriptor_decode. rewrite length_descriptor_encode.
  rewrite decide_False by tauto.
  pose proof (length_descriptor_body d) as Hlen. pose proof (descriptor_checksum_bound (descriptor_body d)).
  assert (take 34 (descriptor_encode d) = descriptor_body d) as ->
    by (unfold descriptor_encode; by rewrite take_app_length').
  assert (slice 34 36 (descriptor_encode d) = to_le 2 (descriptor_checksum (descriptor_body d))) as ->.
  { unfold descriptor_encode; cbn zeta. rewrite slice_skip, Hlen by (rewrite Hlen; lia).
    by apply slice_here. }
  rewrite from_le_to_le by (cbn; lia). rewrite decide_False by tauto.
  unfold descriptor_encode; cbn zeta. generalize (descriptor_checksum (descriptor_body d)) as c.
  intros c. unfold descriptor_body. rewrite <- !app_assoc. slices.
  assert (SegmentState_from_u8 (SegmentState_as_u8 (seg_state d)) = Ok (seg_state d)) as ->
    by (by destruct (seg_state d)).
  rewrite codec_from_as. cbn [rbind]. fields_back. by destruct d.
Qed.
#[export] Instance SegmentDescriptor_codec : RecordCodec SegmentDescriptor :=
  {| rec_size := SEGMENT_DESCRIPTOR_SIZE; rec_encode := descriptor_encode;
     rec_decode := descriptor_decode; rec_wf := wf_descriptor |}.
#[export] Instance SegmentDescriptor_laws : RecordCodecLaws SegmentDescriptor.
Proof.
  split; [cbn; unfold SEGMENT_DESCRIPTOR_SIZE; lia | apply length_descriptor_encode
         | apply descriptor_decode_encode].
Qed.

(** ** Reclaim candidates *)
Inductive ReclaimReason : Type := Superseded | Truncated | Compacted.
#[export] Instance ReclaimReason_eq_dec : EqDecision ReclaimReason.
Proof. solve_decision. Defined.
Definition ReclaimReason_as_u8 (r : ReclaimReason) : Z :=
  match r with Superseded => 1 | Truncated => 2 | Compacted => 3 end.
Definition ReclaimReason_from_u8 (v : Z) : Result StorageError ReclaimReason :=
  match v with
  | 1 => Ok Superseded | 2 => Ok Truncated | 3 => Ok Compacted
  | _ => Err (Corrupt "invalid reclaim reason")
  end.

Record ReclaimCandidate : Type := mkCandidate {
  candidate_id : Z;
  blk_map_record_id : Z;
  reason : ReclaimReason;
  safe_to_reclaim : bool
}.
#[export] Instance eta_ReclaimCandidate : Eta ReclaimCandidate := fun r =>
  mkCandidate (candidate_id r) (blk_map_record_id r) (reason r) (safe_to_reclaim r).
#[export] Instance ReclaimCandidate_eq_dec : EqDecision ReclaimCandidate.
Proof. solve_decision. Defined.

Definition RECLAIM_RECORD_SIZE : nat := 25.
Definition candidate_encode (c : ReclaimCandidate) : list Z :=
  to_le 8 (candidate_id c) ++ to_le 8 (blk_map_record_id c) ++ [ReclaimReason_as_u8 (reason c)] ++
  [b2z (safe_to_reclaim c)] ++ replicate 7 0.
Definition candidate_decode (buf : list Z) : Result StorageError ReclaimCandidate :=
  if decide (length buf < RECLAIM_RECORD_SIZE)%nat then Err (Corrupt "reclaim record too short")
  else
    let? r := ReclaimReason_from_u8 (byte_at buf 16) in
    Ok (mkCandidate (from_le (slice 0 8 buf)) (from_le (slice 8 16 buf)) r
          (bool_decide (byte_at buf 17 = 1))).

Definition wf_candidate (c : ReclaimCandidate) : Prop :=
  u64_ok (candidate_id c) /\ u64_ok (blk_map_record_id c).

Lemma length_candidate_encode c : length (candidate_encode c) = RECLAIM_RECORD_SIZE.
Proof. unfold candidate_encode, RECLAIM_RECORD_SIZE; len_solve. Qed.
Lemma candidate_decode_encode c : wf_candidate c -> candidate_decode (candidate_encode c) = Ok c.
Proof.
  intros (? & ?). unfold candidate_decode. rewrite length_candidate_encode.
  rewrite decide_False by lia. unfold candidate_encode. slices.
  assert (ReclaimReason_from_u8 (ReclaimReason_as_u8 (reason c)) = Ok (reason c)) as ->
    by (by destruct (reason c)).
  cbn [rbind]. fields_back. destruct c as [? ? ? []]; done.
Qed.
#[export] Instance ReclaimCandidate_codec : RecordCodec ReclaimCandidate :=
  {| rec_size := RECLAIM_RECORD_SIZE; rec_encode := candidate_encode;
     rec_decode := candidate_decode; rec_wf := wf_candidate |}.
#[export] Instance ReclaimCandidate_laws : RecordCodecLaws ReclaimCandidate.
Proof.
  split; [cbn; unfold RECLAIM_RECORD_SIZE; lia | apply length_candidate_encode
         | apply candidate_decode_encode].
Qed.

(** ** The metadata checkpoint *)
Inductive CheckpointFlags : Type := Clean | Dirty.
#[export] Instance CheckpointFlags_eq_dec : EqDecision CheckpointFlags.
Proof. solve_decision. Defined.
Definition CheckpointFlags_as_u8 (f : CheckpointFlags) : Z := match f with Clean => 1 | Dirty => 2 end.
Definition CheckpointFlags_from_u8 (v : Z) : Result StorageError CheckpointFlags :=
  match v with 1 => Ok Clean | 2 => Ok Dirty | _ => Err (Corrupt "invalid checkpoint flags") end.

Record MetadataCheckpoint : Type := mkCheckpoint {
  page_id : Z;
  epoch : Z;
  active_blk_map_root : Z;
  active_lookup_root : Z;
  flags : CheckpointFlags
}.
#[export] Instance eta_MetadataCheckpoint : Eta MetadataCheckpoint := fun r =>
  mkCheckpoint (page_id r) (epoch r) (active_blk_map_root r) (active_lookup_root r) (flags r).
#[export] Instance MetadataCheckpoint_eq_dec : EqDecision MetadataCheckpoint.
Proof. solve_decision. Defined.

Definition checkpoint_body (c : MetadataCheckpoint) : list Z :=
  to_le 8 (page_id c) ++ to_le 8 (epoch c) ++ to_le 8 (active_blk_map_root c) ++
  to_le 8 (active_lookup_root c) ++ [CheckpointFlags_as_u8 (flags c)] ++ replicate 7 0.
Definition checkpoint_encode (c : MetadataCheckpoint) : list Z :=
  let payload := checkpoint_body c in payload ++ to_le 4 (checksum32 payload).
Definition checkpoint_decode (payload : list Z) : Result StorageError MetadataCheckpoint :=
  if decide (length payload < 44)%nat then Err (Corrupt "metadata checkpoint payload too short")
  else
    let data := take 40 payload in
    if decide (from_le (slice 40 44 payload) <> checksum32 data)
    then Err (Corrupt "checkpoint checksum mismatch")
    else
      let? f := CheckpointFlags_from_u8 (byte_at data 32) in
      Ok (mkCheckpoint (from_le (slice 0 8 data)) (from_le (slice 8 16 data))
            (from_le (slice 16 24 data)) (from_le (slice 24 32 data)) f).

Definition wf_checkpoint (c : MetadataCheckpoint) : Prop :=
  u64_ok (page_id c) /\ u64_ok (epoch c) /\ u64_ok (active_blk_map_root c) /\
  u64_ok (active_lookup_root c).

Lemma length_checkpoint_body c : length (checkpoint_body c) = 40%nat.
Proof. unfold checkpoint_body; len_solve. Qed.

Lemma checkpoint_decode_encode c :
  wf_checkpoint c -> checkpoint_decode (checkpoint_encode c) = Ok c.
Proof.
  intros (? & ? & ? & ?). pose proof (length_checkpoint_body c) as Hlen.
  unfold checkpoint_decode, checkpoint_encode; cbn zeta.
  rewrite decide_False by (rewrite length_app, Hlen; len_solve).
  rewrite take_app_length' by done.
  rewrite slice_skip, Hlen, slice_all by (rewrite ?Hlen; len_solve; done).
  pose proof (checksum32_u32 (checkpoint_body c)) as Hs.
  rewrite from_le_to_le by (unfold u32_ok in Hs; cbn; lia). rewrite decide_False by tauto.
  unfold checkpoint_body. slices.
  assert (CheckpointFlags_from_u8 (CheckpointFlags_as_u8 (flags c)) = Ok (flags c)) as ->
    by (by destruct (flags c)).
  cbn [rbind]. fields_back. by destruct c.
Qed.

(** The bound every reader of a metadata segment enforces on what it loads. *)
Definition MAX_MAINTENANCE_METADATA_BYTES : Z := 8 * 1024 * 1024.
Definition MAX_MAINTENANCE_METADATA_RECORDS : Z := 65536.
Definition checked_metadata_record_count (count : Z) : Result StorageError Z :=
  if decide (MAX_MAINTENANCE_METADATA_RECORDS < count) then Err MetadataBudgetExceeded else Ok count.

(** [payload.starts_with(prefix)]. *)
Definition starts_with (prefix payload : list Z) : bool :=
  bool_decide (take (length prefix) payload = prefix).
