(* ===== verification/World.v ===== *)
(** * The storage process

    What one data-plane process holds while it serves cartridges: the file
    system, the configuration read from the environment, and the in-memory
    caches the storage modules keep per path (the [static] maps of segment.rs,
    blk_map.rs, map_lookup.rs, dedup.rs, segment_index.rs and data_path.rs).
    Mutexes are not modelled: a command runs alone, and a lock is only refused
    after another thread panicked. *)

From S2P Require Import Prelude Bytes Text Errors Fs Layout TapeState Compression Records.

(** Length and modification time: the cache key of every metadata file. *)
Record FileStamp : Type := mkStamp { st_len : Z; modified_nanos : Z }.
#[export] Instance FileStamp_eq_dec : EqDecision FileStamp.
Proof. solve_decision. Defined.

Record AppendFileState : Type := mkAppend {
  af_inode : nat;
  af_header : SegmentHeader;
  payload_offset : Z;
  checked_prefix : option (list Z);
  append_offset : Z
}.
#[export] Instance eta_AppendFileState : Eta AppendFileState := fun r =>
  mkAppend (af_inode r) (af_header r) (payload_offset r) (checked_prefix r) (append_offset r).

Record CachedBlkMap : Type := mkCachedBlk {
  bc_stamp : FileStamp;
  bc_sequence : Z;
  bc_records : list BlkMapRecord;
  bc_record_index : gmap Z nat;
  bc_next_record_id : Z;
  bc_log_version : Z
}.
#[export] Instance eta_CachedBlkMap : Eta CachedBlkMap := fun r =>
  mkCachedBlk (bc_stamp r) (bc_sequence r) (bc_records r) (bc_record_index r)
    (bc_next_record_id r) (bc_log_version r).

Record CachedLookup : Type := mkCachedLookup {
  lc_stamp : FileStamp;
  lc_sequence : Z;
  lc_records : list MapLookupRecord;
  lc_next_lookup_id : Z;
  lc_is_log_format : bool
}.
#[export] Instance eta_CachedLookup : Eta CachedLookup := fun r =>
  mkCachedLookup (lc_stamp r) (lc_sequence r) (lc_records r) (lc_next_lookup_id r)
    (lc_is_log_format r).

(** [DedupIdentityKey] and [DedupFingerprintKey]: tuples of the fields. *)
Definition DedupIdentityKey : Type := Z * Z * Z * Z.
Definition DedupFingerprintKey : Type := Z * Z.
Record CachedDedup : Type := mkCachedDedup {
  dc_stamp : FileStamp;
  dc_sequence : Z;
  dc_entries : list DedupIndexEntry;
  dc_identity_index : gmap (Z * Z * Z * Z) nat;
  dc_fingerprint_index : gset (Z * Z);
  dc_id_index : gmap Z nat;
  dc_next_entry_id : Z;
  dc_log_format : bool
}.
#[export] Instance eta_CachedDedup : Eta CachedDedup := fun r =>
  mkCachedDedup (dc_stamp r) (dc_sequence r) (dc_entries r) (dc_identity_index r)
    (dc_fingerprint_index r) (dc_id_index r) (dc_next_entry_id r) (dc_log_format r).

Record SegmentIndex_ : Type := mkSegmentIndex {
  max_segment_size : Z;
  descriptors : list SegmentDescriptor;
  next_segment_seq : Z
}.
#[export] Instance eta_SegmentIndex : Eta SegmentIndex_ := fun r =>
  mkSegmentIndex (max_segment_size r) (descriptors r) (next_segment_seq r).

Record CachedSegmentIndex : Type := mkCachedIndex {
  ic_index : SegmentIndex_;
  ic_dirty : bool;
  ic_generation : Z;
  ic_stamp : option FileStamp
}.
#[export] Instance eta_CachedSegmentIndex : Eta CachedSegmentIndex := fun r =>
  mkCachedIndex (ic_index r) (ic_dirty r) (ic_generation r) (ic_stamp r).

Record DataBlobMeta : Type := mkBlobMeta {
  blob_id : Z;
  blob_codec : CompressionCodec;
  blob_logical_len : Z;
  blob_stored_len : Z;
  blob_checksum : Z;
  blob_payload_offset : Z;
  v2_integrity : bool
}.
#[export] Instance DataBlobMeta_eq_dec : EqDecision DataBlobMeta.
Proof. solve_decision. Defined.

Record CachedDataIndex : Type := mkCachedData {
  tc_stamp : FileStamp;
  tc_sequence : Z;
  tc_blobs : list DataBlobMeta;
  tc_is_log_format : bool
}.
#[export] Instance eta_CachedDataIndex : Eta CachedDataIndex := fun r =>
  mkCachedData (tc_stamp r) (tc_sequence r) (tc_blobs r) (tc_is_log_format r).

Record World : Type := mkWorld {
  w_fs : Fs;
  w_append : gmap string AppendFileState;
  w_known_dirs : list string;
  w_blk : gmap string CachedBlkMap;
  w_lookup : gmap string CachedLookup;
  w_dedup : gmap string CachedDedup;
  w_index : gmap string CachedSegmentIndex;
  w_data : gmap string CachedDataIndex;
  w_readers : gmap string nat;
  w_checkpoint : gmap string MetadataCheckpoint;
  w_pending : gmap string Z
}.
#[export] Instance eta_World : Eta World := fun r =>
  mkWorld (w_fs r) (w_append r) (w_known_dirs r) (w_blk r) (w_lookup r) (w_dedup r) (w_index r)
    (w_data r) (w_readers r) (w_checkpoint r) (w_pending r).

(** A process that has just started on a file system. *)
Definition fresh_process (fs : Fs) : World := mkWorld fs ∅ [] ∅ ∅ ∅ ∅ ∅ ∅ ∅ ∅.

Definition io {A} (m : M Fs IoError A) : M World StorageError A :=
  map_errM storage_error_of_io (zoomM w_fs (fun fs w => w <| w_fs := fs |>) m).
(** An I/O step whose error the caller inspects. *)
Definition io_raw {A} (m : M Fs IoError A) : M World StorageError (Result IoError A) :=
  tryM (zoomM w_fs (fun fs w => w <| w_fs := fs |>) m).

Section Stamps.
Context `{HOST : Host} `{ENV : Environ}.

(** [trust_hot_cache]: unset means no; set means yes unless it says no. *)
Definition trust_hot_cache : bool :=
  match getenv "HOLO_STORAGE_TRUST_HOT_CACHE" with
  | Some raw =>
      negb (bool_decide (map to_ascii_lowercase (trim raw) ∈
        [bytes_of_string "0"; bytes_of_string "false"; bytes_of_string "no"]))
  | None => false
  end.

Definition file_stamp (path : string) : M World StorageError FileStamp :=
  let! (len, mtime) := io (fs_metadata path) in retM (mkStamp len mtime).

Definition path_exists (path : string) : M World StorageError bool := io (fs_exists path).
End Stamps.

(** A host without faults and an environment with nothing set. *)
Definition quiet_host : Host := {| fault := fun _ => None; clock := fun n => Z.of_nat n |}.
Definition no_env : Environ := fun _ => None.
Lemma quiet_no_faults : @no_faults quiet_host.
Proof. done. Qed.

(** [Path::parent] of the paths the source uses: the text before the last
    slash; only an empty path or the root has none. *)
Definition path_parent (path : string) : option string :=
  let l := bytes_of_string path in
  if bool_decide (l = []) || bool_decide (l = [47]) then None
  else match list_find (fun b => b = 47) (reverse l) with
       | Some (i, _) => Some (string_of_bytes (take (length l - S i) l))
       | None => Some EmptyString
       end.

(** [Path::with_extension("tmp")]: the file name's extension is replaced. *)
Definition with_extension_tmp (path : string) : string :=
  let l := bytes_of_string path in
  let rl := reverse l in
  let name_len := match list_find (fun b => b = 47) rl with Some (i, _) => i | None => length l end in
  match list_find (fun b => b = 46) (take name_len rl) with
  | Some (i, _) =>
      (* a leading dot is part of the stem *)
      if decide (S i = name_len) then path +:+ ".tmp"
      else string_of_bytes (take (length l - S i) l) +:+ ".tmp"
  | None => path +:+ ".tmp"
  end.
