(* ===== verification/Crc.v ===== *)
(** * A CRC-32C implementation

    The bitwise definition of the Castagnoli checksum, as an instance of the
    [Crc32c] interface: the witnesses of the storage theorems run on it. *)

From S2P Require Import Prelude Bytes Text Errors Layout.

Definition crc_poly : Z := 0x82F63B78.
Definition crc_mask : Z := 0xFFFFFFFF.

Definition crc_bit (c : Z) : Z :=
  if Z.odd c then Z.lxor (Z.shiftr c 1) crc_poly else Z.shiftr c 1.
Definition crc_byte (c b : Z) : Z := Nat.iter 8 crc_bit (Z.lxor c b).

Definition bitwise_crc32c : Crc32c := fun a l =>
  Z.lxor (fold_left crc_byte l (Z.lxor a crc_mask)) crc_mask.

Lemma lxor_u32 a b : u32_ok a -> u32_ok b -> u32_ok (Z.lxor a b).
Proof.
  unfold u32_ok. intros Ha Hb.
  assert (0 <= Z.lxor a b) as Hn by (apply Z.lxor_nonneg; lia).
  split; [done|]. destruct (decide (Z.lxor a b = 0)) as [->|Hz]; [lia|].
  enough (Z.lxor a b < 2 ^ 32) by lia. apply Z.log2_lt_pow2; [lia|].
  pose proof (Z.log2_lxor a b ltac:(lia) ltac:(lia)) as Hl.
  assert (forall x, 0 <= x <= U32_MAX -> Z.log2 x < 32) as Hx.
  { intros x Hx. destruct (decide (x = 0)) as [->|]; [by vm_compute|].
    apply Z.log2_lt_pow2; lia. }
  pose proof (Hx a Ha). pose proof (Hx b Hb). lia.
Qed.

Lemma crc_bit_u32 c : u32_ok c -> u32_ok (crc_bit c).
Proof.
  intros Hc. unfold crc_bit. assert (u32_ok (Z.shiftr c 1)) as Hs.
  { unfold u32_ok in *. rewrite Z.shiftr_div_pow2 by lia. change (2 ^ 1) with 2.
    pose proof (Z.div_pos c 2). pose proof (Z.div_le_upper_bound c 2 U32_MAX). lia. }
  destruct (Z.odd c); [|done]. apply lxor_u32; [done|]. unfold u32_ok, crc_poly; lia.
Qed.

Lemma crc_byte_u32 c b : u32_ok c -> u8_ok b -> u32_ok (crc_byte c b).
Proof.
  intros Hc Hb. unfold crc_byte.
  assert (u32_ok (Z.lxor c b)) as H0 by (apply lxor_u32; [done|unfold u32_ok, u8_ok in *; lia]).
  revert H0; generalize (Z.lxor c b). intros z Hz. cbn [Nat.iter nat_rect].
  by do 8 apply crc_bit_u32.
Qed.

#[export] Instance bitwise_crc32c_laws : @Crc32cLaws bitwise_crc32c.
Proof.
  split.
  - intros a x y. unfold crc32c_append, bitwise_crc32c.
    rewrite Z.lxor_assoc, Z.lxor_nilpotent, Z.lxor_0_r. by rewrite fold_left_app.
  - intros a x Ha Hx. unfold crc32c_append, bitwise_crc32c.
    assert (u32_ok crc_mask) as Hm by (unfold u32_ok, crc_mask; lia).
    apply lxor_u32; [|done]. assert (u32_ok (Z.lxor a crc_mask)) as H0 by (by apply lxor_u32).
    revert H0; generalize (Z.lxor a crc_mask) as c.
    induction Hx as [|b x Hb _ IH]; simpl; auto. intros c Hc. by apply IH, crc_byte_u32.
Qed.

(** The published check value of CRC-32C. *)
Lemma crc_check_value :
  crc32c_append (Crc32c := bitwise_crc32c) 0 (bytes_of_string "123456789") = 0xE3069283.
Proof. by vm_compute. Qed.
