(* ===== verification/Segment.v ===== *)
(** * Segment files (storage/segment.rs)

    A segment file is two identical checksummed header copies followed by the
    payload; legacy files have one plain header.  Whole files are replaced by
    rename; logs grow in place through a cached handle.  Paths name regular
    files here, so the symbolic-link and identity-change refusals of the source
    have no counterpart. *)

From S2P Require Import Prelude Bytes Text Errors Fs Layout TapeState Compression Records.
From S2P Require Import World Crc.

Definition SEGMENT_HEADER_SIZE : nat := 36.
Definition SEGMENT_HEADER_V2_COPY_SIZE : nat := 48.
Definition SEGMENT_HEADER_V2_TOTAL_SIZE : nat := 96.

Section Headers.
Context `{C : Crc32c}.

Definition integrity32_continue (acc : Z) (data : list Z) : Z := crc32c_append acc data.

Definition header_copy_body (h : SegmentHeader) : list Z :=
  header_encode h ++ to_le 2 1 ++ replicate 6 0.
Definition encode_v2_header_copy (h : SegmentHeader) : list Z :=
  let out := header_copy_body h in out ++ to_le 4 (integrity32 out).

Definition decode_v2_header_copy (buf : list Z) : Result StorageError SegmentHeader :=
  if decide (length buf < SEGMENT_HEADER_V2_COPY_SIZE)%nat
  then Err (Corrupt "v2 segment header too short")
  else if decide (integrity32 (take 44 buf) <> from_le (slice 44 48 buf))
  then Err (Corrupt "v2 segment header checksum mismatch")
  else
    let? header := header_decode (take SEGMENT_HEADER_SIZE buf) in
    if decide (version header <> STORAGE_LAYOUT_VERSION)
    then Err (VersionMismatch STORAGE_LAYOUT_VERSION (version header))
    else Ok header.

Definition select_copy (primary backup : Result StorageError SegmentHeader)
  : Result StorageError SegmentHeader :=
  match primary, backup with
  | Ok a, Ok b => if decide (sequence b <= sequence a) then Ok a else Ok b
  | Ok h, Err _ | Err _, Ok h => Ok h
  | Err _, Err _ => Err (Corrupt "no valid v2 segment header copy")
  end.

Definition decode_segment_header_set (buf : list Z) : Result StorageError (SegmentHeader * Z) :=
  if decide (length buf < SEGMENT_HEADER_SIZE)%nat then Err (Corrupt "segment header too short")
  else
    let legacy := header_decode (take SEGMENT_HEADER_SIZE buf) in
    let is_v1 := match legacy with
                 | Ok h => bool_decide (version h = STORAGE_LAYOUT_VERSION_V1)
                 | Err _ => false
                 end in
    match legacy, is_v1 with
    | Ok h, true => Ok (h, Z.of_nat SEGMENT_HEADER_SIZE)
    | _, _ =>
        if decide (length buf < SEGMENT_HEADER_V2_TOTAL_SIZE)%nat then
          match legacy with
          | Ok h =>
              if decide (magic h = STORAGE_LAYOUT_MAGIC /\ version h <> STORAGE_LAYOUT_VERSION)
              then Err (VersionMismatch STORAGE_LAYOUT_VERSION (version h))
              else Err (Corrupt "v2 segment header set too short")
          | Err e => Err e
          end
        else
          let primary := decode_v2_header_copy (take SEGMENT_HEADER_V2_COPY_SIZE buf) in
          let backup := decode_v2_header_copy
            (slice SEGMENT_HEADER_V2_COPY_SIZE SEGMENT_HEADER_V2_TOTAL_SIZE buf) in
          let? selected := select_copy primary backup in
          Ok (selected, Z.of_nat SEGMENT_HEADER_V2_TOTAL_SIZE)
    end.

Definition segment_payload_offset (h : SegmentHeader) : Z :=
  if decide (version h = STORAGE_LAYOUT_VERSION) then Z.of_nat SEGMENT_HEADER_V2_TOTAL_SIZE
  else Z.of_nat SEGMENT_HEADER_SIZE.

Definition decode_segment_file_bytes (path : string) (expected_kind : SegmentKind) (bytes : list Z)
  : Result StorageError (SegmentHeader * list Z) :=
  if decide (length bytes < SEGMENT_HEADER_SIZE)%nat
  then Err (Corrupt ("segment too short: " +:+ path))
  else
    let? (header, payload_start) := decode_segment_header_set bytes in
    if decide (kind header <> expected_kind) then Err (Corrupt "segment kind mismatch")
    else if decide (Zlen bytes < payload_start)
    then Err (Corrupt "segment payload offset exceeds file")
    else
      let payload := drop (Z.to_nat payload_start) bytes in
      let? _ := validate header payload in
      Ok (header, payload).

(** The bytes of a version 2 segment file. *)
Definition segment_bytes (h : SegmentHeader) (payload : list Z) : list Z :=
  encode_v2_header_copy h ++ encode_v2_header_copy h ++ payload.
End Headers.

(** ** Vectored writes

    [write_all_parts] writes several buffers with one system call each round; a
    call may accept fewer bytes than offered.  [advance] is the bookkeeping after
    a call that accepted [remaining] bytes: the parts still to write and the
    offset into the first of them. *)
Fixpoint advance (parts : list (list Z)) (offset remaining : nat) : list (list Z) * nat :=
  match parts with
  | [] => ([], O)
  | p :: parts' =>
      let available := (length p - offset)%nat in
      if decide (remaining < available)%nat then (parts, (offset + remaining)%nat)
      else
        let remaining := (remaining - available)%nat in
        if decide (remaining = O) then (parts', O) else advance parts' O remaining
  end.

Definition pending_bytes (parts : list (list Z)) (offset : nat) : list Z :=
  drop offset (concat parts).

(** [accept n pending] is how many bytes the [n]-th call takes. *)
Fixpoint write_parts_loop (accept : nat -> nat -> nat) (fuel n : nat) (parts : list (list Z))
  (offset : nat) (out : list Z) : Result StorageError (list Z) :=
  match parts with
  | [] => Ok out
  | _ =>
      match fuel with
      | O => Err (Internal "write_all_parts: out of fuel")
      | S f =>
          let todo := pending_bytes parts offset in
          let written := Nat.min (accept n (length todo)) (length todo) in
          if decide (written = O)
          then Err (SIo (io_error KWriteZero "failed to append segment payload"))
          else
            let '(parts', offset') := advance parts offset written in
            write_parts_loop accept f (S n) parts' offset' (out ++ take written todo)
      end
  end.

Lemma advance_spec parts : forall offset r,
  (0 < r)%nat -> (r <= length (pending_bytes parts offset))%nat ->
  (offset <= length (default [] (head parts)))%nat ->
  let '(parts', offset') := advance parts offset r in
  pending_bytes parts' offset' = drop r (pending_bytes parts offset) /\
  (offset' = O \/ offset' < length (default [] (head parts')))%nat /\
  (last parts = Some [] <-> last parts' = Some []).
Proof.
  unfold pending_bytes. induction parts as [|p parts IH]; intros offset r Hr Hl Ho;
    cbn [advance concat head default] in *; [rewrite drop_nil in Hl; cbn in Hl; lia|].
  rewrite drop_app_le in Hl |- * by done. rewrite length_app, length_drop in Hl.
  case_decide as Ha.
  - cbn [concat head default]. split_and!; [|right; cbn; lia|done].
    rewrite drop_app_le by lia. rewrite drop_app_le by (rewrite length_drop; lia).
    by rewrite drop_drop.
  - assert (parts <> [] \/ (r - (length p - offset) = 0)%nat) as Hp
      by (destruct parts; [right; cbn in Hl; lia|by left]).
    rewrite drop_app_ge, length_drop by (rewrite length_drop; lia).
    case_decide as H0.
    + rewrite H0, !drop_0. split_and!; [done|by left|].
      destruct parts; [|done]. cbn. split; [|done]. intros [= ->]. cbn in *. lia.
    + specialize (IH O (r - (length p - offset))%nat ltac:(lia)).
      rewrite drop_0 in IH. specialize (IH ltac:(lia) ltac:(lia)).
      destruct (advance parts 0 _) as [parts' offset']. destruct IH as (-> & ? & IHl).
      split_and!; [done|done|]. rewrite <- IHl. by destruct parts; [destruct Hp|].
Qed.

(** Whatever the calls accept, the loop ends after writing the concatenation of
    the parts once, in order; it reports [WriteZero] only for an empty last part. *)
Lemma write_parts_loop_spec accept : (forall n k, (0 < k)%nat -> (0 < accept n k)%nat) ->
  forall fuel n parts offset out,
  (offset = O \/ offset < length (default [] (head parts)))%nat ->
  (length (pending_bytes parts offset) < fuel)%nat ->
  write_parts_loop accept fuel n parts offset out =
  if decide (last parts = Some [])
  then Err (SIo (io_error KWriteZero "failed to append segment payload"))
  else Ok (out ++ pending_bytes parts offset).
Proof.
  intros Hacc. induction fuel as [|fuel IH]; intros n parts offset out Ho Hf; [lia|].
  destruct parts as [|p parts]; cbn [write_parts_loop].
  { rewrite decide_False by done. unfold pending_bytes. cbn. by rewrite drop_nil, app_nil_r. }
  set (todo := pending_bytes (p :: parts) offset) in *.
  case_decide as Hw.
  - assert (length todo = O) as H0.
    { destruct (length todo) as [|k] eqn:E; [done|]. pose proof (Hacc n (S k)). lia. }
    rewrite decide_True; [done|]. unfold todo, pending_bytes in H0. cbn in H0, Ho.
    rewrite drop_app_le, length_app, length_drop in H0 by lia.
    assert (p = []) as -> by (destruct p; [done|cbn in *; lia]). cbn in H0, Ho.
    assert (concat parts = []) as Hc by (destruct (concat parts); [done|cbn in H0; lia]).
    clear -Hc. change [] with (@nil Z). induction parts as [|q parts IH]; [done|].
    cbn in Hc. apply app_eq_nil in Hc as [-> Hc]. cbn in *. by apply IH.
  - pose proof (advance_spec (p :: parts) offset _ (proj1 (Nat.neq_0_lt_0 _) Hw)
      (Nat.le_min_r _ _) ltac:(lia)) as Hadv. fold todo in Hadv.
    destruct (advance _ _ _) as [parts' offset']. destruct Hadv as (Hp & Ho' & Hl).
    rewrite IH by (try done; rewrite Hp, length_drop; lia).
    rewrite Hp, <- app_assoc, take_drop. repeat case_decide; tauto.
Qed.

Section Files.
Context `{HOST : Host} `{ENV : Environ} `{C : Crc32c}.

Definition ensure_parent_dir (path : string) : M World StorageError unit :=
  match path_parent path with
  | None => retM tt
  | Some parent =>
      let! w := getM in
      if decide (parent ∈ w_known_dirs w) then retM tt
      else
        io (fs_create_dir_all parent) ;;!
        modifyM (fun w => w <| w_known_dirs := w_known_dirs w ++ [parent] |>)
  end.

Definition invalidate_append_file (path : string) : M World StorageError unit :=
  modifyM (fun w => w <| w_append := delete path (w_append w) |>).

Definition sync_directory (path : string) : M World StorageError unit :=
  io fs_sync ;;! io fs_sync.

(** The headers of a version 2 file are written twice in a row. *)
Definition write_segment_headers (inode : nat) (h : SegmentHeader) : M World StorageError nat :=
  if decide (version h = STORAGE_LAYOUT_VERSION) then
    let encoded := encode_v2_header_copy h in
    io (fs_write_at inode 0 encoded) ;;!
    io (fs_write_at inode (length encoded) encoded) ;;!
    retM (2 * length encoded)%nat
  else
    io (fs_write_at inode 0 (header_encode h)) ;;! retM (length (header_encode h)).

Definition write_segment_file (path : string) (k : SegmentKind) (id seq : Z) (payload : list Z)
  : M World StorageError unit :=
  ensure_parent_dir path ;;!
  invalidate_append_file path ;;!
  let header := header_new k id seq payload in
  let tmp := with_extension_tmp path in
  let! inode := io (fs_open_trunc tmp) in
  let! off := write_segment_headers inode header in
  io (fs_write_at inode off payload) ;;!
  io fs_sync ;;!
  io (fs_rename tmp path) ;;!
  match path_parent path with Some parent => sync_directory parent | None => retM tt end ;;!
  invalidate_append_file path.

Definition read_segment_file (path : string) (expected_kind : SegmentKind)
  : M World StorageError (SegmentHeader * list Z) :=
  let! exists_ := path_exists path in
  if exists_ then
    let! bytes := io (fs_read path) in
    if decide (length bytes < SEGMENT_HEADER_SIZE)%nat
    then failM (Corrupt ("segment too short: " +:+ path))
    else liftM (decode_segment_file_bytes path expected_kind bytes)
  else failM (SNotFound ("segment not found: " +:+ path)).

Definition read_segment_file_bounded (path : string) (expected_kind : SegmentKind) (max_bytes : Z)
  : M World StorageError (SegmentHeader * list Z) :=
  let! (len, _) := io (fs_metadata path) in
  if decide (max_bytes < len) then failM MetadataBudgetExceeded
  else
    let! i := io (fs_open path) in
    let! bytes := io (fs_read_some_at i 0 (Z.to_nat (max_bytes + 1))) in
    let! (len', _) := io (fs_metadata path) in
    if decide (max_bytes < Zlen bytes \/ max_bytes < len') then failM MetadataBudgetExceeded
    else liftM (decode_segment_file_bytes path expected_kind bytes).

Definition read_segment_header_from_file (inode : nat) (expected_kind : SegmentKind)
  : M World StorageError SegmentHeader :=
  let! probe := io (fs_read_some_at inode 0 SEGMENT_HEADER_V2_TOTAL_SIZE) in
  let! (header, _) := liftM (decode_segment_header_set probe) in
  if decide (kind header <> expected_kind) then failM (Corrupt "segment kind mismatch")
  else retM header.

Definition read_segment_header (path : string) (expected_kind : SegmentKind)
  : M World StorageError SegmentHeader :=
  let! r := io_raw (fs_metadata path) in
  match r with
  | Err e =>
      if decide (io_kind e = KNotFound) then failM (SNotFound ("segment not found: " +:+ path))
      else failM (SIo e)
  | Ok _ =>
      let! i := io (fs_open path) in
      read_segment_header_from_file i expected_kind
  end.

Definition validate_segment_shape (path : string) (expected_kind : SegmentKind)
  : M World StorageError SegmentHeader :=
  let! header := read_segment_header path expected_kind in
  let! (actual_len, _) := io (fs_metadata path) in
  let expected_len := segment_payload_offset header + payload_len header in
  if decide (actual_len <> expected_len)
  then failM (Corrupt ("segment size mismatch expected=" +:+ show_string expected_len
                       +:+ " actual=" +:+ show_string actual_len +:+ ": " +:+ path))
  else retM header.

(** After an append the backup copy is written before the primary one. *)
Definition write_segment_header_copies_at (inode : nat) (h : SegmentHeader)
  : M World StorageError unit :=
  if decide (version h = STORAGE_LAYOUT_VERSION) then
    let encoded := encode_v2_header_copy h in
    io (fs_write_at inode SEGMENT_HEADER_V2_COPY_SIZE encoded) ;;!
    io (fs_write_at inode 0 encoded)
  else io (fs_write_at inode 0 (header_encode h)).

(** The buffers written at the append position: one [write_all] for a single
    part, the vectored loop [write_parts_loop] otherwise. *)
Definition write_all_parts (inode off : nat) (parts : list (list Z)) : M World StorageError unit :=
  io (fs_write_at inode off (concat parts)) ;;!
  if decide (length parts <> 1%nat /\ last parts = Some [])
  then failM (SIo (io_error KWriteZero "failed to append segment payload"))
  else retM tt.

(** The header of a log after [parts] were appended to it. *)
Definition appended_header (h : SegmentHeader) (parts : list (list Z)) (checksum_enabled : bool)
  : SegmentHeader :=
  let sum :=
    if checksum_enabled && negb (bool_decide (checksum h = 0)) then
      fold_left (fun acc part =>
        if decide (version h = STORAGE_LAYOUT_VERSION) then integrity32_continue acc part
        else checksum32_continue acc part) parts (checksum h)
    else 0 in
  h <| sequence := sat_add64 (sequence h) 1 |>
    <| payload_len := sat_add64 (payload_len h) (Zlen (concat parts)) |>
    <| checksum := sum |>.

Definition set_append (path : string) (st : AppendFileState) : M World StorageError unit :=
  modifyM (fun w => w <| w_append := <[path := st]> (w_append w) |>).

(** Open the log for appending, unless a handle is cached.  [None]: there is no
    such file. *)
Definition open_append (path : string) : M World StorageError (option AppendFileState) :=
  let! w := getM in
  match w_append w !! path with
  | Some st => retM (Some st)
  | None =>
      let! r := io_raw (fs_open path) in
      match r with
      | Err e => if decide (io_kind e = KNotFound) then retM None
                 else failM (storage_error_of_io e)
      | Ok i =>
          let! header_buf := io (fs_read_some_at i 0 SEGMENT_HEADER_V2_TOTAL_SIZE) in
          let! (header, offset) := liftM (decode_segment_header_set header_buf) in
          let st := mkAppend i header offset None (offset + payload_len header) in
          set_append path st ;;! retM (Some st)
      end
  end.

(** The whole segment is rewritten with the prefix when the log is missing or
    empty. *)
Definition start_log (path : string) (k : SegmentKind) (id seq : Z) (prefix : list Z)
  (parts : list (list Z)) : M World StorageError SegmentHeader :=
  write_segment_file path k id seq (prefix ++ concat parts) ;;! read_segment_header path k.

Definition check_prefix (path : string) (st : AppendFileState) (expected_prefix : list Z)
  : M World StorageError AppendFileState :=
  if decide (checked_prefix st = Some expected_prefix) then retM st
  else
    let! found := io (fs_read_exact_at (af_inode st) (Z.to_nat (payload_offset st))
                        (length expected_prefix)) in
    if decide (found <> expected_prefix)
    then failM (Conflict ("segment " +:+ path +:+ " requires migration before append"))
    else
      let st := st <| checked_prefix := Some expected_prefix |> in
      set_append path st ;;! retM st.

(** The append proper: payload first, then the header copies, in place. *)
Definition append_opened (path : string) (st : AppendFileState) (parts : list (list Z))
  (sync checksum_enabled : bool) : M World StorageError SegmentHeader :=
  write_all_parts (af_inode st) (Z.to_nat (append_offset st)) parts ;;!
  let header := appended_header (af_header st) parts checksum_enabled in
  let st := st <| af_header := header |>
               <| append_offset := sat_add64 (append_offset st) (Zlen (concat parts)) |> in
  set_append path st ;;!
  (if sync then io fs_sync else retM tt) ;;!
  write_segment_header_copies_at (af_inode st) header ;;!
  (if sync then io fs_sync else retM tt) ;;!
  retM header.

Definition append_segment_payload_parts (path : string) (k : SegmentKind) (id : Z)
  (expected_prefix : list Z) (parts : list (list Z)) (sync checksum_enabled : bool)
  : M World StorageError SegmentHeader :=
  if decide (concat parts = []) then read_segment_header path k
  else
    ensure_parent_dir path ;;!
    let! opened := open_append path in
    match opened with
    | None => start_log path k id 1 expected_prefix parts
    | Some st =>
        if decide (kind (af_header st) <> k) then failM (Corrupt "segment kind mismatch")
        else if decide (payload_len (af_header st) = 0)
        then start_log path k id (sat_add64 (sequence (af_header st)) 1) expected_prefix parts
        else
          let! st := check_prefix path st expected_prefix in
          append_opened path st parts sync checksum_enabled
    end.

Definition append_segment_payload (path : string) (k : SegmentKind) (id : Z)
  (expected_prefix appended : list Z) (sync : bool) : M World StorageError SegmentHeader :=
  append_segment_payload_parts path k id expected_prefix [appended] sync true.

Definition sync_segment_file (path : string) : M World StorageError unit :=
  let! w := getM in
  match w_append w !! path with
  | Some _ => io fs_sync
  | None => let! _ := io (fs_open path) in io fs_sync
  end.

(** [Path::starts_with] on whole components. *)
Definition path_under (root path : string) : Prop :=
  path = root \/
  take (S (length (bytes_of_string root))) (bytes_of_string path) = bytes_of_string root ++ [47].
#[export] Instance path_under_dec root path : Decision (path_under root path).
Proof. unfold path_under; apply _. Defined.

Definition discard_layout_append_handles (root : string) : M World StorageError unit :=
  modifyM (fun w => w <| w_append := filter (fun e => ~ path_under root e.1) (w_append w) |>).
End Files.

(** ** Header copies *)
Section HeaderLaws.
Context `{CL : Crc32cLaws}.

(** A header this version of the software writes. *)
Definition current_header (h : SegmentHeader) : Prop :=
  wf_header h /\ version h = STORAGE_LAYOUT_VERSION.

Lemma integrity32_u32 l : bytes_ok l -> u32_ok (integrity32 l).
Proof. intros; unfold integrity32. apply crc32c_append_u32; [unfold u32_ok; lia|done]. Qed.

Lemma header_encode_ok h : bytes_ok (header_encode h).
Proof. unfold header_encode, bytes_ok. rewrite !Forall_app. split_and!; apply to_le_ok. Qed.

Lemma header_copy_body_ok h : bytes_ok (header_copy_body h).
Proof.
  unfold header_copy_body, bytes_ok. rewrite !Forall_app.
  split; [apply header_encode_ok|]. split; [apply to_le_ok|]. repeat constructor; lia.
Qed.

Lemma length_header_copy_body h : length (header_copy_body h) = 44%nat.
Proof. unfold header_copy_body. rewrite length_app, length_header_encode. len_solve. Qed.

Lemma length_encode_v2 h : length (encode_v2_header_copy h) = SEGMENT_HEADER_V2_COPY_SIZE.
Proof.
  unfold encode_v2_header_copy, SEGMENT_HEADER_V2_COPY_SIZE; cbn zeta.
  rewrite length_app, length_header_copy_body. len_solve.
Qed.

Lemma decode_encode_v2 h :
  current_header h -> decode_v2_header_copy (encode_v2_header_copy h) = Ok h.
Proof.
  intros [Hwf Hv]. pose proof (length_header_copy_body h) as Hlen.
  pose proof (integrity32_u32 _ (header_copy_body_ok h)) as Hs. unfold u32_ok in Hs.
  unfold decode_v2_header_copy. rewrite length_encode_v2, decide_False by lia.
  unfold encode_v2_header_copy; cbn zeta. rewrite take_app_length' by done.
  rewrite slice_skip, Hlen, slice_all by (rewrite ?Hlen; len_solve; done).
  rewrite from_le_to_le by (cbn; lia). rewrite decide_False by tauto.
  rewrite take_app_le by (rewrite Hlen; unfold SEGMENT_HEADER_SIZE; lia).
  unfold header_copy_body. rewrite take_app_length' by (by rewrite length_header_encode).
  rewrite <- (app_nil_r (header_encode h)), header_decode_encode by done. cbn [rbind].
  by rewrite decide_False by tauto.
Qed.

Lemma header_decode_prefix h rest :
  wf_header h -> header_decode (take SEGMENT_HEADER_SIZE (encode_v2_header_copy h ++ rest)) = Ok h.
Proof.
  intros Hwf. rewrite take_app_le by (rewrite length_encode_v2; vm_compute; lia).
  unfold encode_v2_header_copy, header_copy_body; cbn zeta. rewrite <- app_assoc.
  rewrite take_app_length' by (by rewrite length_header_encode).
  rewrite <- (app_nil_r (header_encode h)). by apply header_decode_encode.
Qed.

Lemma header_set_copies c1 c2 rest h1 :
  length c1 = SEGMENT_HEADER_V2_COPY_SIZE -> length c2 = SEGMENT_HEADER_V2_COPY_SIZE ->
  (forall h, header_decode (take SEGMENT_HEADER_SIZE c1) = Ok h ->
             version h <> STORAGE_LAYOUT_VERSION_V1) ->
  select_copy (decode_v2_header_copy c1) (decode_v2_header_copy c2) = Ok h1 ->
  decode_segment_header_set (c1 ++ c2 ++ rest) = Ok (h1, 96).
Proof.
  intros H1 H2 Hv Hs. unfold decode_segment_header_set, SEGMENT_HEADER_V2_COPY_SIZE in *.
  rewrite !length_app, H1, H2.
  rewrite decide_False by (unfold SEGMENT_HEADER_SIZE; lia).
  rewrite take_app_le by (rewrite H1; unfold SEGMENT_HEADER_SIZE; lia).
  rewrite (decide_False (P := (48 + _ < _)%nat)) by (unfold SEGMENT_HEADER_V2_TOTAL_SIZE; lia).
  rewrite take_app_length' by done.
  rewrite slice_skip by (rewrite H1; lia). rewrite H1, slice_here by (rewrite H2; done).
  rewrite Hs. destruct (header_decode _) as [h|e] eqn:E; [|done]. cbn.
  by rewrite bool_decide_eq_false_2 by auto.
Qed.

Lemma decode_segment_header_set_ok h rest :
  current_header h ->
  decode_segment_header_set (encode_v2_header_copy h ++ encode_v2_header_copy h ++ rest) = Ok (h, 96).
Proof.
  intros Hh. apply header_set_copies; auto using length_encode_v2.
  - intros h' E. rewrite <- (app_nil_r (encode_v2_header_copy h)) in E.
    rewrite header_decode_prefix in E by apply Hh. injection E as <-. destruct Hh as [_ ->]. done.
  - rewrite decode_encode_v2 by done. unfold select_copy. by rewrite decide_True by lia.
Qed.

Lemma header_new_current k id seq payload :
  u64_ok id -> u64_ok seq -> bytes_ok payload -> Zlen payload <= U64_MAX ->
  current_header (header_new k id seq payload).
Proof.
  intros Hi Hs Hb Hl. pose proof (integrity32_u32 _ Hb). split; [|done].
  unfold wf_header, header_new; cbn. unfold u16_ok, u32_ok, u64_ok, Zlen in *.
  unfold STORAGE_LAYOUT_MAGIC, STORAGE_LAYOUT_VERSION. lia.
Qed.

Lemma validate_new k id seq payload : validate (header_new k id seq payload) payload = Ok tt.
Proof.
  unfold validate, header_new; cbn -[integrity32 Zlen].
  rewrite (bool_decide_eq_false_2 (STORAGE_LAYOUT_VERSION = STORAGE_LAYOUT_VERSION_V1)) by done.
  rewrite (bool_decide_eq_true_2 (STORAGE_LAYOUT_MAGIC = STORAGE_LAYOUT_MAGIC)) by done.
  rewrite (bool_decide_eq_true_2 (STORAGE_LAYOUT_VERSION = STORAGE_LAYOUT_VERSION)) by done.
  rewrite (bool_decide_eq_true_2 (Zlen payload = Zlen payload)) by done.
  cbn -[integrity32]. by rewrite bool_decide_eq_true_2.
Qed.

(** A whole segment file decodes to the header and payload it was written with. *)
Lemma decode_segment_bytes path k id seq payload :
  u64_ok id -> u64_ok seq -> bytes_ok payload -> Zlen payload <= U64_MAX ->
  let h := header_new k id seq payload in
  decode_segment_file_bytes path k (segment_bytes h payload) = Ok (h, payload).
Proof.
  intros Hi Hs Hb Hl h. pose proof (header_new_current k id seq payload Hi Hs Hb Hl) as Hc.
  unfold decode_segment_file_bytes, segment_bytes.
  rewrite decide_False by (rewrite !length_app, !length_encode_v2; vm_compute; lia).
  rewrite decode_segment_header_set_ok by exact Hc. cbn [rbind].
  rewrite decide_False by (cbn; tauto).
  rewrite decide_False by (unfold Zlen; rewrite !length_app, !length_encode_v2;
    unfold SEGMENT_HEADER_V2_COPY_SIZE; lia).
  rewrite app_assoc, drop_app_length' by (rewrite length_app, !length_encode_v2; done).
  unfold h. rewrite validate_new. done.
Qed.
End HeaderLaws.

(** ** Whole-file replacement *)
Create HintDb files.
Section FileLaws.
Context `{HOST : Host} `{ENV : Environ} `{CL : Crc32cLaws}.

Lemma io_run {A} (m : M Fs IoError A) w :
  io m w = (map_err storage_error_of_io (fst (m (w_fs w))), w <| w_fs := snd (m (w_fs w)) |>).
Proof. unfold io, map_errM, zoomM. by destruct (m (w_fs w)). Qed.

(** Files other than those in [ps] are as in [fs0]. *)
Definition frame (ps : list string) (fs0 fs : Fs) : Prop :=
  wf_fs fs /\ forall q, (q ∉ ps) -> contents fs q = contents fs0 q.

Lemma frame_refl ps fs : wf_fs fs -> frame ps fs fs.
Proof. done. Qed.
Lemma frame_same ps fs0 fs fs' : frame ps fs0 fs -> same_files fs fs' -> frame ps fs0 fs'.
Proof.
  intros [Hw Hc] Hs. split; [by eapply wf_same|].
  intros q Hq. unfold contents. rewrite (file_at_same fs) by done. by apply Hc.
Qed.
Lemma fs_sync_same fs : same_files fs (snd (fs_sync fs)).
Proof. apply io_step_frame. Qed.

Lemma ensure_parent_dir_spec path w :
  same_files (w_fs w) (w_fs (snd (ensure_parent_dir path w))) /\
  (no_faults -> fst (ensure_parent_dir path w) = Ok tt).
Proof.
  unfold ensure_parent_dir. destruct (path_parent path) as [parent|]; [|done].
  unfold bindM, getM. case_decide; [done|]. rewrite io_run. unfold fs_create_dir_all.
  pose proof (io_step_frame (w_fs w)) as Hf. pose proof (io_step_ok (w_fs w)) as Hok.
  destruct (io_step (w_fs w)) as [[[]|e] fs1]; cbn in *; [done|].
  split; [done|]. intros Hn; specialize (Hok Hn); congruence.
Qed.

(** The temporary file after the two header copies were written. *)
Lemma write_segment_headers_spec w tmp i h :
  wf_fs (w_fs w) -> fs_names (w_fs w) !! tmp = Some i -> contents (w_fs w) tmp = Some [] ->
  version h = STORAGE_LAYOUT_VERSION ->
  let r := write_segment_headers i h w in
  frame [tmp] (w_fs w) (w_fs (snd r)) /\ fs_names (w_fs (snd r)) = fs_names (w_fs w) /\
  (forall off, fst r = Ok off -> off = 96%nat /\
     contents (w_fs (snd r)) tmp = Some (encode_v2_header_copy h ++ encode_v2_header_copy h)) /\
  (no_faults -> exists off, fst r = Ok off).
Proof.
  intros Hw Hn Hc Hv. unfold write_segment_headers. rewrite decide_True by done.
  unfold bindM. rewrite io_run.
  destruct (fs_write_at_spec (w_fs w) tmp i 0 (encode_v2_header_copy h) Hw Hn)
    as (W1 & N1 & C1 & D1 & K1).
  destruct (fs_write_at i 0 _ (w_fs w)) as [[[]|e] fs1]; cbn in W1, N1, C1, D1, K1 |- *; cycle 1.
  { split_and!; [split; [done|set_solver]|done|done|intros Hf; specialize (K1 Hf); done]. }
  specialize (D1 _ Hc eq_refl). rewrite write_at_0 in D1.
  assert (fs_names fs1 !! tmp = Some i) as Hn1 by congruence.
  rewrite io_run. cbn.
  destruct (fs_write_at_spec fs1 tmp i (length (encode_v2_header_copy h))
              (encode_v2_header_copy h) W1 Hn1) as (W2 & N2 & C2 & D2 & K2).
  destruct (fs_write_at i (length _) _ fs1) as [[[]|e] fs2]; cbn in W2, N2, C2, D2, K2 |- *; cycle 1.
  { split_and!; [split; [done|] |congruence|done|intros Hf; specialize (K2 Hf); done].
    intros q Hq. rewrite C2, C1 by set_solver. done. }
  specialize (D2 _ D1 eq_refl). rewrite write_at_end in D2.
  split_and!; [split; [done|] |congruence| |by eauto].
  - intros q Hq. rewrite C2, C1 by set_solver. done.
  - intros off [= <-]. split; [by rewrite length_encode_v2|done].
Qed.

(** The tail of a replacement: rename, directory sync, cache invalidation. *)
Lemma finish_replace_spec w tmp path :
  wf_fs (w_fs w) -> tmp <> path ->
  let r := (io (fs_rename tmp path) ;;!
            match path_parent path with Some parent => sync_directory parent | None => retM tt end ;;!
            invalidate_append_file path) w in
  frame [tmp; path] (w_fs w) (w_fs (snd r)) /\
  (contents (w_fs (snd r)) path = contents (w_fs w) path \/
   contents (w_fs (snd r)) path = contents (w_fs w) tmp) /\
  (fst r = Ok tt -> contents (w_fs (snd r)) path = contents (w_fs w) tmp) /\
  (no_faults -> is_Some (fs_names (w_fs w) !! tmp) -> fst r = Ok tt).
Proof.
  intros Hw Hne. unfold bindM at 1. rewrite io_run.
  destruct (fs_rename_spec (w_fs w) tmp path Hw Hne) as (W1 & C1 & D1 & E1 & K1).
  destruct (fs_rename tmp path (w_fs w)) as [[[]|e] fs1]; cbn [fst snd map_err] in *; cycle 1.
  { split_and!; [split; [done|]|left; by apply E1|done|].
    - intros q Hq. apply C1; set_solver.
    - intros Hn Hs; specialize (K1 Hn Hs); done. }
  specialize (D1 eq_refl).
  set (w1 := w <| w_fs := fs1 |>).
  assert (forall r w2, same_files fs1 (w_fs w2) ->
    frame [tmp; path] (w_fs w) (w_fs w2) /\
    (contents (w_fs w2) path = contents (w_fs w) path \/
     contents (w_fs w2) path = contents (w_fs w) tmp) /\
    (r = Ok tt :> Result StorageError unit ->
     contents (w_fs w2) path = contents (w_fs w) tmp)) as Hend.
  { intros r w2 Hs. assert (frame [tmp; path] (w_fs w) fs1) as Hf
      by (split; [done|]; intros q Hq; apply C1; set_solver).
    split_and!; [by eapply frame_same| |]; rewrite (contents_same fs1) by done; auto. }
  destruct (path_parent path) as [parent|].
  - unfold bindM, sync_directory, bindM. rewrite io_run. cbn [w_fs].
    change (w_fs w1) with fs1.
    pose proof (fs_sync_same fs1) as S2. pose proof (fs_sync_spec fs1 W1) as (_ & _ & _ & K2).
    destruct (fs_sync fs1) as [[[]|e] fs2]; cbn [fst snd map_err] in *; cycle 1.
    { edestruct (Hend (Err (storage_error_of_io e))) as (A1 & A2 & A3); [|split_and!; eauto].
      - exact S2.
      - intros Hn; specialize (K2 Hn); done. }
    rewrite io_run. cbn [w_fs].
    pose proof (fs_sync_same fs2) as S3.
    assert (wf_fs fs2) as W2 by (by eapply wf_same).
    pose proof (fs_sync_spec fs2 W2) as (_ & _ & _ & K3).
    assert (same_files fs1 (snd (fs_sync fs2))) as S13
      by (unfold same_files in *; intuition congruence).
    change (w_fs (put_field w_fs fs2 w1)) with fs2.
    destruct (fs_sync fs2) as [[[]|e] fs3]; cbn [fst snd map_err] in *.
    + edestruct (Hend (Ok tt)) as (A1 & A2 & A3); [|split_and!; eauto]. exact S13.
    + edestruct (Hend (Err (storage_error_of_io e))) as (A1 & A2 & A3); [|split_and!; eauto].
      * exact S13.
      * intros Hn; specialize (K3 Hn); done.
  - cbn. destruct (Hend (Ok tt) w1 ltac:(done)) as (A1 & A2 & A3). split_and!; eauto.
Qed.

(** The outcome of a replacement of [path] by [new] through [tmp]: nothing else
    changes, [path] holds its old contents or [new], and success means [new]. *)
Definition replaced (tmp path : string) (new : list Z) (w : World)
  (r : Result StorageError unit * World) : Prop :=
  frame [tmp; path] (w_fs w) (w_fs (snd r)) /\
  (contents (w_fs (snd r)) path = contents (w_fs w) path \/
   contents (w_fs (snd r)) path = Some new) /\
  (fst r = Ok tt -> contents (w_fs (snd r)) path = Some new) /\
  (no_faults -> fst r = Ok tt).

(** A replacement that failed before the rename left only the temporary file. *)
Lemma replaced_err tmp path new w e w2 :
  frame [tmp] (w_fs w) (w_fs w2) -> tmp <> path ->
  (no_faults -> False) -> replaced tmp path new w (Err e, w2).
Proof.
  intros [Hf1 Hf2] Hne Hno.
  split_and!; [split; [done|]; intros; apply Hf2; set_solver
              |left; apply Hf2; set_solver|done|done].
Qed.

(** Replacing a segment file is atomic under any faults: its path holds the old
    file or the complete new one. *)
Lemma write_segment_file_spec w path k id seq payload :
  wf_fs (w_fs w) -> with_extension_tmp path <> path ->
  replaced (with_extension_tmp path) path
    (segment_bytes (header_new k id seq payload) payload) w
    (write_segment_file path k id seq payload w).
Proof.
  intros Hw Hne. unfold write_segment_file. set (tmp := with_extension_tmp path) in *.
  set (h := header_new k id seq payload).
  unfold bindM at 1. destruct (ensure_parent_dir_spec path w) as [S0 K0].
  destruct (ensure_parent_dir path w) as [[[]|e] w0]; cbn [fst snd] in S0, K0; cycle 1.
  { apply replaced_err; [split; [by eapply wf_same|by intros; apply contents_same]|done|].
    intros Hn; specialize (K0 Hn); done. }
  assert (wf_fs (w_fs w0)) as W0 by (by eapply wf_same).
  unfold bindM at 1, invalidate_append_file at 1, modifyM.
  set (w1 := w0 <| w_append := delete path (w_append w0) |>).
  unfold bindM at 1. rewrite io_run. change (w_fs w1) with (w_fs w0).
  destruct (fs_open_trunc_spec (w_fs w0) tmp W0) as (W2 & C2 & N2 & K2).
  assert (frame [tmp] (w_fs w) (snd (fs_open_trunc tmp (w_fs w0)))) as F2.
  { split; [done|]. intros q Hq. rewrite C2 by set_solver. by apply contents_same. }
  destruct (fs_open_trunc tmp (w_fs w0)) as [[i|e] fs2]; cbn [fst snd map_err] in *; cycle 1.
  { apply replaced_err; [exact F2|done|]. intros Hn; destruct (K2 Hn); done. }
  destruct (N2 i eq_refl) as [Ni Ci]. set (w2 := w1 <| w_fs := fs2 |>).
  unfold bindM at 1.
  destruct (write_segment_headers_spec w2 tmp i h W2 Ni Ci eq_refl) as (F3 & N3 & C3 & K3).
  assert (frame [tmp] (w_fs w) (w_fs (snd (write_segment_headers i h w2)))) as F3'.
  { destruct F3 as [? F3]. split; [done|]. intros q Hq. rewrite F3 by done. by apply F2. }
  destruct (write_segment_headers i h w2) as [[off|e] w3]; cbn [fst snd] in *; cycle 1.
  { apply replaced_err; [exact F3'|done|]. intros Hn; destruct (K3 Hn); done. }
  destruct (C3 off eq_refl) as [-> D3]. destruct F3 as [W3 F3].
  assert (fs_names (w_fs w3) !! tmp = Some i) as Nw3 by (rewrite N3; exact Ni).
  unfold bindM at 1. rewrite io_run.
  destruct (fs_write_at_spec (w_fs w3) tmp i 96 payload W3 Nw3) as (W4 & N4 & C4 & D4 & K4).
  assert (frame [tmp] (w_fs w) (snd (fs_write_at i 96 payload (w_fs w3)))) as F4.
  { split; [done|]. intros q Hq. rewrite C4 by set_solver. by apply F3'. }
  destruct (fs_write_at i 96 payload (w_fs w3)) as [[[]|e] fs4]; cbn [fst snd map_err] in *; cycle 1.
  { apply replaced_err; [exact F4|done|]. intros Hn; specialize (K4 Hn); done. }
  specialize (D4 _ D3 eq_refl).
  assert (96%nat = length (encode_v2_header_copy h ++ encode_v2_header_copy h)) as E96
    by (rewrite length_app, !length_encode_v2; done).
  rewrite E96, write_at_end, <- app_assoc in D4.
  unfold bindM at 1. rewrite io_run. set (w4 := w3 <| w_fs := fs4 |>).
  change (w_fs w4) with fs4.
  pose proof (fs_sync_same fs4) as S5. pose proof (fs_sync_spec fs4 W4) as (W5 & _ & _ & K5).
  assert (frame [tmp] (w_fs w) (snd (fs_sync fs4))) as [F5 F5'] by (by eapply frame_same).
  destruct (fs_sync fs4) as [[[]|e] fs5]; cbn [fst snd map_err] in *; cycle 1.
  { apply replaced_err; [by split|done|].
    intros Hn; specialize (K5 Hn); done. }
  set (w5 := w4 <| w_fs := fs5 |>).
  destruct (finish_replace_spec w5 tmp path W5 Hne) as (F6 & C6 & D6 & K6).
  assert (contents (w_fs w5) tmp = Some (segment_bytes h payload)) as Ct
    by (rewrite (contents_same fs4) by done; exact D4).
  rewrite Ct in C6, D6. split_and!.
  - destruct F6 as [Wf F6]. split; [exact Wf|]. intros q Hq. rewrite F6 by done. apply F5'. set_solver.
  - destruct C6 as [C6|C6]; [left|by right]. rewrite C6. apply F5'. set_solver.
  - exact D6.
  - intros Hn. apply K6; [done|]. destruct S5 as [S5 _].
    change (w_fs w5) with fs5. rewrite S5, N4, Nw3. eauto.
Qed.

(** ** Logs

    [log_file w k path id seq payload]: the path holds a complete segment of
    [payload], and a cached append handle of the path describes that file. *)
Record log_file (w : World) (k : SegmentKind) (path : string) (id seq : Z) (payload : list Z)
  : Prop := {
  lf_wf : wf_fs (w_fs w);
  lf_contents : contents (w_fs w) path = Some (segment_bytes (header_new k id seq payload) payload);
  lf_id : u64_ok id;
  lf_seq : u64_ok seq;
  lf_bytes : bytes_ok payload;
  lf_len : 96 + Zlen payload <= U64_MAX;
  lf_handle : forall st, w_append w !! path = Some st ->
    fs_names (w_fs w) !! path = Some (af_inode st) /\
    af_header st = header_new k id seq payload /\
    payload_offset st = 96 /\ append_offset st = 96 + Zlen payload /\
    (forall pre, checked_prefix st = Some pre -> take (length pre) payload = pre)
}.

Lemma length_segment_bytes h payload :
  length (segment_bytes h payload) = (96 + length payload)%nat.
Proof. unfold segment_bytes. rewrite !length_app, !length_encode_v2. unfold SEGMENT_HEADER_V2_COPY_SIZE. lia. Qed.

(** Extending the checksum part by part is the checksum of the whole payload. *)
Lemma appended_header_new k id seq payload parts :
  integrity32 payload <> 0 -> seq < U64_MAX -> Zlen payload + Zlen (concat parts) <= U64_MAX ->
  appended_header (header_new k id seq payload) parts true =
  header_new k id (seq + 1) (payload ++ concat parts).
Proof.
  intros Hc Hs Hl. unfold appended_header, header_new; cbn -[integrity32].
  rewrite bool_decide_eq_false_2 by done. unfold put_field; cbn -[integrity32].
  unfold sat_add64. f_equal; [lia|unfold Zlen in *; rewrite length_app; lia|].
  clear -CL. revert payload.
  induction parts as [|p parts IH]; intros payload; cbn [fold_left concat]; [by rewrite app_nil_r|].
  rewrite decide_True by done. unfold integrity32_continue at 2. unfold integrity32 at 1. rewrite crc32c_append_app.
  rewrite app_assoc, <- IH. done.
Qed.

Lemma copies_overwrite h h' payload :
  write_at 0 (encode_v2_header_copy h')
    (write_at SEGMENT_HEADER_V2_COPY_SIZE (encode_v2_header_copy h') (segment_bytes h payload)) =
  segment_bytes h' payload.
Proof.
  pose proof (length_encode_v2 h) as L. pose proof (length_encode_v2 h') as L'.
  rewrite (write_at_inside SEGMENT_HEADER_V2_COPY_SIZE), L'
    by (rewrite length_segment_bytes, L'; vm_compute; lia).
  unfold segment_bytes at 1. rewrite take_app_length' by done.
  unfold segment_bytes at 1. rewrite (app_assoc (encode_v2_header_copy h) (encode_v2_header_copy h)), drop_app_length'
    by (rewrite length_app, L; done).
  rewrite write_at_inside, L' by (rewrite !length_app, L, L'; vm_compute; lia).
  rewrite take_0, Nat.add_0_l, drop_app_length' by done. done.
Qed.

Lemma append_overwrite h payload d :
  write_at (96 + length payload) d (segment_bytes h payload) = segment_bytes h (payload ++ d).
Proof.
  rewrite <- length_segment_bytes with (h := h), write_at_end.
  unfold segment_bytes. by rewrite <- !app_assoc.
Qed.

(** Only the file system, the append handles and the known directories differ:
    the caches of the other components are untouched. *)
Definition files_only (w w' : World) : Prop :=
  w' = w <| w_fs := w_fs w' |> <| w_append := w_append w' |> <| w_known_dirs := w_known_dirs w' |>.

Lemma files_only_refl w : files_only w w.
Proof. by destruct w. Qed.
Lemma files_only_trans w1 w2 w3 : files_only w1 w2 -> files_only w2 w3 -> files_only w1 w3.
Proof. unfold files_only. intros -> H. exact H. Qed.
Lemma files_only_io {A} (m : M Fs IoError A) w : files_only w (snd (io m w)).
Proof. rewrite io_run. done. Qed.
Lemma files_only_set w path st : files_only w (snd (set_append path st w)).
Proof. done. Qed.
Lemma files_only_parent path w : files_only w (snd (ensure_parent_dir path w)).
Proof.
  unfold ensure_parent_dir. destruct (path_parent path); [|apply files_only_refl].
  unfold bindM, getM. case_decide; [apply files_only_refl|].
  rewrite io_run. by destruct (fst _).
Qed.

(** A step that leaves the files alone keeps a log. *)
(** ** Segments under any current header

    [seg_file w path h payload]: the path holds the payload under header [h] and
    a cached append handle of the path describes that file.  A log is such a
    segment whose header carries the payload's checksum; data segments may run
    without one. *)
Record seg_file (w : World) (path : string) (h : SegmentHeader) (payload : list Z) : Prop := {
  sf_wf : wf_fs (w_fs w);
  sf_contents : contents (w_fs w) path = Some (segment_bytes h payload);
  sf_header : current_header h;
  sf_plen : payload_len h = Zlen payload;
  sf_bytes : bytes_ok payload;
  sf_len : 96 + Zlen payload <= U64_MAX;
  sf_handle : forall st, w_append w !! path = Some st ->
    fs_names (w_fs w) !! path = Some (af_inode st) /\ af_header st = h /\
    payload_offset st = 96 /\ append_offset st = 96 + Zlen payload /\
    (forall pre, checked_prefix st = Some pre -> take (length pre) payload = pre)
}.

Lemma log_file_seg w k path id seq payload :
  log_file w k path id seq payload <->
  seg_file w path (header_new k id seq payload) payload /\ u64_ok id /\ u64_ok seq.
Proof.
  split.
  - intros [H1 H2 H3 H4 H5 H6 H7]. split; [|done]. split; try done.
    apply header_new_current; auto. unfold Zlen in *; lia.
  - intros ([H1 H2 H3 H4 H5 H6 H7] & ? & ?). by split.
Qed.

Lemma seg_file_same w w' path h payload :
  same_files (w_fs w) (w_fs w') -> w_append w' !! path = w_append w !! path ->
  seg_file w path h payload -> seg_file w' path h payload.
Proof.
  intros Hs Ha [H1 H2 H3 H4 H5 H6 H7]. split; try done.
  - by eapply wf_same.
  - by rewrite (contents_same (w_fs w)).
  - rewrite Ha. destruct Hs as [-> _]. done.
Qed.

Lemma log_file_same w w' k path id seq payload :
  same_files (w_fs w) (w_fs w') -> w_append w' !! path = w_append w !! path ->
  log_file w k path id seq payload -> log_file w' k path id seq payload.
Proof.
  intros Hs Ha (HS & Hi & Hq)%log_file_seg. apply log_file_seg. eauto using seg_file_same.
Qed.

(** The handle [st] of the segment is cached. *)
Definition opened (w : World) (path : string) (h : SegmentHeader) (payload : list Z)
  (st : AppendFileState) : Prop :=
  seg_file w path h payload /\ w_append w !! path = Some st.

Lemma header_probe h payload :
  current_header h ->
  decode_segment_header_set (slice 0 (0 + SEGMENT_HEADER_V2_TOTAL_SIZE) (segment_bytes h payload))
  = Ok (h, 96).
Proof.
  intros Hh. unfold segment_bytes. rewrite app_assoc, slice_here
    by (rewrite length_app, !length_encode_v2; done).
  rewrite <- (app_nil_r (encode_v2_header_copy h)) at 2.
  by apply decode_segment_header_set_ok.
Qed.

Lemma open_append_spec w path h payload :
  no_faults -> seg_file w path h payload ->
  exists st w', open_append path w = (Ok (Some st), w') /\ files_only w w' /\
    same_files (w_fs w) (w_fs w') /\ opened w' path h payload st.
Proof.
  intros Hn HL. unfold open_append, bindM at 1, getM.
  destruct (w_append w !! path) as [st|] eqn:Ha.
  { exists st, w. split_and!; [done|apply files_only_refl|done|by split]. }
  pose proof HL as [Hwf Hc Hh Hpl Hb Hlen _].
  destruct (fs_open_ok _ _ _ Hn Hc) as (i & Ho & Hi).
  unfold bindM at 1, io_raw, tryM, zoomM. rewrite Ho. unfold bindM at 1. rewrite io_run. cbn [w_fs].
  set (fs1 := (w_fs w) <| fs_tick := S (fs_tick (w_fs w)) |>).
  change (w_fs (w <| w_fs := fs1 |>)) with fs1.
  rewrite (fs_read_some_ok fs1 path i _ _ _ Hn Hi Hc). cbn [fst snd map_err].
  unfold bindM at 1, liftM. rewrite header_probe by done.
  eexists _, _. split; [reflexivity|]. split_and!; [done..|]. split; [|apply lookup_insert_eq].
  split; try done. cbn. intros st. rewrite lookup_insert_eq. intros [= <-]. cbn.
  split_and!; try done. by rewrite Hpl.
Qed.

Lemma slice_segment_payload h payload n :
  (n <= length payload)%nat -> slice 96 (96 + n) (segment_bytes h payload) = take n payload.
Proof.
  intros Hn. unfold segment_bytes. rewrite app_assoc.
  assert (length (encode_v2_header_copy h ++ encode_v2_header_copy h) = 96%nat) as L
    by (rewrite length_app, !length_encode_v2; done).
  rewrite slice_skip, L by lia. unfold slice.
  rewrite Nat.sub_diag, drop_0. f_equal. lia.
Qed.

Lemma check_prefix_spec w path h payload st pre :
  no_faults -> opened w path h payload st -> take (length pre) payload = pre ->
  exists st' w', check_prefix path st pre w = (Ok st', w') /\ files_only w w' /\
    same_files (w_fs w) (w_fs w') /\ opened w' path h payload st'.
Proof.
  intros Hn [HL Ha] Hpre. unfold check_prefix. case_decide as Hp.
  { exists st, w. split_and!; [done|apply files_only_refl|done|by split]. }
  pose proof HL as [Hwf Hc Hch Hpl Hb Hlen Hh]. destruct (Hh _ Ha) as (Hi & Hhd & Hpo & Hao & _).
  assert (length pre <= length payload)%nat as Hl
    by (rewrite <- Hpre, length_take; lia).
  unfold bindM at 1. rewrite io_run, Hpo. change (Z.to_nat 96) with 96%nat.
  rewrite (fs_read_exact_ok _ _ _ _ _ _ Hn Hi Hc) by (rewrite length_segment_bytes; lia).
  cbn [fst snd map_err]. rewrite slice_segment_payload, Hpre by done.
  rewrite decide_False by tauto. eexists _, _. split; [reflexivity|].
  split_and!; [done..|]. split; [|apply lookup_insert_eq]. split; try done. cbn.
  intros st'. rewrite lookup_insert_eq. intros [= <-]. cbn. split_and!; try done.
  by intros ? [= <-].
Qed.

Lemma write_copies_spec w path i h h' payload :
  no_faults -> wf_fs (w_fs w) -> fs_names (w_fs w) !! path = Some i ->
  contents (w_fs w) path = Some (segment_bytes h payload) -> version h' = STORAGE_LAYOUT_VERSION ->
  exists w', write_segment_header_copies_at i h' w = (Ok tt, w') /\
    w' = w <| w_fs := w_fs w' |> /\ frame [path] (w_fs w) (w_fs w') /\
    fs_names (w_fs w') = fs_names (w_fs w) /\
    contents (w_fs w') path = Some (segment_bytes h' payload).
Proof.
  intros Hn Hw Hi Hc Hv. unfold write_segment_header_copies_at. rewrite decide_True by done.
  unfold bindM. rewrite io_run.
  destruct (fs_write_at_spec (w_fs w) path i SEGMENT_HEADER_V2_COPY_SIZE
    (encode_v2_header_copy h') Hw Hi) as (W1 & N1 & C1 & D1 & K1).
  destruct (fs_write_at i SEGMENT_HEADER_V2_COPY_SIZE _ _) as [r1 fs1]. cbn [fst snd] in *.
  rewrite (K1 Hn) in *. specialize (D1 _ Hc eq_refl). cbn [map_err]. rewrite io_run.
  change (w_fs (w <| w_fs := fs1 |>)) with fs1.
  assert (fs_names fs1 !! path = Some i) as Hi1 by congruence.
  destruct (fs_write_at_spec fs1 path i 0 (encode_v2_header_copy h') W1 Hi1)
    as (W2 & N2 & C2 & D2 & K2).
  destruct (fs_write_at i 0 _ _) as [r2 fs2]. cbn [fst snd] in *.
  rewrite (K2 Hn) in *. specialize (D2 _ D1 eq_refl). rewrite copies_overwrite in D2.
  eexists. split; [reflexivity|]. cbn. split_and!; [done| |congruence|done].
  split; [done|]. intros q Hq. rewrite C2, C1 by set_solver. done.
Qed.

(** One optional sync. *)
Lemma opt_sync_spec (sync : bool) w :
  no_faults -> exists w', (if sync then io fs_sync else retM tt) w = (Ok tt, w') /\
    w' = w <| w_fs := w_fs w' |> /\ same_files (w_fs w) (w_fs w').
Proof.
  intros Hn. destruct sync; [|exists w; by destruct w].
  rewrite io_run. unfold fs_sync. rewrite io_step_ok by done. by eexists.
Qed.

Lemma write_all_parts_spec w path i h payload parts :
  no_faults -> wf_fs (w_fs w) -> fs_names (w_fs w) !! path = Some i ->
  contents (w_fs w) path = Some (segment_bytes h payload) ->
  (length parts = 1%nat \/ last parts <> Some []) ->
  exists w', write_all_parts i (96 + length payload) parts w = (Ok tt, w') /\
    w' = w <| w_fs := w_fs w' |> /\ frame [path] (w_fs w) (w_fs w') /\
    fs_names (w_fs w') = fs_names (w_fs w) /\
    contents (w_fs w') path = Some (segment_bytes h (payload ++ concat parts)).
Proof.
  intros Hn Hw Hi Hc Hp. unfold write_all_parts, bindM. rewrite io_run.
  destruct (fs_write_at_spec (w_fs w) path i (96 + length payload) (concat parts) Hw Hi)
    as (W1 & N1 & C1 & D1 & K1).
  destruct (fs_write_at i (96 + length payload) _ _) as [r1 fs1]. cbn [fst snd] in *.
  rewrite (K1 Hn) in *. specialize (D1 _ Hc eq_refl). rewrite append_overwrite in D1.
  cbn [map_err]. rewrite decide_False by tauto. eexists. split; [reflexivity|]. cbn.
  split_and!; [done| |done|done]. split; [done|]. intros q Hq. by rewrite C1 by set_solver.
Qed.

(** The limits within which an append is exact: the sequence and the length do
    not saturate, and the stored checksum is not the value that disables it. *)
Definition append_room (seq : Z) (payload : list Z) (parts : list (list Z)) : Prop :=
  integrity32 payload <> 0 /\ seq < U64_MAX /\ bytes_ok (concat parts) /\
  96 + Zlen payload + Zlen (concat parts) <= U64_MAX /\
  (length parts = 1%nat \/ last parts <> Some []).
(** The limits of any append: a fitting length and a non-empty last part. *)
Definition parts_room (payload : list Z) (parts : list (list Z)) : Prop :=
  bytes_ok (concat parts) /\ 96 + Zlen payload + Zlen (concat parts) <= U64_MAX /\
  (length parts = 1%nat \/ last parts <> Some []).

Lemma appended_header_current h payload parts ce :
  current_header h -> bytes_ok (concat parts) -> payload_len h = Zlen payload ->
  96 + Zlen payload + Zlen (concat parts) <= U64_MAX ->
  current_header (appended_header h parts ce) /\
  payload_len (appended_header h parts ce) = Zlen (payload ++ concat parts).
Proof.
  intros [Hw Hv] Hb Hp Hl.
  assert (forall acc, u32_ok acc -> u32_ok (fold_left (fun acc part =>
    if decide (version h = STORAGE_LAYOUT_VERSION) then integrity32_continue acc part
    else checksum32_continue acc part) parts acc)) as Hsum.
  { clear Hl. induction parts as [|p parts IH]; intros acc Ha; cbn; [done|].
    cbn in Hb. apply Forall_app in Hb as [Hb1 Hb2]. apply IH; [done|].
    rewrite decide_True by done. by apply crc32c_append_u32. }
  unfold appended_header, current_header, wf_header in *. cbn.
  rewrite Hp. unfold sat_add64, u64_ok, u32_ok, Zlen in *. rewrite length_app.
  split; [|lia]. split; [|done]. split_and!; try tauto; try lia.
  all: destruct (ce && _); [apply Hsum; tauto|lia].
Qed.

Lemma append_opened_spec w path h payload st parts sync ce :
  no_faults -> opened w path h payload st -> parts_room payload parts ->
  exists w', append_opened path st parts sync ce w = (Ok (appended_header h parts ce), w') /\
    files_only w w' /\ frame [path] (w_fs w) (w_fs w') /\ fs_names (w_fs w') = fs_names (w_fs w) /\
    seg_file w' path (appended_header h parts ce) (payload ++ concat parts).
Proof.
  intros Hn [HL Ha] (Hb' & Hl & Hlast).
  pose proof HL as [Hwf Hc Hch Hpl Hb Hlen Hh]. destruct (Hh _ Ha) as (Hi & Hhd & Hpo & Hao & Hpre).
  destruct (appended_header_current h payload parts ce Hch Hb' Hpl Hl) as [Hch' Hpl'].
  assert (Z.to_nat (append_offset st) = 96 + length payload)%nat as Hoff
    by (rewrite Hao; unfold Zlen; lia).
  unfold append_opened. rewrite Hoff, Hhd. set (h' := appended_header h parts ce) in *.
  destruct (write_all_parts_spec w path _ _ _ parts Hn Hwf Hi Hc Hlast)
    as (w1 & E1 & F1 & [W1 C1] & N1 & D1). rewrite (bindM_run _ _ _ _ _ E1).
  set (st' := st <| af_header := h' |>
    <| append_offset := sat_add64 (append_offset st) (Zlen (concat parts)) |>).
  set (w2 := w1 <| w_append := <[path := st']> (w_append w1) |>).
  rewrite (bindM_run _ _ w1 tt w2) by done.
  destruct (opt_sync_spec sync w2 Hn) as (w3 & E3 & F3 & S3). rewrite (bindM_run _ _ _ _ _ E3).
  assert (fs_names (w_fs w3) !! path = Some (af_inode st)) as Hi3.
  { destruct S3 as [-> _]. change (fs_names (w_fs w2)) with (fs_names (w_fs w1)). congruence. }
  destruct (write_copies_spec w3 path (af_inode st) h h'
    (payload ++ concat parts) Hn) as (w4 & E4 & F4 & [W4 C4] & N4 & D4);
    [by eapply wf_same|done| |apply Hch'|].
  { rewrite (contents_same (w_fs w2)) by done. exact D1. }
  rewrite (bindM_run _ _ _ _ _ E4).
  destruct (opt_sync_spec sync w4 Hn) as (w5 & E5 & F5 & S5). rewrite (bindM_run _ _ _ _ _ E5).
  exists w5. split; [done|]. split_and!.
  - rewrite F5, F4, F3. unfold w2. rewrite F1. done.
  - split; [by eapply wf_same|]. intros q Hq. rewrite (contents_same (w_fs w4)) by done.
    rewrite C4 by done. rewrite (contents_same (w_fs w2)) by done. by apply C1.
  - destruct S5 as [-> _]. rewrite N4. destruct S3 as [-> _]. exact N1.
  - split; [by eapply wf_same| |done|done|by apply Forall_app| |].
    + by rewrite (contents_same (w_fs w4)).
    + unfold Zlen in *. rewrite length_app. lia.
    + rewrite F5, F4, F3. cbn. intros st0. rewrite lookup_insert_eq. intros [= <-]. cbn.
      destruct S5 as [-> _]. rewrite N4.
      split_and!; [done|done|done| |].
      * unfold sat_add64, Zlen in *. rewrite Hao, length_app. lia.
      * intros pre Hp. specialize (Hpre _ Hp).
        rewrite take_app_le; [done|]. rewrite <- Hpre, length_take. lia.
Qed.

Lemma ensure_parent_dir_run path w :
  no_faults -> exists w', ensure_parent_dir path w = (Ok tt, w') /\ files_only w w' /\
    same_files (w_fs w) (w_fs w') /\ w_append w' = w_append w.
Proof.
  intros Hn. destruct (ensure_parent_dir_spec path w) as [S0 K0].
  pose proof (files_only_parent path w) as F0.
  assert (w_append (snd (ensure_parent_dir path w)) = w_append w) as A0.
  { unfold ensure_parent_dir. destruct (path_parent path); [|done]. unfold bindM, getM.
    case_decide; [done|]. rewrite io_run. by destruct (fs_create_dir_all _ _) as [[] ?]. }
  destruct (ensure_parent_dir path w) as [r0 w0]. cbn [fst snd] in *. rewrite (K0 Hn). eauto.
Qed.

(** Appending to a segment, whether or not a handle is cached. *)
Lemma append_seg_spec w path h payload id' pre parts sync ce :
  no_faults -> seg_file w path h payload -> payload <> [] -> concat parts <> [] ->
  take (length pre) payload = pre -> parts_room payload parts ->
  exists w', append_segment_payload_parts path (kind h) id' pre parts sync ce w =
      (Ok (appended_header h parts ce), w') /\
    files_only w w' /\ frame [path] (w_fs w) (w_fs w') /\ fs_names (w_fs w') = fs_names (w_fs w) /\
    seg_file w' path (appended_header h parts ce) (payload ++ concat parts).
Proof.
  intros Hn HL Hne Hpn Hpre Hroom. unfold append_segment_payload_parts.
  rewrite decide_False by done.
  destruct (ensure_parent_dir_run path w Hn) as (w0 & E0 & F0 & S0 & A0).
  rewrite (bindM_run _ _ _ _ _ E0).
  apply (seg_file_same w w0) in HL as HL0; [|done|by rewrite A0].
  destruct (open_append_spec _ _ _ _ Hn HL0) as (st & w1 & E1 & F1 & S1 & O1).
  rewrite (bindM_run _ _ _ _ _ E1). destruct O1 as [HL1 Ha1].
  destruct (sf_handle _ _ _ _ HL1 _ Ha1) as (_ & Hhd & _ & _ & _).
  rewrite Hhd. rewrite decide_False by (cbn; tauto).
  rewrite decide_False
    by (rewrite (sf_plen _ _ _ _ HL1); unfold Zlen; destruct payload; [done|cbn; lia]).
  destruct (check_prefix_spec _ _ _ _ _ pre Hn (conj HL1 Ha1) Hpre) as (st2 & w2 & E2 & F2 & S2 & O2).
  rewrite (bindM_run _ _ _ _ _ E2).
  destruct (append_opened_spec w2 path h payload st2 parts sync ce Hn O2 Hroom)
    as (w3 & E3 & F3 & [W3 C3] & N3 & HL3).
  exists w3. split_and!; [done| | | |done].
  - eauto using files_only_trans.
  - split; [done|]. intros q Hq. rewrite C3 by done.
    rewrite (contents_same (w_fs w1)), (contents_same (w_fs w0)), (contents_same (w_fs w)); done.
  - rewrite N3. destruct S2 as [-> _], S1 as [-> _], S0 as [-> _]. done.
Qed.

(** Appending to a log keeps it a log. *)
Lemma append_segment_spec w k path id seq payload id' pre parts sync :
  no_faults -> log_file w k path id seq payload -> payload <> [] -> concat parts <> [] ->
  take (length pre) payload = pre -> append_room seq payload parts ->
  exists w', append_segment_payload_parts path k id' pre parts sync true w =
      (Ok (header_new k id (seq + 1) (payload ++ concat parts)), w') /\
    files_only w w' /\ frame [path] (w_fs w) (w_fs w') /\
    log_file w' k path id (seq + 1) (payload ++ concat parts).
Proof.
  intros Hn (HS & Hi & Hq)%log_file_seg Hne Hpn Hpre (Hsum & Hs & Hb & Hl & Hlast).
  destruct (append_seg_spec w path _ payload id' pre parts sync true Hn HS Hne Hpn Hpre)
    as (w' & E & F & Fr & _ & HS'); [done|].
  rewrite appended_header_new in E, HS' by (try done; unfold Zlen in *; lia).
  exists w'. split_and!; [exact E|done|done|]. apply log_file_seg.
  split_and!; [done|done|unfold u64_ok in *; lia].
Qed.

(** ** Reading back *)

(** Computations that only touch files, handles and known directories. *)
Definition local {A} (m : M World StorageError A) : Prop := forall w, files_only w (snd (m w)).

Lemma local_ret {A} (a : A) : local (retM a).
Proof. intros w; apply files_only_refl. Qed.
Lemma local_fail {A} e : local (A := A) (failM e).
Proof. intros w; apply files_only_refl. Qed.
Lemma local_lift {A} (r : Result StorageError A) : local (liftM r).
Proof. intros w; apply files_only_refl. Qed.
Lemma local_get : local getM.
Proof. intros w; apply files_only_refl. Qed.
Lemma local_io {A} (m : M Fs IoError A) : local (io m).
Proof. intros w; apply files_only_io. Qed.
Lemma local_io_raw {A} (m : M Fs IoError A) : local (io_raw m).
Proof. intros w. unfold io_raw, tryM, zoomM. by destruct (m (w_fs w)). Qed.
Lemma local_bind {A B} (m : M World StorageError A) (f : A -> M World StorageError B) :
  local m -> (forall a, local (f a)) -> local (bindM m f).
Proof.
  intros Hm Hf w. unfold bindM. specialize (Hm w). destruct (m w) as [[a|e] w1]; [|done].
  eapply files_only_trans; [exact Hm|apply Hf].
Qed.
Lemma local_if {A} (P : Prop) `{!Decision P} (m1 m2 : M World StorageError A) :
  local m1 -> local m2 -> local (if decide P then m1 else m2).
Proof. by case_decide. Qed.
Lemma local_set path st : local (set_append path st).
Proof. intros w; apply files_only_set. Qed.
Lemma local_invalidate path : local (invalidate_append_file path).
Proof. done. Qed.
Lemma local_parent path : local (ensure_parent_dir path).
Proof. intros w; apply files_only_parent. Qed.
#[local] Hint Resolve local_ret local_fail local_lift local_get local_io local_io_raw local_bind
  local_if local_set local_invalidate local_parent : files.

Lemma local_write path k id seq payload : local (write_segment_file path k id seq payload).
Proof.
  unfold write_segment_file, write_segment_headers, sync_directory.
  repeat (apply local_bind; intros; auto with files).
  destruct (path_parent path); auto with files.
Qed.

Lemma write_invalidates path k id seq payload w w' :
  write_segment_file path k id seq payload w = (Ok tt, w') -> w_append w' !! path = None.
Proof.
  unfold write_segment_file. intros H.
  repeat (apply bindM_Ok in H as (? & ? & _ & H)).
  injection H as <-. apply lookup_delete_eq.
Qed.

(** Without faults a replaced segment is a log. *)
Lemma write_segment_log w path k id seq payload :
  no_faults -> wf_fs (w_fs w) -> with_extension_tmp path <> path ->
  u64_ok id -> u64_ok seq -> bytes_ok payload -> 96 + Zlen payload <= U64_MAX ->
  exists w', write_segment_file path k id seq payload w = (Ok tt, w') /\ files_only w w' /\
    frame [with_extension_tmp path; path] (w_fs w) (w_fs w') /\
    log_file w' k path id seq payload.
Proof.
  intros Hn Hw Ht Hid Hs Hb Hl.
  destruct (write_segment_file_spec w path k id seq payload Hw Ht) as (F & _ & D & K).
  pose proof (local_write path k id seq payload w) as L.
  pose proof (write_invalidates path k id seq payload w) as I.
  destruct (write_segment_file path k id seq payload w) as [r w']. cbn [fst snd] in *.
  rewrite (K Hn) in *. exists w'. split_and!; [done..|].
  split; try done; [apply F|by apply D|]. rewrite (I w') by done. done.
Qed.

Lemma read_segment_file_ok w k path id seq payload :
  no_faults -> log_file w k path id seq payload ->
  exists w', read_segment_file path k w = (Ok (header_new k id seq payload, payload), w') /\
    w' = w <| w_fs := w_fs w' |> /\ same_files (w_fs w) (w_fs w').
Proof.
  intros Hn HL. pose proof HL as [Hwf Hc Hid Hseq Hb Hlen Hh].
  unfold read_segment_file, bindM at 1, path_exists. rewrite io_run. cbn.
  assert (is_Some (file_at (w_fs w) path)) as He
    by (unfold contents in Hc; destruct (file_at (w_fs w) path); [eauto|done]).
  rewrite bool_decide_eq_true_2 by done. unfold bindM at 1. rewrite io_run.
  change (w_fs (w <| w_fs := w_fs w |>)) with (w_fs w).
  pose proof (fs_read_same (w_fs w) path) as S1. pose proof (fs_read_ok _ _ _ Hn Hc) as R1.
  destruct (fs_read path (w_fs w)) as [r fs1]. cbn [fst snd] in *. rewrite R1. cbn [map_err].
  rewrite decide_False by (rewrite length_segment_bytes; unfold SEGMENT_HEADER_SIZE; lia).
  unfold liftM. rewrite decode_segment_bytes by (try done; unfold Zlen in *; lia).
  eexists. split; [reflexivity|]. done.
Qed.

Lemma read_bounded_ok w k path id seq payload max :
  no_faults -> log_file w k path id seq payload -> 96 + Zlen payload <= max ->
  exists w', read_segment_file_bounded path k max w = (Ok (header_new k id seq payload, payload), w') /\
    w' = w <| w_fs := w_fs w' |> /\ same_files (w_fs w) (w_fs w').
Proof.
  intros Hn HL Hmax. pose proof HL as [Hwf Hc Hid Hseq Hb Hlen Hh].
  set (bs := segment_bytes (header_new k id seq payload) payload) in *.
  assert (Zlen bs = 96 + Zlen payload) as Lb
    by (unfold bs, Zlen; rewrite length_segment_bytes; lia).
  unfold read_segment_file_bounded, bindM at 1. rewrite io_run.
  destruct (fs_metadata_ok _ _ _ Hn Hc) as [t1 E1]. rewrite E1. cbn [fst snd map_err].
  rewrite decide_False by lia.
  set (fs1 := (w_fs w) <| fs_tick := _ |>). unfold bindM at 1. rewrite io_run.
  change (w_fs (w <| w_fs := fs1 |>)) with fs1.
  destruct (fs_open_ok fs1 path bs Hn Hc) as (i & E2 & Hi). rewrite E2. cbn [fst snd map_err].
  set (fs2 := fs1 <| fs_tick := _ |>). unfold bindM at 1. rewrite io_run.
  change (w_fs (_ <| w_fs := fs2 |>)) with fs2.
  rewrite (fs_read_some_ok fs2 path i bs) by done. cbn [fst snd map_err].
  set (fs3 := fs2 <| fs_tick := _ |>). unfold bindM at 1. rewrite io_run.
  change (w_fs (_ <| w_fs := fs3 |>)) with fs3.
  destruct (fs_metadata_ok fs3 path bs Hn Hc) as [t4 E4]. rewrite E4. cbn [fst snd map_err].
  assert (slice 0 (0 + Z.to_nat (max + 1)) bs = bs) as ->.
  { unfold slice. rewrite drop_0, take_ge; [done|]. unfold Zlen in *. lia. }
  rewrite decide_False by lia. unfold liftM, bs.
  rewrite decode_segment_bytes by (try done; unfold Zlen in *; lia).
  eexists. split; [reflexivity|]. done.
Qed.

(** A file longer than the budget is refused. *)
Lemma read_bounded_over w k path max d :
  no_faults -> contents (w_fs w) path = Some d -> max < Zlen d ->
  fst (read_segment_file_bounded path k max w) = Err MetadataBudgetExceeded.
Proof.
  intros Hn Hc Hl. unfold read_segment_file_bounded, bindM at 1. rewrite io_run.
  destruct (fs_metadata_ok _ _ _ Hn Hc) as [t1 ->]. cbn [fst snd map_err].
  by rewrite decide_True by lia.
Qed.

(** Bytes beyond what the header announces make a segment unreadable. *)
Lemma decode_longer path k id seq payload extra :
  u64_ok id -> u64_ok seq -> bytes_ok payload -> Zlen payload <= U64_MAX -> extra <> [] ->
  decode_segment_file_bytes path k
    (segment_bytes (header_new k id seq payload) (payload ++ extra)) =
  Err (Corrupt "payload length mismatch").
Proof.
  intros Hi Hs Hb Hl Hx. pose proof (header_new_current k id seq payload Hi Hs Hb Hl) as Hc.
  unfold decode_segment_file_bytes.
  rewrite decide_False by (rewrite length_segment_bytes; unfold SEGMENT_HEADER_SIZE; lia).
  unfold segment_bytes. rewrite decode_segment_header_set_ok by exact Hc. cbn [rbind].
  rewrite decide_False by (cbn; tauto).
  rewrite decide_False by (unfold Zlen; rewrite !length_app, !length_encode_v2;
    unfold SEGMENT_HEADER_V2_COPY_SIZE; lia).
  rewrite app_assoc, drop_app_length' by (rewrite length_app, !length_encode_v2; done).
  unfold validate. cbn -[integrity32 Zlen].
  rewrite (bool_decide_eq_true_2 (STORAGE_LAYOUT_MAGIC = STORAGE_LAYOUT_MAGIC)) by done.
  rewrite (bool_decide_eq_true_2 (STORAGE_LAYOUT_VERSION = STORAGE_LAYOUT_VERSION)) by done.
  rewrite (bool_decide_eq_false_2 (Zlen payload = Zlen (payload ++ extra))); [done|].
  unfold Zlen. rewrite length_app. destruct extra; [done|cbn; lia].
Qed.

Lemma fs_write_at_one fs i off d old t :
  fs_inodes fs !! i = Some (mkInode old t) -> fault (fs_tick fs) = None ->
  fs_write_at i off d fs =
  (Ok tt, fs <| fs_tick := S (fs_tick fs) |>
             <| fs_inodes := <[i := mkInode (write_at off d old) (clock (fs_tick fs))]> (fs_inodes fs) |>).
Proof. intros Hi Hf. unfold fs_write_at. by rewrite Hf, Hi. Qed.

Lemma fs_write_at_none fs i off d old t f :
  fs_inodes fs !! i = Some (mkInode old t) -> fault (fs_tick fs) = Some f ->
  fault_partial f = O -> (off <= length old)%nat ->
  fs_write_at i off d fs =
  (Err (fault_error f), fs <| fs_tick := S (fs_tick fs) |>
             <| fs_inodes := <[i := mkInode old (clock (fs_tick fs))]> (fs_inodes fs) |>).
Proof.
  intros Hi Hf Hp Ho. unfold fs_write_at. rewrite Hf, Hi, Hp. cbn [i_data take].
  unfold write_at. cbn [length]. rewrite Nat.add_0_r.
  replace (off - length old)%nat with O by lia. cbn [replicate app]. rewrite take_0, app_nil_l. by rewrite take_drop.
Qed.
(** What an append needs of the log: the new record fits and the running
    checksum is not the value that disables it. *)
Definition log_room (seq : Z) (payload appended : list Z) : Prop :=
  integrity32 payload <> 0 /\ seq < U64_MAX /\ 96 + Zlen payload + Zlen appended <= U64_MAX.

Lemma append_log_spec w k path id seq payload id' pre appended sync :
  no_faults -> log_file w k path id seq payload -> payload <> [] -> appended <> [] ->
  take (length pre) payload = pre -> bytes_ok appended -> log_room seq payload appended ->
  exists w', append_segment_payload path k id' pre appended sync w =
      (Ok (header_new k id (seq + 1) (payload ++ appended)), w') /\
    files_only w w' /\ frame [path] (w_fs w) (w_fs w') /\
    log_file w' k path id (seq + 1) (payload ++ appended).
Proof.
  intros Hn HL Hne Ha Hpre Hb (H1 & H2 & H3). unfold append_segment_payload.
  destruct (append_segment_spec w k path id seq payload id' pre [appended] sync Hn HL Hne)
    as (w' & E); cbn [concat] in *; rewrite ?app_nil_r in *; try done; [|by exists w'].
  split_and!; cbn [concat]; rewrite ?app_nil_r; try done. by left.
Qed.
End FileLaws.

(** * Theorems *)
Section Theorems.
Context `{HOST : Host} `{ENV : Environ} `{CL : Crc32cLaws}.

(** C11: [write_segment_file] is atomic under any I/O faults: afterwards the path
    holds its old contents or a complete segment that decodes to the new header
    and payload; success means the latter; files other than the target and its
    temporary file are untouched. *)
Theorem segment_replace_atomic w path k id seq payload :
  wf_fs (w_fs w) -> with_extension_tmp path <> path ->
  u64_ok id -> u64_ok seq -> bytes_ok payload -> Zlen payload <= U64_MAX ->
  let r := write_segment_file path k id seq payload w in
  let complete := exists bs, contents (w_fs (snd r)) path = Some bs /\
    decode_segment_file_bytes path k bs = Ok (header_new k id seq payload, payload) in
  (contents (w_fs (snd r)) path = contents (w_fs w) path \/ complete) /\
  (fst r = Ok tt -> complete) /\
  (forall q, q <> path -> q <> with_extension_tmp path ->
             contents (w_fs (snd r)) q = contents (w_fs w) q).
Proof.
  intros Hw Ht Hi Hs Hb Hl r complete.
  destruct (write_segment_file_spec w path k id seq payload Hw Ht) as ([_ F] & A & D & _).
  fold r in F, A, D.
  assert (contents (w_fs (snd r)) path = Some (segment_bytes (header_new k id seq payload) payload)
          -> complete) as Hc by (intros E; eexists; split; [exact E|by apply decode_segment_bytes]).
  split_and!; [destruct A; auto|auto|]. intros q Hq Hq'. apply F. set_solver.
Qed.

(** C12: appending to a log and reading it back, in the same process or after a
    restart, gives the old payload followed by the appended parts, under the
    next sequence number; other files are untouched. *)
Theorem append_then_read w k path id seq payload id' pre parts sync :
  no_faults -> log_file w k path id seq payload -> payload <> [] -> concat parts <> [] ->
  take (length pre) payload = pre -> append_room seq payload parts ->
  let h := header_new k id (seq + 1) (payload ++ concat parts) in
  exists w', append_segment_payload_parts path k id' pre parts sync true w = (Ok h, w') /\
    (forall q, q <> path -> contents (w_fs w') q = contents (w_fs w) q) /\
    fst (read_segment_file path k w') = Ok (h, payload ++ concat parts) /\
    fst (read_segment_file path k (fresh_process (w_fs w'))) = Ok (h, payload ++ concat parts).
Proof.
  intros Hn HL Hne Hpn Hpre Hroom h.
  destruct (append_segment_spec w k path id seq payload id' pre parts sync Hn HL Hne Hpn Hpre Hroom)
    as (w' & E & _ & [_ F] & HL'). exists w'. split_and!; [done|set_solver| |].
  - by destruct (read_segment_file_ok _ _ _ _ _ _ Hn HL') as (? & -> & _).
  - assert (log_file (fresh_process (w_fs w')) k path id (seq + 1) (payload ++ concat parts)) as HF
      by (destruct HL'; split; done).
    by destruct (read_segment_file_ok _ _ _ _ _ _ Hn HF) as (? & -> & _).
Qed.


(** C32: without that proviso the backup is useless: a primary copy that differs
    from the one written only in its version field, which now says 1, is taken
    as a legacy header, its checksum unchecked, whatever the backup holds. *)
Theorem version_flip_shadows_backup h rest :
  current_header h ->
  let flipped := h <| version := STORAGE_LAYOUT_VERSION_V1 |> in
  decode_segment_header_set
    (header_encode flipped ++ drop SEGMENT_HEADER_SIZE (encode_v2_header_copy h) ++
     encode_v2_header_copy h ++ rest) = Ok (flipped, 36).
Proof.
  intros [Hwf Hv] flipped. unfold decode_segment_header_set.
  assert (length (header_encode flipped) = SEGMENT_HEADER_SIZE) as L by apply length_header_encode.
  rewrite decide_False by (rewrite length_app, L; unfold SEGMENT_HEADER_SIZE; lia).
  rewrite take_app_length' by done.
  assert (header_decode (header_encode flipped) = Ok flipped) as ->; [|done].
  rewrite <- (app_nil_r (header_encode flipped)).
  apply header_decode_encode. unfold wf_header, flipped, STORAGE_LAYOUT_VERSION_V1 in *. cbn.
  unfold u16_ok in *. intuition lia.
Qed.

(** C30: the vectored write loop terminates whatever the system calls accept, and
    writes the concatenation of the parts exactly once, in order; it fails only
    for an empty last part. *)
Theorem write_all_parts_complete (accept : nat -> nat -> nat) parts :
  (forall n k, (0 < k)%nat -> (0 < accept n k)%nat) ->
  write_parts_loop accept (S (length (concat parts))) 0 parts 0 [] =
  if decide (last parts = Some [])
  then Err (SIo (io_error KWriteZero "failed to append segment payload"))
  else Ok (concat parts).
Proof.
  intros Ha. rewrite write_parts_loop_spec by (auto; unfold pending_bytes; rewrite drop_0; lia).
  unfold pending_bytes. by rewrite drop_0.
Qed.

(** C31: an append is not atomic: when the process stops between the write of the
    payload and the write of the header copies, the log the next process finds
    is refused as corrupt, although every record in it is intact. *)
Theorem torn_append_unreadable w k path id seq payload st parts f :
  log_file w k path id seq payload -> w_append w !! path = Some st ->
  append_room seq payload parts -> concat parts <> [] ->
  fault (fs_tick (w_fs w)) = None ->
  fault (S (fs_tick (w_fs w))) = Some f -> fault_partial f = O ->
  let r := append_opened path st parts false true w in
  fst r = Err (storage_error_of_io (fault_error f)) /\
  exists bs, contents (w_fs (snd r)) path = Some bs /\
    drop 96 bs = payload ++ concat parts /\
    decode_segment_file_bytes path k bs = Err (Corrupt "payload length mismatch").
Proof.
  intros HL Ha (Hsum & Hs & Hb' & Hl & Hlast) Hne Hf0 Hf1 Hp r.
  pose proof HL as [Hwf Hc Hid Hseq Hb Hlen Hh]. destruct (Hh _ Ha) as (Hi & Hhd & Hpo & Hao & Hpre).
  destruct (contents_names _ _ _ Hc) as (i & [old t] & Hi' & Hn & Hd). simplify_eq. cbn in Hd. subst old.
  assert (Z.to_nat (append_offset st) = 96 + length payload)%nat as Hoff
    by (rewrite Hao; unfold Zlen; lia).
  unfold r, append_opened, write_all_parts, bindM. rewrite io_run, Hoff.
  rewrite (fs_write_at_one _ _ _ _ _ _ Hn Hf0). cbn [fst snd map_err].
  rewrite append_overwrite, decide_False by tauto. unfold set_append, modifyM, retM, bindM.
  unfold write_segment_header_copies_at. rewrite decide_True by (rewrite Hhd; done).
  unfold bindM. rewrite io_run. set (bs := segment_bytes _ (payload ++ concat parts)).
  set (fs1 := (w_fs w) <| fs_tick := _ |> <| fs_inodes := _ |>). cbn [w_fs].
  erewrite (fs_write_at_none fs1 (af_inode st) SEGMENT_HEADER_V2_COPY_SIZE _ bs); cycle 1.
  { unfold fs1. cbn. apply lookup_insert_eq. }
  { exact Hf1. } { done. }
  { unfold bs. rewrite length_segment_bytes. vm_compute. lia. }
  cbn [fst snd map_err]. split; [done|]. exists bs. split_and!.
  - unfold contents, file_at. cbn. rewrite Hi. by rewrite lookup_insert_eq.
  - unfold bs, segment_bytes. rewrite app_assoc, drop_app_length'; [done|].
    by rewrite length_app, !length_encode_v2.
  - unfold bs. apply decode_longer; auto. unfold Zlen in *; lia.
Qed.
End Theorems.

(** ** Witnesses *)
Definition demo_path : string := "/pool/c1/blk.map".
Definition demo_payload : list Z := [1; 2; 3; 4].
(** A process that has just written a four-byte log. *)
Definition demo_world : World :=
  snd (write_segment_file (HOST := quiet_host) (C := bitwise_crc32c) demo_path BlkMap 7 1 demo_payload
         (fresh_process empty_fs)).

Lemma demo_log : log_file (C := bitwise_crc32c) demo_world BlkMap demo_path 7 1 demo_payload.
Proof.
  unfold demo_world.
  destruct (write_segment_log (HOST := quiet_host) (CL := bitwise_crc32c_laws) (fresh_process empty_fs)
    demo_path BlkMap 7 1 demo_payload) as (w' & -> & _ & _ & H); try done.
  - apply wf_empty_fs.
  - repeat constructor; done.
Qed.

Lemma demo_room : append_room (C := bitwise_crc32c) 1 demo_payload [[5; 6]; [7]].
Proof. split_and!; [by vm_compute|done|repeat constructor; done|done|right; done]. Qed.

Lemma segment_replace_atomic_witness :
  let r := write_segment_file (HOST := quiet_host) (C := bitwise_crc32c) demo_path BlkMap 7 1
             demo_payload (fresh_process empty_fs) in
  fst r = Ok tt /\ exists bs, contents (w_fs (snd r)) demo_path = Some bs /\
    decode_segment_file_bytes (C := bitwise_crc32c) demo_path BlkMap bs
      = Ok (header_new (C := bitwise_crc32c) BlkMap 7 1 demo_payload, demo_payload).
Proof.
  intros r. assert (fst r = Ok tt) as H by (by vm_compute). split; [done|].
  refine (proj1 (proj2 (segment_replace_atomic (HOST := quiet_host) (CL := bitwise_crc32c_laws)
    (fresh_process empty_fs) demo_path BlkMap 7 1 demo_payload _ _ _ _ _ _)) H); try done.
  - apply wf_empty_fs.
  - repeat constructor; done.
Defined.

Lemma append_then_read_witness :
  let h := header_new (C := bitwise_crc32c) BlkMap 7 2 [1; 2; 3; 4; 5; 6; 7] in
  exists w', append_segment_payload_parts (HOST := quiet_host) (C := bitwise_crc32c) demo_path BlkMap 9
      [1; 2] [[5; 6]; [7]] true true demo_world = (Ok h, w') /\
    fst (read_segment_file (HOST := quiet_host) (C := bitwise_crc32c) demo_path BlkMap w')
      = Ok (h, [1; 2; 3; 4; 5; 6; 7]).
Proof.
  destruct (append_then_read (HOST := quiet_host) (CL := bitwise_crc32c_laws) demo_world BlkMap demo_path
    7 1 demo_payload 9 [1; 2] [[5; 6]; [7]] true quiet_no_faults demo_log) as (w' & E & _ & R & _);
    [done..|apply demo_room|]. exists w'. split; [exact E|exact R].
Defined.

Definition demo_header : SegmentHeader := header_new (C := bitwise_crc32c) BlkMap 7 1 demo_payload.
Lemma demo_header_current : current_header demo_header.
Proof. apply (header_new_current (CL := bitwise_crc32c_laws)); try done. repeat constructor; done. Qed.


Lemma version_flip_shadows_backup_witness :
  let flipped := demo_header <| version := STORAGE_LAYOUT_VERSION_V1 |> in
  decode_segment_header_set (C := bitwise_crc32c)
    (header_encode flipped ++ drop SEGMENT_HEADER_SIZE (encode_v2_header_copy (C := bitwise_crc32c) demo_header) ++
     encode_v2_header_copy (C := bitwise_crc32c) demo_header ++ demo_payload) = Ok (flipped, 36).
Proof. exact (version_flip_shadows_backup (C := bitwise_crc32c) demo_header demo_payload demo_header_current). Defined.

Lemma write_all_parts_complete_witness :
  write_parts_loop (fun _ _ => 2%nat) 6 0 [[1; 2; 3]; []; [4; 5]] 0 [] = Ok [1; 2; 3; 4; 5].
Proof. exact (write_all_parts_complete (fun _ _ => 2%nat) [[1; 2; 3]; []; [4; 5]] ltac:(intros; cbv beta; lia)). Defined.

(** The process after it has opened the log, and a host that stops it at its
    second write from there. *)
Definition demo_open : Result StorageError (option AppendFileState) * World :=
  open_append (HOST := quiet_host) (C := bitwise_crc32c) demo_path demo_world.
Definition demo_handle : AppendFileState :=
  match fst demo_open with
  | Ok (Some st) => st
  | _ => mkAppend 0 demo_header 0 None 0
  end.
Definition torn_host : Host := {|
  fault := fun n => if decide (n = S (fs_tick (w_fs (snd demo_open))))
                    then Some (mkFault (io_error KOther "power") 0) else None;
  clock := fun n => Z.of_nat n |}.

Lemma torn_append_unreadable_witness :
  exists bs,
    contents (w_fs (snd (append_opened (HOST := torn_host) (C := bitwise_crc32c) demo_path demo_handle
                           [[5; 6]; [7]] false true (snd demo_open)))) demo_path = Some bs /\
    drop 96 bs = [1; 2; 3; 4; 5; 6; 7] /\
    decode_segment_file_bytes (C := bitwise_crc32c) demo_path BlkMap bs
      = Err (Corrupt "payload length mismatch").
Proof.
  destruct (proj1 (log_file_seg (CL := bitwise_crc32c_laws) _ _ _ _ _ _) demo_log) as (HS & Hi & Hq).
  destruct (open_append_spec (HOST := quiet_host) (CL := bitwise_crc32c_laws) _ _ _ _
    quiet_no_faults HS) as (st & w' & E & _ & _ & HO).
  assert (demo_handle = st) as Hs by (unfold demo_handle, demo_open; by rewrite E).
  assert (snd demo_open = w') as Hw by (unfold demo_open; by rewrite E).
  rewrite <- Hs, <- Hw in HO. destruct HO as [HO Ha].
  pose proof (proj2 (log_file_seg (CL := bitwise_crc32c_laws) _ _ _ _ _ _) (conj HO (conj Hi Hq))) as HL.
  apply (torn_append_unreadable (HOST := torn_host) (CL := bitwise_crc32c_laws) (snd demo_open) BlkMap
    demo_path 7 1 demo_payload demo_handle [[5; 6]; [7]] (mkFault (io_error KOther "power") 0) HL Ha demo_room);
    try done; by vm_compute.
Defined.
