(* ===== verification/Footprint.v ===== *)
(** * What the segment operations leave alone

    A storage operation works on one path and its temporary file.  [spares q m]:
    whatever [m] returns, name [q] keeps its inode and its append handle.  With
    the contents frame of the segment operations this carries the state of one
    file across the operations on another. *)

From S2P Require Import Prelude Bytes Text Errors Fs Layout TapeState Compression Records.
From S2P Require Import World Crc Segment.

(** ** Frames *)
Lemma frame_weaken ps ps' fs fs' : frame ps fs fs' -> ps ⊆ ps' -> frame ps' fs fs'.
Proof. intros [H1 H2] Hs. split; [done|]. intros q Hq. apply H2. set_solver. Qed.
Lemma frame_trans ps fs1 fs2 fs3 : frame ps fs1 fs2 -> frame ps fs2 fs3 -> frame ps fs1 fs3.
Proof. intros [H1 H2] [H3 H4]. split; [done|]. intros q Hq. by rewrite H4, H2. Qed.
Lemma frame_of_same ps fs fs' : wf_fs fs -> same_files fs fs' -> frame ps fs fs'.
Proof. intros Hw Hs. apply (frame_same _ _ fs); [by apply frame_refl|done]. Qed.

(** ** Names and handles *)
Definition keeps (q : string) (w0 w : World) : Prop :=
  fs_names (w_fs w) !! q = fs_names (w_fs w0) !! q /\ w_append w !! q = w_append w0 !! q.
Definition spares {A} (q : string) (m : M World StorageError A) : Prop :=
  forall w0, preserves (keeps q w0) m.
(** A file system step that does not move the name [q]. *)
Definition names_kept {A} (q : string) (m : M Fs IoError A) : Prop :=
  forall fs, fs_names (snd (m fs)) !! q = fs_names fs !! q.

Lemma keeps_refl q w : keeps q w w.
Proof. done. Qed.
Lemma spares_run {A} q (m : M World StorageError A) w r w' : spares q m -> m w = (r, w') -> keeps q w w'.
Proof. intros H E. specialize (H w w (keeps_refl q w)). by rewrite E in H. Qed.
Lemma keeps_trans q w1 w2 w3 : keeps q w1 w2 -> keeps q w2 w3 -> keeps q w1 w3.
Proof. intros [H1 H2] [H3 H4]. split; congruence. Qed.

(** Only the files, names and handles of [ps] changed. *)
Definition moved (ps : list string) (w w' : World) : Prop :=
  frame ps (w_fs w) (w_fs w') /\ forall q, (q ∉ ps) -> keeps q w w'.

Lemma moved_trans ps w1 w2 w3 : moved ps w1 w2 -> moved ps w2 w3 -> moved ps w1 w3.
Proof.
  intros [F1 K1] [F2 K2]. split; [by eapply frame_trans|]. intros q Hq. eauto using keeps_trans.
Qed.
Lemma moved_weaken ps ps' w w' : moved ps w w' -> ps ⊆ ps' -> moved ps' w w'.
Proof. intros [F K] Hs. split; [by eapply frame_weaken|]. intros q Hq. apply K. set_solver. Qed.
Lemma moved_same ps w w' :
  wf_fs (w_fs w) -> same_files (w_fs w) (w_fs w') -> w_append w' = w_append w -> moved ps w w'.
Proof.
  intros Hw Hs Ha. split; [by apply frame_of_same|]. intros q _. destruct Hs as [Hs _].
  split; [by rewrite Hs|by rewrite Ha].
Qed.
(** An operation that spares the names outside [ps]. *)
Lemma moved_run {A} ps (m : M World StorageError A) w r w' :
  m w = (r, w') -> frame ps (w_fs w) (w_fs w') -> (forall q, (q ∉ ps) -> spares q m) -> moved ps w w'.
Proof. intros E F H. split; [done|]. intros q Hq. eapply spares_run; [by apply H|exact E]. Qed.

Section Steps.
Context `{HOST : Host} (q : string).

Lemma names_kept_ret {A} (a : A) : names_kept q (retM a).
Proof. done. Qed.
Lemma names_kept_fail {A} e : names_kept (A := A) q (failM e).
Proof. done. Qed.
Lemma names_kept_gets {A} (f : Fs -> A) : names_kept q (getsM f).
Proof. done. Qed.
Lemma names_kept_get : names_kept q getM.
Proof. done. Qed.
Lemma names_kept_bind {A B} (m : M Fs IoError A) (k : A -> M Fs IoError B) :
  names_kept q m -> (forall a, names_kept q (k a)) -> names_kept q (bindM m k).
Proof.
  intros Hm Hk fs. unfold bindM. specialize (Hm fs). destruct (m fs) as [[a|e] fs1]; [|done].
  rewrite Hk. exact Hm.
Qed.
Lemma names_kept_step : names_kept q io_step.
Proof. intros fs. by destruct (io_step_frame fs) as [-> _]. Qed.
Lemma names_kept_mkdir p : names_kept q (fs_create_dir_all p).
Proof. apply names_kept_step. Qed.
Lemma names_kept_sync : names_kept q fs_sync.
Proof. apply names_kept_step. Qed.
Lemma names_kept_if {A} (P : Prop) `{!Decision P} (m1 m2 : M Fs IoError A) :
  names_kept q m1 -> names_kept q m2 -> names_kept q (if decide P then m1 else m2).
Proof. by case_decide. Qed.
#[local] Hint Resolve names_kept_ret names_kept_fail names_kept_gets names_kept_get names_kept_bind
  names_kept_step names_kept_if : core.

Lemma names_kept_lookup p : names_kept q (lookup_inode p).
Proof. unfold lookup_inode. apply names_kept_bind; [auto|]. intros fs. by destruct (fs_names fs !! p). Qed.
#[local] Hint Resolve names_kept_lookup : core.
Lemma names_kept_open p : names_kept q (fs_open p).
Proof. unfold fs_open; auto. Qed.
Lemma names_kept_exists p : names_kept q (fs_exists p).
Proof. done. Qed.
Lemma names_kept_metadata p : names_kept q (fs_metadata p).
Proof.
  unfold fs_metadata. apply names_kept_bind; [auto|intros _].
  apply names_kept_bind; [auto|]. intros fs. by destruct (file_at fs p).
Qed.
Lemma names_kept_read p : names_kept q (fs_read p).
Proof. unfold fs_read, fs_read_all, inode_data. auto using names_kept_open. Qed.
Lemma names_kept_read_exact i off n : names_kept q (fs_read_exact_at i off n).
Proof. unfold fs_read_exact_at, inode_data. auto. Qed.
Lemma names_kept_read_some i off n : names_kept q (fs_read_some_at i off n).
Proof. unfold fs_read_some_at, inode_data. auto. Qed.
Lemma names_kept_write i off d : names_kept q (fs_write_at i off d).
Proof. intros fs. unfold fs_write_at. by destruct (fault (fs_tick fs)). Qed.
Lemma names_kept_trunc p : q <> p -> names_kept q (fs_open_trunc p).
Proof.
  intros Hq. unfold fs_open_trunc. apply names_kept_bind; [auto|intros _ fs]. unfold bindM, getM.
  destruct (fs_names fs !! p); cbn; [done|]. by rewrite lookup_insert_ne by congruence.
Qed.
Lemma names_kept_rename a b : q <> a -> q <> b -> names_kept q (fs_rename a b).
Proof.
  intros Ha Hb. unfold fs_rename. apply names_kept_bind; [auto|intros _ fs]. unfold bindM, getM.
  destruct (fs_names fs !! a); cbn; [|done]. by rewrite lookup_insert_ne, lookup_delete_ne by congruence.
Qed.
Lemma names_kept_remove p : q <> p -> names_kept q (fs_remove p).
Proof.
  intros Hp. unfold fs_remove. apply names_kept_bind; [auto|intros _ fs]. unfold bindM, getM.
  destruct (fs_names fs !! p); cbn; [|done]. by rewrite lookup_delete_ne by congruence.
Qed.
End Steps.

Create HintDb spare.
#[export] Hint Resolve names_kept_open names_kept_exists names_kept_metadata names_kept_read
  names_kept_read_exact names_kept_read_some names_kept_write names_kept_trunc names_kept_rename
  names_kept_remove names_kept_step names_kept_mkdir names_kept_sync : spare.

Section Spares.
Context `{HOST : Host} `{ENV : Environ} `{C : Crc32c} (q : string).

Lemma spares_ret {A} (a : A) : spares q (retM a).
Proof. intros w0. apply preserves_ret. Qed.
Lemma spares_fail {A} e : spares (A := A) q (failM e).
Proof. intros w0. apply preserves_fail. Qed.
Lemma spares_lift {A} (r : Result StorageError A) : spares q (liftM r).
Proof. intros w0. apply preserves_lift. Qed.
Lemma spares_get : spares q getM.
Proof. intros w0. apply preserves_get. Qed.
Lemma spares_bind {A B} (m : M World StorageError A) (k : A -> M World StorageError B) :
  spares q m -> (forall a, spares q (k a)) -> spares q (bindM m k).
Proof. intros Hm Hk w0. apply preserves_bind; [apply Hm|intros a; apply Hk]. Qed.
Lemma spares_if {A} (P : Prop) `{!Decision P} (m1 m2 : M World StorageError A) :
  spares q m1 -> spares q m2 -> spares q (if decide P then m1 else m2).
Proof. by case_decide. Qed.
Lemma spares_bool {A} (b : bool) (m1 m2 : M World StorageError A) :
  spares q m1 -> spares q m2 -> spares q (if b then m1 else m2).
Proof. by destruct b. Qed.
Lemma spares_io {A} (m : M Fs IoError A) : names_kept q m -> spares q (io m).
Proof. intros H w0 w [K1 K2]. rewrite io_run. split; [|done]. cbn. by rewrite H. Qed.
Lemma spares_io_raw {A} (m : M Fs IoError A) : names_kept q m -> spares q (io_raw m).
Proof.
  intros H w0 w [K1 K2]. unfold io_raw, tryM, zoomM. specialize (H (w_fs w)).
  destruct (m (w_fs w)). split; [|done]. cbn in *. congruence.
Qed.
Lemma spares_try {A} (m : M World StorageError A) : spares q m -> spares q (tryM m).
Proof. intros H w0. apply preserves_try, H. Qed.
Lemma spares_for {A} (l : list A) (body : A -> M World StorageError unit) :
  (forall a, spares q (body a)) -> spares q (forM l body).
Proof. intros H w0. apply preserves_for. intros a. apply H. Qed.
(** A change of the caches only. *)
Lemma spares_modify (f : World -> World) :
  (forall w, w_fs (f w) = w_fs w /\ w_append (f w) = w_append w) -> spares q (modifyM f).
Proof. intros H w0. apply preserves_modify. intros w [K1 K2]. destruct (H w) as [E1 E2]. split; congruence. Qed.
Lemma spares_set path st : q <> path -> spares q (set_append path st).
Proof.
  intros Hq w0. apply preserves_modify. intros w [K1 K2]. split; [done|]. cbn.
  by rewrite lookup_insert_ne by congruence.
Qed.
Lemma spares_invalidate path : q <> path -> spares q (invalidate_append_file path).
Proof.
  intros Hq w0. apply preserves_modify. intros w [K1 K2]. split; [done|]. cbn.
  by rewrite lookup_delete_ne by congruence.
Qed.
End Spares.
#[export] Hint Resolve spares_ret spares_fail spares_lift spares_get spares_bind spares_if spares_bool
  spares_io spares_io_raw spares_try spares_for spares_set spares_invalidate : spare.

Ltac spare :=
  repeat first
    [ progress auto with spare
    | apply spares_bind; [|intros ?]
    | match goal with
      | |- spares _ (match ?x with _ => _ end) => destruct x
      | |- spares _ (let (_, _) := ?x in _) => destruct x
      end
    | apply spares_io | apply spares_modify; done ].

Section SegmentOps.
Context `{HOST : Host} `{ENV : Environ} `{C : Crc32c} (q : string).

Lemma spares_parent path : spares q (ensure_parent_dir path).
Proof. unfold ensure_parent_dir. destruct (path_parent path); spare. Qed.
#[local] Hint Resolve spares_parent : spare.
Lemma spares_write path k id seq payload :
  q <> path -> q <> with_extension_tmp path -> spares q (write_segment_file path k id seq payload).
Proof. intros H1 H2. unfold write_segment_file, write_segment_headers, sync_directory. spare. Qed.
Lemma spares_read_bounded path k max : spares q (read_segment_file_bounded path k max).
Proof. unfold read_segment_file_bounded. spare. Qed.
Lemma spares_read_header path k : spares q (read_segment_header path k).
Proof. unfold read_segment_header, read_segment_header_from_file. spare. Qed.
#[local] Hint Resolve spares_write spares_read_header : spare.
Lemma spares_shape path k : spares q (validate_segment_shape path k).
Proof. unfold validate_segment_shape. spare. Qed.
Lemma spares_sync path : spares q (sync_segment_file path).
Proof. unfold sync_segment_file. spare. Qed.
Lemma spares_append_parts path k id pre parts sync ce :
  q <> path -> q <> with_extension_tmp path ->
  spares q (append_segment_payload_parts path k id pre parts sync ce).
Proof.
  intros H1 H2. unfold append_segment_payload_parts, open_append, start_log, check_prefix, append_opened,
    write_all_parts, write_segment_header_copies_at. spare.
Qed.
Lemma spares_append path k id pre appended sync :
  q <> path -> q <> with_extension_tmp path -> spares q (append_segment_payload path k id pre appended sync).
Proof. apply spares_append_parts. Qed.
Lemma spares_exists path : spares q (path_exists path).
Proof. unfold path_exists. spare. Qed.
Lemma spares_stamp path : spares q (file_stamp path).
Proof. unfold file_stamp. spare. Qed.
End SegmentOps.
#[export] Hint Resolve spares_parent spares_write spares_read_bounded spares_read_header spares_shape
  spares_sync spares_append_parts spares_append spares_exists spares_stamp : spare.


(** ** Carrying a file's state across *)
Section Carry.
Context `{HOST : Host} `{ENV : Environ} `{CL : Crc32cLaws}.

Lemma seg_file_elsewhere w w' ps path h payload :
  seg_file w path h payload -> frame ps (w_fs w) (w_fs w') -> path ∉ ps -> keeps path w w' ->
  seg_file w' path h payload.
Proof.
  intros [H1 H2 H3 H4 H5 H6 H7] [W Cq] Hp [K1 K2]. split; try done; [by rewrite Cq|].
  rewrite K1, K2. done.
Qed.
Lemma log_file_elsewhere w w' ps k path id seq payload :
  log_file w k path id seq payload -> frame ps (w_fs w) (w_fs w') -> path ∉ ps -> keeps path w w' ->
  log_file w' k path id seq payload.
Proof.
  intros (HS & ? & ?)%log_file_seg ? ? ?. apply log_file_seg. eauto using seg_file_elsewhere.
Qed.

Lemma seg_file_moved w w' ps path h payload :
  seg_file w path h payload -> moved ps w w' -> (path ∉ ps) -> seg_file w' path h payload.
Proof. intros H [F K] Hp. eapply seg_file_elsewhere; eauto. Qed.
Lemma log_file_moved w w' ps k path id seq payload :
  log_file w k path id seq payload -> moved ps w w' -> (path ∉ ps) -> log_file w' k path id seq payload.
Proof. intros H [F K] Hp. eapply log_file_elsewhere; eauto. Qed.

Lemma files_only_fs w w' : w' = w <| w_fs := w_fs w' |> -> files_only w w'.
Proof. intros E. unfold files_only. rewrite E at 1. rewrite E. by destruct w. Qed.

Lemma read_header_ok w path h payload :
  no_faults -> seg_file w path h payload ->
  exists w', read_segment_header path (kind h) w = (Ok h, w') /\
    w' = w <| w_fs := w_fs w' |> /\ same_files (w_fs w) (w_fs w').
Proof.
  intros Hn HS. pose proof (sf_contents _ _ _ _ HS) as Hc.
  destruct (fs_metadata_ok (w_fs w) path _ Hn Hc) as (t & Em).
  unfold read_segment_header, bindM at 1, io_raw, tryM, zoomM. rewrite Em.
  set (w1 := w <| w_fs := _ |>).
  destruct (fs_open_ok (w_fs w1) path _ Hn Hc) as (i & Ho & Hi).
  unfold bindM at 1. rewrite io_run, Ho. cbn [fst snd map_err]. set (w2 := w1 <| w_fs := _ |>).
  unfold read_segment_header_from_file, bindM. rewrite io_run.
  rewrite (fs_read_some_ok (w_fs w2) path i _ _ _ Hn Hi Hc). cbn [fst snd map_err].
  unfold liftM. rewrite header_probe by apply HS. rewrite decide_False by tauto.
  eexists. split; [reflexivity|]. by split.
Qed.

Lemma file_stamp_ok w path d :
  no_faults -> contents (w_fs w) path = Some d ->
  exists n w', file_stamp path w = (Ok (mkStamp (Zlen (i_data n)) (i_mtime n)), w') /\
    file_at (w_fs w) path = Some n /\
    w' = w <| w_fs := w_fs w' |> /\ same_files (w_fs w) (w_fs w').
Proof.
  intros Hn Hc. unfold contents in Hc. destruct (file_at (w_fs w) path) as [n|] eqn:E; [|done].
  exists n. unfold file_stamp, bindM. rewrite io_run. unfold fs_metadata, bindM.
  rewrite io_step_ok by done. unfold getM. change (file_at _ path) with (file_at (w_fs w) path).
  rewrite E. cbn. eexists. split_and!; reflexivity || done.
Qed.

(** The first append to an empty segment writes the prefix and the parts as a
    new segment. *)
Lemma append_empty_spec w path h id' pre parts sync ce :
  no_faults -> seg_file w path h [] -> with_extension_tmp path <> path -> concat parts <> [] ->
  u64_ok id' -> bytes_ok (pre ++ concat parts) -> 96 + Zlen (pre ++ concat parts) <= U64_MAX ->
  let h' := header_new (kind h) id' (sat_add64 (sequence h) 1) (pre ++ concat parts) in
  exists w', append_segment_payload_parts path (kind h) id' pre parts sync ce w = (Ok h', w') /\
    files_only w w' /\ frame [with_extension_tmp path; path] (w_fs w) (w_fs w') /\
    seg_file w' path h' (pre ++ concat parts).
Proof.
  intros Hn HS Ht Hpn Hid Hb Hl h'. unfold append_segment_payload_parts. rewrite decide_False by done.
  destruct (ensure_parent_dir_run path w Hn) as (w0 & E0 & F0 & S0 & A0).
  rewrite (bindM_run _ _ _ _ _ E0).
  apply (seg_file_same w w0) in HS as HS0; [|done|by rewrite A0].
  destruct (open_append_spec _ _ _ _ Hn HS0) as (st & w1 & E1 & F1 & S1 & [HS1 Ha1]).
  rewrite (bindM_run _ _ _ _ _ E1).
  destruct (sf_handle _ _ _ _ HS1 _ Ha1) as (_ & Hhd & _ & _ & _).
  rewrite Hhd. rewrite decide_False by tauto. rewrite decide_True by apply (sf_plen _ _ _ _ HS1).
  pose proof (sf_header _ _ _ _ HS) as [Hwh _].
  assert (u64_ok (sat_add64 (sequence h) 1)) as Hsq.
  { unfold wf_header, u64_ok, sat_add64 in *. lia. }
  unfold start_log.
  destruct (write_segment_log w1 path (kind h) id' (sat_add64 (sequence h) 1) (pre ++ concat parts) Hn)
    as (w2 & E2 & F2 & Fr2 & HL2); [apply HS1|done..|].
  rewrite (bindM_run _ _ _ _ _ E2). apply log_file_seg in HL2 as (HS2 & _ & _).
  destruct (read_header_ok w2 path _ _ Hn HS2) as (w3 & E3 & F3 & S3).
  exists w3. split; [exact E3|]. split_and!.
  - eauto 6 using files_only_trans, files_only_fs.
  - apply (frame_same _ _ (w_fs w2)); [|done]. apply (frame_trans _ _ (w_fs w1)); [|done].
    apply frame_of_same; [apply HS|]. eauto using same_files_trans.
  - apply (seg_file_same w2); [done|by rewrite F3|done].
Qed.

(** An append to a segment, empty or not: what it holds afterwards. *)
Definition grown_header (h : SegmentHeader) (id : Z) (pre payload : list Z) (parts : list (list Z))
  (ce : bool) : SegmentHeader :=
  if decide (payload = []) then header_new (kind h) id (sat_add64 (sequence h) 1) (pre ++ concat parts)
  else appended_header h parts ce.
Definition grown (pre payload : list Z) (parts : list (list Z)) : list Z :=
  (if decide (payload = []) then pre else payload) ++ concat parts.

Lemma append_any_spec w path h payload id' pre parts sync ce :
  no_faults -> seg_file w path h payload -> with_extension_tmp path <> path -> concat parts <> [] ->
  (payload = [] \/ take (length pre) payload = pre) -> u64_ok id' -> bytes_ok (pre ++ concat parts) ->
  96 + Zlen payload + Zlen (pre ++ concat parts) <= U64_MAX ->
  (length parts = 1%nat \/ last parts <> Some []) ->
  exists w', append_segment_payload_parts path (kind h) id' pre parts sync ce w =
      (Ok (grown_header h id' pre payload parts ce), w') /\
    files_only w w' /\ frame [with_extension_tmp path; path] (w_fs w) (w_fs w') /\
    (payload <> [] -> fs_names (w_fs w') = fs_names (w_fs w)) /\
    seg_file w' path (grown_header h id' pre payload parts ce) (grown pre payload parts).
Proof.
  intros Hn HS Ht Hpn Hpre Hid Hb Hl Hlast. unfold grown_header, grown. case_decide as Hp.
  - subst payload. destruct (append_empty_spec w path h id' pre parts sync ce) as (w' & ? & ? & ? & ?); auto.
    exists w'. by split_and!.
  - destruct Hpre as [|Hpre]; [done|]. unfold bytes_ok in *. apply Forall_app in Hb as [Hb1 Hb2].
    destruct (append_seg_spec w path h payload id' pre parts sync ce Hn HS Hp Hpn Hpre)
      as (w' & E & F & Fr & HN & HS'); [split_and!; try done; unfold Zlen in *; rewrite length_app in Hl; lia|].
    exists w'. split_and!; [done|done| |done|done]. eapply frame_weaken; [done|set_solver].
Qed.

(** A whole file written anew. *)
Definition path_files (path : string) : list string := [with_extension_tmp path; path].

Lemma write_log_moved w path k id seq payload :
  no_faults -> wf_fs (w_fs w) -> with_extension_tmp path <> path ->
  u64_ok id -> u64_ok seq -> bytes_ok payload -> 96 + Zlen payload <= U64_MAX ->
  exists w', write_segment_file path k id seq payload w = (Ok tt, w') /\ files_only w w' /\
    moved (path_files path) w w' /\ log_file w' k path id seq payload.
Proof.
  intros Hn Hw Ht Hid Hs Hb Hl.
  destruct (write_segment_log w path k id seq payload Hn Hw Ht Hid Hs Hb Hl) as (w1 & E1 & F1 & Fr1 & HL1).
  exists w1. split_and!; [done|done| |done]. apply (moved_run _ _ _ _ _ E1); [done|].
  intros q Hq. unfold path_files in Hq. apply spares_write; set_solver.
Qed.
End Carry.
