(* ===== verification/Streaming.v ===== *)
(** * Streamed segment files (storage/segment.rs: write_segment_file_streaming)

    A segment too large to build in memory is written piece by piece behind a
    blank header; its checksum is then computed by reading the file back, and
    the headers are filled in before the file takes its name. *)

From S2P Require Import Prelude Bytes Text Errors Fs Layout TapeState Compression Records.
From S2P Require Import World Crc Segment Footprint.

Definition STREAM_CHUNK : Z := 1024 * 1024.

Section Ops.
Context `{HOST : Host} `{ENV : Environ} `{C : Crc32c}.

(** [OpenOptions::create_new(true)]: the name must be free. *)
Definition fs_create_new (p : string) : M Fs IoError nat :=
  io_step ;;!
  let! fs := getM in
  match fs_names fs !! p with
  | Some _ => failM (io_error KAlreadyExists "File exists")
  | None =>
      let i := fs_next fs in
      putM (fs <| fs_inodes := <[i := mkInode [] (clock (fs_tick fs))]> (fs_inodes fs) |>
               <| fs_names := <[p := i]> (fs_names fs) |>
               <| fs_next := S i |>) ;;! retM i
  end.
(** [seek(SeekFrom::End(0))]: the length of the open file. *)
Definition fs_end (i : nat) : M Fs IoError Z :=
  io_step ;;! let! d := inode_data i in retM (Zlen d).

(** A temporary file left over is removed. *)
Definition remove_stale_tmp (tmp : string) : M World StorageError unit :=
  let! r := io_raw (fs_metadata tmp) in
  match r with
  | Ok _ => io (fs_remove tmp)
  | Err e => if decide (io_kind e = KNotFound) then retM tt else failM (SIo e)
  end.

(** The payload's checksum, read back in pieces of a mebibyte. *)
Fixpoint reread_checksum (fuel : nat) (inode : nat) (offset remaining acc : Z) : M World StorageError Z :=
  match fuel with
  | O => retM acc
  | S f =>
      if decide (0 < remaining) then
        let! piece := io (fs_read_some_at inode (Z.to_nat offset) (Z.to_nat (Z.min remaining STREAM_CHUNK))) in
        if decide (piece = [])
        then failM (SIo (io_error KUnexpectedEof "short read verifying streamed segment"))
        else reread_checksum f inode (offset + Zlen piece) (sat_sub remaining (Zlen piece))
               (integrity32_continue acc piece)
      else retM acc
  end.

(** What is tried under the temporary name. [write_payload] gets the open file
    with its position behind the blank header. *)
Definition stream_into {A} (path tmp : string) (k : SegmentKind) (id seq : Z)
  (write_payload : nat -> M World StorageError A) : M World StorageError (SegmentHeader * A) :=
  let! file := io (fs_create_new tmp) in
  io (fs_write_at file 0 (replicate SEGMENT_HEADER_V2_TOTAL_SIZE 0)) ;;!
  let! a := write_payload file in
  let! file_end := io (fs_end file) in
  let payload_offset := Z.of_nat SEGMENT_HEADER_V2_TOTAL_SIZE in
  if decide (file_end < payload_offset) then failM (Corrupt "streamed segment is truncated")
  else
    let len := file_end - payload_offset in
    let! sum := reread_checksum (S (Z.to_nat len)) file payload_offset len 0 in
    let header := mkHeader STORAGE_LAYOUT_MAGIC STORAGE_LAYOUT_VERSION k id seq len sum in
    let! _ := write_segment_headers file header in
    io fs_sync ;;!
    io (fs_rename tmp path) ;;!
    match path_parent path with Some parent => sync_directory parent | None => retM tt end ;;!
    invalidate_append_file path ;;!
    retM (header, a).

Definition write_segment_file_streaming {A} (path : string) (k : SegmentKind) (id seq : Z)
  (write_payload : nat -> M World StorageError A) : M World StorageError (SegmentHeader * A) :=
  ensure_parent_dir path ;;!
  invalidate_append_file path ;;!
  let tmp := with_extension_tmp path in
  remove_stale_tmp tmp ;;!
  let! _ := io_raw (fs_metadata path) in
  let! result := tryM (stream_into path tmp k id seq write_payload) in
  match result with
  | Ok x => retM x
  | Err e => let! _ := io_raw (fs_remove tmp) in failM e
  end.
End Ops.
