(* ===== verification/StreamLaws.v ===== *)
(** * Streamed segment files hold what was streamed

    A segment written piece by piece is the segment written at once. *)

From S2P Require Import Prelude Bytes Text Errors Fs Layout TapeState Compression Records.
From S2P Require Import World Crc Segment Footprint Streaming.

Section Laws.
Context `{HOST : Host} `{ENV : Environ} `{CL : Crc32cLaws}.

(** ** An open output file *)
Record output (w : World) (tmp : string) (i : nat) (d : list Z) : Prop := {
  ou_wf : wf_fs (w_fs w);
  ou_name : fs_names (w_fs w) !! tmp = Some i;
  ou_contents : contents (w_fs w) tmp = Some d
}.
(** Only the output changed. *)
Definition wrote (tmp : string) (w w' : World) : Prop :=
  w' = w <| w_fs := w_fs w' |> /\ frame [tmp] (w_fs w) (w_fs w') /\ fs_names (w_fs w') = fs_names (w_fs w).

Lemma wrote_refl tmp w : wf_fs (w_fs w) -> wrote tmp w w.
Proof. intros H. split_and!; [by destruct w|done|done]. Qed.
Lemma wrote_trans tmp w1 w2 w3 : wrote tmp w1 w2 -> wrote tmp w2 w3 -> wrote tmp w1 w3.
Proof.
  intros (E1 & F1 & N1) (E2 & F2 & N2). split_and!; [rewrite E2, E1; done|by eapply frame_trans|congruence].
Qed.
Lemma wrote_same tmp w w' :
  wf_fs (w_fs w) -> w' = w <| w_fs := w_fs w' |> -> same_files (w_fs w) (w_fs w') -> wrote tmp w w'.
Proof. intros Hw E S. split_and!; [done|by apply frame_of_same|apply S]. Qed.
Lemma output_same w w' tmp i d : same_files (w_fs w) (w_fs w') -> output w tmp i d -> output w' tmp i d.
Proof.
  intros S [H1 H2 H3]. split; [by eapply wf_same|by destruct S as [-> _]|by rewrite (contents_same (w_fs w))].
Qed.
Lemma wrote_contents tmp w w' q : wrote tmp w w' -> q <> tmp -> contents (w_fs w') q = contents (w_fs w) q.
Proof. intros (_ & [_ F] & _) H. apply F. set_solver. Qed.
Lemma wrote_names tmp w w' : wrote tmp w w' -> fs_names (w_fs w') = fs_names (w_fs w).
Proof. by intros (_ & _ & ?). Qed.

Lemma write_out w tmp i d off bytes :
  no_faults -> output w tmp i d ->
  exists w', io (fs_write_at i off bytes) w = (Ok tt, w') /\ wrote tmp w w' /\ output w' tmp i (write_at off bytes d).
Proof.
  intros Hn [Hw Hi Hc]. rewrite io_run.
  destruct (fs_write_at_spec (w_fs w) tmp i off bytes Hw Hi) as (W & N & Cq & D & K). specialize (K Hn).
  destruct (fs_write_at i off bytes (w_fs w)) as [r fs1]. cbn [fst snd] in *. subst r. cbn [map_err].
  eexists. split; [reflexivity|]. split.
  - split_and!; [done| |done]. split; [done|]. intros q Hq. apply Cq. set_solver.
  - split; [done|cbn; by rewrite N|by apply D].
Qed.
(** Reading any file through its inode. *)
Lemma read_in w path j d off n :
  no_faults -> fs_names (w_fs w) !! path = Some j -> contents (w_fs w) path = Some d -> (off + n <= length d)%nat ->
  exists w', io (fs_read_exact_at j off n) w = (Ok (slice off (off + n) d), w') /\
    w' = w <| w_fs := w_fs w' |> /\ same_files (w_fs w) (w_fs w').
Proof.
  intros Hn Hj Hc Hl. rewrite io_run, (fs_read_exact_ok _ path j d off n Hn Hj Hc Hl). cbn [fst snd map_err].
  eexists. by split_and!.
Qed.

(** ** The steps of the writer *)
Lemma create_new_spec w tmp :
  no_faults -> wf_fs (w_fs w) -> fs_names (w_fs w) !! tmp = None ->
  exists i w', io (fs_create_new tmp) w = (Ok i, w') /\ w' = w <| w_fs := w_fs w' |> /\
    frame [tmp] (w_fs w) (w_fs w') /\ (forall q, q <> tmp -> fs_names (w_fs w') !! q = fs_names (w_fs w) !! q) /\
    output w' tmp i [].
Proof.
  intros Hn (H1 & H2 & H3) Hf. rewrite io_run. unfold fs_create_new, bindM. rewrite io_step_ok by done.
  unfold getM. cbn [fs_names]. change (fs_names (_ <| fs_tick := _ |>)) with (fs_names (w_fs w)). rewrite Hf.
  cbn [fst snd map_err putM retM]. set (fs0 := w_fs w) in *. set (i := fs_next _).
  assert (i = fs_next fs0) as Hi by done. clearbody i. subst i. set (i := fs_next fs0) in *.
  assert (fs_inodes fs0 !! i = None) as Hfree.
  { destruct (fs_inodes fs0 !! i) eqn:E; [|done]. assert (i < fs_next fs0)%nat by (apply H3; eauto). unfold i in *. lia. }
  assert (forall q j, fs_names fs0 !! q = Some j -> j <> i) as Hold.
  { intros q j Hq ->. destruct (H1 q i Hq). congruence. }
  eexists i, _. split; [reflexivity|]. split; [done|]. cbn.
  assert (wf_fs (w_fs (w <| w_fs := fs0 <| fs_tick := S (fs_tick fs0) |>
      <| fs_inodes := <[i := mkInode [] (clock (S (fs_tick fs0)))]> (fs_inodes fs0) |>
      <| fs_names := <[tmp := i]> (fs_names fs0) |> <| fs_next := S i |> |>))) as Hw.
  { repeat split; cbn.
    - intros q j [[_ <-]|[_ Hq]]%lookup_insert_Some; [rewrite lookup_insert_eq; eauto|].
      rewrite lookup_insert_ne by (by apply not_eq_sym, (Hold q)). eauto.
    - intros q q' j [[<- <-]|[? Hq]]%lookup_insert_Some [[<- Hj]|[? Hq']]%lookup_insert_Some; eauto; exfalso;
        [by apply (Hold q' i)|subst j; by apply (Hold q i)].
    - intros j. destruct (decide (i = j)) as [->|]; [lia|]. rewrite lookup_insert_ne by done.
      intros Hj%H3. unfold i. lia. }
  split_and!.
  - split; [exact Hw|]. intros q Hq. unfold contents, file_at. cbn. rewrite lookup_insert_ne by set_solver.
    destruct (fs_names fs0 !! q) as [j|] eqn:E; [|done]. by rewrite lookup_insert_ne by (by apply not_eq_sym, (Hold q)).
  - intros q Hq. by rewrite lookup_insert_ne.
  - split; [exact Hw|cbn; apply lookup_insert_eq|]. unfold contents, file_at. cbn. by rewrite !lookup_insert_eq.
Qed.

Lemma stale_tmp_spec w tmp :
  no_faults -> wf_fs (w_fs w) ->
  exists w', remove_stale_tmp tmp w = (Ok tt, w') /\ w' = w <| w_fs := w_fs w' |> /\ frame [tmp] (w_fs w) (w_fs w') /\
    (forall q, q <> tmp -> fs_names (w_fs w') !! q = fs_names (w_fs w) !! q) /\ fs_names (w_fs w') !! tmp = None.
Proof.
  intros Hn Hw. unfold remove_stale_tmp, bindM, io_raw, tryM, zoomM, fs_metadata, bindM. rewrite io_step_ok by done.
  unfold getM. set (fs1 := (w_fs w) <| fs_tick := S (fs_tick (w_fs w)) |>).
  change (file_at fs1 tmp) with (file_at (w_fs w) tmp). unfold file_at.
  destruct (fs_names (w_fs w) !! tmp) as [i|] eqn:Ei.
  - destruct Hw as (H1 & H2 & H3). destruct (H1 _ _ Ei) as [n En]. rewrite En. cbn [failM retM].
    rewrite io_run. unfold fs_remove, bindM. rewrite io_step_ok by done. unfold getM. cbn [w_fs].
    change (fs_names (_ <| fs_tick := _ |>)) with (fs_names (w_fs w)). rewrite Ei. cbn [putM fst snd map_err].
    eexists. split; [reflexivity|]. split; [done|]. cbn. split_and!.
    + split.
      * repeat split; cbn; [..|exact H3].
        -- intros q j [_ Hq]%lookup_delete_Some. eauto.
        -- intros q q' j [_ Hq]%lookup_delete_Some [_ Hq']%lookup_delete_Some. eauto.
      * intros q Hq. unfold contents, file_at. cbn. by rewrite lookup_delete_ne by set_solver.
    + intros q Hq. by rewrite lookup_delete_ne.
    + apply lookup_delete_eq.
  - cbn [failM]. rewrite decide_True by done. cbn. eexists. split; [reflexivity|].
    split_and!; [done|split; [by eapply (wf_same (w_fs w))|done]|done|done].
Qed.

Lemma end_spec w tmp i d :
  no_faults -> output w tmp i d ->
  exists w', io (fs_end i) w = (Ok (Zlen d), w') /\ w' = w <| w_fs := w_fs w' |> /\ same_files (w_fs w) (w_fs w').
Proof.
  intros Hn [_ Hi (j & n & Hj & Hd & <-)%contents_names]. simplify_eq. rewrite io_run. unfold fs_end, bindM.
  rewrite io_step_ok by done. unfold inode_data, getsM. cbn. rewrite Hd. eexists. by split_and!.
Qed.

Lemma integrity_app acc a b : integrity32_continue acc (a ++ b) = integrity32_continue (integrity32_continue acc a) b.
Proof. unfold integrity32_continue. by rewrite crc32c_append_app. Qed.

Lemma reread_spec tmp i d : no_faults -> forall fuel w off acc,
  output w tmp i d -> 0 <= off <= Zlen d -> (Z.to_nat (Zlen d - off) < fuel)%nat ->
  exists w', reread_checksum fuel i off (Zlen d - off) acc w =
      (Ok (if decide (off < Zlen d) then integrity32_continue acc (drop (Z.to_nat off) d) else acc), w') /\
    w' = w <| w_fs := w_fs w' |> /\ same_files (w_fs w) (w_fs w').
Proof.
  intros Hn. induction fuel as [|fuel IH]; intros w off acc HO Hoff Hf; [lia|]. cbn [reread_checksum].
  case_decide as Hr; cycle 1.
  { exists w. rewrite decide_False by lia. split_and!; [done|by destruct w|done]. }
  rewrite (decide_True (P := off < Zlen d)) by lia.
  set (n := Z.min (Zlen d - off) STREAM_CHUNK). assert (0 < n <= Zlen d - off) as Hn' by (unfold n, STREAM_CHUNK; lia).
  unfold bindM at 1. rewrite io_run, (fs_read_some_ok _ tmp i d _ _ Hn (ou_name _ _ _ _ HO) (ou_contents _ _ _ _ HO)).
  cbn [fst snd map_err]. set (piece := slice _ _ d).
  assert (Zlen piece = n) as Hp.
  { unfold piece, slice, Zlen. rewrite length_take, length_drop. unfold Zlen in *. lia. }
  rewrite decide_False by (intros E; rewrite E in Hp; unfold Zlen in Hp; cbn in Hp; lia).
  set (w1 := w <| w_fs := _ |>). assert (same_files (w_fs w) (w_fs w1)) as S1 by done.
  destruct (IH w1 (off + n) (integrity32_continue acc piece)) as (w2 & E2 & F2 & S2);
    [by apply (output_same w)|unfold Zlen in *; lia|lia|].
  exists w2. rewrite Hp. replace (sat_sub (Zlen d - off) n) with (Zlen d - (off + n)) by (unfold sat_sub; lia).
  rewrite E2. split_and!; [|by rewrite F2|by eapply same_files_trans].
  assert (drop (Z.to_nat off) d = piece ++ drop (Z.to_nat (off + n)) d) as Hd; cycle 1.
  { case_decide as Hl; [by rewrite Hd, integrity_app|]. rewrite Hd, (drop_ge d) by (unfold Zlen in *; lia). by rewrite app_nil_r. }
  unfold piece, slice.
  replace (Z.to_nat (off + n)) with (Z.to_nat n + Z.to_nat off)%nat by lia.
  replace (Z.to_nat off + Z.to_nat n - Z.to_nat off)%nat with (Z.to_nat n) by lia.
  rewrite Nat.add_comm, <- drop_drop. by rewrite take_drop.
Qed.

Lemma write_headers_over w tmp i h payload :
  no_faults -> output w tmp i (replicate 96 0 ++ payload) -> version h = STORAGE_LAYOUT_VERSION ->
  exists w', write_segment_headers i h w = (Ok 96%nat, w') /\ wrote tmp w w' /\ output w' tmp i (segment_bytes h payload).
Proof.
  intros Hn HO Hv. unfold write_segment_headers. rewrite decide_True by done. pose proof (length_encode_v2 h) as L.
  destruct (write_out w tmp i _ 0 (encode_v2_header_copy h) Hn HO) as (w1 & E1 & W1 & O1). rewrite (bindM_run _ _ _ _ _ E1).
  destruct (write_out w1 tmp i _ (length (encode_v2_header_copy h)) (encode_v2_header_copy h) Hn O1) as (w2 & E2 & W2 & O2).
  rewrite (bindM_run _ _ _ _ _ E2). exists w2. unfold SEGMENT_HEADER_V2_COPY_SIZE in L. split_and!; [by rewrite L|by eapply wrote_trans|].
  rewrite (write_at_inside 0), take_0, Nat.add_0_l, L in O2 by (rewrite length_app, length_replicate, L; lia).
  cbn [app] in O2. rewrite write_at_inside, L in O2 by (rewrite !length_app, length_drop, length_app, length_replicate, L; lia).
  replace 96%nat with (48 + 48)%nat in O2 by done. rewrite replicate_add, <- app_assoc in O2.
  rewrite (drop_app_length' (replicate 48 0)) in O2 by (by rewrite length_replicate).
  rewrite take_app_length' in O2 by done.
  rewrite (app_assoc (encode_v2_header_copy h) (replicate 48 0)), drop_app_length' in O2
    by (rewrite length_app, length_replicate, L; done).
  exact O2.
Qed.

(** ** The whole file *)

(** The world as the writer meets it: only the temporary name differs. *)
Definition beside (tmp : string) (w w' : World) : Prop :=
  frame [tmp] (w_fs w) (w_fs w') /\ forall q, q <> tmp -> fs_names (w_fs w') !! q = fs_names (w_fs w) !! q.

Lemma beside_trans tmp w1 w2 w3 : beside tmp w1 w2 -> beside tmp w2 w3 -> beside tmp w1 w3.
Proof. intros [F1 N1] [F2 N2]. split; [by eapply frame_trans|]. intros q Hq. by rewrite N2, N1. Qed.
Lemma beside_wrote tmp w w' : wrote tmp w w' -> beside tmp w w'.
Proof. intros (_ & F & N). split; [done|]. intros q _. by rewrite N. Qed.
Lemma beside_same tmp w w' : wf_fs (w_fs w) -> same_files (w_fs w) (w_fs w') -> beside tmp w w'.
Proof. intros Hw S. split; [by apply frame_of_same|]. intros q _. by destruct S as [-> _]. Qed.
Lemma beside_moved tmp path w w' :
  beside tmp w w' -> (forall q, q <> path -> w_append w' !! q = w_append w !! q) -> moved [tmp; path] w w'.
Proof.
  intros [F N] A. split; [eapply frame_weaken; [exact F|set_solver]|]. intros q Hq. split; [apply N|apply A]; set_solver.
Qed.

(** The file takes its name. *)
Lemma take_name_spec w tmp path i d :
  no_faults -> output w tmp i d -> tmp <> path ->
  exists w', (io (fs_rename tmp path) ;;!
      match path_parent path with Some parent => sync_directory parent | None => retM tt end ;;!
      invalidate_append_file path) w = (Ok tt, w') /\ files_only w w' /\ moved [tmp; path] w w' /\
    contents (w_fs w') path = Some d /\ w_append w' !! path = None.
Proof.
  intros Hn [Hw Hi Hc] Hne. set (m := bindM _ _).
  assert (local m) as L.
  { unfold m, sync_directory. repeat (apply local_bind; intros; auto using local_io, local_invalidate).
    destruct (path_parent path); auto using local_ret, local_io, local_bind. }
  assert (forall q, q ∉ [tmp; path] -> spares q m) as SP.
  { intros q Hq. unfold m, sync_directory. assert (q <> tmp /\ q <> path) as [? ?] by set_solver. spare. }
  destruct (finish_replace_spec w tmp path Hw Hne) as (F & _ & D & K). fold m in F, D, K. specialize (L w).
  specialize (K Hn ltac:(eauto)). destruct (m w) as [r w'] eqn:E. cbn [fst snd] in *. subst r.
  exists w'. split_and!; [done|done|by eapply moved_run|by rewrite D|].
  unfold m in E. apply bindM_Ok in E as (? & ? & _ & E). apply bindM_Ok in E as (? & ? & _ & E).
  injection E as <-. apply lookup_delete_eq.
Qed.

(** The headers filled in behind the payload. *)
Lemma stream_into_spec {A} w path tmp k id seq (wp : nat -> M World StorageError A) payload (Q : A -> Prop) :
  no_faults -> wf_fs (w_fs w) -> tmp <> path -> fs_names (w_fs w) !! tmp = None -> payload <> [] ->
  (forall w1 i, beside tmp w w1 -> output w1 tmp i (replicate 96 0) ->
     exists a w2, wp i w1 = (Ok a, w2) /\ Q a /\ wrote tmp w1 w2 /\ output w2 tmp i (replicate 96 0 ++ payload)) ->
  exists a w', stream_into path tmp k id seq wp w = (Ok (header_new k id seq payload, a), w') /\ Q a /\ files_only w w' /\
    moved [tmp; path] w w' /\ contents (w_fs w') path = Some (segment_bytes (header_new k id seq payload) payload) /\
    w_append w' !! path = None.
Proof.
  intros Hn Hw Hne Hf Hp Hwp. unfold stream_into.
  destruct (create_new_spec w tmp Hn Hw Hf) as (i & w1 & E1 & F1 & Fr1 & N1 & O1). rewrite (bindM_run _ _ _ _ _ E1).
  destruct (write_out w1 tmp i _ 0 (replicate SEGMENT_HEADER_V2_TOTAL_SIZE 0) Hn O1) as (w2 & E2 & W2 & O2).
  rewrite (bindM_run _ _ _ _ _ E2). rewrite write_at_0 in O2.
  assert (beside tmp w w2) as B2 by (eapply beside_trans; [split; [exact Fr1|exact N1]|by apply beside_wrote]).
  destruct (Hwp w2 i B2 O2) as (a & w3 & E3 & HQ & W3 & O3). rewrite (bindM_run _ _ _ _ _ E3).
  destruct (end_spec w3 tmp i _ Hn O3) as (w4 & E4 & F4 & S4). rewrite (bindM_run _ _ _ _ _ E4). cbv zeta.
  pose proof (output_same _ _ _ _ _ S4 O3) as O4.
  assert (Zlen (replicate 96 0 ++ payload) = 96 + Zlen payload) as Hl
    by (unfold Zlen; rewrite length_app, length_replicate; lia).
  change (Z.of_nat SEGMENT_HEADER_V2_TOTAL_SIZE) with 96.
  assert (0 < Zlen payload) as Hpos by (unfold Zlen; destruct payload; [done|cbn; lia]).
  rewrite decide_False by lia.
  destruct (reread_spec tmp i (replicate 96 0 ++ payload) Hn (S (Z.to_nat (Zlen (replicate 96 0 ++ payload) - 96))) w4 96 0)
    as (w5 & E5 & F5 & S5); [done|lia|lia|].
  rewrite (bindM_run _ _ _ _ _ E5). rewrite decide_True by lia.
  change (Z.to_nat 96) with 96%nat. rewrite drop_app_length' by (by rewrite length_replicate).
  replace (Zlen (replicate 96 0 ++ payload) - 96) with (Zlen payload) by lia.
  change (mkHeader STORAGE_LAYOUT_MAGIC STORAGE_LAYOUT_VERSION k id seq (Zlen payload) (integrity32_continue 0 payload))
    with (header_new k id seq payload).
  pose proof (output_same _ _ _ _ _ S5 O4) as O5.
  destruct (write_headers_over w5 tmp i (header_new k id seq payload) payload Hn O5 eq_refl) as (w6 & E6 & W6 & O6).
  rewrite (bindM_run _ _ _ _ _ E6).
  assert (exists w7, io fs_sync w6 = (Ok tt, w7) /\ w7 = w6 <| w_fs := w_fs w7 |> /\ same_files (w_fs w6) (w_fs w7)) as (w7 & E7 & F7 & S7).
  { rewrite io_run. destruct (fs_sync_spec (w_fs w6) (ou_wf _ _ _ _ O6)) as (_ & _ & _ & K). specialize (K Hn).
    pose proof (fs_sync_same (w_fs w6)) as S. destruct (fs_sync (w_fs w6)) as [r fs7]. cbn [fst snd] in *. rewrite K.
    eexists. by split_and!. }
  rewrite (bindM_run _ _ _ _ _ E7).
  destruct (take_name_spec w7 tmp path i _ Hn (output_same _ _ _ _ _ S7 O6) Hne) as (w8 & E8 & F8 & M8 & C8 & A8).
  apply bindM_Ok in E8 as ([] & wa & Ea & E8). rewrite (bindM_run _ _ _ _ _ Ea).
  apply bindM_Ok in E8 as ([] & wb & Eb & E8). rewrite (bindM_run _ _ _ _ _ Eb). rewrite (bindM_run _ _ _ _ _ E8).
  exists a, w8. split; [done|]. split; [done|]. destruct W2 as (F2 & Fr2 & N2), W3 as (F3 & Fr3 & N3), W6 as (F6 & Fr6 & N6).
  split_and!; [|  |done|done].
  - eapply files_only_trans; [|exact F8]. apply files_only_fs. rewrite F7, F6, F5, F4, F3, F2, F1. done.
  - eapply moved_trans; [|exact M8]. apply beside_moved; [|intros q _; rewrite F7, F6, F5, F4, F3, F2, F1; done].
    eapply beside_trans; [exact B2|]. eapply beside_trans; [by apply beside_wrote; split_and!|].
    eapply beside_trans; [apply beside_same; [apply O3|exact S4]|]. eapply beside_trans; [apply beside_same; [apply O4|exact S5]|].
    eapply beside_trans; [by apply beside_wrote; split_and!|]. apply beside_same; [apply O6|exact S7].
Qed.

(** A streamed segment is the segment written at once. *)
Lemma stream_spec {A} w path k id seq (wp : nat -> M World StorageError A) payload (Q : A -> Prop) :
  no_faults -> wf_fs (w_fs w) -> with_extension_tmp path <> path ->
  u64_ok id -> u64_ok seq -> bytes_ok payload -> payload <> [] -> 96 + Zlen payload <= U64_MAX ->
  (forall w1 i, beside (with_extension_tmp path) w w1 -> output w1 (with_extension_tmp path) i (replicate 96 0) ->
     exists a w2, wp i w1 = (Ok a, w2) /\ Q a /\ wrote (with_extension_tmp path) w1 w2 /\
       output w2 (with_extension_tmp path) i (replicate 96 0 ++ payload)) ->
  exists a w', write_segment_file_streaming path k id seq wp w = (Ok (header_new k id seq payload, a), w') /\ Q a /\
    files_only w w' /\ moved (path_files path) w w' /\ log_file w' k path id seq payload.
Proof.
  intros Hn Hw Ht Hid Hs Hb Hp Hl Hwp. unfold write_segment_file_streaming. cbv zeta. set (tmp := with_extension_tmp path) in *.
  destruct (ensure_parent_dir_run path w Hn) as (w0 & E0 & F0 & S0 & A0). rewrite (bindM_run _ _ _ _ _ E0).
  unfold bindM at 1, invalidate_append_file at 1, modifyM. set (w1 := w0 <| w_append := _ |>).
  assert (wf_fs (w_fs w1)) as Hw1 by (by eapply (wf_same (w_fs w))).
  destruct (stale_tmp_spec w1 tmp Hn Hw1) as (w2 & E2 & F2 & Fr2 & N2 & Z2). rewrite (bindM_run _ _ _ _ _ E2).
  assert (exists r w3, io_raw (fs_metadata path) w2 = (Ok r, w3) /\ w3 = w2 <| w_fs := w_fs w3 |> /\ same_files (w_fs w2) (w_fs w3))
    as (r & w3 & E3 & F3 & S3).
  { unfold io_raw, tryM, zoomM. unfold fs_metadata, bindM. rewrite io_step_ok by done. unfold getM.
    destruct (file_at _ path); eexists _, _; by split_and!. }
  rewrite (bindM_run _ _ _ _ _ E3).
  assert (wf_fs (w_fs w3)) as Hw3 by (apply (wf_same (w_fs w2)); [done|apply Fr2]).
  assert (beside tmp w w3) as B3.
  { eapply beside_trans; [by apply beside_same|]. eapply (beside_trans _ _ w2); [|apply beside_same; [apply Fr2|done]].
    split; [exact Fr2|exact N2]. }
  destruct (stream_into_spec w3 path tmp k id seq wp payload Q Hn Hw3 Ht) as (a & w4 & E4 & HQ & F4 & M4 & C4 & A4);
    [by destruct S3 as [-> _]|done|intros w' i B O; apply Hwp; [by eapply beside_trans|done]|].
  rewrite (bindM_run (tryM _) _ w3 (Ok (header_new k id seq payload, a)) w4) by (unfold tryM; by rewrite E4).
  exists a, w4. split; [done|]. split_and!; [done|..].
  - assert (files_only w0 w1) as F1 by done. eapply files_only_trans; [exact F0|]. eapply files_only_trans; [exact F1|]. eapply files_only_trans; [|exact F4].
    apply files_only_fs. by rewrite F3, F2.
  - eapply moved_trans; [|exact M4]. apply beside_moved; [done|]. intros q Hq. rewrite F3, F2. cbn.
    rewrite lookup_delete_ne by done. by rewrite A0.
  - split; try done; [apply M4|]. by rewrite A4.
Qed.
End Laws.
