(* ===== verification/Checkpoint.v ===== *)
(** * The checkpoint page and the pending-write counter

    storage/metadata.rs (the checkpoint page, the maintenance preflight and the
    quarantine) and the part of storage/data_path.rs that caches the checkpoint,
    marks a layout dirty or clean and counts the writes since the last flush. *)

From S2P Require Import Prelude Bytes Text Errors Fs Layout TapeState Compression Records.
From S2P Require Import World Crc Segment Footprint.

Definition DEFAULT_SYNC_EVERY_WRITES : Z := 64.
Definition MAX_LIVE_METADATA_ESTIMATE_BYTES : Z := 64 * 1024 * 1024.

Section Ops.
Context `{HOST : Host} `{ENV : Environ} `{C : Crc32c}.

Definition persist_checkpoint_page (path : string) (c : MetadataCheckpoint) : M World StorageError unit :=
  write_segment_file path Metadata (page_id c) (epoch c) (checkpoint_encode c).

Definition load_checkpoint_page (path : string) : M World StorageError MetadataCheckpoint :=
  let! (_, payload) := read_segment_file_bounded path Metadata MAX_MAINTENANCE_METADATA_BYTES in
  liftM (checkpoint_decode payload).

Definition set_checkpoint (path : string) (c : MetadataCheckpoint) : M World StorageError unit :=
  modifyM (fun w => w <| w_checkpoint := <[path := c]> (w_checkpoint w) |>).

Definition load_checkpoint_cached (path : string) : M World StorageError MetadataCheckpoint :=
  let! w := getM in
  match (if trust_hot_cache then w_checkpoint w !! path else None) with
  | Some c => retM c
  | None => let! c := load_checkpoint_page path in set_checkpoint path c ;;! retM c
  end.

Definition persist_checkpoint_cached (path : string) (c : MetadataCheckpoint)
  : M World StorageError unit :=
  persist_checkpoint_page path c ;;! set_checkpoint path c.

(** The checkpoint after it was marked. *)
Definition marked (f : CheckpointFlags) (c : MetadataCheckpoint) : MetadataCheckpoint :=
  c <| epoch := sat_add64 (epoch c) 1 |> <| flags := f |>.

Definition mark_checkpoint_dirty (paths : LayoutPaths) : M World StorageError MetadataCheckpoint :=
  let! c := load_checkpoint_cached (metadata_file paths) in
  if decide (flags c = Clean) then
    let c := marked Dirty c in
    persist_checkpoint_cached (metadata_file paths) c ;;! retM c
  else retM c.

Definition mark_checkpoint_clean (paths : LayoutPaths) : M World StorageError MetadataCheckpoint :=
  let! c := load_checkpoint_cached (metadata_file paths) in
  let c := marked Clean c in
  persist_checkpoint_cached (metadata_file paths) c ;;! retM c.

Definition invalidate_checkpoint_cache (path : string) : M World StorageError unit :=
  modifyM (fun w => w <| w_checkpoint := delete path (w_checkpoint w) |>).

Definition current_checkpoint (paths : LayoutPaths) : M World StorageError MetadataCheckpoint :=
  load_checkpoint_cached (metadata_file paths).

Definition sync_every_writes : Z :=
  match getenv "HOLO_STORAGE_SYNC_EVERY_WRITES" with
  | Some raw => match parse_uint U32_MAX raw with
                | Some value => if decide (0 < value) then value else DEFAULT_SYNC_EVERY_WRITES
                | None => DEFAULT_SYNC_EVERY_WRITES
                end
  | None => DEFAULT_SYNC_EVERY_WRITES
  end.

Definition pending_count (path : string) : M World StorageError Z :=
  let! w := getM in retM (default 0 (w_pending w !! path)).
Definition record_pending_write (path : string) : M World StorageError Z :=
  let! n := pending_count path in
  let next := sat_add32 n 1 in
  modifyM (fun w => w <| w_pending := <[path := next]> (w_pending w) |>) ;;! retM next.
Definition clear_pending_writes (path : string) : M World StorageError unit :=
  modifyM (fun w => w <| w_pending := delete path (w_pending w) |>).

(** [preflight_maintenance_metadata]: the sizes of the files that exist, each and
    together within the budget; six times their total is the memory estimate. *)
Fixpoint metadata_total (paths : list string) (total : Z) : M World StorageError Z :=
  match paths with
  | [] => retM total
  | p :: ps =>
      let! r := io_raw (fs_metadata p) in
      match r with
      | Err e => if decide (io_kind e = KNotFound) then metadata_total ps total else failM (SIo e)
      | Ok (len, _) =>
          if decide (MAX_MAINTENANCE_METADATA_BYTES < len) then failM MetadataBudgetExceeded
          else let! total := liftM (ok_or (checked_add64 total len) MetadataBudgetExceeded) in
               metadata_total ps total
      end
  end.
Definition preflight_maintenance_metadata (paths : list string) : M World StorageError unit :=
  let! total := metadata_total paths 0 in
  let! estimate := liftM (ok_or (if decide (total * 6 <= U64_MAX) then Some (total * 6) else None)
                            MetadataBudgetExceeded) in
  if decide (MAX_MAINTENANCE_METADATA_BYTES < total \/ MAX_LIVE_METADATA_ESTIMATE_BYTES < estimate)
  then failM MetadataBudgetExceeded else retM tt.

(** The page is moved aside under a name that carries the time in seconds. *)
Definition quarantine_invalid_metadata (path : string) : M World StorageError string :=
  let! there := path_exists path in
  if there then
    let! w := getM in
    let target := path +:+ ".quarantine." +:+ show_string (clock (fs_tick (w_fs w)) / 1000000000) in
    io (fs_rename path target) ;;! retM target
  else failM (SNotFound "metadata path missing").
End Ops.

(** ** The page and its cache *)
Lemma length_checkpoint_encode c : length (checkpoint_encode c) = 44%nat.
Proof. unfold checkpoint_encode. rewrite length_app, length_checkpoint_body. len_solve. Qed.
Lemma checkpoint_encode_ok c : bytes_ok (checkpoint_encode c).
Proof.
  unfold checkpoint_encode, checkpoint_body, bytes_ok. cbn zeta. rewrite !Forall_app.
  split_and!; try apply to_le_ok; [by destruct (flags c); repeat constructor|].
  apply Forall_replicate. unfold u8_ok. lia.
Qed.
Lemma marked_wf f c : wf_checkpoint c -> wf_checkpoint (marked f c).
Proof. unfold wf_checkpoint, marked, u64_ok, sat_add64; cbn. lia. Qed.

Section Laws.
Context `{HOST : Host} `{ENV : Environ} `{CL : Crc32cLaws}.

Record cp_state (w : World) (path : string) (c : MetadataCheckpoint) : Prop := {
  cp_file : log_file w Metadata path (page_id c) (epoch c) (checkpoint_encode c);
  cp_wf : wf_checkpoint c;
  cp_cache : forall c', w_checkpoint w !! path = Some c' -> c' = c
}.

Definition cp_only (w w' : World) : Prop :=
  w' = w <| w_fs := w_fs w' |> <| w_append := w_append w' |> <| w_known_dirs := w_known_dirs w' |>
         <| w_checkpoint := w_checkpoint w' |>.

Lemma load_checkpoint_spec w path c :
  no_faults -> cp_state w path c ->
  exists w', load_checkpoint_cached path w = (Ok c, w') /\ cp_only w w' /\
    w_append w' = w_append w /\ same_files (w_fs w) (w_fs w') /\ cp_state w' path c.
Proof.
  intros Hn [HL Hw Hc]. unfold load_checkpoint_cached, bindM at 1, getM.
  destruct (if trust_hot_cache then _ else _) as [c'|] eqn:E.
  { destruct trust_hot_cache; [|done]. rewrite (Hc _ E). exists w.
    split_and!; try done. by destruct w. }
  assert (96 + Zlen (checkpoint_encode c) <= MAX_MAINTENANCE_METADATA_BYTES) as Hb.
  { unfold Zlen. rewrite length_checkpoint_encode. done. }
  unfold load_checkpoint_page.
  destruct (read_bounded_ok w Metadata path _ _ _ _ Hn HL Hb) as (w1 & E1 & F1 & S1).
  unfold bindM at 1. rewrite (bindM_run _ _ _ _ _ E1). unfold liftM. rewrite checkpoint_decode_encode by done.
  eexists. split; [reflexivity|]. split_and!; [by rewrite F1|by rewrite F1|done|]. split; [|done|].
  - apply (log_file_same w); [done|by rewrite F1|done].
  - cbn. intros c'. rewrite lookup_insert_eq. by intros [= <-].
Qed.

Lemma persist_checkpoint_spec w path c :
  no_faults -> wf_fs (w_fs w) -> with_extension_tmp path <> path -> wf_checkpoint c ->
  exists w', persist_checkpoint_cached path c w = (Ok tt, w') /\ cp_only w w' /\
    frame [with_extension_tmp path; path] (w_fs w) (w_fs w') /\ cp_state w' path c.
Proof.
  intros Hn Hw Ht Hc. unfold persist_checkpoint_cached, persist_checkpoint_page.
  destruct (write_segment_log w path Metadata (page_id c) (epoch c) (checkpoint_encode c) Hn Hw Ht)
    as (w1 & E1 & F1 & Fr1 & HL1); [apply Hc..|apply checkpoint_encode_ok| |].
  { unfold Zlen. rewrite length_checkpoint_encode. done. }
  rewrite (bindM_run _ _ _ _ _ E1). eexists. split; [reflexivity|]. split_and!; [|done|].
  - unfold cp_only. rewrite F1. done.
  - split; [|done|].
    + apply (log_file_same w1); done.
    + cbn. intros c'. rewrite lookup_insert_eq. by intros [= <-].
Qed.

Lemma spares_checkpoint q path :
  spares q (load_checkpoint_cached path).
Proof. unfold load_checkpoint_cached, load_checkpoint_page, set_checkpoint. spare. Qed.
Lemma spares_persist_checkpoint q path c :
  q <> path -> q <> with_extension_tmp path -> spares q (persist_checkpoint_cached path c).
Proof. intros. unfold persist_checkpoint_cached, persist_checkpoint_page, set_checkpoint. spare. Qed.

Lemma cp_state_moved w w' ps path c :
  cp_state w path c -> moved ps w w' -> (path ∉ ps) -> w_checkpoint w' !! path = w_checkpoint w !! path ->
  cp_state w' path c.
Proof. intros [H1 H2 H3] HM Hp Hc. split; try done; [by eapply log_file_moved|]. by rewrite Hc. Qed.
End Laws.
