(* ===== verification/Logs.v ===== *)
(** * Record logs

    The block map, the lookup table and the dedup index are logs of fixed-size
    records behind a magic prefix: the last record with an identifier wins, and
    the survivors are sorted.  This file gives the list functions of the
    standard library they use and the decoding they share; [HashOrder] is the
    iteration order of a [HashMap], of which nothing but its elements is known. *)

From S2P Require Import Prelude Bytes Errors Records.

(** ** [slice::sort_by_key] and [slice::partition_point] *)
Section Sorting.
Context {A : Type} (key : A -> Z).

(** A stable sort: an element goes before the equal ones that followed it. *)
Fixpoint insert_by (x : A) (l : list A) : list A :=
  match l with
  | [] => [x]
  | y :: l' => if decide (key x <= key y) then x :: l else y :: insert_by x l'
  end.
Definition sort_by_key (l : list A) : list A := foldr insert_by [] l.

Definition key_le (a b : A) : Prop := key a <= key b.
Definition sorted_by (l : list A) : Prop := StronglySorted key_le l.

Lemma insert_by_perm x l : insert_by x l ≡ₚ x :: l.
Proof.
  induction l as [|y l IH]; simpl; [done|]. case_decide; [done|].
  rewrite IH. apply Permutation_swap.
Qed.
Lemma sort_by_key_perm l : sort_by_key l ≡ₚ l.
Proof. induction l as [|x l IH]; simpl; [done|]. by rewrite insert_by_perm, IH. Qed.

Lemma insert_by_sorted x l : sorted_by l -> sorted_by (insert_by x l).
Proof.
  induction 1 as [|y l Hl IH Hy]; simpl; [repeat constructor|].
  case_decide as Hxy.
  - constructor; [by constructor|]. constructor; [done|].
    eapply Forall_impl; [exact Hy|]. unfold key_le. intros; lia.
  - constructor; [done|]. rewrite insert_by_perm. constructor; [unfold key_le; lia|done].
Qed.
Lemma sort_by_key_sorted l : sorted_by (sort_by_key l).
Proof. induction l; simpl; [constructor|by apply insert_by_sorted]. Qed.

Lemma sorted_app l1 l2 :
  sorted_by (l1 ++ l2) <->
  sorted_by l1 /\ sorted_by l2 /\ (forall a b, a ∈ l1 -> b ∈ l2 -> key a <= key b).
Proof.
  induction l1 as [|x l1 IH]; simpl.
  - split; [intros; split_and!; [constructor|done|set_solver]|tauto].
  - split.
    + intros H. inversion H as [|? ? Hs Hf]; subst. apply IH in Hs as (H1 & H2 & H3).
      rewrite Forall_app in Hf. destruct Hf as [Hf1 Hf2]. split_and!; [by constructor|done|].
      intros a b [->|Ha]%elem_of_cons Hb; [|by eauto].
      rewrite Forall_forall in Hf2. by apply Hf2.
    + intros (H1 & H2 & H3). inversion H1 as [|? ? Hs Hf]; subst. constructor.
      * apply IH. split_and!; [done|done|]. intros; apply H3; set_solver.
      * apply Forall_app. split; [done|]. apply Forall_forall. intros b Hb.
        apply H3; [set_solver|done].
Qed.
End Sorting.

(** On a slice whose elements satisfying [p] come first: their number. *)
Fixpoint partition_point {A} (p : A -> bool) (l : list A) : nat :=
  match l with
  | [] => O
  | x :: l' => if p x then S (partition_point p l') else O
  end.
(** [Vec::insert]. *)
Definition insert_at {A} (i : nat) (x : A) (l : list A) : list A := take i l ++ x :: drop i l.

Lemma partition_point_le {A} (p : A -> bool) l : (partition_point p l <= length l)%nat.
Proof. induction l; simpl; [lia|]. destruct (p a); lia. Qed.

Lemma partition_point_take {A} (p : A -> bool) l x : x ∈ take (partition_point p l) l -> p x = true.
Proof.
  induction l as [|y l IH]; simpl; [set_solver|].
  destruct (p y) eqn:E; simpl; [|set_solver]. intros [->|Hx]%elem_of_cons; auto.
Qed.

(** The rest of a sorted slice fails a downward-closed predicate of the key. *)
Lemma partition_point_drop {A} (key : A -> Z) (p : A -> bool) l x :
  sorted_by key l -> (forall a b, key a <= key b -> p b = true -> p a = true) ->
  x ∈ drop (partition_point p l) l -> p x = false.
Proof.
  intros Hs Hp. induction Hs as [|y l Hl IH Hy]; simpl; [set_solver|].
  destruct (p y) eqn:E; simpl; [auto|].
  intros [->|Hx]%elem_of_cons; [done|]. rewrite Forall_forall in Hy.
  destruct (p x) eqn:E'; [|done]. specialize (Hp y x (Hy x Hx) E'). congruence.
Qed.

Lemma insert_at_perm {A} i (x : A) l : insert_at i x l ≡ₚ x :: l.
Proof.
  unfold insert_at. rewrite <- Permutation_middle. by rewrite take_drop.
Qed.

(** Inserting after the elements with a smaller or equal key keeps the order. *)
Lemma insert_at_sorted {A} (key : A -> Z) x l :
  sorted_by key l ->
  sorted_by key (insert_at (partition_point (fun y => bool_decide (key y <= key x)) l) x l).
Proof.
  intros Hs. set (p := fun y => bool_decide (key y <= key x)). unfold insert_at.
  pose proof Hs as Hs'. rewrite <- (take_drop (partition_point p l) l) in Hs'.
  apply sorted_app in Hs' as (H1 & H2 & H3). apply sorted_app. split_and!; [done| |].
  - constructor; [done|]. apply Forall_forall. intros y Hy.
    apply (partition_point_drop key) in Hy; [|done|].
    + apply bool_decide_eq_false in Hy. unfold key_le. lia.
    + unfold p. intros a b Hab. rewrite !bool_decide_eq_true. lia.
  - intros a b Ha [->|Hb]%elem_of_cons; [|by eauto].
    apply partition_point_take, bool_decide_eq_true in Ha. done.
Qed.

(** ** Replaying a log *)
Class HashOrder : Type := hash_values : forall A : Type, gmap Z A -> list A.
Arguments hash_values {_ A} _.
Class HashOrderLaws `{HO : HashOrder} : Prop :=
  hash_values_perm : forall A (m : gmap Z A), hash_values m ≡ₚ (map_to_list m).*2.

Section Replay.
Context `{HO : HashOrder} {A : Type} (id_of key : A -> Z).

Definition replay (rs : list A) : gmap Z A := foldl (fun m r => <[id_of r := r]> m) ∅ rs.

(** [decode_log_payload] after the version dispatch: the length checks, the
    record budget, the records in order, the survivors sorted. *)
Definition decode_log (name : string) (prefix_len size : nat)
  (decode : list Z -> Result StorageError A) (payload : list Z) : Result StorageError (list A) :=
  if decide (length payload < prefix_len)%nat
  then Err (Corrupt (name +:+ " log payload too short"))
  else
    let body := drop prefix_len payload in
    if decide (length body mod size <> 0)%nat
    then Err (Corrupt (name +:+ " log payload length mismatch"))
    else
      let? _ := checked_metadata_record_count (Z.of_nat (length body / size)) in
      let? rs := rmapM decode (chunks_of size body) in
      Ok (sort_by_key key (hash_values (replay rs))).

(** The records of a legacy payload: a count, then that many records of [size]
    bytes, of which the caller has checked that they are there. *)
Definition decode_counted (size : nat) (decode : list Z -> Result StorageError A) (count : Z)
  (payload : list Z) : Result StorageError (list A) :=
  rmapM decode (take (Z.to_nat count) (chunks_of size (drop 8 payload))).
End Replay.

Section Tracks.
Context {A : Type} (id_of : A -> Z).

Definition keyed (m : gmap Z A) : Prop := forall i r, m !! i = Some r -> id_of r = i.

(** A vector that holds exactly the survivors of a log. *)
Definition tracks (l : list A) (m : gmap Z A) : Prop :=
  NoDup (id_of <$> l) /\ forall r, r ∈ l <-> m !! id_of r = Some r.

Lemma replay_snoc rs r : replay id_of (rs ++ [r]) = <[id_of r := r]> (replay id_of rs).
Proof. unfold replay. by rewrite foldl_app. Qed.

Lemma keyed_insert m r : keyed m -> keyed (<[id_of r := r]> m).
Proof. intros H i x. rewrite lookup_insert_Some. intros [[<- <-]|[_ Hx]]; eauto. Qed.

Lemma replay_keyed rs : keyed (replay id_of rs).
Proof.
  induction rs as [|r rs IH] using rev_ind; [by intros i x|].
  rewrite replay_snoc. by apply keyed_insert.
Qed.

Lemma tracks_nodup l m : tracks l m -> NoDup l.
Proof. intros [H _]. by eapply NoDup_fmap_1. Qed.

Lemma tracks_unique l l' m : tracks l m -> tracks l' m -> l ≡ₚ l'.
Proof.
  intros H H'. apply NoDup_Permutation; [by eapply tracks_nodup..|].
  intros x. destruct H as [_ ->], H' as [_ ->]. done.
Qed.

Lemma tracks_perm l l' m : l ≡ₚ l' -> tracks l m -> tracks l' m.
Proof.
  intros Hp [H1 H2]. split; [by rewrite <- Hp|]. intros r. by rewrite <- Hp.
Qed.

Lemma tracks_new l m r : tracks l m -> m !! id_of r = None -> tracks (r :: l) (<[id_of r := r]> m).
Proof.
  intros [H1 H2] Hn. split.
  - cbn. constructor; [|done]. intros (x & Hx & Hin)%list_elem_of_fmap.
    apply H2 in Hin. congruence.
  - intros x. rewrite elem_of_cons, H2. destruct (decide (id_of x = id_of r)) as [E|E].
    + rewrite E, lookup_insert_eq. split; [intros [->|Hx]; congruence|intros [= ->]; auto].
    + rewrite lookup_insert_ne by done. split; [intros [->|]; done|auto].
Qed.

Lemma tracks_update l1 x l2 y m :
  tracks (l1 ++ x :: l2) m -> id_of y = id_of x ->
  tracks (l1 ++ y :: l2) (<[id_of y := y]> m).
Proof.
  intros Ht E.
  apply (tracks_perm _ (x :: l1 ++ l2)) in Ht; [|symmetry; apply Permutation_middle].
  apply (tracks_perm (y :: l1 ++ l2)); [apply Permutation_middle|].
  destruct Ht as [H1 H2]. cbn in H1. apply NoDup_cons in H1 as [Hx H1]. split.
  - cbn. rewrite E. by constructor.
  - intros z. destruct (decide (id_of z = id_of y)) as [Ez|Ez].
    + rewrite Ez, lookup_insert_eq, elem_of_cons. split; [|intros [= ->]; auto].
      intros [->|Hz]; [done|]. destruct Hx. rewrite <- E, <- Ez. by apply list_elem_of_fmap_2.
    + rewrite lookup_insert_ne, <- H2, !elem_of_cons by done.
      split; intros [->|]; auto; congruence.
Qed.

Lemma tracks_lookup l m i r : tracks l m -> keyed m -> m !! i = Some r -> r ∈ l.
Proof. intros [_ H] Hk Hi. apply H. by rewrite (Hk _ _ Hi). Qed.

Lemma tracks_fresh l m i : tracks l m -> keyed m -> (forall r, r ∈ l -> id_of r <> i) -> m !! i = None.
Proof.
  intros Ht Hk Hf. destruct (m !! i) as [r|] eqn:E; [|done].
  destruct (Hf r); [by eapply tracks_lookup|by apply Hk].
Qed.

Lemma tracks_empty : tracks [] ∅.
Proof. split; [constructor|]. intros r. rewrite lookup_empty. set_solver. Qed.

End Tracks.

(** ** The vector a cache keeps

    [sorted_push]: a record is pushed when that keeps the order and inserted
    after the records with a smaller or equal key otherwise. *)
Section Push.
Context {A : Type} (key : A -> Z).

Definition sorted_push (l : list A) (r : A) : list A :=
  if default true ((fun item => bool_decide (key item <= key r)) <$> last l) then l ++ [r]
  else insert_at (partition_point (fun item => bool_decide (key item <= key r)) l) r l.

Lemma sorted_push_split l r :
  sorted_by key l ->
  exists l1 l2, l = l1 ++ l2 /\ sorted_push l r = l1 ++ r :: l2 /\
    (forall a, a ∈ l1 -> key a <= key r) /\ (forall b, b ∈ l2 -> key r < key b).
Proof.
  intros Hs. unfold sorted_push. destruct (default true _) eqn:E.
  - exists l, []. split_and!; [by rewrite app_nil_r|done| |set_solver]. intros a Ha.
    destruct (last l) as [z|] eqn:L; [|by apply last_None in L as ->; set_solver].
    cbn in E. apply bool_decide_eq_true in E.
    apply last_Some in L as [l' ->]. apply sorted_app in Hs as (_ & _ & Hs).
    apply elem_of_app in Ha as [Ha| ->%list_elem_of_singleton]; [|done].
    specialize (Hs a z Ha ltac:(set_solver)). lia.
  - set (p := fun item => bool_decide (key item <= key r)).
    exists (take (partition_point p l) l), (drop (partition_point p l) l).
    split_and!; [by rewrite take_drop|done| |].
    + intros a Ha. apply partition_point_take in Ha. by apply bool_decide_eq_true in Ha.
    + intros b Hb. apply (partition_point_drop key) in Hb; [|done|].
      * apply bool_decide_eq_false in Hb. lia.
      * unfold p. intros a c Hac. rewrite !bool_decide_eq_true. lia.
Qed.

Lemma sorted_push_perm l r : sorted_by key l -> sorted_push l r ≡ₚ r :: l.
Proof.
  intros Hs. destruct (sorted_push_split l r Hs) as (l1 & l2 & -> & -> & _).
  symmetry. apply Permutation_middle.
Qed.

Lemma sorted_push_sorted l r : sorted_by key l -> sorted_by key (sorted_push l r).
Proof.
  intros Hs. destruct (sorted_push_split l r Hs) as (l1 & l2 & E & -> & H1 & H2).
  rewrite E in Hs. apply sorted_app in Hs as (Hs1 & Hs2 & Hs3). apply sorted_app.
  split_and!; [done| |].
  - constructor; [done|]. apply Forall_forall. intros b Hb. specialize (H2 b Hb). unfold key_le. lia.
  - intros a b Ha [->|Hb]%elem_of_cons; auto.
Qed.
End Push.

(** ** Caches of a log *)
Section Ids.
Context {A : Type} (id_of : A -> Z).

Lemma max_ids_spec (l : list A) r : r ∈ l -> id_of r <= foldr Z.max 0 (map id_of l).
Proof.
  induction l as [|x l IH]; [set_solver|]. cbn. intros [->|H]%elem_of_cons; [lia|].
  specialize (IH H). lia.
Qed.
Lemma max_ids_attained (l : list A) :
  foldr Z.max 0 (map id_of l) = 0 \/ exists r, r ∈ l /\ foldr Z.max 0 (map id_of l) = id_of r.
Proof.
  induction l as [|x l IH]; cbn; [by left|].
  destruct (Z.max_spec (id_of x) (foldr Z.max 0 (map id_of l))) as [[_ ->]|[_ ->]].
  - destruct IH as [->|(r & Hr & ->)]; [by left|right]. exists r. set_solver.
  - right. exists x. set_solver.
Qed.
Lemma replay_in (log : list A) i r : replay id_of log !! i = Some r -> r ∈ log.
Proof.
  revert i r. induction log as [|x log IH] using rev_ind; intros i r; [done|].
  rewrite replay_snoc, lookup_insert_Some. intros [[_ <-]|[_ H]]; [set_solver|].
  apply IH in H. set_solver.
Qed.

End Ids.

Section Cache.
Context {A : Type} (id_of key : A -> Z).

(** A sorted vector of the survivors of a log and an identifier above them. *)
Record log_cache (log records : list A) (next : Z) : Prop := {
  lg_tracks : tracks id_of records (replay id_of log);
  lg_sorted : sorted_by key records;
  lg_next : forall r, r ∈ records -> id_of r < next;
  lg_next_from : next = 1 \/ exists x, x ∈ log /\ next = id_of x + 1
}.

(** The identifier computed when a log is loaded. *)
Lemma log_cache_built log records :
  (forall r, r ∈ log -> id_of r < U64_MAX) ->
  tracks id_of records (replay id_of log) -> sorted_by key records ->
  log_cache log records (sat_add64 (foldr Z.max 0 (map id_of records)) 1).
Proof.
  intros Hids Ht Hs.
  assert (forall r, r ∈ records -> r ∈ log) as Hr.
  { intros r Hin. destruct Ht as [_ Ht]. by apply Ht, replay_in in Hin. }
  assert (sat_add64 (foldr Z.max 0 (map id_of records)) 1 = foldr Z.max 0 (map id_of records) + 1) as ->.
  { unfold sat_add64. destruct (max_ids_attained id_of records) as [->|(x & Hx & ->)]; [lia|].
    specialize (Hids x (Hr x Hx)). lia. }
  split; try done.
  - intros r Hin. pose proof (max_ids_spec id_of _ _ Hin). lia.
  - destruct (max_ids_attained id_of records) as [->|(x & Hx & ->)]; [by left|right; eauto].
Qed.

Lemma log_cache_append log records next r :
  log_cache log records next -> id_of r = next ->
  log_cache (log ++ [r]) (sorted_push key records r) (Z.max next (id_of r + 1)).
Proof.
  intros [Ht Hs Hnx _] Hid. pose proof (sorted_push_perm key _ r Hs) as Hp. split.
  - rewrite replay_snoc. eapply tracks_perm; [symmetry; exact Hp|].
    apply tracks_new; [done|]. eapply tracks_fresh; [done|apply replay_keyed|].
    intros x Hx. specialize (Hnx x Hx). lia.
  - by apply sorted_push_sorted.
  - intros x. rewrite Hp. intros [->|Hx]%elem_of_cons; [lia|]. specialize (Hnx x Hx). lia.
  - right. exists r. split; [set_solver|lia].
Qed.

Lemma log_cache_pos log records next :
  (forall r, r ∈ log -> 0 <= id_of r) -> log_cache log records next -> 1 <= next.
Proof. intros H [_ _ _ [->|(x & Hx & ->)]]; [lia|]. specialize (H x Hx). lia. Qed.
Lemma log_cache_bound log records next :
  (forall r, r ∈ log -> id_of r < U64_MAX - 1) -> log_cache log records next -> next < U64_MAX.
Proof. intros H [_ _ _ [->|(x & Hx & ->)]]; [lia|]. specialize (H x Hx). lia. Qed.
Lemma log_cache_fresh log records next :
  log_cache log records next -> replay id_of log !! next = None.
Proof.
  intros [Ht _ Hn _]. eapply tracks_fresh; [exact Ht|apply replay_keyed|].
  intros r Hr. specialize (Hn r Hr). lia.
Qed.
End Cache.

Lemma starts_with_app pre rest : starts_with pre (pre ++ rest) = true.
Proof. unfold starts_with. by rewrite take_app_length, bool_decide_eq_true_2. Qed.

(** ** Decoding what was encoded *)
Section ReplayLaws.
Context `{HOL : HashOrderLaws} {A : Type} (id_of key : A -> Z).

Lemma tracks_hash m : keyed id_of m -> tracks id_of (hash_values m) m.
Proof.
  intros Hk. apply (tracks_perm id_of ((map_to_list m).*2)); [symmetry; apply hash_values_perm|]. split.
  - assert (id_of <$> (map_to_list m).*2 = (map_to_list m).*1) as ->.
    { rewrite <- list_fmap_compose. apply list_fmap_ext. intros i [j x] Hx. cbn.
      apply Hk. apply elem_of_map_to_list. eapply list_elem_of_lookup_2; eauto. }
    apply NoDup_fst_map_to_list.
  - intros r. rewrite list_elem_of_fmap. split.
    + intros ([j x] & -> & Hx%elem_of_map_to_list). cbn. by rewrite (Hk _ _ Hx).
    + intros Hr. exists (id_of r, r). split; [done|]. by apply elem_of_map_to_list.
Qed.

Context `{RL : RecordCodecLaws A}.

Lemma decode_log_body (name : string) prefix rs :
  Forall rec_wf rs ->
  decode_log id_of key name (length prefix) rec_size rec_decode (prefix ++ encode_all rs) =
  if decide (MAX_MAINTENANCE_METADATA_RECORDS < Zlen rs) then Err MetadataBudgetExceeded
  else Ok (sort_by_key key (hash_values (replay id_of rs))).
Proof.
  intros Hrs. unfold decode_log. rewrite length_app, decide_False by lia.
  rewrite drop_app_length, length_encode_all. pose proof rec_size_pos as Hpos.
  rewrite Nat.Div0.mod_mul, decide_False by tauto. rewrite Nat.div_mul by lia.
  unfold checked_metadata_record_count, Zlen. case_decide; [done|]. cbn [rbind].
  fold (decode_all (A := A) (encode_all rs)). by rewrite decode_all_encode.
Qed.

Lemma decoded_sorted rs : sorted_by key (sort_by_key key (hash_values (replay id_of rs))).
Proof. apply sort_by_key_sorted. Qed.

Lemma decoded_tracks rs :
  tracks id_of (sort_by_key key (hash_values (replay id_of rs))) (replay id_of rs).
Proof.
  eapply tracks_perm; [symmetry; apply sort_by_key_perm|]. apply tracks_hash, replay_keyed.
Qed.
End ReplayLaws.

(** One iteration order, for the examples. *)
Definition tree_order : HashOrder := fun A m => (map_to_list m).*2.
#[export] Instance tree_order_laws : @HashOrderLaws tree_order.
Proof. intros A m. done. Qed.
