(* ===== verification/BlkMap.v ===== *)
(** * The block map (storage/blk_map.rs)

    The log of extents written to a cartridge: each record maps a range of
    logical blocks to a stored blob.  A record is superseded by a later one with
    the same identifier, which is how an extent is marked stale.  The parsed log
    is cached per path and reloaded when the file's length or time changes. *)

From S2P Require Import Prelude Bytes Text Errors Fs Layout TapeState Compression Records.
From S2P Require Import World Crc Segment Footprint Logs.

Definition MAX_RECORDS_PER_SEGMENT : nat := 1024.
Definition LOG_PREFIX_V2 : list Z := bytes_of_string "BMV2".
Definition LOG_PREFIX : list Z := bytes_of_string "BMV3".

Definition is_active (r : BlkMapRecord) : bool := bool_decide (state r = BActive).
(** The record is active and covers the logical block. *)
Definition covers (logical_block : Z) (r : BlkMapRecord) : bool :=
  is_active r && bool_decide (logical_start r <= logical_block)
  && bool_decide (logical_block < logical_end r).

Definition build_record_index (records : list BlkMapRecord) : gmap Z nat :=
  foldl (fun m e => <[record_id e.2 := e.1]> m) ∅ (imap pair records).
Definition next_record_id (records : list BlkMapRecord) : Z :=
  sat_add64 (foldr Z.max 0 (map record_id records)) 1.

Definition encode_log_payload (records : list BlkMapRecord) : list Z :=
  LOG_PREFIX ++ encode_all records.
Definition block_map_log_version (payload : list Z) : Z :=
  if starts_with LOG_PREFIX payload then 3 else if starts_with LOG_PREFIX_V2 payload then 2 else 0.
(** The sequence a rewritten log starts from. *)
Definition rewrite_sequence (records : list BlkMapRecord) : Z :=
  Z.max (Z.of_nat (length records / MAX_RECORDS_PER_SEGMENT)) 1.

Definition decode_legacy_payload (payload : list Z) : Result StorageError (list BlkMapRecord) :=
  if decide (length payload < 8)%nat then Err (Corrupt "blk map payload too short")
  else
    let? count := checked_metadata_record_count (from_le (slice 0 8 payload)) in
    if decide (count = 0) then Ok []
    else
      let remaining := Zlen payload - 8 in
      if decide (remaining < count) then Err (Corrupt "blk map payload truncated")
      else if decide (remaining mod count <> 0) then Err (Corrupt "blk map record size mismatch")
      else
        let size := Z.to_nat (remaining / count) in
        if decide (size <> LEGACY_RECORD_SIZE /\ size <> EXTENDED_RECORD_V2_SIZE)
        then Err (Corrupt "unsupported blk map record size")
        else decode_counted size blk_decode count payload.

Section Decode.
Context `{HO : HashOrder}.

Definition decode_log_payload (payload : list Z) : Result StorageError (list BlkMapRecord) :=
  if starts_with LOG_PREFIX payload
  then decode_log record_id logical_start "blk map" 4 EXTENDED_RECORD_V3_SIZE blk_decode payload
  else if starts_with LOG_PREFIX_V2 payload
  then decode_log record_id logical_start "blk map" 4 EXTENDED_RECORD_V2_SIZE blk_decode payload
  else Err (Corrupt "unsupported blk map log version").

Definition decode_payload (payload : list Z) : Result StorageError (list BlkMapRecord) :=
  if decide (payload = []) then Ok []
  else if starts_with LOG_PREFIX payload || starts_with LOG_PREFIX_V2 payload
  then decode_log_payload payload
  else if starts_with (bytes_of_string "BMV") payload
  then Err (Corrupt "unsupported blk map log version")
  else decode_legacy_payload payload.
End Decode.

Section Ops.
Context `{HOST : Host} `{ENV : Environ} `{C : Crc32c} `{HO : HashOrder}.

Definition set_blk (path : string) (e : CachedBlkMap) : M World StorageError unit :=
  modifyM (fun w => w <| w_blk := <[path := e]> (w_blk w) |>).
Definition cached_blk (path : string) : M World StorageError CachedBlkMap :=
  let! w := getM in liftM (ok_or (w_blk w !! path) (SNotFound "blk map cache not initialized")).
Definition discard_blk_map_cache_checked (path : string) : M World StorageError unit :=
  modifyM (fun w => w <| w_blk := delete path (w_blk w) |>).

Definition ensure_cache_fresh (path : string) : M World StorageError unit :=
  let! w := getM in
  if trust_hot_cache && bool_decide (is_Some (w_blk w !! path)) then retM tt
  else
    let! stamp := file_stamp path in
    let! w := getM in
    if bool_decide ((bc_stamp <$> w_blk w !! path) = Some stamp) then retM tt
    else
      let! (header, payload) := read_segment_file_bounded path BlkMap MAX_MAINTENANCE_METADATA_BYTES in
      let! records := liftM (decode_payload payload) in
      set_blk path (mkCachedBlk stamp (sequence header) records (build_record_index records)
                      (next_record_id records) (block_map_log_version payload)).

Definition load_blk_map_records (path : string) : M World StorageError (Z * list BlkMapRecord) :=
  ensure_cache_fresh path ;;!
  let! e := cached_blk path in retM (bc_sequence e, bc_records e).

Definition locate_active_record (path : string) (logical_block record_id_start record_id_end : Z)
  : M World StorageError (option BlkMapRecord) :=
  ensure_cache_fresh path ;;!
  let! e := cached_blk path in
  let indexed :=
    if decide (record_id_start = record_id_end) then
      match bc_record_index e !! record_id_start with
      | Some i => match bc_records e !! i with
                  | Some r => if covers logical_block r then Some r else None
                  | None => None
                  end
      | None => None
      end
    else None in
  match indexed with
  | Some r => retM (Some r)
  | None =>
      retM (snd <$> list_find (fun r : BlkMapRecord =>
        is_active r /\ record_id_start <= record_id r /\ record_id r <= record_id_end
        /\ logical_start r <= logical_block /\ logical_block < logical_end r) (bc_records e))
  end.

(** The nearest active neighbours of the insertion point decide whether a new
    extent overlaps one that is active. *)
Definition overlaps_active (records : list BlkMapRecord) (r : BlkMapRecord) : bool :=
  let i := partition_point (fun e => bool_decide (logical_start e < logical_start r)) records in
  let previous := list_find is_active (reverse (take i records)) in
  let next := list_find is_active (drop i records) in
  match previous with Some (_, e) => bool_decide (logical_start r < logical_end e) | None => false end
  || match next with Some (_, e) => bool_decide (logical_start e < logical_end r) | None => false end.

(** The cached vector after an append: at the end when that keeps the order. *)
Definition cache_insert (records : list BlkMapRecord) (r : BlkMapRecord) : list BlkMapRecord :=
  sorted_push logical_start records r.
Definition cache_index (e : CachedBlkMap) (r : BlkMapRecord) : gmap Z nat :=
  if default true ((fun item => bool_decide (logical_start item <= logical_start r)) <$> last (bc_records e))
  then <[record_id r := length (bc_records e)]> (bc_record_index e)
  else build_record_index (cache_insert (bc_records e) r).

(** The append once the cache entry [e] is known to be fresh. *)
Definition append_cached (path : string) (record : BlkMapRecord) (e : CachedBlkMap)
  : M World StorageError BlkMapRecord :=
  if overlaps_active (bc_records e) record
  then failM (Conflict "active logical range overlap")
  else
    let! record :=
      (if decide (record_id record = 0) then
         if decide (bc_next_record_id e = U64_MAX)
         then failM (Conflict "blk map record ID space is exhausted")
         else retM (record <| record_id := bc_next_record_id e |>)
       else retM record) in
    (if decide (bc_log_version e <> 3) then
       write_segment_file path BlkMap 2 (rewrite_sequence (bc_records e))
         (encode_log_payload (bc_records e)) ;;!
       ensure_cache_fresh path
     else retM tt) ;;!
    let! header := append_segment_payload path BlkMap 2 LOG_PREFIX (blk_encode record) false in
    let! e := cached_blk path in
    let e := e <| bc_sequence := sequence header |> in
    set_blk path e ;;!
    let! next := liftM (ok_or (checked_add64 (record_id record) 1)
                          (Conflict "blk map record ID space is exhausted")) in
    let e := e <| bc_next_record_id := Z.max (bc_next_record_id e) next |>
               <| bc_record_index := cache_index e record |>
               <| bc_records := cache_insert (bc_records e) record |> in
    set_blk path e ;;!
    let! e := (if trust_hot_cache then retM e
               else let! stamp := file_stamp path in retM (e <| bc_stamp := stamp |>)) in
    set_blk path (e <| bc_log_version := 3 |>) ;;!
    retM record.

Definition append_blk_map_record (path : string) (record : BlkMapRecord)
  : M World StorageError BlkMapRecord :=
  ensure_cache_fresh path ;;!
  let! e := cached_blk path in
  append_cached path record e.

Definition update_cache (path : string) (seq : Z) (records : list BlkMapRecord)
  : M World StorageError unit :=
  let! stamp := file_stamp path in
  set_blk path (mkCachedBlk stamp seq records (build_record_index records)
                  (next_record_id records) 3).

Definition persist_blk_map_records (path : string) (records : list BlkMapRecord)
  : M World StorageError unit :=
  let seq := rewrite_sequence records in
  write_segment_file path BlkMap 2 seq (encode_log_payload records) ;;!
  update_cache path seq records.

Definition ensure_log_format (path : string) (records : list BlkMapRecord)
  : M World StorageError unit :=
  let! (_, payload) := read_segment_file_bounded path BlkMap MAX_MAINTENANCE_METADATA_BYTES in
  if starts_with LOG_PREFIX payload then retM tt else persist_blk_map_records path records.

(** Replace the first record with the identifier of [next]. *)
Fixpoint replace_record (next : BlkMapRecord) (records : list BlkMapRecord) : list BlkMapRecord :=
  match records with
  | [] => []
  | r :: rs => if decide (record_id r = record_id next) then next :: rs
               else r :: replace_record next rs
  end.

Definition mark_blk_map_stale_batch (path : string) (record_ids : list Z)
  : M World StorageError (list BlkMapRecord) :=
  if decide (record_ids = []) then retM []
  else
    let! (_, records) := load_blk_map_records path in
    let target_ids := remove_dups record_ids in
    let updated := (fun r => r <| state := BStale |>) <$>
                     filter (fun r => record_id r ∈ target_ids) records in
    if decide (length updated <> length target_ids)
    then failM (SNotFound "one or more blk map records not found")
    else
      let! header := (ensure_log_format path records ;;!
                      append_segment_payload path BlkMap 2 LOG_PREFIX (encode_all updated) false) in
      let records := foldl (fun rs next => replace_record next rs) records updated in
      update_cache path (sequence header) (sort_by_key logical_start records) ;;!
      retM updated.

Definition mark_blk_map_stale (path : string) (id : Z) : M World StorageError BlkMapRecord :=
  let! updated := mark_blk_map_stale_batch path [id] in
  liftM (ok_or (last updated) (SNotFound "blk map record not found")).

Definition sync_blk_map (path : string) : M World StorageError unit := sync_segment_file path.
End Ops.

(** ** The cached vector as an interval map *)

(** An active extent is never empty. *)
Definition extent (r : BlkMapRecord) : Prop := logical_start r < logical_end r.
(** Active extents are pairwise disjoint, in the order of the vector. *)
Definition disjoint_active (l : list BlkMapRecord) : Prop :=
  StronglySorted (fun a b => is_active a -> is_active b -> logical_end a <= logical_start b) l.
Record blk_inv (l : list BlkMapRecord) : Prop := {
  bi_sorted : sorted_by logical_start l;
  bi_disjoint : disjoint_active l;
  bi_extents : forall r, r ∈ l -> is_active r -> extent r
}.

(** The abstract block map: the active record of a logical block. *)
Definition active_at (l : list BlkMapRecord) (b : Z) : option BlkMapRecord :=
  snd <$> list_find (fun r => covers b r) l.

(** Two extents share a block. *)
Definition overlaps (a b : BlkMapRecord) : Prop :=
  logical_start a < logical_end b /\ logical_start b < logical_end a.

Lemma disjoint_app l1 l2 :
  disjoint_active (l1 ++ l2) <-> disjoint_active l1 /\ disjoint_active l2 /\
  (forall a b, a ∈ l1 -> b ∈ l2 -> is_active a -> is_active b -> logical_end a <= logical_start b).
Proof.
  unfold disjoint_active. induction l1 as [|x l1 IH]; simpl.
  - split; [intros; split_and!; [constructor|done|set_solver]|tauto].
  - split.
    + intros H. inversion H as [|? ? Hs Hf]; subst. apply IH in Hs as (H1 & H2 & H3).
      rewrite Forall_app in Hf. destruct Hf as [Hf1 Hf2]. split_and!; [by constructor|done|].
      intros a b [->|Ha]%elem_of_cons Hb; [|by eauto].
      rewrite Forall_forall in Hf2. by apply Hf2.
    + intros (H1 & H2 & H3). inversion H1 as [|? ? Hs Hf]; subst. constructor.
      * apply IH. split_and!; [done|done|]. intros; apply H3; set_solver.
      * apply Forall_app. split; [done|]. apply Forall_forall. intros b Hb.
        apply H3; [set_solver|done].
Qed.

Lemma find_active_none l x : list_find (fun r => is_active r) l = None -> x ∈ l -> ~ is_active x.
Proof. rewrite list_find_None, Forall_forall. auto. Qed.

(** Every active record ends before the last one, and starts after the first. *)
Lemma last_active_bound l k q e :
  disjoint_active l -> list_find (fun r => is_active r) (reverse l) = Some (k, q) ->
  e ∈ l -> is_active e -> e = q \/ logical_end e <= logical_start q.
Proof.
  intros Hd E Hin Ha. apply list_find_Some in E as (E & Haq & Hf).
  rewrite <- elem_of_reverse in Hin. apply list_elem_of_lookup in Hin as [j Hj].
  destruct (decide (j < k)%nat); [by destruct (Hf _ _ Hj)|].
  destruct (decide (j = k)) as [->|]; [left; congruence|right].
  rewrite <- (reverse_involutive l) in Hd.
  rewrite <- (take_drop_middle _ _ _ Hj), reverse_app, reverse_cons, <- app_assoc in Hd.
  apply disjoint_app in Hd as (_ & Hd & _). apply disjoint_app in Hd as (_ & _ & Hd).
  apply Hd; [set_solver| |done|done]. apply elem_of_reverse.
  apply (list_elem_of_lookup_2 _ k). rewrite lookup_take_lt by lia. exact E.
Qed.

Lemma first_active_bound l k q e :
  sorted_by logical_start l -> list_find (fun r => is_active r) l = Some (k, q) ->
  e ∈ l -> is_active e -> logical_start q <= logical_start e.
Proof.
  intros Hs E Hin Ha. apply list_find_Some in E as (E & Haq & Hf).
  apply list_elem_of_lookup in Hin as [j Hj].
  destruct (decide (j < k)%nat); [by destruct (Hf _ _ Hj)|].
  destruct (decide (j = k)) as [->|]; [simplify_eq; lia|].
  rewrite <- (take_drop_middle _ _ _ E) in Hs. apply sorted_app in Hs as (_ & Hs & _).
  inversion Hs as [|? ? _ Hf2]; subst. rewrite Forall_forall in Hf2. apply Hf2.
  eapply list_elem_of_lookup_2. rewrite lookup_drop.
  replace (S k + (j - S k))%nat with j by lia. exact Hj.
Qed.

(** The insertion point splits a sorted vector by start. *)
Lemma split_by_start l r :
  sorted_by logical_start l ->
  let i := partition_point (fun e => bool_decide (logical_start e < logical_start r)) l in
  (forall x, x ∈ take i l -> logical_start x < logical_start r) /\
  (forall x, x ∈ drop i l -> logical_start r <= logical_start x).
Proof.
  intros Hs i. split; intros x Hx.
  - apply partition_point_take in Hx. by apply bool_decide_eq_true in Hx.
  - apply (partition_point_drop logical_start) in Hx; [|done|].
    + apply bool_decide_eq_false in Hx. lia.
    + intros a b Hab. rewrite !bool_decide_eq_true. lia.
Qed.

(** The nearest active record on either side decides overlap with any of them. *)
Lemma overlaps_active_exact l r :
  blk_inv l -> extent r ->
  overlaps_active l r = true <-> exists e, e ∈ l /\ is_active e /\ overlaps e r.
Proof.
  intros [Hs Hd He] Hr. unfold overlaps_active.
  destruct (split_by_start l r Hs) as [Hlt Hge]. set (i := partition_point _ l) in *.
  assert (forall x, x ∈ l <-> x ∈ take i l \/ x ∈ drop i l) as Hin
    by (intros; rewrite <- (take_drop i l) at 1; apply elem_of_app).
  rewrite <- (take_drop i l) in Hd, Hs.
  apply sorted_app in Hs as (_ & Hs2 & _). apply disjoint_app in Hd as (Hd1 & _ & _).
  unfold overlaps, extent in *. rewrite orb_true_iff. split.
  - intros [H|H].
    + destruct (list_find _ (reverse _)) as [[k e]|] eqn:E; [|done].
      apply bool_decide_eq_true in H. apply list_find_Some in E as (E & Ha & _).
      apply list_elem_of_lookup_2 in E. rewrite elem_of_reverse in E.
      exists e. split_and!; [by apply Hin; left|done| |done]. specialize (Hlt _ E). lia.
    + destruct (list_find _ (drop i l)) as [[k e]|] eqn:E; [|done].
      apply bool_decide_eq_true in H. apply list_find_Some in E as (E & Ha & _).
      apply list_elem_of_lookup_2 in E. assert (e ∈ l) as Hel by (by apply Hin; right).
      exists e. split_and!; [done..|]. specialize (Hge _ E). specialize (He e Hel Ha). lia.
  - intros (e & [Ht|Ht]%Hin & Ha & H1 & H2).
    + left. destruct (list_find _ (reverse _)) as [[k q]|] eqn:E; cycle 1.
      { eapply find_active_none in E; [done|by rewrite elem_of_reverse]. }
      apply bool_decide_eq_true.
      destruct (last_active_bound _ _ _ _ Hd1 E Ht Ha) as [<-|Hq]; [done|].
      apply list_find_Some in E as (E & _). apply list_elem_of_lookup_2 in E.
      rewrite elem_of_reverse in E. specialize (Hlt _ E). lia.
    + right. destruct (list_find _ (drop i l)) as [[k q]|] eqn:E;
        [|by eapply find_active_none in E].
      apply bool_decide_eq_true. pose proof (first_active_bound _ _ _ _ Hs2 E Ht Ha). lia.
Qed.

(** An accepted extent keeps the vector sorted and its active extents disjoint. *)
Lemma cache_insert_inv l r :
  blk_inv l -> is_active r -> extent r -> overlaps_active l r = false -> blk_inv (cache_insert l r).
Proof.
  intros Hinv Har Hr Ho.
  assert (forall e, e ∈ l -> is_active e -> ~ overlaps e r) as Hno.
  { intros e Hin Ha Hov. enough (overlaps_active l r = true) by congruence.
    apply overlaps_active_exact; eauto. }
  destruct Hinv as [Hs Hd He]. destruct (sorted_push_split logical_start l r Hs) as (l1 & l2 & -> & Hc & H1 & H2).
  apply sorted_app in Hs as (Hs1 & Hs2 & Hs3). apply disjoint_app in Hd as (Hd1 & Hd2 & Hd3).
  unfold overlaps, extent in *. unfold cache_insert. rewrite Hc. split.
  - apply sorted_app. split_and!; [done| |].
    + constructor; [done|]. apply Forall_forall. intros b Hb. specialize (H2 b Hb). unfold key_le. lia.
    + intros a b Ha [->|Hb]%elem_of_cons; auto.
  - apply disjoint_app. split_and!; [done| |].
    + constructor; [done|]. apply Forall_forall. intros b Hb _ Hab.
      specialize (H2 b Hb). specialize (Hno b ltac:(set_solver) Hab).
      specialize (He b ltac:(set_solver) Hab). lia.
    + intros a b Ha [->|Hb]%elem_of_cons Haa Hab; [|by auto].
      specialize (H1 a Ha). specialize (Hno a ltac:(set_solver) Haa). lia.
  - intros x Hx. apply elem_of_app in Hx as [Hx|[->|Hx]%elem_of_cons]; [|done|];
      apply He; set_solver.
Qed.

Lemma covers_spec b r :
  covers b r <-> is_active r /\ logical_start r <= b /\ b < logical_end r.
Proof. unfold covers. rewrite !andb_True, !bool_decide_spec. tauto. Qed.

(** At most one active record covers a block. *)
Lemma covers_unique l b x y :
  disjoint_active l -> x ∈ l -> y ∈ l -> covers b x -> covers b y -> x = y.
Proof.
  intros Hd Hx Hy (Hax & Hx1 & Hx2)%covers_spec (Hay & Hy1 & Hy2)%covers_spec.
  induction Hd as [|z l Hd IH Hz]; [set_solver|]. rewrite Forall_forall in Hz.
  apply elem_of_cons in Hx as [->|Hx], Hy as [->|Hy]; auto.
  - specialize (Hz _ Hy Hax Hay). lia.
  - specialize (Hz _ Hx Hay Hax). lia.
Qed.

Lemma active_at_spec l b r :
  disjoint_active l -> active_at l b = Some r <-> r ∈ l /\ covers b r.
Proof.
  intros Hd. unfold active_at. split.
  - destruct (list_find _ l) as [[i x]|] eqn:E; [|done]. intros [= <-].
    apply list_find_Some in E as (E & Hc & _). split; [|done]. by eapply list_elem_of_lookup_2.
  - intros [Hin Hc]. destruct (list_find _ l) as [[i x]|] eqn:E.
    + apply list_find_Some in E as (E & Hc' & _). cbn. f_equal.
      eapply covers_unique; eauto. by eapply list_elem_of_lookup_2.
    + rewrite list_find_None, Forall_forall in E. by destruct (E r Hin).
Qed.

Lemma active_at_insert l r b :
  blk_inv l -> is_active r -> extent r -> overlaps_active l r = false ->
  active_at (cache_insert l r) b = if covers b r then Some r else active_at l b.
Proof.
  intros Hinv Ha Hr Ho. pose proof (cache_insert_inv l r Hinv Ha Hr Ho) as [_ Hd' _].
  pose proof (sorted_push_perm logical_start l r (bi_sorted _ Hinv)) as Hp. destruct Hinv as [_ Hd _].
  destruct (covers b r) eqn:E.
  - apply active_at_spec; [done|]. rewrite Hp. split; [set_solver|by rewrite E].
  - destruct (active_at l b) as [x|] eqn:Ex.
    + apply active_at_spec in Ex as [Hx Hc]; [|done].
      apply active_at_spec; [done|]. rewrite Hp. split; [set_solver|done].
    + destruct (active_at (cache_insert l r) b) as [y|] eqn:Ey; [|done].
      apply active_at_spec in Ey as [Hy Hc]; [|done]. rewrite Hp in Hy.
      apply elem_of_cons in Hy as [->|Hy]; [by rewrite E in Hc|].
      enough (active_at l b = Some y) by congruence. by apply active_at_spec.
Qed.

(** ** Superseding records *)
Lemma replay_app_in (log upd : list BlkMapRecord) r :
  NoDup (record_id <$> upd) -> r ∈ upd -> replay record_id (log ++ upd) !! record_id r = Some r.
Proof.
  induction upd as [|x upd IH] using rev_ind; [set_solver|].
  rewrite fmap_app, NoDup_app, app_assoc, replay_snoc. intros (Hnd & Hdis & _) Hr.
  apply elem_of_app in Hr as [Hr| ->%list_elem_of_singleton]; [|apply lookup_insert_eq].
  rewrite lookup_insert_ne; [by apply IH|]. intros E.
  apply (Hdis (record_id r)); [by apply list_elem_of_fmap_2|]. rewrite <- E. set_solver.
Qed.

Lemma replay_app_notin (log upd : list BlkMapRecord) i :
  i ∉ (record_id <$> upd) -> replay record_id (log ++ upd) !! i = replay record_id log !! i.
Proof.
  induction upd as [|x upd IH] using rev_ind; [by rewrite app_nil_r|].
  rewrite fmap_app, app_assoc, replay_snoc. intros Hi. rewrite lookup_insert_ne by set_solver.
  apply IH. set_solver.
Qed.

Lemma replace_record_split y l :
  (exists x, x ∈ l /\ record_id x = record_id y) ->
  exists l1 x l2, l = l1 ++ x :: l2 /\ record_id x = record_id y /\ replace_record y l = l1 ++ y :: l2.
Proof.
  induction l as [|z l IH]; intros (x & Hx & E); [set_solver|]. cbn. case_decide as Hz.
  - by exists [], z, l.
  - destruct IH as (l1 & x' & l2 & -> & ? & ->).
    { exists x. split; [|done]. apply elem_of_cons in Hx as [->|]; done. }
    by exists (z :: l1), x', l2.
Qed.

Lemma replace_all_tracks upd : forall l log,
  tracks record_id l (replay record_id log) ->
  (forall y, y ∈ upd -> is_Some (replay record_id log !! record_id y)) ->
  tracks record_id (foldl (fun rs next => replace_record next rs) l upd) (replay record_id (log ++ upd)).
Proof.
  induction upd as [|y upd IH]; intros l log Ht Hex; cbn [foldl]; [by rewrite app_nil_r|].
  replace (log ++ y :: upd) with ((log ++ [y]) ++ upd) by (by rewrite <- app_assoc).
  destruct (Hex y ltac:(set_solver)) as [x Hx].
  destruct (replace_record_split y l) as (l1 & z & l2 & -> & Ez & ->).
  { exists x. split; [by eapply tracks_lookup; [done|apply replay_keyed|]|].
    by apply (replay_keyed record_id log). }
  apply IH.
  - rewrite replay_snoc. by eapply tracks_update.
  - intros y' Hy'. rewrite replay_snoc. destruct (decide (record_id y = record_id y')) as [->|].
    + rewrite lookup_insert_eq. eauto.
    + rewrite lookup_insert_ne by done. apply Hex. set_solver.
Qed.

(** The records of a vector with the given identifiers. *)
Lemma filter_ids l m ids :
  tracks record_id l m -> keyed record_id m -> NoDup ids -> (forall i, i ∈ ids -> is_Some (m !! i)) ->
  record_id <$> filter (fun r => record_id r ∈ ids) l ≡ₚ ids.
Proof.
  intros [Hnd Ht] Hk Hids Hex. apply NoDup_Permutation; [|done|].
  - eapply sublist_NoDup; [exact Hnd|]. apply fmap_sublist, sublist_filter.
  - intros i. rewrite list_elem_of_fmap. split.
    + by intros (y & -> & [Hy _]%list_elem_of_filter).
    + intros Hi. destruct (Hex i Hi) as [y Hy]. exists y. rewrite (Hk _ _ Hy).
      split; [done|]. apply list_elem_of_filter. rewrite (Hk _ _ Hy). split; [done|].
      apply Ht. by rewrite (Hk _ _ Hy).
Qed.

(** ** The survivors of a log as an abstract map from blocks to extents *)
Record map_inv (m : gmap Z BlkMapRecord) : Prop := {
  mi_extents : forall i r, m !! i = Some r -> is_active r -> extent r;
  mi_disjoint : forall i j r s, m !! i = Some r -> m !! j = Some s -> i <> j ->
                  is_active r -> is_active s -> ~ overlaps r s
}.
Definition block_at (m : gmap Z BlkMapRecord) (b : Z) (r : BlkMapRecord) : Prop :=
  m !! record_id r = Some r /\ covers b r.

Lemma block_at_unique m b r s :
  map_inv m -> block_at m b r -> block_at m b s -> r = s.
Proof.
  intros [_ Hd] [Hr (Har & Hr1 & Hr2)%covers_spec] [Hs (Has & Hs1 & Hs2)%covers_spec].
  destruct (decide (record_id r = record_id s)) as [E|E]; [congruence|].
  destruct (Hd _ _ _ _ Hr Hs E Har Has). unfold overlaps. lia.
Qed.

Lemma tracks_inv l m :
  map_inv m -> tracks record_id l m -> sorted_by logical_start l -> blk_inv l.
Proof.
  intros [He Hd] [Hnd Ht] Hs. split; [done| |].
  - assert (forall r, r ∈ l -> m !! record_id r = Some r) as Hl by (intros r; by apply (proj1 (Ht r))).
    clear Ht. induction Hs as [|x l Hs IH Hx]; [constructor|]. cbn in Hnd.
    apply NoDup_cons in Hnd as [Hnx Hnd]. constructor; [apply IH; set_solver|].
    rewrite Forall_forall in Hx |- *. intros y Hy Hax Hay.
    assert (m !! record_id x = Some x) as Hmx by (apply Hl; set_solver).
    assert (m !! record_id y = Some y) as Hmy by (apply Hl; set_solver).
    assert (record_id x <> record_id y) as Hne.
    { intros E. apply Hnx. rewrite E. by apply list_elem_of_fmap_2. }
    specialize (Hd _ _ _ _ Hmx Hmy Hne Hax Hay). specialize (Hx y Hy).
    specialize (He _ _ Hmy Hay). unfold overlaps, extent, key_le in *. lia.
  - intros r Hr Har. apply (proj1 (Ht r)) in Hr. by apply (He _ _ Hr).
Qed.

Lemma map_inv_insert m r :
  map_inv m -> m !! record_id r = None -> extent r ->
  (forall i s, m !! i = Some s -> is_active s -> ~ overlaps s r) ->
  map_inv (<[record_id r := r]> m).
Proof.
  intros [He Hd] Hn Hr Hno. split.
  - intros i x. rewrite lookup_insert_Some. intros [[_ <-]|[_ Hx]]; [done|by eauto].
  - intros i j x y. rewrite !lookup_insert_Some.
    intros [[<- <-]|[Hi Hx]] [[<- <-]|[Hj Hy]] Hne Hax Hay; try done.
    + specialize (Hno _ _ Hy Hay). unfold overlaps in *. lia.
    + by apply (Hno _ _ Hx Hax).
    + by apply (Hd _ _ _ _ Hx Hy).
Qed.

Lemma block_at_insert m r b x :
  map_inv m -> m !! record_id r = None ->
  (forall i s, m !! i = Some s -> is_active s -> ~ overlaps s r) ->
  block_at (<[record_id r := r]> m) b x <-> if covers b r then x = r else block_at m b x.
Proof.
  intros Hinv Hn Hno. unfold block_at. rewrite lookup_insert_Some. destruct (covers b r) eqn:E.
  - split.
    + intros [[[_ <-]|[_ Hx]] Hc]; [done|]. exfalso.
      apply covers_spec in Hc as (Hax & ? & ?).
      assert (covers b r) as (_ & ? & ?)%covers_spec by (by rewrite E).
      apply (Hno _ _ Hx Hax). unfold overlaps. lia.
    + intros ->. rewrite E. auto.
  - split.
    + intros [[[_ <-]|[_ Hx]] Hc]; [by rewrite E in Hc|done].
    + intros [Hx Hc]. split; [|done]. right. split; [|done]. intros Hid. congruence.
Qed.

(** ** The log and its cache *)
Section Laws.
Context `{HOST : Host} `{ENV : Environ} `{CL : Crc32cLaws} `{HOL : HashOrderLaws}.

(** A cache entry that agrees with the log. *)
Record cache_ok (seq : Z) (log : list BlkMapRecord) (e : CachedBlkMap) : Prop := {
  co_log : log_cache record_id logical_start log (bc_records e) (bc_next_record_id e);
  co_version : bc_log_version e = 3;
  co_sequence : bc_sequence e = seq
}.
Lemma co_tracks seq log e : cache_ok seq log e -> tracks record_id (bc_records e) (replay record_id log).
Proof. intros H. apply (co_log _ _ _ H). Qed.
Lemma co_sorted seq log e : cache_ok seq log e -> sorted_by logical_start (bc_records e).
Proof. intros H. apply (co_log _ _ _ H). Qed.

(** The file holds the log, and the cache of the path, when there is one, agrees
    with it. *)
Record blk_state (w : World) (path : string) (seq : Z) (log : list BlkMapRecord) : Prop := {
  bs_file : log_file w BlkMap path 2 seq (encode_log_payload log);
  bs_wf : Forall wf_blk log;
  bs_ids : forall r, r ∈ log -> record_id r < U64_MAX;
  bs_cache : forall e, w_blk w !! path = Some e -> cache_ok seq log e
}.

Lemma next_pos seq log e : Forall wf_blk log -> cache_ok seq log e -> 1 <= bc_next_record_id e.
Proof.
  intros Hwf Hok. eapply log_cache_pos; [|apply Hok]. intros r Hr.
  rewrite Forall_forall in Hwf. destruct (Hwf r Hr) as [H _]. unfold u64_ok in H. lia.
Qed.

(** Loading a log within the budget gives its survivors, sorted. *)
Lemma decode_payload_log log :
  Forall wf_blk log ->
  decode_payload (encode_log_payload log) =
  if decide (MAX_MAINTENANCE_METADATA_RECORDS < Zlen log) then Err MetadataBudgetExceeded
  else Ok (sort_by_key logical_start (hash_values (replay record_id log))).
Proof.
  intros Hwf. unfold decode_payload, decode_log_payload, encode_log_payload.
  rewrite decide_False by done. rewrite starts_with_app. cbn [orb].
  exact (decode_log_body record_id logical_start "blk map" LOG_PREFIX log Hwf).
Qed.

(** The entry built from the survivors of a log agrees with it. *)
Lemma built_cache_ok log stamp seq records :
  (forall r, r ∈ log -> record_id r < U64_MAX) ->
  tracks record_id records (replay record_id log) -> sorted_by logical_start records ->
  cache_ok seq log (mkCachedBlk stamp seq records (build_record_index records)
                      (next_record_id records) 3).
Proof. intros Hids Ht Hs. split; [|done..]. by apply log_cache_built. Qed.

Lemma loaded_cache_ok log stamp seq :
  (forall r, r ∈ log -> record_id r < U64_MAX) ->
  let records := sort_by_key logical_start (hash_values (replay record_id log)) in
  cache_ok seq log (mkCachedBlk stamp seq records (build_record_index records)
                      (next_record_id records) (block_map_log_version (encode_log_payload log))).
Proof.
  intros Hids records. unfold block_map_log_version, encode_log_payload. rewrite starts_with_app.
  apply built_cache_ok; [done|apply decoded_tracks|apply decoded_sorted].
Qed.

(** The steps that only read files and refill the cache. *)
Definition blk_only (w w' : World) : Prop :=
  w' = w <| w_fs := w_fs w' |> <| w_blk := w_blk w' |> /\ same_files (w_fs w) (w_fs w').

Lemma blk_state_same w w' path seq log :
  blk_state w path seq log -> blk_only w w' ->
  (forall e, w_blk w' !! path = Some e -> cache_ok seq log e) -> blk_state w' path seq log.
Proof.
  intros [Hf Hwf Hid Hc] [E S] He. split; try done.
  apply (log_file_same w); [done|by rewrite E|done].
Qed.

Lemma ensure_cache_fresh_spec w path seq log :
  no_faults -> blk_state w path seq log -> Zlen log <= MAX_MAINTENANCE_METADATA_RECORDS ->
  exists w' e, ensure_cache_fresh path w = (Ok tt, w') /\ w_blk w' !! path = Some e /\
    cache_ok seq log e /\ blk_state w' path seq log /\ blk_only w w'.
Proof.
  intros Hn HB Hbud. unfold ensure_cache_fresh, bindM at 1, getM.
  destruct (trust_hot_cache && _) eqn:ET.
  { apply andb_true_iff in ET as [_ [e He]%bool_decide_eq_true].
    exists w, e. split_and!; [done..|by apply HB|done|]. split; [by destruct w|done]. }
  clear ET. pose proof HB as [HL Hwf Hids Hcache]. pose proof (lf_contents _ _ _ _ _ _ HL) as Hc.
  destruct (file_stamp_ok w path _ Hn Hc) as (n & w1 & E1 & Hfile & F1 & S1).
  rewrite (bindM_run _ _ _ _ _ E1). unfold bindM at 1.
  assert (blk_only w w1) as B1 by (split; [rewrite F1; done|done]).
  assert (w_blk w1 = w_blk w) as Hblk by (by rewrite F1).
  case_bool_decide as Hst.
  { destruct (w_blk w1 !! path) as [e|] eqn:He; [|done]. exists w1, e.
    split_and!; [done|done|apply Hcache; congruence| |done].
    apply (blk_state_same w); [done..|]. intros e' He'. apply Hcache. congruence. }
  assert (log_file w1 BlkMap path 2 seq (encode_log_payload log)) as HL1
    by (apply (log_file_same w); [done|by rewrite F1|done]).
  assert (96 + Zlen (encode_log_payload log) <= MAX_MAINTENANCE_METADATA_BYTES) as Hb.
  { unfold encode_log_payload, Zlen, MAX_MAINTENANCE_METADATA_BYTES,
      MAX_MAINTENANCE_METADATA_RECORDS in *. rewrite length_app, length_encode_all.
    change (length LOG_PREFIX) with 4%nat. cbn [rec_size BlkMapRecord_codec].
    unfold EXTENDED_RECORD_V3_SIZE. lia. }
  destruct (read_bounded_ok w1 BlkMap path 2 seq _ _ Hn HL1 Hb) as (w2 & E2 & F2 & S2).
  rewrite (bindM_run _ _ _ _ _ E2). unfold bindM at 1, liftM.
  rewrite decode_payload_log, decide_False by (done || lia).
  eexists _, _. split; [reflexivity|]. cbn [w_blk].
  pose proof (loaded_cache_ok log (mkStamp (Zlen (i_data n)) (i_mtime n))
    (sequence (header_new BlkMap 2 seq (encode_log_payload log))) Hids) as Hok.
  assert (blk_only w2 (w2 <| w_blk := <[path := mkCachedBlk (mkStamp (Zlen (i_data n)) (i_mtime n))
    (sequence (header_new BlkMap 2 seq (encode_log_payload log)))
    (sort_by_key logical_start (hash_values (replay record_id log)))
    (build_record_index (sort_by_key logical_start (hash_values (replay record_id log))))
    (next_record_id (sort_by_key logical_start (hash_values (replay record_id log))))
    (block_map_log_version (encode_log_payload log))]> (w_blk w2) |>)) as B2 by (by destruct w2).
  assert (blk_only w1 w2) as B12 by (split; [rewrite F2; done|done]).
  split_and!; [apply lookup_insert_eq|done| |].
  - apply (blk_state_same w2); [|done|].
    + apply (blk_state_same w1); [|done|].
      * apply (blk_state_same w); [done..|]. rewrite Hblk. done.
      * rewrite F2. cbn. rewrite Hblk. done.
    + cbn. intros e'. rewrite lookup_insert_eq. by intros [= <-].
  - split; [rewrite F2, F1; done|]. cbn. eapply same_files_trans; eauto.
Qed.

Lemma blk_encode_ok r : bytes_ok (blk_encode r).
Proof.
  unfold blk_encode, bytes_ok. rewrite !Forall_app. split_and!; try apply to_le_ok.
  - by destruct (state r); repeat constructor.
  - by destruct (compression r); repeat constructor.
  - by destruct (payload_checksum_algorithm r); repeat constructor.
Qed.

Lemma encode_log_snoc log r : encode_log_payload (log ++ [r]) = encode_log_payload log ++ blk_encode r.
Proof.
  unfold encode_log_payload. rewrite encode_all_app, app_assoc. f_equal.
Qed.


(** The steps of an append may also change the log file and its handle. *)
Definition blk_touch (path : string) (w w' : World) : Prop :=
  w' = w <| w_fs := w_fs w' |> <| w_append := w_append w' |> <| w_known_dirs := w_known_dirs w' |>
         <| w_blk := w_blk w' |> /\ frame [path] (w_fs w) (w_fs w').

Definition with_id (r : BlkMapRecord) (e : CachedBlkMap) : BlkMapRecord :=
  r <| record_id := bc_next_record_id e |>.

Lemma cache_ok_append seq seq' log e r e' :
  cache_ok seq log e -> record_id r = bc_next_record_id e ->
  bc_records e' = cache_insert (bc_records e) r ->
  bc_next_record_id e' = Z.max (bc_next_record_id e) (record_id r + 1) ->
  bc_log_version e' = 3 -> bc_sequence e' = seq' -> cache_ok seq' (log ++ [r]) e'.
Proof.
  intros [Hl _ _] Hid Hrec Hnext Hv' Hs'. split; [|done..]. rewrite Hrec, Hnext. by apply log_cache_append.
Qed.

Lemma append_cached_spec w path seq log e r :
  no_faults -> blk_state w path seq log -> w_blk w !! path = Some e -> record_id r = 0 ->
  overlaps_active (bc_records e) r = false -> bc_next_record_id e < U64_MAX ->
  wf_blk (with_id r e) -> log_room seq (encode_log_payload log) (blk_encode (with_id r e)) ->
  exists w' e', append_cached path r e w = (Ok (with_id r e), w') /\ w_blk w' !! path = Some e' /\
    bc_records e' = cache_insert (bc_records e) (with_id r e) /\
    blk_state w' path (seq + 1) (log ++ [with_id r e]) /\ blk_touch path w w'.
Proof.
  intros Hn HB He H0 Ho Hnx Hwf Hroom. pose proof HB as [HL Hwl Hids Hc].
  pose proof (Hc _ He) as Hok. pose proof (co_version _ _ _ Hok) as Hv.
  pose proof (next_pos _ _ _ Hwl Hok) as Hnr.
  unfold append_cached. rewrite Ho, decide_True by done. rewrite decide_False by lia.
  rewrite (bindM_run _ _ w (with_id r e) w) by done. rewrite decide_False by (rewrite Hv; lia).
  rewrite (bindM_run _ _ w tt w) by done. set (r' := with_id r e) in *.
  destruct (append_log_spec w BlkMap path 2 seq (encode_log_payload log) 2 LOG_PREFIX
    (blk_encode r') false Hn HL) as (w1 & E1 & F1 & Fr1 & HL1); try done; [apply blk_encode_ok|].
  rewrite (bindM_run _ _ _ _ _ E1). rewrite <- encode_log_snoc in HL1.
  assert (w_blk w1 !! path = Some e) as He1 by (rewrite F1; exact He).
  rewrite (bindM_run (cached_blk path) _ w1 e w1)
    by (unfold cached_blk, bindM, getM, liftM; by rewrite He1).
  set (h := header_new _ _ _ _). unfold set_blk at 1, bindM at 1, modifyM.
  assert (record_id r' = bc_next_record_id e) as Hid by done.
  unfold checked_add64. rewrite decide_True by lia. cbn [ok_or]. unfold bindM at 1, liftM.
  unfold set_blk at 1, bindM at 1, modifyM.
  match goal with |- context [bindM (if trust_hot_cache then retM ?x else _)] => set (e1 := x) end.
  match goal with |- context [bindM (if trust_hot_cache then _ else _) _ ?x] => set (w2 := x) end.
  assert (log_file w2 BlkMap path 2 (seq + 1) (encode_log_payload (log ++ [r']))) as HL2
    by (apply (log_file_same w1); done).
  assert (exists e2 w3, (if trust_hot_cache then retM e1
     else let! stamp := file_stamp path in retM (e1 <| bc_stamp := stamp |>)) w2 = (Ok e2, w3) /\
     bc_records e2 = bc_records e1 /\ bc_next_record_id e2 = bc_next_record_id e1 /\
     bc_sequence e2 = bc_sequence e1 /\ w3 = w2 <| w_fs := w_fs w3 |> /\ same_files (w_fs w2) (w_fs w3)) 
     as (e2 & w3 & E3 & R3 & N3 & Q3 & F3 & S3).
  { destruct trust_hot_cache; [exists e1, w2; by destruct w2|].
    destruct (file_stamp_ok w2 path _ Hn (lf_contents _ _ _ _ _ _ HL2)) as (n & w3 & E3 & _ & F3 & S3).
    eexists _, w3. rewrite (bindM_run _ _ _ _ _ E3). by split_and!. }
  rewrite (bindM_run _ _ _ _ _ E3). eexists _, _. split; [reflexivity|].
  cbn [w_blk]. split_and!; [apply lookup_insert_eq|cbn; by rewrite R3| |].
  - assert (cache_ok (seq + 1) (log ++ [r']) (e2 <| bc_log_version := 3 |>)) as Hok'.
    { by apply (cache_ok_append seq (seq + 1) log e r'). }
    split.
    + apply (log_file_same w2); [done|by rewrite F3|done].
    + apply Forall_app; split; [done|by constructor].
    + intros x [Hx| ->%list_elem_of_singleton]%elem_of_app; [by apply Hids|lia].
    + cbn. rewrite lookup_insert_eq. by intros ? [= <-].
  - split; [rewrite F3; unfold w2; rewrite F1; done|]. cbn. eapply frame_same; [|exact S3]. exact Fr1.
Qed.

(** Locating a block through any range of identifiers that includes its extent's
    finds that extent, whatever the record index holds. *)
Lemma locate_active_spec w path seq log b r lo hi :
  no_faults -> blk_state w path seq log -> Zlen log <= MAX_MAINTENANCE_METADATA_RECORDS ->
  map_inv (replay record_id log) -> block_at (replay record_id log) b r -> lo <= record_id r <= hi ->
  exists w', locate_active_record path b lo hi w = (Ok (Some r), w') /\
    blk_state w' path seq log /\ blk_only w w'.
Proof.
  intros Hn HB Hbud Hinv Hb Hid.
  destruct (ensure_cache_fresh_spec w path seq log Hn HB Hbud) as (w1 & e & E1 & He & Hok & HB1 & B1).
  unfold locate_active_record. rewrite (bindM_run _ _ _ _ _ E1).
  rewrite (bindM_run (cached_blk path) _ w1 e w1)
    by (unfold cached_blk, bindM, getM, liftM; by rewrite He).
  exists w1. split; [|done].
  assert (forall s, s ∈ bc_records e -> covers b s -> s = r) as Hu.
  { intros s Hs Hc. eapply block_at_unique; [exact Hinv| |exact Hb]. split; [|done].
    by apply (proj1 (proj2 (co_tracks _ _ _ Hok) s)). }
  assert (r ∈ bc_records e) as Hr.
  { destruct Hb as [Hr _]. by apply (proj2 (proj2 (co_tracks _ _ _ Hok) r)). }
  set (p := fun s : BlkMapRecord => is_active s /\ lo <= record_id s /\ record_id s <= hi /\
    logical_start s <= b /\ b < logical_end s).
  assert (snd <$> list_find p (bc_records e) = Some r) as Hfind.
  { destruct (list_find_elem_of p (bc_records e) r Hr) as [[i s] Hs].
    - destruct Hb as [_ (Ha & Hb1 & Hb2)%covers_spec]. unfold p. tauto.
    - rewrite Hs. apply list_find_Some in Hs as (Hi & (Ha & _ & _ & Hb1 & Hb2) & _). cbn. f_equal.
      apply Hu; [by eapply list_elem_of_lookup_2|by apply covers_spec]. }
  case_match eqn:Ei; [|by rewrite Hfind].
  case_decide; [|done]. destruct (bc_record_index e !! lo) as [i|]; [|done].
  destruct (bc_records e !! i) as [s|] eqn:Es; [|done]. destruct (covers b s) eqn:Ec; [|done].
  injection Ei as <-. rewrite (Hu s); [done|by eapply list_elem_of_lookup_2|by rewrite Ec].
Qed.

(** A process that has just started has no cache of the log. *)
Lemma blk_state_fresh w path seq log :
  blk_state w path seq log -> blk_state (fresh_process (w_fs w)) path seq log.
Proof.
  intros [[? ? ? ? ? ? ?] ? ? ?]. split; done.
Qed.

(** A cache entry whose stamp is that of the file is used as it is. *)
Lemma ensure_cache_hit w path e n :
  no_faults -> w_blk w !! path = Some e -> file_at (w_fs w) path = Some n ->
  bc_stamp e = mkStamp (Zlen (i_data n)) (i_mtime n) ->
  exists w', ensure_cache_fresh path w = (Ok tt, w') /\
    w' = w <| w_fs := w_fs w' |> /\ same_files (w_fs w) (w_fs w').
Proof.
  intros Hn He Hf Hst. unfold ensure_cache_fresh, bindM at 1, getM. rewrite He.
  destruct (trust_hot_cache && _); [exists w; by destruct w|].
  destruct (file_stamp_ok w path (i_data n) Hn) as (n' & w1 & E1 & Hf' & F1 & S1);
    [unfold contents; by rewrite Hf|].
  rewrite (bindM_run _ _ _ _ _ E1). unfold bindM at 1. exists w1.
  assert (w_blk w1 !! path = Some e) as He1 by (by rewrite F1).
  rewrite He1, bool_decide_eq_true_2; [done|]. cbn. rewrite Hst. congruence.
Qed.

Lemma load_over_budget w path seq log :
  no_faults -> blk_state w path seq log -> MAX_MAINTENANCE_METADATA_RECORDS < Zlen log ->
  fst (load_blk_map_records path (fresh_process (w_fs w))) = Err MetadataBudgetExceeded.
Proof.
  intros Hn HB%blk_state_fresh Hbud. set (w0 := fresh_process (w_fs w)) in *.
  pose proof HB as [HL Hwf _ _]. pose proof (lf_contents _ _ _ _ _ _ HL) as Hc.
  unfold load_blk_map_records, ensure_cache_fresh, bindM at 1. unfold bindM at 1, getM.
  change (w_blk w0) with (∅ : gmap string CachedBlkMap). rewrite lookup_empty.
  rewrite (bool_decide_eq_false_2 (is_Some _)) by (by intros [? ?]). rewrite andb_false_r.
  destruct (file_stamp_ok w0 path _ Hn Hc) as (n & w1 & E1 & _ & F1 & S1).
  rewrite (bindM_run _ _ _ _ _ E1). unfold bindM at 1.
  assert (w_blk w1 !! path = None) as He1 by (by rewrite F1).
  rewrite He1. rewrite bool_decide_eq_false_2 by done.
  assert (log_file w1 BlkMap path 2 seq (encode_log_payload log)) as HL1
    by (apply (log_file_same w0); [done|by rewrite F1|done]).
  destruct (decide (96 + Zlen (encode_log_payload log) <= MAX_MAINTENANCE_METADATA_BYTES)) as [Hb|Hb].
  - destruct (read_bounded_ok w1 BlkMap path 2 seq _ _ Hn HL1 Hb) as (w2 & E2 & _).
    rewrite (bindM_run _ _ _ _ _ E2). unfold bindM at 1, liftM.
    by rewrite decode_payload_log, decide_True by done.
  - pose proof (read_bounded_over w1 BlkMap path MAX_MAINTENANCE_METADATA_BYTES _ Hn
      (lf_contents _ _ _ _ _ _ HL1)) as Ho.
    unfold bindM at 1. destruct (read_segment_file_bounded _ _ _ w1) as [res w2]. cbn [fst] in Ho.
    rewrite Ho; [done|]. unfold Zlen. rewrite length_segment_bytes. unfold Zlen in Hb. lia.
Qed.

Lemma encode_log_app log upd :
  encode_log_payload (log ++ upd) = encode_log_payload log ++ encode_all upd.
Proof. unfold encode_log_payload. by rewrite encode_all_app, app_assoc. Qed.

Lemma encode_all_ok (l : list BlkMapRecord) : bytes_ok (encode_all l).
Proof.
  unfold encode_all. induction l; cbn; [constructor|]. apply Forall_app. split; [apply blk_encode_ok|done].
Qed.

Lemma payload_in_budget (log : list BlkMapRecord) :
  Zlen log <= MAX_MAINTENANCE_METADATA_RECORDS ->
  96 + Zlen (encode_log_payload log) <= MAX_MAINTENANCE_METADATA_BYTES.
Proof.
  unfold encode_log_payload, Zlen, MAX_MAINTENANCE_METADATA_BYTES, MAX_MAINTENANCE_METADATA_RECORDS.
  rewrite length_app, length_encode_all. change (length LOG_PREFIX) with 4%nat.
  cbn [rec_size BlkMapRecord_codec]. unfold EXTENDED_RECORD_V3_SIZE. lia.
Qed.

Lemma update_cache_spec w path seq log records :
  no_faults -> log_file w BlkMap path 2 seq (encode_log_payload log) -> Forall wf_blk log ->
  (forall r, r ∈ log -> record_id r < U64_MAX) ->
  tracks record_id records (replay record_id log) -> sorted_by logical_start records ->
  exists w', update_cache path seq records w = (Ok tt, w') /\ blk_state w' path seq log /\ blk_only w w'.
Proof.
  intros Hn HL Hwf Hids Ht Hs.
  destruct (file_stamp_ok w path _ Hn (lf_contents _ _ _ _ _ _ HL)) as (n & w1 & E1 & _ & F1 & S1).
  unfold update_cache. rewrite (bindM_run _ _ _ _ _ E1). eexists. split; [reflexivity|]. split.
  - split; try done.
    + apply (log_file_same w); [done|by rewrite F1|done].
    + cbn. intros e. rewrite lookup_insert_eq. intros [= <-]. by apply built_cache_ok.
  - split; [rewrite F1; done|done].
Qed.

Lemma length_remove_dups (l : list Z) : (length (remove_dups l) <= length l)%nat.
Proof. induction l as [|x l IH]; cbn; [lia|]. destruct (decide_rel _ _ _); cbn; lia. Qed.

(** The superseding records of a stale mark. *)
Definition stale_of (m : gmap Z BlkMapRecord) (ids : list Z) (upd : list BlkMapRecord) : Prop :=
  record_id <$> upd ≡ₚ ids /\
  (forall y, y ∈ upd -> exists x, m !! record_id y = Some x /\ y = x <| state := BStale |>).

(** Checking the format of a log and appending superseding records to it. *)
Lemma append_stale_spec w path seq log upd :
  no_faults -> blk_state w path seq log -> Zlen log <= MAX_MAINTENANCE_METADATA_RECORDS ->
  upd <> [] -> Zlen upd <= U32_MAX -> integrity32 (encode_log_payload log) <> 0 -> seq < U64_MAX ->
  forall records, exists w', (ensure_log_format path records ;;!
      append_segment_payload path BlkMap 2 LOG_PREFIX (encode_all upd) false) w =
      (Ok (header_new BlkMap 2 (seq + 1) (encode_log_payload (log ++ upd))), w') /\
    files_only w w' /\ log_file w' BlkMap path 2 (seq + 1) (encode_log_payload (log ++ upd)) /\
    frame [path] (w_fs w) (w_fs w').
Proof.
  intros Hn HB Hbud Hne Hl Hsum Hseq records. pose proof (bs_file _ _ _ _ HB) as HL.
  destruct (read_bounded_ok w BlkMap path 2 seq _ _ Hn HL (payload_in_budget log Hbud))
    as (w1 & E1 & F1 & S1).
  assert (ensure_log_format path records w = (Ok tt, w1)) as EF.
  { unfold ensure_log_format. rewrite (bindM_run _ _ _ _ _ E1). unfold encode_log_payload.
    by rewrite starts_with_app. }
  rewrite (bindM_run _ _ _ _ _ EF).
  assert (log_file w1 BlkMap path 2 seq (encode_log_payload log)) as HL1
    by (apply (log_file_same w); [done|by rewrite F1|done]).
  assert (encode_all upd <> []) as Hen.
  { intros E. apply (f_equal length) in E. rewrite length_encode_all in E. destruct upd; [done|].
    cbn in E. unfold EXTENDED_RECORD_V3_SIZE in E. lia. }
  destruct (append_log_spec w1 BlkMap path 2 seq (encode_log_payload log) 2 LOG_PREFIX (encode_all upd) false
    Hn HL1) as (w2 & E2 & F2 & Fr2 & HL2); try done; [apply encode_all_ok| |].
  { split_and!; [done..|]. pose proof (payload_in_budget log Hbud).
    unfold Zlen, MAX_MAINTENANCE_METADATA_BYTES in *. rewrite (length_encode_all upd).
    cbn [rec_size BlkMapRecord_codec]. unfold EXTENDED_RECORD_V3_SIZE. lia. }
  rewrite <- encode_log_app in E2, HL2. exists w2. split_and!; [done| |done|].
  - apply (files_only_trans _ w1); [rewrite F1; done|done].
  - destruct Fr2 as [W2 Fr2]. split; [done|]. intros q Hq. rewrite Fr2 by done. by apply contents_same.
Qed.

Lemma mark_stale_spec w path seq log ids :
  no_faults -> blk_state w path seq log -> Zlen log <= MAX_MAINTENANCE_METADATA_RECORDS ->
  ids <> [] -> (forall i, i ∈ ids -> is_Some (replay record_id log !! i)) ->
  integrity32 (encode_log_payload log) <> 0 -> seq < U64_MAX -> Zlen ids <= U32_MAX ->
  exists w' upd, mark_blk_map_stale_batch path ids w = (Ok upd, w') /\
    stale_of (replay record_id log) (remove_dups ids) upd /\
    blk_state w' path (seq + 1) (log ++ upd) /\ blk_touch path w w'.
Proof.
  intros Hn HB Hbud Hne Hex Hsum Hseq Hlen. set (m := replay record_id log) in *.
  destruct (ensure_cache_fresh_spec w path seq log Hn HB Hbud) as (w1 & e & E1 & He & Hok & HB1 & B1).
  unfold mark_blk_map_stale_batch. rewrite decide_False by done.
  assert (load_blk_map_records path w = (Ok (bc_sequence e, bc_records e), w1)) as EL.
  { unfold load_blk_map_records. rewrite (bindM_run _ _ _ _ _ E1).
    unfold cached_blk, bindM, getM, liftM. by rewrite He. }
  rewrite (bindM_run _ _ _ _ _ EL). set (l := bc_records e) in *. set (tids := remove_dups ids) in *.
  set (sel := filter (fun r => record_id r ∈ tids) l). set (upd := (fun r => r <| state := BStale |>) <$> sel).
  assert (record_id <$> upd = record_id <$> sel) as Eid.
  { unfold upd. rewrite <- list_fmap_compose. by apply list_fmap_ext. }
  assert (record_id <$> upd ≡ₚ tids) as Hperm.
  { rewrite Eid. apply (filter_ids l m); [apply Hok|apply replay_keyed|apply NoDup_remove_dups|].
    intros i Hi. apply Hex. by apply elem_of_remove_dups. }
  assert (stale_of m tids upd) as Hstale.
  { split; [done|]. intros y (x & -> & [_ Hx]%list_elem_of_filter)%list_elem_of_fmap.
    exists x. split; [|done]. exact (proj1 (proj2 (co_tracks _ _ _ Hok) x) Hx). }
  assert (length upd = length tids) as Hl by (by rewrite <- (length_fmap record_id), Hperm).
  rewrite decide_False by tauto.
  destruct (append_stale_spec w1 path seq log upd Hn HB1 Hbud) with (records := l) as (w2 & E2 & F2 & HL2 & Fr2); try done.
  { intros ->. cbn in Hl. destruct ids as [|i ids]; [done|].
    assert (i ∈ tids) as Hi by (apply elem_of_remove_dups; set_solver).
    destruct tids; [set_solver|done]. }
  { assert (length tids <= length ids)%nat by apply length_remove_dups. unfold Zlen in *. lia. }
  rewrite (bindM_run _ _ _ _ _ E2).
  assert (forall y, y ∈ upd -> is_Some (m !! record_id y)) as Hupd
    by (intros y Hy; destruct (proj2 Hstale y Hy) as (x & -> & _); eauto).
  set (records := sort_by_key logical_start (foldl (fun rs next => replace_record next rs) l upd)).
  assert (tracks record_id records
    (replay record_id (log ++ upd))) as Ht.
  { eapply tracks_perm; [symmetry; apply sort_by_key_perm|]. apply replace_all_tracks; [apply Hok|done]. }
  destruct (update_cache_spec w2 path (seq + 1) (log ++ upd) records Hn HL2) as (w3 & E3 & HB3 & B3);
    [| |exact Ht|apply sort_by_key_sorted|].
  - apply Forall_app. split; [apply HB|]. apply Forall_forall. intros y Hy.
    destruct (proj2 Hstale y Hy) as (x & Hx & ->). apply (replay_in record_id log) in Hx.
    pose proof (bs_wf _ _ _ _ HB) as Hwf. rewrite Forall_forall in Hwf. by apply (Hwf x).
  - intros r [Hr|Hr]%elem_of_app; [by apply HB|].
    destruct (proj2 Hstale r Hr) as (x & Hx & ->). apply (replay_in record_id log) in Hx. exact (bs_ids _ _ _ _ HB x Hx).
  - exists w3, upd. cbn [sequence header_new]. rewrite (bindM_run _ _ _ _ _ E3).
    split_and!; [done..|]. destruct B1 as [B1 S1], B3 as [B3 S3].
    split; [rewrite B3, F2, B1; done|]. eapply frame_same; [|exact S3].
    destruct Fr2 as [W2 Fr2]. split; [done|]. intros q Hq. rewrite Fr2 by done. by apply contents_same.
Qed.

(** The map after a stale mark: the same identifiers, the marked ones stale. *)
Definition staled (m m' : gmap Z BlkMapRecord) (ids : list Z) : Prop :=
  forall i r, m' !! i = Some r <->
    ((i ∉ ids) /\ m !! i = Some r) \/ (i ∈ ids /\ exists x, m !! i = Some x /\ r = x <| state := BStale |>).

Lemma stale_replay log ids upd :
  stale_of (replay record_id log) ids upd -> NoDup ids ->
  dom (replay record_id (log ++ upd)) = dom (replay record_id log) /\
  staled (replay record_id log) (replay record_id (log ++ upd)) ids.
Proof.
  intros [Hp Hs] Hnd. set (m := replay record_id log) in *. set (m' := replay record_id (log ++ upd)).
  assert (NoDup (record_id <$> upd)) as Hnu by (by rewrite Hp).
  assert (staled m m' ids) as Hst.
  { intros i r. destruct (decide (i ∈ ids)) as [Hi|Hi].
    - assert (i ∈ (record_id <$> upd)) as Hiu by (by rewrite Hp).
      apply list_elem_of_fmap in Hiu as (y & -> & Hy). destruct (Hs y Hy) as (x & Hx & Ey).
      unfold m'. rewrite (replay_app_in log upd y Hnu Hy). split.
      + intros [= <-]. right. eauto.
      + intros [[? _]|(_ & x' & Hx' & ->)]; [done|]. congruence.
    - unfold m'. rewrite (replay_app_notin log upd i) by (by rewrite Hp). fold m.
      split; [auto|]. intros [[_ ?]|[? _]]; done. }
  split; [|done]. apply set_eq. intros i. rewrite !elem_of_dom. unfold is_Some. split.
  - intros [r Hr]. apply Hst in Hr as [[_ Hr]|(_ & x & Hx & _)]; eauto.
  - intros [r Hr]. destruct (decide (i ∈ ids)); [eexists|exists r]; apply Hst; [right; eauto|left; eauto].
Qed.

Lemma stale_map_inv m m' ids : map_inv m -> staled m m' ids -> map_inv m'.
Proof.
  intros [He Hd] Hs. assert (forall i r, m' !! i = Some r -> is_active r -> m !! i = Some r) as Hact.
  { intros i r Hr Ha. apply Hs in Hr as [[_ Hr]|(_ & x & _ & ->)]; [done|]. by unfold is_active in Ha. }
  split; [eauto|]. intros i j r s Hr Hs' Hne Har Has. apply (Hd i j); auto.
Qed.

Lemma stale_block_at m m' ids b x :
  staled m m' ids -> block_at m' b x <-> block_at m b x /\ (record_id x ∉ ids).
Proof.
  intros Hs. unfold block_at. split.
  - intros [Hx Hc]. apply Hs in Hx as [[? Hx]|(_ & y & _ & E)]; [done|].
    apply covers_spec in Hc as [Ha _]. rewrite E in Ha. by unfold is_active in Ha.
  - intros [[Hx Hc] Hi]. split; [|done]. apply Hs. by left.
Qed.

Lemma mark_stale_missing w w1 path seq log e ids i :
  ensure_cache_fresh path w = (Ok tt, w1) -> w_blk w1 !! path = Some e -> cache_ok seq log e ->
  ids <> [] -> i ∈ ids -> replay record_id log !! i = None ->
  mark_blk_map_stale_batch path ids w = (Err (SNotFound "one or more blk map records not found"), w1).
Proof.
  intros E1 He Hok Hne Hi Hnone. unfold mark_blk_map_stale_batch. rewrite decide_False by done.
  assert (load_blk_map_records path w = (Ok (bc_sequence e, bc_records e), w1)) as EL.
  { unfold load_blk_map_records. rewrite (bindM_run _ _ _ _ _ E1).
    unfold cached_blk, bindM, getM, liftM. by rewrite He. }
  rewrite (bindM_run _ _ _ _ _ EL). rewrite decide_True; [done|]. rewrite length_fmap.
  set (sel := filter _ (bc_records e)).
  assert (record_id <$> sel ⊆+ remove_dups ids) as Hsub.
  { apply NoDup_submseteq.
    - eapply sublist_NoDup; [apply (co_tracks _ _ _ Hok)|]. apply fmap_sublist, sublist_filter.
    - intros j (y & -> & [Hy _]%list_elem_of_filter)%list_elem_of_fmap. done. }
  intros Hlen. rewrite <- (length_fmap record_id) in Hlen.
  apply submseteq_length_Permutation in Hsub; [|lia].
  assert (i ∈ (record_id <$> sel)) as (y & Ey & [_ Hy]%list_elem_of_filter)%list_elem_of_fmap
    by (rewrite Hsub; by apply elem_of_remove_dups).
  apply (proj2 (co_tracks _ _ _ Hok)) in Hy. congruence.
Qed.
(** The limits within which an append is exact. *)
Record blk_room (seq : Z) (log : list BlkMapRecord) : Prop := {
  br_budget : Zlen log <= MAX_MAINTENANCE_METADATA_RECORDS;
  br_inv : map_inv (replay record_id log);
  br_ids : forall x, x ∈ log -> record_id x < U64_MAX - 1;
  br_sum : integrity32 (encode_log_payload log) <> 0;
  br_seq : seq < U64_MAX
}.

(** An extent that shares a block with an active one is refused. *)
Lemma append_blk_overlap w path seq log r i s :
  no_faults -> blk_state w path seq log -> blk_room seq log -> extent r ->
  replay record_id log !! i = Some s -> is_active s -> overlaps s r ->
  exists w', append_blk_map_record path r w = (Err (Conflict "active logical range overlap"), w') /\
    blk_state w' path seq log /\ blk_only w w'.
Proof.
  intros Hn HB [Hbud Hinv _ _ _] Hr Hs Has Hov.
  destruct (ensure_cache_fresh_spec w path seq log Hn HB Hbud) as (w1 & e & E1 & He & Hok & HB1 & B1).
  pose proof (tracks_inv _ _ Hinv (co_tracks _ _ _ Hok) (co_sorted _ _ _ Hok)) as Hbi.
  unfold append_blk_map_record. rewrite (bindM_run _ _ _ _ _ E1).
  rewrite (bindM_run (cached_blk path) _ w1 e w1)
    by (unfold cached_blk, bindM, getM, liftM; by rewrite He).
  exists w1. split; [|done]. unfold append_cached.
  replace (overlaps_active (bc_records e) r) with true; [done|]. symmetry.
  apply (overlaps_active_exact _ r Hbi Hr). exists s. split; [|done].
  apply (proj2 (proj2 (co_tracks _ _ _ Hok) s)). by rewrite (replay_keyed record_id log _ _ Hs).
Qed.

(** Any other extent is appended under a fresh identifier. *)
Lemma append_blk_ok w path seq log r :
  no_faults -> blk_state w path seq log -> blk_room seq log ->
  record_id r = 0 -> is_active r -> extent r -> (forall id, u64_ok id -> wf_blk (r <| record_id := id |>)) ->
  (forall i s, replay record_id log !! i = Some s -> is_active s -> ~ overlaps s r) ->
  exists w' r', append_blk_map_record path r w = (Ok r', w') /\
    r' = r <| record_id := record_id r' |> /\ u64_ok (record_id r') /\
    replay record_id log !! record_id r' = None /\
    blk_state w' path (seq + 1) (log ++ [r']) /\ blk_touch path w w'.
Proof.
  intros Hn HB [Hbud Hinv Hids Hsum Hseq] H0 Ha Hr Hwf Hno.
  destruct (ensure_cache_fresh_spec w path seq log Hn HB Hbud) as (w1 & e & E1 & He & Hok & HB1 & B1).
  pose proof (tracks_inv _ _ Hinv (co_tracks _ _ _ Hok) (co_sorted _ _ _ Hok)) as Hbi.
  unfold append_blk_map_record. rewrite (bindM_run _ _ _ _ _ E1).
  rewrite (bindM_run (cached_blk path) _ w1 e w1)
    by (unfold cached_blk, bindM, getM, liftM; by rewrite He).
  assert (overlaps_active (bc_records e) r = false) as Ho.
  { apply not_true_iff_false. rewrite (overlaps_active_exact _ r Hbi Hr). intros (s & Hs & Has & Hov).
    apply (proj1 (proj2 (co_tracks _ _ _ Hok) s)) in Hs. by apply (Hno _ _ Hs). }
  assert (1 <= bc_next_record_id e < U64_MAX) as Hnx.
  { pose proof (next_pos _ _ _ (bs_wf _ _ _ _ HB) Hok).
    pose proof (log_cache_bound _ _ _ _ _ Hids (co_log _ _ _ Hok)). lia. }
  assert (wf_blk (with_id r e)) as Hwr by (apply Hwf; unfold u64_ok; lia).
  destruct (append_cached_spec w1 path seq log e r Hn HB1 He H0 Ho)
    as (w2 & e2 & E2 & He2 & _ & HB2 & [T2 F2]); [lia|done| |].
  { pose proof (payload_in_budget log Hbud) as Hb. split_and!; [done..|]. unfold Zlen in *.
    rewrite length_blk_encode. unfold EXTENDED_RECORD_V3_SIZE, MAX_MAINTENANCE_METADATA_BYTES in *. lia. }
  exists w2, (with_id r e). rewrite E2.
  split; [done|]. split; [done|]. split; [unfold u64_ok; cbn; lia|]. split_and!; [|done|].
  - apply (log_cache_fresh _ _ _ _ _ (co_log _ _ _ Hok)).
  - destruct B1 as [B1 S1]. split; [rewrite T2, B1; done|].
    apply (frame_trans _ _ (w_fs w1)); [|done]. apply frame_of_same; [apply HB|done].
Qed.

(** ** Beside other files *)
Lemma spares_ensure_blk q path : spares q (ensure_cache_fresh path).
Proof. unfold ensure_cache_fresh, set_blk. spare. Qed.
#[local] Hint Resolve spares_ensure_blk : spare.
Lemma spares_append_blk q path r :
  q <> path -> q <> with_extension_tmp path -> spares q (append_blk_map_record path r).
Proof. intros. unfold append_blk_map_record, cached_blk, append_cached, set_blk. spare. Qed.
Lemma spares_locate_blk q path b lo hi : spares q (locate_active_record path b lo hi).
Proof. unfold locate_active_record, cached_blk. spare. Qed.

Lemma blk_state_moved w w' ps path seq log :
  blk_state w path seq log -> moved ps w w' -> (path ∉ ps) -> w_blk w' !! path = w_blk w !! path ->
  blk_state w' path seq log.
Proof.
  intros [H1 H2 H3 H4] HM Hp Hc. split; try done; [by eapply log_file_moved|]. by rewrite Hc.
Qed.
End Laws.

(** * Theorems *)
Section Theorems.
Context `{HOST : Host} `{ENV : Environ} `{CL : Crc32cLaws} `{HOL : HashOrderLaws}.

(** C9: appending an extent to the block map implements insertion into a map
    from logical blocks to extents: an extent that shares a block with an active
    one is refused and the log stays as it was; any other is appended under a
    fresh identifier, exactly its blocks are redirected to it, active extents
    stay pairwise disjoint, and no other file changes. *)
Theorem append_extent_refines w path seq log r :
  no_faults -> blk_state w path seq log -> Zlen log <= MAX_MAINTENANCE_METADATA_RECORDS ->
  map_inv (replay record_id log) -> (forall x, x ∈ log -> record_id x < U64_MAX - 1) ->
  record_id r = 0 -> is_active r -> extent r -> (forall id, u64_ok id -> wf_blk (r <| record_id := id |>)) ->
  integrity32 (encode_log_payload log) <> 0 -> seq < U64_MAX ->
  let m := replay record_id log in
  ((exists i s, m !! i = Some s /\ is_active s /\ overlaps s r) ->
   exists w', append_blk_map_record path r w = (Err (Conflict "active logical range overlap"), w') /\
     blk_state w' path seq log) /\
  ((forall i s, m !! i = Some s -> is_active s -> ~ overlaps s r) ->
   exists w' r', append_blk_map_record path r w = (Ok r', w') /\
     r' = r <| record_id := record_id r' |> /\ m !! record_id r' = None /\
     blk_state w' path (seq + 1) (log ++ [r']) /\
     let m' := replay record_id (log ++ [r']) in
     map_inv m' /\
     (forall b x, block_at m' b x <-> if covers b r' then x = r' else block_at m b x) /\
     (forall q, q <> path -> contents (w_fs w') q = contents (w_fs w) q)).
Proof.
  intros Hn HB Hbud Hinv Hids H0 Ha Hr Hwf Hsum Hseq m.
  assert (blk_room seq log) as Hroom by done. split.
  - intros (i & s & Hs & Has & Hov).
    destruct (append_blk_overlap w path seq log r i s Hn HB Hroom Hr Hs Has Hov) as (w' & ? & ? & _). eauto.
  - intros Hno. destruct (append_blk_ok w path seq log r Hn HB Hroom H0 Ha Hr Hwf Hno)
      as (w' & r' & E & Er & _ & Hfresh & HB' & [_ [_ F]]).
    assert (is_active r' /\ extent r' /\ forall s, overlaps s r' <-> overlaps s r) as (Ha' & Hr' & Ho')
      by (by rewrite Er).
    assert (forall i s, m !! i = Some s -> is_active s -> ~ overlaps s r') as Hno'
      by (intros i s; rewrite Ho'; apply Hno).
    exists w', r'. cbv zeta. rewrite replay_snoc. split_and!; try done.
    + by apply map_inv_insert.
    + intros b x. by apply block_at_insert.
    + intros q Hq. apply F. set_solver.
Qed.

(** C10: marking extents stale removes exactly their blocks from the map: every
    other block keeps its extent, the invariant is kept, nothing is forgotten
    (the records survive as stale), and no other file changes; an unknown
    identifier is refused and the log stays as it was. *)
Theorem mark_stale_refines w path seq log ids :
  no_faults -> blk_state w path seq log -> Zlen log <= MAX_MAINTENANCE_METADATA_RECORDS ->
  map_inv (replay record_id log) -> ids <> [] -> Zlen ids <= U32_MAX ->
  integrity32 (encode_log_payload log) <> 0 -> seq < U64_MAX ->
  let m := replay record_id log in
  ((exists i, i ∈ ids /\ m !! i = None) ->
   exists w', mark_blk_map_stale_batch path ids w =
       (Err (SNotFound "one or more blk map records not found"), w') /\ blk_state w' path seq log) /\
  ((forall i, i ∈ ids -> is_Some (m !! i)) ->
   exists w' upd, mark_blk_map_stale_batch path ids w = (Ok upd, w') /\
     blk_state w' path (seq + 1) (log ++ upd) /\
     let m' := replay record_id (log ++ upd) in
     map_inv m' /\ dom m' = dom m /\
     (forall b x, block_at m' b x <-> block_at m b x /\ (record_id x ∉ ids)) /\
     (forall q, q <> path -> contents (w_fs w') q = contents (w_fs w) q)).
Proof.
  intros Hn HB Hbud Hinv Hne Hlen Hsum Hseq m. split.
  - intros (i & Hi & Hnone).
    destruct (ensure_cache_fresh_spec w path seq log Hn HB Hbud) as (w1 & e & E1 & He & Hok & HB1 & _).
    exists w1. split; [|done]. by apply (mark_stale_missing w w1 path seq log e ids i).
  - intros Hex.
    destruct (mark_stale_spec w path seq log ids Hn HB Hbud Hne Hex Hsum Hseq Hlen)
      as (w' & upd & E & Hst & HB' & [_ [_ Fr]]).
    exists w', upd. destruct (stale_replay log _ _ Hst (NoDup_remove_dups ids)) as (Hd & Hl).
    cbv zeta. split_and!; [done|done| |done| |intros q Hq; apply Fr; set_solver].
    + by apply (stale_map_inv m _ (remove_dups ids)).
    + intros b x. rewrite <- (elem_of_remove_dups ids). by apply stale_block_at.
Qed.

(** C26: a restarted process loads exactly what the running one had cached: the
    last record of every identifier, sorted by logical position. *)
Theorem blk_map_reload w path seq log :
  no_faults -> blk_state w path seq log -> Zlen log <= MAX_MAINTENANCE_METADATA_RECORDS ->
  exists l w', load_blk_map_records path (fresh_process (w_fs w)) = (Ok (seq, l), w') /\
    sorted_by logical_start l /\ tracks record_id l (replay record_id log) /\
    (forall e, w_blk w !! path = Some e -> l ≡ₚ bc_records e).
Proof.
  intros Hn HB Hbud.
  destruct (ensure_cache_fresh_spec _ path seq log Hn (blk_state_fresh _ _ _ _ HB) Hbud)
    as (w' & e & E & He & Hok & _).
  exists (bc_records e), w'. unfold load_blk_map_records. rewrite (bindM_run _ _ _ _ _ E).
  unfold cached_blk, bindM, getM, liftM. rewrite He. cbn. rewrite (co_sequence _ _ _ Hok).
  split_and!; [done|apply Hok|apply Hok|].
  intros e' He'. apply (tracks_unique record_id _ _ (replay record_id log)); [apply Hok|].
  by apply (bs_cache _ _ _ _ HB).
Qed.

(** C33: appends are not bounded but loading is: once the log holds 65,536
    records a further append still succeeds, and from then on no restarted
    process can load the block map. *)
Theorem blk_map_budget_lockout w path seq log e n r :
  no_faults -> blk_state w path seq log -> MAX_MAINTENANCE_METADATA_RECORDS <= Zlen log ->
  w_blk w !! path = Some e -> file_at (w_fs w) path = Some n ->
  bc_stamp e = mkStamp (Zlen (i_data n)) (i_mtime n) ->
  record_id r = 0 -> overlaps_active (bc_records e) r = false -> bc_next_record_id e < U64_MAX ->
  wf_blk (with_id r e) -> log_room seq (encode_log_payload log) (blk_encode (with_id r e)) ->
  exists w', append_blk_map_record path r w = (Ok (with_id r e), w') /\
    fst (load_blk_map_records path (fresh_process (w_fs w'))) = Err MetadataBudgetExceeded.
Proof.
  intros Hn HB Hbud He Hf Hst H0 Ho Hnx Hwf Hroom.
  destruct (ensure_cache_hit w path e n Hn He Hf Hst) as (w1 & E1 & F1 & S1).
  assert (blk_only w w1) as B1 by (split; [by rewrite F1|done]).
  assert (w_blk w1 !! path = Some e) as He1 by (by rewrite F1).
  assert (blk_state w1 path seq log) as HB1.
  { apply (blk_state_same w); [done..|]. intros e'. rewrite F1. apply HB. }
  unfold append_blk_map_record. rewrite (bindM_run _ _ _ _ _ E1).
  rewrite (bindM_run (cached_blk path) _ w1 e w1)
    by (unfold cached_blk, bindM, getM, liftM; by rewrite He1).
  destruct (append_cached_spec w1 path seq log e r Hn HB1 He1 H0 Ho Hnx Hwf Hroom)
    as (w2 & e2 & E2 & _ & _ & HB2 & _).
  exists w2. split; [done|]. apply (load_over_budget w2 path (seq + 1) _ Hn HB2).
  unfold Zlen in *. rewrite length_app. cbn. lia.
Qed.
End Theorems.

(** ** Witnesses *)
Definition demo_extent (id start len : Z) : BlkMapRecord :=
  mkBlk id start len 1 0 0 BActive 0 CNone 10 0 PcNone.
Definition demo_log1 : list BlkMapRecord := [demo_extent 1 0 10].
Definition demo_blk : World :=
  snd (write_segment_file (HOST := quiet_host) (C := bitwise_crc32c) demo_path BlkMap 2 1
         (encode_log_payload demo_log1) (fresh_process empty_fs)).

Lemma demo_extent_wf id start len : u64_ok id -> u64_ok start -> u32_ok len -> wf_blk (demo_extent id start len).
Proof. intros. unfold wf_blk, demo_extent; cbn. unfold u64_ok, u32_ok in *. split_and!; lia || done. Qed.

Lemma demo_blk_state : blk_state (C := bitwise_crc32c) demo_blk demo_path 1 demo_log1.
Proof.
  assert (bytes_ok (encode_log_payload demo_log1)) as Hb.
  { apply Forall_app. split; [repeat constructor; done|].
    apply Forall_app; split; [apply blk_encode_ok|constructor]. }
  destruct (write_segment_log (HOST := quiet_host) (CL := bitwise_crc32c_laws) (fresh_process empty_fs)
    demo_path BlkMap 2 1 (encode_log_payload demo_log1)) as (w' & E & F & _ & H).
  - apply quiet_no_faults.
  - apply wf_empty_fs.
  - by vm_compute.
  - by unfold u64_ok.
  - by unfold u64_ok.
  - exact Hb.
  - by vm_compute.
  - unfold demo_blk. rewrite E. cbn [snd]. split.
    + exact H.
    + constructor; [apply demo_extent_wf; unfold u64_ok, u32_ok; lia|constructor].
    + intros r ->%list_elem_of_singleton. by vm_compute.
    + intros e He. rewrite F in He. cbn in He. by rewrite lookup_empty in He.
Qed.

Lemma demo_map_inv : map_inv (replay record_id demo_log1).
Proof.
  split.
  - intros i r. cbn. rewrite lookup_insert_Some, lookup_empty. intros [[_ <-]|[_ ?]]; [|done].
    intros _. by vm_compute.
  - intros i j r s. cbn. rewrite !lookup_insert_Some, !lookup_empty.
    intros [[<- <-]|[_ ?]] [[<- <-]|[_ ?]]; done.
Qed.

Lemma append_extent_refines_witness :
  exists w' r', append_blk_map_record (HOST := quiet_host) (ENV := no_env) (C := bitwise_crc32c)
      (HO := tree_order) demo_path (demo_extent 0 10 5) demo_blk = (Ok r', w') /\
    block_at (replay record_id (demo_log1 ++ [r'])) 12 r' /\
    block_at (replay record_id (demo_log1 ++ [r'])) 3 (demo_extent 1 0 10).
Proof.
  destruct (append_extent_refines (HOST := quiet_host) (ENV := no_env) (CL := bitwise_crc32c_laws)
    (HOL := tree_order_laws) demo_blk demo_path 1 demo_log1 (demo_extent 0 10 5)) as [_ H].
  - done.
  - apply demo_blk_state.
  - done.
  - apply demo_map_inv.
  - intros x ->%list_elem_of_singleton. done.
  - done.
  - done.
  - done.
  - intros id Hid. apply (demo_extent_wf id 10 5); [done|unfold u64_ok, u32_ok; lia..].
  - by vm_compute.
  - done.
  - destruct H as (w' & r' & E & Er & Hf & _ & _ & Hb & _).
    + intros i s. cbn. rewrite lookup_insert_Some, lookup_empty. intros [[_ <-]|[_ ?]]; [|done].
      intros _ [_ H2]. by vm_compute in H2.
    + exists w', r'. split; [done|]. rewrite !Hb. rewrite Er. split; [done|].
      cbn [covers is_active]. split; [|done]. by vm_compute.
Defined.

Lemma blk_map_reload_witness :
  exists l w', load_blk_map_records (HOST := quiet_host) (ENV := no_env) (C := bitwise_crc32c)
      (HO := tree_order) demo_path (fresh_process (w_fs demo_blk)) = (Ok (1, l), w') /\
    tracks record_id l (replay record_id demo_log1).
Proof.
  destruct (blk_map_reload (HOST := quiet_host) (ENV := no_env) (CL := bitwise_crc32c_laws)
    (HOL := tree_order_laws) demo_blk demo_path 1 demo_log1) as (l & w' & E & _ & Ht & _);
    [done|apply demo_blk_state|done|]. exists l, w'. exact (conj E Ht).
Defined.

(** A log of 65,536 versions of one record, under a constant checksum. *)
Definition unit_crc : Crc32c := fun _ _ => 1.
#[export] Instance unit_crc_laws : @Crc32cLaws unit_crc.
Proof. split; [done|]. intros. unfold crc32c_append, unit_crc, u32_ok. lia. Qed.

Definition full_record : BlkMapRecord := demo_extent 1 0 10.
Definition full_log : list BlkMapRecord := replicate (Z.to_nat 65536) full_record.
Definition full_bytes : list Z :=
  segment_bytes (C := unit_crc) (header_new (C := unit_crc) BlkMap 2 1 (encode_log_payload full_log))
    (encode_log_payload full_log).
Definition full_fs : Fs := mkFs {[demo_path := 0%nat]} {[0%nat := mkInode full_bytes 5]} 1 0.
Definition full_entry : CachedBlkMap :=
  mkCachedBlk (mkStamp (Zlen full_bytes) 5) 1 [full_record] {[1 := 0%nat]} 2 3.
Definition full_world : World := (fresh_process full_fs) <| w_blk := {[demo_path := full_entry]} |>.

Lemma full_log_length : Zlen full_log = 65536.
Proof. unfold Zlen, full_log. rewrite length_replicate. lia. Qed.
Lemma full_payload_length : Zlen (encode_log_payload full_log) = 4 + 65536 * 59.
Proof.
  unfold encode_log_payload, Zlen. rewrite length_app, length_encode_all.
  unfold full_log. rewrite length_replicate. change (length LOG_PREFIX) with 4%nat.
  cbn [rec_size BlkMapRecord_codec]. unfold EXTENDED_RECORD_V3_SIZE. lia.
Qed.
Lemma full_payload_ok : bytes_ok (encode_log_payload full_log).
Proof.
  apply Forall_app. split; [repeat constructor; done|]. unfold full_log, encode_all.
  induction (Z.to_nat 65536); cbn [replicate map concat]; [constructor|].
  apply Forall_app. split; [apply blk_encode_ok|done].
Qed.
Lemma replay_replicate n (r : BlkMapRecord) : replay record_id (replicate (S n) r) = {[record_id r := r]}.
Proof.
  induction n as [|n IH]; [done|]. rewrite replicate_S_end, replay_snoc, IH.
  apply insert_singleton_eq.
Qed.

Lemma full_contents : contents full_fs demo_path = Some full_bytes.
Proof. unfold contents, file_at, full_fs; cbn [fs_names fs_inodes]. by rewrite !lookup_singleton_eq. Qed.

Lemma full_state : blk_state (C := unit_crc) full_world demo_path 1 full_log.
Proof.
  split.
  - split; try exact full_payload_ok; try (unfold u64_ok; lia).
    + change (w_fs full_world) with full_fs.
      split_and!; unfold full_fs; cbn [fs_names fs_inodes fs_next].
      * intros p i [<- <-]%lookup_singleton_Some. rewrite lookup_singleton_eq. eauto.
      * intros p q i [<- _]%lookup_singleton_Some [<- _]%lookup_singleton_Some. done.
      * intros i [n Hn]. apply lookup_singleton_Some in Hn as [<- _]. lia.
    + exact full_contents.
    + rewrite full_payload_length. lia.
    + intros st Hst. cbn in Hst. by rewrite lookup_empty in Hst.
  - unfold full_log. apply Forall_replicate. apply demo_extent_wf; unfold u64_ok, u32_ok; lia.
  - intros r Hr. apply elem_of_replicate_inv in Hr as ->. done.
  - intros e He. cbn in He. apply lookup_singleton_Some in He as [_ <-].
    unfold full_log. replace (Z.to_nat 65536) with (S (Z.to_nat 65535)) by lia. split; [split|..].
    + rewrite replay_replicate. cbn [bc_records full_entry].
      rewrite <- (insert_empty (record_id full_record)). apply tracks_new; [apply tracks_empty|done].
    + repeat constructor.
    + intros r ->%list_elem_of_singleton. done.
    + right. exists full_record. split; [|done]. apply elem_of_replicate. split; [done|lia].
    + done.
    + done.
Qed.

Lemma blk_map_budget_lockout_witness :
  exists w', append_blk_map_record (HOST := quiet_host) (ENV := no_env) (C := unit_crc) (HO := tree_order)
      demo_path (demo_extent 0 10 5) full_world = (Ok (demo_extent 2 10 5), w') /\
    fst (load_blk_map_records (HOST := quiet_host) (ENV := no_env) (C := unit_crc) (HO := tree_order)
           demo_path (fresh_process (w_fs w'))) = Err MetadataBudgetExceeded.
Proof.
  apply (blk_map_budget_lockout (HOST := quiet_host) (ENV := no_env) (CL := unit_crc_laws)
    (HO := tree_order) full_world demo_path 1 full_log full_entry (mkInode full_bytes 5)).
  - apply quiet_no_faults.
  - exact full_state.
  - rewrite full_log_length. unfold MAX_MAINTENANCE_METADATA_RECORDS. lia.
  - apply lookup_singleton_eq.
  - change (w_fs full_world) with full_fs. unfold file_at, full_fs; cbn [fs_names fs_inodes].
    by rewrite !lookup_singleton_eq.
  - done.
  - done.
  - by vm_compute.
  - cbn. lia.
  - apply demo_extent_wf; unfold u64_ok, u32_ok; cbn; lia.
  - split_and!; [done|lia|]. rewrite full_payload_length. unfold Zlen. rewrite length_blk_encode.
    unfold EXTENDED_RECORD_V3_SIZE. lia.
Defined.

Lemma mark_stale_refines_witness :
  exists w' upd, mark_blk_map_stale_batch (HOST := quiet_host) (ENV := no_env) (C := bitwise_crc32c)
      (HO := tree_order) demo_path [1] demo_blk = (Ok upd, w') /\
    ~ block_at (replay record_id (demo_log1 ++ upd)) 3 (demo_extent 1 0 10).
Proof.
  destruct (mark_stale_refines (HOST := quiet_host) (ENV := no_env) (CL := bitwise_crc32c_laws)
    (HOL := tree_order_laws) demo_blk demo_path 1 demo_log1 [1]) as [_ H].
  - apply quiet_no_faults.
  - apply demo_blk_state.
  - by vm_compute.
  - apply demo_map_inv.
  - done.
  - by vm_compute.
  - by vm_compute.
  - lia.
  - destruct H as (w' & upd & E & _ & _ & _ & Hb & _).
    + intros i ->%list_elem_of_singleton. by eexists.
    + exists w', upd. split; [exact E|]. rewrite Hb. intros [_ Hi]. by apply Hi, list_elem_of_singleton.
Defined.
