(* ===== verification/MapLookup.v ===== *)
(** * The lookup table (storage/map_lookup.rs)

    An index over the block map: each record gives a range of logical blocks and
    the range of block map identifiers that may hold them.  It can be rebuilt
    from the block map at any time. *)

From S2P Require Import Prelude Bytes Text Errors Fs Layout TapeState Compression Records.
From S2P Require Import World Crc Segment Footprint Logs BlkMap.

Definition LOG_PREFIX : list Z := bytes_of_string "LPV2".

Definition next_lookup_id (records : list MapLookupRecord) : Z :=
  sat_add64 (foldr Z.max 0 (map lookup_id records)) 1.
Definition encode_log_payload (records : list MapLookupRecord) : list Z :=
  LOG_PREFIX ++ encode_all records.

Definition decode_legacy_payload (payload : list Z) : Result StorageError (list MapLookupRecord) :=
  if decide (length payload < 8)%nat then Err (Corrupt "lookup payload too short")
  else
    let? count := checked_metadata_record_count (from_le (slice 0 8 payload)) in
    if decide (sat_sub (Zlen payload) 8 / Z.of_nat LOOKUP_RECORD_SIZE < count)
    then Err (Corrupt "lookup payload truncated")
    else decode_counted LOOKUP_RECORD_SIZE lookup_decode count payload.

(** The record of a block: the last one that starts at or before it, if it
    reaches that far. *)
Definition locate_in (records : list MapLookupRecord) (b : Z) : option MapLookupRecord :=
  let idx := partition_point (fun r => bool_decide (logical_min r <= b)) records in
  if decide (idx = O) then None
  else match records !! (idx - 1)%nat with
       | Some r => if decide (b <= logical_max r) then Some r else None
       | None => None
       end.

(** The lookup records of the active extents, numbered from [id]. *)
Fixpoint rebuild_from (id : Z) (records : list BlkMapRecord)
  : Result StorageError (list MapLookupRecord) :=
  match records with
  | [] => Ok []
  | r :: rs =>
      if is_active r then
        if decide (logical_len r = 0)
        then Err (Corrupt "active blk map record has zero logical length")
        else
          let? max := ok_or (checked_add64 (logical_start r) (logical_len r - 1))
                        (Corrupt "logical range overflow") in
          let? rest := rebuild_from (id + 1) rs in
          Ok (mkLookup id (logical_start r) max (record_id r) (record_id r) :: rest)
      else rebuild_from id rs
  end.

Section Ops.
Context `{HOST : Host} `{ENV : Environ} `{C : Crc32c} `{HO : HashOrder}.

Definition decode_log_payload (payload : list Z) : Result StorageError (list MapLookupRecord) :=
  decode_log lookup_id logical_min "lookup" 4 LOOKUP_RECORD_SIZE lookup_decode payload.
Definition decode_payload (payload : list Z) : Result StorageError (list MapLookupRecord) :=
  if decide (payload = []) then Ok []
  else if starts_with LOG_PREFIX payload then decode_log_payload payload
  else decode_legacy_payload payload.

Definition set_lookup (path : string) (e : CachedLookup) : M World StorageError unit :=
  modifyM (fun w => w <| w_lookup := <[path := e]> (w_lookup w) |>).
Definition cached_lookup (path : string) : M World StorageError CachedLookup :=
  let! w := getM in liftM (ok_or (w_lookup w !! path) (SNotFound "lookup cache not initialized")).
Definition discard_lookup_cache_checked (path : string) : M World StorageError unit :=
  modifyM (fun w => w <| w_lookup := delete path (w_lookup w) |>).

Definition ensure_cache_fresh (path : string) : M World StorageError unit :=
  let! w := getM in
  if trust_hot_cache && bool_decide (is_Some (w_lookup w !! path)) then retM tt
  else
    let! stamp := file_stamp path in
    let! w := getM in
    if bool_decide ((lc_stamp <$> w_lookup w !! path) = Some stamp) then retM tt
    else
      let! (header, payload) := read_segment_file_bounded path Lookup MAX_MAINTENANCE_METADATA_BYTES in
      let! records := liftM (decode_payload payload) in
      set_lookup path (mkCachedLookup stamp (sequence header) records (next_lookup_id records)
                         (starts_with LOG_PREFIX payload)).

Definition load_lookup_records (path : string) : M World StorageError (Z * list MapLookupRecord) :=
  ensure_cache_fresh path ;;!
  let! e := cached_lookup path in retM (lc_sequence e, lc_records e).

Definition cache_insert (records : list MapLookupRecord) (r : MapLookupRecord) : list MapLookupRecord :=
  sorted_push logical_min records r.

Definition append_lookup_record (path : string) (record : MapLookupRecord)
  : M World StorageError MapLookupRecord :=
  ensure_cache_fresh path ;;!
  let! e := cached_lookup path in
  let! record :=
    (if decide (lookup_id record = 0) then
       if decide (lc_next_lookup_id e = U64_MAX)
       then failM (Conflict "lookup ID space is exhausted")
       else retM (record <| lookup_id := lc_next_lookup_id e |>)
     else retM record) in
  (if lc_is_log_format e then retM tt
   else
     write_segment_file path Lookup 3 (Zlen (lc_records e)) (encode_log_payload (lc_records e)) ;;!
     ensure_cache_fresh path) ;;!
  let! header := append_segment_payload path Lookup 3 LOG_PREFIX (lookup_encode record) false in
  let! e := cached_lookup path in
  let e := e <| lc_sequence := sequence header |> in
  set_lookup path e ;;!
  let! next := liftM (ok_or (checked_add64 (lookup_id record) 1)
                        (Conflict "lookup ID space is exhausted")) in
  let e := e <| lc_next_lookup_id := Z.max (lc_next_lookup_id e) next |>
             <| lc_records := cache_insert (lc_records e) record |> in
  set_lookup path e ;;!
  let! e := (if trust_hot_cache then retM e
             else let! stamp := file_stamp path in retM (e <| lc_stamp := stamp |>)) in
  set_lookup path (e <| lc_is_log_format := true |>) ;;!
  retM record.

Definition locate_logical_block (path : string) (logical_block : Z)
  : M World StorageError (option MapLookupRecord) :=
  ensure_cache_fresh path ;;!
  let! e := cached_lookup path in retM (locate_in (lc_records e) logical_block).

Definition update_cache (path : string) (seq : Z) (records : list MapLookupRecord)
  : M World StorageError unit :=
  let! stamp := file_stamp path in
  set_lookup path (mkCachedLookup stamp seq records (next_lookup_id records) true).

Definition persist_lookup_records (path : string) (records : list MapLookupRecord)
  : M World StorageError unit :=
  let seq := Zlen records in
  write_segment_file path Lookup 3 seq (encode_log_payload records) ;;!
  update_cache path seq records.

Definition rebuild_lookup_from_blk_map (blk_map_path lookup_path : string) : M World StorageError Z :=
  let! (_, records) := load_blk_map_records blk_map_path in
  let! rebuilt := liftM (rebuild_from 1 records) in
  persist_lookup_records lookup_path rebuilt ;;!
  retM (Zlen rebuilt).

Definition sync_lookup (path : string) : M World StorageError unit := sync_segment_file path.
End Ops.

(** ** Locating a block *)

(** Non-empty ranges in increasing order. *)
Definition ranges_ok (l : list MapLookupRecord) : Prop :=
  Forall (fun r => logical_min r <= logical_max r) l /\
  StronglySorted (fun a b => logical_max a < logical_min b) l.

Lemma ranges_sorted l : ranges_ok l -> sorted_by logical_min l.
Proof.
  intros [Hne Hs]. induction Hs as [|x l Hs IH Hx]; [constructor|].
  apply Forall_cons in Hne as [Hxne Hne]. constructor; [by apply IH|].
  eapply Forall_impl; [exact Hx|]. cbn. unfold key_le. intros; lia.
Qed.

Lemma last_before_bound l r a :
  ranges_ok l -> last l = Some r -> a ∈ l -> a = r \/ logical_max a < logical_min r.
Proof.
  intros [_ Hs] [l' ->]%last_Some Ha. apply elem_of_app in Ha as [Ha| ->%list_elem_of_singleton]; [|by left].
  right. apply list_elem_of_lookup in Ha as [i Hi]. revert i Hi.
  induction l' as [|x l' IH]; intros i Hi; [done|]. cbn in Hs. inversion Hs as [|? ? Hs' Hf]; subst.
  destruct i; cbn in Hi; [|by eapply IH].
  injection Hi as <-. rewrite Forall_app in Hf. by destruct Hf as [_ [? _]%Forall_cons].
Qed.

Lemma ranges_take l n : ranges_ok l -> ranges_ok (take n l).
Proof.
  intros [H1 H2]. split; [by apply Forall_take|]. revert n.
  induction H2 as [|x l Hs IH Hx]; intros n; [rewrite take_nil; constructor|].
  apply Forall_cons in H1 as [_ H1]. destruct n; cbn; constructor; [by apply IH|by apply Forall_take].
Qed.

(** The binary search finds the range of a block, and nothing else. *)
Lemma locate_in_spec l b r :
  ranges_ok l -> locate_in l b = Some r <-> r ∈ l /\ logical_min r <= b <= logical_max r.
Proof.
  intros Hl. unfold locate_in. set (p := fun r => bool_decide (logical_min r <= b)).
  set (i := partition_point p l). pose proof (partition_point_le p l) as Hle. fold i in Hle.
  assert (forall x, x ∈ take i l -> logical_min x <= b) as Hlow
    by (intros x Hx; apply partition_point_take in Hx; by apply bool_decide_eq_true in Hx).
  assert (forall x, x ∈ drop i l -> b < logical_min x) as Hhigh.
  { intros x Hx. apply (partition_point_drop logical_min) in Hx; [|by apply ranges_sorted|].
    - apply bool_decide_eq_false in Hx. lia.
    - unfold p. intros a c Hac. rewrite !bool_decide_eq_true. lia. }
  case_decide as Hi.
  { split; [done|]. intros [Hr Hb]. rewrite Hi, drop_0 in Hhigh. specialize (Hhigh r Hr). lia. }
  destruct (lookup_lt_is_Some_2 l (i - 1)) as [x Hx]; [lia|]. rewrite Hx.
  assert (last (take i l) = Some x) as Hlast.
  { rewrite last_lookup, length_take, Nat.min_l by lia.
    replace (pred i) with (i - 1)%nat by lia. by rewrite lookup_take_lt by lia. }
  assert (x ∈ take i l) as Hxt by (apply last_Some_elem_of in Hlast; done).
  specialize (Hlow x Hxt) as Hxb. case_decide as Hb.
  - split.
    + intros [= <-]. split; [by eapply list_elem_of_lookup_2|lia].
    + intros [Hr Hrb]. rewrite <- (take_drop i l) in Hr. apply elem_of_app in Hr as [Hr|Hr].
      * destruct (last_before_bound _ _ _ (ranges_take l i Hl) Hlast Hr) as [->|]; [done|lia].
      * specialize (Hhigh r Hr). lia.
  - split; [done|]. intros [Hr Hrb]. exfalso. rewrite <- (take_drop i l) in Hr.
    apply elem_of_app in Hr as [Hr|Hr].
    + destruct (last_before_bound _ _ _ (ranges_take l i Hl) Hlast Hr) as [->|]; lia.
    + specialize (Hhigh r Hr). lia.
Qed.

(** The lookup record of an extent. *)
Definition indexes (lk : MapLookupRecord) (r : BlkMapRecord) : Prop :=
  logical_min lk = logical_start r /\ logical_max lk = logical_start r + logical_len r - 1 /\
  blk_map_ref_start lk = record_id r /\ blk_map_ref_end lk = record_id r.

Lemma rebuild_from_spec records : forall id out,
  rebuild_from id records = Ok out ->
  (forall lk, lk ∈ out -> exists r, r ∈ records /\ is_active r /\ indexes lk r /\
     logical_start r + logical_len r - 1 <= U64_MAX) /\
  (forall r, r ∈ records -> is_active r -> exists lk, lk ∈ out /\ indexes lk r).
Proof.
  induction records as [|x records IH]; intros id out H; cbn in H; [injection H as <-; set_solver|].
  destruct (is_active x) eqn:Ha; cycle 1.
  { destruct (IH _ _ H) as [H1 H2]. split.
    - intros lk Hlk. destruct (H1 lk Hlk) as (r & ? & ?). exists r. set_solver.
    - intros r [->|Hr]%elem_of_cons Har; [by rewrite Ha in Har|by auto]. }
  case_decide as Hz; [done|]. apply rbind_Ok in H as (mx & Hmx & H).
  apply rbind_Ok in H as (rest & Hrest & H). injection H as <-.
  unfold checked_add64 in Hmx. case_decide as Hm; [|done]. injection Hmx as <-.
  destruct (IH _ _ Hrest) as [H1 H2]. split.
  - intros lk [->|Hlk]%elem_of_cons.
    + exists x. split_and!; [set_solver|by rewrite Ha| |lia]. unfold indexes; cbn. split_and!; lia.
    + destruct (H1 lk Hlk) as (r & ? & ?). exists r. set_solver.
  - intros r [->|Hr]%elem_of_cons Har.
    + eexists. split; [by left|]. unfold indexes; cbn. split_and!; lia.
    + destruct (H2 r Hr Har) as (lk & ? & ?). exists lk. set_solver.
Qed.

Lemma rebuild_ranges records : forall id out,
  blk_inv records -> Forall wf_blk records -> rebuild_from id records = Ok out -> ranges_ok out.
Proof.
  induction records as [|x records IH]; intros id out [Hs Hd He] Hwf H; cbn in H.
  { injection H as <-. split; constructor. }
  assert (blk_inv records) as Hinv.
  { inversion Hs; inversion Hd; subst. split; try done. intros; apply He; set_solver. }
  apply Forall_cons in Hwf as [Hwx Hwf].
  destruct (is_active x) eqn:Ha; [|by eapply IH]. case_decide as Hz; [done|].
  apply rbind_Ok in H as (mx & Hmx & H). apply rbind_Ok in H as (rest & Hrest & H). injection H as <-.
  unfold checked_add64 in Hmx. case_decide as Hm; [|done]. injection Hmx as <-.
  destruct (IH _ _ Hinv Hwf Hrest) as [R1 R2]. destruct Hwx as (_ & _ & Hlen & _). unfold u32_ok in Hlen.
  split; constructor; cbn; [lia|done|done|]. apply Forall_forall. intros lk Hlk.
  destruct (rebuild_from_spec _ _ _ Hrest) as [H1 _].
  destruct (H1 lk Hlk) as (r & Hr & Har & (Hmin & _) & _). rewrite Hmin.
  inversion Hd as [|? ? _ Hf]; subst. rewrite Forall_forall in Hf.
  specialize (Hf r Hr ltac:(by rewrite Ha) Har). specialize (He r ltac:(set_solver) Har).
  unfold extent, logical_end, sat_add64 in *. lia.
Qed.

(** ** The log and its cache *)
Section Laws.
Context `{HOST : Host} `{ENV : Environ} `{CL : Crc32cLaws} `{HOL : HashOrderLaws}.

Record lookup_cache_ok (log : list MapLookupRecord) (e : CachedLookup) : Prop := {
  lk_log : log_cache lookup_id logical_min log (lc_records e) (lc_next_lookup_id e);
  lk_format : lc_is_log_format e = true
}.
Record lookup_state (w : World) (path : string) (seq : Z) (log : list MapLookupRecord) : Prop := {
  ls_file : log_file w Lookup path 3 seq (encode_log_payload log);
  ls_wf : Forall wf_lookup log;
  ls_ids : forall r, r ∈ log -> lookup_id r < U64_MAX;
  ls_cache : forall e, w_lookup w !! path = Some e -> lookup_cache_ok log e
}.
Definition lookup_only (w w' : World) : Prop :=
  w' = w <| w_fs := w_fs w' |> <| w_lookup := w_lookup w' |> /\ same_files (w_fs w) (w_fs w').
Definition lookup_touch (path : string) (w w' : World) : Prop :=
  w' = w <| w_fs := w_fs w' |> <| w_append := w_append w' |> <| w_known_dirs := w_known_dirs w' |>
         <| w_lookup := w_lookup w' |> /\ frame [path] (w_fs w) (w_fs w').

Lemma lookup_state_same w w' path seq log :
  lookup_state w path seq log -> lookup_only w w' ->
  (forall e, w_lookup w' !! path = Some e -> lookup_cache_ok log e) -> lookup_state w' path seq log.
Proof.
  intros [Hf Hwf Hid Hc] [E S] He. split; try done.
  apply (log_file_same w); [done|by rewrite E|done].
Qed.

Lemma lookup_budget (log : list MapLookupRecord) :
  Zlen log <= MAX_MAINTENANCE_METADATA_RECORDS ->
  96 + Zlen (encode_log_payload log) <= MAX_MAINTENANCE_METADATA_BYTES.
Proof.
  unfold encode_log_payload, Zlen, MAX_MAINTENANCE_METADATA_BYTES, MAX_MAINTENANCE_METADATA_RECORDS.
  rewrite length_app, length_encode_all. change (length LOG_PREFIX) with 4%nat.
  cbn [rec_size MapLookupRecord_codec]. unfold LOOKUP_RECORD_SIZE. lia.
Qed.

Lemma decode_lookup_log log :
  Forall wf_lookup log -> Zlen log <= MAX_MAINTENANCE_METADATA_RECORDS ->
  decode_payload (encode_log_payload log) =
  Ok (sort_by_key logical_min (hash_values (replay lookup_id log))).
Proof.
  intros Hwf Hb. unfold decode_payload, decode_log_payload, encode_log_payload.
  rewrite decide_False by done. rewrite starts_with_app.
  etransitivity; [exact (decode_log_body lookup_id logical_min "lookup" LOG_PREFIX log Hwf)|].
  by rewrite decide_False by lia.
Qed.

Lemma ensure_lookup_spec w path seq log :
  no_faults -> lookup_state w path seq log -> Zlen log <= MAX_MAINTENANCE_METADATA_RECORDS ->
  exists w' e, ensure_cache_fresh path w = (Ok tt, w') /\ w_lookup w' !! path = Some e /\
    lookup_cache_ok log e /\ lookup_state w' path seq log /\ lookup_only w w'.
Proof.
  intros Hn HB Hbud. unfold ensure_cache_fresh, bindM at 1, getM.
  destruct (trust_hot_cache && _) eqn:ET.
  { apply andb_true_iff in ET as [_ [e He]%bool_decide_eq_true].
    exists w, e. split_and!; [done..|by apply HB|done|]. split; [by destruct w|done]. }
  clear ET. pose proof HB as [HL Hwf Hids Hcache]. pose proof (lf_contents _ _ _ _ _ _ HL) as Hc.
  destruct (file_stamp_ok w path _ Hn Hc) as (n & w1 & E1 & Hfile & F1 & S1).
  rewrite (bindM_run _ _ _ _ _ E1). unfold bindM at 1.
  assert (lookup_only w w1) as B1 by (split; [rewrite F1; done|done]).
  assert (w_lookup w1 = w_lookup w) as Hblk by (by rewrite F1).
  assert (lookup_state w1 path seq log) as HB1
    by (apply (lookup_state_same w); [done..|]; rewrite Hblk; done).
  case_bool_decide as Hst.
  { destruct (w_lookup w1 !! path) as [e|] eqn:He; [|done]. exists w1, e.
    split_and!; [done|done|apply Hcache; congruence|done|done]. }
  destruct (read_bounded_ok w1 Lookup path 3 seq _ _ Hn (ls_file _ _ _ _ HB1) (lookup_budget log Hbud))
    as (w2 & E2 & F2 & S2).
  rewrite (bindM_run _ _ _ _ _ E2). unfold bindM at 1, liftM. rewrite decode_lookup_log by done.
  unfold set_lookup, modifyM. set (recs := sort_by_key _ _). set (e := mkCachedLookup _ _ recs _ _).
  assert (lookup_cache_ok log e) as Hok.
  { split; [|apply starts_with_app]. apply log_cache_built; [done|apply decoded_tracks|apply decoded_sorted]. }
  eexists _, e. split; [reflexivity|]. split_and!; [apply lookup_insert_eq|done| |].
  - apply (lookup_state_same w1); [done|split; [rewrite F2; done|done]|].
    cbn. intros e'. rewrite lookup_insert_eq. by intros [= <-].
  - split; [rewrite F2, F1; done|]. cbn. eapply same_files_trans; eauto.
Qed.

Lemma lookup_encode_ok r : bytes_ok (lookup_encode r).
Proof. unfold lookup_encode, bytes_ok. rewrite !Forall_app. split_and!; apply to_le_ok. Qed.
Lemma encode_lookup_snoc log r : encode_log_payload (log ++ [r]) = encode_log_payload log ++ lookup_encode r.
Proof. unfold encode_log_payload. rewrite encode_all_app, app_assoc. f_equal. Qed.

(** Appending a record without an identifier: it gets a fresh one. *)
Lemma append_lookup_spec w path seq log r :
  no_faults -> lookup_state w path seq log -> Zlen log <= MAX_MAINTENANCE_METADATA_RECORDS ->
  (forall x, x ∈ log -> lookup_id x < U64_MAX - 1) -> lookup_id r = 0 ->
  (forall id, u64_ok id -> wf_lookup (r <| lookup_id := id |>)) ->
  log_room seq (encode_log_payload log) (lookup_encode r) ->
  exists w' r', append_lookup_record path r w = (Ok r', w') /\
    r' = r <| lookup_id := lookup_id r' |> /\ replay lookup_id log !! lookup_id r' = None /\
    lookup_state w' path (seq + 1) (log ++ [r']) /\ lookup_touch path w w'.
Proof.
  intros Hn HB Hbud Hids H0 Hwf Hroom.
  destruct (ensure_lookup_spec w path seq log Hn HB Hbud) as (w1 & e & E1 & He & Hok & HB1 & [B1 S1]).
  unfold append_lookup_record. rewrite (bindM_run _ _ _ _ _ E1).
  rewrite (bindM_run (cached_lookup path) _ w1 e w1)
    by (unfold cached_lookup, bindM, getM, liftM; by rewrite He).
  pose proof (log_cache_bound _ _ _ _ _ Hids (lk_log _ _ Hok)) as Hnx.
  assert (1 <= lc_next_lookup_id e) as Hpos.
  { eapply log_cache_pos; [|apply Hok]. intros x Hx. pose proof (ls_wf _ _ _ _ HB) as Hw.
    rewrite Forall_forall in Hw. destruct (Hw x Hx) as [H _]. unfold u64_ok in H. lia. }
  rewrite decide_True by done. rewrite decide_False by lia.
  set (r' := r <| lookup_id := lc_next_lookup_id e |>).
  rewrite (bindM_run _ _ w1 r' w1) by done. rewrite (lk_format _ _ Hok).
  rewrite (bindM_run _ _ w1 tt w1) by done.
  destruct (append_log_spec w1 Lookup path 3 seq (encode_log_payload log) 3 LOG_PREFIX
    (lookup_encode r') false Hn (ls_file _ _ _ _ HB1)) as (w2 & E2 & F2 & Fr2 & HL2);
    try done; [apply lookup_encode_ok|].
  rewrite (bindM_run _ _ _ _ _ E2). rewrite <- encode_lookup_snoc in HL2.
  assert (w_lookup w2 !! path = Some e) as He2 by (rewrite F2; exact He).
  rewrite (bindM_run (cached_lookup path) _ w2 e w2)
    by (unfold cached_lookup, bindM, getM, liftM; by rewrite He2).
  set (h := header_new _ _ _ _). unfold set_lookup at 1, bindM at 1, modifyM.
  assert (lookup_id r' = lc_next_lookup_id e) as Hid by done.
  unfold checked_add64. rewrite decide_True by lia. cbn [ok_or]. unfold bindM at 1, liftM.
  unfold set_lookup at 1, bindM at 1, modifyM.
  match goal with |- context [bindM (if trust_hot_cache then retM ?x else _)] => set (e1 := x) end.
  match goal with |- context [bindM (if trust_hot_cache then _ else _) _ ?x] => set (w3 := x) end.
  assert (log_file w3 Lookup path 3 (seq + 1) (encode_log_payload (log ++ [r']))) as HL3
    by (apply (log_file_same w2); done).
  assert (exists e2 w4, (if trust_hot_cache then retM e1
     else let! stamp := file_stamp path in retM (e1 <| lc_stamp := stamp |>)) w3 = (Ok e2, w4) /\
     lc_records e2 = lc_records e1 /\ lc_next_lookup_id e2 = lc_next_lookup_id e1 /\
     w4 = w3 <| w_fs := w_fs w4 |> /\ same_files (w_fs w3) (w_fs w4))
     as (e2 & w4 & E4 & R4 & N4 & F4 & S4).
  { destruct trust_hot_cache; [exists e1, w3; by destruct w3|].
    destruct (file_stamp_ok w3 path _ Hn (lf_contents _ _ _ _ _ _ HL3)) as (n & w4 & E4 & _ & F4 & S4).
    eexists _, w4. rewrite (bindM_run _ _ _ _ _ E4). by split_and!. }
  rewrite (bindM_run _ _ _ _ _ E4). eexists _, r'. split; [reflexivity|]. split_and!; [done| | |].
  - apply (log_cache_fresh _ _ _ _ _ (lk_log _ _ Hok)).
  - split.
    + apply (log_file_same w3); [done|by rewrite F4|done].
    + apply Forall_app; split; [apply HB|]. constructor; [apply Hwf; unfold u64_ok; lia|done].
    + intros x [Hx| ->%list_elem_of_singleton]%elem_of_app; [by apply HB|cbn; lia].
    + cbn. rewrite lookup_insert_eq. intros ? [= <-]. split; [|done]. cbn. rewrite R4, N4.
      exact (log_cache_append _ _ _ _ _ r' (lk_log _ _ Hok) Hid).
  - split; [rewrite F4; unfold w3; rewrite F2, B1; done|]. cbn. eapply frame_same; [|exact S4].
    destruct Fr2 as [W2 C2]. split; [done|]. intros q Hq. rewrite C2 by done. by apply contents_same.
Qed.

(** Ranges of distinct records that do not meet. *)
Record lookup_inv (m : gmap Z MapLookupRecord) : Prop := {
  li_range : forall i r, m !! i = Some r -> logical_min r <= logical_max r;
  li_disjoint : forall i j r s, m !! i = Some r -> m !! j = Some s -> i <> j ->
    logical_max r < logical_min s \/ logical_max s < logical_min r
}.

Lemma tracks_ranges l m :
  lookup_inv m -> tracks lookup_id l m -> sorted_by logical_min l -> ranges_ok l.
Proof.
  intros [Hr Hd] [Hnd Ht] Hs.
  assert (forall r, r ∈ l -> m !! lookup_id r = Some r) as Hl by (intros r; by apply (proj1 (Ht r))).
  clear Ht. induction Hs as [|x l Hs IH Hx]; [by split; constructor|]. cbn in Hnd.
  apply NoDup_cons in Hnd as [Hnx Hnd]. destruct (IH Hnd) as [R1 R2]; [set_solver|].
  assert (m !! lookup_id x = Some x) as Hmx by (apply Hl; set_solver).
  split; constructor; [by apply (Hr _ _ Hmx)|done|done|].
  rewrite Forall_forall in Hx |- *. intros y Hy.
  assert (m !! lookup_id y = Some y) as Hmy by (apply Hl; set_solver).
  assert (lookup_id x <> lookup_id y) as Hne.
  { intros E. apply Hnx. rewrite E. by apply list_elem_of_fmap_2. }
  specialize (Hx y Hy). specialize (Hd _ _ _ _ Hmx Hmy Hne). specialize (Hr _ _ Hmy). unfold key_le in Hx. lia.
Qed.

(** Locating a block finds the record whose range holds it. *)
Lemma locate_lookup_spec w path seq log b :
  no_faults -> lookup_state w path seq log -> Zlen log <= MAX_MAINTENANCE_METADATA_RECORDS ->
  lookup_inv (replay lookup_id log) ->
  exists w' found, locate_logical_block path b w = (Ok found, w') /\
    (forall r, found = Some r <->
       replay lookup_id log !! lookup_id r = Some r /\ logical_min r <= b <= logical_max r) /\
    lookup_state w' path seq log /\ lookup_only w w'.
Proof.
  intros Hn HB Hbud Hinv.
  destruct (ensure_lookup_spec w path seq log Hn HB Hbud) as (w1 & e & E1 & He & Hok & HB1 & B1).
  unfold locate_logical_block. rewrite (bindM_run _ _ _ _ _ E1).
  rewrite (bindM_run (cached_lookup path) _ w1 e w1)
    by (unfold cached_lookup, bindM, getM, liftM; by rewrite He).
  exists w1, (locate_in (lc_records e) b). split_and!; [done| |done|done].
  pose proof (lg_tracks _ _ _ _ _ (lk_log _ _ Hok)) as Ht.
  intros r. rewrite locate_in_spec by (eapply tracks_ranges; [done|exact Ht|apply Hok]).
  by rewrite (proj2 Ht r).
Qed.

(** ** Beside other files *)
Lemma spares_ensure_lookup q path : spares q (ensure_cache_fresh path).
Proof. unfold ensure_cache_fresh, set_lookup. spare. Qed.
#[local] Hint Resolve spares_ensure_lookup : spare.
Lemma spares_append_lookup q path r :
  q <> path -> q <> with_extension_tmp path -> spares q (append_lookup_record path r).
Proof. intros. unfold append_lookup_record, cached_lookup, set_lookup. spare. Qed.
Lemma spares_locate_lookup q path b : spares q (locate_logical_block path b).
Proof. unfold locate_logical_block, cached_lookup. spare. Qed.

Lemma lookup_state_moved w w' ps path seq log :
  lookup_state w path seq log -> moved ps w w' -> (path ∉ ps) ->
  w_lookup w' !! path = w_lookup w !! path -> lookup_state w' path seq log.
Proof.
  intros [H1 H2 H3 H4] HM Hp Hc. split; try done; [by eapply log_file_moved|]. by rewrite Hc.
Qed.
End Laws.

(** * Theorem *)

(** C21: the lookup table rebuilt from the block map agrees with it: a block
    covered by an active extent is located, and the entry names that extent;
    any other block is not located. *)
Theorem rebuild_locates records out b :
  blk_inv records -> Forall wf_blk records -> rebuild_from 1 records = Ok out -> b < U64_MAX ->
  match active_at records b with
  | Some r => exists lk, locate_in out b = Some lk /\
                blk_map_ref_start lk = record_id r /\ blk_map_ref_end lk = record_id r
  | None => locate_in out b = None
  end.
Proof.
  intros Hinv Hwf H Hb. pose proof (rebuild_ranges _ _ _ Hinv Hwf H) as Hok.
  destruct (rebuild_from_spec _ _ _ H) as [H1 H2]. pose proof (bi_disjoint _ Hinv) as Hd.
  destruct (active_at records b) as [r|] eqn:E.
  - apply active_at_spec in E as [Hr (Ha & Hc1 & Hc2)%covers_spec]; [|done].
    destruct (H2 r Hr Ha) as (lk & Hlk & (Hmin & Hmax & Hrs & Hre)). exists lk.
    split; [|done]. apply locate_in_spec; [done|]. split; [done|].
    unfold logical_end, sat_add64 in Hc2. lia.
  - destruct (locate_in out b) as [lk|] eqn:El; [|done]. exfalso.
    apply locate_in_spec in El as [Hlk Hb']; [|done].
    destruct (H1 lk Hlk) as (r & Hr & Ha & (Hmin & Hmax & _) & Hm).
    enough (active_at records b = Some r) by congruence.
    apply active_at_spec; [done|]. split; [done|]. apply covers_spec. split; [done|].
    unfold logical_end, sat_add64. lia.
Qed.

Lemma rebuild_locates_witness :
  exists lk, locate_in [mkLookup 1 0 9 1 1; mkLookup 2 20 24 3 3] 22 = Some lk /\
    blk_map_ref_start lk = 3 /\ blk_map_ref_end lk = 3.
Proof.
  set (records := [demo_extent 1 0 10; (demo_extent 2 10 10) <| state := BStale |>; demo_extent 3 20 5]).
  apply (rebuild_locates records [mkLookup 1 0 9 1 1; mkLookup 2 20 24 3 3] 22).
  - split.
    + repeat constructor; by vm_compute.
    + repeat constructor; by vm_compute.
    + intros r Hr. unfold records in Hr. rewrite !elem_of_cons in Hr.
      destruct Hr as [->|[->|[->|Hr]]]; [by vm_compute..|by apply elem_of_nil in Hr].
  - unfold records. rewrite !Forall_cons.
    split_and!; [|refine (demo_extent_wf 2 10 10 _ _ _)| |by constructor];
      try apply demo_extent_wf; unfold u64_ok, u32_ok; lia.
  - by vm_compute.
  - lia.
Defined.
