(* ===== verification/Dedup.v ===== *)
(** * The dedup index (storage/dedup.rs)

    Stored blobs by content identity (fingerprint, checksum, length) with a
    reference count, kept as a record log like the block map. *)

From S2P Require Import Prelude Bytes Text Errors Fs Layout TapeState Compression Records.
From S2P Require Import World Crc Segment Logs.

Definition LOG_PREFIX : list Z := bytes_of_string "DDV2".

Definition DEDUP_IDENTITY_BLAKE3_128 : Z := 1.

Inductive DedupLookup : Type :=
| LkHit (e : DedupIndexEntry) | LkCollision | LkMiss.
Inductive DedupUpsertResult : Type :=
| UpHit (e : DedupIndexEntry) | UpInserted (e : DedupIndexEntry) | UpCollisionInserted (e : DedupIndexEntry).

(** [blake3::hash]: 32 bytes. *)
Class Blake3 : Type := blake3_hash : list Z -> list Z.
Definition fingerprint128 `{Blake3} (payload : list Z) : Z * Z :=
  let bytes := blake3_hash payload in (from_be (slice 0 8 bytes), from_be (slice 8 16 bytes)).

Definition identity_key (fp_hi fp_lo sum len : Z) : DedupIdentityKey := (fp_hi, fp_lo, sum, len).
Definition identity_key_for (e : DedupIndexEntry) : DedupIdentityKey :=
  identity_key (fingerprint_hi e) (fingerprint_lo e) (d_payload_checksum e) (d_logical_len e).
Definition fingerprint_key (fp_hi fp_lo : Z) : DedupFingerprintKey := (fp_hi, fp_lo).
Definition fingerprint_key_for (e : DedupIndexEntry) : DedupFingerprintKey :=
  fingerprint_key (fingerprint_hi e) (fingerprint_lo e).

(** The indexes of a vector of entries: a later entry wins. *)
Definition build_cached_dedup (stamp : FileStamp) (seq : Z) (entries : list DedupIndexEntry)
  (log_format : bool) : CachedDedup :=
  mkCachedDedup stamp seq entries
    (foldl (fun m p => <[identity_key_for p.2 := p.1]> m) ∅ (imap pair entries))
    (foldl (fun s e => {[fingerprint_key_for e]} ∪ s) ∅ entries)
    (foldl (fun m p => <[entry_id p.2 := p.1]> m) ∅ (imap pair entries))
    (sat_add64 (foldr Z.max 0 (map entry_id entries)) 1)
    log_format.

Definition encode_log_payload (entries : list DedupIndexEntry) : list Z :=
  LOG_PREFIX ++ encode_all entries.

Definition decode_legacy_payload (payload : list Z) : Result StorageError (list DedupIndexEntry) :=
  if decide (length payload < 8)%nat then Err (Corrupt "dedup payload too short")
  else
    let? count := checked_metadata_record_count (from_le (slice 0 8 payload)) in
    if decide (sat_sub (Zlen payload) 8 / Z.of_nat DEDUP_RECORD_SIZE < count)
    then Err (Corrupt "dedup payload truncated")
    else decode_counted DEDUP_RECORD_SIZE dedup_decode count payload.

(** The loop of [decrement_ref_counts]: the counts are lowered in the cache one
    by one; the first identifier that is unknown or already at zero stops it. *)
Fixpoint decrement_loop (ids : list Z) (c : CachedDedup) (updated : list DedupIndexEntry)
  : Result StorageError (list DedupIndexEntry) * CachedDedup :=
  match ids with
  | [] => (Ok updated, c)
  | id :: ids' =>
      match dc_id_index c !! id with
      | None => (Err (SNotFound "dedup entry not found"), c)
      | Some i =>
          match dc_entries c !! i with
          | None => (Err (Internal "index out of bounds"), c)
          | Some e =>
              if decide (ref_count e = 0) then (Err (Conflict "dedup refcount underflow"), c)
              else
                let e' := e <| ref_count := ref_count e - 1 |> in
                decrement_loop ids' (c <| dc_entries := <[i := e']> (dc_entries c) |>) (updated ++ [e'])
          end
      end
  end.

(** The number of references to each entry. *)
Fixpoint count_refs (ids : list Z) (refs : gmap Z Z) : Result StorageError (gmap Z Z) :=
  match ids with
  | [] => Ok refs
  | id :: ids' =>
      let n := default 0 (refs !! id) + 1 in
      if decide (n <= U32_MAX) then count_refs ids' (<[id := n]> refs)
      else Err (Conflict "dedup refcount overflow")
  end.
Definition rebuilt_entry (refs : gmap Z Z) (e : DedupIndexEntry) : DedupIndexEntry :=
  e <| ref_count := default 0 (refs !! entry_id e) |>.

Section Ops.
Context `{HOST : Host} `{ENV : Environ} `{C : Crc32c} `{HO : HashOrder}.

Definition decode_log_payload (payload : list Z) : Result StorageError (list DedupIndexEntry) :=
  decode_log entry_id entry_id "dedup" 4 DEDUP_RECORD_SIZE dedup_decode payload.
Definition decode_payload (payload : list Z) : Result StorageError (list DedupIndexEntry) :=
  if decide (payload = []) then Ok []
  else if starts_with LOG_PREFIX payload then decode_log_payload payload
  else decode_legacy_payload payload.

Definition set_dedup (path : string) (c : CachedDedup) : M World StorageError unit :=
  modifyM (fun w => w <| w_dedup := <[path := c]> (w_dedup w) |>).
Definition cached_dedup (path : string) : M World StorageError CachedDedup :=
  let! w := getM in liftM (ok_or (w_dedup w !! path) (SNotFound "dedup cache not initialized")).
Definition discard_dedup_cache (path : string) : M World StorageError unit :=
  modifyM (fun w => w <| w_dedup := delete path (w_dedup w) |>).
Definition dedup_cache_ready (path : string) : M World StorageError bool :=
  getsM (fun w => bool_decide (is_Some (w_dedup w !! path))).

Definition ensure_cache_fresh (path : string) : M World StorageError unit :=
  let! w := getM in
  if trust_hot_cache && bool_decide (is_Some (w_dedup w !! path)) then retM tt
  else
    let! stamp := file_stamp path in
    let! w := getM in
    if bool_decide ((dc_stamp <$> w_dedup w !! path) = Some stamp) then retM tt
    else
      let! (header, payload) := read_segment_file_bounded path Dedup MAX_MAINTENANCE_METADATA_BYTES in
      let! entries := liftM (decode_payload payload) in
      set_dedup path (build_cached_dedup stamp (sequence header) entries (starts_with LOG_PREFIX payload)).

Definition load_dedup_index (path : string) : M World StorageError (Z * list DedupIndexEntry) :=
  ensure_cache_fresh path ;;!
  let! c := cached_dedup path in retM (dc_sequence c, dc_entries c).

Definition lookup_entry_by_id (path : string) (id : Z) : M World StorageError DedupIndexEntry :=
  ensure_cache_fresh path ;;!
  let! c := cached_dedup path in
  liftM (ok_or (dc_id_index c !! id ≫= fun i => dc_entries c !! i) (SNotFound "dedup entry not found")).

Definition lookup_in (c : CachedDedup) (fp_hi fp_lo sum len : Z) : Result StorageError DedupLookup :=
  match dc_identity_index c !! identity_key fp_hi fp_lo sum len with
  | Some i => match dc_entries c !! i with
              | Some e => Ok (LkHit e)
              | None => Err (Internal "index out of bounds")
              end
  | None => if bool_decide (fingerprint_key fp_hi fp_lo ∈ dc_fingerprint_index c)
            then Ok LkCollision else Ok LkMiss
  end.
Definition lookup_identity (path : string) (fp_hi fp_lo sum len : Z) : M World StorageError DedupLookup :=
  ensure_cache_fresh path ;;!
  let! c := cached_dedup path in liftM (lookup_in c fp_hi fp_lo sum len).

Definition update_cache (path : string) (seq : Z) (entries : list DedupIndexEntry)
  : M World StorageError unit :=
  let! stamp := file_stamp path in
  let! w := getM in
  let seq := if decide (seq = 0) then default 0 (dc_sequence <$> w_dedup w !! path) else seq in
  set_dedup path (build_cached_dedup stamp seq entries true).

Definition persist_dedup_entries (path : string) (entries : list DedupIndexEntry)
  : M World StorageError unit :=
  let seq := Zlen entries in
  write_segment_file path Dedup 5 seq (encode_log_payload entries) ;;!
  update_cache path seq entries.

Definition ensure_log_format (path : string) (entries : list DedupIndexEntry)
  : M World StorageError unit :=
  let! (_, payload) := read_segment_file_bounded path Dedup MAX_MAINTENANCE_METADATA_BYTES in
  if starts_with LOG_PREFIX payload then retM tt else persist_dedup_entries path entries.

Definition ensure_log_format_cached (path : string) : M World StorageError unit :=
  let! c := cached_dedup path in
  if dc_log_format c || bool_decide (dc_entries c = []) then retM tt
  else persist_dedup_entries path (dc_entries c).

(** After an append: the new sequence, the file's stamp and the log format. *)
Definition finish_append (path : string) (c : CachedDedup) (header : SegmentHeader)
  : M World StorageError unit :=
  let c := c <| dc_sequence := sequence header |> in
  set_dedup path c ;;!
  let! c := (if trust_hot_cache then retM c
             else let! stamp := file_stamp path in retM (c <| dc_stamp := stamp |>)) in
  set_dedup path (c <| dc_log_format := true |>).

Definition push_entry (c : CachedDedup) (e : DedupIndexEntry) : CachedDedup :=
  let i := length (dc_entries c) in
  c <| dc_entries := dc_entries c ++ [e] |>
    <| dc_identity_index := <[identity_key_for e := i]> (dc_identity_index c) |>
    <| dc_fingerprint_index := {[fingerprint_key_for e]} ∪ dc_fingerprint_index c |>
    <| dc_id_index := <[entry_id e := i]> (dc_id_index c) |>
    <| dc_next_entry_id := dc_next_entry_id c + 1 |>.

(** Append a new entry under the next identifier. *)
Definition insert_new (path : string) (c : CachedDedup) (e : DedupIndexEntry)
  : M World StorageError DedupIndexEntry :=
  if decide (dc_next_entry_id c = U64_MAX)
  then failM (Conflict "dedup entry ID space is exhausted")
  else
    let e := e <| entry_id := dc_next_entry_id c |> in
    let! header := append_segment_payload path Dedup 5 LOG_PREFIX (dedup_encode e) false in
    finish_append path (push_entry c e) header ;;! retM e.

Definition upsert_dedup_entry (path : string) (entry : DedupIndexEntry)
  : M World StorageError DedupUpsertResult :=
  ensure_cache_fresh path ;;!
  ensure_log_format_cached path ;;!
  let! c := cached_dedup path in
  match dc_identity_index c !! identity_key_for entry with
  | Some i =>
      let! hit := liftM (ok_or (dc_entries c !! i) (Internal "index out of bounds")) in
      if decide (ref_count hit = U32_MAX) then failM (Conflict "dedup refcount overflow")
      else
        let hit := hit <| ref_count := ref_count hit + 1 |> in
        let hit := if decide (identity_version hit = 0 /\ identity_version entry <> 0)
                   then hit <| identity_version := identity_version entry |> else hit in
        let! header := append_segment_payload path Dedup 5 LOG_PREFIX (dedup_encode hit) false in
        finish_append path (c <| dc_entries := <[i := hit]> (dc_entries c) |>) header ;;!
        retM (UpHit hit)
  | None =>
      let saw_collision := bool_decide (fingerprint_key_for entry ∈ dc_fingerprint_index c) in
      let! e := insert_new path c entry in
      retM (if saw_collision then UpCollisionInserted e else UpInserted e)
  end.

Definition insert_dedup_collision_entry (path : string) (entry : DedupIndexEntry)
  : M World StorageError DedupIndexEntry :=
  ensure_cache_fresh path ;;!
  ensure_log_format_cached path ;;!
  let! c := cached_dedup path in insert_new path c entry.

Definition decrement_ref_counts (path : string) (ids : list Z)
  : M World StorageError (list DedupIndexEntry) :=
  if decide (ids = []) then retM []
  else
    ensure_cache_fresh path ;;!
    ensure_log_format_cached path ;;!
    let! c := cached_dedup path in
    let (r, c) := decrement_loop ids c [] in
    set_dedup path c ;;!
    let! updated := liftM r in
    let! header := append_segment_payload path Dedup 5 LOG_PREFIX (encode_all updated) false in
    finish_append path c header ;;!
    retM updated.

Definition decrement_ref_count (path : string) (id : Z) : M World StorageError DedupIndexEntry :=
  let! updated := decrement_ref_counts path [id] in
  liftM (ok_or (last updated) (SNotFound "dedup entry not found")).

Definition rebuild_ref_counts (path : string) (referenced : list Z) : M World StorageError Z :=
  let! (_, entries) := load_dedup_index path in
  let! refs := liftM (count_refs referenced ∅) in
  ensure_log_format path entries ;;!
  let changed := filter (fun e => ref_count e <> default 0 (refs !! entry_id e)) entries in
  let rebuilt := rebuilt_entry refs <$> entries in
  (if decide (changed = []) then update_cache path 0 rebuilt
   else
     let! header := append_segment_payload path Dedup 5 LOG_PREFIX
                      (encode_all (rebuilt_entry refs <$> changed)) false in
     update_cache path (sequence header) rebuilt) ;;!
  retM (Zlen changed).

Definition sync_dedup (path : string) : M World StorageError unit := sync_segment_file path.
End Ops.

(** ** The indexes agree with the entries *)
Record index_inv (c : CachedDedup) : Prop := {
  ii_id : forall id i, dc_id_index c !! id = Some i <->
            exists e, dc_entries c !! i = Some e /\ entry_id e = id;
  ii_identity : forall k i, dc_identity_index c !! k = Some i ->
            exists e, dc_entries c !! i = Some e /\ identity_key_for e = k;
  ii_identity_total : forall e, e ∈ dc_entries c -> is_Some (dc_identity_index c !! identity_key_for e);
  ii_fingerprint : forall k, k ∈ dc_fingerprint_index c <->
            exists e, e ∈ dc_entries c /\ fingerprint_key_for e = k;
  ii_next : forall e, e ∈ dc_entries c -> entry_id e < dc_next_entry_id c
}.

Lemma imap_pair_app (l : list DedupIndexEntry) x : imap pair (l ++ [x]) = imap pair l ++ [(length l, x)].
Proof. rewrite imap_app. cbn. by rewrite Nat.add_0_r. Qed.

Definition index_by {K} `{Countable K} (key : DedupIndexEntry -> K) (l : list DedupIndexEntry) : gmap K nat :=
  foldl (fun m p => <[key p.2 := p.1]> m) ∅ (imap pair l).

Lemma index_by_snoc {K} `{Countable K} (key : DedupIndexEntry -> K) l x :
  index_by key (l ++ [x]) = <[key x := length l]> (index_by key l).
Proof. unfold index_by. by rewrite imap_pair_app, foldl_app. Qed.

Lemma index_by_sound {K} `{Countable K} (key : DedupIndexEntry -> K) l k i :
  index_by key l !! k = Some i -> exists e, l !! i = Some e /\ key e = k.
Proof.
  revert i. induction l as [|x l IH] using rev_ind; intros i; [done|].
  rewrite index_by_snoc, lookup_insert_Some. intros [[<- <-]|[_ Hi]].
  - exists x. split; [|done]. by rewrite lookup_app_r, Nat.sub_diag by lia.
  - destruct (IH i Hi) as (e & He & ?). exists e. split; [|done]. by apply lookup_app_l_Some.
Qed.

Lemma index_by_total {K} `{Countable K} (key : DedupIndexEntry -> K) l e :
  e ∈ l -> is_Some (index_by key l !! key e).
Proof.
  induction l as [|x l IH] using rev_ind; [set_solver|]. rewrite index_by_snoc.
  destruct (decide (key x = key e)) as [->|Hne]; [rewrite lookup_insert_eq; eauto|].
  rewrite lookup_insert_ne by done. intros [He| ->%list_elem_of_singleton]%elem_of_app; [by apply IH|done].
Qed.

Lemma fingerprints_of (l : list DedupIndexEntry) k :
  k ∈ foldl (fun (s : gset (Z * Z)) e => {[fingerprint_key_for e]} ∪ s) ∅ l <->
  exists e, e ∈ l /\ fingerprint_key_for e = k.
Proof.
  induction l as [|x l IH] using rev_ind; [set_solver|]. rewrite foldl_app. cbn [foldl].
  rewrite elem_of_union, IH, elem_of_singleton. split.
  - intros [->|(e & He & <-)]; [exists x|exists e]; set_solver.
  - intros (e & He & <-). apply elem_of_app in He as [He| ->%list_elem_of_singleton]; [right; eauto|by left].
Qed.

Lemma max_entry_id (l : list DedupIndexEntry) e : e ∈ l -> entry_id e <= foldr Z.max 0 (map entry_id l).
Proof.
  induction l as [|x l IH]; [set_solver|]. cbn. intros [->|H]%elem_of_cons; [lia|]. specialize (IH H). lia.
Qed.

(** Loading an index whose identifiers are distinct establishes the invariant. *)
Lemma build_index_inv stamp seq entries lf :
  NoDup (entry_id <$> entries) -> foldr Z.max 0 (map entry_id entries) < U64_MAX ->
  index_inv (build_cached_dedup stamp seq entries lf).
Proof.
  intros Hnd Hmax. split; cbn.
  - intros id i. split; [apply (index_by_sound entry_id)|]. intros (e & He & <-).
    destruct (index_by_total entry_id entries e) as [j Hj]; [by eapply list_elem_of_lookup_2|].
    unfold index_by in Hj. rewrite Hj. f_equal.
    destruct (index_by_sound entry_id entries _ _ Hj) as (e' & He' & E').
    eapply (NoDup_lookup (entry_id <$> entries)); [done|..]; rewrite list_lookup_fmap.
    + rewrite He'. done.
    + rewrite He. cbn. by rewrite E'.
  - apply (index_by_sound identity_key_for).
  - intros e. apply (index_by_total identity_key_for).
  - apply fingerprints_of.
  - intros e He. unfold sat_add64. pose proof (max_entry_id _ _ He). lia.
Qed.

(** An entry pushed under the next identifier keeps it. *)
Lemma push_index_inv c e :
  index_inv c -> entry_id e = dc_next_entry_id c -> index_inv (push_entry c e).
Proof.
  intros [H1 H2 H3 H4 H5] Hid.
  assert (forall i x, dc_entries c !! i = Some x -> (dc_entries c ++ [e]) !! i = Some x) as Hold
    by (intros; by apply lookup_app_l_Some).
  assert ((dc_entries c ++ [e]) !! length (dc_entries c) = Some e) as Hnew
    by (by rewrite lookup_app_r, Nat.sub_diag by lia).
  split; cbn.
  - intros id i. rewrite lookup_insert_Some. split.
    + intros [[<- <-]|[Hne Hi]]; [eauto|]. apply H1 in Hi as (x & Hx & ?). eauto.
    + intros (x & Hx & <-). destruct (decide (i = length (dc_entries c))) as [->|Hi].
      * left. split; [|done]. congruence.
      * right. apply lookup_app_Some in Hx as [Hx|[Hge Hx]].
        -- split; [|apply H1; eauto]. intros E. apply list_elem_of_lookup_2, H5 in Hx. lia.
        -- apply list_lookup_singleton_Some in Hx as [? _]. lia.
  - intros k i. rewrite lookup_insert_Some. intros [[<- <-]|[_ Hi]]; [eauto|].
    destruct (H2 _ _ Hi) as (x & ? & ?). eauto.
  - intros x Hx. destruct (decide (identity_key_for e = identity_key_for x)) as [->|];
      [rewrite lookup_insert_eq; eauto|]. rewrite lookup_insert_ne by done.
    apply elem_of_app in Hx as [Hx| ->%list_elem_of_singleton]; [by apply H3|done].
  - intros k. rewrite elem_of_union, elem_of_singleton, H4. split.
    + intros [->|(x & Hx & <-)]; [exists e|exists x]; set_solver.
    + intros (x & Hx & <-). apply elem_of_app in Hx as [Hx| ->%list_elem_of_singleton]; [right; eauto|by left].
  - intros x [Hx| ->%list_elem_of_singleton]%elem_of_app; [specialize (H5 x Hx); lia|lia].
Qed.

(** Replacing an entry by one with the same identity keeps it. *)
Lemma update_index_inv c i e e' :
  index_inv c -> dc_entries c !! i = Some e -> entry_id e' = entry_id e ->
  identity_key_for e' = identity_key_for e ->
  index_inv (c <| dc_entries := <[i := e']> (dc_entries c) |>).
Proof.
  intros [H1 H2 H3 H4 H5] Hi Hid Hk.
  assert (forall j x, <[i := e']> (dc_entries c) !! j = Some x ->
            exists y, dc_entries c !! j = Some y /\ entry_id x = entry_id y /\
                      identity_key_for x = identity_key_for y) as Hback.
  { intros j x. destruct (decide (i = j)) as [<-|Hne].
    - rewrite list_lookup_insert_eq by (by eapply lookup_lt_Some). intros [= <-]. eauto.
    - rewrite list_lookup_insert_ne by done. eauto. }
  assert (forall j y, dc_entries c !! j = Some y ->
            exists x, <[i := e']> (dc_entries c) !! j = Some x /\ entry_id x = entry_id y /\
                      identity_key_for x = identity_key_for y) as Hforth.
  { intros j y Hj. destruct (decide (i = j)) as [<-|Hne].
    - exists e'. rewrite list_lookup_insert_eq by (by eapply lookup_lt_Some). split; [done|].
      rewrite Hi in Hj. by injection Hj as <-.
    - exists y. by rewrite list_lookup_insert_ne. }
  assert (forall x y, identity_key_for x = identity_key_for y ->
            fingerprint_key_for x = fingerprint_key_for y) as Hfp
    by (intros x y E; unfold identity_key_for, identity_key in E; unfold fingerprint_key_for, fingerprint_key; congruence).
  split; cbn.
  - intros id j. rewrite H1. split.
    + intros (y & Hy & <-). destruct (Hforth _ _ Hy) as (x & ? & ? & _). eauto.
    + intros (x & Hx & <-). destruct (Hback _ _ Hx) as (y & ? & ? & _). eauto.
  - intros k j Hj. destruct (H2 _ _ Hj) as (y & Hy & <-). destruct (Hforth _ _ Hy) as (x & ? & _ & ?). eauto.
  - intros x [j Hj]%list_elem_of_lookup. destruct (Hback _ _ Hj) as (y & Hy & _ & ->).
    apply H3. by eapply list_elem_of_lookup_2.
  - intros k. rewrite H4. split.
    + intros (y & [j Hj]%list_elem_of_lookup & <-). destruct (Hforth _ _ Hj) as (x & Hx & _ & E).
      exists x. split; [by eapply list_elem_of_lookup_2|by apply Hfp].
    + intros (x & [j Hj]%list_elem_of_lookup & <-). destruct (Hback _ _ Hj) as (y & Hy & _ & E).
      exists y. split; [by eapply list_elem_of_lookup_2|symmetry; by apply Hfp].
  - intros x [j Hj]%list_elem_of_lookup. destruct (Hback _ _ Hj) as (y & Hy & -> & _).
    apply H5. by eapply list_elem_of_lookup_2.
Qed.

(** The caches a process goes through: loaded, then changed by inserts, hits and
    decrements. *)
Inductive reachable_cache : CachedDedup -> Prop :=
| rc_load stamp seq entries lf :
    NoDup (entry_id <$> entries) -> foldr Z.max 0 (map entry_id entries) < U64_MAX ->
    reachable_cache (build_cached_dedup stamp seq entries lf)
| rc_insert c e :
    reachable_cache c -> reachable_cache (push_entry c (e <| entry_id := dc_next_entry_id c |>))
| rc_hit c i e n v :
    reachable_cache c -> dc_entries c !! i = Some e ->
    reachable_cache (c <| dc_entries := <[i := e <| ref_count := n |> <| identity_version := v |>]> (dc_entries c) |>)
| rc_decrement c ids updated :
    reachable_cache c -> reachable_cache (snd (decrement_loop ids c updated)).

Lemma decrement_inv ids : forall c updated, index_inv c -> index_inv (snd (decrement_loop ids c updated)).
Proof.
  induction ids as [|id ids IH]; intros c updated Hc; cbn [decrement_loop]; [done|].
  destruct (dc_id_index c !! id) as [i|]; [|done]. destruct (dc_entries c !! i) as [e|] eqn:He; [|done].
  case_decide; [done|]. apply IH. by eapply update_index_inv.
Qed.

Lemma reachable_index_inv c : reachable_cache c -> index_inv c.
Proof.
  induction 1 as [| |c i e n v _ IH He|].
  - by apply build_index_inv.
  - by apply push_index_inv.
  - by eapply update_index_inv.
  - by apply decrement_inv.
Qed.

Lemma count_refs_spec ids : forall refs,
  (forall id, default 0 (refs !! id) <= U32_MAX) ->
  match count_refs ids refs with
  | Ok out => forall id, default 0 (out !! id) = default 0 (refs !! id) + Zlen (filter (fun i => i = id) ids)
  | Err e => e = Conflict "dedup refcount overflow" /\
             exists id, U32_MAX < default 0 (refs !! id) + Zlen (filter (fun i => i = id) ids)
  end.
Proof.
  induction ids as [|x ids IH]; intros refs Hr; cbn [count_refs].
  { intros id. unfold Zlen. cbn. lia. }
  case_decide as Hn.
  - specialize (IH (<[x := default 0 (refs !! x) + 1]> refs)).
    assert (forall id, default 0 (<[x := default 0 (refs !! x) + 1]> refs !! id) +
       Zlen (filter (fun i => i = id) ids) = default 0 (refs !! id) + Zlen (filter (fun i => i = id) (x :: ids))) as Hstep.
    { intros id. rewrite filter_cons. destruct (decide (x = id)) as [->|Hne].
      - rewrite lookup_insert_eq. unfold Zlen. cbn. lia.
      - by rewrite lookup_insert_ne by done. }
    destruct (count_refs ids _) as [out|e].
    + intros id. rewrite IH, Hstep; [done|]. intros id'. destruct (decide (x = id')) as [->|].
      * rewrite lookup_insert_eq. exact Hn.
      * rewrite lookup_insert_ne by done. apply Hr.
    + destruct IH as [-> [id Hid]].
      * intros id'. destruct (decide (x = id')) as [->|]; [rewrite lookup_insert_eq; exact Hn|].
        rewrite lookup_insert_ne by done. apply Hr.
      * split; [done|]. exists id. by rewrite <- Hstep.
  - split; [done|]. exists x. rewrite filter_cons, decide_True by done. unfold Zlen. cbn [length]. lia.
Qed.

(** * Theorems *)

(** C22: in every cache a process can reach, looking up a content identity is
    exact: a hit returns a stored entry with that identity, a collision means
    some entry shares the fingerprint but none the identity, a miss means no
    entry has the fingerprint; the indexes never point outside the entries. *)
Theorem lookup_identity_exact c hi lo sum len :
  reachable_cache c ->
  match lookup_in c hi lo sum len with
  | Ok (LkHit e) => e ∈ dc_entries c /\ identity_key_for e = (hi, lo, sum, len)
  | Ok LkCollision =>
      (exists e, e ∈ dc_entries c /\ fingerprint_key_for e = (hi, lo)) /\
      (forall e, e ∈ dc_entries c -> identity_key_for e <> (hi, lo, sum, len))
  | Ok LkMiss => forall e, e ∈ dc_entries c -> fingerprint_key_for e <> (hi, lo)
  | Err _ => False
  end.
Proof.
  intros [_ H2 H3 H4 _]%reachable_index_inv. unfold lookup_in.
  destruct (dc_identity_index c !! _) as [i|] eqn:Hi.
  - destruct (H2 _ _ Hi) as (e & He & Hk). rewrite He.
    split; [by eapply list_elem_of_lookup_2|done].
  - case_bool_decide as Hf.
    + split; [by apply H4|]. intros e He Hk. destruct (H3 e He) as [i Hi'].
      rewrite Hk in Hi'. unfold identity_key in Hi. congruence.
    + intros e He Hk. apply Hf, H4. eauto.
Qed.

(** C34: rebuilding the reference counts gives every entry the number of times
    it is referenced, and fails exactly when a count exceeds 32 bits. *)
Theorem rebuild_counts_exact referenced :
  match count_refs referenced ∅ with
  | Ok refs => forall e, ref_count (rebuilt_entry refs e) = Zlen (filter (fun i => i = entry_id e) referenced)
  | Err err => err = Conflict "dedup refcount overflow" /\
               exists id, U32_MAX < Zlen (filter (fun i => i = id) referenced)
  end.
Proof.
  pose proof (count_refs_spec referenced ∅) as H.
  assert (forall id : Z, default 0 ((∅ : gmap Z Z) !! id) = 0) as H0 by (intros; by rewrite lookup_empty).
  specialize (H ltac:(intros id; rewrite H0; lia)).
  destruct (count_refs referenced ∅) as [refs|e].
  - intros e. cbn. rewrite H, H0. lia.
  - destruct H as [-> [id Hid]]. split; [done|]. exists id. rewrite H0 in Hid. lia.
Qed.

Section Theorems.
Context `{HOST : Host} `{ENV : Environ} `{C : Crc32c} `{HO : HashOrder}.

End Theorems.

(** ** Witnesses *)
Definition demo_entry (id refs : Z) : DedupIndexEntry := mkDedup id 7 id 9 10 id 10 CNone 1 refs.

Lemma lookup_identity_exact_witness :
  let c := build_cached_dedup (mkStamp 0 0) 1 [demo_entry 1 2; demo_entry 2 0] true in
  lookup_in c 7 2 9 10 = Ok (LkHit (demo_entry 2 0)) /\ demo_entry 2 0 ∈ dc_entries c.
Proof.
  intros c. split; [done|].
  pose proof (lookup_identity_exact c 7 2 9 10) as H.
  apply H. apply rc_load; [|by vm_compute]. cbn. apply NoDup_cons; split; [set_solver|].
  apply NoDup_singleton.
Defined.

Definition demo_dedup_world : World :=
  (fresh_process (mkFs {[demo_path := 0%nat]} {[0%nat := mkInode [] 5]} 1 0))
    <| w_dedup := {[demo_path := build_cached_dedup (mkStamp 0 5) 1 [demo_entry 1 2; demo_entry 2 0] true]} |>.

