(* ===== verification/Reclaim.v ===== *)
(** * Reclaim candidates (storage/reclaim.rs)

    Block map records that were superseded, each with a flag that says whether
    the lookup table still refers to it.  The references of a whole batch are
    tested against a merged interval index. *)

From S2P Require Import Prelude Bytes Text Errors Fs Layout TapeState Compression Records.
From S2P Require Import World Crc Segment Logs BlkMap MapLookup.

Record ReclaimReferenceInterval : Type := mkInterval { start : Z; end_ : Z }.

(** Sorting by the pair (start, end) with the stable sort by end, then start. *)
Definition sort_intervals (l : list ReclaimReferenceInterval) : list ReclaimReferenceInterval :=
  sort_by_key start (sort_by_key end_ l).

(** The merge loop: [last] is the last interval of [merged]. *)
Fixpoint merge_intervals (last : ReclaimReferenceInterval) (l : list ReclaimReferenceInterval)
  : list ReclaimReferenceInterval :=
  match l with
  | [] => [last]
  | x :: l' =>
      if decide (start x <= sat_add64 (end_ last) 1)
      then merge_intervals (mkInterval (start last) (Z.max (end_ last) (end_ x))) l'
      else last :: merge_intervals x l'
  end.

Definition interval_of (e : MapLookupRecord) : option ReclaimReferenceInterval :=
  if decide (blk_map_ref_end e < blk_map_ref_start e) then None
  else Some (mkInterval (blk_map_ref_start e) (blk_map_ref_end e)).

Definition from_lookup_records (records : list MapLookupRecord) : list ReclaimReferenceInterval :=
  match sort_intervals (omap interval_of records) with
  | [] => []
  | x :: l => merge_intervals x l
  end.

(** The binary search by start: an exact hit, or the interval before the
    insertion point. *)
Definition contains (intervals : list ReclaimReferenceInterval) (id : Z) : bool :=
  if decide (intervals = []) then false
  else if decide (Exists (fun i => start i = id) intervals) then true
  else
    let index := partition_point (fun i => bool_decide (start i < id)) intervals in
    if decide (index = O) then false
    else match intervals !! (index - 1)%nat with
         | Some i => bool_decide (id <= end_ i)
         | None => false
         end.

Definition still_referenced (lookups : list MapLookupRecord) (id : Z) : bool :=
  existsb (fun e => bool_decide (blk_map_ref_start e <= id) && bool_decide (id <= blk_map_ref_end e)) lookups.

(** Update the first candidate of the record, or append one. *)
Fixpoint update_candidate (id : Z) (why : ReclaimReason) (safe : bool) (l : list ReclaimCandidate)
  : option (list ReclaimCandidate) :=
  match l with
  | [] => None
  | c :: l' =>
      if decide (blk_map_record_id c = id)
      then Some (c <| reason := why |> <| safe_to_reclaim := safe |> :: l')
      else (fun l'' => c :: l'') <$> update_candidate id why safe l'
  end.
Definition new_candidate (id : Z) (why : ReclaimReason) (safe : bool) (l : list ReclaimCandidate)
  : ReclaimCandidate :=
  mkCandidate (default 1 ((fun c => candidate_id c + 1) <$> last l)) id why safe.
Definition upsert_one (id : Z) (why : ReclaimReason) (safe : bool) (l : list ReclaimCandidate)
  : list ReclaimCandidate :=
  match update_candidate id why safe l with
  | Some l' => l'
  | None => l ++ [new_candidate id why safe l]
  end.
Definition find_candidate (id : Z) (l : list ReclaimCandidate) : option ReclaimCandidate :=
  snd <$> list_find (fun c => blk_map_record_id c = id) l.

Section Ops.
Context `{HOST : Host} `{ENV : Environ} `{C : Crc32c} `{HO : HashOrder}.

Definition load_reclaim_candidates (path : string) : M World StorageError (list ReclaimCandidate) :=
  let! (_, payload) := read_segment_file_bounded path Reclaim MAX_MAINTENANCE_METADATA_BYTES in
  if decide (payload = []) then retM []
  else if decide (length payload < 8)%nat then failM (Corrupt "reclaim payload too short")
  else
    let! count := liftM (checked_metadata_record_count (from_le (slice 0 8 payload))) in
    if decide (sat_sub (Zlen payload) 8 / Z.of_nat RECLAIM_RECORD_SIZE < count)
    then failM (Corrupt "reclaim payload truncated")
    else liftM (decode_counted RECLAIM_RECORD_SIZE candidate_decode count payload).

Definition persist_candidates (path : string) (candidates : list ReclaimCandidate)
  : M World StorageError unit :=
  write_segment_file path Reclaim 4 (Zlen candidates)
    (to_le 8 (Zlen candidates) ++ encode_all candidates).

Definition upsert_reclaim_candidate (blk_map_path lookup_path reclaim_path : string) (id : Z)
  (why : ReclaimReason) : M World StorageError ReclaimCandidate :=
  let! _ := mark_blk_map_stale blk_map_path id in
  let! (_, lookups) := load_lookup_records lookup_path in
  let safe := negb (still_referenced lookups id) in
  let! candidates := load_reclaim_candidates reclaim_path in
  let candidates := upsert_one id why safe candidates in
  persist_candidates reclaim_path candidates ;;!
  liftM (ok_or (find_candidate id candidates) (Corrupt "candidate missing after persist")).

(** The batch: every identifier is upserted and the updated candidate returned. *)
Fixpoint upsert_all (references : list ReclaimReferenceInterval) (why : ReclaimReason) (ids : list Z)
  (candidates updated : list ReclaimCandidate) : list ReclaimCandidate * list ReclaimCandidate :=
  match ids with
  | [] => (candidates, updated)
  | id :: ids' =>
      let safe := negb (contains references id) in
      let candidates' := upsert_one id why safe candidates in
      let u := default (new_candidate id why safe candidates) (find_candidate id candidates') in
      upsert_all references why ids' candidates' (updated ++ [u])
  end.

Definition upsert_reclaim_candidates (lookup_path reclaim_path : string) (ids : list Z)
  (why : ReclaimReason) : M World StorageError (list ReclaimCandidate) :=
  if decide (ids = []) then retM []
  else
    let! (_, lookups) := load_lookup_records lookup_path in
    let references := from_lookup_records lookups in
    let! candidates := load_reclaim_candidates reclaim_path in
    let (candidates, updated) := upsert_all references why ids candidates [] in
    persist_candidates reclaim_path candidates ;;!
    retM updated.

Definition refresh_candidate (references : list ReclaimReferenceInterval) (c : ReclaimCandidate)
  : ReclaimCandidate :=
  c <| safe_to_reclaim := negb (contains references (blk_map_record_id c)) |>.

Definition refresh_reclaim_safety (lookup_path reclaim_path : string) : M World StorageError Z :=
  let! (_, lookups) := load_lookup_records lookup_path in
  let references := from_lookup_records lookups in
  let! candidates := load_reclaim_candidates reclaim_path in
  let updated := filter (fun c => safe_to_reclaim c <> negb (contains references (blk_map_record_id c))) candidates in
  persist_candidates reclaim_path (refresh_candidate references <$> candidates) ;;!
  retM (Zlen updated).
End Ops.

(** ** The merged index *)
Definition in_interval (id : Z) (i : ReclaimReferenceInterval) : Prop := start i <= id <= end_ i.
Definition merged_ok (l : list ReclaimReferenceInterval) : Prop :=
  Forall (fun i => start i <= end_ i) l /\ StronglySorted (fun a b => end_ a < start b) l.

Lemma merge_spec l : forall last,
  start last <= end_ last -> Forall (fun i => start i <= end_ i /\ end_ i <= U64_MAX) l ->
  Forall (fun i => start last <= start i) l -> sorted_by start l ->
  merged_ok (merge_intervals last l) /\
  Forall (fun i => start last <= start i) (merge_intervals last l) /\
  (forall id, id <= U64_MAX -> Exists (in_interval id) (merge_intervals last l) <-> Exists (in_interval id) (last :: l)).
Proof.
  induction l as [|x l IH]; intros last Hl Hne Hst Hs; cbn [merge_intervals].
  { split_and!; [split; repeat constructor; lia|repeat constructor; lia|done]. }
  apply Forall_cons in Hne as [[Hx Hxm] Hne]. apply Forall_cons in Hst as [Hlx Hst].
  inversion Hs as [|? ? Hs' Hxl]; subst. case_decide as Hm.
  - destruct (IH (mkInterval (start last) (Z.max (end_ last) (end_ x)))) as (H1 & H2 & H3); cbn; [lia|done..|].
    split_and!; [done..|]. intros id Hid. rewrite H3, !Exists_cons by done. unfold in_interval; cbn.
    unfold sat_add64 in Hm. split; [intros [?|?]; [|tauto]|intros [?|[?|?]]; [left; lia|left; lia|tauto]].
    destruct (decide (id <= end_ last)); [left; lia|right; left; lia].
  - destruct (IH x) as ((H1a & H1b) & H2 & H3); [lia|done|done|done|].
    assert (end_ last < start x) as Hgap.
    { unfold sat_add64 in Hm. lia. }
    split_and!.
    + split; constructor; try done. eapply Forall_impl; [exact H2|]. cbn. intros; lia.
    + constructor; [lia|]. eapply Forall_impl; [exact H2|]. cbn. intros; lia.
    + intros id Hid. rewrite Exists_cons, H3, !Exists_cons by done. tauto.
Qed.

Lemma merged_sorted l : merged_ok l -> sorted_by start l.
Proof.
  intros [Hne Hs]. induction Hs as [|x l Hs IH Hx]; [constructor|].
  apply Forall_cons in Hne as [Hxne Hne]. constructor; [by apply IH|].
  eapply Forall_impl; [exact Hx|]. cbn. unfold key_le. intros; lia.
Qed.

Lemma merged_before l1 x l2 a : merged_ok (l1 ++ x :: l2) -> a ∈ l1 -> end_ a < start x.
Proof.
  intros [_ Hs] Ha. induction l1 as [|y l1 IH]; [set_solver|]. cbn in Hs.
  inversion Hs as [|? ? Hs' Hf]; subst. apply elem_of_cons in Ha as [->|Ha]; [|by apply IH].
  rewrite Forall_app, Forall_cons in Hf. tauto.
Qed.

(** The binary search finds an interval exactly when one contains the point. *)
Lemma contains_spec l id :
  merged_ok l -> contains l id = true <-> Exists (in_interval id) l.
Proof.
  intros Hok. pose proof (merged_sorted l Hok) as Hs. pose proof Hok as [Hne _].
  unfold contains. rewrite Forall_forall in Hne. case_decide as H0; [subst; by rewrite Exists_nil|].
  case_decide as Hex.
  { split; [|done]. intros _. apply Exists_exists in Hex as (i & Hi & <-).
    apply Exists_exists. exists i. split; [done|]. specialize (Hne i Hi). unfold in_interval. lia. }
  set (p := fun i => bool_decide (start i < id)). set (k := partition_point p l).
  pose proof (partition_point_le p l) as Hle. fold k in Hle.
  assert (forall x, x ∈ drop k l -> id < start x) as Hhigh.
  { intros x Hx. assert (start x <> id).
    { intros E. apply Hex, Exists_exists. exists x. split; [|done].
      rewrite <- (take_drop k l). set_solver. }
    apply (partition_point_drop start) in Hx; [|done|].
    - apply bool_decide_eq_false in Hx. lia.
    - unfold p. intros a c Hac. rewrite !bool_decide_eq_true. lia. }
  case_decide as Hk.
  { split; [done|]. intros (i & Hi & Hin)%Exists_exists. rewrite Hk, drop_0 in Hhigh.
    specialize (Hhigh i Hi). unfold in_interval in Hin. lia. }
  destruct (lookup_lt_is_Some_2 l (k - 1)) as [x Hx]; [lia|]. rewrite Hx, bool_decide_eq_true.
  pose proof (take_drop_middle _ _ _ Hx) as Hsplit. replace (S (k - 1))%nat with k in Hsplit by lia.
  assert (start x < id) as Hlow.
  { apply (bool_decide_eq_true (start x < id)). apply (partition_point_take p l). fold k.
    eapply list_elem_of_lookup_2. rewrite lookup_take_lt; [exact Hx|lia]. }
  split.
  - intros Hend. apply Exists_exists. exists x. split; [by eapply list_elem_of_lookup_2|]. unfold in_interval. lia.
  - intros (i & Hi & Hin)%Exists_exists. unfold in_interval in Hin. rewrite <- Hsplit in Hi, Hok.
    apply elem_of_app in Hi as [Hi|[->|Hi]%elem_of_cons]; [|lia|specialize (Hhigh i Hi); lia].
    pose proof (merged_before _ _ _ _ Hok Hi). lia.
Qed.

Lemma omap_interval (records : list MapLookupRecord) i :
  i ∈ omap interval_of records <->
  exists e, e ∈ records /\ blk_map_ref_start e <= blk_map_ref_end e /\
            i = mkInterval (blk_map_ref_start e) (blk_map_ref_end e).
Proof.
  rewrite list_elem_of_omap. split.
  - intros (e & He & Hi). unfold interval_of in Hi. case_decide; [done|].
    injection Hi as <-. exists e. split_and!; [done|lia|done].
  - intros (e & He & Hle & ->). exists e. split; [done|]. unfold interval_of. by rewrite decide_False by lia.
Qed.

(** * Theorem *)

(** C23: the merged interval index used for a whole batch answers exactly as the
    scan of the lookup table used for a single record: a record is referenced
    when some lookup range contains it. *)
Theorem reference_index_exact records id :
  Forall wf_lookup records -> u64_ok id ->
  contains (from_lookup_records records) id = still_referenced records id.
Proof.
  intros Hwf Hid. unfold u64_ok in Hid. apply eq_true_iff_eq.
  assert (still_referenced records id = true <-> Exists (in_interval id) (omap interval_of records)) as ->.
  { unfold still_referenced. rewrite existsb_exists, Exists_exists. split.
    - intros (e & He%list_elem_of_In & [H1%bool_decide_eq_true H2%bool_decide_eq_true]%andb_prop).
      exists (mkInterval (blk_map_ref_start e) (blk_map_ref_end e)).
      split; [apply omap_interval; exists e; split_and!; [done|lia|done]|done].
    - intros (i & (e & He & _ & ->)%omap_interval & [H1 H2]). exists e.
      split; [by apply list_elem_of_In|]. apply andb_true_intro. by rewrite !bool_decide_eq_true. }
  assert (sort_intervals (omap interval_of records) ≡ₚ omap interval_of records) as Hp
    by (unfold sort_intervals; by rewrite !sort_by_key_perm).
  assert (sorted_by start (sort_intervals (omap interval_of records))) as Hs by apply sort_by_key_sorted.
  assert (Forall (fun i => start i <= end_ i /\ end_ i <= U64_MAX) (sort_intervals (omap interval_of records))) as Hb.
  { rewrite Hp. apply Forall_forall. intros i (e & He & Hle & ->)%omap_interval. cbn. split; [done|].
    rewrite Forall_forall in Hwf. destruct (Hwf e He) as (_ & _ & _ & _ & H). unfold u64_ok in H. lia. }
  rewrite <- Hp. unfold from_lookup_records.
  destruct (sort_intervals (omap interval_of records)) as [|x l];
    [split; [done|by intros ?%Exists_nil]|].
  apply Forall_cons in Hb as [[Hx _] Hb]. inversion Hs as [|? ? Hs' Hf]; subst.
  destruct (merge_spec l x Hx Hb Hf Hs') as (Hok & _ & Hcov).
  rewrite contains_spec by done. apply Hcov. lia.
Qed.

Lemma reference_index_exact_witness :
  contains (from_lookup_records [mkLookup 0 0 0 8 10; mkLookup 0 0 0 1 3; mkLookup 0 0 0 4 4;
                                 mkLookup 0 0 0 2 6; mkLookup 0 0 0 20 18]) 7 = false.
Proof.
  rewrite reference_index_exact; [done| |by unfold u64_ok].
  rewrite !Forall_cons. unfold wf_lookup, u64_ok; cbn. split_and!; lia || constructor.
Defined.
