(* ===== verification/RuntimeState.v ===== *)
(** * Runtime state files (storage/runtime_state.rs)

    The filemark positions and the retention flags of a cartridge, each a small
    file replaced atomically. *)

From S2P Require Import Prelude Bytes Text Errors Fs Layout TapeState Compression Records.
From S2P Require Import World Crc Segment.

Definition FILEMARKS_STATE_FILE : string := "filemarks.state".
Definition RETENTION_STATE_FILE : string := "retention.state".
Definition MAX_FILEMARKS : Z := 1000000.
Definition MAX_FILEMARKS_STATE_BYTES : Z := 8 + MAX_FILEMARKS * 8.

Record RetentionRuntimeState : Type := mkRetention { rs_is_worm_media : bool; rs_retention_locked : bool }.

Definition encode_filemarks (marks : list Z) : list Z :=
  to_le 8 (Zlen marks) ++ concat (map (to_le 8) marks).

(** The checks and the loop of [load_filemarks] on the bytes read. *)
Definition decode_filemarks (bytes : list Z) : Result StorageError (list Z) :=
  if decide (length bytes < 8)%nat then Err (Corrupt "filemarks state too short")
  else
    let count := from_le (slice 0 8 bytes) in
    if decide (MAX_FILEMARKS < count)
    then Err (Corrupt "filemarks count exceeds maximum supported entries")
    else if decide (Zlen bytes <> 8 + count * 8) then Err (Corrupt "filemarks state length mismatch")
    else Ok (map from_le (chunks_of 8 (drop 8 bytes))).

Definition encode_retention (worm locked : bool) : list Z :=
  let flags := [b2z worm; b2z locked] in flags ++ to_le 2 (as_u16 (checksum32 flags)).
Definition decode_retention (payload : list Z) : Result StorageError RetentionRuntimeState :=
  let found := from_le (slice 2 4 payload) in
  let expected := Z.land (checksum32 (slice 0 2 payload)) 0xFFFF in
  if decide (found <> expected) then Err (Corrupt "retention state checksum mismatch")
  else Ok (mkRetention (negb (bool_decide (byte_at payload 0 = 0)))
                       (negb (bool_decide (byte_at payload 1 = 0)))).

Section Ops.
Context `{HOST : Host}.

Definition state_write (path : string) (payload : list Z) : M World StorageError unit :=
  io (atomic_write (tmp_path_for path) path payload).

Definition persist_filemarks (root : string) (marks : list Z) : M World StorageError unit :=
  state_write (path_join root FILEMARKS_STATE_FILE) (encode_filemarks marks).

Definition load_filemarks (root : string) : M World StorageError (list Z) :=
  let path := path_join root FILEMARKS_STATE_FILE in
  let! found := path_exists path in
  if found then
    let! (len, _) := io (fs_metadata path) in
    if decide (MAX_FILEMARKS_STATE_BYTES < len)
    then failM (Corrupt "filemarks state exceeds maximum supported size")
    else let! bytes := io (fs_read path) in liftM (decode_filemarks bytes)
  else retM [].

Definition persist_retention_state (root : string) (worm locked : bool) : M World StorageError unit :=
  state_write (path_join root RETENTION_STATE_FILE) (encode_retention worm locked).

Definition load_retention_state (root : string) : M World StorageError (option RetentionRuntimeState) :=
  let path := path_join root RETENTION_STATE_FILE in
  let! found := path_exists path in
  if found then
    let! i := io (fs_open path) in
    let! payload := io (fs_read_exact_at i 0 4) in
    let! st := liftM (decode_retention payload) in retM (Some st)
  else retM None.
End Ops.

(** ** Codecs *)
Lemma length_marks marks : length (concat (map (to_le 8) marks)) = (8 * length marks)%nat.
Proof. induction marks; cbn [map concat length]; [done|]. rewrite length_app, length_to_le. lia. Qed.

Lemma length_encode_filemarks marks : Zlen (encode_filemarks marks) = 8 + Zlen marks * 8.
Proof. unfold encode_filemarks, Zlen. rewrite length_app, length_to_le, length_marks. lia. Qed.

Lemma decode_encode_filemarks marks :
  Forall u64_ok marks -> Zlen marks <= MAX_FILEMARKS ->
  decode_filemarks (encode_filemarks marks) = Ok marks.
Proof.
  intros Hm Hl. pose proof (length_encode_filemarks marks) as L. unfold MAX_FILEMARKS in *.
  unfold decode_filemarks. rewrite decide_False by (unfold Zlen in *; lia).
  assert (slice 0 8 (encode_filemarks marks) = to_le 8 (Zlen marks)) as ->
    by (unfold encode_filemarks; by rewrite slice_here by apply length_to_le).
  rewrite from_le_to_le by (unfold Zlen in *; cbn; lia).
  unfold MAX_FILEMARKS. rewrite decide_False, decide_False by lia.
  unfold encode_filemarks. rewrite drop_app_length' by (by rewrite length_to_le).
  rewrite chunks_concat by (lia || apply Forall_map, Forall_true; intros; apply length_to_le).
  f_equal. rewrite map_map. clear L Hl.
  induction Hm as [|m marks Hx Hm IH]; cbn; [done|]. unfold u64_ok in Hx.
  rewrite from_le_to_le by (cbn; lia). by f_equal.
Qed.

Lemma decode_encode_retention worm locked :
  decode_retention (encode_retention worm locked) = Ok (mkRetention worm locked).
Proof. by destruct worm, locked; vm_compute. Qed.

(** ** Files *)
Section Laws.
Context `{HOST : Host}.

Lemma tmp_path_ne path : tmp_path_for path <> path.
Proof. apply string_app_ne. Qed.

(** Writing a state file, under any faults. *)
Lemma state_write_spec w path payload :
  wf_fs (w_fs w) ->
  let r := state_write path payload w in
  wf_fs (w_fs (snd r)) /\
  (contents (w_fs (snd r)) path = contents (w_fs w) path \/ contents (w_fs (snd r)) path = Some payload) /\
  (fst r = Ok tt -> contents (w_fs (snd r)) path = Some payload) /\
  (no_faults -> fst r = Ok tt).
Proof.
  intros Hw. unfold state_write. rewrite io_run.
  destruct (atomic_write_spec (w_fs w) (tmp_path_for path) path payload Hw (tmp_path_ne path))
    as (H1 & H2 & _ & H4 & H5).
  destruct (atomic_write _ path payload (w_fs w)) as [[[]|e] fs']; cbn in *; split_and!; auto; try done.
  intros Hn. specialize (H5 Hn). done.
Qed.

Lemma path_exists_ok w path d :
  contents (w_fs w) path = Some d -> path_exists path w = (Ok true, w).
Proof.
  intros Hc. unfold path_exists. rewrite io_run. cbn. unfold contents in Hc.
  destruct (file_at (w_fs w) path) as [n|] eqn:E; [|done].
  rewrite bool_decide_eq_true_2 by eauto. by destruct w.
Qed.

Lemma load_filemarks_run w root bytes :
  no_faults -> contents (w_fs w) (path_join root FILEMARKS_STATE_FILE) = Some bytes ->
  fst (load_filemarks root w) =
  if decide (MAX_FILEMARKS_STATE_BYTES < Zlen bytes)
  then Err (Corrupt "filemarks state exceeds maximum supported size")
  else decode_filemarks bytes.
Proof.
  intros Hn Hc. unfold load_filemarks. rewrite (bindM_run _ _ _ _ _ (path_exists_ok _ _ _ Hc)).
  unfold bindM at 1. rewrite io_run. destruct (fs_metadata_ok _ _ _ Hn Hc) as [t ->].
  cbn [fst snd map_err]. case_decide; [done|]. unfold bindM at 1. rewrite io_run.
  set (fs1 := (w_fs w) <| fs_tick := _ |>). change (w_fs (w <| w_fs := fs1 |>)) with fs1.
  pose proof (fs_read_ok fs1 _ bytes Hn Hc) as Hr.
  destruct (fs_read _ fs1) as [r fs2]. cbn in Hr. by rewrite Hr.
Qed.

Lemma load_retention_run w root payload :
  no_faults -> contents (w_fs w) (path_join root RETENTION_STATE_FILE) = Some payload ->
  length payload = 4%nat ->
  fst (load_retention_state root w) = (let? st := decode_retention payload in Ok (Some st)).
Proof.
  intros Hn Hc Hl. unfold load_retention_state. rewrite (bindM_run _ _ _ _ _ (path_exists_ok _ _ _ Hc)).
  unfold bindM at 1. rewrite io_run. destruct (fs_open_ok _ _ _ Hn Hc) as (i & -> & Hi).
  cbn [fst snd map_err]. set (fs1 := (w_fs w) <| fs_tick := _ |>).
  unfold bindM at 1. rewrite io_run. change (w_fs (w <| w_fs := fs1 |>)) with fs1.
  rewrite (fs_read_exact_ok fs1 _ i payload 0 4) by (done || lia). cbn [fst snd map_err].
  rewrite <- Hl at 1. unfold slice. rewrite drop_0, Nat.sub_0_r, take_ge by lia.
  unfold bindM, liftM. by destruct (decode_retention payload).
Qed.

(** * Theorems *)


(** C37: the number of filemarks is bounded when they are loaded but not when
    they are persisted: beyond a million, the list is written successfully and
    can never be loaded again. *)
Theorem filemarks_limit_lockout w root marks :
  no_faults -> wf_fs (w_fs w) -> MAX_FILEMARKS < Zlen marks ->
  let r := persist_filemarks root marks w in
  fst r = Ok tt /\
  fst (load_filemarks root (snd r)) = Err (Corrupt "filemarks state exceeds maximum supported size").
Proof.
  intros Hn Hw Hl r.
  destruct (state_write_spec w (path_join root FILEMARKS_STATE_FILE) (encode_filemarks marks) Hw)
    as (_ & _ & H3 & H4).
  unfold r, persist_filemarks. split; [by apply H4|].
  rewrite (load_filemarks_run _ _ _ Hn (H3 (H4 Hn))).
  by rewrite decide_True by (rewrite length_encode_filemarks;
    unfold MAX_FILEMARKS_STATE_BYTES, MAX_FILEMARKS in *; lia).
Qed.

(** The WORM and retention-lock flags survive a restart. *)
Theorem retention_roundtrip w root worm locked :
  no_faults -> wf_fs (w_fs w) ->
  let r := persist_retention_state root worm locked w in
  fst r = Ok tt /\ fst (load_retention_state root (snd r)) = Ok (Some (mkRetention worm locked)).
Proof.
  intros Hn Hw r.
  destruct (state_write_spec w (path_join root RETENTION_STATE_FILE) (encode_retention worm locked) Hw)
    as (_ & _ & H3 & H4).
  unfold r, persist_retention_state. split; [by apply H4|].
  rewrite (load_retention_run _ _ _ Hn (H3 (H4 Hn))) by (by destruct worm, locked).
  by rewrite decode_encode_retention.
Qed.
End Laws.


Lemma filemarks_limit_lockout_witness :
  fst (load_filemarks (HOST := quiet_host) "/pool/c1"
         (snd (persist_filemarks (HOST := quiet_host) "/pool/c1" (replicate (Z.to_nat 1000001) 7)
                 (fresh_process empty_fs))))
  = Err (Corrupt "filemarks state exceeds maximum supported size").
Proof.
  refine (proj2 (filemarks_limit_lockout (HOST := quiet_host) (fresh_process empty_fs) "/pool/c1"
    (replicate (Z.to_nat 1000001) 7) quiet_no_faults wf_empty_fs _)).
  unfold Zlen, MAX_FILEMARKS. rewrite length_replicate. lia.
Defined.

Lemma retention_roundtrip_witness :
  fst (load_retention_state (HOST := quiet_host) "/pool/c1"
         (snd (persist_retention_state (HOST := quiet_host) "/pool/c1" true false (fresh_process empty_fs))))
  = Ok (Some (mkRetention true false)).
Proof.
  exact (proj2 (retention_roundtrip (HOST := quiet_host) (fresh_process empty_fs) "/pool/c1" true false
    quiet_no_faults wf_empty_fs)).
Defined.
