(* ===== verification/SegmentIndex.v ===== *)
(** * The segment index (storage/segment_index.rs)

    The descriptors of a cartridge's data segments.  One segment is active and
    takes the appends; when the next record would exceed the size limit it is
    sealed and a new one is started.  The index is written back lazily. *)

From S2P Require Import Prelude Bytes Text Errors Fs Layout TapeState Compression Records.
From S2P Require Import World Crc Segment.

Definition DEFAULT_MAX_DATA_SEGMENT_SIZE : Z := 256 * 1024 * 1024.
Definition SEGMENT_INDEX_PREFIX : list Z := bytes_of_string "SDI1".

Definition fresh_descriptor (seq : Z) : SegmentDescriptor := mkDescriptor seq 0 0 0 SActive CNone 0.
Definition SegmentIndex_new (max : Z) : SegmentIndex_ := mkSegmentIndex max [fresh_descriptor 0] 1.

Definition is_active_segment (d : SegmentDescriptor) : bool := bool_decide (seg_state d = SActive).
Definition active_count (ds : list SegmentDescriptor) : Z := Zlen (filter is_active_segment ds).

Definition active_descriptor (index : SegmentIndex_) : Result StorageError SegmentDescriptor :=
  ok_or (snd <$> list_find is_active_segment (descriptors index)) (Corrupt "active data segment missing").
Definition descriptor_for_segment (index : SegmentIndex_) (id : Z) : option SegmentDescriptor :=
  snd <$> list_find (fun d => segment_seq d = id) (descriptors index).
Definition descriptor_for_blob (index : SegmentIndex_) (id : Z) : option SegmentDescriptor :=
  snd <$> list_find (fun d => contains_blob d id) (descriptors index).

Definition index_encode (index : SegmentIndex_) : list Z :=
  SEGMENT_INDEX_PREFIX ++ to_le 4 (max_segment_size index) ++
  to_le 4 (active_count (descriptors index)) ++ to_le 4 (Zlen (descriptors index)) ++
  to_le 8 (next_segment_seq index) ++ encode_all (descriptors index).

Definition decode_segment_index (payload : list Z) : Result StorageError SegmentIndex_ :=
  if decide ((length payload < 24)%nat \/ take 4 payload <> SEGMENT_INDEX_PREFIX)
  then Err (Corrupt "segment index prefix mismatch")
  else
    let max := from_le (slice 4 8 payload) in
    let actives := from_le (slice 8 12 payload) in
    let? total := checked_metadata_record_count (from_le (slice 12 16 payload)) in
    let next := from_le (slice 16 24 payload) in
    if decide (Zlen payload <> total * Z.of_nat SEGMENT_DESCRIPTOR_SIZE + 24)
    then Err (Corrupt "segment index descriptor length mismatch")
    else
      let? ds := decode_all (drop 24 payload) in
      if decide (active_count ds <> actives) then Err (Corrupt "segment index active count mismatch")
      else Ok (mkSegmentIndex max ds next).

(** Change the first descriptor that satisfies [p]. *)
Fixpoint update_first (p : SegmentDescriptor -> bool) (f : SegmentDescriptor -> SegmentDescriptor)
  (ds : list SegmentDescriptor) : option (list SegmentDescriptor) :=
  match ds with
  | [] => None
  | d :: ds' => if p d then Some (f d :: ds') else (fun l => d :: l) <$> update_first p f ds'
  end.
Definition has_seq (seq : Z) (d : SegmentDescriptor) : bool := bool_decide (segment_seq d = seq).

Definition append_to_descriptor (bytes blob_id stored_len : Z) (codec : CompressionCodec)
  (d : SegmentDescriptor) : SegmentDescriptor :=
  let d := d <| payload_bytes := bytes |> in
  let d := if decide (first_blob_id d = 0 \/ blob_id < first_blob_id d)
           then d <| first_blob_id := blob_id |> else d in
  let d := if decide (last_blob_id d < blob_id) then d <| last_blob_id := blob_id |> else d in
  let d := d <| live_bytes := sat_add32 (live_bytes d) stored_len |> in
  if decide (codec = CNone) then d else d <| seg_compression := codec |>.

Definition record_blob_append (index : SegmentIndex_) (seq bytes blob_id stored_len : Z)
  (codec : CompressionCodec) : Result StorageError SegmentIndex_ :=
  let? ds := ok_or (update_first (has_seq seq) (append_to_descriptor bytes blob_id stored_len codec)
                      (descriptors index)) (SNotFound "segment descriptor not found") in
  Ok (index <| descriptors := ds |>).

Definition seal_segment (index : SegmentIndex_) (seq : Z) : Result StorageError SegmentIndex_ :=
  let? ds := ok_or (update_first (has_seq seq) (fun d => d <| seg_state := Sealed |>) (descriptors index))
               (SNotFound "segment descriptor not found") in
  Ok (index <| descriptors := ds |>).

Definition remove_segment_descriptor (index : SegmentIndex_) (seq : Z) : SegmentIndex_ :=
  index <| descriptors := filter (fun d => segment_seq d <> seq) (descriptors index) |>.

(** The active segment is full for a record of [record_len] bytes. *)
Definition should_rotate (index : SegmentIndex_) (active : SegmentDescriptor) (record_len prefix_len : Z) : bool :=
  let prefix := if decide (payload_bytes active = 0) then prefix_len else 0 in
  let projected := sat_add64 (sat_add64 (payload_bytes active) prefix) record_len in
  bool_decide (0 < payload_bytes active) && bool_decide (max_segment_size index < projected).

Section Ops.
Context `{HOST : Host} `{ENV : Environ} `{C : Crc32c}.

Definition configured_max_segment_size : Z :=
  match getenv "HOLO_SEGMENT_SIZE" with
  | Some raw => match parse_uint U32_MAX (trim raw) with
                | Some v => if decide (0 < v) then v else DEFAULT_MAX_DATA_SEGMENT_SIZE
                | None => DEFAULT_MAX_DATA_SEGMENT_SIZE
                end
  | None => DEFAULT_MAX_DATA_SEGMENT_SIZE
  end.

Definition data_segment_path (layout : LayoutPaths) (seq : Z) : string :=
  path_join (root layout) ("data_" +:+ string_of_bytes (pad6 seq) +:+ ".seg").

Definition load_segment_index (path : string) : M World StorageError SegmentIndex_ :=
  let! (_, payload) := read_segment_file_bounded path SegmentIndex MAX_MAINTENANCE_METADATA_BYTES in
  liftM (decode_segment_index payload).

Definition set_index (path : string) (c : CachedSegmentIndex) : M World StorageError unit :=
  modifyM (fun w => w <| w_index := <[path := c]> (w_index w) |>).
(** [file_stamp(path).ok()]. *)
Definition stamp_ok (path : string) : M World StorageError (option FileStamp) :=
  let! r := tryM (file_stamp path) in
  retM (match r with Ok s => Some s | Err _ => None end).

Definition load_segment_index_for_append (path : string) : M World StorageError SegmentIndex_ :=
  let! w := getM in
  let! hit := (match w_index w !! path with
               | Some c =>
                   if ic_dirty c then retM (Some (ic_index c))
                   else let! current := stamp_ok path in
                        retM (if decide (ic_stamp c = current) then Some (ic_index c) else None)
               | None => retM None
               end) in
  match hit with
  | Some index => retM index
  | None =>
      let! index := load_segment_index path in
      let! stamp := stamp_ok path in
      set_index path (mkCachedIndex index false 0 stamp) ;;! retM index
  end.

Definition store_segment_index_for_append (path : string) (index : SegmentIndex_)
  : M World StorageError unit :=
  let! w := getM in
  let old := w_index w !! path in
  set_index path (mkCachedIndex index true
    (default 1 ((fun c => sat_add64 (ic_generation c) 1) <$> old)) (old ≫= ic_stamp)).

Definition store_segment_index_clean (path : string) (index : SegmentIndex_)
  : M World StorageError unit :=
  let! w := getM in
  let! stamp := stamp_ok path in
  set_index path (mkCachedIndex index false (default 0 (ic_generation <$> w_index w !! path)) stamp).

Definition invalidate_segment_index_cache (path : string) : M World StorageError unit :=
  modifyM (fun w => w <| w_index := delete path (w_index w) |>).

Definition persist_segment_index (path : string) (index : SegmentIndex_) : M World StorageError unit :=
  write_segment_file path SegmentIndex 7 (next_segment_seq index) (index_encode index).

Definition flush_segment_index_for_append (path : string) : M World StorageError unit :=
  let! w := getM in
  match w_index w !! path with
  | None => retM tt
  | Some c =>
      if ic_dirty c then
        persist_segment_index path (ic_index c) ;;!
        let! stamp := stamp_ok path in
        let! w := getM in
        match w_index w !! path with
        | Some current =>
            if decide (ic_generation current = ic_generation c)
            then set_index path (current <| ic_dirty := false |> <| ic_stamp := stamp |>)
            else retM tt
        | None => retM tt
        end
      else retM tt
  end.

Definition initialize_segment_index (layout : LayoutPaths) : M World StorageError SegmentIndex_ :=
  let! found := path_exists (segment_index_file layout) in
  if found then load_segment_index (segment_index_file layout)
  else
    let index := SegmentIndex_new configured_max_segment_size in
    let active_path := data_segment_path layout 0 in
    let! there := path_exists active_path in
    (if there then retM tt else write_segment_file active_path Data 1 0 []) ;;!
    persist_segment_index (segment_index_file layout) index ;;!
    retM index.

Definition active_segment_path (layout : LayoutPaths) (index : SegmentIndex_)
  : Result StorageError string :=
  let? active := active_descriptor index in Ok (data_segment_path layout (segment_seq active)).

Definition rotate_active_segment (layout : LayoutPaths) (index : SegmentIndex_)
  : M World StorageError SegmentIndex_ :=
  let! ds := liftM (ok_or (update_first is_active_segment (fun d => d <| seg_state := Sealed |>)
                             (descriptors index)) (Corrupt "active data segment missing")) in
  let! seq := liftM (ok_or (u32_try_from (next_segment_seq index))
                       (Conflict "segment sequence exceeds u32")) in
  write_segment_file (data_segment_path layout seq) Data seq 0 [] ;;!
  let! next := liftM (ok_or (checked_add64 (next_segment_seq index) 1)
                        (Conflict "segment sequence space is exhausted")) in
  let index := index <| descriptors := ds ++ [fresh_descriptor seq] |>
                     <| next_segment_seq := next |> in
  persist_segment_index (segment_index_file layout) index ;;!
  retM index.

Definition prepare_active_segment_for_append (layout : LayoutPaths) (index : SegmentIndex_)
  (record_len prefix_len : Z) : M World StorageError (Z * SegmentIndex_) :=
  let! active := liftM (active_descriptor index) in
  let! index := (if should_rotate index active record_len prefix_len
                 then rotate_active_segment layout index else retM index) in
  let! active := liftM (active_descriptor index) in
  retM (segment_seq active, index).

Definition sync_indexed_segments (layout : LayoutPaths) : M World StorageError unit :=
  let! index := load_segment_index_for_append (segment_index_file layout) in
  forM (descriptors index) (fun d =>
    let path := data_segment_path layout (segment_seq d) in
    let! there := path_exists path in
    if there then
      let! _ := validate_segment_shape path Data in
      let! _ := io (fs_open path) in io fs_sync
    else retM tt).
End Ops.

(** ** Invariant *)
Record seg_inv (index : SegmentIndex_) : Prop := {
  sv_active : active_count (descriptors index) = 1;
  sv_seqs : NoDup (segment_seq <$> descriptors index);
  sv_next : forall d, d ∈ descriptors index -> segment_seq d < next_segment_seq index
}.

Lemma update_first_split p f ds ds' :
  update_first p f ds = Some ds' ->
  exists l1 d l2, ds = l1 ++ d :: l2 /\ p d = true /\ (forall x, x ∈ l1 -> p x = false) /\
    ds' = l1 ++ f d :: l2.
Proof.
  revert ds'. induction ds as [|d ds IH]; intros ds' H; cbn in H; [done|].
  destruct (p d) eqn:E.
  - injection H as <-. exists [], d, ds. split_and!; [done|done|set_solver|done].
  - destruct (update_first p f ds) as [l|]; [|done]. injection H as <-.
    destruct (IH l eq_refl) as (l1 & x & l2 & -> & Hp & Hn & ->).
    exists (d :: l1), x, l2. split_and!; [done|done| |done].
    intros y [->|Hy]%elem_of_cons; auto.
Qed.

Lemma active_count_app l1 l2 : active_count (l1 ++ l2) = active_count l1 + active_count l2.
Proof. unfold active_count, Zlen. rewrite filter_app, length_app. lia. Qed.
Lemma active_count_one d : active_count [d] = if is_active_segment d then 1 else 0.
Proof. unfold active_count, Zlen. rewrite filter_cons, filter_nil. by destruct (is_active_segment d). Qed.
Lemma active_count_cons d l : active_count (d :: l) = active_count [d] + active_count l.
Proof. exact (active_count_app [d] l). Qed.
Lemma active_count_nonneg l : 0 <= active_count l.
Proof. unfold active_count, Zlen. lia. Qed.

(** With one active descriptor, it is the one that is found. *)
Lemma active_found index :
  seg_inv index -> exists d, active_descriptor index = Ok d /\ d ∈ descriptors index /\ is_active_segment d.
Proof.
  intros [Ha _ _]. unfold active_descriptor.
  destruct (list_find is_active_segment (descriptors index)) as [[i d]|] eqn:E.
  - apply list_find_Some in E as (E & Hd & _). exists d. split_and!; [done| |done].
    by eapply list_elem_of_lookup_2.
  - apply list_find_None in E. unfold active_count, Zlen in Ha.
    assert (forall l, Forall (fun x => ~ is_active_segment x) l -> filter is_active_segment l = []) as Hf.
    { induction 1 as [|x l Hx _ IH]; [done|]. by rewrite filter_cons, decide_False by done. }
    by rewrite (Hf _ E) in Ha.
Qed.

Lemma append_keeps d b id n c :
  segment_seq (append_to_descriptor b id n c d) = segment_seq d /\
  seg_state (append_to_descriptor b id n c d) = seg_state d /\
  payload_bytes (append_to_descriptor b id n c d) = b.
Proof. unfold append_to_descriptor. by repeat case_decide. Qed.

Lemma record_append_inv index seq b id n c index' :
  seg_inv index -> record_blob_append index seq b id n c = Ok index' -> seg_inv index'.
Proof.
  intros [Ha Hs Hn] H. unfold record_blob_append in H.
  destruct (update_first _ _ _) as [ds|] eqn:E; [|done]. injection H as <-.
  apply update_first_split in E as (l1 & d & l2 & E & _ & _ & ->).
  destruct (append_keeps d b id n c) as (K1 & K2 & _). split; cbn.
  - rewrite E in Ha. rewrite active_count_app, active_count_cons, active_count_one in *.
    unfold is_active_segment in *. by rewrite K2.
  - rewrite E in Hs. rewrite fmap_app, fmap_cons in *. by rewrite K1.
  - intros x Hx. rewrite E in Hn. apply elem_of_app in Hx as [Hx|[->|Hx]%elem_of_cons];
      [|rewrite K1|]; apply Hn; set_solver.
Qed.

(** A sealed active segment and a fresh one behind it. *)
Lemma rotated_inv index ds :
  seg_inv index ->
  update_first is_active_segment (fun d => d <| seg_state := Sealed |>) (descriptors index) = Some ds ->
  active_count ds = 0 /\ (segment_seq <$> ds) = (segment_seq <$> descriptors index) /\
  (forall d, d ∈ descriptors index -> exists d', d' ∈ ds /\ (d' = d \/ d' = d <| seg_state := Sealed |>)) /\
  (forall d', d' ∈ ds -> segment_seq d' < next_segment_seq index).
Proof.
  intros [Ha Hs Hn] E. apply update_first_split in E as (l1 & d & l2 & E & Hd & _ & ->).
  rewrite E in *. rewrite active_count_app, active_count_cons, active_count_one, Hd in Ha.
  pose proof (active_count_nonneg l1). pose proof (active_count_nonneg l2). split_and!.
  - rewrite active_count_app, active_count_cons, active_count_one.
    change (is_active_segment (d <| seg_state := Sealed |>)) with false. lia.
  - by rewrite !fmap_app, !fmap_cons.
  - intros x Hx. apply elem_of_app in Hx as [Hx|[->|Hx]%elem_of_cons].
    + exists x. set_solver.
    + exists (d <| seg_state := Sealed |>). set_solver.
    + exists x. set_solver.
  - intros x Hx. apply elem_of_app in Hx as [Hx|[->|Hx]%elem_of_cons]; [| |];
      [apply Hn; set_solver|apply (Hn d); set_solver|apply Hn; set_solver].
Qed.

Lemma decode_encode_index index :
  u32_ok (max_segment_size index) -> u64_ok (next_segment_seq index) ->
  Forall wf_descriptor (descriptors index) ->
  Zlen (descriptors index) <= MAX_MAINTENANCE_METADATA_RECORDS ->
  decode_segment_index (index_encode index) = Ok index.
Proof.
  intros Hm Hn Hd Hl. unfold MAX_MAINTENANCE_METADATA_RECORDS in Hl.
  assert (0 <= active_count (descriptors index) <= Zlen (descriptors index)) as Hc.
  { unfold active_count, Zlen. pose proof (length_filter is_active_segment (descriptors index)). lia. }
  unfold decode_segment_index.
  assert (Zlen (index_encode index) = Zlen (descriptors index) * 40 + 24) as L.
  { unfold index_encode, Zlen. rewrite !length_app, !length_to_le, length_encode_all.
    change (length SEGMENT_INDEX_PREFIX) with 4%nat. cbn [rec_size SegmentDescriptor_codec].
    unfold SEGMENT_DESCRIPTOR_SIZE. lia. }
  rewrite decide_False; cycle 1.
  { intros [H|H]; [unfold Zlen in *; lia|]. apply H. unfold index_encode. by rewrite take_app_length'. }
  rewrite L. unfold index_encode. change SEGMENT_INDEX_PREFIX with [83; 68; 73; 49].
  rewrite !(slice_skip _ _ [83; 68; 73; 49]) by (cbn; lia). cbn [length Nat.sub]. slices. fields_back.
  unfold u32_ok, u64_ok in *. unfold checked_metadata_record_count, MAX_MAINTENANCE_METADATA_RECORDS.
  rewrite decide_False by lia. cbn [rbind]. rewrite decide_False by (unfold SEGMENT_DESCRIPTOR_SIZE; lia).
  replace (drop 24 _) with (encode_all (descriptors index)); cycle 1.
  { rewrite !app_assoc. rewrite drop_app_length'; [done|]. rewrite !length_app, !length_to_le. done. }
  rewrite decode_all_encode by done. cbn [rbind].
  rewrite decide_False by lia. by destruct index.
Qed.

Lemma descriptor_encode_ok d : bytes_ok (descriptor_encode d).
Proof.
  unfold descriptor_encode, descriptor_body, bytes_ok. cbn zeta. rewrite !Forall_app.
  split_and!; try apply to_le_ok; repeat constructor; try done; destruct d as [? ? ? ? [] [] ?]; done.
Qed.
Lemma index_encode_ok index : bytes_ok (index_encode index).
Proof.
  unfold index_encode, bytes_ok. rewrite !Forall_app.
  split_and!; try apply to_le_ok; [repeat constructor; done|].
  unfold encode_all. induction (descriptors index); cbn; [constructor|].
  apply Forall_app. split; [apply descriptor_encode_ok|done].
Qed.

(** * Theorems *)
Section Theorems.
Context `{HOST : Host} `{ENV : Environ} `{CL : Crc32cLaws}.

(** C27: choosing the segment for an append keeps exactly one segment active,
    with distinct sequence numbers below the next one; no descriptor is lost
    (the full one is only sealed), and the record fits: the chosen segment is
    empty or stays within the size limit. *)
Theorem prepare_append_sound layout index record_len prefix_len w seq index' w' :
  seg_inv index -> 0 <= record_len -> 0 <= prefix_len -> max_segment_size index < U64_MAX ->
  (forall d, d ∈ descriptors index -> 0 <= payload_bytes d) ->
  prepare_active_segment_for_append layout index record_len prefix_len w = (Ok (seq, index'), w') ->
  seg_inv index' /\
  (exists d, d ∈ descriptors index' /\ is_active_segment d /\ segment_seq d = seq /\
     (payload_bytes d = 0 \/ payload_bytes d + record_len <= max_segment_size index)) /\
  (forall d, d ∈ descriptors index -> exists d', d' ∈ descriptors index' /\
     (d' = d \/ d' = d <| seg_state := Sealed |>)).
Proof.
  intros Hinv Hr Hp Hmax Hpos H. destruct (active_found index Hinv) as (a & Ea & Hin & Hact).
  unfold prepare_active_segment_for_append in H. rewrite Ea in H.
  apply bindM_Ok in H as (a' & w1 & E1 & H). injection E1 as <- <-.
  apply bindM_Ok in H as (ix & w2 & E2 & H). apply bindM_Ok in H as (b & w3 & E3 & H).
  injection H as <- <- <-. unfold liftM in E3. injection E3 as E3 _.
  destruct (should_rotate index a record_len prefix_len) eqn:Hrot; cycle 1.
  { injection E2 as <- _. rewrite Ea in E3. injection E3 as <-. split_and!; [done| |eauto].
    exists a. split_and!; try done. specialize (Hpos a Hin). unfold should_rotate in Hrot.
    case_decide; [by left|right]. apply andb_false_iff in Hrot.
    rewrite !bool_decide_eq_false in Hrot. unfold sat_add64 in Hrot. lia. }
  unfold rotate_active_segment in E2. apply bindM_Ok in E2 as (ds & w4 & E4 & E2).
  unfold liftM in E4. destruct (update_first _ _ _) as [ds'|] eqn:Eu; [|done]. injection E4 as -> _.
  apply bindM_Ok in E2 as (s & w5 & E5 & E2). unfold liftM, u32_try_from in E5.
  case_decide as Hs; [|done]. injection E5 as <- _.
  apply bindM_Ok in E2 as (u1 & w6 & _ & E2). apply bindM_Ok in E2 as (nx & w7 & E7 & E2).
  unfold liftM, checked_add64 in E7. case_decide; [|done]. injection E7 as <- _.
  apply bindM_Ok in E2 as (u2 & w8 & _ & E2). injection E2 as <- _.
  destruct (rotated_inv index ds Hinv Eu) as (Hc & Hseqs & Hkeep & Hlt). destruct Hinv as [_ Hnd Hnx].
  assert (seg_inv (index <| descriptors := ds ++ [fresh_descriptor (next_segment_seq index)] |>
                         <| next_segment_seq := next_segment_seq index + 1 |>)) as Hinv'.
  { split; cbn.
    - by rewrite active_count_app, active_count_one, Hc.
    - rewrite fmap_app, Hseqs. apply NoDup_app. split_and!; [done| |apply NoDup_singleton].
      intros x (d & -> & Hd)%list_elem_of_fmap Hx%list_elem_of_singleton. specialize (Hnx d Hd). cbn in Hx. lia.
    - intros d [Hd| ->%list_elem_of_singleton]%elem_of_app; [specialize (Hlt d Hd); lia|cbn; lia]. }
  split_and!; [done| |].
  - destruct (active_found _ Hinv') as (d & Ed & Hd & Hda). rewrite Ed in E3. injection E3 as <-.
    exists d. split_and!; try done. left. cbn in Hd.
    apply elem_of_app in Hd as [Hd| ->%list_elem_of_singleton]; [|done]. exfalso.
    unfold active_count, Zlen in Hc. assert (d ∈ filter is_active_segment ds) as Hf
      by (by apply list_elem_of_filter). destruct (filter _ ds); [set_solver|cbn in Hc; lia].
  - intros d Hd. destruct (Hkeep d Hd) as (d' & ? & ?). exists d'. cbn. set_solver.
Qed.

End Theorems.

(** ** Witnesses *)
Definition demo_index : SegmentIndex_ :=
  mkSegmentIndex 100 [(fresh_descriptor 0) <| payload_bytes := 90 |>] 1.
Definition demo_layout : LayoutPaths := paths_in "/pool/c1".

Lemma prepare_append_sound_witness :
  exists index' w', prepare_active_segment_for_append (HOST := quiet_host) (C := bitwise_crc32c) demo_layout
      demo_index 20 4 (fresh_process empty_fs) = (Ok (1, index'), w') /\ seg_inv index'.
Proof.
  assert (exists index' w', prepare_active_segment_for_append (HOST := quiet_host) (C := bitwise_crc32c)
    demo_layout demo_index 20 4 (fresh_process empty_fs) = (Ok (1, index'), w')) as (index' & w' & E)
    by (eexists _, _; vm_compute; reflexivity).
  exists index', w'. split; [exact E|].
  refine (proj1 (prepare_append_sound (HOST := quiet_host) demo_layout demo_index 20 4
    (fresh_process empty_fs) 1 index' w' _ _ _ _ _ E)).
  - split; [by vm_compute|apply NoDup_singleton|]. intros d ->%list_elem_of_singleton. by vm_compute.
  - lia.
  - lia.
  - by vm_compute.
  - intros d ->%list_elem_of_singleton. by vm_compute.
Defined.

