(* ===== verification/Slots.v ===== *)
(** * The files of a cartridge

    The metadata files and the data segments of a layout have pairwise different
    names, none of which is the temporary name of another: operations on one
    file cannot touch another. *)

From S2P Require Import Prelude Bytes Text Errors Fs Layout TapeState Compression Records.
From S2P Require Import World Crc Segment Footprint Logs SegmentIndex.

Inductive slot : Type := SMeta | SBlk | SLookup | SReclaim | SDedup | SIndex | SData (seq : Z).

Definition slot_path (p : LayoutPaths) (s : slot) : string :=
  match s with
  | SMeta => metadata_file p
  | SBlk => blk_map_file p
  | SLookup => lookup_file p
  | SReclaim => reclaim_file p
  | SDedup => dedup_file p
  | SIndex => segment_index_file p
  | SData n => data_segment_path p n
  end.
Definition slot_ok (s : slot) : Prop := match s with SData n => u64_ok n | _ => True end.

(** What the storage operations need of the names. *)
Record layout_ok (p : LayoutPaths) : Prop := {
  lo_inj : forall s t, slot_ok s -> slot_ok t -> slot_path p s = slot_path p t -> s = t;
  lo_tmp : forall s t, slot_ok s -> slot_ok t -> with_extension_tmp (slot_path p t) <> slot_path p s
}.

(** The directory part of a joined path. *)
Definition dir_prefix (d : string) : list Z :=
  if decide (d = EmptyString) then []
  else match last (String.list_ascii_of_string d) with
       | Some c => if decide (c = Ascii.ascii_of_nat 47) then bytes_of_string d else bytes_of_string d ++ [47]
       | None => []
       end.
Lemma path_join_bytes d n : bytes_of_string (path_join d n) = dir_prefix d ++ bytes_of_string n.
Proof.
  unfold path_join, dir_prefix. repeat case_decide; [done|].
  destruct (last _) as [c|]; [|done]. case_decide; rewrite bytes_of_string_app; [done|].
  rewrite bytes_of_string_app, <- app_assoc. done.
Qed.

Lemma pad6_ok n : 0 <= n -> Forall is_digit (pad6 n).
Proof.
  intros Hn. unfold pad6. apply Forall_app. split; [|by apply show_uint_digits].
  apply Forall_replicate. unfold is_digit. lia.
Qed.
Lemma pad6_bytes n : 0 <= n -> bytes_ok (pad6 n).
Proof. intros Hn. eapply Forall_impl; [by apply pad6_ok|]. unfold is_digit, u8_ok. cbn. lia. Qed.
Lemma parse_zeros max k : 0 <= max -> parse_digits max 0 (replicate k 48) = Some 0.
Proof. intros Hm. induction k as [|k IH]; [done|]. cbn. rewrite !decide_True by lia. exact IH. Qed.
Lemma pad6_inj a b : u64_ok a -> u64_ok b -> pad6 a = pad6 b -> a = b.
Proof.
  intros Ha Hb H. assert (forall n, u64_ok n -> parse_digits U64_MAX 0 (pad6 n) = Some n) as Hp.
  { intros n Hn. unfold pad6. rewrite parse_digits_app, parse_zeros by lia. unfold u64_ok in Hn.
    apply parse_digits_dec; cbn; lia. }
  apply (f_equal (parse_digits U64_MAX 0)) in H. rewrite !Hp in H by done. by injection H.
Qed.

(** ** The standard layout *)
Definition slot_name (s : slot) : list Z :=
  match s with
  | SMeta => bytes_of_string "metadata.segment"
  | SBlk => bytes_of_string "blk_map.segment"
  | SLookup => bytes_of_string "lookup.segment"
  | SReclaim => bytes_of_string "reclaim.segment"
  | SDedup => bytes_of_string "dedup.segment"
  | SIndex => bytes_of_string "segment_index.segment"
  | SData n => bytes_of_string "data_" ++ pad6 n ++ bytes_of_string ".seg"
  end.
Lemma slot_path_bytes d s :
  slot_ok s -> bytes_of_string (slot_path (paths_in d) s) = dir_prefix d ++ slot_name s.
Proof.
  intros Hs. destruct s; cbn [slot_path paths_in metadata_file blk_map_file lookup_file reclaim_file
    dedup_file segment_index_file slot_name]; try apply path_join_bytes.
  unfold data_segment_path. rewrite path_join_bytes, !bytes_of_string_app. cbn in Hs.
  rewrite bytes_of_string_of_bytes; [done|]. apply pad6_bytes. unfold u64_ok in Hs. lia.
Qed.

Lemma slot_name_inj s t : slot_ok s -> slot_ok t -> slot_name s = slot_name t -> s = t.
Proof.
  destruct s as [| | | | | |a], t as [| | | | | |b]; intros Ha Hb H; try done. f_equal.
  apply pad6_inj; [done..|]. cbn [slot_name] in H. apply app_inv_head in H. by apply app_inv_tail in H.
Qed.

Lemma slot_name_last s : last (slot_name s) = Some 116 \/ last (slot_name s) = Some 103.
Proof.
  destruct s as [| | | | | |a]; [by left..|right]. cbn [slot_name].
  change (bytes_of_string ".seg") with ([46; 115; 101] ++ [103]). rewrite !app_assoc. apply last_snoc.
Qed.

Lemma tmp_last path : last (bytes_of_string (with_extension_tmp path)) = Some 112.
Proof.
  assert (exists y, with_extension_tmp path = y +:+ ".tmp") as [y ->].
  { unfold with_extension_tmp. cbv zeta. destruct (list_find _ (take _ _)) as [[i ?]|]; [|eauto].
    case_decide; eauto. }
  rewrite bytes_of_string_app. change (bytes_of_string ".tmp") with ([46; 116; 109] ++ [112]).
  rewrite app_assoc. apply last_snoc.
Qed.

(** Every cartridge directory has such names. *)
Lemma layout_paths_ok d : layout_ok (paths_in d).
Proof.
  split.
  - intros s t Hs Ht H. apply (f_equal bytes_of_string) in H. rewrite !slot_path_bytes in H by done.
    apply app_inv_head in H. by apply slot_name_inj.
  - intros s t Hs Ht H. apply (f_equal (last ∘ bytes_of_string)) in H. cbn in H.
    rewrite tmp_last, slot_path_bytes in H by done. rewrite last_app in H.
    destruct (slot_name_last s) as [E|E]; rewrite E in H; done.
Qed.
