(* ===== verification/IndexState.v ===== *)
(** * The current segment index

    The index a process works with is the cached one when it has unsaved
    changes and the one on disk otherwise.  [index_state w path index] says that
    it is [index]; the lemmas follow it through loading, storing, rotation and
    flushing. *)

From S2P Require Import Prelude Bytes Text Errors Fs Layout TapeState Compression Records.
From S2P Require Import World Crc Segment Footprint Logs SegmentIndex Slots.

Record wf_index (index : SegmentIndex_) : Prop := {
  wi_max : u32_ok (max_segment_size index);
  wi_next : u64_ok (next_segment_seq index);
  wi_descriptors : Forall wf_descriptor (descriptors index);
  wi_count : Zlen (descriptors index) <= MAX_MAINTENANCE_METADATA_RECORDS
}.

Lemma wf_index_decode index : wf_index index -> decode_segment_index (index_encode index) = Ok index.
Proof. intros [? ? ? ?]. by apply decode_encode_index. Qed.
Lemma wf_index_size index :
  wf_index index -> 96 + Zlen (index_encode index) <= MAX_MAINTENANCE_METADATA_BYTES.
Proof.
  intros [_ _ _ Hl].
  unfold index_encode, Zlen, MAX_MAINTENANCE_METADATA_BYTES, MAX_MAINTENANCE_METADATA_RECORDS in *.
  rewrite !length_app, !length_to_le, length_encode_all.
  change (length SEGMENT_INDEX_PREFIX) with 4%nat. cbn [rec_size SegmentDescriptor_codec].
  unfold SEGMENT_DESCRIPTOR_SIZE. lia.
Qed.

Section Laws.
Context `{HOST : Host} `{ENV : Environ} `{CL : Crc32cLaws}.

Definition index_file (w : World) (path : string) (index : SegmentIndex_) : Prop :=
  log_file w SegmentIndex path 7 (next_segment_seq index) (index_encode index) /\ wf_index index.

Record index_state (w : World) (path : string) (index : SegmentIndex_) : Prop := {
  ix_wf : wf_index index;
  ix_inv : seg_inv index;
  ix_disk : exists disk, index_file w path disk /\ (w_index w !! path = None -> disk = index) /\
    forall c, w_index w !! path = Some c -> ic_index c = index /\ (ic_dirty c = false -> disk = index)
}.

(** Steps that change only the cached index. *)
Definition index_only (w w' : World) : Prop :=
  w' = w <| w_fs := w_fs w' |> <| w_index := w_index w' |> /\ same_files (w_fs w) (w_fs w').

Lemma index_file_same w w' path index :
  index_file w path index -> same_files (w_fs w) (w_fs w') -> w_append w' = w_append w ->
  index_file w' path index.
Proof. intros [HL Hw] Hs Ha. split; [|done]. apply (log_file_same w); [done|by rewrite Ha|done]. Qed.

Lemma load_index_spec w path index :
  no_faults -> index_file w path index ->
  exists w', load_segment_index path w = (Ok index, w') /\
    w' = w <| w_fs := w_fs w' |> /\ same_files (w_fs w) (w_fs w').
Proof.
  intros Hn [HL Hw]. unfold load_segment_index.
  destruct (read_bounded_ok w SegmentIndex path 7 _ _ _ Hn HL (wf_index_size _ Hw)) as (w1 & E1 & F1 & S1).
  exists w1. rewrite (bindM_run _ _ _ _ _ E1). unfold liftM. by rewrite wf_index_decode.
Qed.

Lemma stamp_ok_spec w path d :
  no_faults -> contents (w_fs w) path = Some d ->
  exists s w', stamp_ok path w = (Ok (Some s), w') /\
    w' = w <| w_fs := w_fs w' |> /\ same_files (w_fs w) (w_fs w').
Proof.
  intros Hn Hc. destruct (file_stamp_ok w path d Hn Hc) as (n & w1 & E1 & _ & F1 & S1).
  unfold stamp_ok, tryM, bindM. rewrite E1. eauto.
Qed.

(** Loading for an append gives the current index. *)
Lemma load_for_append_spec w path index :
  no_faults -> index_state w path index ->
  exists w', load_segment_index_for_append path w = (Ok index, w') /\ index_state w' path index /\
    index_only w w'.
Proof.
  intros Hn [Hwf Hinv (disk & HD & Hnone & Hsome)]. pose proof (lf_contents _ _ _ _ _ _ (proj1 HD)) as Hc.
  assert (forall w1, w1 = w <| w_fs := w_fs w1 |> -> same_files (w_fs w) (w_fs w1) ->
    index_state w1 path index /\ index_only w w1) as Hsame.
  { intros w1 F1 S1. split; [|split; [rewrite F1; done|done]]. split; [done..|]. exists disk.
    split; [apply (index_file_same w); [done|done|by rewrite F1]|].
    replace (w_index w1) with (w_index w) by (by rewrite F1). done. }
  assert (forall w1, w1 = w <| w_fs := w_fs w1 |> -> same_files (w_fs w) (w_fs w1) -> disk = index ->
    exists w', (let! ix := load_segment_index path in let! stamp := stamp_ok path in
       set_index path (mkCachedIndex ix false 0 stamp) ;;! retM ix) w1 = (Ok index, w') /\
      index_state w' path index /\ index_only w w') as Hload.
  { intros w1 F1 S1 ->. assert (index_file w1 path index) as HD1
      by (apply (index_file_same w); [done|done|by rewrite F1]).
    destruct (load_index_spec w1 path index Hn HD1) as (w2 & E2 & F2 & S2).
    rewrite (bindM_run _ _ _ _ _ E2).
    assert (contents (w_fs w2) path = Some (segment_bytes (header_new SegmentIndex 7
      (next_segment_seq index) (index_encode index)) (index_encode index))) as Hc2
      by (rewrite (contents_same (w_fs w1)), (contents_same (w_fs w)) by done; done).
    destruct (stamp_ok_spec w2 path _ Hn Hc2) as (s & w3 & E3 & F3 & S3).
    rewrite (bindM_run _ _ _ _ _ E3). eexists. split; [reflexivity|].
    assert (same_files (w_fs w) (w_fs w3)) as S by eauto using same_files_trans.
    split; [|split; [rewrite F3, F2, F1; done|done]]. split; [done..|]. exists index. split_and!.
    - apply (index_file_same w); [done|done|]. cbn. rewrite F3, F2, F1. done.
    - done.
    - cbn. intros c. rewrite lookup_insert_eq. by intros [= <-]. }
  unfold load_segment_index_for_append, bindM at 1, getM.
  destruct (w_index w !! path) as [c|] eqn:Ec.
  - destruct (Hsome c eq_refl) as [<- Hclean]. destruct (ic_dirty c) eqn:Ed.
    + rewrite (bindM_run _ _ w (Some (ic_index c)) w) by done. exists w. split; [done|].
      apply Hsame; [by destruct w|done].
    + destruct (stamp_ok_spec w path _ Hn Hc) as (s & w1 & E1 & F1 & S1).
      unfold bindM at 1. rewrite (bindM_run _ _ _ _ _ E1). cbn [retM].
      case_decide; [exists w1; split; [done|by apply Hsame]|].
      apply (Hload w1); auto.
  - rewrite (bindM_run _ _ w None w) by done. apply (Hload w); [by destruct w|done|auto].
Qed.

(** Storing an index makes it the current one. *)
Lemma store_index_spec w path disk index :
  index_file w path disk -> wf_index index -> seg_inv index ->
  exists w', store_segment_index_for_append path index w = (Ok tt, w') /\ index_state w' path index /\
    index_only w w' /\ w_fs w' = w_fs w.
Proof.
  intros HD Hwf Hinv. unfold store_segment_index_for_append, bindM, getM, set_index, modifyM.
  eexists. split; [reflexivity|]. split_and!; [|by destruct w|done]. split; [done..|]. exists disk.
  split_and!.
  - apply (index_file_same w); done.
  - cbn. by rewrite lookup_insert_eq.
  - cbn. intros c. rewrite lookup_insert_eq. by intros [= <-].
Qed.

Lemma persist_index_spec w path index :
  no_faults -> wf_fs (w_fs w) -> with_extension_tmp path <> path -> wf_index index ->
  exists w', persist_segment_index path index w = (Ok tt, w') /\ files_only w w' /\
    frame [with_extension_tmp path; path] (w_fs w) (w_fs w') /\ index_file w' path index.
Proof.
  intros Hn Hw Ht Hwf. pose proof (wf_index_size _ Hwf) as Hs. unfold MAX_MAINTENANCE_METADATA_BYTES in Hs.
  destruct (write_segment_log w path SegmentIndex 7 (next_segment_seq index) (index_encode index) Hn Hw Ht)
    as (w' & E & F & Fr & HL); [unfold u64_ok; lia|apply Hwf|apply index_encode_ok|lia|].
  exists w'. done.
Qed.

(** Flushing saves unsaved changes and keeps the current index. *)
Lemma flush_index_spec w path index :
  no_faults -> with_extension_tmp path <> path -> index_state w path index ->
  exists w', flush_segment_index_for_append path w = (Ok tt, w') /\ index_state w' path index /\
    w' = w <| w_fs := w_fs w' |> <| w_append := w_append w' |> <| w_known_dirs := w_known_dirs w' |>
           <| w_index := w_index w' |> /\
    frame [with_extension_tmp path; path] (w_fs w) (w_fs w').
Proof.
  intros Hn Ht HI. pose proof HI as [Hwf Hinv (disk & HD & Hnone & Hsome)].
  assert (wf_fs (w_fs w)) as Hw by apply (lf_wf _ _ _ _ _ _ (proj1 HD)).
  unfold flush_segment_index_for_append, bindM at 1, getM.
  destruct (w_index w !! path) as [c|] eqn:Ec; [|exists w; split_and!; [done|done|by destruct w|done]].
  destruct (Hsome c eq_refl) as [Hci Hclean]. destruct (ic_dirty c) eqn:Ed; cycle 1.
  { exists w. split_and!; [done|done|by destruct w|done]. }
  rewrite Hci. destruct (persist_index_spec w path index Hn Hw Ht Hwf) as (w1 & E1 & F1 & Fr1 & HD1).
  rewrite (bindM_run _ _ _ _ _ E1).
  destruct (stamp_ok_spec w1 path _ Hn (lf_contents _ _ _ _ _ _ (proj1 HD1))) as (s & w2 & E2 & F2 & S2).
  rewrite (bindM_run _ _ _ _ _ E2). unfold bindM.
  assert (w_index w2 !! path = Some c) as Ec2 by (rewrite F2, F1; done). rewrite Ec2.
  rewrite decide_True by done. eexists. split; [reflexivity|]. split_and!.
  - split; [done..|]. exists index. split_and!.
    + apply (index_file_same w1); [done|done|by rewrite F2].
    + done.
    + cbn. intros c'. rewrite lookup_insert_eq. intros [= <-]. by cbn.
  - rewrite F2, F1. done.
  - cbn. by apply (frame_same _ _ (w_fs w1)).
Qed.

Lemma index_state_moved w w' ps path index :
  index_state w path index -> moved ps w w' -> (path ∉ ps) -> w_index w' !! path = w_index w !! path ->
  index_state w' path index.
Proof.
  intros [Hwf Hinv (disk & [HL Hw] & Hd)] HM Hp Hc. split; [done..|]. exists disk. rewrite Hc.
  split; [|done]. split; [by eapply log_file_moved|done].
Qed.
(** ** Choosing the segment for an append *)
Definition ids_bound (index : SegmentIndex_) : Z := foldr Z.max 0 (map last_blob_id (descriptors index)).
Lemma ids_bound_pos index : 0 <= ids_bound index.
Proof. unfold ids_bound. induction (map _ _); cbn; lia. Qed.

(** What a rotation leaves: the full segment sealed, a fresh one behind it. *)
Record rotated (index : SegmentIndex_) (seq : Z) (index' : SegmentIndex_) : Prop := {
  ro_seq : seq = next_segment_seq index;
  ro_seqs : (segment_seq <$> descriptors index') = (segment_seq <$> descriptors index) ++ [seq];
  ro_bound : ids_bound index' = ids_bound index;
  ro_next : next_segment_seq index' = seq + 1;
  ro_count : Zlen (descriptors index') = Zlen (descriptors index) + 1
}.

Lemma max_snoc_zero l : Forall (fun z => 0 <= z) l -> foldr Z.max 0 (l ++ [0]) = foldr Z.max 0 l.
Proof. induction 1 as [|x l Hx _ IH]; cbn; [lia|]. by rewrite IH. Qed.

Lemma sealed_descriptors index ds :
  wf_index index ->
  update_first is_active_segment (fun d => d <| seg_state := Sealed |>) (descriptors index) = Some ds ->
  Forall wf_descriptor ds /\ map last_blob_id ds = map last_blob_id (descriptors index) /\
  length ds = length (descriptors index).
Proof.
  intros [_ _ Hwf _] E. apply update_first_split in E as (l1 & d & l2 & E & _ & _ & ->). rewrite E in *.
  apply Forall_app in Hwf as [H1 [Hd H2]%Forall_cons]. split_and!.
  - apply Forall_app. split; [done|]. by constructor.
  - by rewrite !map_app.
  - by rewrite !length_app.
Qed.

Lemma rotated_wf index ds :
  wf_index index -> seg_inv index -> next_segment_seq index <= U32_MAX ->
  Zlen (descriptors index) < MAX_MAINTENANCE_METADATA_RECORDS ->
  update_first is_active_segment (fun d => d <| seg_state := Sealed |>) (descriptors index) = Some ds ->
  let index' := index <| descriptors := ds ++ [fresh_descriptor (next_segment_seq index)] |>
                      <| next_segment_seq := next_segment_seq index + 1 |> in
  wf_index index' /\ seg_inv index' /\ rotated index (next_segment_seq index) index' /\
  active_descriptor index' = Ok (fresh_descriptor (next_segment_seq index)).
Proof.
  intros Hwf Hinv Hnx Hct Eu index'.
  destruct (sealed_descriptors index ds Hwf Eu) as (Hds & Hlast & Hlen).
  destruct (rotated_inv index ds Hinv Eu) as (Hc & Hseqs & _ & Hlt).
  pose proof Hwf as [Wm Wn Wd Wc]. destruct Hinv as [_ Hnd Hnx'].
  assert (wf_index index') as Hwf'.
  { split; cbn; [done|unfold u64_ok in *; lia| |].
    - apply Forall_app. split; [done|]. constructor; [|constructor].
      unfold wf_descriptor, u32_ok, u64_ok in *; cbn; lia.
    - unfold Zlen in *. rewrite length_app, Hlen. cbn. lia. }
  assert (seg_inv index') as Hinv'.
  { split; cbn.
    - by rewrite active_count_app, active_count_one, Hc.
    - rewrite fmap_app, Hseqs. apply NoDup_app. split_and!; [done| |apply NoDup_singleton].
      intros x (d & -> & Hd)%list_elem_of_fmap Hx%list_elem_of_singleton. specialize (Hnx' d Hd). cbn in Hx. lia.
    - intros d [Hd| ->%list_elem_of_singleton]%elem_of_app; [specialize (Hlt d Hd); lia|cbn; lia]. }
  split_and!; [done|done| |].
  - split; cbn; [done| | |done|].
    + by rewrite fmap_app, Hseqs.
    + unfold ids_bound. cbn. rewrite map_app, Hlast. apply max_snoc_zero. apply Forall_map.
      eapply Forall_impl; [exact Wd|]. unfold wf_descriptor, u64_ok. cbn. lia.
    + unfold Zlen. rewrite length_app, Hlen. cbn. lia.
  - destruct (active_found _ Hinv') as (d & Ed & Hd & Hda). rewrite Ed. f_equal. cbn in Hd.
    apply elem_of_app in Hd as [Hd| ->%list_elem_of_singleton]; [|done]. exfalso.
    unfold active_count, Zlen in Hc. assert (d ∈ filter is_active_segment ds) as Hf
      by (by apply list_elem_of_filter). destruct (filter _ ds); [set_solver|cbn in Hc; lia].
Qed.

Lemma spares_persist_index q path index :
  q <> path -> q <> with_extension_tmp path -> spares q (persist_segment_index path index).
Proof. intros. unfold persist_segment_index. spare. Qed.

Lemma spares_flush_index q path :
  q <> path -> q <> with_extension_tmp path -> spares q (flush_segment_index_for_append path).
Proof.
  intros H1 H2. pose proof (fun ix => spares_persist_index q path ix H1 H2).
  unfold flush_segment_index_for_append, stamp_ok, set_index. spare.
Qed.

(** The files a rotation writes. *)
Definition rotation_files (p : LayoutPaths) (seq : Z) : list string :=
  [with_extension_tmp (data_segment_path p seq); data_segment_path p seq;
   with_extension_tmp (segment_index_file p); segment_index_file p].

Lemma rotate_spec w p index :
  no_faults -> layout_ok p -> index_state w (segment_index_file p) index ->
  next_segment_seq index <= U32_MAX -> Zlen (descriptors index) < MAX_MAINTENANCE_METADATA_RECORDS ->
  let seq := next_segment_seq index in
  exists index' w', rotate_active_segment p index w = (Ok index', w') /\ wf_index index' /\ seg_inv index' /\
    rotated index seq index' /\ active_descriptor index' = Ok (fresh_descriptor seq) /\
    index_file w' (segment_index_file p) index' /\ files_only w w' /\
    log_file w' Data (data_segment_path p seq) seq 0 [] /\ moved (rotation_files p seq) w w'.
Proof.
  intros Hn Hlo HI Hnx Hct seq. pose proof HI as [Hwf Hinv (disk & [HL _] & _)].
  destruct (active_found index Hinv) as (a & Ea & Hin & Hact). unfold rotate_active_segment.
  destruct (update_first is_active_segment (fun d => d <| seg_state := Sealed |>) (descriptors index))
    as [ds|] eqn:Eu; cycle 1.
  { exfalso. clear -Eu Hin Hact. induction (descriptors index) as [|x l IH]; [set_solver|]. cbn in Eu.
    destruct (is_active_segment x) eqn:Ex; [done|].
    apply elem_of_cons in Hin as [->|Hin]; [by rewrite Ex in Hact|].
    destruct (update_first _ _ l); [done|auto]. }
  destruct (rotated_wf index ds Hwf Hinv Hnx Hct Eu) as (Hwf' & Hinv' & Hro & Hact').
  pose proof Hwf as [_ Wn _ _]. unfold u64_ok in Wn. cbn [ok_or].
  rewrite (bindM_run _ _ w ds w) by done.
  unfold u32_try_from. rewrite decide_True by lia. cbn [ok_or]. rewrite (bindM_run _ _ w seq w) by done.
  fold seq in Hnx, Wn, Hwf', Hinv', Hro, Hact' |- *.
  pose proof (lo_tmp p Hlo (SData seq) (SData seq)) as Ht1. pose proof (lo_tmp p Hlo SIndex SIndex I I) as Ht2.
  assert (u64_ok seq) as Hsq by (unfold u64_ok; lia). specialize (Ht1 Hsq Hsq). cbn [slot_path] in Ht1, Ht2.
  destruct (write_segment_log w (data_segment_path p seq) Data seq 0 [] Hn)
    as (w1 & E1 & F1 & Fr1 & HL1); [apply HL|done|done|unfold u64_ok; lia|by apply Forall_nil|by vm_compute|].
  rewrite (bindM_run _ _ _ _ _ E1). unfold checked_add64. rewrite decide_True by lia. cbn [ok_or].
  rewrite (bindM_run _ _ w1 (seq + 1) w1) by done.
  set (index' := index <| descriptors := ds ++ [fresh_descriptor seq] |> <| next_segment_seq := seq + 1 |>).
  destruct (persist_index_spec w1 (segment_index_file p) index' Hn) as (w2 & E2 & F2 & Fr2 & HD2);
    [apply HL1|done|done|].
  rewrite (bindM_run _ _ _ _ _ E2). exists index', w2. unfold retM.
  assert (moved (rotation_files p seq) w w1) as M1.
  { eapply (moved_run _ _ _ _ _ E1); [by eapply frame_weaken; [done|unfold rotation_files; set_solver]|].
    intros q Hq. unfold rotation_files in Hq. apply spares_write; set_solver. }
  assert (moved [with_extension_tmp (segment_index_file p); segment_index_file p] w1 w2) as M2.
  { eapply (moved_run _ _ _ _ _ E2); [done|]. intros q Hq. apply spares_persist_index; set_solver. }
  split_and!; try done.
  - eauto using files_only_trans.
  - eapply log_file_moved; [exact HL1|exact M2|]. rewrite not_elem_of_cons, list_elem_of_singleton. split.
    + intros E. by apply (lo_tmp p Hlo (SData seq) SIndex Hsq I).
    + intros E. by pose proof (lo_inj p Hlo (SData seq) SIndex Hsq I E).
  - eapply moved_trans; [exact M1|]. eapply moved_weaken; [exact M2|]. unfold rotation_files. set_solver.
Qed.
End Laws.
