(* ===== verification/DataBlobs.v ===== *)
(** * Data segments (storage/data_path.rs: the blob layer)

    A data segment holds the payload of many blobs, each behind a header of 24
    bytes: identifier, codec, logical and stored length, checksum.  A process
    caches the offsets of the blobs of each segment and an open file per
    segment. *)

From S2P Require Import Prelude Bytes Text Errors Fs Layout TapeState Compression Records.
From S2P Require Import World Crc Segment Footprint Logs SegmentIndex Slots IndexState.

#[export] Instance eta_DataBlobMeta : Eta DataBlobMeta := fun r =>
  mkBlobMeta (blob_id r) (blob_codec r) (blob_logical_len r) (blob_stored_len r) (blob_checksum r)
    (blob_payload_offset r) (v2_integrity r).

Definition DATA_BLOB_HEADER_SIZE : nat := 24.
Definition DATA_LOG_PREFIX : list Z := bytes_of_string "DTV2".

Record DataBlob : Type := mkBlob {
  db_id : Z;
  db_codec : CompressionCodec;
  db_logical_len : Z;
  db_stored_len : Z;
  db_checksum : Z;
  db_bytes : list Z
}.

Definition encode_data_blob_header (id : Z) (codec : CompressionCodec) (logical_len stored_len sum : Z)
  : list Z :=
  to_le 8 id ++ [codec_as_u8 codec] ++ replicate 3 0 ++ to_le 4 logical_len ++
  to_le 4 stored_len ++ to_le 4 sum.
Definition encode_data_blob_record (id : Z) (codec : CompressionCodec) (logical_len stored_len sum : Z)
  (bytes : list Z) : list Z :=
  encode_data_blob_header id codec logical_len stored_len sum ++ bytes.
Definition blob_encode (b : DataBlob) : list Z :=
  encode_data_blob_record (db_id b) (db_codec b) (db_logical_len b) (db_stored_len b) (db_checksum b)
    (db_bytes b).

Definition decode_blob_meta_from_header (buf : list Z) : Result StorageError DataBlobMeta :=
  let? codec := CompressionCodec_from_u8 (byte_at buf 8) in
  Ok (mkBlobMeta (from_le (slice 0 8 buf)) codec (from_le (slice 12 16 buf))
        (from_le (slice 16 20 buf)) (from_le (slice 20 24 buf)) 0 false).

Definition checked_blob_next_offset (offset stored_len payload_end : Z) : Result StorageError Z :=
  let? blob_len := ok_or (checked_add64 (Z.of_nat DATA_BLOB_HEADER_SIZE) stored_len)
                     (Corrupt "data blob length overflow") in
  let? next := ok_or (checked_add64 offset blob_len) (Corrupt "data blob offset overflow") in
  if decide (payload_end < next) then Err (Corrupt "data blob exceeds segment payload") else Ok next.

Definition checked_u32_len (len : Z) (what : string) : Result StorageError Z :=
  ok_or (u32_try_from len) (Conflict (what +:+ " exceeds u32::MAX")).

Definition next_blob_id (index : SegmentIndex_) : Result StorageError Z :=
  ok_or (checked_add64 (foldr Z.max 0 (map last_blob_id (descriptors index))) 1)
    (Conflict "data blob ID space is exhausted").

Section Ops.
Context `{HOST : Host} `{ENV : Environ} `{C : Crc32c}.

Definition blob_integrity_checksum (id logical_len : Z) (bytes : list Z) : Z :=
  integrity32 (to_le 8 id ++ to_le 4 logical_len ++ bytes).

(** ** Scanning a segment *)

(** The header at an offset, as the record of a scan. *)
Definition read_blob_meta (inode : nat) (header_version offset : Z) : M World StorageError DataBlobMeta :=
  let! buf := io (fs_read_exact_at inode (Z.to_nat offset) DATA_BLOB_HEADER_SIZE) in
  let! meta := liftM (decode_blob_meta_from_header buf) in
  retM (meta <| blob_payload_offset := offset + Z.of_nat DATA_BLOB_HEADER_SIZE |>
             <| v2_integrity := bool_decide (header_version = STORAGE_LAYOUT_VERSION) |>).

Fixpoint scan_log_loop (fuel : nat) (inode : nat) (header_version offset payload_end : Z)
  (blobs : list DataBlobMeta) : M World StorageError (list DataBlobMeta) :=
  match fuel with
  | O => retM blobs
  | S f =>
      if decide (offset < payload_end) then
        if match checked_add64 offset (Z.of_nat DATA_BLOB_HEADER_SIZE) with
           | Some header_end => bool_decide (payload_end < header_end)
           | None => true
           end
        then failM (Corrupt "data blob header exceeds segment payload")
        else
          let! meta := read_blob_meta inode header_version offset in
          let! next := liftM (checked_blob_next_offset offset (blob_stored_len meta) payload_end) in
          scan_log_loop f inode header_version next payload_end (blobs ++ [meta])
      else retM blobs
  end.
(** Each round consumes at least a header, so the segment's length bounds them. *)
Definition scan_log_data_index (inode : nat) (header_version payload_offset payload_len : Z)
  : M World StorageError (list DataBlobMeta) :=
  scan_log_loop (S (Z.to_nat (payload_len / Z.of_nat DATA_BLOB_HEADER_SIZE))) inode header_version
    (payload_offset + Zlen DATA_LOG_PREFIX) (payload_offset + payload_len) [].

Fixpoint scan_legacy_loop (count : nat) (inode : nat) (header_version offset payload_end : Z)
  (blobs : list DataBlobMeta) : M World StorageError (list DataBlobMeta) :=
  match count with
  | O => retM blobs
  | S n =>
      let! meta := read_blob_meta inode header_version offset in
      let! next := liftM (checked_blob_next_offset offset (blob_stored_len meta) payload_end) in
      scan_legacy_loop n inode header_version next payload_end (blobs ++ [meta])
  end.
Definition scan_legacy_data_index (inode : nat) (header_version payload_offset payload_len : Z)
  : M World StorageError (list DataBlobMeta) :=
  if decide (payload_len < 8) then failM (Corrupt "data payload too short")
  else
    let! count_buf := io (fs_read_exact_at inode (Z.to_nat payload_offset) 8) in
    let count := from_le count_buf in
    if decide ((payload_len - 8) / Z.of_nat DATA_BLOB_HEADER_SIZE < count)
    then failM (Corrupt "legacy data blob count exceeds segment payload")
    else scan_legacy_loop (Z.to_nat count) inode header_version (payload_offset + 8)
           (payload_offset + payload_len) [].

Definition scan_data_index (path : string) (header_version payload_len : Z)
  : M World StorageError (list DataBlobMeta * bool) :=
  let! i := io (fs_open path) in
  let payload_offset :=
    Z.of_nat (if decide (header_version = STORAGE_LAYOUT_VERSION) then SEGMENT_HEADER_V2_TOTAL_SIZE
              else SEGMENT_HEADER_SIZE) in
  let! prefix := io (fs_read_exact_at i (Z.to_nat payload_offset) 4) in
  if decide (prefix = DATA_LOG_PREFIX) then
    let! blobs := scan_log_data_index i header_version payload_offset payload_len in
    retM (blobs, true)
  else
    let! blobs := scan_legacy_data_index i header_version payload_offset payload_len in
    retM (blobs, false).

(** ** The cached offsets and the open files *)
Definition set_data (path : string) (e : CachedDataIndex) : M World StorageError unit :=
  modifyM (fun w => w <| w_data := <[path := e]> (w_data w) |>).
Definition cached_data (path : string) : M World StorageError CachedDataIndex :=
  let! w := getM in liftM (ok_or (w_data w !! path) (SNotFound "data cache not initialized")).
Definition invalidate_data_reader (path : string) : M World StorageError unit :=
  modifyM (fun w => w <| w_readers := delete path (w_readers w) |>).
Definition invalidate_data_segment_cache (path : string) : M World StorageError unit :=
  invalidate_data_reader path ;;!
  modifyM (fun w => w <| w_data := delete path (w_data w) |>).

Definition update_data_cache (path : string) (seq : Z) (blobs : list DataBlobMeta)
  : M World StorageError unit :=
  let! stamp := file_stamp path in set_data path (mkCachedData stamp seq blobs true).

Definition ensure_data_cache_fresh (path : string) : M World StorageError unit :=
  let! w := getM in
  if trust_hot_cache && bool_decide (is_Some (w_data w !! path)) then retM tt
  else
    let! stamp := file_stamp path in
    let! w := getM in
    if bool_decide ((tc_stamp <$> w_data w !! path) = Some stamp) then retM tt
    else
      let! header := read_segment_header path Data in
      let! (blobs, is_log_format) :=
        (if decide (payload_len header = 0) then retM ([], true)
         else scan_data_index path (version header) (payload_len header)) in
      invalidate_data_reader path ;;!
      set_data path (mkCachedData stamp (sequence header) blobs is_log_format).

(** ** Reading a blob *)

(** [read_blob_payload]: reads until the buffer is full; a regular file yields
    what it holds, so a short file ends in an unexpected end of file. *)
Definition read_blob_payload (inode : nat) (offset len : Z) : M World StorageError (list Z) :=
  if decide (len = 0) then retM []
  else
    let! r := io_raw (fs_read_exact_at inode (Z.to_nat offset) (Z.to_nat len)) in
    match r with
    | Ok bytes => retM bytes
    | Err e => failM (if decide (io_kind e = KUnexpectedEof)
                      then SIo (io_error KUnexpectedEof "short read from data segment")
                      else storage_error_of_io e)
    end.

(** The open file of a segment. *)
Definition data_reader (path : string) : M World StorageError nat :=
  let! w := getM in
  match w_readers w !! path with
  | Some i => retM i
  | None =>
      let! i := io (fs_open path) in
      modifyM (fun w => w <| w_readers := <[path := i]> (w_readers w) |>) ;;! retM i
  end.

(** [binary_search_by_key] on a vector sorted by identifier. *)
Definition find_blob (blobs : list DataBlobMeta) (id : Z) : option DataBlobMeta :=
  let i := partition_point (fun b => bool_decide (blob_id b < id)) blobs in
  match blobs !! i with
  | Some b => if decide (blob_id b = id) then Some b else None
  | None => None
  end.

Definition load_blob_by_id (path : string) (id : Z) : M World StorageError DataBlob :=
  ensure_data_cache_fresh path ;;!
  let! e := cached_data path in
  let! meta := liftM (ok_or (find_blob (tc_blobs e) id) (SNotFound "data blob not found")) in
  let! file := data_reader path in
  let! first := tryM (read_blob_payload file (blob_payload_offset meta) (blob_stored_len meta)) in
  let! bytes :=
    match first with
    | Ok bytes => retM bytes
    | Err (SIo err) =>
        if decide (io_kind err = KUnexpectedEof) then
          let! reopened := io (fs_open path) in
          let! bytes := read_blob_payload reopened (blob_payload_offset meta) (blob_stored_len meta) in
          modifyM (fun w => w <| w_readers := <[path := reopened]> (w_readers w) |>) ;;!
          retM bytes
        else failM (SIo err)
    | Err e => failM e
    end in
  if v2_integrity meta
     && negb (bool_decide (blob_checksum meta =
                blob_integrity_checksum (blob_id meta) (blob_logical_len meta) bytes))
  then failM (Corrupt "data blob integrity checksum mismatch")
  else retM (mkBlob (blob_id meta) (blob_codec meta) (blob_logical_len meta) (blob_stored_len meta)
               (blob_checksum meta) bytes).

(** ** Appending a blob *)

(** A segment in the legacy format is rewritten as a log; the cached offsets are
    stored again as they were. *)
Fixpoint rewrite_blobs (inode : nat) (blobs : list DataBlobMeta) : M World StorageError (list Z) :=
  match blobs with
  | [] => retM []
  | b :: bs =>
      let! bytes := io (fs_read_exact_at inode (Z.to_nat (blob_payload_offset b))
                          (Z.to_nat (blob_stored_len b))) in
      let sum := blob_integrity_checksum (blob_id b) (blob_logical_len b) bytes in
      let! rest := rewrite_blobs inode bs in
      retM (blob_encode (mkBlob (blob_id b) (blob_codec b) (blob_logical_len b) (blob_stored_len b)
              sum bytes) ++ rest)
  end.
Definition persist_data_blobs_as_log (path : string) (blobs : list DataBlobMeta)
  : M World StorageError unit :=
  let! i := io (fs_open path) in
  let! records := rewrite_blobs i blobs in
  write_segment_file path Data 1 (Zlen blobs) (DATA_LOG_PREFIX ++ records) ;;!
  invalidate_data_reader path ;;!
  update_data_cache path (Zlen blobs) blobs.

(** The cached offsets after an append. *)
Definition note_appended (path : string) (header : SegmentHeader) (meta : DataBlobMeta)
  : M World StorageError unit :=
  let! e := cached_data path in
  let e := e <| tc_sequence := sequence header |> <| tc_blobs := tc_blobs e ++ [meta] |> in
  set_data path e ;;!
  let! e := (if trust_hot_cache then retM e
             else let! stamp := file_stamp path in retM (e <| tc_stamp := stamp |>)) in
  set_data path (e <| tc_is_log_format := true |>).

(** Write a blob behind the others of its segment, which is first brought to
    the log format. *)
Definition append_to_segment (path : string) (id : Z) (codec : CompressionCodec) (logical_len : Z)
  (encoded : list Z) (checksum_enabled : bool) : M World StorageError (SegmentHeader * Z) :=
  let! e := cached_data path in
  (if tc_is_log_format e then retM tt
   else persist_data_blobs_as_log path (tc_blobs e) ;;! ensure_data_cache_fresh path) ;;!
  let! stored_len := liftM (checked_u32_len (Zlen encoded) "encoded payload length") in
  let sum := blob_integrity_checksum id logical_len encoded in
  let! header := append_segment_payload_parts path Data 1 DATA_LOG_PREFIX
                   [encode_data_blob_header id codec logical_len stored_len sum; encoded]
                   false checksum_enabled in
  note_appended path header
    (mkBlobMeta id codec logical_len stored_len sum
       (segment_payload_offset header + payload_len header - stored_len) true) ;;!
  retM (header, stored_len).

Definition append_data_blob (layout : LayoutPaths) (codec : CompressionCodec) (logical_len : Z)
  (encoded : list Z) (checksum_enabled : bool) : M World StorageError (Z * Z) :=
  let! index := load_segment_index_for_append (segment_index_file layout) in
  let record_len := Z.of_nat DATA_BLOB_HEADER_SIZE + Zlen encoded in
  let! (seq, index) :=
    prepare_active_segment_for_append layout index record_len (Zlen DATA_LOG_PREFIX) in
  let path := data_segment_path layout seq in
  ensure_data_cache_fresh path ;;!
  let! id := liftM (next_blob_id index) in
  let! (header, stored_len) := append_to_segment path id codec logical_len encoded checksum_enabled in
  let! index := liftM (record_blob_append index seq (payload_len header) id stored_len codec) in
  store_segment_index_for_append (segment_index_file layout) index ;;!
  retM (seq, id).

(** ** Finding the segment of a blob *)
Definition load_blob_by_location (layout : LayoutPaths) (segment_id id : Z)
  : M World StorageError DataBlob :=
  let! index := load_segment_index_for_append (segment_index_file layout) in
  let legacy :=
    match head (descriptors index) with
    | None => failM (SNotFound "data segment descriptor not found")
    | Some first =>
        if decide (segment_seq first <> 0)
        then failM (SNotFound "legacy data segment descriptor not found")
        else load_blob_by_id (data_segment_path layout (segment_seq first)) id
    end in
  match descriptor_for_segment index segment_id with
  | Some d =>
      let! r := tryM (load_blob_by_id (data_segment_path layout (segment_seq d)) id) in
      match r with
      | Ok b => retM b
      | Err e => if decide (segment_id <> 1) then failM e else legacy
      end
  | None => if decide (segment_id <> 1) then failM (SNotFound "data segment descriptor not found")
            else legacy
  end.

Fixpoint first_segment_with (layout : LayoutPaths) (id : Z) (ds : list SegmentDescriptor)
  : M World StorageError Z :=
  match ds with
  | [] => failM (SNotFound "data blob segment not found")
  | d :: ds' =>
      let! r := tryM (load_blob_by_id (data_segment_path layout (segment_seq d)) id) in
      match r with Ok _ => retM (segment_seq d) | Err _ => first_segment_with layout id ds' end
  end.
Definition locate_blob_segment_id (layout : LayoutPaths) (id : Z) : M World StorageError Z :=
  let! index := load_segment_index (segment_index_file layout) in
  match descriptor_for_blob index id with
  | Some d => retM (segment_seq d)
  | None => first_segment_with layout id (descriptors index)
  end.
End Ops.

(** ** The layout of a segment *)
Definition wf_blob `{C : Crc32c} (b : DataBlob) : Prop :=
  u64_ok (db_id b) /\ u32_ok (db_logical_len b) /\ u32_ok (db_stored_len b) /\
  db_stored_len b = Zlen (db_bytes b) /\ bytes_ok (db_bytes b) /\
  db_checksum b = blob_integrity_checksum (db_id b) (db_logical_len b) (db_bytes b).

(** The payload of a segment of blobs: empty until the first one. *)
Definition blobs_payload (bs : list DataBlob) : list Z :=
  if decide (bs = []) then [] else DATA_LOG_PREFIX ++ concat (map blob_encode bs).

(** The same under a header: a segment without blobs is empty, or holds the
    prefix alone after its blobs were reclaimed. *)
Definition seg_payload (h : SegmentHeader) (bs : list DataBlob) : list Z :=
  if decide (bs = [] /\ payload_len h = 0) then [] else DATA_LOG_PREFIX ++ concat (map blob_encode bs).
Lemma blobs_payload_ne bs : bs <> [] -> blobs_payload bs = DATA_LOG_PREFIX ++ concat (map blob_encode bs).
Proof. intros H. unfold blobs_payload. by rewrite decide_False. Qed.
Lemma seg_payload_ne h bs : bs <> [] -> seg_payload h bs = blobs_payload bs.
Proof. intros H. rewrite blobs_payload_ne by done. unfold seg_payload. by rewrite decide_False by tauto. Qed.
Lemma seg_payload_full h bs : payload_len h <> 0 -> seg_payload h bs = DATA_LOG_PREFIX ++ concat (map blob_encode bs).
Proof. intros H. unfold seg_payload. by rewrite decide_False by tauto. Qed.

Definition meta_at (offset : Z) (b : DataBlob) : DataBlobMeta :=
  mkBlobMeta (db_id b) (db_codec b) (db_logical_len b) (db_stored_len b) (db_checksum b)
    (offset + 24) true.
(** Where a scan from [offset] finds the blobs. *)
Fixpoint metas (offset : Z) (bs : list DataBlob) : list DataBlobMeta :=
  match bs with
  | [] => []
  | b :: bs' => meta_at offset b :: metas (offset + Zlen (blob_encode b)) bs'
  end.

Lemma length_blob_header id codec llen slen sum :
  length (encode_data_blob_header id codec llen slen sum) = 24%nat.
Proof. unfold encode_data_blob_header. len_solve. Qed.
Lemma length_blob_encode b : length (blob_encode b) = (24 + length (db_bytes b))%nat.
Proof. unfold blob_encode, encode_data_blob_record. by rewrite length_app, length_blob_header. Qed.

Lemma metas_app off bs1 bs2 :
  metas off (bs1 ++ bs2) = metas off bs1 ++ metas (off + Zlen (concat (map blob_encode bs1))) bs2.
Proof.
  revert off. induction bs1 as [|b bs1 IH]; intros off; cbn.
  - replace (off + Zlen []) with off by (unfold Zlen; cbn; lia). done.
  - rewrite IH. do 3 f_equal. unfold Zlen. rewrite length_app. lia.
Qed.

Lemma metas_ids off bs : map blob_id (metas off bs) = map db_id bs.
Proof. revert off. induction bs; intros; cbn; [done|]. by f_equal. Qed.

Section Layout.
Context `{CL : Crc32cLaws}.

Lemma decode_blob_header b :
  wf_blob b ->
  decode_blob_meta_from_header (encode_data_blob_header (db_id b) (db_codec b) (db_logical_len b)
    (db_stored_len b) (db_checksum b)) =
  Ok (mkBlobMeta (db_id b) (db_codec b) (db_logical_len b) (db_stored_len b) (db_checksum b) 0 false).
Proof.
  intros (Hi & Hl & Hs & _ & Hb & Hc). unfold decode_blob_meta_from_header, encode_data_blob_header.
  assert (u32_ok (db_checksum b)) as Hsum.
  { rewrite Hc. apply integrity32_u32. unfold bytes_ok. rewrite !Forall_app.
    split_and!; [apply to_le_ok..|done]. }
  slices. rewrite codec_from_as. cbn [rbind]. fields_back. done.
Qed.

Lemma blob_header_ok id codec llen slen sum : bytes_ok (encode_data_blob_header id codec llen slen sum).
Proof.
  unfold encode_data_blob_header, bytes_ok. rewrite !Forall_app. split_and!; try apply to_le_ok.
  - by destruct codec; repeat constructor.
  - apply Forall_replicate. unfold u8_ok; lia.
Qed.
Lemma blob_encode_ok b : wf_blob b -> bytes_ok (blob_encode b).
Proof.
  intros (_ & _ & _ & _ & Hb & _). unfold blob_encode, encode_data_blob_record. apply Forall_app.
  split; [apply blob_header_ok|done].
Qed.

(** The blob after [bs1] in a segment's file. *)
Lemma slice_blob h bs1 b bs2 n m :
  let d := segment_bytes h (blobs_payload (bs1 ++ b :: bs2)) in
  let off := (100 + length (concat (map blob_encode bs1)))%nat in
  (n + m <= length (blob_encode b))%nat ->
  slice (off + n) (off + n + m) d = slice n (n + m) (blob_encode b) /\ (off + n + m <= length d)%nat.
Proof.
  intros d off Hnm.
  assert (exists pre, d = pre ++ blob_encode b ++ concat (map blob_encode bs2) /\ length pre = off)
    as (pre & -> & Hpre).
  { unfold d, blobs_payload. rewrite decide_False by (by destruct bs1).
    rewrite map_app, concat_app. cbn [map concat]. unfold segment_bytes.
    exists (encode_v2_header_copy h ++ encode_v2_header_copy h ++ DATA_LOG_PREFIX ++
            concat (map blob_encode bs1)). split; [by rewrite <- !app_assoc|].
    rewrite !length_app, !length_encode_v2. unfold off, SEGMENT_HEADER_V2_COPY_SIZE.
    change (length DATA_LOG_PREFIX) with 4%nat. lia. }
  split.
  - rewrite slice_skip by lia. rewrite Hpre.
    replace (off + n - off)%nat with n by lia. replace (off + n + m - off)%nat with (n + m)%nat by lia.
    unfold slice. rewrite drop_app_le by lia. rewrite take_app_le; [done|]. rewrite length_drop. lia.
  - rewrite !length_app, Hpre. lia.
Qed.
End Layout.

(** ** The state of a data segment *)
Section Laws.
Context `{HOST : Host} `{ENV : Environ} `{CL : Crc32cLaws}.

Record data_state (w : World) (path : string) (h : SegmentHeader) (bs : list DataBlob) : Prop := {
  ds_file : seg_file w path h (seg_payload h bs);
  ds_kind : kind h = Data;
  ds_wf : Forall wf_blob bs;
  ds_sorted : StronglySorted Z.lt (map db_id bs);
  ds_cache : forall e, w_data w !! path = Some e ->
    tc_blobs e = metas 100 bs /\ tc_is_log_format e = true;
  ds_reader : forall i, w_readers w !! path = Some i -> fs_names (w_fs w) !! path = Some i /\ bs <> []
}.

Lemma ds_blobs w path h bs : data_state w path h bs -> bs <> [] -> seg_file w path h (blobs_payload bs).
Proof. intros HD Hne. rewrite <- (seg_payload_ne h) by done. apply HD. Qed.
Lemma seg_file_blobs w path h bs : seg_file w path h (blobs_payload bs) -> seg_file w path h (seg_payload h bs).
Proof.
  intros HS. destruct (decide (bs = [])) as [->|Hne]; [|by rewrite seg_payload_ne].
  unfold seg_payload. rewrite decide_True; [exact HS|]. split; [done|]. by rewrite (sf_plen _ _ _ _ HS).
Qed.

(** Steps that read files and refill the offsets and open files. *)
Definition data_only (w w' : World) : Prop :=
  w' = w <| w_fs := w_fs w' |> <| w_data := w_data w' |> <| w_readers := w_readers w' |> /\
  same_files (w_fs w) (w_fs w').

Lemma data_only_trans w1 w2 w3 : data_only w1 w2 -> data_only w2 w3 -> data_only w1 w3.
Proof. intros [E1 S1] [E2 S2]. split; [rewrite E2, E1; done|eauto using same_files_trans]. Qed.
Lemma data_only_fs w w' : w' = w <| w_fs := w_fs w' |> -> same_files (w_fs w) (w_fs w') -> data_only w w'.
Proof. intros E S. split; [rewrite E; done|done]. Qed.

(** A read-only step keeps the segment if what it caches agrees with it. *)
Lemma data_state_same w w' path h bs :
  data_state w path h bs -> data_only w w' ->
  (forall e, w_data w' !! path = Some e -> tc_blobs e = metas 100 bs /\ tc_is_log_format e = true) ->
  (forall i, w_readers w' !! path = Some i -> fs_names (w_fs w') !! path = Some i /\ bs <> []) ->
  data_state w' path h bs.
Proof.
  intros [H1 H2 H3 H4 _ _] [E S] Hd Hr. split; try done.
  apply (seg_file_same w); [done|by rewrite E|done].
Qed.

Lemma scan_step_offsets bs1 b bs2 h path w :
  seg_file w path h (blobs_payload (bs1 ++ b :: bs2)) -> wf_blob b ->
  let off := 100 + Zlen (concat (map blob_encode bs1)) in
  let end_ := 96 + payload_len h in
  off < end_ /\ off + 24 + db_stored_len b <= end_ /\ end_ <= U64_MAX /\
  off + 24 + db_stored_len b = 100 + Zlen (concat (map blob_encode (bs1 ++ [b]))).
Proof.
  intros HS (_ & _ & Hs & Hl & _) off end_.
  pose proof (sf_plen _ _ _ _ HS) as Hp. pose proof (sf_len _ _ _ _ HS) as Hb.
  unfold off, end_. rewrite Hp in *. unfold blobs_payload in *.
  rewrite decide_False in * by (by destruct bs1).
  rewrite !map_app, !concat_app in *. cbn [map concat] in *. unfold Zlen in *.
  rewrite !length_app, !length_blob_encode in *. change (length DATA_LOG_PREFIX) with 4%nat in *.
  unfold u32_ok in Hs. rewrite Hl in *. cbn [length] in *. lia.
Qed.

Lemma read_blob_meta_ok w path i h bs1 b bs2 :
  no_faults -> seg_file w path h (blobs_payload (bs1 ++ b :: bs2)) ->
  fs_names (w_fs w) !! path = Some i -> wf_blob b ->
  let off := 100 + Zlen (concat (map blob_encode bs1)) in
  read_blob_meta i (version h) off w =
    (Ok (meta_at off b), w <| w_fs := (w_fs w) <| fs_tick := S (fs_tick (w_fs w)) |> |>).
Proof.
  intros Hn HS Hi Hb off. unfold read_blob_meta, bindM. rewrite io_run.
  destruct (slice_blob h bs1 b bs2 0 24) as [Hsl Hle]; [rewrite length_blob_encode; lia|].
  replace (Z.to_nat off) with (100 + length (concat (map blob_encode bs1)) + 0)%nat
    by (unfold off, Zlen; lia).
  unfold DATA_BLOB_HEADER_SIZE.
  rewrite (fs_read_exact_ok _ _ _ _ _ _ Hn Hi (sf_contents _ _ _ _ HS)) by done.
  cbn [fst snd map_err]. rewrite Hsl. unfold blob_encode, encode_data_blob_record.
  rewrite slice_here by (by rewrite length_blob_header). unfold liftM.
  rewrite decode_blob_header by done. unfold retM, meta_at. cbn.
  pose proof (sf_header _ _ _ _ HS) as [_ Hv]. by rewrite bool_decide_eq_true_2.
Qed.

Lemma scan_log_loop_spec path i h bs2 : forall bs1 fuel acc w,
  no_faults -> seg_file w path h (DATA_LOG_PREFIX ++ concat (map blob_encode (bs1 ++ bs2))) ->
  fs_names (w_fs w) !! path = Some i -> Forall wf_blob bs2 -> (length bs2 < fuel)%nat ->
  let off := 100 + Zlen (concat (map blob_encode bs1)) in
  exists w', scan_log_loop fuel i (version h) off (96 + payload_len h) acc w = (Ok (acc ++ metas off bs2), w') /\
    w' = w <| w_fs := w_fs w' |> /\ same_files (w_fs w) (w_fs w').
Proof.
  induction bs2 as [|b bs2 IH]; intros bs1 fuel acc w Hn HS Hi Hwf Hf off.
  - exists w. destruct fuel as [|f]; [lia|]. cbn [scan_log_loop metas]. rewrite app_nil_r in *.
    rewrite decide_False; [by destruct w|]. rewrite (sf_plen _ _ _ _ HS).
    unfold off, Zlen. rewrite length_app. change (length DATA_LOG_PREFIX) with 4%nat. lia.
  - apply Forall_cons in Hwf as [Hb Hwf]. rewrite <- blobs_payload_ne in HS by (by destruct bs1). destruct fuel as [|f]; [lia|]. cbn [scan_log_loop].
    destruct (scan_step_offsets bs1 b bs2 h path w HS Hb) as (O1 & O2 & O3 & O4). fold off in O1, O2, O4.
    destruct Hb as (Hid & Hll & Hsl & Hrest) eqn:EHb. clear EHb.
    assert (wf_blob b) as Hb' by (split_and!; try done; apply Hrest).
    unfold u32_ok in Hsl. rewrite decide_True by done. unfold checked_add64, DATA_BLOB_HEADER_SIZE.
    rewrite decide_True by lia. rewrite bool_decide_eq_false_2 by lia.
    erewrite bindM_run by exact (read_blob_meta_ok w path i h bs1 b bs2 Hn HS Hi Hb').
    unfold checked_blob_next_offset, checked_add64, DATA_BLOB_HEADER_SIZE. cbn [blob_stored_len meta_at].
    rewrite decide_True by lia. cbn [ok_or rbind]. rewrite decide_True by lia. cbn [ok_or rbind].
    rewrite decide_False by lia. set (w1 := w <| w_fs := _ |>). rewrite (bindM_run _ _ w1 _ w1) by done.
    destruct (IH (bs1 ++ [b]) f (acc ++ [meta_at off b]) w1) as (w2 & E2 & F2 & S2).
    + done.
    + rewrite <- app_assoc, <- blobs_payload_ne by (by destruct bs1). apply (seg_file_same w); done.
    + done.
    + done.
    + cbn in Hf. lia.
    + rewrite <- O4 in E2. match goal with |- context [scan_log_loop f i _ ?x] =>
        replace x with (off + 24 + db_stored_len b) by (cbn; lia) end.
      fold off. exists w2. rewrite E2. split_and!; [|rewrite F2; done|done].
      do 2 f_equal. rewrite <- app_assoc. cbn [app metas]. do 3 f_equal.
      rewrite O4. unfold off. rewrite map_app, concat_app. unfold Zlen. rewrite length_app.
      cbn [map concat]. rewrite app_nil_r. lia.
Qed.

Lemma blobs_count bs : Z.of_nat (length bs) * 24 <= Zlen (concat (map blob_encode bs)).
Proof.
  induction bs as [|b bs IH]; [done|]. cbn [map concat length]. unfold Zlen in *.
  rewrite length_app, length_blob_encode. lia.
Qed.

(** An empty file has no blobs. *)
Lemma empty_segment w path h bs : data_state w path h bs -> payload_len h = 0 -> bs = [].
Proof.
  intros HD Hz. destruct (decide (bs = [])) as [|Hne]; [done|]. exfalso.
  pose proof (sf_plen _ _ _ _ (ds_blobs _ _ _ _ HD Hne)) as Hp. rewrite blobs_payload_ne in Hp by done.
  unfold Zlen in Hp. rewrite length_app in Hp. change (length DATA_LOG_PREFIX) with 4%nat in Hp. lia.
Qed.

(** Scanning a segment finds its blobs. *)
Lemma scan_data_spec w path h bs :
  no_faults -> data_state w path h bs -> payload_len h <> 0 ->
  exists w', scan_data_index path (version h) (payload_len h) w = (Ok (metas 100 bs, true), w') /\
    w' = w <| w_fs := w_fs w' |> /\ same_files (w_fs w) (w_fs w').
Proof.
  intros Hn HD Hne. pose proof (ds_file _ _ _ _ HD) as HS. rewrite seg_payload_full in HS by done.
  pose proof (sf_contents _ _ _ _ HS) as Hc.
  destruct (fs_open_ok _ _ _ Hn Hc) as (i & Ho & Hi).
  unfold scan_data_index. erewrite bindM_run by (rewrite io_run, Ho; reflexivity).
  set (w1 := w <| w_fs := _ |>). pose proof (sf_header _ _ _ _ HS) as [_ Hv].
  rewrite decide_True by done. cbv zeta. set (payload := DATA_LOG_PREFIX ++ _) in *.
  assert (length payload = 4 + length (concat (map blob_encode bs)))%nat as Hlen
    by (unfold payload; by rewrite length_app).
  unfold bindM at 1. rewrite io_run. rewrite Nat2Z.id. change SEGMENT_HEADER_V2_TOTAL_SIZE with 96%nat.
  rewrite (fs_read_exact_ok (w_fs w1) path i _ 96 4 Hn Hi Hc)
    by (rewrite length_segment_bytes; lia).
  cbn [fst snd map_err]. rewrite slice_segment_payload by lia.
  replace (take 4 payload) with DATA_LOG_PREFIX by (unfold payload; by rewrite take_app_length').
  rewrite decide_True by done.
  set (w2 := w1 <| w_fs := _ |>).
  destruct (scan_log_loop_spec path i h bs [] (S (Z.to_nat (payload_len h / 24))) [] w2)
    as (w3 & E3 & F3 & S3); [done|by apply (seg_file_same w)|done|apply HD| |].
  { pose proof (blobs_count bs). rewrite (sf_plen _ _ _ _ HS). unfold Zlen in *. rewrite Hlen.
    assert (Z.of_nat (length bs) <= Z.of_nat (4 + length (concat (map blob_encode bs))) / 24)
      by (apply Z.div_le_lower_bound; lia). lia. }
  exists w3. rewrite (bindM_run _ _ _ _ _ E3). split_and!; [done|rewrite F3; done|done].
Qed.

Lemma ensure_data_spec w path h bs :
  no_faults -> data_state w path h bs ->
  exists w' e, ensure_data_cache_fresh path w = (Ok tt, w') /\ w_data w' !! path = Some e /\
    tc_blobs e = metas 100 bs /\ tc_is_log_format e = true /\ data_state w' path h bs /\ data_only w w' /\
    (forall q, q <> path -> w_data w' !! q = w_data w !! q /\ w_readers w' !! q = w_readers w !! q).
Proof.
  intros Hn HD. unfold ensure_data_cache_fresh, bindM at 1, getM.
  destruct (trust_hot_cache && _) eqn:ET.
  { apply andb_true_iff in ET as [_ [e He]%bool_decide_eq_true].
    destruct (ds_cache _ _ _ _ HD _ He) as [? ?]. exists w, e. split_and!; try done. by destruct w. }
  clear ET. pose proof (ds_file _ _ _ _ HD) as HS.
  destruct (file_stamp_ok w path _ Hn (sf_contents _ _ _ _ HS)) as (n & w1 & E1 & _ & F1 & S1).
  rewrite (bindM_run _ _ _ _ _ E1). unfold bindM at 1.
  assert (w_data w1 = w_data w /\ w_readers w1 = w_readers w) as [D1 R1] by (by rewrite F1).
  assert (data_state w1 path h bs) as HD1.
  { apply (data_state_same w); [done|by apply data_only_fs| |].
    - rewrite D1. apply HD.
    - rewrite R1. destruct S1 as [-> _]. apply HD. }
  case_bool_decide as Hst.
  { destruct (w_data w1 !! path) as [e|] eqn:He; [|done].
    destruct (ds_cache _ _ _ _ HD1 _ He) as [? ?]. exists w1, e.
    split_and!; try done; [by apply data_only_fs|]. intros q _. by rewrite D1, R1. }
  destruct (read_header_ok w1 path h _ Hn (ds_file _ _ _ _ HD1)) as (w2 & E2 & F2 & S2).
  rewrite (ds_kind _ _ _ _ HD) in E2. rewrite (bindM_run _ _ _ _ _ E2).
  assert (w_data w2 = w_data w1 /\ w_readers w2 = w_readers w1) as [D2 R2] by (by rewrite F2).
  assert (data_state w2 path h bs) as HD2.
  { apply (data_state_same w1); [done|by apply data_only_fs| |].
    - rewrite D2. apply HD1.
    - rewrite R2. destruct S2 as [-> _]. apply HD1. }
  assert (exists w3, (if decide (payload_len h = 0) then retM ([], true)
      else scan_data_index path (version h) (payload_len h)) w2 = (Ok (metas 100 bs, true), w3) /\
      w3 = w2 <| w_fs := w_fs w3 |> /\ same_files (w_fs w2) (w_fs w3)) as (w3 & E3 & F3 & S3).
  { case_decide as Hz; [|by apply scan_data_spec]. rewrite (empty_segment _ _ _ _ HD Hz).
    exists w2. split_and!; [done|by destruct w2|done]. }
  assert (w_data w3 = w_data w2 /\ w_readers w3 = w_readers w2) as [D3 R3] by (by rewrite F3).
  rewrite (bindM_run _ _ _ _ _ E3). unfold invalidate_data_reader, set_data, modifyM, bindM.
  eexists _, _. split; [reflexivity|]. cbn [w_data]. split_and!; [apply lookup_insert_eq|done|done| | |].
  - apply (data_state_same w3).
    + apply (data_state_same w2); [done|by apply data_only_fs| |].
      * rewrite D3. apply HD2.
      * rewrite R3. destruct S3 as [-> _]. apply HD2.
    + by destruct w3.
    + cbn. intros e. rewrite lookup_insert_eq. by intros [= <-].
    + cbn. intros i. by rewrite lookup_delete_eq.
  - split; [rewrite F3, F2, F1; done|]. cbn. eauto using same_files_trans.
  - intros q Hq. cbn. rewrite lookup_insert_ne, lookup_delete_ne by done.
    by rewrite D3, D2, D1, R3, R2, R1.
Qed.

Lemma partition_point_at {A} (p : A -> bool) l1 x l2 :
  (forall y, y ∈ l1 -> p y = true) -> p x = false -> partition_point p (l1 ++ x :: l2) = length l1.
Proof.
  intros H Hx. induction l1 as [|y l1 IH]; cbn; [by rewrite Hx|].
  rewrite H by set_solver. f_equal. apply IH. set_solver.
Qed.

Lemma find_blob_spec bs1 b bs2 :
  StronglySorted Z.lt (map db_id (bs1 ++ b :: bs2)) ->
  find_blob (metas 100 (bs1 ++ b :: bs2)) (db_id b) =
  Some (meta_at (100 + Zlen (concat (map blob_encode bs1))) b).
Proof.
  intros Hs. rewrite metas_app. cbn [metas]. unfold find_blob.
  rewrite map_app in Hs. cbn [map] in Hs.
  assert (length (metas 100 bs1) = length bs1) as Hl
    by (by rewrite <- (length_map blob_id), metas_ids, length_map).
  rewrite partition_point_at.
  - rewrite lookup_app_r, Nat.sub_diag by lia. cbn [lookup list_lookup].
    rewrite decide_True by done. done.
  - intros y Hy. apply bool_decide_eq_true.
    assert (blob_id y ∈ map db_id bs1) as Hin.
    { rewrite <- (metas_ids 100). by apply list_elem_of_fmap_2. }
    clear -Hs Hin. induction (map db_id bs1) as [|z l IH]; [set_solver|]. cbn in Hs.
    inversion Hs as [|? ? Hs' Hf]; subst. apply elem_of_cons in Hin as [->|Hin]; [|by apply IH].
    rewrite Forall_app in Hf. destruct Hf as [_ Hf]. by inversion Hf.
  - apply bool_decide_eq_false. cbn. lia.
Qed.

(** The bytes of a blob, through any handle of the segment. *)
Lemma read_blob_ok w path i h bs1 b bs2 :
  no_faults -> seg_file w path h (blobs_payload (bs1 ++ b :: bs2)) ->
  fs_names (w_fs w) !! path = Some i -> wf_blob b ->
  let off := 100 + Zlen (concat (map blob_encode bs1)) in
  exists w', read_blob_payload i (off + 24) (db_stored_len b) w = (Ok (db_bytes b), w') /\
    w' = w <| w_fs := w_fs w' |> /\ same_files (w_fs w) (w_fs w').
Proof.
  intros Hn HS Hi (_ & _ & Hu & Hl & _ & _) off. unfold read_blob_payload. case_decide as Hz.
  { exists w. split_and!; [|by destruct w|done]. rewrite Hl in Hz. unfold Zlen in Hz.
    destruct (db_bytes b); [done|cbn in Hz; lia]. }
  destruct (slice_blob h bs1 b bs2 24 (length (db_bytes b))) as [Hsl Hle]; [rewrite length_blob_encode; lia|].
  replace (Z.to_nat (off + 24)) with (100 + length (concat (map blob_encode bs1)) + 24)%nat
    by (unfold off, Zlen; lia).
  replace (Z.to_nat (db_stored_len b)) with (length (db_bytes b)) by (rewrite Hl; unfold Zlen; lia).
  unfold bindM, io_raw, tryM, zoomM.
  rewrite (fs_read_exact_ok _ _ _ _ _ _ Hn Hi (sf_contents _ _ _ _ HS)) by done.
  unfold retM. rewrite Hsl. unfold blob_encode, encode_data_blob_record.
  rewrite slice_skip by (rewrite length_blob_header; lia). rewrite length_blob_header, slice_all by lia.
  eexists. split; [reflexivity|by split].
Qed.

Lemma data_reader_spec w path h bs :
  no_faults -> data_state w path h bs -> bs <> [] ->
  exists i w', data_reader path w = (Ok i, w') /\ fs_names (w_fs w') !! path = Some i /\
    data_state w' path h bs /\ data_only w w' /\ w_data w' = w_data w /\
    (forall q, q <> path -> w_readers w' !! q = w_readers w !! q).
Proof.
  intros Hn HD Hne. unfold data_reader, bindM at 1, getM. destruct (w_readers w !! path) as [i|] eqn:Er.
  - exists i, w. split_and!; try done; [by apply (ds_reader _ _ _ _ HD)|by destruct w].
  - destruct (fs_open_ok _ _ _ Hn (sf_contents _ _ _ _ (ds_file _ _ _ _ HD))) as (i & Ho & Hi).
    unfold bindM. rewrite io_run, Ho. cbn [fst snd map_err]. unfold modifyM, retM.
    eexists i, _. split; [reflexivity|]. split_and!; [done| |by destruct w|done|].
    + apply (data_state_same w); [done|by destruct w|apply HD|]. cbn. intros j.
      rewrite lookup_insert_eq. by intros [= <-].
    + intros q Hq. cbn. by rewrite lookup_insert_ne.
Qed.

(** Loading a blob of the segment gives it back. *)
Lemma load_blob_spec w path h bs b :
  no_faults -> data_state w path h bs -> b ∈ bs ->
  exists w', load_blob_by_id path (db_id b) w = (Ok b, w') /\ data_state w' path h bs /\ data_only w w' /\
    (forall q, q <> path -> w_data w' !! q = w_data w !! q /\ w_readers w' !! q = w_readers w !! q).
Proof.
  intros Hn HD Hb.
  destruct (ensure_data_spec w path h bs Hn HD) as (w1 & e & E1 & He & Hbs & _ & HD1 & O1 & Q1).
  unfold load_blob_by_id. rewrite (bindM_run _ _ _ _ _ E1).
  rewrite (bindM_run (cached_data path) _ w1 e w1)
    by (unfold cached_data, bindM, getM, liftM; by rewrite He).
  rewrite Hbs. apply list_elem_of_split in Hb as (bs1 & bs2 & ->).
  rewrite find_blob_spec by apply HD. cbn [ok_or]. set (off := 100 + Zlen _).
  rewrite (bindM_run _ _ w1 (meta_at off b) w1) by done.
  destruct (data_reader_spec w1 path h _ Hn HD1 ltac:(by destruct bs1)) as (i & w2 & E2 & Hi & HD2 & O2 & D2 & R2).
  rewrite (bindM_run _ _ _ _ _ E2). cbn [blob_payload_offset blob_stored_len meta_at].
  assert (wf_blob b) as Hwb.
  { pose proof (ds_wf _ _ _ _ HD) as Hw. rewrite Forall_app in Hw. by destruct Hw as [_ [? _]%Forall_cons]. }
  destruct (read_blob_ok w2 path i h bs1 b bs2 Hn (ds_blobs _ _ _ _ HD2 ltac:(by destruct bs1)) Hi Hwb) as (w3 & E3 & F3 & S3).
  fold off in E3. unfold tryM, bindM at 1. rewrite E3.
  rewrite (bindM_run _ _ w3 (db_bytes b) w3) by done. cbn [v2_integrity blob_checksum blob_id blob_logical_len].
  destruct Hwb as (_ & _ & _ & _ & _ & Hsum). rewrite bool_decide_eq_true_2 by done. cbn [andb negb].
  assert (w_data w3 = w_data w2 /\ w_readers w3 = w_readers w2) as [D3 R3] by (by rewrite F3).
  exists w3. split_and!.
  - unfold retM. by destruct b.
  - apply (data_state_same w2); [done|by apply data_only_fs| |].
    + rewrite D3. apply HD2.
    + rewrite R3. destruct S3 as [-> _]. apply HD2.
  - eapply data_only_trans; [exact O1|]. eapply data_only_trans; [exact O2|by apply data_only_fs].
  - intros q Hq. rewrite D3, R3, D2, R2 by done. by apply Q1.
Qed.
Lemma data_state_moved w w' ps path h bs :
  data_state w path h bs -> moved ps w w' -> (path ∉ ps) ->
  w_data w' !! path = w_data w !! path -> w_readers w' !! path = w_readers w !! path ->
  data_state w' path h bs.
Proof.
  intros [H1 H2 H3 H4 H5 H6] HM Hp Hd Hr. split; try done; [by eapply seg_file_moved|by rewrite Hd|].
  destruct HM as [_ K]. destruct (K path Hp) as [-> _]. by rewrite Hr.
Qed.
(** ** Appending *)
Lemma record_append_wf index seq bytes id n codec :
  wf_index index -> seg_inv index -> seq ∈ (segment_seq <$> descriptors index) ->
  u64_ok bytes -> u64_ok id -> u32_ok n ->
  exists index', record_blob_append index seq bytes id n codec = Ok index' /\ wf_index index' /\
    seg_inv index' /\ (segment_seq <$> descriptors index') = (segment_seq <$> descriptors index) /\
    ids_bound index' = Z.max (ids_bound index) id /\ next_segment_seq index' = next_segment_seq index /\
    Zlen (descriptors index') = Zlen (descriptors index).
Proof.
  intros [Wm Wn Wd Wc] Hinv Hs Hb Hid Hn.
  assert (exists index', record_blob_append index seq bytes id n codec = Ok index') as [index' E].
  { unfold record_blob_append. clear -Hs. induction (descriptors index) as [|d ds IH]; [set_solver|].
    cbn [update_first]. destruct (has_seq seq d) eqn:Ed; [cbn; eauto|].
    apply elem_of_cons in Hs as [->|Hs]; [by unfold has_seq in Ed; rewrite bool_decide_eq_true_2 in Ed|].
    destruct (IH Hs) as [ix Hix]. destruct (update_first _ _ ds); [cbn; eauto|done]. }
  exists index'. pose proof (record_append_inv _ _ _ _ _ _ _ Hinv E) as Hinv'. split; [done|].
  unfold record_blob_append in E. destruct (update_first _ _ _) as [ds|] eqn:Eu; [|done]. injection E as <-.
  apply update_first_split in Eu as (l1 & d & l2 & E & _ & _ & ->). rewrite E in *.
  destruct (append_keeps d bytes id n codec) as (K1 & _ & _).
  apply Forall_app in Wd as [W1 [W W2]%Forall_cons].
  assert (wf_descriptor (append_to_descriptor bytes id n codec d) /\
    last_blob_id (append_to_descriptor bytes id n codec d) = Z.max (last_blob_id d) id) as [Wd' Hl].
  { clear -W Hb Hid Hn. unfold wf_descriptor, append_to_descriptor, sat_add32, u32_ok, u64_ok in *.
    destruct d. cbn in *. repeat (case_decide; cbn in * ); lia. }
  split_and!; try done; cbn.
  - split; cbn; [done|done| |].
    + apply Forall_app. split; [done|]. by constructor.
    + unfold Zlen in *. rewrite !length_app in *. exact Wc.
  - rewrite !fmap_app, !fmap_cons. by rewrite K1.
  - unfold ids_bound. cbn. rewrite E, !map_app, !foldr_app. cbn. rewrite Hl.
    clear. generalize (foldr Z.max 0 (map last_blob_id l2)) as a. intros a.
    induction (map last_blob_id l1) as [|x l IH]; cbn; lia.
  - unfold Zlen. by rewrite !length_app.
Qed.

Lemma grown_blobs h bs b :
  grown DATA_LOG_PREFIX (seg_payload h bs)
    [encode_data_blob_header (db_id b) (db_codec b) (db_logical_len b) (db_stored_len b) (db_checksum b);
     db_bytes b] = blobs_payload (bs ++ [b]).
Proof.
  rewrite blobs_payload_ne by (by destruct bs). unfold grown.
  rewrite map_app, concat_app. cbn [map concat]. rewrite !app_nil_r.
  change (encode_data_blob_header _ _ _ _ _ ++ db_bytes b) with (blob_encode b).
  unfold seg_payload. destruct (decide (bs = [] /\ payload_len h = 0)) as [[-> _]|Hne].
  - by rewrite decide_True.
  - rewrite decide_False by done. by rewrite app_assoc.
Qed.
End Laws.
