(* ===== verification/BlobStore.v ===== *)
(** * The blob store

    The laws of appending a blob: the active segment is chosen, or a fresh one
    is started, the blob goes to its end, the index records it, and every blob
    already stored stays where it is. *)

From S2P Require Import Prelude Bytes Text Errors Fs Layout TapeState Compression Records.
From S2P Require Import World Crc Segment Footprint Logs SegmentIndex Slots IndexState DataBlobs.

Section Laws.
Context `{HOST : Host} `{ENV : Environ} `{CL : Crc32cLaws}.

Abbreviation segments := (gmap Z (SegmentHeader * list DataBlob)).

(** The segments of a layout: one per descriptor, no identifier above the
    index's, nothing cached for a segment not yet created. *)
Record segs_ok (w : World) (p : LayoutPaths) (index : SegmentIndex_) (segs : segments) : Prop := {
  sg_data : forall s h bs, segs !! s = Some (h, bs) -> data_state w (data_segment_path p s) h bs;
  sg_dom : forall s, is_Some (segs !! s) <-> s ∈ (segment_seq <$> descriptors index);
  sg_ids : forall s h bs b, segs !! s = Some (h, bs) -> b ∈ bs -> db_id b <= ids_bound index;
  sg_fresh : forall s, u64_ok s -> next_segment_seq index <= s ->
    w_data w !! data_segment_path p s = None /\ w_readers w !! data_segment_path p s = None
}.
Definition blob_in (segs : segments) (s : Z) (b : DataBlob) : Prop :=
  exists h bs, segs !! s = Some (h, bs) /\ b ∈ bs.

(** Room for one more blob. *)
Record append_limits (index : SegmentIndex_) (segs : segments) (encoded : list Z) : Prop := {
  al_next : next_segment_seq index <= U32_MAX;
  al_count : Zlen (descriptors index) < MAX_MAINTENANCE_METADATA_RECORDS;
  al_ids : ids_bound index < U64_MAX;
  al_len : forall s h bs, segs !! s = Some (h, bs) ->
    124 + payload_len h + Zlen encoded <= U64_MAX;
  al_bytes : bytes_ok encoded;
  al_size : 0 < Zlen encoded <= U32_MAX
}.

Lemma seq_bounds32 index s :
  wf_index index -> s ∈ (segment_seq <$> descriptors index) -> u32_ok s.
Proof.
  intros [_ _ Hd _] (d & -> & Hin)%list_elem_of_fmap. rewrite Forall_forall in Hd.
  by destruct (Hd d Hin) as [Hs _].
Qed.
Lemma seq_bounds index s :
  wf_index index -> s ∈ (segment_seq <$> descriptors index) -> u64_ok s.
Proof. intros Hw Hs. pose proof (seq_bounds32 _ _ Hw Hs). unfold u32_ok, u64_ok in *. lia. Qed.
Lemma seq_below index s :
  seg_inv index -> s ∈ (segment_seq <$> descriptors index) -> s < next_segment_seq index.
Proof. intros Hi (d & -> & Hin)%list_elem_of_fmap. by apply (sv_next _ Hi). Qed.

(** A data segment is none of the files another segment's append touches. *)
Lemma data_apart p s t :
  layout_ok p -> u64_ok s -> u64_ok t -> s <> t ->
  data_segment_path p s ∉ [with_extension_tmp (data_segment_path p t); data_segment_path p t].
Proof.
  intros Hlo Hs Ht Hne. rewrite not_elem_of_cons, list_elem_of_singleton. split; intros E.
  - by apply (lo_tmp p Hlo (SData s) (SData t) Hs Ht).
  - pose proof (lo_inj p Hlo (SData s) (SData t) Hs Ht E). congruence.
Qed.
Lemma index_apart p s : layout_ok p -> u64_ok s ->
  data_segment_path p s ∉ [with_extension_tmp (segment_index_file p); segment_index_file p].
Proof.
  intros Hlo Hs. rewrite not_elem_of_cons, list_elem_of_singleton. split; intros E.
  - by apply (lo_tmp p Hlo (SData s) SIndex Hs I).
  - by pose proof (lo_inj p Hlo (SData s) SIndex Hs I E).
Qed.
Lemma apart_index p s : layout_ok p -> u64_ok s ->
  segment_index_file p ∉ [with_extension_tmp (data_segment_path p s); data_segment_path p s].
Proof.
  intros Hlo Hs. rewrite not_elem_of_cons, list_elem_of_singleton. split; intros E.
  - by apply (lo_tmp p Hlo SIndex (SData s) I Hs).
  - by pose proof (lo_inj p Hlo SIndex (SData s) I Hs E).
Qed.

(** ** Choosing the segment *)
Lemma rotated_segs w w' p index index' segs :
  layout_ok p -> wf_index index -> seg_inv index -> next_segment_seq index <= U32_MAX ->
  segs_ok w p index segs ->
  let seq := next_segment_seq index in
  rotated index seq index' -> files_only w w' -> moved (rotation_files p seq) w w' ->
  log_file w' Data (data_segment_path p seq) seq 0 [] ->
  segs_ok w' p index' (<[seq := (header_new Data seq 0 [], [])]> segs).
Proof.
  intros Hlo Hwf Hinv Hmax [Hd Hdom Hids Hfr] seq [_ Rs Rb Rn _] F M HL.
  assert (u64_ok seq) as Hsq by (pose proof (wi_next _ Hwf); unfold u64_ok in *; lia).
  assert (w_data w' = w_data w /\ w_readers w' = w_readers w) as [D R] by (by rewrite F). split.
  - intros s h bs. rewrite lookup_insert_Some. intros [[<- [= <- <-]]|[Hne Hs]].
    + apply log_file_seg in HL as (HS & _ & _). destruct (Hfr seq Hsq) as [N1 N2]; [done|].
      split; [done|done|done|constructor| |]; [rewrite D, N1; done|rewrite R, N2; done].
    + assert (u64_ok s) as Hus by (apply (seq_bounds index); [done|apply Hdom; eauto]).
      eapply data_state_moved; [by apply Hd|exact M| |by rewrite D|by rewrite R].
      unfold rotation_files. change [?a; ?b; ?c; ?d] with ([a; b] ++ [c; d]).
      rewrite not_elem_of_app. split; [by apply data_apart|by apply index_apart].
  - intros s. rewrite Rs, elem_of_app, list_elem_of_singleton, <- Hdom, lookup_insert_is_Some'. naive_solver.
  - intros s h bs b. rewrite lookup_insert_Some, Rb. intros [[<- [= <- <-]]|[Hne Hs]]; [set_solver|eauto].
  - intros s Hs Hle. rewrite D, R. apply Hfr; [done|]. rewrite Rn in Hle. unfold seq in Hle. lia.
Qed.

(** The segment for an append: the active one, or a fresh one behind it. *)
Record prepared (index : SegmentIndex_) (segs : segments) (index' : SegmentIndex_) (segs' : segments) : Prop := {
  pr_wf : wf_index index';
  pr_inv : seg_inv index';
  pr_bound : ids_bound index' = ids_bound index;
  pr_next : next_segment_seq index <= next_segment_seq index' <= next_segment_seq index + 1;
  pr_count : Zlen (descriptors index) <= Zlen (descriptors index') <= Zlen (descriptors index) + 1;
  pr_segs : segs ⊆ segs';
  pr_new : forall s h bs, segs' !! s = Some (h, bs) -> segs !! s = Some (h, bs) \/ (bs = [] /\ payload_len h = 0)
}.

Lemma prepare_spec w p index segs n k :
  no_faults -> layout_ok p -> index_state w (segment_index_file p) index -> segs_ok w p index segs ->
  next_segment_seq index <= U32_MAX -> Zlen (descriptors index) < MAX_MAINTENANCE_METADATA_RECORDS ->
  exists seq index' segs' h bs disk w',
    prepare_active_segment_for_append p index n k w = (Ok (seq, index'), w') /\
    prepared index segs index' segs' /\ segs_ok w' p index' segs' /\ segs' !! seq = Some (h, bs) /\
    index_file w' (segment_index_file p) disk /\ files_only w w' /\
    moved (rotation_files p (next_segment_seq index)) w w'.
Proof.
  intros Hn Hlo HI HG Hmax Hcnt. pose proof HI as [Hwf Hinv (disk & HD & _)].
  destruct (active_found _ Hinv) as (a & Ea & Hin & _). unfold prepare_active_segment_for_append.
  rewrite (bindM_run _ _ w a w) by (unfold liftM; by rewrite Ea). destruct (should_rotate _ _ _ _).
  - destruct (rotate_spec w p index Hn Hlo HI Hmax Hcnt)
      as (index' & w' & E & Hwf' & Hinv' & Hro & Ha' & HD' & F & HL & M).
    rewrite (bindM_run _ _ _ _ _ E).
    rewrite (bindM_run _ _ w' (fresh_descriptor (next_segment_seq index)) w') by (unfold liftM; by rewrite Ha').
    pose proof (rotated_segs _ _ _ _ _ _ Hlo Hwf Hinv Hmax HG Hro F M HL) as HG'.
    assert (segs !! next_segment_seq index = None) as Hnone.
    { apply eq_None_not_Some. rewrite (sg_dom _ _ _ _ HG). intros Hs.
      pose proof (seq_below _ _ Hinv Hs). lia. }
    eexists _, index', _, _, _, index', w'. split; [reflexivity|].
    split_and!; [|exact HG'|apply lookup_insert_eq|done..]. destruct Hro as [_ Rs Rb Rn Rc].
    split; [done|done|done|lia|lia|by apply insert_subseteq|].
    intros s h bs. rewrite lookup_insert_Some. intros [[<- [= <- <-]]|[Hne Hs]]; auto.
  - rewrite (bindM_run _ _ w index w) by done.
    rewrite (bindM_run _ _ w a w) by (unfold liftM; by rewrite Ea).
    assert (is_Some (segs !! segment_seq a)) as [[h bs] Hs]
      by (apply (sg_dom _ _ _ _ HG); by apply list_elem_of_fmap_2).
    exists (segment_seq a), index, segs, h, bs, disk, w. split; [done|].
    split_and!; [|done|done|done|by destruct w|].
    + split; [done|done|done|lia|lia|done|auto].
    + apply moved_same; [apply HD|done|done].
Qed.
(** ** Appending to a segment *)
Lemma blob_parts_ok b :
  wf_blob b -> bytes_ok (DATA_LOG_PREFIX ++ concat [encode_data_blob_header (db_id b) (db_codec b)
    (db_logical_len b) (db_stored_len b) (db_checksum b); db_bytes b]).
Proof.
  intros (_ & _ & _ & _ & Hb & _). cbn [concat]. rewrite app_nil_r. unfold bytes_ok in *.
  rewrite !Forall_app. split; [|split; [apply blob_header_ok|done]].
  apply (bool_decide_unpack (Forall u8_ok DATA_LOG_PREFIX)). by vm_compute.
Qed.

Lemma append_blob_file w path h bs b ce :
  no_faults -> data_state w path h bs -> with_extension_tmp path <> path -> wf_blob b -> db_bytes b <> [] ->
  124 + payload_len h + Zlen (db_bytes b) <= U64_MAX ->
  exists h' w', append_segment_payload_parts path Data 1 DATA_LOG_PREFIX
      [encode_data_blob_header (db_id b) (db_codec b) (db_logical_len b) (db_stored_len b) (db_checksum b);
       db_bytes b] false ce w = (Ok h', w') /\
    files_only w w' /\ moved [with_extension_tmp path; path] w w' /\ kind h' = Data /\
    seg_file w' path h' (blobs_payload (bs ++ [b])) /\
    (bs <> [] -> fs_names (w_fs w') = fs_names (w_fs w)).
Proof.
  intros Hn [HS Hk _ _ _ _] Ht Hwb Hne Hl. pose proof (blob_parts_ok b Hwb) as Hpo.
  set (parts := [_; _]) in *.
  rewrite (sf_plen _ _ _ _ HS) in Hl.
  destruct (append_any_spec w path h (seg_payload h bs) 1 DATA_LOG_PREFIX parts false ce Hn HS Ht)
    as (w' & E & F & Fr & HN & HS').
  - unfold parts. cbn. rewrite app_nil_r. intros [_ ?]%app_eq_nil. done.
  - unfold seg_payload. case_decide; [by left|right]. by rewrite take_app_length.
  - unfold u64_ok. lia.
  - done.
  - unfold parts, Zlen in *. cbn. rewrite !length_app, length_blob_header. cbn. lia.
  - right. unfold parts. cbn. congruence.
  - rewrite Hk in E. eexists _, w'. split; [exact E|]. unfold parts in HS'. rewrite grown_blobs in HS'.
    split_and!; [done| | |exact HS'|].
    + apply (moved_run _ _ _ _ _ E); [done|]. intros q Hq. apply spares_append_parts; set_solver.
    + unfold grown_header. case_decide; [done|]. done.
    + intros Hb. apply HN. by rewrite seg_payload_ne, blobs_payload_ne.
Qed.

Lemma sorted_snoc l x :
  StronglySorted Z.lt l -> (forall y, y ∈ l -> y < x) -> StronglySorted Z.lt (l ++ [x]).
Proof.
  induction 1 as [|y l Hs IH Hf]; intros Hx; cbn; [repeat constructor|].
  constructor; [apply IH; set_solver|]. apply Forall_app. split; [done|]. repeat constructor. set_solver.
Qed.

(** The entry the append caches is what a scan would find. *)
Lemma appended_meta w path h bs b :
  seg_file w path h (blobs_payload (bs ++ [b])) -> wf_blob b ->
  metas 100 bs ++ [mkBlobMeta (db_id b) (db_codec b) (db_logical_len b) (db_stored_len b) (db_checksum b)
    (segment_payload_offset h + payload_len h - db_stored_len b) true] = metas 100 (bs ++ [b]).
Proof.
  intros HS (_ & _ & _ & Hs & _). rewrite metas_app. cbn [metas]. unfold meta_at. do 3 f_equal.
  unfold segment_payload_offset. rewrite (decide_True _ _ (proj2 (sf_header _ _ _ _ HS))).
  rewrite (sf_plen _ _ _ _ HS). unfold blobs_payload. rewrite decide_False by (by destruct bs).
  rewrite Hs, map_app, concat_app. cbn [map concat]. unfold Zlen.
  rewrite !length_app, length_blob_encode.
  change (length DATA_LOG_PREFIX) with 4%nat. change SEGMENT_HEADER_V2_TOTAL_SIZE with 96%nat. cbn. lia.
Qed.
Lemma note_appended_spec w path h bs b :
  no_faults -> seg_file w path h (blobs_payload (bs ++ [b])) -> kind h = Data ->
  Forall wf_blob (bs ++ [b]) -> StronglySorted Z.lt (map db_id (bs ++ [b])) ->
  (exists e, w_data w !! path = Some e /\ tc_blobs e = metas 100 bs) ->
  (forall i, w_readers w !! path = Some i -> fs_names (w_fs w) !! path = Some i) ->
  exists w', note_appended path h (mkBlobMeta (db_id b) (db_codec b) (db_logical_len b) (db_stored_len b)
      (db_checksum b) (segment_payload_offset h + payload_len h - db_stored_len b) true) w = (Ok tt, w') /\
    data_state w' path h (bs ++ [b]) /\ data_only w w' /\ w_readers w' = w_readers w /\
    (forall q, q <> path -> w_data w' !! q = w_data w !! q).
Proof.
  intros Hn HS Hk Hwf Hso (e & He & Hm) Hr. unfold note_appended.
  rewrite (bindM_run (cached_data path) _ w e w)
    by (unfold cached_data, bindM, getM, liftM; by rewrite He).
  pose proof (appended_meta _ _ _ _ _ HS) as Hmeta. rewrite Hm, Hmeta; cycle 1.
  { rewrite Forall_app in Hwf. destruct Hwf as [_ Hwf]. by inversion Hwf. }
  set (e1 := e <| tc_sequence := _ |> <| tc_blobs := _ |>).
  set (w1 := w <| w_data := <[path := e1]> (w_data w) |>).
  rewrite (bindM_run (set_data path e1) _ w tt w1) by done.
  assert (exists s w2, (if trust_hot_cache then retM e1
      else let! stamp := file_stamp path in retM (e1 <| tc_stamp := stamp |>)) w1 =
      (Ok (e1 <| tc_stamp := s |>), w2) /\ w2 = w1 <| w_fs := w_fs w2 |> /\
      same_files (w_fs w1) (w_fs w2)) as (s & w2 & E2 & F2 & S2).
  { destruct trust_hot_cache.
    - exists (tc_stamp e1), w1. split_and!; [by destruct e1|by destruct w1|done].
    - destruct (file_stamp_ok w1 path _ Hn (sf_contents _ _ _ _ HS)) as (n & w2 & E2 & _ & F2 & S2).
      eexists _, w2. rewrite (bindM_run _ _ _ _ _ E2). done. }
  rewrite (bindM_run _ _ _ _ _ E2).
  assert (w_data w2 = w_data w1 /\ w_readers w2 = w_readers w1 /\ w_append w2 = w_append w1)
    as (D2 & R2 & A2) by (by rewrite F2).
  eexists. split; [reflexivity|]. split_and!.
  - split; cbn.
    + apply seg_file_blobs. apply (seg_file_same w); [done|by cbn; rewrite A2|done].
    + done.
    + done.
    + done.
    + intros e'. rewrite lookup_insert_eq. by intros [= <-].
    + intros i. rewrite R2. destruct S2 as [-> _]. intros Hi. split; [by apply Hr|by destruct bs].
  - split; [|done]. rewrite F2. done.
  - done.
  - intros q Hq. cbn. rewrite lookup_insert_ne, D2 by done. cbn. by rewrite lookup_insert_ne.
Qed.
Lemma append_to_segment_spec w path h bs id codec llen encoded ce :
  no_faults -> data_state w path h bs -> with_extension_tmp path <> path ->
  (exists e, w_data w !! path = Some e) -> (forall x, x ∈ bs -> db_id x < id) ->
  u64_ok id -> u32_ok llen -> bytes_ok encoded -> 0 < Zlen encoded <= U32_MAX ->
  124 + payload_len h + Zlen encoded <= U64_MAX ->
  let b := mkBlob id codec llen (Zlen encoded) (blob_integrity_checksum id llen encoded) encoded in
  exists h' w', append_to_segment path id codec llen encoded ce w = (Ok (h', Zlen encoded), w') /\
    data_state w' path h' (bs ++ [b]) /\ moved [with_extension_tmp path; path] w w' /\
    w' = w <| w_fs := w_fs w' |> <| w_append := w_append w' |> <| w_known_dirs := w_known_dirs w' |>
           <| w_data := w_data w' |> <| w_readers := w_readers w' |> /\
    (forall q, q <> path -> w_data w' !! q = w_data w !! q /\ w_readers w' !! q = w_readers w !! q).
Proof.
  intros Hn HD Ht (e & He) Hlt Hid Hll Hb Hsz Hroom b. destruct (ds_cache _ _ _ _ HD _ He) as [Hm Hlog].
  unfold append_to_segment. rewrite (bindM_run (cached_data path) _ w e w)
    by (unfold cached_data, bindM, getM, liftM; by rewrite He).
  rewrite Hlog, (bindM_run _ _ w tt w) by done.
  unfold checked_u32_len, u32_try_from. rewrite decide_True by lia. cbn [ok_or].
  rewrite (bindM_run _ _ w (Zlen encoded) w) by done.
  assert (wf_blob b) as Hwb.
  { unfold wf_blob, b, u32_ok in *. cbn [db_id db_codec db_logical_len db_stored_len db_checksum db_bytes].
    split_and!; try done; lia. }
  destruct (append_blob_file w path h bs b ce Hn HD Ht Hwb) as (h' & w1 & E1 & F1 & M1 & K1 & HS1 & N1).
  { intros E. change (encoded = []) in E. subst encoded. unfold Zlen in Hsz. cbn in Hsz. lia. }
  { done. }
  cbn [db_id db_codec db_logical_len db_stored_len db_checksum db_bytes b] in E1.
  rewrite (bindM_run _ _ _ _ _ E1).
  assert (w_data w1 = w_data w /\ w_readers w1 = w_readers w) as [D1 R1] by (by rewrite F1).
  destruct (note_appended_spec w1 path h' bs b Hn HS1 K1) as (w2 & E2 & HD2 & [F2 S2] & R2 & Q2).
  { apply Forall_app. split; [apply HD|]. by apply Forall_singleton. }
  { rewrite map_app. apply sorted_snoc; [apply HD|]. intros y (x & -> & Hx)%list_elem_of_fmap.
    by apply Hlt. }
  { exists e. by rewrite D1. }
  { rewrite R1. intros i Hi. destruct (ds_reader _ _ _ _ HD _ Hi) as [Hi' Hne]. by rewrite N1. }
  cbn [db_id db_codec db_logical_len db_stored_len db_checksum db_bytes b] in E2.
  rewrite (bindM_run _ _ _ _ _ E2). exists h', w2. split; [done|]. split_and!; [done| | |].
  - eapply moved_trans; [exact M1|]. apply moved_same; [apply HS1|done|by rewrite F2].
  - rewrite F2, F1. done.
  - intros q Hq. rewrite R2, R1, Q2, D1 by done. done.
Qed.

(** ** Appending a blob *)
Definition meta_slot (s : slot) : Prop := match s with SIndex | SData _ => False | _ => True end.
(** The steps of the blob layer leave the other files and their caches alone. *)
Definition blob_touch (p : LayoutPaths) (w w' : World) : Prop :=
  w' = w <| w_fs := w_fs w' |> <| w_append := w_append w' |> <| w_known_dirs := w_known_dirs w' |>
         <| w_index := w_index w' |> <| w_data := w_data w' |> <| w_readers := w_readers w' |> /\
  exists ps, moved ps w w' /\ forall s, meta_slot s -> slot_path p s ∉ ps.

Lemma segs_ok_same w w' p index segs :
  segs_ok w p index segs -> same_files (w_fs w) (w_fs w') -> w_append w' = w_append w ->
  w_data w' = w_data w -> w_readers w' = w_readers w -> segs_ok w' p index segs.
Proof.
  intros [H1 H2 H3 H4] Hs Ha Hd Hr. split; [|done|done|by rewrite Hd, Hr].
  intros s h bs E. destruct (H1 s h bs E) as [D1 D2 D3 D4 D5 D6]. split; [|done..|by rewrite Hd|].
  - apply (seg_file_same w); [done|by rewrite Ha|done].
  - rewrite Hr. destruct Hs as [-> _]. done.
Qed.

(** One segment changed, the index counting the blobs of the new state. *)
Lemma segs_ok_update w w' p index index' segs seq h bs h' bs' :
  layout_ok p -> wf_index index -> seg_inv index -> segs_ok w p index segs -> segs !! seq = Some (h, bs) ->
  data_state w' (data_segment_path p seq) h' bs' ->
  moved [with_extension_tmp (data_segment_path p seq); data_segment_path p seq] w w' ->
  (forall q, q <> data_segment_path p seq -> w_data w' !! q = w_data w !! q /\ w_readers w' !! q = w_readers w !! q) ->
  (segment_seq <$> descriptors index') = (segment_seq <$> descriptors index) ->
  next_segment_seq index' = next_segment_seq index ->
  ids_bound index <= ids_bound index' -> (forall b, b ∈ bs' -> db_id b <= ids_bound index') ->
  segs_ok w' p index' (<[seq := (h', bs')]> segs).
Proof.
  intros Hlo Hwf Hinv [Hd Hdom Hids Hfr] Hs HD M Q Es En Hle Hb.
  assert (u64_ok seq) as Hsq by (apply (seq_bounds index); [done|apply Hdom; eauto]).
  assert (seq < next_segment_seq index) as Hlt by (apply (seq_below index); [done|apply Hdom; eauto]). split.
  - intros s h0 bs0. rewrite lookup_insert_Some. intros [[<- [= <- <-]]|[Hne Hs0]]; [done|].
    assert (u64_ok s) as Hus by (apply (seq_bounds index); [done|apply Hdom; eauto]).
    assert (data_segment_path p s ∉ [with_extension_tmp (data_segment_path p seq); data_segment_path p seq])
      as Hap by (by apply data_apart). destruct (Q (data_segment_path p s)) as [Q1 Q2]; [set_solver|].
    eapply data_state_moved; [by apply Hd|exact M|done|done|done].
  - intros s. rewrite Es, <- Hdom, lookup_insert_is_Some'. naive_solver.
  - intros s h0 bs0 b. rewrite lookup_insert_Some. intros [[<- [= <- <-]]|[Hne Hs0]]; [by apply Hb|].
    intros Hin. specialize (Hids _ _ _ _ Hs0 Hin). lia.
  - intros s Hus Hn. rewrite En in Hn. destruct (Q (data_segment_path p s)) as [Q1 Q2].
    + intros E. pose proof (lo_inj p Hlo (SData s) (SData seq) Hus Hsq E) as [= ->]. lia.
    + rewrite Q1, Q2. by apply Hfr.
Qed.
Lemma meta_apart p seq seq' s :
  layout_ok p -> u64_ok seq -> u64_ok seq' -> meta_slot s ->
  slot_path p s ∉ rotation_files p seq ++ [with_extension_tmp (data_segment_path p seq'); data_segment_path p seq'].
Proof.
  intros Hlo H1 H2 Hm. assert (slot_ok s) as Hs by (by destruct s).
  assert (forall t, slot_ok t -> s <> t -> slot_path p s <> slot_path p t /\ slot_path p s <> with_extension_tmp (slot_path p t))
    as K.
  { intros t Ht Hne. split; [intros E; by apply (lo_inj p Hlo) in E|]. intros E. by apply (lo_tmp p Hlo s t). }
  assert (s <> SIndex /\ (forall n, s <> SData n)) as [Hi Hd] by (split; [|intros n]; intros ->; exact Hm).
  destruct (K SIndex I Hi), (K (SData seq) H1 (Hd _)), (K (SData seq') H2 (Hd _)). unfold rotation_files.
  cbn [slot_path] in *. set_solver.
Qed.

Record appended_blob (p : LayoutPaths) (segs : segments) (b : DataBlob) (seq : Z) (segs' : segments) : Prop := {
  ab_new : blob_in segs' seq b;
  ab_keeps : forall s x, blob_in segs s x -> blob_in segs' s x
}.

Lemma append_blob_spec w p index segs codec llen encoded ce :
  no_faults -> layout_ok p -> index_state w (segment_index_file p) index -> segs_ok w p index segs ->
  append_limits index segs encoded -> u32_ok llen ->
  let id := ids_bound index + 1 in
  let b := mkBlob id codec llen (Zlen encoded) (blob_integrity_checksum id llen encoded) encoded in
  exists seq index' segs' w', append_data_blob p codec llen encoded ce w = (Ok (seq, id), w') /\
    index_state w' (segment_index_file p) index' /\ segs_ok w' p index' segs' /\
    appended_blob p segs b seq segs' /\ blob_touch p w w' /\ u32_ok seq.
Proof.
  intros Hn Hlo HI HG [Lnx Lct Lid Llen Lb Lsz] Hll id b. unfold append_data_blob.
  destruct (load_for_append_spec w _ index Hn HI) as (w1 & E1 & HI1 & [F1 S1]).
  rewrite (bindM_run _ _ _ _ _ E1).
  assert (w_data w1 = w_data w /\ w_readers w1 = w_readers w /\ w_append w1 = w_append w)
    as (D1 & R1 & A1) by (by rewrite F1).
  assert (segs_ok w1 p index segs) as HG1 by (by apply (segs_ok_same w)).
  destruct (prepare_spec w1 p index segs (Z.of_nat DATA_BLOB_HEADER_SIZE + Zlen encoded) (Zlen DATA_LOG_PREFIX)
    Hn Hlo HI1 HG1 Lnx Lct) as (seq & ix & sg & h & bs & disk & w2 & E2 & [Pw Pi Pb _ _ Ps Pn] & HG2 & Hseq & HD2 & F2 & M2).
  rewrite (bindM_run _ _ _ _ _ E2).
  assert (seq ∈ (segment_seq <$> descriptors ix)) as Hin by (apply (sg_dom _ _ _ _ HG2); eauto).
  assert (u64_ok seq) as Hus by (by apply (seq_bounds ix)).
  set (path := data_segment_path p seq).
  destruct (ensure_data_spec w2 path h bs Hn (sg_data _ _ _ _ HG2 _ _ _ Hseq))
    as (w3 & e & E3 & He & _ & _ & HD3 & [F3 S3] & Q3).
  rewrite (bindM_run _ _ _ _ _ E3). unfold next_blob_id. fold (ids_bound ix). rewrite Pb.
  unfold checked_add64. rewrite decide_True by lia. cbn [ok_or]. fold id. rewrite (bindM_run _ _ w3 id w3) by done.
  pose proof (ids_bound_pos index) as Hpos.
  assert (payload_len h = 0 \/ segs !! seq = Some (h, bs)) as Hbs by (destruct (Pn _ _ _ Hseq) as [|[_ ?]]; auto).
  destruct (append_to_segment_spec w3 path h bs id codec llen encoded ce Hn HD3)
    as (h' & w4 & E4 & HD4 & M4 & F4 & Q4); [|eauto|..|done|done|done| |].
  { by apply (lo_tmp p Hlo (SData seq) (SData seq)). }
  { intros x Hx. pose proof (sg_ids _ _ _ _ HG2 _ _ _ _ Hseq Hx). unfold id. lia. }
  { unfold u64_ok, id. lia. }
  { destruct Hbs as [->|Hbs]; [lia|by eapply Llen]. }
  rewrite (bindM_run _ _ _ _ _ E4). fold b in HD4.
  destruct (record_append_wf ix seq (payload_len h') id (Zlen encoded) codec Pw Pi Hin)
    as (ix' & E5 & W5 & I5 & Es5 & B5 & N5 & _); [|unfold u64_ok, id; lia|unfold u32_ok; lia|].
  { rewrite (sf_plen _ _ _ _ (ds_file _ _ _ _ HD4)).
    pose proof (sf_len _ _ _ _ (ds_file _ _ _ _ HD4)). unfold u64_ok, Zlen in *. lia. }
  rewrite (bindM_run _ _ w4 ix' w4) by (unfold liftM; by rewrite E5).
  assert (moved [with_extension_tmp path; path] w2 w4) as M24.
  { eapply moved_trans; [|exact M4]. apply moved_same; [apply HD2|done|by rewrite F3]. }
  destruct (store_index_spec w4 (segment_index_file p) disk ix') as (w5 & E6 & HI5 & [F5 S5] & FS5);
    [|done..|].
  { destruct HD2 as [HL Hdw]. split; [|done]. eapply log_file_moved; [exact HL|exact M24|by apply apart_index]. }
  rewrite (bindM_run _ _ _ _ _ E6).
  exists seq, ix', (<[seq := (h', bs ++ [b])]> sg), w5. split; [done|]. split_and!; [done| | | |].
  - assert (w_data w5 = w_data w4 /\ w_readers w5 = w_readers w4 /\ w_append w5 = w_append w4)
      as (D5 & R5 & A5) by (by rewrite F5).
    apply (segs_ok_same w4); [|done..]. eapply (segs_ok_update w2 w4 p ix); try done; [|lia|].
    + intros q Hq. destruct (Q4 q Hq) as [-> ->]. by apply Q3.
    + intros x [Hx| ->%list_elem_of_singleton]%elem_of_app; [|cbn; lia].
      pose proof (sg_ids _ _ _ _ HG2 _ _ _ _ Hseq Hx). lia.
  - split.
    + exists h', (bs ++ [b]). rewrite lookup_insert_eq. set_solver.
    + intros s x (h0 & bs0 & Hs0 & Hx). eapply lookup_weaken in Hs0; [|exact Ps].
      destruct (decide (s = seq)) as [->|Hne].
      * exists h', (bs ++ [b]). rewrite lookup_insert_eq. split; [done|]. rewrite Hseq in Hs0.
        injection Hs0 as <- <-. set_solver.
      * exists h0, bs0. by rewrite lookup_insert_ne.
  - split; [rewrite F5, F4, F3, F2, F1; done|].
    exists (rotation_files p (next_segment_seq index) ++ [with_extension_tmp path; path]). split; cycle 1.
    { intros s Hs. apply meta_apart; try done. pose proof (wi_next _ (ix_wf _ _ _ HI)). done. }
    assert (wf_fs (w_fs w)) as Hw by (destruct HI as [_ _ (dk & [HL _] & _)]; apply HL).
    eapply moved_trans; [by apply (moved_same _ w w1)|]. eapply moved_trans; [eapply moved_weaken; [exact M2|set_solver]|].
    eapply moved_trans; [eapply moved_weaken; [exact M24|set_solver]|].
    apply moved_same; [apply M24|done|by rewrite F5].
  - apply (seq_bounds32 ix); done.
Qed.
(** ** Reading a blob *)
Lemma descriptor_found index s :
  s ∈ (segment_seq <$> descriptors index) ->
  exists d, descriptor_for_segment index s = Some d /\ segment_seq d = s.
Proof.
  intros (d & -> & Hin)%list_elem_of_fmap. unfold descriptor_for_segment.
  destruct (list_find (fun x => segment_seq x = segment_seq d) (descriptors index)) as [[i x]|] eqn:E.
  - apply list_find_Some in E as (_ & Hx & _). by exists x.
  - apply list_find_None in E. rewrite Forall_forall in E. by destruct (E d Hin).
Qed.

Lemma load_location_spec w p index segs s b :
  no_faults -> layout_ok p -> index_state w (segment_index_file p) index -> segs_ok w p index segs ->
  blob_in segs s b ->
  exists w', load_blob_by_location p s (db_id b) w = (Ok b, w') /\
    index_state w' (segment_index_file p) index /\ segs_ok w' p index segs /\ blob_touch p w w'.
Proof.
  intros Hn Hlo HI HG (h & bs & Hs & Hb).
  destruct (load_for_append_spec w _ index Hn HI) as (w1 & E1 & HI1 & [F1 S1]).
  assert (w_data w1 = w_data w /\ w_readers w1 = w_readers w /\ w_append w1 = w_append w)
    as (D1 & R1 & A1) by (by rewrite F1).
  assert (segs_ok w1 p index segs) as HG1 by (by apply (segs_ok_same w)).
  assert (s ∈ (segment_seq <$> descriptors index)) as Hin by (apply (sg_dom _ _ _ _ HG); eauto).
  destruct (descriptor_found _ _ Hin) as (d & Ed & Es).
  unfold load_blob_by_location. rewrite (bindM_run _ _ _ _ _ E1), Ed, Es.
  destruct (load_blob_spec w1 (data_segment_path p s) h bs b Hn (sg_data _ _ _ _ HG1 _ _ _ Hs) Hb)
    as (w2 & E2 & HD2 & [F2 S2] & Q2).
  unfold tryM, bindM at 1. rewrite E2. exists w2. split; [done|].
  assert (wf_fs (w_fs w)) as Hw by (destruct HI as [_ _ (dk & [HL _] & _)]; apply HL).
  assert (wf_fs (w_fs w1)) as Hw1 by (by eapply wf_same).
  split_and!.
  - eapply (index_state_moved w1 w2 []); [done|by apply moved_same; [| |by rewrite F2]|set_solver|by rewrite F2].
  - rewrite <- (insert_id segs s (h, bs)) by done.
    eapply (segs_ok_update w1 w2 p index index); try done; [apply HI|apply HI| |].
    + apply moved_same; [done|done|by rewrite F2].
    + intros x Hx. by eapply (sg_ids _ _ _ _ HG1).
  - split; [rewrite F2, F1; done|]. exists []. split; [|set_solver].
    eapply moved_trans; [apply (moved_same _ w w1); done|]. apply moved_same; [done|done|by rewrite F2].
Qed.
End Laws.
