(* ===== verification/DataPath.v ===== *)
(** * Logical blocks (storage/data_path.rs)

    A logical block is written as a blob, an extent of the block map and a range
    of the lookup; the checkpoint page is dirty from before the first change
    until the files are synced. Reads go from the lookup to the block map to the
    blob; an unmap stales the extents it touches. *)

From S2P Require Import Prelude Bytes Text Errors Fs Layout TapeState Compression Records.
From S2P Require Import World Crc Segment Footprint Checkpoint Logs BlkMap MapLookup Dedup Reclaim.
From S2P Require Import SegmentIndex Slots IndexState DataBlobs BlobStore.

Definition DEFAULT_DEDUP_COLD_LOAD_MAX_BYTES : Z := 8 * 1024 * 1024.

Record WriteOptions : Type := mkOptions {
  dedup_enabled : bool;
  preferred_codec : CompressionCodec;
  force_sync : bool;
  payload_checksum_enabled : bool
}.
Definition default_write_options : WriteOptions := mkOptions true Lz4 false true.
Definition throughput_default : WriteOptions := mkOptions false CNone false false.

Inductive IngestFailpoint : Type :=
| AfterDirtyCheckpoint | AfterBlobPersist | AfterBlkMapAppend | AfterLookupAppend.
#[export] Instance IngestFailpoint_eq_dec : EqDecision IngestFailpoint.
Proof. solve_decision. Defined.

Record WriteReport : Type := mkWriteReport {
  wr_record_id : Z;
  wr_dedup_entry_id : Z;
  wr_dedup_hit : bool;
  wr_collision_detected : bool;
  wr_codec_used : CompressionCodec;
  wr_checkpoint_epoch : Z
}.
Record LogicalReadResult : Type := mkRead {
  rd_record_id : Z;
  rd_logical_start : Z;
  rd_logical_len : Z;
  rd_dedup_entry_id : Z;
  rd_codec_used : CompressionCodec;
  rd_payload : list Z
}.
Record UnmapReport : Type := mkUnmap {
  requested_start : Z;
  requested_len : Z;
  staled_record_ids : list Z;
  dedup_refcount_decrements : Z;
  reclaim_safe_promotions : Z
}.

(** Where the payload of a block went. *)
Record StoredPayload : Type := mkStored {
  sp_entry : Z;
  sp_blob : Z;
  sp_codec : CompressionCodec;
  sp_len : Z;
  sp_segment : Z;
  sp_hit : bool;
  sp_collision : bool
}.

(** [is_ascii_digit] on the six bytes between the prefix and the suffix. *)
Definition six_digits (prefix suffix name : list Z) : option (list Z) :=
  if decide (take (length prefix) name = prefix /\ drop (length name - length suffix) name = suffix /\
             length name = length prefix + 6 + length suffix)%nat
  then let digits := take 6 (drop (length prefix) name) in
       if forallb (fun b => bool_decide (48 <= b <= 57)) digits then Some digits else None
  else None.
Definition indexed_data_segment_seq (name : list Z) : option Z :=
  match six_digits (bytes_of_string "data_") (bytes_of_string ".seg") name with
  | Some digits => parse_uint U32_MAX digits
  | None => None
  end.
Definition is_indexed_data_segment_name (name : list Z) : bool :=
  bool_decide (is_Some (indexed_data_segment_seq name)).

Section Ops.
Context `{HOST : Host} `{ENV : Environ} `{C : Crc32c} `{HO : HashOrder} `{BC : BlockCodecs} `{B3 : Blake3}.

(** [Path::file_name]. *)
Definition file_name (path : string) : list Z :=
  let l := reverse (bytes_of_string path) in
  match list_find (fun b => b = 47) l with Some (i, _) => reverse (take i l) | None => reverse l end.
(** [fs::read_dir]: the entries' paths, each the directory joined with a name. *)
Definition entries_of (dir : string) (fs : Fs) : list string :=
  filter (fun p => p = path_join dir (string_of_bytes (file_name p))) (fst <$> map_to_list (fs_names fs)).
Definition read_dir (dir : string) : M World StorageError (list string) :=
  io io_step ;;! let! w := getM in retM (entries_of dir (w_fs w)).

Definition dedup_cold_load_max_bytes : option Z :=
  let limit :=
    match getenv "HOLO_TAPE_DEDUP_COLD_LOAD_MAX_BYTES" with
    | Some raw => default DEFAULT_DEDUP_COLD_LOAD_MAX_BYTES (parse_uint U64_MAX raw)
    | None => DEFAULT_DEDUP_COLD_LOAD_MAX_BYTES
    end in
  if decide (limit = 0) then None else Some limit.

Definition should_skip_cold_dedup (path : string) : M World StorageError bool :=
  let! ready := dedup_cache_ready path in
  if (ready : bool) then retM false
  else match dedup_cold_load_max_bytes with
       | None => retM false
       | Some limit =>
           let! r := io_raw (fs_metadata path) in
           match r with
           | Ok (len, _) => retM (bool_decide (limit < len))
           | Err _ => retM false
           end
       end.

Definition should_verify_dedup_hit (entry : DedupIndexEntry) : bool :=
  if decide (identity_version entry <> DEDUP_IDENTITY_BLAKE3_128) then true
  else match getenv "HOLO_TAPE_DEDUP_VERIFY_HITS" with
       | Some raw =>
           negb (bool_decide (map to_ascii_lowercase (trim raw) ∈
             [bytes_of_string "0"; bytes_of_string "false"; bytes_of_string "no"]))
       | None => true
       end.

Definition dedup_entry_matches_payload (paths : LayoutPaths) (entry : DedupIndexEntry) (payload : list Z)
  : M World StorageError bool :=
  if decide (d_logical_len entry <> Zlen payload) then retM false
  else
    let! seq := locate_blob_segment_id paths (stored_blob_id entry) in
    let! blob := load_blob_by_location paths seq (stored_blob_id entry) in
    if decide (db_logical_len blob <> d_logical_len entry \/ db_stored_len blob <> stored_len entry)
    then retM false
    else
      let! candidate := (if decide (db_codec blob = CNone) then retM (db_bytes blob)
                         else liftM (decompress_payload (db_codec blob) (db_bytes blob) (db_logical_len blob))) in
      retM (bool_decide (candidate = payload)).

Definition prepare_payload_for_write (codec : CompressionCodec) (payload : list Z)
  : Result StorageError (CompressionCodec * list Z * bool) :=
  match codec with
  | CNone => Ok (CNone, payload, false)
  | _ => Ok (compress_payload codec payload)
  end.

(** The payload goes to a blob of its own: the segment, the blob, the codec and
    the stored length. *)
Definition store_new_blob (paths : LayoutPaths) (options : WriteOptions) (logical_len : Z) (payload : list Z)
  : M World StorageError (Z * Z * CompressionCodec * Z) :=
  let! (codec, encoded, _) := liftM (prepare_payload_for_write (preferred_codec options) payload) in
  let! len := liftM (checked_u32_len (Zlen encoded) "encoded payload length") in
  let! (seq, id) := append_data_blob paths codec logical_len encoded (payload_checksum_enabled options) in
  retM (seq, id, codec, len).

Definition new_dedup_entry (fp_hi fp_lo sum logical_len blob len : Z) (codec : CompressionCodec)
  : DedupIndexEntry :=
  mkDedup 0 fp_hi fp_lo sum logical_len blob len codec DEDUP_IDENTITY_BLAKE3_128 1.

Definition store_deduplicated (paths : LayoutPaths) (options : WriteOptions) (sum logical_len : Z)
  (payload : list Z) : M World StorageError StoredPayload :=
  let (fp_hi, fp_lo) := fingerprint128 payload in
  let! identity := lookup_identity (dedup_file paths) fp_hi fp_lo sum logical_len in
  match identity with
  | LkHit entry =>
      let! same := (if should_verify_dedup_hit entry then dedup_entry_matches_payload paths entry payload
                    else retM true) in
      if (same : bool) then
        let! _ := upsert_dedup_entry (dedup_file paths)
                    (new_dedup_entry (fingerprint_hi entry) (fingerprint_lo entry) (d_payload_checksum entry)
                       (d_logical_len entry) (stored_blob_id entry) (stored_len entry) (d_compression entry)) in
        let! seq := locate_blob_segment_id paths (stored_blob_id entry) in
        retM (mkStored (entry_id entry) (stored_blob_id entry) (d_compression entry) (stored_len entry) seq
                true false)
      else
        let! (seq, id, codec, len) := store_new_blob paths options logical_len payload in
        let! e := insert_dedup_collision_entry (dedup_file paths)
                    (new_dedup_entry fp_hi fp_lo sum logical_len id len codec) in
        retM (mkStored (entry_id e) id codec len seq false true)
  | LkCollision | LkMiss =>
      let collision := match identity with LkCollision => true | _ => false end in
      let! (seq, id, codec, len) := store_new_blob paths options logical_len payload in
      let! r := upsert_dedup_entry (dedup_file paths)
                  (new_dedup_entry fp_hi fp_lo sum logical_len id len codec) in
      match r with
      | UpHit e =>
          let! seq := locate_blob_segment_id paths (stored_blob_id e) in
          retM (mkStored (entry_id e) (stored_blob_id e) (d_compression e) (stored_len e) seq true collision)
      | UpInserted e => retM (mkStored (entry_id e) id codec len seq false collision)
      | UpCollisionInserted e => retM (mkStored (entry_id e) id codec len seq false true)
      end
  end.

Definition store_payload (paths : LayoutPaths) (options : WriteOptions) (logical_len : Z) (payload : list Z)
  : M World StorageError StoredPayload :=
  let sum := if payload_checksum_enabled options then checksum32 payload else 0 in
  let! dedup := (if dedup_enabled options
                 then let! skip := should_skip_cold_dedup (dedup_file paths) in retM (negb skip)
                 else retM false) in
  if (dedup : bool) then store_deduplicated paths options sum logical_len payload
  else
    let! (seq, id, codec, len) := store_new_blob paths options logical_len payload in
    retM (mkStored 0 id codec len seq false false).

Definition interrupted (failpoint : option IngestFailpoint) (at_ : IngestFailpoint) (msg : string)
  : M World StorageError unit :=
  if decide (failpoint = Some at_) then failM (Conflict msg) else retM tt.

Definition sync_layout_segments (paths : LayoutPaths) : M World StorageError unit :=
  sync_indexed_segments paths ;;!
  flush_segment_index_for_append (segment_index_file paths) ;;!
  sync_segment_file (segment_index_file paths) ;;!
  sync_blk_map (blk_map_file paths) ;;!
  sync_lookup (lookup_file paths) ;;!
  sync_dedup (dedup_file paths).

Definition block_extent (start len filemarks : Z) (options : WriteOptions) (payload : list Z)
  (s : StoredPayload) : BlkMapRecord :=
  mkBlk 0 start len (sp_segment s) (sp_blob s) filemarks BActive (sp_entry s) (sp_codec s) (sp_len s)
    (if payload_checksum_enabled options then integrity32 payload else 0)
    (if payload_checksum_enabled options then PcCrc32c else PcNone).

Definition write_logical_block (paths : LayoutPaths) (start : Z) (payload : list Z) (filemarks : Z)
  (options : WriteOptions) (failpoint : option IngestFailpoint) : M World StorageError WriteReport :=
  if decide (payload = []) then failM (Conflict "logical payload cannot be empty")
  else
    let! checkpoint := load_checkpoint_cached (metadata_file paths) in
    let! checkpoint :=
      (if decide (flags checkpoint = Clean) then
         let c := marked Dirty checkpoint in persist_checkpoint_cached (metadata_file paths) c ;;! retM c
       else retM checkpoint) in
    interrupted failpoint AfterDirtyCheckpoint "ingest interrupted after dirty checkpoint" ;;!
    let! logical_len := liftM (checked_u32_len (Zlen payload) "logical payload length") in
    let! s := store_payload paths options logical_len payload in
    interrupted failpoint AfterBlobPersist "ingest interrupted after blob persist" ;;!
    let! appended := append_blk_map_record (blk_map_file paths)
                       (block_extent start logical_len filemarks options payload s) in
    interrupted failpoint AfterBlkMapAppend "ingest interrupted after blk_map append" ;;!
    append_lookup_record (lookup_file paths)
      (mkLookup 0 (logical_start appended) (logical_end appended - 1) (record_id appended) (record_id appended)) ;;!
    interrupted failpoint AfterLookupAppend "ingest interrupted after lookup append" ;;!
    let! pending := record_pending_write (metadata_file paths) in
    let! checkpoint :=
      (if force_sync options || bool_decide (sync_every_writes <= pending) || bool_decide (is_Some failpoint) then
         sync_layout_segments paths ;;!
         let c := marked Clean checkpoint in
         persist_checkpoint_cached (metadata_file paths) c ;;!
         clear_pending_writes (metadata_file paths) ;;! retM c
       else retM checkpoint) in
    retM (mkWriteReport (record_id appended) (sp_entry s) (sp_hit s) (sp_collision s) (sp_codec s)
            (epoch checkpoint)).

Definition flush_pending_writes (paths : LayoutPaths) : M World StorageError bool :=
  let! checkpoint := load_checkpoint_cached (metadata_file paths) in
  let! pending := pending_count (metadata_file paths) in
  if decide (pending = 0 /\ flags checkpoint = Clean) then retM false
  else
    sync_layout_segments paths ;;!
    persist_checkpoint_cached (metadata_file paths) (marked Clean checkpoint) ;;!
    clear_pending_writes (metadata_file paths) ;;!
    retM true.

(** ** Reading *)
Definition verify_logical_payload_checksum (algorithm : PayloadChecksumAlgorithm) (expected : Z)
  (payload : list Z) : Result StorageError unit :=
  let matches :=
    match algorithm with
    | PcNone => true
    | Fnv1a32 => bool_decide (checksum32 payload = expected)
    | PcCrc32c => bool_decide (integrity32 payload = expected)
    end in
  if matches then Ok tt else Err (Corrupt "payload checksum mismatch on read").

(** The payload of an extent from the bytes of its blob. *)
Definition extent_payload (record : BlkMapRecord) (bytes : list Z) : Result StorageError (list Z) :=
  if decide (compression record = CNone) then
    if decide (Zlen bytes <> logical_len record) then Err (Corrupt "raw payload length mismatch") else Ok bytes
  else decompress_payload (compression record) bytes (logical_len record).

Definition read_logical_block (paths : LayoutPaths) (logical_block : Z)
  : M World StorageError (option LogicalReadResult) :=
  let! lookup := locate_logical_block (lookup_file paths) logical_block in
  match lookup with
  | None => retM None
  | Some lookup =>
      let! record := locate_active_record (blk_map_file paths) logical_block (blk_map_ref_start lookup)
                       (blk_map_ref_end lookup) in
      match record with
      | None => retM None
      | Some record =>
          let! blob := load_blob_by_location paths (physical_segment_id record) (physical_offset record) in
          let! payload := liftM (extent_payload record (db_bytes blob)) in
          let! _ := liftM (verify_logical_payload_checksum (payload_checksum_algorithm record)
                             (payload_checksum record) payload) in
          retM (Some (mkRead (record_id record) (logical_start record) (logical_len record)
                        (dedup_entry_id record) (compression record) payload))
      end
  end.

(** ** Unmapping *)
Definition touches (start stop : Z) (r : BlkMapRecord) : bool :=
  is_active r && bool_decide (start < logical_end r) && bool_decide (logical_start r < stop).

Definition run_unmap (paths : LayoutPaths) (start len : Z) : M World StorageError UnmapReport :=
  let stop := sat_add64 start len in
  let! (_, records) := load_blk_map_records (blk_map_file paths) in
  let hit := filter (touches start stop) records in
  let ids := record_id <$> hit in
  let entries := filter (fun e => 0 < e) (dedup_entry_id <$> hit) in
  if decide (ids = []) then retM (mkUnmap start len [] 0 0)
  else
    let! updated := mark_blk_map_stale_batch (blk_map_file paths) ids in
    let staled := record_id <$> updated in
    let! decremented := decrement_ref_counts (dedup_file paths) entries in
    let! _ := rebuild_lookup_from_blk_map (blk_map_file paths) (lookup_file paths) in
    let! _ := upsert_reclaim_candidates (lookup_file paths) (reclaim_file paths) staled Truncated in
    let! updates := refresh_reclaim_safety (lookup_file paths) (reclaim_file paths) in
    retM (mkUnmap start len staled (Zlen decremented mod 2 ^ 32) (updates mod 2 ^ 32)).

(** ** Erasing a layout *)
Definition remove_matching (l : list string) : M World StorageError bool :=
  forM l (fun path => invalidate_data_segment_cache path ;;! io (fs_remove path)) ;;!
  retM (negb (bool_decide (l = []))).

Definition remove_data_segment_files (paths : LayoutPaths) : M World StorageError unit :=
  let! listed := read_dir (root paths) in
  let! removed := remove_matching (filter (fun p => is_indexed_data_segment_name (file_name p)) listed) in
  let! there := path_exists (data_file paths) in
  let! removed := (if (there : bool) then
                     invalidate_data_segment_cache (data_file paths) ;;! io (fs_remove (data_file paths)) ;;! retM true
                   else retM removed) in
  if (removed : bool) then sync_directory (root paths) else retM tt.

(** The index and the first data segment of an empty layout. *)
Definition fresh_segments (paths : LayoutPaths) (e : Z) : M World StorageError unit :=
  let index := SegmentIndex_new configured_max_segment_size in
  let active_path := data_segment_path paths 0 in
  write_segment_file active_path Data 1 e [] ;;!
  persist_segment_index (segment_index_file paths) index ;;!
  store_segment_index_clean (segment_index_file paths) index ;;!
  invalidate_data_reader active_path ;;!
  update_data_cache active_path e [].

Definition reset_layout_for_overwrite (paths : LayoutPaths) : M World StorageError unit :=
  let! checkpoint := load_checkpoint_cached (metadata_file paths) in
  let checkpoint := marked Dirty checkpoint in
  persist_checkpoint_cached (metadata_file paths) checkpoint ;;!
  persist_blk_map_records (blk_map_file paths) [] ;;!
  persist_lookup_records (lookup_file paths) [] ;;!
  write_segment_file (reclaim_file paths) Reclaim 4 (epoch checkpoint) [] ;;!
  persist_dedup_entries (dedup_file paths) [] ;;!
  remove_data_segment_files paths ;;!
  fresh_segments paths (epoch checkpoint) ;;!
  let checkpoint := marked Clean checkpoint <| active_blk_map_root := 2 |> <| active_lookup_root := 3 |> in
  persist_checkpoint_cached (metadata_file paths) checkpoint ;;!
  clear_pending_writes (metadata_file paths).

(** ** Dropping the caches of a layout *)
Definition retain_outside {A} (dir : string) (m : gmap string A) : gmap string A :=
  filter (fun kv => ~ path_under dir kv.1) m.

Definition discard_layout_caches (paths : LayoutPaths) : M World StorageError unit :=
  discard_blk_map_cache_checked (blk_map_file paths) ;;!
  discard_lookup_cache_checked (lookup_file paths) ;;!
  modifyM (fun w => w <| w_checkpoint := delete (metadata_file paths) (w_checkpoint w) |>
                      <| w_pending := delete (metadata_file paths) (w_pending w) |>
                      <| w_readers := retain_outside (root paths) (w_readers w) |>
                      <| w_data := retain_outside (root paths) (w_data w) |>) ;;!
  discard_dedup_cache (dedup_file paths) ;;!
  invalidate_segment_index_cache (segment_index_file paths).

Definition discard_layout_caches_checked (paths : LayoutPaths) : M World StorageError unit :=
  discard_layout_append_handles (root paths) ;;! discard_layout_caches paths.
End Ops.
