(* ===== verification/Store.v ===== *)
(** * The block store

    What the files of a cartridge and the caches over them mean together: a map
    from logical blocks to payloads. Each operation of the layers below keeps
    the meaning of the files it does not touch. *)

From S2P Require Import Prelude Bytes Text Errors Fs Layout TapeState Compression Records.
From S2P Require Import World Crc Segment Footprint Checkpoint Logs BlkMap MapLookup Dedup Reclaim.
From S2P Require Import SegmentIndex Slots IndexState DataBlobs BlobStore DataPath.

(** The contents of the files. *)
Record Store : Type := mkStore {
  st_checkpoint : MetadataCheckpoint;
  st_blk_seq : Z;
  st_blk : list BlkMapRecord;
  st_lookup_seq : Z;
  st_lookup : list MapLookupRecord;
  st_index : SegmentIndex_;
  st_segs : gmap Z (SegmentHeader * list DataBlob)
}.
#[export] Instance eta_Store : Eta Store := fun s =>
  mkStore (st_checkpoint s) (st_blk_seq s) (st_blk s) (st_lookup_seq s) (st_lookup s) (st_index s) (st_segs s).

Definition extents (s : Store) : gmap Z BlkMapRecord := replay record_id (st_blk s).
Definition ranges (s : Store) : gmap Z MapLookupRecord := replay lookup_id (st_lookup s).

Section Meaning.
Context `{C : Crc32c} `{BC : BlockCodecs}.

(** The header of a blob says what the extent says of it. *)
Definition described (r : BlkMapRecord) (b : DataBlob) : Prop :=
  db_codec b = compression r /\ db_logical_len b = logical_len r /\ db_stored_len b = compressed_len r /\
  db_stored_len b <= db_logical_len b.
(** The blob of an extent decodes to a payload its checksum accepts. *)
Definition extent_holds (s : Store) (r : BlkMapRecord) (payload : list Z) : Prop :=
  exists b, blob_in (st_segs s) (physical_segment_id r) b /\ db_id b = physical_offset r /\
    extent_payload r (db_bytes b) = Ok payload /\
    verify_logical_payload_checksum (payload_checksum_algorithm r) (payload_checksum r) payload = Ok tt /\
    described r b.

(** What a read of block [b] has to deliver. *)
Definition holds (s : Store) (b : Z) (res : LogicalReadResult) : Prop :=
  exists r payload, block_at (extents s) b r /\ extent_holds s r payload /\
    res = mkRead (record_id r) (logical_start r) (logical_len r) (dedup_entry_id r) (compression r) payload.

(** The block map, the lookup and the blobs agree. *)
Record links (s : Store) : Prop := {
  ln_map : map_inv (extents s);
  ln_ranges : lookup_inv (ranges s);
  ln_end : forall i r, extents s !! i = Some r -> is_active r -> logical_start r + logical_len r <= U64_MAX;
  ln_indexed : forall i r, extents s !! i = Some r -> is_active r ->
    exists j lk, ranges s !! j = Some lk /\ indexes lk r;
  ln_pointed : forall j lk, ranges s !! j = Some lk ->
    exists i r, extents s !! i = Some r /\ is_active r /\ indexes lk r;
  ln_stored : forall i r, extents s !! i = Some r -> is_active r -> exists payload, extent_holds s r payload
}.

Lemma extent_holds_unique s r p1 p2 :
  (forall q h bs, st_segs s !! q = Some (h, bs) -> NoDup (db_id <$> bs)) ->
  extent_holds s r p1 -> extent_holds s r p2 -> p1 = p2.
Proof.
  intros Hnd (b1 & (h1 & bs1 & E1 & Hb1) & I1 & P1 & _) (b2 & (h2 & bs2 & E2 & Hb2) & I2 & P2 & _).
  rewrite E1 in E2. injection E2 as <- <-.
  assert (b1 = b2) as ->; [|congruence].
  specialize (Hnd _ _ _ E1). rewrite <- I2 in I1. clear -Hnd Hb1 Hb2 I1.
  induction bs1 as [|x l IH]; [set_solver|]. cbn in Hnd. apply NoDup_cons in Hnd as [Hx Hnd].
  apply elem_of_cons in Hb1 as [->|Hb1]; apply elem_of_cons in Hb2 as [->|Hb2]; try done.
  - destruct Hx. rewrite I1. by apply list_elem_of_fmap_2.
  - destruct Hx. rewrite <- I1. by apply list_elem_of_fmap_2.
  - by apply IH.
Qed.
End Meaning.

Section Laws.
Context `{HOST : Host} `{ENV : Environ} `{CL : Crc32cLaws} `{HOL : HashOrderLaws} `{BC : BlockCodecs}
  `{B3 : Blake3}.

(** The files and the caches hold a store. *)
Record files_ok (w : World) (p : LayoutPaths) (s : Store) : Prop := {
  fo_cp : cp_state w (metadata_file p) (st_checkpoint s);
  fo_blk : blk_state w (blk_map_file p) (st_blk_seq s) (st_blk s);
  fo_lookup : lookup_state w (lookup_file p) (st_lookup_seq s) (st_lookup s);
  fo_index : index_state w (segment_index_file p) (st_index s);
  fo_segs : segs_ok w p (st_index s) (st_segs s);
  fo_dedup : exists h payload, seg_file w (dedup_file p) h payload
}.

Definition slot_files (p : LayoutPaths) (t : slot) : list string :=
  [with_extension_tmp (slot_path p t); slot_path p t].

Lemma slot_apart p s t :
  layout_ok p -> slot_ok s -> slot_ok t -> s <> t -> slot_path p s ∉ slot_files p t.
Proof.
  intros Hlo Hs Ht Hne. unfold slot_files. rewrite not_elem_of_cons, list_elem_of_singleton. split; intros E.
  - by apply (lo_tmp p Hlo s t).
  - by apply (lo_inj p Hlo) in E.
Qed.

Lemma segs_ok_moved w w' ps p index segs :
  wf_index index -> segs_ok w p index segs -> moved ps w w' ->
  (forall n, u64_ok n -> data_segment_path p n ∉ ps) ->
  w_data w' = w_data w -> w_readers w' = w_readers w -> segs_ok w' p index segs.
Proof.
  intros Hwf [H1 H2 H3 H4] HM Hp Hd Hr. split; [|done|done|by rewrite Hd, Hr].
  intros s h bs E. eapply data_state_moved; [by apply H1|exact HM| |by rewrite Hd|by rewrite Hr].
  apply Hp. apply (seq_bounds index); [done|]. apply H2. eauto.
Qed.

(** What a step may change: the files [ps] and the caches of one layer. *)
Lemma files_cp w w' p s c :
  layout_ok p -> files_ok w p s -> moved (slot_files p SMeta) w w' -> cp_only w w' ->
  cp_state w' (metadata_file p) c -> files_ok w' p (s <| st_checkpoint := c |>).
Proof.
  intros Hlo [F1 F2 F3 F4 F5 (dh & dp & F6)] HM F HC.
  assert (forall t, slot_ok t -> t <> SMeta -> slot_path p t ∉ slot_files p SMeta) as Ha
    by (intros; by apply slot_apart). split; cbn.
  - done.
  - eapply blk_state_moved; [done|exact HM|by apply (Ha SBlk)|by rewrite F].
  - eapply lookup_state_moved; [done|exact HM|by apply (Ha SLookup)|by rewrite F].
  - eapply index_state_moved; [done|exact HM|by apply (Ha SIndex)|by rewrite F].
  - eapply segs_ok_moved; [apply F4|done|exact HM| |by rewrite F|by rewrite F]. intros n Hn. by apply (Ha (SData n)).
  - exists dh, dp. eapply seg_file_moved; [done|exact HM|by apply (Ha SDedup)].
Qed.

Lemma files_blk w w' p s seq log :
  layout_ok p -> files_ok w p s -> moved (slot_files p SBlk) w w' ->
  w' = w <| w_fs := w_fs w' |> <| w_append := w_append w' |> <| w_known_dirs := w_known_dirs w' |>
         <| w_blk := w_blk w' |> ->
  blk_state w' (blk_map_file p) seq log -> files_ok w' p (s <| st_blk_seq := seq |> <| st_blk := log |>).
Proof.
  intros Hlo [F1 F2 F3 F4 F5 (dh & dp & F6)] HM F HC.
  assert (forall t, slot_ok t -> t <> SBlk -> slot_path p t ∉ slot_files p SBlk) as Ha
    by (intros; by apply slot_apart). split; cbn.
  - eapply cp_state_moved; [done|exact HM|by apply (Ha SMeta)|by rewrite F].
  - done.
  - eapply lookup_state_moved; [done|exact HM|by apply (Ha SLookup)|by rewrite F].
  - eapply index_state_moved; [done|exact HM|by apply (Ha SIndex)|by rewrite F].
  - eapply segs_ok_moved; [apply F4|done|exact HM| |by rewrite F|by rewrite F]. intros n Hn. by apply (Ha (SData n)).
  - exists dh, dp. eapply seg_file_moved; [done|exact HM|by apply (Ha SDedup)].
Qed.

Lemma files_lookup w w' p s seq log :
  layout_ok p -> files_ok w p s -> moved (slot_files p SLookup) w w' ->
  w' = w <| w_fs := w_fs w' |> <| w_append := w_append w' |> <| w_known_dirs := w_known_dirs w' |>
         <| w_lookup := w_lookup w' |> ->
  lookup_state w' (lookup_file p) seq log -> files_ok w' p (s <| st_lookup_seq := seq |> <| st_lookup := log |>).
Proof.
  intros Hlo [F1 F2 F3 F4 F5 (dh & dp & F6)] HM F HC.
  assert (forall t, slot_ok t -> t <> SLookup -> slot_path p t ∉ slot_files p SLookup) as Ha
    by (intros; by apply slot_apart). split; cbn.
  - eapply cp_state_moved; [done|exact HM|by apply (Ha SMeta)|by rewrite F].
  - eapply blk_state_moved; [done|exact HM|by apply (Ha SBlk)|by rewrite F].
  - done.
  - eapply index_state_moved; [done|exact HM|by apply (Ha SIndex)|by rewrite F].
  - eapply segs_ok_moved; [apply F4|done|exact HM| |by rewrite F|by rewrite F]. intros n Hn. by apply (Ha (SData n)).
  - exists dh, dp. eapply seg_file_moved; [done|exact HM|by apply (Ha SDedup)].
Qed.

Lemma files_blobs w w' p s index segs :
  layout_ok p -> files_ok w p s -> blob_touch p w w' ->
  index_state w' (segment_index_file p) index -> segs_ok w' p index segs ->
  files_ok w' p (s <| st_index := index |> <| st_segs := segs |>).
Proof.
  intros Hlo [F1 F2 F3 F4 F5 (dh & dp & F6)] [F (ps & HM & Ha)] HI HG. split; cbn; try done.
  - eapply cp_state_moved; [done|exact HM|by apply (Ha SMeta)|by rewrite F].
  - eapply blk_state_moved; [done|exact HM|by apply (Ha SBlk)|by rewrite F].
  - eapply lookup_state_moved; [done|exact HM|by apply (Ha SLookup)|by rewrite F].
  - exists dh, dp. eapply seg_file_moved; [done|exact HM|by apply (Ha SDedup)].
Qed.

Lemma files_wf w p s : files_ok w p s -> wf_fs (w_fs w).
Proof. intros H. apply (cp_file _ _ _ (fo_cp _ _ _ H)). Qed.
(** ** Reading *)
Lemma covers_indexed r lk b :
  logical_start r + logical_len r <= U64_MAX -> is_active r -> indexes lk r ->
  covers b r <-> logical_min lk <= b <= logical_max lk.
Proof.
  intros He Ha (E1 & E2 & _). rewrite covers_spec. unfold logical_end, sat_add64. split; [lia|].
  intros. split_and!; [done|lia..].
Qed.

Lemma block_at_active m b r : block_at m b r -> m !! record_id r = Some r /\ is_active r.
Proof. intros [H (Ha & _)%covers_spec]. done. Qed.

Lemma holds_unique w p s b x y :
  segs_ok w p (st_index s) (st_segs s) -> links s -> holds s b x -> holds s b y -> x = y.
Proof.
  intros HG HL (r1 & p1 & B1 & H1 & ->) (r2 & p2 & B2 & H2 & ->).
  assert (r1 = r2) as <- by (eapply block_at_unique; [apply HL|done|done]).
  assert (p1 = p2) as ->; [|done]. eapply extent_holds_unique; [|done|done].
  intros q h bs E. destruct (sg_data _ _ _ _ HG _ _ _ E) as [_ _ _ Hs _ _]. clear -Hs.
  change (NoDup (map db_id bs)).
  induction Hs as [|x l Hs IH Hf]; constructor; [|done]. rewrite Forall_forall in Hf. intros Hx.
  specialize (Hf x Hx). lia.
Qed.

Definition store_budget (s : Store) : Prop :=
  Zlen (st_blk s) <= MAX_MAINTENANCE_METADATA_RECORDS /\ Zlen (st_lookup s) <= MAX_MAINTENANCE_METADATA_RECORDS.

(** The extent a range of the lookup leads to. *)
Lemma range_extent s b lk :
  links s -> ranges s !! lookup_id lk = Some lk -> logical_min lk <= b <= logical_max lk ->
  exists r, block_at (extents s) b r /\ indexes lk r /\ is_active r.
Proof.
  intros HL Hl Hb. destruct (ln_pointed _ HL _ _ Hl) as (i & r & Hr & Ha & Hix). exists r.
  split_and!; [|done|done]. split.
  - by rewrite (replay_keyed record_id _ _ _ Hr).
  - apply (covers_indexed r lk); [by eapply ln_end|done|done|done].
Qed.

Lemma read_block_spec w p s b :
  no_faults -> layout_ok p -> files_ok w p s -> links s -> store_budget s ->
  exists res w', read_logical_block p b w = (Ok res, w') /\ files_ok w' p s /\
    (forall x, res = Some x <-> holds s b x).
Proof.
  intros Hn Hlo HF HL [Hb1 Hb2].
  destruct (locate_lookup_spec w _ _ _ b Hn (fo_lookup _ _ _ HF) Hb2 (ln_ranges _ HL))
    as (w1 & found & E1 & Hfound & HS1 & [F1 S1]).
  unfold read_logical_block. rewrite (bindM_run _ _ _ _ _ E1).
  pose proof (files_wf _ _ _ HF) as Hw.
  assert (files_ok w1 p s) as HF1.
  { pose proof (files_lookup w w1 p s (st_lookup_seq s) (st_lookup s) Hlo HF) as H. destruct s. apply H; [|rewrite F1; done|exact HS1].
    apply moved_same; [done|done|by rewrite F1]. }
  destruct found as [lk|]; cycle 1.
  { exists None, w1. split_and!; [done|done|]. intros x. split; [done|].
    intros (r & payload & Hr & _). destruct (block_at_active _ _ _ Hr) as [Hm Ha].
    destruct (ln_indexed _ HL _ _ Hm Ha) as (j & lk & Hlk & Hix).
    exfalso. assert (@None MapLookupRecord = Some lk) as Hf; [|done]. apply Hfound.
    pose proof (replay_keyed lookup_id _ _ _ Hlk) as Ej. split; [by rewrite Ej|].
    apply (covers_indexed r lk); [by eapply ln_end|done|done|apply Hr]. }
  destruct (proj1 (Hfound lk) eq_refl) as [Hlk Hin].
  destruct (range_extent s b lk HL Hlk Hin) as (r & Hat & Hix & Ha).
  destruct (locate_active_spec w1 _ _ _ b r (blk_map_ref_start lk) (blk_map_ref_end lk) Hn
    (fo_blk _ _ _ HF1) Hb1 (ln_map _ HL) Hat) as (w2 & E2 & HS2 & [F2 S2]).
  { destruct Hix as (_ & _ & -> & ->). lia. }
  rewrite (bindM_run _ _ _ _ _ E2).
  assert (files_ok w2 p s) as HF2.
  { pose proof (files_blk w1 w2 p s (st_blk_seq s) (st_blk s) Hlo HF1) as H. destruct s. apply H; [|rewrite F2; done|exact HS2].
    apply moved_same; [by apply (files_wf _ _ _ HF1)|done|by rewrite F2]. }
  destruct (block_at_active _ _ _ Hat) as [Hm _].
  destruct (ln_stored _ HL _ _ Hm Ha) as (payload & bl & Hbl & Hid & Hpay & Hsum & Hds).
  destruct (load_location_spec w2 p _ _ _ bl Hn Hlo (fo_index _ _ _ HF2) (fo_segs _ _ _ HF2) Hbl)
    as (w3 & E3 & HI3 & HG3 & T3).
  rewrite Hid in E3. rewrite (bindM_run _ _ _ _ _ E3).
  rewrite (bindM_run _ _ w3 payload w3) by (unfold liftM; by rewrite Hpay).
  rewrite (bindM_run _ _ w3 tt w3) by (unfold liftM; by rewrite Hsum).
  assert (holds s b (mkRead (record_id r) (logical_start r) (logical_len r) (dedup_entry_id r)
    (compression r) payload)) as Hh by (exists r, payload; split_and!; [done|by exists bl|done]).
  eexists _, w3. split; [reflexivity|]. split.
  - pose proof (files_blobs w2 w3 p s _ _ Hlo HF2 T3 HI3 HG3) as H. by destruct s.
  - intros x. split; [intros [= <-]; done|]. intros Hx. f_equal. eapply holds_unique; [apply HF|done|done|done].
Qed.
(** ** Syncing *)
Definition quiet {A} (m : M World StorageError A) (w : World) (a : A) : Prop :=
  exists w', m w = (Ok a, w') /\ w' = w <| w_fs := w_fs w' |> /\ same_files (w_fs w) (w_fs w').

Lemma quiet_ret {A} (a : A) w : quiet (retM a) w a.
Proof. exists w. split_and!; [done|by destruct w|done]. Qed.
Lemma quiet_bind {A B} (m : M World StorageError A) (k : A -> M World StorageError B) w a b :
  quiet m w a ->
  (forall w', w' = w <| w_fs := w_fs w' |> -> same_files (w_fs w) (w_fs w') -> quiet (k a) w' b) ->
  quiet (bindM m k) w b.
Proof.
  intros (w1 & E1 & F1 & S1) H. destruct (H w1 F1 S1) as (w2 & E2 & F2 & S2). exists w2.
  rewrite (bindM_run _ _ _ _ _ E1). split_and!; [done|rewrite F2, F1; done|eauto using same_files_trans].
Qed.
Lemma quiet_sync w : no_faults -> quiet (io fs_sync) w tt.
Proof. intros Hn. exact (opt_sync_spec true w Hn). Qed.
Lemma quiet_open w path d :
  no_faults -> contents (w_fs w) path = Some d -> exists i, quiet (io (fs_open path)) w i.
Proof.
  intros Hn Hc. destruct (fs_open_ok _ _ _ Hn Hc) as (i & E & _). exists i.
  unfold quiet. rewrite io_run, E. eexists. split; [reflexivity|]. by cbn.
Qed.
Lemma quiet_sync_file w path d :
  no_faults -> contents (w_fs w) path = Some d -> quiet (sync_segment_file path) w tt.
Proof.
  intros Hn Hc. unfold sync_segment_file. eapply quiet_bind; [exact (quiet_ret w w)|].
  intros w' F S. destruct (w_append w !! path); [by apply quiet_sync|].
  assert (contents (w_fs w') path = Some d) as Hc' by (by rewrite (contents_same (w_fs w))).
  destruct (quiet_open w' path d Hn Hc') as (i & Hi). eapply quiet_bind; [exact Hi|].
  intros w2 _ _. by apply quiet_sync.
Qed.
Lemma quiet_shape w path h payload :
  no_faults -> seg_file w path h payload -> quiet (validate_segment_shape path (kind h)) w h.
Proof.
  intros Hn HS. unfold validate_segment_shape. eapply quiet_bind; [exact (read_header_ok w path h payload Hn HS)|].
  intros w1 F1 S1. pose proof (sf_contents _ _ _ _ HS) as Hc.
  assert (contents (w_fs w1) path = Some (segment_bytes h payload)) as Hc1 by (by rewrite (contents_same (w_fs w))).
  destruct (fs_metadata_ok (w_fs w1) path _ Hn Hc1) as (t & Em).
  eapply (quiet_bind _ _ _ (Zlen (segment_bytes h payload), t)).
  { unfold quiet. rewrite io_run, Em. eexists. split; [reflexivity|]. by cbn. }
  intros w2 _ _. rewrite decide_False; [apply quiet_ret|].
  destruct (sf_header _ _ _ _ HS) as [_ Hv]. unfold segment_payload_offset. rewrite decide_True by done.
  rewrite (sf_plen _ _ _ _ HS). unfold Zlen. rewrite length_segment_bytes by done.
  unfold SEGMENT_HEADER_V2_TOTAL_SIZE. lia.
Qed.

Lemma files_keep w w' p s :
  layout_ok p -> files_ok w p s -> same_files (w_fs w) (w_fs w') -> w_append w' = w_append w ->
  w_checkpoint w' = w_checkpoint w -> w_blk w' = w_blk w -> w_lookup w' = w_lookup w ->
  w_index w' = w_index w -> w_data w' = w_data w -> w_readers w' = w_readers w -> files_ok w' p s.
Proof.
  intros Hlo HF S Ha Hc Hb Hl Hi Hd Hr. pose proof (files_wf _ _ _ HF) as Hw.
  assert (moved [] w w') as HM by (by apply moved_same).
  destruct HF as [F1 F2 F3 F4 F5 (dh & dp & F6)]. split.
  - eapply cp_state_moved; [done|exact HM|set_solver|by rewrite Hc].
  - eapply blk_state_moved; [done|exact HM|set_solver|by rewrite Hb].
  - eapply lookup_state_moved; [done|exact HM|set_solver|by rewrite Hl].
  - eapply index_state_moved; [done|exact HM|set_solver|by rewrite Hi].
  - eapply segs_ok_moved; [apply F4|done|exact HM|set_solver|done|done].
  - exists dh, dp. eapply seg_file_moved; [done|exact HM|set_solver].
Qed.
Lemma files_same w w' p s :
  layout_ok p -> files_ok w p s -> w' = w <| w_fs := w_fs w' |> -> same_files (w_fs w) (w_fs w') ->
  files_ok w' p s.
Proof. intros Hlo HF F S. apply (files_keep w); [done|done|done|by rewrite F..]. Qed.

(** A file of the store. *)
Lemma files_there w p s t :
  files_ok w p s -> t ∈ [SMeta; SBlk; SLookup; SDedup; SIndex] ->
  exists d, contents (w_fs w) (slot_path p t) = Some d.
Proof.
  intros [F1 F2 F3 F4 F5 (dh & dp & F6)]. rewrite !elem_of_cons, elem_of_nil.
  intros [->|[->|[->|[->|[->|[]]]]]]; cbn [slot_path].
  - eexists. apply (lf_contents _ _ _ _ _ _ (cp_file _ _ _ F1)).
  - eexists. apply (lf_contents _ _ _ _ _ _ (bs_file _ _ _ _ F2)).
  - eexists. apply (lf_contents _ _ _ _ _ _ (ls_file _ _ _ _ F3)).
  - eexists. apply (sf_contents _ _ _ _ F6).
  - destruct F4 as [_ _ (disk & [HL _] & _)]. eexists. apply (lf_contents _ _ _ _ _ _ HL).
Qed.

Lemma quiet_sync_segments p index segs : forall l w,
  no_faults -> segs_ok w p index segs -> l ⊆ descriptors index ->
  quiet (forM l (fun d =>
    let path := data_segment_path p (segment_seq d) in
    let! there := path_exists path in
    if there then
      let! _ := validate_segment_shape path Data in
      let! _ := io (fs_open path) in io fs_sync
    else retM tt)) w tt.
Proof.
  induction l as [|d l IH]; intros w Hn HG Hl; [apply quiet_ret|]. cbn [forM].
  assert (is_Some (segs !! segment_seq d)) as [[h bs] Hs].
  { apply (sg_dom _ _ _ _ HG). apply list_elem_of_fmap_2. set_solver. }
  pose proof (sg_data _ _ _ _ HG _ _ _ Hs) as [HS Hk _ _ _ _].
  assert (forall w', w' = w <| w_fs := w_fs w' |> -> same_files (w_fs w) (w_fs w') ->
    segs_ok w' p index segs /\ seg_file w' (data_segment_path p (segment_seq d)) h (seg_payload h bs)) as Hk'.
  { intros w' F S. split; [apply (segs_ok_same w); [done|done|by rewrite F..]|].
    apply (seg_file_same w); [done|by rewrite F|done]. }
  eapply quiet_bind; [|intros w1 F1 S1; apply IH; [done|by apply Hk'|set_solver]].
  eapply (quiet_bind _ _ _ true).
  { exists w. unfold path_exists. rewrite io_run. cbn. rewrite bool_decide_eq_true_2; [by destruct w|].
    pose proof (sf_contents _ _ _ _ HS) as Hc. unfold contents in Hc. by destruct (file_at _ _). }
  intros w1 F1 S1. destruct (Hk' w1 F1 S1) as [_ HS1].
  eapply quiet_bind; [rewrite <- Hk; by apply (quiet_shape w1 _ h (seg_payload h bs))|].
  intros w2 F2 S2.
  assert (contents (w_fs w2) (data_segment_path p (segment_seq d)) = Some (segment_bytes h (seg_payload h bs)))
    as Hc2 by (rewrite (contents_same (w_fs w1)) by done; apply (sf_contents _ _ _ _ HS1)).
  destruct (quiet_open w2 _ _ Hn Hc2) as (i & Hi).
  eapply quiet_bind; [exact Hi|]. intros. by apply quiet_sync.
Qed.
Lemma sync_layout_spec w p s :
  no_faults -> layout_ok p -> files_ok w p s ->
  exists w', sync_layout_segments p w = (Ok tt, w') /\ files_ok w' p s /\ w_pending w' = w_pending w.
Proof.
  intros Hn Hlo HF. unfold sync_layout_segments, sync_indexed_segments.
  destruct (load_for_append_spec w _ _ Hn (fo_index _ _ _ HF)) as (w1 & E1 & HI1 & [F1 S1]).
  assert (files_ok w1 p s) as HF1.
  { pose proof (files_blobs w w1 p s (st_index s) (st_segs s) Hlo HF) as H. destruct s. apply H; [|done|].
    - split; [rewrite F1; done|]. exists []. split; [|set_solver].
      apply moved_same; [by apply (files_wf _ _ _ HF)|done|by rewrite F1].
    - apply (segs_ok_same w); [apply HF|done|by rewrite F1..]. }
  destruct (quiet_sync_segments p _ _ (descriptors (st_index s)) w1 Hn (fo_segs _ _ _ HF1) ltac:(done))
    as (w2 & E2 & F2 & S2).
  assert (files_ok w2 p s) as HF2 by (by apply (files_same w1)).
  rewrite (bindM_run _ _ w tt w2) by (rewrite (bindM_run _ _ _ _ _ E1); exact E2).
  pose proof (lo_tmp p Hlo SIndex SIndex I I) as Ht. cbn [slot_path] in Ht.
  destruct (flush_index_spec w2 _ _ Hn Ht (fo_index _ _ _ HF2)) as (w3 & E3 & HI3 & F3 & Fr3).
  rewrite (bindM_run _ _ _ _ _ E3).
  assert (moved (slot_files p SIndex) w2 w3) as M3.
  { apply (moved_run _ _ _ _ _ E3); [done|]. intros q Hq. unfold slot_files in Hq.
    cbn [slot_path] in Hq. apply spares_flush_index; set_solver. }
  assert (files_ok w3 p s) as HF3.
  { pose proof (files_blobs w2 w3 p s (st_index s) (st_segs s) Hlo HF2) as H. destruct s. apply H; [|done|].
    - split; [rewrite F3; done|]. exists (slot_files p SIndex). split; [done|].
      intros t Ht'. apply slot_apart; [done|by destruct t|done|]. intros ->. exact Ht'.
    - eapply segs_ok_moved; [apply HI3|apply HF2|exact M3| |by rewrite F3|by rewrite F3].
      intros n Hu. by apply (slot_apart p (SData n) SIndex). }
  assert (forall w' t, files_ok w' p s -> t ∈ [SMeta; SBlk; SLookup; SDedup; SIndex] ->
    exists w'', sync_segment_file (slot_path p t) w' = (Ok tt, w'') /\ files_ok w'' p s /\ w_pending w'' = w_pending w')
    as Hsync.
  { intros w' t HF' Ht'. destruct (files_there w' p s t HF' Ht') as (d & Hd).
    destruct (quiet_sync_file w' _ d Hn Hd) as (w'' & E & F & S). exists w''.
    split_and!; [done|by apply (files_same w')|by rewrite F]. }
  destruct (Hsync w3 SIndex HF3) as (w4 & E4 & HF4 & P4); [set_solver|]. rewrite (bindM_run _ _ _ _ _ E4).
  destruct (Hsync w4 SBlk HF4) as (w5 & E5 & HF5 & P5); [set_solver|]. rewrite (bindM_run _ _ _ _ _ E5).
  destruct (Hsync w5 SLookup HF5) as (w6 & E6 & HF6 & P6); [set_solver|]. rewrite (bindM_run _ _ _ _ _ E6).
  destruct (Hsync w6 SDedup HF6) as (w7 & E7 & HF7 & P7); [set_solver|].
  exists w7. split_and!; [done|done|]. rewrite P7, P6, P5, P4, F3, F2, F1. done.
Qed.

(** ** The checkpoint *)
Lemma load_cp_files w p s :
  no_faults -> layout_ok p -> files_ok w p s ->
  exists w', load_checkpoint_cached (metadata_file p) w = (Ok (st_checkpoint s), w') /\ files_ok w' p s.
Proof.
  intros Hn Hlo HF. destruct (load_checkpoint_spec w _ _ Hn (fo_cp _ _ _ HF)) as (w1 & E1 & O1 & A1 & S1 & HC1).
  exists w1. split; [done|]. pose proof (files_cp w w1 p s (st_checkpoint s) Hlo HF) as H. destruct s.
  apply H; [|done|done]. apply moved_same; [by apply (files_wf _ _ _ HF)|done|done].
Qed.
Lemma persist_cp_files w p s c :
  no_faults -> layout_ok p -> files_ok w p s -> wf_checkpoint c ->
  exists w', persist_checkpoint_cached (metadata_file p) c w = (Ok tt, w') /\
    files_ok w' p (s <| st_checkpoint := c |>) /\ w_pending w' = w_pending w.
Proof.
  intros Hn Hlo HF Hc. pose proof (lo_tmp p Hlo SMeta SMeta I I) as Ht. cbn [slot_path] in Ht.
  destruct (persist_checkpoint_spec w _ c Hn (files_wf _ _ _ HF) Ht Hc) as (w1 & E1 & O1 & Fr1 & HC1).
  exists w1. split_and!; [done| |by rewrite O1]. apply (files_cp w); try done.
  apply (moved_run _ _ _ _ _ E1); [done|]. intros q Hq. unfold slot_files in Hq. cbn [slot_path] in Hq.
  apply spares_persist_checkpoint; set_solver.
Qed.
(** The meaning of a store does not depend on its checkpoint. *)
Lemma links_cp s c : links s -> links (s <| st_checkpoint := c |>).
Proof. intros [H1 H2 H3 H4 H5 H6]. by split. Qed.
Lemma files_pending w p s f : layout_ok p -> files_ok w p s -> files_ok (w <| w_pending := f |>) p s.
Proof. intros. by apply (files_keep w). Qed.
(** ** Adding an extent *)
Lemma extent_holds_mono s s' r payload :
  (forall q b, blob_in (st_segs s) q b -> blob_in (st_segs s') q b) ->
  extent_holds s r payload -> extent_holds s' r payload.
Proof. intros H (b & Hb & ?). exists b. eauto. Qed.

Lemma ranges_insert s r lk :
  links s -> ranges s !! lookup_id lk = None -> indexes lk r -> is_active r -> extent r ->
  logical_start r + logical_len r <= U64_MAX ->
  (forall i x, extents s !! i = Some x -> is_active x -> ~ overlaps x r) ->
  lookup_inv (<[lookup_id lk := lk]> (ranges s)).
Proof.
  intros HL Hnone (X1 & X2 & _) Ha He Hend Hno.
  assert (forall j lk', ranges s !! j = Some lk' -> logical_max lk' < logical_min lk \/ logical_max lk < logical_min lk')
    as Hd.
  { intros j lk' Hj. destruct (ln_pointed _ HL _ _ Hj) as (i & x & Hx & Hax & (Y1 & Y2 & _)).
    specialize (Hno _ _ Hx Hax). pose proof (ln_end _ HL _ _ Hx Hax).
    pose proof (mi_extents _ (ln_map _ HL) _ _ Hx Hax).
    unfold overlaps, extent, logical_end, sat_add64 in *. lia. }
  split.
  - intros i x. rewrite lookup_insert_Some. intros [[_ <-]|[_ Hx]]; [|by eapply (li_range _ (ln_ranges _ HL))].
    unfold extent, logical_end, sat_add64 in He. lia.
  - intros i j x y. rewrite !lookup_insert_Some. intros [[<- <-]|[Hi Hx]] [[<- <-]|[Hj Hy]] Hne; try done.
    + destruct (Hd _ _ Hy); auto.
    + by apply (Hd _ _ Hx).
    + by apply (li_disjoint _ (ln_ranges _ HL) _ _ _ _ Hx Hy).
Qed.

Record adds (s s' : Store) (r : BlkMapRecord) (lk : MapLookupRecord) (payload : list Z) : Prop := {
  ad_extents : extents s' = <[record_id r := r]> (extents s);
  ad_new : extents s !! record_id r = None;
  ad_ranges : ranges s' = <[lookup_id lk := lk]> (ranges s);
  ad_newr : ranges s !! lookup_id lk = None;
  ad_blobs : forall q b, blob_in (st_segs s) q b -> blob_in (st_segs s') q b;
  ad_active : is_active r;
  ad_extent : extent r;
  ad_end : logical_start r + logical_len r <= U64_MAX;
  ad_index : indexes lk r;
  ad_apart : forall i x, extents s !! i = Some x -> is_active x -> ~ overlaps x r;
  ad_holds : extent_holds s' r payload;
  ad_ids : forall q h bs, st_segs s' !! q = Some (h, bs) -> NoDup (db_id <$> bs);
  ad_logs : Zlen (st_blk s') = Zlen (st_blk s) + 1 /\ Zlen (st_lookup s') = Zlen (st_lookup s) + 1
}.

Lemma adds_links s s' r lk payload : links s -> adds s s' r lk payload -> links s'.
Proof.
  intros HL [A1 A2 A3 A4 A5 A6 A7 A8 A9 A10 A11 A12 _].
  assert (forall i x, extents s' !! i = Some x -> x = r \/ extents s !! i = Some x) as Hold.
  { intros i x. rewrite A1, lookup_insert_Some. intros [[_ ->]|[_ ?]]; auto. }
  assert (extents s' !! record_id r = Some r) as Hr by (rewrite A1; apply lookup_insert_eq).
  assert (ranges s' !! lookup_id lk = Some lk) as Hk by (rewrite A3; apply lookup_insert_eq).
  assert (forall j k, ranges s !! j = Some k -> ranges s' !! j = Some k) as Hrk.
  { intros j k Hj. rewrite A3, lookup_insert_ne; [done|]. intros <-. congruence. }
  assert (forall i x, extents s !! i = Some x -> extents s' !! i = Some x) as Hre.
  { intros i x Hi. rewrite A1, lookup_insert_ne; [done|]. intros <-. congruence. }
  split.
  - rewrite A1. apply map_inv_insert; [apply HL|done..].
  - rewrite A3. by apply (ranges_insert s r).
  - intros i x Hx Ha. destruct (Hold _ _ Hx) as [->|Hx']; [done|by eapply ln_end].
  - intros i x Hx Ha. destruct (Hold _ _ Hx) as [->|Hx']; [by exists (lookup_id lk), lk|].
    destruct (ln_indexed _ HL _ _ Hx' Ha) as (j & k & Hj & ?). exists j, k. auto.
  - intros j k. rewrite A3, lookup_insert_Some. intros [[_ <-]|[_ Hj]]; [by exists (record_id r), r|].
    destruct (ln_pointed _ HL _ _ Hj) as (i & x & Hx & ?). exists i, x. auto.
  - intros i x Hx Ha. destruct (Hold _ _ Hx) as [->|Hx']; [by exists payload|].
    destruct (ln_stored _ HL _ _ Hx' Ha) as (py & ?). exists py. by eapply extent_holds_mono.
Qed.

(** After adding an extent its blocks read as its payload, the others as
    before. *)
Lemma adds_holds s s' r lk payload b x :
  links s -> adds s s' r lk payload ->
  holds s' b x <-> if covers b r
    then x = mkRead (record_id r) (logical_start r) (logical_len r) (dedup_entry_id r) (compression r) payload
    else holds s b x.
Proof.
  intros HL HA. pose proof HA as [A1 A2 A3 A4 A5 A6 A7 A8 A9 A10 A11 A12 _].
  assert (forall y, block_at (extents s') b y <-> if covers b r then y = r else block_at (extents s) b y) as Hat.
  { intros y. rewrite A1. apply block_at_insert; [apply HL|done|done]. }
  unfold holds. destruct (covers b r) eqn:Ec.
  - split.
    + intros (y & py & Hy & Hp & ->). apply Hat in Hy. subst y.
      by rewrite (extent_holds_unique s' r py payload).
    + intros ->. exists r, payload. split_and!; [by apply Hat|done|done].
  - split.
    + intros (y & py & Hy & Hp & ->). apply Hat in Hy. destruct (block_at_active _ _ _ Hy) as [Hm Ha].
      destruct (ln_stored _ HL _ _ Hm Ha) as (p0 & Hp0). exists y, p0. split_and!; [done|done|].
      f_equal. eapply (extent_holds_unique s' y); [done|done|by eapply extent_holds_mono].
    + intros (y & py & Hy & Hp & ->). exists y, py. split_and!; [by apply Hat|by eapply extent_holds_mono|done].
Qed.
(** ** Writing *)
Record stored_form (preferred : CompressionCodec) (payload : list Z) (codec : CompressionCodec)
  (encoded : list Z) : Prop := {
  sd_prepare : exists flag, prepare_payload_for_write preferred payload = Ok (codec, encoded, flag);
  sd_bytes : bytes_ok encoded;
  sd_len : 0 < Zlen encoded <= Zlen payload;
  sd_raw : codec = CNone -> encoded = payload;
  sd_decodes : codec <> CNone -> decompress_payload codec encoded (Zlen payload) = Ok payload
}.

(** The limits within which a write of [n] bytes at [start] is exact. *)
Record write_room (s : Store) (start n : Z) : Prop := {
  rm_blk : blk_room (st_blk_seq s) (st_blk s);
  rm_lookup_count : Zlen (st_lookup s) <= MAX_MAINTENANCE_METADATA_RECORDS;
  rm_lookup_ids : forall x, x ∈ st_lookup s -> lookup_id x < U64_MAX - 1;
  rm_lookup_sum : integrity32 (MapLookup.encode_log_payload (st_lookup s)) <> 0;
  rm_lookup_seq : st_lookup_seq s < U64_MAX;
  rm_next : next_segment_seq (st_index s) <= U32_MAX;
  rm_count : Zlen (descriptors (st_index s)) < MAX_MAINTENANCE_METADATA_RECORDS;
  rm_ids : ids_bound (st_index s) < U64_MAX;
  rm_len : forall q h bs, st_segs s !! q = Some (h, bs) -> 124 + payload_len h + n <= U64_MAX;
  rm_end : 0 <= start /\ start + n <= U64_MAX;
  rm_size : 0 < n <= U32_MAX
}.

Lemma store_blob_files w p s options payload codec encoded start :
  no_faults -> layout_ok p -> files_ok w p s -> write_room s start (Zlen payload) ->
  stored_form (preferred_codec options) payload codec encoded ->
  exists seq index segs w', store_new_blob p options (Zlen payload) payload w =
      (Ok (seq, ids_bound (st_index s) + 1, codec, Zlen encoded), w') /\
    files_ok w' p (s <| st_index := index |> <| st_segs := segs |>) /\ u32_ok seq /\
    (forall q b, blob_in (st_segs s) q b -> blob_in segs q b) /\
    exists sum, blob_in segs seq (mkBlob (ids_bound (st_index s) + 1) codec (Zlen payload) (Zlen encoded) sum encoded).
Proof.
  intros Hn Hlo HF [_ _ _ _ _ Rn Rc Ri Rl _ Rs] [(flag & Hp) Hb Hl _ _]. unfold store_new_blob.
  rewrite (bindM_run _ _ w (codec, encoded, flag) w) by (unfold liftM; by rewrite Hp).
  unfold checked_u32_len, u32_try_from. rewrite decide_True by lia. cbn [ok_or].
  rewrite (bindM_run _ _ w (Zlen encoded) w) by done.
  destruct (append_blob_spec w p (st_index s) (st_segs s) codec (Zlen payload) encoded
    (payload_checksum_enabled options) Hn Hlo (fo_index _ _ _ HF) (fo_segs _ _ _ HF))
    as (seq & index & segs & w1 & E1 & HI1 & HG1 & [Hnew Hkeep] & HT1 & Hu).
  { split; try done; [|lia]. intros q h bs E. specialize (Rl q h bs E). lia. }
  { unfold u32_ok. lia. }
  rewrite (bindM_run _ _ _ _ _ E1). exists seq, index, segs, w1. split_and!; [done| |done|done|by eexists].
  by apply (files_blobs w).
Qed.

Lemma append_extent_files w p s r :
  no_faults -> layout_ok p -> files_ok w p s -> blk_room (st_blk_seq s) (st_blk s) ->
  record_id r = 0 -> is_active r -> extent r -> (forall id, u64_ok id -> wf_blk (r <| record_id := id |>)) ->
  (forall i x, extents s !! i = Some x -> is_active x -> ~ overlaps x r) ->
  exists w' r', append_blk_map_record (blk_map_file p) r w = (Ok r', w') /\
    r' = r <| record_id := record_id r' |> /\ u64_ok (record_id r') /\ extents s !! record_id r' = None /\
    files_ok w' p (s <| st_blk_seq := st_blk_seq s + 1 |> <| st_blk := st_blk s ++ [r'] |>) /\
    w_pending w' = w_pending w.
Proof.
  intros Hn Hlo HF Hroom H0 Ha He Hwf Hno.
  destruct (append_blk_ok w _ _ _ r Hn (fo_blk _ _ _ HF) Hroom H0 Ha He Hwf Hno)
    as (w1 & r' & E1 & Er & Hu & Hnone & HB1 & [F1 Fr1]).
  exists w1, r'. split_and!; [done|done|done|done| |by rewrite F1]. apply (files_blk w); try done.
  apply (moved_run _ _ _ _ _ E1); [eapply frame_weaken; [exact Fr1|unfold slot_files; set_solver]|].
  intros q Hq. unfold slot_files in Hq. cbn [slot_path] in Hq. apply spares_append_blk; set_solver.
Qed.

Lemma append_range_files w p s lk :
  no_faults -> layout_ok p -> files_ok w p s -> Zlen (st_lookup s) <= MAX_MAINTENANCE_METADATA_RECORDS ->
  (forall x, x ∈ st_lookup s -> lookup_id x < U64_MAX - 1) ->
  integrity32 (MapLookup.encode_log_payload (st_lookup s)) <> 0 -> st_lookup_seq s < U64_MAX ->
  lookup_id lk = 0 -> (forall id, u64_ok id -> wf_lookup (lk <| lookup_id := id |>)) ->
  exists w' lk', append_lookup_record (lookup_file p) lk w = (Ok lk', w') /\
    lk' = lk <| lookup_id := lookup_id lk' |> /\ ranges s !! lookup_id lk' = None /\
    files_ok w' p (s <| st_lookup_seq := st_lookup_seq s + 1 |> <| st_lookup := st_lookup s ++ [lk'] |>) /\
    w_pending w' = w_pending w.
Proof.
  intros Hn Hlo HF Hb Hids Hsum Hseq H0 Hwf.
  destruct (append_lookup_spec w _ _ _ lk Hn (fo_lookup _ _ _ HF) Hb Hids H0 Hwf)
    as (w1 & lk' & E1 & Er & Hnone & HB1 & [F1 Fr1]).
  { split_and!; [done|done|]. unfold MapLookup.encode_log_payload, Zlen in *.
    rewrite length_app, length_encode_all, length_lookup_encode.
    change (length MapLookup.LOG_PREFIX) with 4%nat. cbn [rec_size MapLookupRecord_codec].
    unfold LOOKUP_RECORD_SIZE, MAX_MAINTENANCE_METADATA_RECORDS in *. lia. }
  exists w1, lk'. split_and!; [done|done|done| |by rewrite F1]. apply (files_lookup w); try done.
  apply (moved_run _ _ _ _ _ E1); [eapply frame_weaken; [exact Fr1|unfold slot_files; set_solver]|].
  intros q Hq. unfold slot_files in Hq. cbn [slot_path] in Hq. apply spares_append_lookup; set_solver.
Qed.
(** The checkpoint is dirty before anything else changes. *)
Lemma begin_write_files w p s :
  no_faults -> layout_ok p -> files_ok w p s ->
  exists c w1 w2, load_checkpoint_cached (metadata_file p) w = (Ok (st_checkpoint s), w1) /\
    (if decide (flags (st_checkpoint s) = Clean) then
       let c := marked Dirty (st_checkpoint s) in persist_checkpoint_cached (metadata_file p) c ;;! retM c
     else retM (st_checkpoint s)) w1 = (Ok c, w2) /\
    files_ok w2 p (s <| st_checkpoint := c |>) /\ flags c = Dirty.
Proof.
  intros Hn Hlo HF. destruct (load_cp_files w p s Hn Hlo HF) as (w1 & E1 & HF1). case_decide as Hf.
  - destruct (persist_cp_files w1 p s (marked Dirty (st_checkpoint s)) Hn Hlo HF1) as (w2 & E2 & HF2 & _).
    { apply marked_wf, HF. }
    eexists _, w1, w2. split; [done|]. cbn zeta. rewrite (bindM_run _ _ _ _ _ E2). done.
  - exists (st_checkpoint s), w1, w1. split_and!; [done|done|by destruct s|].
    by destruct (flags (st_checkpoint s)).
Qed.

Lemma finish_write_files w p s (flush : bool) :
  no_faults -> layout_ok p -> files_ok w p s ->
  exists c w', (if flush then
      sync_layout_segments p ;;!
      let c := marked Clean (st_checkpoint s) in
      persist_checkpoint_cached (metadata_file p) c ;;! clear_pending_writes (metadata_file p) ;;! retM c
    else retM (st_checkpoint s)) w = (Ok c, w') /\
    files_ok w' p (s <| st_checkpoint := c |>) /\ (flags c = Clean <-> flush = true \/ flags (st_checkpoint s) = Clean).
Proof.
  intros Hn Hlo HF. destruct flush; cycle 1.
  { exists (st_checkpoint s), w. split_and!; [done|by destruct s|]. naive_solver. }
  destruct (sync_layout_spec w p s Hn Hlo HF) as (w1 & E1 & HF1 & _). rewrite (bindM_run _ _ _ _ _ E1).
  destruct (persist_cp_files w1 p s (marked Clean (st_checkpoint s)) Hn Hlo HF1) as (w2 & E2 & HF2 & _).
  { apply marked_wf, HF. }
  cbn zeta. rewrite (bindM_run _ _ _ _ _ E2). unfold clear_pending_writes, modifyM, bindM, retM.
  eexists _, _. split; [reflexivity|]. split; [by apply files_pending|]. split; [auto|done].
Qed.

Lemma free_apart s start n r :
  links s -> 0 < n -> start + n <= U64_MAX -> logical_start r = start -> logical_len r = n ->
  (forall b x, start <= b < start + n -> ~ holds s b x) ->
  forall i x, extents s !! i = Some x -> is_active x -> ~ overlaps x r.
Proof.
  intros HL Hn Hend Es En Hfree i x Hx Ha Hov.
  pose proof (ln_end _ HL _ _ Hx Ha) as Hxe. pose proof (mi_extents _ (ln_map _ HL) _ _ Hx Ha) as Hxx.
  destruct (ln_stored _ HL _ _ Hx Ha) as (py & Hpy).
  unfold overlaps, extent, logical_end, sat_add64 in *. rewrite Es, En in *.
  apply (Hfree (Z.max start (logical_start x)) (mkRead (record_id x) (logical_start x) (logical_len x)
    (dedup_entry_id x) (compression x) py)); [lia|].
  exists x, py. split_and!; [|done|done]. split; [by rewrite (replay_keyed record_id _ _ _ Hx)|].
  apply covers_spec. unfold logical_end, sat_add64. split_and!; [done|lia..].
Qed.

(** The payload of a new extent is readable. *)
Lemma stored_extent_holds s options start payload marks codec encoded seq id sum :
  stored_form (preferred_codec options) payload codec encoded ->
  blob_in (st_segs s) seq (mkBlob id codec (Zlen payload) (Zlen encoded) sum encoded) ->
  forall rid, extent_holds s ((block_extent start (Zlen payload) marks options payload
    (mkStored 0 id codec (Zlen encoded) seq false false)) <| record_id := rid |>) payload.
Proof.
  intros [_ _ Hlen Hraw Hdec] Hin rid. eexists. split_and!; [exact Hin|done| | |unfold described; cbn; split_and!; [done..|lia]].
  - unfold extent_payload. cbn [compression logical_len block_extent sp_codec db_bytes].
    case_decide as Hc; [|by apply Hdec]. rewrite (Hraw Hc), decide_False by tauto. done.
  - unfold verify_logical_payload_checksum, block_extent.
    cbn. destruct (payload_checksum_enabled options); [|done]. by rewrite bool_decide_eq_true_2.
Qed.
Lemma new_extent_wf options start payload marks codec (encoded : list Z) seq id rid :
  bytes_ok payload -> u32_ok marks -> 0 <= start -> start + Zlen payload <= U64_MAX -> Zlen payload <= U32_MAX ->
  0 < Zlen encoded <= Zlen payload -> u32_ok seq -> u64_ok id -> u64_ok rid ->
  wf_blk ((block_extent start (Zlen payload) marks options payload
    (mkStored 0 id codec (Zlen encoded) seq false false)) <| record_id := rid |>).
Proof.
  intros Hb Hm H0 He Hl Hel Hs Hid Hr. pose proof (integrity32_u32 payload Hb) as Hi.
  unfold wf_blk, block_extent, u64_ok, u32_ok in *. cbn.
  destruct (payload_checksum_enabled options); split_and!; try done; lia.
Qed.

Definition segs_nodup (segs : gmap Z (SegmentHeader * list DataBlob)) : Prop :=
  forall q h bs, segs !! q = Some (h, bs) -> NoDup (db_id <$> bs).
Lemma segs_ok_nodup w p index segs : segs_ok w p index segs -> segs_nodup segs.
Proof.
  intros HG q h bs E. destruct (sg_data _ _ _ _ HG _ _ _ E) as [_ _ _ Hs _ _]. clear -Hs.
  change (NoDup (map db_id bs)).
  induction Hs as [|x l Hs IH Hf]; constructor; [|done]. rewrite Forall_forall in Hf. intros Hx.
  specialize (Hf x Hx). lia.
Qed.

Lemma record_pending_run path w :
  exists n f, record_pending_write path w = (Ok n, w <| w_pending := f |>).
Proof. unfold record_pending_write, pending_count, bindM, getM, modifyM, retM. eexists _, _. reflexivity. Qed.

Lemma write_block_spec w p s start payload marks options codec encoded :
  no_faults -> layout_ok p -> files_ok w p s -> links s -> dedup_enabled options = false ->
  bytes_ok payload -> u32_ok marks -> stored_form (preferred_codec options) payload codec encoded ->
  write_room s start (Zlen payload) -> (forall b x, start <= b < start + Zlen payload -> ~ holds s b x) ->
  exists rep w' s' r lk, write_logical_block p start payload marks options None w = (Ok rep, w') /\
    files_ok w' p s' /\ adds s s' r lk payload /\ record_id r = wr_record_id rep /\ logical_start r = start /\
    logical_len r = Zlen payload /\ dedup_entry_id r = 0 /\ compression r = codec.
Proof.
  intros Hn Hlo HF HL Hd Hb Hm HSD HR Hfree. pose proof HR as [Rb Rl1 Rl2 Rl3 Rl4 Rn Rc Ri Rle [Rs Re] [Rz Rz']].
  unfold write_logical_block. rewrite decide_False by (intros ->; unfold Zlen in Rz; cbn in Rz; lia).
  destruct (begin_write_files w p s Hn Hlo HF) as (c & w1 & w2 & E1 & E2 & HF2 & Hc).
  rewrite (bindM_run _ _ _ _ _ E1), (bindM_run _ _ _ _ _ E2). clear E1 E2.
  rewrite (bindM_run _ _ w2 tt w2) by done.
  unfold checked_u32_len, u32_try_from. rewrite decide_True by lia. cbn [ok_or].
  rewrite (bindM_run _ _ w2 (Zlen payload) w2) by done.
  set (s2 := s <| st_checkpoint := c |>) in *.
  destruct (store_blob_files w2 p s2 options payload codec encoded start Hn Hlo HF2)
    as (seq & index & segs & w3 & E3 & HF3 & Hseq & Hkeep & (sum & Hnew)); [by split|done|].
  set (id := ids_bound (st_index s2) + 1) in *.
  unfold store_payload. rewrite Hd.
  rewrite (bindM_run _ _ w2 (mkStored 0 id codec (Zlen encoded) seq false false) w3)
    by (rewrite (bindM_run _ _ w2 false w2) by done; rewrite (bindM_run _ _ _ _ _ E3); done).
  rewrite (bindM_run _ _ w3 tt w3) by done.
  assert (u64_ok id) as Hid.
  { unfold id, u64_ok. change (st_index s2) with (st_index s). pose proof (ids_bound_pos (st_index s)). lia. }
  set (r0 := block_extent start (Zlen payload) marks options payload _).
  assert (extent r0) as Hex by (unfold extent, r0, block_extent, logical_end, sat_add64; cbn [logical_start logical_len]; lia).
  assert (forall i x, extents s !! i = Some x -> is_active x -> ~ overlaps x r0) as Hno
    by (apply (free_apart s start (Zlen payload)); try done; lia).
  set (s3 := s2 <| st_index := index |> <| st_segs := segs |>) in *.
  destruct (append_extent_files w3 p s3 r0 Hn Hlo HF3) as (w4 & r & E4 & Er & Hu & Hnone & HF4 & _); try done.
  { intros rid Hrid. apply new_extent_wf; try done. apply HSD. }
  rewrite (bindM_run _ _ _ _ _ E4), (bindM_run _ _ w4 tt w4) by done.
  assert (logical_start r = start /\ logical_len r = Zlen payload /\ logical_end r = start + Zlen payload /\
    dedup_entry_id r = 0 /\ compression r = codec /\ is_active r /\ extent r /\
    (forall i x, extents s !! i = Some x -> is_active x -> ~ overlaps x r) /\ extent_holds s3 r payload)
    as (R1 & R2 & R3 & R4 & R5 & R6 & R7 & R8 & R9).
  { rewrite Er. split_and!; try done.
    - change (Z.min (start + Zlen payload) U64_MAX = start + Zlen payload). lia.
    - by apply (stored_extent_holds s3 options start payload marks codec encoded seq id sum). }
  rewrite R1, R3. set (s4 := s3 <| st_blk_seq := _ |> <| st_blk := _ |>) in *.
  destruct (append_range_files w4 p s4 (mkLookup 0 start (start + Zlen payload - 1) (record_id r) (record_id r))
    Hn Hlo HF4) as (w5 & lk & E5 & Elk & Hnone5 & HF5 & _); try done.
  { intros lid Hlid. unfold wf_lookup, u64_ok in *. cbn. lia. }
  rewrite (bindM_run _ _ _ _ _ E5), (bindM_run _ _ w5 tt w5) by done.
  set (s5 := s4 <| st_lookup_seq := _ |> <| st_lookup := _ |>) in *.
  destruct (record_pending_run (metadata_file p) w5) as (n & f & E6). rewrite (bindM_run _ _ _ _ _ E6).
  pose proof (files_pending w5 p s5 f Hlo HF5) as HF6.
  destruct (finish_write_files _ p s5 (force_sync options || bool_decide (sync_every_writes <= n)
    || bool_decide (is_Some (@None IngestFailpoint))) Hn Hlo HF6) as (c' & w7 & E7 & HF7 & _).
  rewrite (bindM_run _ _ _ _ _ E7). eexists _, w7, _, r, lk. split; [reflexivity|].
  split; [exact HF7|]. split_and!; try done. split; try done.
  - cbn. apply replay_snoc.
  - cbn. apply replay_snoc.
  - rewrite R1, R2. lia.
  - unfold indexes. rewrite Elk. cbn. rewrite R1, R2. done.
  - cbn. by apply (segs_ok_nodup w3 p index segs), HF3.
  - cbn. unfold Zlen. rewrite !length_app. cbn. lia.
Qed.
(** A store whose segments only grew means what it meant. *)
Lemma links_grow s s' :
  links s -> extents s' = extents s -> ranges s' = ranges s ->
  (forall q b, blob_in (st_segs s) q b -> blob_in (st_segs s') q b) -> links s'.
Proof.
  intros [L1 L2 L3 L4 L5 L6] Ee Er Hb. split; rewrite ?Ee, ?Er; try done.
  intros i r Hi Ha. destruct (L6 i r Hi Ha) as (py & Hpy). exists py. by eapply extent_holds_mono.
Qed.
Lemma holds_grow s s' b x :
  links s -> extents s' = extents s -> (forall q b, blob_in (st_segs s) q b -> blob_in (st_segs s') q b) ->
  segs_nodup (st_segs s') -> holds s' b x <-> holds s b x.
Proof.
  intros HL Ee Hb Hnd. unfold holds. rewrite Ee. split.
  - intros (r & py & Hr & Hp & ->). destruct (block_at_active _ _ _ Hr) as [Hm Ha].
    destruct (ln_stored _ HL _ _ Hm Ha) as (p0 & Hp0). exists r, p0. split_and!; [done|done|].
    f_equal. eapply (extent_holds_unique s' r); [done|done|by eapply extent_holds_mono].
  - intros (r & py & Hr & Hp & ->). exists r, py. split_and!; [done|by eapply extent_holds_mono|done].
Qed.

(** A write over a block that is already written is refused after its blob was
    stored: the meaning stays. *)
Lemma write_overlap_spec w p s start payload marks options codec encoded b0 x0 :
  no_faults -> layout_ok p -> files_ok w p s -> links s -> dedup_enabled options = false ->
  stored_form (preferred_codec options) payload codec encoded -> write_room s start (Zlen payload) ->
  start <= b0 < start + Zlen payload -> holds s b0 x0 ->
  exists w' s', write_logical_block p start payload marks options None w =
      (Err (Conflict "active logical range overlap"), w') /\ files_ok w' p s' /\ links s' /\
    (forall b x, holds s' b x <-> holds s b x).
Proof.
  intros Hn Hlo HF HL Hd HSD HR Hb0 Hx0. pose proof HR as [Rb _ _ _ _ _ _ _ _ [Rs Re] [Rz Rz']].
  unfold write_logical_block. rewrite decide_False by (intros ->; unfold Zlen in Rz; cbn in Rz; lia).
  destruct (begin_write_files w p s Hn Hlo HF) as (c & w1 & w2 & E1 & E2 & HF2 & Hc).
  rewrite (bindM_run _ _ _ _ _ E1), (bindM_run _ _ _ _ _ E2). clear E1 E2.
  rewrite (bindM_run _ _ w2 tt w2) by done.
  unfold checked_u32_len, u32_try_from. rewrite decide_True by lia. cbn [ok_or].
  rewrite (bindM_run _ _ w2 (Zlen payload) w2) by done.
  destruct (store_blob_files w2 p (s <| st_checkpoint := c |>) options payload codec encoded start Hn Hlo HF2)
    as (seq & index & segs & w3 & E3 & HF3 & Hseq & Hkeep & _); [by destruct HR; split|done|].
  unfold store_payload. rewrite Hd. set (id := ids_bound _ + 1) in *.
  rewrite (bindM_run _ _ w2 (mkStored 0 id codec (Zlen encoded) seq false false) w3)
    by (rewrite (bindM_run _ _ w2 false w2) by done; rewrite (bindM_run _ _ _ _ _ E3); done).
  rewrite (bindM_run _ _ w3 tt w3) by done.
  set (s3 := s <| st_checkpoint := c |> <| st_index := index |> <| st_segs := segs |>) in *.
  set (r0 := block_extent start (Zlen payload) marks options payload _).
  destruct Hx0 as (r & py & [Hr Hcov] & _ & _). pose proof Hcov as (Ha & Hc1 & Hc2)%covers_spec.
  destruct (append_blk_overlap w3 (blk_map_file p) (st_blk_seq s3) (st_blk s3) r0 (record_id r) r Hn (fo_blk _ _ _ HF3) Rb) as (w4 & E4 & HB4 & [F4 S4]).
  { unfold extent, r0, block_extent, logical_end, sat_add64. cbn [logical_start logical_len]. lia. }
  { exact Hr. }
  { done. }
  { unfold overlaps, r0, block_extent, logical_end, sat_add64 in *. cbn [logical_start logical_len] in *. lia. }
  rewrite (bindM_run_err _ _ _ _ _ E4). exists w4, s3. split; [done|].
  assert (forall q b, blob_in (st_segs s) q b -> blob_in (st_segs s3) q b) as Hmono by exact Hkeep.
  split_and!.
  - pose proof (files_blk w3 w4 p s3 (st_blk_seq s3) (st_blk s3) Hlo HF3) as H. apply H; [|rewrite F4; done|exact HB4].
    apply moved_same; [by apply (files_wf _ _ _ HF3)|done|by rewrite F4].
  - by apply (links_grow s).
  - intros b x. apply holds_grow; [done|done|done|]. apply (segs_ok_nodup w3 p index segs), HF3.
Qed.
End Laws.
