(* ===== verification/Reset.v ===== *)
(** * Erasing a cartridge

    [reset_layout_for_overwrite] leaves an empty store, whatever the files held
    before. *)

From S2P Require Import Prelude Bytes Text Errors Fs Layout TapeState Compression Records.
From S2P Require Import World Crc Segment Footprint Checkpoint Logs BlkMap MapLookup Dedup Reclaim.
From S2P Require Import SegmentIndex Slots IndexState DataBlobs BlobStore DataPath Store.

(** ** File names *)
Lemma find_slash_none l : Forall (fun b => b <> 47) l -> list_find (fun b => b = 47) l = None.
Proof. intros H. by apply list_find_None. Qed.

Lemma file_name_join d (n : list Z) path :
  bytes_of_string path = dir_prefix d ++ n -> Forall (fun b => b <> 47) n -> file_name path = n.
Proof.
  intros E Hn. unfold file_name. rewrite E, reverse_app.
  assert (Forall (fun b => b <> 47) (reverse n)) as Hr by (by apply Forall_reverse).
  unfold dir_prefix. destruct (decide (d = EmptyString)).
  { cbn. rewrite app_nil_r, find_slash_none by done. by rewrite reverse_involutive. }
  destruct (last (String.list_ascii_of_string d)) as [c|] eqn:Ec.
  - assert (exists l, (if decide (c = Ascii.ascii_of_nat 47) then bytes_of_string d else bytes_of_string d ++ [47])
      = l ++ [47]) as [l ->].
    { case_decide as Hc; [|eauto]. apply last_Some in Ec as [l E1]. unfold bytes_of_string. rewrite E1, map_app.
      eexists. cbn. rewrite Hc. f_equal. }
    rewrite reverse_snoc.
    assert (list_find (fun b => b = 47) (reverse n ++ 47 :: reverse l) = Some (length (reverse n), 47)) as ->.
    { apply list_find_app_Some. right. split_and!; [lia|by apply find_slash_none|]. rewrite Nat.sub_diag. done. }
    by rewrite take_app_length, reverse_involutive.
  - cbn. rewrite app_nil_r, find_slash_none by done. by rewrite reverse_involutive.
Qed.

Lemma slot_name_no_slash s : slot_ok s -> Forall (fun b => b <> 47) (slot_name s).
Proof.
  intros Hs. destruct s as [| | | | | |n]; [apply (bool_decide_unpack _); by vm_compute..|].
  cbn [slot_name slot_ok] in *. rewrite !Forall_app.
  split; [apply (bool_decide_unpack _); by vm_compute|]. split; [|apply (bool_decide_unpack _); by vm_compute].
  eapply Forall_impl; [apply pad6_ok; unfold u64_ok in Hs; lia|]. unfold is_digit. cbn. lia.
Qed.
Lemma slot_name_bytes s : slot_ok s -> bytes_ok (slot_name s).
Proof.
  intros Hs. destruct s as [| | | | | |n]; [apply (bool_decide_unpack (Forall u8_ok _)); by vm_compute..|].
  cbn [slot_name slot_ok] in *. unfold bytes_ok. rewrite !Forall_app.
  split; [apply (bool_decide_unpack (Forall u8_ok _)); by vm_compute|].
  split; [apply pad6_bytes; unfold u64_ok in Hs; lia|apply (bool_decide_unpack (Forall u8_ok _)); by vm_compute].
Qed.
Lemma slot_file_name d s : slot_ok s -> file_name (slot_path (paths_in d) s) = slot_name s.
Proof. intros Hs. eapply file_name_join; [by apply slot_path_bytes|by apply slot_name_no_slash]. Qed.

Lemma dec_rev_length fuel : forall k z, 0 <= z < 10 ^ Z.of_nat (S k) -> (length (dec_rev fuel z) <= S k)%nat.
Proof.
  induction fuel as [|f IH]; intros k z Hz; cbn; [lia|]. case_decide as Hd; [cbn; lia|]. cbn.
  destruct k as [|k]; [cbn in Hz; lia|]. apply le_n_S, IH.
  rewrite (Nat2Z.inj_succ (S k)), Z.pow_succ_r in Hz by lia. split; [apply Z.div_pos; lia|].
  apply Z.div_lt_upper_bound; lia.
Qed.
Lemma pad6_length n : 0 <= n < 1000000 -> length (pad6 n) = 6%nat.
Proof.
  intros Hn. unfold pad6. rewrite length_app, length_replicate. unfold show_uint. rewrite length_reverse.
  pose proof (dec_rev_length 20 5 n). lia.
Qed.

Lemma parse_uint_digits max l : Forall is_digit l -> l <> [] -> parse_uint max l = parse_digits max 0 l.
Proof.
  intros Hd Hne. destruct l as [|b l]; [done|]. apply Forall_cons in Hd as [Hb _]. unfold is_digit in Hb.
  unfold parse_uint. repeat case_match; try done; lia.
Qed.
Lemma data_name_indexed n : 0 <= n < 1000000 -> indexed_data_segment_seq (slot_name (SData n)) = Some n.
Proof.
  intros Hn. pose proof (pad6_length n Hn) as Hl. unfold indexed_data_segment_seq, six_digits. cbn [slot_name].
  rewrite decide_True; cycle 1.
  { split_and!; [done| |rewrite !length_app, Hl; done].
    rewrite !length_app, Hl. change (length (bytes_of_string "data_") + (6 + length (bytes_of_string ".seg")) -
      length (bytes_of_string ".seg"))%nat with 11%nat.
    rewrite drop_app_ge by (change (length (bytes_of_string "data_")) with 5%nat; lia).
    rewrite drop_app_ge by (rewrite Hl; change (length (bytes_of_string "data_")) with 5%nat; lia).
    rewrite Hl. done. }
  rewrite drop_app_length, take_app_le, take_ge by lia.
  assert (Forall is_digit (pad6 n)) as Hd by (apply pad6_ok; lia).
  assert (forallb (fun b => bool_decide (48 <= b <= 57)) (pad6 n) = true) as ->.
  { apply forallb_forall. intros x Hx%list_elem_of_In. apply bool_decide_eq_true.
    rewrite Forall_forall in Hd. by apply Hd. }
  rewrite parse_uint_digits by (done || intros E; by rewrite E in Hl).
  unfold pad6. rewrite parse_digits_app, parse_zeros by lia. apply parse_digits_dec; cbn; lia.
Qed.
Lemma meta_name_not_indexed s : meta_slot s \/ s = SIndex -> indexed_data_segment_seq (slot_name s) = None.
Proof. destruct s; intros [H|H]; try done; by vm_compute. Qed.

Section Laws.
Context `{HOST : Host} `{ENV : Environ} `{CL : Crc32cLaws} `{HOL : HashOrderLaws} `{BC : BlockCodecs}
  `{B3 : Blake3}.

(** ** Removing files *)
Lemma fs_remove_ok fs p i :
  no_faults -> wf_fs fs -> fs_names fs !! p = Some i ->
  exists fs', fs_remove p fs = (Ok tt, fs') /\ fs_names fs' = delete p (fs_names fs) /\ frame [p] fs fs'.
Proof.
  intros Hn (W1 & W2 & W3) Hi. unfold fs_remove, bindM. rewrite io_step_ok by done. unfold getM. cbn [fs_names].
  cbn. rewrite Hi. eexists. split; [reflexivity|]. split; [done|]. split; [split_and!|].
  - cbn. intros q j. rewrite lookup_delete_Some. intros [_ Hj]. by eapply W1.
  - cbn. intros q q' j. rewrite !lookup_delete_Some. intros [_ H1] [_ H2]. by eapply W2.
  - done.
  - intros q Hq. unfold contents, file_at. cbn. rewrite lookup_delete_ne by set_solver. done.
Qed.

Definition shrunk {A} (l : list string) (m m' : gmap string A) : Prop :=
  forall q, m' !! q = if decide (q ∈ l) then None else m !! q.
Definition data_drop (w w' : World) : Prop :=
  w' = w <| w_fs := w_fs w' |> <| w_data := w_data w' |> <| w_readers := w_readers w' |>.

Lemma drop_one_spec w path i :
  no_faults -> wf_fs (w_fs w) -> fs_names (w_fs w) !! path = Some i ->
  exists w', (invalidate_data_segment_cache path ;;! io (fs_remove path)) w = (Ok tt, w') /\ data_drop w w' /\
    fs_names (w_fs w') = delete path (fs_names (w_fs w)) /\ moved [path] w w' /\
    w_data w' = delete path (w_data w) /\ w_readers w' = delete path (w_readers w).
Proof.
  intros Hn Hw Hi. destruct (fs_remove_ok _ _ _ Hn Hw Hi) as (fs' & E & N & Fr).
  unfold invalidate_data_segment_cache, invalidate_data_reader, modifyM, bindM. rewrite io_run. cbn [w_fs].
  cbn. rewrite E. eexists. split; [reflexivity|]. split_and!; try done. split; [done|]. intros q Hq.
  split; [|done]. cbn. rewrite N. apply lookup_delete_ne. set_solver.
Qed.

Lemma remove_loop_spec : forall l w,
  no_faults -> wf_fs (w_fs w) -> NoDup l -> (forall q, q ∈ l -> is_Some (fs_names (w_fs w) !! q)) ->
  exists w', forM l (fun path => invalidate_data_segment_cache path ;;! io (fs_remove path)) w = (Ok tt, w') /\
    data_drop w w' /\ moved l w w' /\ shrunk l (w_data w) (w_data w') /\ shrunk l (w_readers w) (w_readers w').
Proof.
  induction l as [|x l IH]; intros w Hn Hw Hnd Hl.
  { exists w. split_and!; [done|by destruct w| | |]; [by apply moved_same|..]; intros q; by rewrite decide_False by set_solver. }
  apply NoDup_cons in Hnd as [Hx Hnd]. destruct (Hl x) as [i Hi]; [set_solver|].
  destruct (drop_one_spec w x i Hn Hw Hi) as (w1 & E1 & D1 & N1 & M1 & Dd & Rd). cbn [forM].
  destruct (IH w1 Hn) as (w2 & E2 & D2 & M2 & Sd & Sr); [apply M1|done| |].
  { intros q Hq. rewrite N1, lookup_delete_ne; [apply Hl; set_solver|]. intros ->. done. }
  rewrite (bindM_run _ _ _ _ _ E1). exists w2. split_and!; [done|rewrite D2, D1; done| | |].
  - eapply moved_trans; [eapply moved_weaken; [exact M1|set_solver]|eapply moved_weaken; [exact M2|set_solver]].
  - intros q. rewrite Sd, Dd. destruct (decide (q ∈ l)); [by rewrite decide_True by set_solver|].
    destruct (decide (q = x)) as [->|]; [by rewrite lookup_delete_eq, decide_True by set_solver|].
    rewrite lookup_delete_ne, decide_False by set_solver. done.
  - intros q. rewrite Sr, Rd. destruct (decide (q ∈ l)); [by rewrite decide_True by set_solver|].
    destruct (decide (q = x)) as [->|]; [by rewrite lookup_delete_eq, decide_True by set_solver|].
    rewrite lookup_delete_ne, decide_False by set_solver. done.
Qed.

Lemma entries_nodup dir fs : NoDup (entries_of dir fs).
Proof. apply NoDup_filter, NoDup_fst_map_to_list. Qed.
Lemma entries_elem dir fs q :
  q ∈ entries_of dir fs <-> q = path_join dir (string_of_bytes (file_name q)) /\ is_Some (fs_names fs !! q).
Proof.
  unfold entries_of. rewrite list_elem_of_filter, list_elem_of_fmap. split.
  - intros [E ([q' i] & -> & Hin)]. split; [done|]. apply elem_of_map_to_list in Hin. by exists i.
  - intros [E [i Hi]]. split; [done|]. exists (q, i). split; [done|]. by apply elem_of_map_to_list.
Qed.

Lemma meta_not_data_file d t :
  meta_slot t \/ t = SIndex -> slot_path (paths_in d) t <> data_file (paths_in d).
Proof.
  intros Ht E. assert (slot_ok t) as Hok by (destruct t; try done; by destruct Ht).
  apply (f_equal bytes_of_string) in E. rewrite slot_path_bytes in E by done.
  cbn [data_file paths_in] in E. rewrite path_join_bytes in E. apply app_inv_head in E.
  destruct t as [| | | | | |n]; [by vm_compute in E..|by destruct Ht].
Qed.

Lemma drop_data_file_spec w p l (removed : bool) :
  no_faults -> wf_fs (w_fs w) ->
  exists w' r, (if bool_decide (is_Some (file_at (w_fs w) (data_file p))) then
      invalidate_data_segment_cache (data_file p) ;;! io (fs_remove (data_file p)) ;;! retM true
      else retM removed) w = (Ok r, w') /\ data_drop w w' /\ moved (data_file p :: l) w w' /\
    (forall q, w_data w' !! q = None \/ w_data w' !! q = w_data w !! q) /\
    (forall q, w_readers w' !! q = None \/ w_readers w' !! q = w_readers w !! q).
Proof.
  intros Hn Hw. case_bool_decide as Hex; cycle 1.
  { eexists w, _. split_and!; [done|by destruct w|by apply moved_same|by right|by right]. }
  destruct Hex as [nd Hnd]. unfold file_at in Hnd. destruct (fs_names (w_fs w) !! data_file p) as [i|] eqn:Ei; [|done].
  destruct (drop_one_spec w (data_file p) i Hn Hw Ei) as (w3 & E3 & D3 & N3 & M3 & Dd & Rd).
  exists w3, true. unfold bindM in E3 |- *. destruct (invalidate_data_segment_cache (data_file p) w) as [[[]|] wx]; [|done].
  rewrite E3. split_and!; [done|done|eapply moved_weaken; [exact M3|set_solver]|..]; intros q.
  - rewrite Dd. destruct (decide (q = data_file p)) as [->|]; [left; apply lookup_delete_eq|right; by apply lookup_delete_ne].
  - rewrite Rd. destruct (decide (q = data_file p)) as [->|]; [left; apply lookup_delete_eq|right; by apply lookup_delete_ne].
Qed.

(** The data segments of the directory and the old data file are gone, with what
    was cached of them; nothing else moved. *)
Lemma remove_segments_spec w d :
  no_faults -> wf_fs (w_fs w) ->
  let p := paths_in d in
  exists w', remove_data_segment_files p w = (Ok tt, w') /\ data_drop w w' /\
    (exists ps, moved ps w w' /\ forall t, meta_slot t \/ t = SIndex -> slot_path p t ∉ ps) /\
    (forall n, 0 <= n < 1000000 -> is_Some (fs_names (w_fs w) !! data_segment_path p n) ->
       w_data w' !! data_segment_path p n = None /\ w_readers w' !! data_segment_path p n = None) /\
    (forall q, w_data w !! q = None -> w_data w' !! q = None) /\
    (forall q, w_readers w !! q = None -> w_readers w' !! q = None).
Proof.
  intros Hn Hw p. unfold remove_data_segment_files, read_dir. unfold bindM at 1 2. rewrite io_run, io_step_ok by done.
  cbn [fst snd map_err]. set (w1 := w <| w_fs := _ |>). unfold bindM at 1, getM, retM at 1.
  set (l := filter _ _). unfold remove_matching.
  assert (forall q, q ∈ l <-> q = path_join d (string_of_bytes (file_name q)) /\ is_Some (fs_names (w_fs w) !! q) /\
    is_Some (indexed_data_segment_seq (file_name q))) as Hl.
  { intros q. unfold l. rewrite list_elem_of_filter, entries_elem. unfold is_indexed_data_segment_name.
    rewrite bool_decide_spec. change (root p) with d. naive_solver. }
  destruct (remove_loop_spec l w1 Hn) as (w2 & E2 & D2 & M2 & Sd & Sr);
    [done|apply NoDup_filter, entries_nodup|intros q Hq; by apply Hl in Hq as (_ & ? & _)|].
  unfold bindM at 1. rewrite (bindM_run _ _ _ _ _ E2). cbn [retM].
  assert (forall t, meta_slot t \/ t = SIndex -> (slot_path p t ∉ l) /\ slot_path p t <> data_file p) as Hmeta.
  { intros t Ht. assert (slot_ok t) as Hok by (destruct t; try done; by destruct Ht). split.
    - rewrite Hl. unfold p. rewrite slot_file_name, meta_name_not_indexed by done. intros (_ & _ & [? ?]). done.
    - by apply meta_not_data_file. }
  assert (forall n, 0 <= n < 1000000 -> is_Some (fs_names (w_fs w) !! data_segment_path p n) ->
    data_segment_path p n ∈ l) as Hseg.
  { intros n Hr Hs. assert (slot_ok (SData n)) as Hok by (cbn; unfold u64_ok; lia). apply Hl.
    change (data_segment_path p n) with (slot_path p (SData n)). unfold p. rewrite slot_file_name by done.
    split_and!; [|done|rewrite data_name_indexed by done; eauto].
    apply bytes_of_string_inj. rewrite slot_path_bytes, path_join_bytes, bytes_of_string_of_bytes; [done| |done].
    by apply slot_name_bytes. }
  assert (data_drop w w2 /\ moved (data_file p :: l) w w2) as [D02 M02].
  { split; [rewrite D2; done|]. eapply moved_trans; [|eapply moved_weaken; [exact M2|set_solver]].
    by apply (moved_same _ w w1). }
  rewrite (bindM_run _ _ w2 (bool_decide (is_Some (file_at (w_fs w2) (data_file p)))) w2)
    by (unfold path_exists; rewrite io_run; cbn; by destruct w2).
  destruct (drop_data_file_spec w2 p l (negb (bool_decide (l = []))) Hn ltac:(apply M02))
    as (w3 & r & E3 & D3 & M3 & Q3 & R3).
  rewrite (bindM_run _ _ _ _ _ E3).
  assert (quiet (if r then sync_directory (root p) else retM tt) w3 tt) as (w4 & E4 & F4 & S4).
  { destruct r; [|apply quiet_ret]. unfold sync_directory. eapply quiet_bind; [by apply quiet_sync|].
    intros. by apply quiet_sync. }
  exists w4. split; [exact E4|].
  assert (w_data w4 = w_data w3 /\ w_readers w4 = w_readers w3) as [Q4 R4] by (by rewrite F4).
  split_and!.
  - unfold data_drop in *. rewrite F4, D3, D02. done.
  - exists (data_file p :: l). split.
    + eapply moved_trans; [exact M02|]. eapply moved_trans; [exact M3|].
      apply moved_same; [apply M3|done|by rewrite F4].
    + intros t Ht. destruct (Hmeta t Ht). set_solver.
  - intros n Hr Hs. specialize (Hseg n Hr Hs). specialize (Sd (data_segment_path p n)).
    specialize (Sr (data_segment_path p n)). rewrite decide_True in Sd by done. rewrite decide_True in Sr by done. rewrite Q4, R4.
    split; [destruct (Q3 (data_segment_path p n)) as [->| ->]|destruct (R3 (data_segment_path p n)) as [->| ->]]; done.
  - intros q Hq. rewrite Q4. destruct (Q3 q) as [->| ->]; [done|]. rewrite Sd. by case_decide.
  - intros q Hq. rewrite R4. destruct (R3 q) as [->| ->]; [done|]. rewrite Sr. by case_decide.
Qed.

(** ** Writing empty logs *)
(** A step that stamps a file it has just written. *)
Lemma stamped w path k id seq payload :
  no_faults -> log_file w k path id seq payload ->
  exists st, quiet (file_stamp path) w st.
Proof.
  intros Hn HL. destruct (file_stamp_ok w path _ Hn (lf_contents _ _ _ _ _ _ HL)) as (n & w1 & E1 & _ & F1 & S1).
  eexists _, w1. done.
Qed.

Lemma persist_blk_empty w path :
  no_faults -> wf_fs (w_fs w) -> with_extension_tmp path <> path ->
  exists w', persist_blk_map_records path [] w = (Ok tt, w') /\ blk_state w' path 1 [] /\
    w' = w <| w_fs := w_fs w' |> <| w_append := w_append w' |> <| w_known_dirs := w_known_dirs w' |>
           <| w_blk := w_blk w' |> /\ moved (path_files path) w w'.
Proof.
  intros Hn Hw Ht. unfold persist_blk_map_records. change (rewrite_sequence []) with 1.
  destruct (write_log_moved w path BlkMap 2 1 (BlkMap.encode_log_payload []) Hn Hw Ht)
    as (w1 & E1 & F1 & M1 & HL1); [unfold u64_ok; lia..|by apply (bool_decide_unpack (Forall u8_ok _)); vm_compute|by vm_compute|].
  rewrite (bindM_run _ _ _ _ _ E1). destruct (stamped w1 path _ _ _ _ Hn HL1) as (st & w2 & E2 & F2 & S2).
  unfold BlkMap.update_cache. rewrite (bindM_run _ _ _ _ _ E2). eexists. split; [reflexivity|].
  set (w3 := w2 <| w_blk := _ |>).
  assert (same_files (w_fs w1) (w_fs w3)) as S13 by done. assert (w_append w3 = w_append w1) as A13 by (cbn; by rewrite F2).
  split_and!.
  - split; [apply (log_file_same w1); [done|by rewrite A13|done]|constructor|set_solver|].
    cbn. intros e. rewrite lookup_insert_eq. intros [= <-].
    apply built_cache_ok; [set_solver|apply tracks_empty|constructor].
  - unfold w3. rewrite F2, F1. done.
  - eapply moved_trans; [exact M1|]. apply moved_same; [apply HL1|done|done].
Qed.

Lemma persist_lookup_empty w path :
  no_faults -> wf_fs (w_fs w) -> with_extension_tmp path <> path ->
  exists w', persist_lookup_records path [] w = (Ok tt, w') /\ lookup_state w' path 0 [] /\
    w' = w <| w_fs := w_fs w' |> <| w_append := w_append w' |> <| w_known_dirs := w_known_dirs w' |>
           <| w_lookup := w_lookup w' |> /\ moved (path_files path) w w'.
Proof.
  intros Hn Hw Ht. unfold persist_lookup_records. change (Zlen (@nil MapLookupRecord)) with 0.
  destruct (write_log_moved w path Lookup 3 0 (MapLookup.encode_log_payload []) Hn Hw Ht)
    as (w1 & E1 & F1 & M1 & HL1); [unfold u64_ok; lia..|by apply (bool_decide_unpack (Forall u8_ok _)); vm_compute|by vm_compute|].
  rewrite (bindM_run _ _ _ _ _ E1). destruct (stamped w1 path _ _ _ _ Hn HL1) as (st & w2 & E2 & F2 & S2).
  unfold MapLookup.update_cache. rewrite (bindM_run _ _ _ _ _ E2). eexists. split; [reflexivity|].
  set (w3 := w2 <| w_lookup := _ |>).
  assert (same_files (w_fs w1) (w_fs w3)) as S13 by done. assert (w_append w3 = w_append w1) as A13 by (cbn; by rewrite F2).
  split_and!.
  - split; [apply (log_file_same w1); [done|by rewrite A13|done]|constructor|set_solver|].
    cbn. intros e. rewrite lookup_insert_eq. intros [= <-]. split; [|done].
    apply log_cache_built; [set_solver|apply tracks_empty|constructor].
  - unfold w3. rewrite F2, F1. done.
  - eapply moved_trans; [exact M1|]. apply moved_same; [apply HL1|done|done].
Qed.

Lemma persist_dedup_empty w path :
  no_faults -> wf_fs (w_fs w) -> with_extension_tmp path <> path ->
  exists w' h payload, persist_dedup_entries path [] w = (Ok tt, w') /\ seg_file w' path h payload /\
    w' = w <| w_fs := w_fs w' |> <| w_append := w_append w' |> <| w_known_dirs := w_known_dirs w' |>
           <| w_dedup := w_dedup w' |> /\ moved (path_files path) w w'.
Proof.
  intros Hn Hw Ht. unfold persist_dedup_entries. change (Zlen (@nil DedupIndexEntry)) with 0.
  destruct (write_log_moved w path Layout.Dedup 5 0 (Dedup.encode_log_payload []) Hn Hw Ht)
    as (w1 & E1 & F1 & M1 & HL1); [unfold u64_ok; lia..|by apply (bool_decide_unpack (Forall u8_ok _)); vm_compute|by vm_compute|].
  rewrite (bindM_run _ _ _ _ _ E1). destruct (stamped w1 path _ _ _ _ Hn HL1) as (st & w2 & E2 & F2 & S2).
  unfold Dedup.update_cache. rewrite (bindM_run _ _ _ _ _ E2). unfold bindM, getM.
  eexists _, _, _. split; [reflexivity|]. split_and!.
  - apply log_file_seg in HL1 as (HS & _ & _). eapply (seg_file_same w1); [|cbn; by rewrite F2|exact HS]. done.
  - cbn. rewrite F2, F1. done.
  - eapply moved_trans; [exact M1|]. apply moved_same; [apply HL1|done|cbn; by rewrite F2].
Qed.

(** ** Erasing *)
Lemma parse_digits_range max l : forall acc v, 0 <= acc <= max -> parse_digits max acc l = Some v -> 0 <= v <= max.
Proof.
  induction l as [|b l IH]; intros acc v Ha H; cbn in H; [by injection H as <-|].
  case_decide as Hd; [|done]. case_decide as Hm; [|done]. eapply IH; [|exact H]. lia.
Qed.
Lemma parse_uint_range max l v : 0 <= max -> parse_uint max l = Some v -> 0 <= v <= max.
Proof.
  intros Hm. unfold parse_uint. intros Hp. repeat case_match; try done; (eapply parse_digits_range; [|exact Hp]; lia).
Qed.
Lemma configured_max_ok : u32_ok configured_max_segment_size.
Proof.
  unfold configured_max_segment_size, u32_ok, DEFAULT_MAX_DATA_SEGMENT_SIZE.
  destruct (getenv _) as [raw|]; [|lia]. destruct (parse_uint _ _) as [v|] eqn:E; [|lia].
  apply parse_uint_range in E; [|lia]. case_decide; lia.
Qed.

Definition empty_store (c : MetadataCheckpoint) (e : Z) : Store :=
  mkStore c 1 [] 0 [] (SegmentIndex_new configured_max_segment_size) {[0 := (header_new Data 1 e [], [])]}.

Lemma new_index_ok : wf_index (SegmentIndex_new configured_max_segment_size) /\
  seg_inv (SegmentIndex_new configured_max_segment_size).
Proof.
  split; split; cbn [SegmentIndex_new max_segment_size next_segment_seq descriptors].
  - apply configured_max_ok.
  - unfold u64_ok. lia.
  - apply Forall_singleton. unfold wf_descriptor, u32_ok, u64_ok. cbn. lia.
  - unfold MAX_MAINTENANCE_METADATA_RECORDS, Zlen. cbn. lia.
  - done.
  - apply NoDup_singleton.
  - intros x ->%list_elem_of_singleton. cbn. lia.
Qed.

(** What is cached of a data segment belongs to a file of the directory. *)
Definition segments_listed (w : World) (p : LayoutPaths) : Prop :=
  forall n, u64_ok n -> is_Some (w_data w !! data_segment_path p n) \/ is_Some (w_readers w !! data_segment_path p n) ->
    n < 1000000 /\ is_Some (fs_names (w_fs w) !! data_segment_path p n).

(** The index and the first segment, written last. *)
Lemma fresh_segments_spec w p e :
  no_faults -> layout_ok p -> wf_fs (w_fs w) -> u64_ok e ->
  (forall n, u64_ok n -> w_data w !! data_segment_path p n = None /\ w_readers w !! data_segment_path p n = None) ->
  let index := SegmentIndex_new configured_max_segment_size in
  exists w', fresh_segments p e w = (Ok tt, w') /\
    index_state w' (segment_index_file p) index /\
    segs_ok w' p index {[0 := (header_new Data 1 e [], [])]} /\ blob_touch p w w'.
Proof.
  intros Hn Hlo Hw He Hnone index. unfold fresh_segments. fold index. cbn zeta. destruct new_index_ok as [Hwi Hii]. fold index in Hwi, Hii.
  assert (u64_ok 0) as H0 by (unfold u64_ok; lia).
  pose proof (lo_tmp p Hlo (SData 0) (SData 0) H0 H0) as T1. pose proof (lo_tmp p Hlo SIndex SIndex I I) as T2.
  cbn [slot_path] in T1, T2.
  destruct (write_log_moved w (data_segment_path p 0) Data 1 e [] Hn Hw T1)
    as (w1 & E1 & F1 & M1 & HL1); [unfold u64_ok; lia|done|by apply Forall_nil|by vm_compute|].
  rewrite (bindM_run _ _ _ _ _ E1).
  destruct (persist_index_spec w1 (segment_index_file p) index Hn) as (w2 & E2 & F2 & Fr2 & HD2); [apply HL1|done|done|].
  assert (moved (path_files (segment_index_file p)) w1 w2) as M2.
  { apply (moved_run _ _ _ _ _ E2); [done|]. intros q Hq. unfold path_files in Hq. apply spares_persist_index; set_solver. }
  rewrite (bindM_run _ _ _ _ _ E2).
  destruct (stamp_ok_spec w2 _ _ Hn (lf_contents _ _ _ _ _ _ (proj1 HD2))) as (s3 & w3 & E3 & F3 & S3).
  set (ci := mkCachedIndex index false (default 0 (ic_generation <$> w_index w2 !! segment_index_file p)) (Some s3)).
  set (w4 := w3 <| w_index := <[segment_index_file p := ci]> (w_index w3) |>).
  rewrite (bindM_run _ _ w2 tt w4)
    by (unfold store_segment_index_clean, bindM at 1, getM; rewrite (bindM_run _ _ _ _ _ E3); done).
  set (w5 := w4 <| w_readers := delete (data_segment_path p 0) (w_readers w4) |>).
  rewrite (bindM_run _ _ w4 tt w5) by done.
  assert (same_files (w_fs w2) (w_fs w5)) as S25 by done.
  assert (w_append w5 = w_append w2 /\ w_data w5 = w_data w) as [A25 D5]
    by (split; cbn; [by rewrite F3|rewrite F3, F2, F1; done]).
  assert (log_file w5 Data (data_segment_path p 0) 1 e []) as HL5.
  { apply (log_file_same w2); [done|by rewrite A25|]. eapply log_file_moved; [exact HL1|exact M2|].
    by apply (index_apart p 0). }
  destruct (stamped w5 _ _ _ _ _ Hn HL5) as (st & w6 & E6 & F6 & S6).
  unfold update_data_cache. rewrite (bindM_run _ _ _ _ _ E6). eexists. split; [reflexivity|].
  set (w7 := w6 <| w_data := _ |>).
  assert (same_files (w_fs w2) (w_fs w7)) as S27 by (by apply (same_files_trans _ (w_fs w5))).
  assert (w_append w7 = w_append w2) as A27 by (cbn; rewrite F6; done).
  assert (w_index w7 !! segment_index_file p = Some ci) as I7 by (cbn; rewrite F6; apply lookup_insert_eq).
  assert (forall q, w_readers w7 !! q = delete (data_segment_path p 0) (w_readers w) !! q) as R7.
  { intros q. cbn. rewrite F6. cbn. rewrite F3, F2, F1. done. }
  split_and!.
  - split; [done|done|]. exists index. split; [apply (index_file_same w2); [done|done|done]|].
    rewrite I7. split; [done|]. intros c [= <-]. done.
  - split.
    + intros s h bs [<- [= <- <-]]%lookup_singleton_Some. apply log_file_seg in HL5 as (HS & _ & _).
      split; [eapply (seg_file_same w5); [done|cbn; by rewrite F6|exact HS]|done|constructor|constructor| |].
      * cbn. intros e'. rewrite lookup_insert_eq. by intros [= <-].
      * intros i. by rewrite R7, lookup_delete_eq.
    + intros s. cbn. rewrite list_elem_of_singleton. split.
      * intros [x Hx]. apply lookup_singleton_Some in Hx as [<- _]. done.
      * intros ->. eexists. apply lookup_singleton_eq.
    + intros s h bs b [_ [= _ <-]]%lookup_singleton_Some. set_solver.
    + intros s Hs Hle. change (next_segment_seq index) with 1 in Hle. destruct (Hnone s Hs) as [N1 N2].
      assert (data_segment_path p s <> data_segment_path p 0) as Hne.
      { intros E. pose proof (lo_inj p Hlo (SData s) (SData 0) Hs H0 E) as [= ->]. lia. }
      rewrite R7, lookup_delete_ne by done. split; [|done]. cbn. rewrite lookup_insert_ne, F6 by done.
      cbn. rewrite F3, F2, F1. exact N1.
  - split; [unfold w7; rewrite F6; unfold w5, w4; rewrite F3, F2, F1; done|].
    exists (path_files (data_segment_path p 0) ++ path_files (segment_index_file p)). split.
    + eapply moved_trans; [eapply moved_weaken; [exact M1|set_solver]|].
      eapply moved_trans; [eapply moved_weaken; [exact M2|set_solver]|]. apply moved_same; [apply M2|done|done].
    + intros t Ht. assert (slot_ok t) as Hok by (by destruct t). rewrite not_elem_of_app. split.
      * apply (slot_apart p t (SData 0)); try done. intros ->. exact Ht.
      * apply (slot_apart p t SIndex); try done. intros ->. exact Ht.
Qed.

Lemma reset_spec w d c :
  no_faults -> let p := paths_in d in cp_state w (metadata_file p) c -> segments_listed w p ->
  exists w' c' e, reset_layout_for_overwrite p w = (Ok tt, w') /\ files_ok w' p (empty_store c' e) /\
    flags c' = Clean /\ w_pending w' !! metadata_file p = None.
Proof.
  intros Hn p HC Hlist. pose proof (layout_paths_ok d) as Hlo. fold p in Hlo. unfold reset_layout_for_overwrite.
  assert (forall t, slot_ok t -> with_extension_tmp (slot_path p t) <> slot_path p t) as Ht
    by (intros t Hok; by apply (lo_tmp p Hlo t t)).
  destruct (load_checkpoint_spec w _ c Hn HC) as (w1 & E1 & O1 & A1 & S1 & HC1).
  rewrite (bindM_run _ _ _ _ _ E1).
  destruct (persist_checkpoint_spec w1 (metadata_file p) (marked Dirty c) Hn) as (w2 & E2 & O2 & Fr2 & HC2);
    [apply (cp_file _ _ _ HC1)|by apply (Ht SMeta)|apply marked_wf, HC|].
  rewrite (bindM_run _ _ _ _ _ E2).
  destruct (persist_blk_empty w2 (blk_map_file p) Hn) as (w3 & E3 & HB3 & F3 & M3); [apply HC2|by apply (Ht SBlk)|].
  rewrite (bindM_run _ _ _ _ _ E3).
  destruct (persist_lookup_empty w3 (lookup_file p) Hn) as (w4 & E4 & HL4 & F4 & M4); [apply HB3|by apply (Ht SLookup)|].
  rewrite (bindM_run _ _ _ _ _ E4).
  destruct (write_log_moved w4 (reclaim_file p) Reclaim 4 (epoch (marked Dirty c)) [] Hn) as (w5 & E5 & F5 & M5 & _);
    [apply HL4|by apply (Ht SReclaim)|unfold u64_ok; lia|apply (marked_wf Dirty c), HC|by apply Forall_nil|by vm_compute|].
  rewrite (bindM_run _ _ _ _ _ E5).
  destruct (persist_dedup_empty w5 (dedup_file p) Hn) as (w6 & dh & dp & E6 & HS6 & F6 & M6);
    [apply M5|by apply (Ht SDedup)|].
  rewrite (bindM_run _ _ _ _ _ E6).
  destruct (remove_segments_spec w6 d Hn ltac:(apply HS6)) as (w7 & E7 & F7 & (ps7 & M7 & Hps7) & Hgone & Hd7 & Hr7).
  fold p in E7, Hps7, Hgone. rewrite (bindM_run _ _ _ _ _ E7).
  assert (w_data w6 = w_data w /\ w_readers w6 = w_readers w) as [D6 R6]
    by (split; rewrite F6, F5, F4, F3, O2, O1; done).
  assert (forall n, u64_ok n -> keeps (data_segment_path p n) w w6) as K6.
  { intros n Hu. assert (forall t, meta_slot t -> data_segment_path p n ∉ slot_files p t) as Ha.
    { intros t Hm. apply (slot_apart p (SData n) t); [done|done|by destruct t|]. intros <-. exact Hm. }
    eapply keeps_trans; [by apply (moved_same [] w w1); [apply (cp_file _ _ _ HC)|..|set_solver]|].
    eapply keeps_trans.
    { eapply spares_run; [|exact E2]. specialize (Ha SMeta I). unfold slot_files in Ha. cbn [slot_path] in Ha.
      apply spares_persist_checkpoint; set_solver. }
    eapply keeps_trans; [apply M3, (Ha SBlk I)|]. eapply keeps_trans; [apply M4, (Ha SLookup I)|].
    eapply keeps_trans; [apply M5, (Ha SReclaim I)|]. apply M6, (Ha SDedup I). }
  destruct (fresh_segments_spec w7 p (epoch (marked Dirty c)) Hn Hlo) as (w8 & E8 & HI8 & HG8 & T8);
    [apply M7|apply (marked_wf Dirty c), HC| |].
  { intros n Hu. destruct (K6 n Hu) as [Kn _]. specialize (Hlist n Hu). rewrite <- D6, <- R6 in Hlist.
    destruct (w_data w6 !! data_segment_path p n) as [x|] eqn:Ed.
    { destruct Hlist as [H1 H2]; [left; eauto|]. apply Hgone; [unfold u64_ok in Hu; lia|]. by rewrite Kn. }
    destruct (w_readers w6 !! data_segment_path p n) as [x|] eqn:Er; [|auto].
    destruct Hlist as [H1 H2]; [right; eauto|]. apply Hgone; [unfold u64_ok in Hu; lia|]. by rewrite Kn. }
  rewrite (bindM_run _ _ _ _ _ E8). destruct T8 as [F8 (ps8 & M8 & Hps8)].
  set (c' := marked Clean (marked Dirty c) <| active_blk_map_root := 2 |> <| active_lookup_root := 3 |>).
  assert (wf_checkpoint c') as Hc'.
  { destruct (marked_wf Clean (marked Dirty c)) as (? & ? & _); [apply marked_wf, HC|].
    unfold wf_checkpoint. split_and!; [done|done|unfold u64_ok; cbn; lia..]. }
  destruct (persist_checkpoint_spec w8 (metadata_file p) c' Hn) as (w9 & E9 & O9 & Fr9 & HC9);
    [apply M8|by apply (Ht SMeta)|done|].
  rewrite (bindM_run _ _ _ _ _ E9).
  assert (moved (slot_files p SMeta) w8 w9) as M9.
  { apply (moved_run _ _ _ _ _ E9); [done|]. intros q Hq. unfold slot_files in Hq. cbn [slot_path] in Hq.
    apply spares_persist_checkpoint; set_solver. }
  unfold clear_pending_writes, modifyM. eexists _, c', (epoch (marked Dirty c)). split; [reflexivity|].
  split_and!; [|done|cbn; apply lookup_delete_eq]. apply files_pending; [done|].
  assert (forall t u, meta_slot t -> meta_slot u -> t <> u -> slot_path p t ∉ slot_files p u) as Ha.
  { intros t u H1 H2 Hne. apply slot_apart; [done|by destruct t|by destruct u|done]. }
  split; cbn [st_checkpoint st_blk_seq st_blk st_lookup_seq st_lookup st_index st_segs empty_store].
  - done.
  - eapply (blk_state_moved w8); [|exact M9|by apply (Ha SBlk SMeta)|by rewrite O9].
    eapply (blk_state_moved w7); [|exact M8|by apply (Hps8 SBlk)|by rewrite F8].
    eapply (blk_state_moved w6); [|exact M7|by apply (Hps7 SBlk); left|by rewrite F7].
    eapply (blk_state_moved w5); [|exact M6|by apply (Ha SBlk SDedup)|by rewrite F6].
    eapply (blk_state_moved w4); [|exact M5|by apply (Ha SBlk SReclaim)|by rewrite F5].
    eapply (blk_state_moved w3); [exact HB3|exact M4|by apply (Ha SBlk SLookup)|by rewrite F4].
  - eapply (lookup_state_moved w8); [|exact M9|by apply (Ha SLookup SMeta)|by rewrite O9].
    eapply (lookup_state_moved w7); [|exact M8|by apply (Hps8 SLookup)|by rewrite F8].
    eapply (lookup_state_moved w6); [|exact M7|by apply (Hps7 SLookup); left|by rewrite F7].
    eapply (lookup_state_moved w5); [|exact M6|by apply (Ha SLookup SDedup)|by rewrite F6].
    eapply (lookup_state_moved w4); [exact HL4|exact M5|by apply (Ha SLookup SReclaim)|by rewrite F5].
  - eapply (index_state_moved w8); [exact HI8|exact M9|by apply (slot_apart p SIndex SMeta)|by rewrite O9].
  - eapply (segs_ok_moved w8); [apply HI8|exact HG8|exact M9| |by rewrite O9|by rewrite O9].
    intros n Hu. by apply (slot_apart p (SData n) SMeta).
  - exists dh, dp. eapply (seg_file_moved w8); [|exact M9|by apply (Ha SDedup SMeta)].
    eapply (seg_file_moved w7); [|exact M8|by apply (Hps8 SDedup)].
    eapply (seg_file_moved w6); [exact HS6|exact M7|by apply (Hps7 SDedup); left].
Qed.

(** Nothing is readable in an empty store, and its parts agree. *)
Lemma empty_links c e : links (empty_store c e).
Proof. split; try done; split; done. Qed.
Lemma empty_holds c e b x : ~ holds (empty_store c e) b x.
Proof. intros (r & payload & [Hr _] & _). done. Qed.
End Laws.
