(* ===== verification/BlockStore.v ===== *)
(** * The block store refines a tape

    The abstract tape maps blocks to the extent that covers them. Reading,
    writing and erasing a cartridge do on the files what they mean on the tape. *)

From S2P Require Import Prelude Bytes Text Errors Fs Layout TapeState Compression Records.
From S2P Require Import World Crc Segment Footprint Checkpoint Logs BlkMap MapLookup Dedup Reclaim.
From S2P Require Import SegmentIndex Slots IndexState DataBlobs BlobStore DataPath Store Reset.

(** The start and the payload of the extent of each block. *)
Definition tape : Type := Z -> option (Z * list Z).
Definition blank : tape := fun _ => None.
Definition tape_write (t : tape) (start : Z) (payload : list Z) : tape :=
  fun b => if decide (start <= b < start + Zlen payload) then Some (start, payload) else t b.
Definition on_tape (x : LogicalReadResult) : Z * list Z := (rd_logical_start x, rd_payload x).

Section Refinement.
Context `{HOST : Host} `{ENV : Environ} `{CL : Crc32cLaws} `{HOL : HashOrderLaws} `{BL : BlockCodecsLaws}
  `{B3 : Blake3}.

(** A store shows a tape: a block holds an extent exactly where the tape does. *)
Definition shows (s : Store) (t : tape) : Prop :=
  forall b e, t b = Some e <-> exists x, holds s b x /\ on_tape x = e.

(** The library compressors produce bytes, and zlib produces some. *)
Class BlockCodecsOutput : Prop := {
  lz4_bytes p : bytes_ok p -> bytes_ok (lz4_compress_prepend_size p);
  zlib_bytes p : bytes_ok p -> bytes_ok (zlib_compress p);
  zlib_nonempty p : p <> [] -> zlib_compress p <> []
}.

Lemma keep_smaller_form preferred enc payload :
  bytes_ok payload -> bytes_ok enc -> payload <> [] -> enc <> [] -> Zlen payload <= MAX_DECOMPRESSED_PAYLOAD_LEN ->
  preferred <> CNone -> decompress_payload preferred enc (Zlen payload) = Ok payload ->
  compress_payload preferred payload = keep_if_smaller preferred enc payload ->
  exists codec encoded, stored_form preferred payload codec encoded.
Proof.
  intros Hb He Hp Hen Hm Hc Hdec E. unfold keep_if_smaller in E. case_decide as Hl.
  - exists CNone, payload. split; [|done| |done|done].
    + exists false. unfold prepare_payload_for_write. destruct preferred; [done|..]; by rewrite E.
    + unfold Zlen. destruct payload; [done|]. cbn. lia.
  - exists preferred, enc. split; [|done| |done|done].
    + exists true. unfold prepare_payload_for_write. destruct preferred; [done|..]; by rewrite E.
    + unfold Zlen. destruct enc; [done|]. cbn in *. lia.
Qed.

(** Whatever codec is preferred, a payload has a stored form. *)
Lemma stored_form_exists `{!BlockCodecsOutput} preferred payload :
  bytes_ok payload -> payload <> [] -> Zlen payload <= MAX_DECOMPRESSED_PAYLOAD_LEN \/ preferred = CNone ->
  exists codec encoded, stored_form preferred payload codec encoded.
Proof.
  intros Hb Hne Hm. destruct (decide (preferred = CNone)) as [->|Hc].
  { exists CNone, payload. split; [by exists false|done| |done|done].
    unfold Zlen. destruct payload; [done|]. cbn. lia. }
  destruct Hm as [Hm|]; [|done]. pose proof (decompress_encoded preferred payload Hm) as Hd.
  assert (Zlen payload <= U32_MAX) as Hu by (unfold MAX_DECOMPRESSED_PAYLOAD_LEN in Hm; lia).
  destruct preferred; [done|..].
  - eapply (keep_smaller_form Rle (rle_encode payload)); try done; [by apply rle_encode_loop_ok|].
    intros E. unfold rle_encode in E. destruct payload; [done|]. done.
  - eapply (keep_smaller_form Lz4 (lz4_compress_prepend_size payload)); try done; [by apply lz4_bytes|].
    intros E. pose proof (lz4_size_header payload Hu) as Hh. rewrite E in Hh. done.
  - eapply (keep_smaller_form Zlib (zlib_compress payload)); try done; [by apply zlib_bytes|by apply zlib_nonempty].
Qed.
(** ** What the operations do to the tape *)
Lemma read_shows w p s t b :
  no_faults -> layout_ok p -> files_ok w p s -> links s -> store_budget s -> shows s t ->
  exists res w', read_logical_block p b w = (Ok res, w') /\ on_tape <$> res = t b /\ files_ok w' p s /\
    (forall x, res = Some x -> holds s b x).
Proof.
  intros Hn Hlo HF HL Hb Hs. destruct (read_block_spec w p s b Hn Hlo HF HL Hb) as (res & w' & E & HF' & Hres).
  exists res, w'. split_and!; [done| |done|naive_solver]. destruct res as [x|]; cbn.
  - symmetry. apply Hs. exists x. split; [by apply Hres|done].
  - destruct (t b) as [e|] eqn:Et; [|done]. apply Hs in Et as (x & Hx & _). apply Hres in Hx. done.
Qed.

Lemma write_shows `{!BlockCodecsOutput} w p s t start payload marks options :
  no_faults -> layout_ok p -> files_ok w p s -> links s -> shows s t -> dedup_enabled options = false ->
  bytes_ok payload -> u32_ok marks ->
  Zlen payload <= MAX_DECOMPRESSED_PAYLOAD_LEN \/ preferred_codec options = CNone ->
  write_room s start (Zlen payload) -> (forall b, start <= b < start + Zlen payload -> t b = None) ->
  exists rep w' s', write_logical_block p start payload marks options None w = (Ok rep, w') /\
    files_ok w' p s' /\ links s' /\ shows s' (tape_write t start payload) /\
    Zlen (st_blk s') = Zlen (st_blk s) + 1 /\ Zlen (st_lookup s') = Zlen (st_lookup s) + 1.
Proof.
  intros Hn Hlo HF HL Hs Hd Hb Hm Hmax HR Hfree.
  assert (payload <> []) as Hne by (intros ->; destruct (rm_size _ _ _ HR) as [Hz _]; unfold Zlen in Hz; cbn in Hz; lia).
  destruct (stored_form_exists (preferred_codec options) payload Hb Hne Hmax) as (codec & enc & HSD).
  destruct (write_block_spec w p s start payload marks options codec enc Hn Hlo HF HL Hd Hb Hm HSD HR)
    as (rep & w' & s' & r & lk & E & HF' & HA & _ & R1 & R2 & _ & _).
  { intros b x Hin Hx. assert (t b = Some (on_tape x)) as Ht by (apply Hs; eauto). by rewrite Hfree in Ht. }
  pose proof (ad_end _ _ _ _ _ HA) as Hend. pose proof (ad_active _ _ _ _ _ HA) as Ha.
  assert (forall b, covers b r = true <-> start <= b < start + Zlen payload) as Hc.
  { intros b. rewrite <- Is_true_true, covers_spec. unfold logical_end, sat_add64. rewrite R1, R2 in *. naive_solver lia. }
  assert (forall b x, holds s' b x <-> if covers b r then x = mkRead (record_id r) (logical_start r) (logical_len r)
    (dedup_entry_id r) (compression r) payload else holds s b x) as Hx by (intros b x; by eapply adds_holds).
  exists rep, w', s'. split_and!; [done|done|by eapply adds_links| |apply HA..].
  intros b e. unfold tape_write. case_decide as Hin.
  - specialize (Hx b). rewrite (proj2 (Hc b) Hin) in Hx. split.
    + intros [= <-]. eexists. split; [by apply Hx|]. unfold on_tape. cbn. by rewrite R1.
    + intros (x & ->%Hx & <-). unfold on_tape. cbn. by rewrite R1.
  - specialize (Hx b). specialize (Hc b). destruct (covers b r); [by destruct Hin; apply Hc|].
    rewrite (Hs b e). by setoid_rewrite Hx.
Qed.

(** Every codec checks the length of what it delivers. *)
Lemma decompress_len codec bytes n payload : decompress_payload codec bytes n = Ok payload -> Zlen payload = n.
Proof.
  unfold decompress_payload, check_len. intros (_ & _ & H)%rbind_Ok. destruct codec.
  - case_decide; [done|]. injection H as <-. lia.
  - apply rbind_Ok in H as (out & _ & H). case_decide; [done|]. injection H as <-. lia.
  - apply rbind_Ok in H as (n' & _ & H). case_decide; [done|]. apply rbind_Ok in H as (out & _ & H).
    case_decide; [done|]. injection H as <-. lia.
  - apply rbind_Ok in H as (out & _ & H). case_decide; [done|]. injection H as <-. lia.
Qed.
Lemma holds_len s b x : holds s b x -> rd_logical_len x = Zlen (rd_payload x).
Proof.
  intros (r & payload & _ & (blob & _ & _ & He & _) & ->). cbn. unfold extent_payload in He.
  case_decide; [|symmetry; by eapply decompress_len]. case_decide; [done|]. injection He as <-. lia.
Qed.

(** C2: reading a block of a cartridge gives what the tape shows there: the
    extent that covers the block, or nothing; the files keep their meaning. *)
Theorem read_refines w p s t b :
  no_faults -> layout_ok p -> files_ok w p s -> links s -> store_budget s -> shows s t ->
  exists res w', read_logical_block p b w = (Ok res, w') /\ on_tape <$> res = t b /\ files_ok w' p s.
Proof. intros Hn Hlo HF HL Hb Hs. destruct (read_shows w p s t b Hn Hlo HF HL Hb Hs) as (res & w' & E & H & HF' & _). eauto. Qed.



(** C8: erasing a cartridge blanks it: whatever its files held, once the
    checkpoint page is readable the erase succeeds, marks the layout clean and
    leaves files that show the blank tape. *)
Theorem erase_refines w d c :
  no_faults -> cp_state w (metadata_file (paths_in d)) c -> segments_listed w (paths_in d) ->
  exists w' s', reset_layout_for_overwrite (paths_in d) w = (Ok tt, w') /\
    files_ok w' (paths_in d) s' /\ links s' /\ shows s' blank /\ flags (st_checkpoint s') = Clean.
Proof.
  intros Hn HC Hl. destruct (reset_spec w d c Hn HC Hl) as (w' & c' & e & E & HF & Hc & _).
  exists w', (empty_store c' e). split_and!; [done|done|apply empty_links| |done].
  intros b x. split; [done|]. intros (y & Hy & _). by apply empty_holds in Hy.
Qed.
End Refinement.

(** ** A cartridge with one extent *)
Section Format.
Context `{HOST : Host} `{CL : Crc32cLaws}.

(** Files written one after the other. *)
Definition SegFile : Type := string * SegmentKind * Z * Z * list Z.
Definition file_path (f : SegFile) : string := f.1.1.1.1.
Definition format_files (l : list SegFile) : M World StorageError unit :=
  forM l (fun '(path, k, id, seq, payload) => write_segment_file path k id seq payload).
Definition format_ok (l : list SegFile) : Prop :=
  Forall (fun '(path, k, id, seq, payload) =>
    u64_ok id /\ u64_ok seq /\ bytes_ok payload /\ 96 + Zlen payload <= U64_MAX) l /\
  NoDup (file_path <$> l) /\
  (forall f g, f ∈ l -> g ∈ l -> with_extension_tmp (file_path g) <> file_path f).

Lemma format_spec : forall l w,
  no_faults -> wf_fs (w_fs w) -> format_ok l ->
  exists w', format_files l w = (Ok tt, w') /\ moved (l ≫= fun f => path_files (file_path f)) w w' /\
    forall path k id seq payload, (path, k, id, seq, payload) ∈ l -> log_file w' k path id seq payload.
Proof.
  induction l as [|[[[[path k] id] seq] payload] l IH]; intros w Hn Hw (Hf & Hnd & Ht).
  { exists w. split_and!; [done|by apply moved_same|set_solver]. }
  apply Forall_cons in Hf as [(H1 & H2 & H3 & H4) Hf]. cbn in Hnd. apply NoDup_cons in Hnd as [Hx Hnd].
  assert (with_extension_tmp path <> path) as Hp by (apply (Ht (path, k, id, seq, payload) (path, k, id, seq, payload)); set_solver).
  destruct (write_log_moved w path k id seq payload Hn Hw Hp H1 H2 H3 H4) as (w1 & E1 & F1 & M1 & HL1).
  destruct (IH w1 Hn) as (w2 & E2 & M2 & HL2); [apply HL1| |].
  { split_and!; [done|done|]. intros f g Hf' Hg. apply Ht; set_solver. }
  exists w2. split_and!.
  - unfold format_files. cbn [forM]. by rewrite (bindM_run _ _ _ _ _ E1).
  - cbn. eapply moved_trans; [eapply moved_weaken; [exact M1|set_solver]|eapply moved_weaken; [exact M2|set_solver]].
  - intros path' k' id' seq' payload' [E|Hin]%elem_of_cons; [|by apply HL2].
    injection E as -> -> -> -> ->. eapply log_file_moved; [exact HL1|exact M2|].
    rewrite list_elem_of_bind. intros (f & Hf' & Hfl). unfold path_files in Hf'.
    apply elem_of_cons in Hf' as [E|E%list_elem_of_singleton].
    + destruct (Ht (path, k, id, seq, payload) f); [set_solver|set_solver|done].
    + apply Hx. rewrite E. by apply list_elem_of_fmap_2.
Qed.
End Format.

Section Demo.
Definition demo_blake : Blake3 := fun _ => replicate 32 0.
#[local] Existing Instances quiet_host no_env bitwise_crc32c tree_order identity_codecs demo_blake.

(** A file system freshly written, and a process that finds it. *)
Definition formatted (l : list SegFile) : World :=
  fresh_process (w_fs (snd (format_files l (fresh_process empty_fs)))).
#[export] Instance file_fits_dec (f : SegFile) : Decision (let '(path, k, id, seq, payload) := f in
  u64_ok id /\ u64_ok seq /\ bytes_ok payload /\ 96 + Zlen payload <= U64_MAX).
Proof. destruct f as [[[[? ?] ?] ?] ?]. apply _. Defined.
Lemma format_checked l :
  bool_decide (Forall (fun '(path, k, id, seq, payload) =>
    u64_ok id /\ u64_ok seq /\ bytes_ok payload /\ 96 + Zlen payload <= U64_MAX) l) &&
  bool_decide (NoDup (file_path <$> l)) &&
  forallb (fun f => forallb (fun g => bool_decide (with_extension_tmp (file_path g) <> file_path f)) l) l = true ->
  format_ok l.
Proof.
  intros [[H1%bool_decide_eq_true H2%bool_decide_eq_true]%andb_prop H]%andb_prop. split_and!; [done|done|].
  rewrite forallb_forall in H. intros f g Hf%list_elem_of_In Hg%list_elem_of_In.
  specialize (H f Hf). rewrite forallb_forall in H. specialize (H g Hg). by apply bool_decide_eq_true in H.
Qed.
Lemma formatted_file l path k id seq payload :
  format_ok l -> (path, k, id, seq, payload) ∈ l -> log_file (formatted l) k path id seq payload.
Proof.
  intros Hl Hin. destruct (format_spec l (fresh_process empty_fs) quiet_no_faults wf_empty_fs Hl)
    as (w' & E & _ & HL). specialize (HL _ _ _ _ _ Hin). unfold formatted. rewrite E. cbn [snd].
  destruct HL as [H1 H2 H3 H4 H5 H6 H7]. by split.
Qed.

Definition demo_cartridge : LayoutPaths := paths_in "/pool/c1".
Definition demo_blob : DataBlob :=
  mkBlob 1 CNone 3 3 (blob_integrity_checksum 1 3 [7; 8; 9]) [7; 8; 9].
Definition demo_store : Store :=
  mkStore (mkCheckpoint 1 1 2 3 Clean) 1 [mkBlk 1 0 3 0 1 0 BActive 0 CNone 3 0 PcNone]
    1 [mkLookup 1 0 2 1 1] (mkSegmentIndex 4096 [mkDescriptor 0 31 1 1 SActive CNone 3] 1)
    {[0 := (header_new Data 1 1 (blobs_payload [demo_blob]), [demo_blob])]}.
Definition demo_files : list SegFile :=
  [(metadata_file demo_cartridge, Metadata, 1, 1, checkpoint_encode (st_checkpoint demo_store));
   (blk_map_file demo_cartridge, BlkMap, 2, 1, BlkMap.encode_log_payload (st_blk demo_store));
   (lookup_file demo_cartridge, Lookup, 3, 1, MapLookup.encode_log_payload (st_lookup demo_store));
   (dedup_file demo_cartridge, Layout.Dedup, 5, 0, []);
   (segment_index_file demo_cartridge, SegmentIndex, 7, 1, index_encode (st_index demo_store));
   (data_segment_path demo_cartridge 0, Data, 1, 1, blobs_payload [demo_blob])].
(** A process that finds these files. *)
Definition demo_mounted : World := formatted demo_files.

Lemma demo_format_ok : format_ok demo_files.
Proof. apply format_checked. by vm_compute. Qed.
Lemma demo_file path k id seq payload :
  (path, k, id, seq, payload) ∈ demo_files -> log_file demo_mounted k path id seq payload.
Proof. apply formatted_file, demo_format_ok. Qed.

Lemma demo_index_ok : wf_index (st_index demo_store) /\ seg_inv (st_index demo_store).
Proof.
  split; split; cbn [st_index demo_store max_segment_size next_segment_seq descriptors].
  - unfold u32_ok. lia.
  - unfold u64_ok. lia.
  - apply Forall_singleton. unfold wf_descriptor, u32_ok, u64_ok. cbn. lia.
  - unfold MAX_MAINTENANCE_METADATA_RECORDS, Zlen. cbn. lia.
  - done.
  - apply NoDup_singleton.
  - intros x ->%list_elem_of_singleton. cbn. lia.
Qed.
Lemma demo_blob_ok : wf_blob demo_blob.
Proof.
  unfold wf_blob, demo_blob, u64_ok, u32_ok. cbn [db_id db_codec db_logical_len db_stored_len db_checksum db_bytes].
  split_and!; try lia; try reflexivity. apply (bool_decide_unpack (Forall u8_ok _)). by vm_compute.
Qed.

Lemma demo_segs q h bs : st_segs demo_store !! q = Some (h, bs) ->
  q = 0 /\ h = header_new Data 1 1 (blobs_payload [demo_blob]) /\ bs = [demo_blob].
Proof. unfold demo_store. cbn [st_segs]. by intros [<- [= <- <-]]%lookup_singleton_Some. Qed.

Lemma demo_segs_ok : segs_ok demo_mounted demo_cartridge (st_index demo_store) (st_segs demo_store).
Proof.
  split.
  - intros s h bs (-> & -> & ->)%demo_segs.
    assert (log_file demo_mounted Data (data_segment_path demo_cartridge 0) 1 1 (blobs_payload [demo_blob])) as HL
      by (apply demo_file; unfold demo_files; set_solver).
    apply log_file_seg in HL as (HS & _ & _).
    split; [exact (seg_file_blobs _ _ _ _ HS)|done|apply Forall_singleton, demo_blob_ok| |done|done].
    constructor; [constructor|apply Forall_nil; done].
  - intros s. cbn [st_index demo_store descriptors fmap list_fmap segment_seq]. rewrite list_elem_of_singleton. split.
    + intros [[h bs] Hx]. by apply demo_segs in Hx as [-> _].
    + intros ->. eexists. apply lookup_singleton_eq.
  - intros s h bs b (_ & _ & ->)%demo_segs ->%list_elem_of_singleton. vm_compute. congruence.
  - done.
Qed.

Lemma demo_files_ok : files_ok demo_mounted demo_cartridge demo_store.
Proof.
  destruct demo_index_ok as [Hwi Hii]. split.
  - split; [apply demo_file; unfold demo_files; set_solver| |done].
    unfold wf_checkpoint, u64_ok. cbn. lia.
  - split; [apply demo_file; unfold demo_files; set_solver| | |done].
    + apply Forall_singleton. unfold wf_blk, u64_ok, u32_ok. cbn. split_and!; try lia.
    + intros r ->%list_elem_of_singleton. cbn. lia.
  - split; [apply demo_file; unfold demo_files; set_solver| | |done].
    + apply Forall_singleton. unfold wf_lookup, u64_ok. cbn. lia.
    + intros r ->%list_elem_of_singleton. cbn. lia.
  - split; [done|done|]. exists (st_index demo_store). split_and!; [|done|done].
    split; [apply demo_file; unfold demo_files; set_solver|done].
  - apply demo_segs_ok.
  - assert (log_file demo_mounted Layout.Dedup (dedup_file demo_cartridge) 5 0 []) as HL
      by (apply demo_file; unfold demo_files; set_solver).
    apply log_file_seg in HL as (HS & _ & _). eauto.
Qed.

Lemma demo_extents i r : extents demo_store !! i = Some r -> i = 1 /\ r = mkBlk 1 0 3 0 1 0 BActive 0 CNone 3 0 PcNone.
Proof. unfold extents, replay. cbn. by intros [<- <-]%lookup_singleton_Some. Qed.
Lemma demo_ranges i lk : ranges demo_store !! i = Some lk -> i = 1 /\ lk = mkLookup 1 0 2 1 1.
Proof. unfold ranges, replay. cbn. by intros [<- <-]%lookup_singleton_Some. Qed.
Lemma demo_extent_holds : extent_holds demo_store (mkBlk 1 0 3 0 1 0 BActive 0 CNone 3 0 PcNone) [7; 8; 9].
Proof.
  exists demo_blob. split_and!; [|done|by vm_compute|by vm_compute|done].
  eexists _, _. split; [apply lookup_singleton_eq|set_solver].
Qed.

Lemma demo_links : links demo_store.
Proof.
  split.
  - split; [intros i r [-> ->]%demo_extents _; by vm_compute|].
    intros i j r s [-> _]%demo_extents [-> _]%demo_extents. done.
  - split; [intros i r [-> ->]%demo_ranges; cbn; lia|]. intros i j r s [-> _]%demo_ranges [-> _]%demo_ranges. done.
  - intros i r [-> ->]%demo_extents _. cbn. lia.
  - intros i r [-> ->]%demo_extents _. exists 1, (mkLookup 1 0 2 1 1). split; [done|]. by vm_compute.
  - intros j lk [-> ->]%demo_ranges. eexists 1, _. split; [reflexivity|]. split; by vm_compute.
  - intros i r [-> ->]%demo_extents _. eexists. apply demo_extent_holds.
Qed.

Lemma demo_write_room start : 0 <= start <= 1000 -> write_room demo_store start 4.
Proof.
  intros Hs. split.
  - split.
    + by vm_compute.
    + apply demo_links.
    + intros x ->%list_elem_of_singleton. cbn. lia.
    + by vm_compute.
    + cbn. lia.
  - by vm_compute.
  - intros x ->%list_elem_of_singleton. cbn. lia.
  - by vm_compute.
  - cbn. lia.
  - cbn. lia.
  - by vm_compute.
  - by vm_compute.
  - intros q h bs (_ & -> & _)%demo_segs. by vm_compute.
  - lia.
  - lia.
Qed.
Definition demo_tape : tape := tape_write blank 0 [7; 8; 9].
Lemma demo_shows : shows demo_store demo_tape.
Proof.
  intros b e. unfold demo_tape, tape_write, blank. change (Zlen [7; 8; 9]) with 3. split.
  - case_decide as Hb; [|done]. intros [= <-]. eexists. split.
    + eexists _, _. split; [|split; [apply demo_extent_holds|reflexivity]]. split; [reflexivity|].
      apply covers_spec. split; [done|]. split; [change (0 <= b)|change (b < 3)]; lia.
    + done.
  - intros (x & (r & py & [Hr Hc] & Hp & ->) & <-). apply demo_extents in Hr as [_ ->].
    apply covers_spec in Hc as (_ & H1 & H2). change (0 <= b) in H1. change (b < 3) in H2. rewrite decide_True by lia.
    unfold on_tape. cbn. do 2 f_equal.
    eapply extent_holds_unique; [|apply demo_extent_holds|exact Hp]. apply (segs_ok_nodup _ _ _ _ demo_segs_ok).
Qed.

Lemma identity_codecs_output : BlockCodecsOutput.
Proof.
  split; try done. intros p Hp. unfold lz4_compress_prepend_size. cbn. apply Forall_app.
  split; [apply to_le_ok|done].
Qed.
#[local] Existing Instance identity_codecs_output.
Lemma demo_budget : store_budget demo_store.
Proof. split; by vm_compute. Qed.
Lemma demo_new_bytes : bytes_ok [1; 2; 3; 4].
Proof. apply (bool_decide_unpack (Forall u8_ok _)). by vm_compute. Qed.
Definition demo_options (codec : CompressionCodec) (sync : bool) : WriteOptions := mkOptions false codec sync true.

Lemma read_refines_witness :
  exists res w', read_logical_block demo_cartridge 1 demo_mounted = (Ok res, w') /\
    on_tape <$> res = Some (0, [7; 8; 9]).
Proof.
  destruct (read_refines (HOL := tree_order_laws) (CL := bitwise_crc32c_laws) demo_mounted demo_cartridge demo_store demo_tape 1)
    as (res & w' & E & Hres & _).
  - exact quiet_no_faults.
  - apply layout_paths_ok.
  - exact demo_files_ok.
  - exact demo_links.
  - exact demo_budget.
  - exact demo_shows.
  - exists res, w'. split; [exact E|exact Hres].
Defined.



Lemma erase_refines_witness :
  exists w' s', reset_layout_for_overwrite demo_cartridge demo_mounted = (Ok tt, w') /\
    files_ok w' demo_cartridge s' /\ shows s' blank.
Proof.
  destruct (erase_refines (HOL := tree_order_laws) (CL := bitwise_crc32c_laws) demo_mounted "/pool/c1"
    (st_checkpoint demo_store)) as (w' & s' & E & HF & _ & Hs & _).
  - exact quiet_no_faults.
  - apply demo_files_ok.
  - intros n _ [[x Hx]|[x Hx]]; exfalso; unfold demo_mounted, formatted, fresh_process in Hx; cbn [w_data w_readers] in Hx;
      rewrite lookup_empty in Hx; discriminate Hx.
  - exists w', s'. split; [exact E|split; [exact HF|exact Hs]].
Defined.
End Demo.
