(* ===== verification/Compaction.v ===== *)
(** * Segment compaction (storage/compaction.rs)

    The live blobs of a sealed segment are decoded, encoded again with another
    codec and appended to the active segment; the extents and the dedup entries
    follow them, and the source segment is removed. *)

From S2P Require Import Prelude Bytes Text Errors Fs Layout TapeState Compression Records.
From S2P Require Import World Crc Segment Footprint Checkpoint Logs BlkMap MapLookup Dedup Reclaim.
From S2P Require Import SegmentIndex Slots IndexState DataBlobs BlobStore DataPath.

Record CompactionReport : Type := mkCompaction {
  source_seq : Z;
  destination_seq : Z;
  blobs_moved : Z;
  bytes_moved : Z;
  bytes_reclaimed : Z;
  codec_upgrades : Z
}.

(** The value of [moved_by_blob]: segment, identifier, codec and stored length
    of the copy. *)
Definition Moved : Type := Z * Z * CompressionCodec * Z.
Record MoveState : Type := mkMove {
  mv_blobs : gmap (Z * Z) Moved;
  mv_records : list BlkMapRecord;
  mv_bytes : Z;
  mv_upgrades : Z;
  mv_destination : Z
}.
#[export] Instance eta_MoveState : Eta MoveState := fun m =>
  mkMove (mv_blobs m) (mv_records m) (mv_bytes m) (mv_upgrades m) (mv_destination m).

Definition blob_key (r : BlkMapRecord) : Z * Z := (physical_segment_id r, physical_offset r).

(** The extent of a block whose blob was moved; its identifier is given later. *)
Definition moved_record (r : BlkMapRecord) (m : Moved) : BlkMapRecord :=
  let '(seq, id, codec, len) := m in
  mkBlk 0 (logical_start r) (logical_len r) seq id (filemark_count r) BActive (dedup_entry_id r) codec len
    (payload_checksum r) (payload_checksum_algorithm r).

(** [iter_mut().find(..)] on the entries. *)
Fixpoint move_entry (id : Z) (m : Moved) (es : list DedupIndexEntry) : option (list DedupIndexEntry) :=
  match es with
  | [] => None
  | e :: es' =>
      if decide (entry_id e = id) then
        let '(_, blob, codec, len) := m in
        Some (e <| stored_blob_id := blob |> <| d_compression := codec |> <| stored_len := len |> :: es')
      else (fun l => e :: l) <$> move_entry id m es'
  end.
Fixpoint move_entries (blobs : gmap (Z * Z) Moved) (rs : list BlkMapRecord) (es : list DedupIndexEntry)
  (changed : bool) : list DedupIndexEntry * bool :=
  match rs with
  | [] => (es, changed)
  | r :: rs' =>
      if decide (dedup_entry_id r = 0) then move_entries blobs rs' es changed
      else match blobs !! blob_key r with
           | None => move_entries blobs rs' es changed
           | Some m =>
               match move_entry (dedup_entry_id r) m es with
               | Some es' => move_entries blobs rs' es' true
               | None => move_entries blobs rs' es changed
               end
           end
  end.

(** Identifiers for the moved extents, from the next free one. *)
Fixpoint number_from (next : Z) (rs : list BlkMapRecord) : list BlkMapRecord :=
  match rs with
  | [] => []
  | r :: rs' => r <| record_id := next |> :: number_from (sat_add64 next 1) rs'
  end.
Definition compacted_records (records : list BlkMapRecord) (old_ids : list Z) (moved : list BlkMapRecord)
  : list BlkMapRecord :=
  let next := sat_add64 (foldr Z.max 0 (record_id <$> records)) 1 in
  let records := (fun r => if decide (record_id r ∈ old_ids) then r <| state := BStale |> else r) <$> records in
  sort_by_key logical_start (sort_by_key record_id (records ++ number_from next moved)).

Section Ops.
Context `{HOST : Host} `{ENV : Environ} `{C : Crc32c} `{HO : HashOrder} `{BC : BlockCodecs}.

(** The copy of a blob in the active segment. *)
Definition move_blob (paths : LayoutPaths) (target : CompressionCodec) (r : BlkMapRecord) (m : MoveState)
  : M World StorageError (Moved * MoveState) :=
  let! blob := load_blob_by_location paths (physical_segment_id r) (physical_offset r) in
  let! payload := liftM (decompress_payload (db_codec blob) (db_bytes blob) (db_logical_len blob)) in
  let '(codec, encoded, _) := compress_payload target payload in
  let m := if decide (codec <> db_codec blob) then m <| mv_upgrades := mv_upgrades m + 1 |> else m in
  let! (seq, id) := append_data_blob paths codec (db_logical_len blob) encoded true in
  let! len := liftM (ok_or (u32_try_from (Zlen encoded)) (Conflict "compacted payload too large")) in
  let moved := (seq, id, codec, len) in
  retM (moved, m <| mv_destination := seq mod 2 ^ 32 |>
                 <| mv_bytes := sat_add64 (mv_bytes m) len |>
                 <| mv_blobs := <[blob_key r := moved]> (mv_blobs m) |>).

(** The loop over the source records: a blob shared by several extents is moved
    once. *)
Fixpoint move_records (paths : LayoutPaths) (target : CompressionCodec) (rs : list BlkMapRecord) (m : MoveState)
  : M World StorageError MoveState :=
  match rs with
  | [] => retM m
  | r :: rs' =>
      let! (moved, m) :=
        match mv_blobs m !! blob_key r with
        | Some existing => retM (existing, m)
        | None => move_blob paths target r m
        end in
      move_records paths target rs' (m <| mv_records := mv_records m ++ [moved_record r moved] |>)
  end.

Definition update_moved_dedup_entries (paths : LayoutPaths) (records : list BlkMapRecord)
  (blobs : gmap (Z * Z) Moved) : M World StorageError unit :=
  let! (_, entries) := load_dedup_index (dedup_file paths) in
  let (entries, changed) := move_entries blobs records entries false in
  if changed : bool then persist_dedup_entries (dedup_file paths) entries else retM tt.

Definition persist_compacted_blk_map (path : string) (records : list BlkMapRecord) (old_ids : list Z)
  (moved : list BlkMapRecord) : M World StorageError unit :=
  persist_blk_map_records path (compacted_records records old_ids moved).

Definition remove_source_segment (paths : LayoutPaths) (index : SegmentIndex_) (seq : Z)
  : M World StorageError SegmentIndex_ :=
  let! index :=
    (if existsb (has_seq seq) (descriptors index) then
       let index := remove_segment_descriptor index seq in
       persist_segment_index (segment_index_file paths) index ;;! retM index
     else retM index) in
  let path := data_segment_path paths seq in
  let! there := path_exists path in
  (if there : bool then
     invalidate_data_segment_cache path ;;!
     io (fs_remove path) ;;!
     sync_directory (root paths)
   else retM tt) ;;!
  retM index.

Definition compact_segment (paths : LayoutPaths) (seq : Z) (target : CompressionCodec)
  : M World StorageError CompactionReport :=
  let! index := load_segment_index (segment_index_file paths) in
  let! source := liftM (ok_or (descriptor_for_segment index seq) (SNotFound "source segment not found")) in
  if decide (seg_state source = SActive) then failM (Conflict "cannot compact active data segment")
  else
    let! _ := flush_pending_writes paths in
    let! _ := mark_checkpoint_dirty paths in
    let index := index <| descriptors :=
      default (descriptors index) (update_first (has_seq seq) (fun d => d <| seg_state := Compacting |>)
                                     (descriptors index)) |> in
    persist_segment_index (segment_index_file paths) index ;;!
    let! (_, records) := load_blk_map_records (blk_map_file paths) in
    let sources := filter (fun r => is_active r && bool_decide (physical_segment_id r = seq)) records in
    if decide (sources = []) then
      sync_layout_segments paths ;;!
      let! index := remove_source_segment paths index seq in
      let! _ := mark_checkpoint_clean paths in
      let! active := liftM (active_descriptor index) in
      retM (mkCompaction seq (segment_seq active) 0 0 (payload_bytes source) 0)
    else
      let old_ids := record_id <$> sources in
      let! active := liftM (active_descriptor index) in
      let! m := move_records paths target sources (mkMove ∅ [] 0 0 (segment_seq active)) in
      persist_compacted_blk_map (blk_map_file paths) records old_ids (mv_records m) ;;!
      update_moved_dedup_entries paths sources (mv_blobs m) ;;!
      let! _ := rebuild_lookup_from_blk_map (blk_map_file paths) (lookup_file paths) in
      let! _ := upsert_reclaim_candidates (lookup_file paths) (reclaim_file paths) old_ids Compacted in
      sync_layout_segments paths ;;!
      let! index := load_segment_index (segment_index_file paths) in
      let! _ := remove_source_segment paths index seq in
      let! _ := mark_checkpoint_clean paths in
      retM (mkCompaction seq (mv_destination m) (Z.of_nat (size (mv_blobs m))) (mv_bytes m)
              (payload_bytes source) (mv_upgrades m)).
End Ops.
