(* ===== verification/Recovery.v ===== *)
(** * Dirty recovery (storage/data_path.rs, storage/maintenance_progress.rs)

    A layout whose checkpoint is dirty is repaired before use: its metadata must
    decode and every active extent must find its blob, then the temporary files
    are removed and the lookup, the segment index and the reference counts are
    rebuilt from the block map. *)

From S2P Require Import Prelude Bytes Text Errors Fs Layout TapeState Compression Records.
From S2P Require Import World Crc Segment Footprint Checkpoint Logs BlkMap MapLookup Dedup Reclaim.
From S2P Require Import RuntimeState SegmentIndex Slots IndexState DataBlobs BlobStore DataPath.

Inductive MaintenancePhase : Type := PhScan | PhVerify | PhCopy | PhCommit.
Definition MaintenancePhase_as_str (p : MaintenancePhase) : string :=
  match p with PhScan => "scan" | PhVerify => "verify" | PhCopy => "copy" | PhCommit => "commit" end.

(** The callback of a maintenance run: it may stop the run with an error. *)
Definition MaintenanceProgress : Type := MaintenancePhase -> Z -> Z -> M World StorageError unit.
Definition no_maintenance_progress : MaintenanceProgress := fun _ _ _ => retM tt.

Record RecoveryReport : Type := mkRecovery {
  dirty_detected : bool;
  rebuilt_lookup_entries : Z;
  dedup_refcount_repaired : Z;
  rr_reclaim_updates : Z;
  rr_checkpoint_epoch : Z
}.

Record SegmentBlobHeaderScan : Type := mkScan {
  sc_header : SegmentHeader;
  sc_blobs : list DataBlobMeta;
  sc_next_offset : Z;
  sc_headers_scanned : Z;
  sc_complete : bool
}.

Definition RECOVERY_MAX_HEADERS : Z := 65536.
Definition MAX_COMPRESSED_ACTIVE_BLOB : Z := 16 * 1024 * 1024.
Definition VERIFY_CHUNK : Z := 1024 * 1024.

Definition fixed_temps : list string :=
  ["metadata.tmp"; "blk_map.tmp"; "lookup.tmp"; "reclaim.tmp"; "dedup.tmp"; "segment_index.tmp";
   "filemarks.tmp"; "usage.counters.tmp"].
Definition is_reclaim_stage_name (name : list Z) : bool :=
  bool_decide (is_Some (six_digits (bytes_of_string "data_") (bytes_of_string ".reclaim-stage.seg") name)).
Definition is_data_segment_tmp_name (name : list Z) : bool :=
  bool_decide (is_Some (six_digits (bytes_of_string "data_") (bytes_of_string ".tmp") name)).

(** The active extents of a segment, by blob. *)
Definition active_blobs : Type := gmap Z (list BlkMapRecord).
Definition add_active (r : BlkMapRecord) (m : active_blobs) : active_blobs :=
  <[physical_offset r := default [] (m !! physical_offset r) ++ [r]]> m.

Section Ops.
Context `{HOST : Host} `{ENV : Environ} `{C : Crc32c} `{HO : HashOrder} `{BC : BlockCodecs}.

(** ** Scanning the headers of a segment *)
Definition read_exact_at (inode : nat) (off n : Z) : M World StorageError (list Z) :=
  let! r := io_raw (fs_read_exact_at inode (Z.to_nat off) (Z.to_nat n)) in
  match r with
  | Ok bytes => retM bytes
  | Err e => if decide (io_kind e = KUnexpectedEof)
             then failM (SIo (io_error KUnexpectedEof "short read from data segment"))
             else failM (SIo e)
  end.

Fixpoint scan_headers_loop (fuel : nat) (progress : MaintenanceProgress) (inode : nat)
  (header_version payload_end : Z) (legacy : option Z) (already max_headers offset batch : Z)
  (blobs : list DataBlobMeta) : M World StorageError (list DataBlobMeta * Z * Z) :=
  match fuel with
  | O => retM (blobs, offset, batch)
  | S f =>
      if decide (offset < payload_end /\ batch < max_headers) then
        if match legacy with Some count => bool_decide (count <= already + batch) | None => false end
        then retM (blobs, offset, batch)
        else
          let! buf := read_exact_at inode offset (Z.of_nat DATA_BLOB_HEADER_SIZE) in
          let! meta := liftM (decode_blob_meta_from_header buf) in
          let! next := liftM (checked_blob_next_offset offset (blob_stored_len meta) payload_end) in
          let meta := meta <| blob_payload_offset := offset + Z.of_nat DATA_BLOB_HEADER_SIZE |>
                           <| v2_integrity := bool_decide (header_version = STORAGE_LAYOUT_VERSION) |> in
          progress PhScan (Z.of_nat DATA_BLOB_HEADER_SIZE) 1 ;;!
          scan_headers_loop f progress inode header_version payload_end legacy already max_headers next
            (batch + 1) (blobs ++ [meta])
      else retM (blobs, offset, batch)
  end.

(** The first header's offset, and the number of blobs a legacy segment
    declares. *)
Definition scan_start (inode : nat) (header : SegmentHeader) : M World StorageError (Z * option Z) :=
  let payload_start := segment_payload_offset header in
  let! prefix := read_exact_at inode payload_start 4 in
  if decide (prefix = DATA_LOG_PREFIX) then retM (payload_start + Zlen DATA_LOG_PREFIX, None)
  else if decide (payload_len header < 8) then failM (Corrupt "data payload too short")
  else
    let! count_buf := read_exact_at inode payload_start 8 in
    let count := from_le count_buf in
    if decide ((payload_len header - 8) / Z.of_nat DATA_BLOB_HEADER_SIZE < count)
    then failM (Corrupt "legacy data blob count exceeds segment payload")
    else retM (payload_start + 8, Some count).

(** A scan may resume at a cursor; it stops after [max_headers] headers. *)
Definition scan_segment_blob_headers_with_progress (path : string) (start_offset : option Z)
  (already max_headers : Z) (progress : MaintenanceProgress) : M World StorageError SegmentBlobHeaderScan :=
  let! _ := io (fs_metadata path) in
  let! i := io (fs_open path) in
  let! (file_len, _) := io (fs_metadata path) in
  let! header := read_segment_header_from_file i Data in
  let payload_start := segment_payload_offset header in
  let! payload_end := liftM (ok_or (checked_add64 payload_start (payload_len header))
                               (Corrupt "data segment length overflow")) in
  if decide (file_len <> payload_end) then failM (Corrupt "data segment size mismatch")
  else if decide (payload_len header = 0) then retM (mkScan header [] payload_end 0 true)
  else
    let! (first, legacy) := scan_start i header in
    let! offset :=
      match start_offset with
      | Some cursor =>
          if decide (cursor < first \/ payload_end < cursor)
          then failM (Conflict "reclaim scan cursor is outside the segment") else retM cursor
      | None =>
          if decide (already <> 0) then failM (Conflict "reclaim scan cursor header count is invalid")
          else retM first
      end in
    if match legacy with Some count => bool_decide (count < already) | None => false end
    then failM (Conflict "legacy scan cursor header count exceeds segment")
    else
      let! (blobs, next, batch) :=
        scan_headers_loop (S (Z.to_nat (payload_len header / Z.of_nat DATA_BLOB_HEADER_SIZE))) progress i
          (version header) payload_end legacy already max_headers offset 0 [] in
      let complete := match legacy with
                      | Some count => bool_decide (count <= sat_add64 already batch)
                      | None => bool_decide (next = payload_end)
                      end in
      if bool_decide (next = offset) && negb complete && bool_decide (0 < max_headers)
      then failM (Corrupt "data blob scan made no progress")
      else retM (mkScan header blobs next batch complete).

(** ** Checking the metadata and the active extents *)
Definition preflight_filemarks_record_limit (dir : string) : M World StorageError unit :=
  let path := path_join dir FILEMARKS_STATE_FILE in
  let! r := io_raw (fs_metadata path) in
  match r with
  | Err e => if decide (io_kind e = KNotFound) then retM tt else failM (SIo e)
  | Ok (len, _) =>
      if decide (len < 8) then failM (Corrupt "filemarks state too short")
      else
        let! i := io (fs_open path) in
        let! _ := io (fs_metadata path) in
        let! buf := io (fs_read_exact_at i 0 8) in
        let count := from_le buf in
        if decide (MAX_MAINTENANCE_METADATA_RECORDS < count) then failM MetadataBudgetExceeded
        else if decide (len <> 8 + count * 8) then failM (Corrupt "filemarks state length mismatch")
        else retM tt
  end.

Definition preflight_dirty_metadata_records (paths : LayoutPaths) : M World StorageError unit :=
  let! _ := load_segment_index (segment_index_file paths) in
  let! _ := load_blk_map_records (blk_map_file paths) in
  let! _ := load_lookup_records (lookup_file paths) in
  let! _ := load_reclaim_candidates (reclaim_file paths) in
  let! _ := load_dedup_index (dedup_file paths) in
  preflight_filemarks_record_limit (root paths).

Definition resolve_active_segment_seq (paths : LayoutPaths) (id : Z) : M World StorageError Z :=
  let! exact := path_exists (data_segment_path paths id) in
  if (exact : bool) then retM id
  else
    let! zero := path_exists (data_segment_path paths 0) in
    if bool_decide (id = 1) && zero then retM 0
    else
      let! legacy := path_exists (data_file paths) in
      if bool_decide (id = 0) && legacy then retM 0
      else failM (Corrupt "active block map references a missing data segment").

Definition active_segment_path (paths : LayoutPaths) (seq : Z) : M World StorageError string :=
  let path := data_segment_path paths seq in
  let! exact := path_exists path in
  let! legacy := path_exists (data_file paths) in
  retM (if bool_decide (seq = 0) && negb exact && legacy then data_file paths else path).

(** The checksums of a raw blob, read in chunks of a mebibyte. *)
Fixpoint verify_chunks (fuel : nat) (progress : MaintenanceProgress) (inode : nat) (remaining offset : Z)
  (blob_crc fnv crc : Z) : M World StorageError (Z * Z * Z) :=
  match fuel with
  | O => retM (blob_crc, fnv, crc)
  | S f =>
      if decide (0 < remaining) then
        let requested := Z.min remaining VERIFY_CHUNK in
        let! chunk := read_exact_at inode offset requested in
        let! next := liftM (ok_or (checked_add64 offset requested) (Corrupt "raw payload offset overflow")) in
        progress PhVerify requested 0 ;;!
        verify_chunks f progress inode (sat_sub remaining requested) next
          (integrity32_continue blob_crc chunk) (checksum32_continue fnv chunk) (integrity32_continue crc chunk)
      else retM (blob_crc, fnv, crc)
  end.

Definition matches_checksums (fnv crc : Z) (r : BlkMapRecord) : bool :=
  match payload_checksum_algorithm r with
  | PcNone => true
  | Fnv1a32 => bool_decide (fnv = payload_checksum r)
  | PcCrc32c => bool_decide (crc = payload_checksum r)
  end.

Definition validate_active_blob_payload (path : string) (meta : DataBlobMeta) (records : list BlkMapRecord)
  (progress : MaintenanceProgress) : M World StorageError unit :=
  if decide (blob_codec meta <> CNone) then
    if decide (MAX_COMPRESSED_ACTIVE_BLOB < blob_stored_len meta)
    then failM (Corrupt "compressed active blob exceeds decode limit")
    else
      let! blob := load_blob_by_id path (blob_id meta) in
      let! payload := liftM (decompress_payload (db_codec blob) (db_bytes blob) (blob_logical_len meta)) in
      progress PhVerify (blob_stored_len meta) (Zlen records) ;;!
      forM records (fun r => liftM (verify_logical_payload_checksum (payload_checksum_algorithm r)
                                     (payload_checksum r) payload))
  else if decide (blob_stored_len meta <> blob_logical_len meta)
  then failM (Corrupt "raw active blob length mismatch")
  else
    let! i := io (fs_open path) in
    let crc0 := integrity32_continue (integrity32_continue 0 (to_le 8 (blob_id meta)))
                  (to_le 4 (blob_logical_len meta)) in
    let! (blob_crc, fnv, crc) :=
      verify_chunks (S (Z.to_nat (blob_stored_len meta / VERIFY_CHUNK + 1))) progress i (blob_stored_len meta)
        (blob_payload_offset meta) crc0 0x811C9DC5 0 in
    if v2_integrity meta && negb (bool_decide (blob_crc = blob_checksum meta))
    then failM (Corrupt "data blob integrity checksum mismatch")
    else if forallb (matches_checksums fnv crc) records then retM tt
    else failM (Corrupt "payload checksum mismatch during recovery").

Fixpoint group_active (paths : LayoutPaths) (records : list BlkMapRecord) (m : gmap Z active_blobs)
  : M World StorageError (gmap Z active_blobs) :=
  match records with
  | [] => retM m
  | r :: rs =>
      if is_active r then
        let! raw := liftM (ok_or (u32_try_from (physical_segment_id r))
                             (Corrupt "active physical segment ID exceeds u32")) in
        let! seq := resolve_active_segment_seq paths raw in
        group_active paths rs (<[seq := add_active r (default ∅ (m !! seq))]> m)
      else group_active paths rs m
  end.

Definition agrees_with (meta : DataBlobMeta) (r : BlkMapRecord) : bool :=
  bool_decide (logical_len r = blob_logical_len meta /\ compression r = blob_codec meta /\
               compressed_len r = blob_stored_len meta).

Fixpoint check_blobs (path : string) (active : active_blobs) (blobs : list DataBlobMeta)
  (progress : MaintenanceProgress) (found : gset Z) : M World StorageError (gset Z) :=
  match blobs with
  | [] => retM found
  | meta :: rest =>
      match active !! blob_id meta with
      | None => check_blobs path active rest progress found
      | Some records =>
          if forallb (agrees_with meta) records then
            validate_active_blob_payload path meta records progress ;;!
            check_blobs path active rest progress ({[blob_id meta]} ∪ found)
          else failM (Corrupt "active map and data blob metadata disagree")
      end
  end.

Fixpoint check_segments (paths : LayoutPaths) (l : list (Z * active_blobs)) (progress : MaintenanceProgress)
  (scanned : Z) : M World StorageError unit :=
  match l with
  | [] => retM tt
  | (seq, active) :: rest =>
      if decide (RECOVERY_MAX_HEADERS <= scanned) then failM MetadataBudgetExceeded
      else
        let! path := active_segment_path paths seq in
        let! scan := scan_segment_blob_headers_with_progress path None 0 (RECOVERY_MAX_HEADERS - scanned) progress in
        if negb (sc_complete scan) then failM MetadataBudgetExceeded
        else
          let! found := check_blobs path active (sc_blobs scan) progress ∅ in
          if decide (size found <> size active)
          then failM (Corrupt "active block map references a missing data blob")
          else check_segments paths rest progress (scanned + Zlen (sc_blobs scan))
  end.

Definition validate_active_blob_references_for_recovery (paths : LayoutPaths) (progress : MaintenanceProgress)
  : M World StorageError unit :=
  let! (_, records) := load_blk_map_records (blk_map_file paths) in
  let! by_segment := group_active paths records ∅ in
  check_segments paths (hash_values (map_imap (fun seq active => Some (seq, active)) by_segment)) progress 0.

(** ** Repairing *)
Fixpoint remove_fixed_temps (dir : string) (names : list string) (removed : bool) : M World StorageError bool :=
  match names with
  | [] => retM removed
  | name :: rest =>
      let path := path_join dir name in
      let! r := io_raw (fs_metadata path) in
      match r with
      | Ok _ => io (fs_remove path) ;;! remove_fixed_temps dir rest true
      | Err e => if decide (io_kind e = KNotFound) then remove_fixed_temps dir rest removed else failM (SIo e)
      end
  end.

Definition cleanup_known_layout_temporary_files (paths : LayoutPaths) : M World StorageError unit :=
  let! removed := remove_fixed_temps (root paths) fixed_temps false in
  let! listed := read_dir (root paths) in
  let temps := filter (fun p => is_reclaim_stage_name (file_name p) || is_data_segment_tmp_name (file_name p)) listed in
  forM temps (fun p => let! _ := io (fs_metadata p) in io (fs_remove p)) ;;!
  if removed || negb (bool_decide (temps = [])) then sync_directory (root paths) else retM tt.

Definition highest_indexed_data_segment (paths : LayoutPaths) : M World StorageError (option Z) :=
  let! listed := read_dir (root paths) in
  let seqs := omap (fun p => indexed_data_segment_seq (file_name p)) listed in
  retM (match seqs with [] => None | s :: rest => Some (foldr Z.max s rest) end).

Definition rebuild_segment_descriptor (paths : LayoutPaths) (seq : Z) (st : SegmentState)
  : M World StorageError SegmentDescriptor :=
  let path := data_segment_path paths seq in
  let! header := read_segment_header path Data in
  let! blobs := (if decide (payload_len header = 0) then retM []
                 else let! (blobs, _) := scan_data_index path (version header) (payload_len header) in retM blobs) in
  let ids := blob_id <$> blobs in
  let first := match ids with [] => 0 | x :: xs => foldr Z.min x xs end in
  let last := foldr Z.max 0 ids in
  let live := foldl (fun acc b => sat_add32 acc (blob_stored_len b)) 0 blobs in
  let codec := default CNone (head (filter (fun c => c <> CNone) (reverse (blob_codec <$> blobs)))) in
  retM (mkDescriptor seq (payload_len header) first last st codec live).

Fixpoint rebuild_descriptors (paths : LayoutPaths) (active : Z) (seqs : list Z)
  : M World StorageError (list SegmentDescriptor) :=
  match seqs with
  | [] => retM []
  | s :: rest =>
      let! d := rebuild_segment_descriptor paths s (if decide (s = active) then SActive else Sealed) in
      let! ds := rebuild_descriptors paths active rest in
      retM (d :: ds)
  end.

(** A [BTreeSet] in its order. *)
Definition btree_set (l : list Z) : list Z := merge_sort Z.le (remove_dups l).

Definition rebuild_segment_index_from_blk_map (paths : LayoutPaths) : M World StorageError unit :=
  let! r := tryM (load_segment_index (segment_index_file paths)) in
  let max := match r with Ok index => max_segment_size index | Err _ => configured_max_segment_size end in
  let! (_, records) := load_blk_map_records (blk_map_file paths) in
  let! referenced := liftM (rmapM (fun r => ok_or (u32_try_from (physical_segment_id r))
                                     (Corrupt "physical segment id exceeds u32"))
                              (filter (fun r => is_active r) records)) in
  let referenced := btree_set referenced in
  let! highest := highest_indexed_data_segment paths in
  let! index :=
    match last referenced with
    | None =>
        let active_path := data_segment_path paths 0 in
        write_segment_file active_path Data 1 0 [] ;;!
        invalidate_data_segment_cache active_path ;;!
        retM (mkSegmentIndex max [fresh_descriptor 0]
                (Z.max (sat_add64 (default 0 highest) 1) 1))
    | Some active =>
        let next := sat_add32 (Z.max (default active highest) active) 1 in
        let! ds := rebuild_descriptors paths active referenced in
        retM (mkSegmentIndex max ds next)
    end in
  let high_water := foldr Z.max 0 (physical_offset <$> records) in
  let ds := default (descriptors index)
              (update_first is_active_segment
                 (fun d => d <| last_blob_id := Z.max (last_blob_id d) high_water |>) (descriptors index)) in
  let index := index <| descriptors := ds |> in
  persist_segment_index (segment_index_file paths) index ;;!
  store_segment_index_clean (segment_index_file paths) index.

Definition collect_active_dedup_entries (path : string) : M World StorageError (list Z) :=
  let! (_, records) := load_blk_map_records path in
  retM (dedup_entry_id <$> filter (fun r => is_active r && bool_decide (0 < dedup_entry_id r)) records).

Definition recover_dirty_state_with_progress (paths : LayoutPaths) (progress : MaintenanceProgress)
  : M World StorageError RecoveryReport :=
  preflight_maintenance_metadata
    [metadata_file paths; blk_map_file paths; lookup_file paths; reclaim_file paths; dedup_file paths;
     segment_index_file paths; path_join (root paths) FILEMARKS_STATE_FILE; usage_counters_file paths] ;;!
  let! r := tryM (load_checkpoint_cached (metadata_file paths)) in
  match r with
  | Err (Corrupt err) =>
      invalidate_checkpoint_cache (metadata_file paths) ;;!
      let! _ := quarantine_invalid_metadata (metadata_file paths) in
      failM (Corrupt err)
  | Err e => failM e
  | Ok checkpoint =>
      if decide (flags checkpoint = Clean) then retM (mkRecovery false 0 0 0 (epoch checkpoint))
      else
        preflight_dirty_metadata_records paths ;;!
        validate_active_blob_references_for_recovery paths progress ;;!
        cleanup_known_layout_temporary_files paths ;;!
        let! rebuilt := rebuild_lookup_from_blk_map (blk_map_file paths) (lookup_file paths) in
        rebuild_segment_index_from_blk_map paths ;;!
        let! referenced := collect_active_dedup_entries (blk_map_file paths) in
        let! repaired := rebuild_ref_counts (dedup_file paths) referenced in
        let! updates := refresh_reclaim_safety (lookup_file paths) (reclaim_file paths) in
        let checkpoint := marked Clean checkpoint in
        persist_checkpoint_cached (metadata_file paths) checkpoint ;;!
        retM (mkRecovery true rebuilt repaired updates (epoch checkpoint))
  end.
Definition recover_dirty_state (paths : LayoutPaths) : M World StorageError RecoveryReport :=
  recover_dirty_state_with_progress paths no_maintenance_progress.
End Ops.
