(* ===== verification/ScanLaws.v ===== *)
(** * Verifying the data of a cartridge

    The scan of a segment's blob headers finds its blobs, and the verification
    of a blob that is what its extents say succeeds: what recovery checks before
    it repairs anything. *)

From S2P Require Import Prelude Bytes Text Errors Fs Layout TapeState Compression Records.
From S2P Require Import World Crc Segment Footprint Checkpoint Logs BlkMap MapLookup Dedup Reclaim.
From S2P Require Import RuntimeState SegmentIndex Slots IndexState DataBlobs BlobStore DataPath Store Recovery.

Section Laws.
Context `{HOST : Host} `{ENV : Environ} `{CL : Crc32cLaws} `{HOL : HashOrderLaws} `{BC : BlockCodecs}
  `{B3 : Blake3}.

(** ** Reading *)

(** Only the operations of the file system were counted. *)
Definition still (w w' : World) : Prop := w' = w <| w_fs := w_fs w' |> /\ same_files (w_fs w) (w_fs w').
Lemma still_refl w : still w w.
Proof. split; [by destruct w|done]. Qed.
Lemma quiet_then {A B} (m : M World StorageError A) (k : A -> M World StorageError B) w0 w a b :
  still w0 w -> quiet m w a -> (forall w', still w0 w' -> quiet (k a) w' b) -> quiet (bindM m k) w b.
Proof.
  intros [F S] Q H. eapply quiet_bind; [exact Q|]. intros w' F' S'. apply H. split; [rewrite F', F; done|].
  eauto using same_files_trans.
Qed.
Lemma still_contents w w' path : still w w' -> contents (w_fs w') path = contents (w_fs w) path.
Proof. intros [_ S]. by apply contents_same. Qed.
Lemma still_names w w' path : still w w' -> fs_names (w_fs w') !! path = fs_names (w_fs w) !! path.
Proof. intros [_ (-> & _)]. done. Qed.
Lemma still_seg w w' path h payload : still w w' -> seg_file w path h payload -> seg_file w' path h payload.
Proof. intros [F S] H. apply (seg_file_same w); [done|by rewrite F|done]. Qed.
Lemma quiet_read_exact w path i d off n :
  no_faults -> fs_names (w_fs w) !! path = Some i -> contents (w_fs w) path = Some d ->
  0 <= off -> 0 <= n -> off + n <= Zlen d ->
  quiet (read_exact_at i off n) w (slice (Z.to_nat off) (Z.to_nat off + Z.to_nat n) d).
Proof.
  intros Hn Hi Hc H1 H2 Hl. unfold read_exact_at, quiet, bindM, io_raw, tryM, zoomM.
  rewrite (fs_read_exact_ok _ _ _ _ _ _ Hn Hi Hc) by (unfold Zlen in Hl; lia). eexists. split; [reflexivity|]. by cbn.
Qed.
Lemma quiet_metadata w path d :
  no_faults -> contents (w_fs w) path = Some d -> exists t, quiet (io (fs_metadata path)) w (Zlen d, t).
Proof.
  intros Hn Hc. destruct (fs_metadata_ok _ _ _ Hn Hc) as (t & E). exists t. unfold quiet. rewrite io_run, E.
  eexists. split; [reflexivity|]. by cbn.
Qed.
Lemma quiet_open_at w path d :
  no_faults -> contents (w_fs w) path = Some d ->
  exists i, quiet (io (fs_open path)) w i /\ fs_names (w_fs w) !! path = Some i.
Proof.
  intros Hn Hc. destruct (fs_open_ok _ _ _ Hn Hc) as (i & E & Hi). exists i. split; [|done].
  unfold quiet. rewrite io_run, E. eexists. split; [reflexivity|]. by cbn.
Qed.
Lemma quiet_lift {A} (r : Result StorageError A) a w : r = Ok a -> quiet (liftM r) w a.
Proof. intros ->. apply quiet_ret. Qed.
Lemma quiet_header_at w path i h payload :
  no_faults -> seg_file w path h payload -> fs_names (w_fs w) !! path = Some i ->
  quiet (read_segment_header_from_file i (kind h)) w h.
Proof.
  intros Hn HS Hi. unfold read_segment_header_from_file, quiet, bindM. rewrite io_run.
  rewrite (fs_read_some_ok _ _ _ _ _ _ Hn Hi (sf_contents _ _ _ _ HS)). cbn [fst snd map_err].
  unfold liftM. rewrite header_probe by apply HS. rewrite decide_False by tauto. eexists. split; [reflexivity|]. by cbn.
Qed.
Lemma quiet_exists w path d :
  contents (w_fs w) path = Some d -> quiet (path_exists path) w true.
Proof.
  intros Hc. exists w. split_and!; [|by destruct w|done]. unfold path_exists. rewrite io_run. cbn.
  unfold contents in Hc. destruct (file_at (w_fs w) path); [|done]. by destruct w.
Qed.

(** ** Scanning headers *)
Lemma scan_headers_loop_spec path i h max bs2 : forall bs1 fuel acc batch w,
  no_faults -> seg_file w path h (DATA_LOG_PREFIX ++ concat (map blob_encode (bs1 ++ bs2))) ->
  fs_names (w_fs w) !! path = Some i -> Forall wf_blob bs2 -> (length bs2 < fuel)%nat -> batch + Zlen bs2 <= max ->
  let off := 100 + Zlen (concat (map blob_encode bs1)) in
  quiet (scan_headers_loop fuel no_maintenance_progress i (version h) (96 + payload_len h) None 0 max off batch acc) w
    (acc ++ metas off bs2, 96 + payload_len h, batch + Zlen bs2).
Proof.
  induction bs2 as [|b bs2 IH]; intros bs1 fuel acc batch w Hn HS Hi Hwf Hf Hm off.
  - destruct fuel as [|f]; [lia|]. cbn [scan_headers_loop metas]. rewrite app_nil_r in *.
    assert (off = 96 + payload_len h) as Eo.
    { rewrite (sf_plen _ _ _ _ HS). unfold off, Zlen. rewrite length_app. change (length DATA_LOG_PREFIX) with 4%nat. lia. }
    rewrite decide_False by lia. rewrite Eo. replace (batch + Zlen []) with batch by (unfold Zlen; cbn; lia).
    apply quiet_ret.
  - apply Forall_cons in Hwf as [Hb Hwf]. destruct fuel as [|f]; [lia|]. cbn [scan_headers_loop].
    rewrite <- blobs_payload_ne in HS by (by destruct bs1).
    destruct (scan_step_offsets bs1 b bs2 h path w HS Hb) as (O1 & O2 & O3 & O4). fold off in O1, O2, O4.
    assert (0 <= off) as O5 by (unfold off, Zlen; lia).
    assert (0 <= db_stored_len b) as O6 by (destruct Hb as (_ & _ & Hs & _); unfold u32_ok in Hs; lia).
    assert (Zlen (b :: bs2) = 1 + Zlen bs2) as El by (unfold Zlen; cbn; lia).
    assert (0 <= Zlen bs2) as El' by (unfold Zlen; lia).
    rewrite decide_True by lia.
    destruct (slice_blob h bs1 b bs2 0 24) as [Hsl Hle]; [rewrite length_blob_encode; lia|].
    replace (100 + length (concat (map blob_encode bs1)) + 0)%nat with (Z.to_nat off) in Hsl, Hle by (unfold off, Zlen; lia).
    assert (slice (Z.to_nat off) (Z.to_nat off + 24) (segment_bytes h (blobs_payload (bs1 ++ b :: bs2))) =
      encode_data_blob_header (db_id b) (db_codec b) (db_logical_len b) (db_stored_len b) (db_checksum b)) as Hh.
    { rewrite Hsl. unfold blob_encode, encode_data_blob_record. by rewrite slice_here by (by rewrite length_blob_header). }
    eapply (quiet_then _ _ w); [apply still_refl| |].
    { apply (quiet_read_exact w path i _ off (Z.of_nat DATA_BLOB_HEADER_SIZE) Hn Hi (sf_contents _ _ _ _ HS));
        [lia|lia|]. unfold Zlen. change (Z.of_nat DATA_BLOB_HEADER_SIZE) with 24. lia. }
    intros w1 S1. change (Z.to_nat (Z.of_nat DATA_BLOB_HEADER_SIZE)) with 24%nat. rewrite Hh.
    eapply (quiet_then _ _ w); [done|apply quiet_lift, decode_blob_header, Hb|]. intros w2 S2. cbn [blob_stored_len].
    eapply (quiet_then _ _ w _ (off + 24 + db_stored_len b)); [done| |].
    { apply quiet_lift. unfold checked_blob_next_offset, checked_add64, DATA_BLOB_HEADER_SIZE.
      rewrite decide_True by lia. cbn [ok_or rbind]. rewrite decide_True by lia. cbn [ok_or rbind].
      rewrite decide_False by lia. f_equal. lia. }
    intros w3 S3. eapply (quiet_then _ _ w); [done|apply quiet_ret|]. intros w4 S4.
    replace (_ <| blob_payload_offset := _ |> <| v2_integrity := _ |>) with (meta_at off b).
    2:{ unfold meta_at. cbn. by rewrite bool_decide_eq_true_2 by apply (sf_header _ _ _ _ HS). }
    cbn [metas]. change (meta_at off b :: metas (off + Zlen (blob_encode b)) bs2) with
      ([meta_at off b] ++ metas (off + Zlen (blob_encode b)) bs2). rewrite (assoc_L app), El, Z.add_assoc.
    assert (off + Zlen (blob_encode b) = 100 + Zlen (concat (map blob_encode (bs1 ++ [b])))) as Eo.
    { unfold off. rewrite map_app, concat_app. unfold Zlen. rewrite length_app. cbn [map concat]. rewrite app_nil_r. lia. }
    rewrite Eo, O4. apply IH; [done| | |done|cbn in Hf; lia|lia].
    + rewrite <- app_assoc, <- blobs_payload_ne by (by destruct bs1). by apply (still_seg w).
    + by rewrite (still_names w).
Qed.

Lemma scan_segment_spec w path h bs max :
  no_faults -> data_state w path h bs -> Zlen bs <= max ->
  quiet (scan_segment_blob_headers_with_progress path None 0 max no_maintenance_progress) w
    (mkScan h (metas 100 bs) (96 + payload_len h) (Zlen bs) true).
Proof.
  intros Hn HD Hm. pose proof (ds_file _ _ _ _ HD) as HS. pose proof (sf_contents _ _ _ _ HS) as Hc.
  pose proof (sf_header _ _ _ _ HS) as [_ Hv]. pose proof (sf_len _ _ _ _ HS) as Hl. pose proof (sf_plen _ _ _ _ HS) as Hp.
  set (payload := seg_payload h bs) in *.
  destruct (contents_names _ _ _ Hc) as (i & nd & Hi & _).
  unfold scan_segment_blob_headers_with_progress.
  destruct (quiet_metadata w path _ Hn Hc) as (t & Q). eapply (quiet_then _ _ w); [apply still_refl|exact Q|]. intros w1 S1.
  destruct (quiet_open_at w1 path _ Hn ltac:(by rewrite (still_contents w))) as (i' & Q2 & Hi').
  assert (i' = i) as -> by (rewrite (still_names w) in Hi' by done; congruence).
  eapply (quiet_then _ _ w); [done|exact Q2|]. intros w2 S2.
  destruct (quiet_metadata w2 path _ Hn ltac:(by rewrite (still_contents w))) as (t3 & Q3).
  eapply (quiet_then _ _ w); [done|exact Q3|]. intros w3 S3.
  eapply (quiet_then _ _ w); [done| |].
  { rewrite <- (ds_kind _ _ _ _ HD). by apply (quiet_header_at w3 path i h _ Hn (still_seg _ _ _ _ _ S3 HS)); rewrite (still_names w). }
  intros w4 S4.
  assert (segment_payload_offset h = 96) as Ho by (unfold segment_payload_offset; by rewrite decide_True). rewrite Ho.
  eapply (quiet_then _ _ w _ (96 + payload_len h)); [done| |].
  { apply quiet_lift. unfold checked_add64. by rewrite decide_True by lia. }
  intros w5 S5.
  rewrite decide_False by (rewrite Hp; unfold Zlen; rewrite length_segment_bytes by done; unfold SEGMENT_HEADER_V2_TOTAL_SIZE; lia).
  case_decide as Hz.
  { rewrite (empty_segment _ _ _ _ HD Hz). apply quiet_ret. }
  assert (payload = DATA_LOG_PREFIX ++ concat (map blob_encode bs)) as Hpl by (by apply seg_payload_full).
  assert (length payload = 4 + length (concat (map blob_encode bs)))%nat as Hlen by (by rewrite Hpl, length_app).
  eapply (quiet_then _ _ w _ (100, None)); [done| |].
  { unfold scan_start. rewrite Ho. eapply (quiet_then _ _ w _ DATA_LOG_PREFIX); [done| |].
    - pose proof (quiet_read_exact w5 path i _ 96 4 Hn ltac:(by rewrite (still_names w)) ltac:(by rewrite (still_contents w)))
        as Q6. change (Z.to_nat 96) with 96%nat in Q6. change (Z.to_nat 4) with 4%nat in Q6. rewrite (slice_segment_payload h payload 4) in Q6 by lia.
      replace (take 4 payload) with DATA_LOG_PREFIX in Q6 by (by rewrite Hpl, take_app_length'). apply Q6; [lia|lia|].
      unfold Zlen. rewrite length_segment_bytes by done. unfold SEGMENT_HEADER_V2_TOTAL_SIZE. lia.
    - intros w6 S6. rewrite decide_True by done. apply quiet_ret. }
  intros w6 S6. eapply (quiet_then _ _ w _ 100); [done|rewrite decide_False by tauto; apply quiet_ret|]. intros w7 S7.
  pose proof (blobs_count bs) as Hcount.
  assert ((length bs < S (Z.to_nat (payload_len h / 24)))%nat) as Hfuel.
  { rewrite Hp. unfold Zlen in *. rewrite Hlen.
    assert (Z.of_nat (length bs) <= Z.of_nat (4 + length (concat (map blob_encode bs))) / 24)
      by (apply Z.div_le_lower_bound; lia). lia. }
  eapply (quiet_then _ _ w _ (metas 100 bs, 96 + payload_len h, Zlen bs)); [done| |].
  { apply (scan_headers_loop_spec path i h max bs [] _ [] 0 w7 Hn); [cbn [app]; rewrite <- Hpl; by apply (still_seg w)|by rewrite (still_names w)|apply HD|exact Hfuel|lia]. }
  intros w8 S8. rewrite (bool_decide_eq_true_2 (96 + payload_len h = 96 + payload_len h)) by done.
  rewrite andb_false_r. apply quiet_ret.
Qed.

(** ** Verifying blobs *)
Lemma checksum32_continue_app a x y : checksum32_continue (checksum32_continue a x) y = checksum32_continue a (x ++ y).
Proof. unfold checksum32_continue. by rewrite fold_left_app. Qed.

Lemma verify_chunks_spec path i d : forall fuel remaining off a f c w,
  no_faults -> fs_names (w_fs w) !! path = Some i -> contents (w_fs w) path = Some d ->
  0 < remaining <= Z.of_nat fuel * VERIFY_CHUNK -> 0 <= off -> off + remaining <= Zlen d -> Zlen d <= U64_MAX ->
  let bytes := slice (Z.to_nat off) (Z.to_nat (off + remaining)) d in
  quiet (verify_chunks fuel no_maintenance_progress i remaining off a f c) w
    (integrity32_continue a bytes, checksum32_continue f bytes, integrity32_continue c bytes).
Proof.
  induction fuel as [|fuel IH]; intros remaining off a f c w Hn Hi Hc Hr Ho Hl Hd bytes; [lia|].
  cbn [verify_chunks]. rewrite decide_True by lia. set (req := Z.min remaining VERIFY_CHUNK).
  assert (0 < req <= remaining) as Hq by (unfold req, VERIFY_CHUNK; lia).
  set (chunk := slice (Z.to_nat off) (Z.to_nat (off + req)) d).
  eapply (quiet_then _ _ w _ chunk); [apply still_refl| |].
  { pose proof (quiet_read_exact w path i d off req Hn Hi Hc) as Q.
    replace (Z.to_nat off + Z.to_nat req)%nat with (Z.to_nat (off + req)) in Q by lia. apply Q; lia. }
  intros w1 S1. eapply (quiet_then _ _ w _ (off + req)); [done| |].
  { apply quiet_lift. unfold checked_add64. by rewrite decide_True by lia. }
  intros w2 S2. eapply (quiet_then _ _ w); [done|apply quiet_ret|]. intros w3 S3.
  replace (sat_sub remaining req) with (remaining - req) by (unfold sat_sub; lia). destruct (decide (remaining <= VERIFY_CHUNK)) as [Hs|Hs].
  - assert (req = remaining) as Er by (unfold req; lia). rewrite Er, Z.sub_diag.
    assert (chunk = bytes) as -> by (unfold chunk, bytes; by rewrite Er).
    destruct fuel; cbn [verify_chunks]; [apply quiet_ret|]. rewrite decide_False by lia. apply quiet_ret.
  - assert (bytes = chunk ++ slice (Z.to_nat (off + req)) (Z.to_nat (off + req + (remaining - req))) d) as ->.
    { unfold bytes, chunk. rewrite slice_join by lia. do 2 f_equal. lia. }
    unfold integrity32_continue. rewrite <- !crc32c_append_app, <- checksum32_continue_app.
    apply IH; [done|by rewrite (still_names w)|by rewrite (still_contents w)|unfold req, VERIFY_CHUNK in *; lia|lia|lia|done].
Qed.

(** What an extent says of its blob, its checksum included. *)
Definition sound_extent (r : BlkMapRecord) (b : DataBlob) : Prop :=
  described r b /\ 0 < logical_len r /\
  exists payload, extent_payload r (db_bytes b) = Ok payload /\
    verify_logical_payload_checksum (payload_checksum_algorithm r) (payload_checksum r) payload = Ok tt.

Lemma quiet_for {A} (l : list A) (body : A -> M World StorageError unit) : forall w,
  (forall x w', x ∈ l -> still w w' -> quiet (body x) w' tt) -> quiet (forM l body) w tt.
Proof.
  induction l as [|x l IH]; intros w H; [apply quiet_ret|]. cbn [forM].
  eapply (quiet_then _ _ w); [apply still_refl|apply H; [set_solver|apply still_refl]|]. intros w1 S1. apply IH.
  intros y w' Hy S. apply H; [set_solver|]. destruct S1 as [F1 S1], S as [F S]. split; [rewrite F, F1; done|].
  eauto using same_files_trans.
Qed.

Lemma raw_extent_matches b r :
  wf_blob b -> sound_extent r b -> db_codec b = CNone ->
  matches_checksums (checksum32_continue 0x811C9DC5 (db_bytes b)) (integrity32_continue 0 (db_bytes b)) r = true /\
  db_stored_len b = db_logical_len b /\ 0 < db_stored_len b.
Proof.
  intros (_ & _ & _ & Hsl & _) ((H1 & H2 & H3 & _) & Hpos & payload & He & Hv) Hc.
  unfold extent_payload in He. rewrite <- H1, decide_True in He by done.
  destruct (decide (Zlen (db_bytes b) <> logical_len r)) as [?|Hlen]; [done|]. injection He as <-.
  split; [|lia]. unfold matches_checksums. unfold verify_logical_payload_checksum in Hv.
  change (checksum32_continue _ (db_bytes b)) with (checksum32 (db_bytes b)).
  change (integrity32_continue 0 (db_bytes b)) with (integrity32 (db_bytes b)).
  destruct (payload_checksum_algorithm r); [done|..]; by destruct (bool_decide _).
Qed.

Lemma raw_checksum b :
  wf_blob b ->
  integrity32_continue (integrity32_continue (integrity32_continue 0 (to_le 8 (db_id b))) (to_le 4 (db_logical_len b)))
    (db_bytes b) = db_checksum b.
Proof.
  intros (_ & _ & _ & _ & _ & ->). unfold integrity32_continue, blob_integrity_checksum, integrity32.
  by rewrite !crc32c_append_app.
Qed.

Lemma validate_raw_spec w path h bs1 b bs2 rs :
  no_faults -> data_state w path h (bs1 ++ b :: bs2) -> rs <> [] -> Forall (fun r => sound_extent r b) rs ->
  db_codec b = CNone ->
  quiet (validate_active_blob_payload path (meta_at (100 + Zlen (concat (map blob_encode bs1))) b) rs no_maintenance_progress) w tt.
Proof.
  intros Hn HD Hne Hrs Hc. pose proof (ds_blobs _ _ _ _ HD ltac:(by destruct bs1)) as HS. pose proof (sf_contents _ _ _ _ HS) as Hcon.
  assert (wf_blob b) as Hwb by (pose proof (ds_wf _ _ _ _ HD) as H; rewrite Forall_app in H; by destruct H as [_ [? _]%Forall_cons]).
  assert (db_stored_len b = db_logical_len b /\ 0 < db_stored_len b) as [Hsl Hpos].
  { destruct rs as [|r rs]; [done|]. apply Forall_cons in Hrs as [Hr _]. by destruct (raw_extent_matches b r Hwb Hr Hc). }
  pose proof Hwb as (_ & _ & Hu & Hlen & _). unfold u32_ok in Hu.
  unfold validate_active_blob_payload. cbn [blob_codec meta_at blob_stored_len blob_logical_len blob_id blob_payload_offset v2_integrity blob_checksum].
  rewrite decide_False by tauto. rewrite decide_False by tauto.
  destruct (quiet_open_at w path _ Hn Hcon) as (i & Q & Hi).
  eapply (quiet_then _ _ w); [apply still_refl|exact Q|]. intros w1 S1.
  set (off := 100 + Zlen (concat (map blob_encode bs1))).
  destruct (slice_blob h bs1 b bs2 24 (length (db_bytes b))) as [Hs Hle]; [rewrite length_blob_encode; lia|].
  replace (100 + length (concat (map blob_encode bs1)) + 24)%nat with (Z.to_nat (off + 24)) in Hs, Hle by (unfold off, Zlen; lia).
  assert (slice (Z.to_nat (off + 24)) (Z.to_nat (off + 24 + db_stored_len b)) (segment_bytes h (blobs_payload (bs1 ++ b :: bs2))) =
    db_bytes b) as Hb.
  { replace (Z.to_nat (off + 24 + db_stored_len b)) with (Z.to_nat (off + 24) + length (db_bytes b))%nat
      by (rewrite Hlen; unfold off, Zlen; lia).
    rewrite Hs. unfold blob_encode, encode_data_blob_record. rewrite slice_skip by (rewrite length_blob_header; lia).
    by rewrite length_blob_header, slice_all by lia. }
  eapply (quiet_then _ _ w); [done| |].
  { eapply (verify_chunks_spec path i _ _ _ (off + 24) _ _ _ w1 Hn); [by rewrite (still_names w)|by rewrite (still_contents w)|..].
    - split; [done|]. unfold VERIFY_CHUNK. pose proof (Z.div_pos (db_stored_len b) (1024 * 1024)).
      pose proof (Z.div_mod (db_stored_len b) (1024 * 1024)). pose proof (Z.mod_pos_bound (db_stored_len b) (1024 * 1024)). lia.
    - unfold off, Zlen. lia.
    - rewrite Hlen. unfold Zlen in *. lia.
    - pose proof (sf_len _ _ _ _ HS). unfold Zlen in *. rewrite length_segment_bytes by apply HS.
      unfold SEGMENT_HEADER_V2_TOTAL_SIZE. lia. }
  intros w2 S2. rewrite Hb, raw_checksum by done. rewrite bool_decide_eq_true_2 by done. cbn [negb andb].
  replace (forallb _ rs) with true; [apply quiet_ret|]. symmetry. apply forallb_forall. intros r Hr.
  rewrite Forall_forall in Hrs. by destruct (raw_extent_matches b r Hwb (Hrs r ltac:(by apply list_elem_of_In)) Hc).
Qed.

(** The steps that read a segment's file and refill what is cached of it. *)
Definition reads_data (path : string) (w w' : World) : Prop :=
  data_only w w' /\ forall q, q <> path -> w_data w' !! q = w_data w !! q /\ w_readers w' !! q = w_readers w !! q.
Lemma reads_still path w w' : still w w' -> reads_data path w w'.
Proof. intros [F S]. split; [by apply data_only_fs|]. intros q _. by rewrite F. Qed.
Lemma reads_trans path w1 w2 w3 : reads_data path w1 w2 -> reads_data path w2 w3 -> reads_data path w1 w3.
Proof.
  intros [O1 Q1] [O2 Q2]. split; [by eapply data_only_trans|]. intros q Hq. destruct (Q1 q Hq), (Q2 q Hq). split; congruence.
Qed.
Lemma still_data w w' path h bs : still w w' -> data_state w path h bs -> data_state w' path h bs.
Proof.
  intros [F S] HD. apply (data_state_same w); [done|by apply data_only_fs|rewrite F; apply HD|].
  rewrite (proj1 S). rewrite F. apply HD.
Qed.

Lemma validate_spec w path h bs1 b bs2 rs :
  no_faults -> data_state w path h (bs1 ++ b :: bs2) -> rs <> [] -> Forall (fun r => sound_extent r b) rs ->
  exists w', validate_active_blob_payload path (meta_at (100 + Zlen (concat (map blob_encode bs1))) b) rs
      no_maintenance_progress w = (Ok tt, w') /\ data_state w' path h (bs1 ++ b :: bs2) /\ reads_data path w w'.
Proof.
  intros Hn HD Hne Hrs. destruct (decide (db_codec b = CNone)) as [Hc|Hc].
  { destruct (validate_raw_spec w path h bs1 b bs2 rs Hn HD Hne Hrs Hc) as (w1 & E1 & F1 & S1).
    exists w1. split_and!; [done|by apply (still_data w)|by apply reads_still]. }
  assert (exists payload, decompress_payload (db_codec b) (db_bytes b) (db_logical_len b) = Ok payload /\
    db_stored_len b <= MAX_COMPRESSED_ACTIVE_BLOB /\
    Forall (fun r => verify_logical_payload_checksum (payload_checksum_algorithm r) (payload_checksum r) payload = Ok tt) rs)
    as (payload & Hdec & Hmax & Hall).
  { destruct rs as [|r0 rs]; [done|]. pose proof Hrs as [((H1 & H2 & _ & H4) & _ & payload & He & _) _]%Forall_cons.
    unfold extent_payload in He. rewrite <- H1, decide_False, <- H2 in He by done. exists payload. split; [done|]. split.
    - unfold decompress_payload in He. apply rbind_Ok in He as (? & Hlim & _). unfold ensure_decompressed_len_within_limit in Hlim.
      case_decide; [done|]. unfold MAX_COMPRESSED_ACTIVE_BLOB. unfold MAX_DECOMPRESSED_PAYLOAD_LEN in *. lia.
    - eapply Forall_impl; [exact Hrs|]. intros r ((G1 & G2 & _ & _) & _ & py & Gp & Gv).
      unfold extent_payload in Gp. rewrite <- G1, decide_False, <- G2 in Gp by done. congruence. }
  unfold validate_active_blob_payload. cbn [blob_codec meta_at blob_stored_len blob_logical_len blob_id].
  rewrite decide_True by done. rewrite decide_False by lia.
  destruct (load_blob_spec w path h _ b Hn HD ltac:(set_solver)) as (w1 & E1 & HD1 & O1 & Q1).
  rewrite (bindM_run _ _ _ _ _ E1). rewrite (bindM_run _ _ w1 payload w1) by (unfold liftM; by rewrite Hdec).
  rewrite (bindM_run _ _ w1 tt w1) by done.
  destruct (quiet_for rs (fun r => liftM (verify_logical_payload_checksum (payload_checksum_algorithm r)
    (payload_checksum r) payload)) w1) as (w2 & E2 & F2 & S2).
  { intros r w' Hr _. apply quiet_lift. rewrite Forall_forall in Hall. by apply Hall. }
  exists w2. split_and!; [done|by apply (still_data w1)|]. eapply reads_trans; [by split|by apply reads_still].
Qed.

(** ** Every active extent *)
Abbreviation segments := (gmap Z (SegmentHeader * list DataBlob)).
Definition seg_states (w : World) (p : LayoutPaths) (segs : segments) : Prop :=
  forall n h bs, segs !! n = Some (h, bs) -> u32_ok n /\ data_state w (data_segment_path p n) h bs.
(** Steps that read data segments and refill what is cached of them. *)
Definition reads_segs (p : LayoutPaths) (segs : segments) (w w' : World) : Prop :=
  data_only w w' /\
  forall q, (forall n, is_Some (segs !! n) -> q <> data_segment_path p n) ->
    w_data w' !! q = w_data w !! q /\ w_readers w' !! q = w_readers w !! q.
Definition extent_stored (segs : segments) (r : BlkMapRecord) : Prop :=
  exists b, blob_in segs (physical_segment_id r) b /\ db_id b = physical_offset r /\ sound_extent r b.

Lemma reads_segs_refl p segs w : reads_segs p segs w w.
Proof. split; [split; [by destruct w|done]|done]. Qed.
Lemma reads_segs_trans p segs w1 w2 w3 : reads_segs p segs w1 w2 -> reads_segs p segs w2 w3 -> reads_segs p segs w1 w3.
Proof.
  intros [O1 Q1] [O2 Q2]. split; [by eapply data_only_trans|]. intros q Hq. destruct (Q1 q Hq), (Q2 q Hq). split; congruence.
Qed.
Lemma reads_segs_still p segs w w' : still w w' -> reads_segs p segs w w'.
Proof. intros [F S]. split; [by apply data_only_fs|]. intros q _. by rewrite F. Qed.
Lemma still_states w w' p segs : still w w' -> seg_states w p segs -> seg_states w' p segs.
Proof. intros S H n h bs E. destruct (H n h bs E). split; [done|by apply (still_data w)]. Qed.

(** Reading one segment. *)
Lemma reads_one w w' p segs n h bs :
  layout_ok p -> seg_states w p segs -> segs !! n = Some (h, bs) -> reads_data (data_segment_path p n) w w' ->
  data_state w' (data_segment_path p n) h bs -> seg_states w' p segs /\ reads_segs p segs w w'.
Proof.
  intros Hlo HG Hn [O Q] HD. split.
  - intros m h' bs' Hm. destruct (HG m h' bs' Hm) as [Hu HDm]. split; [done|].
    destruct (decide (m = n)) as [->|Hne]; [rewrite Hn in Hm; by injection Hm as <- <-|].
    assert (data_segment_path p m <> data_segment_path p n) as Hp.
    { intros E. destruct (HG n h bs Hn) as [Hv _]. unfold u32_ok in *.
      pose proof (lo_inj p Hlo (SData m) (SData n) ltac:(cbn; unfold u64_ok; lia) ltac:(cbn; unfold u64_ok; lia) E). congruence. }
    destruct (Q _ Hp) as [E1 E2]. apply (data_state_same w); [done|done|rewrite E1; apply HDm|].
    rewrite E2, (proj1 (proj2 O)). apply HDm.
  - split; [done|]. intros q Hq. apply Q. apply Hq. eauto.
Qed.

(** The extents by segment and blob. *)
Definition grouped (rs : list BlkMapRecord) (m : gmap Z active_blobs) : Prop :=
  forall n a, m !! n = Some a -> a <> ∅ /\ forall off l, a !! off = Some l -> l <> [] /\
    Forall (fun r => r ∈ rs /\ is_active r /\ physical_segment_id r = n /\ physical_offset r = off) l.

Lemma grouped_add rs m r :
  grouped rs m -> r ∈ rs -> is_active r ->
  grouped rs (<[physical_segment_id r := add_active r (default ∅ (m !! physical_segment_id r))]> m).
Proof.
  intros Hg Hr Ha n a. rewrite lookup_insert_Some. intros [[<- <-]|[Hne Hm]]; [|by apply Hg].
  unfold add_active, active_blobs in *. set (a0 := default ∅ (m !! physical_segment_id r) : gmap Z (list BlkMapRecord)).
  split; [apply insert_non_empty|].
  intros off l. rewrite lookup_insert_Some. intros [[<- <-]|[Hno Hl]].
  - split; [by destruct (default [] _)|]. apply Forall_app. split; [|by apply Forall_singleton].
    destruct (a0 !! physical_offset r) as [l0|] eqn:E; [|apply Forall_nil_2]. unfold a0 in E.
    destruct (m !! physical_segment_id r) as [a1|] eqn:E1; [|by cbn in E; rewrite lookup_empty in E].
    destruct (Hg _ _ E1) as [_ Hl]. by destruct (Hl _ _ E).
  - unfold a0 in Hl. destruct (m !! physical_segment_id r) as [a1|] eqn:E1; [|by cbn in Hl; rewrite lookup_empty in Hl].
    destruct (Hg _ _ E1) as [_ Hl']. by apply Hl'.
Qed.

Lemma resolve_spec w p n d :
  contents (w_fs w) (data_segment_path p n) = Some d -> quiet (resolve_active_segment_seq p n) w n.
Proof.
  intros Hc. unfold resolve_active_segment_seq. eapply quiet_bind; [by eapply quiet_exists|]. intros w' _ _. apply quiet_ret.
Qed.

Definition group_records (l : list BlkMapRecord) (m : gmap Z active_blobs) : gmap Z active_blobs :=
  foldl (fun m r => if is_active r
                    then <[physical_segment_id r := add_active r (default ∅ (m !! physical_segment_id r))]> m else m) m l.
Lemma group_records_spec rs l : forall m, l ⊆ rs -> grouped rs m -> grouped rs (group_records l m).
Proof.
  induction l as [|r l IH]; intros m Hl Hm; [done|]. cbn. apply IH; [set_solver|].
  destruct (is_active r) eqn:Ha; [|done]. apply grouped_add; [done|set_solver|by rewrite Ha].
Qed.
Lemma group_active_spec p segs l : forall m w,
  seg_states w p segs -> Forall (fun r => is_active r -> extent_stored segs r) l ->
  quiet (group_active p l m) w (group_records l m).
Proof.
  induction l as [|r l IH]; intros m w HG Hall; cbn [group_active group_records foldl]; [apply quiet_ret|].
  apply Forall_cons in Hall as [Hr Hall]. destruct (is_active r) eqn:Ha; [|by apply IH].
  destruct (Hr I) as (b & (h & bs & Hseg & Hb) & _).
  destruct (HG _ _ _ Hseg) as [Hu HD]. unfold u32_ok in Hu.
  unfold u32_try_from. rewrite decide_True by lia. cbn [ok_or].
  eapply (quiet_then _ _ w); [apply still_refl|by apply quiet_lift|]. intros w1 S1.
  eapply (quiet_then _ _ w); [done| |].
  { eapply resolve_spec. rewrite (still_contents w) by done. apply (sf_contents _ _ _ _ (ds_file _ _ _ _ HD)). }
  intros w2 S2. apply IH; [by apply (still_states w)|done].
Qed.

(** One segment: every blob that extents name is verified. *)
Lemma check_blobs_spec path h a bs2 : forall bs1 found w,
  no_faults -> data_state w path h (bs1 ++ bs2) ->
  (forall b l, b ∈ bs2 -> a !! db_id b = Some l -> l <> [] /\ Forall (fun r => sound_extent r b) l) ->
  exists found' w', check_blobs path a (metas (100 + Zlen (concat (map blob_encode bs1))) bs2) no_maintenance_progress found w =
      (Ok found', w') /\ data_state w' path h (bs1 ++ bs2) /\ reads_data path w w' /\
    forall x, x ∈ found' <-> x ∈ found \/ (exists b, b ∈ bs2 /\ db_id b = x /\ is_Some (a !! x)).
Proof.
  induction bs2 as [|b bs2 IH]; intros bs1 found w Hn HD Ha; cbn [metas check_blobs].
  { exists found, w. split_and!; [done|done|apply reads_still, still_refl|]. set_solver. }
  assert (100 + Zlen (concat (map blob_encode bs1)) + Zlen (blob_encode b) = 100 + Zlen (concat (map blob_encode (bs1 ++ [b])))) as Eo.
  { rewrite map_app, concat_app. unfold Zlen. rewrite length_app. cbn [map concat]. rewrite app_nil_r. lia. }
  assert (bs1 ++ b :: bs2 = (bs1 ++ [b]) ++ bs2) as Ebs by (by rewrite <- app_assoc).
  cbn [blob_id meta_at]. destruct (a !! db_id b) as [l|] eqn:El.
  - destruct (Ha b l ltac:(set_solver) El) as [Hne Hl].
    assert (forallb (agrees_with (meta_at (100 + Zlen (concat (map blob_encode bs1))) b)) l = true) as Hag.
    { apply forallb_forall. intros r Hr. apply list_elem_of_In in Hr. rewrite Forall_forall in Hl.
      destruct (Hl r Hr) as [(H1 & H2 & H3 & _) _]. apply bool_decide_eq_true. cbn. split_and!; congruence. }
    rewrite Hag. destruct (validate_spec w path h bs1 b bs2 l Hn HD Hne Hl) as (w1 & E1 & HD1 & R1).
    rewrite (bindM_run _ _ _ _ _ E1). rewrite Eo. rewrite Ebs in HD1.
    destruct (IH (bs1 ++ [b]) ({[db_id b]} ∪ found) w1 Hn HD1) as (f' & w' & E & HD' & R & Hf).
    { intros b' l' Hb'. apply Ha. set_solver. }
    exists f', w'. rewrite Ebs. split_and!; [done|done|by eapply reads_trans|]. intros x. rewrite Hf, elem_of_union, elem_of_singleton.
    split; [|set_solver]. intros [[->|?]|?]; [|by left|set_solver]. right. exists b. rewrite El. split_and!; [set_solver|done|eauto].
  - rewrite Eo. rewrite Ebs in HD. destruct (IH (bs1 ++ [b]) found w Hn HD) as (f' & w' & E & HD' & R & Hf).
    { intros b' l' Hb'. apply Ha. set_solver. }
    exists f', w'. rewrite Ebs. split_and!; [done|done|done|]. intros x. rewrite Hf. split; [set_solver|].
    intros [?|(b' & Hb' & <- & Hs)]; [by left|]. apply elem_of_cons in Hb' as [->|Hb']; [|set_solver].
    rewrite El in Hs. by destruct Hs.
Qed.

Definition blob_total (segs : segments) : Z := map_fold (fun _ x acc => Zlen x.2 + acc) 0 segs.
Lemma blob_total_nonneg (segs : segments) : 0 <= blob_total segs.
Proof. apply (map_fold_weak_ind (fun r _ => 0 <= r)); [done|]. intros. unfold Zlen. lia. Qed.
Lemma blob_total_delete (segs : segments) n h bs :
  segs !! n = Some (h, bs) -> blob_total segs = Zlen bs + blob_total (delete n segs).
Proof. intros Hn. unfold blob_total. rewrite (map_fold_delete_L _ _ n (h, bs) segs); [done| |done]. intros. lia. Qed.

Lemma check_segments_spec p segs rs : forall l (left : segments) scanned w,
  no_faults -> layout_ok p -> seg_states w p segs -> left ⊆ segs -> NoDup l.*1 -> (forall n, n ∈ l.*1 -> is_Some (left !! n)) ->
  (forall n a, (n, a) ∈ l -> a <> ∅ /\ forall off k, a !! off = Some k -> k <> [] /\
    Forall (fun r => r ∈ rs /\ is_active r /\ physical_segment_id r = n /\ physical_offset r = off) k) ->
  Forall (fun r => is_active r -> extent_stored segs r) rs -> 0 <= scanned -> scanned + blob_total left <= RECOVERY_MAX_HEADERS ->
  exists w', check_segments p l no_maintenance_progress scanned w = (Ok tt, w') /\ seg_states w' p segs /\ reads_segs p segs w w'.
Proof.
  induction l as [|[n a] l IH]; intros left scanned w Hn Hlo HG Hle Hnd Hl Hg Hall Hs Hm.
  { exists w. split_and!; [done|done|apply reads_segs_refl]. }
  cbn [fmap list_fmap fst] in Hnd. apply NoDup_cons in Hnd as [Hnew Hnd].
  destruct (Hl n) as [[h bs] Hleft]; [apply elem_of_cons; by left|]. pose proof (lookup_weaken _ _ _ _ Hleft Hle) as Hseg.
  destruct (HG _ _ _ Hseg) as [Hu HD]. pose proof (sf_contents _ _ _ _ (ds_file _ _ _ _ HD)) as Hc.
  destruct (Hg n a ltac:(apply elem_of_cons; by left)) as [Hne Hk]. rewrite Forall_forall in Hall.
  assert (NoDup (db_id <$> bs)) as Hids.
  { pose proof (ds_sorted _ _ _ _ HD) as Hso. clear -Hso. change (NoDup (map db_id bs)). induction Hso as [|x q Hq IHq Hf]; constructor; [|done].
    rewrite Forall_forall in Hf. intros Hx. specialize (Hf x Hx). lia. }
  (* every list of extents names one blob of the segment *)
  assert (forall off k, a !! off = Some k -> exists b, b ∈ bs /\ db_id b = off) as Hin.
  { intros off k E. destruct (Hk off k E) as [Hkn Hkf]. destruct k as [|r k]; [done|]. apply Forall_cons in Hkf as [(Hr & Hra & Hrn & Hro) _].
    destruct (Hall r Hr Hra) as (b & (h' & bs' & Hs' & Hb) & Hid & _). rewrite Hrn, Hseg in Hs'. injection Hs' as <- <-.
    exists b. split; [done|congruence]. }
  assert (bs <> []) as Hbs.
  { apply map_choose in Hne as (off & k & E). destruct (Hin off k E) as (b & Hb & _). intros ->. by apply elem_of_nil in Hb. }
  pose proof (blob_total_delete _ _ _ _ Hleft) as Ht. pose proof (blob_total_nonneg (delete n left)) as Ht'.
  assert (0 < Zlen bs) as Hpos by (unfold Zlen; destruct bs; [done|cbn; lia]).
  cbn [check_segments]. rewrite decide_False by lia.
  assert (quiet (active_segment_path p n) w (data_segment_path p n)) as (w1 & E1 & S1).
  { unfold active_segment_path. eapply (quiet_then _ _ w); [apply still_refl|by eapply quiet_exists|]. intros w1 S1.
    unfold path_exists. eapply (quiet_then _ _ w _ (bool_decide (is_Some (file_at (w_fs w1) (data_file p))))); [done| |].
    - exists w1. rewrite io_run. cbn. split_and!; [by destruct w1|by destruct w1|done].
    - intros w2 S2. rewrite andb_false_r. apply quiet_ret. }
  rewrite (bindM_run _ _ _ _ _ E1). pose proof (still_data _ _ _ _ _ S1 HD) as HD1.
  destruct (scan_segment_spec w1 (data_segment_path p n) h bs (RECOVERY_MAX_HEADERS - scanned) Hn HD1 ltac:(lia)) as (w2 & E2 & S2).
  rewrite (bindM_run _ _ _ _ _ E2). cbn [sc_complete sc_blobs negb]. pose proof (still_data _ _ _ _ _ S2 HD1) as HD2.
  destruct (check_blobs_spec (data_segment_path p n) h a bs [] ∅ w2 Hn HD2) as (found & w3 & E3 & HD3 & R3 & Hf).
  { intros b k Hb E. destruct (Hk _ _ E) as [Hkn Hkf]. split; [done|]. eapply Forall_impl; [exact Hkf|].
    intros r (Hr & Hra & Hrn & Hro). destruct (Hall r Hr Hra) as (b' & (h' & bs' & Hs' & Hb') & Hid & Hso).
    rewrite Hrn, Hseg in Hs'. injection Hs' as <- <-. replace b with b'; [done|].
    apply list_elem_of_lookup in Hb as [i Hi]. apply list_elem_of_lookup in Hb' as [j Hj].
    assert (i = j) as <-; [|congruence]. eapply NoDup_lookup; [exact Hids|..]; rewrite list_lookup_fmap.
    - by rewrite Hi.
    - rewrite Hj. cbn. congruence. }
  cbn [map concat] in E3. rewrite (bindM_run _ _ _ _ _ E3).
  unfold active_blobs in *. assert (found = dom a) as ->.
  { apply set_eq. intros x. rewrite Hf, elem_of_dom. split.
    - intros [?%elem_of_empty|(b & _ & _ & ?)]; done.
    - intros [k Ek]. right. destruct (Hin x k Ek) as (b & Hb & <-). exists b. split_and!; [done|done|eauto]. }
  rewrite decide_False by (rewrite size_dom; tauto).
  destruct (reads_one w w3 p segs n h bs Hlo HG Hseg) as [HG3 R03]; [|done|].
  { eapply reads_trans; [by apply reads_still|]. eapply reads_trans; [by apply reads_still|exact R3]. }
  destruct (IH (delete n left) (scanned + Zlen (metas 100 bs)) w3 Hn Hlo HG3) as (w4 & E4 & HG4 & R4); [..|].
  - etransitivity; [apply delete_subseteq|done].
  - done.
  - intros m Hm'. rewrite lookup_delete_ne; [apply Hl; by apply elem_of_cons; right|]. intros ->. done.
  - intros m b Hmb. apply Hg. by apply elem_of_cons; right.
  - by apply Forall_forall.
  - unfold Zlen. lia.
  - assert (Zlen (metas 100 bs) = Zlen bs) as -> by (unfold Zlen; by rewrite <- (length_map blob_id), metas_ids, length_map). lia.
  - exists w4. split_and!; [exact E4|done|by eapply reads_segs_trans].
Qed.

Lemma keyed_values {X} (m : gmap Z X) : (map_to_list (map_imap (fun i x => Some (i, x)) m)).*2 ≡ₚ map_to_list m.
Proof.
  assert (forall i y, (i, y) ∈ map_to_list (map_imap (fun i x => Some (i, x)) m) <-> y.1 = i /\ m !! i = Some y.2) as He.
  { intros i [j x]. rewrite elem_of_map_to_list, map_lookup_imap. cbn. destruct (m !! i); cbn; split; [intros [= <- <-]|intros [-> [= ->]]|..]; naive_solver. }
  apply NoDup_Permutation.
  - apply NoDup_fmap_2_strong; [|apply NoDup_map_to_list]. intros [i y] [j z] [E1 _]%He [E2 _]%He. cbn. congruence.
  - apply NoDup_map_to_list.
  - intros [i x]. rewrite elem_of_map_to_list, list_elem_of_fmap. split.
    + intros ([j y] & E & [Hj Hy]%He). cbn in *. subst y. cbn in *. congruence.
    + intros Hi. exists (i, (i, x)). split; [done|]. by apply He.
Qed.

(** The whole check of the block map. *)
Lemma validate_references_spec w p segs seq log :
  no_faults -> layout_ok p -> blk_state w (blk_map_file p) seq log -> Zlen log <= MAX_MAINTENANCE_METADATA_RECORDS ->
  seg_states w p segs -> (forall r, replay record_id log !! record_id r = Some r -> is_active r -> extent_stored segs r) ->
  blob_total segs <= RECOVERY_MAX_HEADERS ->
  exists w', validate_active_blob_references_for_recovery p no_maintenance_progress w = (Ok tt, w') /\
    blk_state w' (blk_map_file p) seq log /\ seg_states w' p segs /\
    w' = w <| w_fs := w_fs w' |> <| w_blk := w_blk w' |> <| w_data := w_data w' |> <| w_readers := w_readers w' |> /\
    same_files (w_fs w) (w_fs w') /\
    forall q, (forall n, is_Some (segs !! n) -> q <> data_segment_path p n) ->
      w_data w' !! q = w_data w !! q /\ w_readers w' !! q = w_readers w !! q.
Proof.
  intros Hn Hlo HB Hbud HG Hst Htot. unfold validate_active_blob_references_for_recovery, load_blk_map_records.
  destruct (ensure_cache_fresh_spec w _ seq log Hn HB Hbud) as (w1 & e & E1 & He & Hok & HB1 & [F1 S1]).
  unfold bindM at 1. rewrite (bindM_run _ _ _ _ _ E1).
  rewrite (bindM_run (cached_blk _) _ w1 e w1) by (unfold cached_blk, bindM, getM, liftM; by rewrite He).
  unfold retM at 1. cbn [fst snd].
  assert (seg_states w1 p segs) as HG1.
  { intros n h bs E. destruct (HG n h bs E) as [Hu HD]. split; [done|]. eapply (data_state_moved w w1 []); [done| |set_solver|by rewrite F1..].
    apply moved_same; [apply (ds_file _ _ _ _ HD)|done|by rewrite F1]. }
  assert (Forall (fun r => is_active r -> extent_stored segs r) (bc_records e)) as Hall.
  { apply Forall_forall. intros r Hr. apply Hst. destruct (co_tracks _ _ _ Hok) as [_ Ht]. by apply Ht. }
  destruct (group_active_spec p segs (bc_records e) ∅ w1 HG1 Hall) as (w2 & E2 & S2).
  rewrite (bindM_run _ _ _ _ _ E2).
  set (m := group_records (bc_records e) ∅).
  assert (grouped (bc_records e) m) as Hm by (apply group_records_spec; [done|]; intros n a; by rewrite lookup_empty).
  set (l := hash_values _).
  assert (l ≡ₚ map_to_list m) as Hl.
  { unfold l. rewrite hash_values_perm. apply keyed_values. }
  pose proof (still_states _ _ _ _ S2 HG1) as HG2.
  destruct (check_segments_spec p segs (bc_records e) l segs 0 w2 Hn Hlo HG2) as (w3 & E3 & HG3 & R3); [..|].
  - done.
  - rewrite Hl. apply NoDup_fst_map_to_list.
  - intros n. rewrite Hl. intros ([n' a] & -> & Ha%elem_of_map_to_list)%list_elem_of_fmap. cbn.
    destruct (Hm _ _ Ha) as [Hne Hk]. unfold active_blobs in *. apply map_choose in Hne as (off & k & Ek).
    destruct (Hk _ _ Ek) as [Hkn Hkf]. destruct k as [|r k]; [done|]. apply Forall_cons in Hkf as [(Hr & Hra & <- & _) _].
    rewrite Forall_forall in Hall. destruct (Hall r Hr Hra) as (b & (h & bs & Hs & _) & _). eauto.
  - intros n a. rewrite Hl. intros Ha%elem_of_map_to_list. by apply Hm.
  - done.
  - lia.
  - lia.
  - rewrite E3. exists w3. split; [done|]. destruct R3 as [[F3 S3] Q3]. destruct S2 as [F2 S2].
    assert (w3 = w <| w_fs := w_fs w3 |> <| w_blk := w_blk w3 |> <| w_data := w_data w3 |> <| w_readers := w_readers w3 |>) as F
      by (rewrite F3, F2, F1; done).
    assert (same_files (w_fs w) (w_fs w3)) as S by eauto using same_files_trans.
    split_and!; [|done|done|done|].
    + eapply (blk_state_moved w1 w3 []); [done| |set_solver|by rewrite F3, F2]. apply moved_same; [apply HB1|eauto using same_files_trans|].
      by rewrite F3, F2.
    + intros q Hq. destruct (Q3 q Hq) as [-> ->]. rewrite F2, F1. done.
Qed.
End Laws.
