(* ===== verification/SideLaws.v ===== *)
(** * The files beside the block map

    What recovery needs of the metadata it does not rebuild: sizes within the
    budget, a deduplication index and a reclaim list that load, filemarks that
    are as long as they say. *)

From S2P Require Import Prelude Bytes Text Errors Fs Layout TapeState Compression Records.
From S2P Require Import World Crc Segment Footprint Checkpoint Logs BlkMap MapLookup Dedup Reclaim.
From S2P Require Import RuntimeState SegmentIndex Slots IndexState DataBlobs BlobStore DataPath Store Reset Recovery ScanLaws.

Section Laws.
Context `{HOST : Host} `{ENV : Environ} `{CL : Crc32cLaws} `{HOL : HashOrderLaws} `{BC : BlockCodecs}
  `{B3 : Blake3}.

(** ** Sizes *)
Definition file_size (fs : Fs) (q : string) : Z := match contents fs q with Some d => Zlen d | None => 0 end.
Definition total_size (fs : Fs) (l : list string) : Z := foldr (fun q acc => file_size fs q + acc) 0 l.

Lemma file_size_nonneg fs q : 0 <= file_size fs q.
Proof. unfold file_size. destruct (contents fs q); unfold Zlen; lia. Qed.
Lemma total_size_nonneg fs l : 0 <= total_size fs l.
Proof.
  induction l as [|q l IH]; [done|]. change (0 <= file_size fs q + total_size fs l). pose proof (file_size_nonneg fs q). lia.
Qed.
Lemma still_size w w' l : still w w' -> total_size (w_fs w') l = total_size (w_fs w) l.
Proof.
  intros S. induction l as [|q l IH]; [done|].
  change (file_size (w_fs w') q + total_size (w_fs w') l = file_size (w_fs w) q + total_size (w_fs w) l). rewrite IH. f_equal.
  unfold file_size. by rewrite (still_contents w).
Qed.

(** The answer of the file system about a name, as the code sees it. *)
Definition metadata_of (fs : Fs) (q : string) : Result IoError (Z * Z) :=
  match file_at fs q with Some n => Ok (Zlen (i_data n), i_mtime n) | None => Err not_found end.
Lemma quiet_metadata_of w q : no_faults -> quiet (io_raw (fs_metadata q)) w (metadata_of (w_fs w) q).
Proof.
  intros Hn. unfold quiet, io_raw, tryM, zoomM, fs_metadata, bindM. rewrite io_step_ok by done. unfold getM.
  change (file_at _ q) with (file_at (w_fs w) q). unfold metadata_of. destruct (file_at (w_fs w) q); cbn;
    (eexists; split; [reflexivity|]; by cbn).
Qed.

Lemma metadata_total_spec l : forall total w,
  no_faults -> 0 <= total -> total + total_size (w_fs w) l <= MAX_MAINTENANCE_METADATA_BYTES ->
  quiet (metadata_total l total) w (total + total_size (w_fs w) l).
Proof.
  induction l as [|q l IH]; intros total w Hn H0 Hm; cbn [metadata_total total_size foldr].
  { rewrite Z.add_0_r. apply quiet_ret. }
  pose proof (total_size_nonneg (w_fs w) l) as Hl. pose proof (file_size_nonneg (w_fs w) q) as Hq.
  change (total_size (w_fs w) (q :: l)) with (file_size (w_fs w) q + total_size (w_fs w) l) in Hm.
  eapply (quiet_then _ _ w); [apply still_refl|by apply quiet_metadata_of|]. intros w1 S1.
  assert (total_size (w_fs w1) l = total_size (w_fs w) l) as El by (by apply still_size).
  fold (total_size (w_fs w) l) in *. unfold metadata_of, file_size, contents in *.
  destruct (file_at (w_fs w) q) as [n|]; cbn [fmap option_fmap option_map] in *.
  - rewrite decide_False by lia.
    eapply (quiet_then _ _ w _ (total + Zlen (i_data n))); [done| |].
    { apply quiet_lift. unfold checked_add64. unfold MAX_MAINTENANCE_METADATA_BYTES in Hm. by rewrite decide_True by lia. }
    intros w2 S2. assert (total_size (w_fs w2) l = total_size (w_fs w) l) as El2 by (by apply still_size).
    rewrite Z.add_assoc, <- El2. apply IH; [done|unfold Zlen; lia|rewrite El2; lia].
  - cbn [not_found io_kind]. rewrite decide_True by done. rewrite Z.add_0_l, <- El. apply IH; [done|done|]. rewrite El. lia.
Qed.

Lemma preflight_spec w l :
  no_faults -> total_size (w_fs w) l <= MAX_MAINTENANCE_METADATA_BYTES ->
  quiet (preflight_maintenance_metadata l) w tt.
Proof.
  intros Hn Hm. unfold preflight_maintenance_metadata. pose proof (total_size_nonneg (w_fs w) l) as Hl.
  unfold MAX_MAINTENANCE_METADATA_BYTES in *.
  eapply (quiet_then _ _ w); [apply still_refl|apply (metadata_total_spec l 0 w Hn); [lia|exact Hm]|]. intros w1 S1.
  eapply (quiet_then _ _ w); [done|apply quiet_lift; by rewrite decide_True by lia|]. intros w2 S2. cbn beta.
  rewrite decide_False; [apply quiet_ret|]. unfold MAX_LIVE_METADATA_ESTIMATE_BYTES. lia.
Qed.

(** ** Filemarks *)
Definition marks_ok (fs : Fs) (path : string) : Prop :=
  match contents fs path with
  | None => True
  | Some d => 8 <= Zlen d /\ from_le (slice 0 8 d) <= MAX_MAINTENANCE_METADATA_RECORDS /\ Zlen d = 8 + from_le (slice 0 8 d) * 8
  end.
Lemma marks_spec w dir :
  no_faults -> marks_ok (w_fs w) (path_join dir FILEMARKS_STATE_FILE) -> quiet (preflight_filemarks_record_limit dir) w tt.
Proof.
  intros Hn Hm. unfold preflight_filemarks_record_limit. set (path := path_join dir FILEMARKS_STATE_FILE) in *.
  eapply (quiet_then _ _ w); [apply still_refl|by apply quiet_metadata_of|]. intros w1 S1. unfold marks_ok in Hm.
  unfold metadata_of. destruct (contents (w_fs w) path) as [d|] eqn:Ec; unfold contents in Ec;
    destruct (file_at (w_fs w) path) as [n|] eqn:Ef; try done.
  2:{ cbn [not_found io_kind]. rewrite decide_True by done. apply quiet_ret. }
  injection Ec as <-. destruct Hm as (H1 & H2 & H3). rewrite decide_False by lia.
  assert (contents (w_fs w1) path = Some (i_data n)) as Hc1 by (rewrite (still_contents w) by done; unfold contents; by rewrite Ef).
  destruct (quiet_open_at w1 path _ Hn Hc1) as (i & Q & Hi). eapply (quiet_then _ _ w); [done|exact Q|]. intros w2 S2.
  assert (contents (w_fs w2) path = Some (i_data n)) as Hc2 by (rewrite (still_contents w) by done; unfold contents; by rewrite Ef).
  destruct (quiet_metadata w2 path _ Hn Hc2) as (t & Q2). eapply (quiet_then _ _ w); [done|exact Q2|]. intros w3 S3.
  eapply (quiet_then _ _ w _ (slice 0 8 (i_data n))); [done| |].
  { unfold quiet. rewrite io_run. rewrite (fs_read_exact_ok (w_fs w3) path i (i_data n) 0 8 Hn).
    - eexists. split; [reflexivity|]. by cbn.
    - rewrite (still_names w) by done. by rewrite <- (still_names w w1).
    - rewrite (still_contents w) by done. unfold contents. by rewrite Ef.
    - unfold Zlen in H1. lia. }
  intros w4 S4. cbv zeta. rewrite decide_False by lia. rewrite decide_False by lia. apply quiet_ret.
Qed.

(** ** The deduplication index *)
Record dedup_state (w : World) (path : string) (entries : list DedupIndexEntry) : Prop := {
  dd_file : exists id seq payload, log_file w Layout.Dedup path id seq payload /\
    Dedup.decode_payload payload = Ok entries /\ 96 + Zlen payload <= MAX_MAINTENANCE_METADATA_BYTES /\
    (payload = [] \/ starts_with Dedup.LOG_PREFIX payload = true);
  dd_count : Zlen entries <= MAX_MAINTENANCE_METADATA_RECORDS;
  dd_versions : Forall (fun e => u8_ok (identity_version e)) entries;
  dd_cache : forall c, w_dedup w !! path = Some c -> dc_entries c = entries
}.
Definition dedup_only (w w' : World) : Prop := w' = w <| w_fs := w_fs w' |> <| w_dedup := w_dedup w' |>.
Definition dedup_touch (w w' : World) : Prop :=
  w' = w <| w_fs := w_fs w' |> <| w_append := w_append w' |> <| w_known_dirs := w_known_dirs w' |> <| w_dedup := w_dedup w' |>.

Lemma load_dedup_spec w path entries :
  no_faults -> dedup_state w path entries ->
  exists n w', load_dedup_index path w = (Ok (n, entries), w') /\ dedup_state w' path entries /\ dedup_only w w' /\
    same_files (w_fs w) (w_fs w').
Proof.
  intros Hn [(id & seq & payload & HL & Hdec & Hb & Hp) Hcnt Hver Hcache].
  assert (forall w1, w1 = w <| w_fs := w_fs w1 |> <| w_dedup := w_dedup w1 |> -> same_files (w_fs w) (w_fs w1) ->
    (forall c, w_dedup w1 !! path = Some c -> dc_entries c = entries) -> dedup_state w1 path entries) as Hst.
  { intros w1 F1 S1 Hc. split; [|done|done|done]. exists id, seq, payload. split; [|done]. apply (log_file_same w); [done|by rewrite F1|done]. }
  assert (exists c w', Dedup.ensure_cache_fresh path w = (Ok tt, w') /\ w_dedup w' !! path = Some c /\ dc_entries c = entries /\
    dedup_state w' path entries /\ dedup_only w w' /\ same_files (w_fs w) (w_fs w')) as (c & w' & E & Hc & Hce & HD & F & S).
  { unfold Dedup.ensure_cache_fresh, bindM at 1, getM. destruct (trust_hot_cache && _) eqn:ET.
    { apply andb_true_iff in ET as [_ [c Hc]%bool_decide_eq_true]. exists c, w. split_and!; [done|done|auto| |by destruct w|done].
      apply Hst; [by destruct w|done|done]. }
    clear ET. destruct (file_stamp_ok w path _ Hn (lf_contents _ _ _ _ _ _ HL)) as (n & w1 & E1 & _ & F1 & S1).
    rewrite (bindM_run _ _ _ _ _ E1). unfold bindM at 1. assert (w_dedup w1 = w_dedup w) as D1 by (by rewrite F1).
    assert (dedup_only w w1) as O1 by (unfold dedup_only; rewrite F1; done).
    case_bool_decide as Hs.
    { destruct (w_dedup w1 !! path) as [c|] eqn:Ec; [|done]. exists c, w1.
      assert (forall c', w_dedup w1 !! path = Some c' -> dc_entries c' = entries) as Hc1 by (rewrite D1; done).
      split_and!; [done|done|auto|by apply Hst|done|done]. }
    destruct (read_bounded_ok w1 Layout.Dedup path id seq payload _ Hn ltac:(apply (log_file_same w); [done|by rewrite F1|done]) Hb)
      as (w2 & E2 & F2 & S2).
    rewrite (bindM_run _ _ _ _ _ E2). unfold bindM at 1, liftM. rewrite Hdec.
    eexists _, _. split; [reflexivity|]. cbn [w_dedup]. split; [apply lookup_insert_eq|]. split; [done|].
    assert (dedup_only w w2) as O2 by (unfold dedup_only; rewrite F2, O1; done). split_and!.
    - apply Hst; [unfold dedup_only in O2; rewrite O2; done|cbn; eauto using same_files_trans|]. cbn. intros c'. rewrite lookup_insert_eq. by intros [= <-].
    - unfold dedup_only in *. rewrite O2. done.
    - cbn. eauto using same_files_trans. }
  unfold load_dedup_index. rewrite (bindM_run _ _ _ _ _ E).
  rewrite (bindM_run (cached_dedup path) _ w' c w') by (unfold cached_dedup, bindM, getM, liftM; by rewrite Hc).
  rewrite Hce. eexists _, w'. by split_and!.
Qed.

Lemma dedup_encode_all_ok (l : list DedupIndexEntry) :
  Forall (fun e => u8_ok (identity_version e)) l -> bytes_ok (encode_all l).
Proof.
  induction 1 as [|e l He _ IH]; [apply Forall_nil_2|]. change (bytes_ok (dedup_encode e ++ encode_all l)).
  apply Forall_app. split; [|done]. unfold dedup_encode. unfold bytes_ok. rewrite !Forall_app.
  split_and!; try apply to_le_ok; [by destruct (d_compression e); repeat constructor|by apply Forall_singleton|].
  apply Forall_cons. split; [|apply Forall_singleton]; unfold u8_ok; lia.
Qed.

Lemma dedup_update_spec w path seq entries d :
  no_faults -> contents (w_fs w) path = Some d ->
  exists w', Dedup.update_cache path seq entries w = (Ok tt, w') /\ dedup_only w w' /\ same_files (w_fs w) (w_fs w').
Proof.
  intros Hn Hc. destruct (file_stamp_ok w path d Hn Hc) as (n & w1 & E1 & _ & F1 & S1).
  unfold Dedup.update_cache. rewrite (bindM_run _ _ _ _ _ E1). eexists. split; [reflexivity|]. split; [|done].
  unfold dedup_only. rewrite F1. done.
Qed.

(** The log format, then the counts that changed. *)
Lemma ensure_dedup_format_spec w path entries :
  no_faults -> with_extension_tmp path <> path -> dedup_state w path entries ->
  exists w' h payload, Dedup.ensure_log_format path entries w = (Ok tt, w') /\ dedup_touch w w' /\
    moved (path_files path) w w' /\ seg_file w' path h payload /\ kind h = Layout.Dedup /\
    starts_with Dedup.LOG_PREFIX payload = true /\ 96 + Zlen payload <= MAX_MAINTENANCE_METADATA_BYTES.
Proof.
  intros Hn Ht [(id & seq & payload & HL & Hdec & Hb & Hp) Hcnt Hver Hcache]. unfold Dedup.ensure_log_format.
  destruct (read_bounded_ok w Layout.Dedup path id seq payload _ Hn HL Hb) as (w1 & E1 & F1 & S1).
  rewrite (bindM_run _ _ _ _ _ E1).
  assert (log_file w1 Layout.Dedup path id seq payload) as HL1 by (apply (log_file_same w); [done|by rewrite F1|done]).
  assert (moved (path_files path) w w1) as M1 by (apply moved_same; [apply HL|done|by rewrite F1]).
  destruct Hp as [->|Hp]; cycle 1.
  { rewrite Hp. apply log_file_seg in HL1 as (HS & _ & _). eexists w1, _, payload.
    split_and!; [done|unfold dedup_touch; rewrite F1; done|done|exact HS|done|done|done]. }
  change (starts_with Dedup.LOG_PREFIX []) with false. cbn in Hdec. injection Hdec as <-.
  unfold persist_dedup_entries.
  destruct (write_log_moved w1 path Layout.Dedup 5 0 (Dedup.encode_log_payload []) Hn) as (w2 & E2 & F2 & M2 & HL2);
    [apply HL1|done|unfold u64_ok; lia|unfold u64_ok; lia|by apply (bool_decide_unpack (Forall u8_ok _)); vm_compute|by vm_compute|].
  change (Zlen []) with 0. rewrite (bindM_run _ _ _ _ _ E2).
  destruct (dedup_update_spec w2 path 0 [] _ Hn (lf_contents _ _ _ _ _ _ HL2)) as (w3 & E3 & O3 & S3).
  assert (w_append w3 = w_append w2) as A3 by (rewrite O3; done).
  apply log_file_seg in HL2 as (HS2 & _ & _). eexists w3, _, _. split_and!; [exact E3| | |eapply (seg_file_same w2); [exact S3|by rewrite A3|exact HS2]|done|done|by vm_compute].
  - unfold dedup_touch. rewrite O3, F2, F1. done.
  - eapply moved_trans; [exact M1|]. eapply moved_trans; [exact M2|]. apply moved_same; [apply HS2|done|done].
Qed.

Lemma append_counts_spec w path h payload refs changed rebuilt :
  no_faults -> with_extension_tmp path <> path -> seg_file w path h payload -> kind h = Layout.Dedup ->
  starts_with Dedup.LOG_PREFIX payload = true -> 96 + Zlen payload <= MAX_MAINTENANCE_METADATA_BYTES ->
  Forall (fun e => u8_ok (identity_version e)) changed -> Zlen changed <= MAX_MAINTENANCE_METADATA_RECORDS ->
  exists w' h' payload', (if decide (changed = []) then Dedup.update_cache path 0 rebuilt
      else let! header := append_segment_payload path Layout.Dedup 5 Dedup.LOG_PREFIX (encode_all (rebuilt_entry refs <$> changed)) false in
           Dedup.update_cache path (sequence header) rebuilt) w = (Ok tt, w') /\ seg_file w' path h' payload' /\
      dedup_touch w w' /\ moved (path_files path) w w'.
Proof.
  intros Hn Ht HS Hk Hp Hl Hv Hc. unfold MAX_MAINTENANCE_METADATA_BYTES in Hl. case_decide as Hch.
  { destruct (dedup_update_spec w path 0 rebuilt _ Hn (sf_contents _ _ _ _ HS)) as (w1 & E1 & O1 & S1).
    assert (w_append w1 = w_append w) as A1 by (rewrite O1; done).
    exists w1, h, payload. split_and!; [done|eapply (seg_file_same w); [exact S1|by rewrite A1|exact HS]| |].
    - unfold dedup_touch, dedup_only in *. rewrite O1. done.
    - apply moved_same; [apply HS|done|done]. }
  set (data := encode_all (rebuilt_entry refs <$> changed)).
  assert (length data = length changed * 52)%nat as El by (unfold data; by rewrite length_encode_all, length_fmap).
  assert (data <> []) as Hne by (intros E; rewrite E in El; destruct changed; [done|cbn in El; lia]).
  assert (bytes_ok data) as Hbd by (by apply dedup_encode_all_ok, Forall_fmap).
  unfold MAX_MAINTENANCE_METADATA_RECORDS in Hc.
  destruct (append_any_spec w path h payload 5 Dedup.LOG_PREFIX [data] false true Hn HS Ht)
    as (w1 & E1 & F1 & Fr1 & _ & HS1); [cbn; by rewrite app_nil_r| | |..].
  - right. unfold starts_with in Hp. by apply bool_decide_eq_true in Hp.
  - unfold u64_ok. lia.
  - cbn [concat]. rewrite app_nil_r. apply Forall_app. split; [by apply (bool_decide_unpack (Forall u8_ok _)); vm_compute|done].
  - cbn [concat]. rewrite app_nil_r. unfold Zlen in *. rewrite length_app. change (length Dedup.LOG_PREFIX) with 4%nat. lia.
  - by left.
  - rewrite Hk in E1. unfold append_segment_payload. rewrite (bindM_run _ _ _ _ _ E1).
    destruct (dedup_update_spec w1 path (sequence (grown_header h 5 Dedup.LOG_PREFIX payload [data] true)) rebuilt _ Hn
      (sf_contents _ _ _ _ HS1)) as (w2 & E2 & O2 & S2).
    assert (w_append w2 = w_append w1) as A2 by (rewrite O2; done).
    eexists w2, _, _. split_and!; [exact E2|eapply (seg_file_same w1); [exact S2|by rewrite A2|exact HS1]| |].
    + unfold dedup_touch, dedup_only in *. rewrite O2, F1. done.
    + eapply moved_trans; [|apply moved_same; [apply HS1|exact S2|done]].
      apply (moved_run _ _ _ _ _ E1); [done|]. intros q Hq. unfold path_files in Hq. apply spares_append_parts; set_solver.
Qed.

Lemma rebuild_refs_spec w path entries referenced :
  no_faults -> with_extension_tmp path <> path -> dedup_state w path entries -> Zlen referenced <= U32_MAX ->
  exists n w' h payload, rebuild_ref_counts path referenced w = (Ok n, w') /\ seg_file w' path h payload /\
    dedup_touch w w' /\ moved (path_files path) w w'.
Proof.
  intros Hn Ht HD Hr. destruct (load_dedup_spec w path entries Hn HD) as (s1 & w1 & E1 & HD1 & O1 & S1).
  unfold rebuild_ref_counts. rewrite (bindM_run _ _ _ _ _ E1).
  destruct (count_refs referenced ∅) as [refs|e] eqn:Ec; cycle 1.
  { exfalso. pose proof (count_refs_spec referenced ∅) as H. rewrite Ec in H.
    destruct H as [_ [i Hi]]; [intros i; rewrite lookup_empty; cbn; lia|]. rewrite lookup_empty in Hi. cbn in Hi.
    pose proof (length_filter (fun x => x = i) referenced). unfold Zlen in *. lia. }
  rewrite (bindM_run _ _ w1 refs w1) by done.
  destruct (ensure_dedup_format_spec w1 path entries Hn Ht HD1) as (w2 & h & payload & E2 & T2 & M2 & HS2 & Hk & Hp & Hl).
  rewrite (bindM_run _ _ _ _ _ E2). cbv zeta. set (changed := filter _ entries). set (rebuilt := rebuilt_entry refs <$> entries).
  destruct (append_counts_spec w2 path h payload refs changed rebuilt Hn Ht HS2 Hk Hp Hl) as (w3 & h' & payload' & E3 & HS3 & T3 & M3).
  - apply list.Forall_forall. intros e [_ He]%list_elem_of_filter. exact (proj1 (list.Forall_forall _ _) (dd_versions _ _ _ HD) e He).
  - pose proof (dd_count _ _ _ HD) as Hc. unfold changed, Zlen in *.
    pose proof (length_filter (fun e => ref_count e <> default 0 (refs !! entry_id e)) entries). lia.
  - rewrite (bindM_run _ _ _ _ _ E3). eexists _, w3, h', payload'. split_and!; [reflexivity|done| |].
    + unfold dedup_touch, dedup_only in *. rewrite T3, T2, O1. done.
    + eapply moved_trans; [|eapply moved_trans; [exact M2|exact M3]]. destruct (dd_file _ _ _ HD) as (? & ? & ? & HL & _).
      apply moved_same; [apply HL|done|rewrite O1; done].
Qed.

(** ** The reclaim list *)
Definition reclaim_payload (cs : list ReclaimCandidate) : list Z := to_le 8 (Zlen cs) ++ encode_all cs.
Record reclaim_state (w : World) (path : string) (cs : list ReclaimCandidate) : Prop := {
  rs_file : exists id seq payload, log_file w Layout.Reclaim path id seq payload /\
    (payload = reclaim_payload cs \/ payload = [] /\ cs = []);
  rs_count : Zlen cs <= MAX_MAINTENANCE_METADATA_RECORDS;
  rs_wf : Forall wf_candidate cs
}.

Lemma length_reclaim cs : Zlen (reclaim_payload cs) = 8 + Zlen cs * 25.
Proof.
  unfold reclaim_payload, Zlen. rewrite length_app, length_to_le, length_encode_all.
  cbn [rec_size ReclaimCandidate_codec]. unfold RECLAIM_RECORD_SIZE. lia.
Qed.
Lemma load_reclaim_spec w path cs :
  no_faults -> reclaim_state w path cs -> quiet (load_reclaim_candidates path) w cs.
Proof.
  intros Hn [(id & seq & payload & HL & Hp) Hc Hw]. unfold load_reclaim_candidates.
  unfold MAX_MAINTENANCE_METADATA_RECORDS in Hc. pose proof (length_reclaim cs) as Hl.
  assert (0 <= Zlen cs) as H0 by (unfold Zlen; lia).
  assert (96 + Zlen payload <= MAX_MAINTENANCE_METADATA_BYTES) as Hb.
  { unfold MAX_MAINTENANCE_METADATA_BYTES. destruct Hp as [->|[-> _]]; [lia|by vm_compute]. }
  eapply quiet_bind; [exact (read_bounded_ok w Layout.Reclaim path id seq payload _ Hn HL Hb)|]. intros w1 F1 S1.
  destruct Hp as [->|[-> ->]]; [|rewrite decide_True by done; apply quiet_ret].
  rewrite decide_False by (intros E; rewrite E in Hl; unfold Zlen in *; cbn in Hl; lia).
  rewrite decide_False by (unfold Zlen in *; lia).
  assert (from_le (slice 0 8 (reclaim_payload cs)) = Zlen cs) as ->.
  { unfold reclaim_payload. rewrite slice_here by (by rewrite length_to_le). apply from_le_to_le. cbn. lia. }
  eapply (quiet_then _ _ w1 _ (Zlen cs)); [apply still_refl|apply quiet_lift|].
  { unfold checked_metadata_record_count, MAX_MAINTENANCE_METADATA_RECORDS. by rewrite decide_False by lia. }
  intros w2 S2. rewrite decide_False.
  2:{ rewrite Hl. replace (sat_sub (8 + Zlen cs * 25) 8) with (Zlen cs * 25) by (unfold sat_sub; lia).
      change (Z.of_nat RECLAIM_RECORD_SIZE) with 25. rewrite Z.div_mul by lia. lia. }
  apply quiet_lift. unfold decode_counted, reclaim_payload. rewrite drop_app_length' by (by rewrite length_to_le).
  rewrite take_ge.
  - exact (decode_all_encode cs Hw).
  - change RECLAIM_RECORD_SIZE with (rec_size (A := ReclaimCandidate)). rewrite chunks_encode_all, length_map. unfold Zlen. lia.
Qed.

Lemma candidate_encode_ok (l : list ReclaimCandidate) : bytes_ok (encode_all l).
Proof.
  induction l as [|c l IH]; [apply Forall_nil_2|]. change (bytes_ok (candidate_encode c ++ encode_all l)).
  apply Forall_app. split; [|done]. unfold candidate_encode, bytes_ok. rewrite !Forall_app.
  split_and!; try apply to_le_ok; [apply Forall_singleton; by destruct (reason c)|apply Forall_singleton; by destruct (safe_to_reclaim c)|].
  by apply Forall_replicate.
Qed.
Lemma persist_reclaim_spec w path cs :
  no_faults -> wf_fs (w_fs w) -> with_extension_tmp path <> path -> Zlen cs <= MAX_MAINTENANCE_METADATA_RECORDS ->
  Forall wf_candidate cs ->
  exists w', persist_candidates path cs w = (Ok tt, w') /\ reclaim_state w' path cs /\ files_only w w' /\
    moved (path_files path) w w'.
Proof.
  intros Hn Hw Ht Hc Hwf. unfold persist_candidates. fold (reclaim_payload cs). pose proof (length_reclaim cs) as Hl.
  unfold MAX_MAINTENANCE_METADATA_RECORDS in Hc. assert (0 <= Zlen cs) as H0 by (unfold Zlen; lia).
  destruct (write_log_moved w path Layout.Reclaim 4 (Zlen cs) (reclaim_payload cs) Hn Hw Ht) as (w1 & E1 & F1 & M1 & HL1);
    [unfold u64_ok; lia|unfold u64_ok; lia| |lia|].
  { apply Forall_app. split; [apply to_le_ok|apply candidate_encode_ok]. }
  exists w1. split_and!; [done| |done|done]. split; [|done|done]. eexists _, _, _. split; [exact HL1|by left].
Qed.

(** ** Temporary files *)
Lemma six_digits_suffix pre suf name : is_Some (six_digits pre suf name) -> exists l, name = l ++ suf.
Proof.
  unfold six_digits. case_decide as H; [|by intros [? ?]]. intros _. destruct H as (_ & H & _).
  exists (take (length name - length suf) name). rewrite <- H at 2. by rewrite take_drop.
Qed.
Lemma slot_not_stage t : slot_ok t -> is_reclaim_stage_name (slot_name t) = false.
Proof.
  intros Ht. apply bool_decide_eq_false. intros [l E]%six_digits_suffix.
  destruct t as [| | | | | |n]; try (apply (f_equal last) in E; rewrite last_app in E; by vm_compute in E).
  cbn [slot_name slot_ok] in *. change (bytes_of_string ".reclaim-stage.seg") with
    (bytes_of_string ".reclaim-stage" ++ bytes_of_string ".seg") in E. rewrite !app_assoc in E. apply app_inv_tail in E.
  apply (f_equal last) in E. rewrite !last_app in E. change (last (bytes_of_string ".reclaim-stage")) with (Some 101) in E.
  destruct (last (pad6 n)) as [x|] eqn:El; [|by vm_compute in E]. injection E as ->.
  apply last_Some_elem_of in El. pose proof (pad6_ok n ltac:(unfold u64_ok in Ht; lia)) as Hd.
  rewrite list.Forall_forall in Hd. specialize (Hd _ El). unfold is_digit in Hd. lia.
Qed.
Lemma slot_not_tmp t : is_data_segment_tmp_name (slot_name t) = false.
Proof.
  apply bool_decide_eq_false. intros [l E]%six_digits_suffix. apply (f_equal last) in E. rewrite last_app in E.
  change (last (bytes_of_string ".tmp")) with (Some 112) in E. destruct (slot_name_last t) as [H|H]; rewrite H in E; done.
Qed.
Lemma slot_not_fixed d t name : slot_ok t -> name ∈ fixed_temps -> slot_path (paths_in d) t <> path_join d name.
Proof.
  intros Ht Hin E. apply (f_equal bytes_of_string) in E. rewrite slot_path_bytes, path_join_bytes in E by done.
  apply app_inv_head in E. assert (last (bytes_of_string name) = Some 112) as Hl.
  { assert (Forall (fun n => last (bytes_of_string n) = Some 112) fixed_temps) as H
      by (apply (bool_decide_unpack (Forall _ _)); by vm_compute).
    rewrite list.Forall_forall in H. by apply H. }
  rewrite <- E in Hl. destruct (slot_name_last t) as [H|H]; rewrite H in Hl; done.
Qed.

Lemma remove_one_spec w path :
  no_faults -> wf_fs (w_fs w) -> is_Some (fs_names (w_fs w) !! path) ->
  exists w', io (fs_remove path) w = (Ok tt, w') /\ w' = w <| w_fs := w_fs w' |> /\ moved [path] w w' /\
    fs_names (w_fs w') = delete path (fs_names (w_fs w)).
Proof.
  intros Hn Hw [i Hi]. destruct (fs_remove_ok _ _ _ Hn Hw Hi) as (fs' & E & N & Fr).
  rewrite io_run, E. eexists. split; [reflexivity|]. split_and!; [by cbn| |done]. split; [done|].
  intros q Hq. split; [|done]. cbn. rewrite N. apply lookup_delete_ne. set_solver.
Qed.
Lemma remove_fixed_spec dir : forall names removed w,
  no_faults -> wf_fs (w_fs w) ->
  exists r w', remove_fixed_temps dir names removed w = (Ok r, w') /\ w' = w <| w_fs := w_fs w' |> /\
    moved (path_join dir <$> names) w w'.
Proof.
  induction names as [|name names IH]; intros removed w Hn Hw.
  { eexists _, w. split_and!; [done|by destruct w|by apply moved_same]. }
  cbn [remove_fixed_temps]. destruct (quiet_metadata_of w (path_join dir name) Hn) as (w1 & E1 & F1 & S1).
  assert (moved (path_join dir <$> name :: names) w w1) as M1 by (apply moved_same; [done|done|by rewrite F1]).
  rewrite (bindM_run _ _ _ _ _ E1). unfold metadata_of. destruct (file_at (w_fs w) (path_join dir name)) as [n|] eqn:Ef.
  - destruct (remove_one_spec w1 (path_join dir name) Hn) as (w2 & E2 & F2 & M2 & _); [apply M1| |].
    { rewrite (proj1 S1). unfold file_at in Ef. by destruct (fs_names (w_fs w) !! path_join dir name). }
    rewrite (bindM_run _ _ _ _ _ E2). destruct (IH true w2 Hn ltac:(apply M2)) as (r & w3 & E3 & F3 & M3).
    exists r, w3. split_and!; [done|rewrite F3, F2, F1; done|]. eapply moved_trans; [exact M1|].
    eapply moved_trans; [eapply moved_weaken; [exact M2|]|eapply moved_weaken; [exact M3|]]; cbn; set_solver.
  - cbn [not_found io_kind]. rewrite decide_True by done.
    destruct (IH removed w1 Hn ltac:(apply M1)) as (r & w3 & E3 & F3 & M3).
    exists r, w3. split_and!; [done|rewrite F3, F1; done|]. eapply moved_trans; [exact M1|].
    eapply moved_weaken; [exact M3|]. cbn; set_solver.
Qed.
Lemma remove_each_spec : forall l w,
  no_faults -> wf_fs (w_fs w) -> NoDup l -> (forall q, q ∈ l -> is_Some (fs_names (w_fs w) !! q)) ->
  exists w', forM l (fun q => let! _ := io (fs_metadata q) in io (fs_remove q)) w = (Ok tt, w') /\
    w' = w <| w_fs := w_fs w' |> /\ moved l w w'.
Proof.
  induction l as [|x l IH]; intros w Hn Hw Hnd Hl.
  { exists w. split_and!; [done|by destruct w|by apply moved_same]. }
  apply NoDup_cons in Hnd as [Hx Hnd]. cbn [forM].
  destruct (Hl x ltac:(set_solver)) as [i Hi]. destruct (proj1 Hw _ _ Hi) as [nd Hnode].
  assert (contents (w_fs w) x = Some (i_data nd)) as Hc by (unfold contents, file_at; by rewrite Hi; cbn; rewrite Hnode).
  destruct (quiet_metadata w x _ Hn Hc) as (t & w1 & E1 & F1 & S1).
  assert (moved (x :: l) w w1) as M1 by (apply moved_same; [done|done|by rewrite F1]).
  destruct (remove_one_spec w1 x Hn) as (w2 & E2 & F2 & M2 & N2); [apply M1|by rewrite (proj1 S1), Hi|].
  rewrite (bindM_run _ _ w tt w2) by (rewrite (bindM_run _ _ _ _ _ E1); exact E2).
  destruct (IH w2 Hn ltac:(apply M2) Hnd) as (w3 & E3 & F3 & M3).
  { intros q Hq. rewrite N2, lookup_delete_ne, (proj1 S1); [apply Hl; set_solver|]. intros ->. done. }
  exists w3. split_and!; [done|rewrite F3, F2, F1; done|]. eapply moved_trans; [exact M1|].
  eapply moved_trans; [eapply moved_weaken; [exact M2|set_solver]|eapply moved_weaken; [exact M3|set_solver]].
Qed.

(** The clean-up removes none of the files of the store. *)
Lemma cleanup_spec w d :
  no_faults -> wf_fs (w_fs w) ->
  exists w' ps, cleanup_known_layout_temporary_files (paths_in d) w = (Ok tt, w') /\ w' = w <| w_fs := w_fs w' |> /\
    moved ps w w' /\ forall t, slot_ok t -> slot_path (paths_in d) t ∉ ps.
Proof.
  intros Hn Hw. unfold cleanup_known_layout_temporary_files. change (root (paths_in d)) with d.
  destruct (remove_fixed_spec d fixed_temps false w Hn Hw) as (r & w1 & E1 & F1 & M1).
  rewrite (bindM_run _ _ _ _ _ E1). unfold read_dir. unfold bindM at 1 2. rewrite io_run, io_step_ok by done.
  cbn [fst snd map_err]. set (w2 := w1 <| w_fs := _ |>). unfold bindM at 1, getM, retM at 1. cbv zeta.
  set (l := filter _ _). assert (wf_fs (w_fs w2)) as Hw2 by apply M1.
  destruct (remove_each_spec l w2 Hn Hw2) as (w3 & E3 & F3 & M3).
  { apply NoDup_filter, entries_nodup. }
  { intros q [_ [_ Hq]%entries_elem]%list_elem_of_filter. done. }
  rewrite (bindM_run _ _ _ _ _ E3).
  assert (quiet (if r || negb (bool_decide (l = [])) then sync_directory d else retM tt) w3 tt) as (w4 & E4 & F4 & S4).
  { destruct (r || _); [|apply quiet_ret]. unfold sync_directory. eapply quiet_bind; [by apply quiet_sync|].
    intros. by apply quiet_sync. }
  exists w4, ((path_join d <$> fixed_temps) ++ l). split; [exact E4|].
  split; [rewrite F4, F3; unfold w2; cbn; rewrite F1; done|]. split.
  - eapply moved_trans; [eapply moved_weaken; [exact M1|set_solver]|].
    eapply (moved_trans _ _ w2); [by apply moved_same; [apply M1|..]|].
    eapply moved_trans; [eapply moved_weaken; [exact M3|set_solver]|]. apply moved_same; [apply M3|done|by rewrite F4].
  - intros t Ht. rewrite not_elem_of_app. split.
    + intros (name & E & Hin)%list_elem_of_fmap. by apply (slot_not_fixed d t name).
    + intros [Hnm _]%list_elem_of_filter. rewrite slot_file_name, slot_not_stage, slot_not_tmp in Hnm by done. done.
Qed.
End Laws.
