(* ===== verification/RebuildLaws.v ===== *)
(** * Rebuilding the lookup and the segment index

    What dirty recovery derives again from the block map: a lookup log whose
    ranges are exactly the active extents, and a segment index over the segments
    the active extents name. *)

From S2P Require Import Prelude Bytes Text Errors Fs Layout TapeState Compression Records.
From S2P Require Import World Crc Segment Footprint Checkpoint Logs BlkMap MapLookup Dedup Reclaim.
From S2P Require Import RuntimeState SegmentIndex Slots IndexState DataBlobs BlobStore DataPath Store Reset Recovery ScanLaws.

Section Laws.
Context `{HOST : Host} `{ENV : Environ} `{CL : Crc32cLaws} `{HOL : HashOrderLaws} `{BC : BlockCodecs}
  `{B3 : Blake3}.

(** ** Loading *)
Lemma load_blk_spec w path seq log :
  no_faults -> blk_state w path seq log -> Zlen log <= MAX_MAINTENANCE_METADATA_RECORDS ->
  exists w' e, load_blk_map_records path w = (Ok (seq, bc_records e), w') /\ cache_ok seq log e /\
    blk_state w' path seq log /\ blk_only w w'.
Proof.
  intros Hn HB Hb. destruct (ensure_cache_fresh_spec w path seq log Hn HB Hb) as (w1 & e & E1 & He & Hok & HB1 & O1).
  exists w1, e. split_and!; [|done|done|done]. unfold load_blk_map_records. rewrite (bindM_run _ _ _ _ _ E1).
  rewrite (bindM_run (cached_blk path) _ w1 e w1) by (unfold cached_blk, bindM, getM, liftM; by rewrite He).
  by rewrite (co_sequence _ _ _ Hok).
Qed.
Lemma load_lookup_spec w path seq log :
  no_faults -> lookup_state w path seq log -> Zlen log <= MAX_MAINTENANCE_METADATA_RECORDS ->
  exists w' n e, load_lookup_records path w = (Ok (n, lc_records e), w') /\ lookup_cache_ok log e /\
    lookup_state w' path seq log /\ lookup_only w w'.
Proof.
  intros Hn HB Hb. destruct (ensure_lookup_spec w path seq log Hn HB Hb) as (w1 & e & E1 & He & Hok & HB1 & O1).
  exists w1, (lc_sequence e), e. split_and!; [|done|done|done]. unfold load_lookup_records. rewrite (bindM_run _ _ _ _ _ E1).
  by rewrite (bindM_run (cached_lookup path) _ w1 e w1) by (unfold cached_lookup, bindM, getM, liftM; by rewrite He).
Qed.

(** ** The lookup *)
Lemma tracks_replay {A} (id_of : A -> Z) (l : list A) :
  NoDup (id_of <$> l) -> tracks id_of l (replay id_of l).
Proof.
  induction l as [|x l IH] using rev_ind; intros Hnd; [apply tracks_empty|].
  rewrite fmap_app in Hnd. apply NoDup_app in Hnd as (Hnd & Hx & _). specialize (IH Hnd). rewrite replay_snoc.
  apply (tracks_perm _ (x :: l)); [apply Permutation_cons_append|]. apply tracks_new; [done|].
  eapply tracks_fresh; [exact IH|apply replay_keyed|]. intros r Hr E.
  apply (Hx (id_of r)); [by apply list_elem_of_fmap_2|]. rewrite E. cbn. set_solver.
Qed.

Lemma rebuild_total records : forall id,
  Forall (fun r => is_active r -> logical_len r <> 0 /\ logical_start r + logical_len r <= U64_MAX) records ->
  exists out, rebuild_from id records = Ok out.
Proof.
  induction records as [|r records IH]; intros id Hall; cbn [rebuild_from]; [eauto|].
  apply Forall_cons in Hall as [Hr Hall]. destruct (is_active r) eqn:Ha; [|by apply IH].
  destruct (Hr I) as [Hz He]. rewrite decide_False by done. unfold checked_add64. rewrite decide_True by lia. cbn [ok_or rbind].
  destruct (IH (id + 1) Hall) as (out & ->). cbn. eauto.
Qed.

Lemma rebuild_ids records : forall id out,
  0 <= id -> id + Zlen records < U64_MAX -> Forall wf_blk records -> rebuild_from id records = Ok out ->
  NoDup (lookup_id <$> out) /\ Forall (fun lk => id <= lookup_id lk < id + Zlen records) out /\ Forall wf_lookup out /\
  Zlen out <= Zlen records.
Proof.
  induction records as [|r records IH]; intros id out H0 Hm Hwf H; cbn in H.
  { injection H as <-. split_and!; [constructor..|done]. }
  assert (Zlen (r :: records) = 1 + Zlen records) as El by (unfold Zlen; cbn; lia). rewrite El in *.
  assert (0 <= Zlen records) as Hz by (unfold Zlen; lia).
  apply Forall_cons in Hwf as [Hw Hwf]. destruct (is_active r) eqn:Ha; cycle 1.
  { destruct (IH id out H0 ltac:(lia) Hwf H) as (G1 & G2 & G3 & G4). split_and!; [done| |done|lia].
    eapply Forall_impl; [exact G2|]. cbn. intros; lia. }
  case_decide as Hl; [done|]. apply rbind_Ok in H as (mx & Hmx & H). apply rbind_Ok in H as (rest & Hrest & H). injection H as <-.
  unfold checked_add64 in Hmx. case_decide as Hm'; [|done]. injection Hmx as <-.
  destruct (IH (id + 1) rest ltac:(lia) ltac:(lia) Hwf Hrest) as (G1 & G2 & G3 & G4).
  destruct Hw as (W1 & W2 & W3 & _). unfold u64_ok, u32_ok in *. split_and!.
  - cbn. apply NoDup_cons. split; [|done]. intros (lk & E & Hlk)%list_elem_of_fmap. rewrite Forall_forall in G2.
    specialize (G2 lk Hlk). lia.
  - constructor; [cbn; lia|]. eapply Forall_impl; [exact G2|]. cbn. intros; lia.
  - constructor; [|done]. unfold wf_lookup, u64_ok; cbn. lia.
  - unfold Zlen in *. cbn. lia.
Qed.

Lemma ranges_inv out : NoDup (lookup_id <$> out) -> ranges_ok out -> lookup_inv (replay lookup_id out).
Proof.
  intros Hnd [H1 H2]. destruct (tracks_replay lookup_id out Hnd) as [_ Ht].
  assert (forall i r, replay lookup_id out !! i = Some r -> r ∈ out) as Hin by (intros i r; apply replay_in).
  split.
  - intros i r Hi. rewrite Forall_forall in H1. eauto.
  - intros i j r s Hi Hj Hne.
    assert (r <> s) as Hrs by (intros ->; apply Hne; by rewrite <- (replay_keyed lookup_id _ _ _ Hi), <- (replay_keyed lookup_id _ _ _ Hj)).
    apply Hin in Hi, Hj. clear -H2 Hi Hj Hrs. induction H2 as [|x l Hl IH Hx]; [set_solver|]. rewrite Forall_forall in Hx.
    apply elem_of_cons in Hi as [->|Hi]; apply elem_of_cons in Hj as [->|Hj]; [done|left; auto|right; auto|auto].
Qed.

Lemma persist_lookup_spec w path recs :
  no_faults -> wf_fs (w_fs w) -> with_extension_tmp path <> path -> Zlen recs <= MAX_MAINTENANCE_METADATA_RECORDS ->
  Forall wf_lookup recs -> (forall r, r ∈ recs -> lookup_id r < U64_MAX) -> NoDup (lookup_id <$> recs) ->
  sorted_by logical_min recs ->
  exists w', persist_lookup_records path recs w = (Ok tt, w') /\ lookup_state w' path (Zlen recs) recs /\
    w' = w <| w_fs := w_fs w' |> <| w_append := w_append w' |> <| w_known_dirs := w_known_dirs w' |>
           <| w_lookup := w_lookup w' |> /\ moved (path_files path) w w'.
Proof.
  intros Hn Hw Ht Hb Hwf Hids Hnd Hs. unfold persist_lookup_records. pose proof (lookup_budget recs Hb) as Hbud.
  unfold MAX_MAINTENANCE_METADATA_BYTES, MAX_MAINTENANCE_METADATA_RECORDS in *.
  destruct (write_log_moved w path Lookup 3 (Zlen recs) (MapLookup.encode_log_payload recs) Hn Hw Ht)
    as (w1 & E1 & F1 & M1 & HL1); [unfold u64_ok; lia|unfold u64_ok, Zlen in *; lia| |lia|].
  { apply Forall_app. split; [by apply (bool_decide_unpack (Forall u8_ok _)); vm_compute|].
    clear. induction recs as [|r l IH]; [apply Forall_nil_2|]. change (Forall u8_ok (lookup_encode r ++ encode_all l)).
    apply Forall_app. split; [apply lookup_encode_ok|done]. }
  rewrite (bindM_run _ _ _ _ _ E1). destruct (stamped w1 path _ _ _ _ Hn HL1) as (st & w2 & E2 & F2 & S2).
  unfold MapLookup.update_cache. rewrite (bindM_run _ _ _ _ _ E2). eexists. split; [reflexivity|].
  set (w3 := w2 <| w_lookup := _ |>).
  assert (same_files (w_fs w1) (w_fs w3)) as S13 by done. assert (w_append w3 = w_append w1) as A13 by (cbn; by rewrite F2).
  split_and!.
  - split; [apply (log_file_same w1); [done|by rewrite A13|done]|done|done|].
    cbn. intros e. rewrite lookup_insert_eq. intros [= <-]. split; [|done].
    apply log_cache_built; [done|by apply tracks_replay|done].
  - unfold w3. rewrite F2, F1. done.
  - eapply moved_trans; [exact M1|]. apply moved_same; [apply HL1|done|done].
Qed.

(** The ranges of the rebuilt lookup are the active extents. *)
Record rebuilt_lookup (m : gmap Z BlkMapRecord) (l : list MapLookupRecord) : Prop := {
  rl_inv : lookup_inv (replay lookup_id l);
  rl_indexed : forall i r, m !! i = Some r -> is_active r ->
    exists j lk, replay lookup_id l !! j = Some lk /\ indexes lk r;
  rl_pointed : forall j lk, replay lookup_id l !! j = Some lk ->
    exists i r, m !! i = Some r /\ is_active r /\ indexes lk r;
  rl_count : Zlen l <= MAX_MAINTENANCE_METADATA_RECORDS
}.

Lemma rebuild_lookup_spec w bp lp seq log :
  no_faults -> with_extension_tmp lp <> lp -> blk_state w bp seq log -> Zlen log <= MAX_MAINTENANCE_METADATA_RECORDS ->
  map_inv (replay record_id log) ->
  (forall i r, replay record_id log !! i = Some r -> is_active r -> logical_start r + logical_len r <= U64_MAX) ->
  exists n out w', rebuild_lookup_from_blk_map bp lp w = (Ok n, w') /\ rebuilt_lookup (replay record_id log) out /\
    lookup_state w' lp (Zlen out) out /\
    (exists w1, blk_only w w1 /\ blk_state w1 bp seq log /\
      w' = w1 <| w_fs := w_fs w' |> <| w_append := w_append w' |> <| w_known_dirs := w_known_dirs w' |>
             <| w_lookup := w_lookup w' |> /\ moved (path_files lp) w1 w').
Proof.
  intros Hn Ht HB Hb Hinv Hend. destruct (load_blk_spec w bp seq log Hn HB Hb) as (w1 & e & E1 & Hok & HB1 & O1).
  unfold rebuild_lookup_from_blk_map. rewrite (bindM_run _ _ _ _ _ E1).
  pose proof (co_tracks _ _ _ Hok) as Htr. destruct (tracks_inv _ _ Hinv Htr (co_sorted _ _ _ Hok)) as [Bs Bd Be].
  assert (forall r, r ∈ bc_records e -> r ∈ log) as Hsub.
  { intros r Hr. apply (proj2 Htr) in Hr. by apply replay_in in Hr. }
  assert (Forall wf_blk (bc_records e)) as Hwf.
  { apply Forall_forall. intros r Hr. pose proof (bs_wf _ _ _ _ HB) as H. rewrite Forall_forall in H. auto. }
  assert (Zlen (bc_records e) <= Zlen log) as Hlen.
  { unfold Zlen. apply inj_le, submseteq_length, NoDup_submseteq; [by eapply tracks_nodup|]. intros r; apply Hsub. }
  destruct (rebuild_total (bc_records e) 1) as (out & Eo).
  { apply Forall_forall. intros r Hr Ha. pose proof (proj1 (proj2 Htr r) Hr) as Hm. split; [|by eapply Hend].
    pose proof (Be r Hr Ha) as Hx. unfold extent, logical_end, sat_add64 in Hx. lia. }
  rewrite (bindM_run _ _ w1 out w1) by (unfold liftM; by rewrite Eo).
  unfold MAX_MAINTENANCE_METADATA_RECORDS in Hb.
  destruct (rebuild_ids (bc_records e) 1 out ltac:(lia) ltac:(lia) Hwf Eo) as (I1 & I2 & I3 & I4).
  pose proof (rebuild_ranges _ _ _ (Build_blk_inv _ Bs Bd Be) Hwf Eo) as Hr. pose proof (rebuild_from_spec _ _ _ Eo) as [G1 G2].
  destruct (persist_lookup_spec w1 lp out Hn) as (w2 & E2 & HL2 & F2 & M2); [apply HB1|done|unfold MAX_MAINTENANCE_METADATA_RECORDS; lia|done| |done|by apply ranges_sorted|].
  { intros r Hin. rewrite Forall_forall in I2. specialize (I2 r Hin). lia. }
  rewrite (bindM_run _ _ _ _ _ E2). eexists _, out, w2. split_and!; [reflexivity| |done|by exists w1].
  destruct (tracks_replay lookup_id out I1) as [_ Hto]. split; [by apply ranges_inv| | |unfold MAX_MAINTENANCE_METADATA_RECORDS; lia].
  - intros i r Hi Ha. assert (r ∈ bc_records e) as Hin by (by eapply tracks_lookup; [exact Htr|apply replay_keyed|exact Hi]).
    destruct (G2 r Hin Ha) as (lk & Hlk & Hix). exists (lookup_id lk), lk. split; [by apply Hto|done].
  - intros j lk Hj. apply replay_in in Hj. destruct (G1 lk Hj) as (r & Hin & Ha & Hix & _).
    exists (record_id r), r. split_and!; [by apply (proj2 Htr)|done|done].
Qed.

(** ** The descriptors *)
Lemma max_bound (l : list Z) x : x ∈ l -> x <= foldr Z.max 0 l.
Proof. induction l as [|y l IH]; [set_solver|]. cbn. intros [->|Hx]%elem_of_cons; [lia|]. specialize (IH Hx). lia. Qed.
Lemma max_range (l : list Z) : Forall u64_ok l -> u64_ok (foldr Z.max 0 l).
Proof. induction 1 as [|x l Hx _ IH]; unfold u64_ok in *; cbn; lia. Qed.
Lemma min_range x (l : list Z) : u64_ok x -> Forall u64_ok l -> u64_ok (foldr Z.min x l).
Proof. intros Hx. induction 1 as [|y l Hy _ IH]; cbn; [done|]. unfold u64_ok in *. lia. Qed.
Lemma live_range (bs : list DataBlobMeta) : forall acc,
  u32_ok acc -> Forall (fun b => u32_ok (blob_stored_len b)) bs ->
  u32_ok (foldl (fun acc b => sat_add32 acc (blob_stored_len b)) acc bs).
Proof.
  induction bs as [|b bs IH]; intros acc Ha Hb; cbn; [done|]. apply Forall_cons in Hb as [Hb Hbs]. apply IH; [|done].
  unfold u32_ok, sat_add32 in *. lia.
Qed.
Lemma metas_ok off bs : Forall wf_blob bs ->
  Forall (fun m => u64_ok (blob_id m) /\ u32_ok (blob_stored_len m)) (metas off bs).
Proof.
  intros H. revert off. induction H as [|b bs (H1 & _ & H3 & _) _ IH]; intros off; cbn; constructor; [done|apply IH].
Qed.

Abbreviation segments := (gmap Z (SegmentHeader * list DataBlob)).
(** A descriptor that fits its segment. *)
Record fits (segs : segments) (active : Z) (d : SegmentDescriptor) : Prop := {
  ft_wf : wf_descriptor d;
  ft_state : seg_state d = if decide (segment_seq d = active) then SActive else Sealed;
  ft_ids : forall h bs b, segs !! segment_seq d = Some (h, bs) -> b ∈ bs -> db_id b <= last_blob_id d
}.

Lemma rebuild_descriptor_spec w p segs n active h bs :
  no_faults -> seg_states w p segs -> segs !! n = Some (h, bs) ->
  exists d, quiet (rebuild_segment_descriptor p n (if decide (n = active) then SActive else Sealed)) w d /\
    segment_seq d = n /\ fits segs active d.
Proof.
  intros Hn HG Hs. destruct (HG _ _ _ Hs) as [Hu HD]. pose proof (ds_file _ _ _ _ HD) as HS.
  pose proof (sf_plen _ _ _ _ HS) as Hp. pose proof (sf_len _ _ _ _ HS) as Hl. pose proof (ds_wf _ _ _ _ HD) as Hwf.
  pose proof (metas_ok 100 bs Hwf) as Hm. pose proof (metas_ids 100 bs) as Hids.
  assert (Forall u64_ok (blob_id <$> metas 100 bs)) as Hu64
    by (apply Forall_fmap; eapply Forall_impl; [exact Hm|]; by intros m [? _]).
  eexists. split_and!.
  - unfold rebuild_segment_descriptor. eapply (quiet_then _ _ w _ h); [apply still_refl| |].
    { rewrite <- (ds_kind _ _ _ _ HD). exact (read_header_ok w _ h _ Hn HS). }
    intros w1 S1. eapply (quiet_then _ _ w _ (metas 100 bs)); [done| |].
    { case_decide as Hz; [rewrite (empty_segment _ _ _ _ HD Hz); apply quiet_ret|].
      eapply (quiet_then _ _ w _ (metas 100 bs, true)); [done|exact (scan_data_spec w1 _ h bs Hn (still_data _ _ _ _ _ S1 HD) Hz)|].
      intros w2 S2. apply quiet_ret. }
    intros w2 S2. apply quiet_ret.
  - done.
  - split; cbn [segment_seq seg_state last_blob_id]; [|done|].
    + unfold wf_descriptor; cbn. split_and!; [done| | |by apply max_range|].
      * rewrite Hp. unfold u64_ok, Zlen in *. lia.
      * destruct (blob_id <$> metas 100 bs) as [|x xs]; [unfold u64_ok; lia|]. apply Forall_cons in Hu64 as [? ?]. by apply min_range.
      * apply live_range; [unfold u32_ok; lia|]. eapply Forall_impl; [exact Hm|]. by intros m [_ ?].
    + intros h' bs' b E Hb. rewrite Hs in E. injection E as <- <-. apply max_bound.
      change (blob_id <$> metas 100 bs) with (map blob_id (metas 100 bs)). rewrite Hids. by apply list_elem_of_fmap_2.
Qed.

Lemma rebuild_descriptors_spec p segs active : forall seqs w,
  no_faults -> seg_states w p segs -> Forall (fun n => is_Some (segs !! n)) seqs ->
  exists ds, quiet (rebuild_descriptors p active seqs) w ds /\ (segment_seq <$> ds) = seqs /\ Forall (fits segs active) ds.
Proof.
  induction seqs as [|n seqs IH]; intros w Hn HG Hall; cbn [rebuild_descriptors].
  { exists []. split_and!; [apply quiet_ret|done|constructor]. }
  apply Forall_cons in Hall as [[[h bs] Hs] Hall].
  destruct (rebuild_descriptor_spec w p segs n active h bs Hn HG Hs) as (d & (w1 & E1 & F1 & S1) & Hd & Hf).
  destruct (IH w1 Hn (still_states _ _ _ _ (conj F1 S1) HG) Hall) as (ds & (w2 & E2 & F2 & S2) & Hds & Hfs).
  exists (d :: ds). split_and!; [|cbn; by rewrite Hd, Hds|by constructor].
  exists w2. rewrite (bindM_run _ _ _ _ _ E1), (bindM_run _ _ _ _ _ E2).
  split_and!; [done|rewrite F2, F1; done|eauto using same_files_trans].
Qed.

(** One of them is active. *)
Lemma fits_active segs active ds :
  NoDup (segment_seq <$> ds) -> Forall (fits segs active) ds ->
  active_count ds = if decide (active ∈ segment_seq <$> ds) then 1 else 0.
Proof.
  induction ds as [|d ds IH]; intros Hnd Hf; [done|]. cbn in Hnd. apply NoDup_cons in Hnd as [Hx Hnd].
  apply Forall_cons in Hf as [Hd Hf]. rewrite active_count_cons, active_count_one, (IH Hnd Hf).
  unfold is_active_segment. rewrite (ft_state _ _ _ Hd). cbn [fmap list_fmap].
  destruct (decide (segment_seq d = active)) as [<-|Hne].
  - rewrite bool_decide_eq_true_2 by done. rewrite (decide_False (P := segment_seq d ∈ segment_seq <$> ds)) by done.
    rewrite decide_True by (apply elem_of_cons; by left). done.
  - rewrite bool_decide_eq_false_2 by done. destruct (decide (active ∈ segment_seq <$> ds)) as [Hin|Hin].
    + by rewrite decide_True by (apply elem_of_cons; by right).
    + rewrite decide_False; [done|]. intros [->|?]%elem_of_cons; done.
Qed.

(** The active descriptor covers every identifier the block map names. *)
Definition raised (hw : Z) (ds : list SegmentDescriptor) : list SegmentDescriptor :=
  default ds (update_first is_active_segment (fun d => d <| last_blob_id := Z.max (last_blob_id d) hw |>) ds).
Lemma raised_spec hw ds :
  u64_ok hw -> Forall wf_descriptor ds ->
  Forall wf_descriptor (raised hw ds) /\ (segment_seq <$> raised hw ds) = (segment_seq <$> ds) /\
  active_count (raised hw ds) = active_count ds /\
  (forall d, d ∈ ds -> exists d', d' ∈ raised hw ds /\ last_blob_id d <= last_blob_id d').
Proof.
  intros Hh Hwf. unfold raised. destruct (update_first _ _ ds) as [ds'|] eqn:E; cbn [default from_option id];
    [|split_and!; [done..|]; intros d Hd; exists d; split; [done|lia]].
  apply update_first_split in E as (l1 & d & l2 & -> & Hd & _ & ->).
  apply Forall_app in Hwf as [W1 [Wd W2]%Forall_cons]. split_and!.
  - apply Forall_app. split; [done|]. constructor; [|done]. destruct Wd as (D1 & D2 & D3 & D4 & D5).
    unfold wf_descriptor. cbn. split_and!; try done. unfold u64_ok in *. lia.
  - rewrite !fmap_app, !fmap_cons. reflexivity.
  - rewrite !active_count_app, (active_count_cons d), (active_count_cons (d <| last_blob_id := _ |>)), !active_count_one. done.
  - intros x [Hx|[->|Hx]%elem_of_cons]%elem_of_app.
    + exists x. set_solver.
    + eexists. split; [apply elem_of_app; right; by left|]. cbn. lia.
    + exists x. set_solver.
Qed.
Lemma in_bound d index : d ∈ descriptors index -> last_blob_id d <= ids_bound index.
Proof. intros Hd. unfold ids_bound. apply max_bound. by apply list_elem_of_fmap_2. Qed.

(** ** The index *)
Lemma foldr_max_from (l : list Z) s : s <= foldr Z.max s l /\ (forall x, x ∈ l -> x <= foldr Z.max s l) /\
  (foldr Z.max s l = s \/ foldr Z.max s l ∈ l).
Proof.
  induction l as [|y l (IH1 & IH2 & IH3)]; cbn; [split_and!; [lia|set_solver|by left]|]. split_and!; [lia| |].
  - intros x [->|Hx]%elem_of_cons; [lia|]. specialize (IH2 x Hx). lia.
  - destruct (Z.max_spec y (foldr Z.max s l)) as [[_ ->]|[_ ->]]; [|right; apply elem_of_cons; by left].
    destruct IH3 as [->|H]; [by left|right; by apply elem_of_cons; right].
Qed.

Lemma highest_spec w d :
  no_faults ->
  exists hi, quiet (highest_indexed_data_segment (paths_in d)) w hi /\ (forall x, hi = Some x -> u32_ok x) /\
    (forall n, 0 <= n < 1000000 -> is_Some (fs_names (w_fs w) !! data_segment_path (paths_in d) n) -> exists x, hi = Some x /\ n <= x).
Proof.
  intros Hn. set (seqs := omap (fun q => indexed_data_segment_seq (file_name q)) (entries_of d (w_fs w))).
  exists (match seqs with [] => None | s :: rest => Some (foldr Z.max s rest) end). split_and!.
  - unfold highest_indexed_data_segment, read_dir. unfold quiet, bindM. rewrite io_run, io_step_ok by done. cbn [fst snd map_err].
    eexists. split; [reflexivity|]. by cbn.
  - assert (forall x, x ∈ seqs -> u32_ok x) as Hr.
    { intros x (q & _ & Hx)%list_elem_of_omap. unfold indexed_data_segment_seq in Hx. destruct (six_digits _ _ _); [|done].
      by apply parse_uint_range in Hx. }
    destruct seqs as [|s l]; [done|]. intros x [= <-]. destruct (foldr_max_from l s) as (_ & _ & [->|H]); apply Hr; set_solver.
  - intros n Hr Hs. assert (slot_ok (SData n)) as Hok by (cbn; unfold u64_ok; lia).
    assert (n ∈ seqs) as Hin.
    { apply list_elem_of_omap. exists (data_segment_path (paths_in d) n).
      change (data_segment_path (paths_in d) n) with (slot_path (paths_in d) (SData n)) in *.
      rewrite slot_file_name, data_name_indexed by done. split; [|done]. apply entries_elem. split; [|done].
      rewrite slot_file_name by done. apply bytes_of_string_inj. rewrite slot_path_bytes, path_join_bytes, bytes_of_string_of_bytes; [done| |done].
      by apply slot_name_bytes. }
    destruct seqs as [|s l]; [set_solver|]. eexists. split; [done|]. destruct (foldr_max_from l s) as (G1 & G2 & _).
    apply elem_of_cons in Hin as [->|Hin]; [done|auto].
Qed.

Lemma save_index_spec w p index :
  no_faults -> layout_ok p -> wf_fs (w_fs w) -> wf_index index -> seg_inv index ->
  exists w', (persist_segment_index (segment_index_file p) index ;;! store_segment_index_clean (segment_index_file p) index) w = (Ok tt, w') /\
    index_state w' (segment_index_file p) index /\ moved (slot_files p SIndex) w w' /\
    w' = w <| w_fs := w_fs w' |> <| w_append := w_append w' |> <| w_known_dirs := w_known_dirs w' |> <| w_index := w_index w' |>.
Proof.
  intros Hn Hlo Hw Hwf Hinv. pose proof (lo_tmp p Hlo SIndex SIndex I I) as Ht. cbn [slot_path] in Ht.
  destruct (persist_index_spec w (segment_index_file p) index Hn Hw Ht Hwf) as (w1 & E1 & F1 & Fr1 & HD1).
  assert (moved (slot_files p SIndex) w w1) as M1.
  { apply (moved_run _ _ _ _ _ E1); [done|]. intros q Hq. unfold slot_files in Hq. cbn [slot_path] in Hq. apply spares_persist_index; set_solver. }
  rewrite (bindM_run _ _ _ _ _ E1). unfold store_segment_index_clean, bindM at 1, getM.
  destruct (stamp_ok_spec w1 _ _ Hn (lf_contents _ _ _ _ _ _ (proj1 HD1))) as (st & w2 & E2 & F2 & S2).
  rewrite (bindM_run _ _ _ _ _ E2). eexists. split; [reflexivity|]. split_and!.
  - split; [done|done|]. exists index. split; [apply (index_file_same w1); [done|done|cbn; by rewrite F2]|].
    cbn. rewrite lookup_insert_eq. split; [done|]. by intros c [= <-].
  - eapply moved_trans; [exact M1|]. apply moved_same; [apply M1|done|cbn; by rewrite F2].
  - rewrite F2, F1. done.
Qed.

Lemma btree_set_spec (l : list Z) : NoDup (btree_set l) /\ (forall x, x ∈ btree_set l <-> x ∈ l) /\ Zlen (btree_set l) <= Zlen l.
Proof.
  unfold btree_set. pose proof (merge_sort_Permutation Z.le (remove_dups l)) as Hp. split_and!.
  - rewrite Hp. apply NoDup_remove_dups.
  - intros x. rewrite Hp. apply elem_of_remove_dups.
  - unfold Zlen. rewrite Hp. pose proof (length_remove_dups l). lia.
Qed.

Lemma u32_all (l : list BlkMapRecord) :
  Forall (fun r => u32_ok (physical_segment_id r)) l ->
  rmapM (fun r => ok_or (u32_try_from (physical_segment_id r)) (Corrupt "physical segment id exceeds u32")) l =
  Ok (physical_segment_id <$> l).
Proof.
  induction 1 as [|r l Hr _ IH]; [done|]. cbn [rmapM]. rewrite IH. unfold u32_try_from. unfold u32_ok in Hr.
  by rewrite decide_True by lia.
Qed.

(** The index over the segments in [seqs], of which [active] is one. *)
Lemma rebuilt_index_ok segs active ds max next hw :
  NoDup (segment_seq <$> ds) -> Forall (fits segs active) ds -> active ∈ (segment_seq <$> ds) ->
  u32_ok max -> u64_ok next -> u64_ok hw -> Zlen ds <= MAX_MAINTENANCE_METADATA_RECORDS ->
  (forall n, n ∈ (segment_seq <$> ds) -> n < next) ->
  let index := mkSegmentIndex max (raised hw ds) next in
  wf_index index /\ seg_inv index /\ (segment_seq <$> descriptors index) = (segment_seq <$> ds) /\
  (forall n h bs b, n ∈ (segment_seq <$> ds) -> segs !! n = Some (h, bs) -> b ∈ bs -> db_id b <= ids_bound index).
Proof.
  intros Hnd Hf Ha Hm Hnx Hh Hl Hlt index.
  assert (Forall wf_descriptor ds) as Hwf by (eapply Forall_impl; [exact Hf|]; by intros d [? _ _]).
  destruct (raised_spec hw ds Hh Hwf) as (R1 & R2 & R3 & R4).
  assert (length (raised hw ds) = length ds) as El by (by rewrite <- (length_fmap segment_seq), R2, length_fmap).
  split_and!.
  - split; cbn; [done|done|done|]. unfold Zlen in *. by rewrite El.
  - split; cbn; [by rewrite R3, (fits_active segs active), decide_True|by rewrite R2|].
    intros d Hd. apply Hlt. rewrite <- R2. by apply list_elem_of_fmap_2.
  - done.
  - intros n h bs b (d & -> & Hd)%list_elem_of_fmap Hs Hb. rewrite Forall_forall in Hf.
    pose proof (ft_ids _ _ _ (Hf d Hd) h bs b Hs Hb). destruct (R4 d Hd) as (d' & Hd' & Hle).
    pose proof (in_bound d' index Hd'). lia.
Qed.

(** What is cached of a data segment is cached of one the store knows. *)
Definition cold_outside (w : World) (p : LayoutPaths) (segs : segments) : Prop :=
  forall n, u64_ok n ->
    is_Some (w_data w !! data_segment_path p n) \/ is_Some (w_readers w !! data_segment_path p n) -> is_Some (segs !! n).
Definition uncached (w : World) (path : string) : Prop := w_data w !! path = None /\ w_readers w !! path = None.
Lemma cold_uncached w p segs n :
  cold_outside w p segs -> u64_ok n -> segs !! n = None -> uncached w (data_segment_path p n).
Proof.
  intros Hc Hu Hn. specialize (Hc n Hu). split.
  - destruct (w_data w !! _) as [x|]; [|done]. destruct Hc as [y Hy]; [left; eauto|congruence].
  - destruct (w_readers w !! _) as [x|]; [|done]. destruct Hc as [y Hy]; [right; eauto|congruence].
Qed.

Lemma finish_index_spec w p segs active ds max next hw :
  no_faults -> layout_ok p -> wf_fs (w_fs w) -> seg_states w p segs ->
  NoDup (segment_seq <$> ds) -> Forall (fits segs active) ds -> active ∈ (segment_seq <$> ds) ->
  u32_ok max -> u64_ok next -> u64_ok hw -> Zlen ds <= MAX_MAINTENANCE_METADATA_RECORDS ->
  (forall n, n ∈ (segment_seq <$> ds) -> n < next) -> (forall n, is_Some (segs !! n) <-> n ∈ (segment_seq <$> ds)) ->
  (forall n, u64_ok n -> next <= n -> uncached w (data_segment_path p n)) ->
  let index := mkSegmentIndex max (raised hw ds) next in
  exists w', (persist_segment_index (segment_index_file p) index ;;! store_segment_index_clean (segment_index_file p) index) w = (Ok tt, w') /\
    index_state w' (segment_index_file p) index /\ segs_ok w' p index segs /\ moved (slot_files p SIndex) w w' /\
    w' = w <| w_fs := w_fs w' |> <| w_append := w_append w' |> <| w_known_dirs := w_known_dirs w' |> <| w_index := w_index w' |>.
Proof.
  intros Hn Hlo Hw HG Hnd Hf Ha Hm Hnx Hh Hl Hlt Hdom Hcold index.
  destruct (rebuilt_index_ok segs active ds max next hw Hnd Hf Ha Hm Hnx Hh Hl Hlt) as (Hwf & Hinv & Hseqs & Hids).
  fold index in Hwf, Hinv, Hseqs, Hids.
  destruct (save_index_spec w p index Hn Hlo Hw Hwf Hinv) as (w1 & E1 & HI1 & M1 & F1).
  exists w1. split_and!; [done|done| |done|done].
  assert (w_data w1 = w_data w /\ w_readers w1 = w_readers w) as [D1 R1] by (by rewrite F1). split.
  - intros n h bs Hs. destruct (HG n h bs Hs) as [Hu HD]. eapply data_state_moved; [exact HD|exact M1| |by rewrite D1|by rewrite R1].
    apply (slot_apart p (SData n) SIndex); try done. unfold u32_ok in Hu. cbn. unfold u64_ok. lia.
  - intros n. by rewrite Hseqs.
  - intros n h bs b Hs Hb. eapply Hids; [|exact Hs|exact Hb]. apply Hdom. eauto.
  - intros n Hu Hle. rewrite D1, R1. by apply Hcold.
Qed.

Definition index_touch (w w' : World) : Prop :=
  w' = w <| w_fs := w_fs w' |> <| w_append := w_append w' |> <| w_known_dirs := w_known_dirs w' |>
         <| w_index := w_index w' |> <| w_data := w_data w' |> <| w_readers := w_readers w' |>.
Definition index_files (p : LayoutPaths) : list string := slot_files p SIndex ++ slot_files p (SData 0).

(** No active extent: one empty segment. *)
Lemma empty_index_spec w d segs max hi hw :
  no_faults -> let p := paths_in d in wf_fs (w_fs w) -> u32_ok max -> u64_ok hw ->
  cold_outside w p segs -> (forall x, hi = Some x -> u32_ok x) ->
  (forall n, is_Some (segs !! n) -> exists x, hi = Some x /\ n <= x) ->
  let next := Z.max (sat_add64 (default 0 hi) 1) 1 in
  let index := mkSegmentIndex max (raised hw [fresh_descriptor 0]) next in
  let empty : segments := {[0 := (header_new Data 1 0 [], [])]} in
  exists w1 w', (write_segment_file (data_segment_path p 0) Data 1 0 [] ;;! invalidate_data_segment_cache (data_segment_path p 0)) w = (Ok tt, w1) /\
    (persist_segment_index (segment_index_file p) index ;;! store_segment_index_clean (segment_index_file p) index) w1 = (Ok tt, w') /\
    index_state w' (segment_index_file p) index /\ segs_ok w' p index empty /\ moved (index_files p) w w' /\ index_touch w w'.
Proof.
  intros Hn p Hw Hm Hh Hcold Hhi Hseg next index empty. pose proof (layout_paths_ok d) as Hlo. fold p in Hlo.
  assert (u64_ok 0) as H0 by (unfold u64_ok; lia). pose proof (lo_tmp p Hlo (SData 0) (SData 0) H0 H0) as T1. cbn [slot_path] in T1.
  destruct (write_log_moved w (data_segment_path p 0) Data 1 0 [] Hn Hw T1)
    as (w1 & E1 & F1 & M1 & HL1); [unfold u64_ok; lia|done|by apply Forall_nil|by vm_compute|].
  rewrite (bindM_run _ _ _ _ _ E1). unfold invalidate_data_segment_cache, invalidate_data_reader, modifyM, bindM at 1.
  set (w2 := w1 <| w_readers := _ |> <| w_data := _ |>). exists w2.
  assert (u64_ok next) as Hnx.
  { unfold next, u64_ok, sat_add64. destruct hi as [x|]; cbn; [specialize (Hhi x eq_refl); unfold u32_ok in Hhi|]; lia. }
  assert (seg_states w2 p empty) as HG2.
  { intros n h bs [<- [= <- <-]]%lookup_singleton_Some. split; [unfold u32_ok; lia|]. apply log_file_seg in HL1 as (HS & _ & _).
    split; [by apply (seg_file_same w1)|done|constructor|constructor| |].
    - cbn. intros e. by rewrite lookup_delete_eq.
    - cbn. intros i. by rewrite lookup_delete_eq. }
  destruct (finish_index_spec w2 p empty 0 [fresh_descriptor 0] max next hw Hn Hlo) as (w3 & E3 & HI3 & HG3 & M3 & F3);
    [apply M1|done|apply NoDup_singleton| |cbn; set_solver|done|done|done|by vm_compute| | | |].
  - apply Forall_singleton. split; [unfold wf_descriptor, u32_ok, u64_ok; cbn; lia|done|].
    intros h bs b [_ [= _ <-]]%lookup_singleton_Some. set_solver.
  - cbn. intros n ->%list_elem_of_singleton. unfold next. lia.
  - cbn. intros n. rewrite list_elem_of_singleton. split; [|intros ->; eexists; apply lookup_singleton_eq].
    intros [x Hx]. by apply lookup_singleton_Some in Hx as [<- _].
  - intros n Hu Hle. assert (uncached w1 (data_segment_path p n)) as [U1 U2].
    { assert (w_data w1 = w_data w /\ w_readers w1 = w_readers w) as [D1 R1] by (by rewrite F1).
      unfold uncached. rewrite D1, R1. apply (cold_uncached w p segs n Hcold Hu). destruct (segs !! n) eqn:E; [|done].
      destruct (Hseg n) as (x & -> & Hx); [eauto|]. unfold next, sat_add64 in Hle. cbn in Hle. specialize (Hhi x eq_refl). unfold u32_ok in Hhi. lia. }
    unfold uncached. cbn. rewrite !lookup_delete_None. auto.
  - exists w3. split_and!; [done|exact E3|done|done| |unfold index_touch; rewrite F3; unfold w2; rewrite F1; done].
    eapply (moved_trans _ _ w2); [|eapply moved_weaken; [exact M3|unfold index_files; set_solver]].
    eapply moved_trans; [eapply moved_weaken; [exact M1|unfold index_files, slot_files, path_files; cbn; set_solver]|].
    apply (moved_same _ w1 w2); [apply M1|done|done].
Qed.

(** Active extents: the segments they name, the last one active. *)
Lemma named_index_spec w d segs seqs active max hi hw :
  no_faults -> let p := paths_in d in wf_fs (w_fs w) -> u32_ok max -> u64_ok hw ->
  cold_outside w p segs -> seg_states w p segs -> (forall x, hi = Some x -> u32_ok x) ->
  (forall n, is_Some (segs !! n) -> n < 1000000 /\ exists x, hi = Some x /\ n <= x) ->
  NoDup seqs -> last seqs = Some active -> Zlen seqs <= MAX_MAINTENANCE_METADATA_RECORDS -> Forall (fun n => is_Some (segs !! n)) seqs ->
  let next := sat_add32 (Z.max (default active hi) active) 1 in
  let kept : segments := filter (fun x => x.1 ∈ seqs) segs in
  exists ds w1 w', rebuild_descriptors p active seqs w = (Ok ds, w1) /\
    let index := mkSegmentIndex max (raised hw ds) next in
    (persist_segment_index (segment_index_file p) index ;;! store_segment_index_clean (segment_index_file p) index) w1 = (Ok tt, w') /\
    index_state w' (segment_index_file p) index /\ segs_ok w' p index kept /\ moved (index_files p) w w' /\ index_touch w w'.
Proof.
  intros Hn p Hw Hm Hh Hcold HG Hhi Hseg Hnd Hlast Hl Hall next kept. pose proof (layout_paths_ok d) as Hlo. fold p in Hlo.
  destruct (rebuild_descriptors_spec p segs active seqs w Hn HG Hall) as (ds & (w1 & E1 & F1 & S1) & Hds & Hf).
  exists ds, w1. assert (active ∈ seqs) as Hin by (by apply last_Some_elem_of).
  rewrite Forall_forall in Hall. destruct (Hall _ Hin) as [[ah abs] Hact].
  destruct (Hseg active ltac:(eauto)) as (Hlow & x & Hx & Hle). pose proof (Hhi x Hx) as Hxu. unfold u32_ok in Hxu.
  assert (0 <= active) as Hpos by (destruct (HG _ _ _ Hact) as [H _]; unfold u32_ok in H; lia).
  assert (next = Z.min (x + 1) U32_MAX) as Hnext by (unfold next, sat_add32; rewrite Hx; cbn; lia).
  assert (forall n y, kept !! n = Some y <-> segs !! n = Some y /\ n ∈ seqs) as Hk.
  { intros n y. unfold kept. rewrite map_lookup_filter_Some. done. }
  assert (seg_states w1 p kept) as HG1.
  { intros n h bs [Hs _]%Hk. destruct (HG _ _ _ Hs). split; [done|]. by apply (still_data w). }
  assert (forall n, is_Some (segs !! n) -> n < next) as Hlt.
  { intros n Hs. destruct (Hseg n Hs) as (H1 & y & Hy & H2). rewrite Hx in Hy. injection Hy as <-. rewrite Hnext. lia. }
  destruct (finish_index_spec w1 p kept active ds max next hw Hn Hlo) as (w2 & E2 & HI2 & HG2 & M2 & F2).
  - by apply (wf_same (w_fs w)).
  - done.
  - by rewrite Hds.
  - eapply Forall_impl; [exact Hf|]. intros dd [G1 G2 G3]. split; [done|done|]. intros h bs b [Hs _]%Hk. by eapply G3.
  - by rewrite Hds.
  - done.
  - rewrite Hnext. unfold u64_ok. lia.
  - done.
  - replace (Zlen ds) with (Zlen seqs); [done|]. unfold Zlen. by rewrite <- Hds, length_fmap.
  - rewrite Hds. intros n Hn'. apply Hlt. by apply Hall.
  - rewrite Hds. intros n. split; [by intros [y [_ ?]%Hk]|]. intros Hn'. destruct (Hall n Hn') as [y Hy]. exists y. by apply Hk.
  - intros n Hu Hge. unfold uncached. rewrite F1. cbn. apply (cold_uncached w p segs n Hcold Hu).
    destruct (segs !! n) eqn:E; [|done]. specialize (Hlt n ltac:(eauto)). lia.
  - exists w2. split; [done|]. cbv zeta. split_and!; [exact E2|done|done| |unfold index_touch; rewrite F2, F1; done].
    eapply (moved_trans _ _ w1); [by apply moved_same; [..|rewrite F1]|].
    eapply moved_weaken; [exact M2|unfold index_files; set_solver].
Qed.

(** The active records of a loaded block map. *)
Lemma active_records seq log e :
  cache_ok seq log e -> let act := filter (fun r => is_active r) (bc_records e) in
  (forall r, r ∈ act <-> (exists i, replay record_id log !! i = Some r) /\ is_active r) /\ Zlen act <= Zlen log.
Proof.
  intros Hok act. pose proof (co_tracks _ _ _ Hok) as Htr.
  assert (forall r, r ∈ act <-> (exists i, replay record_id log !! i = Some r) /\ is_active r) as Hact.
  { intros r. unfold act. rewrite list_elem_of_filter. split.
    - intros [Ha Hr]. split; [|done]. exists (record_id r). by apply (proj2 Htr).
    - intros [[i Hi] Ha]. split; [done|]. by eapply tracks_lookup; [exact Htr|apply replay_keyed|exact Hi]. }
  split; [done|]. unfold Zlen. apply inj_le, submseteq_length, NoDup_submseteq.
  - apply NoDup_filter. by eapply tracks_nodup.
  - intros r [[i Hi] _]%Hact. by eapply replay_in.
Qed.
(** The highest blob identifier it names. *)
Lemma high_water_ok seq log e :
  cache_ok seq log e -> Forall wf_blk log -> u64_ok (foldr Z.max 0 (physical_offset <$> bc_records e)).
Proof.
  intros Hok Hwf. apply max_range, Forall_fmap, Forall_forall. intros r Hr. rewrite Forall_forall in Hwf.
  apply (proj2 (co_tracks _ _ _ Hok)), replay_in in Hr. by destruct (Hwf r Hr) as (_ & _ & _ & _ & ? & _).
Qed.

Lemma rebuild_index_spec w d seq log disk segs :
  no_faults -> let p := paths_in d in
  blk_state w (blk_map_file p) seq log -> Zlen log <= MAX_MAINTENANCE_METADATA_RECORDS ->
  index_file w (segment_index_file p) disk -> seg_states w p segs -> cold_outside w p segs ->
  (forall n, is_Some (segs !! n) -> n < 1000000) ->
  (forall i r, replay record_id log !! i = Some r -> is_active r -> is_Some (segs !! physical_segment_id r)) ->
  exists index segs' w1 w', rebuild_segment_index_from_blk_map p w = (Ok tt, w') /\
    blk_only w w1 /\ blk_state w1 (blk_map_file p) seq log /\
    index_state w' (segment_index_file p) index /\ segs_ok w' p index segs' /\ moved (index_files p) w1 w' /\ index_touch w1 w' /\
    (forall i r, replay record_id log !! i = Some r -> is_active r ->
       segs' !! physical_segment_id r = segs !! physical_segment_id r).
Proof.
  intros Hn p HB Hb HI HG Hcold Hlow Hst. unfold rebuild_segment_index_from_blk_map.
  destruct (load_index_spec w _ disk Hn HI) as (w1 & E1 & F1 & S1).
  rewrite (bindM_run (tryM _) _ w (Ok disk) w1) by (unfold tryM; by rewrite E1).
  assert (blk_state w1 (blk_map_file p) seq log) as HB1.
  { eapply (blk_state_moved w w1 []); [done| |set_solver|by rewrite F1]. apply moved_same; [apply HB|done|by rewrite F1]. }
  destruct (load_blk_spec w1 _ seq log Hn HB1 Hb) as (w2 & e & E2 & Hok & HB2 & [F2 S2]). rewrite (bindM_run _ _ _ _ _ E2).
  set (act := filter (fun r => is_active r) (bc_records e)). destruct (active_records _ _ _ Hok) as [Hact Hla]. fold act in Hact, Hla.
  assert (Forall (fun r => u32_ok (physical_segment_id r)) act) as Hu.
  { apply Forall_forall. intros r [[i Hi] Ha]%Hact. destruct (Hst i r Hi Ha) as [[h bs] Hs]. by destruct (HG _ _ _ Hs). }
  rewrite (bindM_run _ _ w2 (physical_segment_id <$> act) w2) by (unfold liftM; by rewrite u32_all).
  set (seqs := btree_set _). destruct (btree_set_spec (physical_segment_id <$> act)) as (Q1 & Q2 & Q3). fold seqs in Q1, Q2, Q3.
  destruct (highest_spec w2 d Hn) as (hi & (w3 & E3 & F3 & S3) & Hh1 & Hh2). fold p in E3, Hh2.
  rewrite (bindM_run _ _ _ _ _ E3). set (hw := foldr Z.max 0 (physical_offset <$> bc_records e)).
  assert (blk_only w w3 /\ same_files (w_fs w) (w_fs w3)) as [O3 S03].
  { assert (same_files (w_fs w) (w_fs w3)) by eauto using same_files_trans. split; [|done]. split; [rewrite F3, F2, F1; done|done]. }
  assert (blk_state w3 (blk_map_file p) seq log) as HB3.
  { eapply (blk_state_moved w2 w3 []); [done| |set_solver|by rewrite F3]. apply moved_same; [apply HB2|done|by rewrite F3]. }
  assert (w_data w3 = w_data w /\ w_readers w3 = w_readers w /\ w_append w3 = w_append w) as (D3 & R3 & A3)
    by (rewrite F3, F2, F1; done).
  assert (cold_outside w3 p segs) as Hc3 by (intros n; rewrite D3, R3; apply Hcold).
  assert (seg_states w3 p segs) as HG3.
  { intros n h bs Hs. destruct (HG _ _ _ Hs) as [Hun HD]. split; [done|].
    eapply (data_state_moved w w3 []); [done| |set_solver|by rewrite D3|by rewrite R3]. apply moved_same; [apply HB|done|done]. }
  pose proof (high_water_ok _ _ _ Hok (bs_wf _ _ _ _ HB)) as Hhw. fold hw in Hhw.
  assert (forall n, is_Some (segs !! n) -> exists x, hi = Some x /\ n <= x) as Hseg.
  { intros n Hs. pose proof (Hlow n Hs). destruct Hs as [[h bs] Hs]. destruct (HG _ _ _ Hs) as [Hun HD]. apply Hh2; [unfold u32_ok in Hun; lia|].
    rewrite (proj1 S2), (proj1 S1). pose proof (sf_contents _ _ _ _ (ds_file _ _ _ _ HD)) as Hcon.
    by destruct (contents_names _ _ _ Hcon) as (i & nd & -> & _). }
  assert (wf_fs (w_fs w3)) as Hw3 by apply HB3. pose proof (wi_max _ (proj2 HI)) as Hmax.
  destruct (last seqs) as [active|] eqn:Elast.
  - destruct (named_index_spec w3 d segs seqs active (max_segment_size disk) hi hw Hn Hw3 Hmax Hhw Hc3 HG3 Hh1)
      as (ds & w4 & w5 & E4 & E5 & HI5 & HG5 & M5 & T5); [auto|done|done| | |].
    + unfold Zlen in *. rewrite length_fmap in Q3. lia.
    + apply Forall_forall. intros n (r & -> & [[i Hi] Ha]%Hact)%Q2%list_elem_of_fmap. by eapply Hst.
    + eexists _, _, w3, w5. split; [|split_and!; [done|done|exact HI5|exact HG5|done|done|]].
      * rewrite (bindM_run _ _ w3 (mkSegmentIndex (max_segment_size disk) ds (sat_add32 (Z.max (default active hi) active) 1)) w4)
          by (rewrite (bindM_run _ _ _ _ _ E4); done). exact E5.
      * intros i r Hi Ha. destruct (Hst i r Hi Ha) as [y Hy]. rewrite Hy. apply map_lookup_filter_Some. split; [done|].
        change (physical_segment_id r ∈ seqs).
        apply Q2, list_elem_of_fmap_2, Hact. eauto.
  - destruct (empty_index_spec w3 d segs (max_segment_size disk) hi hw Hn Hw3 Hmax Hhw Hc3 Hh1 Hseg)
      as (w4 & w5 & E4 & E5 & HI5 & HG5 & M5 & T5).
    eexists _, _, w3, w5. split; [|split_and!; [done|done|exact HI5|exact HG5|done|done|]].
    + unfold bindM in E4, E5 |- *. destruct (write_segment_file _ _ _ _ _ w3) as [[[]|] wa]; [|done].
      destruct (invalidate_data_segment_cache _ wa) as [[[]|] wb]; [|done]. injection E4 as ->. exact E5.
    + intros i r Hi Ha. apply last_None in Elast. exfalso.
      assert (physical_segment_id r ∈ seqs) as Hin by (apply Q2, list_elem_of_fmap_2, Hact; eauto).
      rewrite Elast in Hin. by apply elem_of_nil in Hin.
Qed.
End Laws.
