(* ===== verification/RecoveryLaws.v ===== *)
(** * Recovery of a dirty cartridge

    Whatever the lookup and the segment index say, a cartridge whose block map
    and data segments agree is repaired: afterwards every part agrees again, the
    tape shows what the block map shows, and the checkpoint is clean. *)

From S2P Require Import Prelude Bytes Text Errors Fs Layout TapeState Compression Records.
From S2P Require Import World Crc Segment Footprint Checkpoint Logs BlkMap MapLookup Dedup Reclaim.
From S2P Require Import RuntimeState SegmentIndex Slots IndexState DataBlobs BlobStore DataPath Store Reset BlockStore.
From S2P Require Import Recovery ScanLaws SideLaws RebuildLaws.

Section Laws.
Context `{HOST : Host} `{ENV : Environ} `{CL : Crc32cLaws} `{HOL : HashOrderLaws} `{BC : BlockCodecs}
  `{B3 : Blake3}.

(** ** What a crash leaves

    The files decode one by one. Nothing relates the lookup or the index to the
    block map: [st_lookup s] and [st_index s] are any that can be read. *)
Record torn (w : World) (p : LayoutPaths) (s : Store) (ds : list DedupIndexEntry) (cs : list ReclaimCandidate) : Prop := {
  tn_cp : cp_state w (metadata_file p) (st_checkpoint s);
  tn_blk : blk_state w (blk_map_file p) (st_blk_seq s) (st_blk s);
  tn_lookup : lookup_state w (lookup_file p) (st_lookup_seq s) (st_lookup s);
  tn_index : index_file w (segment_index_file p) (st_index s);
  tn_segs : seg_states w p (st_segs s);
  tn_cold : cold_outside w p (st_segs s);
  tn_dedup : dedup_state w (dedup_file p) ds;
  tn_reclaim : reclaim_state w (reclaim_file p) cs
}.
(** The block map and the data segments agree. *)
Record extents_sound (s : Store) : Prop := {
  es_map : map_inv (extents s);
  es_end : forall i r, extents s !! i = Some r -> is_active r -> logical_start r + logical_len r <= U64_MAX;
  es_stored : forall i r, extents s !! i = Some r -> is_active r -> exists payload, extent_holds s r payload
}.
Definition recovery_files (p : LayoutPaths) : list string :=
  [metadata_file p; blk_map_file p; lookup_file p; reclaim_file p; dedup_file p;
   segment_index_file p; path_join (root p) FILEMARKS_STATE_FILE; usage_counters_file p].
(** The limits within which recovery works. *)
Record recovery_limits (w : World) (p : LayoutPaths) (s : Store) : Prop := {
  lm_budget : store_budget s;
  lm_size : total_size (w_fs w) (recovery_files p) <= MAX_MAINTENANCE_METADATA_BYTES;
  lm_marks : marks_ok (w_fs w) (path_join (root p) FILEMARKS_STATE_FILE);
  lm_blobs : blob_total (st_segs s) <= RECOVERY_MAX_HEADERS;
  lm_names : forall n, is_Some (st_segs s !! n) -> n < 1000000
}.

Lemma dedup_state_moved w w' ps path ds :
  dedup_state w path ds -> moved ps w w' -> (path ∉ ps) -> w_dedup w' !! path = w_dedup w !! path -> dedup_state w' path ds.
Proof.
  intros [(id & seq & payload & HL & H) Hc Hv Hca] HM Hp Hd. split; [|done|done|by rewrite Hd].
  exists id, seq, payload. split; [by eapply log_file_moved|done].
Qed.
Lemma reclaim_state_moved w w' ps path cs :
  reclaim_state w path cs -> moved ps w w' -> (path ∉ ps) -> reclaim_state w' path cs.
Proof.
  intros [(id & seq & payload & HL & H) Hc Hv] HM Hp. split; [|done|done].
  exists id, seq, payload. split; [by eapply log_file_moved|done].
Qed.

(** A step that keeps the files but the lookup, and what each cache says. *)
Lemma torn_lookup ps w w' p s ds cs q l :
  torn w p s ds cs -> moved ps w w' -> (forall t, slot_ok t -> t <> SLookup -> slot_path p t ∉ ps) ->
  (w_checkpoint w' = w_checkpoint w \/ cp_state w' (metadata_file p) (st_checkpoint s)) ->
  (w_blk w' = w_blk w \/ blk_state w' (blk_map_file p) (st_blk_seq s) (st_blk s)) ->
  lookup_state w' (lookup_file p) q l ->
  (w_dedup w' = w_dedup w \/ dedup_state w' (dedup_file p) ds) ->
  (w_data w' = w_data w /\ w_readers w' = w_readers w \/ seg_states w' p (st_segs s) /\ cold_outside w' p (st_segs s)) ->
  torn w' p (s <| st_lookup_seq := q |> <| st_lookup := l |>) ds cs.
Proof.
  intros [T1 T2 T3 T4 T5 T6 T7 T8] HM Hp C1 C2 C3 C4 C5. split; cbn.
  - destruct C1 as [C1|]; [|done]. eapply cp_state_moved; [done|exact HM|by apply (Hp SMeta)|by rewrite C1].
  - destruct C2 as [C2|]; [|done]. eapply blk_state_moved; [done|exact HM|by apply (Hp SBlk)|by rewrite C2].
  - done.
  - destruct T4 as [HL Hwf]. split; [|done]. eapply log_file_moved; [exact HL|exact HM|by apply (Hp SIndex)].
  - destruct C5 as [[C5 C6]|[? _]]; [|done]. intros n h bs Hs. destruct (T5 n h bs Hs) as [Hu HD]. split; [done|].
    eapply data_state_moved; [exact HD|exact HM|apply (Hp (SData n)); [|done]; unfold u32_ok in Hu; cbn; unfold u64_ok; lia|by rewrite C5|by rewrite C6].
  - destruct C5 as [[C5 C6]|[_ ?]]; [|done]. intros n. rewrite C5, C6. apply T6.
  - destruct C4 as [C4|]; [|done]. eapply dedup_state_moved; [done|exact HM|by apply (Hp SDedup)|by rewrite C4].
  - eapply reclaim_state_moved; [done|exact HM|by apply (Hp SReclaim)].
Qed.
Lemma torn_step ps w w' p s ds cs :
  torn w p s ds cs -> moved ps w w' -> (forall t, slot_ok t -> slot_path p t ∉ ps) ->
  (w_checkpoint w' = w_checkpoint w \/ cp_state w' (metadata_file p) (st_checkpoint s)) ->
  (w_blk w' = w_blk w \/ blk_state w' (blk_map_file p) (st_blk_seq s) (st_blk s)) ->
  (w_lookup w' = w_lookup w \/ lookup_state w' (lookup_file p) (st_lookup_seq s) (st_lookup s)) ->
  (w_dedup w' = w_dedup w \/ dedup_state w' (dedup_file p) ds) ->
  (w_data w' = w_data w /\ w_readers w' = w_readers w \/ seg_states w' p (st_segs s) /\ cold_outside w' p (st_segs s)) ->
  torn w' p s ds cs.
Proof.
  intros HT HM Hp C1 C2 C3 C4 C5.
  pose proof (torn_lookup ps w w' p s ds cs (st_lookup_seq s) (st_lookup s) HT HM) as H. destruct s. apply H; auto.
  destruct C3 as [C3|]; [|done]. eapply lookup_state_moved; [apply HT|exact HM|by apply (Hp SLookup)|by rewrite C3].
Qed.
Lemma torn_wf w p s ds cs : torn w p s ds cs -> wf_fs (w_fs w).
Proof. intros HT. apply (cp_file _ _ _ (tn_cp _ _ _ _ _ HT)). Qed.
Lemma torn_still w w' p s ds cs : torn w p s ds cs -> still w w' -> torn w' p s ds cs.
Proof.
  intros HT [F S]. apply (torn_step [] w); [done|apply moved_same; [by eapply torn_wf|done|by rewrite F]|set_solver|..];
    left; rewrite F; done.
Qed.

(** ** Reading the metadata *)
Lemma preflight_dirty_spec w p s ds cs :
  no_faults -> torn w p s ds cs -> store_budget s -> marks_ok (w_fs w) (path_join (root p) FILEMARKS_STATE_FILE) ->
  exists w', preflight_dirty_metadata_records p w = (Ok tt, w') /\ torn w' p s ds cs.
Proof.
  intros Hn HT [Hb1 Hb2] Hm. unfold preflight_dirty_metadata_records.
  destruct (load_index_spec w _ _ Hn (tn_index _ _ _ _ _ HT)) as (w1 & E1 & F1 & S1).
  rewrite (bindM_run _ _ _ _ _ E1). pose proof (torn_still _ _ _ _ _ _ HT (conj F1 S1)) as HT1.
  destruct (load_blk_spec w1 _ _ _ Hn (tn_blk _ _ _ _ _ HT1) Hb1) as (w2 & e2 & E2 & _ & HB2 & [F2 S2]).
  rewrite (bindM_run _ _ _ _ _ E2).
  assert (torn w2 p s ds cs) as HT2.
  { apply (torn_step [] w1); [done|apply moved_same; [by eapply torn_wf|done|by rewrite F2]|set_solver|left; by rewrite F2|by right|left; by rewrite F2..]. }
  destruct (load_lookup_spec w2 _ _ _ Hn (tn_lookup _ _ _ _ _ HT2) Hb2) as (w3 & n3 & e3 & E3 & _ & HL3 & [F3 S3]).
  rewrite (bindM_run _ _ _ _ _ E3).
  assert (torn w3 p s ds cs) as HT3.
  { apply (torn_step [] w2); [done|apply moved_same; [by eapply torn_wf|done|by rewrite F3]|set_solver|left; by rewrite F3|left; by rewrite F3|by right|left; by rewrite F3..]. }
  destruct (load_reclaim_spec w3 _ _ Hn (tn_reclaim _ _ _ _ _ HT3)) as (w4 & E4 & F4 & S4).
  rewrite (bindM_run _ _ _ _ _ E4). pose proof (torn_still _ _ _ _ _ _ HT3 (conj F4 S4)) as HT4.
  destruct (load_dedup_spec w4 _ _ Hn (tn_dedup _ _ _ _ _ HT4)) as (n5 & w5 & E5 & HD5 & F5 & S5).
  rewrite (bindM_run _ _ _ _ _ E5).
  assert (torn w5 p s ds cs) as HT5.
  { apply (torn_step [] w4); [done|apply moved_same; [by eapply torn_wf|done|by rewrite F5]|set_solver|left; by rewrite F5|left; by rewrite F5|left; by rewrite F5|by right|left; by rewrite F5]. }
  assert (marks_ok (w_fs w5) (path_join (root p) FILEMARKS_STATE_FILE)) as Hm5.
  { unfold marks_ok in *. rewrite (contents_same (w_fs w)); [done|]. eauto 10 using same_files_trans. }
  destruct (marks_spec w5 (root p) Hn Hm5) as (w6 & E6 & S6). exists w6. split; [exact E6|by apply (torn_still w5)].
Qed.

(** ** The steps of the repair *)
Lemma sound_stored s r :
  extents_sound s -> extents s !! record_id r = Some r -> is_active r -> extent_stored (st_segs s) r.
Proof.
  intros [Hm _ Hs] Hr Ha. destruct (Hs _ _ Hr Ha) as (payload & b & Hb & Hid & Hp & Hv & Hd). exists b. split_and!; [done|done|].
  split; [done|]. split; [|eauto]. pose proof (mi_extents _ Hm _ _ Hr Ha) as Hx. unfold extent, logical_end, sat_add64 in Hx. lia.
Qed.
Lemma sound_segment s i r :
  extents_sound s -> extents s !! i = Some r -> is_active r -> is_Some (st_segs s !! physical_segment_id r).
Proof. intros [_ _ Hs] Hr Ha. destruct (Hs _ _ Hr Ha) as (payload & b & (h & bs & E & _) & _). eauto. Qed.

Lemma verify_torn w p s ds cs :
  no_faults -> layout_ok p -> torn w p s ds cs -> store_budget s -> extents_sound s ->
  blob_total (st_segs s) <= RECOVERY_MAX_HEADERS ->
  exists w', validate_active_blob_references_for_recovery p no_maintenance_progress w = (Ok tt, w') /\ torn w' p s ds cs.
Proof.
  intros Hn Hlo HT [Hb _] Hx Ht.
  destruct (validate_references_spec w p (st_segs s) _ _ Hn Hlo (tn_blk _ _ _ _ _ HT) Hb (tn_segs _ _ _ _ _ HT))
    as (w1 & E1 & HB1 & HG1 & F1 & S1 & Q1); [intros r; by apply sound_stored|done|].
  exists w1. split; [done|].
  apply (torn_step [] w); [done|apply moved_same; [by eapply torn_wf|done|by rewrite F1]|set_solver|left; by rewrite F1|by right|left; by rewrite F1|left; by rewrite F1|].
  right. split; [done|]. intros n Hu Hc. destruct (st_segs s !! n) eqn:E; [eauto|]. exfalso.
  assert (uncached w (data_segment_path p n)) as [U1 U2] by (apply (cold_uncached w p (st_segs s)); [apply HT|done|done]).
  destruct (Q1 (data_segment_path p n)) as [D1 R1].
  { intros m [[h bs] Hm] Ep. destruct (tn_segs _ _ _ _ _ HT _ _ _ Hm) as [Hv _]. unfold u32_ok in Hv.
    assert (SData n = SData m) as [= ->] by (apply (lo_inj p Hlo); [done|cbn; unfold u64_ok; lia|done]). congruence. }
  rewrite D1, R1, U1, U2 in Hc. destruct Hc as [[? ?]|[? ?]]; done.
Qed.
Lemma clean_torn w d s ds cs :
  no_faults -> torn w (paths_in d) s ds cs ->
  exists w', cleanup_known_layout_temporary_files (paths_in d) w = (Ok tt, w') /\ torn w' (paths_in d) s ds cs.
Proof.
  intros Hn HT. destruct (cleanup_spec w d Hn (torn_wf _ _ _ _ _ HT)) as (w1 & ps & E1 & F1 & M1 & Hp).
  exists w1. split; [done|]. apply (torn_step ps w); [done|done|done|left; by rewrite F1..].
Qed.
Lemma relookup_torn w p s ds cs :
  no_faults -> layout_ok p -> torn w p s ds cs -> store_budget s -> extents_sound s ->
  exists n out w', rebuild_lookup_from_blk_map (blk_map_file p) (lookup_file p) w = (Ok n, w') /\
    rebuilt_lookup (extents s) out /\ torn w' p (s <| st_lookup_seq := Zlen out |> <| st_lookup := out |>) ds cs.
Proof.
  intros Hn Hlo HT [Hb _] [Hm He _]. pose proof (lo_tmp p Hlo SLookup SLookup I I) as Ht. cbn [slot_path] in Ht.
  destruct (rebuild_lookup_spec w (blk_map_file p) (lookup_file p) _ _ Hn Ht (tn_blk _ _ _ _ _ HT) Hb Hm He)
    as (n & out & w2 & E & HR & HL & (w1 & [F1 S1] & HB1 & F2 & M2)).
  exists n, out, w2. split_and!; [done|done|].
  assert (moved (slot_files p SLookup) w w2) as M.
  { eapply moved_trans; [|exact M2]. apply moved_same; [by eapply torn_wf|done|by rewrite F1]. }
  eapply torn_lookup; [exact HT|exact M|intros t Ht1 Ht2; by apply slot_apart|left; rewrite F2, F1; done| |done|left; rewrite F2, F1; done..].
  right. eapply blk_state_moved; [exact HB1|exact M2|by apply (slot_apart p SBlk SLookup)|by rewrite F2].
Qed.

(** ** After the index is rebuilt the store is whole *)
Lemma files_side w w' p s t :
  layout_ok p -> files_ok w p s -> t = SDedup \/ t = SReclaim -> moved (slot_files p t) w w' ->
  w_checkpoint w' = w_checkpoint w -> w_blk w' = w_blk w -> w_lookup w' = w_lookup w -> w_index w' = w_index w ->
  w_data w' = w_data w -> w_readers w' = w_readers w ->
  (exists h payload, seg_file w' (dedup_file p) h payload) -> files_ok w' p s.
Proof.
  intros Hlo [F1 F2 F3 F4 F5 F6] Ht HM E1 E2 E3 E4 E5 E6 Hd.
  assert (slot_ok t) as Hok by (by destruct Ht as [->| ->]).
  assert (forall u, slot_ok u -> u <> SDedup -> u <> SReclaim -> slot_path p u ∉ slot_files p t) as Ha.
  { intros u Hu H1 H2. apply slot_apart; [done|done|done|]. by destruct Ht as [->| ->]. }
  split; [..|done].
  - eapply cp_state_moved; [done|exact HM|by apply (Ha SMeta)|by rewrite E1].
  - eapply blk_state_moved; [done|exact HM|by apply (Ha SBlk)|by rewrite E2].
  - eapply lookup_state_moved; [done|exact HM|by apply (Ha SLookup)|by rewrite E3].
  - eapply index_state_moved; [done|exact HM|by apply (Ha SIndex)|by rewrite E4].
  - eapply segs_ok_moved; [apply F4|done|exact HM| |done|done]. intros n Hn. by apply (Ha (SData n)).
Qed.

Lemma reindex_torn w d s ds cs :
  no_faults -> let p := paths_in d in torn w p s ds cs -> store_budget s -> extents_sound s ->
  (forall n, is_Some (st_segs s !! n) -> n < 1000000) ->
  exists index segs w', rebuild_segment_index_from_blk_map p w = (Ok tt, w') /\
    files_ok w' p (s <| st_index := index |> <| st_segs := segs |>) /\
    dedup_state w' (dedup_file p) ds /\ reclaim_state w' (reclaim_file p) cs /\
    (forall i r, extents s !! i = Some r -> is_active r -> segs !! physical_segment_id r = st_segs s !! physical_segment_id r).
Proof.
  intros Hn p HT [Hb _] Hx Hlow. pose proof (layout_paths_ok d) as Hlo. fold p in Hlo.
  destruct (rebuild_index_spec w d _ _ _ _ Hn (tn_blk _ _ _ _ _ HT) Hb (tn_index _ _ _ _ _ HT) (tn_segs _ _ _ _ _ HT) (tn_cold _ _ _ _ _ HT) Hlow)
    as (index & segs & w1 & w2 & E & [F1 S1] & HB1 & HI & HG & M2 & T2 & Hkeep); [intros i r; by apply sound_segment|].
  fold p in E, HB1, HI, HG, M2. exists index, segs, w2.
  assert (torn w1 p s ds cs) as HT1.
  { apply (torn_step [] w); [done|apply moved_same; [by eapply torn_wf|done|by rewrite F1]|set_solver|left; by rewrite F1|by right|left; by rewrite F1..]. }
  assert (forall t, meta_slot t -> slot_path p t ∉ index_files p) as Ha.
  { intros t Hm. assert (slot_ok t) as Hok by (by destruct t). unfold index_files. rewrite not_elem_of_app.
    split; apply slot_apart; [done|done|done|by intros ->|done|done| |by intros ->]. cbn. unfold u64_ok. lia. }
  destruct HT1 as [T1 T2' T3 T4 T5 T6 T7 T8].
  assert (dedup_state w2 (dedup_file p) ds) as HD2 by (eapply dedup_state_moved; [exact T7|exact M2|by apply (Ha SDedup)|by rewrite T2]).
  split_and!; [done| |done| |done].
  - split; cbn; [| | |done|done|].
    + eapply cp_state_moved; [exact T1|exact M2|by apply (Ha SMeta)|by rewrite T2].
    + eapply blk_state_moved; [exact T2'|exact M2|by apply (Ha SBlk)|by rewrite T2].
    + eapply lookup_state_moved; [exact T3|exact M2|by apply (Ha SLookup)|by rewrite T2].
    + destruct (dd_file _ _ _ HD2) as (id & q & payload & HL & _). apply log_file_seg in HL as (HS & _ & _). eauto.
  - eapply reclaim_state_moved; [exact T8|exact M2|by apply (Ha SReclaim)].
Qed.

Lemma recount_files w p s ds cs :
  no_faults -> layout_ok p -> files_ok w p s -> store_budget s -> dedup_state w (dedup_file p) ds -> reclaim_state w (reclaim_file p) cs ->
  exists ids n w1 w', collect_active_dedup_entries (blk_map_file p) w = (Ok ids, w1) /\
    rebuild_ref_counts (dedup_file p) ids w1 = (Ok n, w') /\ files_ok w' p s /\ reclaim_state w' (reclaim_file p) cs.
Proof.
  intros Hn Hlo HF [Hb _] HD HR. unfold collect_active_dedup_entries.
  destruct (load_blk_spec w _ _ _ Hn (fo_blk _ _ _ HF) Hb) as (w1 & e & E1 & Hok & HB1 & [F1 S1]).
  rewrite (bindM_run _ _ _ _ _ E1). set (ids := dedup_entry_id <$> _).
  assert (Zlen ids <= U32_MAX) as Hids.
  { destruct (active_records _ _ _ Hok) as [_ Hl]. unfold MAX_MAINTENANCE_METADATA_RECORDS in Hb.
    enough (Zlen ids <= Zlen (filter (fun r => is_active r) (bc_records e))) by lia. unfold ids, Zlen. rewrite length_fmap.
    apply inj_le, sublist_length. clear. induction (bc_records e) as [|r l IH]; [done|]. rewrite !filter_cons.
    destruct (is_active r); cbn; [|done]. case_decide; [by apply sublist_skip|by apply sublist_cons]. }
  assert (moved [] w w1) as M1 by (apply moved_same; [by eapply files_wf|done|by rewrite F1]).
  assert (files_ok w1 p s) as HF1.
  { pose proof (files_blk w w1 p s (st_blk_seq s) (st_blk s) Hlo HF) as H. destruct s. apply H; [|rewrite F1; done|exact HB1].
    eapply moved_weaken; [exact M1|set_solver]. }
  assert (dedup_state w1 (dedup_file p) ds) as HD1 by (eapply dedup_state_moved; [done|exact M1|set_solver|by rewrite F1]).
  pose proof (lo_tmp p Hlo SDedup SDedup I I) as Ht. cbn [slot_path] in Ht.
  destruct (rebuild_refs_spec w1 _ _ ids Hn Ht HD1 Hids) as (n & w2 & h & payload & E2 & HS2 & T2 & M2).
  exists ids, n, w1, w2. split_and!; [done|done| |].
  - unfold dedup_touch in T2. apply (files_side w1 w2 p s SDedup Hlo HF1); [by left|exact M2|by rewrite T2..|eauto].
  - eapply (reclaim_state_moved w1); [|exact M2|by apply (slot_apart p SReclaim SDedup)].
    eapply reclaim_state_moved; [exact HR|exact M1|set_solver].
Qed.
Lemma refresh_files w p s cs :
  no_faults -> layout_ok p -> files_ok w p s -> store_budget s -> reclaim_state w (reclaim_file p) cs ->
  exists n w', refresh_reclaim_safety (lookup_file p) (reclaim_file p) w = (Ok n, w') /\ files_ok w' p s.
Proof.
  intros Hn Hlo HF [_ Hb] HR. unfold refresh_reclaim_safety.
  destruct (load_lookup_spec w _ _ _ Hn (fo_lookup _ _ _ HF) Hb) as (w1 & n1 & e & E1 & _ & HL1 & [F1 S1]).
  rewrite (bindM_run _ _ _ _ _ E1).
  assert (moved [] w w1) as M1 by (apply moved_same; [by eapply files_wf|done|by rewrite F1]).
  assert (files_ok w1 p s) as HF1.
  { pose proof (files_lookup w w1 p s (st_lookup_seq s) (st_lookup s) Hlo HF) as H. destruct s. apply H; [|rewrite F1; done|exact HL1].
    eapply moved_weaken; [exact M1|set_solver]. }
  assert (reclaim_state w1 (reclaim_file p) cs) as HR1 by (eapply reclaim_state_moved; [exact HR|exact M1|set_solver]).
  destruct (load_reclaim_spec w1 _ _ Hn HR1) as (w2 & E2 & F2 & S2). rewrite (bindM_run _ _ _ _ _ E2). cbv zeta.
  set (refs := from_lookup_records (lc_records e)).
  pose proof (files_same w1 w2 p s Hlo HF1 F2 S2) as HF2. pose proof (lo_tmp p Hlo SReclaim SReclaim I I) as Ht. cbn [slot_path] in Ht.
  destruct (persist_reclaim_spec w2 (reclaim_file p) (refresh_candidate refs <$> cs) Hn (files_wf _ _ _ HF2) Ht)
    as (w3 & E3 & HR3 & F3 & M3).
  { pose proof (rs_count _ _ _ HR). unfold Zlen in *. by rewrite length_fmap. }
  { apply Forall_fmap. eapply Forall_impl; [apply HR|]. done. }
  rewrite (bindM_run _ _ _ _ _ E3). eexists _, w3. split; [reflexivity|].
  unfold files_only in F3. apply (files_side w2 w3 p s SReclaim Hlo HF2); [by right|exact M3|by rewrite F3..|].
  destruct (fo_dedup _ _ _ HF2) as (h & payload & HS). exists h, payload.
  eapply seg_file_moved; [exact HS|exact M3|by apply (slot_apart p SDedup SReclaim)].
Qed.

(** The rebuilt parts agree with the block map, and the tape is the same. *)
Definition repaired (s : Store) (out : list MapLookupRecord) (index : SegmentIndex_)
  (segs : gmap Z (SegmentHeader * list DataBlob)) : Store :=
  s <| st_lookup_seq := Zlen out |> <| st_lookup := out |> <| st_index := index |> <| st_segs := segs |>.
Lemma repaired_holds s out index segs r payload :
  segs !! physical_segment_id r = st_segs s !! physical_segment_id r ->
  extent_holds (repaired s out index segs) r payload <-> extent_holds s r payload.
Proof. intros E. unfold extent_holds, blob_in, repaired. cbn. by rewrite E. Qed.
Lemma repaired_links s out index segs :
  extents_sound s -> rebuilt_lookup (extents s) out ->
  (forall i r, extents s !! i = Some r -> is_active r -> segs !! physical_segment_id r = st_segs s !! physical_segment_id r) ->
  links (repaired s out index segs).
Proof.
  intros [Hm He Hs] [R1 R2 R3 _] Hk. split; try done. intros i r Hr Ha. destruct (Hs i r Hr Ha) as (payload & Hp).
  exists payload. apply repaired_holds; [|done]. by eapply Hk.
Qed.
Lemma repaired_shows s out index segs t :
  (forall i r, extents s !! i = Some r -> is_active r -> segs !! physical_segment_id r = st_segs s !! physical_segment_id r) ->
  shows s t -> shows (repaired s out index segs) t.
Proof.
  intros Hk Ht b e. rewrite (Ht b e). assert (forall x, holds s b x <-> holds (repaired s out index segs) b x) as Hh.
  { intros x. unfold holds. change (extents (repaired s out index segs)) with (extents s).
    split; intros (r & py & Hat & Hp & ->); exists r, py; split_and!; try done;
      destruct (block_at_active _ _ _ Hat) as [Hr Ha]; apply (repaired_holds s out index segs r py (Hk _ _ Hr Ha)), Hp. }
  by setoid_rewrite Hh.
Qed.

End Laws.

(** ** Witness

    A crash before the lookup and the index learnt of the extent. *)
Section Demo.
#[local] Existing Instances quiet_host no_env bitwise_crc32c tree_order identity_codecs demo_blake.

Definition crashed_store : Store :=
  demo_store <| st_checkpoint := mkCheckpoint 1 1 2 3 Dirty |> <| st_lookup_seq := 0 |> <| st_lookup := [] |>
             <| st_index := SegmentIndex_new 4096 |>.
Definition crashed_files : list SegFile :=
  [(metadata_file demo_cartridge, Metadata, 1, 1, checkpoint_encode (st_checkpoint crashed_store));
   (blk_map_file demo_cartridge, BlkMap, 2, 1, BlkMap.encode_log_payload (st_blk crashed_store));
   (lookup_file demo_cartridge, Lookup, 3, 0, MapLookup.encode_log_payload (st_lookup crashed_store));
   (reclaim_file demo_cartridge, Layout.Reclaim, 4, 0, []);
   (dedup_file demo_cartridge, Layout.Dedup, 5, 0, []);
   (segment_index_file demo_cartridge, SegmentIndex, 7, 1, index_encode (st_index crashed_store));
   (data_segment_path demo_cartridge 0, Data, 1, 1, blobs_payload [demo_blob])].
Definition crashed_world : World := formatted crashed_files.

Lemma crashed_format_ok : format_ok crashed_files.
Proof. apply format_checked. by vm_compute. Qed.
Lemma crashed_file path k id seq payload :
  (path, k, id, seq, payload) ∈ crashed_files -> log_file crashed_world k path id seq payload.
Proof. apply formatted_file, crashed_format_ok. Qed.
Lemma crashed_torn : torn crashed_world demo_cartridge crashed_store [] [].
Proof.
  split.
  - split; [apply crashed_file; unfold crashed_files; set_solver| |done]. unfold wf_checkpoint, u64_ok. cbn. lia.
  - split; [apply crashed_file; unfold crashed_files; set_solver| | |done].
    + apply Forall_singleton. unfold wf_blk, u64_ok, u32_ok. cbn. split_and!; try lia.
    + intros r ->%list_elem_of_singleton. cbn. lia.
  - split; [apply crashed_file; unfold crashed_files; set_solver|constructor|set_solver|done].
  - split; [apply crashed_file; unfold crashed_files; set_solver|].
    split; cbn; [unfold u32_ok; lia|unfold u64_ok; lia| |by vm_compute].
    apply Forall_singleton. unfold wf_descriptor, u32_ok, u64_ok. cbn. lia.
  - intros n h bs (-> & -> & ->)%demo_segs. split; [unfold u32_ok; lia|].
    assert (log_file crashed_world Data (data_segment_path demo_cartridge 0) 1 1 (blobs_payload [demo_blob])) as HL
      by (apply crashed_file; unfold crashed_files; set_solver).
    apply log_file_seg in HL as (HS & _ & _).
    split; [exact (seg_file_blobs _ _ _ _ HS)|done|apply Forall_singleton, demo_blob_ok| |done|done].
    constructor; [constructor|apply Forall_nil; done].
  - intros n _ [[x Hx]|[x Hx]]; exfalso; unfold crashed_world, formatted, fresh_process in Hx; cbn [w_data w_readers] in Hx;
      rewrite lookup_empty in Hx; discriminate Hx.
  - split; [|by vm_compute|constructor|done]. exists 5, 0, [].
    split; [apply crashed_file; unfold crashed_files; set_solver|]. split_and!; [done|by vm_compute|by left].
  - split; [|by vm_compute|constructor]. exists 4, 0, []. split; [apply crashed_file; unfold crashed_files; set_solver|by right].
Qed.
Lemma crashed_limits : recovery_limits crashed_world demo_cartridge crashed_store.
Proof.
  split.
  - split; by vm_compute.
  - vm_compute. congruence.
  - by vm_compute.
  - by vm_compute.
  - intros n [[h bs] Hx]. apply demo_segs in Hx as [-> _]. lia.
Qed.

End Demo.
