(* ===== verification/System.v ===== *)
(** * The whole data-plane process

    One drive, the storage process behind it, the lock directory of the space
    guard and the read-ahead jobs: the state a SCSI command runs on, and the
    lifting of the layers' computations to it. *)

From S2P Require Import Prelude Bytes Text Errors Fs Layout TapeState SpaceGuard Compression Records World.
From S2P Require Import DataPath.

(** A read-ahead job: its position and, once its thread has run, what the read
    gave. *)
Record ReadPrefetchJob : Type := mkJob {
  job_position : Z;
  job_result : option (Result StorageError (option LogicalReadResult))
}.

Record ReadPrefetchDegradation : Type := mkDegradation {
  invalidation_failures : Z;
  bypass_reads : bool
}.

(** What was last written to a cartridge's shared metadata file. *)
Record SyncedCartridgeUsage : Type := mkSynced {
  su_cartridge_id : string;
  su_capacity_bytes : option Z;
  su_used_bytes : Z
}.

Record Sys : Type := mkSys {
  y_tape : TapeState;
  y_world : World;
  y_space : SpaceState;
  y_jobs : gmap string (list ReadPrefetchJob);
  y_degraded : gmap string ReadPrefetchDegradation;
  y_spawned : nat;
  y_usage_sync : gmap string SyncedCartridgeUsage
}.
#[export] Instance eta_Sys : Eta Sys := fun r =>
  mkSys (y_tape r) (y_world r) (y_space r) (y_jobs r) (y_degraded r) (y_spawned r) (y_usage_sync r).

(** ** Lifting *)
Definition on_world {E A} (m : M World E A) : M Sys E A := zoomM y_world (fun w y => y <| y_world := w |>) m.
Definition on_space {E A} (m : M SpaceState E A) : M Sys E A := zoomM y_space (fun s y => y <| y_space := s |>) m.
Definition on_drive {E A} (m : M TapeState E A) : M Sys E A := zoomM y_tape (fun t y => y <| y_tape := t |>) m.
(** The drive and the file system together, for the usage counters. *)
Definition on_drive_fs {E A} (m : M (TapeState * Fs) E A) : M Sys E A :=
  zoomM (fun y => (y_tape y, w_fs (y_world y)))
        (fun p y => y <| y_tape := p.1 |> <| y_world := (y_world y) <| w_fs := p.2 |> |>) m.

(** Storage errors become tape errors with [?]; I/O errors go through
    [StorageError::from]. *)
Definition storage {A} (m : M World StorageError A) : M Sys TapeError A := map_errM Storage (on_world m).
Definition counters {A} (m : M (TapeState * Fs) IoError A) : M Sys TapeError A :=
  map_errM (fun e => Storage (storage_error_of_io e)) (on_drive_fs m).

Definition the_tape {E} : M Sys E TapeState := getsM y_tape.
Definition set_tape {E} (f : TapeState -> TapeState) : M Sys E unit := modifyM (fun y => y <| y_tape := f (y_tape y) |>).
