(* ===== verification/Bootstrap.v ===== *)
(** * Finding and opening a cartridge's layout

    The lease a drive takes on a cartridge (storage/layout_lease.rs), the choice
    of the storage root (storage/metadata.rs), the resolution of the layout
    directory and the creation and loading of its files (storage/layout.rs).
    SHA-256 comes from the [sha2] crate and is a parameter. *)

From S2P Require Import Prelude Bytes Text Errors Fs Layout TapeState SpaceGuard Compression Records World Crc.
From S2P Require Import Segment Footprint Checkpoint Logs BlkMap MapLookup Dedup Reclaim RuntimeState SegmentIndex.
From S2P Require Import DataBlobs DataPath System.

(** The hexadecimal digest of a byte string. *)
Class Sha256 : Type := sha256_hex : list Z -> list Z.

(** ** Leases *)
Inductive LayoutLeaseError : Type :=
| LeaseBusy
| InvalidIdentity
| IdentityConflict
| LeaseIo (e : IoError).

Definition storage_error_from_lease (e : LayoutLeaseError) : StorageError :=
  match e with
  | LeaseBusy => Conflict "layout is busy"
  | InvalidIdentity => Conflict "invalid cartridge layout identity"
  | IdentityConflict => Conflict "identity_conflict"
  | LeaseIo e => SIo e
  end.

(** Identifiers the management plane may use: at most 128 bytes, starting with
    a letter or digit, without two dots in a row. *)
Fixpoint has_dot_dot (l : list Z) : bool :=
  match l with
  | 46 :: ((46 :: _) as l') => true
  | _ :: l' => has_dot_dot l'
  | [] => false
  end.
Definition management_byte (b : Z) : bool :=
  is_ascii_alphanumeric b || bool_decide (b ∈ [46; 95; 58; 32; 45]).
Definition valid_management_id (value : string) : bool :=
  match bytes_of_string value with
  | [] => false
  | b :: _ as bytes =>
      bool_decide (length bytes <= 128)%nat && is_ascii_alphanumeric b && negb (has_dot_dot bytes) &&
      forallb management_byte bytes
  end.

Section Lease.
Context `{SH : SpaceHost} `{SHA : Sha256} `{ENV : Environ}.

Definition layout_lease_key (device inode : Z) (cartridge_id : string) : list Z :=
  sha256_hex (bytes_of_string "holo-layout-v2" ++ [0] ++ show_uint device ++ [0] ++ show_uint inode ++ [0] ++
              bytes_of_string (sanitize_id cartridge_id)).

Definition lease_ask {A} (q : nat -> Result IoError A) : M SpaceState LayoutLeaseError A :=
  map_errM LeaseIo (ask q).

Definition pool_root_identity (root : string) : M SpaceState LayoutLeaseError (Z * Z) :=
  let! (k, dev, ino) := lease_ask (fun t => sh_metadata t root) in
  if decide (k = EkDir) then retM (dev, ino) else failM InvalidIdentity.

Definition storage_runtime_dir : string :=
  match getenv "HOLO_RUN_DIR" with
  | Some value => if decide (value = []) then "/run/holo" else string_of_bytes value
  | None => "/run/holo"
  end.

Definition require_lease_dir (path : string) : M SpaceState LayoutLeaseError unit :=
  let! (k, _, _) := lease_ask (fun t => sh_metadata t path) in
  if decide (k = EkDir) then retM tt else failM InvalidIdentity.

Definition lease_lock_dir (runtime_dir : string) : M SpaceState LayoutLeaseError string :=
  lease_ask (fun t => sh_mkdir t runtime_dir) ;;!
  require_lease_dir runtime_dir ;;!
  let lock_dir := path_join runtime_dir "storage-locks" in
  let! made := tryM (ask (fun t => sh_mkdir t lock_dir)) in
  match made with
  | Err e => if decide (io_kind e = KAlreadyExists) then retM tt else failM (LeaseIo e)
  | Ok _ => retM tt
  end ;;!
  require_lease_dir lock_dir ;;!
  retM lock_dir.

(** [open_lock_file]: the lock must be a regular file. *)
Definition open_lock_file (path : string) : M SpaceState LayoutLeaseError unit :=
  let! (k, _, _) := lease_ask (fun t => sh_metadata t path) in
  if decide (k = EkFile) then retM tt else failM InvalidIdentity.

(** [LayoutLease::acquire]: the device and inode of the pool root the lease is
    on. *)
Definition lease_acquire (pool_root cartridge_id runtime_dir : string)
  : M SpaceState LayoutLeaseError (Z * Z) :=
  if negb (valid_management_id cartridge_id) then failM InvalidIdentity
  else
    let! (device, inode) := pool_root_identity pool_root in
    let key := layout_lease_key device inode cartridge_id in
    let! lock_dir := lease_lock_dir runtime_dir in
    let lock_path := path_join lock_dir ("layout-" +:+ string_of_bytes key +:+ ".lock") in
    open_lock_file lock_path ;;!
    let! answer := ask (fun t => Ok (sh_flock t lock_path)) in
    match answer with
    | LkGranted => retM (device, inode)
    | LkWouldBlock => failM LeaseBusy
    | LkFailed m => failM (LeaseIo (io_error KOther m))
    end.

Definition verify_pool_root (lease : Z * Z) (pool_root : string) : M SpaceState LayoutLeaseError unit :=
  let! (device, inode) := map_errM (fun _ => IdentityConflict) (pool_root_identity pool_root) in
  if decide ((device, inode) = lease) then retM tt else failM IdentityConflict.
End Lease.

(** ** The storage root *)
Section Root.
Context `{HOST : Host} `{ENV : Environ}.

Definition can_write_dir (path : string) : M World StorageError bool :=
  let! made := io_raw (fs_create_dir_all path) in
  match made with
  | Err _ => retM false
  | Ok _ =>
      let probe := path_join path ".write-probe" in
      let! written := io_raw (let! i := fs_open_trunc probe in fs_write_at i 0 (bytes_of_string "probe")) in
      match written with
      | Err _ => retM false
      | Ok _ => let! _ := io_raw (fs_remove probe) in retM true
      end
  end.

Definition storage_root_dir : M World StorageError string :=
  match getenv "HOLO_STORAGE_ROOT" with
  | Some root => retM (string_of_bytes root)
  | None =>
      let preferred := "/var/lib/holo/storage"%string in
      let! ok := can_write_dir preferred in
      if (ok : bool) then retM preferred
      else
        match getenv "HOME" with
        | None => retM "/tmp/holo-storage"%string
        | Some home =>
            let home_default := path_join (string_of_bytes home) ".local/share/holo/storage" in
            let! ok := can_write_dir home_default in
            retM (if (ok : bool) then home_default else "/tmp/holo-storage"%string)
        end
  end.

(** The value of the first [pool_id] line that is not blank. *)
Definition pool_id_line (line : list Z) : option (list Z) :=
  match split_once 61 (trim line) with
  | Some (key, value) =>
      if decide (trim key = bytes_of_string "pool_id" /\ trim value <> []) then Some (trim value) else None
  | None => None
  end.
Fixpoint find_map {A B} (f : A -> option B) (l : list A) : option B :=
  match l with
  | [] => None
  | x :: l' => match f x with Some y => Some y | None => find_map f l' end
  end.

Definition resolve_cartridge_storage_root (cartridge_id media_state_dir fallback_root : string)
  (pool_root_base : option string) : M World StorageError string :=
  let metadata_path := path_join media_state_dir ("cartridge_" +:+ sanitize_id cartridge_id +:+ ".meta") in
  let! raw := io_raw (fs_read metadata_path) in
  match raw with
  | Err _ => retM fallback_root
  | Ok raw =>
      if negb (utf8_valid raw) then retM fallback_root
      else
        match find_map pool_id_line (lines raw), pool_root_base with
        | Some pool_id, Some base => retM (path_join base (sanitize_id (string_of_bytes pool_id)))
        | _, _ => retM fallback_root
        end
  end.

Definition storage_root_dir_for_cartridge (cartridge_id : string) : M World StorageError string :=
  let media_state_dir :=
    match getenv "HOLO_MEDIA_STATE_DIR" with
    | Some dir => string_of_bytes dir
    | None => "/run/holo/media-state"%string
    end in
  let base := string_of_bytes <$> getenv "HOLO_STORAGE_POOL_ROOT_BASE" in
  let! fallback := storage_root_dir in
  resolve_cartridge_storage_root cartridge_id media_state_dir fallback base.
End Root.

(** ** The layout directory *)
Section Directory.
Context `{SH : SpaceHost}.

Definition dir_ask {A} (q : nat -> Result IoError A) : M SpaceState StorageError A := map_errM SIo (ask q).

Definition is_layout_directory (path : string) : M SpaceState StorageError bool :=
  let! r := tryM (ask (fun t => sh_metadata t path)) in
  match r with
  | Ok (EkSymlink, _, _) => failM (Conflict "identity_conflict")
  | Ok (k, _, _) => retM (bool_decide (k = EkDir))
  | Err e => if decide (io_kind e = KNotFound) then retM false else failM (SIo e)
  end.

Fixpoint discover_entries (root cartridge : string) (entries : list (string * EntryKind))
  : M SpaceState StorageError (list string) :=
  match entries with
  | [] => retM []
  | (name, k) :: rest =>
      if decide (name = "cartridges"%string) then discover_entries root cartridge rest
      else match k with
           | EkSymlink => failM (Conflict "identity_conflict")
           | EkDir =>
               let candidate := path_join (path_join root name) cartridge in
               let! there := is_layout_directory candidate in
               let! others := discover_entries root cartridge rest in
               retM (if (there : bool) then candidate :: others else others)
           | _ => discover_entries root cartridge rest
           end
  end.
Definition discover_legacy_dirs (root cartridge_id : string) : M SpaceState StorageError (list string) :=
  let! entries := tryM (ask (fun t => sh_entries t root)) in
  match entries with
  | Err e => if decide (io_kind e = KNotFound) then retM [] else failM (SIo e)
  | Ok entries => discover_entries root (sanitize_id cartridge_id) entries
  end.

(** Candidates in the order they are found, without repetition. *)
Definition add_candidate (acc : list string) (c : string) : list string :=
  if decide (c ∈ acc) then acc else acc ++ [c].
Definition choose_layout (canonical : string) (candidates : list string) : Result StorageError string :=
  match candidates with
  | [] => Ok canonical
  | [c] => Ok c
  | _ => Err (Conflict "ambiguous_layout")
  end.

Definition resolve_layout_dir (root library_id drive_id cartridge_id : string)
  : M SpaceState StorageError string :=
  let canonical := canonical_cartridge_dir root library_id cartridge_id in
  let! there := is_layout_directory canonical in
  let candidates := if (there : bool) then [canonical] else [] in
  let preferred := legacy_cartridge_dir root drive_id cartridge_id in
  let! there := is_layout_directory preferred in
  let candidates := if (there : bool) then candidates ++ [preferred] else candidates in
  let! legacy := discover_legacy_dirs root cartridge_id in
  liftM (choose_layout canonical (fold_left add_candidate legacy candidates)).

Definition resolve_layout_paths (root library_id drive_id cartridge_id : string)
  : M SpaceState StorageError LayoutPaths :=
  let! dir := resolve_layout_dir root library_id drive_id cartridge_id in retM (paths_in dir).
End Directory.

(** ** Creating and loading the files *)
Record LayoutSnapshot : Type := mkLayoutSnapshot { ls_paths : LayoutPaths; ls_checkpoint : MetadataCheckpoint }.

Section Files.
Context `{HOST : Host} `{ENV : Environ} `{C : Crc32c}.

(** A directory of the model exists when a file is in it. *)
Definition root_exists (dir : string) (fs : Fs) : bool :=
  bool_decide (Exists (fun p => path_under dir p) (fst <$> map_to_list (fs_names fs))).

Definition create_if_missing (path : string) (k : SegmentKind) (id : Z) : M World StorageError unit :=
  let! there := path_exists path in
  if (there : bool) then retM tt else write_segment_file path k id 0 [].

Definition initial_checkpoint : MetadataCheckpoint := mkCheckpoint 1 1 2 3 Clean.

Definition load_layout (paths : LayoutPaths) : M World StorageError LayoutSnapshot :=
  let! w := getM in
  if negb (root_exists (root paths) (w_fs w)) then failM (SNotFound "layout root not found")
  else
    let! index := initialize_segment_index paths in
    forM (descriptors index) (fun d =>
      validate_segment_shape (data_segment_path paths (segment_seq d)) Data ;;! retM tt) ;;!
    read_segment_file (blk_map_file paths) BlkMap ;;!
    read_segment_file (lookup_file paths) Lookup ;;!
    read_segment_file (reclaim_file paths) Reclaim ;;!
    read_segment_file (dedup_file paths) Layout.Dedup ;;!
    let! checkpoint := load_checkpoint_page (metadata_file paths) in
    retM (mkLayoutSnapshot paths checkpoint).

Definition initialize_layout (paths : LayoutPaths) : M World StorageError LayoutSnapshot :=
  io (fs_create_dir_all (root paths)) ;;!
  let! _ := initialize_segment_index paths in
  create_if_missing (blk_map_file paths) BlkMap 2 ;;!
  create_if_missing (lookup_file paths) Lookup 3 ;;!
  create_if_missing (reclaim_file paths) Reclaim 4 ;;!
  create_if_missing (dedup_file paths) Layout.Dedup 5 ;;!
  let! there := path_exists (metadata_file paths) in
  (if (there : bool) then retM tt else persist_checkpoint_page (metadata_file paths) initial_checkpoint) ;;!
  load_layout paths.
End Files.

(** ** Mounting *)
Section Mount.
Context `{HOST : Host} `{ENV : Environ} `{C : Crc32c} `{SH : SpaceHost}.

Definition verify_lease (lease : option (Z * Z)) (root : string) : M Sys StorageError unit :=
  match lease with
  | Some l => map_errM storage_error_from_lease (on_space (verify_pool_root l root))
  | None => retM tt
  end.

Definition bootstrap_for_mount_inner (library_id drive_id cartridge_id : string) (lease : option (Z * Z))
  : M Sys StorageError LayoutSnapshot :=
  let! root := on_world (storage_root_dir_for_cartridge cartridge_id) in
  verify_lease lease root ;;!
  let! paths := on_space (resolve_layout_paths root library_id drive_id cartridge_id) in
  verify_lease lease root ;;!
  on_world (initialize_layout paths).

Definition bootstrap_for_mount (library_id drive_id cartridge_id : string) : M Sys StorageError LayoutSnapshot :=
  bootstrap_for_mount_inner library_id drive_id cartridge_id None.
Definition bootstrap_for_mount_with_lease (library_id drive_id cartridge_id : string) (lease : Z * Z)
  : M Sys StorageError LayoutSnapshot :=
  bootstrap_for_mount_inner library_id drive_id cartridge_id (Some lease).
End Mount.

(** ** Writing a whole layout in order (metadata.rs) *)
Inductive FlushStep : Type := FsData | FsBlkMap | FsLookup | FsMetadata.
#[export] Instance FlushStep_eq_dec : EqDecision FlushStep.
Proof. solve_decision. Defined.

Section Flush.
Context `{HOST : Host} `{ENV : Environ} `{C : Crc32c}.

Definition stop_after (fail_after : option FlushStep) (step : FlushStep) (msg : string)
  : M World StorageError unit :=
  if decide (fail_after = Some step) then failM (Conflict msg) else retM tt.

Definition flush_chain (data_path blk_map_path lookup_path metadata_path : string)
  (data_payload blk_payload lookup_payload : list Z) (checkpoint : MetadataCheckpoint)
  (fail_after : option FlushStep) : M World StorageError (list FlushStep) :=
  write_segment_file data_path Data 1 (epoch checkpoint) data_payload ;;!
  stop_after fail_after FsData "flush interrupted after data" ;;!
  write_segment_file blk_map_path BlkMap (active_blk_map_root checkpoint) (epoch checkpoint) blk_payload ;;!
  stop_after fail_after FsBlkMap "flush interrupted after blk_map" ;;!
  write_segment_file lookup_path Lookup (active_lookup_root checkpoint) (epoch checkpoint) lookup_payload ;;!
  stop_after fail_after FsLookup "flush interrupted after lookup" ;;!
  persist_checkpoint_page metadata_path checkpoint ;;!
  retM [FsData; FsBlkMap; FsLookup; FsMetadata].

Definition encode_blk_records (records : list BlkMapRecord) : list Z :=
  to_le 8 (Zlen records) ++ concat (map blk_encode records).
Definition encode_lookup_records (records : list MapLookupRecord) : list Z :=
  to_le 8 (Zlen records) ++ concat (map lookup_encode records).
End Flush.
