(* ===== verification/OfflineScan.v ===== *)
(** * Choosing a segment to reclaim (storage/offline_reclaim.rs: the scan)

    The headers of every segment are read, in rounds of bounded size, and the
    bytes of blobs no active extent names are counted; the segment with the most
    of them is the candidate. A round that ends early hands out a cursor, which
    a later run takes up if the metadata of the cartridge are the same. *)

From S2P Require Import Prelude Bytes Text Errors Fs Layout TapeState SpaceGuard Compression Records.
From S2P Require Import World Crc Segment Footprint Checkpoint Logs BlkMap MapLookup Dedup Reclaim.
From S2P Require Import RuntimeState SegmentIndex Slots IndexState DataBlobs BlobStore DataPath Recovery.
From S2P Require Import System Bootstrap.

Definition RECLAIM_MIN_DEAD_PERCENT : Z := 25.
Definition MAX_HEADERS_PER_ROUND : Z := 65536.
Definition MAX_DESCRIPTORS_PER_ROUND : Z := 256.
Definition MAX_CURSOR_BYTES : Z := 4 * 1024.

Record MaintenanceCandidateSummary : Type := mkSummary {
  su_segment_seq : Z;
  su_source_bytes : Z;
  su_live_bytes : Z;
  su_last_blob_id : Z;
  su_source_sequence : Z;
  su_source_file_len : Z
}.

Record MaintenanceScanCursor : Type := mkCursor {
  cu_schema_version : Z;
  cu_snapshot : list Z;
  descriptor_ordinal : Z;
  in_segment : bool;
  cu_segment_seq : Z;
  cu_segment_sequence : Z;
  cu_segment_checksum : Z;
  cu_segment_file_len : Z;
  byte_offset : Z;
  segment_headers_scanned : Z;
  segment_source_bytes : Z;
  segment_live_bytes : Z;
  segment_last_blob_id : Z;
  best_candidate : option MaintenanceCandidateSummary;
  eligible_candidate_count : Z
}.
#[export] Instance eta_cursor : Eta MaintenanceScanCursor := fun c =>
  mkCursor (cu_schema_version c) (cu_snapshot c) (descriptor_ordinal c) (in_segment c) (cu_segment_seq c)
    (cu_segment_sequence c) (cu_segment_checksum c) (cu_segment_file_len c) (byte_offset c)
    (segment_headers_scanned c) (segment_source_bytes c) (segment_live_bytes c) (segment_last_blob_id c)
    (best_candidate c) (eligible_candidate_count c).

Record SegmentCandidate : Type := mkSegmentCandidate {
  ca_descriptor : SegmentDescriptor;
  ca_live_blob_ids : gset Z;
  ca_live_bytes : Z;
  ca_last_blob_id : Z;
  ca_source_sequence : Z;
  ca_source_file_len : Z
}.
Record CandidateScan : Type := mkCandidateScan {
  cs_candidate : option SegmentCandidate;
  cs_has_more : bool;
  cs_scan_cursor : option (list Z)
}.

(** What [stat] says of a path besides length and time: the device and inode
    number of the file it names (of the directory, when no file has the name),
    and the number of 512-byte blocks allocated. *)
Class FileStat : Type := {
  stat_identity : string -> option nat -> Z * Z;
  stat_blocks : nat -> string -> N
}.
(** [serde_json] on a cursor. *)
Class CursorJson : Type := {
  cursor_to_json : MaintenanceScanCursor -> option (list Z);
  cursor_from_json : list Z -> option MaintenanceScanCursor
}.
(** What is written is read back. *)
Class CursorJsonLaws `{CJ : CursorJson} : Prop :=
  cursor_json_back : forall c text, cursor_to_json c = Some text -> cursor_from_json text = Some c.

Definition fresh_cursor (snapshot : list Z) : MaintenanceScanCursor :=
  mkCursor 2 snapshot 0 false 0 0 0 0 0 0 0 0 0 None 0.

(** ** Counting live and dead bytes *)

(** The identifiers of the blobs active extents name in a segment. Extents of a
    layout that never had a segment 1 may call its segment 0 by that number. *)
Definition legacy_zero_alias (index : SegmentIndex_) (seq : Z) : bool :=
  bool_decide (seq = 0) && forallb (fun d => negb (has_seq 1 d)) (descriptors index).
Definition names_segment (index : SegmentIndex_) (seq : Z) (r : BlkMapRecord) : bool :=
  is_active r &&
  (bool_decide (physical_segment_id r = seq) ||
   legacy_zero_alias index seq && bool_decide (physical_segment_id r = 1)).
Definition active_blob_ids_for_segment (index : SegmentIndex_) (records : list BlkMapRecord) (seq : Z) : gset Z :=
  list_to_set (physical_offset <$> filter (fun r => names_segment index seq r) records).

(** The bytes of the blobs scanned and of those in use, and the last identifier;
    identifiers must increase. *)
Fixpoint tally (live : gset Z) (blobs : list DataBlobMeta) (source_bytes live_bytes last : Z)
  : Result StorageError (Z * Z * Z) :=
  match blobs with
  | [] => Ok (source_bytes, live_bytes, last)
  | b :: bs =>
      if decide (0 < last /\ blob_id b <= last) then Err (Corrupt "data blob IDs are duplicated or out of order")
      else
        let? size := ok_or (checked_add64 24 (blob_stored_len b)) (Corrupt "blob record size overflow") in
        let? source_bytes := ok_or (checked_add64 source_bytes size) (Corrupt "segment source size overflow") in
        let? live_bytes :=
          (if decide (blob_id b ∈ live)
           then ok_or (checked_add64 live_bytes size) (Corrupt "segment live size overflow") else Ok live_bytes) in
        tally live bs source_bytes live_bytes (blob_id b)
  end.

(** At least a quarter of the segment is dead, or all of it. *)
Definition worth_reclaiming (source_bytes live_bytes : Z) : bool :=
  let dead := sat_sub source_bytes live_bytes in
  (bool_decide (live_bytes = 0) || bool_decide (source_bytes * RECLAIM_MIN_DEAD_PERCENT <= dead * 100)) &&
  bool_decide (0 < dead).

(** Fully dead segments first, then the most dead bytes, then the lowest number. *)
Definition candidate_summary_precedes (l r : MaintenanceCandidateSummary) : bool :=
  match bool_decide (su_live_bytes l = 0), bool_decide (su_live_bytes r = 0) with
  | true, false => true
  | false, true => false
  | _, _ =>
      let dl := sat_sub (su_source_bytes l) (su_live_bytes l) in
      let dr := sat_sub (su_source_bytes r) (su_live_bytes r) in
      bool_decide (dr < dl) || bool_decide (dl = dr) && bool_decide (su_segment_seq l < su_segment_seq r)
  end.
Definition offer_candidate (s : MaintenanceCandidateSummary) (c : MaintenanceScanCursor) : MaintenanceScanCursor :=
  let c := c <| eligible_candidate_count := sat_add32 (eligible_candidate_count c) 1 |> in
  if match best_candidate c with None => true | Some best => candidate_summary_precedes s best end
  then c <| best_candidate := Some s |> else c.

(** The cursor in front of the next descriptor: after an empty segment the
    fields that identify a segment keep their values. *)
Definition skip_descriptor (c : MaintenanceScanCursor) : MaintenanceScanCursor :=
  c <| descriptor_ordinal := descriptor_ordinal c + 1 |> <| in_segment := false |> <| byte_offset := 0 |>
    <| segment_headers_scanned := 0 |> <| segment_source_bytes := 0 |> <| segment_live_bytes := 0 |>
    <| segment_last_blob_id := 0 |>.
Definition next_descriptor (c : MaintenanceScanCursor) : MaintenanceScanCursor :=
  skip_descriptor c <| cu_segment_seq := 0 |> <| cu_segment_sequence := 0 |> <| cu_segment_checksum := 0 |>
    <| cu_segment_file_len := 0 |>.

(** A cursor is taken up if it was made for this state of the metadata. *)
Definition cursor_usable (index : SegmentIndex_) (snapshot : list Z) (c : MaintenanceScanCursor) : bool :=
  bool_decide (cu_schema_version c = 2) && bool_decide (cu_snapshot c = snapshot) &&
  bool_decide (descriptor_ordinal c <= Zlen (descriptors index)) &&
  (negb (in_segment c) ||
   match descriptors index !! Z.to_nat (descriptor_ordinal c) with
   | Some d => has_seq (cu_segment_seq c) d
   | None => false
   end).

Section Ops.
Context `{HOST : Host} `{ENV : Environ} `{C : Crc32c} `{HO : HashOrder} `{SHA : Sha256} `{FS : FileStat}
  `{CJ : CursorJson}.

Definition reclaim_segment_path (paths : LayoutPaths) (seq : Z) : M World StorageError string :=
  let indexed := data_segment_path paths seq in
  let! there := path_exists indexed in
  let! legacy := path_exists (data_file paths) in
  retM (if bool_decide (seq = 0) && negb there && legacy then data_file paths else indexed).

(** ** The snapshot of the metadata *)
Definition identity_at (path : string) : M World StorageError (Z * Z) :=
  getsM (fun w => stat_identity path (fs_names (w_fs w) !! path)).
(** [File::metadata] of an open file. *)
Definition metadata_opened (path : string) (file : nat) : M World StorageError (Z * (Z * Z)) :=
  let! d := io (fs_read_all file) in
  retM (Zlen d, stat_identity path (Some file)).
Definition identity_bytes (i : Z * Z) : list Z := to_le 8 i.1 ++ to_le 8 i.2.

Fixpoint read_pieces (fuel : nat) (inode : nat) (offset remaining : Z) : M World StorageError (list Z) :=
  match fuel with
  | O => retM []
  | S f =>
      if decide (0 < remaining) then
        let requested := Z.min remaining 65536 in
        let! piece := io (fs_read_exact_at inode (Z.to_nat offset) (Z.to_nat requested)) in
        let! rest := read_pieces f inode (offset + requested) (sat_sub remaining requested) in
        retM (piece ++ rest)
      else retM []
  end.

(** What one metadata file adds to the digest, and the total length so far. *)
Definition snapshot_file (label path : string) (total : Z) : M World StorageError (list Z * Z) :=
  let! r := io_raw (fs_metadata path) in
  match r with
  | Err e => if decide (io_kind e = KNotFound) then retM (bytes_of_string label ++ [0], total) else failM (SIo e)
  | Ok (len, _) =>
      let! before := identity_at path in
      let! total := liftM (ok_or (checked_add64 total len) MetadataBudgetExceeded) in
      if decide (MAX_MAINTENANCE_METADATA_BYTES < total) then failM MetadataBudgetExceeded
      else
        let! file := io (fs_open path) in
        let! (_, opened) := metadata_opened path file in
        if decide (opened <> before)
        then failM (Conflict "maintenance metadata identity changed while opening")
        else
          let! bytes := read_pieces (S (Z.to_nat len)) file 0 len in
          let! (after_len, after) := metadata_opened path file in
          if decide (after_len <> len \/ after <> before)
          then failM (Conflict "maintenance metadata changed during scan")
          else retM (bytes_of_string label ++ [1] ++ to_le 8 len ++ identity_bytes before ++ bytes, total)
  end.
Fixpoint snapshot_files (l : list (string * string)) (total : Z) : M World StorageError (list Z) :=
  match l with
  | [] => retM []
  | (label, path) :: rest =>
      let! (bytes, total) := snapshot_file label path total in
      let! more := snapshot_files rest total in
      retM (bytes ++ more)
  end.
Definition snapshot_list (paths : LayoutPaths) : list (string * string) :=
  [("checkpoint", metadata_file paths); ("blk-map", blk_map_file paths); ("lookup", lookup_file paths);
   ("reclaim", reclaim_file paths); ("dedup", dedup_file paths); ("segment-index", segment_index_file paths);
   ("filemarks", path_join (root paths) FILEMARKS_STATE_FILE); ("usage", usage_counters_file paths)].
Definition maintenance_snapshot (paths : LayoutPaths) : M World StorageError (list Z) :=
  io io_step ;;!
  let! root_id := identity_at (root paths) in
  let! bytes := snapshot_files (snapshot_list paths) 0 in
  retM (sha256_hex (identity_bytes root_id ++ bytes)).

(** ** The scan *)

(** The cursor after the descriptor it points to was scanned, and the number of
    headers read; [None]: the segment is not the one the cursor was made for. *)
Definition scan_descriptor (paths : LayoutPaths) (index : SegmentIndex_) (records : list BlkMapRecord)
  (progress : MaintenanceProgress) (d : SegmentDescriptor) (room : Z) (c : MaintenanceScanCursor)
  : M World StorageError (option (MaintenanceScanCursor * Z)) :=
  let! path := reclaim_segment_path paths (segment_seq d) in
  let live := active_blob_ids_for_segment index records (segment_seq d) in
  let! scan := scan_segment_blob_headers_with_progress path
                 (if in_segment c then Some (byte_offset c) else None) (segment_headers_scanned c) room progress in
  let header := sc_header scan in
  let! same :=
    (if in_segment c then
       if decide (sequence header <> cu_segment_sequence c \/ checksum header <> cu_segment_checksum c)
       then retM false
       else let! (len, _) := io (fs_metadata path) in retM (bool_decide (len = cu_segment_file_len c))
     else retM true) in
  if negb same then retM None
  else
    let! (source, live_bytes, last) :=
      liftM (tally live (sc_blobs scan) (segment_source_bytes c) (segment_live_bytes c) (segment_last_blob_id c)) in
    if sc_complete scan then
      let! c :=
        (if worth_reclaiming source live_bytes then
           let! (len, _) := io (fs_metadata path) in
           retM (offer_candidate (mkSummary (segment_seq d) source live_bytes last (sequence header) len) c)
         else retM c) in
      retM (Some (next_descriptor c, sc_headers_scanned scan))
    else
      let! (len, _) := io (fs_metadata path) in
      retM (Some (c <| in_segment := true |> <| cu_segment_seq := segment_seq d |>
                    <| cu_segment_sequence := sequence header |> <| cu_segment_checksum := checksum header |>
                    <| cu_segment_file_len := len |> <| byte_offset := sc_next_offset scan |>
                    <| segment_headers_scanned := sat_add64 (segment_headers_scanned c) (sc_headers_scanned scan) |>
                    <| segment_source_bytes := source |> <| segment_live_bytes := live_bytes |>
                    <| segment_last_blob_id := last |>, sc_headers_scanned scan)).

(** One round: at most so many descriptors and headers. [None]: start again. *)
Fixpoint scan_round (fuel : nat) (paths : LayoutPaths) (index : SegmentIndex_) (records : list BlkMapRecord)
  (progress : MaintenanceProgress) (headers : Z) (c : MaintenanceScanCursor)
  : M World StorageError (option MaintenanceScanCursor) :=
  match fuel with
  | O => retM (Some c)
  | S f =>
      if decide (descriptor_ordinal c < Zlen (descriptors index) /\ headers < MAX_HEADERS_PER_ROUND) then
        let! d := liftM (ok_or (descriptors index !! Z.to_nat (descriptor_ordinal c)) MetadataBudgetExceeded) in
        if decide (payload_bytes d = 0)
        then scan_round f paths index records progress headers (skip_descriptor c)
        else
          let! r := scan_descriptor paths index records progress d (MAX_HEADERS_PER_ROUND - headers) c in
          match r with
          | None => retM None
          | Some (c', n) =>
              if in_segment c' then retM (Some c')
              else scan_round f paths index records progress (headers + n) c'
          end
      else retM (Some c)
  end.

(** What a round ends with: a cursor for the next one, or the best candidate. *)
Definition finish_round (index : SegmentIndex_) (records : list BlkMapRecord) (c : MaintenanceScanCursor)
  : Result StorageError CandidateScan :=
  if decide (descriptor_ordinal c < Zlen (descriptors index)) then
    let? encoded := ok_or (cursor_to_json c) (Internal "scan cursor serialization failed") in
    if decide (MAX_CURSOR_BYTES < Zlen encoded) then Err MetadataBudgetExceeded
    else if utf8_valid encoded then Ok (mkCandidateScan None true (Some encoded))
    else Err (Internal "scan cursor encoding failed")
  else
    let candidate :=
      match best_candidate c with
      | Some s =>
          match descriptor_for_segment index (su_segment_seq s) with
          | Some d => Some (mkSegmentCandidate d (active_blob_ids_for_segment index records (su_segment_seq s))
                              (su_live_bytes s) (su_last_blob_id s) (su_source_sequence s) (su_source_file_len s))
          | None => None
          end
      | None => None
      end in
    Ok (mkCandidateScan candidate (bool_decide (1 < eligible_candidate_count c)) None).

(** The cursor a round starts with. *)
Definition initial_cursor (index : SegmentIndex_) (snapshot : list Z) (raw : option (list Z))
  : Result StorageError MaintenanceScanCursor :=
  match raw with
  | Some text =>
      if decide (Zlen text <= MAX_CURSOR_BYTES) then
        Ok (match cursor_from_json text with
            | Some c => if cursor_usable index snapshot c then c else fresh_cursor snapshot
            | None => fresh_cursor snapshot
            end)
      else Err (Conflict "maintenance scan cursor exceeds its limit")
  | None => Ok (fresh_cursor snapshot)
  end.

(** [collect_candidates] calls itself without the cursor when the segment it
    points into has changed; a fresh cursor points into none, so it does so at
    most once. *)
Fixpoint collect_with (fuel : nat) (paths : LayoutPaths) (index : SegmentIndex_) (records : list BlkMapRecord)
  (raw_cursor : option (list Z)) (progress : MaintenanceProgress) : M World StorageError CandidateScan :=
  match fuel with
  | O => failM (Internal "scan restarted twice")
  | S f =>
      let! snapshot := maintenance_snapshot paths in
      let! cursor := liftM (initial_cursor index snapshot raw_cursor) in
      let! r := scan_round (Z.to_nat MAX_DESCRIPTORS_PER_ROUND) paths index records progress 0 cursor in
      match r with
      | None => collect_with f paths index records None progress
      | Some c => liftM (finish_round index records c)
      end
  end.
Definition collect_candidates (paths : LayoutPaths) (index : SegmentIndex_) (records : list BlkMapRecord)
  (raw_cursor : option (list Z)) (progress : MaintenanceProgress) : M World StorageError CandidateScan :=
  collect_with 2 paths index records raw_cursor progress.
End Ops.
