(* ===== verification/OfflineReclaim.v ===== *)
(** * Offline reclaim (storage/offline_reclaim.rs)

    One segment of a cartridge no process has mounted is given back: a segment
    without live blobs is removed, another is rewritten without its dead blobs
    under the same name. The block map loses its stale records, and the lookup,
    the segment index and the reference counts follow. *)

From S2P Require Import Prelude Bytes Text Errors Fs Layout TapeState SpaceGuard Compression Records.
From S2P Require Import World Crc Segment Streaming Footprint Checkpoint Logs BlkMap MapLookup Dedup Reclaim.
From S2P Require Import RuntimeState SegmentIndex Slots IndexState DataBlobs BlobStore DataPath Recovery.
From S2P Require Import System Bootstrap OfflineScan.

Record OfflineReclaimReport : Type := mkReclaimReport {
  processed_segments : Z;
  has_more : bool;
  scan_cursor : option (list Z);
  allocated_before_bytes : Z;
  allocated_after_bytes : Z;
  net_freed_bytes : Z
}.
Record ReclaimRuntimeDirs : Type := mkDirs { runtime_dir : string; media_state_dir : string }.

(** ** The pruned block map *)

(** [max_by_key]: the last of the records with the largest blob identifier. *)
Definition max_by_offset (rs : list BlkMapRecord) : option BlkMapRecord :=
  foldl (fun best r => match best with
                       | Some b => if decide (physical_offset b <= physical_offset r) then Some r else best
                       | None => Some r
                       end) None rs.
(** The active records, and a stale one if its blob has the highest identifier:
    it keeps the identifier from being given again. *)
Definition pruned_records (records : list BlkMapRecord) : list BlkMapRecord :=
  let active := filter (fun r => is_active r) records in
  let max_active := foldr Z.max 0 (physical_offset <$> active) in
  let witness :=
    match max_by_offset (filter (fun r => negb (is_active r)) records) with
    | Some r => if decide (max_active < physical_offset r) then [r] else []
    | None => []
    end in
  sort_by_key logical_start (sort_by_key record_id (active ++ witness)).

(** No identifier below the highest one ever given is given again. *)
Definition preserve_blob_id_high_water (index : SegmentIndex_) (records : list BlkMapRecord) : SegmentIndex_ :=
  let high_water := foldr Z.max 0 ((last_blob_id <$> descriptors index) ++ (physical_offset <$> records)) in
  index <| descriptors :=
    default (descriptors index)
      (update_first is_active_segment (fun d => d <| last_blob_id := Z.max (last_blob_id d) high_water |>)
         (descriptors index)) |>.

(** The references of the active extents to dedup entries. *)
Fixpoint count_active_refs (rs : list BlkMapRecord) (refs : gmap Z Z) : Result StorageError (gmap Z Z) :=
  match rs with
  | [] => Ok refs
  | r :: rs' =>
      if is_active r && negb (bool_decide (dedup_entry_id r = 0)) then
        let n := default 0 (refs !! dedup_entry_id r) + 1 in
        if decide (n <= U32_MAX) then count_active_refs rs' (<[dedup_entry_id r := n]> refs)
        else Err (Corrupt "dedup reference count overflow")
      else count_active_refs rs' refs
  end.
(** Each entry takes its count; entries without one are dropped. What is left
    over names no entry. *)
Fixpoint take_counts (es : list DedupIndexEntry) (refs : gmap Z Z) : list DedupIndexEntry * gmap Z Z :=
  match es with
  | [] => ([], refs)
  | e :: es' =>
      match refs !! entry_id e with
      | Some n => let (out, left) := take_counts es' (delete (entry_id e) refs) in
                  (e <| ref_count := n |> :: out, left)
      | None => take_counts es' refs
      end
  end.

(** ** Shared media state *)
Definition text_has (bytes : list Z) (l : list Z) : bool := existsb (fun b => bool_decide (b ∈ bytes)) l.
(** The cartridge a drive's state file names. *)
Definition loaded_cartridge (raw : list Z) : Result StorageError (option (list Z)) :=
  let trimmed := trim raw in
  if decide (trimmed = []) then Ok None
  else if text_has [13; 10] trimmed then Err (Corrupt "shared media state is malformed")
  else
    let loaded := trim (default trimmed (strip_prefix (bytes_of_string "cartridge=") trimmed)) in
    if text_has [61; 47; 92; 0] loaded || has_dot_dot loaded || bool_decide (128 < length loaded)%nat
    then Err (Corrupt "shared media state is malformed")
    else Ok (Some loaded).
Definition is_state_file_of (library_id : string) (name : list Z) : bool :=
  bool_decide (is_Some (strip_prefix (bytes_of_string (sanitize_id library_id +:+ "__")) name)) &&
  bool_decide (is_Some (strip_suffix (bytes_of_string ".state") name)).

(** The state of a copy. *)
Record CopyState : Type := mkCopy {
  cy_out : Z;          (** the end of the output *)
  cy_fnv : Z;          (** the checksums of the source read so far *)
  cy_crc : Z;
  cy_prior : Z;        (** the last identifier seen *)
  cy_seen : Z;         (** the number of headers seen *)
  cy_first : Z;        (** the first and last identifier kept, and the bytes they decode to *)
  cy_last : Z;
  cy_live : Z
}.
#[export] Instance eta_CopyState : Eta CopyState := fun c =>
  mkCopy (cy_out c) (cy_fnv c) (cy_crc c) (cy_prior c) (cy_seen c) (cy_first c) (cy_last c) (cy_live c).

Section Ops.
Context `{HOST : Host} `{ENV : Environ} `{C : Crc32c} `{HO : HashOrder} `{BC : BlockCodecs} `{SHA : Sha256}
  `{FS : FileStat} `{CJ : CursorJson} `{SH : SpaceHost}.

(** [fs::read_to_string]. *)
Definition read_state_text (path : string) : M World StorageError (Result IoError (list Z)) :=
  let! r := io_raw (fs_read path) in
  retM (match r with
        | Ok raw => if utf8_valid raw then Ok raw
                    else Err (io_error KInvalidData "stream did not contain valid UTF-8")
        | Err e => Err e
        end).
Fixpoint any_loaded (files : list string) (cartridge_id : string) : M World StorageError bool :=
  match files with
  | [] => retM false
  | f :: fs =>
      let! r := read_state_text f in
      match r with
      | Err e => if decide (io_kind e = KNotFound) then any_loaded fs cartridge_id else failM (SIo e)
      | Ok raw =>
          let! loaded := liftM (loaded_cartridge raw) in
          if decide (loaded = Some (bytes_of_string cartridge_id)) then retM true else any_loaded fs cartridge_id
      end
  end.
Definition shared_state_reports_loaded (dir library_id cartridge_id : string) : M World StorageError bool :=
  let! r := io_raw io_step in
  match r with
  | Err e => if decide (io_kind e = KNotFound) then retM false else failM (SIo e)
  | Ok _ =>
      let! w := getM in
      any_loaded (filter (fun p => is_state_file_of library_id (file_name p)) (entries_of dir (w_fs w))) cartridge_id
  end.

(** ** Rewriting a segment *)
Definition feed (bytes : list Z) (c : CopyState) : CopyState :=
  c <| cy_fnv := checksum32_continue (cy_fnv c) bytes |> <| cy_crc := integrity32_continue (cy_crc c) bytes |>.

(** The stored bytes of a blob, in pieces of a mebibyte; they are written out if
    the blob is kept. The pause after a mebibyte copied is not modelled. *)
Fixpoint copy_pieces (fuel : nat) (progress : MaintenanceProgress) (keep : bool) (input output : nat)
  (offset remaining blob_crc : Z) (c : CopyState) : M World StorageError (Z * CopyState) :=
  match fuel with
  | O => retM (blob_crc, c)
  | S f =>
      if decide (0 < remaining) then
        let requested := Z.min remaining STREAM_CHUNK in
        let! piece := io (fs_read_exact_at input (Z.to_nat offset) (Z.to_nat requested)) in
        let c := feed piece c in
        let! (blob_crc, c) :=
          (if keep then
             io (fs_write_at output (Z.to_nat (cy_out c)) piece) ;;!
             retM (integrity32_continue blob_crc piece, c <| cy_out := cy_out c + requested |>)
           else retM (blob_crc, c)) in
        progress (if keep then PhCopy else PhVerify) requested 0 ;;!
        copy_pieces f progress keep input output (offset + requested) (sat_sub remaining requested) blob_crc c
      else retM (blob_crc, c)
  end.

(** One blob of the source: read, checked, and copied if it is live. *)
Definition copy_blob (progress : MaintenanceProgress) (live : gset Z) (header_version payload_end : Z)
  (input output : nat) (offset : Z) (c : CopyState) : M World StorageError (Z * CopyState) :=
  let! encoded := io (fs_read_exact_at input (Z.to_nat offset) DATA_BLOB_HEADER_SIZE) in
  let c := feed encoded c in
  let! meta := liftM (decode_blob_meta_from_header encoded) in
  if decide (0 < cy_prior c /\ blob_id meta <= cy_prior c)
  then failM (Corrupt "data blob IDs are duplicated or out of order")
  else
    let c := c <| cy_prior := blob_id meta |> in
    let start := offset + 24 in
    let! next := liftM (ok_or (checked_add64 start (blob_stored_len meta)) (Corrupt "data blob length overflow")) in
    if decide (payload_end < next) then failM (Corrupt "data blob exceeds segment payload")
    else
      let keep := bool_decide (blob_id meta ∈ live) in
      let header_at := cy_out c in
      let! c := (if keep then
                   io (fs_write_at output (Z.to_nat header_at) (replicate DATA_BLOB_HEADER_SIZE 0)) ;;!
                   retM (c <| cy_out := header_at + Z.of_nat DATA_BLOB_HEADER_SIZE |>)
                 else retM c) in
      let crc0 := integrity32_continue (integrity32_continue 0 (to_le 8 (blob_id meta)))
                    (to_le 4 (blob_logical_len meta)) in
      let! (blob_crc, c) := copy_pieces (S (Z.to_nat (blob_stored_len meta))) progress keep input output start
                              (blob_stored_len meta) crc0 c in
      progress (if keep then PhCopy else PhVerify) 0 1 ;;!
      let! c :=
        (if keep then
           if bool_decide (header_version = 2) && negb (bool_decide (blob_crc = blob_checksum meta))
           then failM (Corrupt "data blob integrity checksum mismatch")
           else
             io (fs_write_at output (Z.to_nat header_at)
                   (encode_data_blob_header (blob_id meta) (blob_codec meta) (blob_logical_len meta)
                      (blob_stored_len meta) blob_crc)) ;;!
             let! bytes := liftM (ok_or (checked_add64 (cy_live c) (blob_logical_len meta))
                                    (Corrupt "live byte count overflow")) in
             retM (c <| cy_first := if decide (cy_first c = 0) then blob_id meta else cy_first c |>
                     <| cy_last := Z.max (cy_last c) (blob_id meta) |> <| cy_live := bytes |>)
         else retM c) in
      retM (next, c <| cy_seen := sat_add64 (cy_seen c) 1 |>).

Fixpoint copy_blobs (fuel : nat) (progress : MaintenanceProgress) (live : gset Z) (header_version payload_end : Z)
  (legacy : option Z) (input output : nat) (offset : Z) (c : CopyState) : M World StorageError (Z * CopyState) :=
  match fuel with
  | O => retM (offset, c)
  | S f =>
      if decide (offset < payload_end) then
        if match legacy with Some count => bool_decide (count <= cy_seen c) | None => false end
        then retM (offset, c)
        else
          let! (next, c) := copy_blob progress live header_version payload_end input output offset c in
          copy_blobs f progress live header_version payload_end legacy input output next c
      else retM (offset, c)
  end.

(** The source's checksum in its header; an old header has none. *)
Definition source_checksum_ok (h : SegmentHeader) (c : CopyState) : bool :=
  bool_decide (checksum h = 0) ||
  (if decide (version h = 1) then bool_decide (cy_fnv c = checksum h) else bool_decide (cy_crc c = checksum h)).

(** The payload of the rewritten segment: the live blobs behind a log prefix. *)
Definition write_live_blobs (source : string) (old : SegmentHeader) (live : gset Z)
  (progress : MaintenanceProgress) (output : nat) : M World StorageError CopyState :=
  let! input := io (fs_open source) in
  let payload_offset := segment_payload_offset old in
  let! prefix := io (fs_read_exact_at input (Z.to_nat payload_offset) 4) in
  let is_log := bool_decide (prefix = DATA_LOG_PREFIX) in
  let start := mkCopy (Z.of_nat SEGMENT_HEADER_V2_TOTAL_SIZE) 0x811C9DC5 0 0 0 0 0 0 in
  let! (c, legacy) :=
    (if is_log then retM (feed prefix start, None)
     else
       let! count := io (fs_read_exact_at input (Z.to_nat payload_offset) 8) in
       retM (feed count start, Some (from_le count))) in
  io (fs_write_at output (Z.to_nat (cy_out c)) DATA_LOG_PREFIX) ;;!
  let c := c <| cy_out := cy_out c + Zlen DATA_LOG_PREFIX |> in
  let! payload_end := liftM (ok_or (checked_add64 payload_offset (payload_len old))
                               (Corrupt "data segment length overflow")) in
  let first := payload_offset + (if is_log then Zlen DATA_LOG_PREFIX else 8) in
  let! (reached, c) := copy_blobs (S (Z.to_nat (payload_len old))) progress live (version old) payload_end legacy
                         input output first c in
  if negb (bool_decide (reached = payload_end)) ||
     match legacy with Some count => negb (bool_decide (count = cy_seen c)) | None => false end
  then failM (Corrupt "data segment blob count or length mismatch")
  else if source_checksum_ok old c then retM c
  else failM (Corrupt "source segment integrity checksum mismatch").

Definition reclaim_stage (source : string) (seq : Z) : string :=
  path_join (default EmptyString (path_parent source))
    ("data_" +:+ string_of_bytes (pad6 seq) +:+ ".reclaim-stage.seg").

(** The new file takes the place of the old one, and the descriptor follows. *)
Definition install_segment (paths : LayoutPaths) (ca : SegmentCandidate) (index : SegmentIndex_)
  (source stage : string) (staged : SegmentHeader) (c : CopyState) : M World StorageError SegmentIndex_ :=
  io (fs_rename stage source) ;;!
  sync_directory (root paths) ;;!
  invalidate_data_segment_cache source ;;!
  invalidate_segment_index_cache (segment_index_file paths) ;;!
  let update d := d <| payload_bytes := payload_len staged |> <| first_blob_id := cy_first c |>
                    <| last_blob_id := Z.max (last_blob_id d) (ca_last_blob_id ca) |>
                    <| live_bytes := default U32_MAX (u32_try_from (cy_live c)) |> in
  let! ds := liftM (ok_or (update_first (has_seq (segment_seq (ca_descriptor ca))) update (descriptors index))
                      (Corrupt "segment descriptor disappeared")) in
  retM (index <| descriptors := ds |>).

Definition rewrite_segment_in_place (paths : LayoutPaths) (ca : SegmentCandidate) (index : SegmentIndex_)
  (progress : MaintenanceProgress) : M World StorageError SegmentIndex_ :=
  let seq := segment_seq (ca_descriptor ca) in
  let! source := reclaim_segment_path paths seq in
  let! old := read_segment_header source Data in
  let! changed :=
    (if decide (sequence old <> ca_source_sequence ca) then retM true
     else let! (len, _) := io (fs_metadata source) in retM (negb (bool_decide (len = ca_source_file_len ca)))) in
  if changed : bool then failM (Conflict "data segment changed after reclaim scan")
  else
    let stage := reclaim_stage source seq in
    let! next := liftM (ok_or (checked_add64 (sequence old) 1) (Corrupt "segment sequence overflow")) in
    let! (staged, c) := write_segment_file_streaming stage Data seq next
                          (write_live_blobs source old (ca_live_blob_ids ca) progress) in
    install_segment paths ca index source stage staged c.

(** ** Metadata *)
Definition prune_metadata (paths : LayoutPaths) (records : list BlkMapRecord)
  : M World StorageError (list BlkMapRecord) :=
  let pruned := pruned_records records in
  persist_blk_map_records (blk_map_file paths) pruned ;;! retM pruned.

Definition rebuild_dedup_refcounts (paths : LayoutPaths) (records : list BlkMapRecord)
  : M World StorageError unit :=
  let! refs := liftM (count_active_refs records ∅) in
  let! (_, entries) := load_dedup_index (dedup_file paths) in
  let (rebuilt, left) := take_counts entries refs in
  if decide (left = ∅) then persist_dedup_entries (dedup_file paths) rebuilt
  else failM (Corrupt "active map references missing dedup entry").

Definition layout_metadata_files (paths : LayoutPaths) : list string :=
  [metadata_file paths; blk_map_file paths; lookup_file paths; reclaim_file paths; dedup_file paths;
   segment_index_file paths; path_join (root paths) FILEMARKS_STATE_FILE; usage_counters_file paths].
Definition preflight_layout_metadata (paths : LayoutPaths) : M World StorageError unit :=
  preflight_maintenance_metadata (layout_metadata_files paths).
Fixpoint sum_lengths (files : list string) (total : Z) : M World StorageError Z :=
  match files with
  | [] => retM total
  | p :: ps =>
      let! r := io_raw (fs_metadata p) in
      match r with
      | Ok (len, _) =>
          let! total := liftM (ok_or (checked_add64 total len) (Corrupt "metadata estimate overflow")) in
          sum_lengths ps total
      | Err e => if decide (io_kind e = KNotFound) then sum_lengths ps total else failM (SIo e)
      end
  end.
Definition metadata_temporary_bytes (paths : LayoutPaths) : M World StorageError Z :=
  sum_lengths (layout_metadata_files paths) 4096.

(** ** Space *)

(** The blocks of every file below the root. *)
Fixpoint sum_blocks (files : list string) (total : Z) : M World StorageError Z :=
  match files with
  | [] => retM total
  | p :: ps =>
      let! _ := io (fs_metadata p) in
      let! blocks := getsM (fun w => Z.of_N (stat_blocks (fs_tick (w_fs w)) p)) in
      let! bytes := liftM (ok_or (checked_mul64 blocks 512) (Corrupt "allocated byte count overflow")) in
      let! total := liftM (ok_or (checked_add64 total bytes) (Corrupt "allocated byte count overflow")) in
      sum_blocks ps total
  end.
Definition allocated_layout_bytes (dir : string) : M World StorageError Z :=
  io io_step ;;!
  let! w := getM in
  sum_blocks (filter (path_under dir) (fst <$> map_to_list (fs_names (w_fs w)))) 0.

Definition guard {A} (m : M SpaceState SpaceGuardError A) : M Sys StorageError A :=
  map_errM SpaceAdmission (on_space m).
Definition reserve_capacity (pool_root run_dir : string) (payload_bytes blob_count touched_segments metadata_bytes : Z)
  : M Sys StorageError FilesystemReservation :=
  let! lock := guard (lock_acquire pool_root run_dir) in
  let! snapshot := guard (lock_probe lock) in
  if decide (filesystem_id snapshot <> fl_filesystem_id lock) then failM (SpaceAdmission UnknownCapacity)
  else
    let! in_flight := guard (active_reservation_bytes lock) in
    let! peak := guard (liftM (estimate_write_peak_bytes payload_bytes blob_count touched_segments metadata_bytes
                                 (allocation_unit snapshot))) in
    let! total := liftM (ok_or (checked_add64 in_flight peak) (SpaceAdmission ArithmeticOverflow)) in
    guard (liftM (ensure_capacity (available_bytes snapshot) total SPACE_RESERVE_BYTES)) ;;!
    let! r := guard (reserve lock peak) in
    liftM (ok_or r (SpaceAdmission SGBusy)).
(** The reservation is dropped when its scope ends, on an error as well. *)
Definition holding {A} (admission : M Sys StorageError FilesystemReservation) (body : M Sys StorageError A)
  : M Sys StorageError A :=
  let! r := admission in
  let! result := tryM body in
  let! _ := tryM (on_space (drop_reservation r)) in
  liftM result.

(** ** One segment *)
(** A segment without live blobs: the index forgets it before its file goes. *)
Definition remove_segment (paths : LayoutPaths) (ca : SegmentCandidate) (index : SegmentIndex_)
  : M World StorageError SegmentIndex_ :=
  let seq := segment_seq (ca_descriptor ca) in
  let raise d := d <| last_blob_id := Z.max (last_blob_id d) (ca_last_blob_id ca) |> in
  let index := index <| descriptors :=
    default (descriptors index) (update_first is_active_segment raise (descriptors index)) |> in
  let index := remove_segment_descriptor index seq in
  persist_segment_index (segment_index_file paths) index ;;!
  let! source := reclaim_segment_path paths seq in
  let! there := path_exists source in
  (if there : bool then
     invalidate_data_segment_cache source ;;! io (fs_remove source) ;;! sync_directory (root paths)
   else retM tt) ;;!
  retM index.
(** The change on disk, once the space is reserved. *)
Definition commit_reclaim (paths : LayoutPaths) (index : SegmentIndex_) (records : list BlkMapRecord)
  (ca : SegmentCandidate) (progress : MaintenanceProgress) : M World StorageError unit :=
  progress PhCommit 0 0 ;;!
  let! _ := mark_checkpoint_dirty paths in
  let! pruned := prune_metadata paths records in
  let! index :=
    (if bool_decide (ca_live_blob_ids ca = ∅) && negb (is_active_segment (ca_descriptor ca))
     then remove_segment paths ca index
     else rewrite_segment_in_place paths ca index progress) in
  let index := preserve_blob_id_high_water index pruned in
  persist_segment_index (segment_index_file paths) index ;;!
  let! _ := rebuild_lookup_from_blk_map (blk_map_file paths) (lookup_file paths) in
  rebuild_dedup_refcounts paths pruned ;;!
  discard_layout_caches_checked paths ;;!
  let! _ := flush_pending_writes paths in
  retM tt.

(** The scan, and the reclaim of the segment it chose. *)
Definition reclaim_chosen (paths : LayoutPaths) (pool_root run_dir : string) (cursor : option (list Z))
  (metadata_bytes : Z) (progress : MaintenanceProgress) : M Sys StorageError OfflineReclaimReport :=
  let! index := on_world (load_segment_index (segment_index_file paths)) in
  let! (_, records) := on_world (load_blk_map_records (blk_map_file paths)) in
  let! scan := on_world (collect_candidates paths index records cursor progress) in
  match cs_scan_cursor scan with
  | Some next =>
      let! before := on_world (allocated_layout_bytes (root paths)) in
      let! after := on_world (allocated_layout_bytes (root paths)) in
      retM (mkReclaimReport 0 true (Some next) before after 0)
  | None =>
      match cs_candidate scan with
      | None =>
          let! allocated := on_world (allocated_layout_bytes (root paths)) in
          retM (mkReclaimReport 0 false None allocated allocated 0)
      | Some ca =>
          let! before := on_world (allocated_layout_bytes (root paths)) in
          holding (reserve_capacity pool_root run_dir (ca_live_bytes ca) (Z.of_nat (size (ca_live_blob_ids ca))) 1
                     metadata_bytes)
            (on_world (commit_reclaim paths index records ca progress) ;;!
             let! after := on_world (allocated_layout_bytes (root paths)) in
             retM (mkReclaimReport 1 (cs_has_more scan) None before after (sat_sub before after)))
      end
  end.

Definition reclaim_one_segment_under_lease (paths : LayoutPaths) (pool_root run_dir : string)
  (cursor : option (list Z)) (progress : MaintenanceProgress) : M Sys StorageError OfflineReclaimReport :=
  let! retention := on_world (load_retention_state (root paths)) in
  if match retention with Some s => rs_is_worm_media s | None => false end
  then failM (Conflict "cartridge is busy because WORM media cannot be reclaimed")
  else if match retention with Some s => rs_retention_locked s | None => false end
  then failM (Conflict "cartridge retention is locked")
  else
    on_world (preflight_layout_metadata paths) ;;!
    let! metadata_bytes := on_world (metadata_temporary_bytes paths) in
    let! _ := holding (reserve_capacity pool_root run_dir metadata_bytes 1 8 metadata_bytes)
                (on_world (recover_dirty_state_with_progress paths progress)) in
    reclaim_chosen paths pool_root run_dir cursor metadata_bytes progress.

Definition reclaim_one_segment_with_media_state_dir_and_progress (paths : LayoutPaths)
  (pool_root library_id cartridge_id : string) (dirs : ReclaimRuntimeDirs) (cursor : option (list Z))
  (progress : MaintenanceProgress) : M Sys StorageError OfflineReclaimReport :=
  let! lease := map_errM storage_error_from_lease
                  (on_space (lease_acquire pool_root cartridge_id (runtime_dir dirs))) in
  verify_lease (Some lease) pool_root ;;!
  let! loaded := on_world (shared_state_reports_loaded (media_state_dir dirs) library_id cartridge_id) in
  if loaded : bool then failM (Conflict "cartridge is busy because shared media state reports it loaded")
  else
    verify_lease (Some lease) pool_root ;;!
    reclaim_one_segment_under_lease paths pool_root (runtime_dir dirs) cursor progress.

Definition reclaim_one_segment_with_cursor_and_progress (paths : LayoutPaths)
  (pool_root library_id cartridge_id run_dir : string) (cursor : option (list Z)) (progress : MaintenanceProgress)
  : M Sys StorageError OfflineReclaimReport :=
  let dir := match getenv "HOLO_MEDIA_STATE_DIR" with
             | Some raw => string_of_bytes raw
             | None => "/run/holo/media-state"
             end in
  reclaim_one_segment_with_media_state_dir_and_progress paths pool_root library_id cartridge_id
    (mkDirs run_dir dir) cursor progress.
Definition reclaim_one_segment_with_cursor (paths : LayoutPaths) (pool_root library_id cartridge_id run_dir : string)
  (cursor : option (list Z)) : M Sys StorageError OfflineReclaimReport :=
  reclaim_one_segment_with_cursor_and_progress paths pool_root library_id cartridge_id run_dir cursor
    no_maintenance_progress.
Definition reclaim_one_segment (paths : LayoutPaths) (pool_root library_id cartridge_id run_dir : string)
  : M Sys StorageError OfflineReclaimReport :=
  reclaim_one_segment_with_cursor paths pool_root library_id cartridge_id run_dir None.
End Ops.
