(* ===== verification/CopyLaws.v ===== *)
(** * A reclaimed segment holds exactly its live blobs

    Copying a segment reads every blob, checks it, and writes the live ones, in
    their order and byte for byte, behind a log prefix. *)

From S2P Require Import Prelude Bytes Text Errors Fs Layout TapeState SpaceGuard Compression Records.
From S2P Require Import World Crc Segment Footprint Streaming StreamLaws Checkpoint Logs BlkMap MapLookup Dedup Reclaim.
From S2P Require Import RuntimeState SegmentIndex Slots IndexState DataBlobs BlobStore DataPath Store Recovery ScanLaws.
From S2P Require Import System Bootstrap OfflineScan OfflineReclaim.

(** The blobs an extent names. *)
Definition kept (live : gset Z) (bs : list DataBlob) : list DataBlob := filter (fun b => db_id b ∈ live) bs.
Definition logical_total (bs : list DataBlob) : Z := foldr Z.add 0 (db_logical_len <$> bs).

Ltac copy_fields c :=
  destruct c; cbv [put_field feed cy_out cy_fnv cy_crc cy_prior cy_seen cy_first cy_last cy_live].

Lemma logical_total_cons b bs : logical_total (b :: bs) = db_logical_len b + logical_total bs.
Proof. done. Qed.
Lemma logical_total_nonneg bs : Forall (fun b => 0 <= db_logical_len b) bs -> 0 <= logical_total bs.
Proof. induction 1 as [|b bs Hb _ IH]; [done|]. rewrite logical_total_cons. lia. Qed.

(** What a blob adds to the counters of a copy. *)
Definition took (live : gset Z) (c : CopyState) (b : DataBlob) : CopyState :=
  let c := c <| cy_prior := db_id b |> <| cy_seen := sat_add64 (cy_seen c) 1 |> in
  if decide (db_id b ∈ live) then
    c <| cy_first := if decide (cy_first c = 0) then db_id b else cy_first c |>
      <| cy_last := Z.max (cy_last c) (db_id b) |> <| cy_live := cy_live c + db_logical_len b |>
  else c.
(** The checksums and the end of the output. *)
Definition sums (f r o : Z) (c : CopyState) : CopyState := c <| cy_fnv := f |> <| cy_crc := r |> <| cy_out := o |>.

Lemma took_sums live f r o c b : took live (sums f r o c) b = sums f r o (took live c b).
Proof. unfold took. destruct c. cbn. by case_decide. Qed.
Lemma sums_sums f r o f' r' o' c : sums f r o (sums f' r' o' c) = sums f r o c.
Proof. by destruct c. Qed.
Lemma took_all_sums live f r o bs : forall c, foldl (took live) (sums f r o c) bs = sums f r o (foldl (took live) c bs).
Proof. induction bs as [|b bs IH]; intros c; cbn; [done|]. by rewrite took_sums, IH. Qed.

Section Laws.
Context `{HOST : Host} `{ENV : Environ} `{CL : Crc32cLaws} `{HO : HashOrder} `{BC : BlockCodecs}.

(** ** Reading one file and writing another *)
Record copying (w : World) (tmp : string) (i : nat) (d : list Z) (path : string) (j : nat) (src : list Z) : Prop := {
  co_out : output w tmp i d;
  co_name : fs_names (w_fs w) !! path = Some j;
  co_src : contents (w_fs w) path = Some src
}.
Lemma copying_wrote tmp w w' i d d' path j src :
  path <> tmp -> copying w tmp i d path j src -> wrote tmp w w' -> output w' tmp i d' -> copying w' tmp i d' path j src.
Proof. intros Hp [_ Hj Hs] W O. split; [done|by rewrite (wrote_names _ _ _ W)|by rewrite (wrote_contents _ _ _ _ W Hp)]. Qed.
Lemma copying_write w tmp i d path j src off bytes :
  no_faults -> path <> tmp -> copying w tmp i d path j src ->
  exists w', io (fs_write_at i off bytes) w = (Ok tt, w') /\ wrote tmp w w' /\ copying w' tmp i (write_at off bytes d) path j src.
Proof.
  intros Hn Hp HC. destruct (write_out w tmp i d off bytes Hn (co_out _ _ _ _ _ _ _ HC)) as (w1 & E & W & O).
  exists w1. split_and!; [done|done|by eapply copying_wrote].
Qed.
Lemma copying_read w tmp i d path j src off n :
  no_faults -> path <> tmp -> copying w tmp i d path j src -> (off + n <= length src)%nat ->
  exists w', io (fs_read_exact_at j off n) w = (Ok (slice off (off + n) src), w') /\ wrote tmp w w' /\
    copying w' tmp i d path j src.
Proof.
  intros Hn Hp HC Hl. pose proof HC as [O Hj Hs]. destruct (read_in w path j src off n Hn Hj Hs Hl) as (w1 & E & F & S).
  assert (wrote tmp w w1) as W by (apply wrote_same; [apply O|done|done]).
  exists w1. split_and!; [done|done|]. eapply copying_wrote; [done|exact HC|exact W|by apply (output_same w)].
Qed.

(** ** The stored bytes of a blob *)
Lemma integrity_from x bytes : integrity32_continue (integrity32 x) bytes = integrity32 (x ++ bytes).
Proof. unfold integrity32_continue, integrity32. by rewrite crc32c_append_app. Qed.
Lemma slice_split off n m (l : list Z) :
  slice off (off + n) l ++ slice (off + n) (off + n + m) l = slice off (off + (n + m)) l.
Proof.
  unfold slice. replace (off + n - off)%nat with n by lia. replace (off + n + m - (off + n))%nat with m by lia.
  replace (off + (n + m) - off)%nat with (n + m)%nat by lia. rewrite <- (drop_drop l n off).
  set (k := drop off l). rewrite <- (take_drop n k) at 3. rewrite take_app.
  destruct (decide (n <= length k)%nat) as [Hle|Hgt].
  - rewrite length_take, Nat.min_l by lia. rewrite take_take, Nat.min_r by lia. by replace (n + m - n)%nat with m by lia.
  - rewrite (drop_ge k n) by lia. by rewrite !take_nil, (take_ge k n), !(take_ge k) by lia.
Qed.

Lemma copy_pieces_spec tmp i path j src keep : no_faults -> path <> tmp -> forall fuel w off rem x y c d,
  copying w tmp i d path j src -> (off + rem <= length src)%nat -> (rem < fuel)%nat ->
  cy_crc c = integrity32 x -> cy_out c = Zlen d ->
  let piece := slice off (off + rem) src in
  let out := if keep : bool then piece else [] in
  exists f w', copy_pieces fuel no_maintenance_progress keep j i (Z.of_nat off) (Z.of_nat rem) (integrity32 y) c w =
      (Ok (integrity32 (y ++ out), c <| cy_fnv := f |> <| cy_crc := integrity32 (x ++ piece) |>
          <| cy_out := Zlen (d ++ out) |>), w') /\
    wrote tmp w w' /\ copying w' tmp i (d ++ out) path j src.
Proof.
  intros Hn Hp. induction fuel as [|fuel IH]; intros w off rem x y c d HC Hl Hf Hx Ho piece out; [lia|].
  cbn [copy_pieces]. case_decide as Hr; cycle 1.
  { assert (rem = 0)%nat as -> by lia. assert (piece = []) as Ep by (unfold piece, slice; by rewrite Nat.add_0_r, Nat.sub_diag).
    assert (out = []) as -> by (unfold out; by destruct keep). rewrite Ep, !app_nil_r.
    exists (cy_fnv c), w. split_and!; [|apply wrote_refl, HC|done]. rewrite <- Hx, <- Ho. by destruct c. }
  set (n := Z.to_nat (Z.min (Z.of_nat rem) STREAM_CHUNK)). assert (0 < n <= rem)%nat as Hn' by (unfold n, STREAM_CHUNK; lia).
  assert (Z.min (Z.of_nat rem) STREAM_CHUNK = Z.of_nat n) as En by (unfold n, STREAM_CHUNK; lia). rewrite En.
  rewrite !Nat2Z.id. destruct (copying_read w tmp i d path j src off n Hn Hp HC ltac:(lia)) as (w1 & E1 & W1 & C1).
  rewrite (bindM_run _ _ _ _ _ E1). set (a := slice off (off + n) src) in *.
  assert (length a = n) as La by (unfold a, slice; rewrite length_take, length_drop; lia).
  set (oa := if keep then a else []).
  assert (exists w2, (if keep then
             io (fs_write_at i (Z.to_nat (cy_out (feed a c))) a) ;;!
             retM (integrity32_continue (integrity32 y) a, (feed a c) <| cy_out := cy_out (feed a c) + Z.of_nat n |>)
           else retM (integrity32 y, feed a c)) w1 =
      (Ok (integrity32 (y ++ oa), (feed a c) <| cy_out := Zlen (d ++ oa) |>), w2) /\ wrote tmp w1 w2 /\ copying w2 tmp i (d ++ oa) path j src)
    as (w2 & E2 & W2 & C2).
  { unfold oa. destruct keep; cycle 1.
    { exists w1. rewrite !app_nil_r. split_and!; [|apply wrote_refl, C1|done]. rewrite <- Ho. by destruct c. }
    assert (Z.to_nat (cy_out (feed a c)) = length d) as -> by (change (cy_out (feed a c)) with (cy_out c); rewrite Ho; unfold Zlen; lia).
    destruct (copying_write w1 tmp i d path j src (length d) a Hn Hp C1) as (w2 & E2 & W2 & C2). rewrite write_at_end in C2.
    exists w2. rewrite (bindM_run _ _ _ _ _ E2). split_and!; [|done|done]. unfold retM. do 3 f_equal; [apply integrity_from|].
    change (cy_out (feed a c)) with (cy_out c). rewrite Ho. unfold Zlen. rewrite length_app, La. f_equal. lia. }
  rewrite (bindM_run _ _ _ _ _ E2). unfold bindM at 1, no_maintenance_progress at 1, retM at 1.
  replace (sat_sub (Z.of_nat rem) (Z.of_nat n)) with (Z.of_nat (rem - n)) by (unfold sat_sub; lia).
  replace (Z.of_nat off + Z.of_nat n) with (Z.of_nat (off + n)) by lia.
  destruct (IH w2 (off + n)%nat (rem - n)%nat (x ++ a) (y ++ oa) ((feed a c) <| cy_out := Zlen (d ++ oa) |>) (d ++ oa) C2)
    as (f & w3 & E3 & W3 & C3); [lia|lia|change (integrity32_continue (cy_crc c) a = integrity32 (x ++ a)); rewrite Hx; apply integrity_from|done|].
  set (b := slice (off + n) (off + n + (rem - n)) src) in *.
  assert (piece = a ++ b) as Epc by (unfold piece, a, b; rewrite slice_split; do 2 f_equal; lia).
  assert (out = oa ++ (if keep then b else [])) as Eo by (unfold out, oa; by destruct keep).
  exists f, w3. rewrite E3, Epc, Eo, !app_assoc. split_and!; [done|by eapply wrote_trans, wrote_trans|done].
Qed.

(** One blob. *)
Lemma copy_blob_spec w0 h bs1 b bs2 w tmp i path j live x c d :
  let src := segment_bytes h (blobs_payload (bs1 ++ b :: bs2)) in
  let out := if decide (db_id b ∈ live) then blob_encode b else [] in
  no_faults -> path <> tmp -> seg_file w0 path h (blobs_payload (bs1 ++ b :: bs2)) -> wf_blob b ->
  copying w tmp i d path j src -> cy_crc c = integrity32 x -> cy_out c = Zlen d ->
  ~ (0 < cy_prior c /\ db_id b <= cy_prior c) -> 0 <= cy_live c -> cy_live c + db_logical_len b <= U64_MAX ->
  exists f w', copy_blob no_maintenance_progress live (version h) (96 + payload_len h) j i
      (100 + Zlen (concat (map blob_encode bs1))) c w =
      (Ok (100 + Zlen (concat (map blob_encode (bs1 ++ [b]))),
           sums f (integrity32 (x ++ blob_encode b)) (Zlen (d ++ out)) (took live c b)), w') /\
    wrote tmp w w' /\ copying w' tmp i (d ++ out) path j src.
Proof.
  intros src out Hn Hp HS Hb HC Hx Ho Hprior Hl0 Hl. set (off := 100 + Zlen (concat (map blob_encode bs1))).
  destruct (scan_step_offsets bs1 b bs2 h path w0 HS Hb) as (O1 & O2 & O3 & O4). fold off in O1, O2, O4.
  assert (0 <= off) as O5 by (unfold off, Zlen; lia). pose proof Hb as (_ & Hlo & Hu & Hsl & _). unfold u32_ok in Hu, Hlo.
  unfold copy_blob.
  destruct (slice_blob h bs1 b bs2 0 24) as [Hh Hle]; [rewrite length_blob_encode; lia|].
  destruct (slice_blob h bs1 b bs2 24 (length (db_bytes b))) as [Hd Hle2]; [rewrite length_blob_encode; lia|].
  fold src in Hh, Hle, Hd, Hle2.
  replace (100 + length (concat (map blob_encode bs1)) + 0)%nat with (Z.to_nat off) in Hh, Hle by (unfold off, Zlen; lia).
  replace (100 + length (concat (map blob_encode bs1)) + 24)%nat with (Z.to_nat (off + 24)) in Hd, Hle2 by (unfold off, Zlen; lia).
  set (hdr := encode_data_blob_header (db_id b) (db_codec b) (db_logical_len b) (db_stored_len b) (db_checksum b)) in *.
  assert (blob_encode b = hdr ++ db_bytes b) as Eb by done. assert (length hdr = 24%nat) as Lh by apply length_blob_header.
  rewrite Eb in Hh, Hd. rewrite slice_here in Hh by done.
  rewrite slice_skip, Lh, slice_all in Hd by lia.
  destruct (copying_read w tmp i d path j src (Z.to_nat off) 24 Hn Hp HC Hle) as (w1 & E1 & W1 & C1). rewrite Hh in E1.
  rewrite (bindM_run _ _ _ _ _ E1). cbv zeta.
  rewrite (bindM_run (liftM _) _ w1 (mkBlobMeta (db_id b) (db_codec b) (db_logical_len b) (db_stored_len b) (db_checksum b) 0 false) w1)
    by (unfold liftM, hdr; by rewrite decode_blob_header).
  cbn [blob_id blob_codec blob_logical_len blob_stored_len blob_checksum].
  rewrite decide_False by exact Hprior.
  rewrite (bindM_run (liftM _) _ w1 (off + 24 + db_stored_len b) w1) by (unfold liftM, checked_add64; by rewrite decide_True by lia).
  rewrite decide_False by lia. rewrite O4. replace (S (Z.to_nat (db_stored_len b))) with (S (length (db_bytes b))) by (unfold Zlen in Hsl; lia).
  rewrite Hsl. unfold Zlen at 2. replace (off + 24) with (Z.of_nat (Z.to_nat (off + 24))) by lia.
  change (integrity32_continue 0 (to_le 8 (db_id b))) with (integrity32 (to_le 8 (db_id b))). rewrite integrity_from.
  set (c1 := (feed hdr c) <| cy_prior := db_id b |>).
  assert (cy_crc c1 = integrity32 (x ++ hdr)) as Hx1 
    by (change (cy_crc c1) with (integrity32_continue (cy_crc c) hdr); rewrite Hx; apply integrity_from).
  unfold out, took. destruct (decide (db_id b ∈ live)) as [Hlive|Hdead]; cycle 1.
  - rewrite bool_decide_eq_false_2 by done. unfold bindM at 1, retM at 1.
    destruct (copy_pieces_spec tmp i path j src false Hn Hp (S (length (db_bytes b))) w1 (Z.to_nat (off + 24)) (length (db_bytes b))
      (x ++ hdr) (to_le 8 (db_id b) ++ to_le 4 (db_logical_len b)) c1 d C1) as (f & w2 & E2 & W2 & C2); [lia|lia|done|done|].
    rewrite (bindM_run _ _ _ _ _ E2). rewrite Hd in *. unfold bindM, no_maintenance_progress, retM.
    exists f, w2. split_and!; [|by eapply wrote_trans|exact C2].
    rewrite Eb, app_assoc. unfold c1, sums. generalize (integrity32 ((x ++ hdr) ++ db_bytes b)) (Zlen (d ++ [])). intros. by copy_fields c.
  - rewrite bool_decide_eq_true_2 by done.
    change (cy_out c1) with (cy_out c). rewrite Ho. replace (Z.to_nat (Zlen d)) with (length d) by (unfold Zlen; lia).
    destruct (copying_write w1 tmp i d path j src (length d) (replicate DATA_BLOB_HEADER_SIZE 0) Hn Hp C1) as (w2 & E2 & W2 & C2).
    rewrite write_at_end in C2.
    rewrite (bindM_run _ _ w1 (c1 <| cy_out := Zlen (d ++ replicate 24 0) |>) w2); cycle 1.
    { rewrite (bindM_run _ _ _ _ _ E2). unfold retM. do 3 f_equal. unfold Zlen. rewrite length_app, length_replicate. unfold DATA_BLOB_HEADER_SIZE. lia. }
    destruct (copy_pieces_spec tmp i path j src true Hn Hp (S (length (db_bytes b))) w2 (Z.to_nat (off + 24)) (length (db_bytes b))
      (x ++ hdr) (to_le 8 (db_id b) ++ to_le 4 (db_logical_len b)) (c1 <| cy_out := Zlen (d ++ replicate 24 0) |>) (d ++ replicate 24 0) C2)
      as (f & w3 & E3 & W3 & C3); [lia|lia|done|done|].
    rewrite (bindM_run _ _ _ _ _ E3). rewrite Hd in *. unfold bindM at 1, no_maintenance_progress at 1, retM at 1.
    assert (integrity32 ((to_le 8 (db_id b) ++ to_le 4 (db_logical_len b)) ++ db_bytes b) = db_checksum b) as Hsum.
    { rewrite <- (raw_checksum b Hb). change (integrity32_continue 0 (to_le 8 (db_id b))) with (integrity32 (to_le 8 (db_id b))). by rewrite !integrity_from. }
    rewrite Hsum. rewrite (bool_decide_eq_true_2 (db_checksum b = _)) by done. rewrite andb_false_r.
    replace (encode_data_blob_header _ _ _ _ (db_checksum b)) with hdr by (unfold hdr; by rewrite Hsl).
    destruct (copying_write w3 tmp i _ path j src (length d) hdr Hn Hp C3) as (w4 & E4 & W4 & C4).
    rewrite write_at_inside, <- app_assoc, take_app_length, Lh in C4 by (rewrite !length_app, length_replicate, Lh; lia).
    rewrite drop_app_add, drop_app_length' in C4 by (by rewrite length_replicate). rewrite <- Eb in C4.
    unfold bindM. rewrite E4. unfold liftM, checked_add64. change (cy_live (_ <| cy_out := _ |>)) with (cy_live c).
    rewrite decide_True by lia. cbn [ok_or].
    exists f, w4. split_and!; [|by eapply wrote_trans, wrote_trans, wrote_trans|exact C4].
    unfold retM. rewrite Eb, (app_assoc x).
    replace (Zlen (d ++ hdr ++ db_bytes b)) with (Zlen ((d ++ replicate 24 0) ++ db_bytes b))
      by (unfold Zlen; rewrite !length_app, length_replicate, Lh; lia).
    unfold c1, sums. generalize (integrity32 ((x ++ hdr) ++ db_bytes b)) (Zlen ((d ++ replicate 24 0) ++ db_bytes b)). intros. by copy_fields c.
Qed.

(** All blobs. *)
Lemma copy_blobs_spec w0 h tmp i path j live bs2 : no_faults -> path <> tmp -> forall bs1 fuel w x c d,
  let src := segment_bytes h (DATA_LOG_PREFIX ++ concat (map blob_encode (bs1 ++ bs2))) in
  let out := concat (map blob_encode (kept live bs2)) in
  seg_file w0 path h (DATA_LOG_PREFIX ++ concat (map blob_encode (bs1 ++ bs2))) -> Forall wf_blob bs2 ->
  StronglySorted Z.lt (map db_id bs2) -> Forall (fun b => 0 < cy_prior c -> cy_prior c < db_id b) bs2 ->
  copying w tmp i d path j src -> cy_crc c = integrity32 x -> cy_out c = Zlen d ->
  0 <= cy_live c -> cy_live c + logical_total bs2 <= U64_MAX -> (length bs2 < fuel)%nat ->
  exists f w', copy_blobs fuel no_maintenance_progress live (version h) (96 + payload_len h) None j i
      (100 + Zlen (concat (map blob_encode bs1))) c w =
      (Ok (96 + payload_len h, sums f (integrity32 (x ++ concat (map blob_encode bs2))) (Zlen (d ++ out)) (foldl (took live) c bs2)), w') /\
    wrote tmp w w' /\ copying w' tmp i (d ++ out) path j src.
Proof.
  intros Hn Hp. induction bs2 as [|b bs2 IH]; intros bs1 fuel w x c d src out HS Hwf Hso Hpr HC Hx Ho Hl0 Hl Hf;
    (destruct fuel as [|fuel]; [cbn in Hf; lia|]); cbn [copy_blobs].
  - assert (100 + Zlen (concat (map blob_encode bs1)) = 96 + payload_len h) as ->.
    { rewrite (sf_plen _ _ _ _ HS), app_nil_r. unfold Zlen. rewrite length_app. change (length DATA_LOG_PREFIX) with 4%nat. lia. }
    rewrite decide_False by lia. unfold out. cbn [kept filter map concat foldl]. rewrite !app_nil_r.
    exists (cy_fnv c), w. split_and!; [|apply wrote_refl, HC|exact HC]. rewrite <- Hx, <- Ho. by destruct c.
  - rewrite <- blobs_payload_ne in HS by (by destruct bs1). unfold src in *. rewrite <- blobs_payload_ne in HC |- * by (by destruct bs1).
    apply Forall_cons in Hwf as [Hb Hwf]. apply Forall_cons in Hpr as [Hpb Hpr]. cbn [map] in Hso. inversion Hso as [|? ? Hso' Hlt]; subst.
    destruct (scan_step_offsets bs1 b bs2 h path w0 HS Hb) as (O1 & _). rewrite decide_True by lia.
    rewrite logical_total_cons in Hl.
    assert (0 <= logical_total bs2) by (apply logical_total_nonneg; eapply Forall_impl; [exact Hwf|]; intros ? (_ & Hu & _); unfold u32_ok in Hu; lia).
    assert (0 <= db_logical_len b) by (destruct Hb as (_ & Hu & _); unfold u32_ok in Hu; lia).
    destruct (copy_blob_spec w0 h bs1 b bs2 w tmp i path j live x c d Hn Hp HS Hb HC Hx Ho) as (f1 & w1 & E1 & W1 & C1); [lia|lia|lia|].
    rewrite (bindM_run _ _ _ _ _ E1). set (ob := if decide (db_id b ∈ live) then blob_encode b else []) in *.
    set (x1 := x ++ blob_encode b) in *.
    assert (out = ob ++ concat (map blob_encode (kept live bs2))) as Eo.
    { unfold out, ob, kept. rewrite filter_cons. by case_decide. }
    assert (cy_prior (took live c b) = db_id b) as Hp1 by (unfold took; by case_decide).
    assert (0 <= cy_live (took live c b) <= cy_live c + db_logical_len b) as Hl1 by (unfold took; case_decide; cbn; lia).
    rewrite blobs_payload_ne in HS, C1 |- * by (by destruct bs1).
    assert (bs1 ++ b :: bs2 = (bs1 ++ [b]) ++ bs2) as Em by (by rewrite <- app_assoc). rewrite Em in HS, C1 |- *.
    destruct (IH (bs1 ++ [b]) fuel w1 x1 (sums f1 (integrity32 x1) (Zlen (d ++ ob)) (took live c b)) (d ++ ob) HS Hwf Hso')
      as (f & w2 & E2 & W2 & C2).
    { change (cy_prior (sums _ _ _ ?c)) with (cy_prior c). rewrite Hp1. clear -Hlt. rewrite Forall_map in Hlt. eapply Forall_impl; [exact Hlt|]. done. }
    { exact C1. } { done. } { done. } { cbn. lia. } { cbn. lia. } { cbn in Hf. lia. }
    exists f, w2. rewrite E2, Eo. rewrite took_all_sums, sums_sums. unfold x1. cbn [map concat foldl].
    rewrite (app_assoc d), (app_assoc x). split_and!; [done|by eapply wrote_trans|exact C2].
Qed.

Definition copy_start : CopyState := mkCopy 96 0x811C9DC5 0 0 0 0 0 0.

(** The segment's header says nothing of its checksum, or the right thing. *)
Definition checksum_true (h : SegmentHeader) (payload : list Z) : Prop := checksum h = 0 \/ checksum h = integrity32 payload.

(** The payload of the new segment: the live blobs, byte for byte. *)
Lemma write_live_spec w0 w h bs tmp i path live :
  let payload := DATA_LOG_PREFIX ++ concat (map blob_encode bs) in
  let out := DATA_LOG_PREFIX ++ concat (map blob_encode (kept live bs)) in
  no_faults -> path <> tmp -> seg_file w0 path h payload -> contents (w_fs w) path = Some (segment_bytes h payload) ->
  output w tmp i (replicate 96 0) -> Forall wf_blob bs -> StronglySorted Z.lt (map db_id bs) ->
  checksum_true h payload -> logical_total bs <= U64_MAX ->
  exists f r o w', write_live_blobs path h live no_maintenance_progress i w = (Ok (sums f r o (foldl (took live) copy_start bs)), w') /\
    wrote tmp w w' /\ output w' tmp i (replicate 96 0 ++ out).
Proof.
  intros payload out Hn Hp HS Hc HU Hwf Hso Hk Ht. unfold write_live_blobs. set (src := segment_bytes h payload) in *.
  destruct (quiet_open_at w path src Hn Hc) as (j & (w1 & E1 & F1 & S1) & Hj). rewrite (bindM_run _ _ _ _ _ E1).
  assert (copying w1 tmp i (replicate 96 0) path j src) as C1.
  { split; [by apply (output_same w)|by destruct S1 as [-> _]|by rewrite (contents_same (w_fs w))]. }
  pose proof (sf_header _ _ _ _ HS) as [_ Hv]. unfold segment_payload_offset. rewrite decide_True by done.
  change (Z.of_nat SEGMENT_HEADER_V2_TOTAL_SIZE) with 96. change (Z.to_nat 96) with 96%nat.
  assert (length src = 100 + length (concat (map blob_encode bs)))%nat as Ls.
  { unfold src. rewrite length_segment_bytes. unfold payload. rewrite length_app. change (length DATA_LOG_PREFIX) with 4%nat. lia. }
  destruct (copying_read w1 tmp i _ path j src 96 4 Hn Hp C1 ltac:(lia)) as (w2 & E2 & W2 & C2).
  replace (slice 96 (96 + 4) src) with DATA_LOG_PREFIX in E2.
  2:{ unfold src. rewrite (slice_segment_payload h payload 4) by (unfold payload; rewrite length_app; cbn; lia).
      unfold payload. by rewrite take_app_length'. }
  rewrite (bindM_run _ _ _ _ _ E2). rewrite bool_decide_eq_true_2 by done. cbv zeta.
  unfold bindM at 1, retM at 1. change (Z.to_nat (cy_out _)) with 96%nat.
  destruct (copying_write w2 tmp i _ path j src 96 DATA_LOG_PREFIX Hn Hp C2) as (w3 & E3 & W3 & C3).
  change 96%nat with (length (replicate 96 0)) in C3 at 1. rewrite write_at_end in C3.
  rewrite (bindM_run _ _ _ _ _ E3).
  pose proof (sf_plen _ _ _ _ HS) as Hpl. pose proof (sf_len _ _ _ _ HS) as Hle.
  assert (Zlen payload = 4 + Zlen (concat (map blob_encode bs))) as Lp by (unfold payload, Zlen; rewrite length_app; change (length DATA_LOG_PREFIX) with 4%nat; lia).
  rewrite (bindM_run (liftM _) _ w3 (96 + payload_len h) w3)
    by (unfold liftM, checked_add64; by rewrite decide_True by (unfold Zlen in *; lia)).
  assert (length bs <= length (concat (map blob_encode bs)))%nat as Hlb.
  { clear. induction bs as [|b bs IH]; cbn; [lia|]. rewrite length_app, length_blob_encode. lia. }
  set (r0 := integrity32_continue 0 DATA_LOG_PREFIX). set (f0 := checksum32_continue 0x811C9DC5 DATA_LOG_PREFIX).
  change (_ <| cy_out := _ |>) with (sums f0 r0 100 copy_start).
  destruct (copy_blobs_spec w0 h tmp i path j live bs Hn Hp [] (S (Z.to_nat (payload_len h))) w3 DATA_LOG_PREFIX
    (sums f0 r0 100 copy_start) (replicate 96 0 ++ DATA_LOG_PREFIX) HS Hwf Hso) as (f & w4 & E4 & W4 & C4);
    [apply Forall_forall; cbn; lia|exact C3|done|done|done|cbn; lia|unfold Zlen in *; lia|].
  change (100 + Zlen (concat (map blob_encode []))) with (96 + Zlen DATA_LOG_PREFIX) in E4.
  rewrite (bindM_run _ _ _ _ _ E4). rewrite bool_decide_eq_true_2 by done. cbn [negb orb].
  rewrite took_all_sums, sums_sums. set (o := Zlen _). fold payload.
  assert (source_checksum_ok h (sums f (integrity32 payload) o (foldl (took live) copy_start bs)) = true) as ->.
  { unfold source_checksum_ok. destruct Hk as [Hk|Hk]; [by rewrite bool_decide_eq_true_2|].
    rewrite decide_False by (rewrite Hv; unfold STORAGE_LAYOUT_VERSION; lia). change (cy_crc (sums _ ?r _ _)) with r.
    rewrite (bool_decide_eq_true_2 (integrity32 payload = _)) by done. apply orb_true_r. }
  exists f, (integrity32 payload), o, w4. split_and!; [done| |].
  - eapply wrote_trans; [apply wrote_same; [apply HU|exact F1|exact S1]|]. by eapply wrote_trans, wrote_trans.
  - unfold out. rewrite app_assoc. apply C4.
Qed.

(** The counters of a copy are in range. *)
Lemma took_range live bs : Forall wf_blob bs -> forall c, u64_ok (cy_first c) -> 0 <= cy_live c ->
  u64_ok (cy_first (foldl (took live) c bs)) /\ 0 <= cy_live (foldl (took live) c bs).
Proof.
  induction 1 as [|b bs (Hi & Hl & _) _ IH]; intros c H1 H2; [done|]. cbn [foldl]. unfold u32_ok in Hl.
  apply IH; unfold took; case_decide; cbn; try done; [by case_decide|lia].
Qed.
End Laws.
