(* ===== verification/PruneLaws.v ===== *)
(** * What offline reclaim makes of the metadata

    Pruning keeps every active extent; the index keeps one descriptor for each
    segment left, and the highest identifier; every reference is counted. *)

From S2P Require Import Prelude Bytes Text Errors Fs Layout TapeState SpaceGuard Compression Records.
From S2P Require Import World Crc Segment Footprint Checkpoint Logs BlkMap MapLookup Dedup Reclaim.
From S2P Require Import RuntimeState SegmentIndex Slots IndexState DataBlobs BlobStore DataPath Store Recovery RebuildLaws.
From S2P Require Import System Bootstrap OfflineScan OfflineReclaim CopyLaws.

(** ** The pruned block map *)
Lemma max_by_offset_in l r : max_by_offset l = Some r -> r ∈ l.
Proof.
  unfold max_by_offset. assert (forall best, (forall b, best = Some b -> b ∈ l) -> forall k, k ⊆ l ->
    foldl (fun best r => match best with
      | Some b => if decide (physical_offset b <= physical_offset r) then Some r else best
      | None => Some r end) best k = Some r -> r ∈ l) as H; [|by apply H].
  intros best Hb k. revert best Hb. induction k as [|x k IH]; intros best Hb Hk E; [by apply Hb|].
  cbn [foldl] in E. eapply IH; [|set_solver|exact E].
  intros b. destruct best as [y|]; [|intros [= <-]; set_solver]. case_decide; intros [= <-]; [set_solver|by apply Hb].
Qed.

Record pruned_of (records pruned : list BlkMapRecord) : Prop := {
  pd_ids : NoDup (record_id <$> pruned);
  pd_old : forall r, r ∈ pruned -> r ∈ records;
  pd_active : forall r, r ∈ records -> is_active r -> r ∈ pruned;
  pd_sorted : sorted_by logical_start pruned;
  pd_count : Zlen pruned <= Zlen records
}.
Lemma fmap_nodup_inj {A} (f : A -> Z) l x y : NoDup (f <$> l) -> x ∈ l -> y ∈ l -> f x = f y -> x = y.
Proof.
  intros Hnd [i Hi]%list_elem_of_lookup [j Hj]%list_elem_of_lookup E.
  assert (i = j) as ->; [|congruence]. eapply (NoDup_lookup (f <$> l)); [done|rewrite list_lookup_fmap, Hi; reflexivity|].
  rewrite list_lookup_fmap, Hj. cbn. by rewrite E.
Qed.
Lemma pruned_spec records : NoDup (record_id <$> records) -> pruned_of records (pruned_records records).
Proof.
  intros Hnd. unfold pruned_records. set (active := filter _ records). set (witness := match max_by_offset _ with Some r => _ | None => _ end).
  assert (forall r, r ∈ active <-> is_active r /\ r ∈ records) as Ha by (intros r; unfold active; by rewrite list_elem_of_filter).
  assert (witness = [] \/ exists r, witness = [r] /\ r ∈ records /\ ~ is_active r) as Hw.
  { unfold witness. destruct (max_by_offset _) as [r|] eqn:E; [|by left]. case_decide; [|by left]. right. exists r. split; [done|].
    apply max_by_offset_in, list_elem_of_filter in E as [E1 E2]. split; [done|].
    intros Hr. destruct (is_active r); [exact E1|exact Hr]. }
  set (l := active ++ witness). assert (sort_by_key logical_start (sort_by_key record_id l) ≡ₚ l) as Hp.
  { etrans; [apply sort_by_key_perm|apply sort_by_key_perm]. }
  assert (forall r, r ∈ l -> r ∈ records) as Hold.
  { intros r [[_ H]%Ha|H]%elem_of_app; [done|]. destruct Hw as [E|(x & E & ? & _)]; rewrite E in H; set_solver. }
  assert (NoDup (record_id <$> l)) as Hl.
  { unfold l. rewrite fmap_app. apply NoDup_app. split_and!.
    - eapply sublist_NoDup; [exact Hnd|]. apply fmap_sublist. unfold active. clear. induction records as [|r k IH]; [done|].
      rewrite filter_cons. destruct (is_active r); [by apply sublist_skip|by apply sublist_cons].
    - intros i (r & -> & [Hr1 Hr2]%Ha)%list_elem_of_fmap Hi. destruct Hw as [E|(x & E & Hx & Hn)]; rewrite E in Hi; [set_solver|].
      cbn in Hi. apply list_elem_of_singleton in Hi. apply Hn. by rewrite <- (fmap_nodup_inj record_id records r x).
    - destruct Hw as [->|(x & -> & _)]; [constructor|]. apply NoDup_singleton. }
  split.
  - by rewrite Hp.
  - intros r. rewrite Hp. apply Hold.
  - intros r Hr Hr'. rewrite Hp. apply elem_of_app. left. by apply Ha.
  - apply sort_by_key_sorted.
  - unfold Zlen. rewrite Hp. apply inj_le, submseteq_length, NoDup_submseteq; [|exact Hold]. by eapply NoDup_fmap_1.
Qed.
Section Laws.
Context `{CL : Crc32cLaws} `{HOL : HashOrderLaws}.

(** The map it stands for. *)
Lemma pruned_lookup records pruned m i r :
  pruned_of records pruned -> tracks record_id records m -> keyed record_id m ->
  (replay record_id pruned !! i = Some r -> m !! i = Some r) /\
  (m !! i = Some r -> is_active r -> replay record_id pruned !! i = Some r).
Proof.
  intros [P1 P2 P3 _ _] Ht Hk. destruct (tracks_replay record_id pruned P1) as [_ Hp]. split.
  - intros H. pose proof (replay_keyed record_id _ _ _ H) as <-. apply (proj2 Ht), P2, Hp, H.
  - intros H Ha. pose proof (Hk _ _ H) as <-. apply Hp, P3; [|done]. by apply (proj2 Ht).
Qed.

(** ** The counts of references *)
Lemma count_active_spec : forall rs refs, (forall i, default 0 (refs !! i) + Zlen rs <= U32_MAX) ->
  exists out, count_active_refs rs refs = Ok out /\ forall i, is_Some (out !! i) ->
    is_Some (refs !! i) \/ exists r, r ∈ rs /\ is_active r /\ dedup_entry_id r = i /\ i <> 0.
Proof.
  induction rs as [|r rs IH]; intros refs Hb; cbn [count_active_refs]; [eauto|].
  assert (Zlen (r :: rs) = 1 + Zlen rs) as El by (unfold Zlen; cbn [length]; lia). pose proof (Zle_0_nat (length rs)) as Hz. fold (Zlen rs) in Hz.
  destruct (is_active r && _) eqn:E; cycle 1.
  { destruct (IH refs) as (out & Eo & Ho); [intros i; specialize (Hb i); lia|]. exists out. split; [done|].
    intros i Hi. destruct (Ho i Hi) as [?|(x & ? & ?)]; [by left|right]. exists x. set_solver. }
  apply andb_true_iff in E as [Ha Hd]. rewrite negb_true_iff, bool_decide_eq_false in Hd.
  rewrite decide_True by (specialize (Hb (dedup_entry_id r)); lia).
  destruct (IH (<[dedup_entry_id r := default 0 (refs !! dedup_entry_id r) + 1]> refs)) as (out & Eo & Ho).
  { intros i. specialize (Hb i). destruct (decide (dedup_entry_id r = i)) as [<-|]; [rewrite lookup_insert_eq; cbn [default from_option id]; lia|].
    rewrite lookup_insert_ne by done. lia. }
  exists out. split; [done|]. intros i Hi. destruct (Ho i Hi) as [Hin|(x & ? & ?)].
  - destruct (decide (dedup_entry_id r = i)) as [<-|]; [|rewrite lookup_insert_ne in Hin by done; by left].
    right. exists r. split_and!; [set_solver|by rewrite Ha|done|done].
  - right. exists x. set_solver.
Qed.
Lemma take_counts_spec : forall es refs,
  (forall i, (take_counts es refs).2 !! i = if decide (i ∈ entry_id <$> es) then None else refs !! i) /\
  Zlen (take_counts es refs).1 <= Zlen es /\
  (Forall (fun e => u8_ok (identity_version e)) es -> Forall (fun e => u8_ok (identity_version e)) (take_counts es refs).1).
Proof.
  induction es as [|e es IH]; intros refs; cbn [take_counts fst snd]; [split_and!; [|done|done]; intros i; by rewrite decide_False by set_solver|].
  assert (Zlen (e :: es) = 1 + Zlen es) as El by (unfold Zlen; cbn [length]; lia).
  destruct (refs !! entry_id e) as [n|] eqn:E.
  - destruct (IH (delete (entry_id e) refs)) as (H1 & H2 & H3). destruct (take_counts es _) as [out left]. cbn [fst snd] in *. split_and!.
    + intros i. rewrite H1. cbn [fmap list_fmap]. destruct (decide (i = entry_id e)) as [->|].
      * rewrite lookup_delete_eq. repeat case_decide; try done; set_solver.
      * rewrite lookup_delete_ne by done. repeat case_decide; set_solver.
    + rewrite El. unfold Zlen in *. cbn [length]. lia.
    + intros [Hv Hf]%Forall_cons. constructor; [done|by apply H3].
  - destruct (IH refs) as (H1 & H2 & H3). split_and!; [|lia|].
    + intros i. rewrite H1. cbn [fmap list_fmap]. destruct (decide (i = entry_id e)) as [->|].
      * rewrite E. repeat case_decide; done.
      * repeat case_decide; set_solver.
    + intros [Hv Hf]%Forall_cons. by apply H3.
Qed.

(** ** The index *)
Abbreviation segments := (gmap Z (SegmentHeader * list DataBlob)).

(** Every segment has a descriptor, which knows its last blob. *)
Record good_index (index : SegmentIndex_) (segs : segments) : Prop := {
  gi_wf : wf_index index;
  gi_inv : seg_inv index;
  gi_dom : forall n, is_Some (segs !! n) <-> n ∈ (segment_seq <$> descriptors index);
  gi_ids : forall d h bs b, d ∈ descriptors index -> segs !! segment_seq d = Some (h, bs) -> b ∈ bs -> db_id b <= last_blob_id d
}.
(** The identifiers of a store are below the bound from which new ones are taken. *)
Definition spent (index : SegmentIndex_) (segs : segments) : Prop :=
  forall n h bs b, segs !! n = Some (h, bs) -> b ∈ bs -> db_id b <= ids_bound index.

Lemma good_spent index segs : good_index index segs -> spent index segs.
Proof.
  intros [_ _ Hd Hi] n h bs b Hn Hb. assert (is_Some (segs !! n)) as (d & -> & Hin)%Hd%list_elem_of_fmap by eauto.
  etrans; [by eapply Hi|by apply in_bound].
Qed.

Lemma bound_mono index index' :
  (forall d, d ∈ descriptors index -> exists d', d' ∈ descriptors index' /\ last_blob_id d <= last_blob_id d') ->
  ids_bound index <= ids_bound index'.
Proof.
  intros H. unfold ids_bound at 1. pose proof (ids_bound_pos index') as H0.
  assert (forall d, d ∈ descriptors index -> last_blob_id d <= ids_bound index') as Hb.
  { intros d Hd. destruct (H d Hd) as (d' & Hin & Hle). etrans; [exact Hle|by apply in_bound]. }
  clear H. induction (descriptors index) as [|d l IH]; cbn; [done|]. apply Z.max_lub; [apply Hb; by left|]. apply IH. intros x Hx. apply Hb. by right.
Qed.

(** The active descriptor raised. *)
Lemma raised_elem hw ds d' :
  d' ∈ raised hw ds -> exists d, d ∈ ds /\ segment_seq d' = segment_seq d /\ last_blob_id d <= last_blob_id d' /\
    is_active_segment d' = is_active_segment d.
Proof.
  unfold raised. destruct (update_first _ _ ds) as [ds'|] eqn:E; cbn [default from_option id]; [|intros; exists d'; split_and!; [done..|lia|done]].
  apply update_first_split in E as (l1 & d & l2 & -> & Hd & _ & ->).
  intros [Hx|[->|Hx]%elem_of_cons]%elem_of_app; [exists d'|exists d|exists d']; (split_and!; [set_solver|done|cbn; lia|done]).
Qed.
Lemma raised_active hw ds : active_count ds = 1 -> exists d', d' ∈ raised hw ds /\ hw <= last_blob_id d' /\ is_active_segment d'.
Proof.
  intros Ha. unfold raised. destruct (update_first _ _ ds) as [ds'|] eqn:E; cbn [default from_option id].
  - apply update_first_split in E as (l1 & d & l2 & -> & Hd & _ & ->). eexists. split_and!; [apply elem_of_app; right; by left|cbn; lia|].
    change (is_active_segment d). by rewrite Hd.
  - exfalso. assert (active_count ds = 0) as H0; [|lia]. clear Ha. induction ds as [|d ds IH]; [done|]. cbn in E.
    destruct (is_active_segment d) eqn:Ed; [done|]. rewrite active_count_cons, active_count_one, Ed. rewrite IH; [done|].
    by destruct (update_first _ _ ds).
Qed.
Lemma raised_good hw index segs :
  u64_ok hw -> good_index index segs ->
  let index' := index <| descriptors := raised hw (descriptors index) |> in
  good_index index' segs /\ hw <= ids_bound index' /\ ids_bound index <= ids_bound index'.
Proof.
  intros Hh [[W1 W2 W3 W4] [V1 V2 V3] Hd Hi] index'. destruct (raised_spec hw _ Hh W3) as (R1 & R2 & R3 & R4).
  split_and!.
  - split; [split; try done|split| |]; cbn.
    + unfold Zlen in *. rewrite <- (length_fmap segment_seq (raised hw (descriptors index))), R2, length_fmap. done.
    + by rewrite R3.
    + by rewrite R2.
    + intros d' (d & Hin & -> & _)%raised_elem. by apply V3.
    + intros n. by rewrite R2.
    + intros d' h bs b (d & Hin & -> & Hle & _)%raised_elem Hs Hb. etrans; [by eapply Hi|done].
  - destruct (raised_active hw _ V1) as (d' & Hin & Hle & _). etrans; [exact Hle|]. by apply (in_bound d' index').
  - apply bound_mono. exact R4.
Qed.

Lemma removed_good n index segs :
  good_index index segs -> (forall d, d ∈ descriptors index -> segment_seq d = n -> is_active_segment d = false) ->
  good_index (remove_segment_descriptor index n) (delete n segs).
Proof.
  intros [[W1 W2 W3 W4] [V1 V2 V3] Hd Hi] Hna. unfold remove_segment_descriptor.
  assert (forall d, d ∈ filter (fun d => segment_seq d <> n) (descriptors index) <-> segment_seq d <> n /\ d ∈ descriptors index) as Hin
    by (intros d; by rewrite list_elem_of_filter).
  split; [split; try done|split| |]; cbn.
  - apply list.Forall_forall. intros d [_ Hd']%Hin. by apply (proj1 (list.Forall_forall _ _) W3).
  - etrans; [|exact W4]. unfold Zlen. apply inj_le, length_filter.
  - rewrite <- V1. clear -Hna. induction (descriptors index) as [|d l IH]; [done|]. rewrite filter_cons.
    rewrite (active_count_cons d l), active_count_one. case_decide as Hn.
    + rewrite (active_count_cons d), active_count_one, IH; [done|]. intros x Hx. apply Hna. by right.
    + assert (segment_seq d = n) as E by (by destruct (decide (segment_seq d = n))).
      rewrite (Hna d ltac:(by left) E). rewrite IH; [done|]. intros x Hx. apply Hna. by right.
  - eapply sublist_NoDup; [exact V2|]. apply fmap_sublist. clear. induction (descriptors index) as [|d l IH]; [done|].
    rewrite filter_cons. case_decide; [by apply sublist_skip|by apply sublist_cons].
  - intros d [_ Hd']%Hin. by apply V3.
  - intros m. rewrite lookup_delete_is_Some, Hd, !list_elem_of_fmap. setoid_rewrite Hin. split.
    + intros (Hm & d & -> & Hd'). exists d. split_and!; [done|congruence|done].
    + intros (d & -> & Hm & Hd'). split; [congruence|eauto].
  - intros d h bs b [Hn Hd']%Hin. rewrite lookup_delete_ne by done. by apply Hi.
Qed.

(** A segment without live blobs goes. *)
Lemma dropped_index index segs n last :
  good_index index segs -> u64_ok last -> (forall d, d ∈ descriptors index -> segment_seq d = n -> is_active_segment d = false) ->
  (forall h bs b, segs !! n = Some (h, bs) -> b ∈ bs -> db_id b <= last) ->
  let index' := remove_segment_descriptor (index <| descriptors := raised last (descriptors index) |>) n in
  good_index index' (delete n segs) /\ spent index' segs.
Proof.
  intros HG Hu Hna Hl index'. destruct (raised_good last index segs Hu HG) as (HG1 & _ & _). cbv zeta in HG1.
  assert (good_index index' (delete n segs)) as HG2.
  { apply removed_good; [done|]. cbn. intros d' (d & Hin & E & _ & ->)%raised_elem. rewrite E. by apply Hna. }
  split; [done|]. intros m h bs b Hm Hb. destruct (decide (n = m)) as [<-|Hne].
  - destruct (raised_active last (descriptors index) (sv_active _ (gi_inv _ _ HG))) as (d' & Hin & Hle & Ha).
    transitivity last; [by eapply Hl|]. etrans; [exact Hle|]. apply in_bound. cbn. apply list_elem_of_filter. split; [|done].
    intros En. apply raised_elem in Hin as (d & Hin & Es & _ & Ea). rewrite Ea, (Hna d) in Ha by (done || congruence). done.
  - apply (good_spent _ _ HG2 m h bs b); [by rewrite lookup_delete_ne|done].
Qed.

(** A segment is rewritten. *)
Lemma update_first_seq n f ds : n ∈ (segment_seq <$> ds) -> is_Some (update_first (has_seq n) f ds).
Proof.
  induction ds as [|d ds IH]; [set_solver|]. cbn. unfold has_seq at 1. case_bool_decide as E; [eauto|].
  intros [->|Hin]%elem_of_cons; [done|]. destruct (IH Hin) as [x ->]. eauto.
Qed.
Lemma rewritten_index index segs n f ds' h' h bs bs' :
  good_index index segs -> update_first (has_seq n) f (descriptors index) = Some ds' ->
  (forall d, wf_descriptor d -> wf_descriptor (f d) /\ segment_seq (f d) = segment_seq d /\
     is_active_segment (f d) = is_active_segment d /\ last_blob_id d <= last_blob_id (f d)) ->
  segs !! n = Some (h, bs) -> bs' ⊆ bs ->
  let index' := index <| descriptors := ds' |> in
  good_index index' (<[n := (h', bs')]> segs) /\ spent index' segs.
Proof.
  intros HG E Hf Hn Hsub index'. pose proof HG as [[W1 W2 W3 W4] [V1 V2 V3] Hd Hi].
  apply update_first_split in E as (l1 & d & l2 & El & Hds & _ & ->). rewrite El in *.
  apply Forall_app in W3 as [F1 [Fd F2]%Forall_cons]. destruct (Hf d Fd) as (G1 & G2 & G3 & G4).
  unfold has_seq in Hds. apply bool_decide_eq_true in Hds.
  assert (segment_seq <$> (l1 ++ f d :: l2) = segment_seq <$> (l1 ++ d :: l2)) as Es by (rewrite !fmap_app, !fmap_cons; by rewrite G2).
  assert (forall x, x ∈ l1 ++ f d :: l2 -> exists y, y ∈ l1 ++ d :: l2 /\ segment_seq x = segment_seq y /\ last_blob_id y <= last_blob_id x) as Hx.
  { intros x [H|[->|H]%elem_of_cons]%elem_of_app; [exists x|exists d|exists x]; (split_and!; [set_solver|done|done || lia]). }
  assert (ids_bound index <= ids_bound index') as Hb.
  { apply bound_mono. rewrite El. intros x [H|[->|H]%elem_of_cons]%elem_of_app; [exists x|exists (f d)|exists x]; (split; [set_solver|done || lia]). }
  split; [|intros m h0 bs0 b Hm Hin; etrans; [by eapply (good_spent _ _ HG)|done]].
  split; [split; try done|split| |]; cbn.
  - apply Forall_app. split; [done|by constructor].
  - unfold Zlen in *. rewrite length_app in *. cbn [length] in *. done.
  - rewrite <- V1, !active_count_app, (active_count_cons d), (active_count_cons (f d)), !active_count_one. by rewrite G3.
  - by rewrite Es.
  - intros x (y & Hy & -> & _)%Hx. by apply V3.
  - intros m. rewrite Es, <- Hd, lookup_insert_is_Some. split; [intros [<-|[_ ?]]; eauto|]. destruct (decide (n = m)); auto.
  - intros x h0 bs0 b (y & Hy & -> & Hle)%Hx Hs Hbin. etrans; [|exact Hle]. destruct (decide (n = segment_seq y)) as [Ey|].
    + rewrite Ey, lookup_insert_eq in Hs. injection Hs as <- <-. apply (Hi y h bs b Hy); [by rewrite <- Ey|set_solver].
    + rewrite lookup_insert_ne in Hs by done. by eapply Hi.
Qed.
End Laws.
