(* ===== verification/ReclaimLaws.v ===== *)
(** * Offline reclaim keeps the tape

    Whatever segment is given back, the tape shows the same blocks afterwards;
    the blobs of the segment that are left are those active extents name, and no
    blob identifier is given twice. *)

From S2P Require Import Prelude Bytes Text Errors Fs Layout TapeState SpaceGuard Compression Records.
From S2P Require Import World Crc Segment Footprint Streaming StreamLaws Checkpoint Logs BlkMap MapLookup Dedup Reclaim.
From S2P Require Import RuntimeState SegmentIndex Slots IndexState DataBlobs BlobStore DataPath Store Reset BlockStore.
From S2P Require Import Recovery ScanLaws SideLaws RebuildLaws RecoveryLaws System Bootstrap OfflineScan OfflineReclaim.
From S2P Require Import CopyLaws PruneLaws.

Section Laws.
Context `{HOST : Host} `{ENV : Environ} `{CL : Crc32cLaws} `{HOL : HashOrderLaws} `{BC : BlockCodecs}
  `{B3 : Blake3} `{SHA : Sha256} `{FS : FileStat} `{CJ : CursorJson} `{SH : SpaceHost}.

(** No segment is open for appending: the cartridge is not mounted. *)
Definition idle (w : World) (p : LayoutPaths) : Prop := forall n, u64_ok n -> w_append w !! data_segment_path p n = None.

Lemma idle_moved ps w w' p : idle w p -> moved ps w w' -> (forall n, u64_ok n -> data_segment_path p n ∉ ps) -> idle w' p.
Proof. intros HI [_ K] Ha n Hn. destruct (K _ (Ha n Hn)) as [_ ->]. by apply HI. Qed.
Lemma idle_slot t w w' p :
  layout_ok p -> slot_ok t -> (forall n, t <> SData n) -> idle w p -> moved (slot_files p t) w w' -> idle w' p.
Proof. intros Hlo Ht Hd HI HM. eapply idle_moved; [exact HI|exact HM|]. intros n Hn. by apply (slot_apart p (SData n) t). Qed.

(** A step of the repair, part by part: unchanged, or as the new store says. *)
Lemma torn_move ps w w' p s s' ds ds' cs :
  torn w p s ds cs -> moved ps w w' ->
  (metadata_file p ∉ ps) /\ w_checkpoint w' = w_checkpoint w /\ st_checkpoint s' = st_checkpoint s \/ cp_state w' (metadata_file p) (st_checkpoint s') ->
  (blk_map_file p ∉ ps) /\ w_blk w' = w_blk w /\ st_blk_seq s' = st_blk_seq s /\ st_blk s' = st_blk s \/
    blk_state w' (blk_map_file p) (st_blk_seq s') (st_blk s') ->
  (lookup_file p ∉ ps) /\ w_lookup w' = w_lookup w /\ st_lookup_seq s' = st_lookup_seq s /\ st_lookup s' = st_lookup s \/
    lookup_state w' (lookup_file p) (st_lookup_seq s') (st_lookup s') ->
  (segment_index_file p ∉ ps) /\ st_index s' = st_index s \/ index_file w' (segment_index_file p) (st_index s') ->
  (dedup_file p ∉ ps) /\ w_dedup w' = w_dedup w /\ ds' = ds \/ dedup_state w' (dedup_file p) ds' ->
  (reclaim_file p ∉ ps) ->
  (forall n, u64_ok n -> data_segment_path p n ∉ ps) /\ w_data w' = w_data w /\ w_readers w' = w_readers w /\ st_segs s' = st_segs s \/
    seg_states w' p (st_segs s') /\ cold_outside w' p (st_segs s') ->
  torn w' p s' ds' cs.
Proof.
  intros [T1 T2 T3 T4 T5 T6 T7 T8] HM C1 C2 C3 C4 C5 C6 C7. split.
  - destruct C1 as [(Hp & E & ->)|]; [|done]. eapply cp_state_moved; [done|exact HM|done|by rewrite E].
  - destruct C2 as [(Hp & E & -> & ->)|]; [|done]. eapply blk_state_moved; [done|exact HM|done|by rewrite E].
  - destruct C3 as [(Hp & E & -> & ->)|]; [|done]. eapply lookup_state_moved; [done|exact HM|done|by rewrite E].
  - destruct C4 as [(Hp & ->)|]; [|done]. destruct T4 as [HL Hwf]. split; [by eapply log_file_moved|done].
  - destruct C7 as [(Hp & E1 & E2 & ->)|[? _]]; [|done]. intros n h bs Hs. destruct (T5 n h bs Hs) as [Hu HD]. split; [done|].
    eapply data_state_moved; [exact HD|exact HM|apply Hp; unfold u32_ok in Hu; unfold u64_ok; lia|by rewrite E1|by rewrite E2].
  - destruct C7 as [(Hp & E1 & E2 & ->)|[_ ?]]; [|done]. intros n. rewrite E1, E2. apply T6.
  - destruct C5 as [(Hp & E & ->)|]; [|done]. eapply dedup_state_moved; [done|exact HM|done|by rewrite E].
  - by eapply reclaim_state_moved.
Qed.
(** A step on one file leaves the others. *)
Lemma files_apart p t :
  layout_ok p -> slot_ok t ->
  (t <> SMeta -> metadata_file p ∉ slot_files p t) /\ (t <> SBlk -> blk_map_file p ∉ slot_files p t) /\
  (t <> SLookup -> lookup_file p ∉ slot_files p t) /\ (t <> SIndex -> segment_index_file p ∉ slot_files p t) /\
  (t <> SDedup -> dedup_file p ∉ slot_files p t) /\ (t <> SReclaim -> reclaim_file p ∉ slot_files p t) /\
  ((forall n, t <> SData n) -> forall n, u64_ok n -> data_segment_path p n ∉ slot_files p t).
Proof.
  intros Hlo Ht.
  split_and!; [intros Hne; apply (slot_apart p SMeta t)|intros Hne; apply (slot_apart p SBlk t)|intros Hne; apply (slot_apart p SLookup t)
    |intros Hne; apply (slot_apart p SIndex t)|intros Hne; apply (slot_apart p SDedup t)|intros Hne; apply (slot_apart p SReclaim t)
    |intros Hne n Hn; apply (slot_apart p (SData n) t)]; try done; intros E; by apply (Hne n).
Qed.

Ltac aparts p t Hlo :=
  destruct (files_apart p t Hlo I) as (?A1 & ?A2 & ?A3 & ?A4 & ?A5 & ?A6 & ?A7);
  repeat match goal with
  | H : t <> _ -> _ |- _ => first [ specialize (H ltac:(done)) | clear H ]
  | H : (forall n, t <> SData n) -> _ |- _ => first [ specialize (H ltac:(done)) | clear H ]
  end.
(** A part that is as it was: [F] says what else the step left. *)
Ltac as_was F := left; split_and!; try done; rewrite F; done.

(** ** The steps *)
Lemma mark_dirty_torn w p s ds cs :
  no_faults -> layout_ok p -> torn w p s ds cs ->
  exists c w', mark_checkpoint_dirty p w = (Ok c, w') /\ torn w' p (s <| st_checkpoint := c |>) ds cs /\ flags c = Dirty /\
    moved (slot_files p SMeta) w w'.
Proof.
  intros Hn Hlo HT. unfold mark_checkpoint_dirty.
  destruct (load_checkpoint_spec w _ _ Hn (tn_cp _ _ _ _ _ HT)) as (w1 & E1 & O1 & A1 & S1 & HC1).
  rewrite (bindM_run _ _ _ _ _ E1).
  assert (moved (slot_files p SMeta) w w1) as M1 by (apply moved_same; [by eapply torn_wf|done|done]).
  aparts p SMeta Hlo.
  assert (forall c w', moved (slot_files p SMeta) w w' -> cp_only w w' -> cp_state w' (metadata_file p) c ->
    torn w' p (s <| st_checkpoint := c |>) ds cs) as Hfin.
  { intros c w' HM F HC. apply (torn_move (slot_files p SMeta) w _ p s _ ds); [done|done|by right|as_was F..|done|as_was F]. }
  destruct (decide (flags (st_checkpoint s) = Clean)) as [Hf|Hf]; cycle 1.
  { exists (st_checkpoint s), w1. split_and!; [done|by apply Hfin|by destruct (flags (st_checkpoint s))|done]. }
  pose proof (lo_tmp p Hlo SMeta SMeta I I) as Ht. cbn [slot_path] in Ht. cbv zeta.
  destruct (persist_checkpoint_spec w1 (metadata_file p) (marked Dirty (st_checkpoint s)) Hn) as (w2 & E2 & O2 & Fr2 & HC2);
    [apply M1|done|apply marked_wf, HC1|].
  rewrite (bindM_run _ _ _ _ _ E2). exists (marked Dirty (st_checkpoint s)), w2.
  assert (moved (slot_files p SMeta) w w2) as M2.
  { eapply moved_trans; [exact M1|]. apply (moved_run _ _ _ _ _ E2); [done|]. intros q Hq. unfold slot_files in Hq.
    cbn [slot_path] in Hq. apply spares_persist_checkpoint; set_solver. }
  split_and!; [done|apply Hfin; [done| |done]|done|done]. unfold cp_only in *. rewrite O2, O1. done.
Qed.

Lemma persist_blk_spec w path recs :
  no_faults -> wf_fs (w_fs w) -> with_extension_tmp path <> path -> Zlen recs <= MAX_MAINTENANCE_METADATA_RECORDS ->
  Forall wf_blk recs -> (forall r, r ∈ recs -> record_id r < U64_MAX) -> NoDup (record_id <$> recs) ->
  sorted_by logical_start recs ->
  exists w', persist_blk_map_records path recs w = (Ok tt, w') /\ blk_state w' path (rewrite_sequence recs) recs /\
    w' = w <| w_fs := w_fs w' |> <| w_append := w_append w' |> <| w_known_dirs := w_known_dirs w' |>
           <| w_blk := w_blk w' |> /\ moved (path_files path) w w'.
Proof.
  intros Hn Hw Ht Hb Hwf Hids Hnd Hs. unfold persist_blk_map_records. pose proof (payload_in_budget recs Hb) as Hbud.
  unfold MAX_MAINTENANCE_METADATA_BYTES, MAX_MAINTENANCE_METADATA_RECORDS in *.
  destruct (write_log_moved w path BlkMap 2 (rewrite_sequence recs) (BlkMap.encode_log_payload recs) Hn Hw Ht)
    as (w1 & E1 & F1 & M1 & HL1); [unfold u64_ok; lia| | |lia|].
  { unfold u64_ok, rewrite_sequence, Zlen in *. pose proof (Nat.Div0.div_le_upper_bound (length recs) MAX_RECORDS_PER_SEGMENT (length recs)) as H.
    unfold MAX_RECORDS_PER_SEGMENT in *. lia. }
  { apply Forall_app. split; [by apply (bool_decide_unpack (Forall u8_ok _)); vm_compute|].
    clear. induction recs as [|r l IH]; [apply Forall_nil_2|]. change (Forall u8_ok (blk_encode r ++ encode_all l)).
    apply Forall_app. split; [apply blk_encode_ok|done]. }
  cbv zeta. rewrite (bindM_run _ _ _ _ _ E1). destruct (stamped w1 path _ _ _ _ Hn HL1) as (st & w2 & E2 & F2 & S2).
  unfold BlkMap.update_cache. rewrite (bindM_run _ _ _ _ _ E2). eexists. split; [reflexivity|].
  set (w3 := w2 <| w_blk := _ |>).
  assert (same_files (w_fs w1) (w_fs w3)) as S13 by done. assert (w_append w3 = w_append w1) as A13 by (cbn; by rewrite F2).
  split_and!.
  - split; [apply (log_file_same w1); [done|by rewrite A13|done]|done|done|].
    cbn. intros e. rewrite lookup_insert_eq. intros [= <-]. apply built_cache_ok; [done|by apply tracks_replay|done].
  - unfold w3. rewrite F2, F1. done.
  - eapply moved_trans; [exact M1|]. apply moved_same; [apply HL1|done|done].
Qed.

Lemma prune_torn w p s ds cs records :
  no_faults -> layout_ok p -> torn w p s ds cs -> store_budget s -> tracks record_id records (extents s) ->
  exists w', prune_metadata p records w = (Ok (pruned_records records), w') /\
    torn w' p (s <| st_blk_seq := rewrite_sequence (pruned_records records) |> <| st_blk := pruned_records records |>) ds cs /\
    moved (slot_files p SBlk) w w'.
Proof.
  intros Hn Hlo HT [Hb _] Htr. pose proof (lo_tmp p Hlo SBlk SBlk I I) as Ht. cbn [slot_path] in Ht.
  pose proof (pruned_spec records (proj1 Htr)) as HP. unfold prune_metadata. cbv zeta.
  assert (forall r, r ∈ records -> r ∈ st_blk s) as Hin by (intros r Hr; by apply (proj2 Htr), replay_in in Hr).
  assert (Zlen records <= Zlen (st_blk s)) as Hlen
    by (unfold Zlen; apply inj_le, submseteq_length, NoDup_submseteq; [by eapply tracks_nodup|exact Hin]).
  destruct (tn_blk _ _ _ _ _ HT) as [_ Bwf Bids _].
  destruct (persist_blk_spec w (blk_map_file p) (pruned_records records) Hn (torn_wf _ _ _ _ _ HT) Ht) as (w1 & E1 & HB1 & F1 & M1).
  { pose proof (pd_count _ _ HP). lia. }
  { apply list.Forall_forall. intros r Hr. by apply (proj1 (list.Forall_forall _ _) Bwf), Hin, (pd_old _ _ HP). }
  { intros r Hr. by apply Bids, Hin, (pd_old _ _ HP). }
  { apply HP. } { apply HP. }
  rewrite (bindM_run _ _ _ _ _ E1). exists w1. split_and!; [done| |done]. aparts p SBlk Hlo.
  apply (torn_move (slot_files p SBlk) w _ p s _ ds); [done|done|as_was F1|by right|as_was F1..|done|as_was F1].
Qed.

Lemma reindexed_torn w p s ds cs index :
  no_faults -> layout_ok p -> torn w p s ds cs -> wf_index index ->
  exists w', persist_segment_index (segment_index_file p) index w = (Ok tt, w') /\
    torn w' p (s <| st_index := index |>) ds cs /\ moved (slot_files p SIndex) w w'.
Proof.
  intros Hn Hlo HT Hwf. pose proof (lo_tmp p Hlo SIndex SIndex I I) as Ht. cbn [slot_path] in Ht.
  destruct (persist_index_spec w _ index Hn (torn_wf _ _ _ _ _ HT) Ht Hwf) as (w1 & E1 & F1 & Fr1 & HI1).
  assert (moved (slot_files p SIndex) w w1) as M1.
  { apply (moved_run _ _ _ _ _ E1); [done|]. intros q Hq. unfold slot_files in Hq. cbn [slot_path] in Hq. apply spares_persist_index; set_solver. }
  exists w1. split_and!; [done| |done]. unfold files_only in F1. aparts p SIndex Hlo.
  apply (torn_move (slot_files p SIndex) w _ p s _ ds); [done|done|as_was F1..|by right|as_was F1|done|as_was F1].
Qed.

(** The reference counts: every reference names an entry. *)
Lemma recount_torn w p s ds cs records :
  no_faults -> layout_ok p -> torn w p s ds cs -> Zlen records <= MAX_MAINTENANCE_METADATA_RECORDS ->
  (forall r, r ∈ records -> is_active r -> dedup_entry_id r <> 0 -> dedup_entry_id r ∈ (entry_id <$> ds)) ->
  exists w' h payload, rebuild_dedup_refcounts p records w = (Ok tt, w') /\ seg_file w' (dedup_file p) h payload /\
    dedup_touch w w' /\ moved (slot_files p SDedup) w w'.
Proof.
  intros Hn Hlo HT Hb Hids. pose proof (lo_tmp p Hlo SDedup SDedup I I) as Ht. cbn [slot_path] in Ht. unfold rebuild_dedup_refcounts.
  unfold MAX_MAINTENANCE_METADATA_RECORDS in Hb.
  destruct (count_active_spec records ∅) as (refs & Er & Hr); [intros i; rewrite lookup_empty; cbn [default from_option id]; lia|].
  rewrite (bindM_run (liftM _) _ w refs w) by (unfold liftM; by rewrite Er).
  destruct (load_dedup_spec w _ _ Hn (tn_dedup _ _ _ _ _ HT)) as (n & w1 & E1 & HD1 & O1 & S1). rewrite (bindM_run _ _ _ _ _ E1).
  destruct (take_counts_spec ds refs) as (T1 & T2 & T3). destruct (take_counts ds refs) as [out left]. cbn [fst snd] in *.
  rewrite decide_True.
  2:{ apply map_empty. intros i. rewrite T1. case_decide as Hi; [done|]. destruct (refs !! i) as [x|] eqn:E; [|done].
      destruct (Hr i ltac:(eauto)) as [[? Hx]|(r & Hr1 & Hr2 & <- & Hr3)]; [by rewrite lookup_empty in Hx|]. by destruct Hi; apply Hids. }
  pose proof (dd_count _ _ _ HD1) as Hc. pose proof (T3 (dd_versions _ _ _ HD1)) as Hv. unfold MAX_MAINTENANCE_METADATA_RECORDS in Hc.
  assert (moved (slot_files p SDedup) w w1) as M1 by (apply moved_same; [by eapply torn_wf|done|rewrite O1; done]).
  unfold persist_dedup_entries.
  assert (Zlen (Dedup.encode_log_payload out) = 4 + Zlen out * 52) as El.
  { unfold Dedup.encode_log_payload, Zlen. rewrite length_app, length_encode_all. change (length Dedup.LOG_PREFIX) with 4%nat.
    change (rec_size (A := DedupIndexEntry)) with 52%nat. lia. }
  destruct (write_log_moved w1 (dedup_file p) Layout.Dedup 5 (Zlen out) (Dedup.encode_log_payload out) Hn) as (w2 & E2 & F2 & M2 & HL2);
    [apply M1|done|unfold u64_ok; lia|unfold u64_ok, Zlen in *; lia| |lia|].
  { apply Forall_app. split; [by apply (bool_decide_unpack (Forall u8_ok _)); vm_compute|by apply dedup_encode_all_ok]. }
  cbv zeta. rewrite (bindM_run _ _ _ _ _ E2).
  destruct (dedup_update_spec w2 (dedup_file p) (Zlen out) out _ Hn (lf_contents _ _ _ _ _ _ HL2)) as (w3 & E3 & O3 & S3).
  assert (w_append w3 = w_append w2) as A3 by (rewrite O3; done). apply log_file_seg in HL2 as (HS2 & _ & _).
  eexists w3, _, _. split_and!; [exact E3|eapply (seg_file_same w2); [exact S3|by rewrite A3|exact HS2]| |].
  - unfold dedup_touch, dedup_only, files_only in *. rewrite O3, F2, O1. done.
  - eapply moved_trans; [exact M1|]. eapply moved_trans; [exact M2|]. apply moved_same; [apply HS2|done|done].
Qed.

(** ** The segment *)
Abbreviation segments := (gmap Z (SegmentHeader * list DataBlob)).

Lemma segment_paths p n m : layout_ok p -> u64_ok n -> u64_ok m -> data_segment_path p n = data_segment_path p m -> n = m.
Proof. intros Hlo Hn Hm E. assert (SData n = SData m) as [= ->] by (by apply (lo_inj p Hlo)). done. Qed.
Lemma u32_u64 n : u32_ok n -> u64_ok n.
Proof. unfold u32_ok, u64_ok. lia. Qed.

(** A step on the files [ps] and what is cached of segment [n]. *)
Lemma others_kept ps w w' p (segs : segments) n :
  layout_ok p -> u64_ok n -> seg_states w p segs -> moved ps w w' ->
  (forall m, u64_ok m -> m <> n -> data_segment_path p m ∉ ps) ->
  (forall q, q <> data_segment_path p n -> w_data w' !! q = w_data w !! q /\ w_readers w' !! q = w_readers w !! q) ->
  seg_states w' p (delete n segs).
Proof.
  intros Hlo Hn HG HM Hp Hc m h bs [Hne Hs]%lookup_delete_Some. destruct (HG m h bs Hs) as [Hu HD]. split; [done|].
  assert (data_segment_path p m <> data_segment_path p n) as Hne'
    by (intros E; apply Hne; symmetry; eapply segment_paths; [done|by apply u32_u64|done|done]).
  destruct (Hc _ Hne') as [C1 C2]. eapply data_state_moved; [exact HD|exact HM|apply Hp; [by apply u32_u64|done]|done|done].
Qed.
Lemma cold_kept w w' p (segs : segments) n :
  layout_ok p -> u64_ok n -> cold_outside w p segs -> uncached w' (data_segment_path p n) ->
  (forall q, q <> data_segment_path p n -> w_data w' !! q = w_data w !! q /\ w_readers w' !! q = w_readers w !! q) ->
  cold_outside w' p (delete n segs).
Proof.
  intros Hlo Hn Hcold [U1 U2] Hc m Hm Hx. destruct (decide (m = n)) as [->|Hne].
  - rewrite U1, U2 in Hx. by destruct Hx as [[? ?]|[? ?]].
  - rewrite lookup_delete_ne by done. apply Hcold; [done|]. destruct (Hc (data_segment_path p m)) as [<- <-]; [|done].
    intros E. apply Hne. eapply segment_paths; eauto.
Qed.

Lemma source_path_spec w p n h bs :
  data_state w (data_segment_path p n) h bs -> quiet (reclaim_segment_path p n) w (data_segment_path p n).
Proof.
  intros HD. pose proof (sf_contents _ _ _ _ (ds_file _ _ _ _ HD)) as Hc. unfold reclaim_segment_path.
  eapply (quiet_then _ _ w); [apply still_refl|by eapply quiet_exists|]. intros w1 S1.
  unfold path_exists. eapply (quiet_then _ _ w _ (bool_decide (is_Some (file_at (w_fs w1) (data_file p))))); [done| |].
  - exists w1. rewrite io_run. cbn. split_and!; [by destruct w1|by destruct w1|done].
  - intros w2 S2. rewrite andb_false_r. apply quiet_ret.
Qed.
Lemma sync_dir_spec w dir : no_faults -> quiet (sync_directory dir) w tt.
Proof.
  intros Hn. unfold sync_directory. eapply (quiet_then _ _ w); [apply still_refl|by apply quiet_sync|]. intros w1 S1. by apply quiet_sync.
Qed.

(** Only segment [n] and what is cached of segments changed. *)
Lemma torn_data ps w w' p s ds cs n segs :
  torn w p s ds cs -> moved ps w w' -> (forall t, slot_ok t -> t <> SData n -> slot_path p t ∉ ps) ->
  w_checkpoint w' = w_checkpoint w -> w_blk w' = w_blk w -> w_lookup w' = w_lookup w -> w_dedup w' = w_dedup w ->
  seg_states w' p segs -> cold_outside w' p segs -> torn w' p (s <| st_segs := segs |>) ds cs.
Proof.
  intros HT HM Ha E1 E2 E3 E4 HG HC.
  apply (torn_move ps w _ p s _ ds); [done|done|left..|by apply (Ha SReclaim)|by right]; split_and!; try done;
    [by apply (Ha SMeta)|by apply (Ha SBlk)|by apply (Ha SLookup)|by apply (Ha SIndex)|by apply (Ha SDedup)].
Qed.

(** The file of a dead segment is removed. *)
Lemma drop_segment_torn w p s ds cs n h bs :
  no_faults -> layout_ok p -> torn w p s ds cs -> idle w p -> st_segs s !! n = Some (h, bs) ->
  exists w1 w2 w', reclaim_segment_path p n w = (Ok (data_segment_path p n), w1) /\
    path_exists (data_segment_path p n) w1 = (Ok true, w2) /\
    (invalidate_data_segment_cache (data_segment_path p n) ;;! io (fs_remove (data_segment_path p n)) ;;! sync_directory (root p)) w2 =
      (Ok tt, w') /\
    torn w' p (s <| st_segs := delete n (st_segs s) |>) ds cs /\ idle w' p.
Proof.
  intros Hn Hlo HT HI Hs. destruct (tn_segs _ _ _ _ _ HT _ _ _ Hs) as [Hu HD]. apply u32_u64 in Hu.
  destruct (source_path_spec w p n h bs HD) as (w1 & E1 & F1 & S1). pose proof (still_data _ _ _ _ _ (conj F1 S1) HD) as HD1.
  pose proof (sf_contents _ _ _ _ (ds_file _ _ _ _ HD1)) as Hc1.
  destruct (quiet_exists w1 _ _ Hc1) as (w2 & E2 & F2 & S2). exists w1, w2.
  pose proof (torn_still _ _ _ _ _ _ (torn_still _ _ _ _ _ _ HT (conj F1 S1)) (conj F2 S2)) as HT2.
  pose proof (still_data _ _ _ _ _ (conj F2 S2) HD1) as HD2. pose proof (sf_contents _ _ _ _ (ds_file _ _ _ _ HD2)) as Hc2.
  apply contents_names in Hc2 as (i & nd & Hi & _).
  destruct (drop_one_spec w2 _ i Hn (torn_wf _ _ _ _ _ HT2) Hi) as (w3 & E3 & F3 & N3 & M3 & D3 & R3).
  destruct (sync_dir_spec w3 (root p) Hn) as (w4 & E4 & F4 & S4). exists w4. split_and!; [done|done| | |].
  - apply bindM_Ok in E3 as ([] & wa & Ea & Eb). by rewrite (bindM_run _ _ _ _ _ Ea), (bindM_run _ _ _ _ _ Eb).
  - apply (torn_still w3); [|done]. unfold data_drop in F3.
    assert (forall t, slot_ok t -> t <> SData n -> slot_path p t ∉ [data_segment_path p n]) as Ha.
    { intros t Ht Hne Hin%list_elem_of_singleton. apply Hne. by apply (lo_inj p Hlo). }
    assert (forall q, q <> data_segment_path p n -> w_data w3 !! q = w_data w2 !! q /\ w_readers w3 !! q = w_readers w2 !! q) as Hq
      by (intros q Hq; by rewrite D3, R3, !lookup_delete_ne).
    apply (torn_data [data_segment_path p n] w2 _ p s _ _ n); [done|done|done|by rewrite F3..| |].
    + eapply others_kept; [done|done|apply HT2|exact M3| |exact Hq]. intros m Hm Hne. apply (Ha (SData m)); [done|congruence].
    + eapply cold_kept; [done|done|apply HT2|by split; rewrite ?D3, ?R3; apply lookup_delete_eq|exact Hq].
  - intros m Hm. rewrite F4, F3, F2, F1. by apply HI.
Qed.

(** *** The rewritten segment *)
Lemma stage_not_slot d t dir n : slot_ok t -> slot_path (paths_in d) t <> path_join dir ("data_" +:+ n +:+ ".reclaim-stage.seg").
Proof.
  intros Ht E. apply (f_equal bytes_of_string) in E. rewrite slot_path_bytes, path_join_bytes, !bytes_of_string_app in E by done.
  change (bytes_of_string ".reclaim-stage.seg") with (bytes_of_string ".reclaim-stage" ++ bytes_of_string ".seg") in E.
  destruct t as [| | | | | |m]; try (apply (f_equal last) in E; rewrite !app_assoc, !last_app in E; by vm_compute in E).
  cbn [slot_name] in E. rewrite !app_assoc in E. apply app_inv_tail in E. apply (f_equal last) in E. rewrite !last_app in E.
  change (last (bytes_of_string ".reclaim-stage")) with (Some 101) in E. cbn in Ht.
  destruct (last (pad6 m)) as [x|] eqn:El.
  - injection E as ->. apply last_Some_elem_of in El. pose proof (pad6_ok m ltac:(unfold u64_ok in Ht; lia)) as Hd.
    rewrite list.Forall_forall in Hd. specialize (Hd _ El). unfold is_digit in Hd. lia.
  - apply last_None in El. unfold pad6 in El. apply app_nil in El as [_ El]. pose proof (show_uint_nonempty m). done.
Qed.
Lemma tmp_not_slot d t path : slot_ok t -> slot_path (paths_in d) t <> with_extension_tmp path.
Proof.
  intros Ht E. apply (f_equal (last ∘ bytes_of_string)) in E. cbn in E. rewrite tmp_last, slot_path_bytes, last_app in E by done.
  destruct (slot_name_last t) as [H|H]; rewrite H in E; done.
Qed.
Lemma stage_tmp dir n : with_extension_tmp (path_join dir ("data_" +:+ n +:+ ".reclaim-stage.seg")) <> path_join dir ("data_" +:+ n +:+ ".reclaim-stage.seg").
Proof.
  intros E. apply (f_equal (last ∘ bytes_of_string)) in E. cbn in E. rewrite tmp_last, path_join_bytes, !bytes_of_string_app in E.
  rewrite !app_assoc, last_app in E. by vm_compute in E.
Qed.
Lemma stage_apart d t source n : slot_ok t -> slot_path (paths_in d) t ∉ path_files (reclaim_stage source n).
Proof.
  intros Ht. unfold path_files. rewrite !not_elem_of_cons. split_and!; [by apply tmp_not_slot|by apply stage_not_slot|apply not_elem_of_nil].
Qed.

Lemma kept_wf live bs : Forall wf_blob bs -> Forall wf_blob (kept live bs).
Proof.
  intros H. apply list.Forall_forall. intros b [_ Hb]%list_elem_of_filter. by apply (proj1 (list.Forall_forall _ _) H).
Qed.
Lemma kept_sorted live bs : StronglySorted Z.lt (map db_id bs) -> StronglySorted Z.lt (map db_id (kept live bs)).
Proof.
  unfold kept. induction bs as [|b bs IH]; cbn [map]; intros Hs; [done|]. inversion Hs as [|? ? Hs' Hf]; subst. rewrite filter_cons.
  case_decide; [|by apply IH]. cbn [map]. constructor; [by apply IH|]. rewrite Forall_map in Hf |- *.
  apply list.Forall_forall. intros x [_ Hx]%list_elem_of_filter. by apply (proj1 (list.Forall_forall _ _) Hf).
Qed.
Lemma kept_bytes live bs : Forall wf_blob bs -> bytes_ok (DATA_LOG_PREFIX ++ concat (map blob_encode (kept live bs))).
Proof.
  intros H. apply Forall_app. split; [by apply (bool_decide_unpack (Forall u8_ok _)); vm_compute|].
  apply Forall_concat, Forall_map. eapply Forall_impl; [by apply kept_wf|]. intros b. apply blob_encode_ok.
Qed.
Lemma kept_length live bs : (length (concat (map blob_encode (kept live bs))) <= length (concat (map blob_encode bs)))%nat.
Proof.
  unfold kept. induction bs as [|b bs IH]; [done|]. rewrite filter_cons. case_decide; cbn [map concat]; rewrite !length_app; lia.
Qed.

(** What a segment has to satisfy to be rewritten. *)
Record copyable (h : SegmentHeader) (bs : list DataBlob) : Prop := {
  cb_payload : payload_len h <> 0;
  cb_checksum : checksum_true h (DATA_LOG_PREFIX ++ concat (map blob_encode bs));
  cb_total : logical_total bs <= U64_MAX;
  cb_sequence : sequence h < U64_MAX
}.
(** The live blobs in a new file beside the segment. *)
Lemma stage_spec w source h bs n live sq :
  let payload := DATA_LOG_PREFIX ++ concat (map blob_encode bs) in
  let out := DATA_LOG_PREFIX ++ concat (map blob_encode (kept live bs)) in let stage := reclaim_stage source n in
  no_faults -> seg_file w source h payload -> Forall wf_blob bs -> StronglySorted Z.lt (map db_id bs) ->
  checksum_true h payload -> logical_total bs <= U64_MAX -> (source ∉ path_files stage) -> u64_ok n -> u64_ok sq ->
  exists c w', write_segment_file_streaming stage Data n sq (write_live_blobs source h live no_maintenance_progress) w =
      (Ok (header_new Data n sq out, c), w') /\ (u64_ok (cy_first c) /\ 0 <= cy_live c) /\ files_only w w' /\
    moved (path_files stage) w w' /\ log_file w' Data stage n sq out.
Proof.
  intros payload out stage Hn HS Hwf Hso Hck Htot Hsrc Hu Hsq. pose proof (sf_len _ _ _ _ HS) as Hle.
  assert (Zlen out <= Zlen payload) as Hol.
  { unfold out, payload, Zlen. rewrite !length_app. pose proof (kept_length live bs). lia. }
  apply stream_spec; [done|apply HS|apply stage_tmp|done|done|by apply kept_bytes| |lia|].
  { intros E. apply (f_equal length) in E. unfold out in E. by rewrite length_app in E. }
  intros w1 i [[W1 Fr] _] HU. unfold path_files in Hsrc.
  assert (source <> with_extension_tmp stage) as Hne by set_solver.
  destruct (write_live_spec w w1 h bs (with_extension_tmp stage) i source live Hn Hne HS) as (f & r & o & w2 & E2 & W2 & O2); [|done..|].
  { rewrite Fr by set_solver. apply HS. }
  eexists _, w2. split; [exact E2|]. split; [|by split].
  change (u64_ok (cy_first (foldl (took live) copy_start bs)) /\ 0 <= cy_live (foldl (took live) copy_start bs)).
  apply took_range; [done|cbn; unfold u64_ok; lia|done].
Qed.
(** The staged file takes the name of the segment. *)
Lemma install_rename w stage source h payload :
  no_faults -> seg_file w stage h payload -> stage <> source -> w_append w !! source = None ->
  exists w', io (fs_rename stage source) w = (Ok tt, w') /\ w' = w <| w_fs := w_fs w' |> /\ moved [stage; source] w w' /\
    seg_file w' source h payload.
Proof.
  intros Hn HS Hne Ha. pose proof HS as [H1 H2 H3 H4 H5 H6 H7]. rewrite io_run.
  destruct (fs_rename_spec (w_fs w) stage source H1 Hne) as (W & Cq & Cs & _ & K).
  assert (forall q, q ∉ [stage; source] -> fs_names (snd (fs_rename stage source (w_fs w))) !! q = fs_names (w_fs w) !! q) as HN
    by (intros q Hq; apply names_kept_rename; set_solver).
  pose proof H2 as (i & nd & Hi & _)%contents_names. specialize (K Hn ltac:(eauto)).
  destruct (fs_rename stage source (w_fs w)) as [r fs1]. cbn [fst snd] in *. subst r. cbn [map_err].
  eexists. split; [reflexivity|]. split; [done|]. split.
  - split; [split; [done|]; intros q Hq; apply Cq; set_solver|]. intros q Hq. split; [by apply HN|done].
  - split; try done; [change (contents fs1 source = Some (segment_bytes h payload)); by rewrite Cs|]. cbn. by rewrite Ha.
Qed.

(** What the rewrite makes of a descriptor. *)
Definition good_update (f : SegmentDescriptor -> SegmentDescriptor) : Prop :=
  forall x, wf_descriptor x -> wf_descriptor (f x) /\ segment_seq (f x) = segment_seq x /\
    is_active_segment (f x) = is_active_segment x /\ last_blob_id x <= last_blob_id (f x).

Lemma install_torn w d s ds cs ca bs index c sq :
  let p := paths_in d in let n := segment_seq (ca_descriptor ca) in let source := data_segment_path p n in
  let blobs := kept (ca_live_blob_ids ca) bs in let payload := DATA_LOG_PREFIX ++ concat (map blob_encode blobs) in
  let h' := header_new Data n sq payload in
  no_faults -> torn w p s ds cs -> idle w p -> u32_ok n -> Forall wf_blob bs -> StronglySorted Z.lt (map db_id bs) ->
  log_file w Data (reclaim_stage source n) n sq payload -> u64_ok (cy_first c) -> 0 <= cy_live c -> u64_ok (ca_last_blob_id ca) ->
  n ∈ (segment_seq <$> descriptors index) ->
  exists ds' f w', install_segment p ca index source (reclaim_stage source n) h' c w = (Ok (index <| descriptors := ds' |>), w') /\
    torn w' p (s <| st_segs := <[n := (h', blobs)]> (st_segs s) |>) ds cs /\ idle w' p /\
    update_first (has_seq n) f (descriptors index) = Some ds' /\ good_update f.
Proof.
  intros p n source blobs payload h' Hn HT HI Hu32 Hwf Hso HL Hcf Hcl Hla Hin. pose proof (u32_u64 _ Hu32) as Hu.
  pose proof (layout_paths_ok d) as Hlo. fold p in Hlo. set (stage := reclaim_stage source n) in *.
  assert (forall t, slot_ok t -> slot_path p t ∉ path_files stage) as Hst by (intros t Ht; by apply stage_apart).
  assert (stage <> source) as Hne. { pose proof (Hst (SData n) Hu) as H. unfold path_files in H. cbn [slot_path] in H. fold source in H. set_solver. }
  apply log_file_seg in HL as (HS & _ & _). fold h' in HS.
  destruct (install_rename w stage source h' payload Hn HS Hne (HI n Hu)) as (w1 & E1 & F1 & M1 & HS1).
  unfold install_segment. rewrite (bindM_run _ _ _ _ _ E1).
  destruct (sync_dir_spec w1 (root p) Hn) as (w2 & E2 & F2 & S2). rewrite (bindM_run _ _ _ _ _ E2).
  unfold invalidate_data_segment_cache, invalidate_data_reader, invalidate_segment_index_cache, modifyM, bindM at 1 2 3, retM at 1. cbv zeta.
  fold n. set (f := fun d0 : SegmentDescriptor => _). destruct (update_first_seq n f (descriptors index) Hin) as [ds' Eu].
  set (w3 := _ <| w_index := _ |>). rewrite (bindM_run (liftM _) _ w3 ds' w3) by (unfold liftM; by rewrite Eu).
  exists ds', f, w3. split_and!; [done| | |done|].
  - assert (moved [stage; source] w w3) as M3.
    { eapply moved_trans; [exact M1|]. apply moved_same; [apply HS1|done|cbn; by rewrite F2]. }
    assert (forall q, q <> source -> w_data w3 !! q = w_data w !! q /\ w_readers w3 !! q = w_readers w !! q) as Hq.
    { intros q Hq. cbn. rewrite !lookup_delete_ne by done. by rewrite F2, F1. }
    assert (uncached w3 source) as Hun by (split; apply lookup_delete_eq).
    assert (forall t, slot_ok t -> t <> SData n -> slot_path p t ∉ [stage; source]) as Ha.
    { intros t Ht Hd. pose proof (Hst t Ht) as H. unfold path_files in H. rewrite !not_elem_of_cons. split_and!; [set_solver| |apply not_elem_of_nil].
      intros E. apply Hd. by apply (lo_inj p Hlo). }
    apply (torn_data [stage; source] w _ p s _ _ n); [done|done|done|by cbn; rewrite F2, F1..| |].
    + rewrite <- insert_delete_eq. intros m h0 bs0 [[<- [= <- <-]]|[Hm Hs0]]%lookup_insert_Some; cycle 1.
      { eapply (others_kept [stage; source] w w3 p (st_segs s) n); [done|done|apply HT|exact M3| |exact Hq|exact Hs0].
        intros m' Hm' Hne'. apply (Ha (SData m')); [done|congruence]. }
      split; [done|]. destruct Hun as [U1 U2]. fold source. split.
      * assert (payload_len h' <> 0) as Hp by (cbn [payload_len h' header_new]; unfold payload, Zlen; rewrite length_app; cbn; lia).
        rewrite seg_payload_full by done. apply (seg_file_same w1); [done|cbn; by rewrite F2|done].
      * done.
      * by apply kept_wf.
      * by apply kept_sorted.
      * rewrite U1. done.
      * rewrite U2. done.
    + intros m Hm Hc. destruct (decide (n = m)) as [<-|Hnm]; [rewrite lookup_insert_eq; eauto|]. rewrite lookup_insert_ne by done.
      rewrite <- (lookup_delete_ne (st_segs s) n m) by done. by apply (cold_kept w w3 p (st_segs s) n Hlo Hu (tn_cold _ _ _ _ _ HT) Hun Hq).
  - intros m Hm. cbn. rewrite F2, F1. by apply HI.
  - intros x (X1 & X2 & X3 & X4 & X5). unfold f, wf_descriptor. cbn -[payload_len]. split_and!; try done; try lia.
    + pose proof (sf_len _ _ _ _ HS1) as Hl. rewrite (sf_plen _ _ _ _ HS1). unfold u64_ok, Zlen in *. lia.
    + unfold u64_ok in *. lia.
    + unfold u32_try_from. case_decide; cbn [default from_option id]; unfold u32_ok in *; lia.
Qed.
Lemma rewrite_torn w d s ds cs ca h bs index :
  let p := paths_in d in let n := segment_seq (ca_descriptor ca) in
  no_faults -> torn w p s ds cs -> idle w p -> st_segs s !! n = Some (h, bs) -> copyable h bs ->
  sequence h = ca_source_sequence ca -> 96 + payload_len h = ca_source_file_len ca -> u64_ok (ca_last_blob_id ca) ->
  n ∈ (segment_seq <$> descriptors index) ->
  exists h' ds' f w', rewrite_segment_in_place p ca index no_maintenance_progress w = (Ok (index <| descriptors := ds' |>), w') /\
    torn w' p (s <| st_segs := <[n := (h', kept (ca_live_blob_ids ca) bs)]> (st_segs s) |>) ds cs /\ idle w' p /\
    update_first (has_seq n) f (descriptors index) = Some ds' /\ good_update f.
Proof.
  intros p n Hn HT HI Hs [Hp Hck Htot Hsq] Eq El Hla Hin. pose proof (layout_paths_ok d) as Hlo. fold p in Hlo.
  destruct (tn_segs _ _ _ _ _ HT _ _ _ Hs) as [Hu32 HD]. pose proof (u32_u64 _ Hu32) as Hu. set (live := ca_live_blob_ids ca).
  unfold rewrite_segment_in_place. fold n. cbv zeta. set (source := data_segment_path p n) in *.
  destruct (source_path_spec w p n h bs HD) as (w1 & E1 & F1 & S1). fold source in E1. rewrite (bindM_run _ _ _ _ _ E1).
  pose proof (still_data _ _ _ _ _ (conj F1 S1) HD) as HD1. pose proof (ds_file _ _ _ _ HD1) as HS1. rewrite seg_payload_full in HS1 by done.
  destruct (read_header_ok w1 source h _ Hn HS1) as (w2 & E2 & F2 & S2). rewrite (ds_kind _ _ _ _ HD) in E2.
  rewrite (bindM_run _ _ _ _ _ E2). pose proof (still_seg _ _ _ _ _ (conj F2 S2) HS1) as HS2.
  rewrite decide_False by (intros H; by apply H).
  destruct (quiet_metadata w2 source _ Hn (sf_contents _ _ _ _ HS2)) as (tm & w3 & E3 & F3 & S3).
  pose proof (still_seg _ _ _ _ _ (conj F3 S3) HS2) as HS3. pose proof (sf_plen _ _ _ _ HS3) as Hpl. pose proof (sf_len _ _ _ _ HS3) as Hle.
  set (payload := DATA_LOG_PREFIX ++ concat (map blob_encode bs)) in *.
  rewrite (bindM_run _ _ w2 false w3); cycle 1.
  { rewrite (bindM_run _ _ _ _ _ E3). unfold retM. rewrite bool_decide_eq_true_2; [done|].
    unfold Zlen in *. rewrite length_segment_bytes. lia. }
  cbv iota. pose proof (sf_header _ _ _ _ HS3) as [Hwh _].
  assert (u64_ok (sequence h + 1)) as Hsq1 by (unfold wf_header, u64_ok in *; lia).
  rewrite (bindM_run (liftM _) _ w3 (sequence h + 1) w3) by (unfold liftM, checked_add64; unfold u64_ok in Hsq1; by rewrite decide_True by lia).
  assert (torn w3 p s ds cs) as HT3 by (do 3 (eapply torn_still; [|by split]); done).
  assert (idle w3 p) as HI3 by (intros m Hm; rewrite F3, F2, F1; by apply HI).
  destruct (stage_spec w3 source h bs n live (sequence h + 1) Hn HS3) as (c & w4 & E4 & [Hcf Hcl] & F4 & M4 & HL4);
    [apply HD..|done|done|by apply (stage_apart d (SData n))|done|done|].
  rewrite (bindM_run _ _ _ _ _ E4). unfold files_only in F4.
  assert (forall t, slot_ok t -> slot_path p t ∉ path_files (reclaim_stage source n)) as Hst by (intros t Ht; by apply stage_apart).
  assert (torn w4 p s ds cs) as HT4 by (apply (torn_step (path_files (reclaim_stage source n)) w3); [done|done|done|left; by rewrite F4..]).
  assert (idle w4 p) as HI4 by (eapply idle_moved; [exact HI3|exact M4|]; intros m Hm; by apply (Hst (SData m))).
  destruct (install_torn w4 d s ds cs ca bs index c (sequence h + 1) Hn HT4 HI4 Hu32) as (ds' & f & w5 & E5 & HT5 & HI5 & Eu & Hf);
    [apply HD..|exact HL4|done|done|done|done|].
  exists (header_new Data n (sequence h + 1) (DATA_LOG_PREFIX ++ concat (map blob_encode (kept live bs)))), ds', f, w5. by split_and!.
Qed.

(** ** Dropping the caches *)
Definition shed (w w' : World) : Prop :=
  w_fs w' = w_fs w /\ (forall q st, w_append w' !! q = Some st -> w_append w !! q = Some st).
Lemma seg_file_shed w w' path h payload : shed w w' -> seg_file w path h payload -> seg_file w' path h payload.
Proof. intros [F A] [H1 H2 H3 H4 H5 H6 H7]. split; rewrite ?F; try done. intros st Hst. apply H7. by apply A. Qed.
Lemma log_file_shed w w' k path id seq payload : shed w w' -> log_file w k path id seq payload -> log_file w' k path id seq payload.
Proof. intros Sh (HS & ? & ?)%log_file_seg. apply log_file_seg. by split_and!; [eapply seg_file_shed|..]. Qed.
Lemma data_state_shed w w' path h bs :
  shed w w' -> (forall e, w_data w' !! path = Some e -> w_data w !! path = Some e) ->
  (forall i, w_readers w' !! path = Some i -> w_readers w !! path = Some i) -> data_state w path h bs -> data_state w' path h bs.
Proof.
  intros Sh Hd Hr [H1 H2 H3 H4 H5 H6]. split; try done; [by eapply seg_file_shed|intros e He; auto|].
  intros i Hi. destruct Sh as [-> _]. auto.
Qed.

Lemma discard_files w p s h payload :
  cp_state w (metadata_file p) (st_checkpoint s) -> blk_state w (blk_map_file p) (st_blk_seq s) (st_blk s) ->
  lookup_state w (lookup_file p) (st_lookup_seq s) (st_lookup s) -> index_file w (segment_index_file p) (st_index s) ->
  seg_states w p (st_segs s) -> cold_outside w p (st_segs s) -> seg_file w (dedup_file p) h payload ->
  good_index (st_index s) (st_segs s) ->
  exists w', discard_layout_caches_checked p w = (Ok tt, w') /\ files_ok w' p s.
Proof.
  intros [C1 C2 C3] [B1 B2 B3' B4] [L1 L2 L3 L4] [I1 I2] HG HC HD HX.
  eexists. split; [reflexivity|]. set (w' := _ <| w_index := _ |>).
  assert (shed w w') as Sh by (split; [done|]; cbn; intros q st [? _]%map_lookup_filter_Some; done).
  assert (forall q e, w_data w' !! q = Some e -> w_data w !! q = Some e) as Hd by (cbn; intros q e [? _]%map_lookup_filter_Some; done).
  assert (forall q i, w_readers w' !! q = Some i -> w_readers w !! q = Some i) as Hr by (cbn; intros q i [? _]%map_lookup_filter_Some; done).
  split.
  - split; [by eapply log_file_shed|done|]. cbn. by rewrite lookup_delete_eq.
  - split; [by eapply log_file_shed|done|done|]. cbn. by rewrite lookup_delete_eq.
  - split; [by eapply log_file_shed|done|done|]. cbn. by rewrite lookup_delete_eq.
  - split; [apply HX|apply HX|]. exists (st_index s). split; [by split; [eapply log_file_shed|]|]. cbn. rewrite lookup_delete_eq. done.
  - split.
    + intros n h0 bs Hs. destruct (HG n h0 bs Hs) as [_ HS]. eapply data_state_shed; [exact Sh|apply Hd|apply Hr|exact HS].
    + apply HX.
    + by apply good_spent.
    + intros n Hn Hle. assert (st_segs s !! n = None) as Hz.
      { destruct (st_segs s !! n) eqn:E; [|done]. exfalso. assert (is_Some (st_segs s !! n)) as (d & -> & Hin)%(gi_dom _ _ HX)%list_elem_of_fmap by eauto.
        pose proof (sv_next _ (gi_inv _ _ HX) d Hin). lia. }
      destruct (cold_uncached w p (st_segs s) n HC Hn Hz) as [U1 U2]. split.
      * destruct (w_data w' !! _) eqn:E; [|done]. apply Hd in E. congruence.
      * destruct (w_readers w' !! _) eqn:E; [|done]. apply Hr in E. congruence.
  - exists h, payload. by eapply seg_file_shed.
Qed.

Lemma settle_files w w' p s ds cs h payload :
  layout_ok p -> torn w p s ds cs -> seg_file w' (dedup_file p) h payload -> dedup_touch w w' -> moved (slot_files p SDedup) w w' ->
  good_index (st_index s) (st_segs s) ->
  exists w2, discard_layout_caches_checked p w' = (Ok tt, w2) /\ files_ok w2 p s.
Proof.
  intros Hlo [T1 T2 T3 [T4 T4'] T5 T6 T7 T8] HD T HM HX. unfold dedup_touch in T. aparts p SDedup Hlo.
  apply (discard_files w' p s h payload); [..|done|done].
  - eapply cp_state_moved; [exact T1|exact HM|done|by rewrite T].
  - eapply blk_state_moved; [exact T2|exact HM|done|by rewrite T].
  - eapply lookup_state_moved; [exact T3|exact HM|done|by rewrite T].
  - split; [by eapply log_file_moved|done].
  - intros n h0 bs Hs. destruct (T5 n h0 bs Hs) as [Hu HS]. split; [done|].
    eapply data_state_moved; [exact HS|exact HM|eauto using u32_u64|by rewrite T|by rewrite T].
  - intros n. rewrite T. apply T6.
Qed.
Lemma flush_files w p s :
  no_faults -> layout_ok p -> files_ok w p s -> flags (st_checkpoint s) = Dirty ->
  exists w', flush_pending_writes p w = (Ok true, w') /\ files_ok w' p (s <| st_checkpoint := marked Clean (st_checkpoint s) |>).
Proof.
  intros Hn Hlo HF Hf. unfold flush_pending_writes.
  destruct (load_cp_files w p s Hn Hlo HF) as (w1 & E1 & HF1). rewrite (bindM_run _ _ _ _ _ E1).
  erewrite bindM_run by reflexivity. rewrite decide_False by (rewrite Hf; naive_solver).
  destruct (sync_layout_spec w1 p s Hn Hlo HF1) as (w2 & E2 & HF2 & _). rewrite (bindM_run _ _ _ _ _ E2).
  destruct (persist_cp_files w2 p s (marked Clean (st_checkpoint s)) Hn Hlo HF2) as (w3 & E3 & HF3 & _); [apply marked_wf, HF|].
  rewrite (bindM_run _ _ _ _ _ E3). eexists. split; [reflexivity|]. by apply files_pending.
Qed.

(** ** The tape *)

(** A segment the scan chose. *)
Record candidate_for (s : Store) (records : list BlkMapRecord) (ca : SegmentCandidate) (h : SegmentHeader) (bs : list DataBlob) : Prop := {
  cf_segment : st_segs s !! segment_seq (ca_descriptor ca) = Some (h, bs);
  cf_descriptor : ca_descriptor ca ∈ descriptors (st_index s);
  cf_live : ca_live_blob_ids ca = active_blob_ids_for_segment (st_index s) records (segment_seq (ca_descriptor ca));
  cf_sequence : sequence h = ca_source_sequence ca;
  cf_len : 96 + payload_len h = ca_source_file_len ca;
  cf_last : Forall (fun b => db_id b <= ca_last_blob_id ca) bs;
  cf_last_ok : u64_ok (ca_last_blob_id ca)
}.
(** What becomes of it: it goes if nothing in it is live and nothing is appended
    to it; otherwise its live blobs stay. *)
Definition reclaimed (ca : SegmentCandidate) (bs : list DataBlob) (segs segs' : segments) : Prop :=
  let n := segment_seq (ca_descriptor ca) in
  if decide (ca_live_blob_ids ca = ∅ /\ is_active_segment (ca_descriptor ca) = false) then segs' = delete n segs
  else exists h', segs' = <[n := (h', kept (ca_live_blob_ids ca) bs)]> segs.

Lemma live_elem index records n r :
  r ∈ records -> is_active r -> physical_segment_id r = n -> physical_offset r ∈ active_blob_ids_for_segment index records n.
Proof.
  intros Hr Ha <-. unfold active_blob_ids_for_segment. apply elem_of_list_to_set, list_elem_of_fmap_2, list_elem_of_filter. split; [|done].
  unfold names_segment. rewrite bool_decide_eq_true_2 by done. by destruct (is_active r).
Qed.
(** Every blob an active extent names is still there. *)
Lemma reclaimed_blobs s records ca h bs segs' i r b :
  candidate_for s records ca h bs -> tracks record_id records (extents s) -> reclaimed ca bs (st_segs s) segs' ->
  extents s !! i = Some r -> is_active r -> db_id b = physical_offset r ->
  blob_in (st_segs s) (physical_segment_id r) b <-> blob_in segs' (physical_segment_id r) b.
Proof.
  intros [K1 _ K3 _ _ _ _] Htr Hrec Hr Ha Hid. set (n := segment_seq (ca_descriptor ca)) in *.
  assert (r ∈ records) as Hin by (by eapply tracks_lookup; [exact Htr|apply replay_keyed|exact Hr]).
  pose proof (live_elem (st_index s) records n r Hin Ha) as Hlive. rewrite <- K3 in Hlive. unfold blob_in.
  unfold reclaimed in Hrec. fold n in Hrec. destruct (decide (n = physical_segment_id r)) as [En|Hne].
  - specialize (Hlive (eq_sym En)). case_decide as Hd; [destruct Hd as [Hd _]; rewrite Hd in Hlive; set_solver|].
    destruct Hrec as [h' ->]. rewrite <- En, K1, lookup_insert_eq. split.
    + intros (h0 & bs0 & [= <- <-] & Hb). eexists _, _. split; [reflexivity|]. apply list_elem_of_filter. by rewrite Hid.
    + intros (h0 & bs0 & [= <- <-] & [_ Hb]%list_elem_of_filter). eauto.
  - case_decide; [subst segs'; by rewrite lookup_delete_ne|]. destruct Hrec as [h' ->]. by rewrite lookup_insert_ne.
Qed.

(** A store with the pruned block map and the segments left. *)
Definition after (s s' : Store) (records : list BlkMapRecord) : Prop :=
  st_blk s' = pruned_records records /\
  forall i r b, extents s !! i = Some r -> is_active r -> db_id b = physical_offset r ->
    blob_in (st_segs s) (physical_segment_id r) b <-> blob_in (st_segs s') (physical_segment_id r) b.
Section After.
Context (s s' : Store) (records : list BlkMapRecord) (Htr : tracks record_id records (extents s)) (HA : after s s' records).

Lemma after_extent i r : extents s' !! i = Some r -> extents s !! i = Some r.
Proof.
  unfold extents. rewrite (proj1 HA). apply (pruned_lookup records _ (extents s)); [apply pruned_spec, Htr|done|apply replay_keyed].
Qed.
Lemma after_active i r : extents s !! i = Some r -> is_active r -> extents s' !! i = Some r.
Proof.
  unfold extents at 2. rewrite (proj1 HA). apply (pruned_lookup records _ (extents s)); [apply pruned_spec, Htr|done|apply replay_keyed].
Qed.
Lemma after_holds i r payload : extents s !! i = Some r -> is_active r -> extent_holds s r payload <-> extent_holds s' r payload.
Proof.
  intros Hr Ha. unfold extent_holds. split; intros (b & Hb & Hid & H); exists b; (split; [|split; [exact Hid|exact H]]);
    by apply (proj2 HA i r b Hr Ha Hid).
Qed.
Lemma after_sound : extents_sound s -> extents_sound s'.
Proof.
  intros [[M1 M2] He Hs]. split; [split|..].
  - intros i r Hr%after_extent. by eapply M1.
  - intros i j r1 r2 H1%after_extent H2%after_extent. by eapply M2.
  - intros i r Hr%after_extent. by eapply He.
  - intros i r Hr Ha. pose proof (after_extent _ _ Hr) as Hr'. destruct (Hs i r Hr' Ha) as (payload & Hp). exists payload. by apply (after_holds i).
Qed.
Lemma after_shows t : shows s t -> shows s' t.
Proof.
  intros Ht b e. rewrite (Ht b e). assert (forall x, holds s b x <-> holds s' b x) as Hh; [|by setoid_rewrite Hh].
  intros x. unfold holds. split; intros (r & py & Hat & Hp & ->); exists r, py; destruct (block_at_active _ _ _ Hat) as [Hr Ha].
  - split_and!; [|by apply (after_holds (record_id r))|done]. split; [by apply after_active|apply Hat].
  - pose proof (after_extent _ _ Hr) as Hr'. split_and!; [|by apply (after_holds (record_id r))|done]. split; [done|apply Hat].
Qed.
End After.

(** ** The commit *)
Lemma remove_torn w p s ds cs records ca h bs :
  let n := segment_seq (ca_descriptor ca) in
  no_faults -> layout_ok p -> torn w p s ds cs -> idle w p -> candidate_for s records ca h bs ->
  good_index (st_index s) (st_segs s) -> is_active_segment (ca_descriptor ca) = false ->
  exists index w', remove_segment p ca (st_index s) w = (Ok index, w') /\
    torn w' p (s <| st_index := index |> <| st_segs := delete n (st_segs s) |>) ds cs /\ idle w' p /\
    good_index index (delete n (st_segs s)) /\ spent index (st_segs s).
Proof.
  intros n Hn Hlo HT HI HK HX Hna. destruct HK as [K1 K2 K3 K4 K5 K6 K7]. fold n in K1. unfold remove_segment. fold n. cbv zeta.
  fold (raised (ca_last_blob_id ca) (descriptors (st_index s))). set (index := remove_segment_descriptor _ n).
  destruct (dropped_index (st_index s) (st_segs s) n (ca_last_blob_id ca) HX K7) as [HX' HS'].
  { intros x Hx Ex. rewrite <- Hna. f_equal. eapply (fmap_nodup_inj segment_seq (descriptors (st_index s))); [apply HX|done|done|done]. }
  { intros h0 bs0 b Hs Hb. rewrite K1 in Hs. injection Hs as <- <-. by apply (proj1 (list.Forall_forall _ _) K6). }
  fold index in HX', HS'.
  destruct (reindexed_torn w p s ds cs index Hn Hlo HT) as (w1 & E1 & HT1 & M1); [apply HX'|]. rewrite (bindM_run _ _ _ _ _ E1).
  pose proof (idle_slot SIndex w w1 p Hlo I ltac:(done) HI M1) as HI1.
  destruct (drop_segment_torn w1 p _ ds cs n h bs Hn Hlo HT1 HI1 K1) as (w2 & w3 & w4 & E2 & E3 & E4 & HT4 & HI4).
  rewrite (bindM_run _ _ _ _ _ E2), (bindM_run _ _ _ _ _ E3), (bindM_run _ _ _ _ _ E4). exists index, w4. by split_and!.
Qed.

(** Either way the segment's live blobs stay, and the index follows. *)
Lemma segment_torn w d s ds cs records ca h bs :
  let p := paths_in d in
  no_faults -> torn w p s ds cs -> idle w p -> candidate_for s records ca h bs -> good_index (st_index s) (st_segs s) -> copyable h bs ->
  exists index j segs w', (if bool_decide (ca_live_blob_ids ca = ∅) && negb (is_active_segment (ca_descriptor ca))
     then remove_segment p ca (st_index s) else rewrite_segment_in_place p ca (st_index s) no_maintenance_progress) w = (Ok index, w') /\
    torn w' p (s <| st_index := j |> <| st_segs := segs |>) ds cs /\
    good_index index segs /\ spent index (st_segs s) /\ reclaimed ca bs (st_segs s) segs.
Proof.
  intros p Hn HT HI HK HX Hc. pose proof (layout_paths_ok d) as Hlo. fold p in Hlo. unfold reclaimed.
  destruct (decide (ca_live_blob_ids ca = ∅ /\ is_active_segment (ca_descriptor ca) = false)) as [[Hl Hna]|Hno].
  - rewrite bool_decide_eq_true_2 by done. rewrite Hna. cbn [andb negb].
    destruct (remove_torn w p s ds cs records ca h bs Hn Hlo HT HI HK HX Hna) as (index & w1 & E1 & HT1 & _ & HX1 & HS1).
    exists index, index. eexists _, w1. by split_and!.
  - replace (bool_decide (ca_live_blob_ids ca = ∅) && negb (is_active_segment (ca_descriptor ca))) with false; cycle 1.
    { symmetry. apply andb_false_iff. case_bool_decide; [right|by left]. destruct (is_active_segment _); [done|naive_solver]. }
    pose proof HK as [K1 K2 K3 K4 K5 K6 K7]. set (n := segment_seq (ca_descriptor ca)) in *.
    destruct (rewrite_torn w d s ds cs ca h bs (st_index s) Hn HT HI K1 Hc K4 K5 K7) as (h' & ds' & f & w1 & E1 & HT1 & _ & Eu & Hf);
      [by apply list_elem_of_fmap_2|].
    destruct (rewritten_index (st_index s) (st_segs s) n f ds' h' h bs (kept (ca_live_blob_ids ca) bs) HX Eu Hf K1) as [HX1 HS1];
      [intros b [_ Hb]%list_elem_of_filter; done|].
    eexists _, (st_index s), _, w1. split_and!; [exact E1| |exact HX1|exact HS1|eauto]. by destruct s.
Qed.

(** A store reclaim can work on: its parts agree, and every reference of an
    extent to the deduplication index names an entry. *)
Record reclaimable (s : Store) (ds : list DedupIndexEntry) : Prop := {
  rc_budget : store_budget s;
  rc_sound : extents_sound s;
  rc_index : good_index (st_index s) (st_segs s);
  rc_dedup : forall i r, extents s !! i = Some r -> is_active r -> dedup_entry_id r <> 0 -> dedup_entry_id r ∈ (entry_id <$> ds)
}.
(** What is left: the same tape, in a clean store of fewer blobs. *)
Record reclaimed_to (w' : World) (p : LayoutPaths) (s s' : Store) (t : tape) (ca : SegmentCandidate) (bs : list DataBlob) : Prop := {
  rt_files : files_ok w' p s';
  rt_links : links s';
  rt_budget : store_budget s';
  rt_shows : shows s' t;
  rt_clean : flags (st_checkpoint s') = Clean;
  rt_segment : reclaimed ca bs (st_segs s) (st_segs s');
  rt_index : good_index (st_index s') (st_segs s');
  rt_spent : spent (st_index s') (st_segs s)
}.

Lemma high_water_good index segs records :
  good_index index segs -> Forall wf_blk records ->
  good_index (preserve_blob_id_high_water index records) segs /\ ids_bound index <= ids_bound (preserve_blob_id_high_water index records).
Proof.
  intros HX Hwf. unfold preserve_blob_id_high_water. set (hw := foldr _ _ _). fold (raised hw (descriptors index)).
  assert (u64_ok hw) as Hu.
  { apply max_range, Forall_app. split; apply Forall_fmap, list.Forall_forall.
    - intros x Hx. by destruct (proj1 (list.Forall_forall _ _) (wi_descriptors _ (gi_wf _ _ HX)) x Hx) as (_ & _ & _ & ? & _).
    - intros r Hr. by destruct (proj1 (list.Forall_forall _ _) Hwf r Hr) as (_ & _ & _ & _ & ? & _). }
  destruct (raised_good hw index segs Hu HX) as (H1 & _ & H3). done.
Qed.
Lemma rebuilt_links s out q : extents_sound s -> rebuilt_lookup (extents s) out -> links (s <| st_lookup_seq := q |> <| st_lookup := out |>).
Proof. intros [Hm He Hs] [R1 R2 R3 _]. by split. Qed.

Lemma commit_spec w d s ds cs records ca h bs t :
  let p := paths_in d in
  no_faults -> torn w p s ds cs -> idle w p -> reclaimable s ds -> tracks record_id records (extents s) ->
  candidate_for s records ca h bs -> copyable h bs -> shows s t ->
  exists w' s', commit_reclaim p (st_index s) records ca no_maintenance_progress w = (Ok tt, w') /\ reclaimed_to w' p s s' t ca bs.
Proof.
  intros p Hn HT HI [Hb Hx HX Hdd] Htr HK Hc Ht. pose proof (layout_paths_ok d) as Hlo. fold p in Hlo.
  pose proof (pruned_spec records (proj1 Htr)) as HP. unfold commit_reclaim.
  rewrite (bindM_run _ _ w tt w) by reflexivity.
  destruct (mark_dirty_torn w p s ds cs Hn Hlo HT) as (c & w1 & E1 & HT1 & Hf & M1). rewrite (bindM_run _ _ _ _ _ E1).
  pose proof (idle_slot SMeta w w1 p Hlo I ltac:(done) HI M1) as HI1.
  destruct (prune_torn w1 p (s <| st_checkpoint := c |>) ds cs records Hn Hlo HT1 Hb Htr) as (w2 & E2 & HT2 & M2). rewrite (bindM_run _ _ _ _ _ E2).
  pose proof (idle_slot SBlk w1 w2 p Hlo I ltac:(done) HI1 M2) as HI2. set (pruned := pruned_records records) in *. set (s2 := _ <| st_blk := pruned |>) in HT2.
  assert (candidate_for s2 records ca h bs) as HK2 by (destruct HK; by split).
  destruct (segment_torn w2 d s2 ds cs records ca h bs Hn HT2 HI2 HK2 HX Hc) as (index & j & segs & w3 & E3 & HT3 & HX3 & HS3 & HR3). fold p in E3, HT3.
  change (st_index s2) with (st_index s) in E3. rewrite (bindM_run _ _ _ _ _ E3). cbv zeta.
  destruct (high_water_good index segs pruned HX3) as [HX4 Hle]; [exact (bs_wf _ _ _ _ (tn_blk _ _ _ _ _ HT3))|].
  set (index' := preserve_blob_id_high_water index pruned) in *.
  destruct (reindexed_torn w3 p _ ds cs index' Hn Hlo HT3) as (w4 & E4 & HT4 & _); [apply HX4|]. rewrite (bindM_run _ _ _ _ _ E4).
  set (s4 := _ <| st_index := index' |>) in HT4.
  assert (after s s4 records) as HA by (split; [done|]; intros i r b Hr Ha Hid; by eapply reclaimed_blobs).
  pose proof (after_sound s s4 records Htr HA Hx) as Hx4.
  assert (Zlen pruned <= MAX_MAINTENANCE_METADATA_RECORDS) as Hpl.
  { pose proof (pd_count _ _ HP) as Hpc. fold pruned in Hpc. destruct Hb as [Hb _]. enough (Zlen records <= Zlen (st_blk s)) by lia.
    unfold Zlen. apply inj_le, submseteq_length, NoDup_submseteq; [by eapply tracks_nodup|]. intros r Hr. by apply (proj2 Htr), replay_in in Hr. }
  assert (store_budget s4) as Hb4 by (split; [exact Hpl|apply Hb]).
  destruct (relookup_torn w4 p s4 ds cs Hn Hlo HT4 Hb4 Hx4) as (n5 & out & w5 & E5 & HR5 & HT5). rewrite (bindM_run _ _ _ _ _ E5).
  set (s5 := _ <| st_lookup := out |>) in HT5.
  destruct (recount_torn w5 p s5 ds cs pruned Hn Hlo HT5 Hpl) as (w6 & dh & dp & E6 & HD6 & T6 & M6).
  { intros r Hr Ha Hd. apply (Hdd (record_id r) r); [|done|done]. by apply (proj2 Htr), (pd_old _ _ HP). }
  rewrite (bindM_run _ _ _ _ _ E6).
  destruct (settle_files w5 w6 p s5 ds cs dh dp Hlo HT5 HD6 T6 M6 HX4) as (w7 & E7 & HF7). rewrite (bindM_run _ _ _ _ _ E7).
  destruct (flush_files w7 p s5 Hn Hlo HF7 Hf) as (w8 & E8 & HF8). rewrite (bindM_run _ _ _ _ _ E8).
  eexists w8, _. split; [reflexivity|]. split; [exact HF8| | | |done|exact HR3|exact HX4|].
  - apply links_cp. by apply rebuilt_links.
  - split; [exact Hpl|apply HR5].
  - exact (after_shows s s4 records Htr HA t Ht).
  - intros m h0 bs0 b Hm Hbin. etrans; [by eapply HS3|exact Hle].
Qed.
End Laws.
