(* ===== verification/ChoiceLaws.v ===== *)
(** * The segment offline reclaim chooses

    One round over the segments finds a candidate if and only if a segment is
    worth reclaiming, and what it says of the candidate is true. *)

From S2P Require Import Prelude Bytes Text Errors Fs Layout TapeState SpaceGuard Compression Records.
From S2P Require Import World Crc Segment Footprint Checkpoint Logs BlkMap MapLookup Dedup Reclaim.
From S2P Require Import RuntimeState SegmentIndex Slots IndexState DataBlobs BlobStore DataPath Store BlockStore.
From S2P Require Import Recovery ScanLaws SideLaws RebuildLaws RecoveryLaws System Bootstrap OfflineScan OfflineReclaim.
From S2P Require Import CopyLaws PruneLaws ReclaimLaws.

Abbreviation segments := (gmap Z (SegmentHeader * list DataBlob)).

(** ** What a full scan of a segment says *)
Definition stored_bytes (bs : list DataBlob) : Z := Zlen (concat (map blob_encode bs)).
Definition last_id (bs : list DataBlob) (default : Z) : Z := match last bs with Some b => db_id b | None => default end.

Definition segment_summary (segs : segments) (index : SegmentIndex_) (records : list BlkMapRecord) (d : SegmentDescriptor)
  : option MaintenanceCandidateSummary :=
  match segs !! segment_seq d with
  | Some (h, bs) =>
      let live := stored_bytes (kept (active_blob_ids_for_segment index records (segment_seq d)) bs) in
      if negb (bool_decide (payload_bytes d = 0)) && worth_reclaiming (stored_bytes bs) live
      then Some (mkSummary (segment_seq d) (stored_bytes bs) live (last_id bs 0) (sequence h) (96 + payload_len h))
      else None
  | None => None
  end.
(** The better of two candidates. *)
Definition better (best : option MaintenanceCandidateSummary) (s : option MaintenanceCandidateSummary)
  : option MaintenanceCandidateSummary :=
  match s with
  | None => best
  | Some x => if match best with None => true | Some b => candidate_summary_precedes x b end then Some x else best
  end.

Lemma stored_cons b bs : stored_bytes (b :: bs) = Zlen (blob_encode b) + stored_bytes bs.
Proof. unfold stored_bytes, Zlen. cbn [map concat]. rewrite length_app. lia. Qed.
Lemma stored_nonneg bs : 0 <= stored_bytes bs.
Proof. unfold stored_bytes, Zlen. lia. Qed.
Lemma kept_stored live bs : stored_bytes (kept live bs) <= stored_bytes bs.
Proof. unfold stored_bytes, Zlen. pose proof (kept_length live bs). lia. Qed.

Section Laws.
Context `{HOST : Host} `{ENV : Environ} `{CL : Crc32cLaws} `{HOL : HashOrderLaws} `{BC : BlockCodecs}
  `{B3 : Blake3} `{SHA : Sha256} `{FS : FileStat} `{CJ : CursorJson}.

Lemma tally_spec live bs : forall off src lv lst,
  Forall wf_blob bs -> StronglySorted Z.lt (map db_id bs) -> Forall (fun b => 0 < lst -> lst < db_id b) bs ->
  0 <= lv <= src -> src + stored_bytes bs <= U64_MAX ->
  tally live (metas off bs) src lv lst = Ok (src + stored_bytes bs, lv + stored_bytes (kept live bs), last_id bs lst).
Proof.
  induction bs as [|b bs IH]; intros off src lv lst Hwf Hso Hl H0 Hm; cbn [metas tally].
  { unfold last_id, stored_bytes, Zlen. cbn. by rewrite !Z.add_0_r. }
  apply Forall_cons in Hwf as [Hb Hwf]. apply Forall_cons in Hl as [Hlb Hl]. cbn [map] in Hso. inversion Hso as [|? ? Hso' Hlt]; subst.
  pose proof Hb as (_ & _ & Hu & Hs & _). unfold u32_ok in Hu.
  assert (Zlen (blob_encode b) = 24 + db_stored_len b) as Eb by (rewrite Hs; unfold Zlen; rewrite length_blob_encode; lia).
  rewrite stored_cons in Hm |- *. pose proof (stored_nonneg bs) as Hn.
  cbn [blob_id meta_at blob_stored_len]. rewrite decide_False by lia. unfold checked_add64.
  rewrite decide_True by lia. cbn [ok_or rbind]. rewrite decide_True by lia. cbn [ok_or rbind].
  assert (Forall (fun x => 0 < db_id b -> db_id b < db_id x) bs) as Hl'.
  { rewrite Forall_map in Hlt. eapply Forall_impl; [exact Hlt|]. done. }
  assert (last_id (b :: bs) lst = last_id bs (db_id b)) as El by (unfold last_id; by rewrite last_cons; destruct (last bs)).
  unfold kept. rewrite filter_cons. fold (kept live bs). destruct (decide (db_id b ∈ live)).
  - rewrite decide_True by lia. cbn [ok_or rbind]. rewrite IH; [|done..|lia|lia]. rewrite stored_cons, El. do 3 f_equal; lia.
  - cbn [rbind]. rewrite IH; [|done..|lia|lia]. rewrite El. do 3 f_equal; lia.
Qed.

Lemma quiet_pure {A B} (r : Result StorageError A) a (k : A -> M World StorageError B) w b :
  r = Ok a -> quiet (k a) w b -> quiet (bindM (liftM r) k) w b.
Proof. intros -> Q. exact Q. Qed.
(** A quiet step, then a quiet rest. *)
Lemma quiet_same {A B} w w' (m : M World StorageError A) (k : A -> M World StorageError B) a b :
  quiet (k a) w' b -> m w = (Ok a, w') -> w' = w <| w_fs := w_fs w' |> -> same_files (w_fs w) (w_fs w') -> quiet (bindM m k) w b.
Proof.
  intros (w2 & E2 & F2 & S2) E F S. exists w2. rewrite (bindM_run _ _ _ _ _ E). split_and!; [done|rewrite F2, F; done|by eapply same_files_trans].
Qed.

(** ** One round *)
(** The cursor stands in front of a descriptor. *)
Definition at_start (c : MaintenanceScanCursor) : Prop :=
  in_segment c = false /\ segment_headers_scanned c = 0 /\ segment_source_bytes c = 0 /\ segment_live_bytes c = 0 /\
  segment_last_blob_id c = 0.

Lemma offer_spec s c :
  let c' := next_descriptor (offer_candidate s c) in
  at_start c' /\ descriptor_ordinal c' = descriptor_ordinal c + 1 /\ best_candidate c' = better (best_candidate c) (Some s).
Proof.
  unfold offer_candidate, better. cbv zeta. change (best_candidate (c <| eligible_candidate_count := _ |>)) with (best_candidate c).
  destruct (match best_candidate c with Some b => _ | None => _ end); by split_and!.
Qed.

Lemma scan_descriptor_spec w p segs index records d room c h bs :
  no_faults -> seg_states w p segs -> segs !! segment_seq d = Some (h, bs) -> payload_bytes d <> 0 -> at_start c -> Zlen bs <= room ->
  exists c', quiet (scan_descriptor p index records no_maintenance_progress d room c) w (Some (c', Zlen bs)) /\ at_start c' /\
    descriptor_ordinal c' = descriptor_ordinal c + 1 /\ best_candidate c' = better (best_candidate c) (segment_summary segs index records d).
Proof.
  intros Hn HG Hs Hp (A1 & A2 & A3 & A4 & A5) Hr. destruct (HG _ _ _ Hs) as [_ HD].
  pose proof (ds_file _ _ _ _ HD) as HS. pose proof (sf_contents _ _ _ _ HS) as Hc. pose proof (sf_len _ _ _ _ HS) as Hl.
  set (live := active_blob_ids_for_segment index records (segment_seq d)).
  assert (stored_bytes bs <= Zlen (seg_payload h bs)) as Hst.
  { unfold seg_payload. case_decide as Hz; [destruct Hz as [-> _]; done|]. unfold stored_bytes, Zlen. rewrite length_app. lia. }
  assert (tally live (metas 100 bs) 0 0 0 = Ok (stored_bytes bs, stored_bytes (kept live bs), last_id bs 0)) as Et.
  { rewrite (tally_spec live bs 100 0 0 0); [by rewrite !Z.add_0_l|apply HD|apply HD| |lia|lia]. apply list.Forall_forall. intros. lia. }
  assert (segment_summary segs index records d = if worth_reclaiming (stored_bytes bs) (stored_bytes (kept live bs))
    then Some (mkSummary (segment_seq d) (stored_bytes bs) (stored_bytes (kept live bs)) (last_id bs 0) (sequence h) (96 + payload_len h)) else None) as Es.
  { unfold segment_summary. rewrite Hs. by rewrite bool_decide_eq_false_2. }
  assert (exists c', at_start c' /\ descriptor_ordinal c' = descriptor_ordinal c + 1 /\
    best_candidate c' = better (best_candidate c) (segment_summary segs index records d) /\
    forall w', still w w' -> quiet (let! c :=
        (if worth_reclaiming (stored_bytes bs) (stored_bytes (kept live bs)) then
           let! (len, _) := io (fs_metadata (data_segment_path p (segment_seq d))) in
           retM (offer_candidate (mkSummary (segment_seq d) (stored_bytes bs) (stored_bytes (kept live bs)) (last_id bs 0) (sequence h) len) c)
         else retM c) in
      retM (Some (next_descriptor c, Zlen bs))) w' (Some (c', Zlen bs))) as (c' & P1 & P2 & P3 & P4).
  { rewrite Es. destruct (worth_reclaiming _ _); cycle 1.
    { exists (next_descriptor c). split_and!; [done..|]. intros w' _. apply quiet_ret. }
    eexists. destruct (offer_spec (mkSummary (segment_seq d) (stored_bytes bs) (stored_bytes (kept live bs)) (last_id bs 0) (sequence h) (96 + payload_len h)) c)
      as (Q1 & Q2 & Q3). split; [exact Q1|]. split; [exact Q2|]. split; [exact Q3|]. intros w' S.
    eapply (quiet_then _ _ w'); [apply still_refl| |intros; apply quiet_ret].
    destruct (quiet_metadata w' _ _ Hn (eq_trans (still_contents w w' _ S) Hc)) as (tm & Q).
    eapply (quiet_then _ _ w'); [apply still_refl|exact Q|]. intros w2 _.
    replace (Zlen (segment_bytes h (seg_payload h bs))) with (96 + payload_len h); [apply quiet_ret|].
    rewrite (sf_plen _ _ _ _ HS). unfold Zlen. rewrite length_segment_bytes. lia. }
  exists c'. split_and!; [|done..]. unfold scan_descriptor. rewrite A1, A2, A3, A4, A5. cbv zeta. fold live.
  eapply (quiet_then _ _ w); [apply still_refl|by eapply source_path_spec|]. intros w1 S1.
  eapply (quiet_then _ _ w); [done|eapply (scan_segment_spec w1 _ h bs room Hn); [by eapply still_data|done]|]. intros w2 S2.
  eapply (quiet_then _ _ w _ true); [done|apply quiet_ret|]. intros w3 S3. cbn [negb sc_blobs sc_complete sc_header sc_headers_scanned].
  eapply (quiet_then _ _ w); [done|apply quiet_lift; exact Et|]. intros w4 S4. by apply P4.
Qed.

Definition blobs_of (segs : segments) (d : SegmentDescriptor) : list DataBlob :=
  match segs !! segment_seq d with Some (_, bs) => bs | None => [] end.
Definition headers_in (segs : segments) (ds : list SegmentDescriptor) : Z := foldr Z.add 0 ((fun d => Zlen (blobs_of segs d)) <$> ds).
Lemma headers_nonneg segs ds : 0 <= headers_in segs ds.
Proof. unfold headers_in. induction ds as [|d ds IH]; cbn; [done|]. unfold Zlen at 1. lia. Qed.
Lemma headers_total ds : forall segs : segments, NoDup (segment_seq <$> ds) -> headers_in segs ds <= blob_total segs.
Proof.
  induction ds as [|d ds IH]; intros segs Hnd; [apply blob_total_nonneg|]. cbn [fmap list_fmap] in Hnd. apply NoDup_cons in Hnd as [Hx Hnd].
  change (headers_in segs (d :: ds)) with (Zlen (blobs_of segs d) + headers_in segs ds). unfold blobs_of.
  destruct (segs !! segment_seq d) as [[h bs]|] eqn:E; [|by apply IH].
  rewrite (blob_total_delete segs _ h bs E). specialize (IH (delete (segment_seq d) segs) Hnd).
  enough (headers_in (delete (segment_seq d) segs) ds = headers_in segs ds) by lia.
  unfold headers_in. f_equal. apply list_fmap_ext. intros i x Hi. unfold blobs_of. rewrite lookup_delete_ne; [done|].
  intros Ex. apply Hx. rewrite Ex. apply list_elem_of_fmap_2. by eapply list_elem_of_lookup_2.
Qed.

Lemma scan_round_spec p segs index records : no_faults -> forall ds fuel headers c w,
  seg_states w p segs -> drop (Z.to_nat (descriptor_ordinal c)) (descriptors index) = ds -> 0 <= descriptor_ordinal c <= Zlen (descriptors index) ->
  (forall d, d ∈ ds -> is_Some (segs !! segment_seq d)) -> at_start c -> (length ds <= fuel)%nat -> 0 <= headers ->
  headers + headers_in segs ds < MAX_HEADERS_PER_ROUND ->
  exists c', quiet (scan_round fuel p index records no_maintenance_progress headers c) w (Some c') /\
    descriptor_ordinal c' = Zlen (descriptors index) /\
    best_candidate c' = foldl better (best_candidate c) (segment_summary segs index records <$> ds).
Proof.
  intros Hn. induction ds as [|d ds IH]; intros fuel headers c w HG Hd Ho Hs Hc Hf Hh Hm.
  { assert (descriptor_ordinal c = Zlen (descriptors index)) as Eo.
    { apply (f_equal length) in Hd. rewrite length_drop in Hd. cbn in Hd. unfold Zlen in *. lia. }
    exists c. split_and!; [|done|done]. destruct fuel; cbn [scan_round]; [apply quiet_ret|]. rewrite decide_False by lia. apply quiet_ret. }
  destruct fuel as [|fuel]; [cbn in Hf; lia|]. cbn [scan_round].
  assert (Z.to_nat (descriptor_ordinal c) < length (descriptors index))%nat as Hlt.
  { apply (f_equal length) in Hd. rewrite length_drop in Hd. cbn in Hd. lia. }
  assert (descriptors index !! Z.to_nat (descriptor_ordinal c) = Some d) as Hi.
  { rewrite <- (Nat.add_0_r (Z.to_nat _)), <- lookup_drop, Hd. done. }
  assert (forall c', descriptor_ordinal c' = descriptor_ordinal c + 1 -> drop (Z.to_nat (descriptor_ordinal c')) (descriptors index) = ds) as Hd'.
  { intros c' ->. replace (Z.to_nat (descriptor_ordinal c + 1)) with (S (Z.to_nat (descriptor_ordinal c))) by lia.
    pose proof (drop_S _ _ _ Hi) as E. rewrite Hd in E. by injection E. }
  change (headers_in segs (d :: ds)) with (Zlen (blobs_of segs d) + headers_in segs ds) in Hm. pose proof (headers_nonneg segs ds) as Hp0.
  assert (0 <= Zlen (blobs_of segs d)) as Hb0 by (unfold Zlen; lia).
  rewrite decide_True by (unfold Zlen in *; lia).
  assert (forall x, x ∈ ds -> is_Some (segs !! segment_seq x)) as Hs' by (intros x Hx; apply Hs; by right).
  assert (payload_bytes d <> 0 -> exists c1, quiet (scan_descriptor p index records no_maintenance_progress d (MAX_HEADERS_PER_ROUND - headers) c) w
      (Some (c1, Zlen (blobs_of segs d))) /\ at_start c1 /\ descriptor_ordinal c1 = descriptor_ordinal c + 1 /\
      best_candidate c1 = better (best_candidate c) (segment_summary segs index records d)) as Hscan.
  { intros Hz. destruct (Hs d ltac:(by left)) as [[h bs] Hseg]. unfold blobs_of in *. rewrite Hseg in *.
    apply (scan_descriptor_spec w p segs index records d _ c h bs Hn HG Hseg Hz Hc). lia. }
  destruct (decide (payload_bytes d = 0)) as [Hz|Hz].
  - destruct (IH fuel headers (skip_descriptor c) w HG) as (c' & Q & E1 & E2);
      [by apply Hd'|cbn; unfold Zlen in *; lia|done|by destruct Hc|cbn in Hf; lia|done|lia|].
    exists c'. split_and!; [|done|].
    + apply (quiet_pure _ d); [by rewrite Hi|]. by rewrite decide_True.
    + rewrite E2. cbn [fmap list_fmap foldl]. f_equal. unfold segment_summary. destruct (segs !! segment_seq d) as [[h bs]|]; [|done].
      by rewrite bool_decide_eq_true_2.
  - destruct (Hscan Hz) as (c1 & (w1 & Q1 & F1 & S1) & A1 & O1 & B1).
    destruct (IH fuel (headers + Zlen (blobs_of segs d)) c1 w1) as (c' & Q & E1 & E2);
      [intros m h0 bs0 Hm0; destruct (HG m h0 bs0 Hm0); split; [done|by eapply still_data]|by apply Hd'|rewrite O1; unfold Zlen in *; lia|done|done|cbn in Hf; lia|lia|lia|].
    exists c'. split_and!; [|done|].
    + apply (quiet_pure _ d); [by rewrite Hi|]. rewrite decide_False by done.
      eapply quiet_same; cycle 1; [exact Q1|exact F1|exact S1|]. cbv beta iota. rewrite (proj1 A1). exact Q.
    + rewrite E2, B1. done.
Qed.

(** ** The snapshot *)
Lemma quiet_identity w q : quiet (identity_at q) w (stat_identity q (fs_names (w_fs w) !! q)).
Proof. exists w. by split_and!; [|destruct w|]. Qed.
Lemma quiet_opened w path i d :
  no_faults -> fs_names (w_fs w) !! path = Some i -> contents (w_fs w) path = Some d ->
  quiet (metadata_opened path i) w (Zlen d, stat_identity path (Some i)).
Proof.
  intros Hn Hi Hc. unfold metadata_opened. eapply (quiet_then _ _ w _ d); [apply still_refl| |intros; apply quiet_ret].
  destruct (contents_names _ _ _ Hc) as (j & nd & Hj & Hd & <-). simplify_eq.
  unfold quiet. rewrite io_run. unfold fs_read_all, bindM. rewrite io_step_ok by done. cbn. rewrite Hd. eexists. split; [reflexivity|]. by cbn.
Qed.
Lemma read_pieces_spec path i d : no_faults -> forall fuel w off rem,
  fs_names (w_fs w) !! path = Some i -> contents (w_fs w) path = Some d -> (off + rem <= length d)%nat -> (rem < fuel)%nat ->
  quiet (read_pieces fuel i (Z.of_nat off) (Z.of_nat rem)) w (slice off (off + rem) d).
Proof.
  intros Hn. induction fuel as [|fuel IH]; intros w off rem Hi Hc Hl Hf; [lia|]. cbn [read_pieces].
  case_decide; cycle 1.
  { assert (rem = 0)%nat as -> by lia. unfold slice. rewrite Nat.add_0_r, Nat.sub_diag. apply quiet_ret. }
  set (n := Z.to_nat (Z.min (Z.of_nat rem) 65536)). assert (n <= rem)%nat by (unfold n; lia).
  replace (Z.min (Z.of_nat rem) 65536) with (Z.of_nat n) by (unfold n; lia). assert (0 < n)%nat by (unfold n; lia). clearbody n. rewrite !Nat2Z.id. cbv zeta.
  eapply (quiet_then _ _ w _ (slice off (off + n) d)); [apply still_refl| |].
  { unfold quiet. rewrite io_run, (fs_read_exact_ok _ path i d off n Hn Hi Hc) by lia. eexists. split; [reflexivity|]. by cbn. }
  intros w1 S1. replace (sat_sub (Z.of_nat rem) (Z.of_nat n)) with (Z.of_nat (rem - n)) by (unfold sat_sub; lia).
  replace (Z.of_nat off + Z.of_nat n) with (Z.of_nat (off + n)) by lia.
  eapply (quiet_then _ _ w); [done|apply IH; [by rewrite (still_names w)|by rewrite (still_contents w)|lia|lia]|]. intros w2 S2.
  rewrite slice_split. replace (n + (rem - n))%nat with rem by lia. apply quiet_ret.
Qed.
(** What a metadata file adds to the snapshot. *)
Definition snapshot_part (fs : Fs) (label path : string) : list Z :=
  match contents fs path with
  | Some d => bytes_of_string label ++ [1] ++ to_le 8 (Zlen d) ++ identity_bytes (stat_identity path (fs_names fs !! path)) ++ d
  | None => bytes_of_string label ++ [0]
  end.
Lemma snapshot_file_spec w label path total :
  no_faults -> 0 <= total -> total + file_size (w_fs w) path <= MAX_MAINTENANCE_METADATA_BYTES ->
  quiet (snapshot_file label path total) w (snapshot_part (w_fs w) label path, total + file_size (w_fs w) path).
Proof.
  intros Hn H0 Hm. unfold snapshot_file. pose proof (file_size_nonneg (w_fs w) path) as Hs.
  eapply (quiet_then _ _ w); [apply still_refl|by apply quiet_metadata_of|]. intros w1 S1.
  unfold metadata_of. unfold file_size, snapshot_part in *. destruct (contents (w_fs w) path) as [d|] eqn:Hc; cycle 1.
  { unfold contents in Hc. destruct (file_at (w_fs w) path); [done|]. cbn [not_found io_kind]. rewrite decide_True by done. rewrite Z.add_0_r. apply quiet_ret. }
  pose proof Hc as Hc'. unfold contents in Hc'. destruct (file_at (w_fs w) path) as [nd|] eqn:Ef; [|done]. injection Hc' as ->.
  eapply (quiet_then _ _ w); [done|apply quiet_identity|]. intros w2 S2. unfold MAX_MAINTENANCE_METADATA_BYTES in *.
  eapply (quiet_then _ _ w _ (total + Zlen d)); [done|apply quiet_lift; unfold checked_add64; by rewrite decide_True by lia|]. intros w3 S3.
  rewrite decide_False by lia.
  destruct (quiet_open_at w3 path d Hn) as (i & Q & Hi); [by rewrite (still_contents w)|].
  eapply (quiet_then _ _ w); [done|exact Q|]. intros w4 S4. rewrite (still_names w) in Hi by done.
  rewrite (still_names w w1 path), Hi by done.
  eapply (quiet_then _ _ w); [done|apply (quiet_opened _ _ _ d Hn); [by rewrite (still_names w)|by rewrite (still_contents w)]|]. intros w5 S5.
  cbv beta iota. rewrite decide_False by tauto.
  eapply (quiet_then _ _ w _ d); [done| |].
  { replace (S (Z.to_nat (Zlen d))) with (S (length d)) by (unfold Zlen; lia).
    pose proof (read_pieces_spec path i d Hn (S (length d)) w5 0 (length d)) as R. rewrite slice_all in R by lia.
    apply R; [by rewrite (still_names w)|by rewrite (still_contents w)|lia|lia]. }
  intros w6 S6. eapply (quiet_then _ _ w); [done|apply (quiet_opened _ _ _ d Hn); [by rewrite (still_names w)|by rewrite (still_contents w)]|].
  intros w7 S7. cbv beta iota. rewrite decide_False by tauto. apply quiet_ret.
Qed.
Lemma snapshot_files_spec l : forall total w,
  no_faults -> 0 <= total -> total + total_size (w_fs w) (snd <$> l) <= MAX_MAINTENANCE_METADATA_BYTES ->
  quiet (snapshot_files l total) w (concat ((fun lp => snapshot_part (w_fs w) lp.1 lp.2) <$> l)).
Proof.
  induction l as [|[label path] l IH]; intros total w Hn H0 Hm; cbn [snapshot_files]; [apply quiet_ret|].
  change (total_size (w_fs w) (snd <$> (label, path) :: l)) with (file_size (w_fs w) path + total_size (w_fs w) (snd <$> l)) in Hm.
  pose proof (total_size_nonneg (w_fs w) (snd <$> l)) as Ht. pose proof (file_size_nonneg (w_fs w) path) as Hs.
  eapply (quiet_then _ _ w); [apply still_refl|apply snapshot_file_spec; [done|done|lia]|]. intros w1 S1. cbv beta iota.
  pose proof (still_size _ _ (snd <$> l) S1) as Es.
  eapply (quiet_then _ _ w); [done|apply IH; [done|lia|lia]|]. intros w2 S2.
  cbn [fmap list_fmap concat]. cbn [fst snd].
  assert ((fun lp => snapshot_part (w_fs w1) lp.1 lp.2) <$> l = (fun lp => snapshot_part (w_fs w) lp.1 lp.2) <$> l) as ->; [|apply quiet_ret].
  apply list_fmap_ext. intros j lp _. unfold snapshot_part. by rewrite (still_contents w), (still_names w).
Qed.
Lemma snapshot_spec w p :
  no_faults -> total_size (w_fs w) (recovery_files p) <= MAX_MAINTENANCE_METADATA_BYTES ->
  exists snap, quiet (maintenance_snapshot p) w snap.
Proof.
  intros Hn Hm. eexists. unfold maintenance_snapshot.
  eapply (quiet_then _ _ w); [apply still_refl|by apply quiet_sync|]. intros w1 S1.
  pose proof (quiet_identity w1 (root p)) as Q. rewrite (still_names w) in Q by done.
  eapply (quiet_then _ _ w); [done|exact Q|]. intros w2 S2.
  eapply (quiet_then _ _ w _ (concat ((fun lp => snapshot_part (w_fs w) lp.1 lp.2) <$> snapshot_list p))); [done| |intros; apply quiet_ret].
  assert (concat ((fun lp => snapshot_part (w_fs w2) lp.1 lp.2) <$> snapshot_list p) = concat ((fun lp => snapshot_part (w_fs w) lp.1 lp.2) <$> snapshot_list p)) as <-.
  { f_equal. apply list_fmap_ext. intros j lp _. unfold snapshot_part. by rewrite (still_contents w), (still_names w). }
  apply snapshot_files_spec; [done|done|]. change (snd <$> snapshot_list p) with (recovery_files p). rewrite (still_size w) by done. lia.
Qed.

(** ** The choice *)
Lemma better_some l : forall b s, foldl better b l = Some s -> b = Some s \/ Some s ∈ l.
Proof.
  induction l as [|x l IH]; intros b s E; [by left|]. cbn [foldl] in E. apply IH in E as [E|E]; [|right; by right].
  destruct x as [x|]; cbn [better] in E; [|by left]. destruct (match b with Some _ => _ | None => _ end); [|by left].
  right. apply elem_of_cons. by left.
Qed.
Lemma better_none l : forall b, foldl better b l = None -> b = None /\ forall x, x ∈ l -> x = None.
Proof.
  induction l as [|x l IH]; intros b E; [split; [done|set_solver]|]. cbn [foldl] in E. apply IH in E as [E H].
  destruct x as [x|]; cbn [better] in E; [destruct b as [b|]; [by destruct (candidate_summary_precedes x b)|done]|].
  split; [done|]. intros y [->|Hy]%elem_of_cons; [done|by apply H].
Qed.
Lemma last_id_bound bs : StronglySorted Z.lt (map db_id bs) -> Forall (fun b => db_id b <= last_id bs 0) bs.
Proof.
  induction bs as [|b bs IH] using rev_ind; [constructor|]. intros Hs. unfold last_id. rewrite last_snoc. apply Forall_app. split; [|by constructor].
  rewrite map_app in Hs. clear IH. induction bs as [|x bs IH]; [constructor|]. cbn [map app] in Hs. inversion Hs as [|? ? Hs' Hf]; subst.
  constructor; [|by apply IH]. rewrite Forall_app in Hf. destruct Hf as [_ [Hf _]%Forall_cons]. lia.
Qed.
Lemma last_id_ok bs : Forall wf_blob bs -> u64_ok (last_id bs 0).
Proof.
  intros H. unfold last_id. destruct (last bs) as [b|] eqn:E; [|unfold u64_ok; lia]. apply last_Some_elem_of in E.
  by destruct (proj1 (list.Forall_forall _ _) H b E) as [? _].
Qed.

(** A candidate is a segment at least a quarter of which is dead. *)
Lemma summary_candidate w p s records d x :
  seg_states w p (st_segs s) -> good_index (st_index s) (st_segs s) -> d ∈ descriptors (st_index s) ->
  segment_summary (st_segs s) (st_index s) records d = Some x ->
  exists h bs, st_segs s !! segment_seq d = Some (h, bs) /\ payload_len h <> 0 /\
    descriptor_for_segment (st_index s) (su_segment_seq x) = Some d /\
    candidate_for s records (mkSegmentCandidate d (active_blob_ids_for_segment (st_index s) records (su_segment_seq x))
      (su_live_bytes x) (su_last_blob_id x) (su_source_sequence x) (su_source_file_len x)) h bs.
Proof.
  intros HG HX Hd. unfold segment_summary. destruct (st_segs s !! segment_seq d) as [[h bs]|] eqn:Hs; [|done].
  destruct (negb _ && _) eqn:E; [|done]. intros [= <-]. apply andb_true_iff in E as [_ E].
  destruct (HG _ _ _ Hs) as [_ HD]. exists h, bs. split_and!; [done| | |].
  - intros Hz. rewrite (empty_segment _ _ _ _ HD Hz) in E. unfold worth_reclaiming in E. apply andb_true_iff in E as [_ E].
    apply bool_decide_eq_true in E. by vm_compute in E.
  - unfold descriptor_for_segment. cbn [su_segment_seq].
    destruct (list_find _ _) as [[i x]|] eqn:Ef.
    + apply list_find_Some in Ef as (Hi & Ex & _). cbn. f_equal. apply list_elem_of_lookup_2 in Hi.
      eapply (fmap_nodup_inj segment_seq (descriptors (st_index s))); [apply HX|done|done|done].
    + apply list_find_None in Ef. rewrite list.Forall_forall in Ef. by destruct (Ef d Hd).
  - split; cbn; try done; [by apply last_id_bound, HD|by apply last_id_ok, HD].
Qed.

(** The segments one round can go over. *)
Definition one_round (s : Store) : Prop :=
  Zlen (descriptors (st_index s)) <= MAX_DESCRIPTORS_PER_ROUND /\ blob_total (st_segs s) < MAX_HEADERS_PER_ROUND.

(** A round finds a candidate unless no segment is worth it. *)
Lemma collect_spec w p s records :
  no_faults -> seg_states w p (st_segs s) -> good_index (st_index s) (st_segs s) ->
  total_size (w_fs w) (recovery_files p) <= MAX_MAINTENANCE_METADATA_BYTES -> one_round s ->
  exists scan, quiet (collect_candidates p (st_index s) records None no_maintenance_progress) w scan /\ cs_scan_cursor scan = None /\
    match cs_candidate scan with
    | None => forall d, d ∈ descriptors (st_index s) -> segment_summary (st_segs s) (st_index s) records d = None
    | Some ca => exists h bs, candidate_for s records ca h bs /\ payload_len h <> 0
    end.
Proof.
  intros Hn HG HX Hm [Hd Hb]. destruct (snapshot_spec w p Hn Hm) as (snap & w1 & E1 & F1 & S1).
  set (index := st_index s) in *. set (segs := st_segs s) in *.
  assert (seg_states w1 p segs) as HG1 by (intros n h bs Hs; destruct (HG n h bs Hs); split; [done|by eapply still_data]).
  assert (headers_in segs (descriptors index) <= blob_total segs) as Hh by (apply headers_total, HX).
  destruct (scan_round_spec p segs index records Hn (descriptors index) (Z.to_nat MAX_DESCRIPTORS_PER_ROUND) 0 (fresh_cursor snap) w1 HG1)
    as (c & Q & Eo & Eb); [done|cbn; unfold Zlen; lia| |done| |lia|lia|].
  { intros d Hin. apply (gi_dom _ _ HX). by apply list_elem_of_fmap_2. }
  { unfold Zlen, MAX_DESCRIPTORS_PER_ROUND in *. lia. }
  cbn [best_candidate fresh_cursor] in Eb.
  assert (exists scan, finish_round index records c = Ok scan /\ cs_scan_cursor scan = None /\
    match cs_candidate scan with
    | None => forall d, d ∈ descriptors index -> segment_summary segs index records d = None
    | Some ca => exists h bs, candidate_for s records ca h bs /\ payload_len h <> 0
    end) as (scan & Ef & Ec & Hc).
  { unfold finish_round. rewrite decide_False by lia. eexists. split; [reflexivity|]. split; [done|]. cbn [cs_candidate].
    destruct (best_candidate c) as [x|].
    - destruct (better_some _ _ _ (eq_sym Eb)) as [?|(d & Ex & Hin)%list_elem_of_fmap]; [done|].
      destruct (summary_candidate w p s records d x HG HX Hin (eq_sym Ex)) as (h & bs & _ & Hp & Edesc & HK).
      fold index in Edesc, HK. rewrite Edesc. eauto.
    - destruct (better_none _ _ (eq_sym Eb)) as [_ H]. intros d Hin. apply H. by apply list_elem_of_fmap_2. }
  exists scan. split_and!; [|done|done]. unfold collect_candidates. cbn [collect_with].
  eapply quiet_same; cycle 1; [exact E1|exact F1|exact S1|]. cbv beta. apply (quiet_pure _ (fresh_cursor snap)); [done|].
  destruct Q as (w2 & E2 & F2 & S2). eapply quiet_same; cycle 1; [exact E2|exact F2|exact S2|]. cbv beta iota. apply quiet_lift. exact Ef.
Qed.
End Laws.
