(* ===== verification/Maintenance.v ===== *)
(** * The maintenance tool (bin/holo_storage_maintenance.rs)

    A process started for one cartridge: it parses its options, checks that the
    pool is the approved one and the cartridge is not loaded, reclaims at most
    one segment and prints one report. *)

From S2P Require Import Prelude Bytes Text Errors Fs Layout TapeState SpaceGuard Compression Records.
From S2P Require Import World Crc Segment Logs DataPath Recovery System Bootstrap OfflineScan OfflineReclaim.

Record Args : Type := mkArgs {
  a_pool_root : string;
  a_pool_id : string;
  a_library_id : string;
  a_cartridge_id : string;
  a_runtime_dir : string;
  a_scan_cursor : option (list Z)
}.
Record Report : Type := mkReport {
  rp_schema_version : Z;
  rp_pool_id : string;
  rp_library_id : string;
  rp_cartridge_id : string;
  rp_status : string;
  rp_reason : option string;
  rp_processed_segments : Z;
  rp_has_more : bool;
  rp_scan_cursor : option (list Z);
  rp_allocated_before_bytes : Z;
  rp_allocated_after_bytes : Z;
  rp_net_freed_bytes : Z;
  rp_duration_ms : Z
}.
Record ProgressLine : Type := mkLine {
  pl_schema_version : Z;
  pl_phase : string;
  pl_verified_bytes : Z;
  pl_verified_records : Z
}.

(** [serde_json] on a report and on a progress line. *)
Class ReportJson : Type := {
  report_to_json : Report -> option (list Z);
  line_to_json : ProgressLine -> option (list Z)
}.
(** What the process asks the system: the flag its signal handler sets, the time
    in milliseconds, the standard error stream, whether a signal handler could be
    registered, and canonical paths. *)
Class ToolHost : Type := {
  th_cancelled : nat -> bool;
  th_now : nat -> Z;
  th_stderr : nat -> Result IoError unit;
  th_register : nat -> bool;
  th_canonicalize : nat -> string -> Result IoError string
}.

(** ** Progress *)
Record ProgressReporter : Type := mkReporter {
  pr_tick : nat;
  pr_verified_bytes : Z;
  pr_verified_records : Z;
  pr_last_emit : Z;
  pr_last_phase : option MaintenancePhase;
  pr_lines : list (list Z)
}.
#[export] Instance eta_ProgressReporter : Eta ProgressReporter := fun r =>
  mkReporter (pr_tick r) (pr_verified_bytes r) (pr_verified_records r) (pr_last_emit r) (pr_last_phase r) (pr_lines r).
#[export] Instance MaintenancePhase_eq_dec : EqDecision MaintenancePhase.
Proof. solve_decision. Defined.

Definition PROGRESS_PREFIX : list Z := bytes_of_string "HOLO_PROGRESS ".

Section Progress.
Context `{TH : ToolHost} `{RJ : ReportJson}.

Definition reporter_new : ProgressReporter := mkReporter 0 0 0 (th_now 0 - 10000) None [].

(** The line of the totals so far goes to the standard error stream. *)
Definition emit_line (phase : MaintenancePhase) : M ProgressReporter StorageError unit :=
  let! r := getM in
  let line := mkLine 2 (MaintenancePhase_as_str phase) (pr_verified_bytes r) (pr_verified_records r) in
  let! encoded := liftM (ok_or (line_to_json line) (Internal "progress serialization failed")) in
  if decide (1024 < Zlen encoded + Zlen PROGRESS_PREFIX + 1) then failM (Internal "progress line exceeded limit")
  else
    let! _ := liftM (map_err SIo (th_stderr (pr_tick r))) in
    modifyM (fun r => r <| pr_lines := pr_lines r ++ [PROGRESS_PREFIX ++ encoded ++ [10]] |>
                        <| pr_last_emit := th_now (pr_tick r) |> <| pr_last_phase := Some phase |>).

Definition reporter_update (phase : MaintenancePhase) (bytes records : Z) : M ProgressReporter StorageError unit :=
  modifyM (fun r => r <| pr_tick := S (pr_tick r) |>) ;;!
  let! r := getM in
  if th_cancelled (pr_tick r) then failM Cancelled
  else
    let! total := liftM (ok_or (checked_add64 (pr_verified_bytes r) bytes) (Internal "progress byte count overflow")) in
    modifyM (fun r => r <| pr_verified_bytes := total |>) ;;!
    let! count := liftM (ok_or (checked_add64 (pr_verified_records r) records)
                           (Internal "progress record count overflow")) in
    modifyM (fun r => r <| pr_verified_records := count |>) ;;!
    if negb (bool_decide (pr_last_phase r = Some phase)) ||
       bool_decide (5000 <= th_now (pr_tick r) - pr_last_emit r)
    then emit_line phase else retM tt.
End Progress.

(** ** Options *)
Definition option_names : list (list Z) :=
  bytes_of_string <$> ["pool-root"; "pool-id"; "library-id"; "cartridge-id"; "runtime-dir"; "scan-cursor"].
Definition MAX_ARG_CURSOR : Z := 4 * 1024.

Fixpoint collect_options (args : list (list Z)) (values : list (list Z * list Z))
  : Result string (list (list Z * list Z)) :=
  match args with
  | [] => Ok values
  | flag :: rest =>
      match strip_prefix (bytes_of_string "--") flag with
      | None => Err "expected a named option"
      | Some key =>
          match rest with
          | [] => Err ("missing value for --" +:+ string_of_bytes key)
          | value :: rest' =>
              if decide (key ∈ option_names) then
                if decide (key ∈ values.*1) then Err ("duplicate option --" +:+ string_of_bytes key)
                else collect_options rest' ((key, value) :: values)
              else Err ("unknown option --" +:+ string_of_bytes key)
          end
      end
  end.
Definition option_value (values : list (list Z * list Z)) (key : string) : option (list Z) :=
  snd <$> (snd <$> list_find (fun kv => kv.1 = bytes_of_string key) values).
Definition take_option (values : list (list Z * list Z)) (key : string) : Result string string :=
  match option_value values key with
  | Some v => if decide (trim v = []) then Err ("missing --" +:+ key) else Ok (string_of_bytes v)
  | None => Err ("missing --" +:+ key)
  end.
Definition is_absolute (path : string) : bool := bool_decide (head (bytes_of_string path) = Some 47).

Definition parse_args (args : list (list Z)) : Result string Args :=
  let? values := collect_options args [] in
  let? pool_root := take_option values "pool-root" in
  let? runtime_dir := take_option values "runtime-dir" in
  if negb (is_absolute pool_root && is_absolute runtime_dir)
  then Err "pool-root and runtime-dir must be absolute paths"
  else if match option_value values "scan-cursor" with
          | Some c => bool_decide (MAX_ARG_CURSOR < Zlen c)
          | None => false
          end
  then Err "scan cursor exceeds its limit"
  else
    let? pool_id := take_option values "pool-id" in
    let? library_id := take_option values "library-id" in
    let? cartridge_id := take_option values "cartridge-id" in
    Ok (mkArgs pool_root pool_id library_id cartridge_id runtime_dir (option_value values "scan-cursor")).

Definition valid_id (value : string) : bool :=
  let l := bytes_of_string value in
  negb (bool_decide (trim l = [])) && bool_decide (Zlen l <= 128) && negb (text_has [47; 92; 0] l) &&
  negb (has_dot_dot l).

(** ** Reports *)
Fixpoint has_text_in (needle : list Z) (l : list Z) : bool :=
  starts_with needle l || match l with [] => false | _ :: l' => has_text_in needle l' end.
Definition mentions (message needle : string) : bool := has_text_in (bytes_of_string needle) (bytes_of_string message).

Definition classify_error (e : StorageError) : string * string * bool :=
  match e with
  | Conflict m =>
      if mentions m "WORM" then ("deferred", "busy", false)
      else if mentions m "retention" then ("deferred", "busy", false)
      else if mentions m "busy" then ("deferred", "busy", false)
      else if mentions m "ambiguous_layout" then ("deferred", "ambiguous_layout", true)
      else if mentions m "identity_conflict" then ("deferred", "identity_conflict", true)
      else if mentions m "changed after reclaim scan" then ("failed", "no_progress", true)
      else ("failed", "io_error", true)
  | MetadataBudgetExceeded => ("deferred", "metadata_budget_exceeded", true)
  | SpaceExhausted _ => ("deferred", "space_unavailable", true)
  | SpaceAdmission SGBusy => ("deferred", "busy", true)
  | SpaceAdmission (InsufficientSpace _ _) => ("deferred", "space_unavailable", true)
  | SpaceAdmission UnknownCapacity => ("deferred", "space_unavailable", true)
  | SpaceAdmission _ => ("failed", "io_error", true)
  | Cancelled => ("cancelled", "cancelled", true)
  | Corrupt _ | VersionMismatch _ _ => ("failed", "integrity_error", true)
  | _ => ("failed", "io_error", true)
  end%string.

Definition reason_valid (status : string) (reason : option string) : bool :=
  if decide (status = "completed"%string) then bool_decide (reason = None)
  else if decide (status = "deferred"%string) then
    match reason with
    | Some r => bool_decide (r ∈ ["busy"; "pool_unavailable"; "identity_conflict"; "ambiguous_layout";
                                  "metadata_budget_exceeded"; "space_unavailable"]%string)
    | None => false
    end
  else if decide (status = "failed"%string) then
    match reason with
    | Some r => bool_decide (r ∈ ["integrity_error"; "io_error"; "no_progress"]%string)
    | None => false
    end
  else if decide (status = "cancelled"%string) then bool_decide (reason = Some "cancelled"%string)
  else false.

Definition validate_report (r : Report) : Result string unit :=
  if decide (1 < rp_processed_segments r) then Err "processed segment count exceeds one"
  else if negb (reason_valid (rp_status r) (rp_reason r))
  then Err "maintenance status and reason are inconsistent"
  else if decide (rp_status r <> "completed"%string /\
                  (rp_processed_segments r <> 0 \/ rp_net_freed_bytes r <> 0 \/ is_Some (rp_scan_cursor r)))
  then Err "non-completed result reports committed work"
  else if match rp_scan_cursor r with
          | Some c => bool_decide (MAX_ARG_CURSOR < Zlen c) || negb (rp_has_more r)
          | None => false
          end
  then Err "maintenance cursor is invalid"
  else if decide (rp_net_freed_bytes r <> sat_sub (rp_allocated_before_bytes r) (rp_allocated_after_bytes r))
  then Err "maintenance released-byte counters are inconsistent"
  else Ok tt.

(** The process: the storage below it and what it printed. *)
Record Tool : Type := mkTool { t_sys : Sys; t_tick : nat; t_out : list (list Z) }.
#[export] Instance eta_Tool : Eta Tool := fun t => mkTool (t_sys t) (t_tick t) (t_out t).
Definition on_sys {E A} (m : M Sys E A) : M Tool E A := zoomM t_sys (fun y t => t <| t_sys := y |>) m.

(** [env::set_var]. *)
Definition set_var (key : string) (value : list Z) (env : Environ) : Environ :=
  fun k => if decide (k = key) then Some value else env k.

Definition EXIT_SUCCESS : Z := 0.

Section Tool.
Context `{HOST : Host} `{C : Crc32c} `{HO : HashOrder} `{BC : BlockCodecs} `{SHA : Sha256} `{FS : FileStat}
  `{CJ : CursorJson} `{SH : SpaceHost} `{TH : ToolHost} `{RJ : ReportJson}.

Definition tool_ask {A} (q : nat -> A) : M Tool string A :=
  fun t => (Ok (q (t_tick t)), t <| t_tick := S (t_tick t) |>).

Definition emit_report (args : Args) (status : string) (reason : option string) (processed : Z) (more : bool)
  (cursor : option (list Z)) (before after freed duration : Z) : M Tool string unit :=
  let report := mkReport 2 (a_pool_id args) (a_library_id args) (a_cartridge_id args) status reason processed more
                  cursor before after freed duration in
  let! _ := liftM (validate_report report) in
  let! encoded := liftM (ok_or (report_to_json report) "report serialization failed"%string) in
  if decide (64 * 1024 < Zlen encoded) then failM "maintenance report exceeded output limit"%string
  else if utf8_valid encoded then modifyM (fun t => t <| t_out := t_out t ++ [encoded ++ [10]] |>)
  else failM "report encoding failed"%string.
(** [Instant::elapsed] is zero when the clock went back. *)
Definition elapsed_ms (started now : Z) : Z := Z.min (Z.max 0 (now - started)) U64_MAX.
Definition register_signal : M Tool string unit :=
  let! ok := tool_ask th_register in
  if ok : bool then retM tt else failM "cannot register cancellation handler"%string.
(** A report of no work, and the exit code with it. *)
Definition nothing_done (args : Args) (status : string) (reason : option string) (code : Z) : M Tool string Z :=
  emit_report args status reason 0 false None 0 0 0 0 ;;! retM code.

(** The cartridge of a drive's state file. *)
Definition read_media_state (path : string) : M World string (option (list Z)) :=
  let! r := map_errM (fun _ => "shared media state cannot be read"%string) (read_state_text path) in
  match r with
  | Err e => if decide (io_kind e = KNotFound) then retM None else failM "shared media state cannot be read"%string
  | Ok raw =>
      let value := trim raw in
      if decide (value = []) then retM None
      else if text_has [13; 10] value then failM "shared media state format is invalid"%string
      else
        let cartridge := trim (default value (strip_prefix (bytes_of_string "cartridge=") value)) in
        if decide (cartridge = []) then retM None
        else if text_has [61; 47; 92; 0] cartridge || has_dot_dot cartridge || bool_decide (128 < Zlen cartridge)
        then failM "shared media state format is invalid"%string
        else retM (Some cartridge)
  end.
Fixpoint any_state_names (files : list string) (cartridge_id : string) : M World string bool :=
  match files with
  | [] => retM false
  | f :: fs =>
      let! loaded := read_media_state f in
      if decide (loaded = Some (bytes_of_string cartridge_id)) then retM true else any_state_names fs cartridge_id
  end.
Definition media_state_contains_cartridge `{ENV : Environ} (library_id cartridge_id : string)
  : M World string bool :=
  let dir := match getenv "HOLO_MEDIA_STATE_DIR" with
             | Some raw => string_of_bytes raw
             | None => "/run/holo/media-state"
             end in
  let! r := map_errM (fun _ => "shared media state cannot be read"%string) (io_raw io_step) in
  match r with
  | Err e => if decide (io_kind e = KNotFound) then retM false else failM "shared media state cannot be read"%string
  | Ok _ =>
      let! w := getM in
      any_state_names (filter (fun p => is_state_file_of library_id (file_name p)) (entries_of dir (w_fs w))) cartridge_id
  end.

(** The reclaim and the report on it. *)
Definition reclaim_and_report (args : Args) (paths : LayoutPaths) (pool : string) (started : Z)
  (env : Environ) (progress : MaintenanceProgress) : M Tool string Z :=
  let! result := tryM (on_sys (reclaim_one_segment_with_cursor_and_progress (ENV := env) paths pool
                                 (a_library_id args) (a_cartridge_id args) (a_runtime_dir args)
                                 (a_scan_cursor args) progress)) in
  let! now := tool_ask th_now in
  let duration := elapsed_ms started now in
  match result with
  | Ok r =>
      emit_report args "completed" None (processed_segments r) (has_more r) (scan_cursor r)
        (allocated_before_bytes r) (allocated_after_bytes r) (net_freed_bytes r) duration ;;!
      retM EXIT_SUCCESS
  | Err e =>
      let '(status, reason, more) := classify_error e in
      emit_report args status (Some reason) 0 more None 0 0 0 duration ;;!
      retM (if bool_decide (status = "failed"%string) || bool_decide (status = "cancelled"%string) then 1
            else EXIT_SUCCESS)
  end.

(** Behind the checks of the pool and of the media state: the layout is found
    under the environment the tool sets for itself. *)
Definition maintain (args : Args) (pool : string) (env : Environ) (progress : MaintenanceProgress)
  : M Tool string Z :=
  let! started := tool_ask th_now in
  let env := set_var "HOLO_MEDIA_STATE_KEY" (bytes_of_string (sanitize_id (a_library_id args) +:+ "__maintenance")) env in
  let env := set_var "HOLO_LAYOUT_LIBRARY_ID" (bytes_of_string (a_library_id args)) env in
  let env := set_var "HOLO_STORAGE_ROOT" (bytes_of_string pool) env in
  let! resolved := tryM (on_sys (on_space (resolve_layout_paths pool (a_library_id args) "maintenance"
                                             (a_cartridge_id args)))) in
  match resolved with
  | Err (Conflict reason) =>
      nothing_done args "deferred"
        (Some (if decide (reason = "ambiguous_layout"%string) then "ambiguous_layout"%string else "identity_conflict"%string))
        EXIT_SUCCESS
  | Err _ => nothing_done args "failed" (Some "io_error"%string) 1
  | Ok paths =>
      let! t := getM in
      if root_exists (root paths) (w_fs (y_world (t_sys t))) then
        register_signal ;;! register_signal ;;!
        reclaim_and_report args paths pool started env progress
      else
        let! now := tool_ask th_now in
        emit_report args "completed" None 0 false None 0 0 0 (elapsed_ms started now) ;;! retM EXIT_SUCCESS
  end.

Definition run (argv : list (list Z)) (env : Environ) (progress : MaintenanceProgress) : M Tool string Z :=
  let! args := liftM (parse_args argv) in
  if negb (valid_id (a_pool_id args) && valid_id (a_library_id args) && valid_id (a_cartridge_id args))
  then failM "invalid management ID"%string
  else if match a_scan_cursor args with Some c => bool_decide (MAX_ARG_CURSOR < Zlen c) | None => false end
  then failM "scan cursor exceeds its limit"%string
  else
    let env := set_var "HOLO_RUN_DIR" (bytes_of_string (a_runtime_dir args)) env in
    let base := match env "HOLO_STORAGE_POOL_ROOT_BASE"%string with
                | Some raw => string_of_bytes raw
                | None => "/var/lib/holo/storage-pools"
                end in
    let! expected := tool_ask (fun n => th_canonicalize n (path_join base (sanitize_id (a_pool_id args)))) in
    match expected with
    | Err e =>
        if decide (io_kind e = KNotFound) then nothing_done args "deferred" (Some "pool_unavailable"%string) EXIT_SUCCESS
        else nothing_done args "failed" (Some "io_error"%string) 1
    | Ok expected =>
        let! given := tool_ask (fun n => th_canonicalize n (a_pool_root args)) in
        let! given := liftM (map_err (fun _ => "requested pool root is unavailable"%string) given) in
        let! approved :=
          (if decide (expected = given) then
             let! kind := tryM (on_sys (on_space (ask (fun t => sh_metadata t given)))) in
             retM (match kind with Ok (k, _, _) => bool_decide (k = EkDir) | Err _ => false end)
           else retM false) in
        if negb approved then failM "pool root does not match the approved storage pool"%string
        else
          let! loaded := tryM (on_sys (on_world (media_state_contains_cartridge (ENV := env) (a_library_id args)
                                                   (a_cartridge_id args)))) in
          match loaded with
          | Ok true => nothing_done args "deferred" (Some "busy"%string) EXIT_SUCCESS
          | Ok false => maintain args given env progress
          | Err _ => nothing_done args "failed" (Some "io_error"%string) 1
          end
    end.

(** [main]: an error that is no report ends the process with code 2. *)
Definition main (argv : list (list Z)) (env : Environ) (progress : MaintenanceProgress) (t : Tool) : Z * Tool :=
  match run argv env progress t with
  | (Ok code, t') => (code, t')
  | (Err _, t') => (2, t')
  end.
End Tool.
