(* ===== verification/Prefetch.v ===== *)
(** * Read-ahead (scsi_tape/command_chain.rs)

    A fixed-block read schedules the reads that will follow on threads of their
    own and takes a finished one when its position comes up.  A thread runs as
    one step, either as soon as it is spawned or when it is joined: which of the
    two is the [Threads] parameter's choice, and joining a job that has not run
    runs it. *)

From S2P Require Import Prelude Bytes Text Errors Fs Layout TapeState SpaceGuard Compression Records World Crc.
From S2P Require Import Segment Logs BlkMap MapLookup Dedup DataBlobs DataPath System.

Class Threads : Type := runs_at_once : nat -> bool.

Section Env.
Context `{ENV : Environ}.

Definition says_no (raw : list Z) : bool :=
  bool_decide (map to_ascii_lowercase (trim raw) ∈
    [bytes_of_string "0"; bytes_of_string "false"; bytes_of_string "no"; bytes_of_string "off"]).
(** A switch that is on unless its value says no; [unset] when there is none. *)
Definition env_switch (name : string) (unset : bool) : bool :=
  match getenv name with Some raw => negb (says_no raw) | None => unset end.

Definition read_prefetch_enabled : bool := env_switch "HOLO_READ_PREFETCH" false.
Definition tape_dedup_enabled : bool := env_switch "HOLO_TAPE_DEDUP_ENABLED" true.
Definition tape_payload_checksum_enabled : bool := env_switch "HOLO_TAPE_PAYLOAD_CHECKSUM_ENABLED" true.

Definition read_prefetch_depth : nat :=
  match getenv "HOLO_READ_PREFETCH_DEPTH" with
  | Some raw =>
      match parse_uint U64_MAX (trim raw) with
      | Some v => if decide (1 <= v <= 8) then Z.to_nat v else 2
      | None => 2
      end
  | None => 2
  end.
End Env.

Section Jobs.
Context `{HOST : Host} `{ENV : Environ} `{C : Crc32c} `{HO : HashOrder} `{BC : BlockCodecs} `{B3 : Blake3}.
Context `{TH : Threads}.

Definition prefetch_key (layout : LayoutPaths) : string := root layout.

(** [JoinHandle::join]. *)
Definition join_job {E} (layout : LayoutPaths) (job : ReadPrefetchJob)
  : M Sys E (Result StorageError (option LogicalReadResult)) :=
  match job_result job with
  | Some r => retM r
  | None => tryM (on_world (read_logical_block layout (job_position job)))
  end.
Definition discard_read_prefetch_job {E} (layout : LayoutPaths) (job : ReadPrefetchJob) : M Sys E unit :=
  let! _ := join_job layout job in retM tt.

Definition take_jobs {E} (key : string) : M Sys E (list ReadPrefetchJob) :=
  let! y := getM in
  modifyM (fun y => y <| y_jobs := delete key (y_jobs y) |>) ;;!
  retM (default [] (y_jobs y !! key)).

Definition discard_read_prefetch_jobs_for_key {E} (layout : LayoutPaths) : M Sys E unit :=
  let! jobs := take_jobs (prefetch_key layout) in forM jobs (discard_read_prefetch_job layout).

(** What a failed invalidation would record: reads stop using the jobs of the
    layout. *)
Definition record_read_prefetch_invalidation_failure {E} (layout_root : string) : M Sys E unit :=
  modifyM (fun y =>
    let d := default (mkDegradation 0 true) (y_degraded y !! layout_root) in
    y <| y_degraded := <[layout_root := mkDegradation (sat_add64 (invalidation_failures d) 1) true]>
                         (y_degraded y) |>).
Definition read_prefetch_bypassed {E} (layout_root : string) : M Sys E bool :=
  getsM (fun y => match y_degraded y !! layout_root with Some d => bypass_reads d | None => false end).
Definition clear_read_prefetch_degradation {E} (layout_root : string) : M Sys E unit :=
  modifyM (fun y => y <| y_degraded := delete layout_root (y_degraded y) |>).

Definition invalidate_read_prefetch {E} (layout : LayoutPaths) : M Sys E unit :=
  let! jobs := take_jobs (root layout) in forM jobs (discard_read_prefetch_job layout).
Definition invalidate_state_read_prefetch {E} : M Sys E unit :=
  let! s := the_tape in
  match active_layout s with Some layout => invalidate_read_prefetch layout | None => retM tt end.

(** The queue of a layout at a position: the job for it, the jobs that stay and
    the stale ones. *)
Fixpoint split_stale (position : Z) (queue : list ReadPrefetchJob)
  : list ReadPrefetchJob * list ReadPrefetchJob :=
  match queue with
  | j :: q => if decide (job_position j < position)
              then let (stale, rest) := split_stale position q in (j :: stale, rest)
              else ([], queue)
  | [] => ([], [])
  end.
Definition pick_job (position : Z) (queue : list ReadPrefetchJob)
  : option ReadPrefetchJob * list ReadPrefetchJob * list ReadPrefetchJob :=
  let (stale, rest) := split_stale position queue in
  match rest with
  | j :: q => if decide (job_position j = position) then (Some j, q, stale) else (None, [], stale ++ rest)
  | [] => (None, [], stale)
  end.

Definition set_queue {E} (key : string) (queue : list ReadPrefetchJob) : M Sys E unit :=
  modifyM (fun y => y <| y_jobs := match queue with [] => delete key (y_jobs y)
                                   | _ => <[key := queue]> (y_jobs y) end |>).

Definition take_read_prefetch (layout : LayoutPaths) (position : Z)
  : M Sys StorageError (option LogicalReadResult) :=
  if negb read_prefetch_enabled then retM None
  else
    let key := prefetch_key layout in
    let! bypassed := read_prefetch_bypassed key in
    if (bypassed : bool) then discard_read_prefetch_jobs_for_key layout ;;! retM None
    else
      let! y := getM in
      match y_jobs y !! key with
      | None => retM None
      | Some queue =>
          let '(job, rest, stale) := pick_job position queue in
          set_queue key rest ;;!
          forM stale (discard_read_prefetch_job layout) ;;!
          match job with
          | None => retM None
          | Some job => let! r := join_job layout job in liftM r
          end
      end.

Definition spawn_job {E} (layout : LayoutPaths) (position : Z) : M Sys E ReadPrefetchJob :=
  let! y := getM in
  modifyM (fun y => y <| y_spawned := S (y_spawned y) |>) ;;!
  if runs_at_once (y_spawned y)
  then let! r := tryM (on_world (read_logical_block layout position)) in retM (mkJob position (Some r))
  else retM (mkJob position None).

Fixpoint wanted_positions (depth : nat) (position eod block_size : Z) : list Z :=
  match depth with
  | O => []
  | S d => if decide (eod <= position) then []
           else position :: wanted_positions d (sat_add64 position block_size) eod block_size
  end.

Fixpoint spawn_missing {E} (layout : LayoutPaths) (wanted : list Z) (queue : list ReadPrefetchJob)
  : M Sys E (list ReadPrefetchJob) :=
  match wanted with
  | [] => retM queue
  | p :: rest =>
      if decide (p ∈ map job_position queue) then spawn_missing layout rest queue
      else let! job := spawn_job layout p in spawn_missing layout rest (queue ++ [job])
  end.

Definition job_le (a b : ReadPrefetchJob) : Prop := job_position a <= job_position b.
#[export] Instance job_le_dec a b : Decision (job_le a b).
Proof. unfold job_le; apply _. Defined.

Definition schedule_read_prefetch {E} (layout : LayoutPaths) (position eod_position block_size : Z)
  : M Sys E unit :=
  if negb read_prefetch_enabled || bool_decide (eod_position <= position) || bool_decide (block_size = 0)
  then retM tt
  else
    let key := prefetch_key layout in
    let! bypassed := read_prefetch_bypassed key in
    if (bypassed : bool) then discard_read_prefetch_jobs_for_key layout
    else
      let wanted := wanted_positions read_prefetch_depth position eod_position block_size in
      let! y := getM in
      let queue := default [] (y_jobs y !! key) in
      let kept := List.filter (fun j => bool_decide (job_position j ∈ wanted)) queue in
      let stale := List.filter (fun j => negb (bool_decide (job_position j ∈ wanted))) queue in
      let! queue := spawn_missing layout wanted kept in
      modifyM (fun y => y <| y_jobs := <[key := merge_sort job_le queue]> (y_jobs y) |>) ;;!
      forM stale (discard_read_prefetch_job layout).
End Jobs.
