(* ===== verification/MountBridge.v ===== *)
(** * Attaching a cartridge to a drive (media/mount_bridge.rs)

    Lease, bootstrap, recovery and the rebuild of the drive's view of the tape
    from the block map and the state files. *)

From S2P Require Import Prelude Bytes Text Errors Fs Layout TapeState SpaceGuard Compression Records World Crc.
From S2P Require Import Segment Checkpoint Logs BlkMap MapLookup Dedup RuntimeState DataBlobs DataPath Recovery.
From S2P Require Import System Bootstrap Prefetch.

Definition runtime_filemark_step (s : TapeState) : Z :=
  if decide (mode (block_mode s) = Fixed_ /\ 0 < fixed_block_size (block_mode s))
  then fixed_block_size (block_mode s) else 1.

Definition start_le (a b : BlkMapRecord) : Prop := logical_start a <= logical_start b.
#[export] Instance start_le_dec a b : Decision (start_le a b).
Proof. unfold start_le; apply _. Defined.

(** [n] filemarks, [step] apart, from [mark] on. *)
Fixpoint marks_from (n : nat) (mark step : Z) : list Z :=
  match n with O => [] | S n' => mark :: marks_from n' (sat_add64 mark step) step end.

(** One active record: the filemarks it reports missing (while none are known),
    its block and the end of data. *)
Definition hydrate_record (step : Z) (acc : TapeState * Z) (r : BlkMapRecord) : TapeState * Z :=
  let (s, observed) := acc in
  let missing := sat_sub (filemark_count r) observed in
  let '(s, observed) :=
    (if decide (filemarks s = [] /\ 0 < missing) then
       (s <| filemarks := marks_from (Z.to_nat missing)
                            (sat_sub (logical_start r) (sat_mul64 missing step)) step |>, filemark_count r)
     else (s, observed)) in
  let s := if decide (is_Some (block_lengths s !! logical_start r)) then s
           else s <| block_starts := block_starts s ++ [logical_start r] |> in
  (s <| block_lengths := <[logical_start r := logical_len r]> (block_lengths s) |>
     <| eod_position := Z.max (eod_position s) (logical_end r) |>, observed).

Definition hydrate_blocks (step : Z) (records : list BlkMapRecord) (s : TapeState) : TapeState :=
  (fold_left (hydrate_record step) records (s, 0)).1.

(** The end of data after the last filemark, and the block index in order. *)
Definition hydrate_finish (step : Z) (s : TapeState) : TapeState :=
  let s := match filemarks s with
           | [] => s
           | m :: marks => s <| eod_position := Z.max (eod_position s)
                                  (sat_add64 (fold_left Z.max marks m) step) |>
           end in
  s <| block_starts := merge_sort Z.le (block_starts s) |>.

Section Bridge.
Context `{HOST : Host} `{ENV : Environ} `{C : Crc32c} `{HO : HashOrder} `{BC : BlockCodecs} `{B3 : Blake3}.
Context `{SH : SpaceHost} `{SHA : Sha256} `{TH : Threads}.

Definition hydrate_runtime_from_layout : M Sys TapeError unit :=
  let! s := the_tape in
  match active_layout s with
  | None => retM tt
  | Some layout =>
      let! _ := storage (recover_dirty_state layout) in
      let! (_, records) := storage (load_blk_map_records (blk_map_file layout)) in
      let active_records := merge_sort start_le (List.filter is_active records) in
      set_tape (fun s => s <| current_position := 0 |> <| eod_position := 0 |> <| block_starts := [] |>
                           <| block_lengths := ∅ |> <| filemarks := [] |>) ;;!
      let! marks := storage (load_filemarks (root layout)) in
      set_tape (fun s => s <| filemarks := merge_sort Z.le marks |>) ;;!
      let! retention := storage (load_retention_state (root layout)) in
      match retention with
      | Some r => set_tape (fun s => s <| retention_policy := TapeState.mkRetention (rs_is_worm_media r) (rs_retention_locked r) |>)
      | None => retM tt
      end ;;!
      set_tape (fun s => let step := runtime_filemark_step s in
                         hydrate_finish step (hydrate_blocks step active_records s))
  end.

Definition attach_library_id (s : TapeState) : string :=
  match getenv "HOLO_LAYOUT_LIBRARY_ID" with
  | Some library => if decide (trim library = []) then drive_id s else string_of_bytes library
  | None => drive_id s
  end.

(** The drive is changed only when every step succeeded. *)
Definition attach_cartridge (cartridge : string) : M Sys TapeError unit :=
  let! s := the_tape in
  if decide (mount_state s <> Empty) then failM InvalidTransition
  else
    let! root := storage (storage_root_dir_for_cartridge cartridge) in
    let! lease := map_errM (fun e => Storage (storage_error_from_lease e))
                    (on_space (lease_acquire root cartridge storage_runtime_dir)) in
    let! snapshot := map_errM Storage
                       (bootstrap_for_mount_with_lease (attach_library_id s) (drive_id s) cartridge lease) in
    let staged :=
      on_drive_fs (mount cartridge (ls_paths snapshot)) ;;!
      set_tape (fun s => s <| layout_lease := Some lease |>) ;;!
      hydrate_runtime_from_layout in
    let! r := tryM staged in
    match r with
    | Ok _ => retM tt
    | Err e => set_tape (fun _ => s) ;;! failM e
    end.

Definition detach_cartridge : M Sys TapeError unit :=
  invalidate_state_read_prefetch ;;!
  let! s := the_tape in
  match active_layout s with
  | Some layout =>
      (if requires_recovery s then retM tt
       else
         let! _ := storage (flush_pending_writes layout) in
         map_errM (fun e => Storage (SIo e)) (on_drive_fs persist_usage_counters)) ;;!
      storage (discard_layout_caches_checked layout)
  | None => retM tt
  end ;;!
  on_drive_fs unmount.
End Bridge.
