(* ===== verification/CommandChain.v ===== *)
(** * Tape commands (scsi_tape/command_chain.rs)

    Every command of the drive on the whole process: the checks each makes in
    the order it makes them, the admission on free space, the storage operation
    and the changes of the drive's position, block index and counters.  A write
    that fails marks the drive as needing recovery. *)

From S2P Require Import Prelude Bytes Text Errors Fs Layout TapeState Reservation SpaceGuard Compression Records.
From S2P Require Import World Crc Segment Checkpoint Logs BlkMap MapLookup Dedup Reclaim RuntimeState SegmentIndex.
From S2P Require Import DataBlobs DataPath Recovery System Bootstrap Prefetch MountBridge.

Definition DEFAULT_INITIATOR : string := "initiator-default".

Inductive EraseMode : Type := EraseShort | EraseLong.
Inductive SpaceBranch : Type := SpBlocks | SpFilemarks | SpEndOfData.

Record PositionReport : Type := mkPosition {
  pr_current_position : Z;
  pr_eod_position : Z;
  pr_file_number : Z;
  pr_set_number : Z;
  pr_filemark_count : Z;
  pr_next_filemark : option Z;
  pr_early_warning : bool
}.

Record ReservationReport : Type := mkReservationReport {
  rr_generation : Z;
  rr_registration_count : Z;
  rr_active_owner : option string;
  rr_active_key : option Z
}.

(** ** Worm enforcement (worm/enforcer.rs) *)
Inductive RetentionState : Type := RetNone | RetLocked | RetExpired.
Definition enforce_write (r : RetentionState) : Result TapeError unit :=
  match r with RetLocked => Err WormWriteProtected | _ => Ok tt end.

(** ** Checks *)
Definition validate_payload_len (len : Z) : Result TapeError Z :=
  ok_or (u32_try_from len)
    (InvalidArgument ("payload too large for u32 length field: " +:+ show_string len +:+ " bytes")).

Definition ensure_loaded (s : TapeState) : Result TapeError unit :=
  if decide (mount_state s = Empty) then Err (NotReady "no media loaded") else Ok tt.
Definition ensure_recovery_complete (s : TapeState) : Result TapeError unit :=
  if requires_recovery s then Err RecoveryRequired else Ok tt.

Definition enforce_protected_access (s : TapeState) (initiator : string) : Result TapeError unit :=
  let? _ := ensure_reservation_access s initiator in
  if is_worm_media (retention_policy s) && retention_locked (retention_policy s)
  then enforce_write RetLocked else Ok tt.

Definition enforce_worm_append_only (s : TapeState) : Result TapeError unit :=
  if is_worm_media (retention_policy s) && bool_decide (current_position s < eod_position s)
  then Err WormWriteProtected else Ok tt.

Definition enforce_worm_erase_allowed (s : TapeState) : Result TapeError unit :=
  if is_worm_media (retention_policy s) &&
     (bool_decide (0 < eod_position s) || negb (bool_decide (block_starts s = [])) ||
      negb (bool_decide (filemarks s = [])))
  then Err WormWriteProtected else Ok tt.

(** The partition a command works in: the active one, clamped to those defined. *)
Definition partition_index (s : TapeState) : nat :=
  let count := Z.max 1 (Z.min (addl_partitions_defined (partition_runtime s) + 1) 4) in
  Z.to_nat (Z.min (active_partition (partition_runtime s)) (count - 1)).
Definition configured_size (s : TapeState) : Z :=
  default 0 (partition_sizes_bytes (partition_runtime s) !! partition_index s).

Definition active_partition_capacity_limit (s : TapeState) : option Z :=
  match cartridge_capacity_bytes s with
  | Some capacity => if decide (configured_size s = 0) then Some capacity
                     else Some (Z.min capacity (configured_size s))
  | None => if decide (configured_size s = 0) then None else Some (configured_size s)
  end.

Definition ensure_capacity_available (s : TapeState) (bytes : Z) : Result TapeError unit :=
  match active_partition_capacity_limit s with
  | None => Ok tt
  | Some limit => if decide (limit < sat_add64 (current_position s) bytes) then Err VolumeOverflow else Ok tt
  end.

Definition early_warning_active (s : TapeState) : bool :=
  if decide (configured_size s = 0) then false
  else bool_decide (sat_sub (configured_size s) (Z.max (early_warning_window s) 1) <= current_position s).

(** ** Positions *)
Definition logical_position_step (s : TapeState) : Z :=
  if decide (mode (block_mode s) = Fixed_ /\ 0 < fixed_block_size (block_mode s))
  then fixed_block_size (block_mode s) else 1.

Definition is_addressable_position (s : TapeState) (target : Z) : bool :=
  if decide (eod_position s < target) then false
  else if decide (mode (block_mode s) = Variable_) then true
  else if bool_decide (target = 0) || bool_decide (target = eod_position s) ||
          bool_decide (is_Some (block_lengths s !! target)) || bool_decide (target ∈ filemarks s)
  then true
  else if decide (0 < fixed_block_size (block_mode s))
  then bool_decide (target mod fixed_block_size (block_mode s) = 0) else false.

Definition list_min (l : list Z) : option Z :=
  match l with [] => None | x :: xs => Some (fold_left Z.min xs x) end.

(** Filemarks keep their stored extent: the next block, mark or end of data. *)
Definition position_after_filemark (s : TapeState) (mark : Z) : Z :=
  default (eod_position s)
    (list_min (List.filter (fun p => bool_decide (mark < p)) (block_starts s ++ filemarks s ++ [eod_position s]))).

Definition next_point (points : list Z) (current : Z) : option Z :=
  List.find (fun p => bool_decide (current < p)) points.
Definition previous_point (points : list Z) (current : Z) : option Z :=
  List.find (fun p => bool_decide (p < current)) (reverse points).
Definition sorted_points (points : list Z) : list Z := merge_sort Z.le points.

(** [binary_search(&start)] finding nothing gives the index to insert at. *)
Definition insertion_index (start : Z) (l : list Z) : nat :=
  length (List.filter (fun p => bool_decide (p < start)) l).
Definition record_block (start len : Z) (s : TapeState) : TapeState :=
  match block_lengths s !! start with
  | Some _ => s <| block_lengths := <[start := len]> (block_lengths s) |>
  | None =>
      let append := match last (block_starts s) with None => true | Some l => bool_decide (l < start) end in
      let starts :=
        if append then block_starts s ++ [start]
        else if decide (start ∈ block_starts s) then block_starts s
        else let i := insertion_index start (block_starts s) in
             take i (block_starts s) ++ start :: drop i (block_starts s) in
      s <| block_starts := starts |> <| block_lengths := <[start := len]> (block_lengths s) |>
  end.

(** [for _ in 0..n] with an early return: the first failure ends it. *)
Fixpoint repeat_pos {E A} (n : positive) (f : A -> Result E A) (a : A) : Result E A :=
  match n with
  | xH => f a
  | xO p => let? b := repeat_pos p f a in repeat_pos p f b
  | xI p => let? b := f a in let? c := repeat_pos p f b in repeat_pos p f c
  end.
Definition repeat_z {E A} (n : Z) (f : A -> Result E A) (a : A) : Result E A :=
  match n with Zpos p => repeat_pos p f a | _ => Ok a end.
(** [-count] on an [i64]: the least value is its own negation. *)
Definition neg_i64 (z : Z) : Z := if decide (z = I64_MIN) then I64_MIN else - z.

Definition space_blocks (s : TapeState) (count : Z) : Result TapeError Z :=
  if decide (count = 0) then Ok (current_position s)
  else if decide (block_starts s = []) then
    if decide (0 < count) then Err (NotFound "SPACE blocks encountered EOD before any recorded block")
    else Err (OutOfRange "SPACE blocks before BOT")
  else if decide (0 < count) then
    repeat_z count (fun p => ok_or (next_point (block_starts s) p) (NotFound "SPACE blocks encountered EOD"))
      (current_position s)
  else
    repeat_z (neg_i64 count) (fun p => ok_or (previous_point (block_starts s) p) (OutOfRange "SPACE blocks before BOT"))
      (current_position s).

(** One filemark forward: past the next mark; one back: onto the mark before. *)
Definition filemark_forward (s : TapeState) (position : Z) : Result TapeError Z :=
  let? mark := ok_or (List.find (fun p => bool_decide (position <= p)) (sorted_points (filemarks s)))
                 (OutOfRange "SPACE filemarks beyond EOD") in
  Ok (position_after_filemark s mark).
Definition filemark_backward (s : TapeState) (position : Z) : Result TapeError Z :=
  ok_or (List.find (fun p => bool_decide (p < position)) (reverse (sorted_points (filemarks s))))
    (OutOfRange "SPACE filemarks before BOT").

Definition space_filemarks (s : TapeState) (count : Z) : Result TapeError Z :=
  if decide (count = 0) then Ok (current_position s)
  else if decide (filemarks s = []) then Err (OutOfRange "SPACE filemarks has no filemarks")
  else if decide (0 < count) then repeat_z count (filemark_forward s) (current_position s)
  else repeat_z (neg_i64 count) (filemark_backward s) (current_position s).

Definition show_i64 (z : Z) : string := if decide (z < 0) then "-" +:+ show_string (- z) else show_string z.
Definition space_eod (s : TapeState) (count : Z) : Result TapeError Z :=
  if decide (count = 0 \/ count = 1) then Ok (eod_position s)
  else if decide (count = -1) then Ok 0
  else Err (OutOfRange ("SPACE EOD count " +:+ show_i64 count +:+ " out of supported range")).

Definition read_position (s : TapeState) : Result TapeError PositionReport :=
  let? _ := ensure_loaded s in
  let? count := validate_payload_len (Zlen (filemarks s)) in
  Ok (mkPosition (current_position s) (eod_position s)
        (Zlen (List.filter (fun m => bool_decide (m < current_position s)) (filemarks s))) 0 count
        (list_min (List.filter (fun m => bool_decide (current_position s <= m)) (filemarks s)))
        (early_warning_active s)).

Definition read_reservation (s : TapeState) : Result TapeError ReservationReport :=
  let? _ := ensure_loaded s in
  let snap := snapshot s in
  Ok (mkReservationReport (snap_generation snap) (registration_count snap) (snap_active_owner snap)
        (snap_active_key snap)).

(** ** Commands *)
Section Commands.
Context `{HOST : Host} `{ENV : Environ} `{C : Crc32c} `{HO : HashOrder} `{BC : BlockCodecs} `{B3 : Blake3}.
Context `{SH : SpaceHost} `{SHA : Sha256} `{TH : Threads}.

Definition guard {A} (f : TapeState -> Result TapeError A) : M Sys TapeError A :=
  let! s := the_tape in liftM (f s).

Definition configured_initiator : string :=
  match getenv "HOLO_INITIATOR_IQN" with
  | Some raw => if decide (trim raw = []) then DEFAULT_INITIATOR else string_of_bytes (trim raw)
  | None => DEFAULT_INITIATOR
  end.

Definition tape_write_options (s : TapeState) : WriteOptions :=
  if data_compression_enabled s
  then mkOptions tape_dedup_enabled (preferred_codec default_write_options) (force_sync default_write_options)
         tape_payload_checksum_enabled
  else mkOptions tape_dedup_enabled CNone false tape_payload_checksum_enabled.

Definition load_media (cartridge : string) : M Sys TapeError unit :=
  invalidate_state_read_prefetch ;;! attach_cartridge cartridge.

Definition unload_media : M Sys TapeError unit :=
  let! s := the_tape in
  detach_cartridge ;;!
  match active_layout s with
  | Some layout => clear_read_prefetch_degradation (root layout)
  | None => retM tt
  end.

Definition rewind_media : M Sys TapeError unit :=
  guard ensure_loaded ;;!
  invalidate_state_read_prefetch ;;!
  let! s := the_tape in
  match active_layout s with
  | Some layout => let! _ := storage (flush_pending_writes layout) in retM tt
  | None => retM tt
  end ;;!
  set_tape (fun s => s <| current_position := 0 |>).

Definition set_worm_policy (worm locked : bool) : M Sys TapeError unit :=
  guard ensure_loaded ;;!
  if locked && negb worm then failM (InvalidArgument "retention lock requires worm media")
  else
    let! s := the_tape in
    if retention_locked (retention_policy s) && negb locked then failM WormWriteProtected
    else
      set_tape (fun s => s <| retention_policy := TapeState.mkRetention worm locked |>) ;;!
      match active_layout s with
      | Some layout => storage (persist_retention_state (root layout) worm locked)
      | None => retM tt
      end.

(** *** Reservations: the initiator defaults when none is given. *)
Definition initiator_or_default (initiator : option string) : string := default DEFAULT_INITIATOR initiator.
Definition reservation_op (f : string -> M TapeState TapeError unit) (initiator : option string)
  : M Sys TapeError unit :=
  guard ensure_loaded ;;! on_drive (f (initiator_or_default initiator)).
Definition register_reservation (i : option string) (key : Z) := reservation_op (fun i => register_key i key) i.
Definition register_ignore_reservation (i : option string) (key : Z) :=
  reservation_op (fun i => register_ignore_existing i key) i.
Definition reserve_reservation (i : option string) (key : Z) := reservation_op (fun i => reserve_key i key) i.
Definition release_reservation (i : option string) (key : Z) := reservation_op (fun i => release_key i key) i.
Definition clear_reservation (i : option string) (key : Z) := reservation_op (fun i => clear_keys i key) i.
Definition preempt_reservation (i : option string) (key service_key : Z) :=
  reservation_op (fun i => preempt_key i key service_key) i.
Definition register_and_move_reservation (i : option string) (key service_key : Z) (target : string)
  (unregister : bool) :=
  reservation_op (fun i => register_and_move_key i key service_key target unregister) i.

(** *** Admission *)
Definition space_op {A} (m : M SpaceState SpaceGuardError A) : M Sys TapeError A :=
  map_errM (fun e => Storage (SpaceAdmission e)) (on_space m).

(** Thirty seconds of attempts, ten milliseconds apart, and the last one. *)
Definition ACQUIRE_ATTEMPTS : nat := 3001.
Definition acquire_space_admission (layout : LayoutPaths) (payload_bytes blob_count touched_segments
  metadata_temporary_bytes : Z) : M Sys TapeError FilesystemReservation :=
  let! lock := space_op (acquire_wait ACQUIRE_ATTEMPTS (root layout) storage_runtime_dir 30000) in
  let! lock := liftM (ok_or lock (Storage (SpaceAdmission SGBusy))) in
  let! snapshot := space_op (lock_probe lock) in
  if decide (fl_filesystem_id lock <> filesystem_id snapshot)
  then failM (Storage (SpaceAdmission UnknownCapacity))
  else
    let! peak := space_op (liftM (estimate_write_peak_bytes payload_bytes blob_count touched_segments
                                    metadata_temporary_bytes (allocation_unit snapshot))) in
    let! in_flight := space_op (active_reservation_bytes lock) in
    let! total := liftM (ok_or (checked_add64 in_flight peak) (Storage (SpaceAdmission ArithmeticOverflow))) in
    space_op (liftM (ensure_capacity (available_bytes snapshot) total SPACE_RESERVE_BYTES)) ;;!
    let! r := space_op (reserve lock peak) in
    liftM (ok_or r (Storage (SpaceAdmission SGBusy))).

Definition acquire_write_admission (layout : LayoutPaths) (payload_bytes blob_count touched_segments
  metadata_temporary_bytes requested_units : Z) : M Sys TapeError FilesystemReservation :=
  map_errM (fun e => match e with Storage source => PhysicalWriteAdmission requested_units source | _ => e end)
    (acquire_space_admission layout payload_bytes blob_count touched_segments metadata_temporary_bytes).

(** The reservation is dropped when the command returns. *)
Definition with_reservation {A} (admission : M Sys TapeError FilesystemReservation) (body : M Sys TapeError A)
  : M Sys TapeError A :=
  let! r := admission in
  let! result := tryM body in
  let! _ := tryM (on_space (drop_reservation r)) in
  liftM result.

Definition finish_write_command (layout : LayoutPaths) (command : M Sys TapeError unit) : M Sys TapeError unit :=
  let! result := tryM command in
  match result with
  | Ok _ => retM tt
  | Err e =>
      set_tape (fun s => s <| requires_recovery := true |>) ;;!
      let! _ := tryM (on_world (discard_layout_caches_checked layout)) in
      failM e
  end.

Definition the_layout : M Sys TapeError LayoutPaths :=
  guard (fun s => ok_or (active_layout s) (NotReady "active layout missing")).

(** *** Erase *)
(** [fs::remove_dir_all]: every file below the directory goes. *)
Definition fs_remove_dir_all (dir : string) : M Fs IoError unit :=
  io_step ;;! modifyM (fun fs => fs <| fs_names := filter (fun kv => ~ path_under dir kv.1) (fs_names fs) |>).

Definition erase_layout (m : EraseMode) (layout : LayoutPaths) : M World StorageError unit :=
  match m with
  | EraseShort => reset_layout_for_overwrite layout
  | EraseLong =>
      discard_layout_caches_checked layout ;;!
      let! r := io_raw (fs_remove_dir_all (root layout)) in
      match r with
      | Err e => if decide (io_kind e = KNotFound) then retM tt else failM (SIo e)
      | Ok _ => retM tt
      end ;;!
      let! _ := initialize_layout layout in
      reset_layout_for_overwrite layout
  end.

Definition erase_media (m : EraseMode) (initiator : option string) : M Sys TapeError unit :=
  guard ensure_loaded ;;!
  invalidate_state_read_prefetch ;;!
  guard (fun s => enforce_protected_access s (initiator_or_default initiator)) ;;!
  guard enforce_worm_erase_allowed ;;!
  let! cartridge := guard (fun s => ok_or (cartridge_id s) (NotReady "missing cartridge id")) in
  let! layout := the_layout in
  guard ensure_recovery_complete ;;!
  with_reservation (acquire_space_admission layout 0 0 0 (16 * 1024))
    (let! before := the_tape in
     finish_write_command layout
       (storage (erase_layout m layout) ;;!
        on_drive_fs (mount cartridge layout) ;;!
        set_tape (fun s => s <| partition_runtime := partition_runtime before |>
                             <| cartridge_capacity_bytes := cartridge_capacity_bytes before |>
                             <| retention_policy := retention_policy before |>) ;;!
        let! s := the_tape in
        storage (persist_filemarks (root layout) (filemarks s)) ;;!
        storage (persist_retention_state (root layout) (is_worm_media (retention_policy s))
                   (retention_locked (retention_policy s))))).

(** *** Block mode *)
Definition set_block_mode_fixed (block_size : Z) : M Sys TapeError unit :=
  guard ensure_loaded ;;!
  if decide (block_size = 0) then failM (InvalidArgument "fixed block size must be > 0")
  else set_tape (fun s => s <| block_mode := mkBlockMode Fixed_ block_size |>).
Definition set_block_mode_variable : M Sys TapeError unit :=
  guard ensure_loaded ;;! set_tape (fun s => s <| block_mode := mkBlockMode Variable_ 0 |>).

(** *** Writing *)
(** [run_unmap] of the spans of at most 2^32-1 blocks that make up the tail. *)
Fixpoint unmap_spans (fuel : nat) (layout : LayoutPaths) (start remaining : Z) : M World StorageError unit :=
  match fuel with
  | O => retM tt
  | S f =>
      if decide (0 < remaining) then
        let span := Z.min remaining U32_MAX in
        let! _ := run_unmap layout start span in
        unmap_spans f layout (sat_add64 start span) (sat_sub remaining span)
      else retM tt
  end.
(** As many spans as the tail has. *)
Definition span_count (remaining : Z) : nat := Z.to_nat (remaining / U32_MAX + 1).

Definition forget_tail (point : Z) (s : TapeState) : TapeState :=
  let lengths := filter (fun e => sat_add64 e.1 e.2 <= point) (block_lengths s) in
  s <| filemarks := List.filter (fun m => bool_decide (m < point)) (filemarks s) |>
    <| block_lengths := lengths |>
    <| block_starts := List.filter (fun b => bool_decide (is_Some (lengths !! b))) (block_starts s) |>.

Definition truncate_tail_before_write (layout : LayoutPaths) : M Sys TapeError unit :=
  let! s := the_tape in
  if decide (eod_position s <= current_position s) then retM tt
  else if decide (current_position s = 0) then
    storage (reset_layout_for_overwrite layout) ;;!
    set_tape (fun s => s <| filemarks := [] |> <| block_lengths := ∅ |> <| block_starts := [] |>
                         <| eod_position := 0 |>) ;;!
    storage (persist_filemarks (root layout) [])
  else
    let remaining := sat_sub (eod_position s) (current_position s) in
    storage (unmap_spans (span_count remaining) layout (current_position s) remaining) ;;!
    set_tape (forget_tail (current_position s)) ;;!
    let! s := the_tape in
    storage (persist_filemarks (root layout) (filemarks s)) ;;!
    set_tape (fun s => s <| eod_position := current_position s |>).

(** One block at the current position: stored, entered in the block index,
    counted. *)
Definition advance (bytes : Z) (msg : string) : M Sys TapeError unit :=
  let! s := the_tape in
  let! position := liftM (ok_or (checked_add64 (current_position s) bytes) (Storage (Internal msg))) in
  set_tape (fun s => s <| current_position := position |>).

Definition write_block_here (layout : LayoutPaths) (payload : list Z) (marks len : Z) : M Sys TapeError unit :=
  let! s := the_tape in
  let! _ := storage (write_logical_block layout (current_position s) payload marks (tape_write_options s) None) in
  set_tape (record_block (current_position s) len) ;;!
  advance (Zlen payload) "tape position overflow" ;;!
  set_tape (fun s => s <| eod_position := Z.max (eod_position s) (current_position s) |>
    <| command_counters := (command_counters s) <| write_ops := sat_add64 (write_ops (command_counters s)) 1 |> |>) ;;!
  counters (record_write_usage (Zlen payload)).

Definition filemark_total : M Sys TapeError Z := guard (fun s => validate_payload_len (Zlen (filemarks s))).

Definition write_data (payload : list Z) (initiator : option string) : M Sys TapeError unit :=
  guard ensure_loaded ;;!
  guard ensure_recovery_complete ;;!
  invalidate_state_read_prefetch ;;!
  let! payload_len := liftM (validate_payload_len (Zlen payload)) in
  let! s := the_tape in
  if decide (payload = []) then
    if decide (mode (block_mode s) = Variable_) then retM tt
    else failM (InvalidArgument "write payload cannot be empty")
  else
    guard (fun s => enforce_protected_access s (initiator_or_default initiator)) ;;!
    guard enforce_worm_append_only ;;!
    if decide (mode (block_mode s) = Fixed_ /\ fixed_block_size (block_mode s) <> payload_len)
    then failM (FixedBlockSizeMismatch (fixed_block_size (block_mode s)) payload_len)
    else
      let! layout := the_layout in
      guard (fun s => ensure_capacity_available s (Zlen payload)) ;;!
      let requested_units := if decide (mode (block_mode s) = Fixed_) then 1 else payload_len in
      with_reservation (acquire_write_admission layout (Zlen payload) 1 1 8192 requested_units)
        (finish_write_command layout
           (let! _ := storage (mark_checkpoint_dirty layout) in
            truncate_tail_before_write layout ;;!
            let! marks := filemark_total in
            write_block_here layout payload marks payload_len)).

(** [payload.chunks(size)]. *)
Fixpoint chunks (fuel : nat) (size : nat) (l : list Z) : list (list Z) :=
  match fuel with
  | O => []
  | S f => match l with [] => [] | _ => take size l :: chunks f size (drop size l) end
  end.

Definition write_fixed_blocks (payload : list Z) (block_size : Z) (initiator : option string)
  : M Sys TapeError unit :=
  guard ensure_loaded ;;!
  guard ensure_recovery_complete ;;!
  invalidate_state_read_prefetch ;;!
  if decide (payload = [] \/ block_size = 0 \/ Zlen payload mod block_size <> 0)
  then failM (InvalidArgument "fixed-block write payload must contain complete blocks")
  else
    let! size := liftM (validate_payload_len block_size) in
    let! s := the_tape in
    if decide (mode (block_mode s) <> Fixed_ \/ fixed_block_size (block_mode s) <> size)
    then failM (FixedBlockSizeMismatch (fixed_block_size (block_mode s)) size)
    else
      guard (fun s => enforce_protected_access s (initiator_or_default initiator)) ;;!
      guard enforce_worm_append_only ;;!
      let! layout := the_layout in
      guard (fun s => ensure_capacity_available s (Zlen payload)) ;;!
      let block_count := Zlen payload / block_size in
      let! units := liftM (ok_or (u32_try_from block_count) (InvalidArgument "write too large")) in
      with_reservation (acquire_write_admission layout (Zlen payload) block_count block_count 8192 units)
        (finish_write_command layout
           (let! _ := storage (mark_checkpoint_dirty layout) in
            truncate_tail_before_write layout ;;!
            let! marks := filemark_total in
            forM (chunks (length payload) (Z.to_nat block_size) payload)
              (fun chunk => write_block_here layout chunk marks size))).

(** *** Filemarks *)
Fixpoint push_filemarks (count : nat) (step : Z) : M Sys TapeError unit :=
  match count with
  | O => retM tt
  | S n =>
      set_tape (fun s => s <| filemarks := filemarks s ++ [current_position s] |>) ;;!
      advance step "filemark position overflow" ;;!
      push_filemarks n step
  end.
Definition count_filemarks (count : Z) : M Sys TapeError unit :=
  set_tape (fun s => s <| command_counters :=
    (command_counters s) <| filemark_ops := sat_add64 (filemark_ops (command_counters s)) 1 |> |>) ;;!
  counters (record_filemark_usage count).

Definition write_filemarks (count : Z) (initiator : option string) : M Sys TapeError unit :=
  guard ensure_loaded ;;!
  guard ensure_recovery_complete ;;!
  invalidate_state_read_prefetch ;;!
  if decide (count = 0) then count_filemarks 0
  else
    guard (fun s => enforce_protected_access s (initiator_or_default initiator)) ;;!
    guard enforce_worm_append_only ;;!
    let! s := the_tape in
    let step := logical_position_step s in
    let! advance_by := liftM (ok_or (checked_mul64 step count) (Storage (Internal "filemark position overflow"))) in
    guard (fun s => ensure_capacity_available s advance_by) ;;!
    let! layout := the_layout in
    let! bytes := liftM (ok_or (checked_add64 (Zlen (filemarks s) * 8) (count * 8))
                           (Storage (Internal "filemark estimate overflow"))) in
    let admission := map_errM (fun e => match e with Storage source => PhysicalFilemarkAdmission source | _ => e end)
                       (acquire_space_admission layout 0 0 0 bytes) in
    with_reservation admission
      (finish_write_command layout
         (let! _ := storage (flush_pending_writes layout) in
          let! _ := storage (mark_checkpoint_dirty layout) in
          push_filemarks (Z.to_nat count) step ;;!
          set_tape (fun s => s <| eod_position := Z.max (eod_position s) (current_position s) |>) ;;!
          let! s := the_tape in
          storage (persist_filemarks (root layout) (filemarks s)) ;;!
          count_filemarks count)).

(** *** Reading *)
Definition count_read (bytes : Z) : M Sys TapeError unit :=
  set_tape (fun s => s <| command_counters :=
    (command_counters s) <| read_ops := sat_add64 (read_ops (command_counters s)) 1 |> |>) ;;!
  counters (record_read_usage bytes).

(** A filemark under the head: the head moves past it and the read reports it. *)
Definition stop_at_filemark (residue : Z) (partial : list Z) : M Sys TapeError unit :=
  let! s := the_tape in
  if decide (current_position s ∈ filemarks s) then
    set_tape (fun s => s <| current_position := position_after_filemark s (current_position s) |>) ;;!
    failM (FilemarkDetected residue partial)
  else retM tt.

Definition no_block_at (position : Z) : TapeError :=
  NotFound ("no block mapped at logical position " +:+ show_string position).

Definition read_data : M Sys TapeError (list Z) :=
  guard ensure_loaded ;;!
  guard ensure_recovery_complete ;;!
  let! layout := the_layout in
  stop_at_filemark 0 [] ;;!
  let! s := the_tape in
  let! found := storage (read_logical_block layout (current_position s)) in
  let! read := liftM (ok_or found (no_block_at (current_position s))) in
  if decide (mode (block_mode s) = Fixed_ /\ fixed_block_size (block_mode s) <> rd_logical_len read)
  then failM (FixedBlockSizeMismatch (fixed_block_size (block_mode s)) (rd_logical_len read))
  else
    set_tape (fun s => s <| current_position := (current_position s + rd_logical_len read) mod 2 ^ 64 |>) ;;!
    count_read (rd_logical_len read) ;;!
    retM (rd_payload read).

(** One block of a fixed-block transfer, from the read-ahead when it has it. *)
Definition read_fixed_block (layout : LayoutPaths) (size residue : Z) (partial : list Z) : M Sys TapeError (list Z) :=
  stop_at_filemark residue partial ;;!
  let! s := the_tape in
  let position := current_position s in
  let! ahead := map_errM Storage (take_read_prefetch layout position) in
  let! read := (match ahead with
                | Some r => retM r
                | None => let! found := storage (read_logical_block layout position) in
                          liftM (ok_or found (no_block_at position))
                end) in
  if decide (rd_logical_start read <> position) then
    invalidate_read_prefetch layout ;;!
    failM (NotFound ("prefetched block mapped at logical position " +:+ show_string (rd_logical_start read)
                     +:+ ", expected " +:+ show_string position))
  else if decide (rd_logical_len read <> size)
  then failM (FixedBlockSizeMismatch size (rd_logical_len read))
  else
    set_tape (fun s => s <| current_position := sat_add64 (current_position s) (rd_logical_len read) |>) ;;!
    count_read (rd_logical_len read) ;;!
    let! s := the_tape in
    schedule_read_prefetch layout (current_position s) (eod_position s) size ;;!
    retM (rd_payload read).

Fixpoint read_fixed_loop (left : nat) (layout : LayoutPaths) (size : Z) (out : list Z) : M Sys TapeError (list Z) :=
  match left with
  | O => retM out
  | S n =>
      let! payload := read_fixed_block layout size (default U32_MAX (u32_try_from (Z.of_nat left))) out in
      read_fixed_loop n layout size (out ++ payload)
  end.

Definition read_fixed_blocks (block_size transfer_blocks : Z) : M Sys TapeError (list Z) :=
  guard ensure_loaded ;;!
  guard ensure_recovery_complete ;;!
  let! size := liftM (validate_payload_len block_size) in
  if decide (transfer_blocks = 0 \/ block_size = 0)
  then failM (InvalidArgument "fixed-block read requires a non-empty transfer")
  else
    let! s := the_tape in
    if decide (mode (block_mode s) <> Fixed_ \/ fixed_block_size (block_mode s) <> size)
    then failM (FixedBlockSizeMismatch (fixed_block_size (block_mode s)) size)
    else
      let! layout := the_layout in
      read_fixed_loop (Z.to_nat transfer_blocks) layout size [].

(** *** Positioning *)
Definition space (branch : SpaceBranch) (count : Z) : M Sys TapeError unit :=
  guard ensure_loaded ;;!
  invalidate_state_read_prefetch ;;!
  set_tape (fun s => s <| command_counters :=
    (command_counters s) <| space_ops := sat_add64 (space_ops (command_counters s)) 1 |> |>) ;;!
  let! position := guard (fun s => match branch with
                                   | SpBlocks => space_blocks s count
                                   | SpFilemarks => space_filemarks s count
                                   | SpEndOfData => space_eod s count
                                   end) in
  set_tape (fun s => s <| current_position := position |>).

Definition locate (target : Z) : M Sys TapeError unit :=
  guard ensure_loaded ;;!
  invalidate_state_read_prefetch ;;!
  let! s := the_tape in
  if decide (eod_position s < target)
  then failM (OutOfRange ("locate target " +:+ show_string target +:+ " beyond eod " +:+ show_string (eod_position s)))
  else if negb (is_addressable_position s target)
  then failM (OutOfRange ("locate target " +:+ show_string target +:+ " is not an addressable position"))
  else set_tape (fun s => s <| current_position := target |>).

(** *** Mode and log pages of the core *)
Definition mode_sense (page_code : Z) : M Sys TapeError (list Z) :=
  guard ensure_loaded ;;!
  set_tape (fun s => s <| command_counters :=
    (command_counters s) <| mode_sense_ops := sat_add64 (mode_sense_ops (command_counters s)) 1 |> |>) ;;!
  let! s := the_tape in
  if decide (page_code = 0x00) then retM [0x00; 0x02; 0x10; 0x11]
  else if decide (page_code = 0x10) then
    retM ([0x10; 0x06; (if decide (mode (block_mode s) = Fixed_) then 0x01 else 0x00); 0x00] ++
          to_be 4 (fixed_block_size (block_mode s)))
  else if decide (page_code = 0x11) then
    retM ([0x11; 0x11] ++ to_be 8 (current_position s) ++ to_be 8 (eod_position s) ++
          [b2z (early_warning_active s)])
  else
    set_tape (fun s => s <| command_counters := (command_counters s)
      <| unsupported_mode_pages := sat_add64 (unsupported_mode_pages (command_counters s)) 1 |> |>) ;;!
    failM (UnsupportedModePage page_code).

Definition log_sense (page_code : Z) : M Sys TapeError (list Z) :=
  guard ensure_loaded ;;!
  set_tape (fun s => s <| command_counters :=
    (command_counters s) <| log_sense_ops := sat_add64 (log_sense_ops (command_counters s)) 1 |> |>) ;;!
  let! s := the_tape in
  let c := command_counters s in
  if decide (page_code = 0x00) then retM [0x00; 0x01; 0x31]
  else if decide (page_code = 0x31) then
    retM ([0x31; 0x40] ++ to_be 8 (write_ops c) ++ to_be 8 (read_ops c) ++ to_be 8 (filemark_ops c) ++
          to_be 8 (space_ops c) ++ to_be 8 (mode_sense_ops c) ++ to_be 8 (log_sense_ops c) ++
          to_be 8 (unsupported_mode_pages c) ++ to_be 8 (unsupported_log_pages c))
  else
    set_tape (fun s => s <| command_counters := (command_counters s)
      <| unsupported_log_pages := sat_add64 (unsupported_log_pages (command_counters s)) 1 |> |>) ;;!
    failM (UnsupportedLogPage page_code).
End Commands.
