(* ===== verification/CommandsCore.v ===== *)
(** * The command core (scsi_tape/commands_core.rs, iscsi/session.rs)

    One constructor per command, its execution, and the sense frame of its
    failure.  Telemetry events are built and dropped by the source and have no
    counterpart. *)

From S2P Require Import Prelude Bytes Text Errors Sense Fs Layout TapeState Reservation SpaceGuard Identity.
From S2P Require Import Compression Records World Crc Segment Logs BlkMap MapLookup Dedup DataBlobs DataPath.
From S2P Require Import System Bootstrap Prefetch MountBridge CommandChain.

Inductive CoreCommand : Type :=
| InquiryStandard (profile : DeviceIdentityProfile) (serial_seed : string)
| InquiryVpd (profile : DeviceIdentityProfile) (page_code : Z) (serial_seed : string)
| ReadElementStatus (profile : ElementAddressProfile) (drive_serials : list string)
| MamBaseline (barcode media_type : string) (capacity_bytes remaining_bytes : Z)
| Load (cartridge_id : string)
| Unload
| Rewind
| Erase (mode : EraseMode)
| EraseAs (initiator : string) (mode : EraseMode)
| WriteData (payload : list Z)
| WriteDataAs (initiator : string) (payload : list Z)
| ReadData
| WriteFilemarks (count : Z)
| WriteFilemarksAs (initiator : string) (count : Z)
| SpaceBlocks (count : Z)
| SpaceFilemarks (count : Z)
| SpaceEndOfData (count : Z)
| SetBlockModeFixed (block_size : Z)
| SetBlockModeVariable
| ModeSense (page_code : Z)
| LogSense (page_code : Z)
| SetWormPolicy (is_worm_media retention_locked : bool)
| ReservationRegister (initiator : string) (key : Z)
| ReservationRegisterIgnore (initiator : string) (service_key : Z)
| ReservationReserve (initiator : string) (key : Z)
| ReservationRelease (initiator : string) (key : Z)
| ReservationClear (initiator : string) (key : Z)
| ReservationPreempt (initiator : string) (key service_key : Z)
| ReservationRegisterMove (initiator : string) (key service_key : Z) (target_initiator : string)
    (unregister_source : bool)
| ReservationRead
| ReadPosition
| Locate (logical_block : Z)
| Mount | Unmount | Read | Write.

Inductive CoreResponse : Type :=
| RNone
| RBytes (bytes : list Z)
| RData (bytes : list Z)
| RElementStatus (entries : list ElementStatusEntry)
| RMam (record : MamBaselineRecord)
| RPosition (report : PositionReport)
| RReservation (report : ReservationReport).

Section Execute.
Context `{HOST : Host} `{ENV : Environ} `{C : Crc32c} `{HO : HashOrder} `{BC : BlockCodecs} `{B3 : Blake3}.
Context `{SH : SpaceHost} `{SHA : Sha256} `{TH : Threads}.

Definition done (m : M Sys TapeError unit) : M Sys TapeError CoreResponse := m ;;! retM RNone.
Definition giving {A} (f : A -> CoreResponse) (m : M Sys TapeError A) : M Sys TapeError CoreResponse :=
  let! a := m in retM (f a).

Definition execute (cmd : CoreCommand) : M Sys TapeError CoreResponse :=
  match cmd with
  | InquiryStandard p seed => giving RBytes (liftM (standard_inquiry_bytes p seed))
  | InquiryVpd p page seed => giving RBytes (liftM (vpd_page_bytes p page seed))
  | ReadElementStatus p serials => giving RElementStatus (liftM (element_status_entries p serials))
  | MamBaseline barcode media capacity remaining =>
      giving RMam (guard (fun s => build_mam_baseline s barcode media capacity remaining))
  | Load id => done (load_media id)
  | Unload => done unload_media
  | Rewind => done rewind_media
  | Erase m => done (erase_media m (Some configured_initiator))
  | EraseAs i m => done (erase_media m (Some i))
  | WriteData payload => done (write_data payload (Some configured_initiator))
  | WriteDataAs i payload => done (write_data payload (Some i))
  | ReadData => giving RData read_data
  | WriteFilemarks count => done (write_filemarks count (Some configured_initiator))
  | WriteFilemarksAs i count => done (write_filemarks count (Some i))
  | SpaceBlocks count => done (space SpBlocks count)
  | SpaceFilemarks count => done (space SpFilemarks count)
  | SpaceEndOfData count => done (space SpEndOfData count)
  | SetBlockModeFixed size => done (set_block_mode_fixed size)
  | SetBlockModeVariable => done set_block_mode_variable
  | ModeSense page => giving RBytes (mode_sense page)
  | LogSense page => giving RBytes (log_sense page)
  | SetWormPolicy worm locked => done (set_worm_policy worm locked)
  | ReservationRegister i key => done (register_reservation (Some i) key)
  | ReservationRegisterIgnore i key => done (register_ignore_reservation (Some i) key)
  | ReservationReserve i key => done (reserve_reservation (Some i) key)
  | ReservationRelease i key => done (release_reservation (Some i) key)
  | ReservationClear i key => done (clear_reservation (Some i) key)
  | ReservationPreempt i key service => done (preempt_reservation (Some i) key service)
  | ReservationRegisterMove i key service target unregister =>
      done (register_and_move_reservation (Some i) key service target unregister)
  | ReservationRead => giving RReservation (guard read_reservation)
  | ReadPosition => giving RPosition (guard read_position)
  | Locate block => done (locate block)
  | Mount => done (load_media "auto")
  | Unmount => done unload_media
  | Read => giving RData read_data
  | Write => failM (InvalidArgument "legacy WRITE requires payload; use WriteData")
  end.

Definition tape_error_to_sense (e : TapeError) : SenseFrame := resolve_sense_for_error e.
Definition execute_with_sense (cmd : CoreCommand) : M Sys SenseFrame CoreResponse :=
  map_errM tape_error_to_sense (execute cmd).
Definition encode_mam_response (r : MamBaselineRecord) : list Z := encode_mam_baseline r.
End Execute.

(** ** Sessions *)
Record Session : Type := mkSession { client_id : string; drive_state : TapeState }.
#[export] Instance eta_Session : Eta Session := fun r => mkSession (client_id r) (drive_state r).
Definition Session_new `{Environ} (client drive : string) : Session := mkSession client (TapeState_new drive).
Definition begin_io : M Session TapeError unit :=
  let! s := getM in
  if decide (mount_state (drive_state s) <> Loaded) then failM InvalidTransition
  else putM (s <| drive_state := (drive_state s) <| mount_state := Busy |> |>).
Definition end_io (s : Session) : Session :=
  if decide (mount_state (drive_state s) = Busy)
  then s <| drive_state := (drive_state s) <| mount_state := Loaded |> |> else s.
