(* ===== verification/CdbBase.v ===== *)
(** * Command descriptor blocks (iscsi/cdb_server.rs, iscsi/cdb_changer.rs)

    The parts the drive and the changer share: the fields of a command
    descriptor block, sense bytes and the responses built from them, the
    classification of operation codes, the transfer lengths, the READ POSITION
    formats and the translation between the host's block numbers and tape
    positions. *)

From S2P Require Import Prelude Bytes Text Errors Sense Fs Layout TapeState SpaceGuard Identity Wire.
From S2P Require Import Compression Records World DataPath System Bootstrap Prefetch MountBridge CommandChain CommandsCore.

(** A Rust panic: the one way a command handler ends without a response. *)
Inductive Panic : Type := Panicked (msg : string).

(** ** Text *)
(** [str::split_once] with a multi-byte separator, and [contains]. *)
Fixpoint split_once_seq (sep l : list Z) : option (list Z * list Z) :=
  match strip_prefix sep l with
  | Some rest => Some ([], rest)
  | None => match l with
            | [] => None
            | b :: l' => match split_once_seq sep l' with Some (k, v) => Some (b :: k, v) | None => None end
            end
  end.
Definition contains_seq (sep l : list Z) : bool := bool_decide (is_Some (split_once_seq sep l)).

(** [trim_end_matches]: every repetition of the suffix goes. *)
Fixpoint trim_end_matches (fuel : nat) (suffix l : list Z) : list Z :=
  match fuel with
  | O => l
  | S f => match strip_suffix suffix l with Some l' => trim_end_matches f suffix l' | None => l end
  end.

(** ** Fields *)
Definition cdb_byte (cdb : list Z) (i : nat) : Z := byte_at cdb i.
Definition try_read_be (n : nat) (input : list Z) (offset : nat) : option Z :=
  if decide (length input < offset + n)%nat then None else Some (from_be (slice offset (offset + n) input)).
Definition try_read_be24 := try_read_be 3.
Definition try_read_be16 := try_read_be 2.
Definition try_read_be32 := try_read_be 4.
Definition read_be24 (input : list Z) (offset : nat) : Z := default 0 (try_read_be24 input offset).
Definition read_be16 (input : list Z) (offset : nat) : Z := default 0 (try_read_be16 input offset).
Definition read_be32 (input : list Z) (offset : nat) : Z := default 0 (try_read_be32 input offset).
Definition read_be64 (input : list Z) (offset : nat) : option Z := try_read_be 8 input offset.
Definition bit (b : Z) (mask : Z) : bool := bool_decide (Z.land b mask <> 0).

Definition i64_from_be (l : list Z) : Z := let u := from_be l in if decide (u <= I64_MAX) then u else u - 2 ^ 64.

Definition sign_extend_be24 (b0 b1 b2 : Z) : Z :=
  let count_raw := from_be [0; b0; b1; b2] in
  if bit b0 0x80 then Z.lor count_raw (Z.shiftl (-1) 24) else count_raw.

(** ** Constants *)
Definition CHANGER_MT_START : Z := 0x0000.
Definition CHANGER_MT_COUNT : Z := 1.
Definition CHANGER_DT_START : Z := 0x0100.
Definition CHANGER_IE_START : Z := 0x0300.
Definition CHANGER_ST_START : Z := 0x0400.
Definition DRIVE_DEFAULT_BLOCK_LENGTH : Z := 256 * 1024.
Definition DRIVE_MIN_BLOCK_SIZE : Z := 1.
Definition DRIVE_REPORTED_MAX_BLOCK_SIZE : Z := 0x00FFFFFF.
Definition DRIVE_MAX_BLOCK_SIZE : Z := 8 * 1024 * 1024.
Definition MODE_PAGE_RW_ERROR_RECOVERY : Z := 0x01.
Definition MODE_PAGE_DISCONNECT_RECONNECT : Z := 0x02.
Definition MODE_PAGE_CACHING : Z := 0x08.
Definition MODE_PAGE_CONTROL_MODE : Z := 0x0A.
Definition MODE_PAGE_DATA_COMPRESSION : Z := 0x0F.
Definition MODE_PAGE_DEVICE_CONFIGURATION : Z := 0x10.
Definition MODE_PAGE_MEDIUM_PARTITION : Z := 0x11.
Definition MODE_PAGE_INFORMATION_EXCEPTION : Z := 0x1C.
Definition MODE_PAGE_MEDIUM_CONFIGURATION : Z := 0x1D.
Definition MODE_PAGE_ALL : Z := 0x3F.
Definition MODE_SUBPAGE_CONTROL_DATA_PROTECTION : Z := 0xF0.
Definition MODE_SUBPAGE_DEVICE_CONFIGURATION_EXTENSION : Z := 0x01.
Definition MODE_SENSE_PC_SAVED_VALUES : Z := 0x03.
Definition READ_ATTRIBUTE_ACTION_ATTRIBUTES : Z := 0x00.
Definition READ_ATTRIBUTE_ACTION_LIST : Z := 0x01.
Definition READ_POSITION_SERVICE_ACTION_SHORT : Z := 0x00.
Definition READ_POSITION_SERVICE_ACTION_LONG : Z := 0x06.
Definition READ_POSITION_SERVICE_ACTION_EXTENDED : Z := 0x08.

(** ** Sense bytes *)
Definition build_sense_fixed (key a q : Z) : list Z :=
  [0x70; 0; Z.land key 0x0F; 0; 0; 0; 0; 10; 0; 0; 0; 0; a; q; 0; 0; 0; 0].

Definition sense_frame_to_bytes (f : SenseFrame) : list Z :=
  let flags := Z.land (sense_key f) 0x0F in
  let flags := if end_of_medium f then Z.lor flags 0x40 else flags in
  let flags := if decide (sense_key f = 0 /\ asc f = 0 /\ ascq f = 1) then Z.lor flags 0x80 else flags in
  let info := if information_valid f then to_be 4 (information f) else [0; 0; 0; 0] in
  [if information_valid f then 0xF0 else 0x70; 0; flags] ++ info ++ [10; 0; 0; 0; 0; asc f; ascq f; 0; 0; 0; 0].

(** ** Responses *)
Definition sense_response (key a q : Z) : CdbResponse := check_condition (build_sense_fixed key a q).
Definition frame_response (f : SenseFrame) : CdbResponse := check_condition (sense_frame_to_bytes f).
Definition invalid_field_in_cdb_response : CdbResponse := sense_response 0x05 0x24 0x00.
Definition invalid_field_in_parameter_list_response : CdbResponse := sense_response 0x05 0x26 0x00.
Definition internal_target_failure_response : CdbResponse := sense_response 0x04 0x44 0x00.
Definition saving_parameters_not_supported_response : CdbResponse := sense_response 0x05 0x39 0x00.
Definition no_medium_response : CdbResponse := sense_response 0x02 0x3A 0x00.
Definition volume_overflow_response : CdbResponse :=
  check_condition [0x70; 0; Z.lor (Z.land 0x0D 0x0F) 0x40; 0; 0; 0; 0; 10; 0; 0; 0; 0; 0; 0; 0; 0; 0; 0].

Definition truncate_reply (reply : list Z) (allocation_len : Z) : list Z :=
  if decide (allocation_len = 0) then [] else take (Z.to_nat allocation_len) reply.

(** ** Structure and classification *)
Definition expected_cdb_length (opcode : Z) : option Z :=
  let group := Z.shiftr opcode 5 in
  if decide (group = 0) then Some 6
  else if decide (group = 1 \/ group = 2) then Some 10
  else if decide (group = 4) then Some 16
  else if decide (group = 5) then Some 12
  else None.
Definition validate_cdb_structure (cdb : list Z) : bool :=
  cdb_len_ok (Zlen cdb) &&
  match expected_cdb_length (cdb_byte cdb 0) with
  | Some expected => bool_decide (Zlen cdb = expected)
  | None => true
  end.

Definition is_data_write_opcode (opcode : Z) : bool := bool_decide (opcode ∈ [0x0A; 0x8A]).
Definition is_media_usage_mutating_opcode (opcode : Z) : bool := bool_decide (opcode ∈ [0x04; 0x0A; 0x8A; 0x10; 0x19]).
Definition is_data_transfer_opcode (opcode : Z) : bool := bool_decide (opcode ∈ [0x08; 0x88; 0x0A; 0x8A]).
Definition drive_opcode_requires_media_sync (opcode : Z) (s : TapeState) : bool :=
  bool_decide (mount_state s = Loaded) && negb (is_data_transfer_opcode opcode)
  || bool_decide (mount_state s = Empty) && bool_decide (opcode = 0x00).
Definition is_fixed_block_transfer (cdb : list Z) : bool := bit (cdb_byte cdb 1) 0x01.

Definition write_transfer_blocks (opcode : Z) (cdb : list Z) : Z :=
  if decide (opcode = 0x0A) then (if decide (cdb_byte cdb 4 = 0) then 256 else cdb_byte cdb 4)
  else if decide (opcode = 0x8A) then read_be32 cdb 10 else 0.
Definition read_transfer_blocks (opcode : Z) (cdb : list Z) : Z :=
  if decide (opcode = 0x08) then (if decide (read_be24 cdb 2 = 0) then 256 else read_be24 cdb 2)
  else if decide (opcode = 0x88) then read_be32 cdb 10 else 0.

Definition is_fixed (s : TapeState) : Prop := mode (block_mode s) = Fixed_.
#[export] Instance is_fixed_dec s : Decision (is_fixed s).
Proof. unfold is_fixed; apply _. Defined.
Definition fixed_block_size_of (s : TapeState) : option Z :=
  if decide (is_fixed s) then
    if decide (fixed_block_size (block_mode s) = 0) then None else Some (fixed_block_size (block_mode s))
  else None.

(** At the beginning of an empty tape with the FIXED bit and a transfer length
    of one block. *)
Definition single_block_probe (cdb : list Z) : bool :=
  if decide (cdb_byte cdb 0 = 0x0A) then bool_decide (cdb_byte cdb 4 = 1)
  else if decide (cdb_byte cdb 0 = 0x8A) then bool_decide (read_be32 cdb 10 = 1)
  else false.
Definition at_blank_bot (s : TapeState) : bool :=
  bool_decide (mount_state s = Loaded /\ current_position s = 0 /\ eod_position s = 0).
Definition is_legacy_empty_write_probe (s : TapeState) (cdb data_out : list Z) : bool :=
  bool_decide (data_out = []) && at_blank_bot s && bit (cdb_byte cdb 1) 0x01 && single_block_probe cdb.
Definition is_legacy_single_byte_write_probe (s : TapeState) (cdb data_out : list Z) : bool :=
  bool_decide (length data_out = 1)%nat && at_blank_bot s && bit (cdb_byte cdb 1) 0x01 &&
  bool_decide (is_fixed s /\ 1 < fixed_block_size (block_mode s)) && single_block_probe cdb.

Definition projected_write_bytes (s : TapeState) (cdb data_out : list Z) : Z :=
  let block_size := fixed_block_size (block_mode s) in
  if decide (~ is_fixed s \/ block_size = 0) then Zlen data_out
  else
    let opcode := cdb_byte cdb 0 in
    let transfer_blocks :=
      if decide (opcode = 0x0A) then (if decide (cdb_byte cdb 4 = 0) then 256 else cdb_byte cdb 4)
      else if decide (opcode = 0x2A) then read_be16 cdb 7
      else if decide (opcode = 0xAA) then read_be32 cdb 6
      else if decide (opcode = 0x8A) then read_be32 cdb 10
      else 0 in
    if decide (transfer_blocks = 0) then Zlen data_out else sat_mul64 transfer_blocks block_size.

(** ** Block numbers and positions *)
Definition fixed_block_size_bytes (s : TapeState) : option Z :=
  if decide (is_fixed s /\ 0 < fixed_block_size (block_mode s)) then Some (fixed_block_size (block_mode s)) else None.

Definition variable_block_address_points (s : TapeState) : list Z :=
  merge_sort Z.le (remove_dups (block_starts s ++ filemarks s)).

Definition transport_logical_to_internal_offset (s : TapeState) (logical_block : Z) : Z :=
  match fixed_block_size_bytes s with
  | Some size => sat_mul64 logical_block size
  | None =>
      let points := variable_block_address_points s in
      match points !! Z.to_nat logical_block with
      | Some p => p
      | None => if decide (logical_block = Zlen points) then eod_position s else sat_add64 (eod_position s) 1
      end
  end.

(** [partition_point] of a sorted list: how many are below. *)
Definition transport_internal_offset_to_logical (s : TapeState) (position : Z) : Z :=
  match fixed_block_size_bytes s with
  | Some size => position / size
  | None =>
      let points := variable_block_address_points s in
      if decide (eod_position s <= position) then Zlen points
      else Zlen (List.filter (fun p => bool_decide (p < position)) points)
  end.
Definition read_position_reported_position (position : Z) : Z := position.

(** ** READ POSITION data *)
Definition read_position_flags (r : PositionReport) : Z :=
  Z.lor (if decide (pr_current_position r = 0) then 0x80 else 0) (if pr_early_warning r then 0x40 else 0).
Definition read_position_short_response (r : PositionReport) (partition position : Z) : list Z :=
  let pos32 := Z.min position U32_MAX in
  [read_position_flags r; partition; 0; 0] ++ to_be 4 pos32 ++ to_be 4 (sat_sub pos32 0) ++
  [0; 0; 0; 0] ++ [0; 0; 0; 0].
Definition read_position_long_response (r : PositionReport) (partition position : Z) : list Z :=
  [read_position_flags r; 0; 0; 0] ++ to_be 4 partition ++ to_be 8 position ++
  to_be 8 (pr_file_number r) ++ to_be 8 (pr_set_number r).
Definition read_position_extended_response (r : PositionReport) (partition position : Z) : list Z :=
  [read_position_flags r; partition] ++ to_be 2 0x1C ++ [0; 0; 0; 0] ++ to_be 8 position ++
  to_be 8 (sat_sub position 0) ++ to_be 8 0.
Definition read_position_allocation_length (cdb : list Z) (service_action : Z) : Z :=
  if decide (service_action = READ_POSITION_SERVICE_ACTION_SHORT) then 20
  else if decide (service_action = READ_POSITION_SERVICE_ACTION_LONG) then 32
  else if decide (service_action = READ_POSITION_SERVICE_ACTION_EXTENDED) then Z.min 32 (read_be16 cdb 7)
  else 20.
Definition read_position_response_bytes (s : TapeState) (cdb : list Z) (r : PositionReport) (partition : Z) : list Z :=
  let position := read_position_reported_position
                    (transport_internal_offset_to_logical s (pr_current_position r)) in
  let service_action := Z.land (cdb_byte cdb 1) 0x1F in
  let out :=
    if decide (service_action = READ_POSITION_SERVICE_ACTION_LONG) then read_position_long_response r partition position
    else if decide (service_action = READ_POSITION_SERVICE_ACTION_EXTENDED)
    then read_position_extended_response r partition position
    else read_position_short_response r partition position in
  take (Z.to_nat (read_position_allocation_length cdb service_action)) out.

(** ** Replies of the command core *)
Definition element_class_byte (c : ElementClass) : Z :=
  match c with EcDrive => 0x01 | EcSlot => 0x02 | EcImportExport => 0x03 end.
Definition core_response_to_bytes (s : TapeState) (r : CoreResponse) (cdb : list Z) : list Z :=
  match r with
  | RNone => []
  | RBytes b => b
  | RData d => d
  | RElementStatus entries =>
      concat (map (fun e => element_class_byte (ee_class e) :: to_be 2 (ee_start_addr e) ++ to_be 2 (ee_count e)) entries)
  | RMam record => encode_mam_response record
  | RPosition report => read_position_response_bytes s cdb report (active_partition (partition_runtime s))
  | RReservation _ => []
  end.

(** ** Unit attention *)
Definition request_sense_response (s : TapeState) : list Z * TapeState :=
  match take_unit_attention s with
  | (Some (a, q), s') => (build_sense_fixed 0x06 a q, s')
  | (None, s') => ([0x70; 0; 0; 0; 0; 0; 0; 10; 0; 0; 0; 0; 0; 0; 0; 0; 0; 0], s')
  end.

(** The first attention that is not the power-on one, except for INQUIRY. *)
Definition take_pending_unit_attention_for_opcode (s : TapeState) (opcode : Z) : option (Z * Z) * TapeState :=
  if decide (opcode = 0x12) then (None, s)
  else match list_find (fun ua => ua <> (0x29, 0x00)) (pending_unit_attention s) with
       | Some (i, ua) => (Some ua, s <| pending_unit_attention := list_delete i (pending_unit_attention s) |>)
       | None => (None, s)
       end.

(** ** Who sent the command *)
Record CdbDispatchContext : Type := mkContext { initiator : option string }.
Definition no_context : CdbDispatchContext := mkContext None.
Definition with_initiator (raw : string) : CdbDispatchContext :=
  let trimmed := trim_string raw in
  if decide (trimmed = EmptyString) then no_context else mkContext (Some trimmed).
Definition context_initiator_or_default `{ENV : Environ} (c : CdbDispatchContext) : string :=
  match initiator c with
  | Some value => if decide (trim_string value = EmptyString) then configured_initiator else value
  | None => configured_initiator
  end.

(** ** Running the layers below

    A failure of a lower layer is a value the handler looks at. *)
Definition attempt {E A} (m : M Sys E A) : M Sys Panic (Result E A) := tryM m.

(** WRITE(6) counts its blocks with one byte where READ(6) uses three: of 257
    blocks it takes one. *)
Theorem write6_counts_one_byte :
  write_transfer_blocks 0x0A [0x0A; 1; 0; 1; 1; 0] = 1 /\ read_transfer_blocks 0x08 [0x08; 1; 0; 1; 1; 0] = 257.
Proof. done. Qed.
