(* ===== verification/DriveProfile.v ===== *)
(** * Drive profiles, partitions and parameter pages (iscsi/cdb_drive.rs)

    What a drive reports about itself and its medium: generation tables,
    partition layout, mode pages, density descriptors and the attributes in
    medium auxiliary memory. *)

From S2P Require Import Prelude Bytes Text Errors Sense Fs Layout TapeState SpaceGuard Identity Wire.
From S2P Require Import Compression Records World DataPath System Bootstrap Prefetch MountBridge CommandChain CommandsCore.
From S2P Require Import CdbBase.

(** ** Generations *)
Definition to_ascii_uppercase (b : Z) : Z := if decide (97 <= b <= 122) then b - 32 else b.
Definition product_upper (p : DeviceIdentityProfile) : list Z := map to_ascii_uppercase (bytes_of_string (product p)).
Definition product_has (p : DeviceIdentityProfile) (word : string) : bool :=
  contains_seq (bytes_of_string word) (product_upper p).
Definition names_generation (p : DeviceIdentityProfile) (g : Z) : bool :=
  product_has p ("TD" +:+ show_string g) || product_has p ("ULTRIUM " +:+ show_string g).
(** The first generation, in ascending order, the product names. *)
Definition product_generation (p : DeviceIdentityProfile) : option Z :=
  List.find (names_generation p) [1; 2; 3; 4; 5; 6; 7; 8; 9].

Definition density_code_for_profile (p : DeviceIdentityProfile) : Z :=
  match product_generation p with
  | Some 1 => 0x40 | Some 2 => 0x42 | Some 3 => 0x44 | Some 4 => 0x46 | Some 5 => 0x58
  | Some 6 => 0x5A | Some 7 => 0x5D | Some 8 => 0x5E | Some 9 => 0x5F | _ => 0x5A
  end.
Definition native_capacity_bytes_for_profile (p : DeviceIdentityProfile) : Z :=
  (match product_generation p with
   | Some 1 => 100 | Some 2 => 200 | Some 3 => 400 | Some 4 => 800 | Some 5 => 1500
   | Some 6 => 2500 | Some 7 => 6000 | Some 8 => 12000 | Some 9 => 18000 | _ => 2500
   end) * 1024 * 1024 * 1024.
Definition lto_generation_for_profile (p : DeviceIdentityProfile) : Z := default 6 (product_generation p).
Definition is_lto_profile (p : DeviceIdentityProfile) : bool := product_has p "TD" || product_has p "ULTRIUM".
Definition native_transfer_rate_mib_per_sec_for_profile (p : DeviceIdentityProfile) : Z :=
  if is_lto_profile p then
    match lto_generation_for_profile p with
    | 1 => 20 | 2 => 40 | 3 => 80 | 4 => 120 | 5 => 140 | 6 => 160 | 7 => 300 | 8 => 360 | 9 => 400 | _ => 160
    end
  else if product_has p "VS80" then 3
  else if product_has p "VS160" then 8
  else if product_has p "SDLT600" then 36
  else if product_has p "SDLT320" then 16
  else if product_has p "SDLT1" || product_has p "SDLT220" || product_has p "SUPERDLT1" then 11
  else 160.
Definition max_additional_partitions_for_profile (p : DeviceIdentityProfile) : Z :=
  if names_generation p 6 then 3 else if names_generation p 5 then 1 else 0.
Definition lto_media_length_for_generation (g : Z) : Z :=
  match g with 1 | 2 => 609 | 3 => 680 | 4 => 820 | 5 | 6 => 846 | 7 => 960 | 8 => 1024 | 9 => 1100 | _ => 846 end.
Definition density_name_for_profile (p : DeviceIdentityProfile) : string :=
  "DENS" +:+ string_of_bytes (hex2 (density_code_for_profile p)).
Definition density_description_for_profile (p : DeviceIdentityProfile) : string :=
  if decide (trim_string (product p) = EmptyString) then "Virtual Tape Media"
  else trim_string (product p) +:+ " media".

Definition bytes_to_mib_u32 (value : Z) : Z := Z.min (value / (1024 * 1024)) U32_MAX.
Definition clamp_u64_to_u32 (value : Z) : Z := Z.min value U32_MAX.

(** ** Capacity *)
Definition positive_capacity (s : TapeState) : option Z :=
  match cartridge_capacity_bytes s with Some c => if decide (0 < c) then Some c else None | None => None end.
Definition medium_capacity_bytes_for_state (s : TapeState) (p : DeviceIdentityProfile) : Z :=
  default (native_capacity_bytes_for_profile p) (positive_capacity s).
Definition has_custom_capacity_override (s : TapeState) (p : DeviceIdentityProfile) : bool :=
  match positive_capacity s with Some c => bool_decide (c <> native_capacity_bytes_for_profile p) | None => false end.

(** ** Partitions *)
Definition normalized_partition_units (raw_units : Z) : Z := Z.max 9 (Z.land raw_units 0x0F).
Definition partition_unit_bytes (units : Z) : option Z :=
  if decide (units < 9) then None
  else if decide (12 < units - 9) then None
  else Some (Z.shiftl (1024 * 1024 * 1024) (units - 9)).
Definition partition_size_to_units (size units : Z) : Z :=
  match partition_unit_bytes units with
  | None => 0
  | Some unit_size => if decide (size = 0) then 0
                      else Z.min (sat_add64 size (sat_sub unit_size 1) / unit_size) U16_MAX
  end.

(** One partition that takes the whole medium. *)
Definition single_partition (capacity : Z) (r : PartitionRuntime) : PartitionRuntime :=
  r <| partition_units := 9 |> <| addl_partitions_defined := 0 |>
    <| partition_sizes_bytes := [capacity; 0; 0; 0] |>
    <| partition_size_units := [partition_size_to_units capacity 9; 0; 0; 0] |>.
Definition initial_partition (capacity : Z) (r : PartitionRuntime) : PartitionRuntime :=
  (single_partition capacity r) <| fdp := 0x9C |> <| medium_fmt_recognition := 0x03 |> <| active_partition := 0 |>.

Definition ensure_partition_runtime_initialized (p : DeviceIdentityProfile) (s : TapeState) : TapeState :=
  if decide (byte_at (partition_sizes_bytes (partition_runtime s)) 0 <> 0) then s
  else s <| partition_runtime := initial_partition (medium_capacity_bytes_for_state s p) (partition_runtime s) |>.

Definition apply_medium_capacity_override (s : TapeState) (capacity : Z) : TapeState :=
  if decide (capacity = 0) then s
  else
    let s := s <| cartridge_capacity_bytes := Some capacity |> in
    if decide (addl_partitions_defined (partition_runtime s) = 0)
    then s <| partition_runtime := initial_partition capacity (partition_runtime s) |> else s.

Definition partition_count (s : TapeState) : Z :=
  Z.max 1 (Z.min (addl_partitions_defined (partition_runtime s) + 1) 4).
Definition active_partition_capacity_bytes (s : TapeState) (p : DeviceIdentityProfile) : Z :=
  let idx := Z.to_nat (Z.min (active_partition (partition_runtime s)) (partition_count s - 1)) in
  let configured := byte_at (partition_sizes_bytes (partition_runtime s)) idx in
  if decide (configured = 0) then medium_capacity_bytes_for_state s p else configured.

Definition parse_partition_sizes (page : list Z) (addl : Z) : option (list Z) :=
  let count := Z.to_nat (addl + 1) in
  if decide (count = 0 \/ 4 < count)%nat then None
  else if decide (length page < 8 + count * 2)%nat then None
  else Some (map (fun i => from_be (slice (8 + i * 2) (10 + i * 2) page)) (seq 0 count) ++ replicate (4 - count) 0).

(** The sizes of a partition definition, [u16::MAX] standing for the rest of
    the medium: whether that was seen, and the total of the others. *)
Fixpoint total_partitions (unit_size : Z) (idx : nat) (sizes : list Z) (fill : bool) (total : Z) : option (bool * Z) :=
  match sizes with
  | [] => Some (fill, total)
  | raw :: rest =>
      if decide (raw = U16_MAX) then
        if fill || bool_decide (1 < idx)%nat then None else total_partitions unit_size (S idx) rest true total
      else total_partitions unit_size (S idx) rest fill (sat_add64 total (sat_mul64 unit_size raw))
  end.
Definition validate_partition_definition (capacity : Z) (p : DeviceIdentityProfile) (units addl : Z) (sizes : list Z)
  : option unit :=
  if decide (max_additional_partitions_for_profile p < addl) then None
  else if decide (units <> 0 /\ units < 9) then None
  else if decide (units = 0 /\ 1 < addl) then None
  else if decide (units = 0) then Some tt
  else
    unit_size ← partition_unit_bytes units;
    '(fill, total) ← total_partitions unit_size 0 (take (Z.to_nat (addl + 1)) sizes) false 0;
    if (fill : bool) then (if decide (capacity <= total) then None else Some tt)
    else (if decide (capacity < total) then None else Some tt).

Definition apply_medium_partition_mode_page (p : DeviceIdentityProfile) (page : list Z) (s : TapeState)
  : option TapeState :=
  if decide (length page < 8)%nat then None
  else
    let addl := byte_at page 3 in
    let fdp_byte := byte_at page 4 in
    let units := Z.land (byte_at page 6) 0x0F in
    sizes ← parse_partition_sizes page addl;
    if decide (Z.land (Z.shiftr fdp_byte 3) 0x03 <> 0x03) then None
    else
      _ ← validate_partition_definition (medium_capacity_bytes_for_state s p) p units addl sizes;
      Some (s <| partition_runtime := (partition_runtime s)
                   <| partition_units := if decide (units = 0) then 0 else normalized_partition_units units |>
                   <| addl_partitions_defined := addl |> <| fdp := fdp_byte |>
                   <| medium_fmt_recognition := byte_at page 5 |> <| partition_size_units := sizes |> |>).

(** The partitions measured in units: their sizes, the one that takes the rest
    and the total so far. *)
Fixpoint measure_partitions (unit_size : Z) (idx : nat) (sizes : list Z) (acc : list Z * option nat * Z)
  : list Z * option nat * Z :=
  match sizes with
  | [] => acc
  | raw :: rest =>
      let '(bytes, fill, total) := acc in
      if decide (raw = U16_MAX) then measure_partitions unit_size (S idx) rest (bytes, Some idx, total)
      else
        let size := sat_mul64 unit_size raw in
        measure_partitions unit_size (S idx) rest (<[idx := size]> bytes, fill, sat_add64 total size)
  end.
Definition fill_partitions (capacity : Z) (m : list Z * option nat * Z) : option (list Z) :=
  let '(bytes, fill, total) := m in
  filled ← match fill with
           | Some i => if decide (capacity <= total) then None else Some (<[i := capacity - total]> bytes, capacity)
           | None => Some (bytes, total)
           end;
  let '(bytes, total) := filled in
  if decide (capacity < total) then None
  else if decide (total < capacity) then Some (<[0%nat := sat_add64 (byte_at bytes 0) (capacity - total)]> bytes)
  else Some bytes.

(** The percentage [p0] to the first of two partitions, the rest to the second. *)
Definition percent_split (capacity percent : Z) : list Z :=
  let first := sat_mul64 capacity percent / 100 in [first; sat_sub capacity first; 0; 0].
Definition plan_partitions (capacity : Z) (r : PartitionRuntime) : option (Z * list Z) :=
  let units := Z.land (partition_units r) 0x0F in
  let addl := addl_partitions_defined r in
  let sizes := partition_size_units r in
  if decide (Z.land (Z.shiftr (fdp r) 5) 0x07 = 0) then None
  else if decide (Z.land (Z.shiftr (fdp r) 7) 0x01 <> 0) then Some (1, percent_split capacity 95)
  else if decide (units = 0) then
    if decide (addl = 0) then Some (addl, [capacity; 0; 0; 0])
    else
      let p0 := byte_at sizes 0 in
      Some (addl, percent_split capacity (if decide (p0 = 0 \/ 100 < p0) then 50 else p0))
  else
    unit_size ← partition_unit_bytes units;
    bytes ← fill_partitions capacity
              (measure_partitions unit_size 0 (take (Z.to_nat (addl + 1)) sizes) ([0; 0; 0; 0], None, 0));
    Some (addl, bytes).

Definition apply_format_medium_layout (p : DeviceIdentityProfile) (format : Z) : M TapeState unit unit :=
  modifyM (ensure_partition_runtime_initialized p) ;;!
  let! s := getM in
  let capacity := medium_capacity_bytes_for_state s p in
  let r := partition_runtime s in
  if decide (format = 0) then putM (s <| partition_runtime := single_partition capacity r |>)
  else
    let! _ := liftM (ok_or (validate_partition_definition capacity p (Z.land (partition_units r) 0x0F)
                              (addl_partitions_defined r) (partition_size_units r)) tt) in
    if decide (max_additional_partitions_for_profile p < addl_partitions_defined r) then failM tt
    else
      let! (addl, bytes) := liftM (ok_or (plan_partitions capacity r) tt) in
      let units := normalized_partition_units (Z.land (partition_units r) 0x0F) in
      let count := Z.to_nat (Z.min (addl + 1) 4) in
      putM (s <| partition_runtime := r <| partition_units := units |> <| addl_partitions_defined := addl |>
                   <| partition_sizes_bytes := bytes |>
                   <| partition_size_units := map (fun b => partition_size_to_units b units) (take count bytes) ++
                                              replicate (4 - count) 0 |> |>).

(** ** Mode pages *)
(** For the changeable values only the first [keep] bytes stay. *)
Definition changeable (page_control : Z) (keep : nat) (page : list Z) : list Z :=
  if decide (page_control = 0x01) then take keep page ++ replicate (length page - keep) 0 else page.

Definition drive_mode_page_information_exception (pc : Z) : list Z :=
  let page := [MODE_PAGE_INFORMATION_EXCEPTION; 0x0A; 0x08; 0; 0; 0; 0; 0; 0; 0; 0; 0] in
  if decide (pc = 0x01) then <[2%nat := 0x08]> (changeable pc 2 page) else page.
Definition drive_mode_page_caching (pc : Z) : list Z :=
  changeable pc 2 [MODE_PAGE_CACHING; 0x0A; 0; 0; 0; 0; 0; 0; 0; 0; 0; 0].
Definition drive_mode_page_rw_error_recovery (pc : Z) : list Z :=
  changeable pc 2 [MODE_PAGE_RW_ERROR_RECOVERY; 0x0A; 0x80; 0; 0; 0; 0; 0; 0; 0; 0; 0].
Definition drive_mode_page_disconnect_reconnect (pc : Z) : list Z :=
  changeable pc 2 [MODE_PAGE_DISCONNECT_RECONNECT; 0x0E; 0; 0; 0; 0; 0; 0; 0; 0; 0; 0; 0; 0; 0; 0].
Definition drive_mode_page_control_mode (pc : Z) : list Z :=
  changeable pc 2 [MODE_PAGE_CONTROL_MODE; 0x0A; 0x20; 0; 0x40; 0; 0; 0; 0; 0; 0; 0].
Definition drive_mode_page_control_data_protection (pc : Z) : list Z :=
  changeable pc 4 ([Z.lor 0x40 MODE_PAGE_CONTROL_MODE; MODE_SUBPAGE_CONTROL_DATA_PROTECTION; 0x00; 0x1C; 0x00; 0x04; 0x00]
                   ++ replicate 25 0).
Definition drive_mode_page_data_compression (s : TapeState) (pc : Z) : list Z :=
  let dce := if data_compression_enabled s then 0x80 else 0x00 in
  let dcc := if data_compression_allowed s then 0x40 else 0x00 in
  let page := [MODE_PAGE_DATA_COMPRESSION; 0x0E; Z.lor dce dcc; 0x80; 0; 0; 0; 0xFF; 0; 0; 0; 0xFF; 0; 0; 0; 0] in
  if decide (pc = 0x01) then
    (if data_compression_allowed s then <[2%nat := 0x80]> (changeable pc 2 page) else changeable pc 2 page)
  else page.
Definition drive_mode_page_device_configuration (s : TapeState) (pc : Z) : list Z :=
  let page := [MODE_PAGE_DEVICE_CONFIGURATION; 0x0E; 0; active_partition (partition_runtime s); 0; 0; 0; 0; 0x40; 0;
               0x08; 0; 0; 0; b2z (select_data_compression_algorithm s); 0] in
  if decide (pc = 0x01) then <[14%nat := 0xFF]> (<[10%nat := 0x08]> (changeable pc 2 page)) else page.
Definition drive_mode_page_device_configuration_extension (pc : Z) : list Z :=
  changeable pc 4 ([Z.lor 0x40 MODE_PAGE_DEVICE_CONFIGURATION; MODE_SUBPAGE_DEVICE_CONFIGURATION_EXTENSION;
                    0x00; 0x1C; 0x00; 0x02; 0x00; 0x00; 0x00] ++ replicate 23 0).
(** The partition sizes in units, computed where the runtime has only bytes. *)
Definition reported_units (r : PartitionRuntime) (units : Z) (count : nat) (i : nat) : Z :=
  let u := byte_at (partition_size_units r) i in
  let b := byte_at (partition_sizes_bytes r) i in
  if decide ((i < count)%nat /\ u = 0 /\ 0 < b) then partition_size_to_units b units else u.
Definition drive_mode_page_medium_partition (s : TapeState) (p : DeviceIdentityProfile) (pc : Z) : list Z :=
  let r := partition_runtime s in
  let units := normalized_partition_units (partition_units r) in
  let max_addl := max_additional_partitions_for_profile p in
  let addl := Z.min (addl_partitions_defined r) max_addl in
  let count := Z.to_nat (Z.min (addl + 1) 4) in
  if decide (pc = 0x01) then
    [MODE_PAGE_MEDIUM_PARTITION; 0x0E; 0x00; 0xFF; 0xFC; 0x00; 0x0F; 0x00] ++ replicate 8 0xFF
  else
    [MODE_PAGE_MEDIUM_PARTITION; 0x0E; max_addl; addl; fdp r; medium_fmt_recognition r; units; 0x00] ++
    concat (map (fun i => to_be 2 (reported_units r units count i)) (seq 0 4)).
Definition drive_mode_page_medium_configuration (s : TapeState) (pc : Z) : list Z :=
  let worm := is_worm_media (retention_policy s) && bool_decide (mount_state s = Loaded) in
  let head := if worm then [0x01; 0x00; 0x01; 0x02] else [0x00; 0x00; 0x00; 0x00] in
  changeable pc 2 ([MODE_PAGE_MEDIUM_CONFIGURATION; 0x1E] ++ head ++ replicate 26 0).

Definition drive_mode_pages (s : TapeState) (p : DeviceIdentityProfile) (page sub pc : Z) : option (list Z) :=
  if decide (sub <> 0) then
    if decide (page = MODE_PAGE_DEVICE_CONFIGURATION /\ sub = MODE_SUBPAGE_DEVICE_CONFIGURATION_EXTENSION)
    then Some (drive_mode_page_device_configuration_extension pc)
    else if decide (page = MODE_PAGE_CONTROL_MODE /\ sub = MODE_SUBPAGE_CONTROL_DATA_PROTECTION)
    then Some (drive_mode_page_control_data_protection pc)
    else None
  else if decide (page = 0x00) then Some [0x00; 0x00]
  else if decide (page = MODE_PAGE_RW_ERROR_RECOVERY) then Some (drive_mode_page_rw_error_recovery pc)
  else if decide (page = MODE_PAGE_DISCONNECT_RECONNECT) then Some (drive_mode_page_disconnect_reconnect pc)
  else if decide (page = MODE_PAGE_CACHING) then Some (drive_mode_page_caching pc)
  else if decide (page = MODE_PAGE_CONTROL_MODE) then Some (drive_mode_page_control_mode pc)
  else if decide (page = MODE_PAGE_DATA_COMPRESSION) then Some (drive_mode_page_data_compression s pc)
  else if decide (page = MODE_PAGE_DEVICE_CONFIGURATION) then Some (drive_mode_page_device_configuration s pc)
  else if decide (page = MODE_PAGE_MEDIUM_PARTITION) then Some (drive_mode_page_medium_partition s p pc)
  else if decide (page = MODE_PAGE_INFORMATION_EXCEPTION) then Some (drive_mode_page_information_exception pc)
  else if decide (page = MODE_PAGE_MEDIUM_CONFIGURATION) then Some (drive_mode_page_medium_configuration s pc)
  else if decide (page = MODE_PAGE_ALL) then
    Some ([0x00; 0x00] ++ drive_mode_page_rw_error_recovery pc ++ drive_mode_page_disconnect_reconnect pc ++
          drive_mode_page_caching pc ++ drive_mode_page_control_mode pc ++ drive_mode_page_data_compression s pc ++
          drive_mode_page_device_configuration s pc ++ drive_mode_page_medium_partition s p pc ++
          drive_mode_page_information_exception pc ++ drive_mode_page_medium_configuration s pc)
  else Some [].

Definition medium_type_for_profile (s : TapeState) (p : DeviceIdentityProfile) : Z :=
  let g := lto_generation_for_profile p in
  let base := if decide (1 <= g <= 9) then Z.min (Z.min (g * 0x10) U8_MAX + 0x08) U8_MAX else 0x68 in
  if is_worm_media (retention_policy s) then Z.min (base + 0x04) U8_MAX else base.
Definition medium_type_for_loaded_media (s : TapeState) (p : DeviceIdentityProfile) : Z :=
  if decide (mount_state s <> Loaded) then 0 else medium_type_for_profile s p.
Definition device_specific_mode_parameter (s : TapeState) : Z :=
  Z.lor (if buffered_mode s then 0x10 else 0x00)
        (if is_worm_media (retention_policy s) && retention_locked (retention_policy s) then 0x80 else 0x00).

Definition be24 (z : Z) : list Z := [Z.land (Z.shiftr z 16) 0xFF; Z.land (Z.shiftr z 8) 0xFF; Z.land z 0xFF].
Definition drive_mode_block_descriptor (s : TapeState) (p : DeviceIdentityProfile) : list Z :=
  let block_len := if decide (is_fixed s) then
                     (if decide (0 < fixed_block_size (block_mode s)) then fixed_block_size (block_mode s)
                      else DRIVE_DEFAULT_BLOCK_LENGTH)
                   else 0 in
  let block_count :=
    if bool_decide (mount_state s = Loaded) && has_custom_capacity_override s p && bool_decide (0 < block_len)
    then Z.min (sat_add64 (active_partition_capacity_bytes s p) (sat_sub block_len 1) / block_len) 0x00FFFFFF
    else 0 in
  [density_code_for_profile p] ++ be24 block_count ++ [0] ++ be24 block_len.

(** ** Density and medium descriptors *)
Definition trimmed_vendor (p : DeviceIdentityProfile) : string := trim_string (vendor p).
Definition drive_density_descriptor (p : DeviceIdentityProfile) (capacity : Z) : list Z :=
  let code := density_code_for_profile p in
  [code; code; 0x01; 0; 0; 0; 0; 0] ++ to_be 2 127 ++ to_be 2 64 ++ to_be 4 (bytes_to_mib_u32 capacity) ++
  padded_ascii 8 (vendor p) ++ padded_ascii 8 (density_name_for_profile p) ++
  padded_ascii 20 (density_description_for_profile p).

Definition medium_length_meters_for_state (s : TapeState) (p : DeviceIdentityProfile) : Z :=
  let native_length := lto_media_length_for_generation (lto_generation_for_profile p) in
  if negb (has_custom_capacity_override s p) then native_length
  else
    let native := native_capacity_bytes_for_profile p in
    if decide (native = 0) then 1
    else Z.max 1 (Z.min (sat_add64 (sat_mul64 native_length (medium_capacity_bytes_for_state s p)) (native - 1) / native)
                        U16_MAX).

Definition drive_medium_descriptor (s : TapeState) (p : DeviceIdentityProfile) : list Z :=
  let code := density_code_for_profile p in
  let worm := is_worm_media (retention_policy s) in
  let names :=
    if has_custom_capacity_override s p
    then padded_ascii 8 "HOLO" ++ padded_ascii 8 "Data" ++ padded_ascii 20 "HOLO Custom Tape"
    else padded_ascii 8 (trimmed_vendor p) ++ padded_ascii 8 (if worm then "WORM" else "Data") ++
         padded_ascii 20 ("Ultrium " +:+ show_string (lto_generation_for_profile p) +:+
                          (if worm then " WORM Tape" else " Data Tape")) in
  [b2z worm; 0] ++ to_be 2 0x34 ++ [code; code; 0; 0; 0; 0; 0; 0; 0; 0] ++ to_be 2 127 ++
  to_be 2 (medium_length_meters_for_state s p) ++ [0; 0] ++ names.

(** ** Medium auxiliary memory *)
Record ReadAttributeEntry : Type := mkAttr { at_id : Z; at_format : Z; at_value : list Z }.
Record MamAttributeSchema : Type := mkSchema { sc_format : Z; sc_max_len : Z; sc_writable : bool }.

Definition fixed_ascii_value (value : string) (len : nat) : list Z := padded_ascii len value.

Definition drive_mam_attributes (s : TapeState) (p : DeviceIdentityProfile) : list ReadAttributeEntry :=
  let capacity := active_partition_capacity_bytes s p in
  let remaining := sat_sub capacity (eod_position s) in
  let medium_type := if decide (mount_state s = Loaded /\ is_worm_media (retention_policy s) = true) then 0x80 else 0x00 in
  let density := density_code_for_profile p in
  let fallback := match serial_for_vpd_seed p (drive_id s) with Ok l => l | Err _ => bytes_of_string (drive_id s) end in
  let medium_serial :=
    trim (match cartridge_id s with
          | Some id => if decide (trim (bytes_of_string id) = []) then fallback else bytes_of_string id
          | None => fallback
          end) in
  let u := usage_counters s in
  let mib z := to_be 8 (bytes_to_mib_u32 z) in
  let ascii n v := fixed_ascii_value v n in
  [mkAttr 0x0000 0x80 (mib remaining);
   mkAttr 0x0001 0x80 (mib capacity);
   mkAttr 0x0002 0x80 (to_be 8 0);
   mkAttr 0x0003 0x80 (to_be 8 (load_count u));
   mkAttr 0x0004 0x80 (to_be 8 0);
   mkAttr 0x0005 0x81 (ascii 8%nat "HOLO"%string);
   mkAttr 0x0006 0x80 [density];
   mkAttr 0x0007 0x80 [1];
   mkAttr 0x0008 0x81 (ascii 32%nat ""%string);
   mkAttr 0x0009 0x80 (to_be 4 (clamp_u64_to_u32 (volume_change_reference u)));
   mkAttr 0x020A 0x81 (ascii 40%nat (trimmed_vendor p +:+ " " +:+ string_of_bytes (trim fallback)));
   mkAttr 0x020B 0x81 (ascii 40%nat ""%string);
   mkAttr 0x020C 0x81 (ascii 40%nat ""%string);
   mkAttr 0x020D 0x81 (ascii 40%nat ""%string);
   mkAttr 0x0220 0x80 (mib (lifetime_bytes_written u));
   mkAttr 0x0221 0x80 (mib (lifetime_bytes_read u));
   mkAttr 0x0222 0x80 (mib (last_load_bytes_written u));
   mkAttr 0x0223 0x80 (mib (last_load_bytes_read u));
   mkAttr 0x0224 0x80 (to_be 8 0);
   mkAttr 0x0225 0x80 (to_be 8 0);
   mkAttr 0x0400 0x01 (ascii 8%nat (trimmed_vendor p));
   mkAttr 0x0401 0x01 (ascii 32%nat (string_of_bytes medium_serial));
   mkAttr 0x0402 0x80 (to_be 2 (medium_length_meters_for_state s p));
   mkAttr 0x0403 0x80 (to_be 4 127);
   mkAttr 0x0404 0x81 (ascii 8%nat "LTO-CVE"%string);
   mkAttr 0x0405 0x80 [density];
   mkAttr 0x0406 0x81 (ascii 8%nat "20260417"%string);
   mkAttr 0x0407 0x80 (to_be 8 4096);
   mkAttr 0x0408 0x80 [medium_type];
   mkAttr 0x0409 0x80 (to_be 2 0);
   mkAttr 0x0800 0x01 (ascii 8%nat ""%string);
   mkAttr 0x0801 0x01 (ascii 32%nat ""%string);
   mkAttr 0x0802 0x01 (ascii 8%nat ""%string);
   mkAttr 0x0803 0x02 (ascii 160%nat ""%string);
   mkAttr 0x0804 0x01 (ascii 12%nat ""%string);
   mkAttr 0x0805 0x00 [0x00];
   mkAttr 0x0806 0x01 (ascii 32%nat ""%string);
   mkAttr 0x0807 0x02 (ascii 80%nat ""%string);
   mkAttr 0x0808 0x02 (ascii 160%nat ""%string);
   mkAttr 0x0809 0x01 (ascii 16%nat ""%string);
   mkAttr 0x080A 0x00 [active_partition (partition_runtime s)];
   mkAttr 0x080B 0x01 (ascii 16%nat ""%string);
   mkAttr 0x080C 0x00 (replicate 256 0);
   mkAttr 0x1500 0x00 (to_be 4 0)].

Definition drive_mam_attribute_map (s : TapeState) (p : DeviceIdentityProfile) : gmap Z MamAttributeSchema :=
  list_to_map (map (fun e => (at_id e, mkSchema (at_format e) (Zlen (at_value e)) (bool_decide (at_format e < 0x80))))
                   (drive_mam_attributes s p)).
Definition mam_override_key (partition_id attr_id : Z) : Z := Z.lor (Z.shiftl partition_id 16) attr_id.
Definition normalize_attribute_value (raw : list Z) (max_len : Z) (format : Z) : list Z :=
  let pad := if decide (Z.land format 0x7F = 0x01 \/ Z.land format 0x7F = 0x02) then 32 else 0 in
  let copied := take (Z.to_nat max_len) raw in
  copied ++ replicate (Z.to_nat max_len - length copied) pad.
Definition apply_mam_overrides_to_attrs (s : TapeState) (partition_id : Z) (attrs : list ReadAttributeEntry)
  : list ReadAttributeEntry :=
  map (fun e => match mam_overrides s !! mam_override_key partition_id (at_id e) with
                | Some o => mkAttr (at_id e) (mam_format o) (mam_value o)
                | None => e
                end) attrs.
Definition append_read_attribute_entry (out : list Z) (e : ReadAttributeEntry) : list Z :=
  out ++ to_be 2 (at_id e) ++ [at_format e] ++ to_be 2 (as_u16 (Zlen (at_value e))) ++ at_value e.
Definition read_attribute_entry_len (e : ReadAttributeEntry) : Z := 5 + Zlen (at_value e).
Definition finalize_read_attribute_payload (payload : list Z) : list Z :=
  to_be 4 (as_u32 (sat_sub (Zlen payload) 4)) ++ drop 4 payload.
