(* ===== verification/MediaState.v ===== *)
(** * Shared media state (iscsi/cdb_server.rs)

    The files the drives, the changer and the management side exchange: which
    cartridge each drive should hold, the labels in the changer's slots, ports
    and vault, and each cartridge's capacity and use.  The operations that bring
    a drive or a changer in line with them. *)

From S2P Require Import Prelude Bytes Text Errors Sense Fs Layout TapeState SpaceGuard Identity Wire.
From S2P Require Import Compression Records World Crc Segment Logs BlkMap MapLookup Dedup DataBlobs DataPath.
From S2P Require Import System Bootstrap Prefetch MountBridge CommandChain CommandsCore CdbBase DriveProfile.

(** ** Order *)
Definition str_le (a b : string) : Prop := String.leb a b = true.
#[export] Instance str_le_dec a b : Decision (str_le a b).
Proof. unfold str_le; apply _. Defined.
(** [sort_unstable] and [dedup]. *)
Definition sorted_ids (l : list string) : list string := merge_sort str_le (remove_dups l).

(** [BTreeMap::iter]: the entries in key order. *)
Definition key_le {A} (p q : Z * A) : Prop := p.1 <= q.1.
#[export] Instance key_le_dec {A} (p q : Z * A) : Decision (key_le p q).
Proof. unfold key_le; apply _. Defined.
Definition in_order {A} (m : gmap Z A) : list (Z * A) := merge_sort key_le (map_to_list m).

(** ** Files *)
Section Files.
Context `{HOST : Host} `{ENV : Environ}.

(** [fs::read_to_string], with an absent file told apart. *)
Definition read_text (path : string) : M Fs IoError (option (list Z)) :=
  let! r := tryM (fs_read path) in
  match r with
  | Ok raw => if utf8_valid raw then retM (Some raw)
              else failM (io_error KInvalidData "stream did not contain valid UTF-8")
  | Err e => if decide (io_kind e = KNotFound) then retM None else failM e
  end.
(** [create_dir_all], [fs::write] to a temporary file and [fs::rename]. *)
Definition replace_text (path : string) (payload : list Z) : M Fs IoError unit :=
  fs_create_dir_all path ;;!
  let! i := fs_open_trunc (path +:+ ".tmp") in
  fs_write_at i 0 payload ;;!
  fs_rename (path +:+ ".tmp") path.

Definition shared_media_state_dir : string :=
  match getenv "HOLO_MEDIA_STATE_DIR" with
  | Some raw => if decide (trim raw = []) then "/run/holo/media-state" else string_of_bytes (trim raw)
  | None => "/run/holo/media-state"
  end.

Definition media_state_key_for_state (s : TapeState) : string :=
  match getenv "HOLO_MEDIA_STATE_KEY" with
  | Some raw => if decide (trim raw = []) then drive_id s else string_of_bytes (trim raw)
  | None => drive_id s
  end.

Definition shared_path (key suffix : string) : string := path_join shared_media_state_dir (sanitize_id key +:+ suffix).
Definition shared_media_state_path (seed : string) : string := shared_path seed ".state".
Definition shared_cartridge_metadata_path (cartridge : string) : string :=
  path_join shared_media_state_dir ("cartridge_" +:+ sanitize_id cartridge +:+ ".meta").
Definition shared_changer_slots_path (seed : string) : string := shared_path seed ".slots".
Definition shared_changer_ie_path (seed : string) : string := shared_path seed ".ie".
Definition shared_changer_vault_path (seed : string) : string := shared_path seed ".vault".

(** *** Cartridge metadata *)
Record SharedCartridgeMetadata : Type := mkMetadata { md_capacity_bytes : option Z; md_used_bytes : option Z }.
#[local] Instance eta_metadata : Eta SharedCartridgeMetadata :=
  fun r => mkMetadata (md_capacity_bytes r) (md_used_bytes r).
Definition metadata_line (m : SharedCartridgeMetadata) (line : list Z) : SharedCartridgeMetadata :=
  match split_once 61 line with
  | None => m
  | Some (key, value) =>
      match parse_uint U64_MAX (trim value) with
      | None => m
      | Some parsed =>
          if decide (trim key = bytes_of_string "capacity_bytes") then m <| md_capacity_bytes := Some parsed |>
          else if decide (trim key = bytes_of_string "used_bytes") then m <| md_used_bytes := Some parsed |>
          else m
      end
  end.
Definition read_shared_cartridge_metadata (cartridge : string) : M Fs IoError (option SharedCartridgeMetadata) :=
  let! raw := read_text (shared_cartridge_metadata_path cartridge) in
  retM ((fun raw => fold_left metadata_line (lines raw) (mkMetadata None None)) <$> raw).

Definition metadata_text (cartridge : string) (capacity : option Z) (used : Z) : list Z :=
  bytes_of_string "cartridge_id=" ++ trim (bytes_of_string cartridge) ++ [10] ++
  bytes_of_string "capacity_bytes=" ++ show_uint (default 0 capacity) ++ [10] ++
  bytes_of_string "used_bytes=" ++ show_uint used ++ [10].
Definition write_shared_cartridge_metadata (cartridge : string) (capacity : option Z) (used : Z) : M Fs IoError unit :=
  replace_text (shared_cartridge_metadata_path cartridge) (metadata_text cartridge capacity used).

(** *** Labels, one a line; [-] stands for an empty element. *)
Definition label_of_line (line : list Z) : option string :=
  let t := trim line in if decide (t = [] \/ t = [45]) then None else Some (string_of_bytes t).
Definition line_of_label (l : option string) : list Z :=
  match l with
  | Some label => let t := trim (bytes_of_string label) in if decide (t = []) then [45; 10] else t ++ [10]
  | None => [45; 10]
  end.
Definition read_labels (path : string) : M Fs IoError (option (list (option string))) :=
  let! raw := read_text path in retM ((fun raw => map label_of_line (lines raw)) <$> raw).
Definition labels_text (labels : list (option string)) : list Z := concat (map line_of_label labels).
Definition write_labels (path : string) (labels : list (option string)) : M Fs IoError unit :=
  replace_text path (labels_text labels).

Definition read_shared_changer_slots (seed : string) := read_labels (shared_changer_slots_path seed).
Definition read_shared_changer_ie (seed : string) := read_labels (shared_changer_ie_path seed).
Definition write_shared_changer_slots (seed : string) := write_labels (shared_changer_slots_path seed).
Definition write_shared_changer_ie (seed : string) := write_labels (shared_changer_ie_path seed).

(** The vault keeps no empty places. *)
Definition read_shared_changer_vault (seed : string) : M Fs IoError (option (list (option string))) :=
  let! raw := read_text (shared_changer_vault_path seed) in
  retM ((fun raw => map Some (omap label_of_line (lines raw))) <$> raw).
Definition vault_line (label : string) : list Z :=
  let t := trim (bytes_of_string label) in if decide (t = []) then [] else t ++ [10].
Definition write_shared_changer_vault (seed : string) (labels : list (option string)) : M Fs IoError unit :=
  replace_text (shared_changer_vault_path seed) (concat (map vault_line (omap id labels))).

(** *** The cartridge a drive should hold *)
Definition bad_cartridge_byte (b : Z) : bool := bool_decide (b ∈ [47; 92; 0]).
Definition parse_loaded_cartridge (raw : list Z) : Result IoError (option string) :=
  let trimmed := trim raw in
  if decide (trimmed = []) then Ok None
  else if existsb (fun b => bool_decide (b ∈ [13; 10])) trimmed
  then Err (io_error KInvalidData "shared media state contains multiple lines")
  else
    let value := match strip_prefix (bytes_of_string "cartridge=") trimmed with
                 | Some v => trim v | None => trimmed end in
    if decide (value = []) then Ok None
    else if bool_decide (61 ∈ value) || bool_decide (128 < Zlen value) || existsb bad_cartridge_byte value ||
            contains_seq [46; 46] value
    then Err (io_error KInvalidData "shared media state contains an invalid cartridge ID")
    else Ok (Some (string_of_bytes value)).
Definition read_shared_loaded_cartridge_fresh (seed : string) : M Fs IoError (option string) :=
  let! raw := read_text (shared_media_state_path seed) in
  match raw with None => retM None | Some raw => liftM (parse_loaded_cartridge raw) end.

Definition loaded_cartridge_text (cartridge : option string) : list Z :=
  match cartridge with
  | Some value => bytes_of_string "cartridge=" ++ trim (bytes_of_string value) ++ [10]
  | None => bytes_of_string "cartridge=" ++ [10]
  end.
Definition write_shared_loaded_cartridge (seed : string) (cartridge : option string) : M Fs IoError unit :=
  replace_text (shared_media_state_path seed) (loaded_cartridge_text cartridge).

(** ** Which drives a changer serves *)
Definition SEPARATOR : list Z := [95; 95].
Definition split_media_state_key (key : string) : string * option string :=
  let trimmed := trim (bytes_of_string key) in
  if decide (trimmed = []) then ("unknown"%string, None)
  else match split_once_seq SEPARATOR trimmed with
       | Some (library, drive) =>
           (if decide (trim library = []) then "unknown"%string else string_of_bytes (trim library),
            if decide (trim drive = []) then None else Some (string_of_bytes (trim drive)))
       | None => (string_of_bytes trimmed, None)
       end.

Definition configured_changer_drive_ids : list string :=
  match getenv "HOLO_CHANGER_DRIVE_IDS" with
  | None => []
  | Some raw => sorted_ids (map string_of_bytes (List.filter (fun id => bool_decide (id <> [])) (map trim (split_on 44 raw))))
  end.

Definition slots_suffix : list Z := bytes_of_string ".slots".
Definition drive_id_of_entry (prefix name : list Z) : option string :=
  match strip_suffix slots_suffix name, strip_prefix prefix name with
  | Some _, Some _ =>
      match split_once_seq SEPARATOR (trim_end_matches (length name) slots_suffix name) with
      | Some (_, id) => if decide (id = []) then None else Some (string_of_bytes id)
      | None => None
      end
  | _, _ => None
  end.
Definition discover_changer_drive_ids_from_slots (library_id : string) : M Fs IoError (list string) :=
  let! r := tryM (E := IoError) io_step in
  match r with
  | Err _ => retM []
  | Ok _ =>
      let! fs := getM in
      let prefix := bytes_of_string (sanitize_id library_id) ++ SEPARATOR in
      retM (sorted_ids (omap (fun p => drive_id_of_entry prefix (file_name p)) (entries_of shared_media_state_dir fs)))
  end.

(** Element address, drive and key of the drive's state file. *)
Definition Binding : Type := Z * string * string.
Definition bind_drive (key library : string) (e : nat * string) : Binding :=
  let (idx, drive) := e in
  (Z.min (CHANGER_DT_START + Z.of_nat idx) U16_MAX, drive,
   if contains_seq SEPARATOR (bytes_of_string key)
   then string_of_bytes (bytes_of_string library ++ SEPARATOR ++ bytes_of_string drive) else key).
Definition changer_drive_state_bindings (s : TapeState) : M Fs IoError (list Binding) :=
  let key := media_state_key_for_state s in
  let (library, hint) := split_media_state_key key in
  let! ids := (match configured_changer_drive_ids with
               | [] => discover_changer_drive_ids_from_slots library
               | ids => retM ids
               end) in
  let ids := match ids with [] => [default (drive_id s) hint] | ids => ids end in
  retM (map (bind_drive key library) (take (Z.to_nat 65536) (imap pair (sorted_ids ids)))).
End Files.

(** ** Synchronisation *)
Section Sync.
Context `{HOST : Host} `{ENV : Environ} `{C : Crc32c} `{HO : HashOrder} `{BC : BlockCodecs} `{B3 : Blake3}.
Context `{SH : SpaceHost} `{SHA : Sha256} `{TH : Threads}.

(** A file operation whose failure the caller looks at, or logs and forgets. *)
Definition files {E A} (m : M Fs IoError A) : M Sys E (Result IoError A) :=
  tryM (on_world (zoomM w_fs (fun fs w => w <| w_fs := fs |>) m)).
Definition files_or {E A} (d : A) (m : M Fs IoError A) : M Sys E A :=
  let! r := files m in retM (match r with Ok a => a | Err _ => d end).

Definition bindings {E} : M Sys E (list Binding) :=
  let! s := the_tape in files_or [] (changer_drive_state_bindings s).

Definition ensure_changer_drive_topology {E} : M Sys E unit :=
  let! bs := bindings in
  if decide (bs = []) then retM tt
  else
    let addrs := map (fun b : Binding => b.1.1) bs in
    set_tape (fun s =>
      s <| changer_drives := list_to_map (map (fun a => (a, default None (changer_drives s !! a))) addrs) |>
        <| changer_drive_sources := list_to_map (map (fun a => (a, default None (changer_drive_sources s !! a))) addrs) |>).

Definition changer_drive_count (s : TapeState) : Z := count_u16 (size (changer_drives s)).

(** *** Use of a loaded cartridge *)
Definition usage_sync_interval_bytes : Z :=
  match getenv "HOLO_CARTRIDGE_USAGE_SYNC_EVERY_BYTES" with
  | Some raw => default (64 * 1024 * 1024) (parse_uint U64_MAX (trim raw))
  | None => 64 * 1024 * 1024
  end.

Definition write_usage {E} (cartridge : string) (capacity : option Z) : M Sys E unit :=
  let! s := the_tape in
  let! r := files (write_shared_cartridge_metadata cartridge capacity (eod_position s)) in
  match r with
  | Err _ => retM tt
  | Ok _ => modifyM (fun y => y <| y_usage_sync :=
              <[drive_id s := mkSynced cartridge capacity (eod_position s)]> (y_usage_sync y) |>)
  end.

Definition sync_loaded_cartridge_usage_to_shared_throttled {E} (force : bool) : M Sys E unit :=
  let! s := the_tape in
  match mount_state s, cartridge_id s with
  | Loaded, Some cartridge =>
      let! cache := getsM y_usage_sync in
      let existing := match cache !! drive_id s with
                      | Some c => if decide (su_cartridge_id c = cartridge) then Some c else None
                      | None => None
                      end in
      match existing with
      | Some e =>
          if negb force && bool_decide (Z.abs (eod_position s - su_used_bytes e) < usage_sync_interval_bytes)
          then retM tt
          else write_usage cartridge (match cartridge_capacity_bytes s with
                                      | Some c => Some c | None => su_capacity_bytes e end)
      | None =>
          let! m := files_or None (read_shared_cartridge_metadata cartridge) in
          write_usage cartridge (match cartridge_capacity_bytes s with
                                 | Some c => Some c | None => m ≫= md_capacity_bytes end)
      end
  | _, _ => retM tt
  end.
Definition sync_loaded_cartridge_usage_to_shared {E} : M Sys E unit :=
  sync_loaded_cartridge_usage_to_shared_throttled true.
Definition sync_loaded_cartridge_usage_after_mutation {E} (opcode : Z) (r : CdbResponse) : M Sys E unit :=
  if decide (rs_status r = SCSI_STATUS_GOOD /\ is_media_usage_mutating_opcode opcode = true)
  then sync_loaded_cartridge_usage_to_shared_throttled (negb (is_data_write_opcode opcode))
  else retM tt.

Definition apply_shared_cartridge_metadata {E} : M Sys E unit :=
  let! s := the_tape in
  match cartridge_id s with
  | None => retM tt
  | Some cartridge =>
      let! m := files_or None (read_shared_cartridge_metadata cartridge) in
      match m ≫= md_capacity_bytes with
      | Some capacity => set_tape (fun s => apply_medium_capacity_override s capacity)
      | None => retM tt
      end
  end.

(** *** The changer's slots and ports *)
(** Element addresses from a base on, at least one and at most 65536. *)
Definition element_map {A} (base : Z) (f : nat -> A) (n : nat) : gmap Z A :=
  fold_left (fun m i => <[as_u16 (base + Z.of_nat i) := f i]> m) (seq 0 (Z.to_nat (Z.min (Z.max (Z.of_nat n) 1) 65536))) ∅.
Definition label_at (labels : list (option string)) (i : nat) : option string := mjoin (labels !! i).

Definition sync_changer_slots_from_shared {E} : M Sys E unit :=
  let! s := the_tape in
  let! requested := files_or None (read_shared_changer_slots (media_state_key_for_state s)) in
  match requested with
  | None => retM tt
  | Some slots =>
      let next_slots := element_map CHANGER_ST_START (label_at slots) (length slots) in
      if decide (changer_slots s = next_slots) then retM tt
      else set_tape (fun s => push_unit_attention 0x28 0x00 (s <| changer_slots := next_slots |>))
  end.
Definition sync_changer_ie_from_shared {E} : M Sys E unit :=
  let! s := the_tape in
  let! requested := files_or None (read_shared_changer_ie (media_state_key_for_state s)) in
  match requested with
  | None => retM tt
  | Some ports =>
      let next_ports := element_map CHANGER_IE_START (label_at ports) (length ports) in
      let next_flags := element_map CHANGER_IE_START (fun i => bool_decide (is_Some (label_at ports i))) (length ports) in
      if decide (changer_ie_ports s = next_ports /\ changer_ie_impexp s = next_flags) then retM tt
      else set_tape (fun s => push_unit_attention 0x28 0x01
                                (s <| changer_ie_ports := next_ports |> <| changer_ie_impexp := next_flags |>))
  end.
Definition sync_changer_inventory_from_shared {E} : M Sys E unit :=
  sync_changer_slots_from_shared ;;! sync_changer_ie_from_shared.

Definition file_exists {E} (path : string) : M Sys E bool := files_or false (fs_exists path).
Definition sync_changer_inventory_to_shared {E} : M Sys E unit :=
  let! s := the_tape in
  let key := media_state_key_for_state s in
  let! slots_there := file_exists (shared_changer_slots_path key) in
  let! ie_there := file_exists (shared_changer_ie_path key) in
  if negb (contains_seq SEPARATOR (bytes_of_string key)) && negb slots_there && negb ie_there then retM tt
  else
    let! _ := files (write_shared_changer_slots key (map snd (in_order (changer_slots s)))) in
    let! _ := files (write_shared_changer_ie key (map snd (in_order (changer_ie_ports s)))) in
    retM tt.

Definition bootstrap_changer_slots_from_shared_once {E} : M Sys E unit :=
  let! s := the_tape in
  if changer_slots_synced_from_shared s then retM tt
  else sync_changer_slots_from_shared ;;! set_tape (fun s => s <| changer_slots_synced_from_shared := true |>).
Definition changer_opcode_requires_slot_bootstrap (opcode : Z) : bool :=
  bool_decide (opcode ∈ [0x1A; 0x5A; 0xA5; 0xA6; 0xB8]).

(** *** The changer's drives *)
Definition holder_of (label : string) (m : gmap Z (option string)) : option Z :=
  fst <$> List.find (fun e => bool_decide (e.2 = Some label)) (in_order m).
Definition source_of (s : TapeState) (addr : Z) : option Z := mjoin (changer_drive_sources s !! addr).
Definition drive_label (s : TapeState) (addr : Z) : option string := mjoin (changer_drives s !! addr).

Definition remove_changer_medium_label (label : string) (target : Z) (s : TapeState) : option Z * TapeState :=
  match holder_of label (changer_slots s) with
  | Some slot => (Some slot, s <| changer_slots := <[slot := None]> (changer_slots s) |>)
  | None =>
      match holder_of label (changer_ie_ports s) with
      | Some port => (Some port, s <| changer_ie_ports := <[port := None]> (changer_ie_ports s) |>
                                   <| changer_ie_impexp := <[port := false]> (changer_ie_impexp s) |>)
      | None =>
          match holder_of label (delete target (changer_drives s)) with
          | Some addr => (source_of s addr, s <| changer_drives := <[addr := None]> (changer_drives s) |>
                                              <| changer_drive_sources := <[addr := None]> (changer_drive_sources s) |>)
          | None => (None, s)
          end
      end
  end.

Definition first_empty (m : gmap Z (option string)) : option Z :=
  fst <$> List.find (fun e => bool_decide (e.2 = None)) (in_order m).
Definition restore_changer_medium_label (label : string) (source : option Z) (s : TapeState) : TapeState :=
  let home := match source with
              | Some slot => if decide (changer_slots s !! slot = Some None) then Some slot else first_empty (changer_slots s)
              | None => first_empty (changer_slots s)
              end in
  match home with
  | Some slot => s <| changer_slots := <[slot := Some label]> (changer_slots s) |>
  | None => s
  end.

Definition set_drive (addr : Z) (label : option string) (source : option Z) (s : TapeState) : TapeState :=
  s <| changer_drives := <[addr := label]> (changer_drives s) |>
    <| changer_drive_sources := <[addr := source]> (changer_drive_sources s) |>.

(** One drive brought in line with its state file. *)
Definition reconcile_drive (addr : Z) (desired : option string) (s : TapeState) : TapeState :=
  let current := drive_label s addr in
  match desired with
  | Some label =>
      let s := match current with
               | Some cur => restore_changer_medium_label cur (source_of s addr)
                               (remove_changer_medium_label cur addr s).2
               | None => s
               end in
      let (source, s) := remove_changer_medium_label label addr s in
      set_drive addr (Some label) source s
  | None =>
      let s := match current with
               | Some cur => restore_changer_medium_label cur (source_of s addr) s
               | None => s
               end in
      set_drive addr None None s
  end.

Fixpoint sync_mounts {E} (bs : list Binding) (changed : bool) : M Sys E bool :=
  match bs with
  | [] => retM changed
  | (addr, _, key) :: bs' =>
      let! r := files (read_shared_loaded_cartridge_fresh key) in
      match r with
      | Err _ => sync_mounts bs' changed
      | Ok desired =>
          let! s := the_tape in
          if decide (drive_label s addr = desired) then sync_mounts bs' changed
          else set_tape (reconcile_drive addr desired) ;;! sync_mounts bs' true
      end
  end.
Definition sync_changer_mount_from_shared {E} : M Sys E unit :=
  let! s := the_tape in
  if contains_seq SEPARATOR (bytes_of_string (media_state_key_for_state s)) then
    let! bs := bindings in
    let! changed := sync_mounts bs false in
    if (changed : bool) then set_tape (push_unit_attention 0x28 0x00) else retM tt
  else retM tt.

Definition sync_changer_mount_to_shared {E} : M Sys E unit :=
  let! bs := bindings in
  forM bs (fun b : Binding =>
    let! s := the_tape in
    let! _ := files (write_shared_loaded_cartridge b.2 (drive_label s b.1.1)) in retM tt).

(** *** A drive's own cartridge *)
Definition sync_drive_mount_from_shared : M Sys TapeError unit :=
  let! s := the_tape in
  let! r := files (read_shared_loaded_cartridge_fresh (media_state_key_for_state s)) in
  match r with
  | Err _ => failM (Storage (Internal "shared media state could not be read"))
  | Ok desired =>
      match cartridge_id s, desired with
      | Some cur, Some next =>
          if decide (cur = next) then retM tt
          else
            sync_loaded_cartridge_usage_to_shared ;;!
            detach_cartridge ;;!
            attach_cartridge next ;;!
            apply_shared_cartridge_metadata ;;!
            sync_loaded_cartridge_usage_to_shared
      | None, Some next =>
          attach_cartridge next ;;!
          apply_shared_cartridge_metadata ;;!
          sync_loaded_cartridge_usage_to_shared
      | Some _, None =>
          sync_loaded_cartridge_usage_to_shared ;;!
          detach_cartridge ;;!
          set_tape (push_unit_attention 0x28 0x00)
      | None, None => retM tt
      end
  end.
End Sync.
