(* ===== verification/CdbCommon.v ===== *)
(** * Commands the drive and the changer share (iscsi/cdb_drive.rs, iscsi/cdb_changer.rs)

    Persistent reservations in and out, REPORT LUNS, REPORT TIMESTAMP and the
    legacy RESERVE and RELEASE. *)

From S2P Require Import Prelude Bytes Text Errors Sense Fs Layout TapeState Reservation SpaceGuard Identity Wire.
From S2P Require Import Compression Records World Crc Segment Logs BlkMap MapLookup Dedup DataBlobs DataPath.
From S2P Require Import System Bootstrap Prefetch MountBridge CommandChain CommandsCore CdbBase.

(** ** PERSISTENT RESERVE IN *)
Definition persistent_reserve_read_keys (snap : ReservationSnapshot) : list Z :=
  to_be 4 (snap_generation snap) ++ to_be 4 (as_u32 (Zlen (snap_registrations snap) * 8)) ++
  concat (map (fun e => to_be 8 e.2) (snap_registrations snap)).
Definition persistent_reserve_read_reservation (snap : ReservationSnapshot) : list Z :=
  to_be 4 (snap_generation snap) ++
  match snap_active_key snap with
  | Some key => to_be 4 16 ++ to_be 8 key ++ [0; 0; 0; 0] ++ [0x00; 0x03; 0x00; 0x00]
  | None => to_be 4 0
  end.
Definition full_status_entry (owner : option string) (e : string * Z) : list Z :=
  let name := take 8 (bytes_of_string e.1) in
  to_be 8 e.2 ++ [0; 0; 0; 0] ++ [0x00; if decide (owner = Some e.1) then 0x03 else 0x00; 0x00; 0x08] ++
  name ++ replicate (8 - length name) 0.
Definition persistent_reserve_read_full_status (snap : ReservationSnapshot) : list Z :=
  to_be 4 (snap_generation snap) ++ to_be 4 (as_u32 (Zlen (snap_registrations snap) * 24)) ++
  concat (map (full_status_entry (snap_active_owner snap)) (snap_registrations snap)).
Definition persistent_reserve_in_drive (s : TapeState) (cdb : list Z) : CdbResponse :=
  let action := Z.land (cdb_byte cdb 1) 0x1F in
  let alloc := read_be16 cdb 7 in
  if decide (alloc = 0) then good []
  else
    let snap := snapshot s in
    if decide (action = 0x00) then good (truncate_reply (persistent_reserve_read_keys snap) alloc)
    else if decide (action = 0x01) then good (truncate_reply (persistent_reserve_read_reservation snap) alloc)
    else if decide (action = 0x02) then good (truncate_reply [0x00; 0x00; 0x00; 0x08; 0x00; 0x80; 0x00; 0x00] alloc)
    else if decide (action = 0x03) then good (truncate_reply (persistent_reserve_read_full_status snap) alloc)
    else invalid_field_in_cdb_response.

(** ** PERSISTENT RESERVE OUT *)
Definition register_and_move_unregister_source (params : list Z) : bool :=
  match params !! 20%nat with Some b => bit b 0x01 | None => false end.

(** The first window equal to the prefix without regard to case, and what
    follows from there. *)
Fixpoint find_prefix (prefix l : list Z) : option (list Z) :=
  if decide (map to_ascii_lowercase (take (length prefix) l) = prefix) then Some l
  else match l with [] => None | _ :: l' => find_prefix prefix l' end.
Definition name_end (b : Z) : bool := bool_decide (b ∈ [0; 32; 10; 13]).
Fixpoint take_until (stop : Z -> bool) (l : list Z) : list Z :=
  match l with [] => [] | b :: l' => if stop b then [] else b :: take_until stop l' end.
Definition name_byte (b : Z) : bool := bool_decide (33 <= b <= 126) && negb (bool_decide (b = 92)).
(** [None] goes on to the next prefix, [Some None] gives up: not UTF-8. *)
Definition initiator_after (ids prefix : list Z) : option (option string) :=
  match find_prefix prefix ids with
  | None => None
  | Some candidate =>
      let raw := take_until name_end candidate in
      if decide (raw = []) then None
      else if negb (utf8_valid raw) then Some None
      else
        let value := trim raw in
        if bool_decide (value <> []) && forallb name_byte value then Some (Some (string_of_bytes value)) else None
  end.
Definition parse_register_and_move_target_initiator (params : list Z) : option string :=
  if decide (length params < 24)%nat then None
  else
    let ids := drop 24 params in
    mjoin (find_map (initiator_after ids)
             [bytes_of_string "iqn."; bytes_of_string "eui."; bytes_of_string "naa."]).

Section Commands.
Context `{HOST : Host} `{ENV : Environ} `{C : Crc32c} `{HO : HashOrder} `{BC : BlockCodecs} `{B3 : Blake3}.
Context `{SH : SpaceHost} `{SHA : Sha256} `{TH : Threads}.

(** A core command whose result is not reported. *)
Definition run_core (cmd : CoreCommand) : M Sys Panic CdbResponse :=
  let! r := attempt (execute_with_sense cmd) in
  retM (match r with Ok _ => good [] | Err f => frame_response f end).
(** A core command whose result is sent, cut to the allocation length. *)
Definition run_core_reply (cmd : CoreCommand) (cdb : list Z) (alloc : Z) : M Sys Panic CdbResponse :=
  let! r := attempt (execute_with_sense cmd) in
  let! s := the_tape in
  retM (match r with
        | Ok response => good (truncate_reply (core_response_to_bytes s response cdb) alloc)
        | Err f => frame_response f
        end).

Definition reservation_command (action : Z) (who : string) (params : list Z) : Result CdbResponse CoreCommand :=
  let key := default 0 (read_be64 params 0) in
  let service := default 0 (read_be64 params 8) in
  if decide (action = 0x00) then Ok (ReservationRegister who (if decide (service <> 0) then service else key))
  else if decide (action = 0x01) then Ok (ReservationReserve who key)
  else if decide (action = 0x02) then Ok (ReservationRelease who key)
  else if decide (action = 0x03) then Ok (ReservationClear who key)
  else if decide (action = 0x04 \/ action = 0x05) then Ok (ReservationPreempt who key service)
  else if decide (action = 0x06) then Ok (ReservationRegisterIgnore who service)
  else if decide (action = 0x07) then
    match parse_register_and_move_target_initiator params with
    | None => Err invalid_field_in_parameter_list_response
    | Some target => Ok (ReservationRegisterMove who key service target (register_and_move_unregister_source params))
    end
  else Err invalid_field_in_cdb_response.
Definition persistent_reserve_out_drive_with_context (cdb data_out : list Z) (context : CdbDispatchContext)
  : M Sys Panic CdbResponse :=
  match try_read_be16 cdb 7 with
  | None => retM invalid_field_in_cdb_response
  | Some len =>
      if decide (0 < len /\ Zlen data_out < len) then retM invalid_field_in_cdb_response
      else
        let params := take (Z.to_nat len) data_out in
        match reservation_command (Z.land (cdb_byte cdb 1) 0x1F) (context_initiator_or_default context) params with
        | Ok command => run_core command
        | Err response => retM response
        end
  end.

(** ** REPORT LUNS, REPORT TIMESTAMP, RESERVE and RELEASE *)
Definition report_luns_single_lun (cdb : list Z) : CdbResponse :=
  let alloc := if decide (10 <= length cdb)%nat then from_be (slice 6 10 cdb) else 0 in
  if decide (alloc = 0) then good []
  else good (truncate_reply (to_be 4 8 ++ replicate 12 0) alloc).

(** The clock is in nanoseconds. *)
Definition now_millis : M Sys Panic Z :=
  let! w := getsM y_world in
  retM (Z.min (Z.max 0 (clock (fs_tick (w_fs w))) / 1000000) 0xFFFFFFFFFFFF).
Definition report_timestamp (cdb : list Z) : M Sys Panic CdbResponse :=
  if decide (length cdb < 12)%nat then retM invalid_field_in_cdb_response
  else if decide (Z.land (cdb_byte cdb 1) 0x1F <> 0x0F) then retM invalid_field_in_cdb_response
  else
    let alloc := from_be (slice 6 10 cdb) in
    if decide (alloc = 0) then retM (good [])
    else
      let! millis := now_millis in
      retM (good (truncate_reply (to_be 2 0x0A ++ [0; 0x03] ++ drop 2 (to_be 8 millis) ++ [0; 0]) alloc)).

Definition reserve_release_compat_response : CdbResponse :=
  let strict := match getenv "HOLO_SCSI_STRICT_RESERVE_RELEASE" with
                | Some raw => bool_decide (map to_ascii_lowercase (trim raw) ∈
                    [bytes_of_string "1"; bytes_of_string "true"; bytes_of_string "yes"; bytes_of_string "on"])
                | None => false
                end in
  if strict then invalid_field_in_cdb_response else good [].
End Commands.
