(* ===== verification/Changer.v ===== *)
(** * The medium changer (iscsi/cdb_changer.rs, iscsi/cdb_modes.rs)

    Moving and exchanging media between slots, ports and drives, the element
    status report, the mode pages and the dispatch of the changer's commands. *)

From S2P Require Import Prelude Bytes Text Errors Sense Fs Layout TapeState Reservation SpaceGuard Identity Wire.
From S2P Require Import Compression Records World Crc Segment Logs BlkMap MapLookup Dedup DataBlobs DataPath.
From S2P Require Import System Bootstrap Prefetch MountBridge CommandChain CommandsCore CdbBase DriveProfile MediaState CdbCommon.

(** ** Elements *)
Definition changer_type_range (s : TapeState) (ty : Z) : option (Z * Z) :=
  if decide (ty = 0x01) then Some (CHANGER_MT_START, CHANGER_MT_COUNT)
  else if decide (ty = 0x02) then Some (CHANGER_ST_START, changer_slot_count s)
  else if decide (ty = 0x03) then Some (CHANGER_IE_START, changer_ie_count s)
  else if decide (ty = 0x04) then Some (CHANGER_DT_START, changer_drive_count s)
  else None.

Record ChangerMedium : Type := mkMedium { m_label : string; m_source_slot : option Z }.

Definition changer_take_medium (address : Z) (s : TapeState) : option ChangerMedium * TapeState :=
  match changer_slots s !! address with
  | Some None => (None, s)
  | Some (Some label) =>
      (Some (mkMedium label (Some address)), s <| changer_slots := <[address := None]> (changer_slots s) |>)
  | None =>
      match changer_ie_ports s !! address with
      | Some None => (None, s)
      | Some (Some label) =>
          (Some (mkMedium label (Some address)),
           s <| changer_ie_ports := <[address := None]> (changer_ie_ports s) |>
             <| changer_ie_impexp := <[address := false]> (changer_ie_impexp s) |>)
      | None =>
          match changer_drives s !! address with
          | Some None => (None, s)
          | Some (Some label) => (Some (mkMedium label (source_of s address)), set_drive address None None s)
          | None => (None, s)
          end
      end
  end.

(** [Err] when the element is full or does not exist; the state is then as it
    was. *)
Definition changer_place_medium (address : Z) (m : ChangerMedium) (s : TapeState) : Result unit TapeState :=
  match changer_slots s !! address with
  | Some (Some held) => if decide (held = m_label m) then Ok s else Err tt
  | Some None => Ok (s <| changer_slots := <[address := Some (m_label m)]> (changer_slots s) |>)
  | None =>
      match changer_ie_ports s !! address with
      | Some (Some _) => Err tt
      | Some None => Ok (s <| changer_ie_ports := <[address := Some (m_label m)]> (changer_ie_ports s) |>
                           <| changer_ie_impexp := <[address := true]> (changer_ie_impexp s) |>)
      | None =>
          match changer_drives s !! address with
          | Some (Some _) => Err tt
          | Some None => Ok (set_drive address (Some (m_label m)) (m_source_slot m) s)
          | None => Err tt
          end
      end
  end.
(** A rollback: a failure to put the medium back is ignored. *)
Definition put_back (address : Z) (m : ChangerMedium) (s : TapeState) : TapeState :=
  match changer_place_medium address m s with Ok s' => s' | Err _ => s end.
Definition put_back_opt (address : Z) (m : option ChangerMedium) (s : TapeState) : TapeState :=
  match m with Some m => put_back address m s | None => s end.

Definition changer_has_element (s : TapeState) (address : Z) : bool :=
  bool_decide (is_Some (changer_slots s !! address)) || bool_decide (is_Some (changer_ie_ports s !! address)) ||
  bool_decide (is_Some (changer_drives s !! address)).
Definition changer_ie_accessed (s : TapeState) (source destination : Z) : bool :=
  let stop := Z.min (CHANGER_IE_START + changer_ie_count s) U16_MAX in
  bool_decide (CHANGER_IE_START <= source < stop) || bool_decide (CHANGER_IE_START <= destination < stop).
Definition push_ie_accessed_unit_attention : TapeState -> TapeState := push_unit_attention 0x28 0x01.

Definition invalid_element_address_response : CdbResponse := sense_response 0x05 0x21 0x01.
Definition source_element_empty_response : CdbResponse := sense_response 0x05 0x3B 0x0E.
Definition destination_element_full_response : CdbResponse := sense_response 0x05 0x3B 0x0D.
Definition changer_unsupported_response (opcode : Z) : CdbResponse := sense_response 0x05 0x20 0x00.

(** Why nothing could be taken or placed at an address. *)
Definition no_source_response (s : TapeState) (address : Z) : CdbResponse :=
  if changer_has_element s address then source_element_empty_response else invalid_element_address_response.
Definition no_destination_response (s : TapeState) (address : Z) : CdbResponse :=
  if changer_has_element s address then destination_element_full_response else invalid_element_address_response.

(** The element moves of MOVE MEDIUM, on the inventory alone. *)
Definition move_elements (source destination : Z) (s : TapeState) : Result CdbResponse unit * TapeState :=
  match changer_take_medium source s with
  | (None, s') => (Err (no_source_response s' source), s')
  | (Some medium, s1) =>
      match changer_place_medium destination medium s1 with
      | Ok s2 => (Ok tt, s2)
      | Err _ => let s2 := put_back source medium s1 in (Err (no_destination_response s2 destination), s2)
      end
  end.

(** The element moves of EXCHANGE MEDIUM: the source's medium to the first
    destination, what was there to the second, what was there to the source. *)
Definition exchange_elements (source d1 d2 : Z) (s : TapeState) : Result CdbResponse unit * TapeState :=
  match changer_take_medium source s with
  | (None, s') => (Err (no_source_response s' source), s')
  | (Some medium, s1) =>
      let (medium1, s2) := changer_take_medium d1 s1 in
      let (medium2, s3) := changer_take_medium d2 s2 in
      match changer_place_medium d1 medium s3 with
      | Err _ => (Err invalid_element_address_response,
                  put_back_opt d2 medium2 (put_back_opt d1 medium1 (put_back source medium s3)))
      | Ok s4 =>
          match (match medium1 with Some m => changer_place_medium d2 m s4 | None => Ok s4 end) with
          | Err _ => (Err invalid_element_address_response, s4)
          | Ok s5 =>
              match (match medium2 with Some m => changer_place_medium source m s5 | None => Ok s5 end) with
              | Err _ => (Err invalid_element_address_response, s5)
              | Ok s6 => (Ok tt, s6)
              end
          end
      end
  end.

(** ** Archiving *)
(** Empty every port; its label joins the vault's unless it is there already. *)
Definition empty_ports (exported : list string) (s : TapeState) : list string * bool * TapeState :=
  let full := omap (fun e => match e.2 with Some l => Some (e.1, l) | None => None end) (in_order (changer_ie_ports s)) in
  (fold_left (fun acc e => if decide (e.2 ∈ acc) then acc else acc ++ [e.2]) full exported,
   negb (bool_decide (full = [])),
   s <| changer_ie_ports := (fun _ => None) <$> changer_ie_ports s |>
     <| changer_ie_impexp := fold_left (fun m e => <[e.1 := false]> m) full (changer_ie_impexp s) |>).

(** ** Reports *)
Definition changer_serial_as_avoltag_enabled (p : DeviceIdentityProfile) : bool :=
  let v := map to_ascii_uppercase (trim (bytes_of_string (vendor p))) in
  (bool_decide (v = bytes_of_string "HP") || bool_decide (v = bytes_of_string "HPE")) &&
  (product_has p "ESL" || product_has p "EML" || product_has p "MSL").

Definition element_label (s : TapeState) (ty addr : Z) : option string :=
  if decide (ty = 0x02) then mjoin (changer_slots s !! addr)
  else if decide (ty = 0x03) then mjoin (changer_ie_ports s !! addr)
  else if decide (ty = 0x04) then drive_label s addr
  else None.

(** *** Mode pages *)
Definition changer_mode_page_assignment (s : TapeState) : list Z :=
  [0x1D; 0x12] ++ to_be 2 CHANGER_MT_START ++ to_be 2 CHANGER_MT_COUNT ++ to_be 2 CHANGER_ST_START ++
  to_be 2 (changer_slot_count s) ++ to_be 2 CHANGER_IE_START ++ to_be 2 (changer_ie_count s) ++
  to_be 2 CHANGER_DT_START ++ to_be 2 (changer_drive_count s) ++ to_be 2 0.
Definition changer_mode_page_transport_geometry : list Z := [0x1E; 0x02; 0x00; 0x00].
Definition changer_mode_page_device_capabilities : list Z :=
  [0x1F; 0x12; 0x0E; 0x00; 0x0E; 0x0E; 0x0E; 0x0E; 0x00; 0x00; 0x00; 0x00; 0x00; 0x0E; 0x0E; 0x0E; 0x00; 0x00; 0x00; 0x00].
Definition changer_mode_pages (s : TapeState) (page : Z) : option (list Z) :=
  if decide (page = 0x1D) then Some (changer_mode_page_assignment s)
  else if decide (page = 0x1E) then Some changer_mode_page_transport_geometry
  else if decide (page = 0x1F) then Some changer_mode_page_device_capabilities
  else if decide (page = 0x3F) then
    Some (changer_mode_page_assignment s ++ changer_mode_page_transport_geometry ++ changer_mode_page_device_capabilities)
  else None.
Definition mode_sense_6_changer (s : TapeState) (cdb : list Z) : CdbResponse :=
  match changer_mode_pages s (Z.land (cdb_byte cdb 2) 0x3F) with
  | None => invalid_field_in_cdb_response
  | Some pages => good (truncate_reply ([as_u8 (3 + Zlen pages); 0; 0; 0] ++ pages) (cdb_byte cdb 4))
  end.
Definition mode_sense_10_changer (s : TapeState) (cdb : list Z) : CdbResponse :=
  let alloc := if decide (9 <= length cdb)%nat then from_be (slice 7 9 cdb) else 0 in
  match changer_mode_pages s (Z.land (cdb_byte cdb 2) 0x3F) with
  | None => invalid_field_in_cdb_response
  | Some pages => good (truncate_reply (to_be 2 (as_u16 (6 + Zlen pages)) ++ [0; 0; 0; 0; 0; 0] ++ pages) alloc)
  end.
Definition log_sense_changer (cdb : list Z) : CdbResponse :=
  let alloc := if decide (9 <= length cdb)%nat then from_be (slice 7 9 cdb) else 0 in
  if decide (Z.land (cdb_byte cdb 2) 0x3F <> 0) then invalid_field_in_cdb_response
  else good (truncate_reply [0x00; 0x00; 0x00; 0x01; 0x00] alloc).

Definition open_close_import_export_changer (cdb : list Z) (s : TapeState) : CdbResponse * TapeState :=
  let requested := from_be [cdb_byte cdb 2; cdb_byte cdb 3] in
  let addr := if decide (requested = 0) then CHANGER_IE_START else requested in
  match changer_ie_ports s !! addr with
  | None => (invalid_field_in_cdb_response, s)
  | Some _ =>
      (good [], push_unit_attention 0x2A 0x01
                  (s <| changer_ie_impexp := <[addr := bit (cdb_byte cdb 4) 0x01]> (changer_ie_impexp s) |>))
  end.

(** ** Commands *)
Section Changer.
Context `{HOST : Host} `{ENV : Environ} `{C : Crc32c} `{HO : HashOrder} `{BC : BlockCodecs} `{B3 : Blake3}.
Context `{SH : SpaceHost} `{SHA : Sha256} `{TH : Threads}.

(** A change of the drive that answers. *)
Definition answer {A} (f : TapeState -> A * TapeState) : M Sys Panic A :=
  let! s := the_tape in let (a, s') := f s in set_tape (fun _ => s') ;;! retM a.

Definition shared_changer_inventory_enabled : M Sys Panic bool :=
  let! s := the_tape in
  let key := media_state_key_for_state s in
  let! slots := file_exists (shared_changer_slots_path key) in
  let! ie := file_exists (shared_changer_ie_path key) in
  let! vault := file_exists (shared_changer_vault_path key) in
  retM (contains_seq SEPARATOR (bytes_of_string key) || slots || ie || vault).

Definition auto_archive_ie_media_to_vault : M Sys Panic (Result CdbResponse unit) :=
  let! enabled := shared_changer_inventory_enabled in
  if negb enabled then retM (Ok tt)
  else
    let! s := the_tape in
    let key := media_state_key_for_state s in
    let! existing := files_or None (read_shared_changer_vault key) in
    let kept := List.filter (fun l => bool_decide (trim_string l <> EmptyString)) (omap id (default [] existing)) in
    let '(exported, changed, s') := empty_ports kept s in
    set_tape (fun _ => s') ;;!
    if negb changed then retM (Ok tt)
    else
      let! r := files (write_shared_changer_ie key (map snd (in_order (changer_ie_ports s')))) in
      match r with
      | Err _ => retM (Err internal_target_failure_response)
      | Ok _ =>
          let! r := files (write_shared_changer_vault key (map Some exported)) in
          retM (match r with Ok _ => Ok tt | Err _ => Err internal_target_failure_response end)
      end.

(** What follows a completed move: archive, report, write the new state out. *)
Definition finish_move (accessed : TapeState -> bool) : M Sys Panic CdbResponse :=
  let! archived := auto_archive_ie_media_to_vault in
  match archived with
  | Err response => retM response
  | Ok _ =>
      set_tape (fun s => if accessed s then push_ie_accessed_unit_attention s else push_unit_attention 0x28 0x00 s) ;;!
      sync_changer_inventory_to_shared ;;!
      sync_changer_mount_to_shared ;;!
      retM (good [])
  end.

Definition move_medium_changer (cdb : list Z) : M Sys Panic CdbResponse :=
  if decide (length cdb < 8)%nat then retM invalid_field_in_cdb_response
  else
    let source := from_be (slice 4 6 cdb) in
    let destination := from_be (slice 6 8 cdb) in
    if decide (source = destination) then retM (good [])
    else
      let! moved := answer (move_elements source destination) in
      match moved with
      | Err response => retM response
      | Ok _ => finish_move (fun s => changer_ie_accessed s source destination)
      end.

Definition exchange_medium_changer (cdb : list Z) : M Sys Panic CdbResponse :=
  if decide (length cdb < 10)%nat then retM invalid_field_in_cdb_response
  else
    let source := from_be (slice 4 6 cdb) in
    let d1 := from_be (slice 6 8 cdb) in
    let d2 := from_be (slice 8 10 cdb) in
    if decide (source = d1 /\ d1 = d2) then retM (good [])
    else
      let! moved := answer (exchange_elements source d1 d2) in
      match moved with
      | Err response => retM response
      | Ok _ => finish_move (fun s => changer_ie_accessed s source d1 || changer_ie_accessed s source d2)
      end.

(** *** READ ELEMENT STATUS *)
Definition fallback_serial (r : Result TapeError (list Z)) : list Z :=
  match r with Ok l => l | Err _ => bytes_of_string "HOLO00000000" end.
Definition changer_drive_identifier_designator_for_seed (seed : string) : list Z :=
  let p := resolve_drive_profile_from_env in
  let serial := fallback_serial (serial_for_vpd_seed p seed) in
  let trimmed s := string_of_bytes (trim_end (bytes_of_string s)) in
  let identifier := padded_ascii 8 (trimmed (vendor p)) ++ padded_ascii 16 (trimmed (product p)) ++ serial in
  [0x02; 0x01; 0x00; Z.min (Zlen identifier) U8_MAX] ++ take 255 identifier.

Definition seed_of (bs : list Binding) (addr : Z) : option string :=
  find_map (fun b : Binding => if decide (b.1.1 = addr) then Some b.1.2 else None) bs.
Definition changer_volume_tag (s : TapeState) (bs : list Binding) (ty addr : Z) (alternate : bool) : list Z :=
  if alternate && bool_decide (ty = 0x04) then
    let seed := default (drive_id s) (seed_of bs addr) in
    let serial := take 32 (fallback_serial (serial_for_vpd_seed resolve_drive_profile_from_env seed)) in
    [0; 0; 0; 0] ++ serial ++ replicate (32 - length serial) 0
  else
    match element_label s ty addr with
    | Some label => let l := take 32 (trim (bytes_of_string label)) in
                    l ++ replicate (32 - length l) 32 ++ [0; 0; 0; 0]
    | None => replicate 36 0
    end.

(** What a READ ELEMENT STATUS asks for. *)
Record StatusRequest : Type := mkStatusRequest {
  sr_start : Z; sr_voltag : bool; sr_avoltag : bool; sr_dvcid : bool; sr_profile : DeviceIdentityProfile
}.
Definition include_voltag (r : StatusRequest) : bool := sr_voltag r || sr_avoltag r.
Definition include_avoltag (r : StatusRequest) (ty : Z) : bool :=
  bool_decide (ty = 0x04) &&
  (sr_avoltag r || include_voltag r && changer_serial_as_avoltag_enabled (sr_profile r)).

Definition element_descriptor (s : TapeState) (bs : list Binding) (r : StatusRequest) (ty addr : Z) : list Z :=
  let full := bool_decide (is_Some (element_label s ty addr)) in
  let flags := if full then 0x09 else 0x08 in
  let flags := if bool_decide (ty = 0x03) && default false (changer_ie_impexp s !! addr) then Z.lor flags 0x02 else flags in
  let source := default 0 (source_of s addr) in
  let valid := bool_decide (ty = 0x04) && full && bool_decide (source <> 0) in
  to_be 2 addr ++ [flags; 0x00; 0x00; 0x00; 0x00; 0x00; 0x00; if valid then 0x80 else 0x00] ++ to_be 2 source ++
  (if include_voltag r then changer_volume_tag s bs ty addr false else []) ++
  (if include_avoltag r ty then changer_volume_tag s bs ty addr true else []) ++
  (if bool_decide (ty = 0x04) && sr_dvcid r
   then changer_drive_identifier_designator_for_seed (default (drive_id s) (seed_of bs addr))
   else [0x00; 0x00; 0x00; 0x00]).

Record StatusScan : Type := mkScan { sn_body : list Z; sn_first : option Z; sn_remaining : Z; sn_available : Z }.
(** One element type: nothing when no more are asked for, or none of its
    elements is at or after the starting address. *)
Definition scan_type (s : TapeState) (bs : list Binding) (r : StatusRequest) (a : StatusScan) (ty : Z) : StatusScan :=
  match changer_type_range s ty with
  | None => a
  | Some (base, total) =>
      let stop := Z.min (base + total) U16_MAX in
      let first := Z.max base (sr_start r) in
      let count := Z.min (stop - first) (sn_remaining a) in
      if decide (sn_remaining a = 0 \/ total = 0 \/ stop <= first \/ count = 0) then a
      else
        let identifier_len := if bool_decide (ty = 0x04) && sr_dvcid r
                              then Zlen (changer_drive_identifier_designator_for_seed (drive_id s)) else 4 in
        let len := 12 + (if include_voltag r then 36 else 0) + (if include_avoltag r ty then 36 else 0) + identifier_len in
        mkScan (sn_body a ++
                [ty; Z.lor (if include_voltag r then 0x80 else 0x00) (if include_avoltag r ty then 0x40 else 0x00)] ++
                to_be 2 (as_u16 len) ++ to_be 4 (as_u32 (len * count)) ++
                concat (map (element_descriptor s bs r ty) (seqZ first count)))
          (match sn_first a with Some f => Some f | None => Some first end)
          (sn_remaining a - count) (Z.min (sn_available a + count) U16_MAX)
  end.

Definition status_report (a : StatusScan) : list Z :=
  to_be 2 (default 0xFFFF (sn_first a)) ++ to_be 2 (sn_available a) ++ to_be 4 (as_u32 (Zlen (sn_body a))) ++ sn_body a.

Definition read_element_status_changer (cdb : list Z) (p : DeviceIdentityProfile) : M Sys Panic CdbResponse :=
  match try_read_be24 cdb 7 with
  | None => retM invalid_field_in_cdb_response
  | Some alloc =>
      if decide (alloc = 0) then retM (good [])
      else if decide (alloc < 8) then retM invalid_field_in_cdb_response
      else
        let! s := the_tape in
        let flags := cdb_byte cdb 1 in
        let ty := Z.land flags 0x0F in
        let types := if decide (ty = 0x00) then Some [0x01; 0x04; 0x03; 0x02]
                     else match changer_type_range s ty with Some _ => Some [ty] | None => None end in
        match types with
        | None => retM invalid_field_in_cdb_response
        | Some types =>
            let! bs := bindings in
            let start := if decide (4 <= length cdb)%nat then from_be (slice 2 4 cdb) else CHANGER_DT_START in
            let requested := if decide (6 <= length cdb)%nat then from_be (slice 4 6 cdb) else 0 in
            let r := mkStatusRequest start (bit flags 0x10) (bit flags 0x20) (bit (cdb_byte cdb 6) 0x01) p in
            let scan := fold_left (scan_type s bs r) types (mkScan [] None requested 0) in
            (if decide (0x03 ∈ types) then set_tape push_ie_accessed_unit_attention else retM tt) ;;!
            retM (good (truncate_reply (status_report scan) alloc))
        end
  end.

Definition rezero_unit_changer : M Sys Panic CdbResponse := ensure_changer_drive_topology ;;! retM (good []).

(** INITIALIZE ELEMENT STATUS, with or without a range. *)
Definition initialize_element_status : M Sys Panic CdbResponse :=
  set_tape reset_changer_inventory ;;!
  ensure_changer_drive_topology ;;!
  sync_changer_inventory_from_shared ;;!
  set_tape (fun s => push_unit_attention 0x28 0x00 (s <| changer_slots_synced_from_shared := true |>)) ;;!
  sync_changer_mount_from_shared ;;!
  retM (good []).

Definition inquiry_command (p : DeviceIdentityProfile) (cdb : list Z) (seed : string) : CoreCommand :=
  if decide (Z.land (cdb_byte cdb 1) 0x01 = 0) then InquiryStandard p seed else InquiryVpd p (cdb_byte cdb 2) seed.

(** The answer to each operation code, after the inventory was brought up to
    date. *)
Definition changer_command (cdb data_out : list Z) (p : DeviceIdentityProfile) (context : CdbDispatchContext)
  : M Sys Panic CdbResponse :=
  let! s := the_tape in
  match cdb_byte cdb 0 with
  | 0x01 => rezero_unit_changer
  | 0x00 => retM (good [])
  | 0x03 => let! sense := answer request_sense_response in retM (good sense)
  | 0x12 => run_core_reply (inquiry_command p cdb (drive_id s)) cdb (cdb_byte cdb 4)
  | 0x07 | 0x37 | 0xE7 => initialize_element_status
  | 0x16 | 0x17 => retM reserve_release_compat_response
  | 0x1A => retM (mode_sense_6_changer s cdb)
  | 0x1B => answer (open_close_import_export_changer cdb)
  | 0x1E | 0x2B => retM (good [])
  | 0x4D => retM (log_sense_changer cdb)
  | 0x5E => retM (persistent_reserve_in_drive s cdb)
  | 0x5F => persistent_reserve_out_drive_with_context cdb data_out context
  | 0x5A => retM (mode_sense_10_changer s cdb)
  | 0xA0 => retM (report_luns_single_lun cdb)
  | 0xA3 => report_timestamp cdb
  | 0xA5 => move_medium_changer cdb
  | 0xA6 => exchange_medium_changer cdb
  | 0xB8 => read_element_status_changer cdb p
  | opcode => retM (changer_unsupported_response opcode)
  end.
Definition dispatch_changer_cdb_with_context (cdb data_out : list Z) (p : DeviceIdentityProfile)
  (context : CdbDispatchContext) : M Sys Panic CdbResponse :=
  ensure_changer_drive_topology ;;!
  (if changer_opcode_requires_slot_bootstrap (cdb_byte cdb 0)
   then bootstrap_changer_slots_from_shared_once else retM tt) ;;!
  sync_changer_inventory_from_shared ;;!
  sync_changer_mount_from_shared ;;!
  changer_command cdb data_out p context.
End Changer.
