(* ===== verification/CdbDrive.v ===== *)
(** * Drive commands (iscsi/cdb_drive.rs)

    The commands a drive answers itself: loading and unloading, FORMAT MEDIUM,
    MODE SELECT and SENSE, VERIFY, LOG SENSE, the attributes in medium auxiliary
    memory and their file, and the simple reports. *)

From S2P Require Import Prelude Bytes Text Errors Sense Fs Layout TapeState Reservation SpaceGuard Identity Wire.
From S2P Require Import Compression Records World Crc Segment Logs BlkMap MapLookup Dedup DataBlobs DataPath.
From S2P Require Import System Bootstrap Prefetch MountBridge CommandChain CommandsCore CdbBase DriveProfile MediaState.
From S2P Require Import CdbCommon Changer.

Definition MAX_WRITE_ATTRIBUTE_PARAMETER_LIST_LEN : Z := 64 * 1024.

(** ** Reports that depend on nothing *)
Definition log_select_drive (cdb : list Z) : CdbResponse :=
  match try_read_be16 cdb 7 with
  | None => invalid_field_in_cdb_response
  | Some len =>
      if bit (cdb_byte cdb 1) 0x01 || bit (cdb_byte cdb 1) 0x02 && bool_decide (len <> 0)
      then invalid_field_in_cdb_response else good []
  end.
Definition read_block_limits_drive (cdb : list Z) : CdbResponse :=
  if bit (cdb_byte cdb 1) 0x01 then good (replicate 12 0 ++ to_be 8 0x00000000FFFFFFFF)
  else good ([0x00] ++ be24 DRIVE_REPORTED_MAX_BLOCK_SIZE ++ to_be 2 DRIVE_MIN_BLOCK_SIZE).
Definition receive_diagnostic_results_drive (cdb : list Z) : CdbResponse :=
  let alloc := read_be16 cdb 3 in
  if decide (alloc = 0) then good [] else good (truncate_reply [cdb_byte cdb 2; 0x00; 0x00; 0x00] alloc).
Definition parameter_value_invalid_response : CdbResponse := sense_response 0x05 0x26 0x00.
Definition position_past_beginning_response : CdbResponse := sense_response 0x05 0x3B 0x0C.

Definition media_serial_for_state (s : TapeState) : list Z :=
  let seed := match cartridge_id s with
              | Some id => if decide (trim_string id = EmptyString) then drive_id s else id
              | None => drive_id s
              end in
  take 32 (List.filter is_ascii_alphanumeric (bytes_of_string seed)).
Definition read_media_serial_number_drive (s : TapeState) (cdb : list Z) : CdbResponse :=
  if decide (mount_state s <> Loaded) then no_medium_response
  else
    let alloc := read_be32 cdb 6 in
    if decide (alloc = 0) then good []
    else let serial := media_serial_for_state s in
         good (truncate_reply (to_be 4 (as_u32 (Zlen serial)) ++ serial) alloc).

Definition read_buffer_drive (cdb : list Z) (p : DeviceIdentityProfile) : CdbResponse :=
  let m := Z.land (cdb_byte cdb 1) 0x1F in
  let alloc := read_be24 cdb 6 in
  let buffer_id := cdb_byte cdb 2 in
  if decide (alloc = 0) then good []
  else
    let out :=
      if decide (m = 0x03) then 0 :: be24 (if decide (buffer_id = 0x03) then 64 else 0)
      else if decide ((m = 0x00 \/ m = 0x02) /\ buffer_id = 0x03) then
        let serial := fallback_serial (serial_for_vpd_seed p "holo") in
        let payload := [32; 32; 32; 32] ++ serial in
        to_be 4 (sat_sub (Zlen payload) 1) ++ payload
      else [0; 0; 0; 0] in
    good (truncate_reply out alloc).

Definition report_density_support_drive (s : TapeState) (cdb : list Z) (p : DeviceIdentityProfile) : CdbResponse :=
  match try_read_be16 cdb 7 with
  | None => invalid_field_in_cdb_response
  | Some alloc =>
      if decide (alloc < 4) then invalid_field_in_cdb_response
      else
        let descriptor := if bit (cdb_byte cdb 1) 0x02 && is_lto_profile p then drive_medium_descriptor s p
                          else drive_density_descriptor p (medium_capacity_bytes_for_state s p) in
        let avail := if decide (0 < length descriptor)%nat then as_u16 (Zlen descriptor + 2) else 0 in
        good (truncate_reply (to_be 2 avail ++ [0; 0] ++ descriptor) alloc)
  end.

Definition allow_overwrite_drive (cdb : list Z) (s : TapeState) : CdbResponse * TapeState :=
  if decide (mount_state s <> Loaded) then (no_medium_response, s)
  else if decide (length cdb < 16)%nat then (invalid_field_in_cdb_response, s)
  else
    let allow := Z.land (cdb_byte cdb 2) 0x0F in
    if decide (0x02 < allow) then (invalid_field_in_cdb_response, s)
    else if decide (cdb_byte cdb 3 <> 0) then (invalid_field_in_cdb_response, s)
    else (good [], s <| allow_overwrite := if decide (allow = 0) then None
                        else Some (mkAllowOverwrite allow (cdb_byte cdb 3) (from_be (slice 4 12 cdb))) |>).

(** ** MODE SENSE *)
Definition mode_sense_6_drive (s : TapeState) (cdb : list Z) (p : DeviceIdentityProfile) : CdbResponse :=
  let dbd := bit (cdb_byte cdb 1) 0x08 in
  let pc := Z.shiftr (cdb_byte cdb 2) 6 in
  if decide (pc = MODE_SENSE_PC_SAVED_VALUES) then saving_parameters_not_supported_response
  else match drive_mode_pages s p (Z.land (cdb_byte cdb 2) 0x3F) (cdb_byte cdb 3) pc with
       | None => invalid_field_in_cdb_response
       | Some pages =>
           let body := (if dbd then [] else drive_mode_block_descriptor s p) ++ pages in
           good (truncate_reply ([as_u8 (3 + Zlen body); medium_type_for_loaded_media s p; device_specific_mode_parameter s;
                                  if dbd then 0 else 8] ++ body) (cdb_byte cdb 4))
       end.
Definition mode_sense_10_drive (s : TapeState) (cdb : list Z) (p : DeviceIdentityProfile) : CdbResponse :=
  let dbd := bit (cdb_byte cdb 1) 0x08 in
  let pc := Z.shiftr (cdb_byte cdb 2) 6 in
  if decide (pc = MODE_SENSE_PC_SAVED_VALUES) then saving_parameters_not_supported_response
  else match drive_mode_pages s p (Z.land (cdb_byte cdb 2) 0x3F) (cdb_byte cdb 3) pc with
       | None => invalid_field_in_cdb_response
       | Some pages =>
           let body := (if dbd then [] else drive_mode_block_descriptor s p) ++ pages in
           good (truncate_reply (to_be 2 (as_u16 (6 + Zlen body)) ++
                                 [medium_type_for_loaded_media s p; device_specific_mode_parameter s; 0; 0] ++
                                 to_be 2 (if dbd then 0 else 8) ++ body) (read_be16 cdb 7))
       end.

(** ** MODE SELECT *)
Inductive ModeSelectKind : Type := Mode6 | Mode10.

(** One page; [None] is the error of a partition page that does not fit. *)
Definition apply_mode_page (p : DeviceIdentityProfile) (page : list Z) (code : Z) (sub : bool) (s : TapeState)
  : option TapeState :=
  if bool_decide (code = MODE_PAGE_DEVICE_CONFIGURATION) && negb sub && bool_decide (16 <= length page)%nat then
    let s := if bit (byte_at page 10) 0x08 then s <| early_warning_window := 8 |> else s in
    Some (s <| select_data_compression_algorithm := bool_decide (byte_at page 14 <> 0) |>)
  else if bool_decide (code = MODE_PAGE_DATA_COMPRESSION) && negb sub && bool_decide (4 <= length page)%nat then
    Some (s <| data_compression_enabled := data_compression_allowed s && bit (byte_at page 2) 0x80 |>)
  else if bool_decide (code = MODE_PAGE_MEDIUM_PARTITION) && negb sub && bool_decide (8 <= length page)%nat then
    apply_medium_partition_mode_page p page s
  else Some s.

(** The pages of the list, in order: an incomplete one ends it. *)
Fixpoint apply_mode_pages (fuel : nat) (p : DeviceIdentityProfile) (rest : list Z) : M TapeState unit unit :=
  match fuel with
  | O => retM tt
  | S f =>
      if decide (length rest <= 1)%nat then retM tt
      else
        let code := Z.land (byte_at rest 0) 0x3F in
        let sub := bit (byte_at rest 0) 0x40 in
        if sub && bool_decide (length rest < 4)%nat then retM tt
        else
          let page_len := Z.to_nat (if (sub : bool) then 4 + from_be (slice 2 4 rest) else 2 + byte_at rest 1) in
          if decide (length rest < page_len)%nat then retM tt
          else
            let! s := getM in
            let! s' := liftM (ok_or (apply_mode_page p (take page_len rest) code sub s) tt) in
            putM s' ;;! apply_mode_pages f p (drop page_len rest)
  end.

Definition apply_block_descriptor (descriptor : list Z) (s : TapeState) : option TapeState :=
  let block_length := from_be (slice 5 8 descriptor) in
  if decide (DRIVE_MAX_BLOCK_SIZE < block_length) then None
  else Some (s <| block_mode := if decide (block_length = 0) then mkBlockMode Variable_ 0 else mkBlockMode Fixed_ block_length |>).

Definition apply_mode_select_payload_drive (payload : list Z) (kind : ModeSelectKind) (p : DeviceIdentityProfile)
  : M TapeState unit unit :=
  let header := match kind with Mode6 => 4%nat | Mode10 => 8%nat end in
  if decide (length payload < header)%nat then failM tt
  else
    let device_specific := byte_at payload (match kind with Mode6 => 2 | Mode10 => 3 end) in
    let descriptor_len := match kind with Mode6 => byte_at payload 3 | Mode10 => from_be (slice 6 8 payload) end in
    modifyM (fun s => s <| buffered_mode := bool_decide (Z.land (Z.shiftr device_specific 4) 0x07 <> 0) |>) ;;!
    let body := drop header payload in
    (if decide (0 < descriptor_len) then
       if decide (Zlen body < descriptor_len \/ descriptor_len < 8) then failM tt
       else
         let! s := getM in
         let! s' := liftM (ok_or (apply_block_descriptor (take (Z.to_nat descriptor_len) body) s) tt) in putM s'
     else retM tt) ;;!
    let pages := drop (Z.to_nat descriptor_len) body in
    apply_mode_pages (length pages) p pages.

Definition mode_select_drive (len : Z) (data_out : list Z) (kind : ModeSelectKind) (p : DeviceIdentityProfile)
  (s : TapeState) : CdbResponse * TapeState :=
  if decide (0 < len /\ Zlen data_out < len) then (invalid_field_in_cdb_response, s)
  else if decide (0 < len) then
    match apply_mode_select_payload_drive (take (Z.to_nat len) data_out) kind p s with
    | (Ok _, s') => (good [], s')
    | (Err _, s') => (invalid_field_in_cdb_response, s')
    end
  else (good [], s).
Definition mode_select_6_drive (cdb data_out : list Z) (p : DeviceIdentityProfile) : TapeState -> CdbResponse * TapeState :=
  mode_select_drive (cdb_byte cdb 4) data_out Mode6 p.
Definition mode_select_10_drive (cdb data_out : list Z) (p : DeviceIdentityProfile) (s : TapeState)
  : CdbResponse * TapeState :=
  match try_read_be16 cdb 7 with
  | None => (invalid_field_in_cdb_response, s)
  | Some len => mode_select_drive len data_out Mode10 p s
  end.

(** ** FORMAT MEDIUM *)
Definition format_medium_drive (cdb : list Z) (p : DeviceIdentityProfile) (s : TapeState) : CdbResponse * TapeState :=
  if decide (mount_state s <> Loaded) then (no_medium_response, s)
  else if decide (current_position s <> 0) then (position_past_beginning_response, s)
  else
    match apply_format_medium_layout p (Z.land (cdb_byte cdb 2) 0x0F) s with
    | (Err _, s') => (parameter_value_invalid_response, s')
    | (Ok _, s') =>
        (good [], push_unit_attention 0x2A 0x01
                    (s' <| current_position := 0 |> <| eod_position := 0 |> <| filemarks := [] |>
                        <| block_starts := [] |> <| block_lengths := ∅ |>
                        <| partition_runtime := (partition_runtime s') <| active_partition := 0 |> |>))
    end.

(** ** LOG SENSE *)
Definition log_param (control len : Z) (code : Z) (value : list Z) : list Z := to_be 2 code ++ [control; len] ++ value.
Definition append_log_param_u32 (page : list Z) (code value : Z) : list Z := page ++ log_param 0x00 0x04 code (to_be 4 value).
Definition append_log_param_u64 (page : list Z) (code value : Z) : list Z := page ++ log_param 0x00 0x08 code (to_be 8 value).
Definition append_log_param_u16 (page : list Z) (code value : Z) : list Z := page ++ log_param 0x00 0x02 code (to_be 2 value).
Definition append_log_partition_param_u32 (page : list Z) (code value : Z) : list Z :=
  page ++ log_param 0x03 0x08 code ([0x07; 0x00; 0x00; 0x00] ++ to_be 4 value).
Definition finalize_log_page (page : list Z) : list Z :=
  take 2 page ++ to_be 2 (as_u16 (sat_sub (Zlen page) 4)) ++ drop 4 page.
Definition log_page_start (code : Z) : list Z := [code; 0x00; 0x00; 0x00].

Definition volume_status_flags (s : TapeState) : Z :=
  let flags := 0x01 in
  let flags := if data_compression_enabled s then Z.lor flags 0x10 else flags in
  if decide (mount_state s = Loaded) then
    let flags := Z.lor flags 0x20 in
    if bit (device_specific_mode_parameter s) 0x80 then Z.lor flags 0x08 else flags
  else flags.
Definition volume_medium_flags (s : TapeState) : Z :=
  match mount_state s with Loaded => 0x17 | Empty => 0x20 | _ => 0 end.

Definition sequential_statistics_page (s : TapeState) (p : DeviceIdentityProfile) : list Z :=
  let capacity := active_partition_capacity_bytes s p in
  let used := Z.min (eod_position s) capacity in
  let remaining := sat_sub capacity used in
  let u := usage_counters s in
  let page := log_page_start 0x17 in
  let page := append_log_param_u32 page 0x0001 (clamp_u64_to_u32 (Z.max (load_count u) 1)) in
  let page := append_log_param_u64 page 0x0002 (lifetime_write_ops u) in
  let page := append_log_param_u32 page 0x0003 0 in
  let page := append_log_param_u16 page 0x0004 0 in
  let page := append_log_param_u64 page 0x0007 (lifetime_read_ops u) in
  let page := append_log_param_u32 page 0x0008 0 in
  let page := append_log_param_u16 page 0x0009 0 in
  let page := append_log_param_u16 page 0x000C 0 in
  let page := append_log_param_u16 page 0x000D 0 in
  let page := append_log_param_u64 page 0x0010 (bytes_to_mib_u32 (lifetime_bytes_written u)) in
  let page := append_log_param_u64 page 0x0011 (bytes_to_mib_u32 (lifetime_bytes_read u)) in
  let page := append_log_param_u32 page 0x0101 0 in
  let page := append_log_param_u32 page 0x0102 0 in
  let page := append_log_partition_param_u32 page 0x0202 (bytes_to_mib_u32 capacity) in
  let page := append_log_partition_param_u32 page 0x0203 (bytes_to_mib_u32 used) in
  let page := append_log_partition_param_u32 page 0x0204 (bytes_to_mib_u32 remaining) in
  finalize_log_page page.

(** The page a LOG SENSE asks for; [None] when it is not supported. *)
Definition drive_log_page (s : TapeState) (cdb : list Z) (p : DeviceIdentityProfile) (page_code : Z) : option (list Z) :=
  let u := usage_counters s in
  let capacity := active_partition_capacity_bytes s p in
  let remaining := sat_sub capacity (Z.min (eod_position s) capacity) in
  if decide (page_code = 0x00) then
    let supported := [0x00; 0x02; 0x03; 0x0C; 0x11; 0x17; 0x2E; 0x31; 0x32; 0x37] in
    Some ([0x00; 0x00; 0x00; Zlen supported] ++ supported)
  else if decide (page_code = 0x02 \/ page_code = 0x03) then
    Some (finalize_log_page
            (fold_left (fun page code => append_log_param_u32 page code 0)
               [0x0000; 0x0001; 0x0002; 0x0003; 0x0004; 0x0005; 0x0006; 0x8000; 0x8001; 0x8002; 0x8003]
               (log_page_start page_code)))
  else if decide (page_code = 0x0C) then
    let page := append_log_param_u32 (log_page_start 0x0C) 0x0001 (clamp_u64_to_u32 (last_load_write_ops u)) in
    let page := append_log_param_u32 page 0x0002 (clamp_u64_to_u32 (last_load_filemark_ops u)) in
    let page := append_log_param_u32 page 0x0003 (clamp_u64_to_u32 (last_load_read_ops u)) in
    Some (finalize_log_page page)
  else if decide (page_code = 0x11) then
    if bit (cdb_byte cdb 1) 0x02 || bool_decide (cdb_byte cdb 3 <> 0) || bool_decide (read_be16 cdb 5 <> 0)
    then None
    else Some [0x11; 0; 0; 8; 0; 0; 0x03; 4; volume_status_flags s; volume_medium_flags s; 0; 0]
  else if decide (page_code = 0x17) then Some (sequential_statistics_page s p)
  else if decide (page_code = 0x2E) then Some (log_page_start 0x2E)
  else if decide (page_code = 0x31) then
    let page := append_log_param_u32 (log_page_start 0x31) 0x0001 (bytes_to_mib_u32 remaining) in
    let page := append_log_param_u32 page 0x0002 0 in
    let page := append_log_param_u32 page 0x0003 (bytes_to_mib_u32 capacity) in
    let page := append_log_param_u32 page 0x0004 0 in
    Some (finalize_log_page page)
  else if decide (page_code = 0x32) then
    let written := bytes_to_mib_u32 (lifetime_bytes_written u) in
    Some (finalize_log_page (append_log_param_u32 (append_log_param_u32 (log_page_start 0x32) 0x0001 written) 0x0002 written))
  else if decide (page_code = 0x37) then
    let rate := native_transfer_rate_mib_per_sec_for_profile p in
    Some (finalize_log_page (append_log_param_u32 (append_log_param_u32 (log_page_start 0x37) 0x0001 rate) 0x0002 rate))
  else None.
Definition log_sense_drive (cdb : list Z) (p : DeviceIdentityProfile) (s : TapeState) : CdbResponse * TapeState :=
  if bit (cdb_byte cdb 1) 0x01 then (invalid_field_in_cdb_response, s)
  else
    let s := s <| command_counters :=
      (command_counters s) <| log_sense_ops := sat_add64 (log_sense_ops (command_counters s)) 1 |> |> in
    match drive_log_page s cdb p (Z.land (cdb_byte cdb 2) 0x3F) with
    | None => (invalid_field_in_cdb_response, s)
    | Some page => (good (truncate_reply page (read_be16 cdb 7)), s)
    end.

(** ** The attribute file *)
Definition mam_override_file_path (s : TapeState) : option string :=
  (fun l => path_join (root l) "mam.overrides") <$> active_layout s.
Definition encode_hex (bytes : list Z) : list Z := concat (map hex2 bytes).

(** [from_str_radix(.., 16)]: an optional plus sign, then hexadecimal digits of
    either case, without overflow. *)
Definition hex_value (b : Z) : option Z :=
  if decide (48 <= b <= 57) then Some (b - 48)
  else if decide (65 <= b <= 70) then Some (b - 55)
  else if decide (97 <= b <= 102) then Some (b - 87)
  else None.
Fixpoint parse_hex_digits (max acc : Z) (l : list Z) : option Z :=
  match l with
  | [] => Some acc
  | b :: l' =>
      match hex_value b with
      | Some d => if decide (acc * 16 + d <= max) then parse_hex_digits max (acc * 16 + d) l' else None
      | None => None
      end
  end.
Definition parse_hex (max : Z) (l : list Z) : option Z :=
  match l with
  | [] => None
  | [43] => None
  | 43 :: l' => parse_hex_digits max 0 l'
  | _ => parse_hex_digits max 0 l
  end.

(** Two characters at a time.  A pair that cuts a character apart makes the
    slice panic. *)
Fixpoint decode_pairs (l : list Z) : Result Panic (option (list Z)) :=
  match l with
  | a :: b :: rest =>
      if match rest with c :: _ => cont c | [] => false end
      then Err (Panicked "byte index is not a char boundary")
      else match parse_hex U8_MAX [a; b] with
           | None => Ok None
           | Some v => let? r := decode_pairs rest in Ok (cons v <$> r)
           end
  | _ => Ok (Some [])
  end.
Definition decode_hex (raw : list Z) : Result Panic (option (list Z)) :=
  if Nat.odd (length raw) then Ok None else decode_pairs raw.

Definition mam_line (key : Z) (o : MamAttributeOverride) : list Z :=
  hex4 (key / 65536) ++ hex4 (key mod 65536) ++ [124] ++ hex2 (mam_format o) ++ [124] ++ encode_hex (mam_value o) ++ [10].
Definition mam_text (m : gmap Z MamAttributeOverride) : list Z :=
  concat (map (fun e => mam_line e.1 e.2) (in_order m)).

(** A line that is not [key|format|value] is skipped. *)
Definition load_mam_line (m : gmap Z MamAttributeOverride) (line : list Z) : Result Panic (gmap Z MamAttributeOverride) :=
  let trimmed := trim line in
  if decide (trimmed = []) then Ok m
  else match split_on 124 trimmed with
       | [key; format; value] =>
           match parse_hex U32_MAX key, parse_hex U8_MAX format with
           | Some key, Some format =>
               let? decoded := decode_hex value in
               Ok (match decoded with Some v => <[key := mkMam format v]> m | None => m end)
           | _, _ => Ok m
           end
       | _ => Ok m
       end.
(** ** Commands on the whole process *)
Section Drive.
Context `{HOST : Host} `{ENV : Environ} `{C : Crc32c} `{HO : HashOrder} `{BC : BlockCodecs} `{B3 : Blake3}.
Context `{SH : SpaceHost} `{SHA : Sha256} `{TH : Threads}.

Definition ensure_mam_overrides_loaded : M Sys Panic (Result IoError unit) :=
  let! s := the_tape in
  match cartridge_id s with
  | None => set_tape (fun s => s <| mam_overrides := ∅ |> <| mam_loaded_for := None |>) ;;! retM (Ok tt)
  | Some id =>
      if decide (mam_loaded_for s = Some id) then retM (Ok tt)
      else
        set_tape (fun s => s <| mam_overrides := ∅ |>) ;;!
        let! raw := (match mam_override_file_path s with
                     | None => retM (Ok [])
                     | Some path => let! r := files (read_text path) in
                                    retM (match r with Ok raw => Ok (default [] raw) | Err e => Err e end)
                     end) in
        match raw with
        | Err e => retM (Err e)
        | Ok raw =>
            forM (lines raw) (fun line =>
              let! s := the_tape in
              let! m := liftM (load_mam_line (mam_overrides s) line) in
              set_tape (fun s => s <| mam_overrides := m |>)) ;;!
            set_tape (fun s => s <| mam_loaded_for := Some id |>) ;;! retM (Ok tt)
        end
  end.

Definition persist_mam_overrides : M Sys Panic (Result IoError unit) :=
  let! s := the_tape in
  match mam_override_file_path s with
  | None => retM (Ok tt)
  | Some path =>
      let tmp := with_extension_tmp path in
      files (fs_create_dir_all path ;;!
             let! i := fs_open_trunc tmp in
             fs_write_at i 0 (mam_text (mam_overrides s)) ;;!
             fs_rename tmp path)
  end.

Definition storage_failure_response : CdbResponse := sense_response 0x03 0x44 0x00.

(** The attributes of a WRITE ATTRIBUTE, stored one after the other: those
    before a bad one stay. *)
Fixpoint write_attributes (fuel : nat) (partition_id : Z) (schema : gmap Z MamAttributeSchema) (rest : list Z)
  (m : gmap Z MamAttributeOverride) : option (list Z) * gmap Z MamAttributeOverride :=
  match fuel with
  | O => (Some rest, m)
  | S f =>
      if decide (length rest < 5)%nat then (Some rest, m)
      else
        let id := from_be (slice 0 2 rest) in
        let format := byte_at rest 2 in
        let len := Z.to_nat (from_be (slice 3 5 rest)) in
        let body := drop 5 rest in
        if decide (length body < len)%nat then (None, m)
        else
          let value := take len body in
          let rest' := drop len body in
          match schema !! id with
          | None => write_attributes f partition_id schema rest' m
          | Some sc =>
              if negb (sc_writable sc) then (None, m)
              else if decide (Z.land format 0x7F <> Z.land (sc_format sc) 0x7F) then (None, m)
              else if decide (sc_max_len sc < Zlen value) then (None, m)
              else write_attributes f partition_id schema rest'
                     (<[mam_override_key partition_id id :=
                          mkMam (sc_format sc) (normalize_attribute_value value (sc_max_len sc) (sc_format sc))]> m)
          end
  end.

Definition write_attribute_drive (cdb data_out : list Z) (p : DeviceIdentityProfile) : M Sys Panic CdbResponse :=
  if decide (length cdb < 14)%nat then retM invalid_field_in_cdb_response
  else
    let len := from_be (slice 10 14 cdb) in
    if decide (len = 0) then retM (good [])
    else if decide (MAX_WRITE_ATTRIBUTE_PARAMETER_LIST_LEN < len) then retM invalid_field_in_cdb_response
    else if decide (Zlen data_out < len) then retM invalid_field_in_cdb_response
    else
      set_tape (ensure_partition_runtime_initialized p) ;;!
      let! s := the_tape in
      if decide (partition_count s <= cdb_byte cdb 7) then retM invalid_field_in_cdb_response
      else
        let! loaded := ensure_mam_overrides_loaded in
        match loaded with
        | Err _ => retM storage_failure_response
        | Ok _ =>
            let! s := the_tape in
            let payload := take (Z.to_nat len) data_out in
            let declared := if decide (4 <= length payload)%nat
                            then bool_decide (from_be (take 4 payload) = Zlen payload - 4) else false in
            let rest := if (declared : bool) then drop 4 payload else payload in
            let (left, m) := write_attributes (length rest) (cdb_byte cdb 7) (drive_mam_attribute_map s p) rest
                               (mam_overrides s) in
            set_tape (fun s => s <| mam_overrides := m |>) ;;!
            match left with
            | Some [] =>
                let! r := persist_mam_overrides in
                match r with
                | Err _ => retM storage_failure_response
                | Ok _ => set_tape (push_unit_attention 0x2A 0x01) ;;! retM (good [])
                end
            | _ => retM invalid_field_in_parameter_list_response
            end
        end.

(** As many whole attributes as the allocation length has room for. *)
Fixpoint attribute_payload (alloc : Z) (attrs : list ReadAttributeEntry) (payload : list Z) : list Z :=
  match attrs with
  | [] => payload
  | e :: rest =>
      if decide (4 <= alloc /\ alloc < Zlen payload + read_attribute_entry_len e) then payload
      else attribute_payload alloc rest (append_read_attribute_entry payload e)
  end.
Fixpoint attribute_list_payload (alloc : Z) (attrs : list ReadAttributeEntry) (payload : list Z) : list Z :=
  match attrs with
  | [] => payload
  | e :: rest =>
      if decide (4 <= alloc /\ alloc < Zlen payload + 2) then payload
      else attribute_list_payload alloc rest (payload ++ to_be 2 (at_id e))
  end.
Definition read_attribute_reply (attrs : list ReadAttributeEntry) (action first alloc : Z) : CdbResponse :=
  if decide (action = READ_ATTRIBUTE_ACTION_ATTRIBUTES) then
    if bool_decide (first <> 0) && negb (existsb (fun e => bool_decide (at_id e = first)) attrs)
    then invalid_field_in_cdb_response
    else good (truncate_reply (finalize_read_attribute_payload
                 (attribute_payload alloc (List.filter (fun e => bool_decide (first <= at_id e)) attrs) [0; 0; 0; 0])) alloc)
  else if decide (action = READ_ATTRIBUTE_ACTION_LIST) then
    good (truncate_reply (finalize_read_attribute_payload (attribute_list_payload alloc attrs [0; 0; 0; 0])) alloc)
  else invalid_field_in_cdb_response.
Definition read_attribute_drive (cdb : list Z) (p : DeviceIdentityProfile) : M Sys Panic CdbResponse :=
  if decide (length cdb < 14)%nat then retM invalid_field_in_cdb_response
  else
    let alloc := from_be (slice 10 14 cdb) in
    if decide (alloc = 0) then retM (good [])
    else
      let! s := the_tape in
      if decide (partition_count s <= cdb_byte cdb 7) then retM invalid_field_in_cdb_response
      else
        let! loaded := ensure_mam_overrides_loaded in
        match loaded with
        | Err _ => retM storage_failure_response
        | Ok _ =>
            let! s := the_tape in
            let attrs := apply_mam_overrides_to_attrs s (cdb_byte cdb 7) (drive_mam_attributes s p) in
            retM (read_attribute_reply attrs (Z.land (cdb_byte cdb 1) 0x1F) (from_be (slice 8 10 cdb)) alloc)
        end.

(** ** Loading and unloading *)
Definition load_unload_drive (cdb : list Z) : M Sys Panic CdbResponse :=
  let control := cdb_byte cdb 4 in
  if bit control 0x04 then retM invalid_field_in_cdb_response
  else
    let! s := the_tape in
    if bit control 0x01 then
      if decide (mount_state s = Loaded) then set_tape (fun s => s <| current_position := 0 |>) ;;! retM (good [])
      else
        let! desired := files (read_shared_loaded_cartridge_fresh (media_state_key_for_state s)) in
        match desired with
        | Ok (Some cartridge) =>
            let! r := attempt (attach_cartridge cartridge) in
            match r with
            | Err _ => retM no_medium_response
            | Ok _ =>
                apply_shared_cartridge_metadata ;;!
                sync_loaded_cartridge_usage_to_shared ;;!
                set_tape (push_unit_attention 0x28 0x00) ;;!
                retM (good [])
            end
        | _ => retM no_medium_response
        end
    else if decide (mount_state s <> Loaded) then retM (good [])
    else if bit control 0x08 then retM (good [])
    else
      sync_loaded_cartridge_usage_to_shared ;;!
      let! r := attempt detach_cartridge in
      match r with
      | Err e => retM (frame_response (resolve_sense_for_error e))
      | Ok _ => set_tape (push_unit_attention 0x28 0x00) ;;! retM (good [])
      end.

Definition inquiry_drive (cdb : list Z) (p : DeviceIdentityProfile) : M Sys Panic CdbResponse :=
  let! s := the_tape in
  run_core_reply (inquiry_command p cdb (drive_id s)) cdb (cdb_byte cdb 4).

(** ** VERIFY *)
Definition medium_read_error : CdbResponse := sense_response 0x03 0x11 0x00.
Definition block_under_head (position : Z) : M Sys Panic (Result CdbResponse LogicalReadResult) :=
  let! s := the_tape in
  match active_layout s with
  | Some layout =>
      let! r := attempt (on_world (read_logical_block layout position)) in
      retM (match r with Ok (Some read) => Ok read | _ => Err medium_read_error end)
  | None =>
      retM (match block_lengths s !! position with
            | Some len => Ok (mkRead 0 position len 0 CNone [])
            | None => Err medium_read_error
            end)
  end.
(** The data left to compare with, after one block. *)
Definition compare_block (read : LogicalReadResult) (data_out : list Z) (byte_compare : bool)
  : Result CdbResponse (list Z) :=
  if byte_compare then
    let len := Z.to_nat (rd_logical_len read) in
    if decide (length data_out < len)%nat then Err invalid_field_in_cdb_response
    else if decide (rd_payload read <> take len data_out) then Err (sense_response 0x0E 0x1D 0x00)
    else Ok (drop len data_out)
  else Ok data_out.
Fixpoint verify_blocks_at_position (count : nat) (data_out : list Z) (byte_compare : bool)
  : M Sys Panic (Result CdbResponse unit) :=
  match count with
  | O => retM (if byte_compare && negb (bool_decide (data_out = [])) then Err invalid_field_in_cdb_response else Ok tt)
  | S n =>
      let! s := the_tape in
      let position := current_position s in
      let! found := block_under_head position in
      match found with
      | Err response => retM (Err response)
      | Ok read =>
          if decide (rd_logical_start read <> position) then retM (Err medium_read_error)
          else
            match compare_block read data_out byte_compare with
            | Err response => retM (Err response)
            | Ok rest =>
                set_tape (fun s => s <| current_position := sat_add64 (current_position s) (rd_logical_len read) |>) ;;!
                let! r := attempt (on_drive_fs (record_read_usage (rd_logical_len read))) in
                match r with
                | Err _ => retM (Err storage_failure_response)
                | Ok _ => verify_blocks_at_position n rest byte_compare
                end
            end
      end
  end.
Definition verify_6_drive (cdb data_out : list Z) : M Sys Panic CdbResponse :=
  let! s := the_tape in
  if decide (mount_state s <> Loaded) then retM no_medium_response
  else if decide (length cdb < 6)%nat then retM invalid_field_in_cdb_response
  else
    let flags := cdb_byte cdb 1 in
    let byte_compare := bit flags 0x04 in
    if bit flags 0xF8 || bit flags 0x02 && byte_compare then retM invalid_field_in_cdb_response
    else
      let len := read_be24 cdb 2 in
      if decide (len = 0) then retM (good [])
      else if bit flags 0x02 then run_core (SpaceFilemarks len)
      else
        let! r := verify_blocks_at_position (if bit flags 0x01 then Z.to_nat len else 1%nat) data_out byte_compare in
        retM (match r with Ok _ => good [] | Err response => response end).

(** ** Positioning *)
Definition space_16_drive (cdb : list Z) : M Sys Panic CdbResponse :=
  if decide (length cdb < 16)%nat then retM invalid_field_in_cdb_response
  else
    let count := i64_from_be (slice 4 12 cdb) in
    match Z.land (cdb_byte cdb 1) 0x0F with
    | 0x00 => run_core (SpaceBlocks count)
    | 0x01 => run_core (SpaceFilemarks count)
    | 0x03 => run_core (SpaceEndOfData count)
    | _ => retM invalid_field_in_cdb_response
    end.
Definition locate_16_drive (cdb : list Z) : M Sys Panic CdbResponse :=
  if decide (length cdb < 16)%nat then retM invalid_field_in_cdb_response
  else
    let! s := the_tape in
    run_core (Locate (transport_logical_to_internal_offset s (from_be (slice 4 12 cdb)))).
Definition read_position_drive (cdb : list Z) : M Sys Panic CdbResponse :=
  let action := Z.land (cdb_byte cdb 1) 0x1F in
  if decide (action ∉ [READ_POSITION_SERVICE_ACTION_SHORT; READ_POSITION_SERVICE_ACTION_LONG;
                       READ_POSITION_SERVICE_ACTION_EXTENDED])
  then retM invalid_field_in_cdb_response
  else
    let! r := attempt (execute_with_sense ReadPosition) in
    let! s := the_tape in
    retM (match r with
          | Ok (RPosition report) => good (read_position_response_bytes s cdb report (active_partition (partition_runtime s)))
          | Ok _ => good []
          | Err f => frame_response f
          end).

(** ** Dispatch of the commands above; [None] leaves the rest to the core *)
Definition reply (r : CdbResponse) : M Sys Panic (option CdbResponse) := retM (Some r).
Definition replying (m : M Sys Panic CdbResponse) : M Sys Panic (option CdbResponse) := let! r := m in retM (Some r).
Definition dispatch_drive_discovery_cdb_with_context (cdb data_out : list Z) (p : DeviceIdentityProfile)
  (context : CdbDispatchContext) : M Sys Panic (option CdbResponse) :=
  let! s := the_tape in
  match cdb_byte cdb 0 with
  | 0x04 => replying (answer (format_medium_drive cdb p))
  | 0x05 => reply (read_block_limits_drive cdb)
  | 0x0B => reply (good [])
  | 0x13 => replying (verify_6_drive cdb data_out)
  | 0x15 => replying (answer (mode_select_6_drive cdb data_out p))
  | 0x16 | 0x17 | 0x56 | 0x57 => reply reserve_release_compat_response
  | 0x12 => replying (inquiry_drive cdb p)
  | 0x1A => reply (mode_sense_6_drive s cdb p)
  | 0x1B => replying (load_unload_drive cdb)
  | 0x1C => reply (receive_diagnostic_results_drive cdb)
  | 0x1D | 0x1E => reply (good [])
  | 0x34 => replying (read_position_drive cdb)
  | 0x3C => reply (read_buffer_drive cdb p)
  | 0x44 => reply (report_density_support_drive s cdb p)
  | 0x4C => reply (log_select_drive cdb)
  | 0x4D => replying (answer (log_sense_drive cdb p))
  | 0x55 => replying (answer (mode_select_10_drive cdb data_out p))
  | 0x5E => reply (persistent_reserve_in_drive s cdb)
  | 0x5F => replying (persistent_reserve_out_drive_with_context cdb data_out context)
  | 0x5A => reply (mode_sense_10_drive s cdb p)
  | 0x82 => replying (answer (allow_overwrite_drive cdb))
  | 0xA0 => reply (report_luns_single_lun cdb)
  | 0xA3 => replying (report_timestamp cdb)
  | 0x8C => replying (read_attribute_drive cdb p)
  | 0x8D => replying (write_attribute_drive cdb data_out p)
  | 0x91 => replying (space_16_drive cdb)
  | 0x92 => replying (locate_16_drive cdb)
  | 0xAB => reply (read_media_serial_number_drive s cdb)
  | _ => retM None
  end.
End Drive.
