(* ===== verification/CdbServer.v ===== *)
(** * The command server (iscsi/cdb_server.rs)

    From the bytes of a command to its response: the unit attention queue of the
    sender, the structure check, the changer or the drive, the media state the
    management side asked for, pending unit attentions, fixed-block transfers
    and the command core. *)

From S2P Require Import Prelude Bytes Text Errors Sense Fs Layout TapeState Reservation SpaceGuard Identity Wire.
From S2P Require Import Compression Records World Crc Segment Logs BlkMap MapLookup Dedup DataBlobs DataPath.
From S2P Require Import System Bootstrap Prefetch MountBridge CommandChain CommandsCore CdbBase DriveProfile MediaState.
From S2P Require Import CdbCommon Changer CdbDrive.

Section Server.
Context `{HOST : Host} `{ENV : Environ} `{C : Crc32c} `{HO : HashOrder} `{BC : BlockCodecs} `{B3 : Blake3}.
Context `{SH : SpaceHost} `{SHA : Sha256} `{TH : Threads}.

(** ** Fixed-block transfers *)
Definition fixed_write (opcode size : Z) (cdb data_out : list Z) (context : CdbDispatchContext)
  : M Sys Panic CdbResponse :=
  let blocks := write_transfer_blocks opcode cdb in
  if decide (blocks = 0 \/ sat_mul64 blocks size <> Zlen data_out) then retM invalid_field_in_cdb_response
  else
    let! r := attempt (write_fixed_blocks data_out size (Some (context_initiator_or_default context))) in
    retM (match r with Ok _ => good [] | Err e => frame_response (tape_error_to_sense e) end).
Definition fixed_read (opcode size : Z) (cdb : list Z) : M Sys Panic CdbResponse :=
  let blocks := read_transfer_blocks opcode cdb in
  if decide (blocks = 0) then retM invalid_field_in_cdb_response
  else
    let! r := attempt (read_fixed_blocks size blocks) in
    retM (match r with
          | Ok out => good out
          | Err e =>
              let response := frame_response (tape_error_to_sense e) in
              match e with
              | FilemarkDetected _ partial => response <| rs_reply := partial |>
              | _ => response
              end
          end).
Definition dispatch_fixed_block_io_with_context (cdb data_out : list Z) (context : CdbDispatchContext)
  : M Sys Panic (option CdbResponse) :=
  let! s := the_tape in
  let opcode := cdb_byte cdb 0 in
  if negb (is_fixed_block_transfer cdb) then retM None
  else match fixed_block_size_of s with
       | None => retM None
       | Some size =>
           if decide (opcode = 0x0A \/ opcode = 0x8A) then replying (fixed_write opcode size cdb data_out context)
           else if decide (opcode = 0x08 \/ opcode = 0x88) then replying (fixed_read opcode size cdb)
           else retM None
       end.

(** ** Decoding *)
Definition decode_cdb_to_command (s : TapeState) (opcode : Z) (cdb data_out : list Z) : option CoreCommand :=
  match opcode with
  | 0x12 => Some (inquiry_command resolve_drive_profile_from_env cdb (drive_id s))
  | 0x01 => Some Rewind
  | 0x08 | 0x88 => Some ReadData
  | 0x0A | 0x8A => Some (WriteData data_out)
  | 0x10 => Some (WriteFilemarks (if decide (5 <= length cdb)%nat then from_be (slice 2 5 cdb) else 1))
  | 0x11 =>
      if decide (length cdb < 6)%nat then None
      else
        let count := sign_extend_be24 (cdb_byte cdb 2) (cdb_byte cdb 3) (cdb_byte cdb 4) in
        match Z.land (cdb_byte cdb 1) 0x07 with
        | 0x00 => Some (SpaceBlocks count)
        | 0x01 => Some (SpaceFilemarks count)
        | 0x03 => Some (SpaceEndOfData count)
        | _ => None
        end
  | 0x19 => Some (Erase (if bit (cdb_byte cdb 1) 0x01 then EraseLong else EraseShort))
  | 0x1A => Some (ModeSense (Z.land (cdb_byte cdb 2) 0x3F))
  | 0x2B =>
      if decide (length cdb < 9)%nat then None
      else Some (Locate (transport_logical_to_internal_offset s (from_be (slice 3 7 cdb))))
  | 0x34 => Some ReadPosition
  | 0x4D => Some (LogSense (Z.land (cdb_byte cdb 2) 0x3F))
  | _ => None
  end.

(** The transfer length a read was stopped short of by a filemark. *)
Definition correct_information (opcode : Z) (cdb : list Z) (f : SenseFrame) : SenseFrame :=
  if decide ((opcode = 0x08 \/ opcode = 0x88) /\ sense_key f = 0 /\ asc f = 0 /\ ascq f = 1) then
    let requested := if decide (opcode = 0x08) then read_be24 cdb 2 else read_be32 cdb 10 in
    mkSense (status f) (sense_key f) (asc f) (ascq f) (end_of_medium f) (information_valid f)
      (default U32_MAX (u32_try_from requested))
  else f.

Definition core_cdb (cdb data_out : list Z) : M Sys Panic CdbResponse :=
  let opcode := cdb_byte cdb 0 in
  let! s := the_tape in
  match decode_cdb_to_command s opcode cdb data_out with
  | None => retM (frame_response (sense_for_context CxIllegalRequest))
  | Some cmd =>
      let! r := attempt (execute_with_sense cmd) in
      let! s := the_tape in
      retM (match r with
            | Ok response => good (core_response_to_bytes s response cdb)
            | Err f => frame_response (correct_information opcode cdb f)
            end)
  end.

(** ** Dispatch *)
Definition over_capacity (p : DeviceIdentityProfile) (cdb data_out : list Z) (s : TapeState) : bool :=
  is_data_write_opcode (cdb_byte cdb 0) && bool_decide (mount_state s = Loaded) &&
  bool_decide (active_partition_capacity_bytes s p <
               sat_add64 (current_position s) (projected_write_bytes s cdb data_out)).

(** Answer and, after a change of the medium, publish its use. *)
Definition answered (opcode : Z) (r : CdbResponse) : M Sys Panic CdbResponse :=
  sync_loaded_cartridge_usage_after_mutation opcode r ;;! retM r.

(** A drive's media commands, once no unit attention is pending. *)
Definition drive_media_cdb (cdb data_out : list Z) (context : CdbDispatchContext) : M Sys Panic CdbResponse :=
  let opcode := cdb_byte cdb 0 in
  let p := resolve_drive_profile_from_env in
  set_tape (ensure_partition_runtime_initialized p) ;;!
  let! r := dispatch_drive_discovery_cdb_with_context cdb data_out p context in
  match r with
  | Some response => answered opcode response
  | None =>
      let! s := the_tape in
      if is_legacy_empty_write_probe s cdb data_out || is_legacy_single_byte_write_probe s cdb data_out
      then retM (good [])
      else if over_capacity p cdb data_out s then retM volume_overflow_response
      else
        let! r := dispatch_fixed_block_io_with_context cdb data_out context in
        match r with
        | Some response => answered opcode response
        | None => let! response := core_cdb cdb data_out in answered opcode response
        end
  end.

Definition test_unit_ready (s : TapeState) : CdbResponse * TapeState :=
  match take_unit_attention s with
  | (Some (a, q), s') => (sense_response 0x06 a q, s')
  | (None, s') => (if decide (mount_state s' = Loaded) then good [] else no_medium_response, s')
  end.

Definition drive_cdb (cdb data_out : list Z) (context : CdbDispatchContext) : M Sys Panic CdbResponse :=
  let opcode := cdb_byte cdb 0 in
  let! s := the_tape in
  let! synced := (if drive_opcode_requires_media_sync opcode s then attempt sync_drive_mount_from_shared
                  else retM (Ok tt)) in
  match synced with
  | Err e => retM (frame_response (resolve_sense_for_error e))
  | Ok _ =>
      if decide (opcode = 0x00) then answer test_unit_ready
      else if decide (opcode = 0x03) then let! sense := answer request_sense_response in retM (good sense)
      else
        let! attention := answer (fun s => take_pending_unit_attention_for_opcode s opcode) in
        match attention with
        | Some (a, q) => retM (sense_response 0x06 a q)
        | None => drive_media_cdb cdb data_out context
        end
  end.

Definition dispatch_raw_cdb_with_context_inner (cdb data_out : list Z) (context : CdbDispatchContext)
  : M Sys Panic CdbResponse :=
  if decide (cdb = []) then retM (frame_response (sense_for_context CxIllegalRequest))
  else if negb (validate_cdb_structure cdb) then retM invalid_field_in_cdb_response
  else
    let p := resolve_active_profile_from_env in
    if decide (device_type p = DtChanger) then dispatch_changer_cdb_with_context cdb data_out p context
    else drive_cdb cdb data_out context.

(** The sender's own unit attention queue is in place while its command runs. *)
Definition dispatch_raw_cdb_with_context (cdb data_out : list Z) (context : CdbDispatchContext)
  : M Sys Panic CdbResponse :=
  match initiator context with
  | Some raw =>
      let who := trim_string raw in
      if decide (who = EmptyString) then dispatch_raw_cdb_with_context_inner cdb data_out context
      else
        let! queue := answer (take_nexus_unit_attention who) in
        let! response := dispatch_raw_cdb_with_context_inner cdb data_out context in
        set_tape (restore_nexus_unit_attention who queue) ;;! retM response
  | None => dispatch_raw_cdb_with_context_inner cdb data_out context
  end.
Definition dispatch_raw_cdb (cdb data_out : list Z) : M Sys Panic CdbResponse :=
  dispatch_raw_cdb_with_context cdb data_out no_context.
End Server.
