(* ===== verification/Handler.v ===== *)
(** * The handler process (bin/tcmu_handler.rs)

    One connection: frames read from the bytes the peer sends, dispatched to the
    drive, answered on the way back.  The peer's bytes are a list, its end the
    disconnection; the socket itself, its permissions and its time-outs have no
    counterpart.  The idle monitor's step, the final detach and the timing probe
    with its metrics file. *)

From S2P Require Import Prelude Bytes Text Errors Sense Fs Layout TapeState Reservation SpaceGuard Identity Wire.
From S2P Require Import Compression Records World Crc Segment Logs BlkMap MapLookup Dedup DataBlobs DataPath.
From S2P Require Import System Bootstrap Prefetch MountBridge CommandChain CommandsCore CdbBase DriveProfile MediaState.
From S2P Require Import CdbCommon Changer CdbDrive CdbServer.

Definition DEFAULT_TCMU_IO_TIMEOUT_MS : Z := 300000.
Definition DEFAULT_SLOW_CDB_LOG_MS : Z := 1000.
Definition IDLE_MEDIA_DETACH_AFTER_MS : Z := 2000.

(** ** Timing *)
Inductive TimingBucket : Type := TbRead | TbWrite | TbOther.
Definition timing_bucket_for_opcode (opcode : Z) : TimingBucket :=
  match opcode with 0x08 | 0x88 => TbRead | 0x0A | 0x8A => TbWrite | _ => TbOther end.

Record TimingStats : Type := mkTimingStats {
  ts_commands : Z; ts_data_out_bytes : Z; ts_data_in_bytes : Z; ts_sense_bytes : Z;
  ts_read_frame_us : Z; ts_dispatch_us : Z; ts_encode_flush_us : Z; ts_total_us : Z; ts_max_total_us : Z
}.
Definition no_timing : TimingStats := mkTimingStats 0 0 0 0 0 0 0 0 0.
Record TimingSample : Type := mkSample {
  sm_data_out_len : Z; sm_data_in_len : Z; sm_sense_len : Z;
  sm_read_frame : Z; sm_dispatch : Z; sm_encode_flush : Z; sm_total : Z
}.
Definition stats_record (t : TimingStats) (m : TimingSample) : TimingStats :=
  mkTimingStats (sat_add64 (ts_commands t) 1) (sat_add64 (ts_data_out_bytes t) (sm_data_out_len m))
    (sat_add64 (ts_data_in_bytes t) (sm_data_in_len m)) (sat_add64 (ts_sense_bytes t) (sm_sense_len m))
    (sat_add64 (ts_read_frame_us t) (sm_read_frame m)) (sat_add64 (ts_dispatch_us t) (sm_dispatch m))
    (sat_add64 (ts_encode_flush_us t) (sm_encode_flush m)) (sat_add64 (ts_total_us t) (sm_total m))
    (Z.max (ts_max_total_us t) (sm_total m)).

Record TimingProbe : Type := mkProbe {
  pb_metrics_path : option string; pb_every : Z; pb_slow_log_us : Z; pb_since_log : Z;
  pb_read : TimingStats; pb_write : TimingStats; pb_other : TimingStats;
  pb_total_read : TimingStats; pb_total_write : TimingStats; pb_total_other : TimingStats
}.
#[export] Instance eta_TimingProbe : Eta TimingProbe := fun r =>
  mkProbe (pb_metrics_path r) (pb_every r) (pb_slow_log_us r) (pb_since_log r) (pb_read r) (pb_write r) (pb_other r)
    (pb_total_read r) (pb_total_write r) (pb_total_other r).

(** A line of a metric with its bucket label. *)
Definition metric_line (name bucket : string) (value : Z) : list Z :=
  bytes_of_string name ++ bytes_of_string "{bucket=" ++ [34] ++ bytes_of_string bucket ++ [34; 125; 32] ++
  show_uint value ++ [10].
Definition append_timing_bucket_metrics (bucket : string) (t : TimingStats) : list Z :=
  metric_line "holo_scsi_commands_total" bucket (ts_commands t) ++
  metric_line "holo_scsi_command_latency_microseconds_sum" bucket (ts_total_us t) ++
  metric_line "holo_scsi_command_latency_microseconds_max" bucket (ts_max_total_us t).
Definition text_line (s : string) : list Z := bytes_of_string s ++ [10].
Definition render_timing_metrics (read write other : TimingStats) : list Z :=
  text_line "# HELP holo_scsi_commands_total Total SCSI commands handled by the data-plane process" ++
  text_line "# TYPE holo_scsi_commands_total counter" ++
  text_line "# HELP holo_scsi_command_latency_microseconds_sum Total SCSI command latency in microseconds" ++
  text_line "# TYPE holo_scsi_command_latency_microseconds_sum counter" ++
  text_line "# HELP holo_scsi_command_latency_microseconds_max Maximum observed SCSI command latency in microseconds" ++
  text_line "# TYPE holo_scsi_command_latency_microseconds_max gauge" ++
  append_timing_bucket_metrics "read" read ++ append_timing_bucket_metrics "write" write ++
  append_timing_bucket_metrics "other" other.

(** The reading, in microseconds, of the process's monotonic clock at its
    [n]-th use. *)
Class Instants : Type := instant : nat -> Z.

(** ** A connection *)
Record Conn : Type := mkConn {
  k_in : list Z;
  k_out : list Z;
  k_sys : Sys;
  k_probe : TimingProbe;
  k_marks : nat
}.
#[export] Instance eta_Conn : Eta Conn := fun r => mkConn (k_in r) (k_out r) (k_sys r) (k_probe r) (k_marks r).

Section Handler.
Context `{HOST : Host} `{ENV : Environ} `{C : Crc32c} `{HO : HashOrder} `{BC : BlockCodecs} `{B3 : Blake3}.
Context `{SH : SpaceHost} `{SHA : Sha256} `{TH : Threads} `{IN : Instants}.

Definition resolve_serial_seed (publication_id : string) : string :=
  match getenv "HOLO_SCSI_SERIAL_SEED" with
  | Some raw => if decide (trim raw = []) then publication_id else string_of_bytes (trim raw)
  | None => publication_id
  end.
Definition env_number (name : string) : option Z :=
  match getenv name with Some raw => parse_uint U64_MAX (trim raw) | None => None end.
Definition tcmu_max_frame_bytes : Z :=
  match env_number "HOLO_TCMU_MAX_FRAME_BYTES" with
  | Some v => if decide (1 <= v <= MAX_DATA_LEN) then v else MAX_DATA_LEN
  | None => MAX_DATA_LEN
  end.
Definition tcmu_io_timeout : Z :=
  match env_number "HOLO_TCMU_IO_TIMEOUT_MS" with
  | Some v => if decide (1000 <= v) then v else DEFAULT_TCMU_IO_TIMEOUT_MS
  | None => DEFAULT_TCMU_IO_TIMEOUT_MS
  end.
Definition socket_buffer_bytes : option Z :=
  match env_number "HOLO_TCMU_SOCKET_BUF_BYTES" with
  | Some v => if decide (65536 <= v <= 67108864) then Some v else None
  | None => None
  end.
Definition resolve_vpd_serial (p : DeviceIdentityProfile) (seed : string) : Result string (list Z) :=
  map_err (fun _ => "invalid device identity profile"%string) (serial_for_vpd_seed p seed).

(** *** The probe *)
Definition probe_from_env : TimingProbe :=
  let metrics_path := match getenv "HOLO_CDB_TIMING_METRICS_FILE" with
                      | Some raw => if decide (trim raw = []) then None else Some (string_of_bytes (trim raw))
                      | None => None
                      end in
  let configured := match env_number "HOLO_CDB_TIMING_EVERY" with
                    | Some v => if decide (1 <= v <= 1000000) then v else 0
                    | None => 0
                    end in
  let every := if decide (configured = 0 /\ is_Some metrics_path) then 64 else configured in
  let slow := match env_number "HOLO_CDB_SLOW_LOG_MS" with
              | Some v => sat_mul64 v 1000
              | None => DEFAULT_SLOW_CDB_LOG_MS * 1000
              end in
  mkProbe metrics_path every slow 0 no_timing no_timing no_timing no_timing no_timing no_timing.

Definition on_sys {E A} (m : M Sys E A) : M Conn E A := zoomM k_sys (fun y c => c <| k_sys := y |>) m.

Definition write_timing_metrics_file (path : string) (read write other : TimingStats) : M Fs IoError unit :=
  let tmp := with_extension_tmp path in
  fs_create_dir_all path ;;!
  let! i := fs_open_trunc tmp in
  fs_write_at i 0 (render_timing_metrics read write other) ;;!
  fs_rename tmp path.

Definition probe_flush : M Conn Panic unit :=
  let! p := getsM k_probe in
  (match pb_metrics_path p with
   | Some path =>
       let! _ := on_sys (files (write_timing_metrics_file path (pb_total_read p) (pb_total_write p) (pb_total_other p))) in
       retM tt
   | None => retM tt
   end) ;;!
  modifyM (fun c => c <| k_probe := (k_probe c) <| pb_read := no_timing |> <| pb_write := no_timing |>
                                                <| pb_other := no_timing |> <| pb_since_log := 0 |> |>).

Definition count_sample (opcode : Z) (m : TimingSample) (p : TimingProbe) : TimingProbe :=
  let p := match timing_bucket_for_opcode opcode with
           | TbRead => p <| pb_read := stats_record (pb_read p) m |> <| pb_total_read := stats_record (pb_total_read p) m |>
           | TbWrite => p <| pb_write := stats_record (pb_write p) m |> <| pb_total_write := stats_record (pb_total_write p) m |>
           | TbOther => p <| pb_other := stats_record (pb_other p) m |> <| pb_total_other := stats_record (pb_total_other p) m |>
           end in
  p <| pb_since_log := sat_add64 (pb_since_log p) 1 |>.

(** [TimingProbe::mark]: no clock is read when nothing is measured. *)
Definition probe_mark : M Conn Panic (option Z) :=
  let! c := getM in
  if decide (pb_every (k_probe c) = 0 /\ pb_slow_log_us (k_probe c) = 0) then retM None
  else putM (c <| k_marks := S (k_marks c) |>) ;;! retM (Some (instant (k_marks c))).

Definition probe_record (opcode data_out_len data_in_len sense_len : Z) (m0 m1 m2 m3 : option Z) : M Conn Panic unit :=
  match m0, m1, m2, m3 with
  | Some t0, Some t1, Some t2, Some t3 =>
      let! p := getsM k_probe in
      if decide (pb_every p = 0) then retM tt
      else
        let sample := mkSample data_out_len data_in_len sense_len (sat_sub t1 t0) (sat_sub t2 t1) (sat_sub t3 t2) (sat_sub t3 t0) in
        modifyM (fun c => c <| k_probe := count_sample opcode sample (k_probe c) |>) ;;!
        let! p := getsM k_probe in
        if decide (pb_every p <= pb_since_log p) then probe_flush else retM tt
  | _, _, _, _ => retM tt
  end.

(** *** Frames *)
Definition on_input {E A} (m : M (list Z) IoError A) : M Conn E (Result IoError A) :=
  tryM (zoomM k_in (fun l c => c <| k_in := l |>) m).
Definition send (bytes : list Z) : M Conn Panic unit := modifyM (fun c => c <| k_out := k_out c ++ bytes |>).
Definition busy_frame : list Z := match response_encode busy with Ok l => l | Err _ => [] end.

(** An answer; [false] ends the connection. *)
Definition send_response (r : CdbResponse) : M Conn Panic bool :=
  match response_encode r with
  | Ok frame => send frame ;;! retM true
  | Err _ => retM false
  end.

(** One turn of the loop: [false] ends the connection. *)
Definition serve_frame : M Conn Panic bool :=
  let! header := on_input decode_header in
  match header with
  | Err e => if decide (io_kind e = KUnexpectedEof) then retM false else send busy_frame ;;! retM false
  | Ok h =>
      if decide (tcmu_max_frame_bytes < ph_data_len h) then send busy_frame ;;! retM false
      else
        let! m0 := probe_mark in
        let! data := on_input (read_exact (Z.to_nat (ph_data_len h))) in
        match data with
        | Err e => if decide (io_kind e = KUnexpectedEof) then retM false else send busy_frame ;;! retM false
        | Ok data =>
            let! m1 := probe_mark in
            let! response := on_sys (dispatch_raw_cdb_with_context (ph_cdb h) data (mkContext (ph_initiator h))) in
            let! m2 := probe_mark in
            let! sent := send_response response in
            if negb sent then retM false
            else
              let! m3 := probe_mark in
              probe_record (cdb_byte (ph_cdb h) 0) (ph_data_len h) (Zlen (rs_reply response)) (Zlen (rs_sense response))
                m0 m1 m2 m3 ;;!
              retM true
        end
  end.

(** The loop of one connection.  Every frame takes at least one byte of the
    input, so as many turns as it has bytes, and one more, are enough. *)
Fixpoint serve_loop (fuel : nat) : M Conn Panic unit :=
  match fuel with
  | O => retM tt
  | S f => let! go := serve_frame in if (go : bool) then serve_loop f else retM tt
  end.
Definition serve_connection : M Conn Panic unit := let! c := getM in serve_loop (S (length (k_in c))).

(** *** The idle monitor and the end of the process *)
Definition idle_media_step (idle : bool) : M Sys Panic unit :=
  let! s := the_tape in
  if decide (mount_state s <> Loaded) then retM tt
  else if negb idle then retM tt
  else
    let! desired := files (read_shared_loaded_cartridge_fresh (media_state_key_for_state s)) in
    match desired with
    | Err _ => retM tt
    | Ok d =>
        if decide (d = cartridge_id s) then retM tt
        else
          sync_loaded_cartridge_usage_to_shared ;;!
          let! r := attempt detach_cartridge in
          match r with Ok _ => set_tape (push_unit_attention 0x28 0x00) | Err _ => retM tt end
    end.
Definition final_detach : M Sys Panic unit :=
  let! s := the_tape in
  if decide (mount_state s = Loaded) then let! _ := attempt detach_cartridge in retM tt else retM tt.
End Handler.
