(* ===== verification/Machine.v ===== *)
(** * A machine to run examples on

    Concrete functions for what the program takes from its surroundings: a file
    system with room, hashes, threads that run at once, a clock that ticks. *)

From S2P Require Import Prelude Bytes Text Errors Fs Layout TapeState SpaceGuard Compression Records World Crc Logs Dedup.
From S2P Require Import DataPath BlockStore System Bootstrap OfflineScan Prefetch Handler.

(** One file system of 4 TiB, nobody else on it. *)
Definition roomy_host : SpaceHost := {|
  sh_metadata _ _ := Ok (EkDir, 7, 100);
  sh_entries _ _ := Ok [];
  sh_mkdir _ _ := Ok tt;
  sh_statvfs _ _ := Ok (4096, 1073741824);
  sh_flock _ _ := LkGranted;
  sh_write _ _ := Ok tt;
  sh_elapsed t := Z.of_nat t;
  sh_pid := 42
|}.
Definition zero_sha : Sha256 := fun _ => replicate 64 48.
(** Every file has 8 blocks; a cursor has no text. *)
Definition plain_stat : FileStat := {| stat_identity _ i := (1, Z.of_nat (default O i)); stat_blocks _ _ := 8%N |}.
Definition no_cursor : CursorJson := {| cursor_to_json _ := None; cursor_from_json _ := None |}.
Definition inline_threads : Threads := fun _ => true.
Definition ticks : Instants := fun n => Z.of_nat n.
(** Deduplication switched off. *)
Definition plain_env : Environ := fun name =>
  if decide (name = "HOLO_TAPE_DEDUP_ENABLED"%string) then Some (bytes_of_string "0") else None.

(** A drive with the cartridge of one extent, the head behind it. *)
Definition loaded_drive : TapeState :=
  (@TapeState_new plain_env "drive0") <| mount_state := Loaded |> <| cartridge_id := Some "C1"%string |>
    <| active_layout := Some demo_cartridge |> <| current_position := 3 |> <| eod_position := 3 |>
    <| block_starts := [0] |> <| block_lengths := {[0 := 3]} |> <| block_mode := mkBlockMode Variable_ 0 |>.
Definition loaded_machine : Sys := mkSys loaded_drive demo_mounted no_reservations ∅ ∅ 0 ∅.
(** An empty drive on an empty file system. *)
Definition empty_machine : Sys :=
  mkSys (@TapeState_new no_env "drive0") (fresh_process empty_fs) no_reservations ∅ ∅ 0 ∅.
