(* ===== verification/OfflineLaws.v ===== *)
(** * A run of offline reclaim

    Reclaim of one segment from the start to its report: whatever the space
    guard answers, the tape shows the same blocks afterwards. *)

From S2P Require Import Prelude Bytes Text Errors Fs Layout TapeState SpaceGuard Compression Records.
From S2P Require Import World Crc Segment Footprint Checkpoint Logs BlkMap MapLookup Dedup Reclaim.
From S2P Require Import RuntimeState SegmentIndex Slots IndexState DataBlobs BlobStore DataPath Store BlockStore.
From S2P Require Import Recovery ScanLaws SideLaws RebuildLaws RecoveryLaws System Bootstrap OfflineScan OfflineReclaim.
From S2P Require Import CopyLaws PruneLaws ReclaimLaws ChoiceLaws Machine.

Section Laws.
Context `{HOST : Host} `{ENV : Environ} `{CL : Crc32cLaws} `{HOL : HashOrderLaws} `{BC : BlockCodecs}
  `{B3 : Blake3} `{SHA : Sha256} `{FS : FileStat} `{CJ : CursorJson} `{SH : SpaceHost}.

(** ** Space *)
(** Asking for space changes nothing but the reservations, and fails as such. *)
Definition space_only {A} (m : M Sys StorageError A) : Prop :=
  forall y, exists r sp, m y = (r, y <| y_space := sp |>) /\ match r with Ok _ => True | Err e => exists x, e = SpaceAdmission x end.

Lemma space_ret {A} (a : A) : space_only (retM a).
Proof. intros y. exists (Ok a), (y_space y). split; [by destruct y|done]. Qed.
Lemma space_fail {A} e : space_only (A := A) (failM (SpaceAdmission e)).
Proof. intros y. exists (Err (SpaceAdmission e)), (y_space y). split; [by destruct y|eauto]. Qed.
Lemma space_lift {A} (o : option A) e : space_only (liftM (ok_or o (SpaceAdmission e))).
Proof. destruct o; [apply space_ret|apply space_fail]. Qed.
Lemma space_guard {A} (m : M SpaceState SpaceGuardError A) : space_only (guard m).
Proof.
  intros y. unfold guard, map_errM, on_space, zoomM. destruct (m (y_space y)) as [[a|e] sp]; eexists _, sp; (split; [reflexivity|]); cbn; eauto.
Qed.
Lemma space_bind {A B} (m : M Sys StorageError A) (k : A -> M Sys StorageError B) :
  space_only m -> (forall a, space_only (k a)) -> space_only (bindM m k).
Proof.
  intros Hm Hk y. destruct (Hm y) as ([a|e] & sp & E & H).
  - destruct (Hk a (y <| y_space := sp |>)) as (r & sp' & E' & H'). exists r, sp'. by rewrite (bindM_run _ _ _ _ _ E), E'.
  - exists (Err e), sp. split; [unfold bindM; by rewrite E|done].
Qed.
Lemma reserve_space a b c d e f : space_only (reserve_capacity a b c d e f).
Proof.
  unfold reserve_capacity. repeat first [apply space_bind; [|intros ?] | apply space_guard | apply space_lift | case_decide; [apply space_fail|]].
Qed.

(** The body runs with the space it asked for, or not at all. *)
Lemma holding_run {A} adm (body : M Sys StorageError A) y :
  space_only adm ->
  (exists e sp, holding adm body y = (Err (SpaceAdmission e), y <| y_space := sp |>)) \/
  exists sp sp', let (r, y1) := body (y <| y_space := sp |>) in holding adm body y = (r, y1 <| y_space := sp' |>).
Proof.
  intros Hs. unfold holding. destruct (Hs y) as ([res|e] & sp & E & H).
  - right. exists sp. rewrite (bindM_run _ _ _ _ _ E). unfold bindM, tryM. destruct (body _) as [r y1]. eexists. reflexivity.
  - left. destruct H as [x ->]. exists x, sp. unfold bindM. by rewrite E.
Qed.

(** ** Reading *)
Lemma torn_load_blk w p s ds cs :
  no_faults -> torn w p s ds cs -> store_budget s ->
  exists w' seq records, load_blk_map_records (blk_map_file p) w = (Ok (seq, records), w') /\ tracks record_id records (extents s) /\
    torn w' p s ds cs /\ w_append w' = w_append w /\ same_files (w_fs w) (w_fs w').
Proof.
  intros Hn HT [Hb _]. destruct (load_blk_spec w _ _ _ Hn (tn_blk _ _ _ _ _ HT) Hb) as (w1 & e & E1 & Hok & HB1 & [F1 S1]).
  exists w1, (st_blk_seq s), (bc_records e). split_and!; [done|by eapply co_tracks| |by rewrite F1|done].
  apply (torn_step [] w); [done|apply moved_same; [by eapply torn_wf|done|by rewrite F1]|set_solver|left; by rewrite F1|by right|left; by rewrite F1..].
Qed.
Lemma recover_clean w p s ds cs :
  no_faults -> torn w p s ds cs -> flags (st_checkpoint s) = Clean ->
  total_size (w_fs w) (recovery_files p) <= MAX_MAINTENANCE_METADATA_BYTES ->
  exists rep w', recover_dirty_state_with_progress p no_maintenance_progress w = (Ok rep, w') /\ torn w' p s ds cs /\
    w_append w' = w_append w /\ same_files (w_fs w) (w_fs w').
Proof.
  intros Hn HT Hf Hsz. unfold recover_dirty_state_with_progress.
  destruct (preflight_spec w (recovery_files p) Hn Hsz) as (w1 & E1 & F1 & S1). unfold recovery_files in E1.
  rewrite (bindM_run _ _ _ _ _ E1). pose proof (torn_still _ _ _ _ _ _ HT (conj F1 S1)) as HT1.
  destruct (load_checkpoint_spec w1 _ _ Hn (tn_cp _ _ _ _ _ HT1)) as (w2 & E2 & O2 & A2 & S2 & HC2).
  rewrite (bindM_run (tryM _) _ w1 (Ok (st_checkpoint s)) w2) by (unfold tryM; by rewrite E2).
  rewrite decide_True by done. eexists _, w2. split; [reflexivity|]. split_and!; [|by rewrite A2, F1|by eapply same_files_trans].
  apply (torn_step [] w1); [done|apply moved_same; [by eapply torn_wf|done|done]|set_solver|by right|left; by rewrite O2..].
Qed.
Lemma sum_lengths_spec l : forall total w,
  no_faults -> 0 <= total -> total + total_size (w_fs w) l <= U64_MAX -> quiet (sum_lengths l total) w (total + total_size (w_fs w) l).
Proof.
  induction l as [|q l IH]; intros total w Hn H0 Hm; cbn [sum_lengths].
  { change (total_size (w_fs w) []) with 0. rewrite Z.add_0_r. apply quiet_ret. }
  change (total_size (w_fs w) (q :: l)) with (file_size (w_fs w) q + total_size (w_fs w) l) in *.
  pose proof (total_size_nonneg (w_fs w) l) as Hl. pose proof (file_size_nonneg (w_fs w) q) as Hq.
  eapply (quiet_then _ _ w); [apply still_refl|by apply quiet_metadata_of|]. intros w1 S1.
  pose proof (still_size _ _ l S1) as El. unfold metadata_of, file_size, contents in *.
  destruct (file_at (w_fs w) q) as [n|]; cbn [fmap option_fmap option_map] in *.
  - apply (quiet_pure _ (total + Zlen (i_data n))); [unfold checked_add64; by rewrite decide_True by lia|].
    rewrite Z.add_assoc, <- El. apply IH; [done|lia|lia].
  - cbn [not_found io_kind]. rewrite decide_True by done. rewrite Z.add_0_l, <- El. apply IH; [done|done|lia].
Qed.

(** The blocks allocated are a count that may be too large, nothing else. *)
Definition counted (r : Result StorageError Z) : Prop := match r with Ok _ => True | Err e => e = Corrupt "allocated byte count overflow" end.
Lemma sum_blocks_spec l : forall total w,
  no_faults -> wf_fs (w_fs w) -> (forall q, q ∈ l -> is_Some (fs_names (w_fs w) !! q)) ->
  exists r w', sum_blocks l total w = (r, w') /\ still w w' /\ counted r.
Proof.
  induction l as [|q l IH]; intros total w Hn Hw Hl; cbn [sum_blocks].
  { exists (Ok total), w. split_and!; [done|apply still_refl|done]. }
  destruct (Hl q ltac:(by left)) as [i Hi]. destruct (proj1 Hw q i Hi) as [nd Hnd].
  assert (contents (w_fs w) q = Some (i_data nd)) as Hc by (unfold contents, file_at; by rewrite Hi; cbn; rewrite Hnd).
  destruct (quiet_metadata w q _ Hn Hc) as (tm & w1 & E1 & F1 & S1). rewrite (bindM_run _ _ _ _ _ E1).
  erewrite bindM_run by reflexivity. unfold bindM at 1, liftM at 1.
  destruct (checked_mul64 _ 512) as [bytes|]; cbn [ok_or]; [|eexists _, w1; by split_and!]. unfold bindM, liftM.
  destruct (checked_add64 total bytes) as [t'|]; cbn [ok_or]; [|eexists _, w1; by split_and!].
  destruct (IH t' w1 Hn) as (r & w2 & E2 & [F2 S2] & Hr); [by eapply (wf_same (w_fs w))|intros x Hx; destruct S1 as [-> _]; apply Hl; by right|].
  exists r, w2. split_and!; [done|split; [rewrite F2, F1; done|by eapply same_files_trans]|done].
Qed.
Lemma allocated_spec w dir : no_faults -> wf_fs (w_fs w) -> exists r w', allocated_layout_bytes dir w = (r, w') /\ still w w' /\ counted r.
Proof.
  intros Hn Hw. unfold allocated_layout_bytes. destruct (quiet_sync w Hn) as (w1 & E1 & F1 & S1). rewrite (bindM_run _ _ _ _ _ E1).
  erewrite bindM_run by reflexivity.
  destruct (sum_blocks_spec (filter (path_under dir) (fst <$> map_to_list (fs_names (w_fs w1)))) 0 w1 Hn) as (r & w2 & E2 & [F2 S2] & Hr).
  { by eapply (wf_same (w_fs w)). }
  { intros q [_ ([q' i] & -> & Hq%elem_of_map_to_list)%list_elem_of_fmap]%list_elem_of_filter. cbn. eauto. }
  exists r, w2. split_and!; [done|split; [rewrite F2, F1; done|by eapply same_files_trans]|done].
Qed.

(** The cartridge is neither WORM nor locked. *)
Definition unprotected (fs : Fs) (p : LayoutPaths) : Prop :=
  match contents fs (path_join (root p) RETENTION_STATE_FILE) with
  | Some raw => (4 <= length raw)%nat /\ exists st, decode_retention (take 4 raw) = Ok st /\ rs_is_worm_media st = false /\ rs_retention_locked st = false
  | None => True
  end.
Lemma retention_spec w p :
  no_faults -> unprotected (w_fs w) p ->
  exists st, quiet (load_retention_state (root p)) w st /\ match st with Some r => rs_is_worm_media r = false /\ rs_retention_locked r = false | None => True end.
Proof.
  intros Hn Hu. unfold unprotected in Hu. unfold load_retention_state. cbv zeta. set (path := path_join _ _) in *.
  destruct (contents (w_fs w) path) as [raw|] eqn:Hc.
  - destruct Hu as (Hl & st & Hd & Hw). exists (Some st). split; [|done].
    eapply (quiet_then _ _ w); [apply still_refl|by eapply quiet_exists|]. intros w1 S1.
    destruct (quiet_open_at w1 path raw Hn) as (i & Q & Hi); [by rewrite (still_contents w)|].
    eapply (quiet_then _ _ w); [done|exact Q|]. intros w2 S2. rewrite (still_names w) in Hi by done.
    eapply (quiet_then _ _ w _ (take 4 raw)); [done| |].
    { unfold quiet. rewrite io_run, (fs_read_exact_ok _ path i raw 0 4 Hn); [|by rewrite (still_names w)|by rewrite (still_contents w)|lia].
      eexists. split; [reflexivity|]. by cbn. }
    intros w3 S3. apply (quiet_pure _ st); [done|]. apply quiet_ret.
  - exists None. split; [|done]. eapply (quiet_then _ _ w _ false); [apply still_refl| |intros; apply quiet_ret].
    exists w. unfold path_exists. rewrite io_run. cbn. unfold contents in Hc. destruct (file_at (w_fs w) path); [done|].
    split_and!; [by destruct w|by destruct w|done].
Qed.

(** ** The run *)
Record reclaim_ready (w : World) (p : LayoutPaths) (s : Store) (ds : list DedupIndexEntry) (cs : list ReclaimCandidate) : Prop := {
  rr_torn : torn w p s ds cs;
  rr_idle : idle w p;
  rr_clean : flags (st_checkpoint s) = Clean;
  rr_store : reclaimable s ds;
  rr_size : total_size (w_fs w) (recovery_files p) <= MAX_MAINTENANCE_METADATA_BYTES;
  rr_round : one_round s;
  rr_copy : forall n h bs, st_segs s !! n = Some (h, bs) -> payload_len h <> 0 -> copyable h bs;
  rr_unprotected : unprotected (w_fs w) p
}.
Lemma total_size_same fs fs' l : same_files fs fs' -> total_size fs' l = total_size fs l.
Proof.
  intros S. induction l as [|q l IH]; [done|]. change (file_size fs' q + total_size fs' l = file_size fs q + total_size fs l).
  rewrite IH. unfold file_size. by rewrite (contents_same fs).
Qed.
Lemma ready_keep w w' p s ds cs :
  reclaim_ready w p s ds cs -> torn w' p s ds cs -> w_append w' = w_append w -> same_files (w_fs w) (w_fs w') -> reclaim_ready w' p s ds cs.
Proof.
  intros [R1 R2 R3 R4 R5 R6 R7 R8] HT A S. split; try done.
  - intros n Hn. rewrite A. by apply R2.
  - by rewrite (total_size_same (w_fs w)).
  - unfold unprotected in *. by rewrite (contents_same (w_fs w)).
Qed.
Lemma ready_still w w' p s ds cs : reclaim_ready w p s ds cs -> still w w' -> reclaim_ready w' p s ds cs.
Proof. intros R St. destruct St as [F S]. eapply ready_keep; [exact R|by apply (torn_still w); [apply R|split]|by rewrite F|done]. Qed.

Lemma on_world_at {A} (m : M World StorageError A) y w r w' :
  y_world y = w -> m w = (r, w') -> on_world m y = (r, y <| y_world := w' |>).
Proof. intros <- E. unfold on_world, zoomM. by rewrite E. Qed.
Ltac on_the_world E := erewrite bindM_run by (eapply on_world_at; [reflexivity|exact E]).

(** A segment was reclaimed. *)
Definition given_back (w' : World) (p : LayoutPaths) (s : Store) (t : tape) : Prop :=
  exists records ca h bs s', tracks record_id records (extents s) /\ candidate_for s records ca h bs /\ reclaimed_to w' p s s' t ca bs.
(** No segment is worth it. *)
Definition nothing_dead (s : Store) : Prop :=
  exists records, tracks record_id records (extents s) /\
    forall d, d ∈ descriptors (st_index s) -> segment_summary (st_segs s) (st_index s) records d = None.
Definition space_refused (e : StorageError) : Prop := (exists x, e = SpaceAdmission x) \/ e = Corrupt "allocated byte count overflow".
(** Nothing happened, or a segment was reclaimed; the report says which. *)
Definition reclaim_outcome (r : Result StorageError OfflineReclaimReport) (w' : World) (p : LayoutPaths) (s : Store)
  (ds : list DedupIndexEntry) (cs : list ReclaimCandidate) (t : tape) : Prop :=
  match r with
  | Err e => space_refused e /\ (reclaim_ready w' p s ds cs \/ given_back w' p s t)
  | Ok rep => scan_cursor rep = None /\
      (processed_segments rep = 0 /\ nothing_dead s /\ reclaim_ready w' p s ds cs \/ processed_segments rep = 1 /\ given_back w' p s t)
  end.

(** Once the candidate is known. *)
Lemma commit_outcome y d s ds cs t records ca h bs before more pool run m :
  let p := paths_in d in
  no_faults -> reclaim_ready (y_world y) p s ds cs -> shows s t -> tracks record_id records (extents s) ->
  candidate_for s records ca h bs -> payload_len h <> 0 ->
  exists r y', holding (reserve_capacity pool run (ca_live_bytes ca) (Z.of_nat (size (ca_live_blob_ids ca))) 1 m)
      (on_world (commit_reclaim p (st_index s) records ca no_maintenance_progress) ;;!
       let! after := on_world (allocated_layout_bytes (root p)) in
       retM (mkReclaimReport 1 more None before after (sat_sub before after))) y = (r, y') /\
    reclaim_outcome r (y_world y') p s ds cs t.
Proof.
  intros p Hn R Ht Htr HK Hp. set (body := bindM (on_world (commit_reclaim _ _ _ _ _)) _).
  destruct (holding_run (reserve_capacity pool run (ca_live_bytes ca) (Z.of_nat (size (ca_live_blob_ids ca))) 1 m) body y (reserve_space _ _ _ _ _ _))
    as [(e & sp & E)|(sp & sp' & E)].
  { eexists _, _. split; [exact E|]. split; [left; eauto|by left]. }
  destruct (commit_spec (y_world y) d s ds cs records ca h bs t Hn (rr_torn _ _ _ _ _ R) (rr_idle _ _ _ _ _ R) (rr_store _ _ _ _ _ R) Htr HK)
    as (w1 & s' & E1 & HR); [by eapply (rr_copy _ _ _ _ _ R); [apply HK|]|done|]. fold p in E1.
  assert (given_back w1 p s t) as HB by (by exists records, ca, h, bs, s').
  destruct (allocated_spec w1 (root p) Hn (files_wf _ _ _ (rt_files _ _ _ _ _ _ _ HR))) as (ra & w2 & E2 & [F2 S2] & Hc).
  assert (given_back w2 p s t) as HB2.
  { exists records, ca, h, bs, s'. split_and!; [done|done|]. destruct HR as [H1 H2 H3 H4 H5 H6 H7 H8].
    split; try done. by apply (files_same w1); [apply layout_paths_ok|..]. }
  assert (body (y <| y_space := sp |>) = ((let? after := ra in Ok (mkReclaimReport 1 more None before after (sat_sub before after))),
    y <| y_space := sp |> <| y_world := w2 |>)) as Eb.
  { unfold body. on_the_world E1. unfold bindM. erewrite on_world_at; [|reflexivity|exact E2]. by destruct ra. }
  rewrite Eb in E. eexists _, _. split; [exact E|]. destruct ra as [a|e]; cbn.
  - split; [done|]. right. by split.
  - split; [right; exact Hc|by right].
Qed.

(** Once the cartridge is known to be clean. *)
Lemma chosen_outcome y d s ds cs t pool run m :
  let p := paths_in d in
  no_faults -> reclaim_ready (y_world y) p s ds cs -> shows s t ->
  exists r y', reclaim_chosen p pool run None m no_maintenance_progress y = (r, y') /\ reclaim_outcome r (y_world y') p s ds cs t.
Proof.
  intros p Hn R4 Ht. unfold reclaim_chosen. set (w4 := y_world y) in *. pose proof (rr_torn _ _ _ _ _ R4) as HT4.
  destruct (load_index_spec w4 _ _ Hn (tn_index _ _ _ _ _ HT4)) as (w5 & E5 & F5 & S5).
  on_the_world E5. pose proof (ready_still _ _ _ _ _ _ R4 (conj F5 S5)) as R5.
  destruct (torn_load_blk w5 p s ds cs Hn (rr_torn _ _ _ _ _ R5) (rc_budget _ _ (rr_store _ _ _ _ _ R5))) as (w6 & q & records & E6 & Htr & HT6 & A6 & S6).
  on_the_world E6. pose proof (ready_keep _ _ _ _ _ _ R5 HT6 A6 S6) as R6.
  cbv beta iota.
  destruct (collect_spec w6 p s records Hn (tn_segs _ _ _ _ _ HT6) (rc_index _ _ (rr_store _ _ _ _ _ R6)) (rr_size _ _ _ _ _ R6) (rr_round _ _ _ _ _ R6))
    as (scan & (w7 & E7 & F7 & S7) & Ecur & Hcand).
  on_the_world E7. pose proof (ready_still _ _ _ _ _ _ R6 (conj F7 S7)) as R7.
  rewrite Ecur. destruct (allocated_spec w7 (root p) Hn (torn_wf _ _ _ _ _ (rr_torn _ _ _ _ _ R7))) as (ra & w8 & E8 & St8 & Hc).
  pose proof (ready_still _ _ _ _ _ _ R7 St8) as R8.
  destruct (cs_candidate scan) as [ca|].
  - destruct Hcand as (h & bs & HK & Hp). unfold bindM at 1. erewrite on_world_at; [|reflexivity|exact E8].
    destruct ra as [before|e]; [|eexists _, _; split; [reflexivity|]; split; [right; exact Hc|by left]].
    by apply (commit_outcome _ d s ds cs t records ca h bs).
  - unfold bindM at 1. erewrite on_world_at; [|reflexivity|exact E8].
    destruct ra as [a|e]; [|eexists _, _; split; [reflexivity|]; split; [right; exact Hc|by left]].
    eexists _, _. split; [reflexivity|]. split; [done|]. left. split_and!; [done|by exists records|exact R8].
Qed.
(** C99: offline reclaim keeps the tape. On a clean cartridge nobody has mounted
    and no protection covers, whose metadata and segments fit one round, a run
    ends in one of three ways: no segment is worth reclaiming and nothing
    changed; or one segment lost its dead blobs, the tape shows exactly the
    blocks it showed, the checkpoint is clean and no blob identifier can be given
    again; or the space guard refused, or the count of allocated blocks
    overflowed, and one of the two states is on disk. *)
Theorem offline_reclaim_keeps_tape y d s ds cs t pool run :
  no_faults -> let p := paths_in d in reclaim_ready (y_world y) p s ds cs -> shows s t ->
  exists r y', reclaim_one_segment_under_lease p pool run None no_maintenance_progress y = (r, y') /\
    reclaim_outcome r (y_world y') p s ds cs t.
Proof.
  intros Hn p R Ht. unfold reclaim_one_segment_under_lease.
  destruct (retention_spec (y_world y) p Hn (rr_unprotected _ _ _ _ _ R)) as (st & (w1 & E1 & F1 & S1) & Hst).
  on_the_world E1. pose proof (ready_still _ _ _ _ _ _ R (conj F1 S1)) as R1.
  replace (match st with Some r => rs_is_worm_media r | None => false end) with false by (destruct st; [by destruct Hst as [-> _]|done]).
  replace (match st with Some r => rs_retention_locked r | None => false end) with false by (destruct st; [by destruct Hst as [_ ->]|done]).
  cbv iota. unfold preflight_layout_metadata. change (layout_metadata_files p) with (recovery_files p).
  destruct (preflight_spec w1 (recovery_files p) Hn (rr_size _ _ _ _ _ R1)) as (w2 & E2 & F2 & S2).
  on_the_world E2. pose proof (ready_still _ _ _ _ _ _ R1 (conj F2 S2)) as R2.
  pose proof (rr_size _ _ _ _ _ R2) as Hsz. unfold MAX_MAINTENANCE_METADATA_BYTES in Hsz.
  destruct (sum_lengths_spec (recovery_files p) 4096 w2 Hn ltac:(lia) ltac:(lia)) as (w3 & E3 & F3 & S3).
  pose proof (ready_still _ _ _ _ _ _ R2 (conj F3 S3)) as R3. set (m := 4096 + _) in E3.
  on_the_world E3.
  set (y3 := _ <| y_world := w3 |>). assert (reclaim_ready (y_world y3) p s ds cs) as R3' by exact R3.
  destruct (holding_run (reserve_capacity pool run m 1 8 m) (on_world (recover_dirty_state_with_progress p no_maintenance_progress)) y3 (reserve_space _ _ _ _ _ _))
    as [(e & sp & E)|(sp & sp' & E)].
  { eexists _, _. split; [unfold bindM; rewrite E; reflexivity|]. split; [left; eauto|by left]. }
  destruct (recover_clean w3 p s ds cs Hn (rr_torn _ _ _ _ _ R3) (rr_clean _ _ _ _ _ R3) (rr_size _ _ _ _ _ R3)) as (rep & w4 & E4 & HT4 & A4 & S4).
  pose proof (ready_keep _ _ _ _ _ _ R3 HT4 A4 S4) as R4.
  erewrite on_world_at in E; [|reflexivity|exact E4]. rewrite (bindM_run _ _ _ _ _ E).
  by apply (chosen_outcome _ d).
Qed.
End Laws.

(** ** Witness

    A cartridge whose second block was erased: its extent is stale, the blob is
    still in the segment. *)
Section Demo.
#[local] Existing Instances quiet_host no_env bitwise_crc32c tree_order identity_codecs demo_blake.
#[local] Existing Instances zero_sha plain_stat no_cursor roomy_host.

Definition worn_blob : DataBlob := mkBlob 2 CNone 5 5 (blob_integrity_checksum 2 5 [1; 2; 3; 4; 5]) [1; 2; 3; 4; 5].
Definition worn_extent : BlkMapRecord := mkBlk 2 3 5 0 2 0 BStale 0 CNone 5 0 PcNone.
Definition worn_blobs : list DataBlob := [demo_blob; worn_blob].
Definition worn_store : Store :=
  mkStore (mkCheckpoint 1 1 2 8 Clean) 3 [mkBlk 1 0 3 0 1 0 BActive 0 CNone 3 0 PcNone; worn_extent]
    1 [mkLookup 1 0 2 1 1] (mkSegmentIndex 4096 [mkDescriptor 0 64 1 2 SActive CNone 8] 1)
    {[0 := (header_new Data 1 1 (blobs_payload worn_blobs), worn_blobs)]}.
Definition worn_files : list SegFile :=
  [(metadata_file demo_cartridge, Metadata, 1, 1, checkpoint_encode (st_checkpoint worn_store));
   (blk_map_file demo_cartridge, BlkMap, 2, 3, BlkMap.encode_log_payload (st_blk worn_store));
   (lookup_file demo_cartridge, Lookup, 3, 1, MapLookup.encode_log_payload (st_lookup worn_store));
   (reclaim_file demo_cartridge, Layout.Reclaim, 4, 0, []);
   (dedup_file demo_cartridge, Layout.Dedup, 5, 0, []);
   (segment_index_file demo_cartridge, SegmentIndex, 7, 1, index_encode (st_index worn_store));
   (data_segment_path demo_cartridge 0, Data, 1, 1, blobs_payload worn_blobs)].
Definition worn_world : World := formatted worn_files.
Definition worn_machine : Sys := mkSys (@TapeState_new no_env "drive0") worn_world no_reservations ∅ ∅ 0 ∅.

Lemma worn_format_ok : format_ok worn_files.
Proof. apply format_checked. by vm_compute. Qed.
Lemma worn_file path k id seq payload :
  (path, k, id, seq, payload) ∈ worn_files -> log_file worn_world k path id seq payload.
Proof. apply formatted_file, worn_format_ok. Qed.
Lemma worn_segs q h bs : st_segs worn_store !! q = Some (h, bs) ->
  q = 0 /\ h = header_new Data 1 1 (blobs_payload worn_blobs) /\ bs = worn_blobs.
Proof. unfold worn_store. cbn [st_segs]. by intros [<- [= <- <-]]%lookup_singleton_Some. Qed.
Lemma worn_blobs_ok : Forall wf_blob worn_blobs.
Proof.
  unfold worn_blobs. constructor; [apply demo_blob_ok|apply Forall_singleton].
  unfold wf_blob, worn_blob, u64_ok, u32_ok. cbn [db_id db_codec db_logical_len db_stored_len db_checksum db_bytes].
  split_and!; try lia; try reflexivity. apply (bool_decide_unpack (Forall u8_ok _)). by vm_compute.
Qed.
Lemma worn_extents i r : extents worn_store !! i = Some r ->
  i = 1 /\ r = mkBlk 1 0 3 0 1 0 BActive 0 CNone 3 0 PcNone \/ i = 2 /\ r = worn_extent.
Proof.
  unfold extents, replay. cbn. intros [[<- <-]|[Hne H]]%lookup_insert_Some; [by right|]. left.
  by apply lookup_insert_Some in H as [[<- <-]|[_ H]]; [|rewrite lookup_empty in H].
Qed.
Lemma worn_torn : torn worn_world demo_cartridge worn_store [] [].
Proof.
  split.
  - split; [apply worn_file; unfold worn_files; set_solver| |done]. unfold wf_checkpoint, u64_ok. cbn. lia.
  - split; [apply worn_file; unfold worn_files; set_solver| | |done].
    + constructor; [|apply Forall_singleton]; unfold wf_blk, u64_ok, u32_ok; cbn; split_and!; try lia.
    + intros r [->| ->%list_elem_of_singleton]%elem_of_cons; cbn; lia.
  - split; [apply worn_file; unfold worn_files; set_solver| | |done].
    + apply Forall_singleton. unfold wf_lookup, u64_ok. cbn. lia.
    + intros r ->%list_elem_of_singleton. cbn. lia.
  - split; [apply worn_file; unfold worn_files; set_solver|].
    split; cbn; [unfold u32_ok; lia|unfold u64_ok; lia| |by vm_compute].
    apply Forall_singleton. unfold wf_descriptor, u32_ok, u64_ok. cbn. lia.
  - intros n h bs (-> & -> & ->)%worn_segs. split; [unfold u32_ok; lia|].
    assert (log_file worn_world Data (data_segment_path demo_cartridge 0) 1 1 (blobs_payload worn_blobs)) as HL
      by (apply worn_file; unfold worn_files; set_solver).
    apply log_file_seg in HL as (HS & _ & _).
    split; [exact (seg_file_blobs _ _ _ _ HS)|done|apply worn_blobs_ok| |done|done].
    repeat constructor.
  - intros n _ [[x Hx]|[x Hx]]; exfalso; unfold worn_world, formatted, fresh_process in Hx; cbn [w_data w_readers] in Hx;
      rewrite lookup_empty in Hx; discriminate Hx.
  - split; [|by vm_compute|constructor|done]. exists 5, 0, [].
    split; [apply worn_file; unfold worn_files; set_solver|]. split_and!; [done|by vm_compute|by left].
  - split; [|by vm_compute|constructor]. exists 4, 0, []. split; [apply worn_file; unfold worn_files; set_solver|by right].
Qed.
Lemma worn_extent_holds : extent_holds worn_store (mkBlk 1 0 3 0 1 0 BActive 0 CNone 3 0 PcNone) [7; 8; 9].
Proof.
  exists demo_blob. split_and!; [|done|by vm_compute|by vm_compute|done].
  eexists _, _. split; [apply lookup_singleton_eq|unfold worn_blobs; set_solver].
Qed.
Lemma worn_sound : extents_sound worn_store.
Proof.
  assert (forall i r, extents worn_store !! i = Some r -> is_active r -> i = 1 /\ r = mkBlk 1 0 3 0 1 0 BActive 0 CNone 3 0 PcNone) as H.
  { by intros i r [H|[-> ->]]%worn_extents Ha. }
  split.
  - split; [intros i r Hr Ha; destruct (H i r Hr Ha) as [-> ->]; by vm_compute|].
    intros i j r s Hr Hs Hne Ha Hb. destruct (H i r Hr Ha) as [-> _], (H j s Hs Hb) as [-> _]. done.
  - intros i r Hr Ha. destruct (H i r Hr Ha) as [-> ->]. by vm_compute.
  - intros i r Hr Ha. destruct (H i r Hr Ha) as [-> ->]. eexists. apply worn_extent_holds.
Qed.
Lemma worn_shows : shows worn_store demo_tape.
Proof.
  intros b e. unfold demo_tape, tape_write, blank. change (Zlen [7; 8; 9]) with 3. split.
  - case_decide as Hb; [|done]. intros [= <-]. eexists. split.
    + eexists _, _. split; [|split; [apply worn_extent_holds|reflexivity]]. split; [reflexivity|].
      apply covers_spec. split; [done|]. split; [change (0 <= b)|change (b < 3)]; lia.
    + done.
  - intros (x & (r & py & [Hr Hc] & Hp & ->) & <-). apply covers_spec in Hc as (Ha & H1 & H2).
    apply worn_extents in Hr as [[_ ->]|[_ ->]]; [|done].
    change (0 <= b) in H1. change (b < 3) in H2. rewrite decide_True by lia. unfold on_tape. cbn. do 2 f_equal.
    eapply extent_holds_unique; [|apply worn_extent_holds|exact Hp].
    intros n h bs (_ & _ & ->)%worn_segs. apply (bool_decide_unpack (NoDup _)). by vm_compute.
Qed.
Lemma worn_good : good_index (st_index worn_store) (st_segs worn_store).
Proof.
  split; [apply (tn_index _ _ _ _ _ worn_torn)| | |].
  - split; [done|apply NoDup_singleton|]. intros x ->%list_elem_of_singleton. cbn. lia.
  - intros n. cbn [st_index worn_store descriptors fmap list_fmap segment_seq]. rewrite list_elem_of_singleton. split.
    + intros [[h bs] Hx]. by apply worn_segs in Hx as [-> _].
    + intros ->. eexists. apply lookup_singleton_eq.
  - intros d h bs b ->%list_elem_of_singleton (_ & _ & ->)%worn_segs [->| ->%list_elem_of_singleton]%elem_of_cons; vm_compute; congruence.
Qed.
Lemma worn_ready : reclaim_ready worn_world demo_cartridge worn_store [] [].
Proof.
  split.
  - apply worn_torn.
  - intros n _. apply lookup_empty.
  - done.
  - split; [split; by vm_compute|apply worn_sound|apply worn_good|].
    intros i r [[-> ->]|[-> ->]]%worn_extents _ Hd; done.
  - vm_compute. congruence.
  - split; by vm_compute.
  - intros n h bs (_ & -> & ->)%worn_segs _. split; [by vm_compute|by right|vm_compute; congruence|by vm_compute].
  - by vm_compute.
Qed.

Lemma offline_reclaim_keeps_tape_witness :
  exists r y', reclaim_one_segment_under_lease demo_cartridge "/pool" "/run/holo" None no_maintenance_progress worn_machine = (r, y') /\
    reclaim_outcome r (y_world y') demo_cartridge worn_store [] [] demo_tape.
Proof.
  apply (offline_reclaim_keeps_tape (HOL := tree_order_laws) (CL := bitwise_crc32c_laws) worn_machine "/pool/c1").
  - exact quiet_no_faults.
  - exact worn_ready.
  - exact worn_shows.
Defined.
(** The run does reclaim. *)
Lemma worn_run :
  (processed_segments <$> (let (r, _) := reclaim_one_segment_under_lease demo_cartridge "/pool" "/run/holo" None no_maintenance_progress worn_machine in
    match r with Ok rep => Some rep | Err _ => None end)) = Some 1.
Proof. by vm_compute. Qed.
End Demo.
