(* ===== verification/MaintenanceLaws.v ===== *)
(** * What the maintenance tool answers

    Every run ends with one report that its consumer accepts, or with exit code 2
    for a reason the report has no place for. *)

From S2P Require Import Prelude Bytes Text Errors Fs Layout TapeState SpaceGuard Compression Records.
From S2P Require Import World Crc Segment Logs DataPath Recovery System Bootstrap OfflineScan OfflineReclaim.
From S2P Require Import Maintenance Machine.

(** ** Results of a step *)
Definition yields {S E A} (m : M S E A) (P : A -> Prop) : Prop := forall s a s', m s = (Ok a, s') -> P a.
Lemma yields_any {S E A} (m : M S E A) : yields m (fun _ => True).
Proof. done. Qed.
Lemma yields_weaken {S E A} (m : M S E A) (P Q : A -> Prop) : yields m P -> (forall a, P a -> Q a) -> yields m Q.
Proof. intros H HPQ s a s' E0. eapply HPQ, H, E0. Qed.
Lemma yields_ret {S E A} (a : A) (P : A -> Prop) : P a -> yields (retM (S := S) (E := E) a) P.
Proof. by intros H s b s' [= <- <-]. Qed.
Lemma yields_fail {S E A} (e : E) (P : A -> Prop) : yields (failM (S := S) e) P.
Proof. by intros s b s' [=]. Qed.
Lemma yields_lift {S E A} (r : Result E A) (P : A -> Prop) : (forall a, r = Ok a -> P a) -> yields (liftM (S := S) r) P.
Proof. intros H s b s' [= -> <-]. by apply H. Qed.
Lemma yields_bind {S E A B} (m : M S E A) (k : A -> M S E B) (P : A -> Prop) (Q : B -> Prop) :
  yields m P -> (forall a, P a -> yields (k a) Q) -> yields (bindM m k) Q.
Proof.
  intros Hm Hk s b s' H. unfold bindM in H. destruct (m s) as [[a|e] s1] eqn:Em; [|done].
  by eapply (Hk a); [eapply Hm|].
Qed.
Lemma yields_if {S E A} (c : bool) (m m' : M S E A) P : yields m P -> yields m' P -> yields (if c then m else m') P.
Proof. by destruct c. Qed.
Lemma yields_zoom {S T E A} (get : S -> T) (put : T -> S -> S) (m : M T E A) P : yields m P -> yields (zoomM get put m) P.
Proof. intros H s a s' E0. unfold zoomM in E0. destruct (m (get s)) as [r t] eqn:Em. injection E0 as -> <-. by eapply H. Qed.
Lemma yields_map_err {S E E' A} (f : E -> E') (m : M S E A) P : yields m P -> yields (map_errM f m) P.
Proof. intros H s a s' E0. unfold map_errM in E0. destruct (m s) as [[x|e] t] eqn:Em; [|done]. injection E0 as -> <-. by eapply H. Qed.

(** ** What reclaim reports *)
Section Reclaim.
Context `{HOST : Host} `{ENV : Environ} `{C : Crc32c} `{HO : HashOrder} `{BC : BlockCodecs} `{SHA : Sha256} `{FS : FileStat}
  `{CJ : CursorJson} `{SH : SpaceHost}.

Definition cursor_fits (c : option (list Z)) : Prop := match c with Some text => Zlen text <= MAX_ARG_CURSOR | None => True end.
Definition sound_report (r : OfflineReclaimReport) : Prop :=
  (u64_ok (allocated_before_bytes r) /\ u64_ok (allocated_after_bytes r)) /\ 0 <= processed_segments r <= 1 /\
  match scan_cursor r with
  | Some text => Zlen text <= MAX_ARG_CURSOR /\ has_more r = true /\ net_freed_bytes r = 0
  | None => net_freed_bytes r = sat_sub (allocated_before_bytes r) (allocated_after_bytes r)
  end.

Lemma collect_yields p index records raw progress :
  yields (collect_candidates p index records raw progress) (fun s => cursor_fits (cs_scan_cursor s)).
Proof.
  unfold collect_candidates. generalize 2%nat as n. intros n. revert raw. induction n as [|n IH]; intros raw; cbn [collect_with]; [apply yields_fail|].
  do 2 (eapply yields_bind; [apply yields_any|intros ? _]). eapply yields_bind; [apply yields_any|intros [c|] _]; [|apply IH].
  apply yields_lift. intros scan. unfold finish_round. case_decide.
  - destruct (cursor_to_json c) as [text|]; [|done]. cbn. case_decide as Hl; [done|]. destruct (utf8_valid text); [|done]. intros [= <-].
    cbn. unfold MAX_ARG_CURSOR. unfold MAX_CURSOR_BYTES in Hl. lia.
  - by intros [= <-].
Qed.
Lemma sum_blocks_yields l : forall total, u64_ok total -> yields (sum_blocks l total) u64_ok.
Proof.
  induction l as [|q l IH]; intros total Ht; cbn [sum_blocks]; [by apply yields_ret|].
  eapply yields_bind; [apply yields_any|intros ? _]. eapply (yields_bind _ _ (fun b => 0 <= b)); [|intros blocks Hb].
  { intros w b w' [= <- <-]. lia. }
  eapply (yields_bind _ _ (fun b => 0 <= b)); [|intros bytes Hy].
  { apply yields_lift. intros b E. unfold checked_mul64 in E. case_decide; [|done]. injection E as <-. lia. }
  eapply yields_bind; [|exact IH].
  apply yields_lift. intros b E. unfold checked_add64 in E. case_decide as Hle; [|done]. injection E as <-. unfold u64_ok in *. lia.
Qed.
Lemma allocated_yields dir : yields (on_world (allocated_layout_bytes dir)) u64_ok.
Proof.
  apply yields_zoom. do 2 (eapply yields_bind; [apply yields_any|intros ? _]). apply sum_blocks_yields. unfold u64_ok. lia.
Qed.
Lemma holding_yields {A} adm (body : M Sys StorageError A) P : yields body P -> yields (holding adm body) P.
Proof.
  intros H. unfold holding. eapply yields_bind; [apply yields_any|intros res _].
  eapply (yields_bind _ _ (fun r => match r with Ok a => P a | Err _ => True end)); [|intros r Hr].
  { intros y r y' E. unfold tryM in E. destruct (body y) as [[a|e] y1] eqn:Eb; injection E as <- <-; [by eapply H|done]. }
  eapply yields_bind; [apply yields_any|intros _ _]. apply yields_lift. by intros a ->.
Qed.
Lemma reclaim_chosen_yields p pool run cursor m progress : yields (reclaim_chosen p pool run cursor m progress) sound_report.
Proof.
  unfold reclaim_chosen. do 2 (eapply yields_bind; [apply yields_any|intros ? _]). case_match.
  eapply yields_bind; [apply yields_zoom, collect_yields|intros scan Hscan]. cbn beta in Hscan.
  destruct (cs_scan_cursor scan) as [text|].
  { eapply yields_bind; [apply allocated_yields|intros before Hb]. eapply yields_bind; [apply allocated_yields|intros after Ha].
    apply yields_ret. split; [done|]. split_and!; [done|done|]. split; [exact Hscan|done]. }
  destruct (cs_candidate scan) as [ca|]; (eapply yields_bind; [apply allocated_yields|intros before Hb]).
  - apply holding_yields. eapply yields_bind; [apply yields_any|intros _ _]. eapply yields_bind; [apply allocated_yields|intros after Ha].
    apply yields_ret. split; [done|]. cbn. lia.
  - apply yields_ret. split; [done|]. split; [cbn; lia|]. cbn. unfold sat_sub. lia.
Qed.
Lemma reclaim_yields p pool lib cart run cursor progress :
  yields (reclaim_one_segment_with_cursor_and_progress p pool lib cart run cursor progress) sound_report.
Proof.
  unfold reclaim_one_segment_with_cursor_and_progress, reclaim_one_segment_with_media_state_dir_and_progress.
  do 3 (eapply yields_bind; [apply yields_any|intros ? _]). case_match; [apply yields_fail|].
  eapply yields_bind; [apply yields_any|intros ? _]. unfold reclaim_one_segment_under_lease.
  eapply yields_bind; [apply yields_any|intros ? _]. do 2 (apply yields_if; [apply yields_fail|]).
  do 3 (eapply yields_bind; [apply yields_any|intros ? _]). apply reclaim_chosen_yields.
Qed.
End Reclaim.

(** ** Reports *)
(** What a report may hold: the sizes of its fields. *)
Record report_fits (r : Report) : Prop := {
  rf_pool : Zlen (bytes_of_string (rp_pool_id r)) <= 128;
  rf_library : Zlen (bytes_of_string (rp_library_id r)) <= 128;
  rf_cartridge : Zlen (bytes_of_string (rp_cartridge_id r)) <= 128;
  rf_reason : reason_valid (rp_status r) (rp_reason r) = true;
  rf_cursor : cursor_fits (rp_scan_cursor r);
  rf_numbers : Forall u64_ok [rp_schema_version r; rp_processed_segments r; rp_allocated_before_bytes r; rp_allocated_after_bytes r;
                              rp_net_freed_bytes r; rp_duration_ms r]
}.
(** Such a report has a JSON text of at most 64 KiB: a byte of a string takes at
    most six. *)
Class ReportJsonLaws `{RJ : ReportJson} : Prop :=
  report_written : forall r, report_fits r -> exists text, report_to_json r = Some text /\ Zlen text <= 64 * 1024 /\ utf8_valid text = true.

Definition RELEASED_INCONSISTENT : string := "maintenance released-byte counters are inconsistent".
(** Why a run ends without a report. *)
Definition refusals : list string :=
  ["invalid management ID"; "requested pool root is unavailable"; "pool root does not match the approved storage pool";
   "cannot register cancellation handler"; RELEASED_INCONSISTENT]%string.
Definition exit_code (status : string) : Z :=
  if bool_decide (status = "failed"%string) || bool_decide (status = "cancelled"%string) then 1 else 0.

Lemma validate_sound r :
  rp_processed_segments r <= 1 -> reason_valid (rp_status r) (rp_reason r) = true ->
  (rp_status r = "completed"%string \/ rp_processed_segments r = 0 /\ rp_net_freed_bytes r = 0 /\ rp_scan_cursor r = None) ->
  match rp_scan_cursor r with Some c => Zlen c <= MAX_ARG_CURSOR /\ rp_has_more r = true | None => True end ->
  validate_report r = if decide (rp_net_freed_bytes r = sat_sub (rp_allocated_before_bytes r) (rp_allocated_after_bytes r))
                      then Ok tt else Err RELEASED_INCONSISTENT.
Proof.
  intros Hp Hr Hs Hc. unfold validate_report. rewrite decide_False by lia. rewrite Hr. cbn [negb].
  rewrite decide_False by (intros [H1 [H2|[H2|H2]]]; destruct Hs as [Hs|(Hs1 & Hs2 & Hs3)]; try done; rewrite Hs3 in H2; by destruct H2).
  destruct (rp_scan_cursor r) as [c|].
  - destruct Hc as [Hc ->]. rewrite bool_decide_eq_false_2 by lia. cbn [orb negb]. repeat case_decide; done.
  - repeat case_decide; done.
Qed.
Lemma classified e : match classify_error e with (status, reason, _) => reason_valid status (Some reason) = true end.
Proof. destruct e as [|?|[]| | | | | | |]; cbn [classify_error]; repeat case_match; simplify_eq; done. Qed.

Section Tool.
Context `{HOST : Host} `{C : Crc32c} `{HO : HashOrder} `{BC : BlockCodecs} `{SHA : Sha256} `{FS : FileStat}
  `{CJ : CursorJson} `{SH : SpaceHost} `{TH : ToolHost} `{RJL : ReportJsonLaws}.

(** One report of the cartridge asked for, which its consumer accepts, and the
    exit code that goes with its status. *)
Definition reported (args : Args) (code : Z) (out out' : list (list Z)) : Prop :=
  exists r text, (rp_pool_id r = a_pool_id args /\ rp_library_id r = a_library_id args /\ rp_cartridge_id r = a_cartridge_id args) /\
    validate_report r = Ok tt /\ report_to_json r = Some text /\ out' = out ++ [text ++ [10]] /\ code = exit_code (rp_status r).
Definition answers (args : Args) (m : M Tool string Z) : Prop := forall t,
  match m t with
  | (Ok code, t') => reported args code (t_out t) (t_out t')
  | (Err e, t') => t_out t' = t_out t /\ e ∈ refusals
  end.
(** A step that prints nothing and fails only as a refusal. *)
Definition silent {A} (m : M Tool string A) : Prop := forall t,
  t_out (snd (m t)) = t_out t /\ match fst (m t) with Ok _ => True | Err e => e ∈ refusals end.

Lemma silent_ask {A} (f : nat -> A) : silent (tool_ask f).
Proof. done. Qed.
Lemma silent_try {E A} (m : M Sys E A) : silent (tryM (on_sys m)).
Proof. intros t. unfold tryM, on_sys, zoomM. by destruct (m (t_sys t)). Qed.
Lemma silent_ret {A} (a : A) : silent (retM a).
Proof. done. Qed.
Lemma silent_bind {A B} (m : M Tool string A) (k : A -> M Tool string B) : silent m -> (forall a, silent (k a)) -> silent (bindM m k).
Proof.
  intros Hm Hk t. unfold bindM. destruct (Hm t) as [H1 H2]. destruct (m t) as [[a|e] t1]; cbn in *; [|done].
  destruct (Hk a t1) as [H3 H4]. by rewrite H3.
Qed.
Lemma silent_register : silent register_signal.
Proof. intros t. unfold register_signal, tool_ask, bindM. destruct (th_register _); split; try done. cbn. unfold refusals. set_solver. Qed.

Lemma answers_bind {A} args (m : M Tool string A) (k : A -> M Tool string Z) P :
  silent m -> yields m P -> (forall a, P a -> answers args (k a)) -> answers args (bindM m k).
Proof.
  intros Hm Hy Hk t. unfold bindM. destruct (Hm t) as [H1 H2]. specialize (Hy t). destruct (m t) as [[a|e] t1]; cbn in *; [|done].
  specialize (Hk a (Hy a t1 eq_refl) t1). rewrite <- H1. done.
Qed.
Lemma answers_fail args e : e ∈ refusals -> answers args (failM e).
Proof. done. Qed.

(** The identifiers passed [valid_id]. *)
Definition ids_short (args : Args) : Prop :=
  Zlen (bytes_of_string (a_pool_id args)) <= 128 /\ Zlen (bytes_of_string (a_library_id args)) <= 128 /\
  Zlen (bytes_of_string (a_cartridge_id args)) <= 128.
Lemma valid_id_short v : valid_id v = true -> Zlen (bytes_of_string v) <= 128.
Proof. unfold valid_id. rewrite !andb_true_iff, bool_decide_eq_true. tauto. Qed.

Lemma emit_answers args status reason processed more cursor before after freed duration code :
  ids_short args -> reason_valid status reason = true -> 0 <= processed <= 1 ->
  (status = "completed"%string \/ processed = 0 /\ freed = 0 /\ cursor = None) ->
  match cursor with Some c => Zlen c <= MAX_ARG_CURSOR /\ more = true | None => True end ->
  Forall u64_ok [before; after; freed; duration] -> code = exit_code status ->
  answers args (emit_report args status reason processed more cursor before after freed duration ;;! retM code).
Proof.
  intros (I1 & I2 & I3) Hr Hp Hs Hc Hn -> t. unfold emit_report. set (r := mkReport _ _ _ _ _ _ _ _ _ _ _ _ _).
  pose proof (validate_sound r (proj2 Hp) Hr Hs Hc) as Hv. unfold bindM at 1 2. unfold liftM at 1. rewrite Hv. case_decide as Hd.
  - assert (report_fits r) as Hf.
    { split; try done; cbn; [destruct cursor; [apply Hc|done]|]. do 2 (constructor; [unfold u64_ok; lia|]). exact Hn. }
    destruct (report_written r Hf) as (text & Et & Hl & Hu). unfold bindM, liftM. rewrite Et. cbn [ok_or].
    rewrite decide_False by lia. rewrite Hu. by exists r, text.
  - cbn. split; [done|]. unfold refusals. set_solver.
Qed.
Lemma nothing_answers args status reason code :
  ids_short args -> reason_valid status reason = true -> code = exit_code status -> answers args (nothing_done args status reason code).
Proof.
  intros. apply emit_answers; try done; [by right|]. repeat constructor; unfold u64_ok; lia.
Qed.
Lemma elapsed_ok a b : u64_ok (elapsed_ms a b).
Proof. unfold u64_ok, elapsed_ms. lia. Qed.

Lemma reclaim_answers args paths pool started env progress : ids_short args -> answers args (reclaim_and_report args paths pool started env progress).
Proof.
  intros Hi. unfold reclaim_and_report.
  eapply (answers_bind _ _ _ (fun r => match r with Ok a => sound_report a | Err _ => True end)); [apply silent_try| |intros result Hres].
  { intros t r t' E. unfold tryM in E. destruct (on_sys _ t) as [[a|e] t1] eqn:Eb; injection E as <- <-; [|done].
    eapply (yields_zoom _ _ _ _ (reclaim_yields _ _ _ _ _ _ _)); exact Eb. }
  eapply answers_bind; [apply silent_ask|apply yields_any|intros now _]. destruct result as [r|e].
  - destruct Hres as ([Hb Ha] & Hp & Hc). apply emit_answers; try done; [by left| |].
    + destruct (scan_cursor r); [tauto|done].
    + repeat constructor; try apply Hb; try apply Ha; try apply elapsed_ok; destruct (scan_cursor r); unfold u64_ok, sat_sub in *; lia.
  - pose proof (classified e) as Hk. destruct (classify_error e) as [[status reason] more].
    apply emit_answers; try done; [by right|]. repeat constructor; try apply elapsed_ok; unfold u64_ok; lia.
Qed.
Lemma maintain_answers args pool env progress : ids_short args -> answers args (maintain args pool env progress).
Proof.
  intros Hi. unfold maintain. eapply answers_bind; [apply silent_ask|apply yields_any|intros started _]. cbv zeta.
  eapply answers_bind; [apply silent_try|apply yields_any|intros resolved _]. destruct resolved as [paths|e].
  - eapply answers_bind; [done|apply yields_any|intros t _]. destruct (root_exists _ _).
    + do 2 (eapply answers_bind; [apply silent_register|apply yields_any|intros ? _]). by apply reclaim_answers.
    + eapply answers_bind; [apply silent_ask|apply yields_any|intros now _]. apply emit_answers; try done; [by left|].
      repeat constructor; try apply elapsed_ok; unfold u64_ok; lia.
  - destruct e; apply nothing_answers; try done. by case_decide.
Qed.

Lemma parsed_cursor argv args :
  parse_args argv = Ok args -> match a_scan_cursor args with Some c => bool_decide (MAX_ARG_CURSOR < Zlen c) | None => false end = false.
Proof.
  unfold parse_args. intros (values & _ & H)%rbind_Ok. apply rbind_Ok in H as (pool & _ & H). apply rbind_Ok in H as (dir & _ & H).
  destruct (negb _); [done|]. destruct (match option_value values "scan-cursor" with Some _ => _ | None => _ end) eqn:Hc; [done|].
  do 3 apply rbind_Ok in H as (? & _ & H). injection H as <-. exact Hc.
Qed.
Lemma pool_approved (expected given : string) :
  silent (if decide (expected = given) then
            let! kind := tryM (on_sys (on_space (ask (fun t => sh_metadata t given)))) in
            retM (match kind with Ok (k, _, _) => bool_decide (k = EkDir) | Err _ => false end)
          else retM false).
Proof. case_decide; [|apply silent_ret]. apply silent_bind; [apply silent_try|intros; apply silent_ret]. Qed.

Lemma run_answers argv args env progress : parse_args argv = Ok args -> answers args (run argv env progress).
Proof.
  intros Ha. unfold run. rewrite Ha.
  eapply (answers_bind _ (liftM (Ok args)) _ (eq args)); [done|by intros ? ? ? [= <- <-]|intros ? <-].
  destruct (_ && _) eqn:Hv; cbn [negb]; [|apply answers_fail; unfold refusals; set_solver].
  apply andb_true_iff in Hv as [[H1 H2]%andb_true_iff H3].
  assert (ids_short args) as Hi by (split_and!; by apply valid_id_short). rewrite (parsed_cursor argv args Ha). cbv zeta.
  eapply answers_bind; [apply silent_ask|apply yields_any|intros expected _]. destruct expected as [expected|e].
  - eapply answers_bind; [apply silent_ask|apply yields_any|intros given _].
    eapply answers_bind; [|apply yields_any|intros given' _].
    { intros t. split; [done|]. destruct given as [g|]; [done|]. cbn. unfold refusals. set_solver. }
    eapply answers_bind; [apply pool_approved|apply yields_any|intros approved _]. destruct approved; cbn [negb];
      [|apply answers_fail; unfold refusals; set_solver].
    eapply answers_bind; [apply silent_try|apply yields_any|intros loaded _].
    destruct loaded as [[|]|e]; [by apply nothing_answers|by apply maintain_answers|by apply nothing_answers].
  - case_decide; by apply nothing_answers.
Qed.

(** C99: every run of the maintenance tool is answered. It prints one report on
    the cartridge it was started for, which passes its own validation, and exits
    with 1 if the report says failed or cancelled and 0 otherwise; or it prints
    nothing and exits with 2, and then the options were wrong, the pool is not the
    approved one, a signal could not be watched, or less space was allocated at
    the end of an unfinished scan than before it. *)
Theorem every_run_answered argv env progress t :
  let (code, t') := main argv env progress t in
  (exists args, parse_args argv = Ok args /\ reported args code (t_out t) (t_out t')) \/
  code = 2 /\ t_out t' = t_out t /\ exists e, fst (run argv env progress t) = Err e /\ (parse_args argv = Err e \/ e ∈ refusals).
Proof.
  unfold main. destruct (parse_args argv) as [args|e] eqn:Ha.
  - pose proof (run_answers argv args env progress Ha t) as H. destruct (run argv env progress t) as [[code|e] t'].
    + left. by exists args.
    + right. destruct H as [H1 H2]. eauto 6.
  - assert (run argv env progress t = (Err e, t)) as -> by (unfold run, bindM, liftM; by rewrite Ha). right. cbn. eauto 6.
Qed.
(** A scan that goes on, during which space was given back, is not reported. *)
Lemma shrunk_scan_unreported args r duration text :
  scan_cursor r = Some text -> net_freed_bytes r = 0 -> processed_segments r = 0 -> Zlen text <= MAX_ARG_CURSOR -> has_more r = true ->
  allocated_after_bytes r < allocated_before_bytes r ->
  forall t, emit_report args "completed" None (processed_segments r) (has_more r) (scan_cursor r)
    (allocated_before_bytes r) (allocated_after_bytes r) (net_freed_bytes r) duration t = (Err RELEASED_INCONSISTENT, t).
Proof.
  intros Hc Hf Hp Hl Hm Hlt t. unfold emit_report. set (rep := mkReport _ _ _ _ _ _ _ _ _ _ _ _ _).
  rewrite (bindM_run_err _ _ _ RELEASED_INCONSISTENT t); [done|]. unfold liftM. rewrite (validate_sound rep); cbn.
  - rewrite decide_False; [done|]. rewrite Hf. unfold sat_sub. lia.
  - lia.
  - done.
  - by left.
  - by rewrite Hc.
Qed.
End Tool.

(** ** Witness

    A tool started for a cartridge that has no layout. *)
Section Demo.
#[local] Existing Instances quiet_host bitwise_crc32c tree_order identity_codecs.
Definition plain_report : ReportJson := {| report_to_json r := Some (bytes_of_string "{}"); line_to_json _ := Some (bytes_of_string "{}") |}.
Definition plain_tool : ToolHost := {|
  th_cancelled _ := false; th_now n := Z.of_nat n; th_stderr _ := Ok tt; th_register _ := true; th_canonicalize _ p := Ok p
|}.
Lemma plain_report_laws : @ReportJsonLaws plain_report.
Proof. intros r _. exists (bytes_of_string "{}"). by split_and!; [|vm_compute|vm_compute]. Qed.
#[local] Existing Instances zero_sha plain_stat no_cursor roomy_host plain_report plain_tool plain_report_laws.
Definition plain_argv : list (list Z) :=
  bytes_of_string <$> ["--pool-root"; "/var/lib/holo/storage-pools/p1"; "--pool-id"; "p1"; "--library-id"; "lib1";
                       "--cartridge-id"; "C1"; "--runtime-dir"; "/run/holo"]%string.
Definition plain_process : Tool :=
  mkTool (mkSys (@TapeState_new no_env "drive0") (fresh_process empty_fs) no_reservations ∅ ∅ 0 ∅) 0 [].

Lemma every_run_answered_witness :
  let (code, t') := main plain_argv no_env no_maintenance_progress plain_process in
  (exists args, parse_args plain_argv = Ok args /\ reported args code [] (t_out t')) \/
  code = 2 /\ t_out t' = [] /\ exists e, fst (run plain_argv no_env no_maintenance_progress plain_process) = Err e /\
    (parse_args plain_argv = Err e \/ e ∈ refusals).
Proof. exact (every_run_answered (RJL := plain_report_laws) plain_argv no_env no_maintenance_progress plain_process). Defined.
(** The run of the example does report. *)
Lemma plain_run : fst (main plain_argv no_env no_maintenance_progress plain_process) = 0 /\
  t_out (snd (main plain_argv no_env no_maintenance_progress plain_process)) = [bytes_of_string "{}" ++ [10]].
Proof. split; by vm_compute. Qed.
End Demo.
