(* ===== verification/ChangerLaws.v ===== *)
(** * The changer neither loses nor duplicates media

    The elements of the library as one inventory, what MOVE MEDIUM and EXCHANGE
    MEDIUM do to it, and the exchange that drops a cartridge. *)

From S2P Require Import Prelude Bytes Text Errors Sense Fs Layout TapeState Reservation SpaceGuard Identity Wire.
From S2P Require Import Compression Records World Crc Segment Logs BlkMap MapLookup Dedup DataBlobs DataPath.
From S2P Require Import System Bootstrap Prefetch MountBridge CommandChain CommandsCore CdbBase DriveProfile MediaState CdbCommon Changer.

(** ** Inventories *)
(** What an element holds: [None] when there is no such element. *)
Definition element_at (s : TapeState) (a : Z) : option (option string) :=
  match changer_slots s !! a with
  | Some e => Some e
  | None => match changer_ie_ports s !! a with Some e => Some e | None => changer_drives s !! a end
  end.
(** The labels in a group of elements, and in the library. *)
Definition full (m : gmap Z (option string)) : list string := omap snd (map_to_list m).
Definition labels (s : TapeState) : list string :=
  full (changer_slots s) ++ full (changer_ie_ports s) ++ full (changer_drives s).
Definition same_inventory (s s' : TapeState) : Prop :=
  changer_slots s' = changer_slots s /\ changer_ie_ports s' = changer_ie_ports s /\
  changer_drives s' = changer_drives s.

(** Replace what an existing element holds. *)
Definition puts (a : Z) (e : option string) (s s' : TapeState) : Prop :=
  is_Some (element_at s a) /\
  (changer_slots s', changer_ie_ports s', changer_drives s') =
  match changer_slots s !! a, changer_ie_ports s !! a with
  | Some _, _ => (<[a := e]> (changer_slots s), changer_ie_ports s, changer_drives s)
  | None, Some _ => (changer_slots s, <[a := e]> (changer_ie_ports s), changer_drives s)
  | None, None => (changer_slots s, changer_ie_ports s, <[a := e]> (changer_drives s))
  end.

Lemma full_insert m a o e :
  m !! a = Some o -> full (<[a := e]> m) ≡ₚ option_list e ++ full (delete a m) /\
  full m ≡ₚ option_list o ++ full (delete a m).
Proof.
  intros Hm. unfold full. split.
  - rewrite <- insert_delete_eq, map_to_list_insert by apply lookup_delete_eq. cbn. by destruct e.
  - rewrite <- (map_to_list_delete m a o Hm). cbn. by destruct o.
Qed.

Lemma puts_at a e s s' b : puts a e s s' -> element_at s' b = if decide (b = a) then Some e else element_at s b.
Proof.
  intros [Ha E]. unfold element_at in *.
  destruct (changer_slots s !! a) eqn:E1; [|destruct (changer_ie_ports s !! a) eqn:E2; [|destruct Ha as [x Ha]]];
    injection E as -> -> ->; case_decide as Hb; subst; rewrite ?lookup_insert_eq, ?lookup_insert_ne by done;
    by rewrite ?E1, ?E2.
Qed.

Lemma puts_labels a e o s s' :
  puts a e s s' -> element_at s a = Some o -> labels s' ++ option_list o ≡ₚ labels s ++ option_list e.
Proof.
  intros [_ E] Ha. unfold labels, element_at in *.
  destruct (changer_slots s !! a) eqn:E1; [|destruct (changer_ie_ports s !! a) eqn:E2];
    injection E as -> -> ->; simplify_eq;
    match goal with H : _ !! a = Some _ |- _ => destruct (full_insert _ _ _ e H) as [-> H2]; rewrite H2 end;
    solve_Permutation.
Qed.

Lemma puts_exists a e s s' : puts a e s s' -> forall b, is_Some (element_at s' b) <-> is_Some (element_at s b).
Proof. intros H b. rewrite (puts_at _ _ _ _ _ H). case_decide; [subst; destruct H; naive_solver|done]. Qed.

Lemma has_element_spec s a : changer_has_element s a = bool_decide (is_Some (element_at s a)).
Proof.
  unfold changer_has_element, element_at.
  destruct (changer_slots s !! a), (changer_ie_ports s !! a), (changer_drives s !! a); reflexivity.
Qed.
Lemma same_element s s' a : same_inventory s s' -> element_at s' a = element_at s a.
Proof. intros (H1 & H2 & H3). unfold element_at. by rewrite H1, H2, H3. Qed.
Lemma same_labels s s' : same_inventory s s' -> labels s' = labels s.
Proof. intros (H1 & H2 & H3). unfold labels. by rewrite H1, H2, H3. Qed.

(** ** Taking and placing *)
Lemma take_spec a s :
  match changer_take_medium a s with
  | (Some m, s') => element_at s a = Some (Some (m_label m)) /\ puts a None s s'
  | (None, s') => s' = s /\ mjoin (element_at s a) = None
  end.
Proof.
  unfold changer_take_medium, element_at, puts, element_at.
  repeat match goal with |- context [match ?m !! a with _ => _ end] => destruct (m !! a) as [[?|]|] eqn:?; try done end;
    repeat split; try done; rewrite ?Heqo; eauto.
Qed.

Lemma place_spec a m s :
  match changer_place_medium a m s with
  | Ok s' => element_at s a = Some (Some (m_label m)) /\ s' = s \/
             element_at s a = Some None /\ puts a (Some (m_label m)) s s'
  | Err _ => element_at s a <> Some None
  end.
Proof.
  unfold changer_place_medium, element_at, puts, element_at.
  repeat match goal with |- context [match ?m !! a with _ => _ end] => destruct (m !! a) as [[?|]|] eqn:?; try done end;
    try (case_decide; subst; naive_solver); right; repeat split; try done; rewrite ?Heqo; eauto.
Qed.

(** Placing a medium the library does not hold. *)
Lemma place_new a m s s' :
  changer_place_medium a m s = Ok s' -> m_label m ∉ labels s ->
  element_at s a = Some None /\ puts a (Some (m_label m)) s s'.
Proof.
  intros E Hn. pose proof (place_spec a m s) as H. rewrite E in H. destruct H as [[Ha ->]|H]; [|done].
  destruct Hn. unfold labels, element_at in *. rewrite !elem_of_app. unfold full.
  destruct (changer_slots s !! a) eqn:E1; [|destruct (changer_ie_ports s !! a) eqn:E2]; simplify_eq;
    [left|right; left|right; right]; apply list_elem_of_omap; eexists (_, _);
    (split; [by apply elem_of_map_to_list|done]).
Qed.

(** What was taken goes back, and the inventory is as it was. *)
Lemma put_back_taken a s m s' :
  changer_take_medium a s = (Some m, s') -> same_inventory s (put_back a m s').
Proof.
  intros E. pose proof (take_spec a s) as H. rewrite E in H. destruct H as [Ha Hp].
  pose proof (puts_at _ _ _ _ a Hp) as Ha'. rewrite decide_True in Ha' by done.
  pose proof (place_spec a m s') as H. unfold put_back. destruct (changer_place_medium a m s') as [s2|]; [|done].
  destruct H as [[H _]|[_ H2]]; [congruence|]. destruct Hp as [_ Hp], H2 as [_ H2].
  unfold same_inventory, element_at in *.
  destruct (changer_slots s !! a) eqn:E1; [|destruct (changer_ie_ports s !! a) eqn:E2];
    injection Hp as P1 P2 P3; rewrite P1, P2, P3 in *; rewrite ?lookup_insert_eq, ?E1, ?E2 in H2;
    injection H2 as -> -> ->; simplify_eq; by rewrite ?insert_insert_eq, ?insert_id.
Qed.

(** A completed move: the labels are the same ones. *)
Lemma taken_labels a s m s' :
  changer_take_medium a s = (Some m, s') -> labels s ≡ₚ m_label m :: labels s'.
Proof.
  intros E. pose proof (take_spec a s) as H. rewrite E in H. destruct H as [Ha Hp].
  pose proof (puts_labels _ _ _ _ _ Hp Ha) as H. cbn in H. rewrite app_nil_r in H. rewrite <- H. solve_Permutation.
Qed.
Lemma placed_labels a s m s' :
  changer_place_medium a m s = Ok s' -> m_label m ∉ labels s -> labels s' ≡ₚ m_label m :: labels s.
Proof.
  intros E Hn. destruct (place_new _ _ _ _ E Hn) as [Ha Hp].
  pose proof (puts_labels _ _ _ _ _ Hp Ha) as H. cbn in H. rewrite app_nil_r in H. rewrite H. solve_Permutation.
Qed.


(** ** EXCHANGE MEDIUM *)
Definition place_opt (a : Z) (m : option ChangerMedium) (s : TapeState) : Result unit TapeState :=
  match m with Some m => changer_place_medium a m s | None => Ok s end.
Definition held (m : option ChangerMedium) : list string := option_list (m_label <$> m).

Lemma take_opt_labels a s m s' : changer_take_medium a s = (m, s') -> labels s ≡ₚ held m ++ labels s'.
Proof.
  intros E. destruct m as [m|]; [by apply (taken_labels a)|].
  pose proof (take_spec a s) as H. rewrite E in H. by destruct H as [-> _].
Qed.
Lemma place_opt_labels a s m s' :
  place_opt a m s = Ok s' -> NoDup (held m ++ labels s) -> labels s' ≡ₚ held m ++ labels s.
Proof.
  destruct m as [m|]; cbn; [|by intros [= ->]]. intros E [Hn _]%NoDup_cons. by apply (placed_labels a).
Qed.

(** An exchange that completes keeps every label. *)
Lemma exchange_labels source d1 d2 s s' :
  NoDup (labels s) -> exchange_elements source d1 d2 s = (Ok tt, s') -> labels s' ≡ₚ labels s.
Proof.
  intros Hnd. unfold exchange_elements.
  destruct (changer_take_medium source s) as [[m|] s1] eqn:E0; [|done]. apply take_opt_labels in E0.
  destruct (changer_take_medium d1 s1) as [m1 s2] eqn:E1. apply take_opt_labels in E1.
  destruct (changer_take_medium d2 s2) as [m2 s3] eqn:E2. apply take_opt_labels in E2.
  destruct (changer_place_medium d1 m s3) as [s4|] eqn:P0; [|done]. change (place_opt d1 (Some m) s3 = Ok s4) in P0.
  fold (place_opt d2 m1 s4). destruct (place_opt d2 m1 s4) as [s5|] eqn:P1; [|done].
  fold (place_opt source m2 s5). destruct (place_opt source m2 s5) as [s6|] eqn:P2; [|done]. intros [= <-].
  rewrite E1, E2 in E0. rewrite E0 in Hnd.
  assert (NoDup (held (Some m) ++ labels s3)) as N0.
  { eapply sublist_NoDup; [exact Hnd|]. apply sublist_app; [done|]. do 2 apply sublist_inserts_l. done. }
  pose proof (place_opt_labels _ _ _ _ P0 N0) as L0.
  assert (NoDup (held m1 ++ labels s4)) as N1.
  { rewrite L0, (Permutation_app_swap_app (held m1)). eapply sublist_NoDup; [exact Hnd|].
    apply sublist_app; [done|]. apply sublist_app; [done|]. by apply sublist_inserts_l. }
  pose proof (place_opt_labels _ _ _ _ P1 N1) as L1.
  assert (NoDup (held m2 ++ labels s5)) as N2.
  { rewrite L1, L0. assert (held m2 ++ held m1 ++ held (Some m) ++ labels s3 ≡ₚ held (Some m) ++ held m1 ++ held m2 ++ labels s3)
      as -> by solve_Permutation. done. }
  rewrite (place_opt_labels _ _ _ _ P2 N2), L1, L0, E0. solve_Permutation.
Qed.

(** The moves and the completed exchanges of a library. *)
Inductive library_step : TapeState -> TapeState -> Prop :=
| step_move source destination s r s' :
    source <> destination -> move_elements source destination s = (r, s') -> library_step s s'
| step_exchange source d1 d2 s s' :
    exchange_elements source d1 d2 s = (Ok tt, s') -> library_step s s'.

Lemma move_labels source destination s r s' :
  NoDup (labels s) -> move_elements source destination s = (r, s') -> labels s' ≡ₚ labels s.
Proof.
  intros Hnd. unfold move_elements. destruct (changer_take_medium source s) as [[m|] s1] eqn:Et; cycle 1.
  { intros [= _ <-]. pose proof (take_spec source s) as H. rewrite Et in H. by destruct H as [-> _]. }
  pose proof (taken_labels _ _ _ _ Et) as Hl. rewrite Hl in Hnd. apply NoDup_cons in Hnd as [Hn _].
  destruct (changer_place_medium destination m s1) as [s2|] eqn:Epl; intros [= _ <-].
  - by rewrite (placed_labels _ _ _ _ Epl Hn), Hl.
  - by rewrite (same_labels _ _ (put_back_taken _ _ _ _ Et)).
Qed.


(** An exchange whose second destination does not exist is refused, but the
    cartridge of the first destination is gone from the inventory. *)
Theorem exchange_loses_medium source d1 d2 s label displaced :
  source <> d1 -> element_at s source = Some (Some label) -> element_at s d1 = Some (Some displaced) ->
  element_at s d2 = None ->
  exists s', exchange_elements source d1 d2 s = (Err invalid_element_address_response, s') /\
    element_at s' d1 = Some (Some label) /\ element_at s' source = Some None /\
    labels s ≡ₚ displaced :: labels s'.
Proof.
  intros Hne Hs H1 H2. unfold exchange_elements. assert (d2 <> source /\ d2 <> d1) as [Hd Hd'] by naive_solver.
  pose proof (take_spec source s) as T0. destruct (changer_take_medium source s) as [[m|] s1] eqn:E0; cycle 1.
  { rewrite Hs in T0. by destruct T0. }
  destruct T0 as [Em P0]. pose proof (taken_labels _ _ _ _ E0) as L0.
  assert (m_label m = label) as Hm by congruence.
  pose proof (take_spec d1 s1) as T1. pose proof (puts_at _ _ _ _ d1 P0) as A1. rewrite decide_False in A1 by done.
  destruct (changer_take_medium d1 s1) as [[m1|] s2] eqn:E1; cycle 1.
  { rewrite A1, H1 in T1. by destruct T1. }
  destruct T1 as [Em1 P1]. pose proof (taken_labels _ _ _ _ E1) as L1.
  assert (m_label m1 = displaced) as Hm1 by congruence.
  assert (element_at s2 d2 = None) as A2.
  { rewrite (puts_at _ _ _ _ d2 P1), decide_False, (puts_at _ _ _ _ d2 P0), decide_False; done. }
  pose proof (take_spec d2 s2) as T2. destruct (changer_take_medium d2 s2) as [[m2|] s3]; [naive_solver|].
  destruct T2 as [-> _]. pose proof (place_spec d1 m s2) as Q. pose proof (puts_at _ _ _ _ d1 P1) as B1.
  rewrite decide_True in B1 by done. destruct (changer_place_medium d1 m s2) as [s4|]; [|done].
  destruct Q as [[Q _]|[_ Q]]; [congruence|]. pose proof (place_spec d2 m1 s4) as R.
  assert (element_at s4 d2 = None) as A4 by (rewrite (puts_at _ _ _ _ d2 Q), decide_False; done).
  destruct (changer_place_medium d2 m1 s4) as [s5|]; [destruct R as [[R _]|[R _]]; congruence|].
  exists s4. split_and!; [done|by rewrite (puts_at _ _ _ _ d1 Q), decide_True, Hm|..].
  - by rewrite (puts_at _ _ _ _ source Q), decide_False, (puts_at _ _ _ _ source P1), decide_False, (puts_at _ _ _ _ source P0), decide_True.
  - pose proof (puts_labels _ _ _ _ _ Q B1) as L4. cbn in L4. rewrite app_nil_r in L4.
    rewrite L0, L1, L4, Hm, Hm1. solve_Permutation.
Qed.

(** ** A library with two cartridges *)
Definition demo_library : TapeState :=
  (@TapeState_new no_env "changer0") <| changer_slots := <[0x0400 := Some "TAPE01"]> (<[0x0401 := Some "TAPE02"]> default_changer_slots) |>.
Lemma demo_labels : NoDup (labels demo_library).
Proof. apply (bool_decide_unpack _). by vm_compute. Qed.


