(* ===== verification/PartitionLaws.v ===== *)
(** * The partitions of a medium divide it

    FORMAT MEDIUM gives every byte of the medium to exactly one partition; the
    profile's limit on their number does not bind fixed data partitions. *)

From S2P Require Import Prelude Bytes Text Errors Sense Fs Layout TapeState Reservation SpaceGuard Identity Wire.
From S2P Require Import Compression Records World Crc Segment Logs BlkMap MapLookup Dedup DataBlobs DataPath.
From S2P Require Import System Bootstrap Prefetch MountBridge CommandChain CommandsCore CdbBase DriveProfile.

Definition sumZ (l : list Z) : Z := foldr Z.add 0 l.

Lemma sumZ_insert l i x y : l !! i = Some y -> sumZ (<[i := x]> l) = sumZ l - y + x.
Proof.
  revert i. induction l as [|z l IH]; intros [|i] H; [done|done|cbn in H; simplify_eq; cbn; lia|].
  change (z + sumZ (<[i := x]> l) = z + sumZ l - y + x). rewrite (IH i H). lia.
Qed.

Lemma sumZ_pos l : Forall (fun b => 0 <= b) l -> 0 <= sumZ l.
Proof. induction 1 as [|x l Hx _ IH]; [done|]. change (0 <= x + sumZ l). lia. Qed.

(** Four slots, the sizes in [u16] units, at most three partitions beyond the
    first. *)
Record wf_partitions (r : PartitionRuntime) : Prop := {
  wp_len : length (partition_size_units r) = 4%nat;
  wp_units : Forall u16_ok (partition_size_units r);
  wp_addl : 0 <= addl_partitions_defined r <= 3
}.
(** Sizes that give the [total] bytes to the first [n] of four partitions. *)
Record divides (total : Z) (n : nat) (sizes : list Z) : Prop := {
  dv_len : length sizes = 4%nat;
  dv_sum : sumZ sizes = total;
  dv_pos : Forall (fun b => 0 <= b) sizes;
  dv_rest i : (n <= i < 4)%nat -> sizes !! i = Some 0
}.

Lemma divides_bytes total n sizes : divides total n sizes -> Forall (fun b => 0 <= b <= total) sizes.
Proof.
  intros [_ <- H _]. induction H as [|x l Hx H IH]; constructor.
  - change (0 <= x <= x + sumZ l). pose proof (sumZ_pos l H). lia.
  - eapply Forall_impl; [exact IH|]. intros b Hb. cbn beta in Hb, Hx. change (0 <= b <= x + sumZ l). lia.
Qed.

Lemma divides_insert total n sizes i x :
  divides total n sizes -> sizes !! i = Some 0 -> 0 <= x -> (i < n)%nat -> divides (total + x) n (<[i := x]> sizes).
Proof.
  intros [H1 H2 H3 H4] Hi Hx Hn. split.
  - by rewrite length_insert.
  - rewrite (sumZ_insert _ _ _ _ Hi), H2. lia.
  - by apply Forall_insert.
  - intros j Hj. rewrite list_lookup_insert_ne by lia. by apply H4.
Qed.
Lemma divides_weaken total n m sizes : divides total n sizes -> (n <= m)%nat -> divides total m sizes.
Proof. intros [H1 H2 H3 H4] Hm. split; [done..|]. intros i Hi. apply H4. lia. Qed.

Lemma unit_bytes_bound units u : partition_unit_bytes (Z.land units 0x0F) = Some u -> 0 <= u <= 2 ^ 36.
Proof.
  unfold partition_unit_bytes. repeat case_decide; try done. intros [= <-].
  assert (0 <= Z.land units 15 < 16) by (change 15 with (Z.ones 4); rewrite Z.land_ones by lia; apply Z.mod_pos_bound; lia).
  rewrite Z.shiftl_mul_pow2 by lia.
  pose proof (Z.pow_le_mono_r 2 (Z.land units 15 - 9) 6 ltac:(lia) ltac:(lia)). nia.
Qed.

(** Measuring the sizes: what was measured so far is divided among the
    partitions seen, and the one that takes the rest is still empty. *)
Lemma measure_spec u sizes : forall idx bytes fill total,
  0 <= u <= 2 ^ 36 -> Forall u16_ok sizes -> (idx + length sizes <= 4)%nat ->
  divides total idx bytes -> total <= 2 ^ 52 * Z.of_nat idx ->
  (forall i, fill = Some i -> bytes !! i = Some 0 /\ (i < idx)%nat) ->
  let '(bytes', fill', total') := measure_partitions u idx sizes (bytes, fill, total) in
  divides total' (idx + length sizes) bytes' /\ total' <= 2 ^ 52 * 4 /\
  (forall i, fill' = Some i -> bytes' !! i = Some 0 /\ (i < idx + length sizes)%nat).
Proof.
  induction sizes as [|raw sizes IH]; intros idx bytes fill total Hu Hf Hl Hd Ht Hfill; cbn [measure_partitions length].
  { rewrite Nat.add_0_r. split_and!; [done|lia|done]. }
  apply Forall_cons in Hf as [Hr Hf]. cbn in Hl. rewrite Nat.add_succ_r, <- Nat.add_succ_l.
  assert (bytes !! idx = Some 0) as H0 by (apply Hd; lia). case_decide as Hm.
  - apply IH; try done; [cbn; lia|eapply divides_weaken; [done|lia]|lia|]. intros i [= <-]. split; [done|lia].
  - assert (0 <= u * raw <= 2 ^ 52) by (unfold u16_ok in Hr; nia).
    assert (sat_mul64 u raw = u * raw) as -> by (unfold sat_mul64; lia).
    assert (0 <= total) by (rewrite <- (dv_sum _ _ _ Hd); apply sumZ_pos, Hd).
    assert (sat_add64 total (u * raw) = total + u * raw) as -> by (unfold sat_add64; lia).
    apply IH; try done; [cbn; lia| |lia|].
    + apply divides_insert; [eapply divides_weaken; [done|lia]|done|lia|lia].
    + intros i Hi. destruct (Hfill i Hi) as [Hz Hlt]. rewrite list_lookup_insert_ne by lia. split; [done|lia].
Qed.

Lemma fill_spec capacity n bytes fill total sizes :
  (0 < n)%nat -> 0 <= capacity <= U64_MAX -> divides total n bytes ->
  (forall i, fill = Some i -> bytes !! i = Some 0 /\ (i < n)%nat) ->
  fill_partitions capacity (bytes, fill, total) = Some sizes -> divides capacity n sizes.
Proof.
  intros Hn Hc Hd Hf. unfold fill_partitions. cbn.
  assert (forall b t, divides t n b -> t <= capacity ->
    divides capacity n (<[0%nat := sat_add64 (byte_at b 0) (capacity - t)]> b)) as Hfirst.
  { intros b t Hb Ht. pose proof (divides_bytes _ _ _ Hb) as Hbb. destruct Hb as [H1 H2 H3 H4].
    destruct b as [|x b]; [done|]. apply Forall_cons in Hbb as [Hx _]. apply Forall_cons in H3 as [_ H3].
    change (byte_at (x :: b) 0) with x. unfold sat_add64. cbn in H2. split; [done|cbn; lia| |].
    - constructor; [lia|done].
    - intros i Hi. rewrite list_lookup_insert_ne by lia. by apply H4. }
  destruct fill as [i|]; cbn.
  - destruct (Hf i eq_refl) as [Hz Hi]. case_decide as Ht; [done|]. cbn.
    pose proof (divides_insert _ _ _ i (capacity - total) Hd Hz ltac:(lia) Hi) as Hd'.
    replace (total + (capacity - total)) with capacity in Hd' by lia.
    rewrite !decide_False by lia. by intros [= <-].
  - case_decide as Ht; [done|]. case_decide as Ht'; intros [= <-].
    + apply Hfirst; [done|lia].
    + by replace capacity with total by lia.
Qed.

Lemma single_divides capacity : 0 <= capacity -> divides capacity 1 [capacity; 0; 0; 0].
Proof.
  intros H. split; [done|cbn; lia|by repeat constructor|]. intros i Hi.
  destruct i as [|[|[|[|i]]]]; try lia; done.
Qed.
Lemma percent_divides capacity percent :
  0 <= capacity -> 0 <= percent <= 100 -> divides capacity 2 (percent_split capacity percent).
Proof.
  intros H Hp. unfold percent_split, sat_mul64, sat_sub.
  assert (0 <= Z.min (capacity * percent) U64_MAX / 100 <= capacity).
  { split; [apply Z.div_pos; nia|]. apply Z.div_le_upper_bound; nia. }
  split; [done|cbn; lia|repeat constructor; lia|]. intros i Hi. destruct i as [|[|[|[|i]]]]; try lia; done.
Qed.

Lemma plan_divides capacity r addl sizes :
  0 <= capacity <= U64_MAX -> wf_partitions r -> plan_partitions capacity r = Some (addl, sizes) ->
  0 <= addl <= 3 /\ divides capacity (Z.to_nat (addl + 1)) sizes.
Proof.
  intros Hc [W1 W2 W3]. unfold plan_partitions. case_decide; [done|]. case_decide.
  { intros [= <- <-]. split; [lia|]. apply percent_divides; lia. }
  case_decide.
  { case_decide as Ha.
    - intros [= <- <-]. split; [lia|]. rewrite Ha. apply single_divides. lia.
    - intros [= <- <-]. split; [lia|]. apply (divides_weaken _ 2); [|lia]. apply percent_divides; [lia|].
      assert (0 <= byte_at (partition_size_units r) 0).
      { destruct (partition_size_units r) as [|x l]; [done|]. apply Forall_cons in W2 as [Hx _]. by destruct Hx. }
      case_decide; lia. }
  destruct (partition_unit_bytes _) as [u|] eqn:Eu; [|done]. cbn. apply unit_bytes_bound in Eu.
  set (l := take _ _).
  assert (length l = Z.to_nat (addl_partitions_defined r + 1)) as Hl by (unfold l; rewrite length_take; lia).
  pose proof (measure_spec u l 0 [0; 0; 0; 0] None 0 Eu ltac:(by apply Forall_take) ltac:(lia)) as HM.
  destruct (measure_partitions u 0 l _) as [[bytes fill] total]. rewrite Hl in HM.
  destruct HM as (Hd & _ & Hf); [|lia|done|].
  { split; [done|done|by repeat constructor|]. intros i Hi. destruct i as [|[|[|[|i]]]]; try lia; done. }
  destruct (fill_partitions capacity (bytes, fill, total)) as [b|] eqn:E; [|done]. intros [= <- <-]. split; [lia|].
  eapply fill_spec; [| |exact Hd|exact Hf|exact E]; lia.
Qed.

Lemma size_to_units_ok size units : 0 <= size -> u16_ok (partition_size_to_units size units).
Proof.
  intros Hs. unfold partition_size_to_units, u16_ok. destruct (partition_unit_bytes units) as [u|] eqn:E; [|lia].
  case_decide; [lia|]. assert (0 < u).
  { unfold partition_unit_bytes in E. repeat case_decide; try done. injection E as <-.
    rewrite Z.shiftl_mul_pow2 by lia. pose proof (Z.pow_pos_nonneg 2 (units - 9)). lia. }
  assert (0 <= sat_add64 size (sat_sub u 1) / u); [|lia].
  apply Z.div_pos; [unfold sat_add64, sat_sub; lia|done].
Qed.

Lemma single_wf capacity r : 0 <= capacity -> wf_partitions (single_partition capacity r).
Proof.
  intros Hc. split; [done| |cbn; lia]. apply Forall_cons. split; [by apply size_to_units_ok|].
  by apply (bool_decide_unpack (Forall u16_ok [0; 0; 0])).
Qed.

Lemma ensure_partition_wf p s :
  0 <= medium_capacity_bytes_for_state s p -> wf_partitions (partition_runtime s) ->
  wf_partitions (partition_runtime (ensure_partition_runtime_initialized p s)) /\
  medium_capacity_bytes_for_state (ensure_partition_runtime_initialized p s) p = medium_capacity_bytes_for_state s p.
Proof.
  intros Hc W. unfold ensure_partition_runtime_initialized. case_decide; [done|]. split; [|done].
  pose proof (single_wf _ (partition_runtime s) Hc) as [H1 H2 H3]. by split.
Qed.

(** C19: when FORMAT MEDIUM lays a medium out, its partitions take all of it
    and no more than it, however the sizes were asked for (percentages, units,
    one that fills the rest) and with every sum at its machine width; when it
    refuses, the layout is the one before. *)
Theorem format_divides_medium p format s :
  0 <= medium_capacity_bytes_for_state s p <= U64_MAX -> wf_partitions (partition_runtime s) ->
  match apply_format_medium_layout p format s with
  | (Ok _, s') =>
      divides (medium_capacity_bytes_for_state s p) (Z.to_nat (partition_count s'))
        (partition_sizes_bytes (partition_runtime s')) /\
      wf_partitions (partition_runtime s') /\ 1 <= partition_count s' <= 4
  | (Err _, s') => s' = ensure_partition_runtime_initialized p s
  end.
Proof.
  intros Hc W. destruct (ensure_partition_wf p s ltac:(lia) W) as [W' Ec].
  unfold apply_format_medium_layout. set (s1 := ensure_partition_runtime_initialized p s) in *.
  erewrite bindM_run by reflexivity. erewrite bindM_run by reflexivity. cbv zeta. fold s1. rewrite Ec. case_decide as Hf.
  { split_and!; [apply single_divides; lia|apply single_wf; lia|done|done]. }
  destruct (validate_partition_definition _ _ _ _ _); [|done]. erewrite bindM_run by reflexivity. case_decide; [done|].
  destruct (plan_partitions _ _) as [[addl sizes]|] eqn:E; [|done]. erewrite bindM_run by reflexivity.
  apply plan_divides in E as [Ha Hd]; [|lia|done].
  assert (Z.max 1 (Z.min (addl + 1) 4) = addl + 1) as En by lia.
  cbv beta iota delta [putM]. change (partition_count _) with (Z.max 1 (Z.min (addl + 1) 4)).
  rewrite En. split_and!; [done| |lia|lia]. split; cbn.
  - rewrite length_app, length_map, length_take, length_replicate, (dv_len _ _ _ Hd). lia.
  - apply Forall_app. split; [|apply Forall_replicate; unfold u16_ok; lia].
    apply Forall_map, Forall_take. eapply Forall_impl; [apply Hd|]. intros b Hb. by apply size_to_units_ok.
  - done.
Qed.

(** ** Layouts that surprise *)
Definition GIB : Z := 1024 * 1024 * 1024.

(** The initial layout counts its one partition in whole gibibytes, rounded up:
    unless the capacity is a multiple, FORMAT MEDIUM then finds the medium too
    small for the layout it already has. *)
Theorem rounded_capacity_refused p format s :
  partition_runtime s = default_partition -> format <> 0 ->
  0 < medium_capacity_bytes_for_state s p < 65534 * GIB -> medium_capacity_bytes_for_state s p mod GIB <> 0 ->
  fst (apply_format_medium_layout p format s) = Err tt.
Proof.
  intros Hr Hf Hc Hm. unfold apply_format_medium_layout.
  assert (ensure_partition_runtime_initialized p s = s <| partition_runtime :=
    initial_partition (medium_capacity_bytes_for_state s p) default_partition |>) as Ee.
  { unfold ensure_partition_runtime_initialized. by rewrite Hr. }
  erewrite bindM_run by reflexivity. erewrite bindM_run by reflexivity. cbv zeta. rewrite Ee, decide_False by done.
  set (c := medium_capacity_bytes_for_state s p) in *.
  replace (medium_capacity_bytes_for_state _ p) with c by done.
  replace (validate_partition_definition _ _ _ _ _) with (None (A := unit)); [done|]. symmetry.
  cbn [partition_runtime partition_units addl_partitions_defined partition_size_units initial_partition single_partition].
  unfold validate_partition_definition. change (partition_unit_bytes _) with (Some GIB). cbn -[Z.mul Z.add GIB].
  rewrite decide_False by (unfold max_additional_partitions_for_profile; repeat case_match; lia).
  unfold partition_size_to_units. change (partition_unit_bytes 9) with (Some GIB). cbv beta iota.
  rewrite (decide_False (P := c = 0)) by lia. unfold sat_mul64, sat_add64, sat_sub, GIB in *.
  pose proof (Z.div_mod c (1024 * 1024 * 1024) ltac:(lia)). pose proof (Z.mod_pos_bound c (1024 * 1024 * 1024) ltac:(lia)).
  set (q := c / (1024 * 1024 * 1024)) in *. set (r := c mod (1024 * 1024 * 1024)) in *.
  assert ((Z.min (c + Z.max (1024 * 1024 * 1024 - 1) 0) U64_MAX) / (1024 * 1024 * 1024) = q + 1) as ->.
  { symmetry. apply (Z.div_unique _ _ _ (r - 1)); lia. }
  replace (Z.min (q + 1) U16_MAX) with (q + 1) by lia. change (Z.land 9 15) with 9. rewrite !decide_False by lia.
  change (take _ _) with [q + 1]. cbn [total_partitions]. rewrite decide_False by lia. cbn [mbind option_bind].
  unfold sat_add64, sat_mul64. rewrite decide_True by lia. done.
Qed.

(** The profile of a drive that supports no additional partition. *)
Definition lto4 : DeviceIdentityProfile := drive_profile "IBM" "ULT3580-TD4" "0001" "".
(** Fixed data partitions, which a fresh drive asks for, are two whatever the
    profile supports. *)
Theorem fixed_partitions_ignore_limit :
  max_additional_partitions_for_profile lto4 = 0 /\
  exists s', apply_format_medium_layout lto4 1 (@TapeState_new no_env "drive0") = (Ok tt, s') /\
    addl_partitions_defined (partition_runtime s') = 1.
Proof. split; [by vm_compute|]. eexists. split; by vm_compute. Qed.

(** Three partitions: one unit, the rest, two units. *)
Definition lto6 : DeviceIdentityProfile := drive_profile "IBM" "ULT3580-TD6" "0001" "".
Definition demo_three_partitions : TapeState :=
  (@TapeState_new no_env "drive0")
    <| partition_runtime := mkPartition 9 2 0x38 0x03 [1; U16_MAX; 2; 0] [2500 * GIB; 0; 0; 0] 0 |>.
Lemma format_divides_medium_witness :
  exists s', apply_format_medium_layout lto6 1 demo_three_partitions = (Ok tt, s') /\
    divides (2500 * GIB) 3 (partition_sizes_bytes (partition_runtime s')).
Proof.
  pose proof (format_divides_medium lto6 1 demo_three_partitions) as H.
  destruct (apply_format_medium_layout lto6 1 demo_three_partitions) as [[[]|e] s'] eqn:E.
  - exists s'. split; [reflexivity|].
    assert (partition_count s' = 3) as Hn.
    { replace s' with (snd (apply_format_medium_layout lto6 1 demo_three_partitions)) by (by rewrite E). by vm_compute. }
    rewrite Hn in H. apply H.
    + split; by vm_compute.
    + split; [reflexivity| |vm_compute; split; congruence].
      apply (bool_decide_unpack (Forall u16_ok _)). by vm_compute.
  - exfalso. revert E. vm_compute. discriminate.
Defined.
