(* ===== verification/MamLaws.v ===== *)
(** * The attribute file survives

    The medium auxiliary memory a drive wrote is the one the next drive to
    mount the cartridge reads: the text of the overrides and the files. *)

From S2P Require Import Prelude Bytes Text Errors Sense Fs Layout TapeState Reservation SpaceGuard Identity Wire.
From S2P Require Import Compression Records World Crc Segment Logs BlkMap MapLookup Dedup SegmentIndex Slots DataBlobs DataPath.
From S2P Require Import System Bootstrap Prefetch MountBridge CommandChain CommandsCore CdbBase DriveProfile MediaState CdbCommon CdbDrive.

(** ** Hexadecimal text *)
Definition is_hex (b : Z) : Prop := 48 <= b <= 57 \/ 65 <= b <= 70.

Lemma hex_digit_spec d : 0 <= d < 16 -> is_hex (hex_digit d) /\ hex_value (hex_digit d) = Some d.
Proof.
  intros Hd. unfold is_hex, hex_digit, hex_value. case_decide as H; split; try lia.
  - rewrite decide_True by lia. f_equal. lia.
  - rewrite decide_False, decide_True by lia. f_equal. lia.
Qed.

Lemma parse_hex_digits_app max l1 l2 : forall acc,
  parse_hex_digits max acc (l1 ++ l2) =
  match parse_hex_digits max acc l1 with Some a => parse_hex_digits max a l2 | None => None end.
Proof. induction l1 as [|b l1 IH]; intros acc; cbn; [done|]. destruct (hex_value b); [case_decide; auto|done]. Qed.
Lemma parse_hex_one max acc d l :
  0 <= d < 16 -> acc * 16 + d <= max ->
  parse_hex_digits max acc (hex_digit d :: l) = parse_hex_digits max (acc * 16 + d) l.
Proof. intros Hd Hm. cbn. destruct (hex_digit_spec d Hd) as [_ ->]. by rewrite decide_True. Qed.

Lemma hex2_parse max acc n :
  0 <= n < 256 -> 0 <= acc -> acc * 256 + n <= max -> parse_hex_digits max acc (hex2 n) = Some (acc * 256 + n).
Proof.
  intros Hn Ha Hm. unfold hex2. pose proof (Z.div_mod n 16). pose proof (Z.mod_pos_bound n 16).
  pose proof (Z.mod_pos_bound (n / 16) 16). assert (0 <= n / 16 < 16) by (split; [apply Z.div_pos|apply Z.div_lt_upper_bound]; lia).
  rewrite (Z.mod_small (n / 16)) by lia. rewrite !parse_hex_one by lia. cbn. f_equal. lia.
Qed.
Lemma hex4_hex2 n : 0 <= n < 65536 -> hex4 n = hex2 (n / 256) ++ hex2 (n mod 256).
Proof.
  intros Hn. unfold hex4, hex2. cbn [app].
  assert (n / 256 / 16 = n / 4096) as -> by (rewrite Z.div_div by lia; done).
  assert (n mod 256 / 16 mod 16 = n / 16 mod 16) as ->.
  { rewrite (Z.div_mod n 256) at 2 by lia. replace (256 * (n / 256) + n mod 256) with (n mod 256 + (n / 256 * 16) * 16) by lia.
    rewrite Z.div_add by lia. by rewrite Z.mod_add. }
  assert ((n mod 256) mod 16 = n mod 16) as ->; [|done].
  rewrite (Z.div_mod n 256) at 2 by lia. replace (256 * (n / 256) + n mod 256) with (n mod 256 + (n / 256 * 16) * 16) by lia.
  by rewrite Z.mod_add.
Qed.

Lemma hex2_hex n : Forall is_hex (hex2 n).
Proof.
  unfold hex2. pose proof (Z.mod_pos_bound (n / 16) 16). pose proof (Z.mod_pos_bound n 16).
  repeat (apply Forall_cons; split; [apply hex_digit_spec; lia|]). apply Forall_nil. done.
Qed.
Lemma hex4_hex n : Forall is_hex (hex4 n).
Proof.
  unfold hex4. pose proof (Z.mod_pos_bound (n / 4096) 16). pose proof (Z.mod_pos_bound (n / 256) 16).
  pose proof (Z.mod_pos_bound (n / 16) 16). pose proof (Z.mod_pos_bound n 16).
  repeat (apply Forall_cons; split; [apply hex_digit_spec; lia|]). apply Forall_nil. done.
Qed.
Lemma encode_hex_hex l : Forall is_hex (encode_hex l).
Proof. induction l as [|b l IH]; [constructor|]. cbn [encode_hex map concat]. apply Forall_app. split; [apply hex2_hex|exact IH]. Qed.

(** Text of hexadecimal digits has no sign. *)
Lemma parse_hex_hex max l : Forall is_hex l -> l <> [] -> parse_hex max l = parse_hex_digits max 0 l.
Proof.
  intros [|b l' Hb _] Hne; [done|]. unfold parse_hex. unfold is_hex in Hb.
  destruct b as [|q|q]; try lia. do 7 (destruct q as [q|q|]; try lia; try reflexivity).
Qed.

(** The key and the format of a line. *)
Lemma hex4_parse max acc n :
  0 <= n < 65536 -> 0 <= acc -> acc * 65536 + n <= max -> parse_hex_digits max acc (hex4 n) = Some (acc * 65536 + n).
Proof.
  intros Hn Ha Hm. rewrite hex4_hex2 by done. pose proof (Z.div_mod n 256 ltac:(lia)). pose proof (Z.mod_pos_bound n 256 ltac:(lia)).
  assert (0 <= n / 256 < 256) by (split; [apply Z.div_pos|apply Z.div_lt_upper_bound]; lia).
  rewrite parse_hex_digits_app, hex2_parse by lia. rewrite hex2_parse by lia. f_equal. lia.
Qed.
Lemma key_parse key : u32_ok key -> parse_hex U32_MAX (hex4 (key / 65536) ++ hex4 (key mod 65536)) = Some key.
Proof.
  unfold u32_ok. intros Hk. pose proof (Z.div_mod key 65536 ltac:(lia)). pose proof (Z.mod_pos_bound key 65536 ltac:(lia)).
  assert (0 <= key / 65536 < 65536) by (split; [apply Z.div_pos|apply Z.div_lt_upper_bound]; lia).
  rewrite parse_hex_hex; [|apply Forall_app; split; apply hex4_hex|done].
  rewrite parse_hex_digits_app, hex4_parse by lia. rewrite hex4_parse by lia. f_equal. lia.
Qed.
Lemma format_parse f : u8_ok f -> parse_hex U8_MAX (hex2 f) = Some f.
Proof. unfold u8_ok. intros Hf. rewrite parse_hex_hex, hex2_parse; [f_equal; lia|lia|lia|lia|apply hex2_hex|done]. Qed.

Lemma decode_encode_hex l : bytes_ok l -> decode_hex (encode_hex l) = Ok (Some l).
Proof.
  intros Hl. unfold decode_hex.
  assert (Nat.odd (length (encode_hex l)) = false) as ->.
  { rewrite <- Nat.negb_even. apply negb_false_iff, Nat.even_spec. exists (length l). clear Hl.
    induction l as [|b l IH]; [done|]. cbn [encode_hex map concat]. rewrite length_app. change (length (hex2 b)) with 2%nat.
    change (concat (map hex2 l)) with (encode_hex l). rewrite IH. cbn [length]. lia. }
  induction Hl as [|b l Hb Hl IH]; [done|].
  change (encode_hex (b :: l)) with (hex2 b ++ encode_hex l). change (hex2 b) with ([hex_digit (b / 16 mod 16); hex_digit (b mod 16)]).
  cbn [app decode_pairs]. assert (match encode_hex l with c :: _ => cont c | [] => false end = false) as ->.
  { pose proof (encode_hex_hex l) as Hh. destruct (encode_hex l) as [|c r]; [done|]. apply Forall_cons in Hh as [Hc _].
    apply bool_decide_eq_false. unfold is_hex in Hc. lia. }
  change [hex_digit (b / 16 mod 16); hex_digit (b mod 16)] with (hex2 b). rewrite format_parse by done. by rewrite IH.
Qed.

(** ** The lines of the file *)
(** No white space starts or ends with a visible ASCII character. *)
Definition visible (b : Z) : Prop := 33 <= b <= 127.
Definition starts_invisible (w : list Z) : bool :=
  match w with b :: _ => negb (bool_decide (33 <= b <= 127)) | [] => false end.
Lemma strip_visible ws b l :
  forallb starts_invisible ws = true -> visible b -> strip_many (length (b :: l)) ws (b :: l) = b :: l.
Proof.
  intros Hws Hb. cbn [strip_many length]. unfold strip_one.
  assert (list_find (fun w => take (length w) (b :: l) = w) ws = None) as ->; [|done].
  apply list_find_None, Forall_forall. intros w Hw Heq.
  rewrite forallb_forall in Hws. specialize (Hws w ltac:(by apply list_elem_of_In)).
  destruct w as [|c w]; [done|]. cbn in Heq. injection Heq as -> _. cbn in Hws.
  rewrite bool_decide_eq_true_2 in Hws by exact Hb. done.
Qed.
Lemma trim_visible l : Forall visible l -> trim l = l.
Proof.
  intros Hl. unfold trim, trim_end, trim_start.
  assert (strip_many (length l) whitespace l = l) as ->.
  { destruct Hl as [|b l Hb _]; [done|]. by apply strip_visible. }
  rewrite <- (length_reverse l). pose proof (reverse_involutive l) as Hr. apply Forall_reverse in Hl.
  destruct Hl as [|b r Hb _]; [by rewrite <- Hr|]. rewrite strip_visible by done. exact Hr.
Qed.

Definition mam_entry (e : Z * MamAttributeOverride) : list Z :=
  hex4 (e.1 / 65536) ++ hex4 (e.1 mod 65536) ++ [124] ++ hex2 (mam_format e.2) ++ [124] ++ encode_hex (mam_value e.2).
Definition wf_mam (key : Z) (o : MamAttributeOverride) : Prop :=
  u32_ok key /\ u8_ok (mam_format o) /\ bytes_ok (mam_value o).

Lemma hex_visible l : Forall is_hex l -> Forall visible l.
Proof. intros H. eapply Forall_impl; [exact H|]. unfold is_hex, visible. cbn. lia. Qed.
Lemma hex_no_bar l : Forall is_hex l -> 124 ∉ l.
Proof. intros H Hin. rewrite Forall_forall in H. apply H in Hin. unfold is_hex in Hin. lia. Qed.
Lemma mam_entry_visible e : Forall visible (mam_entry e).
Proof.
  assert (Forall visible [124]) by (apply Forall_singleton; unfold visible; lia).
  unfold mam_entry. repeat (apply Forall_app; split); try done; apply hex_visible;
    auto using hex4_hex, hex2_hex, encode_hex_hex.
Qed.
Lemma split_on_none sep l : sep ∉ l -> split_on sep l = [l].
Proof.
  induction l as [|b l IH]; intros Hn; [done|]. apply not_elem_of_cons in Hn as [Hb Hl]. cbn. rewrite IH by done.
  by rewrite decide_False.
Qed.

Lemma load_entry m key o : wf_mam key o -> load_mam_line m (mam_entry (key, o)) = Ok (<[key := o]> m).
Proof.
  intros (Hk & Hf & Hv). unfold load_mam_line. rewrite trim_visible by apply mam_entry_visible.
  assert (mam_entry (key, o) <> []) as Hne by done. rewrite decide_False by done. unfold mam_entry. cbn [fst snd].
  rewrite app_assoc. cbn [app]. rewrite split_on_app by (apply hex_no_bar, Forall_app; split; apply hex4_hex).
  rewrite split_on_app by apply hex_no_bar, hex2_hex. rewrite split_on_none by apply hex_no_bar, encode_hex_hex.
  rewrite key_parse, format_parse, decode_encode_hex by done. cbn. by destruct o.
Qed.

Lemma mam_text_lines m : lines (mam_text m) = map mam_entry (in_order m).
Proof.
  unfold mam_text. assert (map (fun e => mam_line e.1 e.2) (in_order m) =
    map (fun l => l ++ [10]) (map mam_entry (in_order m))) as ->.
  { rewrite map_map. apply map_ext. intros [k o]. unfold mam_line, mam_entry. cbn [fst snd]. rewrite <- !app_assoc. done. }
  apply lines_concat. apply Forall_map, Forall_true. intros e. pose proof (mam_entry_visible e) as Hv. split.
  - intros Hin. rewrite Forall_forall in Hv. apply Hv in Hin. unfold visible in Hin. lia.
  - intros Hl. apply last_Some_elem_of in Hl. rewrite Forall_forall in Hv. apply Hv in Hl. unfold visible in Hl. lia.
Qed.
Lemma mam_text_ascii m : utf8_valid (mam_text m) = true.
Proof.
  apply utf8_valid_ascii. unfold mam_text. induction (in_order m) as [|[k o] l IH]; [constructor|].
  cbn [map concat]. apply Forall_app. split; [|exact IH]. cbn [fst snd].
  assert (mam_line k o = mam_entry (k, o) ++ [10]) as -> by (unfold mam_line, mam_entry; cbn [fst snd]; rewrite <- !app_assoc; done).
  apply Forall_app. split; [|apply Forall_singleton; lia]. eapply Forall_impl; [apply mam_entry_visible|]. unfold visible. cbn. lia.
Qed.

(** What is read back from the lines, in whatever order, is the map. *)
Lemma in_order_perm {A} (m : gmap Z A) : in_order m ≡ₚ map_to_list m.
Proof. apply merge_sort_Permutation. Qed.
Lemma fold_insert_all {A} (l : list (Z * A)) : forall m : gmap Z A,
  NoDup l.*1 -> (forall k, k ∈ l.*1 -> m !! k = None) ->
  fold_left (fun m e => <[e.1 := e.2]> m) l m = list_to_map l ∪ m.
Proof.
  induction l as [|[k a] l IH]; intros m Hnd Hm.
  { change (m = ∅ ∪ m). by rewrite (left_id_L ∅ (∪)). }
  cbn [fmap list_fmap fst snd] in *. cbn [fold_left fst snd].
  apply NoDup_cons in Hnd as [Hk Hnd]. rewrite IH; [|done|].
  - change (list_to_map ((k, a) :: l)) with (<[k := a]> (list_to_map l : gmap Z A)).
    rewrite <- insert_union_l. symmetry. rewrite insert_union_r; [done|]. by apply not_elem_of_list_to_map_1.
  - intros j Hj. rewrite lookup_insert_ne by set_solver. apply Hm. set_solver.
Qed.
Lemma fold_in_order {A} (m : gmap Z A) : fold_left (fun (m : gmap Z A) e => <[e.1 := e.2]> m) (in_order m) ∅ = m.
Proof.
  rewrite fold_insert_all; [|rewrite in_order_perm; apply NoDup_fst_map_to_list|done].
  rewrite (right_id_L ∅ (∪)). transitivity (list_to_map (map_to_list m) : gmap Z A); [|apply list_to_map_to_list].
  apply list_to_map_proper; [|apply in_order_perm].
  rewrite in_order_perm. apply NoDup_fst_map_to_list.
Qed.

(** ** The files *)
Section Files.
Context `{HOST : Host} `{ENV : Environ}.

(** A whole-file write without syncs: a temporary file renamed over the target. *)
Definition replace_file (tmp path : string) (payload : list Z) : M Fs IoError unit :=
  fs_create_dir_all path ;;! let! i := fs_open_trunc tmp in fs_write_at i 0 payload ;;! fs_rename tmp path.

Lemma replace_file_spec fs tmp path payload :
  wf_fs fs -> tmp <> path ->
  let r := replace_file tmp path payload fs in
  wf_fs (snd r) /\
  (contents (snd r) path = contents fs path \/ contents (snd r) path = Some payload) /\
  (forall q, q <> tmp -> q <> path -> contents (snd r) q = contents fs q) /\
  (fst r = Ok tt -> contents (snd r) path = Some payload) /\
  (no_faults -> fst r = Ok tt).
Proof.
  intros Hwf Hne. unfold replace_file, fs_create_dir_all, bindM.
  destruct (fs_sync_spec fs Hwf) as (W0 & C0 & _ & K0). unfold fs_sync in W0, C0, K0.
  destruct (io_step fs) as [[[]|e] fs0]; cbn in W0, C0, K0 |- *; [|by split_and!; auto].
  destruct (fs_open_trunc_spec fs0 tmp W0) as (W1 & C1 & N1 & K1).
  destruct (fs_open_trunc tmp fs0) as [[i|e] fs1]; cbn in W1, C1, N1, K1 |- *; cycle 1.
  { split_and!; auto; [left; rewrite C1 by done; auto|intros; rewrite C1 by done; auto|done
      |intros Hn; destruct (K1 Hn); done]. }
  destruct (N1 i eq_refl) as [Ni Ci].
  destruct (fs_write_at_spec fs1 tmp i 0 payload W1 Ni) as (W2 & N2 & C2 & D2 & K2).
  destruct (fs_write_at i 0 payload fs1) as [[[]|e] fs2]; cbn in W2, N2, C2, D2, K2 |- *; cycle 1.
  { split_and!; auto; [left; by rewrite C2, C1, C0|intros; by rewrite C2, C1, C0|done]. }
  specialize (D2 _ Ci eq_refl). rewrite write_at_0 in D2.
  destruct (fs_rename_spec fs2 tmp path W2 Hne) as (W4 & C4 & D4 & E4 & K4).
  destruct (fs_rename tmp path fs2) as [[[]|e] fs4]; cbn in W4, C4, D4, E4, K4 |- *.
  - specialize (D4 eq_refl). rewrite D2 in D4. split_and!; auto. intros. by rewrite C4, C2, C1, C0.
  - split_and!; auto; [left; by rewrite E4, C2, C1, C0|intros; by rewrite C4, C2, C1, C0|done|].
    intros Hn. apply K4; [done|]. rewrite N2, Ni. eauto.
Qed.

Lemma read_text_ok fs path d :
  no_faults -> contents fs path = Some d -> utf8_valid d = true ->
  exists fs', read_text path fs = (Ok (Some d), fs') /\ same_files fs fs'.
Proof.
  intros Hn Hc Hu. pose proof (fs_read_ok fs path d Hn Hc) as Hr. pose proof (fs_read_same fs path) as Hs.
  unfold read_text, bindM, tryM. destruct (fs_read path fs) as [r fs'] eqn:E. cbn in Hr, Hs. subst r. cbn. rewrite Hu. eauto.
Qed.

Lemma files_run {E A} (m : M Fs IoError A) y :
  files (E := E) m y = (Ok (fst (m (w_fs (y_world y)))),
    y <| y_world := (y_world y) <| w_fs := snd (m (w_fs (y_world y))) |> |>).
Proof. unfold files, tryM, on_world, zoomM. by destruct (m (w_fs (y_world y))). Qed.

Lemma read_files_ok {E} y path d :
  no_faults -> contents (w_fs (y_world y)) path = Some d -> utf8_valid d = true ->
  exists y', files (E := E) (read_text path) y = (Ok (Ok (Some d)), y') /\ y_tape y' = y_tape y.
Proof.
  intros Hn Hc Hu. destruct (read_text_ok _ _ _ Hn Hc Hu) as (fs' & Er & _). rewrite files_run, Er. eauto.
Qed.

Lemma mam_tmp d : with_extension_tmp (path_join d "mam.overrides") <> path_join d "mam.overrides".
Proof.
  intros H. apply (f_equal (last ∘ bytes_of_string)) in H. cbn [compose] in H. rewrite tmp_last, path_join_bytes in H.
  change (bytes_of_string "mam.overrides") with (bytes_of_string "mam.override" ++ [115]) in H.
  rewrite app_assoc, last_snoc in H. done.
Qed.
End Files.

Section Roundtrip.
Context `{HOST : Host} `{ENV : Environ}.

Definition with_overrides (y : Sys) (m : gmap Z MamAttributeOverride) : Sys :=
  y <| y_tape := (y_tape y) <| mam_overrides := m |> |>.

(** Loading the lines one by one. *)
Lemma load_lines_spec (l : list (Z * MamAttributeOverride)) : forall y,
  Forall (fun e => wf_mam e.1 e.2) l ->
  forM (map mam_entry l) (fun line =>
    let! s := the_tape in
    let! m := liftM (load_mam_line (mam_overrides s) line) in
    set_tape (fun s => s <| mam_overrides := m |>)) y =
  (Ok tt, with_overrides y (fold_left (fun (m : gmap Z MamAttributeOverride) e => <[e.1 := e.2]> m) l
                              (mam_overrides (y_tape y)))).
Proof.
  induction l as [|[k o] l IH]; intros y Hl.
  { cbn. unfold with_overrides. by destruct y as [[] ? ? ? ? ? ?]. }
  apply Forall_cons in Hl as [Ho Hl]. cbn [map forM].
  erewrite bindM_run; cycle 1.
  { erewrite bindM_run by reflexivity. rewrite load_entry by done. erewrite bindM_run by reflexivity. reflexivity. }
  by rewrite IH.
Qed.

(** The attributes a drive wrote, and the file that holds them. *)
Lemma persist_mam_spec y l :
  wf_fs (w_fs (y_world y)) -> active_layout (y_tape y) = Some l ->
  let path := path_join (root l) "mam.overrides" in
  exists r y1, persist_mam_overrides y = (Ok r, y1) /\
    (r = Ok tt -> contents (w_fs (y_world y1)) path = Some (mam_text (mam_overrides (y_tape y)))) /\
    (no_faults -> r = Ok tt) /\ wf_fs (w_fs (y_world y1)) /\ y_tape y1 = y_tape y /\
    (contents (w_fs (y_world y1)) path = contents (w_fs (y_world y)) path \/
     contents (w_fs (y_world y1)) path = Some (mam_text (mam_overrides (y_tape y)))).
Proof.
  intros Hwf Hl path. unfold persist_mam_overrides. erewrite bindM_run by reflexivity.
  unfold mam_override_file_path. rewrite Hl. cbn [fmap option_fmap option_map]. fold path.
  change (files _) with (files (E := Panic) (replace_file (with_extension_tmp path) path (mam_text (mam_overrides (y_tape y))))).
  rewrite files_run. destruct (replace_file_spec (w_fs (y_world y)) (with_extension_tmp path) path
    (mam_text (mam_overrides (y_tape y))) Hwf (mam_tmp _)) as (W & Ho & _ & Hok & Hn).
  eexists _, _. split; [reflexivity|]. cbn [y_world w_fs y_tape]. split_and!; done.
Qed.

Lemma load_mam_spec y l id m :
  no_faults -> active_layout (y_tape y) = Some l -> cartridge_id (y_tape y) = Some id ->
  mam_loaded_for (y_tape y) <> Some id -> map_Forall wf_mam m ->
  contents (w_fs (y_world y)) (path_join (root l) "mam.overrides") = Some (mam_text m) ->
  exists y', ensure_mam_overrides_loaded y = (Ok (Ok tt), y') /\ mam_overrides (y_tape y') = m /\
    mam_loaded_for (y_tape y') = Some id.
Proof.
  intros Hn Hl Hid Hload Hm Hc. unfold ensure_mam_overrides_loaded. erewrite bindM_run by reflexivity.
  rewrite Hid, decide_False by done. erewrite bindM_run by reflexivity.
  unfold mam_override_file_path. rewrite Hl. cbn [fmap option_fmap option_map].
  destruct (read_files_ok (E := Panic) (with_overrides y ∅) _ _ Hn Hc (mam_text_ascii m)) as (y1 & Er & Et).
  erewrite bindM_run; cycle 1.
  { erewrite bindM_run by exact Er. reflexivity. }
  cbv beta iota. change (default [] (Some (mam_text m))) with (mam_text m). rewrite mam_text_lines.
  erewrite bindM_run; cycle 1.
  { apply load_lines_spec. apply Forall_forall. intros [k o] Hin. rewrite in_order_perm in Hin.
    apply elem_of_map_to_list in Hin. by apply Hm in Hin. }
  erewrite bindM_run by reflexivity. eexists. split; [reflexivity|]. split; [|done].
  transitivity (fold_left (fun (m : gmap Z MamAttributeOverride) e => <[e.1 := e.2]> m) (in_order m) (mam_overrides (y_tape y1)));
    [done|]. rewrite Et. apply fold_in_order.
Qed.

(** C20: the attributes a drive has accepted are stored, and any drive that
    later loads the cartridge from those files reads back exactly them,
    whatever it had in memory. *)
Theorem mam_roundtrip y l :
  no_faults -> wf_fs (w_fs (y_world y)) -> active_layout (y_tape y) = Some l ->
  map_Forall wf_mam (mam_overrides (y_tape y)) ->
  exists y1, persist_mam_overrides y = (Ok (Ok tt), y1) /\
    forall y2 l2 id, w_fs (y_world y2) = w_fs (y_world y1) -> active_layout (y_tape y2) = Some l2 -> root l2 = root l ->
      cartridge_id (y_tape y2) = Some id -> mam_loaded_for (y_tape y2) <> Some id ->
      exists y3, ensure_mam_overrides_loaded y2 = (Ok (Ok tt), y3) /\
        mam_overrides (y_tape y3) = mam_overrides (y_tape y).
Proof.
  intros Hn Hwf Hl Hm. destruct (persist_mam_spec y l Hwf Hl) as (r & y1 & E & Hc & Hr & _).
  specialize (Hr Hn). subst r. exists y1. split; [done|]. intros y2 l2 id Hf Hl2 Hroot Hid Hload.
  destruct (load_mam_spec y2 l2 id (mam_overrides (y_tape y)) Hn Hl2 Hid Hload Hm) as (y3 & E3 & Hm3 & _); [|eauto].
  rewrite Hf, Hroot. by apply Hc.
Qed.
End Roundtrip.

(** ** A cartridge with two attributes *)
Section Demo.
#[local] Existing Instances quiet_host no_env.

Definition demo_mam : gmap Z MamAttributeOverride :=
  {[0x0801 := mkMam 0x01 (bytes_of_string "backup"); 0x0806 := mkMam 0x01 []]}.
Definition demo_mam_drive (id : string) (fs : Fs) (m : gmap Z MamAttributeOverride) : Sys :=
  mkSys ((TapeState_new id) <| cartridge_id := Some "C1"%string |> <| active_layout := Some (paths_in "/pool/c1") |>
           <| mam_overrides := m |>)
    (fresh_process fs) no_reservations ∅ ∅ 0 ∅.
Lemma mam_roundtrip_witness :
  exists y1, persist_mam_overrides (demo_mam_drive "drive0" empty_fs demo_mam) = (Ok (Ok tt), y1) /\
    exists y3, ensure_mam_overrides_loaded (demo_mam_drive "drive1" (w_fs (y_world y1)) ∅) = (Ok (Ok tt), y3) /\
      mam_overrides (y_tape y3) = demo_mam.
Proof.
  destruct (mam_roundtrip (demo_mam_drive "drive0" empty_fs demo_mam) (paths_in "/pool/c1")) as (y1 & E & H).
  - exact quiet_no_faults.
  - exact wf_empty_fs.
  - reflexivity.
  - apply (bool_decide_unpack (map_Forall _ _)). by vm_compute.
  - exists y1. split; [exact E|]. apply (H _ (paths_in "/pool/c1") "C1"%string); try reflexivity. discriminate.
Defined.
End Demo.

(** A value in the attribute file that is not hexadecimal text of one byte per
    character ends the command in a panic: here, an euro sign and an e. *)
Theorem attribute_text_panics : exists p, decode_hex [0xE2; 0x82; 0xAC; 0x65] = Err p.
Proof. eexists. by vm_compute. Qed.
