(* ===== verification/ServerLaws.v ===== *)
(** * Every command is answered, and every answer is well formed

    A logic of the computations of the command server: what a computation gives
    when it returns and whether it can panic.  Walking the dispatch of the drive
    and of the changer with it shows the shape of every response. *)

From S2P Require Import Prelude Bytes Text Errors Sense Fs Layout TapeState Reservation SpaceGuard Identity Wire.
From S2P Require Import Compression Records World Crc Segment Logs BlkMap MapLookup Dedup DataBlobs DataPath.
From S2P Require Import System Bootstrap Prefetch MountBridge CommandChain CommandsCore CdbBase DriveProfile MediaState.
From S2P Require Import CdbCommon Changer CdbDrive CdbServer.

(** ** Well-formed responses *)
(** Fixed-format sense data: 18 bytes, current error, ten additional bytes. *)
Record wf_sense (sense : list Z) : Prop := {
  ws_len : length sense = 18%nat;
  ws_code : byte_at sense 0 = 0x70 \/ byte_at sense 0 = 0xF0;
  ws_additional : byte_at sense 7 = 10
}.
(** GOOD without sense data; or CHECK CONDITION with sense data, and then with
    data only where the sense reports a filemark. *)
Inductive wf_reply : CdbResponse -> Prop :=
| wf_good reply : wf_reply (mkResponse [] reply SCSI_STATUS_GOOD)
| wf_check sense : wf_sense sense -> wf_reply (mkResponse sense [] SCSI_STATUS_CHECK_CONDITION)
| wf_filemark sense partial :
    wf_sense sense -> byte_at sense 2 = 0x80 -> wf_reply (mkResponse sense partial SCSI_STATUS_CHECK_CONDITION).
Definition wf_opt (r : option CdbResponse) : Prop := match r with Some r => wf_reply r | None => True end.
Definition wf_failure {A} (r : Result CdbResponse A) : Prop := match r with Err r => wf_reply r | Ok _ => True end.

Lemma sense_fixed_wf key a q : wf_sense (build_sense_fixed key a q).
Proof. split; [done|by left|done]. Qed.
Lemma sense_frame_wf f : wf_sense (sense_frame_to_bytes f).
Proof.
  unfold sense_frame_to_bytes. split.
  - destruct (information_valid f); [|done]. by rewrite !length_app, length_to_be.
  - destruct (information_valid f); [by right|by left].
  - destruct (information_valid f); [|done].
    rewrite byte_at_skip by (cbn; lia). rewrite byte_at_skip by (rewrite length_to_be; cbn; lia).
    by rewrite length_to_be.
Qed.
Lemma good_wf reply : wf_reply (good reply).
Proof. constructor. Qed.
Lemma sense_wf key a q : wf_reply (sense_response key a q).
Proof. apply wf_check, sense_fixed_wf. Qed.
Lemma frame_wf f : wf_reply (frame_response f).
Proof. apply wf_check, sense_frame_wf. Qed.
Lemma overflow_wf : wf_reply volume_overflow_response.
Proof. apply wf_check. split; [done|by left|done]. Qed.

(** ** A logic of results *)
(** Whenever it returns, [m] returns what [P] says; and if [safe] it returns. *)
Definition gives {A} (safe : Prop) (P : A -> Prop) (m : M Sys Panic A) : Prop :=
  forall y, match fst (m y) with Ok a => P a | Err _ => ~ safe end.
Abbreviation runs safe m := (gives safe (fun _ => True) m).

Lemma gives_ret {A} safe (P : A -> Prop) a : P a -> gives safe P (retM a).
Proof. by intros H y. Qed.
Lemma gives_bind {A B} safe (Q : A -> Prop) (P : B -> Prop) m k :
  gives safe Q m -> (forall a, Q a -> gives safe P (k a)) -> gives safe P (bindM m k).
Proof.
  intros Hm Hk y. specialize (Hm y). unfold bindM. destruct (m y) as [[a|e] y']; [|done]. by apply Hk.
Qed.
Lemma gives_impl {A} safe (P Q : A -> Prop) m : gives safe P m -> (forall a, P a -> Q a) -> gives safe Q m.
Proof. intros Hm HP y. specialize (Hm y). destruct (fst (m y)); [by apply HP|done]. Qed.
Lemma gives_unsafe {A} (safe : Prop) (P : A -> Prop) m : gives False P m -> ~ safe -> gives safe P m.
Proof. intros Hm Hs y. specialize (Hm y). by destruct (fst (m y)). Qed.
Lemma gives_tape safe : runs safe (the_tape (E := Panic)).
Proof. by intros y. Qed.
Lemma gives_set safe f : runs safe (set_tape (E := Panic) f).
Proof. by intros y. Qed.
Lemma gives_modify safe f : runs safe (modifyM (E := Panic) f).
Proof. by intros y. Qed.
Lemma gives_gets {A} safe (f : Sys -> A) : runs safe (getsM (E := Panic) f).
Proof. by intros y. Qed.
Lemma gives_attempt {E A} safe (m : M Sys E A) : runs safe (attempt m).
Proof. intros y. unfold attempt, tryM. by destruct (m y). Qed.
Lemma gives_files `{Host} {A} safe (m : M Fs IoError A) : runs safe (files (E := Panic) m).
Proof. intros y. unfold files, tryM. by destruct (on_world _ y). Qed.
Lemma gives_files_or `{Host} {A} safe (d : A) (m : M Fs IoError A) : runs safe (files_or (E := Panic) d m).
Proof. eapply gives_bind; [apply gives_files|]. intros r _. by apply gives_ret. Qed.
Lemma gives_forM {A} safe (l : list A) (body : A -> M Sys Panic unit) :
  (forall a, runs safe (body a)) -> runs safe (forM l body).
Proof. intros Hb. induction l as [|a l IH]; [by apply gives_ret|]. eapply gives_bind; [apply Hb|]. intros _ _. apply IH. Qed.
Lemma gives_answer {A} safe (P : A -> Prop) (f : TapeState -> A * TapeState) :
  (forall s, P (fst (f s))) -> gives safe P (answer f).
Proof. intros Hf y. unfold answer, bindM. cbn. specialize (Hf (y_tape y)). by destruct (f (y_tape y)). Qed.
Lemma gives_answer_any {A} safe (f : TapeState -> A * TapeState) : runs safe (answer f).
Proof. by apply gives_answer. Qed.
Lemma gives_replying safe m : gives safe wf_reply m -> gives safe wf_opt (replying m).
Proof. intros Hm. eapply gives_bind; [exact Hm|]. intros r Hr. by apply gives_ret. Qed.

Create HintDb gives.
#[export] Hint Resolve gives_tape gives_set gives_modify gives_gets gives_attempt gives_files gives_files_or : gives.
Create HintDb reply.
#[export] Hint Resolve good_wf sense_wf frame_wf overflow_wf : reply.

(** Both databases; a response given by cases is taken apart. *)
Ltac reply_step :=
  first [ done | progress intros | solve [eauto 3 with reply] | apply good_wf | apply sense_wf | apply frame_wf
        | case_match; simplify_eq ].
Ltac reply := repeat (cbn beta iota in *; reply_step).
(** Walk a computation: a known part by its lemma, the rest by its structure. *)
Ltac gives_step :=
  first [ progress intros
        | solve [eauto 3 with gives]
        | apply gives_ret; solve [reply]
        | eapply gives_bind; [solve [eauto 3 with gives]|]
        | apply gives_replying
        | apply gives_forM
        | progress cbv zeta
        | case_match; subst ].
Ltac gives := repeat (cbv beta iota in *; gives_step).

Section Walk.
Context `{HOST : Host} `{ENV : Environ} `{C : Crc32c} `{HO : HashOrder} `{BC : BlockCodecs} `{B3 : Blake3}.
Context `{SH : SpaceHost} `{SHA : Sha256} `{TH : Threads}.
Implicit Types (safe : Prop).

(** ** The media state *)
Lemma bindings_runs safe : runs safe (bindings (E := Panic)).
Proof. unfold bindings. gives. Qed.
Hint Resolve bindings_runs : gives.
Lemma topology_runs safe : runs safe (ensure_changer_drive_topology (E := Panic)).
Proof. unfold ensure_changer_drive_topology. gives. Qed.
Lemma write_usage_runs safe c k : runs safe (write_usage (E := Panic) c k).
Proof. unfold write_usage. gives. Qed.
Hint Resolve topology_runs write_usage_runs : gives.
Lemma usage_throttled_runs safe f : runs safe (sync_loaded_cartridge_usage_to_shared_throttled (E := Panic) f).
Proof. unfold sync_loaded_cartridge_usage_to_shared_throttled. gives. Qed.
Hint Resolve usage_throttled_runs : gives.
Lemma usage_runs safe : runs safe (sync_loaded_cartridge_usage_to_shared (E := Panic)).
Proof. apply usage_throttled_runs. Qed.
Lemma usage_after_runs safe o r : runs safe (sync_loaded_cartridge_usage_after_mutation (E := Panic) o r).
Proof. unfold sync_loaded_cartridge_usage_after_mutation. gives. Qed.
Lemma metadata_runs safe : runs safe (apply_shared_cartridge_metadata (E := Panic)).
Proof. unfold apply_shared_cartridge_metadata. gives. Qed.
Lemma slots_from_runs safe : runs safe (sync_changer_slots_from_shared (E := Panic)).
Proof. unfold sync_changer_slots_from_shared. gives. Qed.
Lemma ie_from_runs safe : runs safe (sync_changer_ie_from_shared (E := Panic)).
Proof. unfold sync_changer_ie_from_shared. gives. Qed.
Hint Resolve usage_runs usage_after_runs metadata_runs slots_from_runs ie_from_runs : gives.
Lemma inventory_from_runs safe : runs safe (sync_changer_inventory_from_shared (E := Panic)).
Proof. unfold sync_changer_inventory_from_shared. gives. Qed.
Lemma exists_runs safe path : runs safe (file_exists (E := Panic) path).
Proof. unfold file_exists. gives. Qed.
Hint Resolve inventory_from_runs exists_runs : gives.
Lemma inventory_to_runs safe : runs safe (sync_changer_inventory_to_shared (E := Panic)).
Proof. unfold sync_changer_inventory_to_shared. gives. Qed.
Lemma slot_bootstrap_runs safe : runs safe (bootstrap_changer_slots_from_shared_once (E := Panic)).
Proof. unfold bootstrap_changer_slots_from_shared_once. gives. Qed.
Lemma sync_mounts_runs safe bs : forall changed, runs safe (sync_mounts (E := Panic) bs changed).
Proof. induction bs as [|[[addr ?] key] bs IH]; intros changed; cbn [sync_mounts]; gives; apply IH. Qed.
Hint Resolve inventory_to_runs slot_bootstrap_runs sync_mounts_runs : gives.
Lemma mount_from_runs safe : runs safe (sync_changer_mount_from_shared (E := Panic)).
Proof. unfold sync_changer_mount_from_shared. gives. Qed.
Lemma mount_to_runs safe : runs safe (sync_changer_mount_to_shared (E := Panic)).
Proof. unfold sync_changer_mount_to_shared. gives. Qed.
Hint Resolve mount_from_runs mount_to_runs : gives.

(** ** Shared commands *)
Lemma pr_in_wf s cdb : wf_reply (persistent_reserve_in_drive s cdb).
Proof. unfold persistent_reserve_in_drive. reply. Qed.
Lemma luns_wf cdb : wf_reply (report_luns_single_lun cdb).
Proof. unfold report_luns_single_lun. reply. Qed.
Lemma compat_wf : wf_reply reserve_release_compat_response.
Proof. unfold reserve_release_compat_response. reply. Qed.
Hint Resolve pr_in_wf luns_wf compat_wf : reply.
Lemma run_core_gives safe cmd : gives safe wf_reply (run_core cmd).
Proof. unfold run_core. gives. Qed.
Lemma run_core_reply_gives safe cmd cdb alloc : gives safe wf_reply (run_core_reply cmd cdb alloc).
Proof. unfold run_core_reply. gives. Qed.
Hint Resolve run_core_gives run_core_reply_gives : gives.
Lemma reservation_command_wf action who params : wf_failure (reservation_command action who params).
Proof. unfold reservation_command. reply. Qed.
Lemma pr_out_gives safe cdb data context :
  gives safe wf_reply (persistent_reserve_out_drive_with_context cdb data context).
Proof.
  unfold persistent_reserve_out_drive_with_context. destruct (try_read_be16 cdb 7) as [len|]; [|gives].
  case_decide; [gives|]. cbv zeta.
  pose proof (reservation_command_wf (Z.land (cdb_byte cdb 1) 31) (context_initiator_or_default context) (take (Z.to_nat len) data)) as HW.
  destruct (reservation_command _ _ _); [gives|by apply gives_ret].
Qed.
Lemma millis_runs safe : runs safe now_millis.
Proof. unfold now_millis. gives. Qed.
Hint Resolve millis_runs : gives.
Lemma timestamp_gives safe cdb : gives safe wf_reply (report_timestamp cdb).
Proof. unfold report_timestamp. gives. Qed.
Hint Resolve pr_out_gives timestamp_gives : gives.

(** ** The changer *)
Lemma no_source_wf s a : wf_reply (no_source_response s a).
Proof. unfold no_source_response. reply. Qed.
Lemma no_destination_wf s a : wf_reply (no_destination_response s a).
Proof. unfold no_destination_response. reply. Qed.
Hint Resolve no_source_wf no_destination_wf : reply.
Lemma move_elements_wf a b s : wf_failure (fst (move_elements a b s)).
Proof. unfold move_elements. reply; cbn; auto with reply. Qed.
Lemma exchange_elements_wf a b c s : wf_failure (fst (exchange_elements a b c s)).
Proof. unfold exchange_elements. reply; cbn; reply. Qed.
Lemma inventory_enabled_runs safe : runs safe shared_changer_inventory_enabled.
Proof. unfold shared_changer_inventory_enabled. gives. Qed.
Hint Resolve inventory_enabled_runs : gives.
Lemma archive_gives safe : gives safe wf_failure auto_archive_ie_media_to_vault.
Proof. unfold auto_archive_ie_media_to_vault. gives. Qed.
Lemma finish_move_gives safe f : gives safe wf_reply (finish_move f).
Proof. unfold finish_move. eapply gives_bind; [apply archive_gives|]. intros [[]|r] Hr; gives. Qed.
Hint Resolve finish_move_gives : gives.
Lemma move_gives safe cdb : gives safe wf_reply (move_medium_changer cdb).
Proof.
  unfold move_medium_changer. case_decide; [gives|]. cbv zeta. case_decide; [gives|].
  eapply gives_bind; [apply gives_answer, move_elements_wf|]. intros [[]|r] Hr; gives.
Qed.
Lemma exchange_gives safe cdb : gives safe wf_reply (exchange_medium_changer cdb).
Proof.
  unfold exchange_medium_changer. case_decide; [gives|]. cbv zeta. case_decide; [gives|].
  eapply gives_bind; [apply gives_answer, exchange_elements_wf|]. intros [[]|r] Hr; gives.
Qed.
Lemma element_status_gives safe cdb p : gives safe wf_reply (read_element_status_changer cdb p).
Proof.
  unfold read_element_status_changer. destruct (try_read_be24 cdb 7) as [alloc|]; [|gives].
  case_decide; [gives|]. case_decide; [gives|]. eapply gives_bind; [apply gives_tape|]. intros s _. cbv zeta.
  destruct (if decide (Z.land (cdb_byte cdb 1) 15 = 0) then _ else _) as [types|]; [|gives].
  eapply gives_bind; [apply bindings_runs|]. intros bs _.
  eapply (gives_bind _ (fun _ => True)); [case_decide; gives|]. gives.
Qed.
Lemma initialize_gives safe : gives safe wf_reply initialize_element_status.
Proof. unfold initialize_element_status. gives. Qed.
Lemma rezero_gives safe : gives safe wf_reply rezero_unit_changer.
Proof. unfold rezero_unit_changer. gives. Qed.
Lemma open_close_wf cdb s : wf_reply (fst (open_close_import_export_changer cdb s)).
Proof. unfold open_close_import_export_changer. reply. Qed.
Lemma mode6_changer_wf s cdb : wf_reply (mode_sense_6_changer s cdb).
Proof. unfold mode_sense_6_changer. reply. Qed.
Lemma mode10_changer_wf s cdb : wf_reply (mode_sense_10_changer s cdb).
Proof. unfold mode_sense_10_changer. reply. Qed.
Lemma log_changer_wf cdb : wf_reply (log_sense_changer cdb).
Proof. unfold log_sense_changer. reply. Qed.
Hint Resolve move_gives exchange_gives element_status_gives initialize_gives rezero_gives : gives.
Hint Resolve mode6_changer_wf mode10_changer_wf log_changer_wf : reply.
Lemma request_sense_gives safe : gives safe wf_reply (let! sense := answer request_sense_response in retM (good sense)).
Proof. eapply gives_bind; [apply gives_answer_any|]. gives. Qed.
Lemma open_close_gives safe cdb : gives safe wf_reply (answer (open_close_import_export_changer cdb)).
Proof. apply gives_answer, open_close_wf. Qed.
Hint Resolve request_sense_gives open_close_gives : gives.

Lemma changer_command_gives safe cdb data p context : gives safe wf_reply (changer_command cdb data p context).
Proof.
  unfold changer_command. eapply gives_bind; [apply gives_tape|]. intros s _. gives.
Qed.
Hint Resolve changer_command_gives : gives.
Lemma changer_gives safe cdb data p context : gives safe wf_reply (dispatch_changer_cdb_with_context cdb data p context).
Proof.
  unfold dispatch_changer_cdb_with_context. eapply gives_bind; [apply topology_runs|]. intros _ _.
  eapply (gives_bind _ (fun _ => True)); [case_match; gives|]. gives.
Qed.

(** ** The drive *)
Lemma log_select_wf cdb : wf_reply (log_select_drive cdb).
Proof. unfold log_select_drive. reply. Qed.
Lemma block_limits_wf cdb : wf_reply (read_block_limits_drive cdb).
Proof. unfold read_block_limits_drive. reply. Qed.
Lemma diagnostic_wf cdb : wf_reply (receive_diagnostic_results_drive cdb).
Proof. unfold receive_diagnostic_results_drive. reply. Qed.
Lemma media_serial_wf s cdb : wf_reply (read_media_serial_number_drive s cdb).
Proof. unfold read_media_serial_number_drive. reply. Qed.
Lemma read_buffer_wf cdb p : wf_reply (read_buffer_drive cdb p).
Proof. unfold read_buffer_drive. reply. Qed.
Lemma density_wf s cdb p : wf_reply (report_density_support_drive s cdb p).
Proof. unfold report_density_support_drive. reply. Qed.
Lemma mode6_wf s cdb p : wf_reply (mode_sense_6_drive s cdb p).
Proof. unfold mode_sense_6_drive. reply. Qed.
Lemma mode10_wf s cdb p : wf_reply (mode_sense_10_drive s cdb p).
Proof. unfold mode_sense_10_drive. reply. Qed.
Lemma read_attribute_wf attrs action first alloc : wf_reply (read_attribute_reply attrs action first alloc).
Proof. unfold read_attribute_reply. reply. Qed.
Hint Resolve log_select_wf block_limits_wf diagnostic_wf media_serial_wf read_buffer_wf density_wf mode6_wf mode10_wf
  read_attribute_wf : reply.

Lemma overwrite_wf cdb s : wf_reply (fst (allow_overwrite_drive cdb s)).
Proof. unfold allow_overwrite_drive. reply. Qed.
Lemma mode_select_wf len data kind p s : wf_reply (fst (mode_select_drive len data kind p s)).
Proof. unfold mode_select_drive. reply. Qed.
Lemma mode_select_10_wf cdb data p s : wf_reply (fst (mode_select_10_drive cdb data p s)).
Proof. unfold mode_select_10_drive. destruct (try_read_be16 cdb 7); [apply mode_select_wf|reply]. Qed.
Lemma format_wf cdb p s : wf_reply (fst (format_medium_drive cdb p s)).
Proof. unfold format_medium_drive. reply. Qed.
Lemma log_sense_wf cdb p s : wf_reply (fst (log_sense_drive cdb p s)).
Proof. unfold log_sense_drive. cbv zeta. reply. Qed.
Lemma ready_wf s : wf_reply (fst (test_unit_ready s)).
Proof. unfold test_unit_ready. reply. Qed.

(** Loading the attribute file may panic; nothing else does. *)
Lemma mam_loaded_runs : runs False ensure_mam_overrides_loaded.
Proof. intros y. destruct (fst (ensure_mam_overrides_loaded y)); [exact I|intros []]. Qed.
Lemma mam_persist_runs safe : runs safe persist_mam_overrides.
Proof. unfold persist_mam_overrides. gives. Qed.
Hint Resolve mam_loaded_runs mam_persist_runs : gives.
Lemma read_attribute_gives cdb p : gives False wf_reply (read_attribute_drive cdb p).
Proof. unfold read_attribute_drive. gives. Qed.
Lemma write_attribute_gives cdb data p : gives False wf_reply (write_attribute_drive cdb data p).
Proof. unfold write_attribute_drive. gives. Qed.

Lemma load_unload_gives safe cdb : gives safe wf_reply (load_unload_drive cdb).
Proof. unfold load_unload_drive. gives. Qed.
Lemma inquiry_gives safe cdb p : gives safe wf_reply (inquiry_drive cdb p).
Proof. unfold inquiry_drive. gives. Qed.
Lemma block_under_head_gives safe position : gives safe wf_failure (block_under_head position).
Proof. unfold block_under_head. gives. Qed.
Lemma compare_block_wf read data b : wf_failure (compare_block read data b).
Proof. unfold compare_block. reply. Qed.
Lemma verify_blocks_gives safe n : forall data b, gives safe wf_failure (verify_blocks_at_position n data b).
Proof.
  induction n as [|n IH]; intros data b; cbn [verify_blocks_at_position]; [gives|].
  eapply gives_bind; [apply gives_tape|]. intros s _. cbv zeta.
  eapply gives_bind; [apply block_under_head_gives|]. intros [read|r] Hr; [|by apply gives_ret].
  case_decide; [gives|]. pose proof (compare_block_wf read data b) as Hc.
  destruct (compare_block read data b) as [rest|r]; [|by apply gives_ret].
  eapply gives_bind; [apply gives_set|]. intros _ _. eapply gives_bind; [apply gives_attempt|].
  intros [?|?] _; [apply IH|gives].
Qed.
Lemma verified_gives safe n data b : gives safe wf_reply
  (let! r := verify_blocks_at_position n data b in retM (match r with Ok _ => good [] | Err response => response end)).
Proof. eapply gives_bind; [apply verify_blocks_gives|]. intros [?|r] Hr; gives. Qed.
Hint Resolve verified_gives : gives.
Lemma verify_gives safe cdb data : gives safe wf_reply (verify_6_drive cdb data).
Proof. unfold verify_6_drive. gives. Qed.
Lemma space_16_gives safe cdb : gives safe wf_reply (space_16_drive cdb).
Proof. unfold space_16_drive. gives. Qed.
Lemma locate_16_gives safe cdb : gives safe wf_reply (locate_16_drive cdb).
Proof. unfold locate_16_drive. gives. Qed.
Lemma read_position_gives safe cdb : gives safe wf_reply (read_position_drive cdb).
Proof. unfold read_position_drive. gives. Qed.
Hint Resolve load_unload_gives inquiry_gives verify_gives space_16_gives locate_16_gives read_position_gives : gives.

Lemma answered_gives {safe} {f : TapeState -> CdbResponse * TapeState} :
  (forall s, wf_reply (fst (f s))) -> gives safe wf_opt (replying (answer f)).
Proof. intros Hf. apply gives_replying, gives_answer, Hf. Qed.
Lemma reply_gives safe r : wf_reply r -> gives safe wf_opt (reply r).
Proof. intros Hr. by apply gives_ret. Qed.

(** The commands that read the attribute file. *)
Definition reads_attributes (opcode : Z) : Prop := opcode = 0x8C \/ opcode = 0x8D.

Lemma discovery_gives cdb data p context :
  gives (~ reads_attributes (cdb_byte cdb 0)) wf_opt (dispatch_drive_discovery_cdb_with_context cdb data p context).
Proof.
  unfold dispatch_drive_discovery_cdb_with_context. eapply gives_bind; [apply gives_tape|]. intros s _.
  repeat (case_match; subst); try (by apply gives_ret);
    try (apply reply_gives; solve [reply]);
    try (apply gives_replying; solve [gives]);
    try (apply answered_gives; intros; (apply overwrite_wf || apply mode_select_wf || apply mode_select_10_wf || apply format_wf || apply log_sense_wf));
    apply gives_replying, gives_unsafe; try apply read_attribute_gives; try apply write_attribute_gives;
    unfold reads_attributes; tauto.
Qed.

(** ** The server *)
Lemma fixed_write_gives safe opcode size cdb data context :
  gives safe wf_reply (fixed_write opcode size cdb data context).
Proof. unfold fixed_write. gives. Qed.
Lemma filemark_wf residue partial : wf_reply ((frame_response (tape_error_to_sense (FilemarkDetected residue partial)))
  <| rs_reply := partial |>).
Proof. apply wf_filemark; [apply sense_frame_wf|done]. Qed.
Lemma fixed_read_gives safe opcode size cdb : gives safe wf_reply (fixed_read opcode size cdb).
Proof.
  unfold fixed_read. cbv zeta. case_decide; [gives|]. eapply gives_bind; [apply gives_attempt|]. intros [out|e] _.
  - gives.
  - apply gives_ret. destruct e; try apply frame_wf. apply filemark_wf.
Qed.
Hint Resolve fixed_write_gives fixed_read_gives : gives.
Lemma fixed_block_gives safe cdb data context :
  gives safe wf_opt (dispatch_fixed_block_io_with_context cdb data context).
Proof. unfold dispatch_fixed_block_io_with_context. gives. Qed.
Lemma core_gives safe cdb data : gives safe wf_reply (core_cdb cdb data).
Proof. unfold core_cdb. gives. Qed.
Lemma answered_wf safe opcode r : wf_reply r -> gives safe wf_reply (answered opcode r).
Proof. intros Hr. eapply gives_bind; [apply usage_after_runs|]. intros _ _. by apply gives_ret. Qed.

Lemma media_gives cdb data context :
  gives (~ reads_attributes (cdb_byte cdb 0)) wf_reply (drive_media_cdb cdb data context).
Proof.
  unfold drive_media_cdb. cbv zeta. eapply gives_bind; [apply gives_set|]. intros _ _.
  eapply gives_bind; [apply discovery_gives|]. intros [r|] Hr; [by apply answered_wf|].
  eapply gives_bind; [apply gives_tape|]. intros s _. case_match; [gives|]. case_match; [gives|].
  eapply gives_bind; [apply fixed_block_gives|]. intros [r|] Hr'; [by apply answered_wf|].
  eapply gives_bind; [apply core_gives|]. intros r Hr2. by apply answered_wf.
Qed.
Lemma drive_gives cdb data context : gives (~ reads_attributes (cdb_byte cdb 0)) wf_reply (drive_cdb cdb data context).
Proof.
  unfold drive_cdb. cbv zeta. eapply gives_bind; [apply gives_tape|]. intros s _.
  eapply (gives_bind _ (fun _ => True)); [case_match; gives|]. intros [[]|e] _; [|gives].
  case_decide; [apply gives_answer, ready_wf|]. case_decide; [apply request_sense_gives|].
  eapply gives_bind; [apply gives_answer_any|]. intros [[a q]|] _; [gives|apply media_gives].
Qed.
Lemma inner_gives cdb data context :
  gives (~ reads_attributes (cdb_byte cdb 0)) wf_reply (dispatch_raw_cdb_with_context_inner cdb data context).
Proof.
  unfold dispatch_raw_cdb_with_context_inner. case_decide; [gives|]. case_match; [gives|]. cbv zeta.
  case_decide; [apply changer_gives|apply drive_gives].
Qed.
Lemma dispatch_gives cdb data context :
  gives (~ reads_attributes (cdb_byte cdb 0)) wf_reply (dispatch_raw_cdb_with_context cdb data context).
Proof.
  unfold dispatch_raw_cdb_with_context. destruct (initiator context) as [raw|]; [|apply inner_gives].
  cbv zeta. case_decide; [apply inner_gives|]. eapply gives_bind; [apply gives_answer_any|]. intros queue _.
  eapply gives_bind; [apply inner_gives|]. intros r Hr. eapply gives_bind; [apply gives_set|]. intros _ _. by apply gives_ret.
Qed.

End Walk.
