(* ===== verification/HandlerLaws.v ===== *)
(** * A connection is a sequence of commands

    What the peer reads from a connection are the responses to its requests, in
    order, and the process is where the commands, run one after the other,
    leave it. *)

From S2P Require Import Prelude Bytes Text Errors Sense Fs Layout TapeState Reservation SpaceGuard Identity Wire.
From S2P Require Import Compression Records World Crc Segment Logs BlkMap MapLookup Dedup DataBlobs DataPath.
From S2P Require Import System Bootstrap Prefetch MountBridge CommandChain CommandsCore CdbBase DriveProfile MediaState.
From S2P Require Import CdbCommon Changer CdbDrive CdbServer ServerLaws Handler BlockStore Machine.

Section Connection.
Context `{HOST : Host} `{ENV : Environ} `{C : Crc32c} `{HO : HashOrder} `{BC : BlockCodecs} `{B3 : Blake3}.
Context `{SH : SpaceHost} `{SHA : Sha256} `{TH : Threads} `{IN : Instants}.

(** ** The specification: commands one after the other *)
Definition run_packet (p : CdbPacket) : M Sys Panic CdbResponse :=
  dispatch_raw_cdb_with_context (pk_cdb p) (pk_data p) (mkContext (pk_initiator p)).
Fixpoint session (ps : list CdbPacket) : M Sys Panic (list CdbResponse) :=
  match ps with
  | [] => retM []
  | p :: ps' => let! r := run_packet p in let! rs := session ps' in retM (r :: rs)
  end.

(** ** One frame *)
Lemma on_input_run {E A} (m : M (list Z) IoError A) i o y pr n x i' :
  m i = (x, i') -> on_input (E := E) m (mkConn i o y pr n) = (Ok x, mkConn i' o y pr n).
Proof. intros H. unfold on_input, tryM, zoomM. cbn [k_in]. by rewrite H. Qed.
Lemma on_sys_run {E A} (m : M Sys E A) i o y pr n x y' :
  m y = (x, y') -> on_sys m (mkConn i o y pr n) = (x, mkConn i o y' pr n).
Proof. intros H. unfold on_sys, zoomM. cbn [k_sys]. by rewrite H. Qed.
Lemma probe_mark_run i o y pr n : exists x n', probe_mark (mkConn i o y pr n) = (Ok x, mkConn i o y pr n').
Proof. unfold probe_mark, bindM, getM. cbn [k_probe]. case_decide; eexists _, _; reflexivity. Qed.
Lemma probe_record_run opcode a b d m0 m1 m2 m3 i o y pr n :
  pb_every pr = 0 -> probe_record opcode a b d m0 m1 m2 m3 (mkConn i o y pr n) = (Ok tt, mkConn i o y pr n).
Proof.
  intros He. unfold probe_record. destruct m0, m1, m2, m3; try done.
  erewrite bindM_run by reflexivity. by rewrite decide_True.
Qed.
Lemma reply_encodes r : wf_reply r -> Zlen (rs_reply r) <= MAX_DATA_LEN -> exists f, response_encode r = Ok f.
Proof.
  intros Hr Hl. assert (Zlen (rs_sense r) <= MAX_SENSE_LEN) as Hs.
  { unfold MAX_SENSE_LEN, Zlen. destruct Hr as [|? [H _ _]|? ? [H _ _]]; cbn [rs_sense]; [cbn; lia|lia|lia]. }
  destruct (response_decode_encode r []) as (f & E & _); [done|eauto].
Qed.

(** A request is answered, or the connection ends because the answer does not
    fit a frame; the command has run in both cases. *)
Lemma serve_frame_spec p frame rest o y pr n r y' :
  packet_encode p = Ok frame -> wf_packet p -> Zlen (pk_data p) <= tcmu_max_frame_bytes ->
  pb_every pr = 0 -> run_packet p y = (Ok r, y') ->
  exists n', serve_frame (mkConn (frame ++ rest) o y pr n) =
    match response_encode r with
    | Ok out => (Ok true, mkConn rest (o ++ out) y' pr n')
    | Err _ => (Ok false, mkConn rest o y' pr n')
    end.
Proof.
  intros Ep Hp Hl He Er. destruct (decode_header_encode p rest Hp) as (frame' & Ep' & Dh).
  rewrite Ep in Ep'. injection Ep' as <-. unfold serve_frame.
  rewrite (bindM_run _ _ _ _ _ (on_input_run _ _ _ _ _ _ _ _ Dh)). cbn [ph_data_len ph_cdb ph_initiator].
  rewrite decide_False by lia.
  destruct (probe_mark_run (pk_data p ++ rest) o y pr n) as (m0 & n0 & E0). rewrite (bindM_run _ _ _ _ _ E0).
  assert (read_exact (Z.to_nat (Zlen (pk_data p))) (pk_data p ++ rest) = (Ok (pk_data p), rest)) as Ed
    by (apply read_exact_eq; unfold Zlen; lia).
  rewrite (bindM_run _ _ _ _ _ (on_input_run _ _ _ _ _ _ _ _ Ed)).
  destruct (probe_mark_run rest o y pr n0) as (m1 & n1 & E1). rewrite (bindM_run _ _ _ _ _ E1).
  rewrite (bindM_run _ _ _ _ _ (on_sys_run _ _ _ _ _ _ _ _ Er)).
  destruct (probe_mark_run rest o y' pr n1) as (m2 & n2 & E2). rewrite (bindM_run _ _ _ _ _ E2).
  unfold send_response. destruct (response_encode r) as [out|e].
  - rewrite (bindM_run _ _ _ true (mkConn rest (o ++ out) y' pr n2)) by reflexivity. cbn [negb].
    destruct (probe_mark_run rest (o ++ out) y' pr n2) as (m3 & n3 & E3). exists n3.
    rewrite (bindM_run _ _ _ _ _ E3). by rewrite (bindM_run _ _ _ _ _ (probe_record_run _ _ _ _ _ _ _ _ _ _ _ _ _ He)).
  - exists n2. erewrite bindM_run by reflexivity. done.
Qed.
(** The peer closed the connection. *)
Lemma serve_frame_end o y pr n : serve_frame (mkConn [] o y pr n) = (Ok false, mkConn [] o y pr n).
Proof. reflexivity. Qed.

(** ** The connection *)
Lemma frame_nonempty p f : packet_encode p = Ok f -> (0 < length f)%nat.
Proof. unfold packet_encode, packet_body. repeat case_match; intros [= <-]; cbn; lia. Qed.

Lemma serve_loop_spec : forall ps frames o y pr n rs y' fuel,
  Forall2 (fun p f => packet_encode p = Ok f) ps frames -> Forall wf_packet ps ->
  Forall (fun p => Zlen (pk_data p) <= tcmu_max_frame_bytes) ps -> pb_every pr = 0 ->
  session ps y = (Ok rs, y') -> Forall (fun r => Zlen (rs_reply r) <= MAX_DATA_LEN) rs -> (length ps < fuel)%nat ->
  exists outs n', Forall2 (fun r f => response_encode r = Ok f) rs outs /\
    serve_loop fuel (mkConn (concat frames) o y pr n) = (Ok tt, mkConn [] (o ++ concat outs) y' pr n').
Proof.
  induction ps as [|p ps IH]; intros frames o y pr n rs y' fuel HF Hp Hl He Hs Hr Hfuel.
  - apply Forall2_nil_inv_l in HF as ->. cbn in Hs. injection Hs as <- <-. exists [], n. split; [constructor|].
    destruct fuel as [|fuel]; [cbn in Hfuel; lia|]. cbn [serve_loop concat].
    rewrite (bindM_run _ _ _ _ _ (serve_frame_end _ _ _ _)), app_nil_r. done.
  - apply Forall2_cons_inv_l in HF as (f & fs & Ep & HF & ->). apply Forall_cons in Hp as [Hp Hps].
    apply Forall_cons in Hl as [Hl Hls]. cbn [session] in Hs.
    apply bindM_Ok in Hs as (r & y1 & Er & Hs). apply bindM_Ok in Hs as (rs' & y2 & Ers & Hs).
    injection Hs as <- <-. apply Forall_cons in Hr as [Hr Hrs].
    assert (wf_reply r) as Hw.
    { pose proof (dispatch_gives (pk_cdb p) (pk_data p) (mkContext (pk_initiator p)) y) as H.
      unfold run_packet in Er. by rewrite Er in H. }
    destruct (reply_encodes r Hw Hr) as (out & Eo). destruct fuel as [|fuel]; [cbn in Hfuel; lia|]. cbn in Hfuel.
    destruct (serve_frame_spec p f (concat fs) o y pr n r y1 Ep Hp Hl He Er) as (n1 & E1). rewrite Eo in E1.
    destruct (IH fs (o ++ out) y1 pr n1 rs' y2 fuel HF Hps Hls He Ers Hrs ltac:(lia)) as (outs & n2 & Ho & E2).
    exists (out :: outs), n2. split; [by constructor|]. cbn [serve_loop concat].
    rewrite (bindM_run _ _ _ _ _ E1), E2, <- app_assoc. done.
Qed.

Lemma frames_length ps frames :
  Forall2 (fun p f => packet_encode p = Ok f) ps frames -> (length ps <= length (concat frames))%nat.
Proof.
  induction 1 as [|p f ps fs Hf _ IH]; [cbn; lia|]. cbn [concat length]. rewrite length_app.
  apply frame_nonempty in Hf. lia.
Qed.

(** C5: a connection refines a session: the peer that sends the frames of its
    requests and closes reads the frames of exactly the responses the commands
    give when they run one after the other, in that order, and the process is
    left in the state those commands leave it in. *)
Theorem connection_refines ps frames y pr n rs y' :
  Forall2 (fun p f => packet_encode p = Ok f) ps frames -> Forall wf_packet ps ->
  Forall (fun p => Zlen (pk_data p) <= tcmu_max_frame_bytes) ps -> pb_every pr = 0 ->
  session ps y = (Ok rs, y') -> Forall (fun r => Zlen (rs_reply r) <= MAX_DATA_LEN) rs ->
  exists outs n', Forall2 (fun r f => response_encode r = Ok f) rs outs /\
    serve_connection (mkConn (concat frames) [] y pr n) = (Ok tt, mkConn [] (concat outs) y' pr n').
Proof.
  intros HF Hp Hl He Hs Hr. unfold serve_connection. erewrite bindM_run by reflexivity. cbn [k_in].
  apply (serve_loop_spec ps frames [] y pr n rs y'); try done. pose proof (frames_length _ _ HF). lia.
Qed.

(** An answer too large for a frame is never sent, although its command has run:
    the connection ends. *)
Theorem oversized_reply_dropped p frame y pr n r y' :
  packet_encode p = Ok frame -> wf_packet p -> Zlen (pk_data p) <= tcmu_max_frame_bytes -> pb_every pr = 0 ->
  run_packet p y = (Ok r, y') -> MAX_DATA_LEN < Zlen (rs_reply r) ->
  exists n', serve_connection (mkConn frame [] y pr n) = (Ok tt, mkConn [] [] y' pr n').
Proof.
  intros Ep Hp Hl He Er Hbig. destruct (serve_frame_spec p frame [] [] y pr n r y' Ep Hp Hl He Er) as (n1 & E1).
  exists n1. rewrite app_nil_r in E1. unfold serve_connection. erewrite bindM_run by reflexivity. cbn [serve_loop k_in].
  assert (exists e, response_encode r = Err e) as [e Ee].
  { unfold response_encode. case_decide; [eauto|]. rewrite decide_True by done. eauto. }
  rewrite Ee in E1. by rewrite (bindM_run _ _ _ _ _ E1).
Qed.
End Connection.

(** ** A connection with two requests *)
Section Demo.
#[local] Existing Instances quiet_host no_env bitwise_crc32c tree_order identity_codecs demo_blake roomy_host zero_sha
  inline_threads ticks.

(** TEST UNIT READY, then INQUIRY from a named initiator. *)
Definition demo_requests : list CdbPacket :=
  [packet_new [0; 0; 0; 0; 0; 0] []; packet_with_initiator [0x12; 0; 0; 0; 36; 0] [] "iqn.host"].
Definition demo_frames : list (list Z) :=
  map (fun p => match packet_encode p with Ok f => f | Err _ => [] end) demo_requests.

Lemma connection_refines_witness :
  exists rs y' outs n', session demo_requests empty_machine = (Ok rs, y') /\
    Forall2 (fun r f => response_encode r = Ok f) rs outs /\
    serve_connection (mkConn (concat demo_frames) [] empty_machine probe_from_env 0) =
      (Ok tt, mkConn [] (concat outs) y' probe_from_env n').
Proof.
  destruct (session demo_requests empty_machine) as [[rs|e] y'] eqn:E; cycle 1.
  { exfalso. apply (f_equal fst) in E. revert E. vm_compute. discriminate. }
  destruct (connection_refines demo_requests demo_frames empty_machine probe_from_env 0 rs y') as (outs & n' & H1 & H2).
  - unfold demo_frames, demo_requests. repeat constructor; by vm_compute.
  - repeat constructor; by vm_compute.
  - repeat constructor; by vm_compute.
  - by vm_compute.
  - exact E.
  - apply (f_equal (fun r => match fst r with Ok rs => bool_decide (Forall (fun r => Zlen (rs_reply r) <= MAX_DATA_LEN) rs) | Err _ => false end)) in E.
    cbn [fst] in E. eapply bool_decide_eq_true_1. rewrite <- E. by vm_compute.
  - exists rs, y', outs, n'. split; [reflexivity|split; [exact H1|exact H2]].
Defined.
End Demo.
