(* ===== verification/TapeLaws.v ===== *)
(** * The drive is a tape with a head

    The commands of the drive, run on the whole process: appending a block,
    locating it and reading it back, over the meaning of the files. *)

From S2P Require Import Prelude Bytes Text Errors Sense Fs Layout TapeState Reservation SpaceGuard Identity.
From S2P Require Import Compression Records World Crc Segment Footprint Checkpoint Logs BlkMap MapLookup Dedup Reclaim.
From S2P Require Import RuntimeState SegmentIndex Slots IndexState DataBlobs BlobStore DataPath Store Reset BlockStore.
From S2P Require Import System Bootstrap Prefetch MountBridge CommandChain Machine.

(** ** Files beside the store *)
Section Beside.
Context `{HOST : Host} `{ENV : Environ} `{CL : Crc32cLaws} `{HOL : HashOrderLaws} `{BC : BlockCodecs} `{B3 : Blake3}.

(** A change of other files, the caches untouched. *)
Lemma files_beside w fs' ps p s :
  layout_ok p -> files_ok w p s -> frame ps (w_fs w) fs' -> (forall q, (q ∉ ps) -> fs_names fs' !! q = fs_names (w_fs w) !! q) ->
  (forall t, slot_ok t -> slot_path p t ∉ ps) -> files_ok (w <| w_fs := fs' |>) p s.
Proof.
  intros Hlo [F1 F2 F3 F4 F5 (dh & dp & F6)] HF HN Hs.
  assert (moved ps w (w <| w_fs := fs' |>)) as HM by (split; [done|]; intros q Hq; split; [by apply HN|done]).
  split.
  - eapply cp_state_moved; [done|exact HM|by apply (Hs SMeta)|done].
  - eapply blk_state_moved; [done|exact HM|by apply (Hs SBlk)|done].
  - eapply lookup_state_moved; [done|exact HM|by apply (Hs SLookup)|done].
  - eapply index_state_moved; [done|exact HM|by apply (Hs SIndex)|done].
  - eapply segs_ok_moved; [apply F4|done|exact HM| |done|done]. intros n Hn. by apply (Hs (SData n)).
  - exists dh, dp. eapply seg_file_moved; [done|exact HM|by apply (Hs SDedup)].
Qed.

Lemma atomic_write_frame fs tmp path payload :
  wf_fs fs -> tmp <> path -> no_faults ->
  exists fs', atomic_write tmp path payload fs = (Ok tt, fs') /\ frame [tmp; path] fs fs' /\
    forall q, (q ∉ [tmp; path]) -> fs_names fs' !! q = fs_names fs !! q.
Proof.
  intros Hw Hne Hn. pose proof (atomic_write_spec fs tmp path payload Hw Hne) as (W & _ & F & _ & K). specialize (K Hn).
  assert (forall q, q <> tmp -> q <> path -> fs_names (snd (atomic_write tmp path payload fs)) !! q = fs_names fs !! q) as HN.
  { intros q H1 H2. assert (names_kept q (atomic_write tmp path payload)) as H; [|apply H].
    unfold atomic_write. repeat (apply names_kept_bind; [auto with spare|intros ?]); auto with spare. }
  destruct (atomic_write tmp path payload fs) as [r fs']. cbn in *. subst r. exists fs'. split_and!; [done| |].
  - split; [done|]. intros q Hq. apply F; set_solver.
  - intros q Hq. apply HN; set_solver.
Qed.

Lemma usage_apart d t :
  slot_ok t -> slot_path (paths_in d) t ∉ [tmp_path_for (usage_counters_file (paths_in d)); usage_counters_file (paths_in d)].
Proof.
  intros Ht. assert (forall q c, last (bytes_of_string q) = Some c -> c <> 116 -> c <> 103 -> slot_path (paths_in d) t <> q) as H.
  { intros q c Hq H1 H2 <-. rewrite slot_path_bytes, last_app in Hq by done.
    destruct (slot_name_last t) as [E|E]; rewrite E in Hq; congruence. }
  rewrite not_elem_of_cons, list_elem_of_singleton. split.
  - apply (H _ 112); [|done|done]. unfold tmp_path_for. rewrite bytes_of_string_app.
    change (bytes_of_string ".tmp") with ([46; 116; 109] ++ [112]). rewrite app_assoc. apply last_snoc.
  - apply (H _ 115); [|done|done]. unfold usage_counters_file. rewrite path_join_bytes.
    change (bytes_of_string "usage.counters") with (bytes_of_string "usage.counter" ++ [115]).
    rewrite app_assoc. apply last_snoc.
Qed.

(** Counting an operation: the counters change, and now and then their file. *)
Lemma count_usage_spec y d st f :
  no_faults -> files_ok (y_world y) (paths_in d) st -> active_layout (f (y_tape y)) = Some (paths_in d) ->
  exists y' n, counters (TapeState.on_tape f ;;! mark_usage_counters_dirty) y = (Ok tt, y') /\
    files_ok (y_world y') (paths_in d) st /\ y_tape y' = (f (y_tape y)) <| usage_counters_dirty_ops := n |> /\
    y_jobs y' = y_jobs y.
Proof.
  intros Hn HF Hl. unfold counters, on_drive_fs, map_errM, zoomM.
  set (s1 := (f (y_tape y)) <| usage_counters_dirty_ops := sat_add32 (usage_counters_dirty_ops (f (y_tape y))) 1 |>).
  rewrite (bindM_run _ _ _ tt (f (y_tape y), w_fs (y_world y))) by reflexivity.
  unfold mark_usage_counters_dirty. rewrite (bindM_run _ _ _ tt (s1, w_fs (y_world y))) by reflexivity.
  erewrite bindM_run by reflexivity. case_decide as Hd; cycle 1.
  { eexists _, _. split; [reflexivity|]. split_and!; [|reflexivity|reflexivity].
    apply (files_same (y_world y)); [apply layout_paths_ok|exact HF|reflexivity|done]. }
  unfold persist_usage_counters. erewrite bindM_run by reflexivity.
  unfold usage_counter_path. change (active_layout (s1, w_fs (y_world y)).1) with (active_layout (f (y_tape y))).
  rewrite Hl. cbn [fmap option_fmap option_map].
  destruct (atomic_write_frame (w_fs (y_world y)) (tmp_path_for (usage_counters_file (paths_in d)))
    (usage_counters_file (paths_in d)) (encode_usage (usage_counters s1))) as (fs' & E & Fr & HN); [by apply (files_wf _ _ _ HF)| |done|].
  { apply tmp_path_ne. }
  rewrite (bindM_run _ _ _ tt (s1, fs')); cycle 1.
  { unfold on_fs, zoomM, persist_to_path. cbn [fst snd]. by rewrite E. }
  eexists _, _. split; [reflexivity|]. cbn. split_and!; [|reflexivity|reflexivity].
  apply (files_beside _ _ _ _ _ (layout_paths_ok d) HF Fr HN). intros t Ht. by apply usage_apart.
Qed.
End Beside.

(** ** Running commands *)
Section Drive.
Context `{HOST : Host} `{ENV : Environ} `{CL : Crc32cLaws} `{HOL : HashOrderLaws} `{BL : BlockCodecsLaws} `{B3 : Blake3}.
Context `{SH : SpaceHost} `{SHA : Sha256} `{TH : Threads}.

Lemma guard_run {A} (f : TapeState -> Result TapeError A) y a : f (y_tape y) = Ok a -> guard f y = (Ok a, y).
Proof. intros H. unfold guard. erewrite bindM_run by reflexivity. by rewrite H. Qed.
Lemma guard_err {A} (f : TapeState -> Result TapeError A) y e : f (y_tape y) = Err e -> guard f y = (Err e, y).
Proof. intros H. unfold guard. erewrite bindM_run by reflexivity. by rewrite H. Qed.
Lemma storage_run {A} (m : M World StorageError A) y a w' :
  m (y_world y) = (Ok a, w') -> storage m y = (Ok a, y <| y_world := w' |>).
Proof. intros H. unfold storage, map_errM, on_world, zoomM. by rewrite H. Qed.

(** A loaded drive whose cartridge shows a tape, with no read-ahead under way. *)
Record drive_ready (y : Sys) (d : string) (st : Store) (t : tape) : Prop := {
  dr_loaded : mount_state (y_tape y) = Loaded;
  dr_recovered : requires_recovery (y_tape y) = false;
  dr_layout : active_layout (y_tape y) = Some (paths_in d);
  dr_jobs : y_jobs y !! root (paths_in d) = None;
  dr_files : files_ok (y_world y) (paths_in d) st;
  dr_links : links st;
  dr_shows : shows st t
}.

Lemma invalidate_none y p :
  active_layout (y_tape y) = Some p -> y_jobs y !! root p = None ->
  invalidate_state_read_prefetch (E := TapeError) y = (Ok tt, y).
Proof.
  intros Hl Hj. unfold invalidate_state_read_prefetch. erewrite bindM_run by reflexivity. rewrite Hl.
  unfold invalidate_read_prefetch. rewrite (bindM_run _ _ _ [] y); [done|].
  unfold take_jobs, bindM, getM, modifyM, retM. rewrite Hj. cbn. rewrite delete_id by done. by destruct y.
Qed.

(** The checkpoint is marked before a command writes. *)
Lemma mark_dirty_files w p s :
  no_faults -> layout_ok p -> files_ok w p s ->
  exists c w', mark_checkpoint_dirty p w = (Ok c, w') /\ files_ok w' p (s <| st_checkpoint := c |>).
Proof.
  intros Hn Hlo HF. destruct (begin_write_files w p s Hn Hlo HF) as (c & w1 & w2 & E1 & E2 & HF2 & _).
  exists c, w2. split; [|done]. unfold mark_checkpoint_dirty. by rewrite (bindM_run _ _ _ _ _ E1).
Qed.
Lemma shows_cp s c t : shows s t -> shows (s <| st_checkpoint := c |>) t.
Proof. done. Qed.
Lemma room_cp s c start n : write_room s start n -> write_room (s <| st_checkpoint := c |>) start n.
Proof. by intros []. Qed.

(** ** Space *)
(** Admission only touches the lock directory. *)
Definition only_space {A} (m : M Sys TapeError A) : Prop := forall y, exists sp, snd (m y) = y <| y_space := sp |>.
Lemma only_space_here {A} (m : M Sys TapeError A) : (forall y, snd (m y) = y) -> only_space m.
Proof. intros H y. exists (y_space y). rewrite H. by destruct y. Qed.
Lemma only_space_bind {X Y} (m : M Sys TapeError X) (k : X -> M Sys TapeError Y) :
  only_space m -> (forall a, only_space (k a)) -> only_space (bindM m k).
Proof.
  intros Hm Hk y. unfold bindM. destruct (Hm y) as [sp E]. destruct (m y) as [[a|e] y1]; cbn in E; subst y1; [|by exists sp].
  destruct (Hk a (y <| y_space := sp |>)) as [sp' E']. exists sp'. by rewrite E'.
Qed.
Lemma only_space_op {A} (m : M SpaceState SpaceGuardError A) : only_space (space_op m).
Proof. intros y. unfold space_op, map_errM, on_space, zoomM. destruct (m (y_space y)) as [r sp]. by exists sp. Qed.
Lemma only_space_err {A} (f : TapeError -> TapeError) (m : M Sys TapeError A) : only_space m -> only_space (map_errM f m).
Proof. intros H y. unfold map_errM. destruct (H y) as [sp E]. destruct (m y) as [r y1]. by exists sp. Qed.
Lemma admission_only_space p a b c d u : only_space (acquire_write_admission p a b c d u).
Proof.
  apply only_space_err. unfold acquire_space_admission.
  repeat first [ apply only_space_bind; [|intros ?] | apply only_space_op | case_decide
               | apply only_space_here; intros y; done ].
Qed.

(** ** Writing at the end *)
Lemma record_block_fields start len s :
  exists starts lengths, record_block start len s = s <| block_starts := starts |> <| block_lengths := lengths |>.
Proof.
  unfold record_block. destruct (block_lengths s !! start); [exists (block_starts s)|]; eexists; [|eexists; reflexivity].
  by destruct s.
Qed.
Lemma advance_run y n msg :
  0 <= current_position (y_tape y) + n <= U64_MAX ->
  advance n msg y = (Ok tt, y <| y_tape := (y_tape y) <| current_position := current_position (y_tape y) + n |> |>).
Proof.
  intros H. unfold advance. erewrite bindM_run by reflexivity. unfold checked_add64. rewrite decide_True by lia.
  by erewrite bindM_run by reflexivity.
Qed.

Lemma write_here_spec `{!BlockCodecsOutput} y d st t payload marks len :
  no_faults -> drive_ready y d st t -> tape_dedup_enabled = false -> bytes_ok payload -> u32_ok marks ->
  Zlen payload <= MAX_DECOMPRESSED_PAYLOAD_LEN \/ data_compression_enabled (y_tape y) = false ->
  write_room st (current_position (y_tape y)) (Zlen payload) ->
  (forall b, current_position (y_tape y) <= b < current_position (y_tape y) + Zlen payload -> t b = None) ->
  exists y' st', write_block_here (paths_in d) payload marks len y = (Ok tt, y') /\
    drive_ready y' d st' (tape_write t (current_position (y_tape y)) payload) /\
    Zlen (st_blk st') = Zlen (st_blk st) + 1 /\ Zlen (st_lookup st') = Zlen (st_lookup st) + 1 /\
    current_position (y_tape y') = current_position (y_tape y) + Zlen payload /\
    eod_position (y_tape y') = Z.max (eod_position (y_tape y)) (current_position (y_tape y')) /\
    filemarks (y_tape y') = filemarks (y_tape y) /\ block_mode (y_tape y') = block_mode (y_tape y).
Proof.
  intros Hn [R1 R2 R3 R4 R5 R6 R7] Hd Hb Hm Hc HR Hfree.
  destruct (write_shows (y_world y) (paths_in d) st t (current_position (y_tape y)) payload marks
    (tape_write_options (y_tape y))) as (rep & w' & st' & E & HF & HL & HS & Z1 & Z2); try done.
  { apply layout_paths_ok. }
  { unfold tape_write_options. by case_match. }
  { destruct Hc as [Hc|Hc]; [by left|right]. unfold tape_write_options. by rewrite Hc. }
  destruct (rm_end _ _ _ HR) as [H0 H1]. destruct (rm_size _ _ _ HR) as [H2 _].
  unfold write_block_here. erewrite bindM_run by reflexivity. rewrite (bindM_run _ _ _ _ _ (storage_run _ _ _ _ E)).
  destruct (record_block_fields (current_position (y_tape y)) len (y_tape y)) as (starts & lengths & Er).
  set (pos := current_position (y_tape y)) in *.
  rewrite (bindM_run _ _ _ tt (mkSys ((y_tape y) <| block_starts := starts |> <| block_lengths := lengths |>) w'
    (y_space y) (y_jobs y) (y_degraded y) (y_spawned y) (y_usage_sync y))); cycle 1.
  { unfold set_tape, modifyM. cbn. by rewrite Er. }
  erewrite bindM_run by (apply advance_run; change (0 <= pos + Zlen payload <= U64_MAX); lia).
  erewrite bindM_run by reflexivity.
  set (y1 := _ : Sys). fold (record_write_usage (Zlen payload)).
  destruct (count_usage_spec y1 d st' (fun s => s <| usage_counters := add_write_usage (Zlen payload) (usage_counters s) |>))
    as (y' & n & E' & HF' & Ht & Hj); [done|exact HF|exact R3|].
  exists y', st'. split; [exact E'|]. rewrite Ht. split; [|by split_and!].
  split; [by rewrite Ht..|by rewrite Hj|done|done|done].
Qed.

Lemma finish_write_run p (m : M Sys TapeError unit) y y' : m y = (Ok tt, y') -> finish_write_command p m y = (Ok tt, y').
Proof. intros H. unfold finish_write_command. rewrite (bindM_run _ _ y (Ok tt) y'); [done|]. unfold tryM. by rewrite H. Qed.

Lemma with_reservation_run {X} adm (m : M Sys TapeError X) y r y1 a y2 :
  adm y = (Ok r, y1) -> m y1 = (Ok a, y2) -> exists sp, with_reservation adm m y = (Ok a, y2 <| y_space := sp |>).
Proof.
  intros H1 H2. unfold with_reservation. rewrite (bindM_run _ _ _ _ _ H1).
  rewrite (bindM_run _ _ y1 (Ok a) y2); [|unfold tryM; by rewrite H2]. eexists.
  erewrite bindM_run by reflexivity. reflexivity.
Qed.

(** What an append to the end of the data needs. *)
Record append_ok (y : Sys) (st : Store) (t : tape) (payload : list Z) (who : option string) : Prop := {
  ao_variable : mode (block_mode (y_tape y)) = Variable_;
  ao_access : enforce_protected_access (y_tape y) (initiator_or_default who) = Ok tt;
  ao_end : eod_position (y_tape y) = current_position (y_tape y);
  ao_capacity : ensure_capacity_available (y_tape y) (Zlen payload) = Ok tt;
  ao_marks : Zlen (filemarks (y_tape y)) <= U32_MAX;
  ao_bytes : bytes_ok payload;
  ao_codec : Zlen payload <= MAX_DECOMPRESSED_PAYLOAD_LEN \/ data_compression_enabled (y_tape y) = false;
  ao_room : write_room st (current_position (y_tape y)) (Zlen payload);
  ao_blank : forall b, current_position (y_tape y) <= b < current_position (y_tape y) + Zlen payload -> t b = None
}.

Lemma write_data_spec `{!BlockCodecsOutput} y d st t payload who r y1 :
  no_faults -> drive_ready y d st t -> tape_dedup_enabled = false -> append_ok y st t payload who ->
  acquire_write_admission (paths_in d) (Zlen payload) 1 1 8192 (Zlen payload) y = (Ok r, y1) ->
  exists y' st', write_data payload who y = (Ok tt, y') /\
    drive_ready y' d st' (tape_write t (current_position (y_tape y)) payload) /\
    Zlen (st_blk st') = Zlen (st_blk st) + 1 /\ Zlen (st_lookup st') = Zlen (st_lookup st) + 1 /\
    current_position (y_tape y') = current_position (y_tape y) + Zlen payload /\
    eod_position (y_tape y') = current_position (y_tape y') /\
    filemarks (y_tape y') = filemarks (y_tape y) /\ block_mode (y_tape y') = block_mode (y_tape y).
Proof.
  intros Hn HD Hdd [A1 A2 A3 A4 A5 A6 A7 A8 A9] Ha. pose proof HD as [R1 R2 R3 R4 R5 R6 R7].
  destruct (rm_size _ _ _ A8) as [Hz Hz'].
  destruct (admission_only_space (paths_in d) (Zlen payload) 1 1 8192 (Zlen payload) y) as [sp Esp]. rewrite Ha in Esp. cbn in Esp.
  destruct (mark_dirty_files (y_world y1) (paths_in d) st Hn (layout_paths_ok d)) as (c & w1 & Em & HF1); [by rewrite Esp|].
  set (y2 := y1 <| y_world := w1 |>).
  assert (y_tape y2 = y_tape y) as Et by (unfold y2; by rewrite Esp).
  destruct (write_here_spec y2 d (st <| st_checkpoint := c |>) t payload (Zlen (filemarks (y_tape y))) (Zlen payload))
    as (y3 & st' & E3 & HD3 & Z1 & Z2 & P1 & P2 & P3 & P4); rewrite ?Et in *; try done.
  { split; rewrite ?Et; try done; [by unfold y2; rewrite Esp|by apply links_cp]. }
  { unfold u32_ok, Zlen in *. lia. }
  { by apply room_cp. }
  assert (finish_write_command (paths_in d) (let! _ := storage (mark_checkpoint_dirty (paths_in d)) in
    truncate_tail_before_write (paths_in d) ;;! let! marks := filemark_total in
    write_block_here (paths_in d) payload marks (Zlen payload)) y1 = (Ok tt, y3)) as Ef.
  { apply finish_write_run. rewrite (bindM_run _ _ _ _ _ (storage_run _ _ _ _ Em)). fold y2.
    rewrite (bindM_run _ _ y2 tt y2); cycle 1.
    { unfold truncate_tail_before_write. erewrite bindM_run by reflexivity. rewrite Et, decide_True by lia. done. }
    rewrite (bindM_run _ _ y2 (Zlen (filemarks (y_tape y))) y2); [exact E3|].
    apply guard_run. rewrite Et. unfold validate_payload_len, u32_try_from. by rewrite decide_True. }
  destruct (with_reservation_run _ _ _ _ _ _ _ Ha Ef) as [sp' Ew].
  exists (y3 <| y_space := sp' |>), st'. split_and!; try done.
  - unfold write_data. rewrite (bindM_run _ _ y tt y) by (apply guard_run; unfold ensure_loaded; by rewrite R1).
    rewrite (bindM_run _ _ y tt y) by (apply guard_run; unfold ensure_recovery_complete; by rewrite R2).
    rewrite (bindM_run _ _ _ _ _ (invalidate_none _ _ R3 R4)).
    unfold validate_payload_len, u32_try_from. rewrite decide_True by done. rewrite (bindM_run _ _ y (Zlen payload) y) by done.
    erewrite bindM_run by reflexivity. rewrite decide_False by (intros ->; unfold Zlen in Hz; cbn in Hz; lia).
    rewrite (bindM_run _ _ y tt y) by (by apply guard_run).
    rewrite (bindM_run _ _ y tt y); cycle 1.
    { apply guard_run. unfold enforce_worm_append_only. rewrite bool_decide_eq_false_2 by lia. by rewrite andb_false_r. }
    rewrite decide_False by (rewrite A1; by intros [? _]).
    rewrite (bindM_run _ _ y (paths_in d) y) by (apply guard_run; by rewrite R3).
    rewrite (bindM_run _ _ y tt y) by (by apply guard_run). rewrite decide_False by (by rewrite A1). exact Ew.
  - by destruct HD3.
  - change (eod_position (y_tape y3) = current_position (y_tape y3)). rewrite P2, P1, A3. lia.
Qed.

(** ** Positioning and reading *)
Lemma locate_spec y d st t target :
  drive_ready y d st t -> mode (block_mode (y_tape y)) = Variable_ -> target <= eod_position (y_tape y) ->
  locate target y = (Ok tt, y <| y_tape := (y_tape y) <| current_position := target |> |>).
Proof.
  intros [R1 R2 R3 R4 R5 R6 R7] Hm Ht. unfold locate.
  rewrite (bindM_run _ _ y tt y) by (apply guard_run; unfold ensure_loaded; by rewrite R1).
  rewrite (bindM_run _ _ _ _ _ (invalidate_none _ _ R3 R4)). erewrite bindM_run by reflexivity.
  rewrite decide_False by lia. unfold is_addressable_position. rewrite decide_False by lia. by rewrite decide_True by done.
Qed.

Lemma count_read_spec y d st n :
  no_faults -> files_ok (y_world y) (paths_in d) st -> active_layout (y_tape y) = Some (paths_in d) ->
  exists y', count_read n y = (Ok tt, y') /\ files_ok (y_world y') (paths_in d) st /\ y_jobs y' = y_jobs y /\
    current_position (y_tape y') = current_position (y_tape y) /\ eod_position (y_tape y') = eod_position (y_tape y) /\
    filemarks (y_tape y') = filemarks (y_tape y) /\ mount_state (y_tape y') = mount_state (y_tape y) /\
    requires_recovery (y_tape y') = requires_recovery (y_tape y) /\ active_layout (y_tape y') = active_layout (y_tape y).
Proof.
  intros Hn HF Hl. unfold count_read. erewrite bindM_run by reflexivity. set (y2 := _ : Sys).
  destruct (count_usage_spec y2 d st (fun s => s <| usage_counters := add_read_usage n (usage_counters s) |>))
    as (y' & k & E' & HF' & Ht & Hj); [done|exact HF|exact Hl|].
  exists y'. rewrite Ht. by split_and!.
Qed.

(** A read of an extent from any block of it: the whole payload, and the head
    moves on by its length. *)
Lemma read_data_spec y d st t start payload :
  no_faults -> drive_ready y d st t -> store_budget st -> mode (block_mode (y_tape y)) = Variable_ ->
  (current_position (y_tape y) ∉ filemarks (y_tape y)) -> t (current_position (y_tape y)) = Some (start, payload) ->
  0 <= current_position (y_tape y) + Zlen payload <= U64_MAX ->
  exists y', read_data y = (Ok payload, y') /\ drive_ready y' d st t /\
    current_position (y_tape y') = current_position (y_tape y) + Zlen payload /\
    eod_position (y_tape y') = eod_position (y_tape y) /\ filemarks (y_tape y') = filemarks (y_tape y).
Proof.
  intros Hn [R1 R2 R3 R4 R5 R6 R7] Hbud Hm Hf Ht Hr.
  destruct (read_shows (y_world y) (paths_in d) st t (current_position (y_tape y)) Hn (layout_paths_ok d) R5 R6 Hbud R7)
    as (res & w' & E & Hres & HF & Hh). rewrite Ht in Hres. destruct res as [x|]; [|done]. injection Hres as _ Hp.
  specialize (Hh x eq_refl). pose proof (holds_len _ _ _ Hh) as Hl. rewrite Hp in Hl.
  unfold read_data. rewrite (bindM_run _ _ y tt y) by (apply guard_run; unfold ensure_loaded; by rewrite R1).
  rewrite (bindM_run _ _ y tt y) by (apply guard_run; unfold ensure_recovery_complete; by rewrite R2).
  rewrite (bindM_run _ _ y (paths_in d) y) by (apply guard_run; by rewrite R3).
  rewrite (bindM_run _ _ y tt y); cycle 1.
  { unfold stop_at_filemark. erewrite bindM_run by reflexivity. by rewrite decide_False. }
  erewrite bindM_run by reflexivity. rewrite (bindM_run _ _ _ _ _ (storage_run _ _ _ _ E)).
  erewrite bindM_run by reflexivity. rewrite decide_False by (rewrite Hm; by intros [? _]).
  erewrite bindM_run by reflexivity. set (y1 := _ : Sys).
  destruct (count_read_spec y1 d st (rd_logical_len x) Hn) as (y' & E' & HF' & Hj & P1 & P2 & P3 & P4 & P5 & P6); [done|done|].
  exists y'. rewrite (bindM_run _ _ _ _ _ E'), Hp. split_and!; [done| | |done|done].
  - split; [by rewrite P4|by rewrite P5|by rewrite P6|by rewrite Hj|done..].
  - rewrite P1. change (current_position (y_tape y1)) with ((current_position (y_tape y) + rd_logical_len x) mod 2 ^ 64).
    rewrite Hl. apply Z.mod_small. lia.
Qed.

(** C3: a block appended at the end of the data, within the limits and with
    deduplication off, is read back: the write is admitted and stored, the head
    goes past it, and after a LOCATE to where the block was written READ
    delivers exactly the payload and leaves the head behind it; every other
    block of the tape shows what it showed. *)
Theorem append_read_back `{!BlockCodecsOutput} y d st t payload who r y1 :
  no_faults -> drive_ready y d st t -> tape_dedup_enabled = false -> append_ok y st t payload who ->
  Zlen (st_blk st) < MAX_MAINTENANCE_METADATA_RECORDS -> Zlen (st_lookup st) < MAX_MAINTENANCE_METADATA_RECORDS ->
  (current_position (y_tape y) ∉ filemarks (y_tape y)) ->
  acquire_write_admission (paths_in d) (Zlen payload) 1 1 8192 (Zlen payload) y = (Ok r, y1) ->
  exists y2 y3 y4 st', write_data payload who y = (Ok tt, y2) /\
    locate (current_position (y_tape y)) y2 = (Ok tt, y3) /\ read_data y3 = (Ok payload, y4) /\
    current_position (y_tape y4) = current_position (y_tape y) + Zlen payload /\
    drive_ready y4 d st' (tape_write t (current_position (y_tape y)) payload).
Proof.
  intros Hn HD Hdd HA Hb1 Hb2 Hf Ha.
  destruct (write_data_spec y d st t payload who r y1 Hn HD Hdd HA Ha) as (y2 & st' & E2 & HD2 & Z1 & Z2 & P1 & P2 & P3 & P4).
  destruct HA as [A1 A2 A3 A4 A5 A6 A7 A8 A9]. destruct (rm_size _ _ _ A8) as [Hz _]. destruct (rm_end _ _ _ A8) as [H0 H1].
  pose proof (locate_spec y2 d st' _ (current_position (y_tape y)) HD2 ltac:(by rewrite P4) ltac:(lia)) as E3.
  set (y3 := y2 <| y_tape := (y_tape y2) <| current_position := current_position (y_tape y) |> |>) in *.
  destruct (read_data_spec y3 d st' (tape_write t (current_position (y_tape y)) payload) (current_position (y_tape y)) payload)
    as (y4 & E4 & HD4 & P5 & _ & _).
  - done.
  - by destruct HD2.
  - split; lia.
  - change (mode (block_mode (y_tape y2)) = Variable_). by rewrite P4.
  - change (current_position (y_tape y) ∉ filemarks (y_tape y2)). by rewrite P3.
  - unfold tape_write. change (current_position (y_tape y3)) with (current_position (y_tape y)). by rewrite decide_True by lia.
  - change (current_position (y_tape y3)) with (current_position (y_tape y)). lia.
  - exists y2, y3, y4, st'. split_and!; done.
Qed.
End Drive.

(** ** Four bytes after the extent of the example cartridge *)
Section Demo.
#[local] Existing Instances quiet_host plain_env bitwise_crc32c tree_order identity_codecs demo_blake roomy_host zero_sha
  inline_threads identity_codecs_output.

Lemma append_read_back_witness :
  exists y2 y3 y4, write_data [1; 2; 3; 4] None loaded_machine = (Ok tt, y2) /\
    locate 3 y2 = (Ok tt, y3) /\ read_data y3 = (Ok [1; 2; 3; 4], y4).
Proof.
  destruct (acquire_write_admission (paths_in "/pool/c1") (Zlen [1; 2; 3; 4]) 1 1 8192 (Zlen [1; 2; 3; 4]) loaded_machine)
    as [[r|e] y1] eqn:E.
  - destruct (append_read_back (HOL := tree_order_laws) (CL := bitwise_crc32c_laws) (BL := identity_codecs_laws)
      loaded_machine "/pool/c1" demo_store demo_tape [1; 2; 3; 4] None r y1) as (y2 & y3 & y4 & st' & E2 & E3 & E4 & _).
    + exact quiet_no_faults.
    + split; [reflexivity..|exact demo_files_ok|exact demo_links|exact demo_shows].
    + by vm_compute.
    + split.
      * reflexivity.
      * by vm_compute.
      * reflexivity.
      * by vm_compute.
      * by vm_compute.
      * exact demo_new_bytes.
      * left. by vm_compute.
      * change (write_room demo_store 3 4). apply demo_write_room. lia.
      * intros b Hb. unfold demo_tape, tape_write, blank. change (Zlen [7; 8; 9]) with 3.
        change (3 <= b < 3 + 4) in Hb. rewrite decide_False by lia. reflexivity.
    + by vm_compute.
    + by vm_compute.
    + apply (bool_decide_unpack _). by vm_compute.
    + exact E.
    + exists y2, y3, y4. split; [exact E2|split; [exact E3|exact E4]].
  - exfalso. apply (f_equal fst) in E. revert E. vm_compute. discriminate.
Defined.
End Demo.
