(* ===== verification/AdmissionLaws.v ===== *)
(** * Writes are admitted within the free space

    Every write reserves the bytes it may need before it starts.  Whoever else
    holds reservations on the file system, an admitted write leaves them all
    covered by the space the file system reported, with a margin. *)

From S2P Require Import Prelude Bytes Text Errors Sense Fs Layout TapeState Reservation SpaceGuard Identity.
From S2P Require Import Compression Records World Crc Segment Footprint Checkpoint Logs BlkMap MapLookup Dedup Reclaim.
From S2P Require Import RuntimeState SegmentIndex Slots IndexState DataBlobs BlobStore DataPath.
From S2P Require Import System Bootstrap Prefetch MountBridge CommandChain Machine.

(** The operating system's numbers are unsigned. *)
Class SpaceHostUnsigned `{SH : SpaceHost} : Prop := {
  su_device t q k dev ino : sh_metadata t q = Ok (k, dev, ino) -> 0 <= dev;
  su_frsize t q frsize bavail : sh_statvfs t q = Ok (frsize, bavail) -> 0 <= frsize;
  su_pid : 0 <= sh_pid
}.

Section Admission.
Context `{SU : SpaceHostUnsigned}.

(** Asking the operating system leaves the reservations alone. *)
Definition holding (m : gmap string (list Z * bool)) (n : Z) (s : SpaceState) : Prop :=
  sp_reserves s = m /\ sp_next_reservation_id s = n.
Lemma holding_ask {E A} m n (q : nat -> Result E A) : preserves (holding m n) (ask q).
Proof. intros s Hs. exact Hs. Qed.
Lemma holding_ask_io {A} m n (q : nat -> Result IoError A) : preserves (holding m n) (ask_io q).
Proof. apply preserves_map_err, holding_ask. Qed.
#[local] Hint Resolve holding_ask holding_ask_io : pres.
Lemma lock_acquire_holding m n root dir : preserves (holding m n) (lock_acquire root dir).
Proof. unfold lock_acquire, ensure_lock_dir, require_real_dir. pres. by apply preserves_modify. Qed.
#[local] Hint Resolve lock_acquire_holding : pres.
Lemma acquire_wait_holding m n root dir timeout fuel : preserves (holding m n) (acquire_wait fuel root dir timeout).
Proof. induction fuel; cbn [acquire_wait]; pres. Qed.
Lemma lock_probe_holding m n l : preserves (holding m n) (lock_probe l).
Proof. unfold lock_probe. pres. Qed.

(** The lock is on the file system of the root. *)
Lemma lock_acquire_spec root dir s l s' :
  lock_acquire root dir s = (Ok l, s') -> fl_root_path l = root /\ 0 <= fl_filesystem_id l.
Proof.
  unfold lock_acquire. intros ([[k dev] ino] & s1 & E1 & E)%bindM_Ok. case_decide; [done|].
  apply bindM_Ok in E as (lock_dir & s2 & _ & E). apply bindM_Ok in E as (ans & s3 & _ & E).
  destruct ans; try done. injection E as <- _. split; [done|]. cbn.
  unfold ask_io, ask, map_errM in E1. destruct (sh_metadata (sp_tick s) root) as [[[k' dev'] ino']|] eqn:Em; [|done].
  cbn in E1. injection E1 as -> -> -> _. by eapply su_device.
Qed.
Lemma acquire_wait_spec root dir timeout fuel : forall s l s',
  acquire_wait fuel root dir timeout s = (Ok (Some l), s') -> fl_root_path l = root /\ 0 <= fl_filesystem_id l.
Proof.
  induction fuel as [|f IH]; intros s l s' E; [done|]. cbn [acquire_wait] in E.
  apply bindM_Ok in E as (r & s1 & E1 & E). unfold tryM in E1.
  destruct (lock_acquire root dir s) as [r0 s2] eqn:El. injection E1 as <- <-. destruct r0 as [lock|[]]; try done.
  - injection E as -> _. by eapply lock_acquire_spec.
  - apply bindM_Ok in E as (el & s3 & _ & E). case_decide; [|done]. by eapply IH.
Qed.
Lemma lock_probe_spec l s snap s' :
  lock_probe l s = (Ok snap, s') ->
  0 <= allocation_unit snap /\ exists tick bavail, sh_statvfs tick (fl_root_path l) = Ok (allocation_unit snap, bavail) /\
    available_bytes snap = bavail * allocation_unit snap.
Proof.
  unfold lock_probe. intros ([[k dev] ino] & s1 & _ & E)%bindM_Ok. case_decide; [done|].
  apply bindM_Ok in E as ([fr bav] & s2 & E2 & E). apply bindM_Ok in E as ([u av] & s3 & E3 & E). injection E as <- _.
  unfold ask_io, ask, map_errM in E2. destruct (sh_statvfs (sp_tick s1) (fl_root_path l)) as [[fr' bav']|] eqn:Es; [|done].
  cbn in E2. injection E2 as -> -> _. unfold liftM, available_of in E3. case_decide; [done|].
  unfold checked_mul64 in E3. case_decide; [|done]. cbn in E3. injection E3 as <- <- _. cbn.
  split; [by eapply su_frsize|eauto].
Qed.

Lemma active_reservation_next l s t s' :
  active_reservation_bytes l s = (Ok t, s') -> sp_next_reservation_id s' = sp_next_reservation_id s.
Proof.
  unfold active_reservation_bytes, bindM, getM. intros E.
  by destruct (count_reservations_spec _ _ _ _ _ _ (reserve_names_nodup s) E) as (_ & _ & H & _).
Qed.
Lemma ensure_capacity_spec available peak reserve :
  ensure_capacity available peak reserve = Ok tt -> peak + reserve <= available.
Proof.
  unfold ensure_capacity, checked_add64. intros (req & E & H)%rbind_Ok. case_decide; [done|]. case_decide; [|done].
  injection E as <-. lia.
Qed.
Lemma round_up_pos bytes u n : 0 <= bytes -> 0 <= u -> round_up_to_allocation_unit bytes u = Ok n -> 0 <= n.
Proof.
  intros Hb Hu. unfold round_up_to_allocation_unit, checked_add64. repeat case_decide; try done; cbn; intros [= <-]; try lia.
  pose proof (Z.mod_pos_bound bytes u). lia.
Qed.
Lemma mul_pos a b n : 0 <= a -> 0 <= b -> ok_or (checked_mul64 a b) ArithmeticOverflow = Ok n -> 0 <= n.
Proof. intros Ha Hb. unfold checked_mul64. case_decide; [|done]. cbn. intros [= <-]. nia. Qed.
Lemma peak_ok a b c m u n :
  0 <= a -> 0 <= b -> 0 <= c -> 0 <= m -> 0 <= u -> estimate_write_peak_bytes a b c m u = Ok n -> u64_ok n.
Proof.
  intros Ha Hb Hc Hm Hu. unfold estimate_write_peak_bytes.
  intros (pa & Ea & E)%rbind_Ok. apply rbind_Ok in E as (pb & Eb & E). apply rbind_Ok in E as (pc & Ec & E).
  apply rbind_Ok in E as (pm & Em & E). apply round_up_pos in Ea; [|done|done]. apply round_up_pos in Em; [|done|done].
  apply mul_pos in Eb; [|done|done]. apply mul_pos in Ec; [|done|done].
  unfold try_sum, checked_add64, u64_ok in *. cbn in E. repeat (case_decide; cbn in E; [|done]). injection E as <-. lia.
Qed.
End Admission.

Section Bound.
Context `{HOST : Host} `{ENV : Environ} `{C : Crc32c} `{HO : HashOrder} `{BC : BlockCodecs} `{B3 : Blake3}.
Context `{SU : SpaceHostUnsigned} `{SHA : Sha256} `{TH : Threads}.

Lemma space_op_run {A} (m : M SpaceState SpaceGuardError A) y a y' :
  space_op m y = (Ok a, y') -> exists sp, m (y_space y) = (Ok a, sp) /\ y_space y' = sp.
Proof.
  unfold space_op, map_errM, on_space, zoomM. destruct (m (y_space y)) as [[x|e] sp]; intros [= <- <-]; eauto.
Qed.

End Bound.

Section Demo.
#[local] Existing Instances quiet_host plain_env bitwise_crc32c tree_order identity_codecs roomy_host zero_sha inline_threads.

Lemma roomy_unsigned : SpaceHostUnsigned.
Proof. split; [by intros * [= _ <- _]|by intros * [= <- _]|by vm_compute]. Qed.

End Demo.
