(* ===== verification/ReadyLaws.v ===== *)
(** * A drive becomes ready

    A host that polls a loaded drive is told each pending unit attention once,
    oldest first, and then that the drive is ready. *)

From S2P Require Import Prelude Bytes Text Errors Sense Fs Layout TapeState Reservation SpaceGuard Identity Wire.
From S2P Require Import Compression Records World Crc Segment Logs BlkMap MapLookup Dedup SegmentIndex Slots DataBlobs DataPath.
From S2P Require Import System Bootstrap Prefetch MountBridge CommandChain CommandsCore CdbBase DriveProfile MediaState.
From S2P Require Import CdbCommon Changer CdbDrive CdbServer Handler BlockStore Machine MamLaws ServerLaws HandlerLaws.

Section Ready.
Context `{HOST : Host} `{ENV : Environ} `{C : Crc32c} `{HO : HashOrder} `{BC : BlockCodecs} `{B3 : Blake3}.
Context `{SH : SpaceHost} `{SHA : Sha256} `{TH : Threads}.

Definition test_unit_ready_packet : CdbPacket := packet_new [0; 0; 0; 0; 0; 0] [].

(** The media state names the cartridge the drive holds. *)
Record in_sync (y : Sys) (id : string) : Prop := {
  is_loaded : mount_state (y_tape y) = Loaded;
  is_cartridge : cartridge_id (y_tape y) = Some id;
  is_file : exists raw, contents (w_fs (y_world y)) (shared_media_state_path (media_state_key_for_state (y_tape y))) = Some raw /\
    utf8_valid raw = true /\ parse_loaded_cartridge raw = Ok (Some id)
}.

Lemma sync_nothing y id :
  no_faults -> in_sync y id -> exists y', sync_drive_mount_from_shared y = (Ok tt, y') /\ y_tape y' = y_tape y /\
    forall q, contents (w_fs (y_world y')) q = contents (w_fs (y_world y)) q.
Proof.
  intros Hn [H1 H2 (raw & Hc & Hu & Hp)]. unfold sync_drive_mount_from_shared. erewrite bindM_run by reflexivity.
  destruct (read_text_ok _ _ _ Hn Hc Hu) as (fs' & Er & Hs).
  assert (read_shared_loaded_cartridge_fresh (media_state_key_for_state (y_tape y)) (w_fs (y_world y)) = (Ok (Some id), fs')) as Ef.
  { unfold read_shared_loaded_cartridge_fresh. rewrite (bindM_run _ _ _ _ _ Er). by rewrite Hp. }
  erewrite bindM_run by apply files_run. rewrite Ef. cbn [fst snd]. rewrite H2, decide_True by done.
  eexists. split; [reflexivity|]. split; [done|]. intros q. by apply contents_same.
Qed.

(** One poll: the oldest attention, or ready. *)
Lemma poll_spec y id :
  no_faults -> device_type resolve_active_profile_from_env <> DtChanger -> in_sync y id ->
  exists y', run_packet test_unit_ready_packet y =
      (Ok (match pending_unit_attention (y_tape y) with (a, q) :: _ => sense_response 0x06 a q | [] => good [] end), y') /\
    in_sync y' id /\ pending_unit_attention (y_tape y') = tail (pending_unit_attention (y_tape y)).
Proof.
  intros Hn Hd Hi. pose proof Hi as [H1 H2 (raw & Hc & Hu & Hp)].
  destruct (sync_nothing y id Hn Hi) as (y1 & E1 & Et & Hcs).
  assert (run_packet test_unit_ready_packet y = answer test_unit_ready y1) as ->.
  { unfold run_packet, dispatch_raw_cdb_with_context. cbn [initiator pk_initiator test_unit_ready_packet packet_new pk_cdb pk_data].
    unfold dispatch_raw_cdb_with_context_inner. rewrite decide_False by done.
    change (validate_cdb_structure [0; 0; 0; 0; 0; 0]) with true. cbn [negb]. cbv zeta. rewrite decide_False by done.
    unfold drive_cdb. change (cdb_byte [0; 0; 0; 0; 0; 0] 0) with 0. cbv zeta. erewrite bindM_run by reflexivity.
    assert (drive_opcode_requires_media_sync 0 (y_tape y) = true) as ->.
    { unfold drive_opcode_requires_media_sync. by rewrite bool_decide_eq_true_2 by done. }
    rewrite (bindM_run _ _ y (Ok tt) y1) by (unfold attempt, tryM; by rewrite E1). by rewrite decide_True by done. }
  unfold answer, bindM, the_tape, getsM.
  unfold test_unit_ready, take_unit_attention. rewrite Et.
  destruct (pending_unit_attention (y_tape y)) as [|[a q] queue] eqn:Eq.
  - rewrite decide_True by done. eexists. split; [reflexivity|].
    split; [|by cbn]. split; [done|done|]. exists raw. split; [|done]. cbn. by rewrite Hcs.
  - eexists. split; [reflexivity|]. split; [|done]. split; [done|done|]. exists raw. split; [|done]. cbn. by rewrite Hcs.
Qed.

(** C17: a host that polls a loaded drive with TEST UNIT READY is told every
    pending unit attention exactly once, in the order they arose, and then gets
    GOOD: after as many polls as attentions were pending the drive is ready. *)
Theorem drive_becomes_ready y id :
  no_faults -> device_type resolve_active_profile_from_env <> DtChanger -> in_sync y id ->
  exists y', session (replicate (S (length (pending_unit_attention (y_tape y)))) test_unit_ready_packet) y =
      (Ok (map (fun ua => sense_response 0x06 ua.1 ua.2) (pending_unit_attention (y_tape y)) ++ [good []]), y') /\
    pending_unit_attention (y_tape y') = [] /\ in_sync y' id.
Proof.
  intros Hn Hd. remember (pending_unit_attention (y_tape y)) as queue eqn:Eq. revert y Eq.
  induction queue as [|[a q] queue IH]; intros y Eq Hi; cbn [length replicate session];
    destruct (poll_spec y id Hn Hd Hi) as (y1 & E1 & Hi1 & Hq1); rewrite <- Eq in E1, Hq1; rewrite (bindM_run _ _ _ _ _ E1).
  - erewrite bindM_run by reflexivity. exists y1. by split_and!.
  - destruct (IH y1 (eq_sym Hq1) Hi1) as (y' & E & Hp & Hi').
    cbn [length replicate session] in E. rewrite (bindM_run _ _ _ _ _ E). exists y'. by split_and!.
Qed.
End Ready.

(** ** A drive with two attentions *)
Section Demo.
#[local] Existing Instances quiet_host no_env bitwise_crc32c tree_order identity_codecs demo_blake roomy_host zero_sha
  inline_threads.

Definition demo_state_file : Fs :=
  snd (write_shared_loaded_cartridge "drive0" (Some "C1"%string) empty_fs).
Definition polled_machine : Sys :=
  mkSys (loaded_drive <| pending_unit_attention := [(0x29, 0x00); (0x28, 0x00)] |>)
    (fresh_process demo_state_file) no_reservations ∅ ∅ 0 ∅.
Lemma drive_becomes_ready_witness :
  exists y', session (replicate 3 test_unit_ready_packet) polled_machine =
    (Ok [sense_response 0x06 0x29 0x00; sense_response 0x06 0x28 0x00; good []], y').
Proof.
  destruct (drive_becomes_ready polled_machine "C1") as (y' & E & _).
  - exact quiet_no_faults.
  - by vm_compute.
  - split; [reflexivity..|]. exists (loaded_cartridge_text (Some "C1"%string)). split; [by vm_compute|split; by vm_compute].
  - exists y'. exact E.
Defined.
End Demo.
