(* ===== verification/ProtectionLaws.v ===== *)
(** * What may not be written is not written

    A cartridge under a retention lock, or reserved by another initiator,
    refuses every command that would change it and stays as it is; and where the
    command server does not keep to that. *)

From S2P Require Import Prelude Bytes Text Errors Sense Fs Layout TapeState Reservation SpaceGuard Identity Wire.
From S2P Require Import Compression Records World Crc Segment Footprint Checkpoint Logs BlkMap MapLookup Dedup Reclaim.
From S2P Require Import RuntimeState SegmentIndex Slots IndexState DataBlobs BlobStore DataPath Store Reset BlockStore.
From S2P Require Import System Bootstrap Prefetch MountBridge CommandChain CommandsCore CdbBase DriveProfile MediaState.
From S2P Require Import CdbCommon Changer CdbDrive CdbServer Handler Machine TapeLaws.

(** The commands that change a cartridge. *)
Inductive MediaCommand : Type :=
| McWrite (payload : list Z)
| McWriteFixed (payload : list Z) (size : Z)
| McFilemarks (count : Z)
| McErase (m : EraseMode).

(** Commands that ask for something, in the block mode of the drive. *)
Definition asks (s : TapeState) (c : MediaCommand) : Prop :=
  match c with
  | McWrite payload => payload <> [] /\ Zlen payload <= U32_MAX
  | McWriteFixed payload size =>
      payload <> [] /\ 0 < size <= U32_MAX /\ Zlen payload mod size = 0 /\
      mode (block_mode s) = Fixed_ /\ fixed_block_size (block_mode s) = size
  | McFilemarks count => 0 < count
  | McErase _ => True
  end.

Section Protection.
Context `{HOST : Host} `{ENV : Environ} `{C : Crc32c} `{HO : HashOrder} `{BC : BlockCodecs} `{B3 : Blake3}.
Context `{SH : SpaceHost} `{SHA : Sha256} `{TH : Threads}.

Definition run_media (c : MediaCommand) (who : string) : M Sys TapeError unit :=
  match c with
  | McWrite payload => write_data payload (Some who)
  | McWriteFixed payload size => write_fixed_blocks payload size (Some who)
  | McFilemarks count => write_filemarks count (Some who)
  | McErase m => erase_media m (Some who)
  end.

(** Why a cartridge may not be changed by an initiator. *)
Inductive forbidden (s : TapeState) (who : string) : TapeError -> Prop :=
| forbidden_reserved owner :
    named who -> active_owner (reservation_state s) = Some owner -> owner <> who ->
    forbidden s who (ReservationConflict ("reservation owner is " +:+ owner))
| forbidden_locked :
    ensure_reservation_access s who = Ok tt -> is_worm_media (retention_policy s) = true ->
    retention_locked (retention_policy s) = true -> forbidden s who WormWriteProtected.

Lemma forbidden_access s who e : forbidden s who e -> enforce_protected_access s who = Err e.
Proof.
  unfold enforce_protected_access. intros [owner Hw Ho Hne|H1 H2 H3].
  - unfold ensure_reservation_access, validate_initiator. rewrite decide_False by exact Hw. cbn. rewrite Ho.
    by rewrite decide_True.
  - rewrite H1. cbn. by rewrite H2, H3.
Qed.

(** C6: on a loaded drive, a cartridge under a retention lock refuses every
    command that would change it, and one reserved by another initiator refuses
    those of everybody else, each with its own error; the whole process is as
    it was: no file, no position, no reservation of space has changed. *)
Theorem protected_unwritten y p who c e :
  mount_state (y_tape y) = Loaded -> requires_recovery (y_tape y) = false ->
  active_layout (y_tape y) = Some p -> y_jobs y !! root p = None ->
  asks (y_tape y) c -> forbidden (y_tape y) who e -> run_media c who y = (Err e, y).
Proof.
  intros H1 H2 H3 H4 Ha Hf. apply forbidden_access in Hf.
  assert (guard ensure_loaded y = (Ok tt, y)) as G1 by (apply guard_run; unfold ensure_loaded; by rewrite H1).
  assert (guard ensure_recovery_complete y = (Ok tt, y)) as G2 by (apply guard_run; unfold ensure_recovery_complete; by rewrite H2).
  pose proof (invalidate_none y p H3 H4) as G3.
  assert (guard (fun s => enforce_protected_access s (initiator_or_default (Some who))) y = (Err e, y)) as G4 by (by apply guard_err).
  destruct c as [payload|payload size|count|m]; cbn [run_media asks] in *.
  - destruct Ha as [Hne Hl]. unfold write_data. rewrite (bindM_run _ _ _ _ _ G1), (bindM_run _ _ _ _ _ G2), (bindM_run _ _ _ _ _ G3).
    unfold validate_payload_len, u32_try_from. rewrite decide_True by done. erewrite bindM_run by reflexivity.
    erewrite bindM_run by reflexivity. rewrite decide_False by done. by rewrite (bindM_run_err _ _ _ _ _ G4).
  - destruct Ha as (Hne & Hs & Hm & Hmode & Hsize). unfold write_fixed_blocks.
    rewrite (bindM_run _ _ _ _ _ G1), (bindM_run _ _ _ _ _ G2), (bindM_run _ _ _ _ _ G3).
    rewrite decide_False by (intros [?|[?|?]]; [done|lia|done]).
    unfold validate_payload_len, u32_try_from. rewrite decide_True by lia. erewrite bindM_run by reflexivity.
    erewrite bindM_run by reflexivity. rewrite decide_False by (rewrite Hmode, Hsize; tauto).
    by rewrite (bindM_run_err _ _ _ _ _ G4).
  - unfold write_filemarks. rewrite (bindM_run _ _ _ _ _ G1), (bindM_run _ _ _ _ _ G2), (bindM_run _ _ _ _ _ G3).
    rewrite decide_False by lia. by rewrite (bindM_run_err _ _ _ _ _ G4).
  - unfold erase_media. rewrite (bindM_run _ _ _ _ _ G1), (bindM_run _ _ _ _ _ G3). by rewrite (bindM_run_err _ _ _ _ _ G4).
Qed.

(** FORMAT MEDIUM asks neither: on a locked cartridge reserved by another
    initiator it succeeds and empties the block index. *)
Theorem format_ignores_protection cdb p s s' :
  mount_state s = Loaded -> current_position s = 0 ->
  apply_format_medium_layout p (Z.land (cdb_byte cdb 2) 0x0F) s = (Ok tt, s') ->
  fst (format_medium_drive cdb p s) = good [] /\
  block_starts (snd (format_medium_drive cdb p s)) = [] /\ eod_position (snd (format_medium_drive cdb p s)) = 0.
Proof.
  intros H1 H2 H3. unfold format_medium_drive. rewrite decide_False by (by intros []). rewrite decide_False by lia.
  rewrite H3. done.
Qed.

(** A reservation conflict is not reported with its status. *)
Theorem conflict_reported_as_check_condition msg :
  status (tape_error_to_sense (ReservationConflict msg)) = 0x18 /\
  rs_status (frame_response (tape_error_to_sense (ReservationConflict msg))) = SCSI_STATUS_CHECK_CONDITION.
Proof. done. Qed.
End Protection.

(** ** Examples *)
Section Demo.
#[local] Existing Instances quiet_host no_env bitwise_crc32c tree_order identity_codecs demo_blake roomy_host zero_sha
  inline_threads.

(** The loaded drive, reserved by an initiator that is not the configured one. *)
Definition reserved_machine : Sys :=
  loaded_machine <| y_tape := (y_tape loaded_machine) <| reservation_state := reservation_state demo_reserved |> |>.

Lemma protected_unwritten_witness :
  run_media (McWrite [1; 2; 3; 4]) "iqn.host-b" reserved_machine =
  (Err (ReservationConflict "reservation owner is iqn.host-a"), reserved_machine).
Proof.
  assert (forbidden (y_tape reserved_machine) "iqn.host-b" (ReservationConflict "reservation owner is iqn.host-a")) as Hf.
  { apply (forbidden_reserved _ _ "iqn.host-a"); [by vm_compute|by vm_compute|discriminate]. }
  assert (asks (y_tape reserved_machine) (McWrite [1; 2; 3; 4])) as Ha by (split; [discriminate|by vm_compute]).
  exact (protected_unwritten reserved_machine demo_cartridge _ _ _ eq_refl eq_refl eq_refl eq_refl Ha Hf).
Defined.

(** The holder of the reservation writes one variable-length block, and is
    refused as if it were the configured initiator. *)
Theorem holder_locked_out :
  active_owner (reservation_state (y_tape reserved_machine)) = Some "iqn.host-a"%string /\
  fst (dispatch_raw_cdb_with_context [0x0A; 0; 0; 0; 4; 0] [1; 2; 3; 4] (mkContext (Some "iqn.host-a"%string)) reserved_machine) =
  Ok (frame_response (sense_for_context CxReservationConflict)).
Proof. split; by vm_compute. Qed.

(** Erasing a cartridge forgets the reservations of the drive. *)
Theorem erase_drops_reservations :
  let (r, y) := erase_media EraseShort (Some "iqn.host-a"%string) reserved_machine in
  r = Ok tt /\ active_owner (reservation_state (y_tape y)) = None /\ registrations (reservation_state (y_tape y)) = ∅.
Proof. by vm_compute. Qed.

(** The file the management side writes for a cartridge in a pool. *)
Definition pool_metadata : list Z :=
  bytes_of_string "cartridge_id=C1" ++ [10] ++ bytes_of_string "pool_id=p1" ++ [10] ++ bytes_of_string "capacity_bytes=9" ++ [10].
Definition pool_world : World :=
  fresh_process (snd (replace_text (shared_cartridge_metadata_path "C1") pool_metadata empty_fs)).
(** The usage a drive publishes drops the pool: the next mount looks for the
    cartridge in the fallback root. *)
Theorem usage_sync_forgets_pool :
  let resolve := resolve_cartridge_storage_root "C1" shared_media_state_dir "/fallback" (Some "/pools"%string) in
  fst (resolve pool_world) = Ok "/pools/p1"%string /\
  fst (resolve (pool_world <| w_fs := snd (write_shared_cartridge_metadata "C1" (Some 9) 3 (w_fs pool_world)) |>)) =
    Ok "/fallback"%string.
Proof. split; by vm_compute. Qed.
End Demo.
